(* ===== verification/_CoqProject ===== *)
-Q . S2P
Prelude.v
CString.v
IoPorts.v
ModLoader.v
VgaTerminal.v
Dll.v
Heap.v
Bitmap.v
Valloc.v
Ring.v
Pipe.v
Sched.v
Timer.v
Wait.v
UnixSocket.v
Input.v
Ps2.v
Tty.v
Signal.v
Fs.v
FsPath.v
RamfsTree.v
File.v
FileProofs.v
Socket.v
TransMap.v
PageTables.v
PageTree.v
PageMap.v
PmanIface.v
Pman.v
PmanInv.v
PmanOps.v
PmanWrite.v
PmanInst.v
PmanProps.v
ProcMem.v
Process.v
ProcessTable.v
Pkfs.v
PkfsProofs.v
Device.v
Devfs.v
Sysfs.v
DiscPio.v
PkfsVfs.v
Pci.v
ExecArgs.v
Registers.v
IntRegistry.v
Interrupts.v
SerialTty.v
KeyboardPio.v
InterruptInit.v
Exec.v
DiscDetect.v
SysCounters.v
