(* ===== verification/Prelude.v ===== *)
(** * A verification of the pkernel operating system kernel

    pkernel is an x86-64 kernel in C: it hands out memory, runs processes and
    threads, gives them files, sockets, signals, timers and terminals, and
    loads drivers and file systems as modules.  This library models its own
    logic and proves what makes it correct.  Paths below are relative to the
    directory [source] of the repository, and [src/x.c] means [source/src/x.c].

    ** How code becomes definitions

    A C function that reads and writes a state [S] and returns an [A] is a
    computation of the monad [M S A] of this file.  It is [Done] with a result
    and a state, or it is a [Stop] with the reason why it does not return:
    a step C gives no meaning to ([Undefined]: wild or freed pointer, shift out
    of range, access out of bounds), a panic, a [kernel_entry_error], a halt, or
    [NoFuel].  A state is a record of the static variables and the objects a
    file works on; objects live in finite maps and are named by an address or
    by an identity that is never reused, so a freed object is an absent key.
    Integers are [Z], wrapped by [u64], [u32], [u16], [u8] where the C type
    wraps.  Errno numbers come from a C library outside the repository, so a
    result [code] names them symbolically.

    Loops whose end is not visible from their shape take fuel.  The theorems
    never rest on the fuel running out: they state that the operation is
    [Done], with fuel that a measure of the state gives (the number of blocks,
    nodes, dependencies, pages or polls still to visit), or for any fuel above
    a stated bound.  Where the code does not return, that is a theorem for
    every fuel.

    Where one part only needs a promise of another, the promise is a class with
    its laws, the client is proved against the class, and an instance shows
    that the other part keeps it:

    - [Heap.KernelHeap]: an allocator of fresh blocks.  Instance: Heap.v.
    - [Wait.EventService]: waiting on an event.  Instance: Sched.v.
    - [PmanIface.PageMapper], [VirtualRanges], [FrameAllocator]: what the paging
      manager stands on.  Instances in PmanInst.v from PageTables.v and
      Valloc.v, and a reference allocator of frames.
    - [File.SocketIO]: reads and writes on a descriptor that is a socket.
      Socket.v has the dispatch.
    - [Pkfs.BlockDevice] and its laws: sectors.  DiscPio.v shows that the ATA
      driver implements them.
    - [DiscPio.PortIO], [DiscPio.AtaChannel]: port instructions, and a drive.
      What a drive does is documented hardware behaviour, not code; a concrete
      simulated drive is the instance.
    - [Pci.PortIO32], [Pci.ConfigMechanism]: wide port instructions, and the
      configuration space behind them; a concrete bus is the instance.
    - [InterruptInit.PicPair], [SerialTty.SerialPorts]: the interrupt
      controllers and the serial ports, with simulated ones as instances.

    ** The parts, their files and their sources

    Shared structures
    - Dll.v: the intrusive lists of every component, as pointer surgery on a
      store of links (src/timer/timer.c, src/scheduler/scheduler.c and others).
    - Ring.v: circular buffers.  CString.v: src/util/string.

    Memory
    - Heap.v: boundary-tag heap (src/util/heap).  State: tags by address and
      known data bytes.
    - Bitmap.v: page frames (system/x86_64/src/paging/bitmap.c) and [palloc]
      (src/paging/physical_allocator.c).  State: the words of the bitmap.
    - Valloc.v: address ranges (src/paging/virtual_allocator.c).
    - TransMap.v: from the frame of a page table to its address
      (src/paging/translation_map.c).
    - PageTables.v, PageTree.v, PageMap.v: table allocation and the four-level
      mapping (src/paging/table_allocator.c, mapper.c), against the walk of the
      processor.
    - PmanIface.v, Pman.v, PmanInv.v, PmanOps.v, PmanWrite.v, PmanInst.v,
      PmanProps.v: mapping objects, contexts and sharing
      (src/paging/manager.c).
    - ProcMem.v: the memory of a process (parts of src/process and
      src/prog_loader).

    Execution
    - Sched.v: threads, events, run queues (src/process/thread.c,
      src/scheduler).  Wait.v: calls that block.
    - Timer.v: src/timer/timer.c.  Signal.v: src/signal.
    - Process.v, ProcessTable.v: creation, fork, exit, and the system calls
      that act on whole processes (src/process, src/syscall/handlers).  The
      state [kernel] joins the states of the components a process touches.
    - ExecArgs.v: the arguments of a program (src/process/process.c,
      src/syscall/handlers/exec.c, system/x86_64/include/sys/function).
    - Registers.v: saved registers and the frames of signals
      (system/x86_64/include/sys/tsr, .../sys/function).
    - IntRegistry.v: the registry of handlers (src/interrupt).
      InterruptInit.v: the interrupt table and the controllers
      (system/x86_64/src/interrupt/interrupt.c, system/x86_64/src/pic).
      Interrupts.v: the C side of every interrupt, exception and system call,
      and the way back to a thread (system/x86_64/src/interrupt,
      system/x86_64/src/syscall).  The state [machine] is [kernel] with the
      processor and the saved registers.
    - Exec.v: loading a program and entering it (src/prog_loader,
      src/syscall/handlers/exec.c), on [machine].

    Files and communication
    - Fs.v, FsPath.v: the virtual file system (src/filesystem).  RamfsTree.v:
      trees in a ramfs (src/filesystem/ramfs; its operations are in Fs.v).
    - File.v, FileProofs.v: open files, descriptors, file system calls
      (src/filesystem/file.c, src/process/file_table.c, src/syscall/handlers).
    - Pipe.v: src/filesystem/pipe.c.  UnixSocket.v, Socket.v: src/socket,
      src/filesystem/socket.c and the socket calls.
    - Pkfs.v, PkfsProofs.v: the file system on disc (modules/pkfs/src/
      disc_operations.c), on pages of bytes.  PkfsVfs.v: pkfs behind the
      virtual file system (superblock_ops.c, mount.c, pkfs.c).

    Devices
    - IoPorts.v: src/io/arbitrator.c.  ModLoader.v: src/module/module.c.
    - Device.v: src/device/device.c.  Devfs.v: modules/devfs.  Sysfs.v:
      modules/sysfs.  SysCounters.v: the numbers the scheduler and the heap show
      there.
    - DiscPio.v, DiscDetect.v: modules/disc_pio, and the drives it finds on the
      bus.  Ps2.v: modules/x86_ps2.  Pci.v: the scan of the bus and the drivers
      of its functions (modules/x86_pci).
    - VgaTerminal.v: modules/vga_terminal.
    - Input.v: src/input/input.c.  Tty.v: src/tty/tty.c.
    - SerialTty.v: modules/x86_serial_tty.  KeyboardPio.v:
      modules/keyboard_pio.

    ** What the theorems show

    - Refinements: an abstract object gives the same answers under every
      sequence of operations. The heap is a first-fit search over blocks; the
      intrusive lists are lists; the translation map is a finite map; reserved
      ports are a set; an open ramfs file is a byte array with a cursor; pipes
      (for their first 1024 bytes), input devices, pending signals and pairs
      of sockets are queues; a terminal is a line editor; a one-page pkfs file
      is an append-only string; the ATA driver is an array of sectors; the VGA
      console shows the last lines of the text written; the drivers that watch
      the PCI bus share its functions; a probe of the disc driver claims ports
      and names drives as a set and a list would; the serial ports are two
      line editors that do not see each other; a keyboard is a cell; through
      interrupts, calls and waits every thread has registers of its own.
    - Equivalences: timer interrupts follow a closed-form schedule; the PS/2
      handlers agree with decoders of the whole byte stream; the PCI scan finds
      the functions an enumeration of the configuration space lists.
    - Invariants over sessions: reference counts, ranges and page tables of the
      paging manager; tiling of address spaces; reference counts of directory
      entries under open, close, dup, fork and exit; devfs and the directories
      it is mounted on.
    - Functional behaviour and round trips of single operations: scheduling,
      events, mapping a range and unmapping it, copying on write, sharing at a
      fork, entering a program, files that are functions of the kernel (sysfs),
      growing a heap block, making and opening a file, a file on disc
      that is there after the disc is mounted again, the arguments main finds
      on its stack, the registers a signal handler gives back; the set-up of
      interrupts, from the line of a device to its handler.
    - Termination: unmapping, loading modules, reading chains of pages; and,
      for the code that does not return, theorems that say so.
    - Liveness: a process that exits wakes the parent that waits for it.
    - Lemmas named for a defect (for example [bitmap_free_wrong_page],
      [device_remove_loops], [read_nothing_starts_transfer]) exhibit code that
      does not do what it means to.  The refinements above are stated for the
      uses that stay clear of them, and each says which.

    ** Not modelled

    - Assembly, boot, the table of segments, the APIC, panic screens and debug
      output: register and port writes whose meaning is the hardware's.  A path
      that ends in one of them is a [Stop].
    - The order of initialisation in src/main.c and the switch to the kernel's
      page tables.
    - ELF parsing, which is a library outside the repository: its two functions
      are arguments of Exec.v.
    - Dispatch of system calls by number, debug traces and the
      registration of drivers with devfs beyond Devfs.v.
    - The frame buffer device, the set-up of the PS/2 controller, and the
      unloading of most drivers.
    - modules/pkfs/src/_disc_operations.c, which the build leaves out.
    - Interrupts in the middle of a kernel function: the kernel runs with
      interrupts disabled except where it waits, and interleaving happens at
      the waits.

    ** This file

    - the monad, the machine integers, the result codes;
    - generic lemmas on [Z], lists and the monad, simulation of sessions, the
      tactics and the hint database [kernel]. *)
From Stdlib Require Export ZArith Lia String.
From stdpp Require Export base numbers gmap option list list_numbers prelude.
Export String.StringSyntax.
#[global] Open Scope Z_scope.

Create HintDb kernel.
Create Rewrite HintDb kernel.
Declare Scope kernel_scope.
Delimit Scope kernel_scope with kernel.

(** ** Ways of not returning *)

Inductive stop : Type :=
  | Undefined               (* no meaning in the C abstract machine *)
  | Panic (msg : string)    (* panic0 .. panic3 *)
  | EntryError (n : Z)      (* kernel_entry_error(n) *)
  | Halted                  (* halt(), hlt() *)
  | NoFuel.                 (* the fuel of the model ran out *)

#[export] Instance stop_eq_dec : EqDecision stop.
Proof. solve_decision. Defined.

Inductive outcome (A : Type) : Type :=
  | Done (a : A)
  | Stop (w : stop).
Arguments Done {A} a.
Arguments Stop {A} w.

(** ** The monad *)

Definition M (S A : Type) : Type := S -> outcome (A * S).

Definition ret {S A} (a : A) : M S A := fun s => Done (a, s).
Definition bind {S A B} (m : M S A) (k : A -> M S B) : M S B :=
  fun s => match m s with
           | Done (a, s') => k a s'
           | Stop w => Stop w
           end.
Definition get {S} : M S S := fun s => Done (s, s).
Definition put {S} (s : S) : M S unit := fun _ => Done (tt, s).
Definition gets {S A} (f : S -> A) : M S A := fun s => Done (f s, s).
Definition modify {S} (f : S -> S) : M S unit := fun s => Done (tt, f s).
Definition stop_with {S A} (w : stop) : M S A := fun _ => Stop w.
Definition of_option {S A} (w : stop) (o : option A) : M S A :=
  fun s => match o with Some a => Done (a, s) | None => Stop w end.
Definition guard_or {S} (w : stop) (b : bool) : M S unit :=
  if b then ret tt else stop_with w.

Notation "'let!' x := m 'in' k" := (bind m (fun x => k))
  (at level 10, x pattern, m at level 100, k at level 200) : kernel_scope.
Notation "'do!' m ; k" := (bind m (fun _ => k))
  (at level 10, m at level 100, k at level 200) : kernel_scope.
#[global] Open Scope kernel_scope.

(** Run a computation that works on a part of the state. *)
Definition zoom {S T A} (view : S -> T) (upd : T -> S -> S) (m : M T A) : M S A :=
  fun s => match m (view s) with
           | Done (a, t) => Done (a, upd t s)
           | Stop w => Stop w
           end.

(** [for (i = 0; i < n; i++) body(i)] as a left-to-right sequence. *)
Fixpoint for_each {S X} (xs : list X) (body : X -> M S unit) : M S unit :=
  match xs with
  | [] => ret tt
  | x :: xs' => do! body x; for_each xs' body
  end.
Definition for_range {S} (n : nat) (body : nat -> M S unit) : M S unit :=
  for_each (seq 0 n) body.

Section monad_laws.
Context {S : Type}.

Lemma bind_done {A B} (m : M S A) (k : A -> M S B) s a s' :
  m s = Done (a, s') -> bind m k s = k a s'.
Proof. unfold bind. by intros ->. Qed.

Lemma bind_stop {A B} (m : M S A) (k : A -> M S B) s w :
  m s = Stop w -> bind m k s = Stop w.
Proof. unfold bind. by intros ->. Qed.

Lemma bind_done_inv {A B} (m : M S A) (k : A -> M S B) s b s2 :
  bind m k s = Done (b, s2) ->
  exists a s1, m s = Done (a, s1) /\ k a s1 = Done (b, s2).
Proof. unfold bind. destruct (m s) as [[a s1]|w]; [eauto|done]. Qed.

Lemma bind_assoc {A B C} (m : M S A) (f : A -> M S B) (g : B -> M S C) s :
  bind (bind m f) g s = bind m (fun a => bind (f a) g) s.
Proof. unfold bind. by destruct (m s) as [[? ?]|]. Qed.

Lemma bind_ret_l {A B} (a : A) (k : A -> M S B) s : bind (ret a) k s = k a s.
Proof. done. Qed.

Lemma bind_get {B} (k : S -> M S B) s : bind get k s = k s s.
Proof. done. Qed.

Lemma bind_modify {B} (f : S -> S) (k : unit -> M S B) s : bind (modify f) k s = k tt (f s).
Proof. done. Qed.

Lemma bind_ret_r {A} (m : M S A) s : bind m ret s = m s.
Proof. unfold bind. by destruct (m s) as [[? ?]|]. Qed.

Lemma for_each_app {X} (xs ys : list X) (body : X -> M S unit) s :
  for_each (xs ++ ys) body s = (do! for_each xs body; for_each ys body) s.
Proof.
  revert s. induction xs as [|x xs IH]; intros s; [done|]. simpl.
  unfold bind in *. destruct (body x s) as [[[] s1]|]; [|done]. by rewrite IH.
Qed.

(** An invariant kept by every iteration is kept by the loop. *)
Lemma for_each_inv {X} (I : S -> Prop) (xs : list X) (body : X -> M S unit) s s' :
  (forall x s1 s2, x ∈ xs -> I s1 -> body x s1 = Done (tt, s2) -> I s2) ->
  I s -> for_each xs body s = Done (tt, s') -> I s'.
Proof.
  revert s. induction xs as [|x xs IH]; simpl; intros s Hb Hi.
  - unfold ret. intros [= <-]. done.
  - intros (u & s1 & H1 & H2)%bind_done_inv. destruct u.
    eapply IH; [|eapply (Hb x s s1); [set_solver|done|done]|done].
    intros y s3 s4 Hy. apply Hb. set_solver.
Qed.
End monad_laws.

(** The state a [for_each] over total steps ends in. *)
Lemma for_each_total {S X} (f : X -> S -> S) (body : X -> M S unit) xs s :
  (forall x s, body x s = Done (tt, f x s)) ->
  for_each xs body s = Done (tt, foldl (fun s x => f x s) s xs).
Proof.
  intros Hb. revert s. induction xs as [|x xs IH]; intros s; [done|].
  simpl. unfold bind. rewrite Hb. apply IH.
Qed.

Ltac mstep :=
  match goal with
  | |- context [bind ?m ?k ?s] =>
      first [ erewrite (bind_done m k s) by (first [eassumption | reflexivity | eauto with kernel])
            | erewrite (bind_stop m k s) by (first [eassumption | reflexivity]) ]
  end.
Ltac msimpl := repeat mstep; simpl.
Ltac minv H :=
  let a := fresh "a" in let s := fresh "s" in let H1 := fresh "H" in
  apply bind_done_inv in H as (a & s & H1 & H).

(** ** Machine integers *)

Definition u64 (z : Z) : Z := z mod 2 ^ 64.
Definition u32 (z : Z) : Z := z mod 2 ^ 32.
Definition u16 (z : Z) : Z := z mod 2 ^ 16.
Definition u8 (z : Z) : Z := z mod 2 ^ 8.
(** Conversion to a signed type, implementation-defined in C and modular with
    the compilers the build uses. *)
Definition s64 (z : Z) : Z := (z + 2 ^ 63) mod 2 ^ 64 - 2 ^ 63.
Definition s32 (z : Z) : Z := (z + 2 ^ 31) mod 2 ^ 32 - 2 ^ 31.
Definition s8 (z : Z) : Z := (z + 2 ^ 7) mod 2 ^ 8 - 2 ^ 7.

Definition in_u64 (z : Z) : Prop := 0 <= z < 2 ^ 64.

Lemma u64_small z : 0 <= z < 2 ^ 64 -> u64 z = z.
Proof. apply Z.mod_small. Qed.
Lemma u64_range z : 0 <= u64 z < 2 ^ 64.
Proof. by apply Z.mod_pos_bound. Qed.
Lemma u64_idemp z : u64 (u64 z) = u64 z.
Proof. apply Z.mod_mod. done. Qed.
Lemma u64_add_l a b : u64 (u64 a + b) = u64 (a + b).
Proof. unfold u64. rewrite Zplus_mod_idemp_l. done. Qed.
Lemma u64_add_r a b : u64 (a + u64 b) = u64 (a + b).
Proof. unfold u64. rewrite Zplus_mod_idemp_r. done. Qed.
Lemma u64_sub_l a b : u64 (u64 a - b) = u64 (a - b).
Proof. unfold u64. rewrite Zminus_mod_idemp_l. done. Qed.
Lemma s64_small z : - 2 ^ 63 <= z < 2 ^ 63 -> s64 z = z.
Proof. intros H. unfold s64. rewrite Z.mod_small; lia. Qed.
Lemma s8_small z : - 2 ^ 7 <= z < 2 ^ 7 -> s8 z = z.
Proof. intros H. unfold s8. rewrite Z.mod_small; lia. Qed.
#[export] Hint Rewrite u64_idemp u64_add_l u64_add_r u64_sub_l : kernel.
#[export] Hint Resolve u64_range : kernel.

(** include/util/math: the macros [DIV_UP], [MIN], [MAX] on [uint64_t]. *)
Definition DIV_UP (a b : Z) : Z := u64 (u64 (a + b) - 1) / b.
Definition MIN (a b : Z) : Z := if a <=? b then a else b.
Definition MAX (a b : Z) : Z := if a >? b then a else b.

Lemma DIV_UP_exact a b : 0 < b -> 0 <= a -> a + b <= 2 ^ 64 - 1 ->
  DIV_UP a b = (a + b - 1) / b.
Proof. intros. unfold DIV_UP. rewrite (u64_small (a + b)) by lia. by rewrite u64_small by lia. Qed.

Lemma DIV_UP_bounds a b : 0 < b -> 0 <= a -> a + b <= 2 ^ 64 - 1 ->
  a <= b * DIV_UP a b < a + b.
Proof.
  intros. rewrite DIV_UP_exact by lia.
  pose proof (Z.div_mod (a + b - 1) b ltac:(lia)).
  pose proof (Z.mod_pos_bound (a + b - 1) b ltac:(lia)). lia.
Qed.

(** ** Result codes *)

(** The errno names the sources use.  Their numbers come from the user-space
    library's headers, which are not part of the repository. *)
Inductive errname : Type :=
  | EINVAL | EISDIR | ENOTDIR | ENOTSUP | ERANGE | EBADF | EBADFD | EFAULT
  | ENOENT | EEXIST | ENOTSOCK | ECONNREFUSED | EACCES | ENODEV | ESRCH
  | ENOEXEC | ENOMEM | ENOSYS
  | ERROR_IS_DIR | ERROR_UNIMPLEMENTED | ERROR_NO_ADDR | ERROR_DIR_NOT_EMPTY
  | ERROR_FILESYSTEM_EXISTS | ERROR_FILESYSTEM_NOT_FOUND
  | ERROR_FILESYSTEM_HAS_MOUNT | ERROR_FILESYSTEM_NOT_MOUNTED
  | ERROR_BITMAP_NOT_ALLOCATED | ERROR_UNINTERRUPTABLE | ERROR_INTERRUPTED
  | ERROR_NO_SIG | ERROR_SIG_FULL | ERROR_SIG_EMPTY | ERROR_MOD_LOADED
  | ERROR_MOD_NONE | ERROR_BAD_ARG | ERROR_BAD_SYSCALL | ERROR_UNKNOWN
  | ERROR_EXISTS | ERROR_FS_NO_ENT | ERROR_INT_UNAVAIL.

#[export] Instance errname_eq_dec : EqDecision errname.
Proof. solve_decision. Defined.

(** A C [int] result: a plain number (a count, a descriptor, 0 for success),
    or an error constant, returned as written or negated. *)
Inductive code : Type :=
  | Num (n : Z)
  | Err (e : errname)       (* return E;  *)
  | NegErr (e : errname).   (* return -E; *)

#[export] Instance code_eq_dec : EqDecision code.
Proof. solve_decision. Defined.

(** ** Lists *)

Lemma take_S_snoc {A} (l : list A) n x : l !! n = Some x -> take (S n) l = take n l ++ [x].
Proof. apply take_S_r. Qed.

Lemma Forall_insert_2 {A} (P : A -> Prop) (l : list A) i x :
  Forall P l -> P x -> Forall P (<[i:=x]> l).
Proof. intros Hl Hx. by apply Forall_insert. Qed.

(** The position of the first element that satisfies a test. *)
Fixpoint find_index {A} (p : A -> bool) (l : list A) : option nat :=
  match l with
  | [] => None
  | x :: l' => if p x then Some 0%nat else S <$> find_index p l'
  end.

Lemma find_index_Some {A} (p : A -> bool) (l : list A) i :
  find_index p l = Some i ->
  exists x, l !! i = Some x /\ p x = true /\
    forall j y, (j < i)%nat -> l !! j = Some y -> p y = false.
Proof.
  revert i. induction l as [|x l IH]; intros i; simpl; [done|].
  destruct (p x) eqn:E.
  - intros [= <-]. exists x. split_and!; [done|done|lia].
  - destruct (find_index p l) as [k|] eqn:Ek; [|done]. intros [= <-].
    destruct (IH k eq_refl) as (y & ? & ? & Hlt). exists y. split_and!; [done|done|].
    intros [|j] z Hj; simpl; [congruence|]. apply Hlt. lia.
Qed.

Lemma find_index_Some_lt {A} (p : A -> bool) (l : list A) i : find_index p l = Some i -> (i < length l)%nat.
Proof. intros (x & Hx & _)%find_index_Some. by eapply lookup_lt_Some. Qed.

Lemma find_index_None {A} (p : A -> bool) (l : list A) :
  find_index p l = None <-> Forall (fun x => p x = false) l.
Proof.
  induction l as [|x l IH]; simpl; [done|].
  rewrite Forall_cons. destruct (p x) eqn:E.
  - split; [done|intros [? _]; congruence].
  - destruct (find_index p l); naive_solver.
Qed.

(** Remove the first element that satisfies a test. *)
Fixpoint remove_first {A} (p : A -> bool) (l : list A) : list A :=
  match l with
  | [] => []
  | x :: l' => if p x then l' else x :: remove_first p l'
  end.

Lemma elem_of_remove_first {A} (p : A -> bool) (l : list A) x :
  x ∈ remove_first p l -> x ∈ l.
Proof.
  induction l as [|y l IH]; simpl; [done|].
  destruct (p y); set_solver.
Qed.

Lemma NoDup_remove_first {A} (p : A -> bool) (l : list A) :
  NoDup l -> NoDup (remove_first p l).
Proof.
  induction l as [|y l IH]; simpl; [done|]. intros [Hn Hd]%NoDup_cons.
  destruct (p y); [done|]. apply NoDup_cons. split; [|auto].
  intros Hin%elem_of_remove_first. done.
Qed.

Ltac case_bool :=
  match goal with
  | |- context [if ?b then _ else _] =>
      lazymatch b with context [if _ then _ else _] => fail | _ => destruct b eqn:? end
  end.
Ltac bool_lia :=
  repeat match goal with
  | H : (_ && _) = true |- _ => apply andb_prop in H as [? ?]
  | H : (_ || _) = false |- _ => apply orb_false_iff in H as [? ?]
  | H : negb _ = true |- _ => apply negb_true_iff in H
  | H : negb _ = false |- _ => apply negb_false_iff in H
  end; lia.

(** Taking apart and proving non-membership in explicit lists. *)
Ltac destruct_notin :=
  repeat match goal with
  | H : _ ∉ _ :: _ |- _ => apply not_elem_of_cons in H as [? H]
  | H : _ ∉ _ ++ _ |- _ => apply not_elem_of_app in H as [? H]
  | H : _ ∉ [] |- _ => clear H
  | H : NoDup (_ :: _) |- _ => apply NoDup_cons in H as [? H]
  | H : NoDup [] |- _ => clear H
  end.
Ltac solve_notin :=
  repeat first [ apply not_elem_of_nil | apply not_elem_of_cons; split
               | apply not_elem_of_app; split ]; try done; try congruence.

(** Split a list at the first element that satisfies a test. *)
Fixpoint split_first {A} (p : A -> bool) (l : list A) : option (list A * A * list A) :=
  match l with
  | [] => None
  | x :: l' =>
      if p x then Some ([], x, l')
      else match split_first p l' with
           | Some (a, y, b) => Some (x :: a, y, b)
           | None => None
           end
  end.

Lemma split_first_Some {A} (p : A -> bool) (l a b : list A) x :
  split_first p l = Some (a, x, b) ->
  l = a ++ x :: b /\ p x = true /\ Forall (fun y => p y = false) a.
Proof.
  revert a. induction l as [|y l IH]; intros a; simpl; [done|].
  destruct (p y) eqn:E.
  - intros [= <- <- <-]. done.
  - destruct (split_first p l) as [[[a' y'] b']|]; [|done]. intros [= <- <- <-].
    destruct (IH a' eq_refl) as (-> & ? & ?). split_and!; [done|done|by constructor].
Qed.

Lemma split_first_None {A} (p : A -> bool) (l : list A) :
  split_first p l = None <-> Forall (fun x => p x = false) l.
Proof.
  induction l as [|y l IH]; simpl; [done|]. rewrite Forall_cons.
  destruct (p y) eqn:E; [split; [done|intros [? _]; congruence]|].
  rewrite <- IH. destruct (split_first p l) as [[[? ?] ?]|]; naive_solver.
Qed.

Lemma split_first_intro {A} (p : A -> bool) (a b : list A) x :
  Forall (fun y => p y = false) a -> p x = true -> split_first p (a ++ x :: b) = Some (a, x, b).
Proof. induction 1 as [|y a Hy Ha IH]; intros Hx; simpl; [by rewrite Hx|]. by rewrite Hy, IH. Qed.

Lemma split_first_ext {A} (p q : A -> bool) l : Forall (fun x => p x = q x) l ->
  split_first p l = split_first q l.
Proof. induction 1 as [|x l Hx Hl IH]; simpl; [done|]. by rewrite Hx, IH. Qed.

(** ** Simulation of one stateful program by another *)

(** ** Little-endian numbers *)

Fixpoint le_value (l : list Z) : Z := match l with [] => 0 | b :: l' => b + 256 * le_value l' end.
Fixpoint le_bytes (n : nat) (v : Z) : list Z :=
  match n with O => [] | S n' => v mod 256 :: le_bytes n' (v / 256) end.

Lemma length_le_bytes n v : length (le_bytes n v) = n.
Proof. revert v. induction n as [|n IH]; intros v; cbn; by rewrite ?IH. Qed.

Lemma le_value_bytes n v : le_value (le_bytes n v) = v mod 256 ^ Z.of_nat n.
Proof.
  revert v. induction n as [|n IH]; intros v; cbn [le_bytes le_value]; [by rewrite Z.mod_1_r|].
  rewrite IH, Nat2Z.inj_succ, Z.pow_succ_r by lia. rewrite Z.rem_mul_r by lia. done.
Qed.

(** From related states the two programs both return, with the same result
    and in related states, or both stop for the same reason. *)
Definition outcomes_agree {S T A} (R : S -> T -> Prop) (x : outcome (A * S)) (y : outcome (A * T)) : Prop :=
  match x, y with
  | Done (a, s), Done (b, t) => a = b /\ R s t
  | Stop v, Stop w => v = w
  | _, _ => False
  end.
Definition simulates {S T A} (R : S -> T -> Prop) (m : M S A) (n : M T A) : Prop :=
  forall s t, R s t -> outcomes_agree R (m s) (n t).

Section simulation.
Context {S T : Type} (R : S -> T -> Prop).

Lemma simulates_ret {A} (a : A) : simulates R (ret a) (ret a).
Proof. by intros s t Hr. Qed.

Lemma outcomes_bind {A B} (m : M S A) (n : M T A) (k : A -> M S B) (l : A -> M T B) s t :
  outcomes_agree R (m s) (n t) -> (forall a, simulates R (k a) (l a)) -> outcomes_agree R (bind m k s) (bind n l t).
Proof.
  intros Hm Hk. unfold bind. destruct (m s) as [[a s1]|v], (n t) as [[b t1]|w]; try done.
  destruct Hm as [-> Hr]. by apply Hk.
Qed.

Lemma simulates_bind {A B} (m : M S A) (n : M T A) (k : A -> M S B) (l : A -> M T B) :
  simulates R m n -> (forall a, simulates R (k a) (l a)) -> simulates R (bind m k) (bind n l).
Proof. intros Hm Hk s t Hr. apply outcomes_bind; [by apply Hm|done]. Qed.

End simulation.

(** The results of a sequence of operations. *)
Fixpoint run_all {S O A} (step : O -> M S A) (os : list O) : M S (list A) :=
  match os with
  | [] => ret []
  | o :: os' => let! r := step o in let! rs := run_all step os' in ret (r :: rs)
  end.
Lemma run_all_simulates {S T O A} (R : S -> T -> Prop) (f : O -> M S A) (g : O -> M T A) os :
  (forall o, o ∈ os -> simulates R (f o) (g o)) -> simulates R (run_all f os) (run_all g os).
Proof.
  induction os as [|o os IH]; intros Hf; cbn [run_all]; [apply simulates_ret|].
  apply simulates_bind; [apply Hf; by left|intros r]. apply simulates_bind; [|intros rs; apply simulates_ret].
  apply IH. intros o' Ho. apply Hf. by right.
Qed.

(** A conjunction of comparisons is true. *)
Ltac andb_lia := try (symmetry; match goal with |- _ = true => idtac end); repeat (apply andb_true_intro; split); lia.
