(* ===== verification/CString.v ===== *)
(** * CString: C strings and decimal text (src/util/string/)

    [strcmp] and [strcpy] on byte arrays, and [writestr], the decimal text of
    a number, a piece at a time, that the counters of sysfs and the names of
    devices are made of. *)
From S2P Require Import Prelude.

(** [None]: a read past one of the arrays. *)
Fixpoint strcmp (a b : list Z) : option Z :=
  match a, b with
  | x :: a', y :: b' => if negb (x =? y) then Some (x - y) else if x =? 0 then Some 0 else strcmp a' b'
  | _, _ => None
  end.

(** The difference of the two positions, not of the characters; [addr] are the
    addresses of the arrays. *)
Fixpoint strcmpn (addr_a addr_b : Z) (a b : list Z) (n : nat) {struct n} : option Z :=
  match n with
  | O => Some 0
  | S n' =>
      match a, b with
      | x :: a', y :: b' =>
          if negb (x =? y) then Some (addr_a - addr_b)
          else if (x =? 0) || (y =? 0) then Some 0
          else strcmpn (addr_a + 1) (addr_b + 1) a' b' n'
      | _, _ => None
      end
  end.

(** [strcpy] into [dst], up to and including the terminator of [src]. *)
Fixpoint strcpy (dst src : list Z) : option (list Z) :=
  match dst, src with
  | _ :: dst', c :: src' => if c =? 0 then Some (0 :: dst') else cons c <$> strcpy dst' src'
  | _, _ => None
  end.

Lemma strcmp_string a b ra rb : 0 ∉ a -> 0 ∉ b ->
  exists r, strcmp (a ++ 0 :: ra) (b ++ 0 :: rb) = Some r /\ (r = 0 <-> a = b).
Proof.
  revert b. induction a as [|x a IH]; intros [|y b] Ha Hb; cbn [app strcmp].
  - by exists 0.
  - apply not_elem_of_cons in Hb as [Hy _]. rewrite (proj2 (Z.eqb_neq 0 y)) by congruence. eexists. split; [reflexivity|]. split; [lia|done].
  - apply not_elem_of_cons in Ha as [Hx _]. rewrite (proj2 (Z.eqb_neq x 0)) by congruence. eexists. split; [reflexivity|]. split; [lia|done].
  - apply not_elem_of_cons in Ha as [Hx Ha], Hb as [Hy Hb]. destruct (Z.eqb_spec x y) as [->|Hne]; cbn [negb].
    + rewrite (proj2 (Z.eqb_neq y 0)) by congruence. destruct (IH b Ha Hb) as (r & -> & Hr). exists r. split; [done|]. rewrite Hr. split; congruence.
    + eexists. split; [reflexivity|]. split; [lia|congruence].
Qed.

(** The names match as far as they are compared exactly when the result is
    zero, whatever the arrays' addresses. *)
Lemma strcmpn_same pa pb a b n : pa <> pb -> (n <= length a)%nat -> (n <= length b)%nat -> 0 ∉ take n a ->
  exists r, strcmpn pa pb a b n = Some r /\ (r = 0 <-> take n a = take n b).
Proof.
  revert pa pb a b. induction n as [|n IH]; intros pa pb a b Hp Ha Hb Hz; cbn [strcmpn]; [exists 0; split; [done|by split]|].
  destruct a as [|x a], b as [|y b]; cbn [length] in *; try lia. cbn [take] in *. apply not_elem_of_cons in Hz as [Hx Hz].
  destruct (Z.eqb_spec x y) as [->|Hne]; cbn [negb].
  - rewrite (proj2 (Z.eqb_neq y 0)) by congruence. cbn [orb]. destruct (IH (pa + 1) (pb + 1) a b ltac:(lia) ltac:(lia) ltac:(lia) Hz) as (r & E & Hr).
    exists r. split; [done|]. rewrite Hr. split; congruence.
  - eexists. split; [reflexivity|]. split; [lia|congruence].
Qed.

Lemma strcpy_string dst s rest : 0 ∉ s -> (length s < length dst)%nat ->
  strcpy dst (s ++ 0 :: rest) = Some (s ++ 0 :: drop (S (length s)) dst).
Proof.
  revert dst. induction s as [|c s IH]; intros [|d dst] Hs Hl; cbn [length] in *; try lia; cbn [app strcpy]; [by destruct dst|].
  apply not_elem_of_cons in Hs as [Hc Hs]. rewrite (proj2 (Z.eqb_neq c 0)) by congruence. rewrite (IH dst Hs ltac:(lia)). done.
Qed.

(** ** Decimal text *)

(** [buffer[19 - i] = '0' + num % 10; num /= 10]. *)
Fixpoint digits_loop (n : nat) (num : Z) (buffer : list Z) : list Z :=
  match n with O => buffer | S n' => digits_loop n' (num / 10) (48 + num mod 10 :: buffer) end.
(** How many of the first [n] characters are zeros. *)
Fixpoint leading_zeros (n : nat) (buffer : list Z) {struct n} : nat :=
  match n, buffer with
  | S n', c :: buffer' => if negb (c =? 48) then O else S (leading_zeros n' buffer')
  | _, _ => O
  end.
(** The characters written; the function returns their number. *)
Definition writestr (size offset value : Z) : list Z :=
  let buffer := digits_loop 20 value [] in
  let base := leading_zeros 19 buffer in
  let real_size := 20 - Z.of_nat base in
  if offset >=? real_size then []
  else
    let size := if u64 (size + offset) >=? real_size then real_size - offset else size in
    take (Z.to_nat size) (drop (base + Z.to_nat offset) buffer).

(** The number a text stands for. *)
Definition parse (l : list Z) : Z := foldl (fun n c => 10 * n + (c - 48)) 0 l.

Lemma parse_app l c : parse (l ++ [c]) = 10 * parse l + (c - 48).
Proof. unfold parse. by rewrite foldl_app. Qed.

Lemma digits_loop_spec n : forall num buffer, 0 <= num -> exists l, digits_loop n num buffer = l ++ buffer /\ length l = n /\
  parse l = num mod 10 ^ Z.of_nat n /\ Forall (fun c => 48 <= c <= 57) l.
Proof.
  induction n as [|n IH]; intros num buffer Hn; cbn [digits_loop].
  - exists []. split_and!; [done..| |done]. by rewrite Z.mod_1_r.
  - destruct (IH (num / 10) (48 + num mod 10 :: buffer)) as (l & -> & Hl & Hp & Hd); [apply Z.div_pos; lia|].
    exists (l ++ [48 + num mod 10]). split_and!.
    + by rewrite <- app_assoc.
    + rewrite length_app, Hl. cbn. lia.
    + rewrite parse_app, Hp, Nat2Z.inj_succ, Z.pow_succ_r by lia. rewrite (Z.rem_mul_r num 10) by lia. lia.
    + apply Forall_app. split; [done|]. constructor; [|done]. pose proof (Z.mod_pos_bound num 10). lia.
Qed.

Lemma leading_zeros_spec n : forall l, let k := leading_zeros n l in
  (k <= n)%nat /\ (k <= length l)%nat /\ parse (drop k l) = parse l /\ ((k < n)%nat -> forall c r, drop k l = c :: r -> c <> 48).
Proof.
  induction n as [|n IH]; intros [|c l]; cbn [leading_zeros].
  1-3: split_and!; [lia|cbn; lia|done|intros; cbn in *; done || lia].
  destruct (Z.eqb_spec c 48) as [->|Hne]; cbn [negb].
  - destruct (IH l) as (H1 & H2 & H3 & H4). cbn [drop length]. split_and!; [lia|lia|by rewrite H3|]. intros Hk. apply H4. lia.
  - split_and!; [lia|lia|done|]. intros _ c' r [= <- _]. done.
Qed.

(** [writestr] writes the decimal digits of any 64-bit number: reading the
    text back gives the number, there is no leading zero but that of zero
    itself, and reading it a piece at a time, at any offset and size, gives
    exactly that piece of the text. *)
Theorem writestr_decimal value : 0 <= value < 2 ^ 64 -> exists text,
  parse text = value /\ (1 <= length text <= 20)%nat /\ Forall (fun c => 48 <= c <= 57) text /\
  (forall c r, text = c :: r -> r <> [] -> c <> 48) /\
  forall size offset, 0 <= size -> 0 <= offset -> size + offset < 2 ^ 64 ->
    writestr size offset value = take (Z.to_nat size) (drop (Z.to_nat offset) text).
Proof.
  intros Hv. destruct (digits_loop_spec 20 value [] ltac:(lia)) as (l & El & Hl & Hp & Hd). rewrite app_nil_r in El.
  rewrite Z.mod_small in Hp by (split; [lia|]; etrans; [apply Hv|vm_compute; reflexivity]).
  destruct (leading_zeros_spec 19 l) as (K1 & K2 & K3 & K4). set (k := leading_zeros 19 l) in *. exists (drop k l).
  split_and!; [by rewrite K3|rewrite length_drop; lia..|by apply Forall_drop| |].
  - intros c r Ec Hr. refine (K4 _ c r Ec). apply (f_equal length) in Ec. rewrite length_drop, Hl in Ec.
    destruct r as [|c' r]; [done|]. change (length (c :: c' :: r)) with (S (S (length r))) in Ec. lia.
  - intros size offset Hs Ho Hb. unfold writestr. rewrite El. fold k. rewrite u64_small by lia. rewrite drop_drop.
    destruct (Z.geb_spec offset (20 - Z.of_nat k)).
    + rewrite drop_ge by lia. by rewrite take_nil.
    + destruct (Z.geb_spec (size + offset) (20 - Z.of_nat k)); [|done]. rewrite !take_ge; [done|rewrite length_drop; lia..].
Qed.

Lemma writestr_decimal_witness : exists text, parse text = 4096 /\ writestr 2 1 4096 = take 2 (drop 1 text) /\ writestr 2 1 4096 = [48; 57].
Proof.
  destruct (writestr_decimal 4096 ltac:(lia)) as (text & Hp & _ & _ & _ & Hw). exists text. split; [exact Hp|]. split; [|vm_compute; reflexivity].
  exact (Hw 2 1 ltac:(lia) ltac:(lia) ltac:(lia)).
Defined.
