(* ===== verification/IoPorts.v ===== *)
(** * IoPorts: who owns an I/O port (src/io/arbitrator.c)

    Drivers reserve the ports they use.  The reserved ports are in a hash table
    of singly linked lists, modelled as lists from the head. *)
From S2P Require Import Prelude.

Definition IO_ARBITRATOR_BUCKET_COUNT : Z := 0x100.
Definition IO_ARBITRATOR_HASH (port : Z) : Z := port mod IO_ARBITRATOR_BUCKET_COUNT.

Abbreviation buckets := (list (list Z)).

Definition io_arbitrator_init : M buckets unit := put (replicate (Z.to_nat IO_ARBITRATOR_BUCKET_COUNT) []).

(** Walk one list. *)
Fixpoint on_list (port : Z) (nodes : list Z) : bool :=
  match nodes with [] => false | p :: nodes' => if p =? port then true else on_list port nodes' end.
Definition bucket (i : Z) : M buckets (list Z) := fun b => of_option Undefined (b !! Z.to_nat i) b.

Definition io_arbitrator_test_reserved (port : Z) : M buckets bool :=
  let! nodes := bucket (IO_ARBITRATOR_HASH port) in ret (on_list port nodes).

Definition io_arbitrator_reserve (port : Z) : M buckets bool :=
  let! reserved := io_arbitrator_test_reserved port in
  if reserved then ret false
  else
    let hash := IO_ARBITRATOR_HASH port in
    let! nodes := bucket hash in
    do! modify (fun b => <[Z.to_nat hash := port :: nodes]> b);
    ret true.

(** All buckets are searched, not only that of the port. *)
Fixpoint release_from (n : nat) (i : Z) (port : Z) : M buckets bool :=
  match n with
  | O => ret false
  | S n' =>
      let! nodes := bucket i in
      if on_list port nodes then do! modify (fun b => <[Z.to_nat i := remove_first (fun p => p =? port) nodes]> b); ret true
      else release_from n' (i + 1) port
  end.
Definition io_arbitrator_release (port : Z) : M buckets bool := release_from (Z.to_nat IO_ARBITRATOR_BUCKET_COUNT) 0 port.

(** ** A set of ports *)

Inductive port_op := TestPort (port : Z) | ReservePort (port : Z) | ReleasePort (port : Z).
Definition run_port (o : port_op) : M buckets bool :=
  match o with
  | TestPort p => io_arbitrator_test_reserved p
  | ReservePort p => io_arbitrator_reserve p
  | ReleasePort p => io_arbitrator_release p
  end.
Definition set_op (o : port_op) : M (gset Z) bool :=
  let! s := get in
  match o with
  | TestPort p => ret (bool_decide (p ∈ s))
  | ReservePort p => if bool_decide (p ∈ s) then ret false else do! put ({[ p ]} ∪ s); ret true
  | ReleasePort p => if bool_decide (p ∈ s) then do! put (s ∖ {[ p ]}); ret true else ret false
  end.

(** Each bucket lists, once, the reserved ports with its hash. *)
Definition ports_rep (b : buckets) (s : gset Z) : Prop :=
  length b = Z.to_nat IO_ARBITRATOR_BUCKET_COUNT /\
  forall i nodes, b !! i = Some nodes -> NoDup nodes /\ forall p, (p ∈ nodes) <-> (p ∈ s) /\ IO_ARBITRATOR_HASH p = Z.of_nat i.

Lemma on_list_spec port nodes : on_list port nodes = bool_decide (port ∈ nodes).
Proof.
  induction nodes as [|p nodes IH]; cbn [on_list]; [done|]. destruct (Z.eqb_spec p port) as [->|Hne].
  - symmetry. apply bool_decide_true. by left.
  - rewrite IH. apply bool_decide_ext. rewrite elem_of_cons. naive_solver.
Qed.

Lemma hash_range p : 0 <= IO_ARBITRATOR_HASH p < IO_ARBITRATOR_BUCKET_COUNT.
Proof. unfold IO_ARBITRATOR_HASH, IO_ARBITRATOR_BUCKET_COUNT. apply Z.mod_pos_bound. lia. Qed.

Lemma bucket_done b s i : ports_rep b s -> 0 <= i < IO_ARBITRATOR_BUCKET_COUNT ->
  exists nodes, b !! Z.to_nat i = Some nodes /\ bucket i b = Done (nodes, b).
Proof.
  intros [Hl _] Hi. destruct (lookup_lt_is_Some_2 b (Z.to_nat i)) as [nodes Hn]; [unfold IO_ARBITRATOR_BUCKET_COUNT in *; lia|].
  exists nodes. split; [done|]. unfold bucket. by rewrite Hn.
Qed.

Lemma test_spec b s p : ports_rep b s -> io_arbitrator_test_reserved p b = Done (bool_decide (p ∈ s), b).
Proof.
  intros Hr. pose proof (hash_range p) as Hh. destruct (bucket_done b s _ Hr Hh) as (nodes & Hn & E). unfold io_arbitrator_test_reserved.
  rewrite (bind_done _ _ _ _ _ E), on_list_spec. unfold ret. do 2 f_equal. apply bool_decide_ext. destruct Hr as [_ Hr].
  destruct (Hr _ _ Hn) as [_ ->]. rewrite Z2Nat.id by lia. tauto.
Qed.

(** Replacing the list of one bucket. *)
Lemma rep_insert b s s' i nodes : ports_rep b s -> 0 <= i < IO_ARBITRATOR_BUCKET_COUNT -> NoDup nodes ->
  (forall p, (p ∈ nodes) <-> (p ∈ s') /\ IO_ARBITRATOR_HASH p = i) ->
  (forall p, IO_ARBITRATOR_HASH p <> i -> (p ∈ s') <-> (p ∈ s)) -> ports_rep (<[Z.to_nat i := nodes]> b) s'.
Proof.
  intros [Hl Hr] Hi Hnd Hin Hother. split; [by rewrite length_insert|]. intros j l [(<- & <- & _)|[Hne Hj]]%list_lookup_insert_Some.
  - rewrite Z2Nat.id by lia. done.
  - destruct (Hr j l Hj) as [Hndl Hl']. split; [done|]. intros p. rewrite Hl'. split; intros [H1 H2]; (split; [|done]); apply Hother; done || lia.
Qed.

Lemma io_reserve_spec b s p : ports_rep b s -> p ∉ s -> exists b', io_arbitrator_reserve p b = Done (true, b') /\ ports_rep b' ({[ p ]} ∪ s).
Proof.
  intros Hr Hp. unfold io_arbitrator_reserve. rewrite (bind_done _ _ _ _ _ (test_spec b s p Hr)), bool_decide_false by done.
  pose proof (hash_range p) as Hh. destruct (bucket_done b s _ Hr Hh) as (nodes & Hn & E). rewrite (bind_done _ _ _ _ _ E), bind_modify.
  eexists. split; [reflexivity|]. destruct Hr as [Hl Hr]. destruct (Hr _ _ Hn) as [Hnd Hin]. rewrite Z2Nat.id in Hin by lia.
  apply (rep_insert b s); [done|done| | |].
  - apply NoDup_cons. split; [|done]. rewrite Hin. tauto.
  - intros q. rewrite elem_of_cons, Hin, elem_of_union, elem_of_singleton. naive_solver.
  - intros q Hq. rewrite elem_of_union, elem_of_singleton. naive_solver.
Qed.

Lemma elem_of_remove p q (l : list Z) : NoDup l -> (q ∈ remove_first (fun x => x =? p) l <-> (q ∈ l) /\ q <> p).
Proof.
  induction l as [|a l IH]; intros Hnd; cbn [remove_first]; [split; [by intros ?%elem_of_nil|by intros [?%elem_of_nil _]]|].
  apply NoDup_cons in Hnd as [Hni Hnd]. destruct (Z.eqb_spec a p) as [->|Hne].
  - rewrite elem_of_cons. split; [intros Hq; split; [by right|congruence]|naive_solver].
  - rewrite !elem_of_cons, IH by done. naive_solver.
Qed.

Lemma difference_absent (p : Z) (s : gset Z) : p ∉ s -> s ∖ {[ p ]} = s.
Proof. set_solver. Qed.

(** Buckets below that of the port do not list it. *)
Lemma release_from_spec p s : forall n i b, ports_rep b s -> 0 <= i <= IO_ARBITRATOR_HASH p \/ p ∉ s -> 0 <= i ->
  i + Z.of_nat n = IO_ARBITRATOR_BUCKET_COUNT ->
  exists b', release_from n i p b = Done (bool_decide (p ∈ s), b') /\ ports_rep b' (s ∖ {[ p ]}).
Proof.
  induction n as [|n IH]; intros i b Hr Hi H0 Hn; cbn [release_from].
  - pose proof (hash_range p). assert (p ∉ s) as Hp by (destruct Hi; [lia|done]). exists b. rewrite bool_decide_false by done. split; [done|].
    by rewrite difference_absent.
  - destruct (bucket_done b s i Hr ltac:(lia)) as (nodes & Hnd & E). rewrite (bind_done _ _ _ _ _ E), on_list_spec.
    pose proof Hr as [Hl Hrep]. destruct (Hrep _ _ Hnd) as [Hu Hin]. rewrite Z2Nat.id in Hin by lia. destruct (bool_decide_reflect (p ∈ nodes)) as [Hp|Hp].
    + apply Hin in Hp as [Hps Hh]. rewrite bind_modify, bool_decide_true by done. eexists. split; [reflexivity|].
      apply (rep_insert b s); [done|lia|by apply NoDup_remove_first| |].
      * intros q. rewrite elem_of_remove by done. rewrite Hin, elem_of_difference, elem_of_singleton. tauto.
      * intros q Hq. rewrite elem_of_difference, elem_of_singleton. naive_solver.
    + apply IH; [done| |lia|lia]. destruct Hi as [Hi|Hi]; [|by right]. destruct (decide (p ∈ s)) as [Hps|Hps]; [left|by right].
      destruct (decide (i = IO_ARBITRATOR_HASH p)) as [->|]; [exfalso; apply Hp, Hin; done|lia].
Qed.

(** The port arbitrator is a set of ports: any sequence of tests,
    reservations and releases answers as the set does, so a port has at most
    one owner at a time and can be taken again once it is released. *)
Theorem ports_refine_set os : forall b s, ports_rep b s ->
  outcomes_agree ports_rep (run_all run_port os b) (run_all set_op os s).
Proof.
  intros b s Hr0. apply run_all_simulates; [|done]. clear b s Hr0. intros o _ b s Hr. destruct o as [p|p|p]; unfold run_port, set_op; rewrite bind_get.
  - by rewrite (test_spec b s p Hr).
  - case_bool_decide as Hp.
    + unfold io_arbitrator_reserve. rewrite (bind_done _ _ _ _ _ (test_spec b s p Hr)), bool_decide_true by done. done.
    + destruct (io_reserve_spec b s p Hr Hp) as (b' & -> & Hr'). by split.
  - pose proof (hash_range p). destruct (release_from_spec p s (Z.to_nat IO_ARBITRATOR_BUCKET_COUNT) 0 b Hr ltac:(left; lia) ltac:(lia) ltac:(unfold IO_ARBITRATOR_BUCKET_COUNT; lia)) as (b' & E & Hr').
    unfold io_arbitrator_release. rewrite E. case_bool_decide as Hp; (split; [reflexivity|]); [exact Hr'|]. rewrite difference_absent in Hr' by done. exact Hr'.
Qed.

Lemma ports_empty : ports_rep (replicate (Z.to_nat IO_ARBITRATOR_BUCKET_COUNT) []) ∅.
Proof.
  split; [apply length_replicate|]. intros i nodes [-> _]%lookup_replicate. split; [constructor|]. intros p.
  rewrite elem_of_nil. set_solver.
Qed.

Lemma ports_refine_set_witness : outcomes_agree ports_rep
  (run_all run_port [ReservePort 0x60; ReservePort 0x160; ReservePort 0x60; ReleasePort 0x60; TestPort 0x160] (replicate (Z.to_nat IO_ARBITRATOR_BUCKET_COUNT) []))
  (run_all set_op [ReservePort 0x60; ReservePort 0x160; ReservePort 0x60; ReleasePort 0x60; TestPort 0x160] ∅).
Proof. apply (ports_refine_set _ _ _ ports_empty). Defined.
