(* ===== verification/ModLoader.v ===== *)
(** * ModLoader: loading modules with their dependencies (src/module/module.c)

    Registered modules wait in one list and move to the head of another when
    they are loaded, after their dependencies.  What the [init] and [free] of a
    module and the entry in sysfs do is a computation on a world [W].  A list
    node is a record with the address of the module. *)
From S2P Require Import Prelude.

Section loader.
Context {W : Type}.

Record module_t := Module_ {
  m_addr : Z; m_name : string; m_deps : list string;
  m_init : M W code; m_free : M W code; m_loaded : bool
}.
(** [modules_head], [loaded_head]. *)
Record loader := Loader { modules : list module_t; loaded : list module_t; world : W }.

Definition modules_init : M loader unit := modify (fun s => Loader [] [] (world s)).
Definition on_world {A} (m : M W A) : M loader A := zoom world (fun w s => Loader (modules s) (loaded s) w) m.

(** [a]: the address of the new module. *)
Definition module_register_static (a : Z) (name : string) (deps : list string) (init free : M W code) : M loader code :=
  do! modify (fun s => Loader (Module_ a name deps init free false :: modules s) (loaded s) (world s));
  ret (Num 0).

Variable sysfs_add_entry : string -> M W code.

Definition named (name : string) (m : module_t) : bool := bool_decide (m_name m = name).
Definition find_module (name : string) (l : list module_t) : option module_t := head (filter (fun m => named name m = true) l).

(** The loop over the dependencies: what it returns early. *)
Fixpoint load_deps (load : string -> M loader code) (deps : list string) : M loader (option code) :=
  match deps with
  | [] => ret None
  | d :: deps' =>
      let! result := load d in
      if bool_decide (result <> Num 0) && bool_decide (result <> Err ERROR_MOD_LOADED) then ret (Some result)
      else load_deps load deps'
  end.

Definition mark (m : module_t) : module_t := Module_ (m_addr m) (m_name m) (m_deps m) (m_init m) (m_free m) true.
(** From the list of modules to the head of the loaded ones. *)
Definition move_loaded (m : module_t) : M loader unit :=
  modify (fun s => Loader (remove_first (fun x => m_addr x =? m_addr m) (modules s)) (mark m :: loaded s) (world s)).

Fixpoint module_load (fuel : nat) (name : string) : M loader code :=
  match fuel with
  | O => stop_with NoFuel
  | S fuel' =>
      let! s := get in
      if existsb (named name) (loaded s) then ret (Err ERROR_MOD_LOADED)
      else
        match find_module name (modules s) with
        | None => ret (Err ERROR_MOD_NONE)
        | Some m =>
            let! failed := load_deps (module_load fuel') (m_deps m) in
            match failed with
            | Some result => ret result
            | None =>
                let! result := on_world (m_init m) in
                if bool_decide (result <> Num 0) then ret result
                else
                  let! result := on_world (sysfs_add_entry (String.append "module/" (m_name m))) in
                  if bool_decide (result <> Num 0) then (do! on_world (m_free m); ret result)
                  else (do! move_loaded m; ret (Num 0))
            end
        end
  end.

Definition module_unload (name : string) : M loader code :=
  let! s := get in
  if existsb (named name) (loaded s) then ret (Err ERROR_UNIMPLEMENTED) else ret (Err ERROR_MOD_NONE).

(** ** Dependencies first *)

Definition names (l : list module_t) : list string := m_name <$> l.

(** The loaded modules, newest first: no name twice, and the dependencies of
    each are behind it. *)
Fixpoint in_order (l : list module_t) : Prop :=
  match l with
  | [] => True
  | m :: l' => (m_name m ∉ names l') /\ Forall (fun d => (d ∈ names l')) (m_deps m) /\ in_order l'
  end.

(** All modules, wherever they are. *)
Definition known (s : loader) : list module_t := mark <$> modules s ++ loaded s.

(** [rank] bounds how deep the dependencies of a name go. *)
Record registered (rank : string -> nat) (s : loader) : Prop := {
  reg_addr : NoDup (m_addr <$> known s);
  reg_rank m : (m ∈ modules s) -> Forall (fun d => (rank d < rank (m_name m))%nat) (m_deps m);
  reg_init m w : (m ∈ modules s) -> exists r w', m_init m w = Done (r, w') /\ r <> Err ERROR_MOD_LOADED;
  reg_free m w : (m ∈ modules s) -> exists r w', m_free m w = Done (r, w');
  reg_order : in_order (loaded s)
}.
Definition sysfs_returns : Prop := forall p w, exists r w', sysfs_add_entry p w = Done (r, w') /\ r <> Err ERROR_MOD_LOADED.

(** What one call leaves behind: some modules moved, all of names below a
    bound. *)
Definition moved (rank : string -> nat) (bound : nat) (s s' : loader) : Prop :=
  registered rank s' /\ known s ≡ₚ known s' /\
  exists new, loaded s' = new ++ loaded s /\ Forall (fun m => (rank (m_name m) < bound)%nat) new.

Lemma named_true name m : named name m = true <-> m_name m = name.
Proof. apply bool_decide_eq_true. Qed.
Lemma loaded_names name l : existsb (named name) l = bool_decide (name ∈ names l).
Proof.
  apply eq_true_iff_eq. rewrite existsb_exists, bool_decide_eq_true. unfold names. rewrite list_elem_of_fmap. split.
  - intros (m & Hm & Hn%named_true). exists m. split; [by subst|by apply list_elem_of_In].
  - intros (m & -> & Hm). exists m. split; [by apply list_elem_of_In|by apply named_true].
Qed.
Lemma find_module_Some name l m : find_module name l = Some m -> (m ∈ l) /\ m_name m = name.
Proof.
  unfold find_module. intros H. assert (m ∈ filter (fun m => named name m = true) l) as [Hn Hm]%list_elem_of_filter.
  { destruct (filter _ l); [done|]. injection H as ->. by left. }
  apply named_true in Hn. done.
Qed.

Lemma moved_refl rank bound s : registered rank s -> moved rank bound s s.
Proof. intros H. split; [done|]. split; [done|]. by exists []. Qed.
Lemma moved_trans rank bound s1 s2 s3 : moved rank bound s1 s2 -> moved rank bound s2 s3 -> moved rank bound s1 s3.
Proof.
  intros (_ & Hk1 & n1 & H1 & Hb1) (Hr & Hk2 & n2 & H2 & Hb2). split; [done|]. split; [by rewrite Hk1|].
  exists (n2 ++ n1). split; [by rewrite H2, H1, app_assoc|]. by apply Forall_app.
Qed.
Lemma moved_le rank b1 b2 s s' : (b1 <= b2)%nat -> moved rank b1 s s' -> moved rank b2 s s'.
Proof. intros Hb (Hr & Hk & n & Hl & Hn). split; [done|]. split; [done|]. exists n. split; [done|]. eapply Forall_impl; [exact Hn|]. cbn. lia. Qed.
Lemma moved_names rank bound s s' name : moved rank bound s s' -> (bound <= rank name)%nat -> name ∉ names (loaded s) -> name ∉ names (loaded s').
Proof.
  intros (_ & _ & new & -> & Hn) Hb Hni. unfold names. rewrite fmap_app. apply not_elem_of_app. split; [|done].
  intros (m & -> & Hm)%list_elem_of_fmap. rewrite Forall_forall in Hn. specialize (Hn m Hm). lia.
Qed.
Lemma elem_of_remove_other m a (l : list module_t) : (m ∈ remove_first (fun x => m_addr x =? a) l) -> m ∈ l.
Proof. apply elem_of_remove_first. Qed.
Lemma remove_first_perm (m : module_t) a (l : list module_t) : NoDup (m_addr <$> l) -> (m ∈ l) -> m_addr m = a ->
  l ≡ₚ m :: remove_first (fun x => m_addr x =? a) l.
Proof.
  intros Hnd Hm Ha. induction l as [|x l IH]; [by apply elem_of_nil in Hm|]. rewrite fmap_cons in Hnd. apply NoDup_cons in Hnd as [Hni Hnd]. cbn [remove_first].
  destruct (Z.eqb_spec (m_addr x) a) as [Hx|Hx].
  - apply elem_of_cons in Hm as [->|Hm]; [done|]. exfalso. apply Hni, list_elem_of_fmap. exists m. split; [congruence|done].
  - apply elem_of_cons in Hm as [->|Hm]; [done|]. rewrite (IH Hnd Hm) at 1. apply perm_swap.
Qed.

(** A module that was not moved is still registered. *)
Lemma moved_keeps rank bound s s' m : moved rank bound s s' -> registered rank s -> (m ∈ modules s) -> (bound <= rank (m_name m))%nat ->
  exists m', (m' ∈ modules s') /\ mark m' = mark m.
Proof.
  intros (_ & Hk & new & Hl & Hn) Hr Hm Hb. assert (mark m ∈ known s) as Hin by (apply list_elem_of_fmap_2, elem_of_app; by left).
  rewrite Hk in Hin. apply list_elem_of_fmap in Hin as (m' & He & [Hin|Hin]%elem_of_app); [by exists m'|].
  assert (m_name m' = m_name m) as Hna by (change (m_name (mark m') = m_name (mark m)); by rewrite He).
  assert (m_addr m' = m_addr m) as Ha by (change (m_addr (mark m') = m_addr (mark m)); by rewrite He).
  rewrite Hl in Hin. apply elem_of_app in Hin as [Hin|Hin].
  - rewrite Forall_forall in Hn. specialize (Hn m' Hin). rewrite Hna in Hn. lia.
  - exfalso. pose proof (reg_addr _ _ Hr) as Hnd. unfold known in Hnd. rewrite !fmap_app in Hnd. apply NoDup_app in Hnd as (_ & Hd & _).
    apply (Hd (m_addr m)); apply list_elem_of_fmap; [exists (mark m)|exists (mark m')]; (split; [done|]); by apply list_elem_of_fmap_2.
Qed.

Lemma registered_world rank s w : registered rank s -> registered rank (Loader (modules s) (loaded s) w).
Proof. by intros []. Qed.
Lemma moved_world rank bound s s' w : moved rank bound s s' -> moved rank bound s (Loader (modules s') (loaded s') w).
Proof. intros (Hr & Hk & Hn). split; [by apply registered_world|]. done. Qed.

Lemma moved_push rank bound s s' m : moved rank (rank (m_name m)) s s' -> (rank (m_name m) < bound)%nat ->
  registered rank s -> (m ∈ modules s) -> m_name m ∉ names (loaded s) -> Forall (fun d => d ∈ names (loaded s')) (m_deps m) ->
  exists s2, move_loaded m s' = Done (tt, s2) /\ moved rank bound s s2 /\ m_name m ∈ names (loaded s2).
Proof.
  intros Hmv Hb Hr Hm Hni Hd. eexists. split; [reflexivity|]. destruct (moved_keeps _ _ _ _ m Hmv Hr Hm ltac:(lia)) as (m' & Hm' & He).
  assert (m_addr m' = m_addr m) as Ha by (change (m_addr (mark m') = m_addr (mark m)); by rewrite He).
  pose proof (moved_names _ _ _ _ (m_name m) Hmv ltac:(lia) Hni) as Hni'.
  destruct Hmv as (Hr' & Hk & new & Hl & Hn). pose proof (reg_addr _ _ Hr') as Hnd.
  assert (NoDup (m_addr <$> modules s')) as Hndm.
  { unfold known in Hnd. rewrite !fmap_app in Hnd. apply NoDup_app in Hnd as [Hnd _]. rewrite <- list_fmap_compose in Hnd. exact Hnd. }
  set (s2 := Loader _ _ _). assert (known s' ≡ₚ known s2) as Hk2.
  { unfold known, s2. cbn [modules loaded]. rewrite !fmap_app, fmap_cons. change (mark (mark m)) with (mark m).
    rewrite (fmap_Permutation mark _ _ (remove_first_perm m' (m_addr m) (modules s') Hndm Hm' Ha)), fmap_cons, He. apply Permutation_middle. }
  split; [|by left]. split; [|split].
  - destruct Hr' as [_ H1 H2 H3 H4]. split; [by rewrite <- Hk2| | | |].
    + intros x Hx%elem_of_remove_other. by apply H1.
    + intros x w Hx%elem_of_remove_other. by apply H2.
    + intros x w Hx%elem_of_remove_other. by apply H3.
    + cbn [s2 loaded in_order]. done.
  - by rewrite Hk, Hk2.
  - exists (mark m :: new). cbn [s2 loaded]. rewrite Hl. split; [done|]. constructor; [done|]. eapply Forall_impl; [exact Hn|]. cbn. lia.
Qed.

(** The loop over the dependencies, when each call behaves. *)
Lemma load_deps_spec rank bound (load : string -> M loader code) deps :
  (forall d s, (d ∈ deps) -> registered rank s -> exists r s', load d s = Done (r, s') /\ moved rank bound s s' /\
     (r = Num 0 -> d ∈ names (loaded s')) /\ (r = Err ERROR_MOD_LOADED <-> d ∈ names (loaded s))) ->
  forall s, registered rank s -> exists o s', load_deps load deps s = Done (o, s') /\ moved rank bound s s' /\
    (o = None -> Forall (fun d => d ∈ names (loaded s')) deps) /\ (forall r, o = Some r -> r <> Num 0 /\ r <> Err ERROR_MOD_LOADED).
Proof.
  induction deps as [|d deps IH]; intros Hload s Hr; cbn [load_deps].
  { eexists None, s. split_and!; [done|by apply moved_refl|done|done]. }
  destruct (Hload d s ltac:(by left) Hr) as (r & s1 & E & Hm & H0 & HL). rewrite (bind_done _ _ _ _ _ E).
  destruct (bool_decide_reflect (r <> Num 0)) as [Hn0|Hn0]; [destruct (bool_decide_reflect (r <> Err ERROR_MOD_LOADED)) as [HnL|HnL]|]; cbn [andb].
  { eexists (Some r), s1. split_and!; [done|done|done|]. by intros ? [= <-]. }
  all: pose proof Hm as (Hr1 & _ & new & Hl1 & _).
  all: destruct (IH ltac:(intros; apply Hload; [by right|done]) s1 Hr1) as (o & s2 & E2 & Hm2 & Hd & Ho).
  all: exists o, s2; split_and!; [exact E2|by eapply moved_trans| |done].
  all: intros ->; constructor; [|by apply Hd].
  all: destruct Hm2 as (_ & _ & new2 & Hl2 & _); rewrite Hl2; unfold names; rewrite fmap_app; apply elem_of_app; right.
  - destruct (decide (r = Err ERROR_MOD_LOADED)) as [Hx|]; [|tauto]. rewrite Hl1, fmap_app. apply elem_of_app. right. by apply HL.
  - destruct (decide (r = Num 0)) as [Hx|]; [by apply H0|tauto].
Qed.

Lemma module_load_spec rank (Hsys : sysfs_returns) fuel : forall name s, registered rank s -> (rank name < fuel)%nat ->
  exists r s', module_load fuel name s = Done (r, s') /\ moved rank (S (rank name)) s s' /\
    (r = Num 0 -> name ∈ names (loaded s')) /\ (r = Err ERROR_MOD_LOADED <-> name ∈ names (loaded s)).
Proof.
  induction fuel as [|fuel IH]; intros name s Hr Hf; [lia|]. cbn [module_load]. rewrite bind_get, loaded_names.
  case_bool_decide as Hld. { eexists _, s. split_and!; [done|by apply moved_refl|done|done]. }
  destruct (find_module name (modules s)) as [m|] eqn:Em. 2: { eexists _, s. split_and!; [done|by apply moved_refl|done|by split]. }
  apply find_module_Some in Em as [Hm <-].
  destruct (load_deps_spec rank (rank (m_name m)) (module_load fuel) (m_deps m)) with (s := s) as (o & s1 & E & Hmv & Hd & Ho); [|done|].
  { intros d s0 Hd Hr0. pose proof (reg_rank _ _ Hr m Hm) as Hrk. rewrite Forall_forall in Hrk. specialize (Hrk d Hd).
    destruct (IH d s0 Hr0 ltac:(lia)) as (r & s' & ? & Hmv & ?). exists r, s'. split; [done|]. split; [|done]. eapply moved_le; [|exact Hmv]. lia. }
  assert (moved rank (S (rank (m_name m))) s s1) as Hmv' by (eapply moved_le; [|exact Hmv]; lia).
  rewrite (bind_done _ _ _ _ _ E). destruct o as [r|].
  { destruct (Ho r eq_refl). eexists r, s1. split_and!; [done|done|done|by split]. }
  destruct (reg_init _ _ Hr m (world s1) Hm) as (r & w & Ei & HrL). unfold on_world at 1, zoom at 1. unfold bind at 1. rewrite Ei.
  case_bool_decide as Hr0. { eexists r, _. split_and!; [done|by apply moved_world|done|by split]. }
  destruct (Hsys (String.append "module/" (m_name m)) w) as (r1 & w1 & Es & Hr1L). unfold on_world at 1, zoom at 1, bind at 1. cbn [world]. rewrite Es. cbn [modules loaded world].
  case_bool_decide as Hr1.
  - destruct (reg_free _ _ Hr m w1 Hm) as (r2 & w2 & Ef). unfold on_world, zoom, bind. cbn [world]. rewrite Ef. eexists r1, _. split_and!; [done|exact (moved_world _ _ s s1 w2 Hmv')|done|by split].
  - destruct (moved_push rank (S (rank (m_name m))) s (Loader (modules s1) (loaded s1) w1) m) as (s2 & E2 & Hmv2 & Hin); [by apply moved_world|lia|done|done|done|by apply Hd|].
    rewrite (bind_done _ _ _ _ _ E2). eexists _, s2. split_and!; [done|done|done|by split].
Qed.


(** Two modules that need each other are never loaded: there is no check for a
    load in progress. *)
Lemma module_load_cycle m s : find_module (m_name m) (modules s) = Some m -> head (m_deps m) = Some (m_name m) -> m_name m ∉ names (loaded s) ->
  forall fuel, module_load fuel (m_name m) s = Stop NoFuel.
Proof.
  intros Hf Hd Hni. induction fuel as [|fuel IH]; [done|]. cbn [module_load]. rewrite bind_get, loaded_names, bool_decide_false, Hf by done.
  destruct (m_deps m) as [|d ds]; [done|]. injection Hd as ->. apply bind_stop. cbn [load_deps]. by apply bind_stop.
Qed.
End loader.

(** ** A run: a driver that needs the device file system; its init counts *)

Definition demo_module (a : Z) (name : string) (deps : list string) : module_t :=
  Module_ a name deps (fun w : Z => Done (Num 0, w + a)) (fun w => Done (Num 0, w)) false.
Definition demo_sysfs (p : string) : M Z code := ret (Num 0).
Definition demo_loader : loader := Loader [demo_module 1 "x86_ps2" ["devfs"]; demo_module 2 "devfs" []]%string [] 0.
Definition demo_rank (name : string) : nat := if bool_decide (name = "devfs"%string) then 0 else 1.

