(* ===== verification/VgaTerminal.v ===== *)
(** * VgaTerminal: the text console (src modules/vga_terminal)

    Characters go to a ring of rows of 40 characters, and the last 25 rows are
    drawn with an 8 by 8 font into the frame buffer of 320 by 200 bytes.  The
    ring is a map from positions to characters, the frame buffer one from
    offsets to bytes; an access outside of either is [Undefined]. *)
From S2P Require Import Prelude.

Definition WINDOW_WIDTH : Z := 320 / 8.
Definition WINDOW_HEIGHT : Z := 200 / 8.
Definition BUFFER_HEIGHT : Z := 50.

Definition font_basic : list (list Z) :=
[
   [0; 0; 0; 0; 0; 0; 0; 0]; [0; 0; 0; 0; 0; 0; 0; 0]; [0; 0; 0; 0; 0; 0; 0; 0]; [0; 0; 0; 0; 0; 0; 0; 0];
   [0; 0; 0; 0; 0; 0; 0; 0]; [0; 0; 0; 0; 0; 0; 0; 0]; [0; 0; 0; 0; 0; 0; 0; 0]; [0; 0; 0; 0; 0; 0; 0; 0];
   [0; 0; 0; 0; 0; 0; 0; 0]; [0; 0; 0; 0; 0; 0; 0; 0]; [0; 0; 0; 0; 0; 0; 0; 0]; [0; 0; 0; 0; 0; 0; 0; 0];
   [0; 0; 0; 0; 0; 0; 0; 0]; [0; 0; 0; 0; 0; 0; 0; 0]; [0; 0; 0; 0; 0; 0; 0; 0]; [0; 0; 0; 0; 0; 0; 0; 0];
   [0; 0; 0; 0; 0; 0; 0; 0]; [0; 0; 0; 0; 0; 0; 0; 0]; [0; 0; 0; 0; 0; 0; 0; 0]; [0; 0; 0; 0; 0; 0; 0; 0];
   [0; 0; 0; 0; 0; 0; 0; 0]; [0; 0; 0; 0; 0; 0; 0; 0]; [0; 0; 0; 0; 0; 0; 0; 0]; [0; 0; 0; 0; 0; 0; 0; 0];
   [0; 0; 0; 0; 0; 0; 0; 0]; [0; 0; 0; 0; 0; 0; 0; 0]; [0; 0; 0; 0; 0; 0; 0; 0]; [0; 0; 0; 0; 0; 0; 0; 0];
   [0; 0; 0; 0; 0; 0; 0; 0]; [0; 0; 0; 0; 0; 0; 0; 0]; [0; 0; 0; 0; 0; 0; 0; 0]; [0; 0; 0; 0; 0; 0; 0; 0];
   [0; 0; 0; 0; 0; 0; 0; 0]; [24; 60; 60; 24; 24; 0; 24; 0]; [54; 54; 0; 0; 0; 0; 0; 0]; [54; 54; 127; 54; 127; 54; 54; 0];
   [12; 62; 3; 30; 48; 31; 12; 0]; [0; 99; 51; 24; 12; 102; 99; 0]; [28; 54; 28; 110; 59; 51; 110; 0]; [6; 6; 3; 0; 0; 0; 0; 0];
   [24; 12; 6; 6; 6; 12; 24; 0]; [6; 12; 24; 24; 24; 12; 6; 0]; [0; 102; 60; 255; 60; 102; 0; 0]; [0; 12; 12; 63; 12; 12; 0; 0];
   [0; 0; 0; 0; 0; 12; 12; 6]; [0; 0; 0; 63; 0; 0; 0; 0]; [0; 0; 0; 0; 0; 12; 12; 0]; [96; 48; 24; 12; 6; 3; 1; 0];
   [62; 99; 115; 123; 111; 103; 62; 0]; [12; 14; 12; 12; 12; 12; 63; 0]; [30; 51; 48; 28; 6; 51; 63; 0]; [30; 51; 48; 28; 48; 51; 30; 0];
   [56; 60; 54; 51; 127; 48; 120; 0]; [63; 3; 31; 48; 48; 51; 30; 0]; [28; 6; 3; 31; 51; 51; 30; 0]; [63; 51; 48; 24; 12; 12; 12; 0];
   [30; 51; 51; 30; 51; 51; 30; 0]; [30; 51; 51; 62; 48; 24; 14; 0]; [0; 12; 12; 0; 0; 12; 12; 0]; [0; 12; 12; 0; 0; 12; 12; 6];
   [24; 12; 6; 3; 6; 12; 24; 0]; [0; 0; 63; 0; 0; 63; 0; 0]; [6; 12; 24; 48; 24; 12; 6; 0]; [30; 51; 48; 24; 12; 0; 12; 0];
   [62; 99; 123; 123; 123; 3; 30; 0]; [12; 30; 51; 51; 63; 51; 51; 0]; [63; 102; 102; 62; 102; 102; 63; 0]; [60; 102; 3; 3; 3; 102; 60; 0];
   [31; 54; 102; 102; 102; 54; 31; 0]; [127; 70; 22; 30; 22; 70; 127; 0]; [127; 70; 22; 30; 22; 6; 15; 0]; [60; 102; 3; 3; 115; 102; 124; 0];
   [51; 51; 51; 63; 51; 51; 51; 0]; [30; 12; 12; 12; 12; 12; 30; 0]; [120; 48; 48; 48; 51; 51; 30; 0]; [103; 102; 54; 30; 54; 102; 103; 0];
   [15; 6; 6; 6; 70; 102; 127; 0]; [99; 119; 127; 127; 107; 99; 99; 0]; [99; 103; 111; 123; 115; 99; 99; 0]; [28; 54; 99; 99; 99; 54; 28; 0];
   [63; 102; 102; 62; 6; 6; 15; 0]; [30; 51; 51; 51; 59; 30; 56; 0]; [63; 102; 102; 62; 54; 102; 103; 0]; [30; 51; 7; 14; 56; 51; 30; 0];
   [63; 45; 12; 12; 12; 12; 30; 0]; [51; 51; 51; 51; 51; 51; 63; 0]; [51; 51; 51; 51; 51; 30; 12; 0]; [99; 99; 99; 107; 127; 119; 99; 0];
   [99; 99; 54; 28; 28; 54; 99; 0]; [51; 51; 51; 30; 12; 12; 30; 0]; [127; 99; 49; 24; 76; 102; 127; 0]; [30; 6; 6; 6; 6; 6; 30; 0];
   [3; 6; 12; 24; 48; 96; 64; 0]; [30; 24; 24; 24; 24; 24; 30; 0]; [8; 28; 54; 99; 0; 0; 0; 0]; [0; 0; 0; 0; 0; 0; 0; 255];
   [12; 12; 24; 0; 0; 0; 0; 0]; [0; 0; 30; 48; 62; 51; 110; 0]; [7; 6; 6; 62; 102; 102; 59; 0]; [0; 0; 30; 51; 3; 51; 30; 0];
   [56; 48; 48; 62; 51; 51; 110; 0]; [0; 0; 30; 51; 63; 3; 30; 0]; [28; 54; 6; 15; 6; 6; 15; 0]; [0; 0; 110; 51; 51; 62; 48; 31];
   [7; 6; 54; 110; 102; 102; 103; 0]; [12; 0; 14; 12; 12; 12; 30; 0]; [48; 0; 48; 48; 48; 51; 51; 30]; [7; 6; 102; 54; 30; 54; 103; 0];
   [14; 12; 12; 12; 12; 12; 30; 0]; [0; 0; 51; 127; 127; 107; 99; 0]; [0; 0; 31; 51; 51; 51; 51; 0]; [0; 0; 30; 51; 51; 51; 30; 0];
   [0; 0; 59; 102; 102; 62; 6; 15]; [0; 0; 110; 51; 51; 62; 48; 120]; [0; 0; 59; 110; 102; 6; 15; 0]; [0; 0; 62; 3; 30; 48; 31; 0];
   [8; 12; 62; 12; 12; 44; 24; 0]; [0; 0; 51; 51; 51; 51; 110; 0]; [0; 0; 51; 51; 51; 30; 12; 0]; [0; 0; 99; 107; 127; 127; 54; 0];
   [0; 0; 99; 54; 28; 54; 99; 0]; [0; 0; 51; 51; 51; 62; 48; 31]; [0; 0; 63; 25; 12; 38; 63; 0]; [56; 12; 12; 7; 12; 12; 56; 0];
   [24; 24; 24; 0; 24; 24; 24; 0]; [7; 12; 12; 56; 12; 12; 7; 0]; [110; 59; 0; 0; 0; 0; 0; 0]; [0; 0; 0; 0; 0; 0; 0; 0]].
Definition font_not_found : list Z := [255; 195; 165; 153; 153; 165; 195; 255].
(** [c] as an [unsigned char]. *)
Definition font_lookup (c : Z) : option (list Z) := if u8 c <? 128 then font_basic !! Z.to_nat (u8 c) else Some font_not_found.

(** The variables of the module apart from the frame buffer. *)
Record core := Core {
  bound : bool; cursor_on : bool; cur_x : Z; cur_y : Z; view_y : Z; buffer_start : Z; cells : gmap (Z * Z) Z
}.
Record console := Console { core_of : core; frame_buffer : gmap Z Z }.
Definition upd_core (f : core -> core) : M console unit := modify (fun s => Console (f (core_of s)) (frame_buffer s)).
Definition set_cursor_on (b : bool) (c : core) : core := Core (bound c) b (cur_x c) (cur_y c) (view_y c) (buffer_start c) (cells c).
Definition set_bound (b : bool) (c : core) : core := Core b (cursor_on c) (cur_x c) (cur_y c) (view_y c) (buffer_start c) (cells c).
Definition set_cur (x y : Z) (c : core) : core := Core (bound c) (cursor_on c) x y (view_y c) (buffer_start c) (cells c).
Definition set_view (v : Z) (c : core) : core := Core (bound c) (cursor_on c) (cur_x c) (cur_y c) v (buffer_start c) (cells c).
Definition set_start (v : Z) (c : core) : core := Core (bound c) (cursor_on c) (cur_x c) (cur_y c) (view_y c) v (cells c).
Definition set_cells (m : gmap (Z * Z) Z) (c : core) : core := Core (bound c) (cursor_on c) (cur_x c) (cur_y c) (view_y c) (buffer_start c) m.

(** [CONSOLE_BUFFER[x][y]] *)
Definition in_buffer (x y : Z) : bool := (0 <=? x) && (x <? WINDOW_WIDTH) && (0 <=? y) && (y <? BUFFER_HEIGHT).
Definition cell (c : core) (x y : Z) : Z := default 0 (cells c !! (x, y)).
Definition get_cell (x y : Z) : M console Z :=
  do! guard_or Undefined (in_buffer x y); let! s := get in ret (cell (core_of s) x y).
Definition put_cell (x y v : Z) : M console unit :=
  do! guard_or Undefined (in_buffer x y); upd_core (fun c => set_cells (<[(x, y) := v]> (cells c)) c).

Definition set_pixel (i v : Z) : M console unit :=
  do! guard_or Undefined ((0 <=? i) && (i <? 320 * 200)); modify (fun s => Console (core_of s) (<[i := v]> (frame_buffer s))).

(** 0 to [n] - 1. *)
Definition upto (n : Z) : list Z := Z.of_nat <$> seq 0 (Z.to_nat n).

Definition clear_rect (x0 y0 w h : Z) : M console unit :=
  for_each (upto w) (fun x => for_each (upto h) (fun y => set_pixel ((y0 + y) * 320 + (x0 + x)) 0)).
(** Bit [x] of row [y] of a bitmap. *)
Definition bitmap_bit (bitmap : list Z) (w x y : Z) : option bool :=
  b ← bitmap !! Z.to_nat (y * (w / 8) + x / 8); Some (Z.testbit b x).
Definition draw_bitmap (bitmap : list Z) (x0 y0 w h : Z) : M console unit :=
  for_each (upto h) (fun y => for_each (upto w) (fun x =>
    let! b := of_option Undefined (bitmap_bit bitmap w x y) in
    set_pixel ((y0 + y) * 320 + x0 + x) (if b : bool then 0x0F else 0x00))).
Definition draw_bitmap_transparent (bitmap : list Z) (x0 y0 w h : Z) : M console unit :=
  for_each (upto h) (fun y => for_each (upto w) (fun x =>
    let! b := of_option Undefined (bitmap_bit bitmap w x y) in
    if b : bool then set_pixel ((y0 + y) * 320 + x0 + x) 0x0F else ret tt)).

(** One character of row [y] from the bottom, row [buffer_y] of the ring. *)
Definition draw_cell (x y buffer_y : Z) : M console unit :=
  let! ch := get_cell x buffer_y in
  let! font_char := of_option Undefined (font_lookup ch) in
  do! draw_bitmap font_char (x * 8) ((WINDOW_HEIGHT - y - 1) * 8) 8 8;
  let! s := get in
  let c := core_of s in
  if (cur_x c =? x) && (cur_y c =? buffer_y) && cursor_on c then
    let! underscore := of_option Undefined (font_lookup 95) in
    draw_bitmap_transparent underscore (x * 8) ((WINDOW_HEIGHT - y - 1) * 8) 8 8
  else ret tt.
Definition draw_row (y : Z) : M console unit :=
  let! s := get in
  let c := core_of s in
  let buffer_y := Z.rem (view_y c - y + BUFFER_HEIGHT) BUFFER_HEIGHT in
  if (buffer_y <? buffer_start c) && ((buffer_y <=? view_y c) && (buffer_y <=? buffer_start c) || (buffer_y >=? view_y c) && (buffer_y >=? buffer_start c))
     || (buffer_y >? buffer_start c)
  then for_each (upto WINDOW_WIDTH) (fun x => draw_cell x y buffer_y)
  else clear_rect 0 ((WINDOW_HEIGHT - y - 1) * 8) (WINDOW_WIDTH * 8) 8.
Definition terminal_update : M console unit :=
  let! s := get in
  if negb (bound (core_of s)) then ret tt else for_each (upto WINDOW_HEIGHT) draw_row.

Definition write_char (ch : Z) : M console unit :=
  let! s := get in
  let c := core_of s in
  if ch =? 10 then
    do! upd_core (fun c => set_cur 0 (u8 (Z.rem (cur_y c + 1) BUFFER_HEIGHT)) c);
    let! s := get in
    do! (if cur_y (core_of s) =? buffer_start (core_of s) then
           do! for_each (upto WINDOW_WIDTH) (fun j => put_cell j (buffer_start (core_of s)) 32);
           upd_core (fun c => set_start (u8 (Z.rem (buffer_start c + 1) BUFFER_HEIGHT)) c)
         else ret tt);
    upd_core (fun c => set_view (cur_y c) c)
  else if ch =? 13 then upd_core (fun c => set_cur 0 (cur_y c) c)
  else if ch =? 8 then upd_core (fun c => set_cur (u8 (Z.rem (cur_x c - 1 + WINDOW_WIDTH) WINDOW_WIDTH)) (cur_y c) c)
  else
    do! (if cur_x c <? WINDOW_WIDTH then
           do! put_cell (cur_x c) (cur_y c) ch; upd_core (fun c => set_cur (u8 (cur_x c + 1)) (cur_y c) c)
         else ret tt);
    upd_core (fun c => set_view (cur_y c) c).
(** [buffer]: the [size] bytes. *)
Definition write (buffer : list Z) : M console Z :=
  do! (if bool_decide (buffer = []) then ret tt else upd_core (set_cursor_on true));
  do! for_each buffer write_char;
  do! terminal_update;
  ret (Z.of_nat (length buffer)).

Definition timer_handler : M console unit :=
  do! upd_core (fun c => set_cursor_on (negb (cursor_on c)) c); terminal_update.

(** The file vgatty/bind of sysfs. *)
Definition SYSFS_BIND : Z := 0.
Definition sysfs_read (id size offset : Z) : M console (Z * list Z) :=
  let! s := get in
  if negb (offset =? 0) then ret (0, [])
  else if (id =? SYSFS_BIND) && (size >? 0) then ret (1, [if bound (core_of s) then 49 else 48]) else ret (0, []).
Definition sysfs_write (id : Z) (data : list Z) : M console Z :=
  if (id =? SYSFS_BIND) && (Z.of_nat (length data) =? 1) then
    if bool_decide (data = [49]) then do! upd_core (set_bound true); do! terminal_update; ret 1
    else if bool_decide (data = [48]) then do! upd_core (set_bound false); ret 1
    else ret 0
  else ret 0.

(** After [init]: the ring is all zero bytes; [f] is what the screen shows. *)
Definition init_console (f : gmap Z Z) : console := Console (Core true true 0 0 0 1 ∅) f.

(** ** What drawing does to one pixel

    [m] run with core [c] leaves pixel ([px], [py]) as [g px py] makes it. *)

Definition on_screen (px py : Z) : Prop := 0 <= px < 320 /\ 0 <= py < 200.
Definition pixel (f : gmap Z Z) (px py : Z) : option Z := f !! (py * 320 + px).
Definition paints (c : core) (m : M console unit) (g : Z -> Z -> option Z -> option Z) : Prop :=
  forall f, exists f', m (Console c f) = Done (tt, Console c f') /\
    forall px py, on_screen px py -> pixel f' px py = g px py (pixel f px py).

Lemma paints_ext c m g g' : paints c m g -> (forall px py o, on_screen px py -> g' px py o = g px py o) -> paints c m g'.
Proof. intros Hm Hg f. destruct (Hm f) as (f' & E & H). exists f'. split; [done|]. intros px py Hp. by rewrite Hg, H. Qed.
Lemma paints_ret c : paints c (ret tt) (fun _ _ o => o).
Proof. intros f. by exists f. Qed.
Lemma paints_bind c m k g h : paints c m g -> paints c (k tt) h -> paints c (bind m k) (fun px py o => h px py (g px py o)).
Proof.
  intros Hm Hk f. destruct (Hm f) as (f1 & E1 & H1), (Hk f1) as (f2 & E2 & H2). exists f2.
  rewrite (bind_done _ _ _ _ _ E1). split; [done|]. intros px py Hp. by rewrite H2, H1.
Qed.

(** A loop whose steps each keep to a part of the screen of their own: a pixel
    is as the step that owns it leaves it, or as it was. *)
Lemma paints_loop {X} (owner : Z -> Z -> X -> bool) (g : Z -> Z -> option Z -> option Z) c (xs : list X) body :
  (forall x, (x ∈ xs) -> paints c (body x) (fun px py o => if owner px py x then g px py o else o)) ->
  (forall px py x y, owner px py x = true -> owner px py y = true -> x = y) -> NoDup xs ->
  paints c (for_each xs body) (fun px py o => if existsb (owner px py) xs then g px py o else o).
Proof.
  intros Hb Hu. induction xs as [|x xs IH]; intros Hnd; cbn [for_each]; [apply paints_ret|]. apply NoDup_cons in Hnd as [Hni Hnd].
  eapply paints_ext.
  - apply paints_bind; [apply Hb; by left|apply IH; [intros y Hy; apply Hb; by right|done]].
  - intros px py o _. cbn [existsb]. destruct (owner px py x) eqn:E; [|done]. cbn [orb]. destruct (existsb (owner px py) xs) eqn:E2; [|done].
    apply existsb_exists in E2 as (y & Hy & Hoy). exfalso. apply Hni. rewrite (Hu px py x y E Hoy). by apply list_elem_of_In.
Qed.

Lemma elem_of_upto n x : x ∈ upto n <-> 0 <= x < n.
Proof.
  unfold upto. rewrite list_elem_of_fmap. split.
  - intros (k & -> & Hk%elem_of_seq). lia.
  - intros H. exists (Z.to_nat x). split; [lia|]. apply elem_of_seq. lia.
Qed.
Lemma NoDup_upto n : NoDup (upto n).
Proof. apply NoDup_fmap_2; [intros a b; lia|apply NoDup_seq]. Qed.
Lemma existsb_upto n (p : Z -> bool) (x : Z) : (forall y, p y = true <-> y = x) -> existsb p (upto n) = (0 <=? x) && (x <? n).
Proof.
  intros Hp. apply eq_true_iff_eq. rewrite existsb_exists, andb_true_iff, Z.leb_le, Z.ltb_lt. split.
  - intros (y & Hy%list_elem_of_In%elem_of_upto & ->%Hp). done.
  - intros H. exists x. split; [by apply list_elem_of_In, elem_of_upto|by apply Hp].
Qed.

Lemma paints_pixel c x0 y0 v : on_screen x0 y0 -> paints c (set_pixel (y0 * 320 + x0) v)
  (fun px py o => if (px =? x0) && (py =? y0) then Some v else o).
Proof.
  intros [Hx Hy] f. unfold set_pixel, guard_or. replace ((0 <=? y0 * 320 + x0) && (y0 * 320 + x0 <? 320 * 200)) with true by andb_lia.
  eexists. split; [reflexivity|]. cbn. intros px py [Hpx Hpy]. unfold pixel. destruct ((px =? x0) && (py =? y0)) eqn:E.
  - assert (px = x0 /\ py = y0) as [-> ->] by lia. by rewrite lookup_insert_eq.
  - rewrite lookup_insert_ne; [done|]. intros He. assert (py = y0) by lia. assert (px = x0) by lia. lia.
Qed.

(** An 8 by 8 square of single pixels. *)
Lemma paints_square c x0 y0 (step : Z -> Z -> M console unit) (g : Z -> Z -> option Z -> option Z) :
  0 <= x0 -> x0 + 8 <= 320 -> 0 <= y0 -> y0 + 8 <= 200 ->
  (forall x y, 0 <= x < 8 -> 0 <= y < 8 -> paints c (step y x) (fun px py o => if (px =? x0 + x) && (py =? y0 + y) then g px py o else o)) ->
  paints c (for_each (upto 8) (fun y => for_each (upto 8) (step y)))
    (fun px py o => if (x0 <=? px) && (px <? x0 + 8) && (y0 <=? py) && (py <? y0 + 8) then g px py o else o).
Proof.
  intros Hx Hx8 Hy Hy8 Hs. eapply paints_ext.
  - apply (paints_loop (fun px py y => (x0 <=? px) && (px <? x0 + 8) && (py =? y0 + y)) g); [|intros; lia|apply NoDup_upto].
    intros y Hyu%elem_of_upto. eapply paints_ext.
    + apply (paints_loop (fun px py x => (px =? x0 + x) && (py =? y0 + y)) g); [|intros; lia|apply NoDup_upto]. intros x Hxu%elem_of_upto. by apply Hs.
    + intros px py o _. cbn beta. destruct (Z.eqb_spec py (y0 + y)) as [->|Hne].
      * rewrite andb_true_r. rewrite (existsb_upto 8 _ (px - x0)) by (intros k; rewrite andb_true_r; lia).
        replace ((0 <=? px - x0) && (px - x0 <? 8)) with ((x0 <=? px) && (px <? x0 + 8)); [done|]. apply eq_true_iff_eq. lia.
      * rewrite andb_false_r. destruct (existsb _ (upto 8)) eqn:E; [|done]. apply existsb_exists in E as (k & _ & Hk). rewrite andb_false_r in Hk. done.
  - intros px py o _. cbn beta. destruct ((x0 <=? px) && (px <? x0 + 8)) eqn:E; cbn [andb].
    + rewrite (existsb_upto 8 _ (py - y0)) by (intros k; lia). replace ((0 <=? py - y0) && (py - y0 <? 8)) with ((y0 <=? py) && (py <? y0 + 8)); [done|].
      apply eq_true_iff_eq. lia.
    + destruct (existsb _ (upto 8)) eqn:E2; [|done]. apply existsb_exists in E2 as (k & _ & Hk). done.
Qed.

Definition glyph_bit (bm : list Z) (px py : Z) : bool := Z.testbit (nth (Z.to_nat (py mod 8)) bm 0) (px mod 8).
Definition in_square (x0 y0 px py : Z) : bool := (x0 <=? px) && (px <? x0 + 8) && (y0 <=? py) && (py <? y0 + 8).

Lemma bitmap_bit_glyph bm x y : length bm = 8%nat -> 0 <= x < 8 -> 0 <= y < 8 -> bitmap_bit bm 8 x y = Some (Z.testbit (nth (Z.to_nat y) bm 0) x).
Proof.
  intros Hl Hx Hy. unfold bitmap_bit. change (8 / 8) with 1. rewrite (Z.div_small x 8) by lia. replace (y * 1 + 0) with y by lia.
  destruct (lookup_lt_is_Some_2 bm (Z.to_nat y)) as [b Hb]; [lia|]. rewrite Hb. cbn. by rewrite (nth_lookup_Some _ _ _ _ Hb).
Qed.

Lemma paints_bitmap c bm x0 y0 : length bm = 8%nat -> 0 <= x0 -> x0 + 8 <= 320 -> 0 <= y0 -> y0 + 8 <= 200 -> x0 mod 8 = 0 -> y0 mod 8 = 0 ->
  paints c (draw_bitmap bm x0 y0 8 8) (fun px py o => if in_square x0 y0 px py then Some (if glyph_bit bm px py then 0x0F else 0x00) else o).
Proof.
  intros Hl Hx Hx8 Hy Hy8 Hxm Hym. apply (paints_square c x0 y0 (fun y x => _) (fun px py o => Some (if glyph_bit bm px py then 0x0F else 0x00))); try done.
  intros x y Hxr Hyr. rewrite bitmap_bit_glyph by done. unfold of_option. eapply paints_ext.
  - intros f. rewrite <- Z.add_assoc. exact (paints_pixel c (x0 + x) (y0 + y) (if Z.testbit (nth (Z.to_nat y) bm 0) x then 0x0F else 0x00) ltac:(split; lia) f).
  - intros px py o _. cbn beta. destruct ((px =? x0 + x) && (py =? y0 + y)) eqn:E; [|done]. assert (px = x0 + x /\ py = y0 + y) as [-> ->] by lia.
    unfold glyph_bit. by rewrite (Z.add_mod x0), (Z.add_mod y0), Hxm, Hym, !Z.add_0_l, !Z.mod_mod, !Z.mod_small by lia.
Qed.
Lemma paints_transparent c bm x0 y0 : length bm = 8%nat -> 0 <= x0 -> x0 + 8 <= 320 -> 0 <= y0 -> y0 + 8 <= 200 -> x0 mod 8 = 0 -> y0 mod 8 = 0 ->
  paints c (draw_bitmap_transparent bm x0 y0 8 8) (fun px py o => if in_square x0 y0 px py then (if glyph_bit bm px py then Some 0x0F else o) else o).
Proof.
  intros Hl Hx Hx8 Hy Hy8 Hxm Hym. apply (paints_square c x0 y0 (fun y x => _) (fun px py o => if glyph_bit bm px py then Some 0x0F else o)); try done.
  intros x y Hxr Hyr. rewrite bitmap_bit_glyph by done. unfold of_option.
  assert (forall px py, (px =? x0 + x) && (py =? y0 + y) = true -> glyph_bit bm px py = Z.testbit (nth (Z.to_nat y) bm 0) x) as Hg.
  { intros px py E. assert (px = x0 + x /\ py = y0 + y) as [-> ->] by lia.
    unfold glyph_bit. by rewrite (Z.add_mod x0), (Z.add_mod y0), Hxm, Hym, !Z.add_0_l, !Z.mod_mod, !Z.mod_small by lia. }
  destruct (Z.testbit _ x).
  - eapply paints_ext.
    + intros f. rewrite <- Z.add_assoc. exact (paints_pixel c (x0 + x) (y0 + y) 0x0F ltac:(split; lia) f).
    + intros px py o _. cbn beta. destruct ((px =? x0 + x) && (py =? y0 + y)) eqn:E; [|done]. by rewrite Hg.
  - eapply paints_ext; [exact (paints_ret c)|]. intros px py o _. cbn beta. destruct ((px =? x0 + x) && (py =? y0 + y)) eqn:E; [|done]. by rewrite Hg.
Qed.

(** ** The screen *)

Definition glyph (ch : Z) : list Z := default font_not_found (font_lookup ch).
Lemma font_basic_rows : forallb (fun b => Nat.eqb (length b) 8) font_basic = true.
Proof. vm_compute. reflexivity. Qed.
Lemma font_lookup_glyph ch : font_lookup ch = Some (glyph ch) /\ length (glyph ch) = 8%nat.
Proof.
  unfold glyph, font_lookup. destruct (Z.ltb_spec (u8 ch) 128) as [H|H]; [|done].
  assert (0 <= u8 ch) by (apply Z.mod_pos_bound; done).
  destruct (lookup_lt_is_Some_2 font_basic (Z.to_nat (u8 ch))) as [b Hb]; [change (length font_basic) with 128%nat; lia|]. rewrite Hb. split; [done|]. cbn [default from_option].
  pose proof font_basic_rows as Hf. rewrite forallb_forall in Hf. apply Nat.eqb_eq, Hf, list_elem_of_In, (list_elem_of_lookup_2 _ _ _ Hb).
Qed.

(** The byte of a pixel of character [x] of ring row [by], under the cursor or not. *)
Definition cell_pixel (c : core) (x row px py : Z) : Z :=
  if glyph_bit (glyph (cell c x row)) px py || ((cur_x c =? x) && (cur_y c =? row) && cursor_on c && glyph_bit (glyph 95) px py) then 0x0F else 0x00.

Lemma paints_get c k m g : (forall f, k (Console c f) = m) -> paints c m g -> paints c (bind get k) g.
Proof. intros Hk Hm f. rewrite bind_get, Hk. apply Hm. Qed.

Lemma paints_cell c x y row : 0 <= x < WINDOW_WIDTH -> 0 <= y < WINDOW_HEIGHT -> in_buffer x row = true ->
  paints c (draw_cell x y row) (fun px py o => if in_square (x * 8) ((WINDOW_HEIGHT - y - 1) * 8) px py then Some (cell_pixel c x row px py) else o).
Proof.
  change WINDOW_WIDTH with 40. change WINDOW_HEIGHT with 25. intros Hx Hy Hin. set (x0 := x * 8). set (y0 := (25 - y - 1) * 8).
  assert (x0 mod 8 = 0) as Hx0 by apply Z_mod_mult. assert (y0 mod 8 = 0) as Hy0 by apply Z_mod_mult.
  destruct (font_lookup_glyph (cell c x row)) as [E1 L1], (font_lookup_glyph 95) as [E2 L2].
  assert (paints c (do! draw_bitmap (glyph (cell c x row)) x0 y0 8 8;
     let! s := get in if (cur_x (core_of s) =? x) && (cur_y (core_of s) =? row) && cursor_on (core_of s) then draw_bitmap_transparent (glyph 95) x0 y0 8 8 else ret tt)
     (fun px py o => if in_square x0 y0 px py then Some (cell_pixel c x row px py) else o)) as Hp.
  { destruct ((cur_x c =? x) && (cur_y c =? row) && cursor_on c) eqn:Ec.
    - eapply paints_ext; [apply paints_bind; [apply paints_bitmap; unfold x0, y0; done || lia|eapply paints_get; [intros f; cbn [core_of]; rewrite Ec; reflexivity|apply paints_transparent; unfold x0, y0; done || lia]]|].
      intros px py o _. cbn beta. unfold cell_pixel. rewrite Ec. cbn [andb]. destruct (in_square x0 y0 px py); [|done]. by destruct (glyph_bit (glyph 95) px py), (glyph_bit _ px py).
    - eapply paints_ext; [apply paints_bind; [apply paints_bitmap; unfold x0, y0; done || lia|eapply paints_get; [intros f; cbn [core_of]; rewrite Ec; reflexivity|apply paints_ret]]|].
      intros px py o _. cbn beta. unfold cell_pixel. rewrite Ec. cbn [andb]. by rewrite orb_false_r. }
  intros f. destruct (Hp f) as (f' & E & H). exists f'. split; [|exact H]. rewrite <- E. unfold draw_cell, get_cell. rewrite Hin, E2.
  change WINDOW_HEIGHT with 25. fold x0 y0. unfold guard_or. rewrite bind_assoc, bind_ret_l, bind_assoc, bind_get, bind_ret_l. cbn [core_of]. rewrite E1. reflexivity.
Qed.

(** What [write] keeps: the row after the current one is the next to be
    recycled, and the view follows the cursor. *)
Record ring_ok (c : core) : Prop := RingOk {
  ro_y : 0 <= cur_y c < BUFFER_HEIGHT;
  ro_x : 0 <= cur_x c <= WINDOW_WIDTH;
  ro_view : view_y c = cur_y c;
  ro_start : buffer_start c = (cur_y c + 1) mod BUFFER_HEIGHT
}.
(** The row of the ring [k] lines up. *)
Definition ring_row (c : core) (k : Z) : Z := (cur_y c - k) mod BUFFER_HEIGHT.

Lemma paints_row c y : ring_ok c -> 0 <= y < WINDOW_HEIGHT ->
  paints c (draw_row y) (fun px py o => if py / 8 =? WINDOW_HEIGHT - y - 1 then Some (cell_pixel c (px / 8) (ring_row c (WINDOW_HEIGHT - 1 - py / 8)) px py) else o).
Proof.
  intros [Hcy _ Hv Hst] Hy. set (row := ring_row c y). assert (Z.rem (view_y c - y + BUFFER_HEIGHT) BUFFER_HEIGHT = row) as Er.
  { unfold row, ring_row. rewrite Hv. unfold BUFFER_HEIGHT, WINDOW_HEIGHT in *. change (200 / 8) with 25 in *. rewrite Z.rem_mod_nonneg by lia.
    replace (cur_y c - y + 50) with (cur_y c - y + 1 * 50) by lia. apply Z.mod_add. done. }
  unfold draw_row. apply (paints_get c _ (for_each (upto WINDOW_WIDTH) (fun x => draw_cell x y row))).
  { intros f. cbn [core_of]. rewrite Er. match goal with |- (if ?b then _ else _) = _ => replace b with true; [done|] end. symmetry.
    rewrite Hst, Hv. unfold row, ring_row, BUFFER_HEIGHT, WINDOW_HEIGHT in *. change (200 / 8) with 25 in *.
    assert ((cur_y c - y) mod 50 = if cur_y c <? y then cur_y c - y + 50 else cur_y c - y) as ->.
    { destruct (Z.ltb_spec (cur_y c) y); [|by apply Z.mod_small; lia]. symmetry. apply Z.mod_unique with (-1); lia. }
    assert ((cur_y c + 1) mod 50 = if cur_y c =? 49 then 0 else cur_y c + 1) as ->.
    { destruct (Z.eqb_spec (cur_y c) 49) as [->|]; [done|]. apply Z.mod_small. lia. }
    destruct (Z.ltb_spec (cur_y c) y), (Z.eqb_spec (cur_y c) 49); lia. }
  assert (0 <= row < BUFFER_HEIGHT) as Hrow by (apply Z.mod_pos_bound; done).
  unfold WINDOW_WIDTH, WINDOW_HEIGHT in *. change (320 / 8) with 40. change (200 / 8) with 25 in *.
  eapply paints_ext.
  - apply (paints_loop (fun px py x => in_square (x * 8) ((25 - y - 1) * 8) px py) (fun px py o => Some (cell_pixel c (px / 8) row px py)));
      [|unfold in_square; intros; lia|apply NoDup_upto].
    intros x Hx%elem_of_upto. eapply paints_ext; [apply paints_cell; [change WINDOW_WIDTH with 40; done|done|unfold in_buffer; change WINDOW_WIDTH with 40; unfold BUFFER_HEIGHT in *; andb_lia]|].
    change WINDOW_HEIGHT with 25. intros px py o _. cbn beta. destruct (in_square _ _ px py) eqn:E; [|done]. unfold in_square in E.
    replace (px / 8) with x; [done|]. apply Z.div_unique with (px - 8 * x); lia.
  - intros px py o [Hpx Hpy]. cbn beta. destruct (Z.eqb_spec (py / 8) (25 - y - 1)) as [Ey|Ey].
    + assert (existsb (fun x => in_square (x * 8) ((25 - y - 1) * 8) px py) (upto 40) = true) as ->.
      { apply existsb_exists. exists (px / 8). split; [apply list_elem_of_In, elem_of_upto; split; [apply Z.div_pos|apply Z.div_lt_upper_bound]; lia|]. unfold in_square.
        pose proof (Z.div_mod px 8 ltac:(lia)). pose proof (Z.mod_pos_bound px 8 ltac:(lia)). pose proof (Z.div_mod py 8 ltac:(lia)). pose proof (Z.mod_pos_bound py 8 ltac:(lia)). andb_lia. }
      unfold row. do 3 f_equal. lia.
    + destruct (existsb _ _) eqn:E; [|done]. exfalso. apply existsb_exists in E as (x & _ & Hin). unfold in_square in Hin. apply Ey. symmetry.
      apply Z.div_unique with (py - 8 * (25 - y - 1)); lia.
Qed.

Definition screen_pixel (c : core) (px py : Z) : Z := cell_pixel c (px / 8) (ring_row c (WINDOW_HEIGHT - 1 - py / 8)) px py.

Lemma paints_update c : ring_ok c -> bound c = true -> paints c terminal_update (fun px py _ => Some (screen_pixel c px py)).
Proof.
  intros Hro Hb. apply (paints_get c _ (for_each (upto WINDOW_HEIGHT) draw_row)); [intros f; cbn [core_of]; by rewrite Hb|]. eapply paints_ext.
  - apply (paints_loop (fun px py y => py / 8 =? WINDOW_HEIGHT - y - 1) (fun px py o => Some (screen_pixel c px py)));
      [intros y Hy%elem_of_upto; by apply paints_row|intros; lia|apply NoDup_upto].
  - intros px py o [_ Hpy]. cbn beta. change WINDOW_HEIGHT with 25. assert (existsb (fun y => py / 8 =? 25 - y - 1) (upto 25) = true) as ->; [|done].
    assert (0 <= py / 8 < 25) by (split; [apply Z.div_pos|apply Z.div_lt_upper_bound]; lia).
    apply existsb_exists. exists (24 - py / 8). split; [apply list_elem_of_In, elem_of_upto|]; lia.
Qed.

(** ** The terminal as lines of text

    The newest line first; a line that was never reached is all zero bytes. *)

Record term := Term { t_rows : list (list Z); t_col : Z }.
Definition line (t : term) (k : Z) : list Z := nth (Z.to_nat k) (t_rows t) (replicate 40 0).
Definition char_at (t : term) (x k : Z) : Z := nth (Z.to_nat x) (line t k) 0.

Definition type_char (t : term) (ch : Z) : term :=
  if ch =? 10 then Term (replicate 40 32 :: t_rows t) 0
  else if ch =? 13 then Term (t_rows t) 0
  else if ch =? 8 then Term (t_rows t) ((t_col t - 1 + 40) mod 40)
  else if t_col t <? 40 then Term (<[Z.to_nat (t_col t) := ch]> (line t 0) :: tail (t_rows t)) (t_col t + 1)
  else t.
(** A pixel of the 25 newest lines, with a cursor below the current column. *)
Definition term_pixel (t : term) (cursor : bool) (px py : Z) : Z :=
  let x := px / 8 in let k := 24 - py / 8 in
  if glyph_bit (glyph (char_at t x k)) px py || ((x =? t_col t) && (k =? 0) && cursor && glyph_bit (glyph 95) px py) then 0x0F else 0x00.

(** The ring holds the 50 newest lines. *)
Record shows_term (c : core) (t : term) : Prop := ShowsTerm {
  st_ring : ring_ok c;
  st_col : cur_x c = t_col t;
  st_rows : t_rows t <> [];
  st_len : Forall (fun l => length l = 40%nat) (t_rows t);
  st_cells x k : 0 <= x < 40 -> 0 <= k < 50 -> cell c x (ring_row c k) = char_at t x k
}.

Ltac ltb_lia :=
  repeat match goal with
  | |- context [?a <? ?b] => destruct (Z.ltb_spec a b)
  | |- context [?a =? ?b] => destruct (Z.eqb_spec a b)
  end; lia.

Lemma ring_row_0 c : ring_ok c -> ring_row c 0 = cur_y c.
Proof. intros [Hy _ _ _]. unfold ring_row. rewrite Z.sub_0_r. by apply Z.mod_small. Qed.
Lemma ring_row_eq c k : ring_ok c -> 0 <= k < 50 -> ring_row c k = (if cur_y c <? k then cur_y c - k + 50 else cur_y c - k).
Proof.
  intros [Hy _ _ _] Hk. unfold ring_row, BUFFER_HEIGHT in *. destruct (Z.ltb_spec (cur_y c) k); [|by apply Z.mod_small; lia].
  symmetry. apply Z.mod_unique with (-1); lia.
Qed.
Lemma start_eq c : ring_ok c -> buffer_start c = if cur_y c =? 49 then 0 else cur_y c + 1.
Proof.
  intros [Hy _ _ ->]. unfold BUFFER_HEIGHT in *. destruct (Z.eqb_spec (cur_y c) 49) as [-> |]; [done|]. apply Z.mod_small. lia.
Qed.
Lemma line_length t k : Forall (fun l => length l = 40%nat) (t_rows t) -> length (line t k) = 40%nat.
Proof.
  intros H. unfold line. destruct (nth_in_or_default (Z.to_nat k) (t_rows t) (replicate 40 0)) as [Hin| ->]; [|done].
  rewrite Forall_forall in H. by apply H, list_elem_of_In.
Qed.

Lemma fill_row r v f xs : forall c, 0 <= r < BUFFER_HEIGHT -> (forall x, (x ∈ xs) -> 0 <= x < WINDOW_WIDTH) ->
  exists m, for_each xs (fun j => put_cell j r v) (Console c f) = Done (tt, Console (set_cells m c) f) /\
    forall x y, m !! (x, y) = if bool_decide (x ∈ xs) && (y =? r) then Some v else cells c !! (x, y).
Proof.
  induction xs as [|x0 xs IH]; intros c Hr Hxs; cbn [for_each].
  - exists (cells c). split; [by destruct c|]. intros x y. rewrite bool_decide_false by apply not_elem_of_nil. done.
  - set (c1 := set_cells (<[(x0, r) := v]> (cells c)) c). assert (put_cell x0 r v (Console c f) = Done (tt, Console c1 f)) as E.
    { unfold put_cell, guard_or, in_buffer. pose proof (Hxs x0 ltac:(by left)).
      replace ((0 <=? x0) && (x0 <? WINDOW_WIDTH) && (0 <=? r) && (r <? BUFFER_HEIGHT)) with true by (symmetry; andb_lia). done. }
    rewrite (bind_done _ _ _ _ _ E). destruct (IH c1 Hr) as (m & E2 & Hm); [intros x Hx; apply Hxs; by right|]. exists m. split; [exact E2|].
    intros x y. rewrite Hm. cbn [cells c1 set_cells]. destruct (Z.eqb_spec y r) as [->|Hne]; rewrite ?andb_true_r, ?andb_false_r.
    + destruct (decide (x = x0)) as [->|Hx].
      * rewrite lookup_insert_eq, (bool_decide_true (x0 ∈ x0 :: xs)) by (by left). by case_bool_decide.
      * rewrite lookup_insert_ne by congruence. do 2 (case_bool_decide; try done); set_solver.
    + rewrite lookup_insert_ne by congruence. done.
Qed.

Lemma newline_done c f : ring_ok c -> exists c', write_char 10 (Console c f) = Done (tt, Console c' f) /\ bound c' = bound c /\ cursor_on c' = cursor_on c /\
  cur_x c' = 0 /\ cur_y c' = buffer_start c /\ ring_ok c' /\ forall x y, 0 <= x < 40 -> cell c' x y = if y =? buffer_start c then 32 else cell c x y.
Proof.
  intros Hro. pose proof (start_eq c Hro) as Hst. pose proof Hro as [Hy Hx Hv Hs]. unfold BUFFER_HEIGHT in Hy.
  assert (0 <= buffer_start c < 50) as Hb by (rewrite Hst; ltb_lia).
  assert (u8 (Z.rem (cur_y c + 1) BUFFER_HEIGHT) = buffer_start c) as Ecy.
  { rewrite Hs, Z.rem_mod_nonneg by (unfold BUFFER_HEIGHT; lia). apply Z.mod_small. pose proof (Z.mod_pos_bound (cur_y c + 1) BUFFER_HEIGHT ltac:(done)). unfold BUFFER_HEIGHT in *. lia. }
  unfold write_char. rewrite bind_get. cbn [Z.eqb Pos.eqb core_of]. unfold upd_core at 1. rewrite bind_modify. cbn [core_of frame_buffer].
  set (c1 := set_cur 0 _ c). assert (cur_y c1 = buffer_start c) as Ec1 by (unfold c1; cbn [cur_y set_cur]; exact Ecy).
  rewrite bind_get. cbn [core_of]. change (buffer_start c1) with (buffer_start c). rewrite Ec1, Z.eqb_refl.
  destruct (fill_row (buffer_start c) 32 f (upto WINDOW_WIDTH) c1) as (m & E & Hm); [exact Hb|intros x Hx2; by apply elem_of_upto|].
  rewrite bind_assoc, (bind_done _ _ _ _ _ E). unfold upd_core. rewrite !bind_modify. cbn [core_of frame_buffer].
  set (c2 := set_view (cur_y c1) (set_start (u8 (Z.rem (buffer_start c + 1) BUFFER_HEIGHT)) (set_cells m c1))).
  exists c2. split; [reflexivity|]. split; [done|]. split; [done|]. split; [done|]. split; [exact Ec1|].
  split.
  - split; [change (cur_y c2) with (cur_y c1); rewrite Ec1; exact Hb|change (cur_x c2) with 0; change WINDOW_WIDTH with 40; lia|reflexivity|].
    change (cur_y c2) with (cur_y c1). rewrite Ec1. change (buffer_start c2) with (u8 (Z.rem (buffer_start c + 1) BUFFER_HEIGHT)).
    rewrite Z.rem_mod_nonneg by (unfold BUFFER_HEIGHT; lia). apply Z.mod_small. pose proof (Z.mod_pos_bound (buffer_start c + 1) BUFFER_HEIGHT ltac:(done)). unfold BUFFER_HEIGHT in *. lia.
  - intros x y Hx40. change (cell c2 x y) with (default 0 (m !! (x, y))). rewrite Hm, bool_decide_true by (by apply elem_of_upto). cbn [andb].
    by destruct (y =? buffer_start c).
Qed.

Lemma char_at_newline t x k : 0 <= x < 40 -> 0 <= k -> char_at (Term (replicate 40 32 :: t_rows t) 0) x k = if k =? 0 then 32 else char_at t x (k - 1).
Proof.
  intros Hx Hk. unfold char_at, line. cbn [t_rows]. destruct (Z.eqb_spec k 0) as [->|Hk0].
  - change (Z.to_nat 0) with 0%nat. cbn [nth]. rewrite nth_lookup, lookup_replicate_2 by lia. done.
  - destruct (Z.to_nat k) as [|n] eqn:E; [lia|]. cbn [nth]. by replace (Z.to_nat (k - 1)) with n by lia.
Qed.

Lemma write_char_spec c t ch f : shows_term c t -> exists c', write_char ch (Console c f) = Done (tt, Console c' f) /\ shows_term c' (type_char t ch) /\
  bound c' = bound c /\ cursor_on c' = cursor_on c.
Proof.
  intros [Hro Hcol Hne Hlen Hcells]. pose proof Hro as [Hy Hx Hv Hs]. change WINDOW_WIDTH with 40 in Hx. unfold type_char. destruct (Z.eqb_spec ch 10) as [->|H10].
  { destruct (newline_done c f Hro) as (c' & E & Hb & Hc & Hx' & Hy' & Hro' & Hcell). exists c'. split; [exact E|]. split; [|done].
    split; [done|done|done|by constructor|]. intros x k Hx2 Hk. rewrite char_at_newline by lia. rewrite Hcell by done. rewrite ring_row_eq, Hy' by done.
    pose proof (start_eq c Hro) as Hst. unfold BUFFER_HEIGHT in Hy.
    destruct (Z.eqb_spec k 0) as [->|Hk0].
    - replace (buffer_start c <? 0) with false by (symmetry; apply Z.ltb_ge; rewrite Hst; destruct (Z.eqb_spec (cur_y c) 49); lia).
      by rewrite Z.sub_0_r, Z.eqb_refl.
    - rewrite <- (Hcells x (k - 1)) by lia. rewrite ring_row_eq by (done || lia).
      assert ((if buffer_start c <? k then buffer_start c - k + 50 else buffer_start c - k) =
              (if cur_y c <? k - 1 then cur_y c - (k - 1) + 50 else cur_y c - (k - 1))) as ->.
      { rewrite Hst. ltb_lia. }
      rewrite (proj2 (Z.eqb_neq _ _)); [done|]. rewrite Hst. ltb_lia. }
  unfold write_char. rewrite bind_get. cbn [core_of]. rewrite (proj2 (Z.eqb_neq ch 10)) by done. destruct (Z.eqb_spec ch 13) as [->|H13].
  { eexists. split; [reflexivity|]. split; [|done]. split; [split; cbn; [done|change WINDOW_WIDTH with 40; lia|done|done]|done|done|done|exact Hcells]. }
  destruct (Z.eqb_spec ch 8) as [->|H8].
  { assert (u8 (Z.rem (cur_x c - 1 + WINDOW_WIDTH) WINDOW_WIDTH) = (t_col t - 1 + 40) mod 40) as E8.
    { change WINDOW_WIDTH with 40. rewrite <- Hcol, Z.rem_mod_nonneg by lia. apply Z.mod_small. pose proof (Z.mod_pos_bound (cur_x c - 1 + 40) 40). lia. }
    eexists. split; [reflexivity|]. split; [|done]. pose proof (Z.mod_pos_bound (t_col t - 1 + 40) 40 ltac:(lia)).
    split; [split; cbn -[Z.modulo Z.rem]; [done|rewrite E8; change WINDOW_WIDTH with 40; lia|done|done]|exact E8|done|done|exact Hcells]. }
  change WINDOW_WIDTH with 40. rewrite <- Hcol. destruct (Z.ltb_spec (cur_x c) 40) as [Hlt|Hge].
  - assert (put_cell (cur_x c) (cur_y c) ch (Console c f) = Done (tt, Console (set_cells (<[(cur_x c, cur_y c) := ch]> (cells c)) c) f)) as E.
    { unfold put_cell, guard_or, in_buffer. change WINDOW_WIDTH with 40. replace ((0 <=? cur_x c) && (cur_x c <? 40) && (0 <=? cur_y c) && (cur_y c <? BUFFER_HEIGHT)) with true by (symmetry; andb_lia). done. }
    rewrite bind_assoc, (bind_done _ _ _ _ _ E). unfold upd_core. rewrite !bind_modify. cbn [core_of frame_buffer]. eexists. split; [reflexivity|]. split; [|done].
    assert (u8 (cur_x c + 1) = cur_x c + 1) as Eu by (apply Z.mod_small; lia).
    split; [split; cbn -[Z.modulo u8]; [done|change WINDOW_WIDTH with 40; rewrite Eu; lia|done|done]|exact Eu|done| |].
    + cbn [t_rows]. constructor; [rewrite length_insert; by apply line_length|]. destruct (t_rows t); [done|]. by apply Forall_cons in Hlen as [_ ?].
    + intros x k Hx2 Hk. cbn [t_rows]. match goal with |- cell ?c' _ _ = _ => change (ring_row c' k) with (ring_row c k) end.
      match goal with |- cell ?c' ?x ?y = _ => change (cell c' x y) with (default 0 (<[(cur_x c, cur_y c) := ch]> (cells c) !! (x, y))) end.
      unfold char_at, line at 1. cbn [t_rows]. destruct (decide (k = 0)) as [->|Hk0].
      * rewrite ring_row_0 by done. change (Z.to_nat 0) with 0%nat. cbn [nth]. destruct (decide (x = cur_x c)) as [->|Hne2].
        -- rewrite lookup_insert_eq. cbn. rewrite nth_lookup, list_lookup_insert_eq by (rewrite line_length by done; lia). done.
        -- rewrite lookup_insert_ne by congruence. rewrite nth_lookup, list_lookup_insert_ne, <- nth_lookup by lia.
           rewrite <- (ring_row_0 c Hro). exact (Hcells x 0 Hx2 ltac:(lia)).
      * rewrite lookup_insert_ne. 2: { intros [= _ Hc]. rewrite ring_row_eq in Hc by done. unfold BUFFER_HEIGHT in Hy. destruct (Z.ltb_spec (cur_y c) k); lia. }
        fold (cell c x (ring_row c k)). rewrite Hcells by done. unfold char_at, line. destruct (Z.to_nat k) as [|n] eqn:En; [lia|]. cbn [nth]. by destruct (t_rows t).
  - rewrite bind_ret_l. eexists. split; [reflexivity|]. split; [|done]. split; [split; cbn; [done|exact Hx|done|done]|done|done|done|exact Hcells].
Qed.

Lemma screen_term c t px py : shows_term c t -> on_screen px py -> screen_pixel c px py = term_pixel t (cursor_on c) px py.
Proof.
  intros [Hro Hcol Hne Hlen Hcells] [Hpx Hpy]. assert (0 <= px / 8 < 40) by (split; [apply Z.div_pos|apply Z.div_lt_upper_bound]; lia).
  assert (0 <= py / 8 < 25) by (split; [apply Z.div_pos|apply Z.div_lt_upper_bound]; lia).
  unfold screen_pixel, term_pixel, cell_pixel. change (WINDOW_HEIGHT - 1) with 24. rewrite Hcells by lia. cbn zeta. rewrite Hcol.
  assert ((cur_y c =? ring_row c (24 - py / 8)) = (24 - py / 8 =? 0)) as ->; [|by rewrite (Z.eqb_sym (t_col t))].
  rewrite ring_row_eq by (done || lia). destruct Hro as [Hy _ _ _]. unfold BUFFER_HEIGHT in Hy. apply eq_true_iff_eq. rewrite !Z.eqb_eq. destruct (Z.ltb_spec (cur_y c) (24 - py / 8)); lia.
Qed.

Lemma write_chars_spec buffer : forall c t f, shows_term c t -> exists c', for_each buffer write_char (Console c f) = Done (tt, Console c' f) /\
  shows_term c' (foldl type_char t buffer) /\ bound c' = bound c /\ cursor_on c' = cursor_on c.
Proof.
  induction buffer as [|ch buffer IH]; intros c t f Hr; cbn [for_each foldl]; [by exists c|].
  destruct (write_char_spec c t ch f Hr) as (c1 & E1 & Hr1 & Hb1 & Hc1). destruct (IH c1 (type_char t ch) f Hr1) as (c2 & E2 & Hr2 & Hb2 & Hc2).
  exists c2. rewrite (bind_done _ _ _ _ _ E1). split; [done|]. split; [done|]. split; congruence.
Qed.

(** C13: The screen shows what was written: while the console is bound to the
    display, writing any bytes returns their number, and then every one of the
    320 by 200 pixels is that of the 25 newest lines of the text, in the font,
    with the cursor under the current column; the ring goes on to hold the
    text, so this is true of any sequence of writes.  A newline starts a line
    of spaces, characters past column 40 are dropped, a carriage return goes
    to column 0 and a backspace one column back, from 0 to 39. *)
Theorem terminal_shows_text buffer c f t (Hr : shows_term c t) (Hb : bound c = true) :
  exists c' f', write buffer (Console c f) = Done (Z.of_nat (length buffer), Console c' f') /\ bound c' = true /\
    shows_term c' (foldl type_char t buffer) /\
    forall px py, on_screen px py -> pixel f' px py = Some (term_pixel (foldl type_char t buffer) (cursor_on c || negb (bool_decide (buffer = []))) px py).
Proof.
  set (c0 := if bool_decide (buffer = []) then c else set_cursor_on true c).
  assert (shows_term c0 t /\ bound c0 = true /\ cursor_on c0 = cursor_on c || negb (bool_decide (buffer = []))) as (Hr0 & Hb0 & Hc0).
  { unfold c0. case_bool_decide; cbn; [by rewrite orb_false_r|]. rewrite orb_true_r. split; [|done]. destruct Hr as [[] ]. by split. }
  destruct (write_chars_spec buffer c0 t f Hr0) as (c1 & E1 & Hr1 & Hb1 & Hc1). pose proof (st_ring _ _ Hr1) as Hro1. rewrite Hb0 in Hb1.
  destruct (paints_update c1 Hro1 Hb1 f) as (f' & E2 & Hp). exists c1, f'. unfold write.
  assert ((if bool_decide (buffer = []) then ret tt else upd_core (set_cursor_on true)) (Console c f) = Done (tt, Console c0 f)) as E0 by (unfold c0; by case_bool_decide).
  rewrite (bind_done _ _ _ _ _ E0), (bind_done _ _ _ _ _ E1), (bind_done _ _ _ _ _ E2). split; [done|]. split; [done|]. split; [done|].
  intros px py Hs. by rewrite Hp, (screen_term _ _ _ _ Hr1 Hs), Hc1, Hc0.
Qed.

(** ** From the start *)

Definition first_line : term := Term [replicate 40 0] 0.
Lemma init_shows f : shows_term (core_of (init_console f)) first_line.
Proof.
  split; [split; [done|done|reflexivity|reflexivity]|reflexivity|discriminate|by repeat constructor|].
  intros x k Hx Hk. change (cell _ x _) with 0. unfold char_at, line, first_line. cbn [t_rows].
  assert (forall n, nth (Z.to_nat x) (replicate n 0) 0 = 0) as Hz.
  { intros n. rewrite nth_lookup. destruct (replicate n 0 !! Z.to_nat x) as [v|] eqn:E; [|done]. by apply lookup_replicate in E as [-> _]. }
  destruct (Z.to_nat k) as [|[|n]]; cbn [nth]; by rewrite Hz.
Qed.

Lemma terminal_shows_text_witness : exists c' f', write [72; 105; 10; 33; 8] (Console (core_of (init_console ∅)) ∅) = Done (5, Console c' f') /\ bound c' = true /\
  shows_term c' (foldl type_char first_line [72; 105; 10; 33; 8]) /\
  forall px py, on_screen px py -> pixel f' px py = Some (term_pixel (foldl type_char first_line [72; 105; 10; 33; 8]) true px py).
Proof. exact (terminal_shows_text [72; 105; 10; 33; 8] (core_of (init_console ∅)) ∅ first_line (init_shows ∅) eq_refl). Defined.
