(* ===== verification/Dll.v ===== *)
(** * Dll: the intrusive doubly linked lists of the kernel

    Timers, waiters, run queues, devices, processes, mappings, file systems,
    directory entry nodes, ttys, modules and sysfs entries are all chained the
    same way: a [head] and a [tail] sentinel object and a [next]/[prev] pair in
    every element.  This file models the pointer surgery itself on a store of
    links and proves that it implements the operations on lists that the other
    component files use: insertion after the head sentinel ([timer_init]),
    insertion before the tail sentinel ([scheduler_queue]), unlinking
    ([timer_free], [waiter_free]) and the walk [head.next .. &tail]. *)
From S2P Require Import Prelude.

Record link := Link { next : Z; prev : Z }.
Abbreviation links := (gmap Z link).

Definition NULL : Z := 0.

(** Field accesses through a pointer; an address that holds no list element
    is a wild pointer. *)
Definition read_next (p : Z) : M links Z :=
  fun m => match m !! p with Some l => Done (next l, m) | None => Stop Undefined end.
Definition read_prev (p : Z) : M links Z :=
  fun m => match m !! p with Some l => Done (prev l, m) | None => Stop Undefined end.
Definition write_next (p v : Z) : M links unit :=
  fun m => match m !! p with
           | Some l => Done (tt, <[p := Link v (prev l)]> m)
           | None => Stop Undefined
           end.
Definition write_prev (p v : Z) : M links unit :=
  fun m => match m !! p with
           | Some l => Done (tt, <[p := Link (next l) v]> m)
           | None => Stop Undefined
           end.

(** [head.next = &tail; head.prev = NULL; tail.next = NULL; tail.prev = &head;] *)
Definition dll_init (head tail : Z) : M links unit :=
  do! write_next head tail;
  do! write_prev head NULL;
  do! write_next tail NULL;
  write_prev tail head.

(** [n->next = head.next; n->prev = &head; head.next->prev = n; head.next = n;] *)
Definition dll_push_front (head n : Z) : M links unit :=
  let! first := read_next head in
  do! write_next n first;
  do! write_prev n head;
  let! first' := read_next head in
  do! write_prev first' n;
  write_next head n.

(** [n->prev = tail.prev; n->next = &tail; tail.prev->next = n; tail.prev = n;] *)
Definition dll_push_back (tail n : Z) : M links unit :=
  let! last := read_prev tail in
  do! write_prev n last;
  do! write_next n tail;
  let! last' := read_prev tail in
  do! write_next last' n;
  write_prev tail n.

(** [n->next->prev = n->prev; n->prev->next = n->next;] *)
Definition dll_unlink (n : Z) : M links unit :=
  let! nx := read_next n in
  let! pv := read_prev n in
  do! write_prev nx pv;
  let! pv' := read_prev n in
  let! nx' := read_next n in
  write_next pv' nx'.

(** [for (n = head.next; n != &tail; n = n->next)]: the elements met. *)
Fixpoint dll_walk (fuel : nat) (n tail : Z) : M links (list Z) :=
  match fuel with
  | O => stop_with NoFuel
  | S fuel' =>
      if n =? tail then ret []
      else let! nx := read_next n in
           let! rest := dll_walk fuel' nx tail in
           ret (n :: rest)
  end.
Definition dll_elements (fuel : nat) (head tail : Z) : M links (list Z) :=
  let! first := read_next head in dll_walk fuel first tail.

(** ** The abstract list operations and sequences of them *)

Inductive dll_op := PushFront (n : Z) | PushBack (n : Z) | Unlink (n : Z).
Definition op_node (o : dll_op) : Z :=
  match o with PushFront n | PushBack n | Unlink n => n end.

Definition run_op (h t : Z) (o : dll_op) : M links unit :=
  match o with
  | PushFront n => dll_push_front h n
  | PushBack n => dll_push_back t n
  | Unlink n => dll_unlink n
  end.

(** What the callers rely on: an element is pushed only while it is on no
    list and unlinked only while it is on this one. *)
Definition spec_op (h t : Z) (o : dll_op) (xs : list Z) : option (list Z) :=
  match o with
  | PushFront n => if decide (n ∈ h :: xs ++ [t]) then None else Some (n :: xs)
  | PushBack n => if decide (n ∈ h :: xs ++ [t]) then None else Some (xs ++ [n])
  | Unlink n => if decide (n ∈ xs) then Some (remove_first (Z.eqb n) xs) else None
  end.

Fixpoint spec_ops (h t : Z) (os : list dll_op) (xs : list Z) : option (list Z) :=
  match os with
  | [] => Some xs
  | o :: os' => xs' ← spec_op h t o xs; spec_ops h t os' xs'
  end.

(** ** Representation *)

Definition next_of (m : links) (p : Z) : option Z := next <$> m !! p.
Definition prev_of (m : links) (p : Z) : option Z := prev <$> m !! p.

Fixpoint linked (m : links) (l : list Z) : Prop :=
  match l with
  | x :: l' =>
      match l' with
      | y :: _ => next_of m x = Some y /\ prev_of m y = Some x /\ linked m l'
      | [] => is_Some (m !! x)
      end
  | [] => True
  end.

(** [dll m h xs t]: the store holds the list [xs] between the sentinels. *)
Definition dll (m : links) (h : Z) (xs : list Z) (t : Z) : Prop :=
  NoDup (h :: xs ++ [t]) /\ linked m (h :: xs ++ [t]).

Lemma next_of_dom m x y : next_of m x = Some y -> is_Some (m !! x).
Proof. unfold next_of. destruct (m !! x); [eauto|done]. Qed.
Lemma prev_of_dom m x y : prev_of m x = Some y -> is_Some (m !! x).
Proof. unfold prev_of. destruct (m !! x); [eauto|done]. Qed.

Lemma linked_app m l1 x l2 :
  linked m (l1 ++ x :: l2) <-> linked m (l1 ++ [x]) /\ linked m (x :: l2).
Proof.
  induction l1 as [|a l1 IH].
  - simpl. destruct l2 as [|y l2]; [tauto|].
    split; [|tauto]. intros (H1 & H2 & H3). split_and!; try done.
    by eapply next_of_dom.
  - destruct l1 as [|b l1]; simpl in *; [|tauto].
    destruct l2 as [|y l2]; simpl in *; [tauto|]. split; [|tauto].
    intros (? & ? & ? & ? & ?). split_and!; try done. by eapply next_of_dom.
Qed.

Lemma linked_frame m m' l :
  linked m l ->
  (forall z, is_Some (m !! z) -> is_Some (m' !! z)) ->
  (forall z, z ∈ removelast l -> next_of m' z = next_of m z) ->
  (forall z, z ∈ tail l -> prev_of m' z = prev_of m z) ->
  linked m' l.
Proof.
  intros Hl Hd. induction l as [|x l IH]; intros Hn Hp; [done|].
  destruct l as [|y l]; simpl in *; [by apply Hd|].
  destruct Hl as (H1 & H2 & H3). split_and!.
  - rewrite Hn; [done|set_solver].
  - rewrite Hp; [done|set_solver].
  - apply IH; [done| |]; intros z Hz; [apply Hn|apply Hp]; set_solver.
Qed.

Lemma linked_dom m l x : linked m l -> x ∈ l -> is_Some (m !! x).
Proof.
  induction l as [|y l IH]; intros Hl Hx; [set_solver|].
  destruct l as [|z l]; simpl in Hl.
  - by apply list_elem_of_singleton in Hx as ->.
  - destruct Hl as (Hn & _ & Hl). apply elem_of_cons in Hx as [->|Hx]; [|auto].
    by eapply next_of_dom.
Qed.

(** *** Primitive writes *)

Lemma read_next_done m p v : next_of m p = Some v -> read_next p m = Done (v, m).
Proof. unfold next_of, read_next. destruct (m !! p); simpl; congruence. Qed.
Lemma read_prev_done m p v : prev_of m p = Some v -> read_prev p m = Done (v, m).
Proof. unfold prev_of, read_prev. destruct (m !! p); simpl; congruence. Qed.

Ltac dll_cases :=
  unfold next_of, prev_of; split_and!;
  [ by rewrite lookup_insert_eq
  | intros z Hz; by rewrite lookup_insert_ne by done
  | intros z; rewrite lookup_insert; case_decide as E; [subst z|done];
    match goal with H : _ !! _ = Some _ |- _ => by rewrite H end
  | intros z; rewrite lookup_insert_is_Some'; split; [by right|];
    intros [<-|]; eauto ].

Lemma write_next_done m p v : is_Some (m !! p) ->
  exists m', write_next p v m = Done (tt, m') /\ next_of m' p = Some v /\
    (forall z, z <> p -> next_of m' z = next_of m z) /\
    (forall z, prev_of m' z = prev_of m z) /\ (forall z, is_Some (m !! z) <-> is_Some (m' !! z)).
Proof.
  intros [l Hl]. unfold write_next. rewrite Hl. eexists; split; [done|].
  dll_cases.
Qed.

Lemma write_prev_done m p v : is_Some (m !! p) ->
  exists m', write_prev p v m = Done (tt, m') /\ prev_of m' p = Some v /\
    (forall z, z <> p -> prev_of m' z = prev_of m z) /\
    (forall z, next_of m' z = next_of m z) /\ (forall z, is_Some (m !! z) <-> is_Some (m' !! z)).
Proof.
  intros [l Hl]. unfold write_prev. rewrite Hl. eexists; split; [done|].
  dll_cases.
Qed.

Lemma not_elem_of_cons_2 (n h q : Z) r : n ∉ h :: q :: r -> h <> n /\ q <> n /\ n ∉ r.
Proof. rewrite !not_elem_of_cons. naive_solver. Qed.

Lemma NoDup_insert_second (h n : Z) l : NoDup (h :: l) -> n ∉ h :: l -> NoDup (h :: n :: l).
Proof.
  intros [Hh Hl]%NoDup_cons [Hnh Hn]%not_elem_of_cons.
  apply NoDup_cons; rewrite not_elem_of_cons. split; [by split|]. by apply NoDup_cons.
Qed.

Lemma elem_of_removelast {A} (l : list A) x : x ∈ removelast l -> x ∈ l.
Proof.
  induction l as [|y l IH]; simpl; [done|]. destruct l as [|z l]; [intros []%elem_of_nil|].
  rewrite !elem_of_cons in *. naive_solver.
Qed.

(** ** The operations implement the list operations *)

Ltac dll_next := unfold bind at 1; erewrite read_next_done by eassumption.
Ltac dll_prev := unfold bind at 1; erewrite read_prev_done by eassumption.

Lemma dll_split (h : Z) l1 (x : Z) l2 t :
  exists p q r1 r2,
    h :: (l1 ++ x :: l2) ++ [t] = (r1 ++ [p]) ++ x :: q :: r2 /\
    h :: (l1 ++ l2) ++ [t] = (r1 ++ [p]) ++ q :: r2.
Proof.
  destruct (exists_last (l := h :: l1) ltac:(done)) as (r1 & p & E1).
  assert (exists q r2, l2 ++ [t] = q :: r2) as (q & r2 & E2)
    by (destruct l2; simpl; eauto).
  exists p, q, r1, r2. rewrite <- E1, <- E2. split; simpl; by rewrite <- ?app_assoc.
Qed.


(** Initialising two sentinels gives the empty list. *)
Lemma dll_init_spec m h t : h <> t -> is_Some (m !! h) -> is_Some (m !! t) ->
  exists m', dll_init h t m = Done (tt, m') /\ dll m' h [] t.
Proof.
  intros Hne Hh Ht. unfold dll_init.
  destruct (write_next_done m h t Hh) as (m1 & E1 & A1 & B1 & C1 & D1).
  destruct (write_prev_done m1 h NULL) as (m2 & E2 & A2 & B2 & C2 & D2); [by apply D1|].
  destruct (write_next_done m2 t NULL) as (m3 & E3 & A3 & B3 & C3 & D3); [by apply D2, D1|].
  destruct (write_prev_done m3 t h) as (m4 & E4 & A4 & B4 & C4 & D4); [by apply D3, D2, D1|].
  exists m4. split; [by do 3 (erewrite bind_done by eassumption)|].
  split.
  - apply NoDup_cons. split; [set_solver|apply NoDup_singleton].
  - simpl. split_and!; [|done|by apply D4, D3, D2, D1].
    rewrite C4, B3, C2 by done. done.
Qed.

Lemma dll_push_front_spec m h xs t n :
  dll m h xs t -> is_Some (m !! n) -> n ∉ h :: xs ++ [t] ->
  exists m', dll_push_front h n m = Done (tt, m') /\ dll m' h (n :: xs) t /\
    (forall z, is_Some (m !! z) <-> is_Some (m' !! z)).
Proof.
  intros [Hnd Hl] Hn Hni.
  assert (exists q r, xs ++ [t] = q :: r) as (q & r & Eq) by (destruct xs; simpl; eauto).
  rewrite Eq in *. simpl in Hl. destruct Hl as (Hhq & Hqh & Hl).
  pose proof Hni as (Hhn & Hqn & Hrn)%not_elem_of_cons_2.
  apply NoDup_cons in Hnd as [[Hne Hhr]%not_elem_of_cons Hnd].
  assert (Hhd : is_Some (m !! h)) by (by eapply next_of_dom).
  assert (Hqd : is_Some (m !! q)) by (by eapply prev_of_dom).
  destruct (write_next_done m n q Hn) as (m1 & E1 & A1 & B1 & C1 & D1).
  destruct (write_prev_done m1 n h) as (m2 & E2 & A2 & B2 & C2 & D2); [by apply D1|].
  destruct (write_prev_done m2 q n) as (m3 & E3 & A3 & B3 & C3 & D3); [by apply D2, D1|].
  destruct (write_next_done m3 h n) as (m4 & E4 & A4 & B4 & C4 & D4); [by apply D3, D2, D1|].
  assert (Hq2 : next_of m2 h = Some q) by (rewrite C2, B1; done).
  exists m4. split; [|split].
  - unfold dll_push_front.
    rewrite (bind_done _ _ _ _ _ (read_next_done _ _ _ Hhq)).
    rewrite (bind_done _ _ _ _ _ E1), (bind_done _ _ _ _ _ E2).
    rewrite (bind_done _ _ _ _ _ (read_next_done _ _ _ Hq2)).
    by rewrite (bind_done _ _ _ _ _ E3).
  - split; simpl; rewrite Eq.
    + apply NoDup_insert_second; [by apply NoDup_cons; rewrite not_elem_of_cons|done].
    + split_and!; [by rewrite A4|by rewrite C4, B3, A2 by done
        |by rewrite B4, C3, C2 by done|by rewrite C4|].
      apply (linked_frame m); [done| | |].
      * intros z ?. by apply D4, D3, D2, D1.
      * intros z Hz%elem_of_removelast. rewrite B4, C3, C2, B1; try done; intros ->; set_solver.
      * intros z Hz. apply NoDup_cons in Hnd as [? Hnd]. simpl in Hz.
        rewrite C4, B3, B2, C1; try done; intros ->; set_solver.
  - intros z. by rewrite D1, D2, D3, D4.
Qed.

Lemma removelast_snoc {A} (l : list A) x : removelast (l ++ [x]) = l.
Proof. apply removelast_last. Qed.

Lemma dll_push_back_spec m h xs t n :
  dll m h xs t -> is_Some (m !! n) -> n ∉ h :: xs ++ [t] ->
  exists m', dll_push_back t n m = Done (tt, m') /\ dll m' h (xs ++ [n]) t /\
    (forall z, is_Some (m !! z) <-> is_Some (m' !! z)) /\
    (forall z, z ∉ n :: h :: xs ++ [t] ->
      next_of m' z = next_of m z /\ prev_of m' z = prev_of m z).
Proof.
  intros [Hnd Hl] Hn Hni.
  destruct (exists_last (l := h :: xs) ltac:(done)) as (r & p & Er).
  replace (h :: xs ++ [t]) with (r ++ [p; t]) in *
    by (change (h :: xs ++ [t]) with ((h :: xs) ++ [t]); rewrite Er, <- app_assoc; done).
  pose proof (proj1 (linked_app _ _ _ _) Hl) as [Hlp (Hpt & Htp & _)].
  apply not_elem_of_app in Hni as [Hnr (Hpn & Htn & _)%not_elem_of_cons_2].
  apply NoDup_app in Hnd as (Hndr & Hrt & [Hpt' _]%NoDup_cons).
  apply not_elem_of_cons in Hpt' as [Hpt' _].
  assert (Hpd : is_Some (m !! p)) by (by eapply next_of_dom).
  assert (Htd : is_Some (m !! t)) by (by eapply prev_of_dom).
  destruct (write_prev_done m n p Hn) as (m1 & E1 & A1 & B1 & C1 & D1).
  destruct (write_next_done m1 n t) as (m2 & E2 & A2 & B2 & C2 & D2); [by apply D1|].
  destruct (write_next_done m2 p n) as (m3 & E3 & A3 & B3 & C3 & D3); [by apply D2, D1|].
  destruct (write_prev_done m3 t n) as (m4 & E4 & A4 & B4 & C4 & D4); [by apply D3, D2, D1|].
  assert (Hq2 : prev_of m2 t = Some p) by (rewrite C2, B1; done).
  exists m4. split; [|split; [|split]].
  - unfold dll_push_back.
    rewrite (bind_done _ _ _ _ _ (read_prev_done _ _ _ Htp)).
    rewrite (bind_done _ _ _ _ _ E1), (bind_done _ _ _ _ _ E2).
    rewrite (bind_done _ _ _ _ _ (read_prev_done _ _ _ Hq2)).
    by rewrite (bind_done _ _ _ _ _ E3).
  - assert (E : h :: (xs ++ [n]) ++ [t] = r ++ p :: [n; t]).
    { rewrite <- app_assoc.
      change (h :: xs ++ [n] ++ [t]) with ((h :: xs) ++ [n; t]). rewrite Er, <- app_assoc. done. }
    unfold dll. rewrite E. split.
    + apply NoDup_app. split; [done|]. split.
      * intros x Hx. pose proof (Hrt x Hx) as Hx'. rewrite !not_elem_of_cons in *.
        destruct Hx' as (? & ? & ?). split_and!; try done. intros ->. done.
      * apply NoDup_cons; rewrite !not_elem_of_cons. split; [split_and!; try done; apply not_elem_of_nil|].
        apply NoDup_cons; rewrite !not_elem_of_cons. split; [split_and!; try done; apply not_elem_of_nil|].
        apply NoDup_singleton.
    + apply linked_app. split.
      * apply (linked_frame m); [done| | |].
        -- intros z ?. by apply D4, D3, D2, D1.
        -- rewrite removelast_snoc. intros z Hz.
           pose proof (Hrt z Hz) as Hx'. rewrite !not_elem_of_cons in Hx'.
           rewrite C4, B3, B2, C1; try done; [intros ->; done|naive_solver].
        -- intros z Hz. assert (z ∈ r ++ [p]) as Hz' by (destruct r; simpl in *; set_solver).
           rewrite B4, C3, C2, B1; try done; intros ->;
             apply elem_of_app in Hz' as [Hr|Hz'%list_elem_of_singleton]; try congruence.
           pose proof (Hrt t Hr) as Hx'. rewrite !not_elem_of_cons in Hx'. naive_solver.
      * simpl. split_and!.
        -- by rewrite C4, A3.
        -- by rewrite B4, C3, C2, A1 by done.
        -- by rewrite C4, B3, A2 by done.
        -- by rewrite A4.
        -- by apply D4, D3, D2, D1.
  - intros z. by rewrite D1, D2, D3, D4.
  - intros z [Hzn Hz]%not_elem_of_cons. apply not_elem_of_app in Hz as [Hzr [Hzp [Hzt _]%not_elem_of_cons]%not_elem_of_cons].
    split; [by rewrite C4, B3, B2, C1|by rewrite B4, C3, C2, B1].
Qed.

Lemma dll_unlink_spec m h l1 n l2 t :
  dll m h (l1 ++ n :: l2) t ->
  exists m', dll_unlink n m = Done (tt, m') /\ dll m' h (l1 ++ l2) t /\
    (forall z, is_Some (m !! z) <-> is_Some (m' !! z)) /\
    next_of m' n = next_of m n /\ prev_of m' n = prev_of m n /\
    (forall z, z ∉ h :: (l1 ++ n :: l2) ++ [t] ->
      next_of m' z = next_of m z /\ prev_of m' z = prev_of m z).
Proof.
  intros [Hnd Hl].
  destruct (dll_split h l1 n l2 t) as (p & q & r1 & r2 & E1 & E2).
  assert (forall z, z ∉ h :: (l1 ++ n :: l2) ++ [t] -> z <> p /\ z <> q) as Hmem.
  { intros z. rewrite E1. intros Hz. split; intros ->; apply Hz; rewrite !elem_of_app, !elem_of_cons; tauto. }
  rewrite E1 in Hnd, Hl. unfold dll. rewrite E2. rewrite <- app_assoc in *. simpl in *.
  pose proof (proj1 (linked_app _ _ _ _) Hl) as [Hlp (Hpn & Hnp & Hnq & Hqn & Hlq)].
  assert (p <> n /\ q <> n /\ p <> q /\ (n ∉ r1) /\ NoDup (r1 ++ [p; q] ++ r2)) as
    (Npn & Nqn & Npq & Nr1 & Hnd').
  { apply NoDup_app in Hnd as (H1 & H2 & [H3 [H4 H5]%NoDup_cons]%NoDup_cons).
    apply not_elem_of_cons in H3 as [Hpn' [Hpq Hpr]%not_elem_of_cons].
    apply not_elem_of_cons in H4 as [Hnq' Hnr].
    split_and!; [done|congruence|done| |].
    - intros Hr. apply (H2 n Hr). set_solver.
    - apply NoDup_app. split; [done|]. split.
      + intros x Hx. pose proof (H2 x Hx) as H6. simpl. rewrite !not_elem_of_cons in *.
        destruct H6 as (? & ? & ? & ?). done.
      + simpl. apply NoDup_cons. by rewrite not_elem_of_cons. }
  destruct (write_prev_done m q p) as (m1 & W1 & A1 & B1 & C1 & D1); [by eapply prev_of_dom|].
  assert (Hp1 : prev_of m1 n = Some p) by (rewrite B1; done).
  assert (Hn1 : next_of m1 n = Some q) by (rewrite C1; done).
  destruct (write_next_done m1 p q) as (m2 & W2 & A2 & B2 & C2 & D2);
    [apply D1; by eapply next_of_dom|].
  exists m2. split; [|split; [split; [done|]|split; [|split; [|split]]]].
  - unfold dll_unlink.
    rewrite (bind_done _ _ _ _ _ (read_next_done _ _ _ Hnq)).
    rewrite (bind_done _ _ _ _ _ (read_prev_done _ _ _ Hnp)).
    rewrite (bind_done _ _ _ _ _ W1).
    rewrite (bind_done _ _ _ _ _ (read_prev_done _ _ _ Hp1)).
    by rewrite (bind_done _ _ _ _ _ (read_next_done _ _ _ Hn1)).
  - apply NoDup_app in Hnd' as (H1 & H2 & [H3 [H4 H5]%NoDup_cons]%NoDup_cons).
    apply linked_app. split; [|simpl; split_and!].
    + apply (linked_frame m); [done| | |].
      * intros z ?. by apply D2, D1.
      * rewrite removelast_snoc. intros z Hz. rewrite B2, C1; [done|].
        intros ->. apply (H2 p Hz). set_solver.
      * intros z Hz. assert (z ∈ r1 ++ [p]) as Hz' by (destruct r1; simpl in *; set_solver).
        rewrite C2, B1; [done|]. intros ->.
        apply elem_of_app in Hz' as [Hz'|Hz']; [|by apply list_elem_of_singleton in Hz'].
        apply (H2 q Hz'). set_solver.
    + done.
    + by rewrite C2.
    + change (linked m2 (q :: r2)). apply (linked_frame m); [done| | |].
      * intros z ?. by apply D2, D1.
      * intros z Hz%elem_of_removelast. rewrite B2, C1; [done|]. intros ->. done.
      * intros z Hz. simpl in Hz. rewrite C2, B1; [done|]. intros ->. done.
  - intros z. by rewrite D1, D2.
  - by rewrite B2, C1 by done.
  - by rewrite C2, B1 by done.
  - intros z Hz. rewrite <- app_assoc in Hz. apply Hmem in Hz as [Hzp Hzq]. by rewrite B2, C1, C2, B1.
Qed.

(** Two lists in one store do not disturb each other. *)
Lemma dll_frame m m' h xs t : dll m h xs t ->
  (forall z, is_Some (m !! z) -> is_Some (m' !! z)) ->
  (forall z, z ∈ h :: xs ++ [t] -> next_of m' z = next_of m z /\ prev_of m' z = prev_of m z) ->
  dll m' h xs t.
Proof.
  intros [Hnd Hl] Hd Hz. split; [done|]. eapply linked_frame; [exact Hl|done| |].
  - intros z Hin%elem_of_removelast. by apply Hz.
  - intros z Hin. apply Hz. simpl in *. by right.
Qed.

Lemma dll_walk_spec m xs t : forall n rest fuel,
  n :: rest = xs ++ [t] -> NoDup (n :: rest) -> linked m (n :: rest) ->
  (length xs < fuel)%nat -> dll_walk fuel n t m = Done (xs, m).
Proof.
  induction xs as [|x xs IH]; intros n rest fuel E Hnd Hl Hf.
  - injection E as -> ->. destruct fuel as [|fuel]; [simpl in Hf; lia|].
    simpl. by rewrite Z.eqb_refl.
  - injection E as -> ->. destruct fuel as [|fuel]; [simpl in Hf; lia|].
    simpl. assert (x <> t) as Hne.
    { intros ->. apply NoDup_cons in Hnd as [Hx _]. set_solver. }
    rewrite (proj2 (Z.eqb_neq x t) Hne).
    assert (exists y r, xs ++ [t] = y :: r) as (y & r & Ey) by (destruct xs; simpl; eauto).
    rewrite Ey in Hl. simpl in Hl. destruct Hl as (Hn & _ & Hl).
    rewrite (bind_done _ _ _ _ _ (read_next_done _ _ _ Hn)).
    unfold bind. rewrite (IH y r fuel); [done|by rewrite Ey| |done|simpl in Hf; lia].
    rewrite Ey in Hnd. by apply NoDup_cons in Hnd as [_ ?].
Qed.

Lemma dll_elements_spec m h xs t fuel :
  dll m h xs t -> (length xs < fuel)%nat -> dll_elements fuel h t m = Done (xs, m).
Proof.
  intros [Hnd Hl] Hf. unfold dll_elements.
  assert (exists y r, xs ++ [t] = y :: r) as (y & r & Ey) by (destruct xs; simpl; eauto).
  rewrite Ey in Hl. simpl in Hl. destruct Hl as (Hn & _ & Hl).
  rewrite (bind_done _ _ _ _ _ (read_next_done _ _ _ Hn)).
  eapply dll_walk_spec; [by rewrite Ey| |done|done].
  rewrite Ey in Hnd. by apply NoDup_cons in Hnd as [_ ?].
Qed.

Lemma remove_first_split (n : Z) xs : n ∈ xs ->
  exists l1 l2, xs = l1 ++ n :: l2 /\ remove_first (Z.eqb n) xs = l1 ++ l2.
Proof.
  induction xs as [|x xs IH]; intros Hin; [by apply elem_of_nil in Hin|]. simpl.
  destruct (Z.eqb_spec n x) as [->|Hne]; [by exists [], xs|].
  apply elem_of_cons in Hin as [?|Hin]; [done|].
  destruct (IH Hin) as (l1 & l2 & -> & E). exists (x :: l1), l2. simpl. by rewrite E.
Qed.

Lemma run_op_refines m h xs t o xs' :
  dll m h xs t -> is_Some (m !! op_node o) -> spec_op h t o xs = Some xs' ->
  exists m', run_op h t o m = Done (tt, m') /\ dll m' h xs' t /\
    (forall z, is_Some (m !! z) <-> is_Some (m' !! z)).
Proof.
  intros Hd Hn Hs. destruct o as [n|n|n]; simpl in *; case_decide as Hin; simplify_eq.
  - by apply dll_push_front_spec.
  - destruct (dll_push_back_spec m h xs t n) as (m' & ? & ? & ? & _); [done..|]. by exists m'.
  - destruct (remove_first_split n xs Hin) as (l1 & l2 & -> & ->).
    destruct (dll_unlink_spec m h l1 n l2 t Hd) as (m' & ? & ? & ? & _). by exists m'.
Qed.

(** The only way the surgery fails is a wild pointer. *)
Lemma dll_unlink_stop m n w : dll_unlink n m = Stop w -> w = Undefined.
Proof.
  unfold dll_unlink, bind, read_next, read_prev, write_next, write_prev.
  repeat (case_match; simplify_eq); intros; simplify_eq; done.
Qed.

Lemma dll_length m h xs t : dll m h xs t -> (length xs < S (size m))%nat.
Proof.
  intros [Hnd Hl]. enough (length (h :: xs ++ [t]) <= size m)%nat as Hle.
  { simpl in Hle. rewrite length_app in Hle. lia. }
  rewrite <- (size_list_to_set (C := gset Z)) by done. rewrite <- size_dom.
  apply subseteq_size. intros z Hz%elem_of_list_to_set. apply elem_of_dom. by eapply linked_dom.
Qed.

(** C36: the pointer surgery of the kernel's intrusive lists implements lists.
    From a well-formed list, any sequence of insertions after the head
    sentinel, insertions before the tail sentinel and unlinkings that the
    abstract list admits runs without a wild access, and a traversal
    afterwards meets exactly the elements of the abstract list, in order. *)
Theorem dll_program_refines m h xs t os xs' :
  dll m h xs t -> (forall o, o ∈ os -> is_Some (m !! op_node o)) ->
  spec_ops h t os xs = Some xs' ->
  exists m', for_each os (run_op h t) m = Done (tt, m') /\ dll m' h xs' t /\
    dll_elements (S (length xs')) h t m' = Done (xs', m').
Proof.
  revert m xs. induction os as [|o os IH]; intros m xs Hd Hos Hs; simpl in *.
  - injection Hs as <-. exists m. split_and!; [done|done|]. by apply dll_elements_spec; [|lia].
  - apply bind_Some in Hs as (xs1 & H1 & H2).
    destruct (run_op_refines m h xs t o xs1) as (m1 & E1 & Hd1 & Hdom); [done|apply Hos; set_solver|done|].
    destruct (IH m1 xs1) as (m' & E' & Hd' & Hw); [done| |done|].
    { intros o' Ho'. apply Hdom, Hos. set_solver. }
    exists m'. by rewrite (bind_done _ _ _ _ _ E1).
Qed.

Definition demo_links : links :=
  <[1 := Link 2 0]> (<[2 := Link 0 1]> (<[3 := Link 0 0]> (<[4 := Link 0 0]> ∅))).

Lemma dll_program_refines_witness :
  exists m', for_each [PushFront 3; PushBack 4; Unlink 3] (run_op 1 2) demo_links = Done (tt, m')
    /\ dll m' 1 [4] 2 /\ dll_elements 2 1 2 m' = Done ([4], m').
Proof.
  apply (dll_program_refines demo_links 1 [] 2 [PushFront 3; PushBack 4; Unlink 3] [4]).
  - split; [apply (bool_decide_unpack (NoDup [1; 2])); vm_compute; exact I|].
    vm_compute. split_and!; [done|done|by eexists].
  - intros o Ho. rewrite !elem_of_cons in Ho.
    destruct Ho as [->|[->|[->|[]%elem_of_nil]]]; vm_compute; by eexists.
  - reflexivity.
Defined.


(** Unlinking an element that is no longer on the list is not harmless.
    [scheduler_yield] unlinks the thread it resumes and leaves the thread's own
    [next]/[prev] as they were; [scheduler_await_interruptable] unlinks the
    running thread again.  If another thread [u] was queued in between, the
    second unlink makes the queue empty again and [u] is lost. *)
Theorem stale_unlink_loses_element m h t n u :
  dll m h [n] t -> is_Some (m !! u) -> u ∉ [h; n; t] ->
  exists m1 m2 m3,
    dll_unlink n m = Done (tt, m1) /\ dll_push_back t u m1 = Done (tt, m2) /\
    dll_elements 2 h t m2 = Done ([u], m2) /\
    dll_unlink n m2 = Done (tt, m3) /\ dll_elements 1 h t m3 = Done ([], m3).
Proof.
  intros Hd Hu Hni.
  destruct (dll_unlink_spec m h [] n [] t Hd) as (m1 & E1 & Hd1 & Hdom1 & Hn1 & Hp1 & _).
  destruct (dll_push_back_spec m1 h [] t u) as (m2 & E2 & Hd2 & Hdom2 & Hf); [done|by apply Hdom1|set_solver|].
  destruct Hd as [Hnd (Hhn & Hnh & Hnt & Htn & Ht)].
  simpl in Hnd. destruct_notin.
  destruct (Hf n) as [Hn2 Hp2].
  { simpl. solve_notin. }
  rewrite Hn1, Hnt in Hn2. rewrite Hp1, Hnh in Hp2.
  destruct (write_prev_done m2 t h) as (m3 & E3 & A3 & B3 & C3 & D3); [by apply Hdom2, Hdom1|].
  destruct (write_next_done m3 h t) as (m4 & E4 & A4 & B4 & C4 & D4);
    [apply D3, Hdom2, Hdom1; by eapply next_of_dom|].
  exists m1, m2, m4. split_and!; [done|done|by apply (dll_elements_spec _ _ [u]); simpl; [|lia]| |].
  - unfold dll_unlink. rewrite (bind_done _ _ _ _ _ (read_next_done _ _ _ Hn2)).
    rewrite (bind_done _ _ _ _ _ (read_prev_done _ _ _ Hp2)), (bind_done _ _ _ _ _ E3).
    rewrite <- (B3 n) in Hp2 by done. rewrite <- (C3 n) in Hn2.
    rewrite (bind_done _ _ _ _ _ (read_prev_done _ _ _ Hp2)).
    by rewrite (bind_done _ _ _ _ _ (read_next_done _ _ _ Hn2)).
  - unfold dll_elements. rewrite (bind_done _ _ _ _ _ (read_next_done _ _ _ A4)).
    simpl. by rewrite Z.eqb_refl.
Qed.

Definition demo_queue : links :=
  <[1 := Link 3 0]> (<[2 := Link 0 3]> (<[3 := Link 2 1]> (<[4 := Link 0 0]> ∅))).

Lemma stale_unlink_loses_element_witness :
  exists m1 m2 m3,
    dll_unlink 3 demo_queue = Done (tt, m1) /\ dll_push_back 2 4 m1 = Done (tt, m2) /\
    dll_elements 2 1 2 m2 = Done ([4], m2) /\
    dll_unlink 3 m2 = Done (tt, m3) /\ dll_elements 1 1 2 m3 = Done ([], m3).
Proof.
  apply (stale_unlink_loses_element demo_queue 1 2 3 4).
  - split; [apply (bool_decide_unpack (NoDup [1; 3; 2])); vm_compute; exact I|].
    vm_compute. split_and!; [done|done|done|done|by eexists].
  - vm_compute. by eexists.
  - apply (bool_decide_unpack (4 ∉ [1; 3; 2])). vm_compute. exact I.
Defined.
