(* ===== verification/Heap.v ===== *)
(** * Heap: the kernel heap (src/util/heap)

    A heap is a run of blocks between [head_tag] and [tail_tag].  Every block
    is preceded by a tag with its size, its reservation bit and the size of
    the block before it; the tail tag has [next_size == 0].  The model keeps

    - [tags]: the tags in memory, by address.  Tags that are no longer part of
      the run (left behind by a merge) stay in the store, as they stay in
      memory, until something is written over them;
    - [bytes]: the data bytes whose value is known.

    [heap_alloc], [heap_free], [heap_realloc], [heap_check], [heap_usage] and
    the tag part of [heap_init] are translated statement by statement.  The
    [HEAP_DEBUG] branches are compiled out (config/heap.h).  The abstract view
    is a list of blocks; [heap_alloc] refines a first-fit search on it and
    [heap_free] refines coalescing release. *)
From S2P Require Import Prelude.

(** ** State *)

Record heap_tag_t := Tag { next_reserved : bool; prev_size : Z; next_size : Z }.

(** sizeof(heap_tag_t): a padded bool and two uint64_t. *)
Definition tag_bytes : Z := 24.

Record heap := Heap {
  tags : gmap Z heap_tag_t;
  bytes : gmap Z Z;
  head_tag : Z;
  tail_tag : Z;
  alloc_size : Z
}.

Definition set_tags (f : gmap Z heap_tag_t -> gmap Z heap_tag_t) (h : heap) : heap :=
  Heap (f (tags h)) (bytes h) (head_tag h) (tail_tag h) (alloc_size h).
Definition set_bytes (f : gmap Z Z -> gmap Z Z) (h : heap) : heap :=
  Heap (tags h) (f (bytes h)) (head_tag h) (tail_tag h) (alloc_size h).
Definition set_alloc_size (f : Z -> Z) (h : heap) : heap :=
  Heap (tags h) (bytes h) (head_tag h) (tail_tag h) (f (alloc_size h)).

Definition set_next_size (n : Z) (t : heap_tag_t) := Tag (next_reserved t) (prev_size t) n.
Definition set_prev_size (n : Z) (t : heap_tag_t) := Tag (next_reserved t) n (next_size t).
Definition set_reserved (b : bool) (t : heap_tag_t) := Tag b (prev_size t) (next_size t).

Definition HEAP_INITIAL_SIZE : Z := 0x100000.
Definition PAGING_HEAP_VADDR : Z := 0x038000000000.
Definition KERNEL_ENTRY_ERROR_HEAP_ALLOC_FAILURE : Z := 9.
Definition KERNEL_ENTRY_ERROR_HEAP_FREE_FAILURE : Z := 10.

(** ** Memory accesses *)

(** Tags that share a byte with [lo, lo + n) are destroyed by a write there. *)
Definition clobber (lo n : Z) (tg : gmap Z heap_tag_t) : gmap Z heap_tag_t :=
  filter (fun kv => ~ (kv.1 < lo + n /\ lo < kv.1 + tag_bytes)) tg.
Definition forget_bytes (lo n : Z) (m : gmap Z Z) : gmap Z Z :=
  filter (fun kv => ~ (lo <= kv.1 < lo + n)) m.

Definition read_tag (p : Z) : M heap heap_tag_t :=
  fun h => match tags h !! p with Some t => Done (t, h) | None => Stop Undefined end.
(** A field assignment through a pointer to a tag that is there. *)
Definition update_tag (p : Z) (f : heap_tag_t -> heap_tag_t) : M heap unit :=
  fun h => match tags h !! p with
           | Some t => Done (tt, set_tags <[p := f t]> h)
           | None => Stop Undefined
           end.
(** Assigning all fields of a tag at a place where none was. *)
Definition new_tag (p : Z) (t : heap_tag_t) : M heap unit :=
  fun h => Done (tt, set_bytes (forget_bytes p tag_bytes)
                       (set_tags (fun tg => <[p := t]> (clobber p tag_bytes tg)) h)).
Definition write_bytes (p : Z) (l : list Z) : M heap unit :=
  fun h => Done (tt, set_bytes (fun m => map_seqZ p l ∪ m)
                       (set_tags (clobber p (Z.of_nat (length l))) h)).
Definition read_bytes (p n : Z) : M heap (list Z) :=
  fun h => match mapM (fun i => bytes h !! i) (seqZ p n) with
           | Some l => Done (l, h)
           | None => Stop Undefined
           end.
Definition memset (p c n : Z) : M heap unit := write_bytes p (replicate (Z.to_nat n) c).
Definition memcpy (dst src n : Z) : M heap unit :=
  let! l := read_bytes src n in write_bytes dst l.

(** ** heap_alloc (alloc.c) *)

(** The [while] loop: stops at the first block that is free and either fits
    exactly or leaves room for a tag and more than one byte. *)
Fixpoint find_block (fuel : nat) (current_tag size_bytes : Z) : M heap Z :=
  match fuel with
  | O => stop_with NoFuel
  | S fuel' =>
      let! t := read_tag current_tag in
      if next_reserved t ||
         ((next_size t <=? u64 (u64 (size_bytes + tag_bytes) + 1)) && negb (next_size t =? size_bytes))
      then
        let next := u64 (u64 (current_tag + next_size t) + tag_bytes) in
        let! t' := read_tag next in
        if next_size t' =? 0
        then stop_with (Panic "Unable to find space for heap alloc")
        else find_block fuel' next size_bytes
      else ret current_tag
  end.

(** The body after the search: take the whole block, or split it. *)
Definition take_block (current_tag size_bytes : Z) : M heap unit :=
  let! t := read_tag current_tag in
  if next_size t =? size_bytes then update_tag current_tag (set_reserved true)
  else
    let next_tag := u64 (u64 (current_tag + next_size t) + tag_bytes) in
    let mid_tag := u64 (u64 (current_tag + size_bytes) + tag_bytes) in
    do! guard_or (EntryError current_tag) (negb (next_reserved t));
    let! nt := read_tag next_tag in
    do! guard_or (EntryError KERNEL_ENTRY_ERROR_HEAP_ALLOC_FAILURE) (next_size t =? prev_size nt);
    let remaining_bytes := u64 (u64 (next_size t - size_bytes) - tag_bytes) in
    do! update_tag current_tag (set_next_size size_bytes);
    do! update_tag current_tag (set_reserved true);
    do! new_tag mid_tag (Tag false size_bytes remaining_bytes);
    update_tag next_tag (set_prev_size remaining_bytes).

Definition heap_alloc (size_bytes : Z) : M heap Z :=
  do! guard_or (Panic "Zero byte allocation") (negb (size_bytes =? 0));
  let! h := get in
  do! modify (set_alloc_size (fun a => u64 (a + size_bytes)));
  let! current_tag := find_block (S (size (tags h))) (head_tag h) size_bytes in
  do! take_block current_tag size_bytes;
  let p := u64 (current_tag + tag_bytes) in
  do! memset p 0 size_bytes;
  ret p.

(** ** heap_free (free.c) *)

(** Join with the following block when it is free; returns [next_tag]. *)
Definition free_join_next (tag next_tag : Z) : M heap Z :=
  let! nt := read_tag next_tag in
  if negb (next_reserved nt) && negb (next_size nt =? 0) then
    let! t := read_tag tag in
    do! update_tag tag (set_next_size (u64 (next_size t + u64 (next_size nt + tag_bytes))));
    let! t' := read_tag tag in
    let next_next_tag := u64 (u64 (next_tag + next_size nt) + tag_bytes) in
    do! update_tag next_next_tag (set_prev_size (next_size t'));
    ret next_next_tag
  else ret next_tag.

(** Join with the preceding block when it is free, else release in place. *)
Definition free_join_prev (tag next_tag : Z) : M heap unit :=
  let! t := read_tag tag in
  let release := update_tag tag (set_reserved false) in
  if negb (prev_size t =? 0) then
    let prev_tag := u64 (u64 (tag - prev_size t) - tag_bytes) in
    let! pt := read_tag prev_tag in
    if negb (next_reserved pt) then
      do! update_tag prev_tag (set_next_size (u64 (next_size pt + u64 (next_size t + tag_bytes))));
      let! pt' := read_tag prev_tag in
      update_tag next_tag (set_prev_size (next_size pt'))
    else release
  else release.

Definition heap_free (alloc : Z) : M heap unit :=
  let tag := u64 (alloc - tag_bytes) in
  let! t := read_tag tag in
  do! modify (set_alloc_size (fun a => u64 (a - next_size t)));
  do! guard_or (Panic "Unable to verify reserve in heap_free()") (next_reserved t);
  let next_tag := u64 (u64 (tag + next_size t) + tag_bytes) in
  let! nt := read_tag next_tag in
  do! guard_or (EntryError KERNEL_ENTRY_ERROR_HEAP_FREE_FAILURE) (next_size t =? prev_size nt);
  let! next_tag' := free_join_next tag next_tag in
  let! t' := read_tag tag in
  do! update_tag next_tag' (set_prev_size (next_size t'));
  free_join_prev tag next_tag'.

(** ** heap_realloc (realloc.c) *)

Definition heap_realloc (alloc size_bytes : Z) : M heap Z :=
  let tag := u64 (alloc - tag_bytes) in
  let! new_buffer := heap_alloc size_bytes in
  let! t := read_tag tag in
  do! memcpy new_buffer alloc (next_size t);
  do! heap_free alloc;
  ret new_buffer.

(** ** heap_check (internal.c), heap_total and heap_usage (usage.c) *)

Fixpoint check_tags (fuel : nat) (cur_tag : Z) : M heap Z :=
  match fuel with
  | O => stop_with NoFuel
  | S fuel' =>
      let! t := read_tag cur_tag in
      if next_size t =? 0 then ret cur_tag
      else
        let next_tag := u64 (u64 (cur_tag + next_size t) + tag_bytes) in
        let! nt := read_tag next_tag in
        do! guard_or (Panic "Heap tag size mismatch") (next_size t =? prev_size nt);
        check_tags fuel' next_tag
  end.

Definition heap_check : M heap unit :=
  let! h := get in
  let! cur_tag := check_tags (S (size (tags h))) (head_tag h) in
  guard_or (Panic "End tag is not the tail tag") (cur_tag =? tail_tag h).

Definition heap_total : Z := HEAP_INITIAL_SIZE.

Fixpoint usage_from (fuel : nat) (cur_tag used : Z) : M heap Z :=
  match fuel with
  | O => stop_with NoFuel
  | S fuel' =>
      let! h := get in
      if cur_tag =? tail_tag h then ret used
      else
        let! t := read_tag cur_tag in
        let used' := if next_reserved t then u64 (used + next_size t) else used in
        usage_from fuel' (u64 (u64 (cur_tag + next_size t) + tag_bytes)) used'
  end.
Definition heap_usage : M heap Z :=
  let! h := get in usage_from (S (size (tags h))) (head_tag h) 0.

(** ** heap_init (init.c, the tags; the page tables are in PageTables.v) *)

Definition heap_init_tags (vaddr initial_size : Z) : M heap unit :=
  let sector_size := initial_size - 2 * tag_bytes in
  let head := vaddr in
  let tail := u64 (vaddr + sector_size + tag_bytes) in
  do! modify (fun h => Heap (tags h) (bytes h) head tail 0);
  do! new_tag head (Tag false 0 sector_size);
  new_tag tail (Tag false sector_size 0).

Definition heap_empty : heap := Heap ∅ ∅ 0 0 0.

(** ** The abstract heap: a run of blocks *)

Record block := Block { reserved : bool; bsize : Z }.

Definition span (bs : list block) : Z := foldr (fun b s => tag_bytes + bsize b + s) 0 bs.
Definition last_size (pv : Z) (bs : list block) : Z :=
  match last bs with Some b => bsize b | None => pv end.
Definition used (bs : list block) : Z :=
  foldr (fun b s => (if reserved b then bsize b else 0) + s) 0 bs.

(** The addresses of the tags of a run that starts at [a]. *)
Fixpoint tag_keys (a : Z) (bs : list block) : list Z :=
  match bs with
  | [] => []
  | b :: bs' => a :: tag_keys (a + tag_bytes + bsize b) bs'
  end.

(** The live allocations: address and size of every reserved block. *)
Fixpoint live (a : Z) (bs : list block) : list (Z * Z) :=
  match bs with
  | [] => []
  | b :: bs' => (if reserved b then [(a + tag_bytes, bsize b)] else [])
                ++ live (a + tag_bytes + bsize b) bs'
  end.

Definition fits (n : Z) (b : block) : bool :=
  negb (reserved b) && ((bsize b =? n) || (n + tag_bytes + 1 <? bsize b)).
Definition carve (n : Z) (b : block) : list block :=
  if bsize b =? n then [Block true n]
  else [Block true n; Block false (bsize b - n - tag_bytes)].

(** First fit. *)
Fixpoint spec_alloc (a n : Z) (bs : list block) : option (Z * list block) :=
  match bs with
  | [] => None
  | b :: bs' =>
      if fits n b then Some (a + tag_bytes, carve n b ++ bs')
      else '(p, r) ← spec_alloc (a + tag_bytes + bsize b) n bs'; Some (p, b :: r)
  end.

(** Release of the block between [l] and [r], joined with its free neighbours. *)
Definition join_right (n : Z) (r : list block) : Z * list block :=
  match r with
  | b :: r' => if reserved b then (n, r) else (n + bsize b + tag_bytes, r')
  | [] => (n, [])
  end.
Definition join_left (l : list block) (n : Z) : list block :=
  match last l with
  | Some b => if reserved b then l ++ [Block false n]
              else removelast l ++ [Block false (bsize b + n + tag_bytes)]
  | None => [Block false n]
  end.
Definition spec_free (l : list block) (n : Z) (r : list block) : list block :=
  let '(n', r') := join_right n r in join_left l n' ++ r'.

(** ** Representation *)

Fixpoint seg (tg : gmap Z heap_tag_t) (a pv : Z) (bs : list block) : Prop :=
  match bs with
  | [] => True
  | b :: bs' => tg !! a = Some (Tag (reserved b) pv (bsize b)) /\ 0 < bsize b /\
                seg tg (a + tag_bytes + bsize b) (bsize b) bs'
  end.
Definition chain (tg : gmap Z heap_tag_t) (a pv : Z) (bs : list block) (e : Z) : Prop :=
  seg tg a pv bs /\ a + span bs = e /\ tg !! e = Some (Tag false (last_size pv bs) 0).

Definition defined_at (m : gmap Z Z) (r : Z * Z) : Prop :=
  forall i, r.1 <= i < r.1 + r.2 -> is_Some (m !! i).

Record heap_rep (h : heap) (bs : list block) : Prop := {
  rep_chain : chain (tags h) (head_tag h) 0 bs (tail_tag h);
  rep_low : 0 <= head_tag h;
  rep_high : tail_tag h + tag_bytes < 2 ^ 64;
  rep_nonempty : bs <> [];
  rep_used : alloc_size h = used bs;
  rep_bytes : Forall (defined_at (bytes h)) (live (head_tag h) bs)
}.

(** No two free blocks are neighbours: what [heap_free] is there to ensure. *)
Fixpoint coalesced (bs : list block) : Prop :=
  match bs with
  | b1 :: bs' =>
      match bs' with
      | b2 :: _ => (reserved b1 = true \/ reserved b2 = true) /\ coalesced bs'
      | [] => True
      end
  | [] => True
  end.

(** *** Lists of blocks *)

Lemma span_app l r : span (l ++ r) = span l + span r.
Proof. induction l as [|b l IH]; simpl; [done|]. rewrite IH. lia. Qed.
Lemma used_app l r : used (l ++ r) = used l + used r.
Proof. induction l as [|b l IH]; simpl; [done|]. rewrite IH. lia. Qed.
Lemma last_size_app pv l b r : last_size pv (l ++ b :: r) = last_size (bsize b) r.
Proof.
  unfold last_size. rewrite last_app. simpl.
  destruct r as [|b' r]; [done|]. simpl. by destruct (last (b' :: r)) eqn:E;
    [|apply last_None in E].
Qed.
Lemma last_size_cons pv b r : last_size pv (b :: r) = last_size (bsize b) r.
Proof. apply (last_size_app pv []). Qed.
Lemma last_size_snoc pv l b : last_size pv (l ++ [b]) = bsize b.
Proof. by rewrite last_size_app. Qed.

Lemma tag_keys_app a l r : tag_keys a (l ++ r) = tag_keys a l ++ tag_keys (a + span l) r.
Proof.
  revert a. induction l as [|b l IH]; intros a; simpl; [by rewrite Z.add_0_r|].
  rewrite IH. do 2 f_equal. f_equal. lia.
Qed.
Lemma live_app a l r : live a (l ++ r) = live a l ++ live (a + span l) r.
Proof.
  revert a. induction l as [|b l IH]; intros a; simpl; [by rewrite Z.add_0_r|].
  rewrite IH, <- app_assoc. do 3 f_equal. lia.
Qed.

Lemma seg_sizes tg a pv bs : seg tg a pv bs -> Forall (fun b => 0 < bsize b) bs.
Proof.
  revert a pv. induction bs as [|b bs IH]; intros a pv; [constructor|].
  intros (_ & ? & ?). constructor; eauto.
Qed.
Lemma span_nonneg bs : Forall (fun b => 0 < bsize b) bs -> 0 <= span bs.
Proof. induction 1; simpl; unfold tag_bytes in *; lia. Qed.
Lemma used_nonneg bs : Forall (fun b => 0 < bsize b) bs -> 0 <= used bs <= span bs.
Proof. induction 1 as [|b]; simpl; unfold tag_bytes in *; [lia|]. destruct (reserved b); lia. Qed.

Lemma tag_keys_bounds a bs k : Forall (fun b => 0 < bsize b) bs ->
  k ∈ tag_keys a bs -> a <= k /\ k + tag_bytes < a + span bs.
Proof.
  intros Hs. revert a. induction Hs as [|b bs Hb Hs IH]; intros a; simpl.
  - by intros ?%elem_of_nil.
  - pose proof (span_nonneg bs Hs). intros [->|Hk]%elem_of_cons; [lia|].
    apply IH in Hk. unfold tag_bytes in *. lia.
Qed.

(** Live payloads and tags do not overlap. *)
Lemma live_bounds a bs p n : Forall (fun b => 0 < bsize b) bs ->
  (p, n) ∈ live a bs -> a + tag_bytes <= p /\ p + n <= a + span bs /\ 0 < n.
Proof.
  intros Hs. revert a. induction Hs as [|b bs Hb Hs IH]; intros a; simpl.
  - by intros ?%elem_of_nil.
  - pose proof (span_nonneg bs Hs). intros [Hin|Hk]%elem_of_app.
    + destruct (reserved b); [|by apply elem_of_nil in Hin].
      apply list_elem_of_singleton in Hin as [= -> ->]. lia.
    + apply IH in Hk. unfold tag_bytes in *. lia.
Qed.

Lemma live_split a bs p n : (p, n) ∈ live a bs ->
  exists l r, bs = l ++ Block true n :: r /\ p = a + span l + tag_bytes.
Proof.
  revert a. induction bs as [|[rv m] bs IH]; intros a; simpl; [by intros ?%elem_of_nil|].
  intros [Hin|Hk]%elem_of_app.
  - destruct rv; [|by apply elem_of_nil in Hin].
    apply list_elem_of_singleton in Hin as [= -> ->]. exists [], bs. split; [done|simpl; lia].
  - destruct (IH _ Hk) as (l & r & -> & ->). exists (Block rv m :: l), r.
    split; [done|simpl; lia].
Qed.

(** Two different live allocations never share an address. *)
Lemma live_disjoint a bs p n q m : Forall (fun b => 0 < bsize b) bs ->
  (p, n) ∈ live a bs -> (q, m) ∈ live a bs -> p <> q ->
  p + n + tag_bytes <= q \/ q + m + tag_bytes <= p.
Proof.
  intros Hs. revert a. induction Hs as [|b bs Hb Hs IH]; intros a Hp Hq Hne; simpl in *.
  - by apply elem_of_nil in Hp.
  - apply elem_of_app in Hp as [Hp|Hp], Hq as [Hq|Hq]; eauto.
    + destruct (reserved b); [|by apply elem_of_nil in Hp].
      apply list_elem_of_singleton in Hp as [= -> ->], Hq as [= -> ->]. done.
    + destruct (reserved b); [|by apply elem_of_nil in Hp].
      apply list_elem_of_singleton in Hp as [= -> ->]. apply live_bounds in Hq; [lia|done].
    + destruct (reserved b); [|by apply elem_of_nil in Hq].
      apply list_elem_of_singleton in Hq as [= -> ->]. apply live_bounds in Hp; [lia|done].
Qed.

(** *** Segments of the run *)

Lemma seg_app tg a pv l r :
  seg tg a pv (l ++ r) <-> seg tg a pv l /\ seg tg (a + span l) (last_size pv l) r.
Proof.
  revert a pv. induction l as [|b l IH]; intros a pv; simpl.
  - rewrite Z.add_0_r. unfold last_size. simpl. tauto.
  - rewrite IH. replace (last_size pv (b :: l)) with (last_size (bsize b) l)
      by (by rewrite last_size_cons).
    replace (a + (tag_bytes + bsize b + span l)) with (a + tag_bytes + bsize b + span l) by lia.
    tauto.
Qed.

Lemma seg_frame tg tg' a pv bs :
  seg tg a pv bs -> (forall k, k ∈ tag_keys a bs -> tg' !! k = tg !! k) -> seg tg' a pv bs.
Proof.
  revert a pv. induction bs as [|b bs IH]; intros a pv; simpl; [done|].
  intros (Ht & Hp & Hs) Hk. split_and!; [rewrite Hk; [done|set_solver]|done|].
  apply IH; [done|]. intros k Hin. apply Hk. set_solver.
Qed.

(** The part of a chain from a given block on, and back. *)
Lemma chain_split tg a pv l r e :
  chain tg a pv (l ++ r) e <-> seg tg a pv l /\ chain tg (a + span l) (last_size pv l) r e.
Proof.
  unfold chain. rewrite seg_app, span_app, Z.add_assoc.
  assert (last_size pv (l ++ r) = last_size (last_size pv l) r) as ->; [|tauto].
  destruct r as [|b r]; [by rewrite app_nil_r|].
  by rewrite last_size_app, last_size_cons.
Qed.

Lemma chain_head tg a pv r e : chain tg a pv r e ->
  tg !! a = Some (match r with
                  | b :: _ => Tag (reserved b) pv (bsize b)
                  | [] => Tag false pv 0
                  end).
Proof.
  unfold chain. destruct r as [|b r]; simpl.
  - intros (_ & <- & H). by rewrite Z.add_0_r in H.
  - by intros ((H & _) & _ & _).
Qed.

Lemma chain_frame tg tg' a pv r e : chain tg a pv r e ->
  (forall k, a <= k <= e -> is_Some (tg !! k) -> (k = e \/ k ∈ tag_keys a r) -> tg' !! k = tg !! k) ->
  chain tg' a pv r e.
Proof.
  intros (Hs & He & Ht) Hf. pose proof (seg_sizes _ _ _ _ Hs) as Hsz.
  pose proof (span_nonneg _ Hsz). split_and!; [|done|].
  - eapply seg_frame; [done|]. intros k Hk. pose proof (tag_keys_bounds a r k Hsz Hk).
    unfold tag_bytes in *. apply Hf; [lia| |by right].
    clear -Hs Hk. revert a pv Hs Hk. induction r as [|b r IH]; intros a pv; simpl.
    + by intros _ ?%elem_of_nil.
    + intros (Ht & _ & Hs) [->|Hk]%elem_of_cons; [by rewrite Ht|eauto].
  - rewrite Hf; [done|lia|by rewrite Ht|by left].
Qed.

(** The first tag of a chain records the size of the block before it. *)
Lemma chain_set_prev tg a pv pv' r e : chain tg a pv r e ->
  exists t, tg !! a = Some t /\ chain (<[a := set_prev_size pv' t]> tg) a pv' r e.
Proof.
  intros Hc. pose proof (chain_head _ _ _ _ _ Hc) as Ht. eexists; split; [done|].
  destruct Hc as (Hs & He & Hl). pose proof (seg_sizes _ _ _ _ Hs) as Hsz.
  destruct r as [|b r]; simpl in *.
  - unfold chain. simpl. split_and!; [done|done|].
    replace e with a by lia. by rewrite lookup_insert_eq.
  - destruct Hs as (_ & Hb & Hs). inversion Hsz; subst.
    pose proof (span_nonneg r H2). unfold chain. simpl. split_and!.
    + by rewrite lookup_insert_eq.
    + done.
    + eapply seg_frame; [done|]. intros k Hk.
      pose proof (tag_keys_bounds _ _ _ H2 Hk). unfold tag_bytes in *.
      rewrite lookup_insert_ne; [done|lia].
    + done.
    + unfold tag_bytes in *. rewrite lookup_insert_ne by lia.
      by rewrite Hl, !last_size_cons.
Qed.

Lemma chain_end tg a pv r e : chain tg a pv r e -> a + span r = e.
Proof. by intros (_ & ? & _). Qed.
Lemma chain_sizes tg a pv r e : chain tg a pv r e -> Forall (fun b => 0 < bsize b) r.
Proof. intros (? & _ & _). by eapply seg_sizes. Qed.

(** Number of blocks and fuel. *)
Lemma seg_length tg a pv bs : seg tg a pv bs -> (length bs < S (size tg))%nat.
Proof.
  intros Hs. enough (length bs <= size tg)%nat by lia.
  pose proof (seg_sizes _ _ _ _ Hs) as Hsz.
  assert (NoDup (tag_keys a bs)) as Hnd.
  { clear Hs. revert a. induction Hsz as [|b bs Hb Hsz IH]; intros a; simpl; [constructor|].
    apply NoDup_cons. split; [|done]. intros Hk%tag_keys_bounds; [|done].
    unfold tag_bytes in *. lia. }
  assert (length bs = length (tag_keys a bs)) as ->.
  { clear. revert a. induction bs as [|b bs IH]; intros a; simpl; [done|]. by rewrite <- IH. }
  rewrite <- (size_list_to_set (C := gset Z)) by done.
  rewrite <- size_dom. apply subseteq_size. intros k Hk%elem_of_list_to_set.
  apply elem_of_dom. clear -Hs Hk. revert a pv Hs Hk.
  induction bs as [|b bs IH]; intros a pv; simpl; [by intros _ ?%elem_of_nil|].
  intros (Ht & _ & Hs) [->|Hk]%elem_of_cons; [by rewrite Ht|eauto].
Qed.
Lemma chain_length tg a pv bs e : chain tg a pv bs e -> (length bs < S (size tg))%nat.
Proof. intros (Hs & _). by eapply seg_length. Qed.

(** *** Reading and writing through the monad *)

Lemma read_tag_done h p t : tags h !! p = Some t -> read_tag p h = Done (t, h).
Proof. unfold read_tag. by intros ->. Qed.
Lemma update_tag_done h p t f : tags h !! p = Some t ->
  update_tag p f h = Done (tt, set_tags <[p := f t]> h).
Proof. unfold update_tag. by intros ->. Qed.

(** [rd H] and [wr H] step over a tag access whose tag [H] gives. *)
Ltac rd H := rewrite (bind_done _ _ _ _ _ (read_tag_done _ _ _ H));
  cbn [next_reserved prev_size next_size].
Ltac wr H := rewrite (bind_done _ _ _ _ _ (update_tag_done _ _ _ _ H)).

Lemma lookup_clobber tg lo n k : k + tag_bytes <= lo \/ lo + n <= k ->
  clobber lo n tg !! k = tg !! k.
Proof.
  intros Hk. unfold clobber. destruct (tg !! k) as [t|] eqn:E.
  - apply map_lookup_filter_Some. split; [done|simpl; lia].
  - apply map_lookup_filter_None. by left.
Qed.
Lemma lookup_forget m lo n i : ~ (lo <= i < lo + n) -> forget_bytes lo n m !! i = m !! i.
Proof.
  intros Hk. unfold forget_bytes. destruct (m !! i) as [t|] eqn:E.
  - apply map_lookup_filter_Some. split; [done|simpl; lia].
  - apply map_lookup_filter_None. by left.
Qed.

(** What the heap keeps when a region is written: the data elsewhere. *)
Lemma lookup_write_bytes p (l : list Z) (m : gmap Z Z) i :
  (map_seqZ p l ∪ m) !! i =
    if bool_decide (p <= i < p + Z.of_nat (length l)) then l !! Z.to_nat (i - p) else m !! i.
Proof.
  rewrite lookup_union. case_bool_decide as Hi.
  - rewrite lookup_map_seqZ. rewrite option_guard_True by lia.
    destruct (lookup_lt_is_Some_2 l (Z.to_nat (i - p))) as [x Hx]; [lia|].
    rewrite Hx. by destruct (m !! i).
  - assert (map_seqZ (M := gmap Z Z) p l !! i = None) as ->.
    { rewrite lookup_map_seqZ. case_guard; [|done]. apply lookup_ge_None_2. lia. }
    by destruct (m !! i).
Qed.

Lemma clobber_nil tg lo : clobber lo 0 tg ⊆ tg.
Proof. apply map_filter_subseteq. Qed.

(** *** Chains around one block *)

(** A tag of the chain lies before the block at [a + span l], is its tag, or
    lies after its payload. *)
Lemma keys_around tg a pv l b r e k :
  chain tg a pv (l ++ b :: r) e -> k ∈ tag_keys a (l ++ b :: r) ++ [e] ->
  k + tag_bytes <= a + span l \/ k = a + span l \/ a + span l + tag_bytes + bsize b <= k.
Proof.
  intros Hc Hk. pose proof (chain_sizes _ _ _ _ _ Hc) as Hsz.
  apply chain_end in Hc as He.
  apply Forall_app in Hsz as [Hl [Hb Hr]%Forall_cons].
  rewrite span_app in He. simpl in He. pose proof (span_nonneg r Hr).
  rewrite tag_keys_app in Hk. simpl in Hk.
  apply elem_of_app in Hk as [[Hk|[Hk|Hk]%elem_of_cons]%elem_of_app|Hk%list_elem_of_singleton].
  - apply tag_keys_bounds in Hk; [left; lia|done].
  - by right; left.
  - apply tag_keys_bounds in Hk; [right; right; lia|done].
  - right; right; lia.
Qed.

Lemma chain_ext tg tg' a pv r e : chain tg a pv r e ->
  (forall k, k ∈ tag_keys a r ++ [e] -> tg' !! k = tg !! k) -> chain tg' a pv r e.
Proof.
  intros Hc Hf. eapply chain_frame; [done|]. intros k _ _ Hk. apply Hf.
  destruct Hk as [->|?]; set_solver.
Qed.

(** Writing into a payload leaves the chain alone. *)
Lemma chain_clobber tg a pv l b r e lo n :
  chain tg a pv (l ++ b :: r) e ->
  a + span l + tag_bytes <= lo -> lo + n <= a + span l + tag_bytes + bsize b ->
  chain (clobber lo n tg) a pv (l ++ b :: r) e.
Proof.
  intros Hc Hlo Hhi. eapply chain_ext; [done|]. intros k Hk.
  apply lookup_clobber. pose proof (keys_around _ _ _ _ _ _ _ _ Hc Hk).
  unfold tag_bytes in *. lia.
Qed.

(** The tags at a block and after it. *)
Lemma chain_at tg a pv l b r e : chain tg a pv (l ++ b :: r) e ->
  tg !! (a + span l) = Some (Tag (reserved b) (last_size pv l) (bsize b)) /\ 0 < bsize b.
Proof. intros [_ ((? & ? & _) & _)]%chain_split. done. Qed.
Lemma chain_next tg a pv l b r e : chain tg a pv (l ++ b :: r) e ->
  chain tg (a + span l + tag_bytes + bsize b) (bsize b) r e.
Proof.
  intros Hc. change (b :: r) with ([b] ++ r) in Hc. rewrite app_assoc in Hc.
  apply chain_split in Hc as [_ Hc]. rewrite span_app, last_size_snoc in Hc. simpl in Hc.
  by replace (a + (span l + (tag_bytes + bsize b + 0)))
    with (a + span l + tag_bytes + bsize b) in Hc by lia.
Qed.
Lemma chain_range tg a pv l r e : chain tg a pv (l ++ r) e ->
  0 <= span l /\ 0 <= span r /\ a + span l + span r = e.
Proof.
  intros Hc. pose proof (chain_sizes _ _ _ _ _ Hc) as [Hl Hr]%Forall_app.
  apply chain_end in Hc. rewrite span_app in Hc.
  pose proof (span_nonneg l Hl). pose proof (span_nonneg r Hr). lia.
Qed.

(** Replacing the middle of a chain: all tags before stay, the new blocks
    are described by their own segment. *)
Lemma chain_replace tg tg' a pv l m m' r e :
  chain tg a pv (l ++ m ++ r) e ->
  (forall k, k ∈ tag_keys a l -> tg' !! k = tg !! k) ->
  chain tg' (a + span l) (last_size pv l) (m' ++ r) e ->
  chain tg' a pv (l ++ m' ++ r) e.
Proof.
  intros [Hs _]%chain_split Hl Hm. apply chain_split. split; [|done].
  by eapply seg_frame.
Qed.

(** *** First fit *)

Lemma spec_alloc_Some a n bs p bs' : spec_alloc a n bs = Some (p, bs') ->
  exists l b r, bs = l ++ b :: r /\ Forall (fun b => fits n b = false) l /\
    fits n b = true /\ p = a + span l + tag_bytes /\ bs' = l ++ carve n b ++ r.
Proof.
  revert a p bs'. induction bs as [|b bs IH]; intros a p bs'; simpl; [done|].
  destruct (fits n b) eqn:Ef.
  - intros [= <- <-]. exists [], b, bs. split_and!; [done|done|done|simpl; lia|done].
  - destruct (spec_alloc _ n bs) as [[p' r']|] eqn:E; simpl; [|done].
    intros [= <- <-]. apply IH in E as (l & b' & r & -> & Hl & Hb & -> & ->).
    exists (b :: l), b', r. split_and!; [done|by constructor|done|simpl; lia|done].
Qed.
Lemma spec_alloc_None a n bs : spec_alloc a n bs = None <->
  Forall (fun b => fits n b = false) bs.
Proof.
  revert a. induction bs as [|b bs IH]; intros a; simpl; [done|].
  rewrite Forall_cons, <- (IH (a + tag_bytes + bsize b)).
  destruct (fits n b); [naive_solver|].
  destruct (spec_alloc _ n bs) as [[? ?]|]; naive_solver.
Qed.

(** The loop of [heap_alloc] stops at the first block that fits, and panics
    when there is none; it never runs out of fuel. *)
Lemma find_block_spec n h a pv bs e fuel :
  0 < n -> n + tag_bytes + 1 < 2 ^ 64 -> 0 <= a -> e + tag_bytes < 2 ^ 64 ->
  bs <> [] -> (length bs <= fuel)%nat -> chain (tags h) a pv bs e ->
  match find_index (fits n) bs with
  | Some i => find_block fuel a n h = Done (a + span (take i bs), h)
  | None => find_block fuel a n h = Stop (Panic "Unable to find space for heap alloc")
  end.
Proof.
  intros Hn Hbig. revert a pv fuel. induction bs as [|b bs IH]; intros a pv fuel Ha He Hne Hf Hc;
    [done|].
  destruct fuel as [|fuel]; simpl in Hf; [lia|].
  pose proof (chain_at _ _ _ [] _ _ _ Hc) as [Ht Hb]. simpl in Ht. rewrite Z.add_0_r in Ht.
  pose proof (chain_next _ _ _ [] _ _ _ Hc) as Hc'. simpl in Hc'. rewrite Z.add_0_r in Hc'.
  pose proof (chain_range _ _ _ [b] bs _ Hc) as (Hs1 & Hs2 & Hs3). simpl in Hs3.
  simpl. rd Ht. simpl.
  unfold tag_bytes in *. rewrite (u64_small (n + 24)), (u64_small (n + 24 + 1)) by lia.
  assert (reserved b || (bsize b <=? n + 24 + 1) && negb (bsize b =? n) = negb (fits n b)) as ->.
  { unfold fits. unfold tag_bytes. destruct (reserved b); simpl; [done|].
    destruct (bsize b =? n) eqn:E; simpl; [by rewrite andb_false_r|].
    rewrite andb_true_r. destruct (Z.leb_spec (bsize b) (n + 24 + 1)), (Z.ltb_spec (n + 24 + 1) (bsize b)); simpl; lia. }
  destruct (fits n b) eqn:Ef; simpl.
  { unfold ret. do 2 f_equal. lia. }
  rewrite (u64_small (a + bsize b)), u64_small by lia.
  replace (a + bsize b + 24) with (a + 24 + bsize b) by lia.
  pose proof (chain_head _ _ _ _ _ Hc') as Ht'.
  rd Ht'.
  destruct bs as [|b' bs]; simpl; [done|].
  pose proof (chain_at _ _ _ [] _ _ _ Hc') as [_ Hb'].
  destruct (bsize b' =? 0) eqn:E0; [lia|].
  specialize (IH (a + 24 + bsize b) (bsize b) fuel ltac:(lia) ltac:(lia) ltac:(done) ltac:(lia) Hc').
  simpl in IH. destruct (fits n b'); simpl in *.
  - rewrite IH. do 2 f_equal. unfold tag_bytes in *. lia.
  - destruct (find_index (fits n) bs); simpl in *; [|done].
    rewrite IH. do 2 f_equal. unfold tag_bytes in *. lia.
Qed.

(** *** Taking a block *)

Ltac hlia := unfold tag_bytes in *; lia.

(** What an operation on a block may do to the rest of the heap. *)
Definition frame_except (lo n : Z) (h h' : heap) : Prop :=
  head_tag h' = head_tag h /\ tail_tag h' = tail_tag h /\ alloc_size h' = alloc_size h /\
  forall i, ~ (lo <= i < lo + n) -> bytes h' !! i = bytes h !! i.

Lemma chain_retag tg a pv l b r e rv : chain tg a pv (l ++ b :: r) e ->
  chain (<[a + span l := Tag rv (last_size pv l) (bsize b)]> tg) a pv
    (l ++ Block rv (bsize b) :: r) e.
Proof.
  intros Hc. pose proof (chain_at _ _ _ _ _ _ _ Hc) as [Ht Hb].
  pose proof (chain_range _ _ _ _ _ _ Hc) as (Hl & Hr & He).
  eapply (chain_replace tg _ a pv l [b] [Block rv (bsize b)] r); [done| |].
  - intros k Hk. pose proof (chain_sizes _ _ _ _ _ Hc) as [Hsl _]%Forall_app.
    apply tag_keys_bounds in Hk; [|done]. rewrite lookup_insert_ne; [done|hlia].
  - apply chain_next in Hc as Hn. apply chain_split in Hc as [_ (Hs & He' & Hend)].
    pose proof (chain_range _ _ _ [] _ _ Hn) as (_ & Hr' & _). simpl in *.
    split_and!; simpl.
    + split_and!; [by rewrite lookup_insert_eq|done|].
      destruct Hs as (_ & _ & Hs). eapply seg_frame; [done|]. intros k Hk.
      pose proof (chain_sizes _ _ _ _ _ Hn) as Hsr.
      apply tag_keys_bounds in Hk; [|done]. rewrite lookup_insert_ne; [done|hlia].
    + hlia.
    + rewrite lookup_insert_ne by hlia. by rewrite Hend, !last_size_cons.
Qed.

Lemma take_split tg a pv l b r e n :
  chain tg a pv (l ++ b :: r) e -> 0 < n -> n + tag_bytes + 1 < bsize b ->
  let cur := a + span l in
  let mid := cur + tag_bytes + n in
  let rem := bsize b - n - tag_bytes in
  exists nt, tg !! (cur + tag_bytes + bsize b) = Some nt /\ prev_size nt = bsize b /\
  chain (<[cur + tag_bytes + bsize b := set_prev_size rem nt]>
          (<[mid := Tag false n rem]>
            (clobber mid tag_bytes (<[cur := Tag true (last_size pv l) n]> tg)))) a pv
    (l ++ [Block true n; Block false rem] ++ r) e.
Proof.
  intros Hc Hn Hfit cur mid rem.
  pose proof (chain_at _ _ _ _ _ _ _ Hc) as [Ht Hb].
  pose proof (chain_range _ _ _ _ _ _ Hc) as (Hl & Hr & He). simpl in Hr, He.
  pose proof (chain_next _ _ _ _ _ _ _ Hc) as Hnx. fold cur in Hnx.
  destruct (chain_set_prev _ _ _ rem _ _ Hnx) as (nt & Hnt & Hr2).
  exists nt. split; [done|]. split.
  { rewrite (chain_head _ _ _ _ _ Hnx) in Hnt. by destruct r; injection Hnt as <-. }
  pose proof (chain_sizes _ _ _ _ _ Hc) as [Hsl [_ Hsr]%Forall_cons]%Forall_app.
  pose proof (span_nonneg r Hsr) as Hr0.
  eapply (chain_replace tg _ a pv l [b] _ r); [done| |].
  - intros k Hk. apply tag_keys_bounds in Hk; [|done]. subst cur mid.
    rewrite !lookup_insert_ne by hlia. rewrite lookup_clobber by hlia.
    rewrite lookup_insert_ne by hlia. done.
  - apply (chain_split _ _ _ [Block true n; Block false rem]). simpl. split.
    + split_and!; [|done| |subst rem; hlia|done].
      * subst cur mid. rewrite !lookup_insert_ne by hlia.
        rewrite lookup_clobber by hlia. by rewrite lookup_insert_eq.
      * fold cur. fold mid. subst mid. rewrite lookup_insert_ne by hlia.
        by rewrite lookup_insert_eq.
    + fold cur. rewrite last_size_cons. change (last_size _ [_]) with rem.
      replace (cur + (tag_bytes + n + (tag_bytes + rem + 0)))
        with (cur + tag_bytes + bsize b) by (subst rem; hlia).
      eapply chain_ext; [done|]. intros k Hk.
      assert (cur + tag_bytes + bsize b <= k) as Hge.
      { apply elem_of_app in Hk as [Hk|Hk%list_elem_of_singleton].
        - apply tag_keys_bounds in Hk; [hlia|done].
        - hlia. }
      destruct (decide (k = cur + tag_bytes + bsize b)) as [->|Hne].
      * by rewrite !lookup_insert_eq.
      * rewrite !lookup_insert_ne by (subst mid; hlia).
        rewrite lookup_clobber by (subst mid; hlia).
        by rewrite lookup_insert_ne by hlia.
Qed.

Lemma take_block_spec n h a pv l b r e :
  0 < n -> n + tag_bytes + 1 < 2 ^ 64 -> 0 <= a -> e + tag_bytes < 2 ^ 64 ->
  chain (tags h) a pv (l ++ b :: r) e -> fits n b = true ->
  exists h', take_block (a + span l) n h = Done (tt, h') /\
    chain (tags h') a pv (l ++ carve n b ++ r) e /\
    frame_except (a + span l + tag_bytes) (bsize b) h h'.
Proof.
  intros Hn Hbig Ha He Hc Hf. unfold fits in Hf.
  apply andb_prop in Hf as [Hres Hf]. apply negb_true_iff in Hres.
  pose proof (chain_at _ _ _ _ _ _ _ Hc) as [Ht Hb].
  pose proof (chain_range _ _ _ _ _ _ Hc) as (Hl & Hr & Hee). simpl in Hr, Hee.
  unfold take_block, carve. rd Ht. destruct (bsize b =? n) eqn:Eq.
  - apply Z.eqb_eq in Eq as <-. cbv iota beta zeta. rewrite (update_tag_done _ _ _ _ Ht).
    eexists. split; [done|]. split; [|done]. simpl. by apply chain_retag.
  - simpl in Hf. apply Z.ltb_lt in Hf. cbv iota beta zeta.
    destruct (take_split _ _ _ _ _ _ _ n Hc Hn Hf) as (nt & Hnt & Hpv & Hch).
    pose proof (chain_next _ _ _ _ _ _ _ Hc) as Hnx.
    pose proof (chain_range _ _ _ [] _ _ Hnx) as (_ & Hrr & _).
    rewrite (u64_small (a + span l + bsize b)), u64_small by hlia.
    rewrite (u64_small (a + span l + n)), (u64_small (a + span l + n + tag_bytes)) by hlia.
    replace (a + span l + bsize b + tag_bytes) with (a + span l + tag_bytes + bsize b) by lia.
    replace (a + span l + n + tag_bytes) with (a + span l + tag_bytes + n) by lia.
    rewrite Hres. unfold guard_or at 1. cbn [negb]. rewrite bind_ret_l.
    rd Hnt. rewrite Hpv, Z.eqb_refl. unfold guard_or. rewrite bind_ret_l.
    rewrite (u64_small (bsize b - n)), u64_small by hlia.
    wr Ht. unfold set_next_size. simpl next_reserved. simpl prev_size.
    erewrite bind_done by (apply update_tag_done; simpl; apply lookup_insert_eq).
    unfold new_tag. erewrite bind_done by reflexivity.
    erewrite update_tag_done; last first.
    { simpl. rewrite lookup_insert_ne by hlia. rewrite lookup_clobber by hlia.
      rewrite !lookup_insert_ne by hlia. done. }
    eexists. split; [done|]. simpl. rewrite insert_insert_eq. split; [done|].
    split_and!; [done|done|done|]. intros i Hi. simpl. rewrite lookup_forget; [done|hlia].
Qed.

(** *** heap_alloc *)

Lemma fits_split n bs i : find_index (fits n) bs = Some i ->
  exists l b r, bs = l ++ b :: r /\ fits n b = true /\ l = take i bs /\
    forall a, spec_alloc a n bs = Some (a + span l + tag_bytes, l ++ carve n b ++ r).
Proof.
  revert i. induction bs as [|b bs IH]; intros i; simpl; [done|].
  destruct (fits n b) eqn:Ef.
  - intros [= <-]. exists [], b, bs. split_and!; [done|done|done|].
    intros a. simpl. do 3 f_equal. lia.
  - destruct (find_index (fits n) bs) as [k|]; [|done]. intros [= <-].
    destruct (IH k eq_refl) as (l & b' & r & -> & Hb & Hl & Hs).
    exists (b :: l), b', r. split_and!; [done|done|simpl; by rewrite <- Hl|].
    intros a. rewrite Hs. simpl. do 3 f_equal. lia.
Qed.

Lemma fits_none n bs : find_index (fits n) bs = None -> forall a, spec_alloc a n bs = None.
Proof. intros H a. apply spec_alloc_None. by apply find_index_None. Qed.

Lemma used_carve n b : fits n b = true -> used (carve n b) = n.
Proof. unfold carve. intros _. destruct (bsize b =? n); simpl; lia. Qed.
Lemma span_carve n b : fits n b = true -> span (carve n b) = tag_bytes + bsize b.
Proof.
  unfold carve, fits. intros [_ H]%andb_prop. destruct (Z.eqb_spec (bsize b) n); simpl; hlia.
Qed.
Lemma carve_sizes n b : 0 < n -> fits n b = true -> Forall (fun b => 0 < bsize b) (carve n b).
Proof.
  unfold carve, fits. intros Hn [_ H]%andb_prop.
  destruct (Z.eqb_spec (bsize b) n); simpl in *; repeat constructor; simpl; hlia.
Qed.

Lemma live_carve a n l b r : fits n b = true ->
  live a (l ++ carve n b ++ r) ≡ₚ (a + span l + tag_bytes, n) :: live a (l ++ b :: r).
Proof.
  intros Hf. rewrite !live_app. rewrite (span_carve _ _ Hf).
  assert (live (a + span l) (b :: r) = live (a + span l + (tag_bytes + bsize b)) r) as ->.
  { unfold fits in Hf. apply andb_prop in Hf as [Hr _]. apply negb_true_iff in Hr.
    simpl. rewrite Hr. simpl. f_equal. lia. }
  assert (live (a + span l) (carve n b) = [(a + span l + tag_bytes, n)]) as ->.
  { unfold carve. by destruct (bsize b =? n). }
  simpl. by rewrite <- Permutation_middle.
Qed.

(** Blocks of a coalesced run, seen from one position. *)
Lemma coalesced_app l b r :
  coalesced (l ++ b :: r) <->
  coalesced l /\ coalesced (b :: r) /\
  (forall x, last l = Some x -> reserved x = true \/ reserved b = true).
Proof.
  induction l as [|x l IH]; simpl app; [naive_solver|].
  destruct l as [|y l]; simpl in *.
  - split; [intros [? ?]; split_and!; naive_solver|intros (_ & ? & H); eauto].
  - split.
    + intros [Hxy Hc]. apply IH in Hc as (? & ? & ?). auto.
    + intros ([Hxy Hc] & ? & ?). split; [done|]. apply IH. auto.
Qed.

Lemma coalesced_cons b r :
  coalesced (b :: r) <->
  coalesced r /\ (forall x, head r = Some x -> reserved b = true \/ reserved x = true).
Proof. destruct r as [|y r]; simpl; [naive_solver|]. split; [intros [? ?]|intros [? ?]]; naive_solver. Qed.

Lemma coalesced_carve n l b r : fits n b = true ->
  coalesced (l ++ b :: r) -> coalesced (l ++ carve n b ++ r).
Proof.
  intros Hf (Hl & Hb & Hlb)%coalesced_app.
  unfold fits in Hf. apply andb_prop in Hf as [Hr _]. apply negb_true_iff in Hr.
  apply coalesced_cons in Hb as [Hrc Hbr].
  unfold carve. destruct (bsize b =? n); simpl app.
  - apply coalesced_app. split_and!; [done| |naive_solver].
    apply coalesced_cons. naive_solver.
  - apply coalesced_app. split_and!; [done| |naive_solver].
    apply coalesced_cons. split; [|naive_solver]. apply coalesced_cons.
    split; [done|]. intros x Hx. destruct (Hbr x Hx); [congruence|by right].
Qed.

Lemma defined_at_ext m m' r : defined_at m r ->
  (forall i, r.1 <= i < r.1 + r.2 -> m' !! i = m !! i) -> defined_at m' r.
Proof. intros Hd Hm i Hi. rewrite Hm by done. by apply Hd. Qed.

(** The allocated region lies outside the live ones. *)
Lemma live_around a l b r q m : Forall (fun b => 0 < bsize b) (l ++ b :: r) ->
  reserved b = false -> (q, m) ∈ live a (l ++ b :: r) ->
  q + m <= a + span l \/ a + span l + tag_bytes + bsize b <= q.
Proof.
  intros [Hl [Hb Hr]%Forall_cons]%Forall_app Hres Hin. rewrite live_app in Hin.
  simpl in Hin. rewrite Hres in Hin. simpl in Hin.
  apply elem_of_app in Hin as [Hin|Hin]; apply live_bounds in Hin; try done; hlia.
Qed.

Definition data_kept (h h' : heap) (rs : list (Z * Z)) : Prop :=
  forall q m, (q, m) ∈ rs -> forall i, q <= i < q + m -> bytes h' !! i = bytes h !! i.

Definition alloc_post (h : heap) (bs : list block) (n p : Z) (h' : heap) (bs' : list block) : Prop :=
  heap_rep h' bs' /\ head_tag h' = head_tag h /\ tail_tag h' = tail_tag h /\
  live (head_tag h) bs' ≡ₚ (p, n) :: live (head_tag h) bs /\
  (forall i, p <= i < p + n -> bytes h' !! i = Some 0) /\
  data_kept h h' (live (head_tag h) bs) /\
  (coalesced bs -> coalesced bs').

(** [memset] on the payload of a block. *)
Lemma memset_spec h bs l n r e :
  chain (tags h) (head_tag h) 0 bs e -> bs = l ++ Block true n :: r -> 0 < n ->
  exists h', memset (head_tag h + span l + tag_bytes) 0 n h = Done (tt, h') /\
    chain (tags h') (head_tag h) 0 bs e /\ frame_except (head_tag h + span l + tag_bytes) n h h' /\
    (forall i, head_tag h + span l + tag_bytes <= i < head_tag h + span l + tag_bytes + n ->
      bytes h' !! i = Some 0).
Proof.
  intros Hc -> Hn. eexists. split; [done|]. simpl. rewrite length_replicate, Z2Nat.id by lia.
  split_and!.
  - apply chain_clobber; [done|lia|simpl; lia].
  - split_and!; [done|done|done|]. intros i Hi. simpl. rewrite lookup_write_bytes.
    rewrite length_replicate, Z2Nat.id by lia. by rewrite bool_decide_false.
  - intros i Hi. rewrite lookup_write_bytes.
    rewrite length_replicate, Z2Nat.id by lia. rewrite bool_decide_true by done.
    apply lookup_replicate_2. lia.
Qed.

Lemma frame_trans lo n lo' n' h1 h2 h3 : lo <= lo' -> lo' + n' <= lo + n ->
  frame_except lo n h1 h2 -> frame_except lo' n' h2 h3 -> frame_except lo n h1 h3.
Proof.
  intros ? ? (E1 & E2 & E3 & E4) (F1 & F2 & F3 & F4).
  split_and!; [congruence|congruence|congruence|]. intros i Hi. rewrite F4, E4; [done|lia|lia].
Qed.

Lemma heap_alloc_spec h bs n : heap_rep h bs -> 0 < n -> n + tag_bytes + 1 < 2 ^ 64 ->
  match spec_alloc (head_tag h) n bs with
  | Some (p, bs') => exists h', heap_alloc n h = Done (p, h') /\ alloc_post h bs n p h' bs'
  | None => heap_alloc n h = Stop (Panic "Unable to find space for heap alloc")
  end.
Proof.
  intros [Hc Hlow Hhigh Hne Hu Hby] Hn Hbig.
  unfold heap_alloc, guard_or. destruct (Z.eqb_spec n 0) as [|_]; [lia|]. cbn [negb].
  rewrite bind_ret_l. erewrite bind_done by reflexivity. erewrite bind_done by reflexivity.
  set (h1 := set_alloc_size _ h).
  pose proof (find_block_spec n h1 (head_tag h) 0 bs (tail_tag h) (S (size (tags h)))
    Hn Hbig Hlow Hhigh Hne ltac:(pose proof (chain_length _ _ _ _ _ Hc); lia) Hc) as Hfind.
  destruct (find_index (fits n) bs) as [i|] eqn:Ei.
  2:{ rewrite (fits_none _ _ Ei). by erewrite bind_stop by exact Hfind. }
  erewrite bind_done by exact Hfind.
  apply fits_split in Ei as (l & b & r & -> & Hf & <- & Hs). rewrite Hs.
  pose proof (chain_sizes _ _ _ _ _ Hc) as Hsz.
  pose proof (chain_range _ _ _ _ _ _ Hc) as (Hl & Hr & He). simpl in Hr, He.
  destruct (take_block_spec n h1 (head_tag h) 0 l b r (tail_tag h) Hn Hbig Hlow Hhigh Hc Hf)
    as (h2 & Ht & Hc2 & Hfr2).
  erewrite bind_done by exact Ht.
  assert (head_tag h2 = head_tag h) as Hh2 by (by destruct Hfr2 as (? & _)).
  assert (n <= bsize b) as Hnb.
  { unfold fits in Hf. apply andb_prop in Hf as [_ Hf]. hlia. }
  destruct (carve n b ++ r) as [|b1 rest] eqn:Ecv; [by unfold carve in Ecv; destruct (bsize b =? n)|].
  assert (b1 = Block true n) as -> by (by unfold carve in Ecv; destruct (bsize b =? n); injection Ecv).
  rewrite <- Hh2 in Hc2.
  destruct (memset_spec h2 _ l n rest _ Hc2 eq_refl Hn) as (h3 & Hm & Hc3 & Hfr3 & Hz).
  pose proof Hsz as [_ [Hb0 Hsr%span_nonneg]%Forall_cons]%Forall_app.
  rewrite u64_small by hlia.
  rewrite <- Hh2. erewrite bind_done by exact Hm. exists h3. split; [by rewrite Hh2|].
  rewrite Hh2 in Hfr3, Hz, Hc3.
  assert (frame_except (head_tag h + span l + tag_bytes) (bsize b) h1 h3) as (F1 & F2 & F3 & F4).
  { eapply frame_trans; [| |exact Hfr2|exact Hfr3]; simpl; lia. }
  rewrite <- Ecv in *.
  assert (data_kept h h3 (live (head_tag h) (l ++ b :: r))) as Hkeep.
  { intros q m Hin j Hj. apply (F4 j).
    pose proof Hf as [Hres _]%andb_prop. apply negb_true_iff in Hres.
    pose proof (live_around _ _ _ _ _ _ Hsz Hres Hin). hlia. }
  pose proof (live_carve (head_tag h) n l b r Hf) as Hlive.
  assert (heap_rep h3 (l ++ carve n b ++ r)) as Hrep.
  { constructor.
    - simpl in F1, F2. by rewrite F1, F2.
    - by rewrite F1.
    - by rewrite F2.
    - rewrite Ecv. by destruct l.
    - rewrite F3. simpl. rewrite Hu.
      assert (used (l ++ carve n b ++ r) = used (l ++ b :: r) + n) as E.
      { rewrite !used_app, (used_carve _ _ Hf). simpl.
        pose proof Hf as [Hres _]%andb_prop. apply negb_true_iff in Hres. rewrite Hres. lia. }
      rewrite <- E. apply u64_small.
      pose proof (used_nonneg _ (chain_sizes _ _ _ _ _ Hc3)).
      pose proof (chain_end _ _ _ _ _ Hc3). hlia.
    - rewrite F1. change (head_tag h1) with (head_tag h). rewrite Hlive. constructor.
      + intros j Hj. simpl in Hj. rewrite Hz by lia. eauto.
      + apply Forall_forall. intros [q m] Hin.
        pose proof (proj1 (Forall_forall _ _) Hby _ Hin) as Hd.
        eapply defined_at_ext; [exact Hd|]. simpl. intros j Hj.
        apply (Hkeep q m); [exact Hin|exact Hj]. }
  rewrite Hh2. split_and!; [done|by rewrite F1|by rewrite F2|done|done|exact Hkeep|by apply coalesced_carve].
Qed.

(** *** heap_free *)

(** Two neighbours become one block. *)
Lemma chain_join tg a pv l rv n rv2 m r e :
  chain tg a pv (l ++ Block rv n :: Block rv2 m :: r) e ->
  let cur := a + span l in
  let nn := cur + tag_bytes + n + tag_bytes + m in
  exists nnt, tg !! nn = Some nnt /\
  chain (<[nn := set_prev_size (n + m + tag_bytes) nnt]>
          (<[cur := Tag rv (last_size pv l) (n + m + tag_bytes)]> tg)) a pv
    (l ++ Block rv (n + m + tag_bytes) :: r) e.
Proof.
  intros Hc cur nn.
  pose proof (chain_sizes _ _ _ _ _ Hc) as [Hsl [Hn [Hm Hsr]%Forall_cons]%Forall_cons]%Forall_app.
  simpl in Hn, Hm. pose proof (span_nonneg r Hsr) as Hr0. pose proof (span_nonneg l Hsl) as Hl0.
  pose proof (chain_end _ _ _ _ _ Hc) as He. rewrite span_app in He. simpl in He.
  assert (chain tg nn m r e) as Hnx.
  { assert (chain tg a pv ((l ++ [Block rv n]) ++ Block rv2 m :: r) e) as Hc'
      by (by rewrite <- app_assoc).
    apply chain_next in Hc'. rewrite span_app in Hc'. simpl in Hc'.
    by replace nn with (a + (span l + (tag_bytes + n + 0)) + tag_bytes + m) by (subst nn cur; lia). }
  destruct (chain_set_prev _ _ _ (n + m + tag_bytes) _ _ Hnx) as (nnt & Hnnt & Hr2).
  exists nnt. split; [done|].
  eapply (chain_replace tg _ a pv l [Block rv n; Block rv2 m] [Block rv (n + m + tag_bytes)] r);
    [done| |].
  - intros k Hk. apply tag_keys_bounds in Hk; [|done].
    rewrite !lookup_insert_ne by (subst nn cur; hlia). done.
  - apply (chain_split _ _ _ [_]). simpl. split.
    + split_and!; [|hlia|done]. fold cur. rewrite lookup_insert_ne by (subst nn; hlia).
      by rewrite lookup_insert_eq.
    + fold cur. rewrite last_size_cons. change (last_size _ []) with (n + m + tag_bytes).
      replace (cur + (tag_bytes + (n + m + tag_bytes) + 0)) with nn by (subst nn; lia).
      eapply chain_ext; [exact Hr2|]. intros k Hk.
      assert (nn <= k).
      { apply elem_of_app in Hk as [Hk|Hk%list_elem_of_singleton].
        - apply tag_keys_bounds in Hk; [hlia|done].
        - subst nn cur. hlia. }
      destruct (decide (k = nn)) as [->|Hne]; [by rewrite !lookup_insert_eq|].
      rewrite !lookup_insert_ne by (subst nn; hlia). done.
Qed.

(** Only tags change. *)
Definition same_but_tags (h h' : heap) : Prop :=
  bytes h' = bytes h /\ head_tag h' = head_tag h /\ tail_tag h' = tail_tag h /\
  alloc_size h' = alloc_size h.

Lemma free_join_next_spec h a pv l n r e :
  0 <= a -> e + tag_bytes < 2 ^ 64 -> chain (tags h) a pv (l ++ Block true n :: r) e ->
  let '(n', r') := join_right n r in
  exists h', free_join_next (a + span l) (a + span l + tag_bytes + n) h =
    Done (a + span l + tag_bytes + n', h') /\
    chain (tags h') a pv (l ++ Block true n' :: r') e /\ same_but_tags h h'.
Proof.
  intros Ha He Hc. pose proof (chain_next _ _ _ _ _ _ _ Hc) as Hnx. simpl in Hnx.
  pose proof (chain_head _ _ _ _ _ Hnx) as Hnt.
  pose proof (chain_at _ _ _ _ _ _ _ Hc) as [Ht Hn]. simpl in Ht, Hn.
  unfold free_join_next. rd Hnt. destruct r as [|[rv m] r]; simpl.
  { eexists. split; [done|]. split; [done|]. done. }
  destruct rv; simpl; [by eexists|].
  pose proof (chain_at _ _ _ [] _ _ _ Hnx) as [_ Hm]. simpl in Hm.
  destruct (Z.eqb_spec m 0) as [->|_]; [lia|]. simpl.
  destruct (chain_join _ _ _ _ _ _ _ _ _ _ Hc) as (nnt & Hnnt & Hch).
  pose proof (chain_sizes _ _ _ _ _ Hc) as [Hsl [_ [_ Hsr]%Forall_cons]%Forall_cons]%Forall_app.
  pose proof (chain_end _ _ _ _ _ Hc) as Hend. rewrite span_app in Hend. simpl in Hend.
  pose proof (span_nonneg r Hsr). pose proof (span_nonneg l Hsl).
  rewrite (u64_small (a + span l + tag_bytes + n + m)),
    (u64_small (a + span l + tag_bytes + n + m + tag_bytes)) by hlia.
  rd Ht. rewrite (u64_small (m + tag_bytes)), (u64_small (n + (m + tag_bytes))) by hlia. wr Ht. unfold set_next_size. simpl.
  erewrite bind_done by (apply read_tag_done; simpl; apply lookup_insert_eq). simpl.
  replace (a + span l + tag_bytes + n + m + tag_bytes)
    with (a + span l + tag_bytes + n + tag_bytes + m) by lia.
  erewrite bind_done; last first.
  { apply update_tag_done. simpl. rewrite lookup_insert_ne by hlia. exact Hnnt. }
  replace (n + (m + tag_bytes)) with (n + m + tag_bytes) by lia.
  unfold ret. eexists. split; [do 2 f_equal; lia|]. done.
Qed.

Lemma last_inv l : l = [] \/ exists l' (b : block), l = l' ++ [b].
Proof. destruct l using rev_ind; eauto. Qed.

(** What a second [heap_free] of the same block finds. *)
Definition released (tg : gmap Z heap_tag_t) (cur n : Z) : Prop :=
  exists t nt, tg !! cur = Some t /\ next_size t = n /\
    tg !! (cur + tag_bytes + n) = Some nt /\ (next_reserved t = false \/ prev_size nt <> n).

Lemma free_join_prev_spec h a l n r e :
  0 <= a -> e + tag_bytes < 2 ^ 64 -> chain (tags h) a 0 (l ++ Block true n :: r) e ->
  exists h', free_join_prev (a + span l) (a + span l + tag_bytes + n) h = Done (tt, h') /\
    chain (tags h') a 0 (join_left l n ++ r) e /\ same_but_tags h h' /\
    released (tags h') (a + span l) n.
Proof.
  intros Ha He Hc. pose proof (chain_at _ _ _ _ _ _ _ Hc) as [Ht Hn]. simpl in Ht, Hn.
  unfold free_join_prev, join_left. rd Ht.
  assert (exists h', update_tag (a + span l) (set_reserved false) h = Done (tt, h') /\
    chain (tags h') a 0 (l ++ Block false n :: r) e /\ same_but_tags h h' /\
    released (tags h') (a + span l) n) as Hrel.
  { rewrite (update_tag_done _ _ _ _ Ht). eexists. split; [done|]. simpl.
    assert (chain (<[a + span l := Tag false (last_size 0 l) n]> (tags h)) a 0
      (l ++ Block false n :: r) e) as Hc' by (by apply (chain_retag _ _ _ _ (Block true n))).
    split_and!; [done|done|]. eexists _, _. split_and!; [apply lookup_insert_eq|done| |by left].
    apply chain_next in Hc'. by apply chain_head in Hc'. }
  destruct (last_inv l) as [->|(l' & [rv m] & ->)]; [done|].
  rewrite last_snoc, removelast_app, app_nil_r by done. simpl.
  rewrite last_size_snoc in *. simpl.
  pose proof (chain_sizes _ _ _ _ _ Hc) as
    [[Hsl [Hm _]%Forall_cons]%Forall_app [_ Hsr]%Forall_cons]%Forall_app.
  simpl in Hm. destruct (Z.eqb_spec m 0) as [->|_]; [lia|]. simpl.
  pose proof (chain_end _ _ _ _ _ Hc) as Hend. rewrite !span_app in *. simpl in *.
  pose proof (span_nonneg r Hsr). pose proof (span_nonneg l' Hsl).
  assert (u64 (u64 (a + (span l' + (tag_bytes + m + 0)) - m) - tag_bytes) = a + span l') as ->.
  { rewrite (u64_small (_ - m)), u64_small by hlia. lia. }
  assert (chain (tags h) a 0 (l' ++ Block rv m :: Block true n :: r) e) as Hc2
    by (by rewrite <- app_assoc in Hc).
  pose proof (chain_at _ _ _ _ _ _ _ Hc2) as [Hpt _]. simpl in Hpt.
  rd Hpt. destruct rv; simpl; [by rewrite <- (app_assoc _ [_])|].
  destruct (chain_join _ _ _ _ _ _ _ _ _ _ Hc2) as (nnt & Hnnt & Hch).
  wr Hpt. unfold set_next_size. simpl.
  rewrite (u64_small (n + tag_bytes)), (u64_small (m + (n + tag_bytes))) by hlia.
  erewrite bind_done by (apply read_tag_done; simpl; apply lookup_insert_eq). simpl.
  replace (a + (span l' + (tag_bytes + m + 0)) + tag_bytes + n)
    with (a + span l' + tag_bytes + m + tag_bytes + n) by lia.
  erewrite update_tag_done; last first.
  { simpl. rewrite lookup_insert_ne by hlia. exact Hnnt. }
  replace (m + (n + tag_bytes)) with (m + n + tag_bytes) by lia.
  eexists. split; [done|]. rewrite <- app_assoc. split_and!; [done|done|].
  exists (Tag true m n), (set_prev_size (m + n + tag_bytes) nnt).
  split_and!; [|reflexivity| |right; cbn [prev_size set_prev_size]; hlia]; simpl.
  - rewrite !lookup_insert_ne by hlia. exact Ht.
  - replace (a + (span l' + (tag_bytes + m + 0)) + tag_bytes + n)
      with (a + span l' + tag_bytes + m + tag_bytes + n) by lia.
  apply lookup_insert_eq.
Qed.

Lemma join_right_facts n r n' r' : join_right n r = (n', r') ->
  used r' = used r /\
  (forall c, live (c + n') r' = live (c + n) r) /\
  (forall c, coalesced (Block true c :: r) -> coalesced (Block false n' :: r')).
Proof.
  unfold join_right. destruct r as [|[rv m] r].
  - intros [= <- <-]. done.
  - destruct rv; cbn [reserved bsize]; intros [= <- <-].
    + split_and!; [done|done|]. intros c [_ Hr]. simpl in *. split; [by right|done].
    + split_and!; [simpl; lia|intros c; simpl; f_equal; lia|].
      intros c Hc. apply coalesced_cons in Hc as [Hc _].
      apply coalesced_cons in Hc as [Hc1 Hc2]. apply coalesced_cons. naive_solver.
Qed.

Lemma join_left_facts l n r :
  used (join_left l n ++ r) = used l + used r /\
  (forall a, live a (join_left l n ++ r) = live a l ++ live (a + span l + tag_bytes + n) r) /\
  (coalesced l -> coalesced (Block false n :: r) -> coalesced (join_left l n ++ r)) /\
  join_left l n <> [].
Proof.
  unfold join_left. destruct (last_inv l) as [->|(l' & [rv m] & ->)].
  { simpl. split_and!; [lia|intros a; f_equal; lia|done|done]. }
  rewrite last_snoc, removelast_app, app_nil_r by done. cbn [reserved bsize]. destruct rv.
  - rewrite <- !app_assoc. cbn [app].
    split_and!; [rewrite !used_app; simpl; lia| | |by destruct l'].
    + intros a. rewrite !live_app. simpl. rewrite <- app_assoc. simpl. do 3 f_equal.
      rewrite span_app. simpl. lia.
    + intros (Hl & _ & H1)%coalesced_app Hr. apply coalesced_app. split_and!; [done| |naive_solver].
      apply coalesced_cons. split; [done|by left].
  - rewrite <- app_assoc. cbn [app].
    split_and!; [rewrite !used_app; simpl; lia| | |by destruct l'].
    + intros a. rewrite !live_app. simpl. rewrite app_nil_r. do 2 f_equal.
      rewrite span_app. simpl. lia.
    + intros (Hl & _ & H1)%coalesced_app Hr. apply coalesced_cons in Hr as [Hr Hr2].
      apply coalesced_app. split_and!; [done| |naive_solver].
      apply coalesced_cons. naive_solver.
Qed.

Lemma spec_free_facts l n r :
  spec_free l n r <> [] /\
  used (l ++ Block true n :: r) = n + used (spec_free l n r) /\
  (forall a, live a (l ++ Block true n :: r) ≡ₚ (a + span l + tag_bytes, n) :: live a (spec_free l n r)) /\
  (coalesced (l ++ Block true n :: r) -> coalesced (spec_free l n r)).
Proof.
  unfold spec_free. destruct (join_right n r) as [n' r'] eqn:E.
  apply join_right_facts in E as (Hu & Hl & Hc).
  pose proof (join_left_facts l n' r') as (Hu2 & Hl2 & Hc2 & Hne).
  split_and!.
  - by destruct (join_left l n').
  - rewrite Hu2, Hu, used_app. simpl. lia.
  - intros a. rewrite Hl2, Hl, live_app. simpl. by rewrite Permutation_middle.
  - intros (H1 & H2 & _)%coalesced_app. eauto.
Qed.

Lemma heap_free_spec h l n r :
  heap_rep h (l ++ Block true n :: r) ->
  exists h', heap_free (head_tag h + span l + tag_bytes) h = Done (tt, h') /\
    heap_rep h' (spec_free l n r) /\
    head_tag h' = head_tag h /\ tail_tag h' = tail_tag h /\ bytes h' = bytes h /\
    exists n' , 0 < n' /\ head_tag h + span l + tag_bytes + n' <= tail_tag h /\
      released (tags h') (head_tag h + span l) n'.
Proof.
  intros [Hc Hlow Hhigh _ Hu Hby].
  pose proof (chain_at _ _ _ _ _ _ _ Hc) as [Ht Hn]. simpl in Ht, Hn.
  pose proof (chain_range _ _ _ _ _ _ Hc) as (Hl & _ & He). simpl in He.
  pose proof (chain_sizes _ _ _ _ _ Hc) as Hsz.
  pose proof Hsz as [_ [_ Hsr]%Forall_cons]%Forall_app. pose proof (span_nonneg r Hsr).
  unfold heap_free. replace (u64 (head_tag h + span l + tag_bytes - tag_bytes))
    with (head_tag h + span l) by (rewrite u64_small by hlia; lia).
  rd Ht. erewrite bind_done by reflexivity. set (h1 := set_alloc_size _ h).
  unfold guard_or at 1. rewrite bind_ret_l.
  rewrite (u64_small (head_tag h + span l + n)), u64_small by hlia.
  replace (head_tag h + span l + n + tag_bytes) with (head_tag h + span l + tag_bytes + n) by lia.
  pose proof (chain_next _ _ _ _ _ _ _ Hc) as Hnx. simpl in Hnx.
  pose proof (chain_head _ _ _ _ _ Hnx) as Hnt.
  rewrite (bind_done _ _ _ _ _ (read_tag_done h1 _ _ Hnt)).
  assert (prev_size match r with
    | [] => Tag false n 0 | b :: _ => Tag (reserved b) n (bsize b) end = n) as -> by (by destruct r).
  rewrite Z.eqb_refl. unfold guard_or. rewrite bind_ret_l.
  pose proof (free_join_next_spec h1 _ _ l n r _ Hlow Hhigh Hc) as Hj.
  destruct (spec_free_facts l n r) as (Hne & Hus & Hlv & _). unfold spec_free in *.
  destruct (join_right n r) as [n' r'].
  destruct Hj as (h2 & Hj1 & Hc2 & Hs2). rewrite (bind_done _ _ _ _ _ Hj1).
  pose proof (chain_at _ _ _ _ _ _ _ Hc2) as [Ht2 Hn2]. simpl in Ht2, Hn2. rd Ht2.
  pose proof (chain_next _ _ _ _ _ _ _ Hc2) as Hnx2. simpl in Hnx2.
  pose proof (chain_head _ _ _ _ _ Hnx2) as Hnt2.
  assert (update_tag (head_tag h + span l + tag_bytes + n') (set_prev_size n') h2 = Done (tt, h2)) as Hw.
  { rewrite (update_tag_done _ _ _ _ Hnt2). do 2 f_equal. unfold set_tags.
    rewrite insert_id; [by destruct h2|]. rewrite Hnt2. by destruct r'. }
  rewrite (bind_done _ _ _ _ _ Hw).
  destruct (free_join_prev_spec h2 _ l n' r' _ Hlow Hhigh Hc2) as (h3 & Hf & Hc3 & Hs3 & Hrl).
  exists h3. split; [exact Hf|].
  destruct Hs2 as (B2 & H2 & T2 & A2), Hs3 as (B3 & H3 & T3 & A3). simpl in *.
  assert (head_tag h3 = head_tag h) as F1 by congruence.
  assert (tail_tag h3 = tail_tag h) as F2 by congruence.
  assert (bytes h3 = bytes h) as F3 by congruence.
  pose proof (chain_range _ _ _ [] _ _ Hnx2) as (_ & Hr2 & Hr2'). simpl in Hr2'.
  split_and!; [|done|done|done|by exists n'; split_and!; [done|hlia|]].
  constructor; rewrite ?F1, ?F2, ?F3; try done.
  - rewrite A3, A2, Hu, Hus, Z.add_simpl_l. apply u64_small.
    pose proof (used_nonneg _ (chain_sizes _ _ _ _ _ Hc3)).
    pose proof (chain_end _ _ _ _ _ Hc3). hlia.
  - rewrite (Hlv (head_tag h)) in Hby. by apply Forall_cons in Hby as [_ ?].
Qed.

(** *** heap_init, heap_check, heap_usage *)

Lemma heap_init_spec vaddr n :
  0 <= vaddr -> 2 * tag_bytes < n -> vaddr + n < 2 ^ 64 ->
  exists h, heap_init_tags vaddr n heap_empty = Done (tt, h) /\
    heap_rep h [Block false (n - 2 * tag_bytes)] /\ head_tag h = vaddr.
Proof.
  intros Hv Hn Hb. unfold heap_init_tags. rewrite (u64_small (vaddr + _ + _)) by hlia.
  eexists. split; [reflexivity|]. split; [|done]. constructor; simpl.
  - split_and!; simpl.
    + split_and!; [|hlia|done]. rewrite lookup_insert_ne by hlia.
      rewrite lookup_clobber by hlia. by rewrite lookup_insert_eq.
    + hlia.
    + by rewrite lookup_insert_eq.
  - done.
  - hlia.
  - done.
  - done.
  - done.
Qed.

Lemma check_tags_spec h a pv bs e fuel :
  0 <= a -> e + tag_bytes < 2 ^ 64 -> (length bs < fuel)%nat -> chain (tags h) a pv bs e ->
  check_tags fuel a h = Done (e, h).
Proof.
  revert a pv fuel. induction bs as [|b bs IH]; intros a pv fuel Ha He Hf Hc;
    (destruct fuel as [|fuel]; simpl in Hf; [lia|]); pose proof (chain_head _ _ _ _ _ Hc) as Ht;
    simpl check_tags; rd Ht; simpl.
  - apply chain_end in Hc. simpl in Hc. unfold ret. do 2 f_equal. lia.
  - pose proof (chain_at _ _ _ [] _ _ _ Hc) as [_ Hb].
    pose proof (chain_range _ _ _ [b] bs _ Hc) as (_ & Hs2 & Hs3). simpl in Hs3.
    pose proof (chain_next _ _ _ [] _ _ _ Hc) as Hc'. simpl in Hc'. rewrite Z.add_0_r in Hc'.
    destruct (Z.eqb_spec (bsize b) 0); [lia|].
    rewrite (u64_small (a + bsize b)), u64_small by hlia.
    replace (a + bsize b + tag_bytes) with (a + tag_bytes + bsize b) by lia.
    pose proof (chain_head _ _ _ _ _ Hc') as Ht'. rd Ht'.
    replace (prev_size _) with (bsize b) by (by destruct bs). rewrite Z.eqb_refl.
    unfold guard_or. rewrite bind_ret_l. apply (IH _ (bsize b)); [hlia|done|lia|done].
Qed.

Lemma heap_check_spec h bs : heap_rep h bs -> heap_check h = Done (tt, h).
Proof.
  intros [Hc Hlow Hhigh _ _ _]. unfold heap_check. erewrite bind_done by reflexivity.
  erewrite bind_done.
  2:{ eapply check_tags_spec; [done|done| |done].
      pose proof (chain_length _ _ _ _ _ Hc). lia. }
  by rewrite Z.eqb_refl.
Qed.

Lemma usage_from_spec h a pv bs e fuel acc :
  0 <= a -> e + tag_bytes < 2 ^ 64 -> (length bs < fuel)%nat -> e = tail_tag h ->
  0 <= acc -> acc + used bs < 2 ^ 64 -> chain (tags h) a pv bs e ->
  usage_from fuel a acc h = Done (acc + used bs, h).
Proof.
  intros Ha He Hf Hee. revert a pv fuel acc Ha Hf.
  induction bs as [|b bs IH]; intros a pv fuel acc Ha Hf Hacc Hu Hc;
    (destruct fuel as [|fuel]; simpl in Hf; [lia|]); simpl usage_from; unfold get;
    rewrite (bind_done _ _ _ _ _ eq_refl).
  - apply chain_end in Hc. simpl in Hc. destruct (Z.eqb_spec a (tail_tag h)); [|lia].
    unfold ret. simpl. do 2 f_equal. lia.
  - pose proof (chain_at _ _ _ [] _ _ _ Hc) as [_ Hb].
    pose proof (chain_range _ _ _ [b] bs _ Hc) as (_ & Hs2 & Hs3). simpl in Hs3.
    pose proof (chain_next _ _ _ [] _ _ _ Hc) as Hc'. simpl in Hc'. rewrite Z.add_0_r in Hc'.
    pose proof (chain_sizes _ _ _ _ _ Hc') as Hsz.
    pose proof (used_nonneg _ Hsz).
    destruct (Z.eqb_spec a (tail_tag h)); [hlia|].
    pose proof (chain_head _ _ _ _ _ Hc) as Ht. rd Ht. simpl in Hu |- *.
    rewrite (u64_small (a + bsize b)), u64_small by hlia.
    replace (a + bsize b + tag_bytes) with (a + tag_bytes + bsize b) by lia.
    assert ((if reserved b then u64 (acc + bsize b) else acc) =
      acc + (if reserved b then bsize b else 0)) as ->.
    { destruct (reserved b); [apply u64_small|]; lia. }
    erewrite IH; [|hlia|lia|destruct (reserved b); lia|lia|exact Hc']. do 2 f_equal. lia.
Qed.

Lemma heap_usage_spec h bs : heap_rep h bs -> heap_usage h = Done (used bs, h).
Proof.
  intros [Hc Hlow Hhigh _ _ _]. unfold heap_usage. erewrite bind_done by reflexivity.
  pose proof (used_nonneg _ (chain_sizes _ _ _ _ _ Hc)).
  pose proof (chain_end _ _ _ _ _ Hc).
  rewrite (usage_from_spec h _ 0 bs (tail_tag h)); [done|done|done| |done|done|hlia|done].
  pose proof (chain_length _ _ _ _ _ Hc). lia.
Qed.

(** *** Programs over the heap *)

(** A client of the heap names its allocations by the order it made them in. *)
Inductive heap_op := HAlloc (n : Z) | HFree (p : Z) | HCheck.

Definition run_heap_op (o : heap_op) : M heap unit :=
  match o with
  | HAlloc n => let! _ := heap_alloc n in ret tt
  | HFree p => heap_free p
  | HCheck => heap_check
  end.
Definition run_heap_ops (os : list heap_op) : M heap unit := for_each os run_heap_op.

(** The same program on the run of blocks; [None]: no space left. *)
Inductive block_step (a : Z) : list block -> heap_op -> list block -> Prop :=
  | block_alloc bs n p bs' :
      0 < n -> n + tag_bytes + 1 < 2 ^ 64 -> spec_alloc a n bs = Some (p, bs') ->
      block_step a bs (HAlloc n) bs'
  | block_free l n r p :
      p = a + span l + tag_bytes ->
      block_step a (l ++ Block true n :: r) (HFree p) (spec_free l n r)
  | block_check bs : block_step a bs HCheck bs.

Inductive block_steps (a : Z) : list block -> list heap_op -> list block -> Prop :=
  | block_steps_nil bs : block_steps a bs [] bs
  | block_steps_cons bs1 bs2 bs3 o os :
      block_step a bs1 o bs2 -> block_steps a bs2 os bs3 -> block_steps a bs1 (o :: os) bs3.

Lemma heap_op_refines h bs o bs' :
  heap_rep h bs -> coalesced bs -> block_step (head_tag h) bs o bs' ->
  exists h', run_heap_op o h = Done (tt, h') /\ heap_rep h' bs' /\ coalesced bs' /\
    head_tag h' = head_tag h.
Proof.
  intros Hr Hco Hs. destruct Hs as [bs n p bs' Hn Hbig Ha|l n r p ->|bs].
  - pose proof (heap_alloc_spec _ _ _ Hr Hn Hbig) as Hal. rewrite Ha in Hal.
    destruct Hal as (h' & Hal & Hr' & Hh & _ & _ & _ & _ & Hc').
    exists h'. split_and!; [|done|by apply Hc'|done].
    simpl. by rewrite (bind_done _ _ _ _ _ Hal).
  - destruct (heap_free_spec _ _ _ _ Hr) as (h' & Hf & Hr' & Hh & _).
    exists h'. split_and!; [done|done| |done]. by apply (spec_free_facts l n r).
  - exists h. split_and!; [by apply (heap_check_spec _ bs)|done|done|done].
Qed.

(** C32: every client program whose requests the abstract first-fit heap can
    serve runs on the tagged heap without a panic, without touching a tag
    that is not there and without exhausting the search loops; the result
    represents the abstract heap, has no two free neighbours, passes
    [heap_check], and [heap_usage] and [alloc_size] both give the sum of the
    live sizes.  The program starts from what [heap_init] builds. *)
Theorem heap_program_refines (vaddr n : Z) (os : list heap_op) (bs : list block)
  (Hv : 0 <= vaddr) (Hn : 2 * tag_bytes < n) (Hb : vaddr + n < 2 ^ 64)
  (Hos : block_steps vaddr [Block false (n - 2 * tag_bytes)] os bs) :
  exists h, (do! heap_init_tags vaddr n; run_heap_ops os) heap_empty = Done (tt, h) /\
    heap_rep h bs /\ coalesced bs /\ heap_check h = Done (tt, h) /\
    heap_usage h = Done (used bs, h) /\ alloc_size h = used bs.
Proof.
  destruct (heap_init_spec vaddr n Hv Hn Hb) as (h0 & Hi & Hr & Hh).
  rewrite (bind_done _ _ _ _ _ Hi).
  enough (exists h, run_heap_ops os h0 = Done (tt, h) /\ heap_rep h bs /\ coalesced bs)
    as (h & Hrun & Hrep & Hco).
  { exists h. split_and!; [done|done|done|by eapply heap_check_spec|by apply heap_usage_spec|apply Hrep]. }
  clear Hi Hv Hn Hb. subst vaddr. generalize dependent h0.
  assert (coalesced [Block false (n - 2 * tag_bytes)]) as Hco by done. revert Hco.
  generalize [Block false (n - 2 * tag_bytes)] as bs0. intros bs0 Hco h0 Hos Hr.
  remember (head_tag h0) as a eqn:Ea. revert h0 Ea Hr Hco.
  induction Hos as [bs0|bs1 bs2 bs3 o os Ho Hos IH]; intros h0 -> Hr Hco; [by eexists|].
  destruct (heap_op_refines _ _ _ _ Hr Hco Ho) as (h1 & H1 & Hr1 & Hco1 & Hh1).
  unfold run_heap_ops. simpl. rewrite (bind_done _ _ _ _ _ H1).
  by apply IH.
Qed.

(** *** What one call promises *)

Lemma live_NoDup a bs : Forall (fun b => 0 < bsize b) bs -> NoDup (live a bs).*1.
Proof.
  intros Hs. revert a. induction Hs as [|b bs Hb Hs IH]; intros a; simpl; [constructor|].
  destruct (reserved b); simpl; [|done]. apply NoDup_cons. split; [|done].
  intros ([q m] & Hq & Hin)%list_elem_of_fmap. simpl in Hq. apply live_bounds in Hin; [hlia|done].
Qed.

Lemma new_region_disjoint a bs bs' p n q m :
  Forall (fun b => 0 < bsize b) bs' -> live a bs' ≡ₚ (p, n) :: live a bs ->
  (q, m) ∈ live a bs -> p + n + tag_bytes <= q \/ q + m + tag_bytes <= p.
Proof.
  intros Hsz Hl Hin. apply (live_disjoint a bs'); [done|rewrite Hl; by left|rewrite Hl; by right|].
  intros ->. pose proof (live_NoDup a bs' Hsz) as Hnd. rewrite Hl in Hnd.
  simpl in Hnd. apply NoDup_cons in Hnd as [Hnd _]. apply Hnd.
  apply list_elem_of_fmap. by exists (q, m).
Qed.

(** [heap_alloc] of [n] bytes either finds no fitting block and panics, or
    returns a region of [n] zero bytes that keeps a whole tag's distance from
    every live allocation, adds exactly that region to the live set and leaves
    the data of all other allocations unchanged. *)
Theorem heap_alloc_fresh h bs n
  (Hr : heap_rep h bs) (Hn : 0 < n) (Hbig : n + tag_bytes + 1 < 2 ^ 64) :
  (exists p h' bs', heap_alloc n h = Done (p, h') /\ heap_rep h' bs' /\
     live (head_tag h') bs' ≡ₚ (p, n) :: live (head_tag h) bs /\
     (forall q m, (q, m) ∈ live (head_tag h) bs ->
        p + n + tag_bytes <= q \/ q + m + tag_bytes <= p) /\
     (forall i, p <= i < p + n -> bytes h' !! i = Some 0) /\
     data_kept h h' (live (head_tag h) bs)) \/
  (Forall (fun b => fits n b = false) bs /\
   heap_alloc n h = Stop (Panic "Unable to find space for heap alloc")).
Proof.
  pose proof (heap_alloc_spec h bs n Hr Hn Hbig) as Hs.
  destruct (spec_alloc (head_tag h) n bs) as [[p bs']|] eqn:E.
  2:{ right. split; [by apply (spec_alloc_None (head_tag h))|done]. }
  destruct Hs as (h' & Ha & Hr' & Hh & _ & Hl & Hz & Hk & _).
  left. exists p, h', bs'. rewrite Hh. split_and!; [done|done|done| |done|done].
  pose proof (chain_sizes _ _ _ _ _ (rep_chain _ _ Hr')) as Hsz.
  intros q m. by apply (new_region_disjoint _ bs bs').
Qed.

(** [heap_free] of a live block releases exactly it, changes no data byte,
    and a second [heap_free] of the same address never succeeds: it ends in
    the reservation panic or in kernel entry error 10, whatever was merged. *)
Theorem heap_free_once h bs p n
  (Hr : heap_rep h bs) (Hin : (p, n) ∈ live (head_tag h) bs) :
  exists h' bs', heap_free p h = Done (tt, h') /\ heap_rep h' bs' /\
    (p, n) :: live (head_tag h') bs' ≡ₚ live (head_tag h) bs /\ bytes h' = bytes h /\
    exists w, heap_free p h' = Stop w /\
      w ∈ [Panic "Unable to verify reserve in heap_free()";
           EntryError KERNEL_ENTRY_ERROR_HEAP_FREE_FAILURE].
Proof.
  pose proof (live_split _ _ _ _ Hin) as (l & r & -> & ->).
  destruct (heap_free_spec h l n r Hr) as (h' & Hf & Hr' & Hh & Ht & Hb & n' & Hn' & He & t & nt & Hct & Hts & Hnt & Hbad).
  exists h', (spec_free l n r).
  destruct (spec_free_facts l n r) as (_ & _ & Hlv & _).
  split_and!; [done|done|by rewrite Hh, Hlv|done|].
  pose proof (rep_low _ _ Hr). pose proof (rep_high _ _ Hr).
  pose proof (chain_range _ _ _ _ _ _ (rep_chain _ _ Hr)) as (? & _ & _).
  unfold heap_free. replace (u64 (_ - tag_bytes)) with (head_tag h + span l)
    by (rewrite u64_small by hlia; lia).
  rd Hct. erewrite bind_done by reflexivity. unfold guard_or.
  destruct (next_reserved t) eqn:Er; [|eexists; split; [reflexivity|set_solver]].
  destruct Hbad as [|Hbad]; [congruence|]. subst n'.
  rewrite bind_ret_l. rewrite (u64_small (_ + next_size t)), u64_small by hlia.
  replace (head_tag h + span l + next_size t + tag_bytes)
    with (head_tag h + span l + tag_bytes + next_size t) by lia.
  rewrite (bind_done _ _ _ _ _ (read_tag_done (set_alloc_size (fun a => u64 (a - next_size t)) h') _ _ Hnt)).
  destruct (Z.eqb_spec (next_size t) (prev_size nt)); [congruence|].
  eexists; split; [reflexivity|set_solver].
Qed.

(** *** Data in live blocks and heap_realloc *)

Lemma write_live h bs q m data :
  heap_rep h bs -> (q, m) ∈ live (head_tag h) bs -> Z.of_nat (length data) <= m ->
  exists h', write_bytes q data h = Done (tt, h') /\ heap_rep h' bs /\
    frame_except q (Z.of_nat (length data)) h h' /\
    (forall i, 0 <= i < Z.of_nat (length data) -> bytes h' !! (q + i) = data !! Z.to_nat i).
Proof.
  intros [Hc Hlow Hhigh Hne Hu Hby] Hin Hlen. eexists. split; [reflexivity|].
  pose proof (live_split _ _ _ _ Hin) as (l & r & -> & Hq). simpl.
  assert (forall i, ~ (q <= i < q + Z.of_nat (length data)) ->
    (map_seqZ q data ∪ bytes h) !! i = bytes h !! i) as Hout.
  { intros i Hi. rewrite lookup_write_bytes. by rewrite bool_decide_false. }
  assert (forall i, 0 <= i < Z.of_nat (length data) ->
    (map_seqZ q data ∪ bytes h) !! (q + i) = data !! Z.to_nat i) as Hins.
  { intros i Hi. rewrite lookup_write_bytes. rewrite bool_decide_true by lia.
    f_equal. lia. }
  split_and!; [|by split_and!|exact Hins]. constructor; try done; simpl.
  - subst q. apply chain_clobber; [done|hlia|simpl; hlia].
  - eapply Forall_impl; [exact Hby|]. intros [p n] Hd i Hi. simpl in *.
    destruct (decide (q <= i < q + Z.of_nat (length data))) as [Hiq|Hiq].
    + replace i with (q + (i - q)) by lia. rewrite Hins by lia.
      apply lookup_lt_is_Some_2. lia.
    + rewrite Hout by done. by apply Hd.
Qed.

Lemma mapM_lookup (m : gmap Z Z) (ks : list Z) :
  (forall i, i ∈ ks -> is_Some (m !! i)) ->
  exists l, mapM (fun i => m !! i) ks = Some l /\ length l = length ks /\
    forall (k : nat) i, ks !! k = Some i -> l !! k = m !! i.
Proof.
  intros H. destruct (mapM_is_Some_2 (fun i => m !! i) ks) as [l Hl]; [by apply Forall_forall|].
  exists l. split; [done|]. apply mapM_Some in Hl. split; [symmetry; by apply Forall2_length in Hl|].
  intros k i Hk. destruct (Forall2_lookup_l _ _ _ _ _ Hl Hk) as (x & Hx & Hm). congruence.
Qed.

Lemma read_live h bs p n : heap_rep h bs -> (p, n) ∈ live (head_tag h) bs ->
  exists l, read_bytes p n h = Done (l, h) /\ Z.of_nat (length l) = n /\
    forall i, 0 <= i < n -> l !! Z.to_nat i = bytes h !! (p + i).
Proof.
  intros Hr Hin. pose proof (rep_bytes _ _ Hr) as Hby.
  pose proof (proj1 (Forall_forall _ _) Hby _ Hin) as Hd. simpl in Hd.
  pose proof (live_bounds _ _ _ _ (chain_sizes _ _ _ _ _ (rep_chain _ _ Hr)) Hin) as (_ & _ & Hn).
  destruct (mapM_lookup (bytes h) (seqZ p n)) as (l & Hl & Hlen & Hk).
  { intros i Hi%elem_of_seqZ. apply Hd. simpl. lia. }
  exists l. unfold read_bytes. rewrite Hl. split; [done|]. rewrite Hlen, length_seqZ.
  split; [lia|]. intros i Hi. rewrite (Hk _ (p + i)); [done|].
  apply lookup_seqZ. lia.
Qed.

Lemma live_tag h bs p n : heap_rep h bs -> (p, n) ∈ live (head_tag h) bs ->
  exists pv, tags h !! u64 (p - tag_bytes) = Some (Tag true pv n).
Proof.
  intros Hr Hin. pose proof (live_split _ _ _ _ Hin) as (l & r & -> & ->).
  pose proof (rep_chain _ _ Hr) as Hc. pose proof (chain_at _ _ _ _ _ _ _ Hc) as [Ht Hn].
  pose proof (chain_range _ _ _ _ _ _ Hc) as (? & ? & ?). simpl in *.
  pose proof (rep_low _ _ Hr). pose proof (rep_high _ _ Hr).
  rewrite u64_small by hlia. replace (_ - tag_bytes) with (head_tag h + span l) by lia. eauto.
Qed.

Lemma heap_realloc_unfold h p m n bs q h1 bs1 :
  heap_rep h bs -> (p, n) ∈ live (head_tag h) bs ->
  heap_alloc m h = Done (q, h1) -> alloc_post h bs m q h1 bs1 ->
  exists data, read_bytes p n h1 = Done (data, h1) /\ Z.of_nat (length data) = n /\
    (forall i, 0 <= i < n -> data !! Z.to_nat i = bytes h !! (p + i)) /\
    heap_realloc p m h = (do! write_bytes q data; do! heap_free p; ret q) h1.
Proof.
  intros Hr Hin Ha (Hr1 & Hh & _ & Hl & _ & Hk & _).
  assert ((p, n) ∈ live (head_tag h1) bs1) as Hin1 by (rewrite Hh, Hl; by right).
  destruct (read_live _ _ _ _ Hr1 Hin1) as (data & Hrd & Hlen & Hdata).
  exists data. split_and!; [done|done| |].
  { intros i Hi. rewrite Hdata by done. apply (Hk p n); [done|lia]. }
  unfold heap_realloc. rewrite (bind_done _ _ _ _ _ Ha).
  destruct (live_tag _ _ _ _ Hr1 Hin1) as (pv & Ht). rd Ht.
  unfold memcpy. by rewrite bind_assoc, (bind_done _ _ _ _ _ Hrd).
Qed.

(** Growing a block with [heap_realloc] (the new size is at least the old
    one, and a block fits) returns a fresh region whose first bytes are the
    old contents, releases the old block, and leaves all other data alone. *)
Theorem heap_realloc_grow h bs p n m
  (Hr : heap_rep h bs) (Hin : (p, n) ∈ live (head_tag h) bs) (Hnm : n <= m)
  (Hbig : m + tag_bytes + 1 < 2 ^ 64) (Hfit : Exists (fun b => fits m b = true) bs) :
  exists q h' bs', heap_realloc p m h = Done (q, h') /\ heap_rep h' bs' /\
    (p, n) :: live (head_tag h') bs' ≡ₚ (q, m) :: live (head_tag h) bs /\
    (forall i, 0 <= i < n -> bytes h' !! (q + i) = bytes h !! (p + i)) /\
    (forall i, n <= i < m -> bytes h' !! (q + i) = Some 0) /\
    data_kept h h' (live (head_tag h) bs).
Proof.
  pose proof (live_bounds _ _ _ _ (chain_sizes _ _ _ _ _ (rep_chain _ _ Hr)) Hin) as (_ & _ & Hn).
  pose proof (heap_alloc_spec h bs m Hr ltac:(lia) Hbig) as Hs.
  destruct (spec_alloc (head_tag h) m bs) as [[q bs1]|] eqn:E.
  2:{ apply spec_alloc_None in E. rewrite Forall_forall in E.
      apply Exists_exists in Hfit as (b & Hb & Hf). by rewrite (E b Hb) in Hf. }
  destruct Hs as (h1 & Ha & Hpost).
  destruct (heap_realloc_unfold _ _ _ _ _ _ _ _ Hr Hin Ha Hpost) as (data & _ & Hlen & Hdata & ->).
  destruct Hpost as (Hr1 & Hh1 & _ & Hl1 & Hz & Hk & _).
  destruct (write_live h1 bs1 q m data Hr1) as (h2 & Hw & Hr2 & (Hh2 & _ & _ & Hfr) & Hwr);
    [rewrite Hh1, Hl1; by left|lia|].
  rewrite (bind_done _ _ _ _ _ Hw).
  assert (Hin2 : (p, n) ∈ live (head_tag h2) bs1) by (rewrite Hh2, Hh1, Hl1; by right).
  pose proof (live_split _ _ _ _ Hin2) as (l & r & -> & Hp).
  destruct (heap_free_spec h2 l n r Hr2) as (h3 & Hf & Hr3 & Hh3 & _ & Hb & _).
  rewrite <- Hp in Hf. rewrite (bind_done _ _ _ _ _ Hf).
  exists q, h3, (spec_free l n r).
  destruct (spec_free_facts l n r) as (_ & _ & Hlv & _).
  assert (forall q' m', (q', m') ∈ live (head_tag h) (l ++ Block true n :: r) ->
    (q', m') = (q, m) \/ q + m <= q' \/ q' + m' <= q) as Hdis.
  { intros q' m' Hin'. pose proof (chain_sizes _ _ _ _ _ (rep_chain _ _ Hr1)) as Hsz.
    assert ((q, m) ∈ live (head_tag h) (l ++ Block true n :: r)) as Hinq by (rewrite Hl1; by left).
    destruct (decide (q = q')) as [<-|Hne].
    - left. pose proof (live_NoDup (head_tag h) _ Hsz) as Hnd. rewrite Hl1 in Hnd, Hin'.
      apply elem_of_cons in Hin' as [|Hin']; [done|]. simpl in Hnd.
      apply NoDup_cons in Hnd as [Hnd _]. destruct Hnd. apply list_elem_of_fmap. by exists (q, m').
    - pose proof (live_disjoint _ _ _ _ _ _ Hsz Hinq Hin' Hne). hlia. }
  split_and!; [done|done| | | |].
  - rewrite Hh3, Hh2, Hh1. rewrite <- Hl1. rewrite (Hlv (head_tag h)), Hp, Hh2, Hh1. done.
  - intros i Hi. rewrite Hb, Hwr by lia. by apply Hdata.
  - intros i Hi. rewrite Hb, Hfr by lia. apply Hz. lia.
  - intros q' m' Hin' i Hi. rewrite Hb.
    rewrite Hfr; [by apply (Hk q' m')|].
    destruct (Hdis q' m') as [[= -> ->]|?]; [rewrite Hl1; by right| |lia].
    pose proof (live_NoDup (head_tag h) _ (chain_sizes _ _ _ _ _ (rep_chain _ _ Hr1))) as Hnd.
    rewrite Hl1 in Hnd. simpl in Hnd. apply NoDup_cons in Hnd as [Hnd _].
    destruct Hnd. apply list_elem_of_fmap. by exists (q, m).
Qed.

(** [heap_check] falls off a run whose next tag is gone. *)
Lemma check_tags_stuck h a pv bs fuel :
  0 <= a -> a + span bs < 2 ^ 64 -> bs <> [] -> (length bs < fuel)%nat -> seg (tags h) a pv bs ->
  tags h !! (a + span bs) = None -> check_tags fuel a h = Stop Undefined.
Proof.
  revert a pv fuel. induction bs as [|b bs IH]; intros a pv fuel Ha He Hne Hf Hs Hend; [done|].
  destruct fuel as [|fuel]; simpl in Hf; [lia|].
  pose proof (seg_sizes _ _ _ _ Hs) as [Hb Hsz]%Forall_cons.
  pose proof (span_nonneg _ Hsz). destruct Hs as (Ht & _ & Hs). simpl in He, Hend.
  simpl check_tags. rd Ht. destruct (Z.eqb_spec (bsize b) 0); [lia|].
  rewrite (u64_small (a + bsize b)), u64_small by hlia.
  replace (a + bsize b + tag_bytes) with (a + tag_bytes + bsize b) by lia.
  replace (a + (tag_bytes + bsize b + span bs)) with (a + tag_bytes + bsize b + span bs) in * by lia.
  destruct bs as [|b' bs].
  - simpl in Hend. rewrite Z.add_0_r in Hend.
    apply bind_stop. unfold read_tag. by rewrite Hend.
  - pose proof Hs as (Ht' & _ & _). rd Ht'. rewrite Z.eqb_refl. unfold guard_or.
    rewrite bind_ret_l. eapply IH; [hlia|done|done|lia|done|done].
Qed.

Lemma clobbered tg lo n k : lo < k + tag_bytes -> k < lo + n -> clobber lo n tg !! k = None.
Proof. intros ? ?. apply map_lookup_filter_None. right. intros t _. simpl. lia. Qed.

(** Shrinking a block with [heap_realloc] copies the OLD size into the
    smaller new block: the tag behind the new block is overwritten before the
    old block is released, and the heap at that point fails [heap_check] with
    a read of a tag that is no longer there. *)
Theorem heap_realloc_shrink_overruns h bs p n m q h1
  (Hr : heap_rep h bs) (Hin : (p, n) ∈ live (head_tag h) bs) (Hm : 0 < m < n)
  (Ha : heap_alloc m h = Done (q, h1)) :
  exists h2, heap_realloc p m h = (do! heap_free p; ret q) h2 /\
    is_Some (tags h1 !! (q + m)) /\ tags h2 !! (q + m) = None /\
    heap_check h2 = Stop Undefined.
Proof.
  pose proof (live_bounds _ _ _ _ (chain_sizes _ _ _ _ _ (rep_chain _ _ Hr)) Hin) as Hpb.
  pose proof (chain_end _ _ _ _ _ (rep_chain _ _ Hr)) as Hend.
  pose proof (rep_low _ _ Hr). pose proof (rep_high _ _ Hr).
  pose proof (heap_alloc_spec h bs m Hr ltac:(lia) ltac:(hlia)) as Hs.
  destruct (spec_alloc (head_tag h) m bs) as [[q' bs1]|] eqn:E; [|congruence].
  destruct Hs as (h1' & Ha' & Hpost). rewrite Ha in Ha'. injection Ha' as <- <-.
  destruct (heap_realloc_unfold _ _ _ _ _ _ _ _ Hr Hin Ha Hpost) as (data & _ & Hlen & _ & ->).
  destruct Hpost as (Hr1 & Hh1 & _ & Hl1 & _ & _ & _).
  unfold write_bytes. erewrite bind_done by reflexivity. rewrite Hlen.
  set (h2 := set_bytes _ _). exists h2. split; [done|].
  assert ((q, m) ∈ live (head_tag h) bs1) as Hq by (rewrite Hl1; by left).
  pose proof (live_split _ _ _ _ Hq) as (l & r & -> & Hql). rewrite <- Hh1 in Hql.
  pose proof (rep_chain _ _ Hr1) as Hc1. pose proof (chain_next _ _ _ _ _ _ _ Hc1) as Hnx.
  simpl in Hnx. rewrite <- Hql in Hnx. pose proof (chain_head _ _ _ _ _ Hnx) as Htq.
  split; [by rewrite Htq|].
  assert (tags h2 !! (q + m) = None) as Hgone by (apply clobbered; hlia).
  split; [done|]. unfold heap_check. erewrite bind_done by reflexivity. apply bind_stop.
  assert (seg (tags h2) (head_tag h2) 0 (l ++ [Block true m])) as Hseg.
  { change (Block true m :: r) with ([Block true m] ++ r) in Hc1. rewrite app_assoc in Hc1.
    apply chain_split in Hc1 as [Hs1 _]. pose proof (seg_sizes _ _ _ _ Hs1) as Hsz.
    eapply seg_frame; [exact Hs1|]. intros k Hk. apply lookup_clobber.
    rewrite tag_keys_app in Hk. simpl in Hk. apply Forall_app in Hsz as [Hsz _].
    apply elem_of_app in Hk as [Hk|Hk%list_elem_of_singleton].
    - apply tag_keys_bounds in Hk; [|done]. left. hlia.
    - left. hlia. }
  assert (q + m = head_tag h2 + span (l ++ [Block true m])) as Hqm.
  { rewrite span_app. simpl. change (head_tag h2) with (head_tag h1). lia. }
  eapply check_tags_stuck; [| | |by eapply seg_length|exact Hseg|by rewrite <- Hqm].
  - change (head_tag h2) with (head_tag h1). lia.
  - rewrite <- Hqm. pose proof (chain_range _ _ _ [] _ _ Hnx) as (_ & ? & ?).
    pose proof (rep_high _ _ Hr1). simpl in *. hlia.
  - by destruct l.
Qed.

(** ** The interface the rest of the kernel uses

    [kh_live h l]: the heap [h] is well formed and its live allocations are
    [l], as address and size. *)
Class KernelHeap (H : Type) := {
  kh_alloc : Z -> M H Z;
  kh_free : Z -> M H unit;
  kh_live : H -> list (Z * Z) -> Prop;
  kh_live_perm h l l' : l ≡ₚ l' -> kh_live h l -> kh_live h l';
  kh_alloc_zero h : kh_alloc 0 h = Stop (Panic "Zero byte allocation");
  kh_alloc_ok h l n : kh_live h l -> 0 < n -> n + tag_bytes + 1 < 2 ^ 64 ->
    (exists p h', kh_alloc n h = Done (p, h') /\ kh_live h' ((p, n) :: l) /\ 0 < p /\
       forall q m, (q, m) ∈ l -> p + n <= q \/ q + m <= p) \/
    (exists msg, kh_alloc n h = Stop (Panic msg));
  kh_free_ok h l p n : kh_live h ((p, n) :: l) ->
    exists h', kh_free p h = Done (tt, h') /\ kh_live h' l
}.

#[export] Program Instance heap_kernel_heap : KernelHeap heap := {|
  kh_alloc := heap_alloc;
  kh_free := heap_free;
  kh_live h l := exists bs, heap_rep h bs /\ live (head_tag h) bs ≡ₚ l
|}.
Next Obligation. intros h l l' Hp (bs & Hr & Hl). exists bs. by rewrite Hl. Qed.
Next Obligation. done. Qed.
Next Obligation.
  intros h l n (bs & Hr & Hl) Hn Hbig. pose proof (heap_alloc_spec h bs n Hr Hn Hbig) as Hs.
  destruct (spec_alloc (head_tag h) n bs) as [[p bs']|]; [|right; by eexists].
  destruct Hs as (h' & Ha & Hr' & Hh & _ & Hl' & _). left. exists p, h'.
  pose proof (chain_sizes _ _ _ _ _ (rep_chain _ _ Hr')) as Hsz.
  assert (0 < p) as Hp.
  { assert ((p, n) ∈ live (head_tag h') bs') as Hin by (rewrite Hh, Hl'; by left).
    apply live_bounds in Hin; [|done]. pose proof (rep_low _ _ Hr'). hlia. }
  split_and!; [done| |done|].
  - exists bs'. split; [done|]. by rewrite Hh, Hl', Hl.
  - intros q m Hin. rewrite <- Hl in Hin.
    pose proof (new_region_disjoint _ _ _ _ _ _ _ Hsz Hl' Hin). hlia.
Qed.
Next Obligation.
  intros h l p n (bs & Hr & Hl).
  assert ((p, n) ∈ live (head_tag h) bs) as Hin by (rewrite Hl; by left).
  pose proof (live_split _ _ _ _ Hin) as (l1 & r & -> & ->).
  destruct (heap_free_spec h l1 n r Hr) as (h' & Hf & Hr' & Hh & _).
  exists h'. split; [done|]. exists (spec_free l1 n r). split; [done|].
  destruct (spec_free_facts l1 n r) as (_ & _ & Hlv & _). rewrite Hh.
  apply (Permutation_cons_inv (a := (head_tag h + span l1 + tag_bytes, n))).
  by rewrite <- Hlv.
Qed.

(** A second implementation, which never reuses memory: the interface does not
    pin down the allocator, and small examples evaluate on it. *)
Record bump := Bump { bump_next : Z }.

#[export] Program Instance bump_kernel_heap : KernelHeap bump := {|
  kh_alloc n := do! guard_or (Panic "Zero byte allocation") (negb (n =? 0));
                fun h => Done (bump_next h, Bump (bump_next h + n));
  kh_free p := ret tt;
  kh_live h l := 0 < bump_next h /\ Forall (fun r => r.1 + r.2 <= bump_next h) l
|}.
Next Obligation. intros h l l' Hp [Hn Hl]. split; [done|by rewrite <- Hp]. Qed.
Next Obligation. done. Qed.
Next Obligation.
  intros h l n [Hn Hl] Hpos _. left. exists (bump_next h), (Bump (bump_next h + n)).
  unfold bind, guard_or. destruct (Z.eqb_spec n 0); [lia|]. split_and!; [done|simpl; lia| |done|].
  - constructor; [simpl; lia|]. eapply Forall_impl; [exact Hl|]. simpl. lia.
  - intros q m Hin. right. by apply (proj1 (Forall_forall _ _) Hl (q, m)).
Qed.
Next Obligation.
  intros h l p n [Hn Hl]. exists h. split; [done|]. split; [done|]. by apply Forall_cons in Hl as [_ ?].
Qed.

(** *** Concrete runs *)

(** A heap of 1000 bytes at 4096 with one live allocation of 100 bytes. *)
Lemma demo_heap : exists h, heap_rep h [Block true 100; Block false 828] /\ head_tag h = 4096.
Proof.
  destruct (heap_init_spec 4096 1000) as (h0 & _ & Hr & Hh); [done|done|done|].
  pose proof (heap_alloc_spec _ _ 100 Hr ltac:(done) ltac:(done)) as Hs. rewrite Hh in Hs.
  change (spec_alloc _ _ _) with (Some (4120, [Block true 100; Block false 828])) in Hs.
  destruct Hs as (h1 & _ & Hr1 & Hh1 & _). exists h1. by rewrite Hh1.
Qed.

Lemma heap_program_refines_witness : exists h,
  (do! heap_init_tags 4096 1000; run_heap_ops [HAlloc 100; HAlloc 50; HFree 4120; HCheck]) heap_empty
    = Done (tt, h) /\ heap_rep h [Block false 100; Block true 50; Block false 754] /\
  heap_usage h = Done (50, h).
Proof.
  destruct (heap_program_refines 4096 1000 [HAlloc 100; HAlloc 50; HFree 4120; HCheck]
    [Block false 100; Block true 50; Block false 754]) as (h & H1 & H2 & _ & _ & H3 & _);
    [done|done|done| |exact (ex_intro _ h (conj H1 (conj H2 H3)))].
  eapply block_steps_cons; [eapply block_alloc; [done|done|reflexivity]|].
  eapply block_steps_cons; [eapply block_alloc; [done|done|reflexivity]|].
  eapply block_steps_cons.
  { apply (block_free _ [] 100 [Block true 50; Block false 754]). reflexivity. }
  eapply block_steps_cons; [apply block_check|apply block_steps_nil].
Defined.

Lemma heap_alloc_fresh_witness : exists h p h', heap_alloc 60 h = Done (p, h') /\
  p + 60 + tag_bytes <= 4120 \/ 4120 + 100 + tag_bytes <= p.
Proof.
  destruct demo_heap as (h & Hr & Hh).
  destruct (heap_alloc_fresh h _ 60 Hr) as [(p & h' & bs' & Ha & _ & _ & Hd & _)|[Hn _]];
    [done|done| |].
  - exists h, p, h'. rewrite Hh in Hd. destruct (Hd 4120 100); [|by left|by right].
    apply elem_of_cons. by left.
  - exfalso. apply Forall_cons in Hn as [_ Hn]. apply Forall_cons in Hn as [Hn _]. done.
Defined.

Lemma heap_free_once_witness : exists h h' w,
  heap_free 4120 h = Done (tt, h') /\ heap_free 4120 h' = Stop w.
Proof.
  destruct demo_heap as (h & Hr & Hh).
  destruct (heap_free_once h _ 4120 100 Hr) as (h' & bs' & Hf & _ & _ & _ & w & Hw & _).
  - rewrite Hh. apply elem_of_cons. by left.
  - by exists h, h', w.
Defined.

Lemma heap_realloc_grow_witness : exists h q h',
  heap_realloc 4120 200 h = Done (q, h') /\ bytes h' !! (q + 7) = bytes h !! (4120 + 7).
Proof.
  destruct demo_heap as (h & Hr & Hh).
  destruct (heap_realloc_grow h _ 4120 100 200 Hr) as (q & h' & bs' & Ha & _ & _ & Hd & _).
  - rewrite Hh. apply elem_of_cons. by left.
  - done.
  - done.
  - apply Exists_cons. right. apply Exists_cons. by left.
  - exists h, q, h'. split; [done|]. by apply Hd.
Defined.

Lemma heap_realloc_shrink_overruns_witness : exists h h2 q,
  heap_realloc 4120 8 h = (do! heap_free 4120; ret q) h2 /\ heap_check h2 = Stop Undefined.
Proof.
  destruct demo_heap as (h & Hr & Hh).
  pose proof (heap_alloc_spec _ _ 8 Hr ltac:(done) ltac:(done)) as Hs. rewrite Hh in Hs.
  change (spec_alloc _ _ _) with (Some (4244, [Block true 100; Block true 8; Block false 796])) in Hs.
  destruct Hs as (h1 & Ha & _).
  destruct (heap_realloc_shrink_overruns h _ 4120 100 8 4244 h1 Hr)
    as (h2 & H1 & _ & _ & H2); [|done|exact Ha|exact (ex_intro _ h (ex_intro _ h2 (ex_intro _ 4244 (conj H1 H2))))].
  rewrite Hh. apply elem_of_cons. by left.
Defined.
