(* ===== verification/Bitmap.v ===== *)
(** * Bitmap: the physical page allocator
      (system/x86_64/src/paging/bitmap.c, include/paging/bitmap.h,
       src/paging/physical_allocator.c)

    One bit per page in an array of [uint64_t].  The masks are built by
    shifting the [int] constant [0b1]: below 31 that is the bit, at 31 the
    compiler's [INT_MIN] is sign-extended to bits 31..63, from 32 on the shift
    has no meaning ([Undefined]).  [palloc] works on top of any allocator that
    satisfies [Heap.KernelHeap]. *)
From S2P Require Import Prelude Heap.

Definition PAGE_SIZE : Z := 0x1000.

Record bitmap := Bitmap {
  words : list Z;                       (* PAGING_BITMAP_VADDR *)
  bitmap_available_pages : Z;
  bitmap_size : Z;
  bitmap_paddr : Z;
  allocation_region_start : Z;
  allocation_region_end : Z
}.

Definition set_words (w : list Z) (b : bitmap) : bitmap :=
  Bitmap w (bitmap_available_pages b) (bitmap_size b) (bitmap_paddr b)
    (allocation_region_start b) (allocation_region_end b).

(** [0b1 << k], converted to [uint64_t]. *)
Definition int_shl1 (k : Z) : option Z :=
  if k <? 31 then Some (2 ^ k) else if k =? 31 then Some (2 ^ 64 - 2 ^ 31) else None.

Definition read_word (i : Z) : M bitmap Z :=
  fun b => match words b !! Z.to_nat i with Some w => Done (w, b) | None => Stop Undefined end.

Definition paging_bitmap_get_index (index : Z) : M bitmap bool :=
  let! w := read_word (index / 64) in
  ret (Z.testbit (Z.shiftr w (index mod 64)) 0).
Definition paging_bitmap_set_index (index : Z) : M bitmap unit :=
  let! w := read_word (index / 64) in
  let! m := of_option Undefined (int_shl1 (index mod 64)) in
  modify (fun b => set_words (<[Z.to_nat (index / 64) := Z.lor w m]> (words b)) b).
Definition paging_bitmap_clear_index (index : Z) : M bitmap unit :=
  let! w := read_word (index / 64) in
  let! m := of_option Undefined (int_shl1 (index mod 64)) in
  modify (fun b => set_words (<[Z.to_nat (index / 64) := Z.land w (u64 (Z.lnot m))]> (words b)) b).

(** The sizes and addresses [paging_bitmap_init] computes from the paging
    region, and the cleared bitmap. *)
Definition bitmap_layout (region_start region_end : Z) : bitmap :=
  let region_size := u64 (region_end - region_start) in
  let overestimate := u64 (DIV_UP (region_size / (PAGE_SIZE * 8)) 8 * 8) in
  let pt_region := u64 (DIV_UP overestimate (PAGE_SIZE * 512) * PAGE_SIZE) in
  let pdt_region := u64 (DIV_UP overestimate (PAGE_SIZE * 512 * 512) * PAGE_SIZE) in
  let remaining := u64 (u64 (region_size - pt_region) - pdt_region) in
  let pt_count := DIV_UP overestimate (PAGE_SIZE * 512) in
  let pdt_count := DIV_UP overestimate (PAGE_SIZE * 512 * 512) in
  let paddr := u64 (region_start + u64 (PAGE_SIZE * u64 (pt_count + pdt_count))) in
  Bitmap (replicate (Z.to_nat (overestimate / 8)) 0) (remaining / PAGE_SIZE) overestimate
    (* the loop that maps the bitmap advances bitmap_paddr by 2 MiB per table *)
    (u64 (paddr + u64 (PAGE_SIZE * 512 * pt_count)))
    (u64 (DIV_UP (u64 (paddr + overestimate)) PAGE_SIZE * PAGE_SIZE)) region_end.

(** [for (i = ...; i < bitmap_available_pages; i++)] with [n] rounds left. *)
Fixpoint reserve_from (n : nat) (i : Z) : M bitmap Z :=
  match n with
  | O => ret 0
  | S n' =>
      let! used := paging_bitmap_get_index i in
      if used then reserve_from n' (i + 1)
      else
        do! paging_bitmap_set_index i;
        gets (fun b => u64 (allocation_region_start b + u64 (i * PAGE_SIZE)))
  end.
Definition bitmap_reserve : M bitmap Z :=
  let! b := get in reserve_from (Z.to_nat (bitmap_available_pages b)) 0.

(** The first used page among [i, i + 1, ...], [n] of them. *)
Fixpoint first_used (n : nat) (i j : Z) : M bitmap (option Z) :=
  match n with
  | O => ret None
  | S n' =>
      let! used := paging_bitmap_get_index (i + j) in
      if used then ret (Some j) else first_used n' i (j + 1)
  end.
Fixpoint reserve_contiguous_from (fuel : nat) (i size_pages : Z) : M bitmap Z :=
  let! b := get in
  if i <? bitmap_available_pages b then
    match fuel with
    | O => stop_with NoFuel
    | S fuel' =>
        let! o := first_used (Z.to_nat size_pages) i 0 in
        match o with
        | Some j => reserve_contiguous_from fuel' (i + j + 1) size_pages
        | None =>
            do! for_range (Z.to_nat size_pages) (fun j => paging_bitmap_set_index (i + Z.of_nat j));
            gets (fun b => u64 (allocation_region_start b + u64 (i * PAGE_SIZE)))
        end
    end
  else ret 0.
Definition bitmap_reserve_contiguous (size_pages : Z) : M bitmap Z :=
  let! b := get in
  reserve_contiguous_from (Z.to_nat (bitmap_available_pages b)) 0 size_pages.

Fixpoint bitmap_free_from (n : nat) (index : Z) (result : code) : M bitmap code :=
  match n with
  | O => ret result
  | S n' =>
      let! used := paging_bitmap_get_index index in
      let result' := if used then result else Err ERROR_BITMAP_NOT_ALLOCATED in
      do! paging_bitmap_clear_index index;
      bitmap_free_from n' (index + 1) result'
  end.
Definition bitmap_free (address size_pages : Z) : M bitmap code :=
  bitmap_free_from (Z.to_nat size_pages) (address / PAGE_SIZE) (Num 0).

(** ** The pages the bitmap marks *)

Definition used_page (b : bitmap) (i : Z) : Prop :=
  exists w, words b !! Z.to_nat (i / 64) = Some w /\ Z.testbit w (i mod 64) = true.

Definition in_bitmap (b : bitmap) (i : Z) : Prop := 0 <= i < 64 * Z.of_nat (length (words b)).

(** Bits 31 to 63 of a word always move together. *)
Definition word_ok (w : Z) : Prop :=
  0 <= w < 2 ^ 64 /\ forall j, 31 <= j < 64 -> Z.testbit w j = Z.testbit w 31.

Record bitmap_ok (b : bitmap) : Prop := {
  ok_words : Forall word_ok (words b);
  ok_avail : 0 <= bitmap_available_pages b <= 64 * Z.of_nat (length (words b));
  ok_start : 0 < allocation_region_start b;
  ok_end : allocation_region_start b + bitmap_available_pages b * PAGE_SIZE < 2 ^ 64
}.

Lemma int_shl1_testbit k m j : 0 <= k -> int_shl1 k = Some m -> 0 <= j ->
  Z.testbit m j = ((j =? k) || ((k =? 31) && (31 <=? j) && (j <? 64))) /\ 0 <= m < 2 ^ 64.
Proof.
  unfold int_shl1. intros Hk Hm Hj.
  destruct (Z.ltb_spec k 31).
  { injection Hm as <-. replace (k =? 31) with false by lia. rewrite orb_false_r.
    rewrite Z.pow2_bits_eqb by lia. rewrite Z.eqb_sym. split; [done|].
    split; [apply Z.pow_nonneg; lia|apply Z.pow_lt_mono_r; lia]. }
  destruct (Z.eqb_spec k 31) as [->|]; [|done]. injection Hm as <-. split; [|lia].
  change (2 ^ 64 - 2 ^ 31) with (Z.shiftl (Z.ones 33) 31).
  rewrite Z.shiftl_spec by lia. simpl andb.
  destruct (Z.leb_spec 31 j).
  - destruct (Z.ltb_spec j 64).
    + rewrite Z.ones_spec_low by lia. by rewrite orb_true_r.
    + rewrite Z.ones_spec_high by lia. lia.
  - rewrite Z.testbit_neg_r by lia. lia.
Qed.

Lemma testbit_u64_lnot m j : 0 <= j < 64 -> Z.testbit (u64 (Z.lnot m)) j = negb (Z.testbit m j).
Proof. intros. unfold u64. rewrite Z.mod_pow2_bits_low by lia. by rewrite Z.lnot_spec by lia. Qed.

Lemma get_index_done b i : in_bitmap b i ->
  exists w, words b !! Z.to_nat (i / 64) = Some w /\
    paging_bitmap_get_index i b = Done (Z.testbit w (i mod 64), b).
Proof.
  intros [H1 H2]. destruct (lookup_lt_is_Some_2 (words b) (Z.to_nat (i / 64))) as [w Hw].
  { pose proof (Z.div_lt_upper_bound i 64 (Z.of_nat (length (words b)))).
    pose proof (Z.div_pos i 64). lia. }
  exists w. split; [done|]. unfold paging_bitmap_get_index, read_word, bind. rewrite Hw.
  unfold ret. do 2 f_equal. rewrite Z.shiftr_spec by done. f_equal; lia.
Qed.

Lemma used_page_get b i : in_bitmap b i -> exists u, paging_bitmap_get_index i b = Done (u, b) /\
  (u = true <-> used_page b i).
Proof.
  intros Hi. destruct (get_index_done b i Hi) as (w & Hw & Hg). eexists. split; [exact Hg|].
  unfold used_page. rewrite Hw. naive_solver.
Qed.

(** What setting an allowed index does to the marked pages. *)
Lemma set_index_spec b i : in_bitmap b i -> i mod 64 <= 31 -> Forall word_ok (words b) ->
  exists b', paging_bitmap_set_index i b = Done (tt, b') /\
    b' = set_words (words b') b /\ length (words b') = length (words b) /\
    Forall word_ok (words b') /\ used_page b' i /\
    (forall j, used_page b j -> used_page b' j) /\
    (forall j, 0 <= j -> j mod 64 < 32 -> j <> i -> used_page b' j -> used_page b j).
Proof.
  intros Hi Hk Hok. pose proof (Z.mod_pos_bound i 64 ltac:(lia)) as Hm0.
  destruct (get_index_done b i Hi) as (w & Hw & _). destruct Hi as [Hi0 _].
  assert (exists m, int_shl1 (i mod 64) = Some m) as [m Hm].
  { unfold int_shl1. destruct (i mod 64 <? 31) eqn:E1; [eauto|].
    destruct (i mod 64 =? 31) eqn:E2; [eauto|lia]. }
  pose proof (int_shl1_testbit _ _ 0 (proj1 Hm0) Hm ltac:(lia)) as [_ Hmr].
  assert (forall j, 0 <= j -> Z.testbit m j =
    ((j =? i mod 64) || ((i mod 64 =? 31) && (31 <=? j) && (j <? 64)))) as Hmt.
  { intros j Hj. apply (int_shl1_testbit _ _ j (proj1 Hm0) Hm Hj). }
  pose proof (proj1 (Forall_lookup _ _) Hok _ _ Hw) as [Hwr Hwt].
  exists (set_words (<[Z.to_nat (i / 64) := Z.lor w m]> (words b)) b).
  assert (word_ok (Z.lor w m)) as Hok'.
  { split.
    - split; [apply Z.lor_nonneg; lia|].
      destruct (Z.eq_dec (Z.lor w m) 0) as [->|Hnz]; [lia|].
      apply Z.log2_lt_pow2; [pose proof (proj2 (Z.lor_nonneg w m)); lia|].
      rewrite Z.log2_lor by lia. apply Z.max_lub_lt.
      + destruct (Z.eq_dec w 0) as [->|]; [simpl; lia|apply Z.log2_lt_pow2; lia].
      + destruct (Z.eq_dec m 0) as [->|]; [simpl; lia|apply Z.log2_lt_pow2; lia].
    - intros j Hj. rewrite !Z.lor_spec, !Hmt, Hwt by lia. f_equal. lia. }
  split_and!; simpl.
  - unfold paging_bitmap_set_index, read_word, bind. rewrite Hw. unfold of_option. by rewrite Hm.
  - done.
  - by rewrite length_insert.
  - by apply Forall_insert.
  - exists (Z.lor w m). simpl. rewrite list_lookup_insert_eq by by eapply lookup_lt_Some.
    split; [done|]. rewrite Z.lor_spec, Hmt by lia. rewrite Z.eqb_refl. by rewrite orb_true_r.
  - intros j (w' & Hw' & Ht). unfold used_page. simpl.
    destruct (decide (Z.to_nat (i / 64) = Z.to_nat (j / 64))) as [E|E].
    + rewrite <- E in *. rewrite list_lookup_insert_eq by by eapply lookup_lt_Some.
      eexists. split; [done|]. rewrite Z.lor_spec. assert (w' = w) as -> by congruence.
      by rewrite Ht.
    + rewrite list_lookup_insert_ne by done. eauto.
  - intros j Hj Hj32 Hne (w' & Hw' & Ht). simpl in Hw'. unfold used_page.
    pose proof (Z.mod_pos_bound j 64 ltac:(lia)).
    destruct (decide (Z.to_nat (i / 64) = Z.to_nat (j / 64))) as [E|E].
    + rewrite <- E in *. rewrite list_lookup_insert_eq in Hw' by by eapply lookup_lt_Some.
      injection Hw' as <-. exists w. split; [done|].
      rewrite Z.lor_spec, Hmt in Ht by lia. apply orb_true_iff in Ht as [|Ht]; [done|].
      pose proof (Z.div_mod i 64). pose proof (Z.div_mod j 64).
      pose proof (Z.div_pos i 64). pose proof (Z.div_pos j 64).
      assert (i / 64 = j / 64) by lia. exfalso. lia.
    + rewrite list_lookup_insert_ne in Hw' by done. eauto.
Qed.

(** ** bitmap_reserve *)

(** A page the allocator can hand out at all. *)
Definition reservable (b : bitmap) (i : Z) : Prop :=
  0 <= i < bitmap_available_pages b /\ i mod 64 < 32 /\ ~ used_page b i.

Definition page_addr (b : bitmap) (i : Z) : Z := allocation_region_start b + i * PAGE_SIZE.

Lemma unused_low b i : in_bitmap b i -> Forall word_ok (words b) -> ~ used_page b i ->
  (forall j, 0 <= j < i -> used_page b j) -> i mod 64 < 32.
Proof.
  intros Hi Hok Hn Hbelow. pose proof (Z.mod_pos_bound i 64 ltac:(lia)).
  destruct (Z_lt_dec (i mod 64) 32) as [|Hge]; [done|]. exfalso.
  pose proof (Z.div_mod i 64 ltac:(lia)) as Hdm. pose proof (Z.div_pos i 64) as Hd.
  destruct Hi as [Hi0 Hi1].
  destruct (Hbelow (64 * (i / 64) + 31)) as (w & Hw & Ht); [lia|].
  replace (64 * (i / 64) + 31) with (31 + (i / 64) * 64) in * by lia.
  rewrite Z.div_add, Z_mod_plus_full in * by lia. simpl in *.
  pose proof (proj1 (Forall_lookup _ _) Hok _ _ Hw) as [_ Hwt].
  apply Hn. exists w. split; [done|]. rewrite Hwt by lia. done.
Qed.

Lemma reserve_from_spec b n i :
  bitmap_ok b -> 0 <= i -> i + Z.of_nat n = bitmap_available_pages b ->
  (forall j, 0 <= j < i -> used_page b j) ->
  (exists k b', reserve_from n i b = Done (page_addr b k, b') /\ bitmap_ok b' /\
     b' = set_words (words b') b /\ reservable b k /\
     (forall j, reservable b j -> k <= j) /\ used_page b' k /\
     (forall j, used_page b j -> used_page b' j) /\
     (forall j, reservable b j -> j <> k -> reservable b' j)) \/
  (reserve_from n i b = Done (0, b) /\ forall j, ~ reservable b j).
Proof.
  intros Hok. revert i. induction n as [|n IH]; intros i Hi Hn Hbelow; simpl.
  { right. split; [done|]. intros j (Hj & _ & Hnu). apply Hnu, Hbelow. lia. }
  pose proof (ok_avail _ Hok) as Hav.
  assert (in_bitmap b i) as Hin by (unfold in_bitmap; lia).
  destruct (used_page_get b i Hin) as (u & Hg & Hu). rewrite (bind_done _ _ _ _ _ Hg).
  destruct u.
  - apply IH; [lia|lia|]. intros j Hj. destruct (decide (j = i)) as [->|]; [by apply Hu|].
    apply Hbelow. lia.
  - left. assert (~ used_page b i) as Hnu by (intros Hx%Hu; done).
    pose proof (unused_low b i Hin (ok_words _ Hok) Hnu Hbelow) as Hlow.
    destruct (set_index_spec b i Hin ltac:(lia) (ok_words _ Hok)) as
      (b' & Hs & Hb' & Hlen & Hok' & Hui & Hmono & Hback).
    exists i, b'. rewrite (bind_done _ _ _ _ _ Hs). unfold gets.
    assert (allocation_region_start b' = allocation_region_start b) as Ea by (by rewrite Hb').
    assert (bitmap_available_pages b' = bitmap_available_pages b) as Ev by (by rewrite Hb').
    pose proof (ok_start _ Hok). pose proof (ok_end _ Hok).
    assert (i * PAGE_SIZE < bitmap_available_pages b * PAGE_SIZE) by (unfold PAGE_SIZE; lia).
    split_and!.
    + rewrite Ea, (u64_small (i * PAGE_SIZE)) by (unfold PAGE_SIZE in *; lia).
      by rewrite u64_small by (unfold PAGE_SIZE in *; lia).
    + constructor; [done|by rewrite Ev, Hlen|by rewrite Ea|by rewrite Ea, Ev].
    + done.
    + split; [lia|done].
    + intros j (Hj & _ & Hju). destruct (Z_lt_dec j i); [|lia].
      destruct Hju. apply Hbelow. lia.
    + done.
    + done.
    + intros j (Hj & Hj32 & Hju) Hne. split_and!; [lia|rewrite Ev; lia|done|].
      intros Hx. apply Hju, Hback; [lia|done|done|done].
Qed.

Lemma bitmap_reserve_spec b : bitmap_ok b ->
  (exists k b', bitmap_reserve b = Done (page_addr b k, b') /\ bitmap_ok b' /\
     b' = set_words (words b') b /\ reservable b k /\
     (forall j, reservable b j -> k <= j) /\ used_page b' k /\
     (forall j, used_page b j -> used_page b' j) /\
     (forall j, reservable b j -> j <> k -> reservable b' j)) \/
  (bitmap_reserve b = Done (0, b) /\ forall j, ~ reservable b j).
Proof.
  intros Hok. unfold bitmap_reserve. rewrite (bind_done _ _ _ b b eq_refl).
  apply reserve_from_spec; [done|lia| |lia]. pose proof (ok_avail _ Hok). lia.
Qed.

(** ** Sequences of reservations *)

Fixpoint reserve_n (n : nat) : M bitmap (list Z) :=
  match n with
  | O => ret []
  | S n' =>
      let! p := bitmap_reserve in
      let! ps := reserve_n n' in
      ret (p :: ps)
  end.

Lemma reserve_n_spec n b : bitmap_ok b ->
  exists ps ks b', reserve_n n b = Done (ps, b') /\ bitmap_ok b' /\ b' = set_words (words b') b /\
    ps = (page_addr b <$> ks) ++ replicate (n - length ks) 0 /\ NoDup ks /\
    Forall (reservable b) ks /\ Forall (used_page b') ks /\
    (forall j, used_page b j -> used_page b' j) /\ (length ks <= n)%nat /\
    ((length ks < n)%nat -> forall j, reservable b j -> j ∈ ks).
Proof.
  revert b. induction n as [|n IH]; intros b Hok; simpl.
  { exists [], [], b. split_and!; try done; [by destruct b|constructor|lia]. }
  destruct (bitmap_reserve_spec b Hok) as
    [(k & b1 & Hr & Hok1 & Hb1 & Hk & _ & Huk & Hmono & Hkeep)|[Hr Hnone]].
  - destruct (IH b1 Hok1) as (ps & ks & b2 & Hn & Hok2 & Hb2 & Hps & Hnd & Hks & Huks & Hmono2 & Hle & Hall).
    assert (forall j, reservable b1 j -> reservable b j) as Hsub.
    { intros j (H1 & H2 & H3). rewrite Hb1 in H1. split_and!; [lia|simpl in H1; lia|done|].
      intros Hj. by apply H3, Hmono. }
    exists (page_addr b k :: ps), (k :: ks), b2. split_and!.
    + rewrite (bind_done _ _ _ _ _ Hr). by rewrite (bind_done _ _ _ _ _ Hn).
    + done.
    + rewrite Hb2. rewrite Hb1. done.
    + rewrite Hps. simpl. f_equal. f_equal. by rewrite Hb1.
    + apply NoDup_cons. split; [|done]. intros Hin.
      pose proof (proj1 (Forall_forall _ _) Hks _ Hin) as (_ & _ & Hnu). done.
    + constructor; [done|]. apply (Forall_impl _ _ _ Hks Hsub).
    + constructor; [by apply Hmono2|done].
    + auto.
    + simpl. lia.
    + simpl. intros Hlen j Hj. destruct (decide (j = k)) as [->|Hne]; [by left|right].
      apply Hall; [lia|auto].
  - destruct (IH b Hok) as (ps & ks & b2 & Hn & Hok2 & Hb2 & Hps & Hnd & Hks & Huks & Hmono2 & Hle & Hall).
    destruct ks as [|k ks]; [|exfalso; inversion Hks; naive_solver].
    exists (0 :: ps), [], b2. split_and!; try done.
    + rewrite (bind_done _ _ _ _ _ Hr). by rewrite (bind_done _ _ _ _ _ Hn).
    + rewrite Hps. simpl. by rewrite Nat.sub_0_r.
    + simpl. lia.
    + intros _ j Hj. by destruct (Hnone j).
Qed.


(** The bitmap for [n] pages that start at [start]. *)
Definition fresh_bitmap (n start : Z) : bitmap :=
  Bitmap (replicate (Z.to_nat ((n + 63) / 64)) 0) n (8 * ((n + 63) / 64)) 0 start (start + n * PAGE_SIZE).

Lemma fresh_bitmap_ok n start : 0 <= n -> 0 < start -> start + n * PAGE_SIZE < 2 ^ 64 ->
  bitmap_ok (fresh_bitmap n start).
Proof.
  intros Hn Hs He. pose proof (Z.div_mod (n + 63) 64). pose proof (Z.mod_pos_bound (n + 63) 64).
  constructor; simpl; [|rewrite length_replicate; lia|done|done].
  apply Forall_replicate. split; [lia|]. intros j _. by rewrite !Z.bits_0.
Qed.

(** Of the pages the bitmap describes, only those with index below 32
    modulo 64 can ever be returned by [bitmap_reserve], whatever the state:
    half of the memory is never handed out. *)
Theorem bitmap_half_unreachable b p b'
  (Hok : bitmap_ok b) (Hr : bitmap_reserve b = Done (p, b')) (Hp : p <> 0) :
  exists k, p = page_addr b k /\ 0 <= k < bitmap_available_pages b /\ k mod 64 < 32.
Proof.
  destruct (bitmap_reserve_spec b Hok) as [(k & b1 & Hr' & _ & _ & (? & ? & _) & _)|[Hr' _]];
    rewrite Hr' in Hr; injection Hr as <- <-; [|done].
  by exists k.
Qed.

(** ** bitmap_free *)

Lemma clear_index_spec b i : in_bitmap b i -> i mod 64 <= 31 -> Forall word_ok (words b) ->
  exists b', paging_bitmap_clear_index i b = Done (tt, b') /\
    b' = set_words (words b') b /\ length (words b') = length (words b) /\
    Forall word_ok (words b') /\ ~ used_page b' i /\
    (forall j, 0 <= j -> j mod 64 < 32 -> j <> i -> used_page b' j <-> used_page b j).
Proof.
  intros Hi Hk Hok. pose proof (Z.mod_pos_bound i 64 ltac:(lia)) as Hm0.
  destruct (get_index_done b i Hi) as (w & Hw & _). destruct Hi as [Hi0 _].
  assert (exists m, int_shl1 (i mod 64) = Some m) as [m Hm].
  { unfold int_shl1. destruct (i mod 64 <? 31) eqn:E1; [eauto|].
    destruct (i mod 64 =? 31) eqn:E2; [eauto|lia]. }
  assert (forall j, 0 <= j -> Z.testbit m j =
    ((j =? i mod 64) || ((i mod 64 =? 31) && (31 <=? j) && (j <? 64)))) as Hmt.
  { intros j Hj. apply (int_shl1_testbit _ _ j (proj1 Hm0) Hm Hj). }
  pose proof (proj1 (Forall_lookup _ _) Hok _ _ Hw) as [Hwr Hwt].
  set (w2 := Z.land w (u64 (Z.lnot m))).
  assert (forall j, 0 <= j < 64 -> Z.testbit w2 j = Z.testbit w j && negb (Z.testbit m j)) as Hw2.
  { intros j Hj. unfold w2. by rewrite Z.land_spec, testbit_u64_lnot. }
  exists (set_words (<[Z.to_nat (i / 64) := w2]> (words b)) b).
  assert (word_ok w2) as Hok'.
  { split.
    - pose proof (u64_range (Z.lnot m)).
      split; [apply Z.land_nonneg; lia|].
      assert (0 <= w2) by (apply Z.land_nonneg; lia).
      destruct (Z.eq_dec w2 0) as [->|Hnz]; [lia|]. apply Z.log2_lt_pow2; [lia|].
      eapply Z.le_lt_trans; [apply Z.log2_land; lia|].
      destruct (Z.eq_dec w 0) as [->|]; [simpl; pose proof (Z.log2_nonneg (u64 (Z.lnot m))); lia|].
      pose proof (Z.log2_lt_pow2 w 64). lia.
    - intros j Hj. rewrite !Hw2, !Hmt, Hwt by lia. f_equal. lia. }
  split_and!; simpl.
  - unfold paging_bitmap_clear_index, read_word, bind. rewrite Hw. unfold of_option. by rewrite Hm.
  - done.
  - by rewrite length_insert.
  - by apply Forall_insert.
  - intros (w' & Hw' & Ht). simpl in Hw'.
    rewrite list_lookup_insert_eq in Hw' by by eapply lookup_lt_Some.
    injection Hw' as <-. rewrite Hw2, Hmt, Z.eqb_refl in Ht by lia. by rewrite andb_false_r in Ht.
  - intros j Hj Hj32 Hne. unfold used_page. simpl.
    pose proof (Z.mod_pos_bound j 64 ltac:(lia)).
    destruct (decide (Z.to_nat (i / 64) = Z.to_nat (j / 64))) as [E|E].
    + rewrite <- E in *. rewrite list_lookup_insert_eq by by eapply lookup_lt_Some.
      rewrite Hw.
      assert (Z.testbit w2 (j mod 64) = Z.testbit w (j mod 64)) as Heq.
      { rewrite Hw2, Hmt by lia. pose proof (Z.div_mod i 64). pose proof (Z.div_mod j 64).
        pose proof (Z.div_pos i 64). pose proof (Z.div_pos j 64).
        assert (i / 64 = j / 64) by lia.
        replace (_ || _) with false by lia. by rewrite andb_true_r. }
      split; intros (w' & [= <-] & Ht); eexists; (split; [done|]); congruence.
    + by rewrite list_lookup_insert_ne by done.
Qed.

(** [bitmap_free] indexes the bitmap by [address / PAGE_SIZE] without
    subtracting the start of the region.  Freeing page [i] of a region that
    starts at page [s] therefore leaves page [i] marked and clears page
    [i + s], which can then be handed out again although nobody released it;
    when [i + s] lies beyond the bitmap, the access is out of bounds. *)
Theorem bitmap_free_wrong_page b i s
  (Hok : bitmap_ok b) (Hs : allocation_region_start b = s * PAGE_SIZE)
  (Hi : 0 <= i < bitmap_available_pages b) (Hi32 : i mod 64 < 32) (Hu : used_page b i) :
  (i + s < bitmap_available_pages b -> (i + s) mod 64 < 32 ->
     exists c b', bitmap_free (page_addr b i) 1 b = Done (c, b') /\
       used_page b' i /\ reservable b' (i + s)) /\
  (64 * Z.of_nat (length (words b)) <= i + s ->
     bitmap_free (page_addr b i) 1 b = Stop Undefined).
Proof.
  pose proof (ok_start _ Hok). pose proof (ok_avail _ Hok).
  assert (0 < s) by (unfold PAGE_SIZE in *; lia).
  assert (page_addr b i / PAGE_SIZE = i + s) as Hdiv.
  { unfold page_addr. rewrite Hs, <- Z.mul_add_distr_r, Z.div_mul; [lia|done]. }
  unfold bitmap_free. rewrite Hdiv. simpl bitmap_free_from. split.
  - intros Hav Hlow. assert (in_bitmap b (i + s)) as Hin by (unfold in_bitmap; lia).
    destruct (used_page_get b _ Hin) as (u & Hg & _). rewrite (bind_done _ _ _ _ _ Hg).
    destruct (clear_index_spec b (i + s) Hin ltac:(lia) (ok_words _ Hok)) as
      (b' & Hc & Hb' & _ & _ & Hnu & Hother).
    rewrite (bind_done _ _ _ _ _ Hc). eexists _, b'. split; [reflexivity|]. split.
    + apply Hother; [lia|done|lia|done].
    + split_and!; [lia|rewrite Hb'; simpl; lia|done|done].
  - intros Hout. apply bind_stop. unfold paging_bitmap_get_index, read_word, bind.
    rewrite lookup_ge_None_2; [done|].
    pose proof (Z.div_le_lower_bound (i + s) 64 (Z.of_nat (length (words b)))). lia.
Qed.

(** On any region of at least 128 MiB, the page count computed by
    [paging_bitmap_init] ignores the bitmap's own size: the last pages counted
    as available lie beyond the end of the region. *)
Theorem bitmap_layout_overcommits rs re
  (Hrs : 0 <= rs) (Hre : re < 2 ^ 62) (Hsz : 2 ^ 27 <= re - rs) :
  let b := bitmap_layout rs re in
  allocation_region_end b = re /\
  allocation_region_end b < allocation_region_start b + bitmap_available_pages b * PAGE_SIZE.
Proof.
  unfold bitmap_layout. unfold PAGE_SIZE. simpl. split; [done|].
  rewrite (u64_small (re - rs)) by lia.
  set (D := (re - rs) / (4096 * 8)).
  pose proof (Z.div_mod (re - rs) (4096 * 8) ltac:(lia)) as HD.
  pose proof (Z.mod_pos_bound (re - rs) (4096 * 8) ltac:(lia)) as HDm. fold D in HD.
  change (4096 * 8) with 32768 in *. simpl in HD, HDm. assert (4096 <= D) by lia.
  pose proof (DIV_UP_bounds D 8 ltac:(lia) ltac:(lia) ltac:(lia)) as Hov.
  rewrite (u64_small (DIV_UP D 8 * 8)) by lia.
  set (ov := DIV_UP D 8 * 8) in *. assert (D <= ov < D + 8) by (subst ov; lia).
  pose proof (DIV_UP_bounds ov (4096 * 512) ltac:(lia) ltac:(lia) ltac:(lia)) as Ha.
  pose proof (DIV_UP_bounds ov (4096 * 512 * 512) ltac:(lia) ltac:(lia) ltac:(lia)) as Hc.
  set (a := DIV_UP ov (4096 * 512)) in *. set (c := DIV_UP ov (4096 * 512 * 512)) in *.
  rewrite (u64_small (a * 4096)), (u64_small (c * 4096)), (u64_small (a + c)) by lia.
  rewrite (u64_small (4096 * (a + c))), (u64_small (rs + 4096 * (a + c))) by lia.
  rewrite (u64_small (re - rs - a * 4096)), (u64_small (re - rs - a * 4096 - c * 4096)) by lia.
  rewrite (u64_small (rs + 4096 * (a + c) + ov)) by lia.
  pose proof (DIV_UP_bounds (rs + 4096 * (a + c) + ov) 4096 ltac:(lia) ltac:(lia) ltac:(lia)) as Hst.
  rewrite u64_small by lia.
  pose proof (Z.div_mod (re - rs - a * 4096 - c * 4096) 4096 ltac:(lia)).
  pose proof (Z.mod_pos_bound (re - rs - a * 4096 - c * 4096) 4096 ltac:(lia)). lia.
Qed.

(** ** palloc *)

Inductive palloc_type_t := PALLOC_ALLOC | PALLOC_CONTIGUOUS_ALLOC | PALLOC_CONTIGUOUS_MAP.
Record palloc_t := Palloc {
  palloc_type : palloc_type_t; size_pages : Z; paddr_count : Z; paddrs : Z
}.

Section palloc.
Context {H : Type} `{KernelHeap H}.

(** The bitmap, the heap, and the [uint64_t] arrays kept in heap blocks. *)
Record pstate := PState { ps_bitmap : bitmap; ps_heap : H; ps_arrays : gmap Z (list Z) }.

Definition on_bitmap {A} : M bitmap A -> M pstate A :=
  zoom ps_bitmap (fun b s => PState b (ps_heap s) (ps_arrays s)).
Definition on_heap {A} : M H A -> M pstate A :=
  zoom ps_heap (fun h s => PState (ps_bitmap s) h (ps_arrays s)).
Definition put_array (p : Z) (l : list Z) : M pstate unit :=
  modify (fun s => PState (ps_bitmap s) (ps_heap s) (<[p := l]> (ps_arrays s))).
Definition get_array (p : Z) : M pstate (list Z) :=
  fun s => match ps_arrays s !! p with Some l => Done (l, s) | None => Stop Undefined end.
Definition drop_array (p : Z) : M pstate unit :=
  do! modify (fun s => PState (ps_bitmap s) (ps_heap s) (delete p (ps_arrays s)));
  on_heap (kh_free p).

Definition palloc_alloc (size : Z) : M pstate palloc_t :=
  let pages := DIV_UP size PAGE_SIZE in
  let! arr := on_heap (kh_alloc (u64 (pages * 8))) in
  let! ps := on_bitmap (reserve_n (Z.to_nat pages)) in
  do! put_array arr ps;
  ret (Palloc PALLOC_ALLOC pages pages arr).

Definition palloc_alloc_contiguous (size paddr : Z) : M pstate palloc_t :=
  let pages := DIV_UP size PAGE_SIZE in
  let! arr := on_heap (kh_alloc 8) in
  if paddr =? 0 then
    let! p := on_bitmap (bitmap_reserve_contiguous pages) in
    do! put_array arr [p];
    ret (Palloc PALLOC_CONTIGUOUS_ALLOC pages 1 arr)
  else
    do! put_array arr [paddr];
    ret (Palloc PALLOC_CONTIGUOUS_MAP pages 1 arr).

Definition palloc_free (p : palloc_t) : M pstate unit :=
  match palloc_type p with
  | PALLOC_ALLOC =>
      let! l := get_array (paddrs p) in
      do! for_each (take (Z.to_nat (paddr_count p)) l)
            (fun a => let! _ := on_bitmap (bitmap_free a 1) in ret tt);
      drop_array (paddrs p)
  | PALLOC_CONTIGUOUS_ALLOC =>
      let! l := get_array (paddrs p) in
      let! a := of_option Undefined (head l) in
      let! _ := on_bitmap (bitmap_free a (size_pages p)) in
      drop_array (paddrs p)
  | PALLOC_CONTIGUOUS_MAP => drop_array (paddrs p)
  end.

Lemma on_heap_done {A} (m : M H A) s a h' : m (ps_heap s) = Done (a, h') ->
  on_heap m s = Done (a, PState (ps_bitmap s) h' (ps_arrays s)).
Proof. unfold on_heap, zoom. by intros ->. Qed.
Lemma on_bitmap_done {A} (m : M bitmap A) s a b' : m (ps_bitmap s) = Done (a, b') ->
  on_bitmap m s = Done (a, PState b' (ps_heap s) (ps_arrays s)).
Proof. unfold on_bitmap, zoom. by intros ->. Qed.

(** [palloc_alloc] of [size] bytes, when the heap can hold the address
    array, covers the size with whole pages, fills the array with distinct
    pages that were unused and are now marked, followed by zeros once no page
    is left (it still reports success), and costs one heap block. *)
Theorem palloc_alloc_sound s live size
  (Hb : bitmap_ok (ps_bitmap s)) (Hh : kh_live (ps_heap s) live)
  (Hs : 0 < size) (Hbig : size + PAGE_SIZE <= 2 ^ 60) :
  (exists msg, palloc_alloc size s = Stop (Panic msg)) \/
  (exists p s' l ks, palloc_alloc size s = Done (p, s') /\
     bitmap_ok (ps_bitmap s') /\ kh_live (ps_heap s') ((paddrs p, 8 * size_pages p) :: live) /\
     size <= PAGE_SIZE * size_pages p < size + PAGE_SIZE /\
     paddr_count p = size_pages p /\
     ps_arrays s' !! paddrs p = Some l /\ Z.of_nat (length l) = size_pages p /\
     l = (page_addr (ps_bitmap s) <$> ks) ++ replicate (length l - length ks) 0 /\ NoDup ks /\
     Forall (fun k => ~ used_page (ps_bitmap s) k) ks /\ Forall (used_page (ps_bitmap s')) ks).
Proof.
  pose proof (DIV_UP_bounds size PAGE_SIZE ltac:(done) ltac:(lia) ltac:(lia)) as Hd.
  unfold palloc_alloc. set (pages := DIV_UP size PAGE_SIZE) in *.
  assert (0 < pages < 2 ^ 60) by (unfold PAGE_SIZE in *; lia).
  rewrite (u64_small (pages * 8)) by lia.
  destruct (kh_alloc_ok _ _ (pages * 8) Hh ltac:(lia) ltac:(unfold tag_bytes; lia)) as
    [(arr & h' & Ha & Hl & _)|[msg Ha]].
  2:{ left. exists msg. apply bind_stop. unfold on_heap, zoom. by rewrite Ha. }
  right. rewrite (bind_done _ _ _ _ _ (on_heap_done _ _ _ _ Ha)).
  destruct (reserve_n_spec (Z.to_nat pages) _ Hb) as
    (ps & ks & b' & Hr & Hok' & _ & Hps & Hnd & Hks & Hus & _ & Hle & _).
  erewrite bind_done by (apply on_bitmap_done; exact Hr).
  assert (length ps = Z.to_nat pages) as Hlen.
  { rewrite Hps, length_app, length_fmap, length_replicate. lia. }
  eexists _, _, ps, ks. split; [reflexivity|]. simpl. rewrite lookup_insert_eq.
  rewrite Hlen.
  split_and!; try done; try lia; [by rewrite Z.mul_comm|].
  eapply Forall_impl; [exact Hks|]. intros k (? & _ & ?). done.
Qed.
End palloc.

(** ** Concrete runs *)

(** Forty pages, the region starting at page 16. *)
Definition demo_bitmap : bitmap := fresh_bitmap 40 (16 * PAGE_SIZE).

Lemma demo_bitmap_ok : bitmap_ok demo_bitmap.
Proof. by apply fresh_bitmap_ok. Qed.


Lemma bitmap_half_unreachable_witness :
  exists k, 65536 = page_addr demo_bitmap k /\ 0 <= k < 40 /\ k mod 64 < 32.
Proof.
  apply (bitmap_half_unreachable demo_bitmap 65536 (set_words [1] demo_bitmap) demo_bitmap_ok);
    [vm_compute; reflexivity|lia].
Defined.

(** Pages 0 and 16 are reserved; freeing page 0 releases page 16 instead. *)
Lemma bitmap_free_wrong_page_witness :
  let b := set_words [2 ^ 16 + 1] demo_bitmap in
  exists c b', bitmap_free (page_addr b 0) 1 b = Done (c, b') /\ used_page b' 0 /\ reservable b' 16.
Proof.
  assert (word_ok (2 ^ 16 + 1)) as Hw.
  { split; [lia|]. intros j Hj. rewrite !Z.bits_above_log2; [done|lia|simpl; lia|lia|simpl; lia]. }
  destruct (bitmap_free_wrong_page (set_words [2 ^ 16 + 1] demo_bitmap) 0 16) as [Hf _].
  - constructor; simpl; [constructor; [exact Hw|constructor]|lia|done|done].
  - done.
  - simpl; lia.
  - done.
  - eexists. split; [reflexivity|done].
  - by apply Hf.
Defined.

Lemma bitmap_layout_overcommits_witness :
  let b := bitmap_layout 0x1000000 0x10000000 in
  allocation_region_end b < allocation_region_start b + bitmap_available_pages b * PAGE_SIZE.
Proof.
  apply (bitmap_layout_overcommits 0x1000000 0x10000000); vm_compute; congruence.
Defined.

Lemma palloc_alloc_sound_witness :
  let s := PState demo_bitmap (Bump 4096) ∅ in
  exists p s', palloc_alloc 5000 s = Done (p, s') /\ size_pages p = 2.
Proof.
  set (s := PState demo_bitmap (Bump 4096) ∅).
  assert (kh_live (Bump 4096) []) as Hl by (split; [done|constructor]).
  destruct (palloc_alloc_sound s [] 5000 demo_bitmap_ok Hl)
    as [[msg Hp]|(p & s' & l & ks & Ha & _ & _ & Hsz & _)];
    [lia|vm_compute; congruence|vm_compute in Hp; congruence|].
  exists p, s'. split; [exact Ha|]. unfold PAGE_SIZE in Hsz. lia.
Defined.

(** A contiguous request that crosses page 31 of a word shifts by 32. *)
Lemma contiguous_crosses_word_half :
  bitmap_reserve_contiguous 2 (set_words [2 ^ 31 - 1] demo_bitmap) = Stop Undefined.
Proof. vm_compute. reflexivity. Qed.
