(* ===== verification/Valloc.v ===== *)
(** * Valloc: the virtual address allocator (src/paging/virtual_allocator.c)

    The nodes between [head] and [tail] as the list the links spell out (the
    link manipulation itself is the subject of Dll.v).  Every node lives in a
    heap block, [node_at]; the heap is any [KernelHeap]. *)
From S2P Require Import Prelude Heap.

Definition VALLOC_REGION_SIZE : Z := 0x1000000000000.
Definition VALLOC_PAGE_SIZE : Z := 0x1000.

Record valloc_node := VNode { node_at : Z; is_free : bool; start_addr : Z; size_pages : Z }.
(** sizeof(valloc_node_t) *)
Definition valloc_node_bytes : Z := 40.

Definition in_s64 (z : Z) : bool := (- 2 ^ 63 <=? z) && (z <? 2 ^ 63).

Section valloc.
Context {H : Type} `{KernelHeap H}.

Record valloc_t := Valloc { nodes : list valloc_node; vheap : H }.

Definition new_node (free : bool) (start pages : Z) : M valloc_t valloc_node :=
  let! p := zoom vheap (fun h s => Valloc (nodes s) h) (kh_alloc valloc_node_bytes) in
  ret (VNode p free start pages).
Definition free_node (n : valloc_node) : M valloc_t unit :=
  zoom vheap (fun h s => Valloc (nodes s) h) (kh_free (node_at n)).
Definition set_nodes (l : list valloc_node) : M valloc_t unit :=
  modify (fun s => Valloc l (vheap s)).

Definition valloc_init : M valloc_t unit :=
  let! node := new_node true 0 (VALLOC_REGION_SIZE / VALLOC_PAGE_SIZE) in
  set_nodes [node].

(** Frees every node; [valloc->head] keeps pointing at them. *)
Definition valloc_free : M valloc_t unit :=
  let! s := get in for_each (nodes s) free_node.

Definition valloc_alloc (size : Z) : M valloc_t Z :=
  let pages := DIV_UP size VALLOC_PAGE_SIZE in
  let! s := get in
  match split_first (fun n => is_free n && (size_pages n >=? pages)) (nodes s) with
  | None => stop_with (EntryError 0x123)
  | Some (l, n, r) =>
      if pages =? size_pages n then
        do! set_nodes (l ++ VNode (node_at n) false (start_addr n) (size_pages n) :: r);
        ret (start_addr n)
      else
        let! m := new_node true (u64 (start_addr n + u64 (VALLOC_PAGE_SIZE * pages)))
                    (u64 (size_pages n - pages)) in
        do! set_nodes (l ++ VNode (node_at n) false (start_addr n) pages :: m :: r);
        ret (start_addr n)
  end.

(** A free node in front of, or behind, a reservation. *)
Definition node_if (b : bool) (start pages : Z) : M valloc_t (list valloc_node) :=
  if b then let! m := new_node true start pages in ret [m] else ret [].

(** [NULL] is 0; [(intptr_t)] reads an address as signed, and signed overflow
    has no meaning. *)
Definition valloc_reserve (vaddr size : Z) : M valloc_t Z :=
  if negb (Z.rem (s64 vaddr) VALLOC_PAGE_SIZE =? 0) then ret 0
  else
    let pages := DIV_UP size VALLOC_PAGE_SIZE in
    let int_vaddr := s64 vaddr in
    let req_end := int_vaddr + VALLOC_PAGE_SIZE * s64 pages in
    do! guard_or Undefined (in_s64 (VALLOC_PAGE_SIZE * s64 pages) && in_s64 req_end);
    let! s := get in
    let node_end n := s64 (start_addr n) + VALLOC_PAGE_SIZE * s64 (size_pages n) in
    match split_first (fun n => (int_vaddr >=? s64 (start_addr n)) && (int_vaddr <? node_end n))
            (nodes s) with
    | None => stop_with (EntryError 0x123)
    | Some (l, n, r) =>
        if negb (is_free n) then ret 0
        else
          let start := s64 (start_addr n) in
          let stop := node_end n in
          if req_end >? stop then ret 0
          else
            let! before := node_if (int_vaddr >? start) (start_addr n)
                             (Z.quot (int_vaddr - start) VALLOC_PAGE_SIZE) in
            let at_ := if int_vaddr >? start then vaddr else start_addr n in
            let! after := node_if (req_end <? stop) (u64 (at_ + u64 (VALLOC_PAGE_SIZE * pages)))
                            (Z.quot (stop - req_end) VALLOC_PAGE_SIZE) in
            do! set_nodes (l ++ before ++ VNode (node_at n) false at_ pages :: after ++ r);
            ret at_
    end.

Definition valloc_release (vaddr : Z) : M valloc_t bool :=
  let! s := get in
  match split_first (fun n => start_addr n =? vaddr) (nodes s) with
  | None => ret false
  | Some (l, n, r) =>
      (* join with the next node when it is free *)
      let! nr :=
        match r with
        | m :: r' =>
            if is_free m then
              do! free_node m;
              ret (VNode (node_at n) (is_free n) (start_addr n) (u64 (size_pages n + size_pages m)), r')
            else ret (n, r)
        | [] => ret (n, r)
        end in
      let '(n1, r1) := nr in
      (* join with the previous node when it is free *)
      match last l with
      | Some m =>
          if is_free m then
            do! free_node n1;
            do! set_nodes (removelast l ++
                  VNode (node_at m) true (start_addr m) (u64 (size_pages m + size_pages n1)) :: r1);
            ret true
          else
            do! set_nodes (l ++ VNode (node_at n1) true (start_addr n1) (size_pages n1) :: r1);
            ret true
      | None =>
          do! set_nodes (l ++ VNode (node_at n1) true (start_addr n1) (size_pages n1) :: r1);
          ret true
      end
  end.

(** ** The address space as a tiling *)

(** Consecutive nodes from [a] to [e], in whole pages. *)
Fixpoint tiles (a : Z) (l : list valloc_node) (e : Z) : Prop :=
  match l with
  | [] => a = e
  | n :: l' => start_addr n = a /\ 0 < size_pages n /\ tiles (a + VALLOC_PAGE_SIZE * size_pages n) l' e
  end.

(** No two free nodes touch. *)
Fixpoint no_free_pair (l : list valloc_node) : Prop :=
  match l with
  | n :: l' => no_free_pair l' /\
      match l' with m :: _ => is_free n = false \/ is_free m = false | [] => True end
  | [] => True
  end.

(** The allocated ranges: address and pages. *)
Definition allocated (l : list valloc_node) : list (Z * Z) :=
  (fun n => (start_addr n, size_pages n)) <$> filter (fun n => is_free n = false) l.

Definition node_blocks (l : list valloc_node) : list (Z * Z) :=
  (fun n => (node_at n, valloc_node_bytes)) <$> l.

Record valloc_ok (s : valloc_t) (others : list (Z * Z)) : Prop := {
  vok_tiles : tiles 0 (nodes s) VALLOC_REGION_SIZE;
  vok_pairs : no_free_pair (nodes s);
  vok_heap : kh_live (vheap s) (node_blocks (nodes s) ++ others)
}.

Lemma tiles_app a l r e : tiles a (l ++ r) e <-> exists m, tiles a l m /\ tiles m r e.
Proof.
  revert a. induction l as [|n l IH]; intros a; simpl.
  - split; [eauto|]. by intros (m & -> & ?).
  - rewrite IH. split.
    + intros (? & ? & m & ? & ?). by exists m.
    + intros (m & (? & ? & ?) & ?). split_and!; [done|done|by exists m].
Qed.
Lemma tiles_le a l e : tiles a l e -> a <= e.
Proof.
  revert a. induction l as [|n l IH]; intros a; simpl; [lia|].
  intros (_ & ? & Ht%IH). unfold VALLOC_PAGE_SIZE in *. lia.
Qed.

Lemma no_free_pair_app l n r :
  no_free_pair (l ++ n :: r) <->
  no_free_pair l /\ no_free_pair (n :: r) /\
  (forall m, last l = Some m -> is_free m = false \/ is_free n = false).
Proof.
  induction l as [|x l IH]; simpl app; [naive_solver|].
  destruct l as [|y l]; [simpl; naive_solver|].
  change (no_free_pair (x :: (y :: l) ++ n :: r)) with
    (no_free_pair ((y :: l) ++ n :: r) /\ (is_free x = false \/ is_free y = false)).
  rewrite IH. simpl. naive_solver.
Qed.
Lemma no_free_pair_cons n r :
  no_free_pair (n :: r) <->
  no_free_pair r /\ (forall m, head r = Some m -> is_free n = false \/ is_free m = false).
Proof. destruct r as [|m r]; simpl; naive_solver. Qed.

Lemma allocated_app l r : allocated (l ++ r) = allocated l ++ allocated r.
Proof. unfold allocated. by rewrite filter_app, fmap_app. Qed.
Lemma allocated_cons n r :
  allocated (n :: r) = (if is_free n then [] else [(start_addr n, size_pages n)]) ++ allocated r.
Proof. unfold allocated. rewrite filter_cons. destruct (is_free n); simpl; done. Qed.
Lemma node_blocks_app l r : node_blocks (l ++ r) = node_blocks l ++ node_blocks r.
Proof. apply fmap_app. Qed.

(** Allocated ranges do not overlap and stay in the region. *)
Lemma allocated_bounds a l e p n : tiles a l e -> (p, n) ∈ allocated l ->
  a <= p /\ p + VALLOC_PAGE_SIZE * n <= e /\ 0 < n.
Proof.
  revert a. induction l as [|m l IH]; intros a; simpl; [by intros _ ?%elem_of_nil|].
  intros (Hs & Hp & Ht). rewrite allocated_cons. pose proof (tiles_le _ _ _ Ht).
  intros [Hin|Hin]%elem_of_app.
  - destruct (is_free m); [by apply elem_of_nil in Hin|].
    apply list_elem_of_singleton in Hin as [= -> ->]. lia.
  - apply (IH _ Ht) in Hin. unfold VALLOC_PAGE_SIZE in *. lia.
Qed.

Lemma allocated_sorted a l e : tiles a l e ->
  forall i j p n q m, (i < j)%nat -> allocated l !! i = Some (p, n) -> allocated l !! j = Some (q, m) ->
  p + VALLOC_PAGE_SIZE * n <= q.
Proof.
  revert a. induction l as [|x l IH]; intros a; simpl; [done|].
  intros (Hs & Hp & Ht) i j p n q m Hij Hi Hj. rewrite allocated_cons in Hi, Hj.
  destruct (is_free x); simpl in Hi, Hj; [by apply (IH _ Ht i j p n q m)|].
  destruct j as [|j]; [lia|]. simpl in Hj. destruct i as [|i]; simpl in Hi.
  - injection Hi as <- <-. apply list_elem_of_lookup_2 in Hj.
    apply (allocated_bounds _ _ _ _ _ Ht) in Hj. lia.
  - apply (IH _ Ht i j p n q m); [lia|done|done].
Qed.

(** ** Operations *)

Lemma new_node_spec s others free start pages :
  kh_live (vheap s) (node_blocks (nodes s) ++ others) ->
  (exists p h', new_node free start pages s = Done (VNode p free start pages, Valloc (nodes s) h') /\
     kh_live h' ((p, valloc_node_bytes) :: node_blocks (nodes s) ++ others)) \/
  (exists msg, new_node free start pages s = Stop (Panic msg)).
Proof.
  intros Hl. destruct (kh_alloc_ok _ _ valloc_node_bytes Hl) as [(p & h' & Ha & Hl' & _)|[msg Ha]];
    [done|done| |]; unfold new_node, bind, zoom; rewrite Ha; eauto.
Qed.

Lemma fit_in_region l n r : tiles 0 (l ++ n :: r) VALLOC_REGION_SIZE ->
  0 <= start_addr n /\ 0 < size_pages n /\
  start_addr n + VALLOC_PAGE_SIZE * size_pages n <= VALLOC_REGION_SIZE /\
  tiles (start_addr n + VALLOC_PAGE_SIZE * size_pages n) r VALLOC_REGION_SIZE /\
  tiles 0 l (start_addr n).
Proof.
  intros (m & Hl & Hs & Hp & Hr)%tiles_app. subst m.
  pose proof (tiles_le _ _ _ Hl). pose proof (tiles_le _ _ _ Hr). done.
Qed.

(** Replacing a free node by a run of nodes whose only neighbours that are
    free are fenced off keeps the two list invariants. *)
Lemma retile l n r mid :
  tiles 0 (l ++ n :: r) VALLOC_REGION_SIZE ->
  tiles (start_addr n) mid (start_addr n + VALLOC_PAGE_SIZE * size_pages n) ->
  tiles 0 (l ++ mid ++ r) VALLOC_REGION_SIZE.
Proof.
  intros Ht Hm. destruct (fit_in_region _ _ _ Ht) as (_ & _ & _ & Hr & Hl).
  apply tiles_app. exists (start_addr n). split; [done|]. apply tiles_app. eauto.
Qed.

Definition pages_of (size : Z) : Z := DIV_UP size VALLOC_PAGE_SIZE.

(** A node that [valloc_alloc] may take. *)
Definition candidate (pages : Z) (n : valloc_node) : bool := is_free n && (size_pages n >=? pages).

Lemma valloc_alloc_spec s others size :
  valloc_ok s others -> 0 < size -> size + VALLOC_PAGE_SIZE < 2 ^ 64 ->
  (exists msg, valloc_alloc size s = Stop (Panic msg)) \/
  (valloc_alloc size s = Stop (EntryError 0x123) /\
     Forall (fun n => candidate (pages_of size) n = false) (nodes s)) \/
  (exists l n r s' mid, nodes s = l ++ n :: r /\ candidate (pages_of size) n = true /\
     Forall (fun n => candidate (pages_of size) n = false) l /\
     valloc_alloc size s = Done (start_addr n, s') /\ valloc_ok s' others /\
     nodes s' = l ++ VNode (node_at n) false (start_addr n) (pages_of size) :: mid ++ r /\
     (mid = [] /\ size_pages n = pages_of size \/
      exists p, mid = [VNode p true (start_addr n + VALLOC_PAGE_SIZE * pages_of size)
                        (size_pages n - pages_of size)] /\
        size_pages n <> pages_of size)).
Proof.
  intros [Ht Hp Hh] Hs Hbig. unfold valloc_alloc. fold (pages_of size).
  pose proof (DIV_UP_bounds size VALLOC_PAGE_SIZE ltac:(done) ltac:(lia) ltac:(lia)) as Hd.
  fold (pages_of size) in Hd. set (pg := pages_of size) in *. fold (candidate pg).
  rewrite (bind_done _ _ _ s s eq_refl).
  destruct (split_first (candidate pg) (nodes s)) as [[[l n] r]|] eqn:E.
  2:{ right; left. apply split_first_None in E. done. }
  apply split_first_Some in E as (En & Hc & Hl). rewrite En in *.
  pose proof Hc as [Hf Hge]%andb_prop.
  destruct (fit_in_region _ _ _ Ht) as (Hst & Hsz & Hend & Hr & Htl).
  apply no_free_pair_app in Hp as (Hp1 & Hp2 & Hp3). apply no_free_pair_cons in Hp2 as [Hp2 Hp4].
  unfold VALLOC_PAGE_SIZE, VALLOC_REGION_SIZE in *.
  destruct (Z.eqb_spec pg (size_pages n)) as [Heq|Hne].
  - right; right. eexists l, n, r, _, []. split_and!; [done|done|done|reflexivity| |by rewrite Heq|by left].
    constructor; simpl.
    + apply (retile l n r [_]); [done|]. simpl. split_and!; [done|done|unfold VALLOC_PAGE_SIZE; lia].
    + apply no_free_pair_app. split_and!; [done| |by right].
      apply no_free_pair_cons. split; [done|by left].
    + rewrite node_blocks_app in *. simpl in *. done.
  - rewrite <- En in Hh.
    destruct (new_node_spec s others true (u64 (start_addr n + u64 (4096 * pg)))
                (u64 (size_pages n - pg)) Hh) as [(p & h' & Hn & Hh')|[msg Hn]].
    2:{ left. exists msg. by apply bind_stop. }
    right; right. rewrite (bind_done _ _ _ _ _ Hn).
    rewrite (u64_small (4096 * pg)), u64_small, u64_small by lia.
    eexists l, n, r, _, [_]. split_and!; [done|done|done|reflexivity| |reflexivity|right; by exists p].
    constructor; simpl.
    + apply (retile l n r [_; _]); [done|]. simpl. unfold VALLOC_PAGE_SIZE.
      split_and!; [done|lia|done|lia|lia].
    + apply no_free_pair_app. split_and!; [done| |by right].
      apply no_free_pair_cons. split; [|by left].
      apply no_free_pair_cons. split; [done|]. intros m Hm. right.
      destruct (Hp4 m Hm); [congruence|done].
    + eapply kh_live_perm; [|exact Hh']. rewrite En, !node_blocks_app. simpl.
      rewrite <- !Permutation_middle. simpl. solve_Permutation.
Qed.

Definition release_right (n : valloc_node) (r : list valloc_node) : Z * list valloc_node :=
  match r with
  | m :: r' => if is_free m then (size_pages n + size_pages m, r') else (size_pages n, r)
  | [] => (size_pages n, r)
  end.
Definition release_nodes (l : list valloc_node) (n : valloc_node) (r : list valloc_node) :=
  let '(pg, r') := release_right n r in
  match last l with
  | Some m => if is_free m
              then removelast l ++ VNode (node_at m) true (start_addr m) (size_pages m + pg) :: r'
              else l ++ VNode (node_at n) true (start_addr n) pg :: r'
  | None => l ++ VNode (node_at n) true (start_addr n) pg :: r'
  end.

Lemma starts_before a l e : tiles a l e -> Forall (fun n => start_addr n < e) l.
Proof.
  revert a. induction l as [|n l IH]; intros a; simpl; [constructor|].
  intros (<- & Hp & Ht). pose proof (tiles_le _ _ _ Ht).
  constructor; [unfold VALLOC_PAGE_SIZE in *; lia|eauto].
Qed.

Lemma ends_by a l e n : tiles a l e -> n ∈ l ->
  start_addr n + VALLOC_PAGE_SIZE * size_pages n <= e.
Proof.
  revert a. induction l as [|m l IH]; intros a; simpl; [by intros _ ?%elem_of_nil|].
  intros (<- & Hp & Ht). pose proof (tiles_le _ _ _ Ht).
  intros [->|Hin]%elem_of_cons; [lia|eauto].
Qed.
Lemma starts_after a l e n : tiles a l e -> n ∈ l -> a <= start_addr n.
Proof.
  revert a. induction l as [|m l IH]; intros a; simpl; [by intros _ ?%elem_of_nil|].
  intros (<- & Hp & Ht) [->|Hin]%elem_of_cons; [lia|].
  apply (IH _ Ht) in Hin. unfold VALLOC_PAGE_SIZE in *. lia.
Qed.

Lemma free_node_spec s n bs : kh_live (vheap s) ((node_at n, valloc_node_bytes) :: bs) ->
  exists h', free_node n s = Done (tt, Valloc (nodes s) h') /\ kh_live h' bs.
Proof.
  intros Hl. destruct (kh_free_ok _ _ _ _ Hl) as (h' & Hf & Hl').
  exists h'. split; [|done]. unfold free_node, zoom. by rewrite Hf.
Qed.

(** The node that [valloc_release] builds keeps the tiling. *)
Lemma release_nodes_ok l n r : is_free n = false ->
  tiles 0 (l ++ n :: r) VALLOC_REGION_SIZE -> no_free_pair (l ++ n :: r) ->
  tiles 0 (release_nodes l n r) VALLOC_REGION_SIZE /\ no_free_pair (release_nodes l n r) /\
  allocated (l ++ n :: r) ≡ₚ (start_addr n, size_pages n) :: allocated (release_nodes l n r).
Proof.
  intros Hnf Ht Hp.
  destruct (fit_in_region _ _ _ Ht) as (Hst & Hsz & Hend & Hr & Htl).
  apply no_free_pair_app in Hp as (Hp1 & Hp2 & _). apply no_free_pair_cons in Hp2 as [Hp2 _].
  assert (exists pg r', release_right n r = (pg, r') /\ 0 < pg /\ no_free_pair r' /\
    tiles (start_addr n + VALLOC_PAGE_SIZE * pg) r' VALLOC_REGION_SIZE /\
    allocated r = allocated r' /\
    (forall m, head r' = Some m -> is_free m = false)) as
    (pg & r' & Er & Hpg & Hpr & Htr & Hal & Hhd).
  { destruct r as [|m r]; simpl.
    - exists (size_pages n), []. done.
    - destruct Hr as (Hms & Hmp & Hr). apply no_free_pair_cons in Hp2 as [Hp2 Hp3].
      destruct (is_free m) eqn:Ef.
      + exists (size_pages n + size_pages m), r. split_and!; [done|lia|done| | |].
        * by replace (start_addr n + VALLOC_PAGE_SIZE * (size_pages n + size_pages m))
            with (start_addr n + VALLOC_PAGE_SIZE * size_pages n + VALLOC_PAGE_SIZE * size_pages m) by lia.
        * by rewrite allocated_cons, Ef.
        * intros m' Hm'. destruct (Hp3 m' Hm'); [congruence|done].
      + exists (size_pages n), (m :: r). split_and!; [done|done|by apply no_free_pair_cons; split; [|by left]|by simpl|done|].
        intros m' [= <-]. done. }
  unfold release_nodes. rewrite Er.
  assert (forall at_ l', no_free_pair l' -> (forall m, last l' = Some m -> is_free m = false) ->
    forall st p, no_free_pair (l' ++ VNode at_ true st p :: r')) as Hnp.
  { intros at_ l' Hl' Hlast st p. apply no_free_pair_app. split_and!; [done| |].
    - apply no_free_pair_cons. split; [done|]. intros m Hm. right. by apply Hhd.
    - intros m Hm. left. by apply Hlast. }
  assert (allocated (l ++ n :: r) ≡ₚ (start_addr n, size_pages n) :: allocated l ++ allocated r') as Hal0.
  { rewrite allocated_app, allocated_cons, Hnf, Hal. simpl. by rewrite Permutation_middle. }
  destruct (last l) as [m|] eqn:El.
  2:{ apply last_None in El as ->. simpl in Htl. split; [|split; [|exact Hal0]].
      - simpl. rewrite <- Htl in *. done.
      - by apply (Hnp _ []). }
  apply last_Some in El as [l' ->]. destruct (is_free m) eqn:Ef.
  - rewrite removelast_app, app_nil_r by done.
    apply tiles_app in Htl as (x & Htl & <- & Hmp & Hms). simpl in Hms.
    apply no_free_pair_app in Hp1 as (Hp1 & _ & Hp3). split_and!.
    + apply tiles_app. exists (start_addr m). split; [done|]. simpl. split_and!; [done|lia|].
      by replace (start_addr m + VALLOC_PAGE_SIZE * (size_pages m + pg))
        with (start_addr n + VALLOC_PAGE_SIZE * pg) by lia.
    + apply Hnp; [done|]. intros m' Hm'. destruct (Hp3 m' Hm'); [done|congruence].
    + rewrite Hal0, !allocated_app, !allocated_cons, Ef. simpl. by rewrite app_nil_r.
  - split_and!.
    + apply tiles_app. exists (start_addr n). split; [done|]. done.
    + apply Hnp; [done|]. rewrite last_snoc. intros m' [= <-]. done.
    + rewrite Hal0, (allocated_app (l' ++ [m])), (allocated_cons (VNode _ _ _ _)). done.
Qed.

Lemma valloc_release_spec s others l n r :
  valloc_ok s others -> nodes s = l ++ n :: r -> is_free n = false ->
  exists s', valloc_release (start_addr n) s = Done (true, s') /\
    nodes s' = release_nodes l n r /\ valloc_ok s' others.
Proof.
  intros [Ht Hp Hh] En Hnf. rewrite En in *.
  destruct (release_nodes_ok l n r Hnf Ht Hp) as (Ht' & Hp' & _).
  destruct (fit_in_region _ _ _ Ht) as (Hst & Hsz & Hend & Hr & Htl).
  unfold valloc_release. rewrite (bind_done _ _ _ s s eq_refl), En.
  rewrite split_first_intro; [|eapply Forall_impl; [exact (starts_before _ _ _ Htl)|intros ? ?; simpl in *; lia]|lia].
  unfold release_nodes, release_right in *. rewrite node_blocks_app in Hh. simpl in Hh.
  match goal with |- context [bind ?m _ s] =>
    assert (exists r' pg h', m s = Done ((VNode (node_at n) (is_free n) (start_addr n) pg, r'), Valloc (nodes s) h') /\
      (pg, r') = release_right n r /\
      kh_live h' (node_blocks l ++ (node_at n, valloc_node_bytes) :: node_blocks r' ++ others))
      as (r' & pg & h1 & Hm & Er & Hh1) end.
  { destruct r as [|m r]; simpl in *.
    - exists [], (size_pages n), (vheap s). split_and!; [|done|by rewrite <- app_assoc in Hh].
      unfold ret. by destruct n, s.
    - destruct Hr as (_ & Hmp & Hr). apply tiles_le in Hr.
      destruct (is_free m) eqn:Ef.
      + destruct (free_node_spec s m (node_blocks l ++ (node_at n, valloc_node_bytes) :: node_blocks r ++ others))
          as (h' & Hf & Hl'); [eapply kh_live_perm; [|exact Hh]; solve_Permutation|].
        exists r, (size_pages n + size_pages m), h'. split_and!; [|done|done].
        rewrite (bind_done _ _ _ _ _ Hf). unfold VALLOC_PAGE_SIZE, VALLOC_REGION_SIZE in *.
        by rewrite u64_small by lia.
      + exists (m :: r), (size_pages n), (vheap s). split_and!; [|done|by rewrite <- app_assoc in Hh].
        unfold ret. by destruct n, s. }
  rewrite (bind_done _ _ _ _ _ Hm). cbn beta iota zeta. unfold release_right in Er. rewrite <- Er in *.
  destruct (last l) as [m|] eqn:El.
  2:{ eexists. split; [reflexivity|]. split; [done|]. constructor; simpl; [done|done|].
      rewrite node_blocks_app. simpl. by rewrite <- app_assoc. }
  apply last_Some in El as [l' ->]. destruct (is_free m) eqn:Ef.
  2:{ eexists. split; [reflexivity|]. split; [done|]. constructor; simpl; [done|done|].
      rewrite node_blocks_app. simpl. by rewrite <- app_assoc. }
  rewrite removelast_app, app_nil_r in * by done.
  set (n1 := VNode (node_at n) (is_free n) (start_addr n) pg).
  rewrite node_blocks_app in Hh1. simpl in Hh1.
  destruct (free_node_spec (Valloc (nodes s) h1) n1
    (node_blocks l' ++ (node_at m, valloc_node_bytes) :: node_blocks r' ++ others)) as (h2 & Hf & Hh2).
  { eapply kh_live_perm; [|exact Hh1]. simpl. solve_Permutation. }
  rewrite (bind_done _ _ _ _ _ Hf).
  rewrite u64_small; last first.
  { apply tiles_app in Ht' as (x & Htx & Hs & Hpos & Htr). apply tiles_le in Htr. apply tiles_le in Htx.
    subst n1. simpl in *. unfold VALLOC_PAGE_SIZE, VALLOC_REGION_SIZE in *. lia. }
  eexists. split; [reflexivity|]. split; [done|]. constructor; simpl; [done|done|].
  rewrite node_blocks_app. simpl. by rewrite <- app_assoc.
Qed.


(** *** valloc_reserve *)

Definition node_end (n : valloc_node) : Z := start_addr n + VALLOC_PAGE_SIZE * size_pages n.
Definition covers (vaddr : Z) (n : valloc_node) : bool :=
  (vaddr >=? start_addr n) && (vaddr <? node_end n).

Lemma tiles_cover a l e x : tiles a l e -> a <= x < e ->
  exists p n r, l = p ++ n :: r /\ covers x n = true /\ Forall (fun m => covers x m = false) p.
Proof.
  revert a. induction l as [|n l IH]; intros a; simpl; [lia|].
  intros (Hs & Hp & Ht) Hx. destruct (Z_lt_dec x (node_end n)) as [Hlt|Hge].
  - exists [], n, l. split_and!; [done|unfold covers, node_end in *; lia|done].
  - unfold node_end in Hge. destruct (IH _ Ht) as (p & m & r & -> & Hc & Hall); [lia|].
    exists (n :: p), m, r. split_and!; [done|done|]. constructor; [unfold covers, node_end; lia|done].
Qed.

(** Every node of a well-formed list lies in the region. *)
Lemma tiles_bounds a l e : 0 <= a -> tiles a l e ->
  Forall (fun n => 0 <= start_addr n /\ 0 < size_pages n /\ node_end n <= e) l.
Proof.
  revert a. induction l as [|n l IH]; intros a Ha; simpl; [constructor|].
  intros (Hs & Hp & Ht). pose proof (tiles_le _ _ _ Ht).
  constructor; [unfold node_end; lia|]. apply (IH _) in Ht; [done|unfold VALLOC_PAGE_SIZE in *; lia].
Qed.


(** The nodes a successful reservation leaves in place of the free node. *)
Definition reserve_nodes (n : valloc_node) (vaddr pages p q : Z) : list valloc_node :=
  (if start_addr n <? vaddr
   then [VNode p true (start_addr n) ((vaddr - start_addr n) / VALLOC_PAGE_SIZE)] else []) ++
  VNode (node_at n) false vaddr pages ::
  (if vaddr + VALLOC_PAGE_SIZE * pages <? node_end n
   then [VNode q true (vaddr + VALLOC_PAGE_SIZE * pages)
          ((node_end n - (vaddr + VALLOC_PAGE_SIZE * pages)) / VALLOC_PAGE_SIZE)] else []).

Lemma page_quot x : 0 <= x -> x mod VALLOC_PAGE_SIZE = 0 ->
  VALLOC_PAGE_SIZE * (x / VALLOC_PAGE_SIZE) = x /\ Z.quot x VALLOC_PAGE_SIZE = x / VALLOC_PAGE_SIZE.
Proof.
  intros Hx Hm. split; [|by apply Z.quot_div_nonneg].
  pose proof (Z.div_mod x VALLOC_PAGE_SIZE ltac:(done)). lia.
Qed.

Lemma tiles_aligned a l e : a mod VALLOC_PAGE_SIZE = 0 -> tiles a l e ->
  Forall (fun n => start_addr n mod VALLOC_PAGE_SIZE = 0 /\ node_end n mod VALLOC_PAGE_SIZE = 0) l.
Proof.
  revert a. induction l as [|n l IH]; intros a Ha; simpl; [constructor|].
  intros (Hs & Hp & Ht).
  assert ((a + VALLOC_PAGE_SIZE * size_pages n) mod VALLOC_PAGE_SIZE = 0) as Hn.
  { rewrite (Z.mul_comm VALLOC_PAGE_SIZE), Z_mod_plus_full. done. }
  constructor; [unfold node_end; by rewrite Hs|eauto].
Qed.

Lemma mod_sub a b : a mod VALLOC_PAGE_SIZE = 0 -> b mod VALLOC_PAGE_SIZE = 0 ->
  (a - b) mod VALLOC_PAGE_SIZE = 0.
Proof. intros Ha Hb. by rewrite Zminus_mod, Ha, Hb. Qed.

Lemma reserve_nodes_tiles n vaddr pages p q :
  start_addr n <= vaddr -> vaddr + VALLOC_PAGE_SIZE * pages <= node_end n -> 0 < pages ->
  start_addr n mod VALLOC_PAGE_SIZE = 0 -> node_end n mod VALLOC_PAGE_SIZE = 0 ->
  vaddr mod VALLOC_PAGE_SIZE = 0 ->
  tiles (start_addr n) (reserve_nodes n vaddr pages p q) (node_end n).
Proof.
  intros Hlo Hhi Hp Ha1 Ha2 Ha3. unfold reserve_nodes.
  assert ((vaddr - start_addr n) mod VALLOC_PAGE_SIZE = 0) as Hm1.
  { by apply mod_sub. }
  assert ((node_end n - (vaddr + VALLOC_PAGE_SIZE * pages)) mod VALLOC_PAGE_SIZE = 0) as Hm2.
  { apply mod_sub; [done|]. by rewrite (Z.mul_comm VALLOC_PAGE_SIZE), Z_mod_plus_full. }
  apply page_quot in Hm1 as [Hq1 _]; [|lia]. apply page_quot in Hm2 as [Hq2 _]; [|lia].
  apply tiles_app. exists vaddr. split.
  - destruct (Z.ltb_spec (start_addr n) vaddr); simpl; [|lia].
    split_and!; [done| |lia]. unfold VALLOC_PAGE_SIZE in *. lia.
  - simpl. split_and!; [done|done|].
    destruct (Z.ltb_spec (vaddr + VALLOC_PAGE_SIZE * pages) (node_end n)); simpl; [|lia].
    split_and!; [done| |lia]. unfold VALLOC_PAGE_SIZE in *. lia.
Qed.

Lemma reserve_nodes_pairs l n r vaddr pages p q :
  no_free_pair (l ++ n :: r) -> is_free n = true ->
  no_free_pair (l ++ reserve_nodes n vaddr pages p q ++ r).
Proof.
  intros Hp Hf. apply no_free_pair_app in Hp as (Hp1 & Hp2 & Hp3).
  apply no_free_pair_cons in Hp2 as [Hp2 Hp4].
  assert (forall m, last l = Some m -> is_free m = false) as Hll.
  { intros m Hm. destruct (Hp3 m Hm); [done|congruence]. }
  assert (forall m, head r = Some m -> is_free m = false) as Hhr.
  { intros m Hm. destruct (Hp4 m Hm); [congruence|done]. }
  assert (no_free_pair (VNode (node_at n) false vaddr pages ::
    (if vaddr + VALLOC_PAGE_SIZE * pages <? node_end n
     then [VNode q true (vaddr + VALLOC_PAGE_SIZE * pages)
            ((node_end n - (vaddr + VALLOC_PAGE_SIZE * pages)) / VALLOC_PAGE_SIZE)] else []) ++ r)) as Hmid.
  { apply no_free_pair_cons. split; [|by left].
    destruct (_ <? _); simpl app; [|done]. apply no_free_pair_cons. split; [done|].
    intros m Hm. right. by apply Hhr. }
  unfold reserve_nodes. rewrite <- app_assoc. simpl app.
  destruct (_ <? vaddr); simpl app.
  - apply no_free_pair_app. split_and!; [done| |intros m Hm; left; by apply Hll].
    apply no_free_pair_cons. split; [done|]. intros m [= <-]. by right.
  - apply no_free_pair_app. split_and!; [done|done|by right].
Qed.

Lemma s64_region x : 0 <= x <= VALLOC_REGION_SIZE -> s64 x = x.
Proof. intros. apply s64_small. unfold VALLOC_REGION_SIZE in *. lia. Qed.

Lemma node_if_spec s others (b : bool) start pages :
  kh_live (vheap s) (node_blocks (nodes s) ++ others) ->
  (exists p h', let l : list valloc_node := (if b then [VNode p true start pages] else []) in
     node_if b start pages s = Done (l, Valloc (nodes s) h') /\
     kh_live h' (node_blocks l ++ node_blocks (nodes s) ++ others)) \/
  (exists msg, node_if b start pages s = Stop (Panic msg)).
Proof.
  intros Hh. destruct b; simpl.
  - destruct (new_node_spec s others true start pages Hh) as [(p & h' & Hn & Hh')|[msg Hn]].
    + left. exists p, h'. by rewrite (bind_done _ _ _ _ _ Hn).
    + right. exists msg. by apply bind_stop.
  - left. exists 0, (vheap s). unfold ret. by destruct s.
Qed.

Lemma valloc_reserve_spec s others vaddr size :
  valloc_ok s others -> 0 <= vaddr < VALLOC_REGION_SIZE -> vaddr mod VALLOC_PAGE_SIZE = 0 ->
  0 < size <= VALLOC_REGION_SIZE ->
  (exists msg, valloc_reserve vaddr size s = Stop (Panic msg)) \/
  (exists l n r, nodes s = l ++ n :: r /\ covers vaddr n = true /\
     (is_free n = false \/ node_end n < vaddr + VALLOC_PAGE_SIZE * pages_of size) /\
     valloc_reserve vaddr size s = Done (0, s)) \/
  (exists l n r p q s', nodes s = l ++ n :: r /\ covers vaddr n = true /\ is_free n = true /\
     vaddr + VALLOC_PAGE_SIZE * pages_of size <= node_end n /\
     valloc_reserve vaddr size s = Done (vaddr, s') /\ valloc_ok s' others /\
     nodes s' = l ++ reserve_nodes n vaddr (pages_of size) p q ++ r).
Proof.
  intros [Ht Hp Hh] Hv Hal Hs. unfold valloc_reserve. fold (pages_of size).
  pose proof (DIV_UP_bounds size VALLOC_PAGE_SIZE ltac:(done) ltac:(lia)
    ltac:(unfold VALLOC_REGION_SIZE, VALLOC_PAGE_SIZE in *; lia)) as Hd.
  fold (pages_of size) in Hd. set (pg := pages_of size) in *.
  assert (0 < pg < 2 ^ 40) as Hpg by (unfold VALLOC_REGION_SIZE, VALLOC_PAGE_SIZE in *; lia).
  rewrite (s64_region vaddr) by lia. rewrite Z.rem_mod_nonneg by (unfold VALLOC_PAGE_SIZE; lia).
  rewrite Hal. cbn [negb Z.eqb]. rewrite (s64_small pg) by lia.
  assert (in_s64 (VALLOC_PAGE_SIZE * pg) && in_s64 (vaddr + VALLOC_PAGE_SIZE * pg) = true) as ->.
  { unfold in_s64, VALLOC_PAGE_SIZE, VALLOC_REGION_SIZE in *. lia. }
  unfold guard_or. rewrite bind_ret_l, (bind_done _ _ _ s s eq_refl).
  pose proof (tiles_bounds 0 _ _ ltac:(lia) Ht) as Hb.
  pose proof (tiles_aligned 0 _ _ ltac:(done) Ht) as Hali.
  rewrite (split_first_ext _ (covers vaddr)); last first.
  { eapply Forall_impl; [exact Hb|]. intros n (? & ? & He). unfold covers, node_end in *.
    rewrite (s64_region (start_addr n)), (s64_small (size_pages n)); [done|..];
      unfold VALLOC_REGION_SIZE, VALLOC_PAGE_SIZE in *; lia. }
  destruct (tiles_cover _ _ _ vaddr Ht Hv) as (l & n & r & En & Hc & Hlc).
  rewrite En, (split_first_intro _ _ _ _ Hlc Hc). rewrite En in Ht, Hp, Hb, Hali, Hh.
  apply Forall_app in Hb as [_ [(Hb1 & Hb2 & Hb3) _]%Forall_cons].
  apply Forall_app in Hali as [_ [[Ha1 Ha2] _]%Forall_cons].
  destruct (is_free n) eqn:Ef; cbn [negb].
  2:{ right; left. exists l, n, r. split_and!; [done|done|by left|done]. }
  rewrite (s64_region (start_addr n)), (s64_small (size_pages n))
    by (unfold node_end, VALLOC_REGION_SIZE, VALLOC_PAGE_SIZE in *; lia). fold (node_end n).
  rewrite Z.gtb_ltb. destruct (Z.ltb_spec (node_end n) (vaddr + VALLOC_PAGE_SIZE * pg)).
  { right; left. exists l, n, r. split_and!; [done|done|by right|done]. }
  unfold covers in Hc. apply andb_prop in Hc as [Hc1 Hc2].
  rewrite Z.gtb_ltb.
  assert ((if start_addr n <? vaddr then vaddr else start_addr n) = vaddr) as ->
    by (destruct (Z.ltb_spec (start_addr n) vaddr); lia).
  rewrite <- En in Hh.
  destruct (node_if_spec s others (start_addr n <? vaddr) (start_addr n)
    (Z.quot (vaddr - start_addr n) VALLOC_PAGE_SIZE) Hh) as [(p & h1 & Hm & Hh1)|[msg Hm]].
  2:{ left. exists msg. by apply bind_stop. }
  rewrite (bind_done _ _ _ _ _ Hm). clear Hm.
  rewrite (proj2 (page_quot (vaddr - start_addr n) ltac:(lia) (mod_sub _ _ Hal Ha1))) in *.
  set (bf := if start_addr n <? vaddr
    then [VNode p true (start_addr n) ((vaddr - start_addr n) / VALLOC_PAGE_SIZE)] else []) in *.
  rewrite (u64_small (VALLOC_PAGE_SIZE * pg)), u64_small
    by (unfold VALLOC_PAGE_SIZE, VALLOC_REGION_SIZE in *; lia).
  assert ((vaddr + VALLOC_PAGE_SIZE * pg) mod VALLOC_PAGE_SIZE = 0) as Hre.
  { by rewrite (Z.mul_comm VALLOC_PAGE_SIZE), Z_mod_plus_full. }
  destruct (node_if_spec (Valloc (nodes s) h1) (node_blocks bf ++ others)
    (vaddr + VALLOC_PAGE_SIZE * pg <? node_end n) (vaddr + VALLOC_PAGE_SIZE * pg)
    (Z.quot (node_end n - (vaddr + VALLOC_PAGE_SIZE * pg)) VALLOC_PAGE_SIZE))
    as [(q & h2 & Hm & Hh2)|[msg Hm]].
  { eapply kh_live_perm; [|exact Hh1]. simpl. solve_Permutation. }
  2:{ left. exists msg. by apply bind_stop. }
  rewrite (bind_done _ _ _ _ _ Hm). clear Hm. simpl nodes in *.
  rewrite (proj2 (page_quot (node_end n - (vaddr + VALLOC_PAGE_SIZE * pg)) ltac:(lia) (mod_sub _ _ Ha2 Hre))) in *.
  right; right. eexists l, n, r, p, q, _. split_and!; [done|unfold covers; lia|done|done|reflexivity| |].
  2:{ simpl. unfold reserve_nodes. fold bf. by rewrite <- app_assoc. }
  set (af := if vaddr + VALLOC_PAGE_SIZE * pg <? node_end n
    then [VNode q true (vaddr + VALLOC_PAGE_SIZE * pg)
            ((node_end n - (vaddr + VALLOC_PAGE_SIZE * pg)) / VALLOC_PAGE_SIZE)] else []) in *.
  assert (bf ++ VNode (node_at n) false vaddr pg :: af ++ r = reserve_nodes n vaddr pg p q ++ r) as E
    by (unfold reserve_nodes; fold bf af; by rewrite <- app_assoc).
  constructor; simpl.
  - rewrite E. apply (retile l n r); [done|]. apply reserve_nodes_tiles; [lia|lia|lia|done|done|done].
  - rewrite E. by apply reserve_nodes_pairs.
  - eapply kh_live_perm; [|exact Hh2]. rewrite En, !node_blocks_app. simpl. rewrite !node_blocks_app.
    simpl. solve_Permutation.
Qed.

Lemma reserve_nodes_allocated l n r vaddr pages p q : is_free n = true ->
  allocated (l ++ reserve_nodes n vaddr pages p q ++ r) ≡ₚ (vaddr, pages) :: allocated (l ++ n :: r).
Proof.
  intros Hf. unfold reserve_nodes. rewrite !allocated_app, (allocated_cons n r), Hf.
  rewrite (allocated_cons (VNode _ _ _ _)). simpl.
  assert (forall (b : bool) st pg, allocated (if b then [VNode p true st pg] else []) = []) as E1
    by (by intros []).
  assert (forall (b : bool) st pg, allocated (if b then [VNode q true st pg] else []) = []) as E2
    by (by intros []).
  rewrite E1, E2. simpl. by rewrite Permutation_middle.
Qed.

(** ** Sequences of operations *)

Inductive valloc_op := VAlloc (size : Z) | VReserve (vaddr size : Z) | VRelease (vaddr : Z).

Definition run_valloc (o : valloc_op) : M valloc_t unit :=
  match o with
  | VAlloc size => let! _ := valloc_alloc size in ret tt
  | VReserve vaddr size => let! _ := valloc_reserve vaddr size in ret tt
  | VRelease vaddr => let! _ := valloc_release vaddr in ret tt
  end.

(** Requests a caller may make: positive sizes, page-aligned addresses in the
    region, and releases of what is allocated. *)
Definition valid_op (s : valloc_t) (o : valloc_op) : Prop :=
  match o with
  | VAlloc size => 0 < size <= VALLOC_REGION_SIZE
  | VReserve vaddr size =>
      0 <= vaddr < VALLOC_REGION_SIZE /\ vaddr mod VALLOC_PAGE_SIZE = 0 /\ 0 < size <= VALLOC_REGION_SIZE
  | VRelease vaddr => exists pages, (vaddr, pages) ∈ allocated (nodes s)
  end.

Inductive valloc_run : valloc_t -> list valloc_op -> valloc_t -> Prop :=
  | valloc_run_nil s : valloc_run s [] s
  | valloc_run_cons s s1 s2 o os :
      valid_op s o -> run_valloc o s = Done (tt, s1) -> valloc_run s1 os s2 ->
      valloc_run s (o :: os) s2.

Lemma allocated_split l p pages : (p, pages) ∈ allocated l ->
  exists l1 n l2, l = l1 ++ n :: l2 /\ is_free n = false /\ start_addr n = p /\ size_pages n = pages.
Proof.
  unfold allocated. intros (n & [= -> ->] & [Hf Hin]%list_elem_of_filter)%list_elem_of_fmap.
  apply list_elem_of_split in Hin as (l1 & l2 & ->). by exists l1, n, l2.
Qed.

Lemma run_valloc_ok s others o s' :
  valloc_ok s others -> valid_op s o -> run_valloc o s = Done (tt, s') -> valloc_ok s' others.
Proof.
  intros Hok Hv Hr. destruct o as [size|vaddr size|vaddr]; simpl in *.
  - apply bind_done_inv in Hr as (a & s1 & Hr & [= <-]).
    destruct (valloc_alloc_spec s others size Hok) as
      [[msg E]|[[E _]|(l & n & r & s2 & mid & _ & _ & _ & E & Hok' & _)]];
      [lia|unfold VALLOC_REGION_SIZE, VALLOC_PAGE_SIZE in *; lia|congruence..].
  - apply bind_done_inv in Hr as (a & s1 & Hr & [= <-]). destruct Hv as (Hv & Ha & Hs).
    destruct (valloc_reserve_spec s others vaddr size Hok Hv Ha Hs) as
      [[msg E]|[(? & ? & ? & _ & _ & _ & E)|(? & ? & ? & ? & ? & s2 & _ & _ & _ & _ & E & Hok' & _)]];
      congruence.
  - apply bind_done_inv in Hr as (a & s1 & Hr & [= <-]). destruct Hv as [pages Hin].
    apply allocated_split in Hin as (l1 & n & l2 & En & Hf & <- & _).
    destruct (valloc_release_spec s others l1 n l2 Hok En Hf) as (s2 & E & _ & Hok'). congruence.
Qed.

Lemma valloc_run_ok s others os s' :
  valloc_ok s others -> valloc_run s os s' -> valloc_ok s' others.
Proof.
  intros Hok Hr. induction Hr as [s|s s1 s2 o os Hv Ho Hr IH]; [done|].
  apply IH. by eapply run_valloc_ok.
Qed.

Lemma valloc_init_spec h others : kh_live h others ->
  (exists s, valloc_init (Valloc [] h) = Done (tt, s) /\ valloc_ok s others /\ allocated (nodes s) = []) \/
  (exists msg, valloc_init (Valloc [] h) = Stop (Panic msg)).
Proof.
  intros Hl. destruct (new_node_spec (Valloc [] h) others true 0
    (VALLOC_REGION_SIZE / VALLOC_PAGE_SIZE) Hl) as [(p & h' & Hn & Hh)|[msg Hn]].
  - left. unfold valloc_init. rewrite (bind_done _ _ _ _ _ Hn). eexists. split; [reflexivity|].
    split; [|done]. constructor; done.
  - right. exists msg. by apply bind_stop.
Qed.

(** C34: after [valloc_init] and any sequence of allocations, reservations and
    releases that return, the nodes tile the 48-bit region exactly, no two
    free nodes touch, the allocated ranges are pairwise disjoint whole pages
    inside the region, and every node owns exactly one live heap block. *)
Theorem valloc_run_sound h others s os s'
  (Hl : kh_live h others) (Hi : valloc_init (Valloc [] h) = Done (tt, s)) (Hr : valloc_run s os s') :
  tiles 0 (nodes s') VALLOC_REGION_SIZE /\ no_free_pair (nodes s') /\
  kh_live (vheap s') (node_blocks (nodes s') ++ others) /\
  (forall i j p n q m, (i < j)%nat ->
     allocated (nodes s') !! i = Some (p, n) -> allocated (nodes s') !! j = Some (q, m) ->
     0 <= p /\ p + VALLOC_PAGE_SIZE * n <= q /\ q + VALLOC_PAGE_SIZE * m <= VALLOC_REGION_SIZE).
Proof.
  destruct (valloc_init_spec h others Hl) as [(s0 & E & Hok & _)|[msg E]]; [|congruence].
  assert (s0 = s) as -> by congruence. apply (valloc_run_ok _ _ _ _ Hok) in Hr as [Ht Hp Hh].
  split_and!; [done|done|done|]. intros i j p n q m Hij Hpi Hqj.
  split_and!; [|by eapply allocated_sorted|].
  - apply list_elem_of_lookup_2 in Hpi. by apply (allocated_bounds _ _ _ _ _ Ht) in Hpi as (? & _).
  - apply list_elem_of_lookup_2 in Hqj. by apply (allocated_bounds _ _ _ _ _ Ht) in Hqj as (_ & ? & _).
Qed.

(** What [valloc_alloc] returns, [valloc_release] gives back: the node
    list is restored exactly, and so is the set of live heap blocks. *)
Theorem valloc_alloc_release s others size a s1
  (Hok : valloc_ok s others) (Hs : 0 < size <= VALLOC_REGION_SIZE)
  (Ha : valloc_alloc size s = Done (a, s1)) :
  exists s2, valloc_release a s1 = Done (true, s2) /\ nodes s2 = nodes s /\ valloc_ok s2 others.
Proof.
  destruct (valloc_alloc_spec s others size Hok) as
    [[msg E]|[[E _]|(l & n & r & s' & mid & En & Hc & _ & E & Hok' & En' & Hmid)]];
    [lia|unfold VALLOC_REGION_SIZE, VALLOC_PAGE_SIZE in *; lia|congruence..|].
  rewrite E in Ha. injection Ha as <- <-.
  destruct (valloc_release_spec s' others l _ _ Hok' En' eq_refl) as (s2 & Er & En2 & Hok2).
  exists s2. split; [exact Er|]. split; [|done]. rewrite En2, En.
  apply andb_prop in Hc as [Hf _]. destruct Hok as [_ Hp _]. rewrite En in Hp.
  apply no_free_pair_app in Hp as (_ & Hp2 & Hp3). apply no_free_pair_cons in Hp2 as [_ Hp4].
  assert (forall m, last l = Some m -> is_free m = false) as Hll.
  { intros m Hm. destruct (Hp3 m Hm); [done|congruence]. }
  assert (exists pg, release_right (VNode (node_at n) false (start_addr n) (pages_of size)) (mid ++ r)
    = (pg, r) /\ pg = size_pages n) as (pg & Er' & ->).
  { destruct Hmid as [[-> Hsz]|(p & -> & Hne)]; simpl.
    - destruct r as [|m r]; [by eexists|]. destruct (Hp4 m eq_refl) as [|Hm]; [congruence|].
      simpl. rewrite Hm. by eexists.
    - eexists. split; [done|]. lia. }
  unfold release_nodes. rewrite Er'. destruct n as [na nf ns np]. simpl in *. subst nf.
  destruct (last l) as [m|] eqn:El; [|done]. by rewrite (Hll m eq_refl).
Qed.

(** [valloc_reserve] of a page-aligned address inside the region either
    leaves everything alone and returns [NULL] because the range is not
    entirely inside one free node, or returns that very address with exactly
    this range added to the allocated ones (a heap panic aside). *)
Theorem valloc_reserve_exact s others vaddr size
  (Hok : valloc_ok s others) (Hv : 0 <= vaddr < VALLOC_REGION_SIZE)
  (Ha : vaddr mod VALLOC_PAGE_SIZE = 0) (Hs : 0 < size <= VALLOC_REGION_SIZE) :
  (exists msg, valloc_reserve vaddr size s = Stop (Panic msg)) \/
  (valloc_reserve vaddr size s = Done (0, s) /\
     forall n, n ∈ nodes s -> is_free n = true -> start_addr n <= vaddr ->
       node_end n < vaddr + VALLOC_PAGE_SIZE * pages_of size) \/
  (exists s', valloc_reserve vaddr size s = Done (vaddr, s') /\ valloc_ok s' others /\
     allocated (nodes s') ≡ₚ (vaddr, pages_of size) :: allocated (nodes s)).
Proof.
  destruct (valloc_reserve_spec s others vaddr size Hok Hv Ha Hs) as
    [Hp|[(l & n & r & En & Hc & Hno & E)|(l & n & r & p & q & s' & En & Hc & Hf & He & E & Hok' & En')]].
  - by left.
  - right; left. split; [exact E|]. intros m Hm Hfm Hst. destruct Hok as [Ht _ _]. rewrite En in *.
    destruct (fit_in_region _ _ _ Ht) as (_ & _ & _ & Htr & Htl). fold (node_end n) in Htr.
    unfold covers in Hc. apply andb_prop in Hc as [Hc1 Hc2].
    pose proof (DIV_UP_bounds size VALLOC_PAGE_SIZE ltac:(done) ltac:(lia)
      ltac:(unfold VALLOC_REGION_SIZE, VALLOC_PAGE_SIZE in *; lia)) as Hd. fold (pages_of size) in Hd.
    apply elem_of_app in Hm as [Hm|[->|Hm]%elem_of_cons].
    + apply (ends_by _ _ _ _ Htl) in Hm. unfold node_end. lia.
    + destruct Hno as [|]; [congruence|done].
    + apply (starts_after _ _ _ _ Htr) in Hm. lia.
  - right; right. exists s'. split_and!; [exact E|done|].
    rewrite En', En. by apply reserve_nodes_allocated.
Qed.

Lemma free_nodes_spec l s others : kh_live (vheap s) (node_blocks l ++ others) ->
  exists h', for_each l free_node s = Done (tt, Valloc (nodes s) h') /\ kh_live h' others.
Proof.
  revert s. induction l as [|n l IH]; intros s Hh; simpl in *.
  { exists (vheap s). split; [by destruct s|done]. }
  destruct (free_node_spec s n _ Hh) as (h' & Hf & Hl).
  rewrite (bind_done _ _ _ _ _ Hf). by apply (IH (Valloc (nodes s) h')).
Qed.

(** Destroying the allocator returns every node to the heap. *)
Lemma valloc_free_spec s others : valloc_ok s others ->
  exists s', valloc_free s = Done (tt, s') /\ kh_live (vheap s') others.
Proof.
  intros [_ _ Hh]. destruct (free_nodes_spec (nodes s) s others Hh) as (h' & Hf & Hl).
  exists (Valloc (nodes s) h'). split; [|done].
  unfold valloc_free. by rewrite (bind_done _ _ _ s s eq_refl).
Qed.
End valloc.

(** ** Concrete runs *)

(** A fresh address space on a heap that starts at 4096. *)
Definition demo_valloc : @valloc_t bump :=
  Valloc [VNode 4096 true 0 (2 ^ 36)] (Bump 4136).

Lemma demo_valloc_ok : valloc_ok demo_valloc [].
Proof.
  constructor; simpl; [split_and!; reflexivity|done|].
  split; [done|]. repeat constructor; simpl; unfold valloc_node_bytes; lia.
Qed.
Lemma demo_live : kh_live (Bump 4096) [].
Proof. split; [done|constructor]. Qed.

(** Allocate two pages, reserve one page at 64 KiB, release the first. *)
Definition demo_valloc_end : @valloc_t bump :=
  Valloc [VNode 4096 true 0 16; VNode 4136 false 65536 1; VNode 4216 true 69632 (2 ^ 36 - 17)] (Bump 4256).

Lemma valloc_run_sound_witness :
  valloc_init (Valloc [] (Bump 4096)) = Done (tt, demo_valloc) /\
  valloc_run demo_valloc [VAlloc 5000; VReserve 65536 1; VRelease 0] demo_valloc_end /\
  tiles 0 (nodes demo_valloc_end) VALLOC_REGION_SIZE.
Proof.
  assert (valloc_run demo_valloc [VAlloc 5000; VReserve 65536 1; VRelease 0] demo_valloc_end) as Hr.
  { eapply valloc_run_cons; [simpl; unfold VALLOC_REGION_SIZE; lia|vm_compute; reflexivity|].
    eapply valloc_run_cons; [vm_compute; split_and!; congruence|vm_compute; reflexivity|].
    eapply valloc_run_cons; [exists 2; vm_compute; left|vm_compute; reflexivity|].
    apply valloc_run_nil. }
  assert (valloc_init (Valloc [] (Bump 4096)) = Done (tt, demo_valloc)) as Hi by reflexivity.
  split_and!; [exact Hi|exact Hr|].
  apply (valloc_run_sound (Bump 4096) [] demo_valloc _ demo_valloc_end demo_live Hi Hr).
Defined.

Lemma valloc_alloc_release_witness : exists s1 s2,
  valloc_alloc 5000 demo_valloc = Done (0, s1) /\ valloc_release 0 s1 = Done (true, s2) /\
  nodes s2 = nodes demo_valloc.
Proof.
  assert (exists s1, valloc_alloc 5000 demo_valloc = Done (0, s1)) as [s1 E]
    by (eexists; vm_compute; reflexivity).
  destruct (valloc_alloc_release demo_valloc [] 5000 0 s1 demo_valloc_ok) as (s2 & Hr & Hn & _);
    [unfold VALLOC_REGION_SIZE; lia|exact E|].
  by exists s1, s2.
Defined.

Lemma valloc_reserve_exact_witness :
  (exists msg, valloc_reserve 65536 1 demo_valloc = Stop (Panic msg)) \/
  (valloc_reserve 65536 1 demo_valloc = Done (0, demo_valloc)) \/
  (exists s', valloc_reserve 65536 1 demo_valloc = Done (65536, s')).
Proof.
  destruct (valloc_reserve_exact demo_valloc [] 65536 1 demo_valloc_ok) as [Hp|[[Hz _]|(s' & Hs & _)]];
    [unfold VALLOC_REGION_SIZE; lia|reflexivity|unfold VALLOC_REGION_SIZE; lia| | |].
  - by left.
  - right; left. exact Hz.
  - right; right. by exists s'.
Defined.
