(* ===== verification/Ring.v ===== *)
(** * Ring: circular buffers

    The kernel keeps several circular buffers as an array, a read index, a
    write index and a count (signals, input packets, pipes).  [ring_rep] says
    that such a buffer holds a list; the two lemmas are the steps of a FIFO. *)
From S2P Require Import Prelude.

Section ring.
Context {A : Type}.

Record ring_rep (cap rd wr size : Z) (buf l : list A) : Prop := {
  ring_cap : 0 < cap <= Z.of_nat (length buf);
  ring_rd : 0 <= rd < cap;
  ring_size : size = Z.of_nat (length l);
  ring_full : size <= cap;
  ring_wr : wr = (rd + size) mod cap;
  ring_data : forall (i : nat) x, l !! i = Some x ->
    buf !! Z.to_nat ((rd + Z.of_nat i) mod cap) = Some x
}.

Lemma ring_empty cap rd buf : 0 < cap <= Z.of_nat (length buf) -> 0 <= rd < cap ->
  ring_rep cap rd rd 0 buf [].
Proof.
  intros. constructor; [done|done|done|lia| |].
  - by rewrite Z.add_0_r, Z.mod_small.
  - intros i x. by rewrite lookup_nil.
Qed.

Lemma ring_wr_range cap rd wr size (buf l : list A) : ring_rep cap rd wr size buf l -> 0 <= wr < cap.
Proof. intros [? ? ? ? -> _]. apply Z.mod_pos_bound. lia. Qed.

(** Two offsets below the capacity fall on different cells. *)
Lemma ring_cells cap rd i j : 0 < cap -> 0 <= i < j -> j < cap -> (rd + i) mod cap <> (rd + j) mod cap.
Proof.
  intros Hc Hij Hj E.
  pose proof (Z.div_mod (rd + i) cap ltac:(lia)) as Ei. pose proof (Z.div_mod (rd + j) cap ltac:(lia)) as Ej.
  rewrite E in Ei. assert (j - i = cap * ((rd + j) / cap - (rd + i) / cap)) as Hd by lia.
  assert (0 < (rd + j) / cap - (rd + i) / cap) by nia. nia.
Qed.

Lemma ring_push cap rd wr size buf l x : ring_rep cap rd wr size buf l -> size < cap ->
  ring_rep cap rd ((wr + 1) mod cap) (size + 1) (<[Z.to_nat wr := x]> buf) (l ++ [x]).
Proof.
  intros Hr Hlt. pose proof (ring_wr_range _ _ _ _ _ _ Hr) as Hwr.
  destruct Hr as [Hc Hrd Hs Hf Hw Hd]. constructor.
  - by rewrite length_insert.
  - done.
  - rewrite length_app. simpl. lia.
  - lia.
  - rewrite Hw, Zplus_mod_idemp_l. f_equal. lia.
  - intros i y Hi. destruct (decide (i = length l)) as [->|Hne].
    + rewrite list_lookup_middle in Hi by done. injection Hi as <-.
      rewrite <- Hs, <- Hw. apply list_lookup_insert_eq. lia.
    + assert (i < length l)%nat as Hil.
      { apply lookup_lt_Some in Hi. rewrite length_app in Hi. simpl in Hi. lia. }
      rewrite lookup_app_l in Hi by done. rewrite list_lookup_insert_ne; [by apply Hd|].
      rewrite Hw. pose proof (Z.mod_pos_bound (rd + size) cap ltac:(lia)).
      pose proof (Z.mod_pos_bound (rd + Z.of_nat i) cap ltac:(lia)).
      pose proof (ring_cells cap rd (Z.of_nat i) size ltac:(lia) ltac:(lia) ltac:(lia)). lia.
Qed.

Lemma ring_pop cap rd wr size buf x l : ring_rep cap rd wr size buf (x :: l) ->
  buf !! Z.to_nat rd = Some x /\ ring_rep cap ((rd + 1) mod cap) wr (size - 1) buf l.
Proof.
  intros [Hc Hrd Hs Hf Hw Hd]. simpl in Hs. split.
  - specialize (Hd 0%nat x eq_refl). rewrite Z.add_0_r, Z.mod_small in Hd by done. done.
  - constructor; [done| |lia|lia| |].
    + apply Z.mod_pos_bound. lia.
    + rewrite Hw, Zplus_mod_idemp_l. f_equal. lia.
    + intros i y Hi. rewrite Zplus_mod_idemp_l.
      rewrite <- (Hd (S i) y Hi). f_equal. f_equal. f_equal. lia.
Qed.
End ring.
