(* ===== verification/Pipe.v ===== *)
(** * Pipe: in-kernel byte pipes (src/filesystem/pipe.c)

    The buffer is one page of memory ([pman_context_add_alloc] rounds the 1024
    bytes up), of which the pipe means to use the first 1024 bytes.  Reading
    past the page has no meaning. *)
From S2P Require Import Prelude Ring.

Definition PIPE_BUFFER_SIZE : Z := 1024.

Record pipe_t := Pipe { start : Z; psize : Z; buffer : list Z }.

(** [pipe_init], given the contents of the fresh page. *)
Definition pipe_init (page : list Z) : pipe_t := Pipe 0 0 page.

Definition pipe_push (c : Z) : M pipe_t bool :=
  let! p := get in
  if psize p =? PIPE_BUFFER_SIZE then ret false
  else
    let i := u64 (start p + psize p) mod PIPE_BUFFER_SIZE in
    do! guard_or Undefined (i <? Z.of_nat (length (buffer p)));
    do! put (Pipe (start p) (psize p + 1) (<[Z.to_nat i := c]> (buffer p)));
    ret true.

Definition pipe_pop : M pipe_t (option Z) :=
  let! p := get in
  if psize p =? 0 then ret None
  else
    let! c := of_option Undefined (buffer p !! Z.to_nat (start p)) in
    do! put (Pipe (u64 (start p + 1)) (u64 (psize p - 1)) (buffer p));
    ret (Some c).

(** The bytes stored to [data]; [*read] is their number. *)
Fixpoint pipe_read (n : nat) : M pipe_t (list Z) :=
  match n with
  | O => ret []
  | S n' =>
      let! o := pipe_pop in
      match o with
      | None => ret []
      | Some c => let! cs := pipe_read n' in ret (c :: cs)
      end
  end.

(** The number of bytes accepted, [*wrote]. *)
Fixpoint pipe_write (data : list Z) : M pipe_t Z :=
  match data with
  | [] => ret 0
  | c :: data' =>
      let! ok := pipe_push c in
      if ok then let! n := pipe_write data' in ret (n + 1) else ret 0
  end.

(** ** The queue a pipe is meant to be *)

Inductive pipe_op := PWrite (data : list Z) | PRead (n : nat).

(** A result of an operation: bytes accepted, or the bytes read. *)
Inductive pipe_result := Wrote (n : Z) | GotBytes (l : list Z).

Definition run_pipe_op (o : pipe_op) : M pipe_t pipe_result :=
  match o with
  | PWrite data => let! n := pipe_write data in ret (Wrote n)
  | PRead n => let! l := pipe_read n in ret (GotBytes l)
  end.
Fixpoint run_pipe (os : list pipe_op) : M pipe_t (list pipe_result) :=
  match os with
  | [] => ret []
  | o :: os' => let! r := run_pipe_op o in let! rs := run_pipe os' in ret (r :: rs)
  end.

Definition queue_op (q : list Z) (o : pipe_op) : pipe_result * list Z :=
  match o with
  | PWrite data =>
      let room := (Z.to_nat PIPE_BUFFER_SIZE - length q)%nat in
      (Wrote (Z.of_nat (length (take room data))), q ++ take room data)
  | PRead n => (GotBytes (take n q), drop n q)
  end.
Fixpoint run_queue (q : list Z) (os : list pipe_op) : list pipe_result * list Z :=
  match os with
  | [] => ([], q)
  | o :: os' =>
      let '(r, q1) := queue_op q o in
      let '(rs, q2) := run_queue q1 os' in (r :: rs, q2)
  end.

Definition bytes_read (rs : list pipe_result) : Z :=
  foldr (fun r n => match r with GotBytes l => Z.of_nat (length l) + n | Wrote _ => n end) 0 rs.

(** The pipe holds [q] and has not yet reached the end of its buffer. *)
Definition pipe_rep (p : pipe_t) (q : list Z) : Prop :=
  0 <= start p <= PIPE_BUFFER_SIZE /\
  exists wr, ring_rep PIPE_BUFFER_SIZE (start p mod PIPE_BUFFER_SIZE) wr (psize p) (buffer p) q.

Lemma pipe_push_spec p q c : pipe_rep p q ->
  exists p', pipe_push c p = Done (bool_decide (Z.of_nat (length q) < PIPE_BUFFER_SIZE), p') /\
    start p' = start p /\ drop 1024 (buffer p') = drop 1024 (buffer p) /\
    pipe_rep p' (if bool_decide (Z.of_nat (length q) < PIPE_BUFFER_SIZE) then q ++ [c] else q).
Proof.
  intros (Hst & wr & Hr). pose proof (ring_size _ _ _ _ _ _ Hr) as Hs.
  pose proof (ring_full _ _ _ _ _ _ Hr) as Hf. pose proof (ring_cap _ _ _ _ _ _ Hr) as Hc.
  pose proof (ring_wr _ _ _ _ _ _ Hr) as Hw. pose proof (ring_wr_range _ _ _ _ _ _ Hr) as Hwr.
  unfold pipe_push. rewrite (bind_done _ _ _ p p eq_refl).
  destruct (Z.eqb_spec (psize p) PIPE_BUFFER_SIZE) as [E|E].
  - rewrite bool_decide_false by lia. exists p. split_and!; [done|done|done|by split; [|exists wr]].
  - rewrite bool_decide_true by lia.
    assert (u64 (start p + psize p) mod PIPE_BUFFER_SIZE = wr) as ->.
    { rewrite u64_small by (unfold PIPE_BUFFER_SIZE in *; lia). by rewrite Hw, Zplus_mod_idemp_l. }
    unfold guard_or. rewrite (proj2 (Z.ltb_lt wr _)) by lia.
    eexists. split; [reflexivity|]. simpl.
    split_and!; [done|apply drop_insert_lt; unfold PIPE_BUFFER_SIZE in *; lia|]. split; [done|].
    exists ((wr + 1) mod PIPE_BUFFER_SIZE). apply ring_push; [done|lia].
Qed.

Lemma pipe_write_spec data p q : pipe_rep p q ->
  exists p', let room := (Z.to_nat PIPE_BUFFER_SIZE - length q)%nat in
    pipe_write data p = Done (Z.of_nat (length (take room data)), p') /\
    start p' = start p /\ drop 1024 (buffer p') = drop 1024 (buffer p) /\ pipe_rep p' (q ++ take room data).
Proof.
  revert p q. induction data as [|c data IH]; intros p q Hr; simpl.
  { exists p. rewrite take_nil, app_nil_r. done. }
  destruct (pipe_push_spec p q c Hr) as (p1 & Hp & Hs1 & Hl1 & Hr1).
  rewrite (bind_done _ _ _ _ _ Hp). case_bool_decide as Hlt.
  - destruct (IH p1 _ Hr1) as (p2 & Hw & Hs2 & Hl2 & Hr2). rewrite (bind_done _ _ _ _ _ Hw).
    exists p2. rewrite length_app in *. simpl length in *.
    destruct (Z.to_nat PIPE_BUFFER_SIZE - length q)%nat as [|room] eqn:Er; [lia|].
    replace (Z.to_nat PIPE_BUFFER_SIZE - (length q + 1))%nat with room in * by lia.
    simpl. rewrite <- app_assoc in Hr2. split_and!; [|congruence|congruence|done].
    unfold ret. do 2 f_equal. lia.
  - replace (Z.to_nat PIPE_BUFFER_SIZE - length q)%nat with 0%nat by lia.
    exists p1. simpl. by rewrite app_nil_r.
Qed.

Lemma pipe_read_spec n p q : pipe_rep p q -> start p + Z.of_nat (length (take n q)) <= PIPE_BUFFER_SIZE ->
  exists p', pipe_read n p = Done (take n q, p') /\
    start p' = start p + Z.of_nat (length (take n q)) /\ buffer p' = buffer p /\ pipe_rep p' (drop n q).
Proof.
  revert p q. induction n as [|n IH]; intros p q Hr Hlim; simpl.
  { exists p. simpl. rewrite Z.add_0_r. done. }
  pose proof Hr as (Hst & wr & Hrr). pose proof (ring_size _ _ _ _ _ _ Hrr) as Hs.
  unfold pipe_pop. rewrite bind_assoc, (bind_done _ _ _ p p eq_refl).
  destruct q as [|c q]; simpl in *.
  { rewrite Hs. simpl. exists p. rewrite Z.add_0_r. done. }
  destruct (Z.eqb_spec (psize p) 0); [lia|].
  assert (start p < PIPE_BUFFER_SIZE) as Hlt by lia.
  pose proof (ring_pop _ _ _ _ _ _ _ Hrr) as [Hc Hr'].
  pose proof (ring_full _ _ _ _ _ _ Hrr) as Hf.
  rewrite (Z.mod_small (start p)) in * by lia. rewrite bind_assoc.
  unfold of_option. rewrite Hc. unfold bind at 1. rewrite bind_assoc.
  rewrite (bind_done (put _) _ p tt _ eq_refl), bind_ret_l.
  rewrite (u64_small (start p + 1)), (u64_small (psize p - 1)) by (unfold PIPE_BUFFER_SIZE in *; lia).
  destruct (IH (Pipe (start p + 1) (psize p - 1) (buffer p)) q) as (p2 & Hrd & Hs2 & Hb2 & Hr2).
  - split; [simpl; lia|]. exists wr. exact Hr'.
  - simpl. lia.
  - rewrite (bind_done _ _ _ _ _ Hrd). exists p2.
    split_and!; [done|rewrite Hs2; cbn [Pipe.start length]; lia|done|done].
Qed.

Lemma run_pipe_write data n os rs p p1 p2 : pipe_write data p = Done (n, p1) ->
  run_pipe os p1 = Done (rs, p2) -> run_pipe (PWrite data :: os) p = Done (Wrote n :: rs, p2).
Proof.
  intros Hw Hr. simpl. rewrite bind_assoc, (bind_done _ _ _ _ _ Hw), bind_ret_l.
  by rewrite (bind_done _ _ _ _ _ Hr).
Qed.
Lemma run_pipe_read n l os rs p p1 p2 : pipe_read n p = Done (l, p1) ->
  run_pipe os p1 = Done (rs, p2) -> run_pipe (PRead n :: os) p = Done (GotBytes l :: rs, p2).
Proof.
  intros Hw Hr. unfold run_pipe; fold run_pipe. unfold run_pipe_op.
  rewrite bind_assoc, (bind_done _ _ _ _ _ Hw), bind_ret_l. by rewrite (bind_done _ _ _ _ _ Hr).
Qed.

(** C38: as long as no more than 1024 bytes have been taken out of it, a pipe
    is a bounded FIFO queue: every sequence of writes and reads accepts and
    returns exactly what the queue does, without leaving the buffer. *)
Theorem pipe_refines_queue page os
  (Hp : PIPE_BUFFER_SIZE <= Z.of_nat (length page))
  (Hlim : bytes_read (run_queue [] os).1 <= PIPE_BUFFER_SIZE) :
  exists p', run_pipe os (pipe_init page) = Done ((run_queue [] os).1, p') /\
    pipe_rep p' (run_queue [] os).2.
Proof.
  assert (pipe_rep (pipe_init page) []) as Hr.
  { split; [done|]. exists 0. by apply ring_empty. }
  assert (start (pipe_init page) + bytes_read (run_queue [] os).1 <= PIPE_BUFFER_SIZE) as Hl by done.
  clear Hp Hlim. revert Hr Hl. generalize (pipe_init page) as p, (@nil Z) as q.
  induction os as [|o os IH]; intros p q Hr Hl; simpl in *; [by exists p|].
  destruct (queue_op q o) as [r q1] eqn:Eq. destruct (run_queue q1 os) as [rs q2] eqn:Er.
  simpl in Hl. specialize (IH) with (q := q1). rewrite Er in IH. simpl in IH.
  assert (0 <= bytes_read rs) as Hnn.
  { clear. induction rs as [|[]]; simpl; lia. }
  destruct o as [data|n]; simpl in Eq; injection Eq as <- <-.
  - destruct (pipe_write_spec data p q Hr) as (p1 & Hw & Hs1 & _ & Hr1).
    simpl in Hl. destruct (IH p1 Hr1 ltac:(lia)) as (p2 & Hp2 & Hr2). exists p2.
    split; [by eapply run_pipe_write|done].
  - simpl in Hl. destruct (pipe_read_spec n p q Hr ltac:(lia)) as (p1 & Hw & Hs1 & _ & Hr1).
    destruct (IH p1 Hr1 ltac:(lia)) as (p2 & Hp2 & Hr2). exists p2.
    split; [by eapply run_pipe_read|done].
Qed.

(** [pipe_pop] never wraps [start].  After 1024 bytes went through, a
    byte written next is stored at the beginning of the buffer but the next
    read returns whatever the page holds at offset 1024. *)
Theorem pipe_wrap_loses_data page xs d c
  (Hx : Z.of_nat (length xs) = PIPE_BUFFER_SIZE)
  (Hc : page !! Z.to_nat PIPE_BUFFER_SIZE = Some c) :
  exists p', run_pipe [PWrite xs; PRead 1024; PWrite [d]; PRead 1] (pipe_init page)
    = Done ([Wrote 1024; GotBytes xs; Wrote 1; GotBytes [c]], p').
Proof.
  assert (length xs = 1024%nat) as Hx' by (unfold PIPE_BUFFER_SIZE in *; lia).
  pose proof (lookup_lt_Some _ _ _ Hc) as Hlen.
  assert (pipe_rep (pipe_init page) []) as Hr.
  { split; [done|]. exists 0. apply ring_empty; [unfold PIPE_BUFFER_SIZE in *; simpl; lia|done]. }
  destruct (pipe_write_spec xs _ _ Hr) as (p1 & Hw & Hs1 & Hd1 & Hr1). simpl app in *.
  change (Z.to_nat PIPE_BUFFER_SIZE - length [])%nat with 1024%nat in *.
  rewrite take_ge in * by lia. simpl in Hs1, Hd1.
  destruct (pipe_read_spec 1024 p1 xs Hr1) as (p2 & Hrd & Hs2 & Hb2 & Hr2);
    [rewrite take_ge, Hs1 by lia; unfold PIPE_BUFFER_SIZE; lia|].
  rewrite take_ge, drop_ge in * by lia. rewrite Hs1, Hx' in Hs2. simpl in Hs2.
  destruct (pipe_push_spec p2 [] d Hr2) as (p3 & Hp3 & Hs3 & Hd3 & _).
  assert (psize p3 = 1 /\ buffer p3 !! 1024%nat = Some c) as [Hsz3 Hc3].
  { split.
    - destruct Hr2 as (_ & wr & Hrr). pose proof (ring_size _ _ _ _ _ _ Hrr) as Hz. simpl in Hz.
      revert Hp3. unfold pipe_push. rewrite (bind_done _ _ _ p2 p2 eq_refl), Hz.
      unfold bind, guard_or, ret. simpl. destruct (_ <? _); [|done]. by intros [= <-].
    - change 1024%nat with (1024 + 0)%nat. rewrite <- lookup_drop, Hd3, Hb2, Hd1.
      by rewrite lookup_drop. }
  rewrite bool_decide_true in Hp3 by done.
  assert (pipe_write [d] p2 = Done (1, p3)) as Hw3 by (simpl; by rewrite (bind_done _ _ _ _ _ Hp3)).
  assert (exists p4, pipe_read 1 p3 = Done ([c], p4)) as [p4 Hrd4].
  { simpl. unfold pipe_pop. rewrite bind_assoc, (bind_done _ _ _ p3 p3 eq_refl), Hsz3. simpl Z.eqb.
    cbv iota. unfold bind, of_option. assert (Z.to_nat (start p3) = 1024%nat) as -> by lia.
    rewrite Hc3. by eexists. }
  exists p4. rewrite Hx' in Hw.
  eapply run_pipe_write; [exact Hw|]. eapply run_pipe_read; [exact Hrd|].
  eapply run_pipe_write; [exact Hw3|]. by eapply run_pipe_read.
Qed.

Definition demo_page : list Z := replicate 4096 0.

Lemma pipe_refines_queue_witness : exists p',
  run_pipe [PWrite [1; 2; 3]; PRead 2; PWrite [4]; PRead 9] (pipe_init demo_page) =
    Done ([Wrote 3; GotBytes [1; 2]; Wrote 1; GotBytes [3; 4]], p').
Proof.
  destruct (pipe_refines_queue demo_page [PWrite [1; 2; 3]; PRead 2; PWrite [4]; PRead 9])
    as (p' & Hr & _); [vm_compute; congruence..|].
  exists p'. exact Hr.
Defined.

Lemma pipe_wrap_loses_data_witness : exists p',
  run_pipe [PWrite (replicate 1024 7); PRead 1024; PWrite [65]; PRead 1] (pipe_init demo_page)
    = Done ([Wrote 1024; GotBytes (replicate 1024 7); Wrote 1; GotBytes [0]], p').
Proof. by apply (pipe_wrap_loses_data demo_page (replicate 1024 7) 65 0). Defined.
