(* ===== verification/Sched.v ===== *)
(** * Sched: threads, events and the scheduler
      (src/process/thread.c, src/scheduler/scheduler.c, src/scheduler/event.c)

    The run queues are intrusive lists through the threads themselves; they
    are modelled at the level of the links (Dll.v), so a thread that is queued
    twice or unlinked while it is on no queue does what the pointers do.
    Waiters are separate heap objects, kept in each event's list.  Saving and
    restoring registers and switching address spaces is in Interrupts.v;
    [scheduler_yield] returns the thread it resumes, or [None] when it waits
    for an interrupt. *)
From S2P Require Import Prelude Dll.

Inductive thread_level_t := TL_USER | TL_KERNEL.
Inductive thread_state_t :=
  | TS_RUNNING | TS_STOPPED | TS_WAITING | TS_UNINTERRUPTABLE_WAIT
  | TS_INTERRUPTABLE_WAIT | TS_INTERRUPTED | TS_DEAD.
Inductive thread_priority_t := TP_CRITICAL | TP_HIGH | TP_MEDIUM | TP_LOW.

#[export] Instance thread_state_eq_dec : EqDecision thread_state_t.
Proof. solve_decision. Defined.
#[export] Instance thread_priority_eq_dec : EqDecision thread_priority_t.
Proof. solve_decision. Defined.
#[export] Instance thread_level_eq_dec : EqDecision thread_level_t.
Proof. solve_decision. Defined.

Record thread_t := Thread {
  process : option Z;
  level : thread_level_t;
  state : thread_state_t;
  priority : thread_priority_t;
  twin_thread : option Z;
  waiter : option Z;
  event : option Z
}.
(** A waiter is a heap object that points to its thread. *)
Record event_t := Event { has_signal : bool; waiters : list (Z * Z) }.

Record sched := Sched {
  threads : gmap Z thread_t;
  slinks : links;
  events : gmap Z event_t;
  current_thread : option Z;       (* cores[0].current_thread *)
  next_waiter : Z                  (* the address of the next waiter object *)
}.

Definition set_state (st : thread_state_t) (t : thread_t) :=
  Thread (process t) (level t) st (priority t) (twin_thread t) (waiter t) (event t).
Definition set_process (p : option Z) (t : thread_t) :=
  Thread p (level t) (state t) (priority t) (twin_thread t) (waiter t) (event t).
Definition set_twin (w : option Z) (t : thread_t) :=
  Thread (process t) (level t) (state t) (priority t) w (waiter t) (event t).
Definition set_wait (w e : option Z) (t : thread_t) :=
  Thread (process t) (level t) (state t) (priority t) (twin_thread t) w e.

Definition set_threads (m : gmap Z thread_t) (s : sched) :=
  Sched m (slinks s) (events s) (current_thread s) (next_waiter s).
Definition set_links (m : links) (s : sched) :=
  Sched (threads s) m (events s) (current_thread s) (next_waiter s).
Definition set_events (m : gmap Z event_t) (s : sched) :=
  Sched (threads s) (slinks s) m (current_thread s) (next_waiter s).
Definition set_current (c : option Z) (s : sched) :=
  Sched (threads s) (slinks s) (events s) c (next_waiter s).

(** Dereferencing a thread or an event that is not there has no meaning. *)
Definition get_thread (t : Z) : M sched thread_t :=
  fun s => match threads s !! t with Some th => Done (th, s) | None => Stop Undefined end.
Definition upd_thread (t : Z) (f : thread_t -> thread_t) : M sched unit :=
  fun s => match threads s !! t with
           | Some th => Done (tt, set_threads (<[t := f th]> (threads s)) s)
           | None => Stop Undefined
           end.
Definition get_event (e : Z) : M sched event_t :=
  fun s => match events s !! e with Some ev => Done (ev, s) | None => Stop Undefined end.
Definition put_event (e : Z) (ev : event_t) : M sched unit :=
  modify (fun s => set_events (<[e := ev]> (events s)) s).
Definition on_links {A} (m : M links A) : M sched A := zoom slinks set_links m.

(** ** Run queues: sentinels of [scheduler_queues[p]] *)

Definition all_priorities : list thread_priority_t := [TP_CRITICAL; TP_HIGH; TP_MEDIUM; TP_LOW].
Definition queue_head (p : thread_priority_t) : Z :=
  match p with TP_CRITICAL => -1 | TP_HIGH => -3 | TP_MEDIUM => -5 | TP_LOW => -7 end.
Definition queue_tail (p : thread_priority_t) : Z :=
  match p with TP_CRITICAL => -2 | TP_HIGH => -4 | TP_MEDIUM => -6 | TP_LOW => -8 end.

Definition scheduler_init : M sched unit :=
  for_each all_priorities (fun p => on_links (dll_init (queue_head p) (queue_tail p))).

Definition runnable_for_queue (st : thread_state_t) : bool :=
  match st with TS_RUNNING | TS_DEAD => true | _ => false end.

Definition scheduler_queue (t : Z) : M sched unit :=
  let! th := get_thread t in
  if runnable_for_queue (state th) then on_links (dll_push_back (queue_tail (priority th)) t)
  else ret tt.

(** ** thread.c *)

(** A fresh thread object at address [a]. *)
Definition new_thread (a : Z) (th : thread_t) : M sched unit :=
  modify (fun s => set_links (<[a := Link NULL NULL]> (slinks s))
                     (set_threads (<[a := th]> (threads s)) s)).
Definition thread_create_kernel (a : Z) : M sched unit :=
  new_thread a (Thread None TL_KERNEL TS_STOPPED TP_MEDIUM None None None).
(** [a] and [k]: the addresses of the thread and of its kernel twin. *)
Definition thread_create_user (a k parent : Z) : M sched unit :=
  do! thread_create_kernel k;
  do! upd_thread k (fun th => set_process (Some parent) (set_twin (Some a) th));
  new_thread a (Thread (Some parent) TL_USER TS_STOPPED TP_MEDIUM (Some k) None None).

(** The fork of a thread starts stopped, with a kernel twin of its own. *)
Definition thread_create_fork (a k parent : Z) : M sched unit :=
  do! thread_create_kernel k;
  do! upd_thread k (fun th => set_process (Some parent) (set_twin (Some a) th));
  new_thread a (Thread (Some parent) TL_USER TS_STOPPED TP_MEDIUM (Some k) None None).

Definition thread_run (t : Z) : M sched unit :=
  let! th := get_thread t in
  match state th with
  | TS_RUNNING => ret tt
  | _ => do! upd_thread t (set_state TS_RUNNING); scheduler_queue t
  end.

Definition thread_kill (t : Z) : M sched unit :=
  let! th := get_thread t in
  do! (match state th with TS_RUNNING => ret tt | _ => scheduler_queue t end);
  upd_thread t (set_state TS_DEAD).

(** [waiter_free]: unlink the waiter from whichever list it is on. *)
Definition is_waiter (w : Z) (x : Z * Z) : bool := Z.eqb w x.1.
Definition has_waiter (w : Z) (ev : event_t) : bool := existsb (is_waiter w) (waiters ev).
Definition drop_waiter (w : Z) (ev : event_t) : event_t :=
  Event (has_signal ev) (remove_first (is_waiter w) (waiters ev)).
Definition waiter_free (w : Z) : M sched unit :=
  let! s := get in
  do! guard_or Undefined (existsb (fun kv => has_waiter w kv.2) (map_to_list (events s)));
  modify (fun s => set_events (drop_waiter w <$> events s) s).

Definition free_thread_object (t : Z) : M sched unit :=
  modify (fun s => set_links (delete t (slinks s)) (set_threads (delete t (threads s)) s)).
Definition thread_free_one (t : Z) : M sched unit :=
  let! th := get_thread t in
  do! (match state th with
       | TS_UNINTERRUPTABLE_WAIT => let! w := of_option Undefined (waiter th) in waiter_free w
       | _ => ret tt
       end);
  free_thread_object t.
(** The recursion on the twin is one level deep: the twin's own twin pointer
    is cleared first. *)
Definition thread_free (t : Z) : M sched unit :=
  let! th := get_thread t in
  do! (match twin_thread th with
       | Some k => do! upd_thread k (set_twin None); thread_free_one k
       | None => ret tt
       end);
  thread_free_one t.

Definition thread_interrupt (t : Z) : M sched code :=
  let! th := get_thread t in
  match state th with
  | TS_UNINTERRUPTABLE_WAIT => ret (Err ERROR_UNINTERRUPTABLE)
  | TS_INTERRUPTABLE_WAIT =>
      let! w := of_option Undefined (waiter th) in
      do! waiter_free w;
      do! upd_thread t (set_wait None None);
      let! th' := get_thread t in
      let! k := of_option Undefined (twin_thread th') in
      do! upd_thread k (set_wait None None);
      do! upd_thread t (set_state TS_INTERRUPTED);
      do! scheduler_queue t;
      ret (Num 0)
  | _ => ret (Num 0)
  end.

(** ** event.c *)

Definition event_init (e : Z) : M sched unit := put_event e (Event false []).
Definition event_free (e : Z) : M sched unit :=
  modify (fun s => set_events (delete e (events s)) s).

Definition event_invoke (e : Z) : M sched unit :=
  let! ev := get_event e in
  match waiters ev with
  | (w, t) :: _ =>
      do! waiter_free w;
      do! upd_thread t (set_wait None None);
      thread_run t
  | [] => put_event e (Event true [])
  end.

(** ** scheduler.c *)

(** [thread->prev->next = thread->next; thread->next->prev = thread->prev;] *)
Definition queue_remove (n : Z) : M links unit :=
  let! pv := read_prev n in
  let! nx := read_next n in
  do! write_next pv nx;
  let! nx' := read_next n in
  let! pv' := read_prev n in
  write_prev nx' pv'.

(** The inner [while]: dequeue until a thread can run. *)
Fixpoint yield_queue (fuel : nat) (p : thread_priority_t) : M sched (option Z) :=
  match fuel with
  | O => stop_with NoFuel
  | S fuel' =>
      let! t := on_links (read_next (queue_head p)) in
      if t =? queue_tail p then ret None
      else
        do! on_links (queue_remove t);
        let! th := get_thread t in
        match state th with
        | TS_RUNNING | TS_INTERRUPTED =>
            do! modify (set_current (Some t));
            ret (Some t)
        | TS_DEAD => do! thread_free t; yield_queue fuel' p
        | _ => yield_queue fuel' p
        end
  end.
Fixpoint yield_queues (ps : list thread_priority_t) : M sched (option Z) :=
  match ps with
  | [] => ret None
  | p :: ps' =>
      let! s := get in
      let! o := yield_queue (S (size (slinks s))) p in
      match o with Some t => ret (Some t) | None => yield_queues ps' end
  end.
Definition scheduler_yield : M sched (option Z) :=
  let! s := get in
  do! (match current_thread s with
       | Some t => do! scheduler_queue t; modify (set_current None)
       | None => ret tt
       end);
  yield_queues all_priorities.

(** Await: [None] when a latched signal is consumed, otherwise the thread
    blocks and the scheduler switches to [Some r]. *)
Definition await_with (st : thread_state_t) (unlink : bool) (e : Z) : M sched (option (option Z)) :=
  let! ev := get_event e in
  if has_signal ev then do! put_event e (Event false (waiters ev)); ret None
  else
    let! s := get in
    let! t := of_option Undefined (current_thread s) in
    do! upd_thread t (set_state st);
    let w := next_waiter s in
    do! modify (fun s => Sched (threads s) (slinks s)
                  (<[e := Event false (waiters ev ++ [(w, t)])]> (events s)) (current_thread s) (w + 1));
    do! (if unlink then on_links (dll_unlink t) else ret tt);
    do! upd_thread t (set_wait (Some w) (Some e));
    let! r := scheduler_yield in
    ret (Some r).
Definition scheduler_await : Z -> M sched (option (option Z)) :=
  await_with TS_UNINTERRUPTABLE_WAIT false.
Definition scheduler_await_interruptable : Z -> M sched (option (option Z)) :=
  await_with TS_INTERRUPTABLE_WAIT true.

Definition scheduler_start_twin : M sched unit :=
  let! s := get in
  let! t := of_option Undefined (current_thread s) in
  do! upd_thread t (set_state TS_WAITING);
  let! th := get_thread t in
  let! k := of_option Undefined (twin_thread th) in
  do! modify (set_current None);
  thread_run k.

Definition scheduler_return_twin : M sched (option Z) :=
  let! s := get in
  let! t := of_option Undefined (current_thread s) in
  do! upd_thread t (set_state TS_STOPPED);
  let! th := get_thread t in
  let! k := of_option Undefined (twin_thread th) in
  do! modify (set_current None);
  let! tk := get_thread k in
  match state tk with
  | TS_DEAD => do! scheduler_queue k; scheduler_yield
  | _ => do! thread_run k; scheduler_yield
  end.

(** ** Queues as lists *)

Abbreviation queues := (thread_priority_t -> list Z).
Definition upd_queue (q : queues) (p : thread_priority_t) (l : list Z) : queues :=
  fun p' => if decide (p' = p) then l else q p'.

Record sched_rep (s : sched) (q : queues) : Prop := {
  sr_dll p : dll (slinks s) (queue_head p) (q p) (queue_tail p);
  sr_threads p t : t ∈ q p -> exists th, threads s !! t = Some th /\ priority th = p;
  sr_nodes t : is_Some (threads s !! t) -> 0 < t /\ is_Some (slinks s !! t)
}.

Definition nodes_of (q : queues) (p : thread_priority_t) : list Z :=
  queue_head p :: q p ++ [queue_tail p].

Lemma sentinels_negative p : queue_head p < 0 /\ queue_tail p < 0.
Proof. by destruct p. Qed.

Lemma queued_positive s q p t : sched_rep s q -> t ∈ q p -> 0 < t.
Proof.
  intros Hr Hin. destruct (sr_threads _ _ Hr p t Hin) as (th & Ht & _).
  by apply (sr_nodes _ _ Hr); rewrite Ht.
Qed.

Lemma nodes_disjoint s q p p' z : sched_rep s q -> p <> p' -> z ∈ nodes_of q p -> z ∉ nodes_of q p'.
Proof.
  intros Hr Hne. unfold nodes_of. rewrite !elem_of_cons, !elem_of_app, !list_elem_of_singleton.
  pose proof (sentinels_negative p). pose proof (sentinels_negative p').
  intros Hz Hz'.
  assert (forall p t, t ∈ q p -> 0 < t) as Hpos by (intros ? ?; by eapply queued_positive).
  destruct Hz as [->|[Hz| ->]], Hz' as [E|[Hz'|E]];
    try (apply Hpos in Hz; lia); try (apply Hpos in Hz'; lia);
    try (by destruct p, p').
  destruct (sr_threads _ _ Hr _ _ Hz) as (th & Ht & Hp).
  destruct (sr_threads _ _ Hr _ _ Hz') as (th' & Ht' & Hp'). congruence.
Qed.

(** Changing the links of one queue only. *)
Lemma sched_rep_links s q p l m' :
  sched_rep s q -> dll m' (queue_head p) l (queue_tail p) ->
  (forall t, t ∈ l -> exists th, threads s !! t = Some th /\ priority th = p) ->
  (forall z, is_Some (slinks s !! z) <-> is_Some (m' !! z)) ->
  (forall p' z, p' <> p -> z ∈ nodes_of q p' ->
     next_of m' z = next_of (slinks s) z /\ prev_of m' z = prev_of (slinks s) z) ->
  sched_rep (set_links m' s) (upd_queue q p l).
Proof.
  intros Hr Hd Hl Hdom Hfr. constructor; simpl.
  - intros p'. unfold upd_queue. case_decide as Hp; [by subst|].
    eapply dll_frame; [apply (sr_dll _ _ Hr p')|by intros z ?%Hdom|intros z Hz; by apply (Hfr p')].
  - intros p' t. unfold upd_queue. case_decide as Hp; [subst; apply Hl|apply (sr_threads _ _ Hr)].
  - intros t Ht%(sr_nodes _ _ Hr). by rewrite <- Hdom.
Qed.

Lemma on_links_done {A} (m : M links A) s a l' : m (slinks s) = Done (a, l') ->
  on_links m s = Done (a, set_links l' s).
Proof. unfold on_links, zoom. by intros ->. Qed.
Lemma get_thread_done s t th : threads s !! t = Some th -> get_thread t s = Done (th, s).
Proof. unfold get_thread. by intros ->. Qed.
Lemma upd_thread_done s t th f : threads s !! t = Some th ->
  upd_thread t f s = Done (tt, set_threads (<[t := f th]> (threads s)) s).
Proof. unfold upd_thread. by intros ->. Qed.

Lemma set_links_id s : set_links (slinks s) s = s.
Proof. by destruct s. Qed.

Lemma scheduler_queue_spec s q t th :
  sched_rep s q -> threads s !! t = Some th -> runnable_for_queue (state th) = true ->
  t ∉ q (priority th) ->
  exists m', scheduler_queue t s = Done (tt, set_links m' s) /\
    sched_rep (set_links m' s) (upd_queue q (priority th) (q (priority th) ++ [t])).
Proof.
  intros Hr Ht Hs Hni. unfold scheduler_queue. rewrite (bind_done _ _ _ _ _ (get_thread_done _ _ _ Ht)).
  rewrite Hs. set (p := priority th) in *.
  destruct (sr_nodes _ _ Hr t) as [Hpos Hdom]; [by rewrite Ht|].
  pose proof (sentinels_negative p).
  destruct (dll_push_back_spec _ _ _ _ t (sr_dll _ _ Hr p) Hdom) as (m' & Hm & Hd & Hdm & Hfr).
  { rewrite elem_of_cons, elem_of_app, list_elem_of_singleton. naive_solver lia. }
  exists m'. split; [by apply on_links_done|].
  apply sched_rep_links; [done|done| |done|].
  - intros z [Hz|Hz]%elem_of_app; [by apply (sr_threads _ _ Hr)|].
    apply list_elem_of_singleton in Hz as ->. eauto.
  - intros p' z Hne Hz. apply Hfr. apply not_elem_of_cons. split.
    + intros ->. unfold nodes_of in Hz.
      rewrite elem_of_cons, elem_of_app, list_elem_of_singleton in Hz.
      pose proof (sentinels_negative p'). destruct Hz as [|[Hz|]]; [lia| |lia].
      destruct (sr_threads _ _ Hr _ _ Hz) as (th' & Ht' & Hp'). subst p. congruence.
    + by eapply nodes_disjoint.
Qed.

Lemma scheduler_queue_reject s t th : threads s !! t = Some th ->
  runnable_for_queue (state th) = false -> scheduler_queue t s = Done (tt, s).
Proof.
  intros Ht Hs. unfold scheduler_queue. rewrite (bind_done _ _ _ _ _ (get_thread_done _ _ _ Ht)).
  by rewrite Hs.
Qed.

(** [queue_remove] writes the same two links as [dll_unlink], in the other
    order. *)
Lemma queue_remove_unlink m n p q : next_of m n = Some q -> prev_of m n = Some p ->
  is_Some (m !! p) -> is_Some (m !! q) -> p <> n -> q <> n -> p <> q ->
  queue_remove n m = dll_unlink n m.
Proof.
  intros Hn Hp [lp Hlp] [lq Hlq] Hpn Hqn Hpq. unfold queue_remove, dll_unlink.
  rewrite (bind_done _ _ _ _ _ (read_prev_done _ _ _ Hp)), !(bind_done _ _ _ _ _ (read_next_done _ _ _ Hn)).
  rewrite (bind_done _ _ _ _ _ (read_prev_done _ _ _ Hp)).
  unfold write_next at 1, write_prev at 2. unfold bind at 1. rewrite Hlp. unfold bind at 3. rewrite Hlq.
  assert (forall l k, k <> n -> next_of (<[k:=l]> m) n = Some q /\ prev_of (<[k:=l]> m) n = Some p) as Hk.
  { intros l k Hk. unfold next_of, prev_of. by rewrite lookup_insert_ne by done. }
  destruct (Hk (Link q (prev lp)) p Hpn) as [H1 H2]. destruct (Hk (Link (next lq) p) q Hqn) as [H3 H4].
  rewrite (bind_done _ _ _ _ _ (read_next_done _ _ _ H1)), (bind_done _ _ _ _ _ (read_prev_done _ _ _ H2)).
  rewrite (bind_done _ _ _ _ _ (read_prev_done _ _ _ H4)), (bind_done _ _ _ _ _ (read_next_done _ _ _ H3)).
  unfold write_next, write_prev. rewrite !lookup_insert_ne by done. rewrite Hlp, Hlq.
  by rewrite insert_insert_ne by done.
Qed.

Lemma upd_queue_same q p l : upd_queue q p l p = l.
Proof. unfold upd_queue. by rewrite decide_True. Qed.

Lemma queue_remove_head s q p t r : sched_rep s q -> q p = t :: r ->
  exists m', queue_remove t (slinks s) = Done (tt, m') /\
    sched_rep (set_links m' s) (upd_queue q p r).
Proof.
  intros Hr Eq. pose proof (sr_dll _ _ Hr p) as Hd. rewrite Eq in Hd.
  destruct (dll_unlink_spec _ _ [] t r _ Hd) as (m' & Hm & Hd' & Hdom & _ & _ & Hfr). simpl in Hd', Hfr.
  assert (exists x l, r ++ [queue_tail p] = x :: l) as (x & l & Ex) by (destruct r; simpl; eauto).
  pose proof Hd as [Hnd Hl]. simpl in Hnd, Hl. rewrite Ex in Hnd, Hl.
  destruct Hl as (Hn1 & Hp1 & Hn2 & Hp2 & Hl).
  exists m'. split.
  - rewrite (queue_remove_unlink _ t (queue_head p) x); [done|done|done|by eapply next_of_dom|by eapply prev_of_dom|..];
      destruct_notin; congruence.
  - apply sched_rep_links; [done|done| |done|].
    + intros z Hz. apply (sr_threads _ _ Hr). rewrite Eq. by right.
    + intros p' z Hne Hz. apply Hfr. pose proof (nodes_disjoint _ _ p' p z Hr Hne Hz) as Hni.
      unfold nodes_of in Hni. by rewrite Eq in Hni.
Qed.

(** ** Freeing threads *)

Definition drop_thread (t : Z) (s : sched) : sched :=
  set_links (delete t (slinks s)) (set_threads (delete t (threads s)) s).

Lemma drop_thread_rep s q t : sched_rep s q -> (forall p, t ∉ q p) -> 0 < t ->
  sched_rep (drop_thread t s) q.
Proof.
  intros Hr Hni Hpos. constructor; simpl.
  - intros p. pose proof (sr_dll _ _ Hr p) as [Hnd Hl]. pose proof (sentinels_negative p).
    assert (forall z, z ∈ queue_head p :: q p ++ [queue_tail p] -> z <> t) as Hne.
    { intros z Hz ->. rewrite elem_of_cons, elem_of_app, list_elem_of_singleton in Hz.
      destruct Hz as [|[Hz|]]; [lia|by apply (Hni p)|lia]. }
    split; [done|]. clear Hnd. revert Hl Hne. generalize (queue_head p :: q p ++ [queue_tail p]).
    intros l. induction l as [|x l IH]; [done|]. destruct l as [|y l]; simpl; intros Hl Hne.
    + rewrite lookup_delete_ne; [done|]. intros ->. by apply (Hne x); [left|].
    + destruct Hl as (H1 & H2 & H3). assert (x <> t) by (apply Hne; by left).
      assert (y <> t) by (apply Hne; right; by left).
      split_and!; [unfold next_of; by rewrite lookup_delete_ne|unfold prev_of; by rewrite lookup_delete_ne|].
      apply IH; [done|]. intros z Hz. apply Hne. by right.
  - intros p z Hz. destruct (sr_threads _ _ Hr p z Hz) as (th & Ht & Hp). exists th.
    rewrite lookup_delete_ne; [done|]. intros ->. by apply (Hni p).
  - intros z Hz. destruct (decide (z = t)) as [->|Hne].
    + rewrite lookup_delete_eq in Hz. by destruct Hz.
    + rewrite lookup_delete_ne in Hz by done. rewrite lookup_delete_ne by done.
      by apply (sr_nodes _ _ Hr).
Qed.

Lemma upd_thread_rep s q t th f : sched_rep s q -> threads s !! t = Some th ->
  priority (f th) = priority th -> sched_rep (set_threads (<[t := f th]> (threads s)) s) q.
Proof.
  intros Hr Ht Hp. constructor; simpl.
  - apply (sr_dll _ _ Hr).
  - intros p z Hz. destruct (sr_threads _ _ Hr p z Hz) as (th' & Hz' & Hp').
    destruct (decide (z = t)) as [->|Hne].
    + exists (f th). rewrite lookup_insert_eq. split; [done|]. congruence.
    + exists th'. by rewrite lookup_insert_ne.
  - intros z Hz. destruct (decide (z = t)) as [->|Hne]; [by apply (sr_nodes _ _ Hr); rewrite Ht|].
    rewrite lookup_insert_ne in Hz by done. by apply (sr_nodes _ _ Hr).
Qed.

(** A dead thread that can be freed: neither it nor its twin is on a queue,
    and the twin is not blocked on an event. *)
Definition freeable (s : sched) (q : queues) (t : Z) : Prop :=
  exists th, threads s !! t = Some th /\ state th = TS_DEAD /\ (forall p, t ∉ q p) /\
    forall k, twin_thread th = Some k ->
      k <> t /\ (forall p, k ∉ q p) /\
      exists thk, threads s !! k = Some thk /\ state thk <> TS_UNINTERRUPTABLE_WAIT.

(** What freeing leaves of the thread table. *)
Definition after_free (s : sched) (t : Z) : gmap Z thread_t :=
  match threads s !! t with
  | Some th => match twin_thread th with
               | Some k => delete t (delete k (threads s))
               | None => delete t (threads s)
               end
  | None => threads s
  end.

Lemma thread_free_one_spec s q t th : sched_rep s q -> threads s !! t = Some th ->
  state th <> TS_UNINTERRUPTABLE_WAIT -> (forall p, t ∉ q p) ->
  thread_free_one t s = Done (tt, drop_thread t s) /\ sched_rep (drop_thread t s) q.
Proof.
  intros Hr Ht Hs Hni. split.
  - unfold thread_free_one. rewrite (bind_done _ _ _ _ _ (get_thread_done _ _ _ Ht)).
    by destruct (state th).
  - apply drop_thread_rep; [done|done|]. by apply (sr_nodes _ _ Hr); rewrite Ht.
Qed.

Lemma thread_free_spec s q t : sched_rep s q -> freeable s q t ->
  exists s', thread_free t s = Done (tt, s') /\ sched_rep s' q /\
    threads s' = after_free s t /\ events s' = events s /\ current_thread s' = current_thread s.
Proof.
  intros Hr (th & Ht & Hs & Hni & Htw). unfold thread_free, after_free.
  rewrite (bind_done _ _ _ _ _ (get_thread_done _ _ _ Ht)), Ht.
  destruct (twin_thread th) as [k|] eqn:Ek.
  - destruct (Htw k eq_refl) as (Hkt & Hkq & thk & Hk & Hks). rewrite bind_assoc.
    rewrite (bind_done _ _ _ _ _ (upd_thread_done _ _ _ (set_twin None) Hk)).
    set (s1 := set_threads _ s).
    assert (sched_rep s1 q) as Hr1 by (by apply upd_thread_rep).
    assert (threads s1 !! k = Some (set_twin None thk)) as Hk1 by (apply lookup_insert_eq).
    destruct (thread_free_one_spec s1 q k _ Hr1 Hk1 Hks Hkq) as [Hf Hr2].
    rewrite (bind_done _ _ _ _ _ Hf).
    assert (threads (drop_thread k s1) !! t = Some th) as Ht2.
    { simpl. rewrite lookup_delete_ne, lookup_insert_ne by done. done. }
    destruct (thread_free_one_spec _ q t _ Hr2 Ht2 ltac:(by rewrite Hs) Hni) as [Hf2 Hr3].
    rewrite Hf2. eexists. split; [reflexivity|]. split; [done|]. split_and!; [|done|done].
    simpl. by rewrite delete_insert_eq.
  - rewrite bind_ret_l. destruct (thread_free_one_spec s q t _ Hr Ht ltac:(by rewrite Hs) Hni) as [Hf2 Hr3].
    rewrite Hf2. eexists. split; [reflexivity|]. done.
Qed.

(** ** scheduler_yield *)

Definition can_resume (st : thread_state_t) : bool :=
  match st with TS_RUNNING | TS_INTERRUPTED => true | _ => false end.
Definition state_of (s : sched) (t : Z) : option thread_state_t := state <$> threads s !! t.
Definition resumable (s : sched) (t : Z) : bool :=
  match state_of s t with Some st => can_resume st | None => false end.

(** Twins point at each other, and the twin of a dead queued thread is neither
    queued nor blocked. *)
Definition twins_ok (s : sched) (q : queues) : Prop :=
  (forall t th k, threads s !! t = Some th -> twin_thread th = Some k ->
     k <> t /\ exists thk, threads s !! k = Some thk /\ twin_thread thk = Some t) /\
  (forall p t th k, t ∈ q p -> threads s !! t = Some th -> state th = TS_DEAD ->
     twin_thread th = Some k ->
     (forall p', k ∉ q p') /\ state_of s k <> Some TS_UNINTERRUPTABLE_WAIT).

Lemma upd_queue_sub q p l : (forall t, t ∈ l -> t ∈ q p) -> forall p' t, t ∈ upd_queue q p l p' -> t ∈ q p'.
Proof. intros Hl p' t. unfold upd_queue. case_decide; [subst; apply Hl|done]. Qed.

Lemma twins_ok_sub s s' q q' : twins_ok s q -> threads s' = threads s ->
  (forall p t, t ∈ q' p -> t ∈ q p) -> twins_ok s' q'.
Proof.
  intros [H1 H2] Eth Hsub. split; unfold state_of in *; rewrite Eth; [done|].
  intros p t th k Hin Ht Hd Hk. destruct (H2 p t th k (Hsub _ _ Hin) Ht Hd Hk) as [H3 H4].
  split; [|done]. intros p' Hk'. by apply (H3 p'), Hsub.
Qed.

Lemma after_free_lookup s t th z : threads s !! t = Some th ->
  after_free s t !! z = if decide (z = t \/ twin_thread th = Some z) then None else threads s !! z.
Proof.
  intros Ht. unfold after_free. rewrite Ht.
  destruct (twin_thread th) as [k|]; rewrite !lookup_delete; repeat case_decide; naive_solver.
Qed.

Lemma twins_ok_free s s' q t th : twins_ok s q -> threads s !! t = Some th ->
  threads s' = after_free s t -> twins_ok s' q.
Proof.
  intros [H1 H2] Ht Eth.
  assert (forall z thz, threads s' !! z = Some thz -> threads s !! z = Some thz /\
    z <> t /\ twin_thread th <> Some z) as Hsub.
  { intros z thz. rewrite Eth, (after_free_lookup _ _ _ _ Ht). case_decide; [done|]. naive_solver. }
  split.
  - intros z thz k Hz Hk. apply Hsub in Hz as (Hz & Hzt & Hztw).
    destruct (H1 z thz k Hz Hk) as (Hne & thk & Hthk & Hback). split; [done|]. exists thk.
    split; [|done]. rewrite Eth, (after_free_lookup _ _ _ _ Ht). rewrite decide_False; [done|].
    intros [->|Htw].
    + rewrite Ht in Hthk. injection Hthk as <-. by rewrite Hback in Hztw.
    + destruct (H1 t th k Ht Htw) as (_ & thk' & Hthk' & Hback'). congruence.
  - intros p z thz k Hin Hz Hd Hk. apply Hsub in Hz as (Hz & _ & _).
    destruct (H2 p z thz k Hin Hz Hd Hk) as [H3 H4]. split; [done|].
    unfold state_of. rewrite Eth, (after_free_lookup _ _ _ _ Ht). by case_decide.
Qed.

Lemma sched_rep_ext s q q' : (forall p, q p = q' p) -> sched_rep s q -> sched_rep s q'.
Proof.
  intros E [H1 H2 H3]. constructor; [intros p; rewrite <- E; apply H1| |done].
  intros p t. rewrite <- E. apply H2.
Qed.

Lemma queued_once s q p t r : sched_rep s q -> q p = t :: r -> forall p', t ∉ upd_queue q p r p'.
Proof.
  intros Hr Eq p'. unfold upd_queue. case_decide as Hp.
  - subst. pose proof (sr_dll _ _ Hr p) as [Hnd _]. rewrite Eq in Hnd. simpl in Hnd.
    destruct_notin. done.
  - intros Hin. assert (t ∈ nodes_of q p) as Ht by (unfold nodes_of; rewrite Eq; set_solver).
    apply (nodes_disjoint _ _ p p' t Hr ltac:(congruence) Ht). unfold nodes_of. set_solver.
Qed.

(** What dispatching from one queue keeps of the rest of the state. *)
Definition dispatch_frame (s s' : sched) (q : queues) : Prop :=
  events s' = events s /\ (forall p t, t ∈ q p -> threads s' !! t = threads s !! t).

Lemma yield_queue_spec l : forall fuel p s q, q p = l -> (length l < fuel)%nat ->
  sched_rep s q -> twins_ok s q ->
  match split_first (resumable s) l with
  | Some (_, t, r) => exists s', yield_queue fuel p s = Done (Some t, s') /\
      sched_rep s' (upd_queue q p r) /\ twins_ok s' (upd_queue q p r) /\
      current_thread s' = Some t /\ threads s' !! t = threads s !! t /\
      dispatch_frame s s' (upd_queue q p r)
  | None => exists s', yield_queue fuel p s = Done (None, s') /\
      sched_rep s' (upd_queue q p []) /\ twins_ok s' (upd_queue q p []) /\
      current_thread s' = current_thread s /\ dispatch_frame s s' (upd_queue q p [])
  end.
Proof.
  induction l as [|t l IH]; intros fuel p s q Eq Hf Hr Htw;
    (destruct fuel as [|fuel]; simpl in Hf; [lia|]); simpl yield_queue.
  - pose proof (sr_dll _ _ Hr p) as [_ Hl]. rewrite Eq in Hl. simpl in Hl. destruct Hl as (Hn & _ & _).
    rewrite (bind_done _ _ _ _ _ (on_links_done _ _ _ _ (read_next_done _ _ _ Hn))), set_links_id.
    rewrite Z.eqb_refl. simpl. exists s.
    assert (forall p', upd_queue q p [] p' = q p') as E.
    { intros p'. unfold upd_queue. case_decide; congruence. }
    split_and!; [done| | |done|].
    + eapply sched_rep_ext; [|exact Hr]. by intros p'.
    + eapply twins_ok_sub; [exact Htw|done|]. intros p' z. by rewrite E.
    + by split.
  - destruct (queue_remove_head _ _ _ _ _ Hr Eq) as (m' & Hm & Hr1).
    pose proof (sr_dll _ _ Hr p) as [_ Hl]. rewrite Eq in Hl. simpl in Hl. destruct Hl as (Hn & _ & _).
    rewrite (bind_done _ _ _ _ _ (on_links_done _ _ _ _ (read_next_done _ _ _ Hn))), set_links_id.
    assert (0 < t) as Hpos by (eapply queued_positive; [exact Hr|rewrite Eq; by left]).
    pose proof (sentinels_negative p). destruct (Z.eqb_spec t (queue_tail p)); [lia|].
    rewrite (bind_done _ _ _ _ _ (on_links_done _ _ _ _ Hm)).
    set (s1 := set_links m' s) in *.
    destruct (sr_threads _ _ Hr p t) as (th & Ht & Hp); [rewrite Eq; by left|].
    assert (threads s1 !! t = Some th) as Ht1 by done.
    rewrite (bind_done _ _ _ _ _ (get_thread_done _ _ _ Ht1)).
    pose proof (queued_once _ _ _ _ _ Hr Eq) as Hni.
    assert (forall p' z, z ∈ upd_queue q p l p' -> z ∈ q p') as Hsub.
    { apply upd_queue_sub. intros z Hz. rewrite Eq. by right. }
    assert (twins_ok s1 (upd_queue q p l)) as Htw1 by (by eapply twins_ok_sub).
    assert (resumable s t = can_resume (state th)) as Hres.
    { unfold resumable, state_of. by rewrite Ht. }
    simpl split_first. rewrite Hres.
    assert (forall p', upd_queue (upd_queue q p l) p (upd_queue q p l p) p' = upd_queue q p l p') as E0.
    { intros p'. unfold upd_queue. repeat case_decide; congruence. }
    assert (forall l' p', upd_queue (upd_queue q p l) p l' p' = upd_queue q p l' p') as E1.
    { intros l' p'. unfold upd_queue. repeat case_decide; congruence. }
    (* continuing with the rest of the queue from a state that agrees on it *)
    assert (forall s2, sched_rep s2 (upd_queue q p l) -> twins_ok s2 (upd_queue q p l) ->
      current_thread s2 = current_thread s -> dispatch_frame s s2 (upd_queue q p l) ->
      match split_first (resumable s) l with
      | Some (_, t', r) => exists s', yield_queue fuel p s2 = Done (Some t', s') /\
          sched_rep s' (upd_queue q p r) /\ twins_ok s' (upd_queue q p r) /\
          current_thread s' = Some t' /\ threads s' !! t' = threads s !! t' /\
          dispatch_frame s s' (upd_queue q p r)
      | None => exists s', yield_queue fuel p s2 = Done (None, s') /\
          sched_rep s' (upd_queue q p []) /\ twins_ok s' (upd_queue q p []) /\
          current_thread s' = current_thread s /\ dispatch_frame s s' (upd_queue q p [])
      end) as Hcont.
    { intros s2 Hr2 Htw2 Hc2 [Hev Hth]. specialize (IH fuel p s2 _ (upd_queue_same _ _ _) ltac:(lia) Hr2 Htw2).
      rewrite (split_first_ext (resumable s2) (resumable s)) in IH; last first.
      { apply Forall_forall. intros z Hz. unfold resumable, state_of.
        rewrite (Hth p z); [done|]. by rewrite upd_queue_same. }
      destruct (split_first (resumable s) l) as [[[a t'] r]|] eqn:Es.
      - destruct IH as (s' & H1 & H2 & H3 & H4 & H5 & H6 & H7). exists s'.
        apply split_first_Some in Es as (El & _ & _).
        assert (t' ∈ upd_queue q p l p) as Ht' by (rewrite upd_queue_same, El; set_solver).
        assert (forall p' z, z ∈ upd_queue q p r p' -> z ∈ upd_queue q p l p') as Hsub2.
        { intros p' z. unfold upd_queue. case_decide; [rewrite El; set_solver|done]. }
        split_and!; [done|eapply sched_rep_ext; [|exact H2]; intros p'; by rewrite E1|eapply twins_ok_sub; [exact H3|done|intros p' z; by rewrite E1]
          |done|rewrite H5; by apply (Hth p)|].
        split; [congruence|]. intros p' z Hz. rewrite (H7 p' z); [apply (Hth p')|by rewrite E1]. by apply Hsub2.
      - destruct IH as (s' & H1 & H2 & H3 & H4 & H6 & H7). exists s'.
        assert (forall p' z, z ∈ upd_queue q p [] p' -> z ∈ upd_queue q p l p') as Hsub2.
        { intros p' z. unfold upd_queue. case_decide; [set_solver|done]. }
        split_and!; [done|eapply sched_rep_ext; [|exact H2]; intros p'; by rewrite E1|eapply twins_ok_sub; [exact H3|done|intros p' z; by rewrite E1]
          |congruence|].
        split; [congruence|]. intros p' z Hz. rewrite (H7 p' z); [apply (Hth p')|by rewrite E1]. by apply Hsub2. }
    assert (dispatch_frame s s1 (upd_queue q p l)) as Hfr1 by (by split).
    destruct (can_resume (state th)) eqn:Ecr.
    { assert (forall X (a b : X), match state th with TS_RUNNING | TS_INTERRUPTED => a | _ => b end = a) as Hm0.
      { intros X a b. by destruct (state th). }
      destruct (state th) eqn:Est; try done; (eexists; split; [reflexivity|]; split_and!;
        [by destruct Hr1|by eapply twins_ok_sub|done|done|done]). }
    assert (exists s2, match state th with
        | TS_RUNNING | TS_INTERRUPTED => do! modify (set_current (Some t)); ret (Some t)
        | TS_DEAD => do! thread_free t; yield_queue fuel p
        | _ => yield_queue fuel p
        end s1 = yield_queue fuel p s2 /\ sched_rep s2 (upd_queue q p l) /\
      twins_ok s2 (upd_queue q p l) /\ current_thread s2 = current_thread s /\
      dispatch_frame s s2 (upd_queue q p l)) as (s2 & -> & Hr2 & Htw2 & Hc2 & Hf2).
    2:{ specialize (Hcont s2 Hr2 Htw2 Hc2 Hf2).
        by destruct (split_first (resumable s) l) as [[[a t'] r]|]. }
    destruct (state th) eqn:Est; try done; try (by exists s1).
    destruct (thread_free_spec s1 (upd_queue q p l) t Hr1) as (s2 & Hfree & Hr2 & Hth2 & Hev2 & Hc2).
    { exists th. split_and!; [done|done|done|]. intros k Hk.
      destruct Htw as [Ha Hb]. destruct (Ha t th k Ht Hk) as (Hne & thk & Hthk & _).
      destruct (Hb p t th k) as [Hc Hd]; [rewrite Eq; by left|done|done|done|].
      split_and!; [done| |].
      - intros p' Hin. by apply (Hc p'), Hsub.
      - exists thk. split; [done|]. unfold state_of in Hd. rewrite Hthk in Hd. simpl in Hd. congruence. }
    rewrite (bind_done _ _ _ _ _ Hfree). exists s2.
    split_and!; [done|done|by eapply twins_ok_free|done|].
    split; [done|]. intros p' z Hz. rewrite Hth2, (after_free_lookup _ _ _ _ Ht1).
    rewrite decide_False; [done|]. intros [->|Hk]; [by apply (Hni p')|].
    destruct Htw as [_ Hb]. destruct (Hb p t th z) as [Hc _]; [rewrite Eq; by left|done|done|done|].
    by apply (Hc p'), Hsub.
Qed.

(** The thread the scheduler has to pick: the first one that can run, of the
    highest priority that has one. *)
Definition picks (s : sched) (q : queues) (ps : list thread_priority_t) (t : Z) (q' : queues) : Prop :=
  exists ps1 p ps2 pre r, ps = ps1 ++ p :: ps2 /\ q p = pre ++ t :: r /\ resumable s t = true /\
    Forall (fun x => resumable s x = false) pre /\
    (forall p', p' ∈ ps1 -> Forall (fun x => resumable s x = false) (q p') /\ q' p' = []) /\
    q' p = r /\ (forall p', p' ∉ ps1 -> p' <> p -> q' p' = q p').

Lemma yield_queues_spec ps s q : NoDup ps -> sched_rep s q -> twins_ok s q ->
  exists o s' q', yield_queues ps s = Done (o, s') /\ sched_rep s' q' /\
    match o with
    | Some t => picks s q ps t q' /\ current_thread s' = Some t /\ threads s' !! t = threads s !! t
    | None => current_thread s' = current_thread s /\
        (forall p, p ∈ ps -> Forall (fun x => resumable s x = false) (q p) /\ q' p = []) /\
        (forall p, p ∉ ps -> q' p = q p)
    end.
Proof.
  intros Hnd. revert s q. induction Hnd as [|p ps Hp Hnd IH]; intros s q Hr Htw; simpl.
  { exists None, s, q. split_and!; [done|done|done| |done]. by intros p ?%elem_of_nil. }
  rewrite (bind_done _ _ _ s s eq_refl).
  pose proof (yield_queue_spec (q p) (S (size (slinks s))) p s q eq_refl
    (dll_length _ _ _ _ (sr_dll _ _ Hr p)) Hr Htw) as Hy.
  destruct (split_first (resumable s) (q p)) as [[[a t] r]|] eqn:Es.
  - destruct Hy as (s' & Hy & Hr' & _ & Hc & Ht & _). rewrite (bind_done _ _ _ _ _ Hy).
    apply split_first_Some in Es as (Eq & Hres & Hpre).
    exists (Some t), s', (upd_queue q p r). split_and!; [done|done| |done|done].
    exists [], p, ps, a, r. split_and!; [done|done|done|done|by intros ? ?%elem_of_nil|apply upd_queue_same|].
    intros p' _ Hne. unfold upd_queue. by rewrite decide_False.
  - destruct Hy as (s1 & Hy & Hr1 & Htw1 & Hc1 & Hev & Hfr). rewrite (bind_done _ _ _ _ _ Hy).
    apply split_first_None in Es.
    destruct (IH s1 _ Hr1 Htw1) as (o & s' & q' & Hy' & Hr' & Ho). exists o, s', q'.
    assert (forall p' x, x ∈ upd_queue q p [] p' -> resumable s1 x = resumable s x) as Hsame.
    { intros p' x Hx. unfold resumable, state_of. by rewrite (Hfr p' x Hx). }
    assert (forall p', p' ∈ ps -> upd_queue q p [] p' = q p') as Hother.
    { intros p' Hin. unfold upd_queue. rewrite decide_False; [done|]. by intros ->. }
    split_and!; [done|done|]. destruct o as [t|].
    + destruct Ho as ((ps1 & p1 & ps2 & pre & r & -> & Eq & Hres & Hpre & Hbef & Hq' & Haft) & Hc & Ht).
      assert (p1 ∈ ps1 ++ p1 :: ps2) as Hp1 by set_solver. pose proof (Hother p1 Hp1) as E1.
      rewrite E1 in Eq.
      assert (forall x, x ∈ q p1 -> resumable s1 x = resumable s x) as Hs1.
      { intros x Hx. apply (Hsame p1). by rewrite E1. }
      split_and!; [|done|].
      * exists (p :: ps1), p1, ps2, pre, r. split_and!; [done|done| | | |done|].
        -- rewrite <- Hs1; [done|]. rewrite Eq. set_solver.
        -- apply Forall_forall. intros x Hx. rewrite <- Hs1 by (rewrite Eq; set_solver).
           by apply (proj1 (Forall_forall _ _) Hpre).
        -- intros p' [->|Hin]%elem_of_cons.
           ++ split; [done|]. rewrite Haft by set_solver. apply upd_queue_same.
           ++ destruct (Hbef p' Hin) as [Hall He]. rewrite Hother in Hall by set_solver.
              split; [|done]. apply Forall_forall. intros x Hx.
              rewrite <- (Hsame p' x) by (rewrite Hother by set_solver; done).
              by apply (proj1 (Forall_forall _ _) Hall).
        -- intros p' [Hne Hnin]%not_elem_of_cons Hne1. rewrite Haft by done.
           unfold upd_queue. by rewrite decide_False.
      * rewrite Ht. apply (Hfr p1). rewrite E1, Eq. set_solver.
    + destruct Ho as (Hc & Hall & Hout). split; [congruence|]. split; [|].
      2:{ intros p' [Hne Hnin]%not_elem_of_cons. rewrite Hout by done.
          unfold upd_queue. by rewrite decide_False. }
      intros p' [->|Hin]%elem_of_cons.
      * split; [done|]. rewrite Hout by done. apply upd_queue_same.
      * destruct (Hall p' Hin) as [Hf He]. rewrite Hother in Hf by done. split; [|done].
        apply Forall_forall. intros x Hx. rewrite <- (Hsame p' x) by (rewrite Hother by done; done).
        by apply (proj1 (Forall_forall _ _) Hf).
Qed.

(** The queues once the thread that yields has been put back. *)
Definition requeued (s : sched) (q : queues) : queues :=
  match current_thread s with
  | Some t =>
      match threads s !! t with
      | Some th => if runnable_for_queue (state th)
                   then upd_queue q (priority th) (q (priority th) ++ [t]) else q
      | None => q
      end
  | None => q
  end.

Definition current_ok (s : sched) (q : queues) : Prop :=
  forall t, current_thread s = Some t -> is_Some (threads s !! t) /\ forall p, t ∉ q p.

Lemma requeue_spec s q : sched_rep s q -> current_ok s q ->
  exists m', (match current_thread s with
      | Some t => do! scheduler_queue t; modify (set_current None)
      | None => ret tt
      end) s = Done (tt, set_current None (set_links m' s)) /\
    sched_rep (set_current None (set_links m' s)) (requeued s q).
Proof.
  intros Hr Hc. unfold requeued. destruct (current_thread s) as [t|] eqn:Ec.
  2:{ exists (slinks s). rewrite set_links_id. unfold ret. split; [|by destruct Hr].
      destruct s; simpl in *. by subst. }
  destruct (Hc t Ec) as [[th Ht] Hni]. rewrite Ht.
  destruct (runnable_for_queue (state th)) eqn:Es.
  - destruct (scheduler_queue_spec s q t th Hr Ht Es (Hni _)) as (m' & Hq & Hr').
    exists m'. rewrite (bind_done _ _ _ _ _ Hq). split; [done|by destruct Hr'].
  - exists (slinks s). rewrite set_links_id.
    rewrite (bind_done _ _ _ _ _ (scheduler_queue_reject _ _ _ Ht Es)). split; [done|by destruct Hr].
Qed.


(** ** Events *)

Definition only_on (s : sched) (w e : Z) : Prop :=
  forall e' ev, e' <> e -> events s !! e' = Some ev -> has_waiter w ev = false.

Lemma remove_first_absent (w : Z) (l : list (Z * Z)) :
  existsb (is_waiter w) l = false -> remove_first (is_waiter w) l = l.
Proof.
  induction l as [|x l IH]; simpl; [done|]. intros [-> H]%orb_false_iff. by rewrite IH.
Qed.

Lemma waiter_free_spec s w e ev : events s !! e = Some ev -> has_waiter w ev = true -> only_on s w e ->
  exists evs, waiter_free w s = Done (tt, set_events evs s) /\
    evs !! e = Some (drop_waiter w ev) /\ (forall e', e' <> e -> evs !! e' = events s !! e').
Proof.
  intros He Hw Ho. exists (drop_waiter w <$> events s). unfold waiter_free.
  rewrite (bind_done _ _ _ s s eq_refl).
  assert (existsb (fun kv => has_waiter w kv.2) (map_to_list (events s)) = true) as Hex.
  { apply existsb_exists. exists (e, ev). split; [|done].
    apply list_elem_of_In. by apply elem_of_map_to_list. }
  rewrite Hex. unfold guard_or. rewrite bind_ret_l. split; [done|]. split.
  - by rewrite lookup_fmap, He.
  - intros e' Hne. rewrite lookup_fmap. destruct (events s !! e') as [ev'|] eqn:E; [|done]. simpl.
    f_equal. unfold drop_waiter. rewrite remove_first_absent by (by apply (Ho e')). by destruct ev'.
Qed.

Lemma sched_rep_events s q evs : sched_rep s q -> sched_rep (set_events evs s) q.
Proof. intros Hr. constructor; apply Hr. Qed.

Lemma thread_run_spec s q t th : sched_rep s q -> threads s !! t = Some th ->
  state th <> TS_RUNNING -> (forall p, t ∉ q p) ->
  exists s', thread_run t s = Done (tt, s') /\
    sched_rep s' (upd_queue q (priority th) (q (priority th) ++ [t])) /\
    threads s' = <[t := set_state TS_RUNNING th]> (threads s) /\ events s' = events s /\
    current_thread s' = current_thread s.
Proof.
  intros Hr Ht Hs Hni. unfold thread_run. rewrite (bind_done _ _ _ _ _ (get_thread_done _ _ _ Ht)).
  set (s1 := set_threads (<[t := set_state TS_RUNNING th]> (threads s)) s).
  assert (sched_rep s1 q) as Hr1 by (by apply (upd_thread_rep s q t th (set_state TS_RUNNING))).
  assert (threads s1 !! t = Some (set_state TS_RUNNING th)) as Ht1 by apply lookup_insert_eq.
  destruct (scheduler_queue_spec s1 q t _ Hr1 Ht1 eq_refl (Hni _)) as (m' & Hq & Hr2).
  exists (set_links m' s1). split; [|by split_and!].
  rewrite <- Hq. destruct (state th); try done;
    by rewrite (bind_done _ _ _ _ _ (upd_thread_done _ _ _ _ Ht)).
Qed.

Lemma event_invoke_spec s q e w t ws th hs :
  sched_rep s q -> events s !! e = Some (Event hs ((w, t) :: ws)) -> only_on s w e ->
  threads s !! t = Some th -> state th <> TS_RUNNING -> (forall p, t ∉ q p) ->
  exists s', event_invoke e s = Done (tt, s') /\
    sched_rep s' (upd_queue q (priority th) (q (priority th) ++ [t])) /\
    threads s' = <[t := set_state TS_RUNNING (set_wait None None th)]> (threads s) /\
    events s' !! e = Some (Event hs ws) /\ (forall e', e' <> e -> events s' !! e' = events s !! e').
Proof.
  intros Hr He Ho Ht Hs Hni. unfold event_invoke.
  assert (get_event e s = Done (Event hs ((w, t) :: ws), s)) as Hg by (unfold get_event; by rewrite He).
  rewrite (bind_done _ _ _ _ _ Hg). cbn [waiters].
  destruct (waiter_free_spec s w e _ He) as (evs & Hw & He1 & Hoth); [simpl; unfold has_waiter, is_waiter; simpl; by rewrite Z.eqb_refl|done|].
  rewrite (bind_done _ _ _ _ _ Hw).
  assert (threads (set_events evs s) !! t = Some th) as Ht1 by done.
  rewrite (bind_done _ _ _ _ _ (upd_thread_done _ _ _ _ Ht1)).
  set (s1 := set_threads _ _).
  assert (sched_rep s1 q) as Hr1.
  { apply (upd_thread_rep (set_events evs s) q t th (set_wait None None)); [by apply sched_rep_events|done|done]. }
  destruct (thread_run_spec s1 q t (set_wait None None th) Hr1 (lookup_insert_eq _ _ _) Hs Hni)
    as (s' & Hrun & Hr' & Hth & Hev & _).
  exists s'. split; [done|]. split; [done|]. rewrite Hth, Hev. subst s1. simpl.
  rewrite insert_insert_eq. split_and!; [done| |done]. rewrite He1. unfold drop_waiter, is_waiter. simpl.
  by rewrite Z.eqb_refl.
Qed.

(** C6: [event_invoke] on an event with waiters wakes exactly the thread that
    has waited longest: it leaves the event, becomes runnable and goes to the
    end of its run queue; other events and other threads are untouched. *)
Theorem event_invoke_fifo s q e w t ws th
  (Hr : sched_rep s q) (He : events s !! e = Some (Event false ((w, t) :: ws))) (Ho : only_on s w e)
  (Ht : threads s !! t = Some th) (Hs : state th = TS_UNINTERRUPTABLE_WAIT) (Hni : forall p, t ∉ q p) :
  exists s', event_invoke e s = Done (tt, s') /\
    sched_rep s' (upd_queue q (priority th) (q (priority th) ++ [t])) /\
    state_of s' t = Some TS_RUNNING /\ events s' !! e = Some (Event false ws) /\
    (forall t', t' <> t -> threads s' !! t' = threads s !! t') /\
    (forall e', e' <> e -> events s' !! e' = events s !! e').
Proof.
  destruct (event_invoke_spec s q e w t ws th false Hr He Ho Ht ltac:(by rewrite Hs) Hni)
    as (s' & Hi & Hr' & Hth & He' & Hoth).
  exists s'. split_and!; [done|done| |done| |done].
  - unfold state_of. by rewrite Hth, lookup_insert_eq.
  - intros t' Hne. rewrite Hth. by rewrite lookup_insert_ne.
Qed.

(** Killing a thread that waits for an event does not queue it (so it is
    not freed), leaves its waiter on the event, and the next [event_invoke]
    makes the killed thread runnable again. *)
Theorem killed_waiter_resurrected s q e w t ws th
  (Hr : sched_rep s q) (He : events s !! e = Some (Event false ((w, t) :: ws))) (Ho : only_on s w e)
  (Ht : threads s !! t = Some th) (Hs : state th = TS_UNINTERRUPTABLE_WAIT) (Hni : forall p, t ∉ q p) :
  exists s1 s2, thread_kill t s = Done (tt, s1) /\ state_of s1 t = Some TS_DEAD /\ sched_rep s1 q /\
    event_invoke e s1 = Done (tt, s2) /\ state_of s2 t = Some TS_RUNNING /\
    sched_rep s2 (upd_queue q (priority th) (q (priority th) ++ [t])).
Proof.
  set (s1 := set_threads (<[t := set_state TS_DEAD th]> (threads s)) s).
  assert (thread_kill t s = Done (tt, s1)) as Hk.
  { unfold thread_kill. rewrite (bind_done _ _ _ _ _ (get_thread_done _ _ _ Ht)), Hs.
    rewrite (bind_done _ _ _ _ _ (scheduler_queue_reject _ _ _ Ht ltac:(by rewrite Hs))).
    by rewrite (upd_thread_done _ _ _ _ Ht). }
  assert (sched_rep s1 q) as Hr1 by (by apply (upd_thread_rep s q t th (set_state TS_DEAD))).
  assert (threads s1 !! t = Some (set_state TS_DEAD th)) as Ht1 by apply lookup_insert_eq.
  destruct (event_invoke_spec s1 q e w t ws _ false Hr1 He Ho Ht1 ltac:(done) Hni)
    as (s2 & Hi & Hr2 & Hth & _).
  exists s1, s2. split_and!; [done| |done|done| |done].
  - unfold state_of. by rewrite Ht1.
  - unfold state_of. by rewrite Hth, lookup_insert_eq.
Qed.

(** A signal with nobody waiting is latched and consumed by the next await. *)
Lemma event_latch s e : events s !! e = Some (Event false []) ->
  exists s1 s2, event_invoke e s = Done (tt, s1) /\ events s1 !! e = Some (Event true []) /\
    scheduler_await e s1 = Done (None, s2) /\ events s2 !! e = Some (Event false []).
Proof.
  intros He. unfold event_invoke, scheduler_await, await_with, get_event, bind. rewrite He. simpl.
  eexists _, _. split; [reflexivity|]. simpl. rewrite lookup_insert_eq. split; [done|]. simpl.
  split; [reflexivity|]. simpl. by rewrite lookup_insert_eq.
Qed.

(** An interrupted waiter is not accepted by [scheduler_queue]: it is on no
    queue and nothing will resume it. *)
Lemma interrupted_thread_not_queued s q t th k thk w e ev :
  sched_rep s q -> threads s !! t = Some th -> state th = TS_INTERRUPTABLE_WAIT ->
  waiter th = Some w -> events s !! e = Some ev -> has_waiter w ev = true -> only_on s w e ->
  twin_thread th = Some k -> k <> t -> threads s !! k = Some thk ->
  exists s', thread_interrupt t s = Done (Num 0, s') /\ state_of s' t = Some TS_INTERRUPTED /\ sched_rep s' q.
Proof.
  intros Hr Ht Hs Hw He Hhw Ho Htw Hkt Hk. unfold thread_interrupt.
  rewrite (bind_done _ _ _ _ _ (get_thread_done _ _ _ Ht)), Hs, Hw. simpl.
  unfold of_option. rewrite (bind_done (fun s => Done (w, s)) _ s w s eq_refl).
  destruct (waiter_free_spec s w e ev He Hhw Ho) as (evs & Hf & _). rewrite (bind_done _ _ _ _ _ Hf).
  rewrite (bind_done _ _ _ _ _ (upd_thread_done (set_events evs s) _ _ _ Ht)).
  set (s1 := set_threads (<[t := _]> _) (set_events evs s)).
  assert (sched_rep s1 q) as Hr1.
  { apply (upd_thread_rep (set_events evs s) q t th (set_wait None None)); [by apply sched_rep_events|done|done]. }
  assert (threads s1 !! t = Some (set_wait None None th)) as Ht1 by apply lookup_insert_eq.
  rewrite (bind_done _ _ _ _ _ (get_thread_done _ _ _ Ht1)). simpl. rewrite Htw.
  rewrite (bind_done (fun s => Done (k, s)) _ s1 k s1 eq_refl).
  assert (threads s1 !! k = Some thk) as Hk1 by (simpl; by rewrite lookup_insert_ne).
  rewrite (bind_done _ _ _ _ _ (upd_thread_done _ _ _ _ Hk1)). set (s2 := set_threads (<[k := _]> _) s1).
  assert (sched_rep s2 q) as Hr2 by (by apply (upd_thread_rep s1 q k thk (set_wait None None))).
  assert (threads s2 !! t = Some (set_wait None None th)) as Ht2.
  { simpl. rewrite lookup_insert_ne by done. apply lookup_insert_eq. }
  rewrite (bind_done _ _ _ _ _ (upd_thread_done _ _ _ _ Ht2)). set (s3 := set_threads (<[t := _]> _) s2).
  assert (threads s3 !! t = Some (set_state TS_INTERRUPTED (set_wait None None th))) as Ht3
    by apply lookup_insert_eq.
  rewrite (bind_done _ _ _ _ _ (scheduler_queue_reject _ _ _ Ht3 eq_refl)).
  exists s3. split; [done|]. split; [unfold state_of; by rewrite Ht3|].
  by apply (upd_thread_rep s2 q t (set_wait None None th) (set_state TS_INTERRUPTED)).
Qed.

(** ** Concrete runs *)

(** One runnable user thread with its twin, and a thread blocked on event 50. *)
Definition demo_thread (st : thread_state_t) (tw w e : option Z) : thread_t :=
  Thread (Some 1) TL_USER st TP_MEDIUM tw w e.
Definition demo_sched : sched :=
  Sched {[ 10 := demo_thread TS_RUNNING (Some 11) None None;
           11 := Thread (Some 1) TL_KERNEL TS_STOPPED TP_MEDIUM (Some 10) None None;
           12 := demo_thread TS_UNINTERRUPTABLE_WAIT None (Some 90) (Some 50) ]}
    (foldr (fun p m => <[queue_head p := Link (queue_tail p) 0]> (<[queue_tail p := Link 0 (queue_head p)]> m))
       (<[10 := Link 0 0]> (<[11 := Link 0 0]> {[12 := Link 0 0]})) all_priorities)
    {[ 50 := Event false [(90, 12)] ]} (Some 10) 91.
Definition no_queues : queues := fun _ => [].

Lemma demo_sched_rep : sched_rep demo_sched no_queues.
Proof.
  constructor.
  - intros p. split.
    + destruct p; apply (bool_decide_unpack _); vm_compute; exact I.
    + destruct p; vm_compute; (split_and!; [reflexivity|reflexivity|by eexists]).
  - by intros p t ?%elem_of_nil.
  - intros t Ht. simpl in Ht.
    assert (t = 10 \/ t = 11 \/ t = 12) as Hc.
    { destruct (decide (t = 10)); [by left|]. destruct (decide (t = 11)); [by right; left|].
      destruct (decide (t = 12)); [by right; right|]. exfalso.
      rewrite !lookup_insert_ne in Ht by done. rewrite lookup_singleton_ne in Ht by done. by destruct Ht. }
    destruct Hc as [ -> |[ -> | -> ]]; (split; [lia|vm_compute; by eexists]).
Qed.


Lemma demo_only_on : only_on demo_sched 90 50.
Proof. intros e' ev Hne He. simpl in He. by rewrite lookup_singleton_ne in He. Qed.

Lemma event_invoke_fifo_witness : exists s',
  event_invoke 50 demo_sched = Done (tt, s') /\ state_of s' 12 = Some TS_RUNNING.
Proof.
  destruct (event_invoke_fifo demo_sched no_queues 50 90 12 [] (demo_thread TS_UNINTERRUPTABLE_WAIT None (Some 90) (Some 50))
    demo_sched_rep) as (s' & Hi & _ & Hs & _);
    [reflexivity|exact demo_only_on|reflexivity|done|by intros p ?%elem_of_nil|].
  exists s'. split; [exact Hi|exact Hs].
Defined.

Lemma killed_waiter_resurrected_witness : exists s1 s2,
  thread_kill 12 demo_sched = Done (tt, s1) /\ state_of s1 12 = Some TS_DEAD /\
  event_invoke 50 s1 = Done (tt, s2) /\ state_of s2 12 = Some TS_RUNNING.
Proof.
  destruct (killed_waiter_resurrected demo_sched no_queues 50 90 12 []
    (demo_thread TS_UNINTERRUPTABLE_WAIT None (Some 90) (Some 50)) demo_sched_rep)
    as (s1 & s2 & Hk & Hd & _ & Hi & Hs & _);
    [reflexivity|exact demo_only_on|reflexivity|done|by intros p ?%elem_of_nil|].
  exists s1, s2. split_and!; [exact Hk|exact Hd|exact Hi|exact Hs].
Defined.
