(* ===== verification/Timer.v ===== *)
(** * Timer: periodic and one-shot timers (src/timer/timer.c)

    Timers are intrusive list elements (Dll.v) that the timer interrupt walks
    on every tick.  A handler gets the timer itself and may do anything to it,
    freeing it included, so the object and its links are looked up again after
    the handler returns, as the C code does through its pointer.  What the
    handlers do besides is the [world] of the section; TimerCalls in Process.v
    has the handlers of [alarm] and [nanosleep]. *)
From S2P Require Import Prelude Dll.

(** ** Units (include/timer/timer.h), as [uint64_t] arithmetic *)

Definition TIMER_TICK_US : Z := 54925.
Definition TIMER_US_TO_TICKS (us : Z) : Z := us / TIMER_TICK_US.
Definition TIMER_NS_TO_TICKS (ns : Z) : Z := TIMER_US_TO_TICKS (ns / 1000).
Definition TIMER_MS_TO_TICKS (ms : Z) : Z := TIMER_NS_TO_TICKS (u64 (1000 * ms)).
Definition TIMER_S_TO_TICKS (s : Z) : Z := TIMER_MS_TO_TICKS (u64 (1000 * s)).

Inductive timer_state_t := WAITING | RUNNING.

Section timer.
Context {H W : Type}.

Record timer_t := Timer {
  t_state : timer_state_t;
  current_ticks : Z; start_ticks : Z; interval_ticks : Z;
  cookie : Z; handler : H
}.

Record timers := Timers { objects : gmap Z timer_t; tlinks : links; world : W }.

Definition set_tlinks (m : links) (s : timers) := Timers (objects s) m (world s).
Definition on_tlinks {A} (m : M links A) : M timers A := zoom tlinks set_tlinks m.
Definition on_world {A} (m : M W A) : M timers A := zoom world (fun w s => Timers (objects s) (tlinks s) w) m.
Definition get_timer (a : Z) : M timers timer_t := fun s => of_option Undefined (objects s !! a) s.
Definition put_timer (a : Z) (t : timer_t) : M timers unit :=
  modify (fun s => Timers (<[a := t]> (objects s)) (tlinks s) (world s)).

Definition set_ticks (n : Z) (t : timer_t) := Timer (t_state t) n (start_ticks t) (interval_ticks t) (cookie t) (handler t).
Definition set_running (t : timer_t) := Timer RUNNING (current_ticks t) (start_ticks t) (interval_ticks t) (cookie t) (handler t).

Definition timers_head : Z := -1.
Definition timers_tail : Z := -2.
Definition timers_init : M timers unit := on_tlinks (dll_init timers_head timers_tail).

(** [a] is the address [heap_alloc] returned. *)
Definition timer_init (a : Z) (h : H) (c start interval : Z) : M timers unit :=
  do! modify (fun s => set_tlinks (<[a := Link NULL NULL]> (tlinks s)) s);
  do! put_timer a (Timer WAITING 0 start interval c h);
  on_tlinks (dll_push_front timers_head a).

Definition timer_free (a : Z) : M timers unit :=
  do! on_tlinks (dll_unlink a);
  modify (fun s => Timers (delete a (objects s)) (delete a (tlinks s)) (world s)).

Variable call : H -> Z -> M timers unit.

Definition timer_update (a : Z) : M timers unit :=
  let! t0 := get_timer a in
  let t := set_ticks (u64 (current_ticks t0 + 1)) t0 in
  do! put_timer a t;
  match t_state t with
  | WAITING =>
      if current_ticks t >=? start_ticks t then
        do! put_timer a (set_running t);
        do! call (handler t) a;
        let! t' := get_timer a in
        put_timer a (set_ticks (u64 (current_ticks t' - start_ticks t')) t')
      else ret tt
  | RUNNING =>
      if negb (interval_ticks t =? 0) && (current_ticks t >=? interval_ticks t) then
        do! call (handler t) a;
        let! t' := get_timer a in
        put_timer a (set_ticks (u64 (current_ticks t' - interval_ticks t')) t')
      else ret tt
  end.

(** The walk, from [timer] to the tail sentinel.  A timer a handler adds goes
    in at the head, behind the walk, so the walk is no longer than the list. *)
Fixpoint update_from (fuel : nat) (timer : Z) : M timers unit :=
  match fuel with
  | O => stop_with NoFuel
  | S fuel' =>
      if timer =? timers_tail then ret tt
      else
        do! timer_update timer;
        let! n := on_tlinks (read_next timer) in
        update_from fuel' n
  end.
Definition timers_update : M timers unit :=
  let! s := get in
  let! first := on_tlinks (read_next timers_head) in
  update_from (S (size (tlinks s))) first.

Fixpoint ticks (n : nat) : M timers unit :=
  match n with O => ret tt | S n' => do! timers_update; ticks n' end.

(** ** The reference schedule *)

(** Whether a timer fires at the [k]-th tick after it was started. *)
Definition fires_at (start interval k : Z) : bool :=
  (k =? MAX start 1) || (negb (interval =? 0) && (k >? MAX start 1) && ((k - start) mod interval =? 0)).
(** Who fires at each of the ticks [k+1 .. k+n], in order. *)
Definition due (obj : gmap Z timer_t) (k : Z) (a : Z) : bool :=
  match obj !! a with Some t => fires_at (start_ticks t) (interval_ticks t) k | None => false end.
Fixpoint schedule (obj : gmap Z timer_t) (ts : list Z) (k : Z) (n : nat) : list Z :=
  match n with
  | O => []
  | S n' => List.filter (due obj (k + 1)) ts ++ schedule obj ts (k + 1) n'
  end.

(** ** Handlers that leave the timers alone *)

Section schedule.
Variable act : Z -> timer_t -> W -> W.
Hypothesis call_act : forall a t s, objects s !! a = Some t ->
  call (handler t) a s = Done (tt, Timers (objects s) (tlinks s) (act a t (world s))).
(** The effect depends on what the timer was started with, not on its count. *)
Hypothesis act_static : forall a t t' w, start_ticks t = start_ticks t' -> interval_ticks t = interval_ticks t' ->
  cookie t = cookie t' -> handler t = handler t' -> act a t w = act a t' w.

(** [t] is the timer [t0] after [k] ticks. *)
Record ticked (t0 : timer_t) (k : Z) (t : timer_t) : Prop := Ticked {
  tk_start : start_ticks t = start_ticks t0;
  tk_interval : interval_ticks t = interval_ticks t0;
  tk_cookie : cookie t = cookie t0;
  tk_handler : handler t = handler t0;
  tk_phase : if k <? MAX (start_ticks t0) 1 then t_state t = WAITING /\ current_ticks t = k
    else t_state t = RUNNING /\ (interval_ticks t0 = 0 \/
      0 <= current_ticks t /\ (current_ticks t < interval_ticks t0 \/ current_ticks t = 1 /\ interval_ticks t0 = 1) /\
      current_ticks t mod interval_ticks t0 = (k - start_ticks t0) mod interval_ticks t0)
}.

Definition fresh_timer (t : timer_t) : Prop :=
  t_state t = WAITING /\ current_ticks t = 0 /\ in_u64 (start_ticks t) /\ in_u64 (interval_ticks t).

Lemma MAX_spec a b : MAX a b = Z.max a b.
Proof. unfold MAX. destruct (a >? b) eqn:E; lia. Qed.

Lemma ticked_fresh t : fresh_timer t -> ticked t 0 t.
Proof.
  intros (Hs & Hc & Hst & _). unfold in_u64 in *. split; try done. rewrite MAX_spec. case_bool; [done|lia].
Qed.

Lemma u64_inc_dec n k : in_u64 n -> 0 <= k <= n -> u64 (n - k) = n - k.
Proof. unfold in_u64. intros. apply u64_small. lia. Qed.

Lemma mod_succ a b i : 0 < i -> a mod i = b mod i -> (a + 1) mod i = (b + 1) mod i.
Proof. intros Hi E. by rewrite <- (Zplus_mod_idemp_l a), E, Zplus_mod_idemp_l. Qed.

(** One tick of one timer. *)
Lemma timer_update_ticked t0 a k t s : fresh_timer t0 -> objects s !! a = Some t -> ticked t0 k t -> 0 <= k -> k + 1 < 2 ^ 64 ->
  exists t', ticked t0 (k + 1) t' /\ timer_update a s = Done (tt, Timers (<[a := t']> (objects s)) (tlinks s)
    (if fires_at (start_ticks t0) (interval_ticks t0) (k + 1) then act a t0 (world s) else world s)).
Proof.
  intros (_ & _ & Hst & Hiv) Ha [E1 E2 E3 E4 Hph] Hk Hk1. unfold in_u64 in *. rewrite MAX_spec in Hph.
  unfold timer_update. assert (get_timer a s = Done (t, s)) as Hg by (unfold get_timer; by rewrite Ha).
  rewrite (bind_done _ _ _ _ _ Hg). set (t1 := set_ticks _ t). set (s1 := Timers (<[a := t1]> (objects s)) (tlinks s) (world s)).
  assert (put_timer a t1 s = Done (tt, s1)) as Hp by done. rewrite (bind_done _ _ _ _ _ Hp). clear Hp Hg.
  change (t_state t1) with (t_state t). change (start_ticks t1) with (start_ticks t). change (interval_ticks t1) with (interval_ticks t).
  change (current_ticks t1) with (u64 (current_ticks t + 1)).
  (* what happens once the handler has been called on [t2] *)
  assert (forall t2 d, handler t2 = handler t -> start_ticks t2 = start_ticks t -> interval_ticks t2 = interval_ticks t -> cookie t2 = cookie t ->
    forall s2, objects s2 !! a = Some t2 ->
    (do! call (handler t) a; let! t' := get_timer a in put_timer a (set_ticks (u64 (current_ticks t' - d t')) t')) s2 =
      Done (tt, Timers (<[a := set_ticks (u64 (current_ticks t2 - d t2)) t2]> (objects s2)) (tlinks s2) (act a t0 (world s2)))) as Hcall.
  { intros t2 d Hh Hs2 Hi2 Hc2 s2 Ha2. rewrite <- Hh, (bind_done _ _ _ _ _ (call_act a t2 s2 Ha2)).
    assert (get_timer a (Timers (objects s2) (tlinks s2) (act a t2 (world s2))) = Done (t2, Timers (objects s2) (tlinks s2) (act a t2 (world s2)))) as Hg
      by (unfold get_timer; cbn; by rewrite Ha2).
    rewrite (bind_done _ _ _ _ _ Hg). unfold put_timer, modify. cbn. rewrite (act_static a t2 t0) by congruence. done. }
  unfold fires_at. rewrite MAX_spec. destruct (Z.ltb_spec k (Z.max (start_ticks t0) 1)) as [Hlt|Hge].
  - (* still waiting *)
    destruct Hph as [Hw Hc]. rewrite Hw, Hc, u64_small by lia. rewrite E1.
    destruct (Z.geb_spec (k + 1) (start_ticks t0)) as [Hge|Hlt'].
    + rewrite (proj2 (Z.eqb_eq (k + 1) _)) by lia. cbn [orb].
      set (s2 := Timers (<[a := set_running t1]> (objects s1)) (tlinks s1) (world s1)).
      assert (put_timer a (set_running t1) s1 = Done (tt, s2)) as Hp by done. rewrite (bind_done _ _ _ _ _ Hp).
      change (handler t1) with (handler t). rewrite (Hcall (set_running t1) start_ticks) by (try done; apply lookup_insert_eq).
      eexists. split; [|cbn; rewrite !insert_insert_eq; reflexivity].
      split; [done|done|done|done|]. rewrite MAX_spec, (proj2 (Z.ltb_ge _ _)) by lia. cbn. split; [done|].
      rewrite Hc, (u64_small (k + 1)), E1 by lia. rewrite u64_small by lia.
      destruct (decide (interval_ticks t0 = 0)) as [|Hi]; [by left|right]. split_and!; [lia|lia|done].
    + rewrite (proj2 (Z.eqb_neq (k + 1) _)) by lia. replace (k + 1 >? Z.max (start_ticks t0) 1) with false by lia. rewrite andb_false_r. cbn [orb andb].
      exists t1. split; [|done]. split; [done|done|done|done|]. rewrite MAX_spec, (proj2 (Z.ltb_lt _ _)) by lia.
      split; [exact Hw|]. cbn. by rewrite Hc, u64_small by lia.
  - (* running *)
    destruct Hph as [Hw Hrun]. rewrite Hw, (proj2 (Z.eqb_neq (k + 1) _)) by lia. replace (k + 1 >? Z.max (start_ticks t0) 1) with true by lia.
    rewrite E2. cbn [orb]. destruct (Z.eqb_spec (interval_ticks t0) 0) as [Hi|Hi]; cbn [negb andb].
    { exists t1. split; [|done]. split; [done|done|done|done|]. rewrite MAX_spec, (proj2 (Z.ltb_ge _ _)) by lia. split; [exact Hw|by left]. }
    destruct Hrun as [|(Hc0 & Hc1 & Hm)]; [done|]. rewrite (u64_small (current_ticks t + 1)) by lia.
    assert ((current_ticks t + 1) mod interval_ticks t0 = (k + 1 - start_ticks t0) mod interval_ticks t0) as Hm1.
    { replace (k + 1 - start_ticks t0) with (k - start_ticks t0 + 1) by lia. by apply mod_succ; [lia|]. }
    rewrite <- Hm1. destruct (Z.geb_spec (current_ticks t + 1) (interval_ticks t0)) as [Hf|Hf].
    + assert ((current_ticks t + 1) mod interval_ticks t0 = 0) as Hz.
      { destruct Hc1 as [|[Hc1 Hi1]]; [|by rewrite Hi1, Z.mod_1_r]. replace (current_ticks t + 1) with (interval_ticks t0) by lia. by apply Z.mod_same. }
      rewrite Hz. cbn [Z.eqb]. change (handler t1) with (handler t).
      rewrite (Hcall t1 interval_ticks) by (try done; apply lookup_insert_eq). eexists. split; [|cbn; rewrite !insert_insert_eq; reflexivity].
      split; [done|done|done|done|]. rewrite MAX_spec, (proj2 (Z.ltb_ge _ _)) by lia. split; [exact Hw|right]. cbn.
      rewrite E2, (u64_small (current_ticks t + 1)) by lia. rewrite u64_small by lia. split_and!; [lia|lia|].
      rewrite <- Hm1, Hz. rewrite Zminus_mod, Hz, Z.mod_same by done. done.
    + rewrite Z.mod_small by lia. rewrite (proj2 (Z.eqb_neq _ 0)) by lia.
      exists t1. split; [|done]. split; [done|done|done|done|]. rewrite MAX_spec, (proj2 (Z.ltb_ge _ _)) by lia. split; [exact Hw|right]. cbn.
      rewrite (u64_small (current_ticks t + 1)) by lia. split_and!; [lia|lia|done].
Qed.

(** The effect of the handlers of a list of timers, one after the other. *)
Definition acts (obj : gmap Z timer_t) (ts : list Z) (w : W) : W :=
  foldl (fun w a => match obj !! a with Some t0 => act a t0 w | None => w end) w ts.

Definition all_ticked (obj : gmap Z timer_t) (ts : list Z) (k : Z) (obj' : gmap Z timer_t) : Prop :=
  forall a, a ∈ ts -> exists t0 t, obj !! a = Some t0 /\ fresh_timer t0 /\ obj' !! a = Some t /\ ticked t0 k t.

Lemma update_from_ticked obj k l : forall fuel s, 0 <= k -> k + 1 < 2 ^ 64 -> (length l < fuel)%nat ->
  linked (tlinks s) (l ++ [timers_tail]) -> NoDup (l ++ [timers_tail]) -> all_ticked obj l k (objects s) ->
  exists obj', update_from fuel (default timers_tail (head l)) s =
      Done (tt, Timers obj' (tlinks s) (acts obj (List.filter (due obj (k + 1)) l) (world s))) /\
    all_ticked obj l (k + 1) obj' /\ (forall a, a ∉ l -> obj' !! a = objects s !! a).
Proof.
  induction l as [|a l IH]; intros fuel s Hk Hk1 Hf Hl Hnd Hall; (destruct fuel as [|fuel]; [simpl in Hf; lia|]); cbn [update_from].
  { exists (objects s). rewrite Z.eqb_refl. split_and!; [by destruct s|by intros b ?%elem_of_nil|done]. }
  apply NoDup_cons in Hnd as [Hni Hnd].
  assert (next_of (tlinks s) a = Some (default timers_tail (head l)) /\ linked (tlinks s) (l ++ [timers_tail])) as [Hn Hl'].
  { cbn in Hl. destruct l as [|b l]; cbn in Hl |- *; tauto. }
  change (default timers_tail (head (a :: l))) with a. rewrite (proj2 (Z.eqb_neq a timers_tail)) by (intros ->; set_solver).
  destruct (Hall a) as (t0 & t & H0 & Hfr & Ha & Ht); [by left|].
  destruct (timer_update_ticked t0 a k t s Hfr Ha Ht Hk Hk1) as (t' & Ht' & E). rewrite (bind_done _ _ _ _ _ E).
  set (s1 := Timers _ _ _). assert (on_tlinks (read_next a) s1 = Done (default timers_tail (head l), s1)) as Hr.
  { unfold on_tlinks, zoom. cbn [tlinks s1]. by rewrite (read_next_done _ _ _ Hn). }
  rewrite (bind_done _ _ _ _ _ Hr).
  destruct (IH fuel s1 Hk Hk1 ltac:(simpl in Hf; lia) Hl' Hnd) as (obj' & E' & Hall' & Hout).
  { intros b Hb. destruct (Hall b) as (u0 & u & ? & ? & Hu & ?); [by right|]. exists u0, u. split_and!; [done|done| |done].
    cbn. rewrite lookup_insert_ne; [done|]. intros ->. set_solver. }
  exists obj'. split_and!.
  - rewrite E'. cbn [tlinks world s1 List.filter]. unfold due at 2. rewrite H0. destruct (fires_at _ _ _); [|done].
    cbn [acts foldl]. by rewrite H0.
  - intros b [->|Hb]%elem_of_cons; [|by apply Hall']. exists t0, t'. split_and!; [done|done| |done].
    rewrite Hout by set_solver. apply lookup_insert_eq.
  - intros b Hb. apply not_elem_of_cons in Hb as [Hne Hb]. rewrite Hout by done. cbn. by rewrite lookup_insert_ne.
Qed.

Lemma acts_app obj l1 l2 w : acts obj (l1 ++ l2) w = acts obj l2 (acts obj l1 w).
Proof. apply foldl_app. Qed.

Lemma ticks_schedule obj ts n : forall k s, 0 <= k -> k + Z.of_nat n < 2 ^ 64 ->
  dll (tlinks s) timers_head ts timers_tail -> all_ticked obj ts k (objects s) ->
  exists obj', ticks n s = Done (tt, Timers obj' (tlinks s) (acts obj (schedule obj ts k n) (world s))) /\
    all_ticked obj ts (k + Z.of_nat n) obj'.
Proof.
  induction n as [|n IH]; intros k s Hk Hkn Hd Hall; cbn [ticks schedule].
  { exists (objects s). rewrite Z.add_0_r. by destruct s. }
  pose proof (dll_length _ _ _ _ Hd) as Hlen. pose proof Hd as [Hnd Hl].
  assert (next_of (tlinks s) timers_head = Some (default timers_tail (head ts)) /\ linked (tlinks s) (ts ++ [timers_tail])) as [Hn Hl'].
  { destruct ts as [|b ts]; cbn in Hl |- *; tauto. }
  destruct (update_from_ticked obj k ts (S (size (tlinks s))) s Hk ltac:(lia) Hlen Hl') as (obj1 & E & Hall1 & _).
  { by apply NoDup_cons in Hnd as [_ Hnd]. } { done. }
  set (s1 := Timers _ _ _) in E. assert (timers_update s = Done (tt, s1)) as Hu.
  { unfold timers_update. rewrite bind_get.
    assert (on_tlinks (read_next timers_head) s = Done (default timers_tail (head ts), s)) as Hr.
    { unfold on_tlinks, zoom. rewrite (read_next_done _ _ _ Hn). by destruct s. }
    by rewrite (bind_done _ _ _ _ _ Hr). }
  rewrite (bind_done _ _ _ _ _ Hu). destruct (IH (k + 1) s1 ltac:(lia) ltac:(lia) Hd Hall1) as (obj' & E' & Hall').
  exists obj'. rewrite E'. cbn [tlinks world s1]. rewrite acts_app. split; [done|].
  by replace (k + Z.of_nat (S n)) with (k + 1 + Z.of_nat n) by lia.
Qed.

End schedule.

(** ** A handler that frees its own timer *)

(** The count is written back through the pointer to the freed timer. *)
Lemma self_freeing_timer {A} (effect : M W A) s a t x w' : objects s !! a = Some t -> t_state t = WAITING ->
  start_ticks t <= u64 (current_ticks t + 1) -> effect (world s) = Done (x, w') ->
  (forall s1 t1, objects s1 !! a = Some t1 -> cookie t1 = cookie t -> call (handler t) a s1 = (do! on_world effect; timer_free a) s1) ->
  timer_update a s = Stop Undefined.
Proof.
  intros Ha Hs Hdue He Hcall.
  unfold timer_update. assert (get_timer a s = Done (t, s)) as Hg by (unfold get_timer; by rewrite Ha).
  rewrite (bind_done _ _ _ _ _ Hg). set (t1 := set_ticks _ t).
  rewrite (bind_done (put_timer a t1) _ s tt _ eq_refl). change (t_state t1) with (t_state t). rewrite Hs.
  cbn [set_ticks current_ticks start_ticks t1]. replace (_ >=? _) with true by lia.
  rewrite (bind_done (put_timer a (set_running t1)) _ _ tt _ eq_refl). change (handler t1) with (handler t).
  set (s1 := Timers _ _ _). unfold bind at 1. rewrite (Hcall s1 (set_running t1)); [|apply lookup_insert_eq|done].
  assert (on_world effect s1 = Done (x, Timers (objects s1) (tlinks s1) w')) as E by (unfold on_world, zoom; cbn; by rewrite He).
  rewrite (bind_done _ _ _ _ _ E). destruct (timer_free a _) as [[[] s2]|w] eqn:Ef; last first.
  - f_equal. unfold timer_free, bind, on_tlinks, zoom in Ef. destruct (dll_unlink a _) as [[? ?]|w0] eqn:Eu; [done|].
    injection Ef as <-. by eapply dll_unlink_stop.
  - apply bind_stop. unfold timer_free in Ef. apply bind_done_inv in Ef as ([] & s3 & _ & [= <-]).
    unfold get_timer. cbn. by rewrite lookup_delete_eq.
Qed.
End timer.

(** [TIMER_MS_TO_TICKS] multiplies by a thousand where a million nanoseconds
    make a millisecond, so a second counts as a millisecond. *)
Lemma seconds_are_milliseconds s : 0 <= s < 2 ^ 44 -> TIMER_S_TO_TICKS s = TIMER_US_TO_TICKS (1000 * s).
Proof.
  intros Hs. unfold TIMER_S_TO_TICKS, TIMER_MS_TO_TICKS, TIMER_NS_TO_TICKS. rewrite (u64_small (1000 * s)) by lia.
  rewrite u64_small by lia. f_equal. rewrite Z.mul_comm, Z.div_mul; lia.
Qed.

(** ** A run *)

(** Handlers that append their timer to a log. *)
Definition log_call (_ : unit) (a : Z) : M (@timers unit (list Z)) unit := on_world (modify (fun w => w ++ [a])).
Definition log_act (a : Z) (_ : @timer_t unit) (w : list Z) : list Z := w ++ [a].

(** A periodic timer, a one-shot timer due at once, and a blinking cursor. *)
Definition demo_timers : outcome (unit * @timers unit (list Z)) :=
  (do! timers_init; do! timer_init 1 tt 0 3 2; do! timer_init 2 tt 0 0 0; timer_init 3 tt 0 0 4)
    (Timers ∅ {[ timers_head := Link 0 0; timers_tail := Link 0 0 ]} []).
Definition demo_timers_state : @timers unit (list Z) :=
  Eval vm_compute in match demo_timers with Done (_, s) => s | Stop _ => Timers ∅ ∅ [] end.

Lemma demo_timers_list : dll (tlinks demo_timers_state) timers_head [3; 2; 1] timers_tail.
Proof. split; [apply (bool_decide_unpack _); vm_compute; exact I|vm_compute; split_and!; try reflexivity; by eexists]. Qed.

