(* ===== verification/Wait.v ===== *)
(** * Wait: calls that may block

    A kernel function that calls [scheduler_await] either goes on at once,
    because a signal was latched, or leaves the calling thread suspended on the
    event; the rest of the function runs when [event_invoke] has resumed the
    thread.  [EventService] is what a driver needs to know of that: whether the
    call returned, and that a latched signal is consumed.  The instance is the
    scheduler of Sched.v.  [Waiting D W] is a driver's own state [D] next to the
    state [W] of the events. *)
From S2P Require Import Prelude Dll Sched.

(** The outcome of a call that may block. *)
Inductive waited (A : Type) : Type :=
  | Blocked              (* suspended in [scheduler_await] *)
  | Ready (a : A).
Arguments Blocked {A}.
Arguments Ready {A} a.

Class EventService (W : Type) := {
  ev_init : Z -> M W unit;
  ev_free : Z -> M W unit;
  ev_invoke : Z -> M W unit;
  ev_await : Z -> M W bool;          (* false: the thread is suspended *)
  ev_latched : W -> Z -> bool;
  ev_await_latched e w : ev_latched w e = true -> exists w', ev_await e w = Done (true, w') /\ ev_latched w' e = false;
  ev_await_returns e w w' : ev_await e w = Done (true, w') -> ev_latched w e = true
}.

(** ** The scheduler's events *)

Definition sched_await (e : Z) : M sched bool :=
  let! r := scheduler_await e in ret (match r with None => true | Some _ => false end).
Definition sched_latched (s : sched) (e : Z) : bool :=
  match events s !! e with Some ev => has_signal ev | None => false end.

#[export] Instance sched_events : EventService sched.
Proof.
  refine {| ev_init := event_init; ev_free := event_free; ev_invoke := event_invoke; ev_await := sched_await; ev_latched := sched_latched |}.
  - intros e w Hl. unfold sched_latched in Hl. destruct (events w !! e) as [ev|] eqn:E; [|done].
    unfold sched_await, scheduler_await, await_with, bind, get_event. rewrite E, Hl. eexists. split; [reflexivity|].
    unfold sched_latched. cbn. by rewrite lookup_insert_eq.
  - intros e w w'. unfold sched_await, scheduler_await, await_with, sched_latched. intros (r & s1 & Hr & [= Hb ->])%bind_done_inv.
    destruct r as [r|]; [done|]. apply bind_done_inv in Hr as (ev & s2 & Hg & Hr). unfold get_event in Hg.
    destruct (events w !! e) as [ev'|]; [|done]. injection Hg as -> <-. destruct (has_signal ev); [done|]. exfalso.
    repeat (let a := fresh in let s := fresh in let H := fresh in apply bind_done_inv in Hr as (a & s & H & Hr)). discriminate Hr.
Defined.

(** ** A driver next to the events *)

Record waiting (D W : Type) := Waiting { dev : D; evs : W }.
Arguments Waiting {D W} dev evs.
Arguments dev {D W} _.
Arguments evs {D W} _.

Section waiting.
Context {D W : Type} `{!EventService W}.

Definition on_events {A} (m : M W A) : M (waiting D W) A := zoom evs (fun w s => Waiting (dev s) w) m.
Definition on_dev {A} (m : M D A) : M (waiting D W) A := zoom dev (fun d s => Waiting d (evs s)) m.
Definition get_dev : M (waiting D W) D := gets dev.
Definition put_dev (d : D) : M (waiting D W) unit := modify (fun s => Waiting d (evs s)).

(** [while (busy) scheduler_await(e);]: whether the loop ended. *)
Fixpoint await_while (fuel : nat) (busy : D -> bool) (e : D -> Z) : M (waiting D W) bool :=
  match fuel with
  | O => stop_with NoFuel
  | S fuel' =>
      let! d := get_dev in
      if busy d then
        let! r := on_events (ev_await (e d)) in
        if r : bool then await_while fuel' busy e else ret false
      else ret true
  end.

(** Nothing but the driver changes [busy], so the second call suspends: two
    rounds are enough, and the driver's state is not touched. *)
Lemma await_while_cases (busy : D -> bool) (e : D -> Z) s :
  if busy (dev s) then
    (exists w, await_while 2 busy e s = Done (false, Waiting (dev s) w)) \/
    (exists x w, await_while 2 busy e s = Stop x /\ ev_await (e (dev s)) w = Stop x)
  else await_while 2 busy e s = Done (true, s).
Proof.
  cbn [await_while]. unfold get_dev. rewrite (bind_done (gets dev) _ s (dev s) s eq_refl).
  destruct (busy (dev s)) eqn:Hb; [|done].
  unfold bind at 1 4, on_events, zoom. destruct (ev_await (e (dev s)) (evs s)) as [[[] w1]|x] eqn:E1; last first.
  { right. by exists x, (evs s). }
  { left. by exists w1. }
  destruct (ev_await_latched _ _ (ev_await_returns _ _ _ E1)) as (w & E & Hw). rewrite E1 in E. injection E as <-.
  set (s1 := Waiting (dev s) w1). rewrite !(bind_done (gets dev) _ s1 (dev s) s1 eq_refl), Hb.
  unfold bind. cbn [evs s1]. destruct (ev_await (e (dev s)) w1) as [[[] w2]|x] eqn:E2; last first.
  { right. by exists x, w1. }
  { left. by exists w2. }
  apply ev_await_returns in E2. congruence.
Qed.
End waiting.

(** Two drivers on the same events, related by [R]. *)
Section simulation.
Context {D D' W : Type} `{!EventService W} (R : D -> D' -> Prop).

Definition alongside (s : waiting D W) (t : waiting D' W) : Prop := R (dev s) (dev t) /\ evs s = evs t.

Lemma on_events_simulates {A} (m : M W A) : simulates alongside (on_events m) (on_events m).
Proof. intros s t [Hr E]. unfold on_events, zoom. rewrite E. destruct (m (evs t)) as [[a w]|x]; by repeat split. Qed.

Lemma await_while_simulates fuel busy busy' e e' : (forall d d', R d d' -> busy d = busy' d' /\ e d = e' d') ->
  simulates alongside (await_while fuel busy e) (await_while fuel busy' e').
Proof.
  intros Hb. induction fuel as [|fuel IH]; [by intros s t _|]. cbn [await_while]. intros s t [Hr E].
  destruct (Hb _ _ Hr) as [Eb Ee]. unfold get_dev.
  rewrite (bind_done (gets dev) _ s (dev s) s eq_refl), (bind_done (gets dev) _ t (dev t) t eq_refl), Eb, Ee.
  destruct (busy' (dev t)); [|by repeat split].
  apply outcomes_bind; [by apply on_events_simulates|]. intros [|]; [done|apply simulates_ret].
Qed.

(** A call that first waits while the driver is busy: what follows has only to
    agree when it is not. *)
Lemma await_then_simulates {A} busy busy' e e' (k : M (waiting D W) (waited A)) (l : M (waiting D' W) (waited A)) :
  (forall d d', R d d' -> busy d = busy' d' /\ e d = e' d') ->
  (forall s t, alongside s t -> busy (dev s) = false -> outcomes_agree alongside (k s) (l t)) ->
  simulates alongside (let! ok := await_while 2 busy e in if negb ok then ret Blocked else k)
    (let! ok := await_while 2 busy' e' in if negb ok then ret Blocked else l).
Proof.
  intros Hb Hk s t Hst. pose proof (await_while_simulates 2 busy busy' e e' Hb s t Hst) as Ha.
  pose proof (await_while_cases busy e s) as Hc. unfold bind. destruct (busy (dev s)) eqn:Eb.
  - destruct Hc as [[w Hc]|(x & w & Hc & _)]; rewrite Hc in Ha |- *;
      destruct (await_while 2 busy' e' t) as [[b t']|y]; try done. destruct Ha as [<- Ha]. by split.
  - rewrite Hc in Ha |- *. destruct (await_while 2 busy' e' t) as [[b t']|y] eqn:Et; [|done].
    destruct Ha as [<- Ha]. by apply Hk.
Qed.
End simulation.

(** Events as flags, with nobody waiting: a second implementation of the
    interface, on which every call returns. *)
Definition flag_await (e : Z) : M (gmap Z bool) bool := fun w =>
  if default false (w !! e) then Done (true, <[e := false]> w) else Done (false, w).
Definition flag_events : EventService (gmap Z bool).
Proof.
  refine {| ev_init e := modify <[e := false]>; ev_free e := modify (delete e); ev_invoke e := modify <[e := true]>;
    ev_await := flag_await; ev_latched w e := default false (w !! e) |}.
  - intros e w Hl. unfold flag_await. rewrite Hl. eexists. split; [reflexivity|]. by rewrite lookup_insert_eq.
  - intros e w w'. unfold flag_await. by destruct (default false _).
Defined.
