(* ===== verification/UnixSocket.v ===== *)
(** * UnixSocket: local sockets (src/socket/unix.c)

    A socket listens, connects to a listening socket, or is one of a pair.  A
    connection request waits in the listener's queue until [accept] pairs the
    requester with a new socket; a pair exchanges packets, each side with a
    queue of incoming ones.  The queues are intrusive lists (Dll.v), kept here
    as lists.  [heap_room] says whether the heap has room for a block. *)
From S2P Require Import Prelude Dll Sched Wait.

(** [pk_data]: the [size] bytes at [data]. *)
Record unix_packet_t := UnixPacket { pk_pos : Z; pk_data : list Z }.
Definition pk_size (p : unix_packet_t) : Z := Z.of_nat (length (pk_data p)).

Record unix_socket_t := UnixSocket {
  listener_arrived : Z; listener_accepted : Z;
  listen_queue_size : Z; listen_queue_capacity : Z;
  listen_queue : list Z;             (* the requesters *)
  data_ready : Z;
  incoming : list unix_packet_t;
  paired_socket : option Z
}.
Definition set_listen (n c : Z) (q : list Z) (k : unix_socket_t) : unix_socket_t :=
  UnixSocket (listener_arrived k) (listener_accepted k) n c q (data_ready k) (incoming k) (paired_socket k).
Definition set_incoming (l : list unix_packet_t) (k : unix_socket_t) : unix_socket_t :=
  UnixSocket (listener_arrived k) (listener_accepted k) (listen_queue_size k) (listen_queue_capacity k) (listen_queue k) (data_ready k) l (paired_socket k).
Definition set_paired (p : option Z) (k : unix_socket_t) : unix_socket_t :=
  UnixSocket (listener_arrived k) (listener_accepted k) (listen_queue_size k) (listen_queue_capacity k) (listen_queue k) (data_ready k) (incoming k) p.

Abbreviation sockets := (gmap Z unix_socket_t).

Section unix.
Context {W : Type} `{!EventService W}.
Variable heap_room : Z -> bool.
Abbreviation net := (waiting sockets W).

Definition get_socket (a : Z) : M net unix_socket_t := fun s => of_option Undefined (dev s !! a) s.
Definition put_socket (a : Z) (k : unix_socket_t) : M net unit := modify (fun s => Waiting (<[a := k]> (dev s)) (evs s)).
Definition busy_if (p : unix_socket_t -> bool) (a : Z) (d : sockets) : bool := match d !! a with Some k => p k | None => false end.
Definition event_of (f : unix_socket_t -> Z) (a : Z) (d : sockets) : Z := match d !! a with Some k => f k | None => 0 end.

Definition heap_block (n : Z) : M net unit :=
  do! guard_or (Panic "Zero byte allocation") (negb (n =? 0));
  guard_or (Panic "Unable to find space for heap alloc") (heap_room n).

(** [a]: the address of the object; [e1], [e2], [e3]: those of its events. *)
Definition unix_socket_init (a e1 e2 e3 : Z) : M net unit :=
  do! on_events (ev_init e1);
  do! on_events (ev_init e2);
  do! on_events (ev_init e3);
  put_socket a (UnixSocket e1 e2 0 0 [] e3 [] None).

Definition unix_socket_free (a : Z) : M net unit := modify (fun s => Waiting (delete a (dev s)) (evs s)).

(** Pending requests are freed; nobody resumes the requesters. *)
Definition unix_socket_listen (a capacity : Z) : M net unit :=
  let! k := get_socket a in put_socket a (set_listen 0 capacity [] k).

(** Suspended until the request is accepted; then the call returns 0. *)
Definition unix_socket_connect (a target : Z) : M net (waited code) :=
  let! t := get_socket target in
  if listen_queue_size t =? listen_queue_capacity t then ret (Ready (NegErr ECONNREFUSED))
  else
    do! put_socket target (set_listen (listen_queue_size t) (listen_queue_capacity t) (listen_queue t ++ [a]) t);
    do! on_events (ev_invoke (listener_arrived t));
    let! r := on_events (ev_await (listener_accepted t)) in
    ret (if r : bool then Ready (Num 0) else Blocked).

(** [n]: the address of the new socket, with its events. *)
Definition unix_socket_accept (a n e1 e2 e3 : Z) : M net (waited (code * option Z)) :=
  let! k := get_socket a in
  if listen_queue_capacity k =? 0 then ret (Ready (NegErr EINVAL, None))
  else
    let! ok := await_while 2 (busy_if (fun k => bool_decide (listen_queue k = [])) a) (event_of listener_arrived a) in
    if negb ok then ret Blocked
    else
      let! k := get_socket a in
      match listen_queue k with
      | [] => stop_with Undefined
      | requester :: q =>
          do! put_socket a (set_listen (listen_queue_size k) (listen_queue_capacity k) q k);
          do! unix_socket_init n e1 e2 e3;
          let! m := get_socket n in
          do! put_socket n (set_paired (Some requester) m);
          let! r := get_socket requester in
          do! put_socket requester (set_paired (Some n) r);
          do! on_events (ev_invoke (listener_accepted k));
          ret (Ready (Num 0, Some n))
      end.

(** The result, [*read] and the bytes stored in the buffer. *)
Definition unix_socket_read (a size : Z) : M net (waited (code * option (list Z))) :=
  let! k := get_socket a in
  match paired_socket k with
  | None => ret (Ready (Err ERROR_NO_ADDR, None))
  | Some _ =>
      let! ok := await_while 2 (busy_if (fun k => bool_decide (incoming k = [])) a) (event_of data_ready a) in
      if negb ok then ret Blocked
      else
        let! k := get_socket a in
        match incoming k with
        | [] => stop_with Undefined
        | packet :: l =>
            let left := u64 (pk_size packet - pk_pos packet) in
            let bytes n := take (Z.to_nat n) (drop (Z.to_nat (pk_pos packet)) (pk_data packet)) in
            if left >? size then
              do! put_socket a (set_incoming (UnixPacket (u64 (pk_pos packet + size)) (pk_data packet) :: l) k);
              ret (Ready (Num 0, Some (bytes size)))
            else if left <? size then
              do! put_socket a (set_incoming l k); ret (Ready (Num 0, Some (bytes left)))
            else
              do! put_socket a (set_incoming l k); ret (Ready (Num 0, Some (bytes size)))
        end
  end.

(** The result and [*wrote]. *)
Definition unix_socket_write (a : Z) (data : list Z) : M net (code * option Z) :=
  let! k := get_socket a in
  match paired_socket k with
  | None => ret (Err ERROR_NO_ADDR, None)
  | Some b =>
      do! heap_block (Z.of_nat (length data));
      let! p := get_socket b in
      do! put_socket b (set_incoming (incoming p ++ [UnixPacket 0 data]) p);
      do! on_events (ev_invoke (data_ready p));
      ret (Num 0, Some (Z.of_nat (length data)))
  end.

(** ** A pair as two streams of packets *)

Inductive side := SideA | SideB.
#[local] Instance side_eq_dec : EqDecision side.
Proof. solve_decision. Defined.
Definition other (x : side) : side := match x with SideA => SideB | SideB => SideA end.

Inductive pair_op := Send (x : side) (data : list Z) | Receive (x : side) (size : Z).
Inductive pair_result := Sent (r : code * option Z) | Received (r : waited (code * option (list Z))).

Section pair.
Variables a b : Z.
Definition address (x : side) : Z := match x with SideA => a | SideB => b end.

Definition run_pair (o : pair_op) : M net pair_result :=
  match o with
  | Send x data => let! r := unix_socket_write (address x) data in ret (Sent r)
  | Receive x size => let! r := unix_socket_read (address x) size in ret (Received r)
  end.

(** What is on its way to each side: the unread rest of every packet. *)
Record streams := Streams { to_a : list (list Z); to_b : list (list Z) }.
Definition towards (x : side) (t : streams) : list (list Z) := match x with SideA => to_a t | SideB => to_b t end.
Definition set_towards (x : side) (l : list (list Z)) (t : streams) : streams :=
  match x with SideA => Streams l (to_b t) | SideB => Streams (to_a t) l end.

Variable ready_event : side -> Z.

Definition stream_send (x : side) (data : list Z) : M (waiting streams W) (code * option Z) :=
  do! guard_or (Panic "Zero byte allocation") (negb (bool_decide (data = [])));
  do! guard_or (Panic "Unable to find space for heap alloc") (heap_room (Z.of_nat (length data)));
  let! t := get_dev in
  do! put_dev (set_towards (other x) (towards (other x) t ++ [data]) t);
  do! on_events (ev_invoke (ready_event (other x)));
  ret (Num 0, Some (Z.of_nat (length data))).
(** Bytes of the oldest packet only; what does not fit stays. *)
Definition stream_receive (x : side) (size : Z) : M (waiting streams W) (waited (code * option (list Z))) :=
  let! ok := await_while 2 (fun t => bool_decide (towards x t = [])) (fun _ => ready_event x) in
  if negb ok then ret Blocked
  else
    let! t := get_dev in
    match towards x t with
    | [] => stop_with Undefined
    | p :: l =>
        let rest := drop (Z.to_nat size) p in
        do! put_dev (set_towards x (if bool_decide (rest = []) then l else rest :: l) t);
        ret (Ready (Num 0, Some (take (Z.to_nat size) p)))
    end.
Definition run_streams (o : pair_op) : M (waiting streams W) pair_result :=
  match o with
  | Send x data => let! r := stream_send x data in ret (Sent r)
  | Receive x size => let! r := stream_receive x size in ret (Received r)
  end.

(** A packet in a queue has something left to read. *)
Definition packet_ok (p : unix_packet_t) : Prop := 0 <= pk_pos p < pk_size p /\ pk_size p < 2 ^ 64.
Definition unread (p : unix_packet_t) : list Z := drop (Z.to_nat (pk_pos p)) (pk_data p).

Definition half_rep (d : sockets) (x : side) (l : list (list Z)) : Prop := exists k,
  d !! address x = Some k /\ paired_socket k = Some (address (other x)) /\ data_ready k = ready_event x /\
  Forall packet_ok (incoming k) /\ l = unread <$> incoming k.
(** [d0] has the sockets that are not of the pair. *)
Definition pair_rep (d0 d : sockets) (t : streams) : Prop :=
  (forall x, half_rep d x (towards x t)) /\ (forall c, c <> a -> c <> b -> d !! c = d0 !! c).
Definition valid_pair_op (o : pair_op) : Prop :=
  match o with Send _ data => Z.of_nat (length data) < 2 ^ 64 | Receive _ size => 0 <= size < 2 ^ 64 end.

Hypothesis Hab : a <> b.

Lemma address_other x : address (other x) <> address x.
Proof. destruct x; cbn; congruence. Qed.

(** Changing the queue of one side only. *)
Lemma pair_rep_set d0 d t x k l q : pair_rep d0 d t -> d !! address x = Some k -> Forall packet_ok l -> q = unread <$> l ->
  pair_rep d0 (<[address x := set_incoming l k]> d) (set_towards x q t).
Proof.
  intros [Hh Hf] Hk Hl Hq. split.
  - intros y. destruct (decide (y = x)) as [->|Hne].
    + destruct (Hh x) as (k' & Hk' & Hp & He & _). assert (k' = k) as -> by congruence.
      exists (set_incoming l k). rewrite lookup_insert_eq. by destruct x.
    + assert (y = other x) as -> by (by destruct x, y). destruct (Hh (other x)) as (k' & Hk' & H). exists k'.
      rewrite lookup_insert_ne by (intros E; by apply (address_other x)). by destruct x.
  - intros c Ha Hb. rewrite lookup_insert_ne by (by destruct x). by apply Hf.
Qed.

Lemma unread_cons p : packet_ok p -> unread p <> [] /\ length (unread p) = Z.to_nat (pk_size p - pk_pos p).
Proof.
  intros [Hp _]. unfold unread, pk_size in *. rewrite length_drop. split; [|lia]. intros E%(f_equal length). rewrite length_drop in E. cbn in E. lia.
Qed.

Lemma get_socket_done (s : net) c k : dev s !! c = Some k -> get_socket c s = Done (k, s).
Proof. unfold get_socket. by intros ->. Qed.

Lemma send_simulates d0 x data : Z.of_nat (length data) < 2 ^ 64 ->
  simulates (alongside (pair_rep d0)) (unix_socket_write (address x) data) (stream_send x data).
Proof.
  intros Hlen s t [Hr Ew]. destruct (proj1 Hr x) as (k & Hk & Hp & _). unfold unix_socket_write, stream_send.
  rewrite (bind_done _ _ _ _ _ (get_socket_done s _ k Hk)), Hp. unfold heap_block. rewrite bind_assoc.
  replace (Z.of_nat (length data) =? 0) with (bool_decide (data = [])) by (destruct data; [done|rewrite bool_decide_false by done; cbn; done]).
  case_bool_decide as Hd; cbn [negb guard_or]; [done|]. rewrite !bind_ret_l. destruct (heap_room _); cbn [guard_or]; [|done]. rewrite !bind_ret_l.
  destruct (proj1 Hr (other x)) as (m & Hm & _ & He & Hok & Hun). rewrite (bind_done _ _ _ _ _ (get_socket_done s _ m Hm)).
  unfold put_socket, get_dev, put_dev. rewrite bind_modify, (bind_done (gets dev) _ t (dev t) t eq_refl), bind_modify, He.
  apply outcomes_bind; [|intros; apply simulates_ret]. apply on_events_simulates. split; [|done]. cbn [dev].
  assert (packet_ok (UnixPacket 0 data)) as Hpk. { split; unfold pk_size; cbn; [|done]. destruct data; [done|cbn; lia]. }
  apply pair_rep_set; [done|done| |].
  - apply Forall_app_2; [done|by apply Forall_singleton].
  - by rewrite Hun, fmap_app.
Qed.

Lemma take_bytes p n : take (Z.to_nat n) (drop (Z.to_nat (pk_pos p)) (pk_data p)) = take (Z.to_nat n) (unread p).
Proof. done. Qed.

Lemma receive_simulates d0 x size : 0 <= size < 2 ^ 64 ->
  simulates (alongside (pair_rep d0)) (unix_socket_read (address x) size) (stream_receive x size).
Proof.
  intros Hsize s t Hst. unfold unix_socket_read. pose proof Hst as [Hr0 _]. destruct (proj1 Hr0 x) as (k0 & Hk0 & Hp0 & _).
  rewrite (bind_done _ _ _ _ _ (get_socket_done s _ k0 Hk0)), Hp0. clear Hr0 Hk0 Hp0 k0. revert s t Hst.
  unfold stream_receive. apply (await_then_simulates (pair_rep d0)).
  { intros d q [Hh _]. destruct (Hh x) as (k & Hk & _ & He & _ & Hq). unfold busy_if, event_of. rewrite Hk, He, Hq. split; [|done].
    by destruct (incoming k). }
  intros s t [Hr Ew] Hb. destruct (proj1 Hr x) as (k & Hk & Hp & He & Hok & Hun). unfold get_dev.
  rewrite (bind_done _ _ _ _ _ (get_socket_done s _ k Hk)), (bind_done (gets dev) _ t (dev t) t eq_refl), Hun.
  unfold busy_if in Hb. rewrite Hk in Hb. destruct (incoming k) as [|p l] eqn:Ei; [done|]. cbn [fmap list_fmap].
  apply Forall_cons in Hok as [Hpk Hok]. destruct (unread_cons p Hpk) as [Hne Hlen]. pose proof Hpk as [Hpos Hsz].
  rewrite (u64_small (pk_size p - pk_pos p)) by lia. rewrite !take_bytes. unfold put_socket, put_dev.
  assert (forall z : Z, take (Z.to_nat (pk_size p - pk_pos p)) (unread p) = unread p) as Hall by (intros; rewrite take_ge; [done|lia]).
  destruct (Z.gtb_spec (pk_size p - pk_pos p) size) as [Hgt|Hle].
  - rewrite bool_decide_false by (intros E%(f_equal length); rewrite length_drop in E; cbn in E; lia). rewrite !bind_modify. split; [done|]. split; [|done].
    cbn [dev]. rewrite u64_small by lia. apply pair_rep_set; [done|done| |].
    + constructor; [|done]. unfold packet_ok, pk_size in *. cbn [pk_pos pk_data]. lia.
    + cbn [fmap list_fmap]. f_equal. unfold unread. cbn [pk_pos pk_data]. rewrite drop_drop. f_equal. lia.
  - rewrite bool_decide_true by (apply nil_length_inv; rewrite length_drop; lia). rewrite (take_ge (unread p) (Z.to_nat size)) by lia.
    destruct (Z.ltb_spec (pk_size p - pk_pos p) size) as [Hlt|Hge]; rewrite !bind_modify.
    + rewrite (Hall 0). split; [done|]. split; [|done]. cbn [dev]. by apply pair_rep_set.
    + split; [done|]. split; [|done]. cbn [dev]. by apply pair_rep_set.
Qed.

(** C20: A pair of sockets is two reliable streams of packets.  Whatever the two
    sides send and receive, in any order, each receives what the other sent, in
    order, nothing lost, repeated or mixed with the other direction: a receive
    returns bytes of the oldest packet only, keeps what did not fit, and
    suspends the caller while nothing has been sent.  No other socket changes. *)
Theorem pair_refines_streams d0 os d t w (Hrep : pair_rep d0 d t) (Hv : Forall valid_pair_op os) :
  outcomes_agree (alongside (pair_rep d0)) (run_all run_pair os (Waiting d w)) (run_all run_streams os (Waiting t w)).
Proof using Hab.
  apply run_all_simulates; [|by split]. intros o Ho. rewrite Forall_forall in Hv. specialize (Hv o Ho).
  destruct o as [x data|x size]; cbn [run_pair run_streams valid_pair_op] in *; apply simulates_bind; intros; try apply simulates_ret;
    [by apply send_simulates|by apply receive_simulates].
Qed.
End pair.

(** ** Connecting *)

(** A request and its acceptance make a pair.  The first requester in the
    listener's queue and the new socket become each other's peer, with nothing
    to read on the new side; the queue loses exactly that request, and every
    other socket is as it was. *)
Theorem accept_pairs (s : net) l k r q kr n e1 e2 e3 w1 w2 w3 w4
  (Hl : dev s !! l = Some k) (Hc : listen_queue_capacity k <> 0) (Hq : listen_queue k = r :: q) (Hr : dev s !! r = Some kr)
  (Hn : dev s !! n = None) (Hrl : r <> l)
  (H1 : ev_init e1 (evs s) = Done (tt, w1)) (H2 : ev_init e2 w1 = Done (tt, w2)) (H3 : ev_init e3 w2 = Done (tt, w3))
  (H4 : ev_invoke (listener_accepted k) w3 = Done (tt, w4)) :
  exists s', unix_socket_accept l n e1 e2 e3 s = Done (Ready (Num 0, Some n), s') /\ evs s' = w4 /\
    dev s' !! r = Some (set_paired (Some n) kr) /\
    dev s' !! n = Some (UnixSocket e1 e2 0 0 [] e3 [] (Some r)) /\
    dev s' !! l = Some (set_listen (listen_queue_size k) (listen_queue_capacity k) q k) /\
    (forall c, c <> l -> c <> n -> c <> r -> dev s' !! c = dev s !! c).
Proof.
  assert (n <> l /\ n <> r) as [Hnl Hnr] by (split; intros ->; congruence).
  unfold unix_socket_accept. rewrite (bind_done _ _ _ _ _ (get_socket_done s l k Hl)), (proj2 (Z.eqb_neq _ 0)) by done.
  pose proof (await_while_cases (busy_if (fun k => bool_decide (listen_queue k = [])) l) (event_of listener_arrived l) s) as Ha.
  unfold busy_if in Ha at 1. rewrite Hl, Hq, bool_decide_false in Ha by done. rewrite (bind_done _ _ _ _ _ Ha). cbn [negb].
  rewrite (bind_done _ _ _ _ _ (get_socket_done s l k Hl)), Hq. unfold put_socket at 1. rewrite bind_modify.
  set (d1 := <[l := _]> (dev s)). set (d2 := <[n := UnixSocket e1 e2 0 0 [] e3 [] None]> d1).
  assert (unix_socket_init n e1 e2 e3 (Waiting d1 (evs s)) = Done (tt, Waiting d2 w3)) as Hi.
  { unfold unix_socket_init, on_events, zoom, bind. cbn [evs dev]. rewrite H1. cbn [evs dev]. rewrite H2. cbn [evs dev]. by rewrite H3. }
  rewrite (bind_done _ _ _ _ _ Hi). rewrite (bind_done _ _ _ _ _ (get_socket_done (Waiting d2 w3) n _ (lookup_insert_eq _ _ _))).
  unfold put_socket. rewrite bind_modify. cbn [dev evs]. set (d3 := <[n := _]> d2).
  assert (dev (Waiting d3 w3) !! r = Some kr) as Hr3.
  { cbn. subst d3 d2 d1. by rewrite !lookup_insert_ne by congruence. }
  rewrite (bind_done _ _ _ _ _ (get_socket_done (Waiting d3 w3) r kr Hr3)), bind_modify. cbn [dev evs].
  assert (on_events (ev_invoke (listener_accepted k)) (Waiting (<[r := set_paired (Some n) kr]> d3) w3) =
    Done (tt, Waiting (<[r := set_paired (Some n) kr]> d3) w4)) as Hinv by (unfold on_events, zoom; cbn; by rewrite H4).
  rewrite (bind_done _ _ _ _ _ Hinv). eexists. split; [reflexivity|]. cbn [dev evs]. split; [done|].
  split_and!; [apply lookup_insert_eq| | |].
  - rewrite lookup_insert_ne by congruence. subst d3. by rewrite lookup_insert_eq.
  - rewrite lookup_insert_ne by done. subst d3 d2 d1. rewrite !lookup_insert_ne by done. apply lookup_insert_eq.
  - intros c ? ? ?. subst d3 d2 d1. by rewrite !lookup_insert_ne by congruence.
Qed.

(** The backlog is not a bound.  [listen_queue_size] is never raised, so
    a listener with any capacity but 0 accepts every request: after any number
    of them its queue is that much longer and the next one is not refused. *)
Theorem backlog_not_enforced (rs : list Z) (s : net) l k
  (Hl : dev s !! l = Some k) (Hs : listen_queue_size k = 0) (Hc : listen_queue_capacity k <> 0)
  (Hev : forall w, exists w', ev_invoke (listener_arrived k) w = Done (tt, w'))
  (Haw : forall w, exists b w', ev_await (listener_accepted k) w = Done (b, w')) :
  exists out s', run_all (fun r => unix_socket_connect r l) rs s = Done (out, s') /\
    Forall (fun o => o <> Ready (NegErr ECONNREFUSED)) out /\
    dev s' !! l = Some (set_listen 0 (listen_queue_capacity k) (listen_queue k ++ rs) k).
Proof.
  revert s k Hl Hs Hc Hev Haw. induction rs as [|r rs IH]; intros s k Hl Hs Hc Hev Haw; cbn [run_all].
  { exists [], s. split_and!; [done|done|]. rewrite app_nil_r, Hl. destruct k. cbn in Hs. by subst. }
  set (k1 := set_listen 0 (listen_queue_capacity k) (listen_queue k ++ [r]) k).
  destruct (Hev (evs s)) as [w1 E1]. destruct (Haw w1) as (b & w2 & E2).
  assert (unix_socket_connect r l s = Done (if b then Ready (Num 0) else Blocked, Waiting (<[l := k1]> (dev s)) w2)) as E.
  { unfold unix_socket_connect. rewrite (bind_done _ _ _ _ _ (get_socket_done s l k Hl)), Hs, (proj2 (Z.eqb_neq 0 _)) by done.
    unfold put_socket, on_events, zoom. rewrite bind_modify. unfold bind. cbn [evs dev]. rewrite E1. cbn [evs dev]. rewrite E2. done. }
  rewrite (bind_done _ _ _ _ _ E).
  destruct (IH (Waiting (<[l := k1]> (dev s)) w2) k1) as (out & s' & E' & Hout & Hk); [apply lookup_insert_eq|done|done|done|done|].
  rewrite (bind_done _ _ _ _ _ E'). eexists _, _. split; [reflexivity|]. split.
  - constructor; [by destruct b|done].
  - rewrite Hk. unfold k1, set_listen. cbn. by rewrite <- app_assoc.
Qed.
End unix.

(** ** Runs *)

Definition demo_room (_ : Z) : bool := true.
Definition demo_side (p e : Z) : unix_socket_t := UnixSocket (e + 100) (e + 200) 0 0 [] e [] (Some p).
Definition demo_pair : sockets := {[ 1 := demo_side 2 60; 2 := demo_side 1 61 ]}.
Definition demo_pair_event (x : side) : Z := match x with SideA => 60 | SideB => 61 end.
Definition demo_pair_ops : list pair_op := [Send SideA [7; 8; 9]; Send SideA [5]; Receive SideB 2; Receive SideB 9; Receive SideB 9; Receive SideA 1].
Definition demo_flags : gmap Z bool := ∅.

Lemma demo_pair_rep : pair_rep 1 2 demo_pair_event demo_pair demo_pair (Streams [] []).
Proof. split; [|done]. intros [|]; [exists (demo_side 2 60)|exists (demo_side 1 61)]; by split_and!. Qed.

Lemma pair_refines_streams_witness :
  outcomes_agree (alongside (pair_rep 1 2 demo_pair_event demo_pair))
    (run_all (run_pair (EventService0 := flag_events) demo_room 1 2) demo_pair_ops (Waiting demo_pair demo_flags))
    (run_all (run_streams (EventService0 := flag_events) demo_room demo_pair_event) demo_pair_ops (Waiting (Streams [] []) demo_flags)) /\
  exists s, run_all (run_streams (EventService0 := flag_events) demo_room demo_pair_event) demo_pair_ops (Waiting (Streams [] []) demo_flags) =
    Done ([Sent (Num 0, Some 3); Sent (Num 0, Some 1); Received (Ready (Num 0, Some [7; 8])); Received (Ready (Num 0, Some [9]));
           Received (Ready (Num 0, Some [5])); Received Blocked], s).
Proof.
  split; [|eexists; vm_compute; reflexivity].
  apply (pair_refines_streams (EventService0 := flag_events) demo_room 1 2 demo_pair_event ltac:(discriminate) demo_pair demo_pair_ops _ _ demo_flags demo_pair_rep).
  repeat constructor; discriminate.
Defined.

Definition demo_listener : unix_socket_t := UnixSocket 160 260 0 1 [2] 60 [] None.
Definition demo_client : unix_socket_t := UnixSocket 161 261 0 0 [] 61 [] None.
Definition demo_sockets : sockets := {[ 1 := demo_listener; 2 := demo_client ]}.

Lemma accept_pairs_witness : exists s', unix_socket_accept (EventService0 := flag_events) 1 3 70 71 72 (Waiting demo_sockets demo_flags) = Done (Ready (Num 0, Some 3), s') /\
  dev s' !! 2 = Some (set_paired (Some 3) demo_client) /\ dev s' !! 3 = Some (UnixSocket 70 71 0 0 [] 72 [] (Some 2)).
Proof.
  destruct (accept_pairs (EventService0 := flag_events) (Waiting demo_sockets demo_flags) 1 demo_listener 2 [] demo_client 3 70 71 72 _ _ _ _
    ltac:(reflexivity) ltac:(discriminate) ltac:(reflexivity) ltac:(reflexivity) ltac:(reflexivity) ltac:(discriminate)
    ltac:(reflexivity) ltac:(reflexivity) ltac:(reflexivity) ltac:(reflexivity)) as (s' & E & _ & H2 & H3 & _).
  exists s'. split; [exact E|]. split; [exact H2|exact H3].
Defined.

Lemma backlog_not_enforced_witness : exists out s',
  run_all (fun r => unix_socket_connect (EventService0 := flag_events) r 1) [4; 5; 6] (Waiting demo_sockets demo_flags) = Done (out, s') /\
  Forall (fun o => o <> Ready (NegErr ECONNREFUSED)) out /\
  dev s' !! 1 = Some (set_listen 0 1 [2; 4; 5; 6] demo_listener).
Proof.
  apply (backlog_not_enforced (EventService0 := flag_events) [4; 5; 6] (Waiting demo_sockets demo_flags) 1 demo_listener);
    [reflexivity|reflexivity|discriminate|intros w; eexists; reflexivity|].
  intros w. cbn. unfold flag_await. destruct (default false _); eexists _, _; reflexivity.
Defined.
