(* ===== verification/Input.v ===== *)
(** * Input: event devices (src/input/input.c)

    A driver hands packets over with [input_provide_packet], usually from an
    interrupt handler, and a process reads them one by one.  A packet is its
    bytes; byte 4 is the [size] field of the packed header.  The device keeps
    them in a circular buffer of [INPUT_BUFFER_SIZE] cells.  Registration with
    devfs is not modelled. *)
From S2P Require Import Prelude Ring Dll Sched Wait.

Definition INPUT_BUFFER_SIZE : Z := 32.
(** [sizeof(input_packet_header_t)] and [sizeof(input_packet_t)], packed. *)
Definition header_bytes : nat := 5.
Definition packet_bytes : nat := 10.

Abbreviation packet := (list Z).

(** [packet->header.size]. *)
Definition header_size (p : packet) : option Z := p !! 4%nat.

Record input_device_t := InputDevice {
  in_size : Z; in_capacity : Z; in_head : Z; in_tail : Z;
  packets : list packet; read_ready : Z
}.

(** [memcpy(dst, src, n)] between packets; outside of either it has no meaning. *)
Definition copy_packet (dst src : packet) (n : Z) : option packet :=
  if (0 <=? n) && (n <=? Z.of_nat (length src)) && (n <=? Z.of_nat (length dst))
  then Some (take (Z.to_nat n) src ++ drop (Z.to_nat n) dst) else None.

Section input.
Context {W : Type} `{!EventService W}.
Abbreviation device := (waiting input_device_t W).

(** [event] and [mem]: the event and the fresh packet array of the device. *)
Definition input_add_device (event : Z) (mem : list packet) : M W input_device_t :=
  do! ev_init event; ret (InputDevice 0 INPUT_BUFFER_SIZE 0 0 mem event).

(** The result and the bytes stored in the buffer. *)
Definition input_read (size : Z) : M device (waited (Z * list Z)) :=
  let! ok := await_while 2 (fun d => in_size d =? 0) read_ready in
  if negb ok then ret Blocked
  else
    let! d := get_dev in
    let! p := of_option Undefined (packets d !! Z.to_nat (in_tail d)) in
    let! n := of_option Undefined (header_size p) in
    if n >? size then ret (Ready (0, []))
    else
      do! guard_or Undefined ((0 <=? n) && (n <=? Z.of_nat (length p)));
      do! put_dev (InputDevice (u64 (in_size d - 1)) (in_capacity d) (in_head d)
                     (u64 (in_tail d + 1) mod in_capacity d) (packets d) (read_ready d));
      ret (Ready (n, take (Z.to_nat n) p)).

Definition input_provide_packet (p : packet) : M device Z :=
  let! d := get_dev in
  if in_size d =? in_capacity d then ret 0
  else
    let! dst := of_option Undefined (packets d !! Z.to_nat (in_head d)) in
    let! n := of_option Undefined (header_size p) in
    let! q := of_option Undefined (copy_packet dst p n) in
    do! put_dev (InputDevice (u64 (in_size d + 1)) (in_capacity d) (u64 (in_head d + 1) mod in_capacity d)
                   (in_tail d) (<[Z.to_nat (in_head d) := q]> (packets d)) (read_ready d));
    do! on_events (ev_invoke (read_ready d));
    ret 1.

(** Writing to a device: [accepted] is never set, so the first complete packet
    ends the loop. *)
Fixpoint input_write_from (fuel : nat) (buffer : list Z) (size offset : Z) : outcome Z :=
  match fuel with
  | O => Stop NoFuel
  | S fuel' =>
      if u64 (size - offset) <? Z.of_nat header_bytes then Done 0
      else
        match buffer !! Z.to_nat (offset + 4) with
        | None => Stop Undefined
        | Some n =>
            if u64 (size - offset) <? Z.of_nat header_bytes + n then Done 0
            else
              let accepted := false in
              if negb accepted then Done 0 else input_write_from fuel' buffer size (u64 (offset + n))
        end
  end.
Definition input_write (buffer : list Z) (size : Z) : outcome Z := input_write_from 1 buffer size 0.

(** ** A queue of packets *)

Inductive input_op := Provide (p : packet) | ReadPacket (size : Z).
Inductive input_result := Provided (n : Z) | GotPacket (r : waited (Z * list Z)).

Definition run_input (o : input_op) : M device input_result :=
  match o with
  | Provide p => let! n := input_provide_packet p in ret (Provided n)
  | ReadPacket size => let! r := input_read size in ret (GotPacket r)
  end.

(** The specification: at most 32 packets, first in first out, the newest
    dropped when the queue is full; a read takes a packet whole or not at all. *)
Definition queue_provide (event : Z) (p : packet) : M (waiting (list packet) W) Z :=
  let! q := get_dev in
  if bool_decide (Z.of_nat (length q) = INPUT_BUFFER_SIZE) then ret 0
  else
    let! n := of_option Undefined (header_size p) in
    do! put_dev (q ++ [take (Z.to_nat n) p]);
    do! on_events (ev_invoke event); ret 1.
Definition queue_read (event : Z) (size : Z) : M (waiting (list packet) W) (waited (Z * list Z)) :=
  let! ok := await_while 2 (fun q => bool_decide (q = [])) (fun _ => event) in
  if negb ok then ret Blocked
  else
    let! q := get_dev in
    match q with
    | [] => stop_with Undefined
    | p :: q' =>
        if Z.of_nat (length p) >? size then ret (Ready (0, []))
        else do! put_dev q'; ret (Ready (Z.of_nat (length p), p))
    end.
Definition run_packets (event : Z) (o : input_op) : M (waiting (list packet) W) input_result :=
  match o with
  | Provide p => let! n := queue_provide event p in ret (Provided n)
  | ReadPacket size => let! r := queue_read event size in ret (GotPacket r)
  end.

(** A packet as the drivers build them: its size covers the header, and is no
    more than the array holds or the largest packet has. *)
Definition well_formed (p : packet) : Prop :=
  exists n, header_size p = Some n /\ Z.of_nat header_bytes <= n <= Z.of_nat packet_bytes /\ n <= Z.of_nat (length p).
Definition valid_input (o : input_op) : Prop := match o with Provide p => well_formed p | ReadPacket _ => True end.

(** The packet in a cell. *)
Definition packet_of (cell : packet) : packet := take (Z.to_nat (default 0 (header_size cell))) cell.

Record input_rep (event : Z) (d : input_device_t) (q : list packet) : Prop := {
  ir_event : read_ready d = event;
  ir_capacity : in_capacity d = INPUT_BUFFER_SIZE;
  ir_cells : Forall (fun c => length c = packet_bytes) (packets d);
  ir_ring : exists cells, ring_rep INPUT_BUFFER_SIZE (in_tail d) (in_head d) (in_size d) (packets d) cells /\
    Forall well_formed cells /\ q = packet_of <$> cells
}.

Lemma copy_well_formed dst p n : well_formed p -> length dst = packet_bytes -> header_size p = Some n ->
  exists c, copy_packet dst p n = Some c /\ length c = packet_bytes /\ well_formed c /\ packet_of c = take (Z.to_nat n) p.
Proof.
  intros (n' & Hn & Hb & Hl) Hd Hn'. assert (n' = n) as -> by congruence. unfold header_bytes, packet_bytes in *.
  unfold copy_packet. rewrite Hd. change (Z.of_nat 10) with 10 in *. change (Z.of_nat 5) with 5 in *. replace (_ && _ && _) with true by andb_lia. eexists. split; [done|].
  set (c := take (Z.to_nat n) p ++ drop (Z.to_nat n) dst).
  assert (header_size c = Some n) as Hh.
  { unfold header_size, c. rewrite lookup_app_l by (rewrite length_take; lia). rewrite lookup_take_lt by lia. done. }
  assert (length c = 10%nat) as Hc by (unfold c; rewrite length_app, length_take, length_drop, Hd; lia).
  split; [done|]. split.
  - exists n. split; [done|]. rewrite Hc. unfold header_bytes, packet_bytes. lia.
  - unfold packet_of. rewrite Hh. cbn [default from_option id]. unfold c. rewrite take_app_le by (rewrite length_take; lia). rewrite take_take. f_equal. lia.
Qed.

Lemma well_formed_packet c : well_formed c -> exists n, header_size c = Some n /\ Z.of_nat (length (packet_of c)) = n /\
  0 <= n <= Z.of_nat (length c) /\ packet_of c = take (Z.to_nat n) c.
Proof.
  intros (n & Hn & Hb & Hl). unfold header_bytes, packet_bytes in *. exists n. unfold packet_of. rewrite Hn. cbn [default from_option id].
  rewrite length_take. split_and!; [done|lia|lia|lia|done].
Qed.

Lemma input_provide_simulates event p : well_formed p ->
  simulates (alongside (input_rep event)) (input_provide_packet p) (queue_provide event p).
Proof.
  intros Hp s t [[He Hc Hcells (cells & Hr & Hwf & Hq)] Ew]. unfold input_provide_packet, queue_provide, get_dev.
  rewrite (bind_done (gets dev) _ s (dev s) s eq_refl), (bind_done (gets dev) _ t (dev t) t eq_refl).
  pose proof Hr as [Hcap Htl Hsz Hfull Hhd _]. assert (length (dev t) = length cells) as Hlt by (by rewrite Hq, length_fmap). rewrite Hc, Hsz, Hlt.
  destruct (Z.eqb_spec (Z.of_nat (length cells)) INPUT_BUFFER_SIZE) as [Ef|Ef].
  { rewrite bool_decide_true by done. split; [done|]. split; [|done]. split; [done..|]. by exists cells. }
  rewrite bool_decide_false by done. pose proof (ring_wr_range _ _ _ _ _ _ Hr) as Hwr. unfold INPUT_BUFFER_SIZE in *.
  destruct (lookup_lt_is_Some_2 (packets (dev s)) (Z.to_nat (in_head (dev s)))) as [dst Hdst]; [lia|].
  rewrite Hdst. unfold of_option. rewrite (bind_done (fun s => Done (dst, s)) _ s dst s eq_refl).
  pose proof Hp as (n & Hn & Hb & _). rewrite Hn. rewrite (bind_done (fun s => Done (n, s)) _ s n s eq_refl), (bind_done (fun s => Done (n, s)) _ t n t eq_refl).
  pose proof (Forall_lookup_1 _ _ _ _ Hcells Hdst) as Hdl.
  destruct (copy_well_formed dst p n Hp Hdl Hn) as (c & Ec & Hcl & Hcw & Hcp). rewrite Ec, (bind_done (fun s => Done (c, s)) _ s c s eq_refl).
  unfold put_dev. rewrite !bind_modify. rewrite He. apply outcomes_bind; [|by intros; apply simulates_ret].
  apply on_events_simulates. split; [|done]. cbn [dev]. rewrite !u64_small by lia. split; [done|done| |].
  - cbn. apply Forall_insert_2; [done|exact Hcl].
  - exists (cells ++ [c]). cbn [dev]. rewrite Hq, fmap_app. cbn [fmap list_fmap]. rewrite Hcp. split_and!; [|apply Forall_app_2; [done|by apply Forall_singleton]|done].
    rewrite <- Hsz. apply ring_push; [done|lia].
Qed.

Lemma input_read_simulates event size : simulates (alongside (input_rep event)) (input_read size) (queue_read event size).
Proof.
  unfold input_read, queue_read. apply (await_then_simulates (input_rep event)).
  { intros d q [He _ _ (cells & Hr & _ & ->)]. split; [|done]. rewrite (ring_size _ _ _ _ _ _ Hr).
    destruct cells as [|c l]; cbn [length fmap list_fmap]; [done|]. rewrite bool_decide_false by done. apply Z.eqb_neq. lia. }
  intros s t [[He Hc Hcells (cells & Hr & Hwf & Hq)] Ew] Hb. unfold get_dev.
  rewrite (bind_done (gets dev) _ s (dev s) s eq_refl), (bind_done (gets dev) _ t (dev t) t eq_refl). rewrite Hq.
  pose proof Hr as [Hcap Htl Hsz Hfull _ _]. unfold INPUT_BUFFER_SIZE in *.
  destruct cells as [|c cells]; cbn [fmap list_fmap length] in *; [lia|].
  destruct (ring_pop _ _ _ _ _ _ _ Hr) as [Hlk Hr']. rewrite Hlk. unfold of_option. rewrite (bind_done (fun s => Done (c, s)) _ s c s eq_refl).
  apply Forall_cons in Hwf as [Hcw Hwf]. destruct (well_formed_packet c Hcw) as (n & Hn & Hlen & Hin & Hpk).
  rewrite Hn, (bind_done (fun s => Done (n, s)) _ s n s eq_refl), Hlen.
  destruct (n >? size) eqn:Eg.
  { split; [done|]. split; [|done]. split; [done..|]. exists (c :: cells). split_and!; [done|by constructor|done]. }
  replace (_ && _) with true by andb_lia. cbn [guard_or]. rewrite bind_ret_l. unfold put_dev. rewrite !bind_modify, Hpk.
  split; [done|]. split; [|done]. cbn [dev]. rewrite !u64_small by lia. rewrite Hc. split; [done..|]. cbn. by exists cells.
Qed.

(** C9: The circular buffer is a queue.  Whatever packets drivers provide and
    processes read, in any order, the device answers as a first-in-first-out
    queue of at most 32 packets does that drops what comes when it is full,
    and it calls the event in the same way: a read on an empty queue suspends
    the reader, and the next packet resumes it. *)
Theorem input_refines_queue event os d q w (Hrep : input_rep event d q) (Hv : Forall valid_input os) :
  outcomes_agree (alongside (input_rep event)) (run_all run_input os (Waiting d w)) (run_all (run_packets event) os (Waiting q w)).
Proof.
  apply run_all_simulates; [|by split]. intros o Ho. rewrite Forall_forall in Hv. specialize (Hv o Ho).
  destruct o as [p|size]; cbn [run_input run_packets]; apply simulates_bind; intros; try apply simulates_ret;
    [by apply input_provide_simulates|apply input_read_simulates].
Qed.
End input.

(** ** A run: a driver wakes the thread that waits for its packet *)

Definition demo_packet : packet := [1; 0; 0; 0; 8; 0; 30; 0; 0; 0].
Definition demo_input : input_device_t := InputDevice 0 INPUT_BUFFER_SIZE 31 31 (replicate 32 (replicate 10 0)) 50.
Definition demo_input_ops : list input_op := [Provide demo_packet; ReadPacket 4; ReadPacket 16; ReadPacket 16].

Lemma demo_input_rep : input_rep 50 demo_input [].
Proof.
  split; [done|done|by apply Forall_replicate|]. exists []. split_and!; [|done|done].
  apply ring_empty; by vm_compute.
Qed.

Lemma input_refines_queue_witness :
  outcomes_agree (alongside (input_rep 50)) (run_all run_input demo_input_ops (Waiting demo_input demo_sched))
    (run_all (run_packets 50) demo_input_ops (Waiting [] demo_sched)) /\
  exists s, run_all (run_packets 50) demo_input_ops (Waiting [] demo_sched) =
    Done ([Provided 1; GotPacket (Ready (0, [])); GotPacket (Ready (8, [1; 0; 0; 0; 8; 0; 30; 0])); GotPacket Blocked], s).
Proof.
  split; [|eexists; vm_compute; reflexivity].
  apply (input_refines_queue 50 demo_input_ops demo_input [] demo_sched demo_input_rep).
  repeat constructor. exists 8. split; [done|]. unfold header_bytes, packet_bytes. cbn [length demo_packet]. lia.
Defined.
