(* ===== verification/Ps2.v ===== *)
(** * Ps2: the keyboard and mouse driver (src modules/x86_ps2)

    The two interrupt handlers decode the bytes of the controller, one byte per
    interrupt, and hand packets to the input device of Input.v.  The byte an
    interrupt reads is an argument.  Setting the controller up is not
    modelled. *)
From S2P Require Import Prelude Ring Dll Sched Wait Input.

Definition IT_KEY : Z := 1.
Definition IT_REL : Z := 2.
Definition IT_ACTION_PRESS : Z := 0.
Definition IT_ACTION_RELEASE : Z := 1.
Definition IT_REL_X : Z := 0.
Definition IT_REL_Y : Z := 1.
Definition BTN_LEFT : Z := 272.

(** The packed structures, as the drivers fill them in. *)
Definition key_packet (action code : Z) : packet := le_bytes 4 IT_KEY ++ [8; action] ++ le_bytes 2 code.
Definition rel_packet (axis value : Z) : packet := le_bytes 4 IT_REL ++ [10; axis] ++ le_bytes 4 value.

(** [KEY_ESC] to [KEY_KPDOT]; what is not listed is 0. *)
Definition keycode_lut : list Z :=
  [0; 1; 2; 3; 4; 5; 6; 7; 8; 9; 10; 11; 12; 13; 14; 15; 16; 17; 18; 19; 20; 21; 22; 23; 24; 25; 26; 27; 28; 29;
   30; 31; 32; 33; 34; 35; 36; 37; 38; 39; 40; 41; 42; 43; 44; 45; 46; 47; 48; 49; 50; 51; 52; 53; 54; 55; 56; 57;
   58; 59; 60; 61; 62; 63; 64; 65; 66; 67; 68; 69; 70; 71; 72; 73; 74; 75; 76; 77; 78; 79; 80; 81; 82; 83] ++ replicate 428 0.

Inductive mouse_type_t := MOUSE_BASIC | MOUSE_SCROLLING | MOUSE_NONE.
#[export] Instance mouse_type_eq_dec : EqDecision mouse_type_t.
Proof. solve_decision. Defined.

(** The variables of the driver. *)
Record driver := Driver {
  mouse_type : mouse_type_t; mouse_packet_loc : Z; mouse_packet : list Z; mouse_buttons : list bool;
  awaiting_extra_keycode : bool; key_release : bool
}.
Definition set_packet (loc : Z) (p : list Z) (d : driver) : driver :=
  Driver (mouse_type d) loc p (mouse_buttons d) (awaiting_extra_keycode d) (key_release d).
Definition set_buttons (bs : list bool) (d : driver) : driver :=
  Driver (mouse_type d) (mouse_packet_loc d) (mouse_packet d) bs (awaiting_extra_keycode d) (key_release d).
Definition set_extra (b : bool) (d : driver) : driver :=
  Driver (mouse_type d) (mouse_packet_loc d) (mouse_packet d) (mouse_buttons d) b (key_release d).
Definition set_release (b : bool) (d : driver) : driver :=
  Driver (mouse_type d) (mouse_packet_loc d) (mouse_packet d) (mouse_buttons d) (awaiting_extra_keycode d) b.

Section ps2.
Context {W : Type} `{!EventService W}.

Record ps2 := Ps2 { drv : driver; device : waiting input_device_t W }.
Definition upd_drv (f : driver -> driver) : M ps2 unit := modify (fun s => Ps2 (f (drv s)) (device s)).
Definition provide (p : packet) : M ps2 unit :=
  zoom device (fun v s => Ps2 (drv s) v) (let! _ := input_provide_packet p in ret tt).

Definition packet_full (d : driver) : bool :=
  match mouse_type d with
  | MOUSE_BASIC => mouse_packet_loc d =? 3
  | MOUSE_SCROLLING => mouse_packet_loc d =? 4
  | MOUSE_NONE => false
  end.

(** [mouse_packet[i]], [mouse_buttons[i]]. *)
Definition cell (p : list Z) (i : nat) : Z := default 0 (p !! i).
Definition button (bs : list bool) (i : nat) : bool := default false (bs !! i).

Definition mouse_handler (data : Z) : M ps2 unit :=
  let! s := get in
  if bool_decide (mouse_type (drv s) = MOUSE_NONE) then ret tt
  else
    let data := s8 data in
    let loc := mouse_packet_loc (drv s) in
    if (loc =? 0) && negb (Z.testbit data 3) then ret tt
    else
      do! guard_or Undefined ((0 <=? loc) && (loc <? 4));
      do! upd_drv (fun d => set_packet (loc + 1) (<[Z.to_nat loc := data]> (mouse_packet d)) d);
      let! s := get in
      if packet_full (drv s) then
        let p := mouse_packet (drv s) in
        let buttons := [Z.testbit (cell p 0) 0; Z.testbit (cell p 0) 1; Z.testbit (cell p 0) 2] in
        do! for_each [0%nat; 1%nat; 2%nat] (fun i =>
              if xorb (button buttons i) (button (mouse_buttons (drv s)) i)
              then provide (key_packet (if button buttons i then IT_ACTION_PRESS else IT_ACTION_RELEASE) (BTN_LEFT + Z.of_nat i)) else ret tt);
        do! (if negb (cell p 1 =? 0) then provide (rel_packet IT_REL_X (cell p 1)) else ret tt);
        do! (if negb (cell p 2 =? 0) then provide (rel_packet IT_REL_Y (cell p 2)) else ret tt);
        upd_drv (fun d => set_buttons buttons (set_packet 0 (mouse_packet d) d))
      else ret tt.

Definition keyboard_handler (data : Z) : M ps2 unit :=
  if data =? 0xE0 then upd_drv (set_extra true)
  else if data =? 0xF0 then upd_drv (set_release true)
  else
    let! s := get in
    let! keycode := of_option Undefined (keycode_lut !! Z.to_nat (if awaiting_extra_keycode (drv s) then data + 256 else data)) in
    do! provide (key_packet (if key_release (drv s) then IT_ACTION_RELEASE else IT_ACTION_PRESS) keycode);
    upd_drv (fun d => set_extra false (set_release false d)).

(** ** Decoding whole streams *)

(** A key is a run of prefixes and a code. *)
Definition key_of (pre : list Z) (b : Z) : packet :=
  key_packet (if bool_decide (0xF0 ∈ pre) then IT_ACTION_RELEASE else IT_ACTION_PRESS)
    (default 0 (keycode_lut !! Z.to_nat (if bool_decide (0xE0 ∈ pre) then b + 256 else b))).
Fixpoint decode_keys (pre bytes : list Z) : list packet :=
  match bytes with
  | [] => []
  | b :: rest => if bool_decide (b = 0xE0 \/ b = 0xF0) then decode_keys (pre ++ [b]) rest else key_of pre b :: decode_keys [] rest
  end.

(** What one report of the mouse says: the buttons that changed, then the
    movements that are not zero. *)
Definition buttons_of (b0 : Z) : list bool := [Z.testbit (s8 b0) 0; Z.testbit (s8 b0) 1; Z.testbit (s8 b0) 2].
Definition changed (old new : list bool) (i : nat) : list packet :=
  if xorb (button new i) (button old i) then [key_packet (if button new i then IT_ACTION_PRESS else IT_ACTION_RELEASE) (BTN_LEFT + Z.of_nat i)] else [].
Definition moved (axis v : Z) : list packet := if negb (v =? 0) then [rel_packet axis v] else [].
Definition report (old : list bool) (b0 b1 b2 : Z) : list packet :=
  changed old (buttons_of b0) 0 ++ changed old (buttons_of b0) 1 ++ changed old (buttons_of b0) 2 ++ moved IT_REL_X (s8 b1) ++ moved IT_REL_Y (s8 b2).

(** Bytes that cannot start a report are skipped; a report has three bytes, or
    four of a mouse with a wheel; an unfinished one says nothing. *)
Fixpoint decode_mouse (wheel : bool) (old : list bool) (bytes : list Z) : list packet :=
  match bytes with
  | [] => []
  | b0 :: rest =>
      if negb (Z.testbit (s8 b0) 3) then decode_mouse wheel old rest
      else
        match rest with
        | b1 :: b2 :: rest2 =>
            match wheel, rest2 with
            | false, _ => report old b0 b1 b2 ++ decode_mouse wheel (buttons_of b0) rest2
            | true, _ :: rest3 => report old b0 b1 b2 ++ decode_mouse wheel (buttons_of b0) rest3
            | true, [] => []
            end
        | _ => []
        end
  end.

(** ** One byte at a time *)

Definition give (p : packet) : M (waiting input_device_t W) unit := let! _ := input_provide_packet p in ret tt.
(** The driver ends up as [r.1] and hands [r.2] over. *)
Definition emit (r : driver * list packet) (v : waiting input_device_t W) : outcome (unit * ps2) :=
  match for_each r.2 give v with Done (_, v') => Done (tt, Ps2 r.1 v') | Stop w => Stop w end.

Lemma provide_emits ps d v : for_each ps provide (Ps2 d v) = emit (d, ps) v.
Proof.
  unfold emit. cbn [fst snd]. revert v. induction ps as [|p ps IH]; intros v; [done|]. cbn [for_each]. unfold bind, provide, zoom at 1. cbn [device drv].
  change (let! _ := input_provide_packet p in ret tt) with (give p). destruct (give p v) as [[[] v1]|w]; [apply IH|done].
Qed.
Lemma emit_then (k : unit -> M ps2 unit) d d' ps v : (forall v', k tt (Ps2 d v') = Done (tt, Ps2 d' v')) ->
  bind (for_each ps provide) k (Ps2 d v) = emit (d', ps) v.
Proof. intros Hk. unfold bind. rewrite provide_emits. unfold emit. cbn [fst snd]. destruct (for_each ps give v) as [[[] v']|w]; [apply Hk|done]. Qed.

Fixpoint steps (step : driver -> Z -> driver * list packet) (d : driver) (bytes : list Z) : driver * list packet :=
  match bytes with
  | [] => (d, [])
  | b :: rest => let r := steps step (step d b).1 rest in (r.1, (step d b).2 ++ r.2)
  end.
Lemma handler_emits (h : Z -> M ps2 unit) step ok : (forall d v b, ok d -> 0 <= b < 256 -> h b (Ps2 d v) = emit (step d b) v /\ ok (step d b).1) ->
  forall bytes d v, ok d -> Forall (fun b => 0 <= b < 256) bytes -> for_each bytes h (Ps2 d v) = emit (steps step d bytes) v.
Proof.
  intros Hh. induction bytes as [|b bytes IH]; intros d v Hd Hb; [done|]. apply Forall_cons in Hb as [Hb0 Hb]. cbn [for_each steps].
  destruct (Hh d v b Hd Hb0) as [E Hok]. unfold bind. rewrite E. unfold emit at 1 2. cbn [fst snd]. rewrite for_each_app. unfold bind.
  destruct (for_each (step d b).2 give v) as [[[] v1]|w]; [|done]. rewrite (IH _ v1 Hok Hb). done.
Qed.

Definition is_byte (b : Z) : Prop := 0 <= b < 256.

(** *** Keys *)

Definition key_step (d : driver) (b : Z) : driver * list packet :=
  if b =? 0xE0 then (set_extra true d, [])
  else if b =? 0xF0 then (set_release true d, [])
  else (set_extra false (set_release false d),
        [key_packet (if key_release d then IT_ACTION_RELEASE else IT_ACTION_PRESS)
           (default 0 (keycode_lut !! Z.to_nat (if awaiting_extra_keycode d then b + 256 else b)))]).

Lemma keyboard_handler_step d v b : is_byte b -> keyboard_handler b (Ps2 d v) = emit (key_step d b) v.
Proof.
  intros Hb. unfold keyboard_handler, key_step. destruct (b =? 0xE0); [done|]. destruct (b =? 0xF0); [done|].
  rewrite bind_get. cbn [drv]. set (i := Z.to_nat _).
  assert (exists k, keycode_lut !! i = Some k) as [k Hk].
  { apply lookup_lt_is_Some_2. change (length keycode_lut) with 512%nat. unfold i, is_byte in *. destruct (awaiting_extra_keycode d); lia. }
  rewrite Hk. unfold of_option. rewrite (bind_done (fun s => Done (k, s)) _ (Ps2 d v) k (Ps2 d v) eq_refl). cbn [default from_option id].
  rewrite <- (emit_then (fun _ => upd_drv (fun d => set_extra false (set_release false d))) d _ _ v) by done.
  cbn [for_each]. unfold bind. by destruct (provide _ _) as [[[] ?]|].
Qed.

Lemma key_step_code d b : b <> 0xE0 -> b <> 0xF0 -> key_step d b =
  (set_extra false (set_release false d),
   [key_packet (if key_release d then IT_ACTION_RELEASE else IT_ACTION_PRESS)
      (default 0 (keycode_lut !! Z.to_nat (if awaiting_extra_keycode d then b + 256 else b)))]).
Proof. intros H1 H2. unfold key_step. by rewrite (proj2 (Z.eqb_neq _ _) H1), (proj2 (Z.eqb_neq _ _) H2). Qed.

Lemma decode_keys_steps bytes : forall d pre, awaiting_extra_keycode d = bool_decide (0xE0 ∈ pre) -> key_release d = bool_decide (0xF0 ∈ pre) ->
  (steps key_step d bytes).2 = decode_keys pre bytes.
Proof.
  induction bytes as [|b bytes IH]; intros d pre He Hf; [done|]. cbn [steps decode_keys snd].
  destruct (decide (b = 0xE0)) as [->|Hne]; [|destruct (decide (b = 0xF0)) as [->|Hnf]].
  - rewrite bool_decide_true by by left. apply IH; cbn; symmetry; [apply bool_decide_true; set_solver|rewrite Hf; apply bool_decide_ext; set_solver].
  - rewrite bool_decide_true by by right. apply IH; cbn; symmetry; [rewrite He; apply bool_decide_ext; set_solver|apply bool_decide_true; set_solver].
  - rewrite bool_decide_false by tauto. rewrite (key_step_code d b Hne Hnf). cbn [fst snd app]. f_equal; [by rewrite Hf, He|].
    apply IH; cbn; symmetry; apply bool_decide_false; set_solver.
Qed.

(** *** The mouse *)

Definition mouse_step (d : driver) (b : Z) : driver * list packet :=
  if bool_decide (mouse_type d = MOUSE_NONE) then (d, [])
  else if (mouse_packet_loc d =? 0) && negb (Z.testbit (s8 b) 3) then (d, [])
  else
    let p := <[Z.to_nat (mouse_packet_loc d) := s8 b]> (mouse_packet d) in
    let d1 := set_packet (mouse_packet_loc d + 1) p d in
    if packet_full d1 then
      let new := [Z.testbit (cell p 0) 0; Z.testbit (cell p 0) 1; Z.testbit (cell p 0) 2] in
      (set_buttons new (set_packet 0 p d1),
       changed (mouse_buttons d) new 0 ++ changed (mouse_buttons d) new 1 ++ changed (mouse_buttons d) new 2 ++ moved IT_REL_X (cell p 1) ++ moved IT_REL_Y (cell p 2))
    else (d1, []).

(** A report under way has room for the next byte. *)
Definition mouse_ok (d : driver) : Prop :=
  match mouse_type d with MOUSE_BASIC => 0 <= mouse_packet_loc d < 3 | MOUSE_SCROLLING => 0 <= mouse_packet_loc d < 4 | MOUSE_NONE => True end.

Lemma provide_if (c : bool) p s : (if c then provide p else ret tt) s = for_each (if c then [p] else []) provide s.
Proof. destruct c; [|done]. cbn [for_each]. unfold bind. by destruct (provide p s) as [[[] ?]|]. Qed.
Lemma for_each_ext {S X} (xs : list X) (f g : X -> M S unit) s : (forall x s, f x s = g x s) -> for_each xs f s = for_each xs g s.
Proof. intros Hfg. revert s. induction xs as [|x xs IH]; intros s; [done|]. cbn [for_each]. unfold bind. rewrite Hfg. by destruct (g x s) as [[[] ?]|]. Qed.

(** The packets of a full report, handed over in this order. *)
Lemma report_provides old new x y (s : ps2) (k : M ps2 unit) :
  (do! for_each [0%nat; 1%nat; 2%nat] (fun i => if xorb (button new i) (button old i)
     then provide (key_packet (if button new i then IT_ACTION_PRESS else IT_ACTION_RELEASE) (BTN_LEFT + Z.of_nat i)) else ret tt);
   do! (if negb (x =? 0) then provide (rel_packet IT_REL_X x) else ret tt);
   do! (if negb (y =? 0) then provide (rel_packet IT_REL_Y y) else ret tt); k) s =
  (do! for_each (changed old new 0 ++ changed old new 1 ++ changed old new 2 ++ moved IT_REL_X x ++ moved IT_REL_Y y) provide; k) s.
Proof.
  unfold bind at 1. rewrite (for_each_ext _ _ (fun i => for_each (changed old new i) provide)) by (intros; apply provide_if). cbn [for_each].
  unfold bind. rewrite !for_each_app. unfold bind. destruct (for_each (changed old new 0) provide s) as [[[] s0]|]; [|done].
  rewrite !for_each_app. unfold bind. destruct (for_each (changed old new 1) provide s0) as [[[] s1]|]; [|done].
  rewrite !for_each_app. unfold bind. destruct (for_each (changed old new 2) provide s1) as [[[] s2]|]; [|done]. cbn.
  rewrite !for_each_app. unfold bind. rewrite provide_if. unfold moved. destruct (for_each _ provide s2) as [[[] s3]|]; [|done].
  rewrite provide_if. done.
Qed.

Lemma mouse_handler_step d v b : mouse_ok d -> mouse_handler b (Ps2 d v) = emit (mouse_step d b) v /\ mouse_ok (mouse_step d b).1.
Proof.
  intros Hok. unfold mouse_handler, mouse_step. rewrite bind_get. cbn [drv]. case_bool_decide as Hn; [by split|].
  destruct ((mouse_packet_loc d =? 0) && negb (Z.testbit (s8 b) 3)); [by split|].
  assert (0 <= mouse_packet_loc d < 4) as Hl by (unfold mouse_ok in Hok; destruct (mouse_type d); [lia|lia|done]).
  replace ((0 <=? mouse_packet_loc d) && (mouse_packet_loc d <? 4)) with true by andb_lia. cbn [guard_or]. rewrite bind_ret_l. unfold upd_drv. rewrite bind_modify, bind_get. cbn [drv device].
  set (p := <[Z.to_nat (mouse_packet_loc d) := s8 b]> (mouse_packet d)). set (d1 := set_packet (mouse_packet_loc d + 1) p d).
  destruct (packet_full d1) eqn:Ef.
  - split; [|unfold mouse_ok; cbn; unfold mouse_ok in Hok; by destruct (mouse_type d)].
    cbv zeta. rewrite report_provides. by apply emit_then.
  - split; [done|]. cbn [fst]. unfold mouse_ok, packet_full, d1 in *. cbn in *. destruct (mouse_type d); [| |done]; apply Z.eqb_neq in Ef; lia.
Qed.

Definition packet_size (d : driver) : Z := match mouse_type d with MOUSE_BASIC => 3 | MOUSE_SCROLLING => 4 | MOUSE_NONE => 0 end.
Lemma packet_full_size d : mouse_type d <> MOUSE_NONE -> packet_full d = (mouse_packet_loc d =? packet_size d).
Proof. unfold packet_full, packet_size. by destruct (mouse_type d). Qed.

Lemma mouse_step_fill d b : mouse_type d <> MOUSE_NONE -> mouse_packet_loc d <> 0 \/ Z.testbit (s8 b) 3 = true -> mouse_packet_loc d + 1 <> packet_size d ->
  mouse_step d b = (set_packet (mouse_packet_loc d + 1) (<[Z.to_nat (mouse_packet_loc d) := s8 b]> (mouse_packet d)) d, []).
Proof.
  intros Hn Hb Hs. unfold mouse_step. rewrite bool_decide_false by done. rewrite packet_full_size by done.
  assert ((mouse_packet_loc d =? 0) && negb (Z.testbit (s8 b) 3) = false) as ->
    by (destruct Hb as [Hb|Hb]; [by rewrite (proj2 (Z.eqb_neq _ _) Hb)|rewrite Hb; by rewrite andb_false_r]).
  by rewrite (proj2 (Z.eqb_neq _ _)) by exact Hs.
Qed.
Lemma mouse_step_last d b p : mouse_type d <> MOUSE_NONE -> mouse_packet_loc d <> 0 -> mouse_packet_loc d + 1 = packet_size d ->
  p = <[Z.to_nat (mouse_packet_loc d) := s8 b]> (mouse_packet d) ->
  mouse_step d b = (set_buttons [Z.testbit (cell p 0) 0; Z.testbit (cell p 0) 1; Z.testbit (cell p 0) 2] (set_packet 0 p d),
    let new := [Z.testbit (cell p 0) 0; Z.testbit (cell p 0) 1; Z.testbit (cell p 0) 2] in
    changed (mouse_buttons d) new 0 ++ changed (mouse_buttons d) new 1 ++ changed (mouse_buttons d) new 2 ++ moved IT_REL_X (cell p 1) ++ moved IT_REL_Y (cell p 2)).
Proof.
  intros Hn H0 Hs ->. unfold mouse_step. rewrite bool_decide_false by done. rewrite (proj2 (Z.eqb_neq _ _) H0). cbn [andb].
  rewrite packet_full_size by done. by rewrite (proj2 (Z.eqb_eq _ _)) by exact Hs.
Qed.

#[local] Arguments s8 : simpl never.
#[local] Arguments Z.testbit : simpl never.

Definition wheel_type (wheel : bool) : mouse_type_t := if wheel then MOUSE_SCROLLING else MOUSE_BASIC.

Lemma decode_mouse_steps wheel n : forall bytes d, (length bytes <= n)%nat -> mouse_packet_loc d = 0 -> length (mouse_packet d) = 4%nat ->
  mouse_type d = wheel_type wheel -> (steps mouse_step d bytes).2 = decode_mouse wheel (mouse_buttons d) bytes.
Proof.
  induction n as [|n IH]; intros bytes d Hb Hl Hp Ht; [by destruct bytes; [|cbn in Hb; lia]|].
  destruct bytes as [|b0 rest]; [done|]. cbn [length] in Hb.
  assert (mouse_type d <> MOUSE_NONE) as Hn by (rewrite Ht; by destruct wheel).
  destruct (Z.testbit (s8 b0) 3) eqn:E3.
  2:{ cbn [decode_mouse]. rewrite E3. cbn [negb steps]. assert (mouse_step d b0 = (d, [])) as ->.
      { unfold mouse_step. rewrite bool_decide_false by done. by rewrite Hl, E3. }
      cbn [fst snd app]. apply IH; done || lia. }
  destruct d as [ty loc pk bs ex re]. cbn in Hl, Hp, Ht, Hn |- *. subst loc ty.
  destruct pk as [|x0 [|x1 [|x2 [|x3 [|? ?]]]]]; try discriminate Hp.
  rewrite E3. cbn [negb]. rewrite mouse_step_fill by (cbn; first [done|by right|by destruct wheel]). cbn [fst snd app set_packet].
  destruct rest as [|b1 rest]; [done|]. cbn [steps]. rewrite mouse_step_fill by (cbn; first [done|by left|by destruct wheel]). cbn [fst snd app set_packet].
  destruct rest as [|b2 rest]; [done|]. cbn [steps]. destruct wheel.
  - rewrite mouse_step_fill by (cbn; first [done|by left]). cbn [fst snd app set_packet].
    destruct rest as [|b3 rest]; [done|]. cbn [steps]. erewrite mouse_step_last by (cbn; reflexivity || done). cbn [fst snd].
    f_equal. apply (IH rest); cbn [length] in *; cbn; done || lia.
  - erewrite mouse_step_last by (cbn; reflexivity || done). cbn [fst snd]. f_equal. apply (IH rest); cbn [length] in *; cbn; done || lia.
Qed.

(** ** What the reader of the device gets *)

Lemma key_packet_wf action code : well_formed (key_packet action code).
Proof. exists 8. unfold header_bytes, packet_bytes. split; [done|]. split; [lia|]. done. Qed.
Lemma rel_packet_wf axis v : well_formed (rel_packet axis v).
Proof. exists 10. unfold header_bytes, packet_bytes. split; [done|]. split; [lia|]. done. Qed.

Lemma decode_keys_wf bytes : forall pre, Forall well_formed (decode_keys pre bytes).
Proof. induction bytes as [|b bytes IH]; intros pre; cbn [decode_keys]; [done|]. case_bool_decide; [apply IH|]. constructor; [apply key_packet_wf|apply IH]. Qed.

Lemma report_wf old b0 b1 b2 : Forall well_formed (report old b0 b1 b2).
Proof.
  assert (forall new i, Forall well_formed (changed old new i)) as Hc by (intros new i; unfold changed; destruct (xorb _ _); repeat constructor; apply key_packet_wf).
  assert (forall axis v, Forall well_formed (moved axis v)) as Hm by (intros axis v; unfold moved; destruct (negb _); repeat constructor; apply rel_packet_wf).
  unfold report. repeat apply Forall_app_2; done.
Qed.
Lemma decode_mouse_wf wheel n : forall bytes old, (length bytes <= n)%nat -> Forall well_formed (decode_mouse wheel old bytes).
Proof.
  induction n as [|n IH]; intros bytes old Hb; [by destruct bytes; [|cbn in Hb; lia]|]. destruct bytes as [|b0 rest]; [done|]. cbn [length decode_mouse] in *.
  destruct (negb _); [apply IH; lia|]. destruct rest as [|b1 [|b2 rest]]; [done|done|]. cbn [length] in *.
  destruct wheel; [destruct rest as [|b3 rest]; [done|]; cbn [length] in *|]; (apply Forall_app_2; [apply report_wf|apply IH; lia]).
Qed.

(** The queue the reader sees, as a packet arrives. *)
Definition queue_give (event : Z) (p : packet) : M (waiting (list packet) W) unit := let! _ := queue_provide event p in ret tt.

Lemma gives_simulate event ps : Forall well_formed ps ->
  simulates (alongside (input_rep event)) (for_each ps give) (for_each ps (queue_give event)).
Proof.
  induction 1 as [|p ps Hp _ IH]; cbn [for_each]; [apply simulates_ret|]. apply simulates_bind; [|intros _; exact IH].
  apply simulates_bind; [by apply input_provide_simulates|intros _; apply simulates_ret].
Qed.

Lemma emits_agree event r v t : Forall well_formed r.2 -> alongside (input_rep event) v t ->
  outcomes_agree (fun s t => alongside (input_rep event) (device s) t) (emit r v) (for_each r.2 (queue_give event) t).
Proof.
  intros Hwf Hr. pose proof (gives_simulate event r.2 Hwf v t Hr) as H. unfold emit.
  destruct (for_each r.2 give v) as [[[] v']|x], (for_each r.2 (queue_give event) t) as [[[] t']|y]; done.
Qed.

(** C10: What is typed reaches the reader: after any bytes from the keyboard,
    one interrupt each, the input device holds what it would if the decoded
    keys had been put into its queue, in order: a key is a run of the prefixes
    0xE0 and 0xF0 and a code; 0xF0 makes it a release, 0xE0 selects the second
    half of the table. *)
Theorem ps2_keyboard_decodes event bytes d v t (Hb : Forall is_byte bytes)
  (He : awaiting_extra_keycode d = false) (Hf : key_release d = false) (Hr : alongside (input_rep event) v t) :
  outcomes_agree (fun s t => alongside (input_rep event) (device s) t)
    (for_each bytes keyboard_handler (Ps2 d v)) (for_each (decode_keys [] bytes) (queue_give event) t).
Proof.
  rewrite (handler_emits keyboard_handler key_step (fun _ => True)); [|intros; split; [by apply keyboard_handler_step|done]|done|done].
  rewrite <- (decode_keys_steps bytes d []) by done. apply emits_agree; [|done]. rewrite (decode_keys_steps bytes d []) by done. apply decode_keys_wf.
Qed.

(** C11: What the mouse reports reaches the reader: after any bytes from the
    mouse, one interrupt each, starting between two reports, the input device
    holds what it would if the decoded reports had been put into its queue:
    bytes that cannot start a report are skipped, a report of three bytes, or
    four for a mouse with a wheel, gives a packet for each button that changed
    and for each axis that moved. *)
Theorem ps2_mouse_decodes wheel event bytes d v t (Hb : Forall is_byte bytes)
  (Ht : mouse_type d = wheel_type wheel) (Hl : mouse_packet_loc d = 0) (Hp : length (mouse_packet d) = 4%nat) (Hr : alongside (input_rep event) v t) :
  outcomes_agree (fun s t => alongside (input_rep event) (device s) t)
    (for_each bytes mouse_handler (Ps2 d v)) (for_each (decode_mouse wheel (mouse_buttons d) bytes) (queue_give event) t).
Proof.
  rewrite (handler_emits mouse_handler mouse_step mouse_ok); [|intros; by apply mouse_handler_step| |done].
  - rewrite <- (decode_mouse_steps wheel (length bytes) bytes d) by done. apply emits_agree; [|done].
    rewrite (decode_mouse_steps wheel (length bytes) bytes d) by done. by apply (decode_mouse_wf wheel (length bytes)).
  - unfold mouse_ok. rewrite Ht. destruct wheel; cbn; lia.
Qed.
End ps2.

(** ** A run: a key pressed and released, and the mouse moved with a button down *)

Definition demo_driver : driver := Driver MOUSE_BASIC 0 [0; 0; 0; 0] [false; false; false] false false.

Lemma ps2_keyboard_decodes_witness :
  outcomes_agree (fun s t => alongside (input_rep 50) (device s) t)
    (for_each [0x1E; 0xF0; 0x1E] keyboard_handler (Ps2 demo_driver (Waiting demo_input demo_sched)))
    (for_each (decode_keys [] [0x1E; 0xF0; 0x1E]) (queue_give 50) (Waiting [] demo_sched)) /\
  decode_keys [] [0x1E; 0xF0; 0x1E] = [[1; 0; 0; 0; 8; 0; 30; 0]; [1; 0; 0; 0; 8; 1; 30; 0]].
Proof.
  split; [|vm_compute; reflexivity]. apply ps2_keyboard_decodes; [repeat constructor; unfold is_byte; lia|reflexivity|reflexivity|].
  split; [exact demo_input_rep|reflexivity].
Defined.

Lemma ps2_mouse_decodes_witness :
  outcomes_agree (fun s t => alongside (input_rep 50) (device s) t)
    (for_each [0x00; 0x09; 0xFF; 0x02] mouse_handler (Ps2 demo_driver (Waiting demo_input demo_sched)))
    (for_each (decode_mouse false [false; false; false] [0x00; 0x09; 0xFF; 0x02]) (queue_give 50) (Waiting [] demo_sched)) /\
  decode_mouse false [false; false; false] [0x00; 0x09; 0xFF; 0x02] =
    [[1; 0; 0; 0; 8; 0; 16; 1]; [2; 0; 0; 0; 10; 0; 255; 255; 255; 255]; [2; 0; 0; 0; 10; 1; 2; 0; 0; 0]].
Proof.
  split; [|vm_compute; reflexivity]. apply (ps2_mouse_decodes false 50 _ demo_driver); [repeat constructor; unfold is_byte; lia|reflexivity|reflexivity|reflexivity|].
  split; [exact demo_input_rep|reflexivity].
Defined.
