(* ===== verification/Tty.v ===== *)
(** * Tty: terminals (src/tty/tty.c)

    A terminal driver hands typed characters to [tty_provide_char], which
    echoes them, edits the line buffer and wakes a reader at the end of a line.
    The buffer is one page of kernel memory; a store past it has no meaning.
    [write_handler] is the driver's output routine.  [tty_read] waits with a
    single [scheduler_await], so what it does when it is resumed is a function
    of its own, [tty_read_rest].  devfs registration is not modelled. *)
From S2P Require Import Prelude Dll Sched Wait Bitmap.

Definition TTY_BUFFER_SIZE : Z := PAGE_SIZE.

Definition BS : Z := 8.
Definition LF : Z := 10.
Definition CR : Z := 13.

Record tty_t := Tty {
  tty_num : Z; tty_read_ready : Z;
  buffer_ready : bool; buffer_size : Z; buffer_capacity : Z; buffer_offset : Z;
  tty_buffer : list Z;               (* the page of [buffer_mapping] *)
  last_char : Z; echo : bool
}.

Definition set_buffer (r : bool) (n o : Z) (b : list Z) (t : tty_t) : tty_t :=
  Tty (tty_num t) (tty_read_ready t) r n (buffer_capacity t) o b (last_char t) (echo t).
Definition set_last (c : Z) (t : tty_t) : tty_t :=
  Tty (tty_num t) (tty_read_ready t) (buffer_ready t) (buffer_size t) (buffer_capacity t) (buffer_offset t) (tty_buffer t) c (echo t).

(** The loop of [tty_init]: it starts again from the head of the list whenever
    a terminal has the candidate number. *)
Fixpoint tty_number (fuel : nat) (all rest : list Z) (n : Z) : outcome Z :=
  match fuel with
  | O => Stop NoFuel
  | S fuel' =>
      match rest with
      | [] => Done n
      | t :: rest' => if t =? n then tty_number fuel' all all (u64 (n + 1)) else tty_number fuel' all rest' n
      end
  end.

(** The terminals whose number is at least [n]. *)
Definition hits (all : list Z) (n : Z) : nat := length (filter (Z.le n) all).

Lemma hits_step all n : n ∈ all -> (hits all (n + 1) < hits all n)%nat.
Proof.
  unfold hits. induction all as [|t all IH]; [by intros ?%elem_of_nil|]. intros Hin.
  assert (length (filter (Z.le (n + 1)) all) <= length (filter (Z.le n) all))%nat as Hle.
  { clear. induction all as [|t all IH]; [done|]. rewrite !filter_cons. repeat case_decide; cbn; lia. }
  rewrite !filter_cons. apply elem_of_cons in Hin as [->|Hin].
  - rewrite decide_False by lia. rewrite decide_True by lia. cbn. lia.
  - specialize (IH Hin). repeat case_decide; cbn; lia.
Qed.

Lemma tty_number_least all : forall fuel pre rest n, all = pre ++ rest -> n ∉ pre -> 0 <= n -> n + Z.of_nat (hits all n) < 2 ^ 64 ->
  (hits all n * length all + length rest < fuel)%nat ->
  exists r, tty_number fuel all rest n = Done r /\ n <= r /\ (r ∉ all) /\ (forall k, n <= k < r -> (k ∈ all)).
Proof.
  induction fuel as [|fuel IH]; intros pre rest n Hall Hpre Hn Hb Hf; [lia|]. cbn [tty_number]. destruct rest as [|t rest].
  { exists n. rewrite app_nil_r in Hall. subst pre. split_and!; [done|lia|done|lia]. }
  destruct (Z.eqb_spec t n) as [->|Hne].
  - assert (n ∈ all) as Hin by (rewrite Hall; set_solver). pose proof (hits_step all n Hin). rewrite u64_small by lia.
    destruct (IH [] all (n + 1)) as (r & E & Hr & Hni & Hk); [done|by apply not_elem_of_nil|lia|lia| |].
    { cbn [length] in Hf. nia. }
    exists r. split_and!; [done|lia|done|]. intros k Hkr. destruct (decide (k = n)) as [->|]; [done|]. apply Hk. lia.
  - apply (IH (pre ++ [t]) rest n); [by rewrite <- app_assoc|set_solver|done|done|]. cbn [length] in Hf. lia.
Qed.

(** The search for a terminal number ends, for any terminals there are,
    and finds the smallest number that none of them has. *)
Theorem tty_number_fresh ttys (Hl : Z.of_nat (length ttys) < 2 ^ 63) :
  exists n, tty_number (S (length ttys) * S (length ttys)) ttys ttys 0 = Done n /\ (n ∉ ttys) /\ (forall k, 0 <= k < n -> (k ∈ ttys)).
Proof.
  assert (hits ttys 0 <= length ttys)%nat by (apply length_filter).
  destruct (tty_number_least ttys (S (length ttys) * S (length ttys)) [] ttys 0) as (r & E & _ & Hr); [done|by apply not_elem_of_nil|done|lia|nia|].
  by exists r.
Qed.

Section tty.
Context {W : Type} `{!EventService W}.
Variable write_handler : list Z -> M W unit.
Abbreviation terminal := (waiting tty_t W).

(** [event] and [page]: what [event_init] and [pman_context_add_alloc] gave.
    [buffer_offset] is not set: it is what the heap block held, [junk]. *)
Definition tty_init (ttys : list Z) (event junk : Z) (page : list Z) : M W tty_t :=
  match tty_number (S (length ttys) * S (length ttys)) ttys ttys 0 with
  | Stop w => stop_with w
  | Done n =>
      do! ev_init event;
      ret (Tty n event false 0 TTY_BUFFER_SIZE junk page 0 true)
  end.

Definition tty_write (buffer : list Z) : M terminal Z :=
  do! for_each buffer (fun c => on_events (write_handler (if c =? LF then [CR; LF] else [c])));
  ret (Z.of_nat (length buffer)).

(** The rest of [tty_read] once the reader has been resumed. *)
Definition tty_read_rest (size : Z) : M terminal (list Z) :=
  let! t := get_dev in
  let amnt := if size >? buffer_size t then buffer_size t else size in
  do! guard_or Undefined (buffer_offset t + amnt <=? Z.of_nat (length (tty_buffer t)));
  let data := take (Z.to_nat amnt) (drop (Z.to_nat (buffer_offset t)) (tty_buffer t)) in
  let offset := u64 (buffer_offset t + amnt) in
  do! put_dev (if buffer_size t =? offset then set_buffer false 0 0 (tty_buffer t) t
               else set_buffer (buffer_ready t) (buffer_size t) offset (tty_buffer t) t);
  ret data.
Definition tty_read (size : Z) : M terminal (waited (list Z)) :=
  let! t := get_dev in
  let! ok := (if buffer_ready t then ret true else on_events (ev_await (tty_read_ready t))) in
  if ok : bool then let! l := tty_read_rest size in ret (Ready l) else ret Blocked.

(** [buffer[buffer_size++] = c]. *)
Definition put_char (c : Z) (t : tty_t) : option tty_t :=
  if buffer_size t <? Z.of_nat (length (tty_buffer t))
  then Some (set_buffer (buffer_ready t) (u64 (buffer_size t + 1)) (buffer_offset t) (<[Z.to_nat (buffer_size t) := c]> (tty_buffer t)) t)
  else None.

Definition end_of_line : M terminal unit :=
  let! t := get_dev in
  let! t' := of_option Undefined (put_char LF (set_buffer true (buffer_size t) (buffer_offset t) (tty_buffer t) t)) in
  do! put_dev t';
  on_events (ev_invoke (tty_read_ready t)).

Definition echo_char (c : Z) : M terminal unit :=
  let! t := get_dev in
  if negb (echo t) then ret tt
  else if c =? BS then (if buffer_size t >? 0 then on_events (write_handler [BS; 32; BS]) else ret tt)
  else if (c =? LF) || (c =? CR) then on_events (write_handler [CR; LF])
  else if buffer_size t <? buffer_capacity t then on_events (write_handler [c]) else ret tt.

Definition tty_provide_char (c : Z) : M terminal Z :=
  do! echo_char c;
  let! t := get_dev in
  do! (if c =? BS then
         (if buffer_size t >? 0 then put_dev (set_buffer (buffer_ready t) (buffer_size t - 1) (buffer_offset t) (tty_buffer t) t) else ret tt)
       else if c =? CR then (if negb (last_char t =? LF) then end_of_line else ret tt)
       else if c =? LF then (if negb (last_char t =? CR) then end_of_line else ret tt)
       else if buffer_size t <? buffer_capacity t then let! t' := of_option Undefined (put_char c t) in put_dev t'
       else ret tt);
  let! t := get_dev in
  do! put_dev (set_last c t);
  ret 1.

(** ** The line discipline *)

Inductive tty_op := Type_ (c : Z) | Read (size : Z) | Resume (size : Z).
Inductive tty_result := Typed (n : Z) | GotLine (r : waited (list Z)).

Definition run_tty (o : tty_op) : M terminal tty_result :=
  match o with
  | Type_ c => let! n := tty_provide_char c in ret (Typed n)
  | Read n => let! r := tty_read n in ret (GotLine r)
  | Resume n => let! l := tty_read_rest n in ret (GotLine (Ready l))
  end.

(** The text typed since the last read and whether a line of it is complete. *)
Record line := Line { text : list Z; complete : bool; last_typed : Z; echoing : bool }.

Definition line_end (event : Z) : M (waiting line W) unit :=
  let! l := get_dev in
  do! guard_or Undefined (bool_decide (Z.of_nat (length (text l)) < TTY_BUFFER_SIZE));
  do! put_dev (Line (text l ++ [LF]) true (last_typed l) (echoing l));
  on_events (ev_invoke event).
Definition line_echo (c : Z) : M (waiting line W) unit :=
  let! l := get_dev in
  if negb (echoing l) then ret tt
  else if c =? BS then (if bool_decide (text l = []) then ret tt else on_events (write_handler [BS; 32; BS]))
  else if (c =? LF) || (c =? CR) then on_events (write_handler [CR; LF])
  else if bool_decide (Z.of_nat (length (text l)) < TTY_BUFFER_SIZE) then on_events (write_handler [c]) else ret tt.
(** A backspace removes a character, a carriage return, a line feed or both in
    a row end the line, and characters past the page are dropped. *)
Definition line_type (event c : Z) : M (waiting line W) Z :=
  do! line_echo c;
  let! l := get_dev in
  do! (if c =? BS then put_dev (Line (removelast (text l)) (complete l) (last_typed l) (echoing l))
       else if c =? CR then (if negb (last_typed l =? LF) then line_end event else ret tt)
       else if c =? LF then (if negb (last_typed l =? CR) then line_end event else ret tt)
       else put_dev (Line (take (Z.to_nat TTY_BUFFER_SIZE) (text l ++ [c])) (complete l) (last_typed l) (echoing l)));
  let! l := get_dev in
  do! put_dev (Line (text l) (complete l) c (echoing l));
  ret 1.
(** A read takes all the text there is. *)
Definition line_take : M (waiting line W) (list Z) :=
  let! l := get_dev in
  do! put_dev (Line [] false (last_typed l) (echoing l));
  ret (text l).
Definition line_read (event : Z) : M (waiting line W) (waited (list Z)) :=
  let! l := get_dev in
  let! ok := (if complete l then ret true else on_events (ev_await event)) in
  if ok : bool then let! x := line_take in ret (Ready x) else ret Blocked.
Definition run_line (event : Z) (o : tty_op) : M (waiting line W) tty_result :=
  match o with
  | Type_ c => let! n := line_type event c in ret (Typed n)
  | Read _ => let! r := line_read event in ret (GotLine r)
  | Resume _ => let! l := line_take in ret (GotLine (Ready l))
  end.

Record tty_rep (event : Z) (t : tty_t) (l : line) : Prop := {
  tr_event : tty_read_ready t = event;
  tr_capacity : buffer_capacity t = TTY_BUFFER_SIZE;
  tr_page : Z.of_nat (length (tty_buffer t)) = TTY_BUFFER_SIZE;
  tr_offset : buffer_offset t = 0;
  tr_ready : buffer_ready t = complete l;
  tr_size : buffer_size t = Z.of_nat (length (text l));
  tr_text : take (length (text l)) (tty_buffer t) = text l;
  tr_last : last_char t = last_typed l;
  tr_echo : echo t = echoing l
}.

Lemma put_char_spec event t l c : tty_rep event t l -> Z.of_nat (length (text l)) < TTY_BUFFER_SIZE ->
  exists t', put_char c t = Some t' /\ tty_rep event t' (Line (text l ++ [c]) (complete l) (last_typed l) (echoing l)).
Proof.
  intros [He Hc Hp Ho Hr Hs Ht Hl Hec] Hlt. unfold put_char. rewrite Hs, Hp. rewrite (proj2 (Z.ltb_lt _ _)) by done.
  eexists. split; [reflexivity|]. unfold TTY_BUFFER_SIZE, PAGE_SIZE in *. split; cbn; try done.
  - by rewrite length_insert.
  - rewrite length_app. cbn. rewrite u64_small; lia.
  - rewrite length_app, Nat2Z.id. cbn. rewrite Nat.add_1_r, (take_S_snoc _ _ c).
    + rewrite take_insert_ge by done. by rewrite Ht.
    + apply list_lookup_insert_eq. lia.
Qed.

(** A full page has no room, on either side. *)
Lemma put_char_full event t l c : tty_rep event t l -> ~ Z.of_nat (length (text l)) < TTY_BUFFER_SIZE -> put_char c t = None.
Proof. intros [He Hc Hp Ho Hr Hs Ht Hl Hec] Hlt. unfold put_char. rewrite Hs, Hp. by rewrite (proj2 (Z.ltb_ge _ _)) by lia. Qed.

Lemma tty_rep_ready event t l : tty_rep event t l ->
  tty_rep event (set_buffer true (buffer_size t) (buffer_offset t) (tty_buffer t) t) (Line (text l) true (last_typed l) (echoing l)).
Proof. intros [He Hc Hp Ho Hr Hs Ht Hl Hec]. by split. Qed.

Lemma tty_rep_text_length event t l : tty_rep event t l -> Z.of_nat (length (text l)) <= TTY_BUFFER_SIZE.
Proof.
  intros [He Hc Hp Ho Hr Hs Ht Hl Hec]. rewrite <- Hp. rewrite <- Ht at 1. rewrite length_take. lia.
Qed.

Lemma text_empty event t l : tty_rep event t l -> (buffer_size t >? 0) = negb (bool_decide (text l = [])).
Proof. intros Hr. rewrite (tr_size _ _ _ Hr). destruct (text l); [done|]. rewrite bool_decide_false by done. done. Qed.

Lemma end_of_line_simulates event : simulates (alongside (tty_rep event)) end_of_line (line_end event).
Proof.
  intros s t [Hr Ew]. unfold end_of_line, line_end, get_dev.
  rewrite (bind_done (gets dev) _ s (dev s) s eq_refl), (bind_done (gets dev) _ t (dev t) t eq_refl).
  destruct (decide (Z.of_nat (length (text (dev t))) < TTY_BUFFER_SIZE)) as [Hlt|Hge].
  - destruct (put_char_spec event _ _ LF (tty_rep_ready _ _ _ Hr) Hlt) as (t' & -> & Hr').
    unfold of_option. rewrite (bind_done (fun s => Done (t', s)) _ s t' s eq_refl). rewrite bool_decide_true by done. cbn [guard_or]. rewrite bind_ret_l.
    unfold put_dev. rewrite !bind_modify, (tr_event _ _ _ Hr). by apply on_events_simulates.
  - rewrite (put_char_full event _ _ LF (tty_rep_ready _ _ _ Hr)) by done. by rewrite bool_decide_false by done.
Qed.

Lemma echo_simulates event c : simulates (alongside (tty_rep event)) (echo_char c) (line_echo c).
Proof.
  intros s t [Hr Ew]. unfold echo_char, line_echo, get_dev.
  rewrite (bind_done (gets dev) _ s (dev s) s eq_refl), (bind_done (gets dev) _ t (dev t) t eq_refl).
  rewrite (tr_echo _ _ _ Hr), (text_empty _ _ _ Hr), (tr_capacity _ _ _ Hr), (tr_size _ _ _ Hr).
  destruct (echoing (dev t)); [|done]. cbn [negb]. destruct (c =? BS); [|destruct ((c =? LF) || (c =? CR)); [by apply on_events_simulates|]].
  - destruct (bool_decide (text (dev t) = [])); [done|by apply on_events_simulates].
  - destruct (Z.ltb_spec (Z.of_nat (length (text (dev t)))) TTY_BUFFER_SIZE);
      [rewrite bool_decide_true by done; by apply on_events_simulates|by rewrite bool_decide_false by lia].
Qed.

Lemma backspace_rep event t l : tty_rep event t l -> text l <> [] ->
  tty_rep event (set_buffer (buffer_ready t) (buffer_size t - 1) (buffer_offset t) (tty_buffer t) t)
    (Line (removelast (text l)) (complete l) (last_typed l) (echoing l)).
Proof.
  intros [He Hc Hp Ho Hr Hs Ht Hl Hec] Hne. destruct (exists_last Hne) as (x & a & E). rewrite E in *. rewrite removelast_last.
  rewrite length_app in Hs, Ht. cbn in Hs, Ht. split; cbn; try done; [lia|].
  apply (f_equal (take (length x))) in Ht. rewrite take_take in Ht. rewrite Nat.min_l in Ht by lia. by rewrite Ht, take_app_length.
Qed.

Lemma type_simulates event c : simulates (alongside (tty_rep event)) (tty_provide_char c) (line_type event c).
Proof.
  unfold tty_provide_char, line_type. apply simulates_bind; [apply echo_simulates|]. intros _ s t [Hr Ew]. unfold get_dev at 1 3.
  rewrite (bind_done (gets dev) _ s (dev s) s eq_refl), (bind_done (gets dev) _ t (dev t) t eq_refl). apply outcomes_bind.
  - rewrite (tr_last _ _ _ Hr). destruct (c =? BS); [|destruct (c =? CR); [|destruct (c =? LF)]].
    + rewrite (text_empty _ _ _ Hr). case_bool_decide as He; cbn [negb].
      * split; [done|]. split; [|done]. cbn. rewrite He. cbn. destruct Hr as [H1 H2 H3 H4 H5 H6 H7 H8 H9]. rewrite He in H6, H7. by split.
      * split; [done|]. split; [|done]. by apply backspace_rep.
    + destruct (last_typed (dev t) =? LF); [done|by apply end_of_line_simulates].
    + destruct (last_typed (dev t) =? CR); [done|by apply end_of_line_simulates].
    + rewrite (tr_capacity _ _ _ Hr), (tr_size _ _ _ Hr). pose proof (tty_rep_text_length _ _ _ Hr) as Hle.
      destruct (Z.ltb_spec (Z.of_nat (length (text (dev t)))) TTY_BUFFER_SIZE) as [Hlt|Hge].
      * destruct (put_char_spec event _ _ c Hr Hlt) as (t' & -> & Hr'). unfold of_option.
        rewrite (bind_done (fun s => Done (t', s)) _ s t' s eq_refl). split; [done|]. split; [|done]. cbn [dev].
        rewrite take_ge; [done|]. rewrite length_app. cbn. lia.
      * split; [done|]. split; [|done]. cbn [dev]. rewrite take_app_le by lia. rewrite take_ge by lia. destruct Hr. by split.
  - intros _ s' t' [Hr' Ew']. unfold get_dev. rewrite (bind_done (gets dev) _ s' (dev s') s' eq_refl), (bind_done (gets dev) _ t' (dev t') t' eq_refl).
    split; [done|]. split; [|done]. cbn [dev]. destruct Hr'. by split.
Qed.

Lemma take_simulates event n : TTY_BUFFER_SIZE <= n -> simulates (alongside (tty_rep event)) (tty_read_rest n) line_take.
Proof.
  intros Hn s t [Hr Ew]. unfold tty_read_rest, line_take, get_dev.
  rewrite (bind_done (gets dev) _ s (dev s) s eq_refl), (bind_done (gets dev) _ t (dev t) t eq_refl).
  pose proof (tty_rep_text_length _ _ _ Hr) as Hle. destruct Hr as [He Hc Hp Ho Hr Hs Ht Hl Hec]. rewrite Ho, Hs.
  replace (if n >? _ then _ else n) with (Z.of_nat (length (text (dev t)))) by (destruct (Z.gtb_spec n (Z.of_nat (length (text (dev t))))); lia).
  rewrite Z.add_0_l, (proj2 (Z.leb_le _ _)) by (by rewrite Hp). cbn [guard_or]. rewrite bind_ret_l.
  rewrite u64_small by (unfold TTY_BUFFER_SIZE, PAGE_SIZE in *; lia). rewrite Z.eqb_refl. unfold put_dev. rewrite !bind_modify.
  split; [by rewrite Nat2Z.id, drop_0|]. split; [|done]. by split.
Qed.

Lemma read_simulates event n : TTY_BUFFER_SIZE <= n -> simulates (alongside (tty_rep event)) (tty_read n) (line_read event).
Proof.
  intros Hn s t [Hr Ew]. unfold tty_read, line_read, get_dev.
  rewrite (bind_done (gets dev) _ s (dev s) s eq_refl), (bind_done (gets dev) _ t (dev t) t eq_refl).
  rewrite (tr_ready _ _ _ Hr), (tr_event _ _ _ Hr). apply outcomes_bind.
  - destruct (complete (dev t)); [done|by apply on_events_simulates].
  - intros [|]; [|apply simulates_ret]. apply simulates_bind; [by apply take_simulates|intros; apply simulates_ret].
Qed.

Definition page_reads (o : tty_op) : Prop := match o with Type_ _ => True | Read n | Resume n => TTY_BUFFER_SIZE <= n end.

(** C12: A terminal read with buffers of a page is a line editor.  Whatever is
    typed and read, in any order, the terminal echoes, edits and answers as
    [line_type] and [line_read] do on the plain text of the line: backspace
    takes back a character, CR, LF and CR LF end the line once, a read takes
    all that was typed.  Both stop when a line is ended on a full page. *)
Theorem tty_edits_lines event os t l w (Hrep : tty_rep event t l) (Hv : Forall page_reads os) :
  outcomes_agree (alongside (tty_rep event)) (run_all run_tty os (Waiting t w)) (run_all (run_line event) os (Waiting l w)).
Proof.
  apply run_all_simulates; [|by split]. intros o Ho. rewrite Forall_forall in Hv. specialize (Hv o Ho).
  destruct o as [c|n|n]; cbn [run_tty run_line page_reads] in *; apply simulates_bind; intros; try apply simulates_ret;
    [by apply type_simulates|by apply read_simulates|by apply take_simulates].
Qed.

(** ** Short reads *)

(** A read with a smaller buffer than the line breaks the terminal.  The
    amount is computed from the size of the whole line, not from what is left
    after [buffer_offset]: once two bytes of a three-byte line have been read,
    the next read returns the third one and a stale byte of the page, and the
    line is never taken off: the terminal stays ready for ever. *)
Theorem tty_short_read_stale s t a b c d rest (Ht : dev s = t) (Hr : buffer_ready t = true) (Hs : buffer_size t = 3)
  (Ho : buffer_offset t = 0) (Hb : tty_buffer t = a :: b :: c :: d :: rest) :
  exists s1 s2, tty_read 2 s = Done (Ready [a; b], s1) /\ tty_read 2 s1 = Done (Ready [c; d], s2) /\
    buffer_ready (dev s2) = true /\ buffer_offset (dev s2) = 4 /\ buffer_size (dev s2) = 3.
Proof.
  destruct s as [t0 w]. cbn in Ht. subst t0. destruct t as [num e r n cap o buf lc ec]. cbn in Hr, Hs, Ho, Hb. subst r n o buf.
  assert (forall k, k <= 4 -> guard_or (S := terminal) Undefined (k <=? Z.of_nat (length (a :: b :: c :: d :: rest))) = ret tt) as Hg.
  { intros k Hk. unfold guard_or. rewrite (proj2 (Z.leb_le _ _)); [done|]. cbn [length]. lia. }
  assert (forall o, o = 0 \/ o = 2 -> forall w0, tty_read 2 (Waiting (Tty num e true 3 cap o (a :: b :: c :: d :: rest) lc ec) w0) =
    Done (Ready (take 2 (drop (Z.to_nat o) (a :: b :: c :: d :: rest))), Waiting (Tty num e true 3 cap (o + 2) (a :: b :: c :: d :: rest) lc ec) w0)) as Hread.
  { intros o Ho w0. unfold tty_read, tty_read_rest, get_dev. rewrite (bind_done (gets dev) _ _ _ _ eq_refl). cbn [dev buffer_ready].
    rewrite bind_ret_l, bind_assoc, (bind_done (gets dev) _ _ _ _ eq_refl). cbn [dev buffer_size buffer_offset tty_buffer]. change (2 >? 3) with false. cbv iota.
    rewrite bind_assoc, Hg by lia. rewrite bind_ret_l. rewrite u64_small by lia. by destruct Ho as [-> | ->]. }
  eexists _, _. split_and!; [by apply (Hread 0); left|by apply (Hread 2); right|done..].
Qed.

(** Output: line feeds become CR LF. *)
Lemma tty_write_expands (log : W -> list Z) (s : terminal) l :
  (forall x w, exists w', write_handler x w = Done (tt, w') /\ log w' = log w ++ x) ->
  exists s', tty_write l s = Done (Z.of_nat (length l), s') /\ dev s' = dev s /\
    log (evs s') = log (evs s) ++ (l ≫= fun c => if c =? LF then [CR; LF] else [c]).
Proof.
  intros Hw. enough (exists s', for_each l (fun c => on_events (write_handler (if c =? LF then [CR; LF] else [c]))) s = Done (tt, s') /\ dev s' = dev s /\
    log (evs s') = log (evs s) ++ (l ≫= fun c => if c =? LF then [CR; LF] else [c])) as (s' & E & H).
  { exists s'. split; [|done]. unfold tty_write. by rewrite (bind_done _ _ _ _ _ E). }
  revert s. induction l as [|c l IH]; intros s; cbn [for_each].
  { exists s. cbn. by rewrite app_nil_r. }
  destruct (Hw (if c =? LF then [CR; LF] else [c]) (evs s)) as (w' & E & Hl).
  assert (on_events (write_handler (if c =? LF then [CR; LF] else [c])) s = Done (tt, Waiting (dev s) w')) as E'
    by (unfold on_events, zoom; by rewrite E).
  rewrite (bind_done _ _ _ _ _ E'). destruct (IH (Waiting (dev s) w')) as (s' & E2 & Hd & Hl2). exists s'.
  split; [done|]. split; [done|]. rewrite Hl2. cbn [evs]. rewrite Hl. cbn [mbind list_bind]. by rewrite app_assoc.
Qed.
End tty.

Lemma line_typed_ahead {W} `{!EventService W} event la n (w w1 w2 : W) : la <> CR -> ev_invoke event w = Done (tt, w1) -> ev_await event w1 = Done (true, w2) ->
  exists t, run_all (run_line (fun _ => ret tt) event) [Type_ LF; Read n; Read n] (Waiting (Line [] false la false) w) =
    Done ([Typed 1; GotLine (Ready [LF]); GotLine (Ready [])], t).
Proof.
  intros Hla E1 E2. exists (Waiting (Line [] false LF false) w2). unfold run_all, run_line, line_type, line_read, line_take, line_echo, line_end.
  unfold get_dev, put_dev, on_events, zoom, bind, gets, modify, guard_or. cbn [dev evs echoing text complete last_typed].
  apply Z.eqb_neq in Hla. unfold LF, BS, CR in *. cbn -[Z.eqb]. change (10 =? 8) with false. change (10 =? 13) with false. change (10 =? 10) with true.
  cbn -[Z.eqb]. rewrite Hla. cbn -[Z.eqb]. rewrite bool_decide_true by done. cbn -[Z.eqb]. rewrite E1. cbn -[Z.eqb]. rewrite E2. reflexivity.
Qed.

(** A line typed while nobody reads leaves its signal behind.  The reader
    that comes later takes the line without consuming the signal, so its next
    read does not wait: it returns no bytes, which programs take for the end of
    the input. *)
Theorem tty_typed_ahead_reads_nothing (s : waiting tty_t sched) event l hs n (Hrep : tty_rep event (dev s) l) (Hl : text l = [])
  (Hc : complete l = false) (Hlast : last_typed l <> CR) (Hecho : echoing l = false) (Hn : TTY_BUFFER_SIZE <= n)
  (He : events (evs s) !! event = Some (Event hs [])) :
  exists s', run_all (run_tty (fun _ => ret tt)) [Type_ LF; Read n; Read n] s = Done ([Typed 1; GotLine (Ready [LF]); GotLine (Ready [])], s').
Proof.
  pose proof (run_all_simulates (alongside (tty_rep event)) (run_tty (fun _ : list Z => ret tt)) (run_line (fun _ : list Z => ret tt) event)
    [Type_ LF; Read n; Read n]) as Hsim.
  assert (alongside (tty_rep event) s (Waiting l (evs s))) as Hst by by split.
  specialize (Hsim ltac:(intros o Ho; repeat (apply elem_of_cons in Ho as [->|Ho]); [..|by apply elem_of_nil in Ho]; cbn [run_tty run_line];
    apply simulates_bind; intros; try apply simulates_ret; first [by apply type_simulates|by apply read_simulates]) s (Waiting l (evs s)) Hst).
  destruct l as [tx co la ec]. cbn in Hl, Hc, Hlast, Hecho. subst tx co ec.
  assert (exists w1 w2, ev_invoke event (evs s) = Done (tt, w1) /\ ev_await event w1 = Done (true, w2)) as (w1 & w2 & E1 & E2).
  { set (w1 := set_events (<[event := Event true []]> (events (evs s))) (evs s)). exists w1.
    destruct (ev_await_latched event w1) as (w2 & E2 & _); [cbn; unfold sched_latched; cbn; by rewrite lookup_insert_eq|]. exists w2.
    split; [|exact E2]. cbn. unfold event_invoke, get_event, bind. by rewrite He. }
  destruct (line_typed_ahead event la n (evs s) w1 w2 Hlast E1 E2) as (t' & E).
  rewrite E in Hsim. destruct (run_all _ _ s) as [[rs s']|w]; [|done]. destruct Hsim as [-> _]. by exists s'.
Qed.

(** ** Runs *)

Definition demo_terminal (ec : bool) : tty_t := Tty 0 60 false 0 TTY_BUFFER_SIZE 0 (replicate 4096 0) 0 ec.
Definition demo_line (ec : bool) : line := Line [] false 0 ec.
Definition demo_events : sched := set_events {[ 60 := Event false [] ]} demo_sched.
Definition demo_typing : list tty_op := [Type_ 97; Type_ BS; Type_ 98; Type_ CR; Type_ LF; Read 4096].

Lemma demo_terminal_rep ec : tty_rep 60 (demo_terminal ec) (demo_line ec).
Proof. by split. Qed.

Lemma tty_number_fresh_witness : Z.of_nat (length [0; 2; 1; 5]) < 2 ^ 63 /\ tty_number 25 [0; 2; 1; 5] [0; 2; 1; 5] 0 = Done 3.
Proof.
  assert (Z.of_nat (length [0; 2; 1; 5]) < 2 ^ 63) as Hl by done. split; [exact Hl|].
  destruct (tty_number_fresh [0; 2; 1; 5] Hl) as (n & E & _).
  assert (n = 3) as -> by (vm_compute in E; congruence). exact E.
Defined.

Lemma tty_edits_lines_witness :
  outcomes_agree (alongside (tty_rep 60)) (run_all (run_tty (fun _ => ret tt)) demo_typing (Waiting (demo_terminal true) demo_events))
    (run_all (run_line (fun _ => ret tt) 60) demo_typing (Waiting (demo_line true) demo_events)) /\
  exists s, run_all (run_line (fun _ => ret tt) 60) demo_typing (Waiting (demo_line true) demo_events) =
    Done ([Typed 1; Typed 1; Typed 1; Typed 1; Typed 1; GotLine (Ready [98; LF])], s).
Proof.
  split; [|eexists; vm_compute; reflexivity].
  apply (tty_edits_lines _ 60 demo_typing (demo_terminal true) (demo_line true) demo_events (demo_terminal_rep true)).
  repeat constructor. discriminate.
Defined.

Lemma tty_short_read_stale_witness : exists s1 s2,
  tty_read 2 (Waiting (Tty 0 60 true 3 TTY_BUFFER_SIZE 0 [104; 105; 10; 33] 10 false) demo_events) = Done (Ready [104; 105], s1) /\
  tty_read 2 s1 = Done (Ready [10; 33], s2).
Proof.
  destruct (tty_short_read_stale (W := sched) (Waiting (Tty 0 60 true 3 TTY_BUFFER_SIZE 0 [104; 105; 10; 33] 10 false) demo_events)
    _ 104 105 10 33 [] eq_refl eq_refl eq_refl eq_refl eq_refl) as (s1 & s2 & E1 & E2 & _).
  exists s1, s2. split; [exact E1|exact E2].
Defined.

Lemma tty_typed_ahead_reads_nothing_witness : exists s',
  run_all (run_tty (fun _ => ret tt)) [Type_ LF; Read 4096; Read 4096] (Waiting (demo_terminal false) demo_events) =
    Done ([Typed 1; GotLine (Ready [LF]); GotLine (Ready [])], s').
Proof.
  apply (tty_typed_ahead_reads_nothing (Waiting (demo_terminal false) demo_events) 60 (demo_line false) false 4096 (demo_terminal_rep false));
    [reflexivity|reflexivity|discriminate|reflexivity|discriminate|reflexivity].
Defined.
