(* ===== verification/Signal.v ===== *)
(** * Signal: pending signals of a process (src/signal/signal.c)

    A process has a table of actions and a circular queue of at most
    [SIGNAL_QUEUE_SIZE] pending signals.  [signal_table_invoke] adds a signal
    and interrupts a thread of the process if all of them wait interruptably;
    [signal_table_resume] takes the oldest signal when a user thread is
    resumed.  The numbers come from the external pkos/signal.h.  What a
    delivered signal does to the process (killing it, a frame on its stack) is
    in Process.v. *)
From S2P Require Import Prelude Ring Dll Sched.

Definition SIGNAL_QUEUE_SIZE : Z := 10.

Inductive signal_action_t := ACT_TERMINATE | ACT_IGNORE | ACT_STOP | ACT_CONTINUE.
#[export] Instance signal_action_eq_dec : EqDecision signal_action_t.
Proof. solve_decision. Defined.

(** [user_handler]: an address of the process, 0 for none. *)
Record signal_t := Signal { action : signal_action_t; user_handler : Z }.

Record signal_table_t := SignalTable {
  handlers : list signal_t;
  signal_queue_size : Z; signal_queue_head : Z; signal_queue_tail : Z;
  signal_queue : list Z
}.

Record signals := Signals { table : signal_table_t; sig_sched : sched }.
Definition on_table {A} (m : M signal_table_t A) : M signals A := zoom table (fun t s => Signals t (sig_sched s)) m.
Definition on_sched {A} (m : M sched A) : M signals A := zoom sig_sched (fun c s => Signals (table s) c) m.

Section signal.
Variables _SIG_COUNT SIG_CHILD : Z.

(** The designated initialiser names [SIG_ABORT], [SIG_ALARM], [SIG_PAGE] and
    [SIG_CHILD]; an entry it does not name is zero, that is [ACT_TERMINATE]. *)
Definition signal_defaults (i : Z) : signal_action_t := if i =? SIG_CHILD then ACT_IGNORE else ACT_TERMINATE.

(** [junk]: what the queue held before. *)
Definition signal_table_init (junk : list Z) : signal_table_t :=
  SignalTable ((fun i => Signal (signal_defaults (Z.of_nat i)) 0) <$> seq 0 (Z.to_nat _SIG_COUNT)) 0 0 0 junk.

(** [signal_queue[tail] = sig] and the counters. *)
Definition queue_signal (sig : Z) : M signal_table_t bool :=
  let! st := get in
  if signal_queue_size st =? SIGNAL_QUEUE_SIZE then ret false
  else
    do! guard_or Undefined ((0 <=? signal_queue_tail st) && (signal_queue_tail st <? Z.of_nat (length (signal_queue st))));
    do! put (SignalTable (handlers st) (u64 (signal_queue_size st + 1)) (signal_queue_head st)
               (u64 (signal_queue_tail st + 1) mod SIGNAL_QUEUE_SIZE)
               (<[Z.to_nat (signal_queue_tail st) := sig]> (signal_queue st)));
    ret true.

(** The last thread of the process if all of them wait interruptably. *)
Fixpoint thread_to_interrupt (threads : list Z) (thread : option Z) : M sched (option Z) :=
  match threads with
  | [] => ret thread
  | t :: threads' =>
      let! th := get_thread t in
      if bool_decide (state th = TS_INTERRUPTABLE_WAIT) then thread_to_interrupt threads' (Some t) else ret None
  end.

Definition is_error (c : code) : bool := match c with Num n => n <? 0 | _ => true end.

Definition signal_table_invoke (threads : list Z) (sig : Z) : M signals code :=
  if sig >=? _SIG_COUNT then ret (Err ERROR_NO_SIG)
  else
    let! ok := on_table (queue_signal sig) in
    if negb ok then ret (Err ERROR_SIG_FULL)
    else
      let! thread := on_sched (thread_to_interrupt threads None) in
      match thread with
      | Some t => let! r := on_sched (thread_interrupt t) in ret (if is_error r then r else Num 0)
      | None => ret (Num 0)
      end.

Definition get_signal (sig : Z) : M signal_table_t signal_t := fun st =>
  if 0 <=? sig then of_option Undefined (handlers st !! Z.to_nat sig) st else Stop Undefined.
Definition set_handler (sig h : Z) : M signal_table_t unit :=
  let! g := get_signal sig in
  modify (fun st => SignalTable (<[Z.to_nat sig := Signal (action g) h]> (handlers st)) (signal_queue_size st)
                      (signal_queue_head st) (signal_queue_tail st) (signal_queue st)).

Definition signal_table_set (sig handler : Z) : M signal_table_t code :=
  if sig >=? _SIG_COUNT then ret (NegErr EINVAL) else do! set_handler sig handler; ret (Num 0).
Definition signal_table_reset (sig : Z) : M signal_table_t code :=
  if sig >=? _SIG_COUNT then ret (Err ERROR_NO_SIG) else do! set_handler sig 0; ret (Num 0).

(** What [signal_table_resume] decides: nothing pending, the default action,
    or the user's handler with the signal number as its argument. *)
Inductive delivery :=
  | NothingPending
  | DefaultAction (a : signal_action_t)
  | UserHandler (handler sig : Z).

Definition take_signal : M signal_table_t delivery :=
  let! st := get in
  if signal_queue_size st =? 0 then ret NothingPending
  else
    let! sig := of_option Undefined (signal_queue st !! Z.to_nat (signal_queue_head st)) in
    do! put (SignalTable (handlers st) (u64 (signal_queue_size st - 1)) (u64 (signal_queue_head st + 1) mod SIGNAL_QUEUE_SIZE)
               (signal_queue_tail st) (signal_queue st));
    let! g := get_signal sig in
    ret (if user_handler g =? 0 then DefaultAction (action g) else UserHandler (user_handler g) sig).

(** ** Pending signals as a queue *)

Inductive signal_op := Raise (sig : Z) | SetHandler (sig h : Z) | ResetHandler (sig : Z) | Deliver.
Inductive signal_result := Returned (c : code) | Delivered (d : delivery).

(** The operations of the table, without the threads. *)
Definition raise (sig : Z) : M signal_table_t code :=
  if sig >=? _SIG_COUNT then ret (Err ERROR_NO_SIG)
  else let! ok := queue_signal sig in ret (if ok : bool then Num 0 else Err ERROR_SIG_FULL).
Definition run_signal (o : signal_op) : M signal_table_t signal_result :=
  match o with
  | Raise sig => let! c := raise sig in ret (Returned c)
  | SetHandler sig h => let! c := signal_table_set sig h in ret (Returned c)
  | ResetHandler sig => let! c := signal_table_reset sig in ret (Returned c)
  | Deliver => let! d := take_signal in ret (Delivered d)
  end.

(** The specification: pending signals in order, and a handler per number. *)
Record pending := Pending { queued : list Z; handler_of : Z -> Z }.
Definition with_handler (sig h : Z) (p : pending) : pending :=
  Pending (queued p) (fun i => if i =? sig then h else handler_of p i).
Definition spec_signal (o : signal_op) : M pending signal_result := fun p =>
  match o with
  | Raise sig =>
      if sig >=? _SIG_COUNT then Done (Returned (Err ERROR_NO_SIG), p)
      else if bool_decide (length (queued p) = 10%nat) then Done (Returned (Err ERROR_SIG_FULL), p)
      else Done (Returned (Num 0), Pending (queued p ++ [sig]) (handler_of p))
  | SetHandler sig h =>
      if sig >=? _SIG_COUNT then Done (Returned (NegErr EINVAL), p) else Done (Returned (Num 0), with_handler sig h p)
  | ResetHandler sig =>
      if sig >=? _SIG_COUNT then Done (Returned (Err ERROR_NO_SIG), p) else Done (Returned (Num 0), with_handler sig 0 p)
  | Deliver =>
      match queued p with
      | [] => Done (Delivered NothingPending, p)
      | sig :: q =>
          Done (Delivered (if handler_of p sig =? 0 then DefaultAction (signal_defaults sig) else UserHandler (handler_of p sig) sig),
                Pending q (handler_of p))
      end
  end.

(** Signal numbers are not negative. *)
Definition valid_signal (o : signal_op) : Prop :=
  match o with Raise sig | SetHandler sig _ | ResetHandler sig => 0 <= sig | Deliver => True end.

Record signal_rep (st : signal_table_t) (p : pending) : Prop := {
  sg_ring : ring_rep SIGNAL_QUEUE_SIZE (signal_queue_head st) (signal_queue_tail st) (signal_queue_size st) (signal_queue st) (queued p);
  sg_valid : Forall (fun sig => 0 <= sig < _SIG_COUNT) (queued p);
  sg_handlers sig : 0 <= sig < _SIG_COUNT ->
    handlers st !! Z.to_nat sig = Some (Signal (signal_defaults sig) (handler_of p sig))
}.

Lemma signal_table_init_rep junk : length junk = 10%nat -> signal_rep (signal_table_init junk) (Pending [] (fun _ => 0)).
Proof.
  intros Hj. split; [|done|].
  - apply ring_empty; unfold SIGNAL_QUEUE_SIZE; cbn; lia.
  - intros sig Hs. cbn. rewrite list_lookup_fmap, lookup_seq_lt by lia. cbn. by rewrite Z2Nat.id by lia.
Qed.

Lemma get_signal_done st p sig : signal_rep st p -> 0 <= sig < _SIG_COUNT ->
  get_signal sig st = Done (Signal (signal_defaults sig) (handler_of p sig), st).
Proof. intros Hr Hs. unfold get_signal. rewrite (proj2 (Z.leb_le _ _)) by lia. by rewrite (sg_handlers _ _ Hr). Qed.

Lemma set_handler_spec st p sig h : signal_rep st p -> 0 <= sig < _SIG_COUNT ->
  exists st', set_handler sig h st = Done (tt, st') /\ signal_rep st' (with_handler sig h p).
Proof.
  intros Hr Hs. unfold set_handler. rewrite (bind_done _ _ _ _ _ (get_signal_done _ _ _ Hr Hs)). eexists. split; [reflexivity|].
  destruct Hr as [Hq Hv Hh]. split; [done|done|]. intros i Hi. cbn. destruct (Z.eqb_spec i sig) as [->|Hne].
  - rewrite list_lookup_insert_eq; [done|]. apply lookup_lt_is_Some. by rewrite Hh.
  - rewrite list_lookup_insert_ne by lia. by apply Hh.
Qed.

Lemma queue_signal_spec st p sig : signal_rep st p -> 0 <= sig < _SIG_COUNT ->
  if bool_decide (length (queued p) = 10%nat) then queue_signal sig st = Done (false, st)
  else exists st', queue_signal sig st = Done (true, st') /\ signal_rep st' (Pending (queued p ++ [sig]) (handler_of p)).
Proof.
  intros [Hq Hv Hh] Hs. unfold queue_signal. rewrite bind_get. pose proof Hq as [Hc Hrd Hsz Hf Hw _].
  pose proof (ring_wr_range _ _ _ _ _ _ Hq) as Hwr. rewrite Hsz. case_bool_decide as Hl.
  { by rewrite Hl. }
  unfold SIGNAL_QUEUE_SIZE in *. rewrite (proj2 (Z.eqb_neq _ _)) by lia. replace (_ && _) with true by andb_lia. cbn [guard_or].
  rewrite bind_ret_l. eexists. split; [reflexivity|]. split; cbn.
  - rewrite !u64_small by lia. rewrite <- Hsz. apply ring_push; [done|lia].
  - apply Forall_app_2; [done|by apply Forall_singleton].
  - done.
Qed.

(** C8: Signals are delivered in the order they were raised.  Whatever is
    raised, handled and delivered, the table answers as a queue of at most ten
    pending signals: an unknown signal and a full queue are refused with their
    own codes and change nothing, a delivery takes the oldest signal, and its
    effect is the default action or the handler set last. *)
Theorem signals_refine_queue os st p (Hrep : signal_rep st p) (Hv : Forall valid_signal os) :
  outcomes_agree signal_rep (run_all run_signal os st) (run_all spec_signal os p).
Proof.
  apply run_all_simulates; [|done]. intros o Ho. rewrite Forall_forall in Hv. specialize (Hv o Ho). clear st p Hrep. intros st p Hr.
  destruct o as [sig|sig h|sig|]; cbn [run_signal spec_signal valid_signal] in *.
  - unfold raise. destruct (Z.geb_spec sig _SIG_COUNT); [done|]. pose proof (queue_signal_spec st p sig Hr ltac:(lia)) as Hq.
    case_bool_decide; [by rewrite bind_assoc, (bind_done _ _ _ _ _ Hq)|]. destruct Hq as (st' & E & Hr').
    by rewrite bind_assoc, (bind_done _ _ _ _ _ E).
  - unfold signal_table_set. destruct (Z.geb_spec sig _SIG_COUNT); [done|]. destruct (set_handler_spec st p sig h Hr ltac:(lia)) as (st' & E & Hr').
    by rewrite bind_assoc, (bind_done _ _ _ _ _ E).
  - unfold signal_table_reset. destruct (Z.geb_spec sig _SIG_COUNT); [done|]. destruct (set_handler_spec st p sig 0 Hr ltac:(lia)) as (st' & E & Hr').
    by rewrite bind_assoc, (bind_done _ _ _ _ _ E).
  - unfold take_signal. rewrite bind_assoc, bind_get. destruct Hr as [Hq Hval Hh]. pose proof Hq as [Hc Hrd Hsz Hf _ _]. rewrite Hsz.
    destruct (queued p) as [|sig q] eqn:Eq; [by split; [|split; rewrite ?Eq]|]. cbn [length]. rewrite (proj2 (Z.eqb_neq _ 0)) by lia.
    destruct (ring_pop _ _ _ _ _ _ _ Hq) as [Hlk Hq']. rewrite Hlk. unfold of_option.
    rewrite bind_assoc, (bind_done (fun s => Done (sig, s)) _ st sig st eq_refl). apply Forall_cons in Hval as [Hs Hval].
    rewrite bind_assoc, (bind_done (put _) _ st tt _ eq_refl). set (st' := SignalTable _ _ _ _ _).
    assert (signal_rep st' (Pending q (handler_of p))) as Hr'.
    { unfold SIGNAL_QUEUE_SIZE in *. split; cbn; [|done|done]. rewrite !u64_small by (cbn [length] in *; lia).
      cbn [length] in Hsz. rewrite <- Hsz. exact Hq'. }
    rewrite bind_assoc, (bind_done _ _ _ _ _ (get_signal_done st' _ sig Hr' Hs)). cbn [user_handler action handler_of]. by split.
Qed.

(** The threads do not matter to what is queued: an invocation that raises the
    signal queues it whatever happens to the threads afterwards. *)
Lemma signal_table_invoke_queues threads sig s c s' : signal_table_invoke threads sig s = Done (c, s') ->
  exists c', raise sig (table s) = Done (c', table s') /\ (c' = Num 0 \/ c = c').
Proof.
  unfold signal_table_invoke, raise. destruct (sig >=? _SIG_COUNT). { intros [= <- <-]. eauto. }
  intros (ok & s1 & H1 & H)%bind_done_inv. unfold on_table, zoom in H1. destruct (queue_signal sig (table s)) as [[b t]|] eqn:E; [|done].
  injection H1 as -> <-. rewrite (bind_done _ _ _ _ _ E). destruct ok; cbn [negb] in H.
  - exists (Num 0). split; [|by left]. apply bind_done_inv in H as (o & s2 & H2 & H).
    unfold on_sched, zoom in H2. destruct (thread_to_interrupt _ _ _) as [[? c2]|]; [|done]. injection H2 as -> <-.
    destruct o as [t2|]; [|by injection H as <- <-]. apply bind_done_inv in H as (r & s3 & H3 & H). injection H as <- <-.
    unfold on_sched, zoom in H3. destruct (thread_interrupt _ _) as [[? c3]|]; [|done]. by injection H3 as <- <-.
  - injection H as <- <-. exists (Err ERROR_SIG_FULL). by split; [|right].
Qed.
End signal.

(** ** A run: four signals, of which number 3 is [SIG_CHILD] *)

Definition demo_signal_ops : list signal_op := [Raise 1; Raise 3; SetHandler 1 4096; Raise 9; Deliver; Deliver; Deliver].

Lemma signals_refine_queue_witness :
  outcomes_agree (signal_rep 4 3) (run_all (run_signal 4) demo_signal_ops (signal_table_init 4 3 (replicate 10 0)))
    (run_all (spec_signal 4 3) demo_signal_ops (Pending [] (fun _ => 0))) /\
  (fun r => match r with Done (l, _) => Some l | Stop _ => None end)
    (run_all (spec_signal 4 3) demo_signal_ops (Pending [] (fun _ => 0))) =
  Some [Returned (Num 0); Returned (Num 0); Returned (Num 0); Returned (Err ERROR_NO_SIG);
        Delivered (UserHandler 4096 1); Delivered (DefaultAction ACT_IGNORE); Delivered NothingPending].
Proof.
  split; [|vm_compute; reflexivity].
  apply (signals_refine_queue 4 3 demo_signal_ops _ _ (signal_table_init_rep 4 3 (replicate 10 0) eq_refl)).
  repeat constructor; discriminate.
Defined.
