(* ===== verification/Fs.v ===== *)
(** * Fs: the virtual file system (src/filesystem/)

    Directory entries, entry nodes, inodes and superblocks are objects of a
    store indexed by object identity; a pointer is an identity, NULL is
    [None], and using an object that was freed or never existed is
    [Undefined].  Identities are never reused, so a dangling pointer can never
    be mistaken for a live one.

    The list of a directory ([head] .. [tail]) is the list of its entry nodes;
    the pointer surgery of such lists is verified in Dll.  A superblock refers
    to its operations table by number; [ops] gives each table's functions, a
    missing function being [None] (calling it is a call through NULL).  The
    file system of the kernel itself, ramfs, is at the end of this file. *)
From S2P Require Import Prelude Pipe.

(** include/filesystem and the (external) [fs_file_type_t]. *)
Inductive fs_file_type_t := FS_REGULAR | FS_DIRECTORY | FS_DEVICE | FS_PIPE | FS_SOCKET.
#[export] Instance fs_file_type_eq_dec : EqDecision fs_file_type_t.
Proof. solve_decision. Defined.

(** [fs_node_t] with the fields [size] (here [ramfs_size]) and [data] that
    [ramfs_fs_node_t] adds; [nd_size] is the [size] of the base structure.
    [data] is the block [data] points to; [None] is an indeterminate byte. *)
Record fs_node_t := FsNode {
  nd_delete : bool; nd_references : Z; nd_size : Z; ramfs_size : Z; nd_data : option (list (option Z))
}.
Record fs_directory_entry_node_t := EntryNode { en_dirent : option Z; en_name : list Z }.
Record fs_directory_entry_t := Dirent {
  parent : option Z; parent_node : option Z; references : Z; superblock : option Z;
  type : fs_file_type_t; node : option Z; device : option Z; pipe : option Z;
  socket : option Z; mounted_fs : option Z; entries : list Z
}.
Record fs_superblock_t := Superblock {
  prev_dirent : option Z; mount_point : option Z; sb_device : option Z; superblock_ops : Z
}.
Record fs_filesystem_node_t := FsType { fn_name : list Z; mount_count : Z; fn_ops : Z }.

Record fs := Fs {
  dirents : gmap Z fs_directory_entry_t;
  enodes : gmap Z fs_directory_entry_node_t;
  nodes : gmap Z fs_node_t;
  supers : gmap Z fs_superblock_t;
  pipes : gmap Z pipe_t;
  filesystems : list (Z * fs_filesystem_node_t);
  next_id : Z
}.

(** [&fs_root]. *)
Definition fs_root : Z := 0.

Definition set_dirents (f : gmap Z fs_directory_entry_t -> gmap Z fs_directory_entry_t) (s : fs) : fs :=
  Fs (f (dirents s)) (enodes s) (nodes s) (supers s) (pipes s) (filesystems s) (next_id s).
Definition set_enodes (f : gmap Z fs_directory_entry_node_t -> gmap Z fs_directory_entry_node_t) (s : fs) : fs :=
  Fs (dirents s) (f (enodes s)) (nodes s) (supers s) (pipes s) (filesystems s) (next_id s).
Definition set_nodes (f : gmap Z fs_node_t -> gmap Z fs_node_t) (s : fs) : fs :=
  Fs (dirents s) (enodes s) (f (nodes s)) (supers s) (pipes s) (filesystems s) (next_id s).
Definition set_supers (f : gmap Z fs_superblock_t -> gmap Z fs_superblock_t) (s : fs) : fs :=
  Fs (dirents s) (enodes s) (nodes s) (f (supers s)) (pipes s) (filesystems s) (next_id s).
Definition set_pipes (f : gmap Z pipe_t -> gmap Z pipe_t) (s : fs) : fs :=
  Fs (dirents s) (enodes s) (nodes s) (supers s) (f (pipes s)) (filesystems s) (next_id s).
Definition set_filesystems (f : list (Z * fs_filesystem_node_t) -> list (Z * fs_filesystem_node_t)) (s : fs) : fs :=
  Fs (dirents s) (enodes s) (nodes s) (supers s) (pipes s) (f (filesystems s)) (next_id s).

(** Field updates of a directory entry. *)
Definition with_parent (p pn : option Z) (d : fs_directory_entry_t) : fs_directory_entry_t :=
  Dirent p pn (references d) (superblock d) (type d) (node d) (device d) (pipe d) (socket d) (mounted_fs d) (entries d).
Definition with_references (n : Z) (d : fs_directory_entry_t) : fs_directory_entry_t :=
  Dirent (parent d) (parent_node d) n (superblock d) (type d) (node d) (device d) (pipe d) (socket d) (mounted_fs d) (entries d).
Definition with_superblock (b : option Z) (d : fs_directory_entry_t) : fs_directory_entry_t :=
  Dirent (parent d) (parent_node d) (references d) b (type d) (node d) (device d) (pipe d) (socket d) (mounted_fs d) (entries d).
Definition with_type (t : fs_file_type_t) (d : fs_directory_entry_t) : fs_directory_entry_t :=
  Dirent (parent d) (parent_node d) (references d) (superblock d) t (node d) (device d) (pipe d) (socket d) (mounted_fs d) (entries d).
Definition with_node (n : option Z) (d : fs_directory_entry_t) : fs_directory_entry_t :=
  Dirent (parent d) (parent_node d) (references d) (superblock d) (type d) n (device d) (pipe d) (socket d) (mounted_fs d) (entries d).
Definition with_pipe (p : option Z) (d : fs_directory_entry_t) : fs_directory_entry_t :=
  Dirent (parent d) (parent_node d) (references d) (superblock d) (type d) (node d) (device d) p (socket d) (mounted_fs d) (entries d).
Definition with_socket (k : option Z) (d : fs_directory_entry_t) : fs_directory_entry_t :=
  Dirent (parent d) (parent_node d) (references d) (superblock d) (type d) (node d) (device d) (pipe d) k (mounted_fs d) (entries d).
Definition with_mounted_fs (m : option Z) (d : fs_directory_entry_t) : fs_directory_entry_t :=
  Dirent (parent d) (parent_node d) (references d) (superblock d) (type d) (node d) (device d) (pipe d) (socket d) m (entries d).
Definition with_entries (l : list Z) (d : fs_directory_entry_t) : fs_directory_entry_t :=
  Dirent (parent d) (parent_node d) (references d) (superblock d) (type d) (node d) (device d) (pipe d) (socket d) (mounted_fs d) l.

(** Reading, writing and freeing through a pointer. *)
Definition nonnull (o : option Z) : M fs Z := of_option Undefined o.
Definition get_dirent (d : Z) : M fs fs_directory_entry_t := fun s => of_option Undefined (dirents s !! d) s.
Definition upd_dirent (d : Z) (f : fs_directory_entry_t -> fs_directory_entry_t) : M fs unit :=
  let! e := get_dirent d in modify (set_dirents <[d := f e]>).
Definition free_dirent (d : Z) : M fs unit := do! get_dirent d; modify (set_dirents (delete d)).
Definition get_enode (n : Z) : M fs fs_directory_entry_node_t := fun s => of_option Undefined (enodes s !! n) s.
Definition set_enode_dirent (n : Z) (d : option Z) : M fs unit :=
  let! e := get_enode n in modify (set_enodes <[n := EntryNode d (en_name e)]>).
Definition free_enode (n : Z) : M fs unit := do! get_enode n; modify (set_enodes (delete n)).
Definition get_node (n : Z) : M fs fs_node_t := fun s => of_option Undefined (nodes s !! n) s.
Definition put_node (n : Z) (v : fs_node_t) : M fs unit := modify (set_nodes <[n := v]>).
Definition free_node (n : Z) : M fs unit := do! get_node n; modify (set_nodes (delete n)).
Definition get_super (b : Z) : M fs fs_superblock_t := fun s => of_option Undefined (supers s !! b) s.
Definition upd_super (b : Z) (f : fs_superblock_t -> fs_superblock_t) : M fs unit :=
  let! e := get_super b in modify (set_supers <[b := f e]>).

(** The identity of a new object ([heap_alloc_debug] of its struct). *)
Definition fresh_id : M fs Z :=
  let! s := get in
  do! put (Fs (dirents s) (enodes s) (nodes s) (supers s) (pipes s) (filesystems s) (next_id s + 1));
  ret (next_id s).

(** ** directory_entry.c, the part that needs no operations table *)

Definition fs_directory_entry_create (t : fs_file_type_t) (parent parent_node : option Z) : M fs Z :=
  let! id := fresh_id in
  let! sb := match parent with
             | None => ret None
             | Some p => let! e := get_dirent p in ret (superblock e)
             end in
  do! modify (set_dirents <[id := Dirent parent parent_node 1 sb t None None None None None []]>);
  ret id.

(** The first entry node of [l] with this name ([strcmp] is equality on names). *)
Fixpoint find_entry (name : list Z) (l : list Z) : M fs (option Z) :=
  match l with
  | [] => ret None
  | n :: l' => let! e := get_enode n in if decide (en_name e = name) then ret (Some n) else find_entry name l'
  end.

Definition fs_directory_entry_add_entry (directory_entry : Z) (name : list Z) : M fs (option Z) :=
  let! e := get_dirent directory_entry in
  let! found := find_entry name (entries e) in
  match found with
  | Some _ => ret None
  | None =>
      let! id := fresh_id in
      do! modify (set_enodes <[id := EntryNode None name]>);
      do! upd_dirent directory_entry (fun e => with_entries (id :: entries e) e);
      ret (Some id)
  end.

Definition fs_directory_entry_add_reference (directory_entry : Z) : M fs unit :=
  upd_dirent directory_entry (fun e => with_references (u64 (references e + 1)) e).

(** ** node.c, superblock.c *)

Definition fs_node_init : fs_node_t := FsNode false 1 0 0 None.
Definition fs_node_add_reference (n : Z) : M fs unit :=
  let! v := get_node n in put_node n (FsNode (nd_delete v) (u64 (nd_references v + 1)) (nd_size v) (ramfs_size v) (nd_data v)).

(** [superblock_alloc]: only the operations table is set. *)
Definition superblock_alloc (o : Z) : M fs Z :=
  let! id := fresh_id in do! modify (set_supers <[id := Superblock None None None o]>); ret id.
Definition superblock_free (b : Z) : M fs unit := do! get_super b; modify (set_supers (delete b)).

(** [fs_superblock_ops_t], with the mount and unmount functions the file
    system was registered with. *)
Record fs_superblock_ops_t := SuperblockOps {
  op_alloc_node : Z -> M fs (option Z);
  op_free_node : Z -> Z -> M fs unit;
  op_list : Z -> M fs unit;
  op_lookup : option (Z -> Z -> option Z -> M fs code);
  op_create : option (Z -> Z -> list Z -> fs_file_type_t -> M fs (option Z));
  op_delete : option (Z -> M fs code);
  op_read : option (Z -> Z -> Z -> M fs (code * list (option Z)));
  op_write : option (Z -> list Z -> Z -> M fs (code * Z));
  op_mount : Z -> M fs code;
  op_unmount : Z -> M fs code
}.

Section with_ops.
Context (ops : Z -> fs_superblock_ops_t).

(** [dirent->superblock->superblock_ops]. *)
Definition ops_of (dirent : Z) : M fs (Z * fs_superblock_ops_t) :=
  let! e := get_dirent dirent in
  let! b := nonnull (superblock e) in
  let! sb := get_super b in
  ret (b, ops (superblock_ops sb)).

Definition fs_node_release (dirent : Z) : M fs unit :=
  let! e := get_dirent dirent in
  let! n := nonnull (node e) in
  let! v := get_node n in
  let refs := u64 (nd_references v - 1) in
  do! put_node n (FsNode (nd_delete v) refs (nd_size v) (ramfs_size v) (nd_data v));
  if refs =? 0 then
    do! (if nd_delete v then
           let! (_, o) := ops_of dirent in
           let! del := of_option Undefined (op_delete o) in
           do! del dirent; ret tt
         else ret tt);
    let! (b, o) := ops_of dirent in
    let! e' := get_dirent dirent in
    let! n' := nonnull (node e') in
    op_free_node o b n'
  else ret tt.

(** The loop that frees the entry nodes of a dying directory. *)
Fixpoint free_entries (l : list Z) : M fs unit :=
  match l with
  | [] => ret tt
  | n :: l' => do! free_enode n; free_entries l'
  end.

(** [fs_directory_entry_release]; the fuel bounds the length of the parent
    chain.  A count that is already 0 waits at a [hlt]. *)
Fixpoint release_fuel (fuel : nat) (d : Z) : M fs unit :=
  match fuel with
  | O => stop_with NoFuel
  | S fuel' =>
      let! e := get_dirent d in
      if references e =? 0 then stop_with Halted
      else
        do! upd_dirent d (with_references (references e - 1));
        if references e - 1 =? 0 then
          do! match parent e with
              | None => ret tt
              | Some p =>
                  let! pn := nonnull (parent_node e) in
                  do! set_enode_dirent pn None;
                  release_fuel fuel' p
              end;
          do! fs_node_release d;
          let! e' := get_dirent d in
          do! free_entries (entries e');
          free_dirent d
        else ret tt
  end.

(** A chain of parents without a cycle is no longer than the number of
    directory entries. *)
Definition fs_directory_entry_release (d : Z) : M fs unit :=
  fun s => release_fuel (S (size (dirents s))) d s.

Definition fs_directory_node_enter (dirent n : Z) : M fs (option Z) :=
  let! en := get_enode n in
  do! match en_dirent en with
      | None =>
          do! fs_directory_entry_add_reference dirent;
          let! (b, o) := ops_of dirent in
          let! new_node := op_alloc_node o b in
          let! lookup := of_option Undefined (op_lookup o) in
          do! lookup dirent n new_node;
          let! en' := get_enode n in
          let! c := nonnull (en_dirent en') in
          op_list o c
      | Some c => fs_directory_entry_add_reference c
      end;
  let! en' := get_enode n in ret (en_dirent en').

Definition fs_directory_entry_enter (directory_entry : Z) (name : list Z) : M fs (option Z) :=
  let! e := get_dirent directory_entry in
  let! found := find_entry name (entries e) in
  match found with
  | Some n => fs_directory_node_enter directory_entry n
  | None => ret None
  end.

(** ** filesystem.c *)

Fixpoint find_fs (name : list Z) (l : list (Z * fs_filesystem_node_t)) : option (Z * fs_filesystem_node_t) :=
  match l with
  | [] => None
  | x :: l' => if decide (fn_name x.2 = name) then Some x else find_fs name l'
  end.

Definition fs_register (name : list Z) (o : Z) : M fs code :=
  let! s := get in
  match find_fs name (filesystems s) with
  | Some _ => ret (Err ERROR_FILESYSTEM_EXISTS)
  | None =>
      let! id := fresh_id in
      do! modify (set_filesystems (cons (id, FsType name 0 o)));
      ret (Num 0)
  end.

Definition fs_unregister (name : list Z) : M fs code :=
  let! s := get in
  match find_fs name (filesystems s) with
  | None => ret (Err ERROR_FILESYSTEM_NOT_FOUND)
  | Some x =>
      if mount_count x.2 >? 0 then ret (Err ERROR_FILESYSTEM_HAS_MOUNT)
      else
        do! modify (set_filesystems (remove_first (fun y => bool_decide (fn_name y.2 = name))));
        ret (Num 0)
  end.

(** [node->mount_count++] on the list of registered file systems. *)
Definition bump_mount_count (id : Z) (l : list (Z * fs_filesystem_node_t)) : list (Z * fs_filesystem_node_t) :=
  map (fun x => if x.1 =? id then (x.1, FsType (fn_name x.2) (u64 (mount_count x.2 + 1)) (fn_ops x.2)) else x) l.

(** The common tail of [fs_mount_root] and [fs_mount], once the superblock
    [b] is attached to the directory entry [mp]. *)
Definition mount_on (b mp : Z) (fsn : Z * fs_filesystem_node_t) : M fs code :=
  let o := ops (fn_ops fsn.2) in
  let! new_node := op_alloc_node o b in
  do! upd_dirent mp (with_node new_node);
  let! result := op_mount o b in
  if negb (bool_decide (result = Num 0)) then ret result
  else
    do! op_list o mp;
    do! upd_dirent mp (with_mounted_fs (Some fsn.1));
    do! modify (set_filesystems (bump_mount_count fsn.1));
    ret (Num 0).

Definition fs_mount_root (name : list Z) (dev : option Z) : M fs code :=
  do! upd_dirent fs_root (with_entries []);
  let! s := get in
  match find_fs name (filesystems s) with
  | None => ret (Err ERROR_FILESYSTEM_NOT_FOUND)
  | Some fsn =>
      do! fs_directory_entry_add_reference fs_root;
      let! b := superblock_alloc (fn_ops fsn.2) in
      do! upd_super b (fun e => Superblock None (Some fs_root) dev (superblock_ops e));
      do! upd_dirent fs_root (fun e => with_type FS_DIRECTORY (with_superblock (Some b) e));
      mount_on b fs_root fsn
  end.

Definition fs_mount (name : list Z) (mp : Z) (dev : option Z) : M fs code :=
  let! e := get_dirent mp in
  if negb (bool_decide (type e = FS_DIRECTORY)) then ret (NegErr ENOTDIR)
  else
    let! s := get in
    match find_fs name (filesystems s) with
    | None => ret (Err ERROR_FILESYSTEM_NOT_FOUND)
    | Some fsn =>
        do! fs_directory_entry_add_reference mp;
        let! b := superblock_alloc (fn_ops fsn.2) in
        let! new_dirent := fs_directory_entry_create FS_DIRECTORY (parent e) (parent_node e) in
        do! upd_super b (fun e => Superblock (Some mp) (Some new_dirent) dev (superblock_ops e));
        do! upd_dirent new_dirent (fun e => with_type FS_DIRECTORY (with_superblock (Some b) e));
        let! pn := nonnull (parent_node e) in
        do! set_enode_dirent pn (Some new_dirent);
        mount_on b new_dirent fsn
    end.

Definition fs_unmount (mp : Z) : M fs code :=
  let! e := get_dirent mp in
  match mounted_fs e with
  | None => ret (Err ERROR_FILESYSTEM_NOT_MOUNTED)
  | Some id =>
      let! s := get in
      let! fsn := of_option Undefined (snd <$> list_find (fun x => x.1 = id) (filesystems s)) in
      let! b := nonnull (superblock e) in
      do! op_unmount (ops (fn_ops fsn.2)) b;
      let! sb := get_super b in
      do! match parent_node e with
          | None => ret tt
          | Some pn => set_enode_dirent pn (prev_dirent sb)
          end;
      do! match prev_dirent sb with
          | None => ret tt
          | Some pd => fs_directory_entry_release pd
          end;
      do! fs_directory_entry_release mp;
      do! upd_dirent mp (with_mounted_fs None);
      let! e' := get_dirent mp in
      do! match parent e' with
          | None => ret tt
          | Some p => let! pe := get_dirent p in upd_dirent mp (with_superblock (superblock pe))
          end;
      ret (Num 0)
  end.

Definition fs_make (parent : Z) (name : list Z) (t : fs_file_type_t) : M fs (option Z) :=
  let! (b, o) := ops_of parent in
  let! new_node := op_alloc_node o b in
  match new_node with
  | None => ret None
  | Some n =>
      let! create := of_option Undefined (op_create o) in
      let! dn := create parent n name t in
      match dn with
      | None => ret None
      | Some en => 
          do! fs_directory_entry_add_reference parent;
          let! e := get_enode en in ret (en_dirent e)
      end
  end.

Definition fs_make_anon (t : fs_file_type_t) : M fs Z :=
  let! d := fs_directory_entry_create t None None in
  do! upd_dirent d (with_node None); ret d.

(** The pipe gets a fresh page with arbitrary contents. *)
Definition fs_make_anon_pipe (page : list Z) : M fs Z :=
  let! d := fs_directory_entry_create FS_PIPE None None in
  do! upd_dirent d (with_node None);
  let! p := fresh_id in
  do! modify (set_pipes <[p := pipe_init page]>);
  do! upd_dirent d (with_pipe (Some p));
  ret d.

(** [sock] is the object [socket_init] returned. *)
Definition fs_make_anon_socket (sock : Z) : M fs Z :=
  let! d := fs_directory_entry_create FS_SOCKET None None in
  do! upd_dirent d (with_node None);
  do! upd_dirent d (with_socket (Some sock));
  ret d.

(** *** Paths.  [path] is the memory from the path's first byte on; reading
    past its end is [Undefined].  The fuel bounds the number of bytes read. *)

Definition SLASH : Z := 47.
Definition DOT : Z := 46.

(** The C string at the start of a buffer. *)
Fixpoint cstr (l : list Z) : list Z :=
  match l with
  | [] => []
  | c :: l' => if c =? 0 then [] else c :: cstr l'
  end.

(** [segment], a C string, for [path_start .. path_pos]. *)
Definition segment (path : list Z) (start pos : nat) : list Z := cstr (take (pos - start) (drop start path)).

Definition is_dot (seg : list Z) : bool := bool_decide (seg = [] \/ seg = [DOT]).
Definition is_dotdot (seg : list Z) : bool := bool_decide (seg = [DOT; DOT]).

Fixpoint open_path_loop (fuel : nat) (path : list Z) (pos start : nat) (cur_node : Z) : M fs (option Z) :=
  match fuel with
  | O => stop_with NoFuel
  | S fuel' =>
      let! c := of_option Undefined (path !! pos) in
      if (c =? SLASH) || (c =? 0) then
        let seg := segment path start pos in
        let! new_node :=
          if is_dot seg then ret (Some cur_node)
          else if is_dotdot seg then
            let! e := get_dirent cur_node in
            match parent e with
            | Some p =>
                do! fs_directory_entry_add_reference p;
                do! fs_directory_entry_release cur_node;
                ret (Some p)
            | None => ret (Some cur_node)
            end
          else
            let! r := fs_directory_entry_enter cur_node seg in
            do! fs_directory_entry_release cur_node;
            ret r in
        match new_node with
        | None => ret None
        | Some nn =>
            if c =? 0 then ret (Some nn)
            else open_path_loop fuel' path (S (S pos)) (S pos) nn
        end
      else open_path_loop fuel' path (S pos) start cur_node
  end.

Definition fs_open_path (root : Z) (path : list Z) : M fs (option Z) :=
  do! fs_directory_entry_add_reference root;
  open_path_loop (S (length path)) path 0 0 root.

(** [fs_make_path] ([dirs = false]) and [fs_make_path_dirs] ([dirs = true])
    differ only in what they do when a directory on the way is missing. *)
Fixpoint make_path_loop (dirs : bool) (fuel : nat) (path : list Z) (t : fs_file_type_t)
    (pos start : nat) (cur_node : Z) : M fs (option Z) :=
  match fuel with
  | O => stop_with NoFuel
  | S fuel' =>
      let! c := of_option Undefined (path !! pos) in
      if (c =? SLASH) || (c =? 0) then
        let seg := segment path start pos in
        if c =? 0 then
          let! new_dirent := fs_make cur_node seg t in
          do! fs_directory_entry_release cur_node;
          ret new_dirent
        else
          let! new_node :=
            if is_dot seg then ret (Some cur_node)
            else if is_dotdot seg then
              let! e := get_dirent cur_node in
              match parent e with
              | Some p => do! fs_directory_entry_release cur_node; ret (Some p)
              | None => ret (Some cur_node)
              end
            else
              let! r := fs_directory_entry_enter cur_node seg in
              do! fs_directory_entry_release cur_node;
              match r with
              | Some nn => ret (Some nn)
              | None => if dirs then fs_make cur_node seg FS_DIRECTORY else ret None
              end in
          match new_node with
          | None => ret None
          | Some nn => make_path_loop dirs fuel' path t (S (S pos)) (S pos) nn
          end
      else make_path_loop dirs fuel' path t (S pos) start cur_node
  end.

Definition fs_make_path (root : Z) (path : list Z) (t : fs_file_type_t) : M fs (option Z) :=
  do! fs_directory_entry_add_reference root;
  make_path_loop false (S (length path)) path t 0 0 root.
Definition fs_make_path_dirs (root : Z) (path : list Z) (t : fs_file_type_t) : M fs (option Z) :=
  do! fs_directory_entry_add_reference root;
  make_path_loop true (S (length path)) path t 0 0 root.

(** Unlinking an entry node: it is in the list of exactly the directory that
    [parent] names. *)
Definition unlink_entry (p pn : Z) : M fs unit :=
  upd_dirent p (fun e => with_entries (filter (fun n => n <> pn) (entries e)) e).

Definition fs_remove (d : Z) : M fs code :=
  let! e := get_dirent d in
  if bool_decide (type e = FS_DIRECTORY) && negb (bool_decide (entries e = [])) then ret (Err ERROR_DIR_NOT_EMPTY)
  else
    let! n := nonnull (node e) in
    let! v := get_node n in
    do! put_node n (FsNode true (nd_references v) (nd_size v) (ramfs_size v) (nd_data v));
    do! match parent e with
        | None => ret tt
        | Some p =>
            let! pn := nonnull (parent_node e) in
            do! unlink_entry p pn;
            do! free_enode pn;
            upd_dirent d (with_parent None None)
        end;
    do! fs_directory_entry_release d;
    ret (Num 0).

(** ** process.c: paths as a process names them *)

Definition process_open_path (working_dir : Z) (path : list Z) : M fs (option Z) :=
  let! c0 := of_option Undefined (path !! 0%nat) in
  if c0 =? SLASH then
    let! c1 := of_option Undefined (path !! 1%nat) in
    if c1 =? 0 then ret (Some fs_root) else fs_open_path fs_root (drop 1 path)
  else fs_open_path working_dir path.

Definition process_make_path (working_dir : Z) (path : list Z) (t : fs_file_type_t) : M fs (option Z) :=
  let! c0 := of_option Undefined (path !! 0%nat) in
  if c0 =? SLASH then
    let! c1 := of_option Undefined (path !! 1%nat) in
    if c1 =? 0 then ret (Some fs_root) else fs_make_path fs_root (drop 1 path) t
  else fs_make_path working_dir path t.
End with_ops.

(** [fs_init], with [fs_root]'s list as the zeroed storage leaves it. *)
Definition fs_init : fs :=
  Fs {[ fs_root := Dirent None None 1 None FS_DIRECTORY None None None None None [] ]} ∅ ∅ ∅ ∅ [] 1.

(** ** ramfs/ramfs.c *)

Definition ramfs_alloc_node (_ : Z) : M fs (option Z) :=
  let! id := fresh_id in
  do! put_node id fs_node_init;
  ret (Some id).
Definition ramfs_free_node (_ n : Z) : M fs unit := free_node n.
Definition ramfs_list (dirent : Z) : M fs unit := fs_directory_entry_add_reference dirent.

Definition ramfs_create (parent n : Z) (name : list Z) (t : fs_file_type_t) : M fs (option Z) :=
  let! v := get_node n in
  do! match t with
      | FS_REGULAR => put_node n (FsNode (nd_delete v) (nd_references v) (nd_size v) 0 (Some [None]))
      | _ => ret tt
      end;
  match t with
  | FS_DEVICE => ret None
  | _ =>
      let! dirent_node := fs_directory_entry_add_entry parent name in
      let! new_dirent := fs_directory_entry_create t (Some parent) dirent_node in
      do! fs_directory_entry_add_reference new_dirent;
      do! upd_dirent new_dirent (with_node (Some n));
      let! en := nonnull dirent_node in
      do! set_enode_dirent en (Some new_dirent);
      ret dirent_node
  end.

Definition ramfs_link (dirent subdirent : Z) (name : list Z) : M fs (option Z) :=
  let! dirent_node := fs_directory_entry_add_entry dirent name in
  let! sub := get_dirent subdirent in
  let! new_dirent := fs_directory_entry_create (type sub) (Some dirent) dirent_node in
  let! en := nonnull dirent_node in
  do! set_enode_dirent en (Some new_dirent);
  ret dirent_node.

(** Copying [n] bytes out of or into a block from offset [o]; leaving the
    block is [Undefined]. *)
Definition block_read (b : list (option Z)) (o n : Z) : option (list (option Z)) :=
  if (0 <=? o) && (o + n <=? Z.of_nat (length b)) then Some (take (Z.to_nat n) (drop (Z.to_nat o) b)) else None.
Definition block_write (b : list (option Z)) (o : Z) (data : list Z) : option (list (option Z)) :=
  if (0 <=? o) && (o + Z.of_nat (length data) <=? Z.of_nat (length b)) then
    Some (take (Z.to_nat o) b ++ map Some data ++ drop (Z.to_nat o + length data) b)
  else None.

Definition ramfs_node (dirent : Z) : M fs (Z * fs_node_t) :=
  let! e := get_dirent dirent in
  let! n := nonnull (node e) in
  let! v := get_node n in ret (n, v).

(** The bytes stored to [data]; [*read] is their number. *)
Definition ramfs_read (dirent size offset : Z) : M fs (code * list (option Z)) :=
  let! (n, v) := ramfs_node dirent in
  if offset >=? ramfs_size v then ret (Num 0, [])
  else
    let limited_size := if u64 (size + offset) >? ramfs_size v then ramfs_size v - offset else size in
    let! b := of_option Undefined (nd_data v) in
    let! bytes := of_option Undefined (block_read b offset limited_size) in
    ret (Num 0, bytes).

(** [heap_realloc] to a larger size keeps the old bytes; the rest of the new
    block is indeterminate. *)
Definition grow (b : list (option Z)) (n : Z) : list (option Z) :=
  b ++ replicate (Z.to_nat n - length b) None.

Definition ramfs_write (dirent : Z) (data : list Z) (offset : Z) : M fs (code * Z) :=
  let size := Z.of_nat (length data) in
  let! (n, v) := ramfs_node dirent in
  let! b := of_option Undefined (nd_data v) in
  let (sz', b') :=
    if u64 (offset + size) >? ramfs_size v then (u64 (offset + size), grow b (u64 (offset + size)))
    else (ramfs_size v, b) in
  let! b'' := of_option Undefined (block_write b' offset data) in
  do! put_node n (FsNode (nd_delete v) (nd_references v) (nd_size v) sz' (Some b''));
  ret (Num 0, size).

Definition ramfs_superblock_ops : fs_superblock_ops_t := SuperblockOps
  ramfs_alloc_node ramfs_free_node ramfs_list None (Some ramfs_create) None
  (Some ramfs_read) (Some ramfs_write) (fun _ => ret (Num 0)) (fun _ => ret (Num 0)).

(** Table number 0 is ramfs's. *)
Definition RAMFS : Z := 0.
Definition ramfs_name : list Z := [114; 97; 109; 102; 115].
Definition fs_ramfs_init : M fs code := fs_register ramfs_name RAMFS.
