(* ===== verification/FsPath.v ===== *)
(** * FsPath: path resolution and reference counts of the file system

    Theorems on Fs.v.  [hold d s] is the state [s] with one more reference to
    [d]; [walk] is path resolution as a function on the tree.  A tree is
    [resident] when every entry has its directory entry in memory, as in a
    ramfs, so that no operations table is consulted on the way. *)
From S2P Require Import Prelude Pipe Fs.

(** ** One more reference *)

Definition hold (d : Z) (s : fs) : fs :=
  set_dirents (alter (fun e => with_references (references e + 1) e) d) s.

Lemma fs_ext s t : dirents s = dirents t -> enodes s = enodes t -> nodes s = nodes t ->
  supers s = supers t -> pipes s = pipes t -> filesystems s = filesystems t -> next_id s = next_id t -> s = t.
Proof. destruct s, t; simpl; intros; by subst. Qed.

Lemma hold_comm a b s : hold a (hold b s) = hold b (hold a s).
Proof.
  apply fs_ext; try done. simpl. destruct (decide (a = b)) as [->|Hn]; [done|].
  by apply alter_alter_ne.
Qed.

Lemma hold_dirent d x s e : dirents s !! x = Some e ->
  exists n, dirents (hold d s) !! x = Some (with_references n e) /\ n = references e + (if decide (x = d) then 1 else 0).
Proof.
  intros He. simpl. destruct (decide (x = d)) as [->|Hn].
  - rewrite lookup_alter_eq, He. by eexists.
  - rewrite lookup_alter_ne by done. rewrite He. eexists. split; [|done].
    rewrite Z.add_0_r. by destruct e.
Qed.

Lemma get_dirent_done d s e : dirents s !! d = Some e -> get_dirent d s = Done (e, s).
Proof. unfold get_dirent. by intros ->. Qed.
Lemma get_enode_done n s e : enodes s !! n = Some e -> get_enode n s = Done (e, s).
Proof. unfold get_enode. by intros ->. Qed.
Lemma get_node_done n s v : nodes s !! n = Some v -> get_node n s = Done (v, s).
Proof. unfold get_node. by intros ->. Qed.
Lemma get_super_done b s e : supers s !! b = Some e -> get_super b s = Done (e, s).
Proof. unfold get_super. by intros ->. Qed.
Lemma upd_dirent_done d f s e : dirents s !! d = Some e ->
  upd_dirent d f s = Done (tt, set_dirents <[d := f e]> s).
Proof. intros He. unfold upd_dirent. by rewrite (bind_done _ _ _ _ _ (get_dirent_done _ _ _ He)). Qed.

Lemma put_node_done n v s : put_node n v s = Done (tt, set_nodes <[n := v]> s).
Proof. done. Qed.
Lemma free_enode_done n s e : enodes s !! n = Some e -> free_enode n s = Done (tt, set_enodes (delete n) s).
Proof. intros He. unfold free_enode. by rewrite (bind_done _ _ _ _ _ (get_enode_done _ _ _ He)). Qed.

Lemma add_reference_hold d s e : dirents s !! d = Some e -> 0 <= references e -> references e + 1 < 2 ^ 64 ->
  fs_directory_entry_add_reference d s = Done (tt, hold d s).
Proof.
  intros He Hp Hb. unfold fs_directory_entry_add_reference. rewrite (upd_dirent_done _ _ _ _ He).
  f_equal. f_equal. apply fs_ext; try done. simpl. rewrite u64_small by lia.
  apply map_eq. intros x. destruct (decide (x = d)) as [->|Hn].
  - by rewrite lookup_insert_eq, lookup_alter_eq, He.
  - by rewrite lookup_insert_ne, lookup_alter_ne by done.
Qed.

Lemma release_hold ops d s e : dirents s !! d = Some e -> 0 < references e ->
  fs_directory_entry_release ops d (hold d s) = Done (tt, s).
Proof.
  intros He Hp. unfold fs_directory_entry_release. cbn [release_fuel].
  destruct (hold_dirent d d s e He) as (n & Hn & En). rewrite decide_True in En by done.
  rewrite (bind_done _ _ _ _ _ (get_dirent_done _ _ _ Hn)). cbn [references with_references].
  rewrite (proj2 (Z.eqb_neq n 0)) by lia.
  rewrite (bind_done _ _ _ _ _ (upd_dirent_done _ _ _ _ Hn)).
  rewrite (proj2 (Z.eqb_neq (n - 1) 0)) by lia.
  unfold ret. do 2 f_equal. apply fs_ext; try done. simpl. apply map_eq. intros x.
  destruct (decide (x = d)) as [->|Hx].
  - rewrite lookup_insert_eq, He. f_equal. destruct e; unfold with_references; simpl in *. f_equal. lia.
  - by rewrite lookup_insert_ne, lookup_alter_ne by done.
Qed.

(** ** Resident trees *)

Record resident (s : fs) : Prop := Resident {
  res_refs d e : dirents s !! d = Some e -> 0 < references e < 2 ^ 64 - 4;
  res_parent d e p : dirents s !! d = Some e -> parent e = Some p -> is_Some (dirents s !! p);
  res_entry d e n : dirents s !! d = Some e -> n ∈ entries e ->
    exists c name, enodes s !! n = Some (EntryNode (Some c) name) /\ is_Some (dirents s !! c)
}.

(** The child a name resolves to: the first entry with that name. *)
Fixpoint lookup_entry (ens : gmap Z fs_directory_entry_node_t) (name : list Z) (l : list Z) : option Z :=
  match l with
  | [] => None
  | n :: l' =>
      match ens !! n with
      | Some e => if decide (en_name e = name) then Some n else lookup_entry ens name l'
      | None => None
      end
  end.
Definition child (s : fs) (d : Z) (name : list Z) : option Z :=
  e ← dirents s !! d; n ← lookup_entry (enodes s) name (entries e); en ← enodes s !! n; en_dirent en.

Definition walk_step (s : fs) (d : Z) (seg : list Z) : option Z :=
  if is_dot seg then Some d
  else if is_dotdot seg then Some (default d (e ← dirents s !! d; parent e))
  else child s d seg.
Fixpoint walk (s : fs) (d : Z) (segs : list (list Z)) : option Z :=
  match segs with
  | [] => Some d
  | seg :: segs' => match walk_step s d seg with Some d' => walk s d' segs' | None => None end
  end.

Lemma find_entry_done name l s : (forall n, n ∈ l -> is_Some (enodes s !! n)) ->
  find_entry name l s = Done (lookup_entry (enodes s) name l, s).
Proof.
  induction l as [|n l IH]; simpl; intros Hl; [done|].
  destruct (Hl n ltac:(by left)) as [e He].
  rewrite (bind_done _ _ _ _ _ (get_enode_done _ _ _ He)), He.
  case_decide; [done|]. apply IH. intros m Hm. apply Hl. by right.
Qed.

Lemma lookup_entry_Some ens name l n : lookup_entry ens name l = Some n ->
  n ∈ l /\ exists e, ens !! n = Some e /\ en_name e = name.
Proof.
  induction l as [|m l IH]; simpl; [done|]. destruct (ens !! m) as [e|] eqn:E; [|done].
  case_decide as Hd.
  - intros [= ->]. split; [by left|eauto].
  - intros [? ?]%IH. split; [by right|done].
Qed.

(** Entering a name of a resident tree takes one reference to the child. *)
Lemma enter_resident ops s t d name : resident s -> is_Some (dirents s !! d) ->
  (forall x, exists k, 0 <= k <= 2 /\ dirents t !! x = (fun e => with_references (references e + k) e) <$> dirents s !! x) ->
  enodes t = enodes s ->
  fs_directory_entry_enter ops d name t =
    Done (child s d name, match child s d name with Some c => hold c t | None => t end).
Proof.
  intros Hr [e He] Ht En. unfold fs_directory_entry_enter.
  destruct (Ht d) as (k & _ & Hk). rewrite He in Hk. simpl in Hk.
  rewrite (bind_done _ _ _ _ _ (get_dirent_done _ _ _ Hk)). cbn [entries with_references].
  assert (forall n, n ∈ entries e -> is_Some (enodes t !! n)) as Hent.
  { intros n Hn. rewrite En. destruct (res_entry s Hr d e n He Hn) as (c & nm & -> & _). by eexists. }
  rewrite (bind_done _ _ _ _ _ (find_entry_done name _ t Hent)). unfold child. rewrite He, En. simpl.
  destruct (lookup_entry (enodes s) name (entries e)) as [n|] eqn:El; [|done]. simpl.
  destruct (lookup_entry_Some _ _ _ _ El) as [Hin _].
  destruct (res_entry s Hr d e n He Hin) as (c & nm & Hen & [ce Hce]).
  rewrite Hen. simpl. unfold fs_directory_node_enter.
  rewrite <- En in Hen. rewrite (bind_done _ _ _ _ _ (get_enode_done _ _ _ Hen)). simpl.
  destruct (Ht c) as (kc & Hkc & Hc). rewrite Hce in Hc. simpl in Hc.
  pose proof (res_refs s Hr c ce Hce).
  rewrite (bind_done _ _ _ _ _ (add_reference_hold _ _ _ Hc ltac:(simpl; lia) ltac:(simpl; lia))).
  by rewrite (bind_done _ _ _ _ _ (get_enode_done n (hold c t) _ Hen)).
Qed.

Lemma hold_within s d : forall x, exists k, 0 <= k <= 2 /\
  dirents (hold d s) !! x = (fun e => with_references (references e + k) e) <$> dirents s !! x.
Proof.
  intros x. destruct (dirents s !! x) as [e|] eqn:E.
  - destruct (hold_dirent d x s e E) as (n & -> & ->). eexists. split; [|done]. case_decide; lia.
  - exists 0. split; [lia|]. simpl. destruct (decide (x = d)) as [->|].
    + by rewrite lookup_alter_eq, E.
    + by rewrite lookup_alter_ne, E by done.
Qed.

(** One segment: the reference to the directory becomes one to the child, or
    is given back. *)
Lemma step_resident ops s d seg : resident s -> is_Some (dirents s !! d) ->
  (if is_dot seg then ret (Some d)
   else if is_dotdot seg then
     let! e := get_dirent d in
     match parent e with
     | Some p => do! fs_directory_entry_add_reference p; do! fs_directory_entry_release ops d; ret (Some p)
     | None => ret (Some d)
     end
   else let! r := fs_directory_entry_enter ops d seg in do! fs_directory_entry_release ops d; ret r) (hold d s)
  = Done (walk_step s d seg, match walk_step s d seg with Some c => hold c s | None => s end)
  /\ (forall c, walk_step s d seg = Some c -> is_Some (dirents s !! c)).
Proof.
  intros Hr Hd. destruct (Hd) as [e He]. pose proof (res_refs s Hr d e He) as Hre. unfold walk_step.
  destruct (is_dot seg); [split; [done|by intros c [= <-]]|].
  destruct (is_dotdot seg).
  - destruct (hold_dirent d d s e He) as (n & Hn & _).
    rewrite (bind_done _ _ _ _ _ (get_dirent_done _ _ _ Hn)), He. cbn [parent with_references].
    simpl. destruct (parent e) as [p|] eqn:Ep; simpl; [|split; [done|by intros c [= <-]]].
    destruct (res_parent s Hr d e p He Ep) as [pe Hp]. pose proof (res_refs s Hr p pe Hp).
    split; [|intros c [= <-]; eauto].
    destruct (hold_dirent d p s pe Hp) as (k & Hk & Ek).
    assert (references pe <= k <= references pe + 1) by (case_decide; lia).
    rewrite (bind_done _ _ _ _ _ (add_reference_hold _ _ _ Hk ltac:(simpl; lia) ltac:(simpl; lia))).
    rewrite hold_comm. destruct (hold_dirent p d s e He) as (k' & Hk' & Ek').
    rewrite (bind_done _ _ _ _ _ (release_hold ops _ _ _ Hk' ltac:(simpl; case_decide; lia))). done.
  - rewrite (bind_done _ _ _ _ _ (enter_resident ops s (hold d s) d seg Hr Hd (hold_within s d) eq_refl)).
    destruct (child s d seg) as [c|] eqn:Ec.
    + assert (is_Some (dirents s !! c)) as [ce Hc].
      { unfold child in Ec. rewrite He in Ec. simpl in Ec.
        destruct (lookup_entry _ _ _) as [n|] eqn:El; [|done]. apply lookup_entry_Some in El as [Hin _].
        destruct (res_entry s Hr d e n He Hin) as (c' & nm & Hen & Hl). simpl in Ec. rewrite Hen in Ec.
        simpl in Ec. by simplify_eq. }
      split; [|intros c' [= <-]; eauto].
      rewrite hold_comm. destruct (hold_dirent c d s e He) as (k' & Hk' & Ek').
      rewrite (bind_done _ _ _ _ _ (release_hold ops _ _ _ Hk' ltac:(simpl; case_decide; lia))). done.
    + rewrite (bind_done _ _ _ _ _ (release_hold ops _ _ _ He ltac:(lia))). done.
Qed.

(** ** The scanner *)

Definition plain (c : Z) : Prop := c <> 0 /\ c <> SLASH.

(** A path: a first segment, the rest of the segments each after a slash, the
    terminator, and whatever memory follows. *)
Fixpoint slashed (tails : list (list Z)) : list Z :=
  match tails with
  | [] => []
  | t :: tails' => SLASH :: t ++ slashed tails'
  end.
Definition path_mem (seg : list Z) (tails : list (list Z)) (rest : list Z) : list Z :=
  seg ++ slashed tails ++ 0 :: rest.

(** The scanner does not look at the byte after a slash. *)
Definition scannable (t : list Z) : Prop := t <> [] /\ Forall plain (drop 1 t).

Lemma open_path_scan ops fuel path start cur s k pos :
  (forall i, (pos <= i < pos + k)%nat -> exists c, path !! i = Some c /\ plain c) ->
  open_path_loop ops (k + fuel) path pos start cur s = open_path_loop ops fuel path (pos + k) start cur s.
Proof.
  revert pos. induction k as [|k IH]; intros pos Hp; [by rewrite Nat.add_0_r|].
  destruct (Hp pos ltac:(lia)) as (c & Hc & H0 & Hs).
  rewrite <- Nat.add_succ_comm. rewrite <- IH by (intros i Hi; apply Hp; lia).
  cbn [open_path_loop Nat.add]. rewrite Hc. unfold of_option. rewrite (bind_done _ _ _ _ _ eq_refl).
  by rewrite (proj2 (Z.eqb_neq c SLASH) Hs), (proj2 (Z.eqb_neq c 0) H0).
Qed.

Lemma plain_segment (pre seg post : list Z) pos : (length pre <= pos)%nat ->
  Forall plain (drop (pos - length pre) seg) ->
  forall i, (pos <= i < length pre + length seg)%nat ->
  exists c, (pre ++ seg ++ post) !! i = Some c /\ plain c.
Proof.
  intros Hpos Hf i Hi. rewrite lookup_app_r by lia. rewrite lookup_app_l by lia.
  destruct (lookup_lt_is_Some_2 seg (i - length pre) ltac:(lia)) as [c Hc]. exists c. split; [done|].
  rewrite Forall_lookup in Hf. apply (Hf (i - pos)%nat). rewrite lookup_drop. rewrite <- Hc. f_equal. lia.
Qed.

Lemma segment_at pre seg post : segment (pre ++ seg ++ post) (length pre) (length pre + length seg) = cstr seg.
Proof.
  unfold segment. rewrite drop_app_length. replace (length pre + length seg - length pre)%nat with (length seg) by lia.
  by rewrite take_app_length.
Qed.

Lemma open_path_loop_walks ops tails : forall pre seg rest pos fuel cur s,
  resident s -> is_Some (dirents s !! cur) ->
  (length pre <= pos <= length pre + length seg)%nat -> Forall plain (drop (pos - length pre) seg) ->
  Forall scannable tails -> (length (pre ++ path_mem seg tails rest) < fuel + pos)%nat ->
  open_path_loop ops fuel (pre ++ path_mem seg tails rest) pos (length pre) cur (hold cur s) =
    Done (walk s cur (map cstr (seg :: tails)),
          match walk s cur (map cstr (seg :: tails)) with Some d => hold d s | None => s end).
Proof.
  induction tails as [|t tails IH]; intros pre seg rest pos fuel cur s Hr Hcur Hpos Hseg Hts Hfuel;
    unfold path_mem in *; rewrite !length_app in Hfuel; simpl in Hfuel.
  - replace fuel with ((length pre + length seg - pos) + S (fuel - S (length pre + length seg - pos)))%nat by lia.
    rewrite open_path_scan; [|intros i Hi; apply (plain_segment pre seg _ pos); [lia|done|lia]].
    replace (pos + (length pre + length seg - pos))%nat with (length pre + length seg)%nat by lia.
    cbn [open_path_loop slashed]. rewrite app_nil_l.
    assert ((pre ++ seg ++ 0 :: rest) !! (length pre + length seg)%nat = Some 0) as ->.
    { rewrite lookup_app_r by lia. rewrite lookup_app_r by lia.
      by replace (length pre + length seg - length pre - length seg)%nat with 0%nat by lia. }
    unfold of_option. rewrite (bind_done _ _ _ _ _ eq_refl). change ((0 =? SLASH) || (0 =? 0)) with true. cbv iota zeta.
    rewrite segment_at. destruct (step_resident ops s cur (cstr seg) Hr Hcur) as [Hs _].
    rewrite (bind_done _ _ _ _ _ Hs). cbn [walk map].
    by destruct (walk_step s cur (cstr seg)).
  - apply Forall_cons in Hts as [[Hne Hpl] Hts]. cbn [slashed length] in *. rewrite length_app in Hfuel.
    replace fuel with ((length pre + length seg - pos) + S (fuel - S (length pre + length seg - pos)))%nat by lia.
    rewrite open_path_scan; [|intros i Hi; apply (plain_segment pre seg _ pos); [lia|done|lia]].
    replace (pos + (length pre + length seg - pos))%nat with (length pre + length seg)%nat by lia.
    cbn [open_path_loop].
    assert ((pre ++ seg ++ (SLASH :: t ++ slashed tails) ++ 0 :: rest) !! (length pre + length seg)%nat = Some SLASH) as ->.
    { rewrite lookup_app_r by lia. rewrite lookup_app_r by lia.
      by replace (length pre + length seg - length pre - length seg)%nat with 0%nat by lia. }
    unfold of_option. rewrite (bind_done _ _ _ _ _ eq_refl). change ((SLASH =? SLASH) || (SLASH =? 0)) with true. cbv iota zeta.
    rewrite segment_at. destruct (step_resident ops s cur (cstr seg) Hr Hcur) as [Hs Hlive].
    rewrite (bind_done _ _ _ _ _ Hs). change (map cstr (seg :: t :: tails)) with (cstr seg :: map cstr (t :: tails)).
    cbn [walk]. destruct (walk_step s cur (cstr seg)) as [d|] eqn:Ew; [|done].
    change (SLASH =? 0) with false. cbv iota.
    specialize (IH (pre ++ seg ++ [SLASH]) t rest (S (S (length pre + length seg)))
      (fuel - S (length pre + length seg - pos))%nat d s Hr (Hlive d eq_refl)).
    unfold path_mem in IH. rewrite !length_app in IH. cbn [length] in IH.
    assert (length t <> 0%nat) as Hlt by (by destruct t).
    replace (length pre + (length seg + 1))%nat with (S (length pre + length seg)) in IH by lia.
    rewrite <- !app_assoc in IH. cbn [app] in IH. cbn [app]. rewrite <- ?app_assoc.
    apply IH; [lia| |done|rewrite ?length_app in *; simpl in *; lia].
    by replace (S (S (length pre + length seg)) - S (length pre + length seg))%nat with 1%nat by lia.
Qed.

Lemma open_path_mem_walks ops s root seg tails rest :
  resident s -> is_Some (dirents s !! root) -> Forall plain seg -> Forall scannable tails ->
  fs_open_path ops root (path_mem seg tails rest) s =
    Done (walk s root (map cstr (seg :: tails)),
          match walk s root (map cstr (seg :: tails)) with Some d => hold d s | None => s end).
Proof.
  intros Hr [e He] Hseg Hts. unfold fs_open_path. pose proof (res_refs s Hr root e He).
  rewrite (bind_done _ _ _ _ _ (add_reference_hold _ _ _ He ltac:(lia) ltac:(lia))).
  apply (open_path_loop_walks ops tails [] seg rest 0 _ root s); first [done | by eexists | by simpl; lia].
Qed.

Lemma cstr_plain l : Forall plain l -> cstr l = l.
Proof.
  induction l as [|c l IH]; simpl; [done|]. intros [[H0 _] Hl]%Forall_cons.
  rewrite (proj2 (Z.eqb_neq c 0) H0). by rewrite IH.
Qed.

(** The scanner of [fs_make_path_dirs] passes over the characters of a name. *)
Lemma make_path_scan ops dirs fuel path ty start cur s k pos :
  (forall i, (pos <= i < pos + k)%nat -> exists c, path !! i = Some c /\ plain c) ->
  make_path_loop ops dirs (k + fuel) path ty pos start cur s = make_path_loop ops dirs fuel path ty (pos + k) start cur s.
Proof.
  revert pos. induction k as [|k IH]; intros pos Hp; [by rewrite Nat.add_0_r|].
  destruct (Hp pos ltac:(lia)) as (c & Hc & H0 & Hs).
  rewrite <- Nat.add_succ_comm. rewrite <- IH by (intros i Hi; apply Hp; lia).
  cbn [make_path_loop Nat.add]. rewrite Hc. unfold of_option. rewrite (bind_done _ _ _ _ _ eq_refl).
  by rewrite (proj2 (Z.eqb_neq c SLASH) Hs), (proj2 (Z.eqb_neq c 0) H0).
Qed.

Lemma map_cstr_plain segs : Forall (Forall plain) segs -> map cstr segs = segs.
Proof. induction 1; simpl; [done|]. rewrite cstr_plain by done. by f_equal. Qed.
