(* ===== verification/RamfsTree.v ===== *)
(** * RamfsTree: creating, opening and releasing in a ramfs

    The reference counts of a mounted ramfs, accounted for exactly: every
    directory entry is held once by the file system, once by each of its
    children and once by each handle a client has. *)
From S2P Require Import Prelude Pipe Fs FsPath.

Definition fs_ops (o : Z) : fs_superblock_ops_t := ramfs_superblock_ops.

(** The state [fs_make] leaves behind. *)
Definition made (d : Z) (e : fs_directory_entry_t) (name : list Z) (t : fs_file_type_t) (s : fs) : fs :=
  let n := next_id s in let en := n + 1 in let c := n + 2 in
  Fs (<[c := Dirent (Some d) (Some en) 2 (superblock e) t (Some n) None None None None []]>
        (<[d := with_references (references e + 1) (with_entries (en :: entries e) e)]> (dirents s)))
     (<[en := EntryNode (Some c) name]> (enodes s))
     (<[n := FsNode false 1 0 0 (if decide (t = FS_REGULAR) then Some [None] else None)]> (nodes s))
     (supers s) (pipes s) (filesystems s) (n + 3).

Lemma upd_dirent_dirents d f s e : dirents s !! d = Some e ->
  exists s', upd_dirent d f s = Done (tt, s') /\ s' = set_dirents <[d := f e]> s.
Proof. intros He. eexists. split; [by apply upd_dirent_done|done]. Qed.

Lemma fs_directory_entry_create_done t p pn s pe :
  match p with Some q => dirents s !! q = Some pe | None => True end ->
  fs_directory_entry_create t p pn s =
    Done (next_id s,
      Fs (<[next_id s := Dirent p pn 1 (match p with Some _ => superblock pe | None => None end) t
                           None None None None None []]> (dirents s))
         (enodes s) (nodes s) (supers s) (pipes s) (filesystems s) (next_id s + 1)).
Proof.
  intros Hp. unfold fs_directory_entry_create, fresh_id, get_dirent. destruct p as [q|]; [|done].
  unfold bind, get, put, ret. simpl. by rewrite Hp.
Qed.

Lemma fs_directory_entry_add_entry_done d name s e :
  dirents s !! d = Some e -> (forall n, n ∈ entries e -> is_Some (enodes s !! n)) ->
  fs_directory_entry_add_entry d name s =
    match lookup_entry (enodes s) name (entries e) with
    | Some _ => Done (None, s)
    | None => Done (Some (next_id s),
        Fs (<[d := with_entries (next_id s :: entries e) e]> (dirents s))
           (<[next_id s := EntryNode None name]> (enodes s)) (nodes s) (supers s) (pipes s) (filesystems s) (next_id s + 1))
    end.
Proof.
  intros He Hl. unfold fs_directory_entry_add_entry.
  rewrite (bind_done _ _ _ _ _ (get_dirent_done _ _ _ He)).
  rewrite (bind_done _ _ _ _ _ (find_entry_done name _ s Hl)).
  destruct (lookup_entry (enodes s) name (entries e)); [done|].
  unfold fresh_id, upd_dirent, get_dirent, bind, get, put, ret, modify. simpl. by rewrite He.
Qed.

(** Identities in use are below the next one. *)
Record ids_below (s : fs) : Prop := IdsBelow {
  ib_dirent d : is_Some (dirents s !! d) -> 0 <= d < next_id s;
  ib_enode n : is_Some (enodes s !! n) -> 0 <= n < next_id s;
  ib_node n : is_Some (nodes s !! n) -> 0 <= n < next_id s
}.

Lemma ramfs_create_done s d e n v name t : dirents s !! d = Some e -> nodes s !! n = Some v ->
  d < next_id s -> (forall m, m ∈ entries e -> is_Some (enodes s !! m)) ->
  lookup_entry (enodes s) name (entries e) = None -> t <> FS_DEVICE ->
  ramfs_create d n name t s =
    Done (Some (next_id s),
      Fs (<[next_id s + 1 := Dirent (Some d) (Some (next_id s)) 2 (superblock e) t (Some n) None None None None []]>
           (<[d := with_entries (next_id s :: entries e) e]> (dirents s)))
         (<[next_id s := EntryNode (Some (next_id s + 1)) name]> (enodes s))
         (if decide (t = FS_REGULAR) then <[n := FsNode (nd_delete v) (nd_references v) (nd_size v) 0 (Some [None])]> (nodes s)
          else nodes s) (supers s) (pipes s) (filesystems s) (next_id s + 2)).
Proof.
  intros He Hv Hd Hl Hnone Ht. destruct s as [ds es ns ss ps fss nx]. simpl in *. unfold ramfs_create.
  rewrite (bind_done _ _ _ _ _ (get_node_done n (Fs ds es ns ss ps fss nx) _ Hv)).
  set (ns' := if decide (t = FS_REGULAR) then <[n := FsNode (nd_delete v) (nd_references v) (nd_size v) 0 (Some [None])]> ns else ns).
  set (s1 := Fs ds es ns' ss ps fss nx).
  match goal with |- bind ?m ?k ?s0 = _ => assert (m s0 = Done (tt, s1)) as Hm by (by destruct t) end.
  rewrite (bind_done _ _ _ _ _ Hm).
  pose proof (fs_directory_entry_add_entry_done d name s1 e He Hl) as Ha. simpl in Ha. rewrite Hnone in Ha.
  set (s2 := Fs (<[d := with_entries (nx :: entries e) e]> ds) (<[nx := EntryNode None name]> es) ns' ss ps fss (nx + 1)) in *.
  pose proof (fs_directory_entry_create_done t (Some d) (Some nx) s2 (with_entries (nx :: entries e) e)
    ltac:(simpl; by rewrite lookup_insert_eq)) as Hcr.
  simpl in Hcr. replace (nx + 1 + 1) with (nx + 2) in Hcr by lia.
  destruct t; try done;
    (rewrite (bind_done _ _ _ _ _ Ha), (bind_done _ _ _ _ _ Hcr);
     unfold fs_directory_entry_add_reference, upd_dirent, get_dirent, set_enode_dirent, get_enode, nonnull, bind, modify, ret;
     simpl; rewrite lookup_insert_eq; simpl; rewrite lookup_insert_eq; simpl; rewrite lookup_insert_eq; simpl;
     subst s1 s2 ns'; unfold set_enodes, set_dirents; simpl; rewrite ?insert_insert_eq; reflexivity).
Qed.

Lemma fs_make_ramfs s d e b sb name t : ids_below s -> dirents s !! d = Some e ->
  0 <= references e < 2 ^ 64 - 4 ->
  (forall n, n ∈ entries e -> is_Some (enodes s !! n)) ->
  superblock e = Some b -> supers s !! b = Some sb ->
  lookup_entry (enodes s) name (entries e) = None -> t <> FS_DEVICE ->
  fs_make fs_ops d name t s = Done (Some (next_id s + 2), made d e name t s).
Proof.
  intros Hi He Hr Hl Hb Hsb Hnone Ht.
  pose proof (ib_dirent _ Hi d ltac:(by eexists)) as Hdn.
  unfold fs_make, ops_of. rewrite bind_assoc, (bind_done _ _ _ _ _ (get_dirent_done _ _ _ He)).
  rewrite Hb, bind_assoc. unfold nonnull at 1, of_option at 1. rewrite (bind_done _ _ s b s eq_refl).
  rewrite bind_assoc, (bind_done _ _ _ _ _ (get_super_done _ _ _ Hsb)), bind_ret_l. unfold fs_ops.
  cbn [op_alloc_node op_create ramfs_superblock_ops].
  set (s1 := Fs (dirents s) (enodes s) (<[next_id s := fs_node_init]> (nodes s)) (supers s) (pipes s) (filesystems s) (next_id s + 1)).
  rewrite (bind_done _ _ _ (Some (next_id s)) s1 eq_refl). unfold of_option. rewrite (bind_done _ _ s1 _ s1 eq_refl).
  rewrite (bind_done _ _ _ _ _ (ramfs_create_done s1 d e (next_id s) fs_node_init name t He
    (lookup_insert_eq _ _ _) ltac:(simpl; lia) Hl Hnone Ht)).
  simpl. replace (next_id s + 1 + 1) with (next_id s + 2) by lia. replace (next_id s + 1 + 2) with (next_id s + 3) by lia.
  unfold fs_directory_entry_add_reference, upd_dirent, get_dirent, get_enode, bind, modify, ret. simpl.
  rewrite lookup_insert_ne by lia. rewrite lookup_insert_eq. simpl. rewrite lookup_insert_eq. simpl.
  do 2 f_equal. apply fs_ext; try done; simpl.
  - rewrite insert_insert_ne by lia. rewrite insert_insert_eq. by rewrite u64_small by lia.
  - case_decide; [by rewrite insert_insert_eq|done].
Qed.

(** ** Accounting *)

Definition parents (s : fs) : gmap Z (option Z) := parent <$> dirents s.
Definition children_in (m : gmap Z (option Z)) (d : Z) : Z := Z.of_nat (size (filter (fun x => x.2 = Some d) m)).
Definition children (s : fs) (d : Z) : Z := children_in (parents s) d.
Definition held (hs : list Z) (d : Z) : Z := Z.of_nat (length (filter (fun h => h = d) hs)).
(** [fs_init], [fs_mount_root] and [ramfs_list] each take a reference to the root. *)
Definition pin (d : Z) : Z := if decide (d = fs_root) then 3 else 1.

Record tree_inv (b : Z) (s : fs) (hs : list Z) : Prop := TreeInv {
  ti_ids : ids_below s;
  ti_super : is_Some (supers s !! b);
  ti_root : is_Some (dirents s !! fs_root);
  ti_dirent d e : dirents s !! d = Some e ->
    superblock e = Some b /\ references e = pin d + children s d + held hs d;
  ti_parent d e p : dirents s !! d = Some e -> parent e = Some p ->
    exists pe n, dirents s !! p = Some pe /\ parent_node e = Some n /\ n ∈ entries pe;
  ti_entry d e n : dirents s !! d = Some e -> n ∈ entries e ->
    exists c name ce, enodes s !! n = Some (EntryNode (Some c) name) /\
      dirents s !! c = Some ce /\ parent ce = Some d /\ parent_node ce = Some n;
  ti_handle h : h ∈ hs -> is_Some (dirents s !! h)
}.

Lemma held_cons h hs d : held (h :: hs) d = held hs d + (if decide (h = d) then 1 else 0).
Proof. unfold held. rewrite filter_cons. case_decide; simpl; lia. Qed.
Lemma held_perm hs hs' d : hs ≡ₚ hs' -> held hs d = held hs' d.
Proof. intros Hp. unfold held. by rewrite Hp. Qed.
Lemma held_absent hs d : d ∉ hs -> held hs d = 0.
Proof.
  induction hs as [|h hs IH]; [done|]. intros [Hn Hd]%not_elem_of_cons.
  rewrite held_cons, IH, decide_False by congruence. lia.
Qed.
Lemma held_bounds hs d : 0 <= held hs d <= Z.of_nat (length hs).
Proof. unfold held. pose proof (length_filter (fun h => h = d) hs). lia. Qed.

Lemma size_filter_le (m : gmap Z (option Z)) d : (size (filter (fun x => x.2 = Some d) m) <= size m)%nat.
Proof.
  rewrite <- (map_filter_union_complement (fun x : Z * option Z => x.2 = Some d) m) at 2.
  rewrite map_size_disj_union by apply map_disjoint_filter_complement. lia.
Qed.
Lemma children_bounds s d : 0 <= children s d <= Z.of_nat (size (dirents s)).
Proof.
  unfold children, children_in, parents. pose proof (size_filter_le (parent <$> dirents s) d) as H.
  rewrite map_size_fmap in H. lia.
Qed.
Lemma children_insert m k p d : m !! k = None ->
  children_in (<[k := p]> m) d = children_in m d + (if decide (p = Some d) then 1 else 0).
Proof.
  intros Hk. unfold children_in. case_decide as Hp.
  - rewrite map_filter_insert_True by done. rewrite map_size_insert_None; [lia|].
    apply map_lookup_filter_None. left. done.
  - rewrite map_filter_insert_not'; [f_equal; lia|done|]. intros y Hy. congruence.
Qed.

Lemma alter_parents s f d : (forall e, parent (f e) = parent e) ->
  parent <$> alter f d (dirents s) = parent <$> dirents s.
Proof.
  intros Hf. apply map_eq. intros x. rewrite !lookup_fmap. destruct (decide (x = d)) as [->|Hn].
  - rewrite lookup_alter_eq. destruct (dirents s !! d); simpl; by rewrite ?Hf.
  - by rewrite lookup_alter_ne.
Qed.
Lemma hold_parents d s : parents (hold d s) = parents s.
Proof. apply alter_parents. done. Qed.

Lemma tree_resident b s hs : tree_inv b s hs ->
  3 + Z.of_nat (size (dirents s)) + Z.of_nat (length hs) < 2 ^ 64 - 4 -> resident s.
Proof.
  intros Hi Hb. split.
  - intros d e He. destruct (ti_dirent _ _ _ Hi d e He) as [_ ->].
    pose proof (children_bounds s d). pose proof (held_bounds hs d). unfold pin. case_decide; lia.
  - intros d e p He Hp. destruct (ti_parent _ _ _ Hi d e p He Hp) as (pe & n & -> & _). by eexists.
  - intros d e n He Hn. destruct (ti_entry _ _ _ Hi d e n He Hn) as (c & nm & ce & ? & ? & _). eauto.
Qed.

(** Lookups in the state after one more reference. *)
Lemma hold_lookup_inv d x s e' : dirents (hold d s) !! x = Some e' ->
  exists e, dirents s !! x = Some e /\ e' = with_references (references e + (if decide (x = d) then 1 else 0)) e.
Proof.
  intros H. destruct (dirents s !! x) as [e|] eqn:E.
  - destruct (hold_dirent d x s e E) as (n & Hn & ->). exists e. split; [done|]. congruence.
  - exfalso. simpl in H. destruct (decide (x = d)) as [->|]; [rewrite lookup_alter_eq, E in H|rewrite lookup_alter_ne, E in H]; done.
Qed.
Lemma hold_is_Some d x s : is_Some (dirents (hold d s) !! x) <-> is_Some (dirents s !! x).
Proof. simpl. by rewrite lookup_alter_is_Some. Qed.

(** Taking a reference and handing it to the client keeps the books. *)
Lemma tree_hold b s hs d : is_Some (dirents s !! d) ->
  (tree_inv b s hs <-> tree_inv b (hold d s) (d :: hs)).
Proof.
  intros Hd. split; intros [I1 I2 I3 I4 I5 I6 I7]; split; try done.
  - destruct I1 as [A B C]. split; [|done..]. intros x Hx. apply A. by apply hold_is_Some in Hx.
  - by apply hold_is_Some.
  - intros x e' (e & He & ->)%hold_lookup_inv. simpl. destruct (I4 x e He) as [? Hr]. split; [done|].
    unfold children. rewrite hold_parents, held_cons. rewrite Hr. unfold children. repeat case_decide; try congruence; lia.
  - intros x e' p (e & He & ->)%hold_lookup_inv Hp. simpl in Hp.
    destruct (I5 x e p He Hp) as (pe & n & Hpe & Hn & Hin).
    destruct (hold_dirent d p s pe Hpe) as (k & Hk & _). eauto.
  - intros x e' n (e & He & ->)%hold_lookup_inv Hn. simpl in Hn.
    destruct (I6 x e n He Hn) as (c & nm & ce & ? & Hc & ? & ?).
    destruct (hold_dirent d c s ce Hc) as (k & Hk & _). exists c, nm. eauto.
  - intros h [->|Hh]%elem_of_cons; apply hold_is_Some; auto.
  - destruct I1 as [A B C]. split; [|done..]. intros x Hx. apply A. by apply hold_is_Some.
  - by apply hold_is_Some in I3.
  - intros x e He. destruct (hold_dirent d x s e He) as (k & Hk & ->). destruct (I4 x _ Hk) as [? Hr]. split; [done|].
    unfold children in *. rewrite hold_parents, held_cons in Hr. simpl in Hr. repeat case_decide; try congruence; lia.
  - intros x e p He Hp. destruct (hold_dirent d x s e He) as (k & Hk & _).
    destruct (I5 x _ p Hk Hp) as (pe' & n & (pe & Hpe & ->)%hold_lookup_inv & Hn & Hin). eauto.
  - intros x e n He Hn. destruct (hold_dirent d x s e He) as (k & Hk & _).
    destruct (I6 x _ n Hk Hn) as (c & nm & ce' & ? & (ce & Hc & ->)%hold_lookup_inv & ? & ?). exists c, nm. eauto.
  - intros h Hh. apply (hold_is_Some d). apply I7. by right.
Qed.

(** Giving a reference back. *)
Definition unhold (d : Z) (s : fs) : fs :=
  set_dirents (alter (fun e => with_references (references e - 1) e) d) s.
Lemma hold_unhold d s : hold d (unhold d s) = s.
Proof.
  apply fs_ext; try done. simpl. rewrite alter_alter_eq. apply alter_id. intros e _.
  destruct e; unfold with_references; simpl. f_equal. lia.
Qed.

Lemma children_fresh b s hs c : tree_inv b s hs -> dirents s !! c = None -> children s c = 0.
Proof.
  intros Hi Hc. unfold children, children_in.
  replace (filter (fun x : Z * option Z => x.2 = Some c) (parents s)) with (∅ : gmap Z (option Z)); [done|].
  symmetry. apply map_empty. intros x. apply map_lookup_filter_None. right. intros p Hx Hp. simpl in Hp. unfold parents in Hx.
  apply lookup_fmap_Some in Hx as (e & He & Hxe).
  destruct (ti_parent _ _ _ Hi x e c Hxe ltac:(congruence)) as (pe & n & Hpe & _). congruence.
Qed.

Lemma made_lookup d e name t s x e' : ids_below s -> dirents s !! d = Some e ->
  dirents (made d e name t s) !! x = Some e' ->
  (x = next_id s + 2 /\ e' = Dirent (Some d) (Some (next_id s + 1)) 2 (superblock e) t (Some (next_id s)) None None None None []) \/
  (x <> next_id s + 2 /\ exists e0, dirents s !! x = Some e0 /\
     e' = if decide (x = d) then with_references (references e + 1) (with_entries (next_id s + 1 :: entries e) e) else e0).
Proof.
  intros Hi He Hx. simpl in Hx. destruct (decide (x = next_id s + 2)) as [->|Hn].
  - rewrite lookup_insert_eq in Hx. left. by simplify_eq.
  - right. split; [done|]. rewrite lookup_insert_ne in Hx by done. case_decide as Hd.
    + subst x. rewrite lookup_insert_eq in Hx. exists e. by simplify_eq.
    + rewrite lookup_insert_ne in Hx by done. eauto.
Qed.

Lemma made_old d e name t s x e0 : ids_below s -> dirents s !! d = Some e -> dirents s !! x = Some e0 ->
  dirents (made d e name t s) !! x =
    Some (if decide (x = d) then with_references (references e + 1) (with_entries (next_id s + 1 :: entries e) e) else e0).
Proof.
  intros Hi He Hx. simpl. pose proof (ib_dirent _ Hi x ltac:(by eexists)).
  rewrite lookup_insert_ne by lia. case_decide; [subst; by rewrite lookup_insert_eq|by rewrite lookup_insert_ne].
Qed.

Lemma made_enode_old d e name t s n : ids_below s -> is_Some (enodes s !! n) ->
  enodes (made d e name t s) !! n = enodes s !! n.
Proof. intros Hi Hn. pose proof (ib_enode _ Hi n Hn). simpl. by rewrite lookup_insert_ne by lia. Qed.

Lemma tree_made b s hs d e name t : tree_inv b s hs -> dirents s !! d = Some e ->
  tree_inv b (made d e name t s) (next_id s + 2 :: hs).
Proof.
  intros Hi He. pose proof (ti_ids _ _ _ Hi) as Hids. pose proof (ib_dirent _ Hids d ltac:(by eexists)) as Hd.
  assert (dirents s !! (next_id s + 2) = None) as Hfresh.
  { destruct (dirents s !! (next_id s + 2)) eqn:E; [|done]. pose proof (ib_dirent _ Hids _ ltac:(by eexists)). lia. }
  assert (parents (made d e name t s) = <[next_id s + 2 := Some d]> (parents s)) as Hpar.
  { unfold parents. simpl. rewrite fmap_insert. simpl. f_equal. rewrite fmap_insert. simpl.
    rewrite insert_id; [done|]. rewrite lookup_fmap, He. done. }
  assert (forall x, children (made d e name t s) x = children s x + (if decide (d = x) then 1 else 0)) as Hch.
  { intros x. unfold children. rewrite Hpar, children_insert by (unfold parents; by rewrite lookup_fmap, Hfresh).
    repeat case_decide; try congruence; lia. }
  split.
  - split; simpl.
    + intros x [<-|[<-|Hx]%lookup_insert_is_Some']%lookup_insert_is_Some'; [lia|lia|].
      pose proof (ib_dirent _ Hids x Hx). lia.
    + intros n [ <- |Hn]%lookup_insert_is_Some'; [lia|]. pose proof (ib_enode _ Hids n Hn). lia.
    + intros n [ <- |Hn]%lookup_insert_is_Some'; [lia|]. pose proof (ib_node _ Hids n Hn). lia.
  - apply (ti_super _ _ _ Hi).
  - destruct (ti_root _ _ _ Hi) as [re Hre]. erewrite made_old by done. by eexists.
  - intros x e' [[-> ->]|(Hn & e0 & H0 & ->)]%(made_lookup _ _ _ _ _ _ _ Hids He); rewrite Hch, held_cons.
    + simpl. split; [apply (ti_dirent _ _ _ Hi d e He)|].
      rewrite (children_fresh _ _ _ _ Hi Hfresh), (decide_True (P := next_id s + 2 = next_id s + 2)) by done.
      rewrite decide_False by lia. unfold pin. rewrite decide_False by (unfold fs_root; lia).
      assert (held hs (next_id s + 2) = 0) as ->; [|lia].
      apply held_absent. intros Hh. destruct (ti_handle _ _ _ Hi _ Hh). congruence.
    + destruct (ti_dirent _ _ _ Hi x e0 H0) as [Hsb Hr]. rewrite (decide_False (P := next_id s + 2 = x)) by lia.
      case_decide as E; [subst x; assert (e0 = e) as -> by congruence; rewrite decide_True by done|rewrite decide_False by congruence];
        (split; [done|]); simpl; lia.
  - intros x e' p [[-> ->]|(Hn & e0 & H0 & ->)]%(made_lookup _ _ _ _ _ _ _ Hids He) Hp.
    + simpl in Hp. injection Hp as <-. erewrite made_old by done. rewrite decide_True by done.
      do 2 eexists. split_and!; [done..|]. simpl. left.
    + assert (parent e0 = Some p /\ forall n, parent_node e0 = Some n -> parent_node (if decide (x = d) then
        with_references (references e + 1) (with_entries (next_id s + 1 :: entries e) e) else e0) = Some n) as [Hp0 Hpn].
      { case_decide; [|done]. subst x. assert (e0 = e) as -> by congruence. done. }
      destruct (ti_parent _ _ _ Hi x e0 p H0 Hp0) as (pe & n & Hpe & Hpne & Hin).
      rewrite (made_old d e name t s p pe Hids He Hpe). eexists _, n. split; [done|]. split; [exact (Hpn n Hpne)|].
      destruct (decide (p = d)); [|done]. subst p. assert (pe = e) as -> by congruence. simpl. by right.
  - assert (forall c ce, dirents s !! c = Some ce -> exists ce', dirents (made d e name t s) !! c = Some ce' /\
      parent ce' = parent ce /\ parent_node ce' = parent_node ce) as Hkeep.
    { intros c ce Hc. erewrite made_old by done. eexists. split; [done|]. case_decide; [|done].
      subst c. assert (ce = e) as -> by congruence. done. }
    intros x e' n [[-> ->]|(Hn & e0 & H0 & ->)]%(made_lookup _ _ _ _ _ _ _ Hids He) Hin; [by apply elem_of_nil in Hin|].
    assert (n ∈ entries e0 \/ (x = d /\ n = next_id s + 1)) as [Hold|[-> ->]].
    { case_decide as E; [|by left]. subst x. assert (e0 = e) as -> by congruence. simpl in Hin.
      apply elem_of_cons in Hin as [->|?]; [by right|by left]. }
    + destruct (ti_entry _ _ _ Hi x e0 n H0 Hold) as (c & nm & ce & H1 & H2 & H3 & H4).
      destruct (Hkeep c ce H2) as (ce' & ? & ? & ?). exists c, nm, ce'.
      rewrite made_enode_old by (try done; by eexists). split_and!; congruence.
    + do 3 eexists. simpl. rewrite !lookup_insert_eq. done.
  - intros h [->|Hh]%elem_of_cons.
    + simpl. rewrite lookup_insert_eq. by eexists.
    + destruct (ti_handle _ _ _ Hi h Hh) as [he Hhe]. erewrite made_old by done. by eexists.
Qed.

(** ** Client sessions *)

(** A client opens a path below a directory it holds (the root when the index
    names no handle), makes an entry that does not exist yet, or closes a
    handle. *)
Inductive fs_request :=
  | ReqOpen (base : nat) (seg : list Z) (tails : list (list Z))
  | ReqMake (base : nat) (name : list Z) (t : fs_file_type_t)
  | ReqClose (i : nat).

Definition base_of (hs : list Z) (i : nat) : Z := default fs_root (hs !! i).

Definition serve (r : fs_request) (hs : list Z) : M fs (list Z) :=
  match r with
  | ReqOpen i seg tails =>
      let! o := fs_open_path fs_ops (base_of hs i) (path_mem seg tails []) in
      ret (match o with Some d => d :: hs | None => hs end)
  | ReqMake i name t =>
      let! e := get_dirent (base_of hs i) in
      let! found := find_entry name (entries e) in
      if bool_decide (is_Some found) || bool_decide (t = FS_DEVICE) then ret hs
      else let! o := fs_make fs_ops (base_of hs i) name t in
           ret (match o with Some d => d :: hs | None => hs end)
  | ReqClose i =>
      match hs !! i with
      | Some h => do! fs_directory_entry_release fs_ops h; ret (delete i hs)
      | None => ret hs
      end
  end.
Fixpoint serve_all (rs : list fs_request) (hs : list Z) : M fs (list Z) :=
  match rs with
  | [] => ret hs
  | r :: rs' => let! hs' := serve r hs in serve_all rs' hs'
  end.

Definition wf_request (r : fs_request) : Prop :=
  match r with
  | ReqOpen _ seg tails => Forall plain seg /\ Forall scannable tails
  | _ => True
  end.

Lemma base_of_live b s hs i : tree_inv b s hs -> is_Some (dirents s !! base_of hs i).
Proof.
  intros Hi. unfold base_of. destruct (hs !! i) as [h|] eqn:E; simpl; [|apply (ti_root _ _ _ Hi)].
  apply (ti_handle _ _ _ Hi). by eapply list_elem_of_lookup_2.
Qed.

Lemma walk_live s segs : resident s -> forall d d', is_Some (dirents s !! d) -> walk s d segs = Some d' -> is_Some (dirents s !! d').
Proof.
  intros Hr. induction segs as [|seg segs IH]; simpl; intros d d' Hd Hw; [congruence|].
  destruct (walk_step s d seg) as [c|] eqn:E; [|done].
  apply (IH c); [|done]. by apply (step_resident fs_ops s d seg Hr Hd).
Qed.

Definition load (s : fs) (hs : list Z) : Z := Z.of_nat (size (dirents s)) + Z.of_nat (length hs).

Lemma load_hold d s hs : load (hold d s) (d :: hs) = load s hs + 1.
Proof.
  unfold load. simpl length. pose proof (f_equal size (hold_parents d s)) as H.
  unfold parents in H. rewrite !map_size_fmap in H. lia.
Qed.

Lemma tree_perm b s hs hs' : hs ≡ₚ hs' -> tree_inv b s hs -> tree_inv b s hs'.
Proof.
  intros Hp [I1 I2 I3 I4 I5 I6 I7]. split; try done.
  - intros d e' He'. destruct (I4 d e' He') as [? ->]. by rewrite (held_perm _ _ d Hp).
  - intros x. rewrite <- Hp. apply I7.
Qed.

(** Releasing a handle: the entry lives on, one handle fewer is accounted. *)
Lemma tree_release b s h hs : tree_inv b s (h :: hs) ->
  exists s', fs_directory_entry_release fs_ops h s = Done (tt, s') /\ tree_inv b s' hs /\
    load s' hs + 1 = load s (h :: hs) /\ s' = unhold h s.
Proof.
  intros Hi. destruct (ti_handle _ _ _ Hi h ltac:(by left)) as [e He].
  assert (is_Some (dirents (unhold h s) !! h)) as Hu by (simpl; rewrite lookup_alter_eq, He; by eexists).
  assert (tree_inv b (unhold h s) hs) as Hi' by (apply (tree_hold b (unhold h s) hs h Hu); by rewrite hold_unhold).
  assert (dirents (unhold h s) !! h = Some (with_references (references e - 1) e)) as Hue
    by (simpl; by rewrite lookup_alter_eq, He).
  assert (0 < references (with_references (references e - 1) e)) as Hpos.
  { destruct (ti_dirent _ _ _ Hi' _ _ Hue) as [_ Hre]. rewrite Hre.
    pose proof (children_bounds (unhold h s) h). pose proof (held_bounds hs h). unfold pin. case_decide; lia. }
  pose proof (release_hold fs_ops h (unhold h s) _ Hue Hpos) as Hrel. rewrite hold_unhold in Hrel.
  exists (unhold h s). split; [done|]. split; [done|]. split; [|done].
  rewrite <- (hold_unhold h s) at 2. by rewrite load_hold.
Qed.

(** Making an entry that does not exist yet. *)
Lemma tree_make b s hs d name t e : tree_inv b s hs -> load s hs < 2 ^ 62 -> dirents s !! d = Some e ->
  lookup_entry (enodes s) name (entries e) = None -> t <> FS_DEVICE ->
  exists c s', fs_make fs_ops d name t s = Done (Some c, s') /\ tree_inv b s' (c :: hs) /\
    load s' (c :: hs) <= load s hs + 2 /\ s' = made d e name t s /\ c = next_id s + 2.
Proof.
  intros Hi Hl He Hnone Ht. assert (resident s) as Hr by (eapply tree_resident; [done|unfold load in Hl; lia]).
  assert (forall n, n ∈ entries e -> is_Some (enodes s !! n)) as Hent.
  { intros n Hn. destruct (ti_entry _ _ _ Hi _ e n He Hn) as (c & nm & ce & -> & _). by eexists. }
  destruct (ti_super _ _ _ Hi) as [sb Hsb]. destruct (ti_dirent _ _ _ Hi _ e He) as [Hsup _].
  pose proof (res_refs s Hr _ e He).
  do 2 eexists. split; [by eapply (fs_make_ramfs s d e b sb); try done; [apply Hi|lia]|].
  split; [by apply tree_made|]. split; [|done].
  unfold load. cbn [made dirents]. simpl length. rewrite map_size_insert, (map_size_insert_Some _ _ _ (ex_intro _ e He)).
  case_match; unfold id; lia.
Qed.

Lemma serve_step b s hs r : tree_inv b s hs -> wf_request r -> load s hs < 2 ^ 62 ->
  exists s' hs', serve r hs s = Done (hs', s') /\ tree_inv b s' hs' /\ load s' hs' <= load s hs + 2.
Proof.
  intros Hi Hwf Hl. assert (resident s) as Hr by (eapply tree_resident; [done|unfold load in Hl; lia]).
  destruct r as [i seg tails|i name t|i]; simpl in *.
  - pose proof (base_of_live b s hs i Hi) as Hb. destruct Hwf as [Hseg Htl].
    rewrite (bind_done _ _ _ _ _ (open_path_mem_walks fs_ops s _ seg tails [] Hr Hb Hseg Htl)).
    destruct (walk s (base_of hs i) (map cstr (seg :: tails))) as [d|] eqn:Ew.
    + pose proof (walk_live s _ Hr _ _ Hb Ew) as Hd. do 2 eexists. split; [done|].
      split; [by apply tree_hold|]. rewrite load_hold. lia.
    + do 2 eexists. split; [done|]. split; [done|lia].
  - destruct (base_of_live b s hs i Hi) as [e He].
    rewrite (bind_done _ _ _ _ _ (get_dirent_done _ _ _ He)).
    assert (forall n, n ∈ entries e -> is_Some (enodes s !! n)) as Hent.
    { intros n Hn. destruct (ti_entry _ _ _ Hi _ e n He Hn) as (c & nm & ce & -> & _). by eexists. }
    rewrite (bind_done _ _ _ _ _ (find_entry_done name _ s Hent)).
    case_bool_decide as Hf; simpl; [do 2 eexists; split; [done|]; split; [done|lia]|].
    case_bool_decide as Ht; simpl; [do 2 eexists; split; [done|]; split; [done|lia]|].
    destruct (tree_make b s hs _ name t e Hi Hl He ltac:(by apply eq_None_not_Some) Ht) as (c & s' & Hm & Hi' & Hl' & _).
    rewrite (bind_done _ _ _ _ _ Hm). do 2 eexists. split; [done|]. split; [done|lia].
  - destruct (hs !! i) as [h|] eqn:Eh; [|do 2 eexists; split; [done|]; split; [done|lia]].
    apply delete_Permutation in Eh. apply (tree_perm _ _ _ _ Eh) in Hi.
    destruct (tree_release b s h _ Hi) as (s' & Hrel & Hi' & Hld & _).
    rewrite (bind_done _ _ _ _ _ Hrel). do 2 eexists. split; [done|]. split; [done|].
    apply Permutation_length in Eh. unfold load in *. lia.
Qed.

Lemma serve_all_inv b rs : forall s hs, tree_inv b s hs -> Forall wf_request rs ->
  load s hs + 2 * Z.of_nat (length rs) < 2 ^ 62 ->
  exists s' hs', serve_all rs hs s = Done (hs', s') /\ tree_inv b s' hs'.
Proof.
  induction rs as [|r rs IH]; simpl; intros s hs Hi Hwf Hl; [do 2 eexists; done|].
  apply Forall_cons in Hwf as [Hr Hrs].
  destruct (serve_step b s hs r Hi Hr ltac:(lia)) as (s1 & hs1 & H1 & Hi1 & Hl1).
  rewrite (bind_done _ _ _ _ _ H1). apply IH; [done|done|lia].
Qed.

(** The ramfs the kernel boots with: [fs_init], [fs_ramfs_init],
    [fs_mount_root("ramfs", NULL)]. *)
Definition boot_ramfs : M fs code :=
  do! fs_ramfs_init; fs_mount_root fs_ops ramfs_name None.

Definition booted : fs :=
  Fs {[ fs_root := Dirent None None 3 (Some 2) FS_DIRECTORY (Some 3) None None None (Some 1) [] ]} ∅
     {[ 3 := fs_node_init ]} {[ 2 := Superblock None (Some fs_root) None RAMFS ]} ∅ [(1, FsType ramfs_name 1 RAMFS)] 4.

Lemma boot_ramfs_done : boot_ramfs fs_init = Done (Num 0, booted).
Proof. vm_compute. reflexivity. Qed.

Lemma booted_inv : tree_inv 2 booted [].
Proof.
  assert (forall d e, dirents booted !! d = Some e -> d = fs_root /\
    e = Dirent None None 3 (Some 2) FS_DIRECTORY (Some 3) None None None (Some 1) []) as Hone.
  { intros d e H. simpl in H. apply lookup_singleton_Some in H as [<- <-]. done. }
  split.
  - split; simpl; intros x [y Hy]; [|by rewrite lookup_empty in Hy|]; apply lookup_singleton_Some in Hy as [<- _]; unfold fs_root; lia.
  - by eexists.
  - by eexists.
  - intros d e [-> ->]%Hone. done.
  - intros d e p [-> ->]%Hone. done.
  - intros d e n [-> ->]%Hone. simpl. by intros ?%elem_of_nil.
  - by intros h ?%elem_of_nil.
Qed.

(** A booted ramfs never gets stuck: after any sequence of opens, creations
    and closes by a client (handles are numbered from the most recent one) the
    reference count of every directory entry is exactly its pins, plus the
    number of directory entries below it, plus the number of open handles;
    every entry of a directory is resident and points back to its parent. *)
Theorem ramfs_session_accounts rs :
  Forall wf_request rs -> Z.of_nat (length rs) < 2 ^ 60 ->
  exists hs s, (do! boot_ramfs; serve_all rs []) fs_init = Done (hs, s) /\
    (forall d e, dirents s !! d = Some e -> references e = pin d + children s d + held hs d) /\
    (forall h, h ∈ hs -> is_Some (dirents s !! h)) /\
    (forall d e n, dirents s !! d = Some e -> n ∈ entries e -> exists c name ce,
       enodes s !! n = Some (EntryNode (Some c) name) /\ dirents s !! c = Some ce /\
       parent ce = Some d /\ parent_node ce = Some n).
Proof.
  intros Hwf Hl. rewrite (bind_done _ _ _ _ _ boot_ramfs_done).
  destruct (serve_all_inv 2 rs booted [] booted_inv Hwf) as (s & hs & Hs & Hi).
  { change (load booted []) with 1. lia. }
  exists hs, s. split; [done|]. split; [|split].
  - intros d e He. apply (ti_dirent _ _ _ Hi d e He).
  - apply (ti_handle _ _ _ Hi).
  - apply (ti_entry _ _ _ Hi).
Qed.

Definition demo_session : list fs_request :=
  [ReqMake 0 [100] FS_DIRECTORY; ReqMake 0 [102] FS_REGULAR; ReqOpen 9 [100] [[102]]; ReqClose 1; ReqOpen 0 [DOT; DOT] []].

Lemma ramfs_session_accounts_witness :
  Forall wf_request demo_session /\ Z.of_nat (length demo_session) < 2 ^ 60 /\
  exists hs s, (do! boot_ramfs; serve_all demo_session []) fs_init = Done (hs, s) /\
    (forall d e, dirents s !! d = Some e -> references e = pin d + children s d + held hs d) /\
    (forall h, h ∈ hs -> is_Some (dirents s !! h)) /\
    (forall d e n, dirents s !! d = Some e -> n ∈ entries e -> exists c name ce,
       enodes s !! n = Some (EntryNode (Some c) name) /\ dirents s !! c = Some ce /\
       parent ce = Some d /\ parent_node ce = Some n).
Proof.
  assert (Forall wf_request demo_session) as H.
  { repeat constructor; unfold SLASH, DOT; try done. }
  split; [exact H|]. split; [vm_compute; reflexivity|].
  apply (ramfs_session_accounts demo_session H). vm_compute; reflexivity.
Defined.

Lemma demo_session_run :
  match (do! boot_ramfs; serve_all demo_session []) fs_init with
  | Done (hs, s) => hs = [6; 9; 6]
  | Stop _ => False
  end.
Proof. vm_compute. reflexivity. Qed.

(** ** Opening, making and removing by name *)

(** A concrete tree: the booted ramfs with a directory "d", held by its maker. *)
Definition demo_tree : fs :=
  made fs_root (Dirent None None 3 (Some 2) FS_DIRECTORY (Some 3) None None None (Some 1) []) [100] FS_DIRECTORY booted.
Lemma demo_tree_inv : tree_inv 2 demo_tree [6].
Proof. apply (tree_made 2 booted []); [exact booted_inv|reflexivity]. Qed.
Lemma demo_tree_resident : resident demo_tree.
Proof. apply (tree_resident 2 _ [6] demo_tree_inv). vm_compute. reflexivity. Qed.

(** Opening a path walks its segments, whatever the file system: on a
    resident tree the result is the directory entry the segments lead to, with
    exactly one more reference and nothing else changed, and a path that leads
    nowhere returns NULL and leaves every count as it was. *)
Theorem open_path_walks ops s root seg segs rest :
  resident s -> is_Some (dirents s !! root) -> Forall plain seg ->
  Forall (fun t => t <> [] /\ Forall plain t) segs ->
  fs_open_path ops root (path_mem seg segs rest) s =
    match walk s root (seg :: segs) with
    | Some d => Done (Some d, hold d s)
    | None => Done (None, s)
    end.
Proof.
  intros Hr Hroot Hseg Hsegs.
  assert (Forall (Forall plain) (seg :: segs)) as Hpl.
  { constructor; [done|]. eapply Forall_impl; [exact Hsegs|]. by intros t [_ ?]. }
  rewrite (open_path_mem_walks ops s root seg segs rest Hr Hroot Hseg), map_cstr_plain by
    (first [done | eapply Forall_impl; [exact Hsegs|]; intros t [? Ht]; split; [done|]; by apply Forall_drop]).
  by destruct (walk s root (seg :: segs)).
Qed.

Lemma open_path_walks_witness :
  resident demo_tree /\ is_Some (dirents demo_tree !! fs_root) /\
  fs_open_path fs_ops fs_root (path_mem [100] [[46; 46]; [100]] [7; 7]) demo_tree = Done (Some 6, hold 6 demo_tree).
Proof.
  split; [exact demo_tree_resident|]. split; [by eexists|].
  rewrite (open_path_walks fs_ops demo_tree fs_root [100] [[46; 46]; [100]] [7; 7]).
  - vm_compute. reflexivity.
  - exact demo_tree_resident.
  - by eexists.
  - repeat constructor; unfold SLASH; lia.
  - repeat constructor; unfold SLASH; try done; lia.
Defined.

(** The byte after a slash is never looked at as a delimiter.  After
    [first/] the scanner takes the next byte [x], a slash or the terminating
    NUL included, into the next segment: "a//b" asks for an entry named "/b",
    and for "a/" it runs past the end of the string, [rest] being whatever
    memory follows up to its next delimiter; with no memory after the
    terminator the read is out of bounds. *)
Theorem open_path_swallows_byte ops s root seg x t rest :
  resident s -> is_Some (dirents s !! root) -> Forall plain seg -> Forall plain t ->
  fs_open_path ops root (seg ++ SLASH :: x :: t ++ 0 :: rest) s =
    match walk s root [seg; cstr (x :: t)] with
    | Some d => Done (Some d, hold d s)
    | None => Done (None, s)
    end /\
  (walk s root [seg] <> None -> fs_open_path ops root (seg ++ [SLASH; 0]) s = Stop Undefined).
Proof.
  intros Hr Hroot Hseg Ht. split.
  - pose proof (open_path_mem_walks ops s root seg [x :: t] rest Hr Hroot Hseg) as Hw.
    unfold path_mem in Hw. cbn [slashed app map] in Hw. rewrite app_nil_r, (cstr_plain seg Hseg) in Hw. cbn [app] in Hw.
    rewrite Hw by (repeat constructor; done). by destruct (walk s root [seg; cstr (x :: t)]).
  - intros Hw. destruct Hroot as [e He]. pose proof (res_refs s Hr root e He). unfold fs_open_path.
    rewrite (bind_done _ _ _ _ _ (add_reference_hold _ _ _ He ltac:(lia) ltac:(lia))).
    replace (S (length (seg ++ [SLASH; 0]))) with (length seg + 3)%nat by (rewrite length_app; simpl; lia).
    rewrite open_path_scan by (intros i Hi; apply (plain_segment [] seg [SLASH; 0] 0%nat); [simpl; lia|done|simpl; lia]).
    cbn [open_path_loop Nat.add]. rewrite lookup_app_r, Nat.sub_diag by lia. cbn [lookup list_lookup of_option].
    rewrite (bind_done _ _ _ _ _ eq_refl). change ((SLASH =? SLASH) || (SLASH =? 0)) with true. cbv iota zeta.
    assert (segment (seg ++ [SLASH; 0]) 0 (length seg) = seg) as ->.
    { pose proof (segment_at [] seg [SLASH; 0]) as Hs. simpl in Hs. by rewrite Hs, cstr_plain. }
    destruct (step_resident ops s root seg Hr ltac:(by eexists)) as [Hs _].
    rewrite (bind_done _ _ _ _ _ Hs). simpl in Hw. destruct (walk_step s root seg) as [d|]; [|done].
    change (SLASH =? 0) with false. cbv iota.
    rewrite lookup_ge_None_2 by (rewrite length_app; simpl; lia). done.
Qed.

Lemma open_path_swallows_byte_witness :
  resident demo_tree /\ walk demo_tree fs_root [[100]] <> None /\
  fs_open_path fs_ops fs_root [100; 47; 0] demo_tree = Stop Undefined /\
  fs_open_path fs_ops fs_root [46; 47; 47; 100; 0] demo_tree = Done (None, demo_tree).
Proof.
  assert (walk demo_tree fs_root [[100]] <> None) as Hw by (vm_compute; done).
  assert (is_Some (dirents demo_tree !! fs_root)) as Hroot by (by eexists).
  split; [exact demo_tree_resident|]. split; [exact Hw|]. split.
  - apply (open_path_swallows_byte fs_ops demo_tree fs_root [100] 0 [] [] demo_tree_resident Hroot); [|constructor|exact Hw].
    repeat constructor; unfold SLASH; lia.
  - refine (eq_trans (proj1 (open_path_swallows_byte fs_ops demo_tree fs_root [46] 47 [100] [] demo_tree_resident Hroot _ _)) _);
      [repeat constructor; unfold SLASH; lia..|vm_compute; reflexivity].
Defined.

(** C39: What was made can be opened: making a new name in a ramfs directory
    returns a directory entry of that type held twice (by the file system and
    by the caller), and opening the name there finds the same entry and holds
    it once more. *)
Theorem make_then_open b s hs d e name t rest :
  tree_inv b s hs -> load s hs < 2 ^ 62 -> dirents s !! d = Some e ->
  lookup_entry (enodes s) name (entries e) = None -> t <> FS_DEVICE ->
  Forall plain name -> name <> [] -> name <> [DOT] -> name <> [DOT; DOT] ->
  exists c s1 ce,
    fs_make fs_ops d name t s = Done (Some c, s1) /\ dirents s !! c = None /\
    dirents s1 !! c = Some ce /\ type ce = t /\ parent ce = Some d /\ references ce = 2 /\
    fs_open_path fs_ops d (path_mem name [] rest) s1 = Done (Some c, hold c s1) /\
    tree_inv b (hold c s1) (c :: c :: hs).
Proof.
  intros Hi Hl He Hnone Ht Hpl H0 H1 H2. pose proof (ti_ids _ _ _ Hi) as Hids.
  destruct (tree_make b s hs d name t e Hi Hl He Hnone Ht) as (c & s1 & Hm & Hi1 & Hl1 & -> & ->).
  assert (resident (made d e name t s)) as Hr1 by (eapply tree_resident; [done|unfold load in *; lia]).
  assert (walk (made d e name t s) d [name] = Some (next_id s + 2)) as Hw.
  { cbn [walk]. unfold walk_step, is_dot, is_dotdot. rewrite bool_decide_false by naive_solver. rewrite bool_decide_false by done.
    unfold child. erewrite made_old by done. rewrite decide_True by done. simpl. rewrite lookup_insert_eq. simpl.
    rewrite decide_True by done. simpl. by rewrite lookup_insert_eq. }
  exists (next_id s + 2), (made d e name t s).
  eexists. split; [done|]. split.
  { destruct (dirents s !! (next_id s + 2)) eqn:E; [|done]. pose proof (ib_dirent _ Hids _ ltac:(by eexists)). lia. }
  split; [simpl; apply lookup_insert_eq|]. do 3 (split; [done|]). split.
  - pose proof (open_path_mem_walks fs_ops (made d e name t s) d name [] rest Hr1) as Ho.
    erewrite made_old in Ho by done. specialize (Ho ltac:(by eexists) Hpl ltac:(constructor)).
    simpl map in Ho. rewrite cstr_plain, Hw in Ho by done. done.
  - apply tree_hold; [simpl; rewrite lookup_insert_eq; by eexists|done].
Qed.

Lemma make_then_open_witness : exists c s1 ce,
    fs_make fs_ops 6 [102] FS_REGULAR demo_tree = Done (Some c, s1) /\ dirents demo_tree !! c = None /\
    dirents s1 !! c = Some ce /\ type ce = FS_REGULAR /\ parent ce = Some 6 /\ references ce = 2 /\
    fs_open_path fs_ops 6 (path_mem [102] [] [1; 2]) s1 = Done (Some c, hold c s1) /\
    tree_inv 2 (hold c s1) [c; c; 6].
Proof.
  refine (make_then_open 2 demo_tree [6] 6 _ [102] FS_REGULAR [1; 2] demo_tree_inv _ _ _ _ _ _ _ _).
  - vm_compute; reflexivity.
  - reflexivity.
  - reflexivity.
  - done.
  - repeat constructor; unfold SLASH; lia.
  - done.
  - done.
  - done.
Defined.

(** [fs_make_path] loses a reference at "..": making "a/../x" in a
    directory [r] creates the entry in [r], but takes no reference to [r] when
    it comes back up, so the count of [r] ends one short of what [r]'s pins,
    children and handles require. *)
Theorem make_path_dotdot_drops_reference b s hs r e a x t c :
  tree_inv b s hs -> load s hs < 2 ^ 62 -> dirents s !! r = Some e ->
  child s r [a] = Some c -> lookup_entry (enodes s) [x] (entries e) = None -> t <> FS_DEVICE ->
  plain a -> plain x -> a <> DOT ->
  exists s' e', fs_make_path fs_ops r [a; SLASH; DOT; DOT; SLASH; x; 0] t s = Done (Some (next_id s + 2), s') /\
    dirents s' !! r = Some e' /\ children s' r = children s r + 1 /\ is_Some (dirents s' !! (next_id s + 2)) /\
    references e' = references e /\ references e' = pin r + children s' r + held hs r - 1.
Proof.
  intros Hi Hl He Hc Hnone Ht [Ha0 Ha1] [Hx0 Hx1] Had.
  assert (resident s) as Hr by (eapply tree_resident; [done|unfold load in Hl; lia]).
  pose proof (res_refs s Hr r e He) as Href. pose proof (ti_ids _ _ _ Hi) as Hids.
  assert (exists ce, dirents s !! c = Some ce /\ parent ce = Some r) as (ce & Hce & Hpar).
  { unfold child in Hc. rewrite He in Hc. simpl in Hc. destruct (lookup_entry _ _ _) as [n|] eqn:El; [|done].
    apply lookup_entry_Some in El as [Hin _]. destruct (ti_entry _ _ _ Hi r e n He Hin) as (c' & nm & ce & Hen & ? & ? & _).
    simpl in Hc. rewrite Hen in Hc. simpl in Hc. simplify_eq. eauto. }
  pose proof (res_refs s Hr c ce Hce).
  unfold fs_make_path. rewrite (bind_done _ _ _ _ _ (add_reference_hold _ _ _ He ltac:(lia) ltac:(lia))).
  cbn [length make_path_loop lookup list_lookup of_option].
  rewrite (bind_done _ _ (hold r s) a (hold r s) eq_refl), (proj2 (Z.eqb_neq a SLASH) Ha1), (proj2 (Z.eqb_neq a 0) Ha0). cbn [orb].
  cbv iota. rewrite (bind_done _ _ (hold r s) SLASH (hold r s) eq_refl). change ((SLASH =? SLASH) || (SLASH =? 0)) with true.
  change (SLASH =? 0) with false. cbv iota zeta.
  assert (segment [a; SLASH; DOT; DOT; SLASH; x; 0] 0 1 = [a]) as -> by (unfold segment; simpl; by rewrite (proj2 (Z.eqb_neq a 0) Ha0)).
  unfold is_dot at 1, is_dotdot at 1. rewrite bool_decide_false by naive_solver. rewrite bool_decide_false by done.
  rewrite bind_assoc, (bind_done _ _ _ _ _ (enter_resident fs_ops s (hold r s) r [a] Hr (ex_intro _ e He) (hold_within s r) eq_refl)), Hc.
  rewrite hold_comm. destruct (hold_dirent c r s e He) as (k & Hk & Ek).
  rewrite bind_assoc, (bind_done _ _ _ _ _ (release_hold fs_ops _ _ _ Hk ltac:(simpl; case_decide; lia))), bind_ret_l.
  rewrite (bind_done _ _ _ DOT (hold c s) eq_refl). change ((DOT =? SLASH) || (DOT =? 0)) with false. cbv iota.
  rewrite (bind_done _ _ (hold c s) SLASH (hold c s) eq_refl). change ((SLASH =? SLASH) || (SLASH =? 0)) with true.
  change (SLASH =? 0) with false. cbv iota.
  assert (segment [a; SLASH; DOT; DOT; SLASH; x; 0] 2 4 = [DOT; DOT]) as -> by done.
  change (is_dot [DOT; DOT]) with false. change (is_dotdot [DOT; DOT]) with true. cbv iota.
  destruct (hold_dirent c c s ce Hce) as (kc & Hkc & Ekc).
  rewrite bind_assoc, (bind_done _ _ _ _ _ (get_dirent_done _ _ _ Hkc)). cbn [parent with_references]. rewrite Hpar.
  rewrite bind_assoc, (bind_done _ _ _ _ _ (release_hold fs_ops _ _ _ Hce ltac:(lia))), bind_ret_l.
  rewrite (bind_done _ _ s 0 s eq_refl). change ((0 =? SLASH) || (0 =? 0)) with true. change (0 =? 0) with true. cbv iota.
  assert (segment [a; SLASH; DOT; DOT; SLASH; x; 0] 5 6 = [x]) as -> by (unfold segment; simpl; by rewrite (proj2 (Z.eqb_neq x 0) Hx0)).
  assert (forall n, n ∈ entries e -> is_Some (enodes s !! n)) as Hent.
  { intros n Hn. destruct (ti_entry _ _ _ Hi _ e n He Hn) as (c' & nm & ce' & -> & _). by eexists. }
  destruct (ti_super _ _ _ Hi) as [sb Hsb]. destruct (ti_dirent _ _ _ Hi _ e He) as [Hsup Hre].
  rewrite (bind_done _ _ _ _ _ (fs_make_ramfs s r e b sb [x] t Hids He ltac:(lia) Hent Hsup Hsb Hnone Ht)).
  pose proof (tree_made b s hs r e [x] t Hi He) as Hi1.
  assert (dirents (made r e [x] t s) !! r = Some (with_references (references e + 1) (with_entries (next_id s + 1 :: entries e) e))) as Hd1.
  { erewrite made_old by done. by rewrite decide_True. }
  set (s' := unhold r (made r e [x] t s)).
  assert (dirents s' !! r = Some (with_references (references e) (with_entries (next_id s + 1 :: entries e) e))) as Hd2.
  { simpl. rewrite lookup_alter_eq. simpl in Hd1. rewrite Hd1. unfold with_references; simpl. do 2 f_equal. lia. }
  pose proof (release_hold fs_ops r s' _ Hd2 ltac:(simpl; lia)) as Hrel. unfold s' in Hrel. rewrite hold_unhold in Hrel.
  rewrite (bind_done _ _ _ _ _ Hrel). do 2 eexists. split; [reflexivity|]. split; [exact Hd2|].
  assert (children (unhold r (made r e [x] t s)) r = children s r + 1) as Hch.
  { unfold children. rewrite <- (hold_parents r (unhold r _)), hold_unhold. fold (children (made r e [x] t s) r).
    destruct (ti_dirent _ _ _ Hi1 r _ Hd1) as [_ Hre1]. simpl in Hre1. rewrite held_cons in Hre1.
    pose proof (ib_dirent _ Hids r (ex_intro _ e He)). rewrite decide_False in Hre1 by lia.
    unfold children in *. simpl in *. lia. }
  split; [exact Hch|]. split; [|split; [done|rewrite Hch; simpl; lia]].
  apply (hold_is_Some r). rewrite hold_unhold. simpl. rewrite lookup_insert_eq. by eexists.
Qed.

Lemma make_path_dotdot_drops_reference_witness : exists s' e',
    fs_make_path fs_ops fs_root [100; SLASH; DOT; DOT; SLASH; 120; 0] FS_REGULAR demo_tree = Done (Some 9, s') /\
    dirents s' !! fs_root = Some e' /\ children s' fs_root = children demo_tree fs_root + 1 /\
    is_Some (dirents s' !! 9) /\
    references e' = 4 /\ references e' = pin fs_root + children s' fs_root + held [6] fs_root - 1.
Proof.
  refine (make_path_dotdot_drops_reference 2 demo_tree [6] fs_root
    (Dirent None None 4 (Some 2) FS_DIRECTORY (Some 3) None None None (Some 1) [5]) 100 120 FS_REGULAR 6 demo_tree_inv _ _ _ _ _ _ _ _).
  - vm_compute; reflexivity.
  - vm_compute; reflexivity.
  - vm_compute; reflexivity.
  - reflexivity.
  - done.
  - done.
  - done.
  - done.
Defined.

(** What [fs_remove] does to an entry that is not the root and is held more
    than once. *)
Definition removed (d n pn p : Z) (e pe : fs_directory_entry_t) (v : fs_node_t) (s : fs) : fs :=
  Fs (<[d := with_references (references e - 1) (with_parent None None e)]>
        (<[p := with_entries (filter (fun m => m <> pn) (entries pe)) pe]> (dirents s)))
     (delete pn (enodes s)) (<[n := FsNode true (nd_references v) (nd_size v) (ramfs_size v) (nd_data v)]> (nodes s))
     (supers s) (pipes s) (filesystems s) (next_id s).

Lemma fs_remove_done ops d s e n v p pn pe : dirents s !! d = Some e ->
  type e <> FS_DIRECTORY \/ entries e = [] -> node e = Some n -> nodes s !! n = Some v ->
  parent e = Some p -> parent_node e = Some pn -> dirents s !! p = Some pe -> p <> d ->
  is_Some (enodes s !! pn) -> 1 < references e ->
  fs_remove ops d s = Done (Num 0, removed d n pn p e pe v s).
Proof.
  intros He Hty Hn Hv Hp Hpn Hpe Hne [en Hen] Hr. unfold fs_remove.
  rewrite (bind_done _ _ _ _ _ (get_dirent_done _ _ _ He)).
  replace (bool_decide (type e = FS_DIRECTORY) && negb (bool_decide (entries e = []))) with false
    by (destruct Hty as [H|H]; [by rewrite (bool_decide_false _ H)|rewrite (bool_decide_true _ H); by rewrite andb_false_r]).
  rewrite Hn, (bind_done _ _ s n s eq_refl), (bind_done _ _ _ _ _ (get_node_done _ _ _ Hv)), Hp.
  rewrite (bind_done _ _ _ _ _ (put_node_done _ _ s)), Hpn.
  set (s1 := set_nodes <[n := FsNode true (nd_references v) (nd_size v) (ramfs_size v) (nd_data v)]> s). rewrite bind_assoc, (bind_done _ _ s1 pn s1 eq_refl).
  unfold unlink_entry. rewrite bind_assoc, (bind_done _ _ _ _ _ (upd_dirent_done p _ s1 pe Hpe)).
  set (s1' := set_dirents <[p := with_entries (filter (fun m => m <> pn) (entries pe)) pe]> s1).
  rewrite bind_assoc, (bind_done _ _ _ _ _ (free_enode_done pn s1' en Hen)).
  set (s2 := set_enodes (delete pn) s1'). assert (dirents s2 !! d = Some e) as He2 by (simpl; by rewrite lookup_insert_ne).
  rewrite (bind_done _ _ _ _ _ (upd_dirent_done d (with_parent None None) s2 e He2)).
  match goal with |- bind _ _ ?s3 = _ => assert (s3 = hold d (removed d n pn p e pe v s)) as -> end.
  { apply fs_ext; try done. simpl. apply map_eq. intros x. destruct (decide (x = d)) as [->|Hx].
    - rewrite lookup_insert_eq, lookup_alter_eq, lookup_insert_eq. simpl. f_equal.
      destruct e; unfold with_references, with_parent; simpl in *. f_equal. lia.
    - rewrite lookup_alter_ne, !(lookup_insert_ne _ d) by done. done. }
  rewrite (bind_done _ _ _ _ _ (release_hold ops d (removed d n pn p e pe v s)
    (with_references (references e - 1) (with_parent None None e)) ltac:(simpl; apply lookup_insert_eq) ltac:(simpl; lia))).
  done.
Qed.

(** The last reference to an inode marked for deletion, on a file system that
    has no delete operation. *)
Lemma node_release_null d n b s e v sb : dirents s !! d = Some e -> node e = Some n -> nodes s !! n = Some v ->
  nd_delete v = true -> nd_references v = 1 -> superblock e = Some b -> supers s !! b = Some sb ->
  fs_node_release fs_ops d s = Stop Undefined.
Proof.
  intros He Hn Hv Hdel Href Hsb Hb. unfold fs_node_release.
  rewrite (bind_done _ _ _ _ _ (get_dirent_done _ _ _ He)), Hn, (bind_done _ _ s n s eq_refl),
    (bind_done _ _ _ _ _ (get_node_done _ _ _ Hv)), Hdel, Href. change (u64 (1 - 1) =? 0) with true. cbv iota.
  unfold put_node, modify, set_nodes, ops_of, bind, get_dirent, nonnull, get_super, of_option, ret. simpl.
  rewrite He, Hsb. simpl. by rewrite Hb.
Qed.

(** Removing from a ramfs unlinks the entry at once, but the parent keeps
    the reference the entry held on it, and when the last holder lets go the
    kernel calls the delete operation, which ramfs does not have. *)
Theorem remove_then_release_calls_null b s hs d e n v p pn :
  tree_inv b s (d :: hs) -> load s (d :: hs) < 2 ^ 62 -> dirents s !! d = Some e -> d ∉ hs -> d <> fs_root ->
  children s d = 0 -> entries e = [] -> node e = Some n -> nodes s !! n = Some v -> nd_references v = 1 ->
  parent e = Some p -> p <> d -> parent_node e = Some pn ->
  exists s1 pe pe1, fs_remove fs_ops d s = Done (Num 0, s1) /\
    dirents s !! p = Some pe /\ dirents s1 !! p = Some pe1 /\
    (pn ∉ entries pe1) /\ references pe1 = references pe /\ children s1 p = children s p - 1 /\
    fs_directory_entry_release fs_ops d s1 = Stop Undefined.
Proof.
  intros Hi Hl He Hd Hroot Hch Hempty Hn Hv Hv1 Hp Hpd Hpn.
  assert (resident s) as Hr by (eapply tree_resident; [done|unfold load in Hl; lia]).
  destruct (ti_parent _ _ _ Hi d e p He Hp) as (pe & pn' & Hpe & Hpn' & Hin). replace pn' with pn in * by congruence.
  destruct (ti_entry _ _ _ Hi p pe pn Hpe Hin) as (c & nm & ce & Hen & _).
  destruct (ti_dirent _ _ _ Hi d e He) as [Hsup Href].
  assert (references e = 2) as H2.
  { rewrite Href, Hch, held_cons, (held_absent hs d Hd), decide_True by done. unfold pin. rewrite decide_False by done. lia. }
  exists (removed d n pn p e pe v s), pe. eexists.
  split; [apply fs_remove_done; eauto; lia|]. split; [done|].
  split; [simpl; rewrite lookup_insert_ne by done; apply lookup_insert_eq|].
  split; [simpl; rewrite list_elem_of_filter; tauto|]. split; [done|]. split.
  - unfold children. assert (parents s = <[d := Some p]> (parents (removed d n pn p e pe v s))) as ->.
    { unfold parents. simpl. rewrite !fmap_insert. simpl. rewrite insert_insert_eq.
      apply map_eq. intros x. destruct (decide (x = d)) as [->|]; [rewrite lookup_insert_eq, lookup_fmap, He; simpl; congruence|].
      rewrite lookup_insert_ne by done. destruct (decide (x = p)) as [->|]; [rewrite lookup_insert_eq, lookup_fmap, Hpe; done|].
      by rewrite lookup_insert_ne. }
    assert (parents (removed d n pn p e pe v s) = <[d := None]> (delete d (parents s))) as ->.
    { unfold parents. simpl. rewrite !fmap_insert. simpl. rewrite insert_delete_eq.
      f_equal. rewrite insert_id; [done|]. by rewrite lookup_fmap, Hpe. }
    rewrite insert_insert_eq, !children_insert by apply lookup_delete_eq. rewrite decide_False, decide_True by done. lia.
  - unfold fs_directory_entry_release. cbn [release_fuel].
    match goal with |- bind (get_dirent d) _ ?t = _ =>
      assert (dirents t !! d = Some (with_references 1 (with_parent None None e))) as Hd1
        by (simpl; rewrite lookup_insert_eq, H2; done) end.
    rewrite (bind_done _ _ _ _ _ (get_dirent_done _ _ _ Hd1)). cbn [references with_references parent with_parent].
    change (1 =? 0) with false. change (1 - 1) with 0. cbv iota.
    rewrite (bind_done _ _ _ _ _ (upd_dirent_done _ _ _ _ Hd1)). change (0 =? 0) with true. cbv iota.
    rewrite bind_ret_l. apply bind_stop. destruct (ti_super _ _ _ Hi) as [sb Hsb].
    eapply (node_release_null d n b _ (with_references 0 (with_parent None None e)) (FsNode true 1 (nd_size v) (ramfs_size v) (nd_data v)) sb); try done.
    + simpl. apply lookup_insert_eq.
    + simpl. by rewrite lookup_insert_eq, Hv1.
Qed.

(** A concrete tree: the booted ramfs with a regular file "f", held by its maker. *)
Definition demo_file_tree : fs :=
  made fs_root (Dirent None None 3 (Some 2) FS_DIRECTORY (Some 3) None None None (Some 1) []) [102] FS_REGULAR booted.
Lemma demo_file_tree_inv : tree_inv 2 demo_file_tree [6].
Proof. apply (tree_made 2 booted []); [exact booted_inv|reflexivity]. Qed.

Lemma remove_then_release_calls_null_witness :
  exists s1 pe pe1, fs_remove fs_ops 6 demo_file_tree = Done (Num 0, s1) /\
    dirents demo_file_tree !! fs_root = Some pe /\ dirents s1 !! fs_root = Some pe1 /\
    (5 ∉ entries pe1) /\ references pe1 = references pe /\
    children s1 fs_root = children demo_file_tree fs_root - 1 /\
    fs_directory_entry_release fs_ops 6 s1 = Stop Undefined.
Proof.
  refine (remove_then_release_calls_null 2 demo_file_tree [] 6
    (Dirent (Some fs_root) (Some 5) 2 (Some 2) FS_REGULAR (Some 4) None None None None [])
    4 (FsNode false 1 0 0 (Some [None])) fs_root 5 demo_file_tree_inv _ _ _ _ _ _ _ _ _ _ _ _);
    first [done | vm_compute; reflexivity | apply not_elem_of_nil].
Defined.
