(* ===== verification/File.v ===== *)
(** * File: open files, descriptor tables and the file system calls

    src/filesystem/file.c, src/process/file_table.c and the handlers of
    src/syscall/handlers/ that work on paths and descriptors.

    An [fs_file_t] has one owner, the table slot that points to it, so a slot
    holds the value.  [file_capacity] is the length of the table.  A user
    pointer has already been translated ([process_user_to_kernel]): [None] is
    a pointer the process does not map, [Some mem] the memory from there on.
    Reads and writes on sockets belong to UnixSocket and enter through the
    interface [SocketIO]. *)
From S2P Require Import Prelude Pipe Fs FsPath RamfsTree.

(** [O_RD], [O_WR] and [O_CREAT] of the external fcntl.h. *)
Record open_options := Options { O_RD : bool; O_WR : bool; O_CREAT : bool }.

(** [current_node] is [None] at the tail of the directory's list. *)
Record fs_file_t := File { f_dirent : Z; options : open_options; offset : Z; current_node : option Z }.

Definition with_offset (o : Z) (f : fs_file_t) : fs_file_t := File (f_dirent f) (options f) o (current_node f).
Definition with_current (n : option Z) (f : fs_file_t) : fs_file_t := File (f_dirent f) (options f) (offset f) n.

(** What reading and writing a socket does to it is the business of another
    component; a failing call does not set the number of bytes moved. *)
Class SocketIO := {
  socket_read : Z -> Z -> M fs (code * option (list Z));
  socket_write : Z -> list Z -> M fs (code * option Z)
}.

(** A system without sockets. *)
#[export] Instance no_sockets : SocketIO := {
  socket_read _ _ := ret (Err ERROR_UNIMPLEMENTED, None);
  socket_write _ _ := ret (Err ERROR_UNIMPLEMENTED, None)
}.

Section files.
Context (ops : Z -> fs_superblock_ops_t) `{!SocketIO}.

(** ** file.c *)

(** An error code, or the initialised file. *)
Definition file_init (dirent : Z) (o : open_options) : M fs (code + fs_file_t) :=
  let! e := get_dirent dirent in
  if bool_decide (type e = FS_DIRECTORY) && O_WR o then ret (inl (Err ERROR_IS_DIR))
  else ret (inr (File dirent o 0 (if bool_decide (type e = FS_DIRECTORY) then head (entries e) else None))).

Definition file_clone (src : fs_file_t) : M fs fs_file_t :=
  do! fs_directory_entry_add_reference (f_dirent src);
  let! e := get_dirent (f_dirent src) in
  ret (File (f_dirent src) (options src) (offset src)
         (if bool_decide (type e = FS_DIRECTORY) then head (entries e) else None)).

Definition get_pipe (p : Z) : M fs pipe_t := fun s => of_option Undefined (pipes s !! p) s.
(** Run a pipe operation on the pipe object [p]. *)
Definition on_pipe {A} (p : Z) (m : M pipe_t A) : M fs A :=
  let! v := get_pipe p in
  match m v with
  | Done (a, v') => do! modify (set_pipes <[p := v']>); ret a
  | Stop w => stop_with w
  end.

(** The result, the bytes stored in the buffer, and the file afterwards. *)
Definition file_read (f : fs_file_t) (size : Z) : M fs (code * list (option Z) * fs_file_t) :=
  if negb (O_RD (options f)) then ret (NegErr EINVAL, [], f)
  else
    let! e := get_dirent (f_dirent f) in
    match type e with
    | FS_DIRECTORY => ret (NegErr EISDIR, [], f)
    | FS_PIPE =>
        let! p := nonnull (pipe e) in
        let! bs := on_pipe p (pipe_read (Z.to_nat size)) in
        ret (Num (Z.of_nat (length bs)), map Some bs, f)
    | FS_SOCKET =>
        let! k := nonnull (socket e) in
        let! (_, r) := socket_read k size in
        let! bs := of_option Undefined r in
        ret (Num (Z.of_nat (length bs)), map Some bs, f)
    | _ =>
        let! (_, o) := ops_of ops (f_dirent f) in
        let! read := of_option Undefined (op_read o) in
        let! (result, bs) := read (f_dirent f) size (offset f) in
        let f' := with_offset (u64 (offset f + Z.of_nat (length bs))) f in
        ret (if bool_decide (result = Num 0) then Num (s64 (Z.of_nat (length bs))) else result, bs, f')
    end.

Definition file_write (f : fs_file_t) (buffer : list Z) : M fs (code * fs_file_t) :=
  if negb (O_WR (options f)) then ret (NegErr EINVAL, f)
  else
    let! e := get_dirent (f_dirent f) in
    match type e with
    | FS_DIRECTORY => ret (Err ERROR_IS_DIR, f)
    | FS_PIPE =>
        let! p := nonnull (pipe e) in
        let! n := on_pipe p (pipe_write buffer) in
        ret (Num n, f)
    | FS_SOCKET =>
        let! k := nonnull (socket e) in
        let! (result, r) := socket_write k buffer in
        match r with
        | Some n => ret (if bool_decide (result = Num 0) then Num n else result, f)
        | None => if bool_decide (result = Num 0) then stop_with Undefined else ret (result, f)
        end
    | _ =>
        let! (_, o) := ops_of ops (f_dirent f) in
        let! write := of_option Undefined (op_write o) in
        let! (result, n) := write (f_dirent f) buffer (offset f) in
        let f' := with_offset (u64 (offset f + n)) f in
        ret (if bool_decide (result = Num 0) then Num (s64 n) else result, f')
    end.

Definition file_close (f : fs_file_t) : M fs unit := fs_directory_entry_release ops (f_dirent f).

(** The entry node after [n] in its list. *)
Fixpoint next_entry (n : Z) (l : list Z) : option Z :=
  match l with
  | [] => None
  | m :: l' => if m =? n then head l' else next_entry n l'
  end.

(** [sizeof(directory_entry_t)] comes from the external dirent.h. *)
Variable dirent_size : Z.

(** The entry [readdir] stores: type, size, name. *)
Record dirent_out := DirentOut { d_type : fs_file_type_t; d_size : Z; d_name : list Z }.

Definition file_readdir (f : fs_file_t) (buffer_size : Z) : M fs (code * option dirent_out * fs_file_t) :=
  if negb (O_RD (options f)) then ret (NegErr EINVAL, None, f)
  else
    let! e := get_dirent (f_dirent f) in
    if negb (bool_decide (type e = FS_DIRECTORY)) then ret (NegErr ENOTDIR, None, f)
    else
      match current_node f with
      | None => ret (Num 0, None, f)
      | Some n =>
          let! en := get_enode n in
          let entry_length := u64 (dirent_size + Z.of_nat (length (en_name en)) + 1) in
          if entry_length >? buffer_size then ret (NegErr ERANGE, None, f)
          else
            let! c := fs_directory_node_enter ops (f_dirent f) n in
            let! c := nonnull c in
            let! ce := get_dirent c in
            do! fs_directory_entry_release ops c;
            let! e' := get_dirent (f_dirent f) in
            ret (Num 1, Some (DirentOut (type ce) entry_length (en_name en)),
                 with_current (next_entry n (entries e')) f)
      end.

(** ** file_table.c *)

Definition file_table_t : Type := list (option fs_file_t).

(** The state of the file calls of one process. *)
Record proc := Proc { fsys : fs; files : file_table_t; working_dir : Z }.
Definition on_fs {A} (m : M fs A) : M proc A := zoom fsys (fun s p => Proc s (files p) (working_dir p)) m.
Definition set_files (t : file_table_t) : M proc unit := modify (fun p => Proc (fsys p) t (working_dir p)).

(** Whether [heap_realloc] finds room for so many bytes; it panics if not. *)
Variable heap_room : Z -> bool.

(** [file_capacity = fd + 1] and the reallocation that follows it. *)
Definition grow_table (fd : Z) : M proc unit :=
  let! p := get in
  let cap := u64 (fd + 1) in
  if u64 (cap * 8) =? 0 then stop_with (Panic "Zero byte allocation")
  else if negb (heap_room (u64 (cap * 8))) then stop_with (Panic "Unable to find space for heap alloc")
  else if 2 ^ 61 <=? cap then stop_with Undefined
  else set_files (files p ++ replicate (Z.to_nat cap - length (files p)) None).

Definition capacity (t : file_table_t) : Z := Z.of_nat (length t).

(** [files[fd]]; an index outside the array has no meaning. *)
Definition slot (fd : Z) : M proc (option fs_file_t) :=
  let! p := get in
  if 0 <=? fd then of_option Undefined (files p !! Z.to_nat fd) else stop_with Undefined.
Definition set_slot (fd : Z) (f : option fs_file_t) : M proc unit :=
  let! p := get in
  if (0 <=? fd) && (fd <? capacity (files p)) then set_files (<[Z.to_nat fd := f]> (files p)) else stop_with Undefined.

Definition file_table_set (fd : Z) (file : fs_file_t) : M proc unit :=
  let! p := get in
  do! (if u64 fd >=? capacity (files p) then grow_table fd else ret tt);
  let! old := slot fd in
  do! match old with Some f => on_fs (file_close f) | None => ret tt end;
  set_slot fd (Some file).

Definition file_table_add (file : fs_file_t) : M proc Z :=
  let! p := get in
  let fd := Z.of_nat (default (length (files p)) (find_index (fun o => bool_decide (o = None)) (files p))) in
  do! (if fd >=? capacity (files p) then grow_table fd else ret tt);
  do! set_slot fd (Some file);
  ret fd.

Definition file_table_init : file_table_t := [None].

Fixpoint close_all (t : file_table_t) : M fs unit :=
  match t with
  | [] => ret tt
  | None :: t' => close_all t'
  | Some f :: t' => do! file_close f; close_all t'
  end.
Definition file_table_free : M proc unit := let! p := get in on_fs (close_all (files p)).

(** The table of a forked process. *)
Fixpoint file_table_clone (src : file_table_t) : M fs file_table_t :=
  match src with
  | [] => ret []
  | None :: t => let! t' := file_table_clone t in ret (None :: t')
  | Some f :: t => let! f' := file_clone f in let! t' := file_table_clone t in ret (Some f' :: t')
  end.

(** [(size_t) fd >= file_capacity || files[fd] == NULL]. *)
Definition lookup_fd (fd : Z) : M proc (option fs_file_t) :=
  let! p := get in if u64 fd >=? capacity (files p) then ret None else slot fd.

Definition file_table_dup (dst src : Z) : M proc code :=
  let! o := lookup_fd src in
  match o with
  | None => ret (NegErr EBADF)
  | Some f =>
      do! on_fs (fs_directory_entry_add_reference (f_dirent f));
      let! r := on_fs (file_init (f_dirent f) (options f)) in
      match r with
      | inr file => do! file_table_set dst file; ret (Num 0)
      | inl _ => stop_with Undefined   (* an uninitialised file is installed *)
      end
  end.

Definition file_table_open (node : Z) (o : open_options) : M proc code :=
  let! r := on_fs (file_init node o) in
  match r with
  | inl c => ret c
  | inr file => let! fd := file_table_add file in ret (Num fd)
  end.

Definition file_table_openat (fd node : Z) (o : open_options) : M proc code :=
  let! r := on_fs (file_init node o) in
  match r with
  | inl c => ret c
  | inr file => do! file_table_set fd file; ret (Num fd)
  end.

Definition file_table_get (fd : Z) : M proc (option fs_file_t) := lookup_fd fd.

Definition file_table_close (fd : Z) : M proc code :=
  let! o := lookup_fd fd in
  match o with
  | None => ret (NegErr EBADFD)
  | Some f => do! on_fs (file_close f); do! set_slot fd None; ret (Num 0)
  end.

(** ** System calls *)

Definition open_node (path : list Z) (o : open_options) : M proc (option Z) :=
  let! p := get in
  let! n := on_fs (process_open_path ops (working_dir p) path) in
  match n with
  | Some d => ret (Some d)
  | None => if O_CREAT o then on_fs (process_make_path ops (working_dir p) path FS_REGULAR) else ret None
  end.

(** [node] is NULL for [O_CREAT] when the directory is missing; [file_init]
    then reads through it. *)
Definition syscall_open (path : option (list Z)) (o : open_options) : M proc code :=
  match path with
  | None => ret (NegErr EFAULT)
  | Some path =>
      let! n := open_node path o in
      match n with
      | Some node => file_table_open node o
      | None => if O_CREAT o then stop_with Undefined else ret (NegErr ENOENT)
      end
  end.

Definition syscall_openat (fd : Z) (path : option (list Z)) (o : open_options) : M proc code :=
  match path with
  | None => ret (NegErr EFAULT)
  | Some path =>
      let! n := open_node path o in
      match n with
      | Some node => file_table_openat fd node o
      | None => if O_CREAT o then stop_with Undefined else ret (NegErr ENOENT)
      end
  end.

Definition syscall_close (fd : Z) : M proc code := file_table_close fd.
Definition syscall_dup (dst src : Z) : M proc code := file_table_dup dst src.

Definition syscall_read (fd : Z) (buffer : bool) (size : Z) : M proc (code * list (option Z)) :=
  if negb buffer then ret (NegErr EFAULT, [])
  else
    let! o := file_table_get fd in
    match o with
    | None => ret (NegErr EBADF, [])
    | Some f =>
        let! (r, bs, f') := on_fs (file_read f size) in
        do! set_slot fd (Some f'); ret (r, bs)
    end.

Definition syscall_write (fd : Z) (buffer : option (list Z)) : M proc code :=
  match buffer with
  | None => ret (NegErr EFAULT)
  | Some bytes =>
      let! o := file_table_get fd in
      match o with
      | None => ret (NegErr EBADF)
      | Some f => let! (r, f') := on_fs (file_write f bytes) in do! set_slot fd (Some f'); ret r
      end
  end.

Inductive seek_origin_t := SEEK_SET | SEEK_END | SEEK_CUR | SEEK_OTHER.

Definition syscall_seek (fd off : Z) (origin : seek_origin_t) : M proc code :=
  let! o := file_table_get fd in
  match o with
  | None => ret (NegErr EBADF)
  | Some f =>
      let! e := on_fs (get_dirent (f_dirent f)) in
      if bool_decide (type e = FS_DIRECTORY) then ret (Err ERROR_IS_DIR)
      else
        match origin with
        | SEEK_SET => do! set_slot fd (Some (with_offset (u64 off) f)); ret (Num 0)
        | SEEK_END =>
            let! n := on_fs (nonnull (node e)) in
            let! v := on_fs (get_node n) in
            do! set_slot fd (Some (with_offset (u64 (nd_size v - off)) f)); ret (Num 0)
        | SEEK_CUR => do! set_slot fd (Some (with_offset (u64 (offset f + off)) f)); ret (Num 0)
        | SEEK_OTHER => ret (Err ERROR_BAD_ARG)
        end
  end.

Definition syscall_readdir (fd : Z) (buffer : bool) (size : Z) : M proc (code * option dirent_out) :=
  if negb buffer then ret (NegErr EFAULT, None)
  else
    let! o := file_table_get fd in
    match o with
    | None => ret (NegErr EBADF, None)
    | Some f =>
        let! (r, out, f') := on_fs (file_readdir f size) in
        do! set_slot fd (Some f'); ret (r, out)
    end.

Definition process_set_working_dir (dirent : Z) : M proc unit :=
  let! p := get in
  do! on_fs (fs_directory_entry_release ops (working_dir p));
  modify (fun p => Proc (fsys p) (files p) dirent).

Definition syscall_chdir (path : option (list Z)) : M proc code :=
  match path with
  | None => ret (NegErr EFAULT)
  | Some path =>
      let! p := get in
      let! n := on_fs (process_open_path ops (working_dir p) path) in
      match n with
      | None => ret (NegErr ENOENT)
      | Some d =>
          let! e := on_fs (get_dirent d) in
          if negb (bool_decide (type e = FS_DIRECTORY)) then do! on_fs (fs_directory_entry_release ops d); ret (NegErr ENOTDIR)
          else do! process_set_working_dir d; ret (Num 0)
      end
  end.

Definition syscall_mkdir (path : option (list Z)) : M proc code :=
  match path with
  | None => ret (NegErr EFAULT)
  | Some path =>
      let! p := get in
      let! n := on_fs (process_make_path ops (working_dir p) path FS_DIRECTORY) in
      match n with
      | None => ret (NegErr EACCES)
      | Some d => do! on_fs (fs_directory_entry_release ops d); ret (Num 0)
      end
  end.

(** [page] is what the pipe's fresh page contains. *)
Definition syscall_pipe (fds : bool) (page : list Z) : M proc (code * option (code * code)) :=
  if negb fds then ret (NegErr EFAULT, None)
  else
    let! d := on_fs (fs_make_anon_pipe page) in
    let! w := file_table_open d (Options false true false) in
    let! r := file_table_open d (Options true false false) in
    ret (Num 0, Some (w, r)).

Definition syscall_remove (path : option (list Z)) : M proc code :=
  match path with
  | None => ret (NegErr EFAULT)
  | Some path =>
      let! p := get in
      let! n := on_fs (process_open_path ops (working_dir p) path) in
      match n with
      | None => ret (NegErr ENOENT)
      | Some d =>
          let! e := on_fs (get_dirent d) in
          if bool_decide (type e = FS_DIRECTORY) then ret (NegErr EISDIR) else on_fs (fs_remove ops d)
      end
  end.

(** The device of the file [src]: [inl] when the call returns. *)
Definition mount_device (src : list Z) : M proc (code + option Z) :=
  let! p := get in
  let! n := on_fs (process_open_path ops (working_dir p) src) in
  match n with
  | None => ret (inl (NegErr ENOENT))
  | Some d =>
      let! e := on_fs (get_dirent d) in
      if negb (bool_decide (type e = FS_DEVICE)) then ret (inl (NegErr ENODEV))
      else do! on_fs (fs_directory_entry_release ops d); ret (inr (device e))
  end.
(** [src]: a NULL pointer, or one to translate; a mount point that does not
    exist is passed on as NULL. *)
Definition syscall_mount (src : option (option (list Z))) (dst fsname data : option (list Z)) : M proc code :=
  match dst, fsname, data with
  | Some dst, Some fsname, Some _ =>
      let! dev := match src with
                  | None => ret (inr None)
                  | Some None => ret (inl (NegErr EFAULT))
                  | Some (Some src) => mount_device src
                  end in
      match dev with
      | inl e => ret e
      | inr dev =>
          if bool_decide (cstr dst = [SLASH]) then on_fs (fs_mount_root ops (cstr fsname) dev)
          else
            let! p := get in
            let! n := on_fs (process_open_path ops (working_dir p) dst) in
            let! d := of_option Undefined n in
            let! result := on_fs (fs_mount ops (cstr fsname) d dev) in
            do! on_fs (fs_directory_entry_release ops d);
            ret result
      end
  | _, _, _ => ret (NegErr EFAULT)
  end.
Definition syscall_unmount (path : option (list Z)) : M proc code :=
  match path with
  | None => ret (NegErr EFAULT)
  | Some path =>
      let! p := get in
      let! n := on_fs (process_open_path ops (working_dir p) path) in
      match n with
      | None => ret (NegErr ENOENT)
      | Some d => on_fs (fs_unmount ops d)
      end
  end.

(** Mounting on a path that does not resolve uses a NULL directory. *)
Lemma mount_on_missing dst fsname data p fs' : cstr dst <> [SLASH] -> process_open_path ops (working_dir p) dst (fsys p) = Done (None, fs') ->
  syscall_mount None (Some dst) (Some fsname) (Some data) p = Stop Undefined.
Proof.
  intros Hd Hp. unfold syscall_mount. rewrite bind_ret_l, bool_decide_false by done. rewrite bind_get. unfold on_fs at 1, zoom at 1, bind at 1.
  rewrite Hp. done.
Qed.
End files.
