(* ===== verification/FileProofs.v ===== *)
(** * FileProofs: open files and descriptor tables

    - a regular file of a ramfs, read and written through an open file, is a
      byte array with a cursor;
    - a descriptor table hands out the lowest free descriptor and holds one
      reference per open file;
    - closing an end of an anonymous pipe is a null dereference. *)
From S2P Require Import Prelude Pipe Fs FsPath RamfsTree File.

(** ** Regular files *)

(** The contents of the file, [None] being a byte nobody wrote, and the cursor. *)
Definition pad (l : list (option Z)) (n : nat) : list (option Z) := l ++ replicate (n - length l) None.
Definition array_write (l : list (option Z)) (off : nat) (data : list Z) : list (option Z) :=
  take off (pad l off) ++ map Some data ++ drop (off + length data) l.

Inductive file_op := FRead (n : nat) | FWrite (data : list Z).
Inductive file_result := RRead (c : code) (bs : list (option Z)) | RWrite (c : code).

Definition array_op (st : list (option Z) * nat) (o : file_op) : file_result * (list (option Z) * nat) :=
  let (l, off) := st in
  match o with
  | FRead n => let bs := take n (drop off l) in
               (RRead (Num (Z.of_nat (length bs))) bs, (l, off + length bs)%nat)
  | FWrite data =>
      (* writing nothing does not extend the file *)
      (RWrite (Num (Z.of_nat (length data))),
       (if decide (data = [] /\ (off <= length l)%nat) then l else array_write l off data, off + length data)%nat)
  end.
Fixpoint run_array (st : list (option Z) * nat) (os : list file_op) : list file_result * (list (option Z) * nat) :=
  match os with
  | [] => ([], st)
  | o :: os' => let '(r, st1) := array_op st o in let '(rs, st2) := run_array st1 os' in (r :: rs, st2)
  end.

Definition run_file_op (f : fs_file_t) (o : file_op) : M fs (file_result * fs_file_t) :=
  match o with
  | FRead n => let! (c, bs, f') := file_read fs_ops f (Z.of_nat n) in ret (RRead c bs, f')
  | FWrite data => let! (c, f') := file_write fs_ops f data in ret (RWrite c, f')
  end.
Fixpoint run_file (f : fs_file_t) (os : list file_op) : M fs (list file_result * fs_file_t) :=
  match os with
  | [] => ret ([], f)
  | o :: os' =>
      let! (r, f1) := run_file_op f o in
      let! (rs, f2) := run_file f1 os' in ret (r :: rs, f2)
  end.

(** The directory entry [d] is a regular ramfs file with contents [l]. *)
Definition file_rep (s : fs) (d n : Z) (l : list (option Z)) : Prop :=
  exists e b sb v k, dirents s !! d = Some e /\ type e = FS_REGULAR /\ node e = Some n /\
    superblock e = Some b /\ supers s !! b = Some sb /\ nodes s !! n = Some v /\
    ramfs_size v = Z.of_nat (length l) /\ nd_data v = Some (l ++ replicate k None).

(** Everything but the inode [n] is the same. *)
Definition same_but_node (n : Z) (s s' : fs) : Prop :=
  exists v, s' = set_nodes <[n := v]> s.

Definition op_size (o : file_op) : Z := match o with FRead n => Z.of_nat n | FWrite data => Z.of_nat (length data) end.

Lemma ramfs_node_done s d e n v : dirents s !! d = Some e -> node e = Some n -> nodes s !! n = Some v ->
  ramfs_node d s = Done ((n, v), s).
Proof.
  intros He Hn Hv. unfold ramfs_node. rewrite (bind_done _ _ _ _ _ (get_dirent_done _ _ _ He)), Hn.
  rewrite (bind_done _ _ s n s eq_refl). by rewrite (bind_done _ _ _ _ _ (get_node_done _ _ _ Hv)).
Qed.

Lemma ramfs_read_rep s d n l off k : file_rep s d n l ->
  (Z.of_nat off + Z.of_nat k < 2 ^ 63) -> Z.of_nat (length l) < 2 ^ 63 ->
  ramfs_read d (Z.of_nat k) (Z.of_nat off) s = Done ((Num 0, take k (drop off l)), s).
Proof.
  intros (e & b & sb & v & j & He & _ & Hn & _ & _ & Hv & Hsz & Hd) Hb Hl. unfold ramfs_read.
  rewrite (bind_done _ _ _ _ _ (ramfs_node_done s d e n v He Hn Hv)), Hsz.
  destruct (Z.geb_spec (Z.of_nat off) (Z.of_nat (length l))) as [Hge|Hlt].
  { by rewrite drop_ge, take_nil by lia. }
  rewrite u64_small by lia.
  set (lim := if Z.of_nat k + Z.of_nat off >? Z.of_nat (length l) then _ else _).
  assert (lim = Z.of_nat (length (take k (drop off l)))) as ->.
  { unfold lim. rewrite length_take, length_drop. destruct (Z.gtb_spec (Z.of_nat k + Z.of_nat off) (Z.of_nat (length l))); lia. }
  rewrite Hd. unfold of_option at 1. rewrite (bind_done _ _ s _ s eq_refl).
  unfold block_read. rewrite length_app, !length_take, !length_drop.
  replace ((0 <=? Z.of_nat off) && _) with true by (symmetry; apply andb_true_intro; split; apply Z.leb_le; lia).
  unfold of_option. rewrite (bind_done _ _ s _ s eq_refl). unfold ret. do 2 f_equal.
  rewrite !Nat2Z.id. rewrite drop_app_le by lia. rewrite take_app_le by (rewrite length_drop; lia).
  f_equal. destruct (decide (k <= length l - off)%nat).
  - f_equal. lia.
  - rewrite !take_ge by (rewrite length_drop; lia). done.
Qed.

Lemma array_write_inside l off data j : (off + length data <= length l)%nat ->
  take off (l ++ replicate j None) ++ map Some data ++ drop (off + length data) (l ++ replicate j None) =
  array_write l off data ++ replicate j None.
Proof.
  intros H. unfold array_write, pad. replace (off - length l)%nat with 0%nat by lia. rewrite app_nil_r.
  rewrite take_app_le, drop_app_le by lia. by rewrite <- !app_assoc.
Qed.

Lemma array_write_growing l off data j : (length l < off + length data)%nat ->
  let b := grow (l ++ replicate j None) (Z.of_nat (off + length data)) in
  (off + length data <= length b)%nat /\
  take off b ++ map Some data ++ drop (off + length data) b =
    array_write l off data ++ replicate (length b - (off + length data)) None.
Proof.
  intros H b. unfold b, grow. rewrite Nat2Z.id, <- app_assoc, <- replicate_add.
  set (m := (j + _)%nat). assert (off + length data <= length l + m)%nat as Hm.
  { unfold m. rewrite length_app, length_replicate. lia. }
  rewrite length_app, length_replicate. split; [lia|].
  unfold array_write, pad. rewrite (drop_ge l) by lia. rewrite app_nil_r, <- app_assoc. f_equal.
  - rewrite !take_app. f_equal. rewrite !take_replicate. f_equal. lia.
  - f_equal. rewrite drop_app, (drop_ge l), app_nil_l, drop_replicate by lia. f_equal. lia.
Qed.

Lemma length_array_write l off data : (length data <> 0)%nat \/ (length l < off)%nat ->
  length (array_write l off data) = Nat.max (length l) (off + length data).
Proof.
  intros H. unfold array_write, pad. rewrite !length_app, length_take, length_app, length_replicate, length_map, length_drop. lia.
Qed.

(** One write through the ramfs operation. *)
Lemma ramfs_write_rep s d n l off data : file_rep s d n l ->
  Z.of_nat off + Z.of_nat (length data) < 2 ^ 63 -> Z.of_nat (length l) < 2 ^ 63 ->
  exists s', ramfs_write d data (Z.of_nat off) s = Done ((Num 0, Z.of_nat (length data)), s') /\
    file_rep s' d n (if decide (data = [] /\ (off <= length l)%nat) then l else array_write l off data) /\ same_but_node n s s'.
Proof.
  intros (e & b & sb & v & j & He & Ht & Hn & Hb & Hsb & Hv & Hsz & Hd) Hbd Hl. unfold ramfs_write.
  rewrite (bind_done _ _ _ _ _ (ramfs_node_done s d e n v He Hn Hv)), Hd.
  unfold of_option at 1. rewrite (bind_done _ _ s _ s eq_refl), u64_small, Hsz by lia.
  assert (forall l' k', exists s', (do! put_node n (FsNode (nd_delete v) (nd_references v) (nd_size v) (Z.of_nat (length l')) (Some (l' ++ replicate k' None)));
      ret (Num 0, Z.of_nat (length data))) s = Done ((Num 0, Z.of_nat (length data)), s') /\ file_rep s' d n l' /\ same_but_node n s s') as Hput.
  { intros l' k'. eexists. split; [reflexivity|]. split; [|by eexists].
    exists e, b, sb. do 2 eexists. simpl. rewrite lookup_insert_eq. done. }
  assert (forall bl, (off + length data <= length bl)%nat -> block_write bl (Z.of_nat off) data =
    Some (take off bl ++ map Some data ++ drop (off + length data) bl)) as Hbw.
  { intros bl Hle. unfold block_write. replace ((0 <=? Z.of_nat off) && _) with true
      by (symmetry; apply andb_true_intro; split; apply Z.leb_le; lia). by rewrite Nat2Z.id. }
  destruct (Z.gtb_spec (Z.of_nat off + Z.of_nat (length data)) (Z.of_nat (length l))) as [Hgt|Hle].
  - destruct (array_write_growing l off data j ltac:(lia)) as [Hlen Heq]. rewrite Nat2Z.inj_add in *.
    rewrite (Hbw _ Hlen), Heq. unfold of_option. rewrite (bind_done _ _ s _ s eq_refl).
    rewrite decide_False by (intros [-> ?]; simpl in *; lia).
    destruct (Hput (array_write l off data) (length (grow (l ++ replicate j None) (Z.of_nat off + Z.of_nat (length data))) - (off + length data))%nat) as (s' & Hs' & Hr).
    exists s'. split; [|done]. rewrite <- Hs'. rewrite length_array_write by (destruct data; simpl in *; lia).
    replace (Nat.max (length l) (off + length data)) with (off + length data)%nat by lia. by rewrite Nat2Z.inj_add.
  - rewrite Hbw by (rewrite length_app; lia). rewrite array_write_inside by lia.
    unfold of_option. rewrite (bind_done _ _ s _ s eq_refl).
    assert ((if decide (data = [] /\ (off <= length l)%nat) then l else array_write l off data) = array_write l off data) as ->.
    { case_decide as H; [|done]. destruct H as [-> ?]. unfold array_write, pad.
      replace (off - length l)%nat with 0%nat by lia. simpl. rewrite app_nil_r, Nat.add_0_r. by rewrite take_drop. }
    destruct (Hput (array_write l off data) j) as (s' & Hs' & Hr). exists s'. split; [|done]. rewrite <- Hs'.
    replace (Z.of_nat (length (array_write l off data))) with (Z.of_nat (length l)); [done|].
    unfold array_write, pad. rewrite !length_app, length_take, length_app, length_replicate, length_map, length_drop. lia.
Qed.

Definition rw : open_options := Options true true false.

Lemma file_step_rep s d n l off cur o : file_rep s d n l -> Z.of_nat off + op_size o < 2 ^ 63 -> Z.of_nat (length l) < 2 ^ 63 ->
  let '(r, (l', off')) := array_op (l, off) o in
  exists s', run_file_op (File d rw (Z.of_nat off) cur) o s = Done ((r, File d rw (Z.of_nat off') cur), s') /\
    file_rep s' d n l' /\ (s' = s \/ same_but_node n s s') /\
    Z.of_nat off' <= Z.of_nat off + op_size o /\ (length l' <= Nat.max (length l) off')%nat.
Proof.
  intros Hr Hb Hl. destruct (Hr) as (e & b & sb & v & j & He & Ht & Hn & Hsb & Hsup & _).
  assert (ops_of fs_ops d s = Done ((b, ramfs_superblock_ops), s)) as Hops.
  { unfold ops_of. rewrite (bind_done _ _ _ _ _ (get_dirent_done _ _ _ He)), Hsb, (bind_done _ _ s b s eq_refl).
    by rewrite (bind_done _ _ _ _ _ (get_super_done _ _ _ Hsup)). }
  destruct o as [k|data]; cbn [array_op op_size run_file_op] in *.
  - exists s. split; [|split; [done|split; [by left|rewrite length_take, length_drop; lia]]].
    unfold file_read. cbn [O_RD options rw negb f_dirent offset].
    rewrite bind_assoc, (bind_done _ _ _ _ _ (get_dirent_done _ _ _ He)), Ht.
    rewrite bind_assoc, (bind_done _ _ _ _ _ Hops), bind_assoc. cbn [op_read ramfs_superblock_ops of_option].
    rewrite (bind_done _ _ s _ s eq_refl), bind_assoc, (bind_done _ _ _ _ _ (ramfs_read_rep s d n l off k Hr Hb Hl)).
    rewrite bool_decide_true by done. unfold bind, ret. do 2 f_equal.
    pose proof (length_take_le (drop off l) k) as Hk. rewrite length_take, length_drop in *. unfold with_offset. simpl.
    rewrite s64_small by lia. rewrite u64_small by lia. by rewrite Nat2Z.inj_add.
  - destruct (ramfs_write_rep s d n l off data Hr ltac:(lia) Hl) as (s' & Hw & Hr' & Hs). exists s'.
    split; [|split; [done|split; [by right|split; [lia|]]]].
    + unfold file_write. cbn [O_WR options rw negb f_dirent offset].
      rewrite bind_assoc, (bind_done _ _ _ _ _ (get_dirent_done _ _ _ He)), Ht.
      rewrite bind_assoc, (bind_done _ _ _ _ _ Hops), bind_assoc. cbn [op_write ramfs_superblock_ops of_option].
      rewrite (bind_done _ _ s _ s eq_refl), bind_assoc, (bind_done _ _ _ _ _ Hw).
      rewrite bool_decide_true by done. unfold bind, ret, with_offset. simpl.
      rewrite s64_small by lia. rewrite u64_small by lia. by rewrite Nat2Z.inj_add.
    + case_decide as Hd; [lia|]. destruct data as [|c data].
      * destruct (decide (off <= length l)%nat); [tauto|]. rewrite length_array_write by (right; lia). lia.
      * rewrite length_array_write by (left; done). lia.
Qed.

Definition ops_size (os : list file_op) : Z := foldr (fun o n => op_size o + n) 0 os.

Lemma same_but_node_trans n s1 s2 s3 : s2 = s1 \/ same_but_node n s1 s2 -> s3 = s2 \/ same_but_node n s2 s3 ->
  s3 = s1 \/ same_but_node n s1 s3.
Proof.
  intros [->|[v ->]] [->|[w ->]]; [by left|right; by eexists|right; by eexists|].
  right. exists w. unfold set_nodes. simpl. by rewrite insert_insert_eq.
Qed.

Lemma op_size_nonneg os : 0 <= ops_size os.
Proof. induction os as [|[] os IH]; simpl; lia. Qed.

(** C27: An open ramfs file is a byte array with a cursor: every sequence of
    reads and writes through it returns what the array returns (reads stop at
    the end of the file; a write past the end extends the file, the gap holding
    indeterminate bytes; a write always succeeds in full), leaves the array's
    contents in the inode and the array's cursor in the file, and touches
    nothing but that inode. *)
Theorem ramfs_file_refines os : forall s d n l off cur,
  file_rep s d n l -> Z.of_nat off + ops_size os < 2 ^ 63 -> Z.of_nat (length l) < 2 ^ 63 ->
  let '(rs, (l', off')) := run_array (l, off) os in
  exists s', run_file (File d rw (Z.of_nat off) cur) os s = Done ((rs, File d rw (Z.of_nat off') cur), s') /\
    file_rep s' d n l' /\ (s' = s \/ same_but_node n s s').
Proof.
  induction os as [|o os IH]; intros s d n l off cur Hr Hb Hl; [exists s; auto|].
  cbn [ops_size foldr run_array run_file] in *. fold (ops_size os) in Hb. pose proof (op_size_nonneg os).
  pose proof (file_step_rep s d n l off cur o Hr ltac:(lia) Hl) as Hs.
  destruct (array_op (l, off) o) as [r [l1 off1]]. destruct Hs as (s1 & H1 & Hr1 & Hs1 & Ho1 & Hl1).
  specialize (IH s1 d n l1 off1 cur Hr1 ltac:(lia) ltac:(lia)).
  destruct (run_array (l1, off1) os) as [rs [l2 off2]]. destruct IH as (s2 & H2 & Hr2 & Hs2).
  exists s2. rewrite (bind_done _ _ _ _ _ H1), (bind_done _ _ _ _ _ H2).
  split; [done|]. split; [done|]. by eapply same_but_node_trans.
Qed.

Lemma demo_file_rep : file_rep demo_file_tree 6 4 [].
Proof. do 4 eexists. exists 1%nat. split_and!; reflexivity. Qed.

Lemma ramfs_file_refines_witness :
  exists s', run_file (File 6 rw 2 None) [FWrite [7; 8]; FRead 4; FWrite []] demo_file_tree =
      Done (([RWrite (Num 2); RRead (Num 0) []; RWrite (Num 0)], File 6 rw 4 None), s') /\
    file_rep s' 6 4 [None; None; Some 7; Some 8] /\ (s' = demo_file_tree \/ same_but_node 4 demo_file_tree s').
Proof.
  exact (ramfs_file_refines [FWrite [7; 8]; FRead 4; FWrite []] demo_file_tree 6 4 [] 2 None demo_file_rep
    ltac:(vm_compute; reflexivity) ltac:(vm_compute; reflexivity)).
Defined.

(** ** Descriptor tables *)

(** The directory entries the open files of a table refer to. *)
Definition slots (t : list (option fs_file_t)) : list Z := omap (fmap f_dirent) t.
Definition slot_of (o : option fs_file_t) : list Z := option_list (f_dirent <$> o).

Lemma slots_cons o t : slots (o :: t) = slot_of o ++ slots t.
Proof. by destruct o. Qed.
Lemma slots_insert t i o o' : t !! i = Some o' -> slots (<[i := o]> t) ++ slot_of o' ≡ₚ slots t ++ slot_of o.
Proof.
  revert i. induction t as [|x t IH]; intros [|i] H; simpl in H; simplify_eq.
  - change (<[0%nat:=o]> (o' :: t)) with (o :: t). rewrite !slots_cons. solve_Permutation.
  - change (<[S i:=o]> (x :: t)) with (x :: <[i:=o]> t). rewrite !slots_cons, <- !app_assoc. by rewrite (IH i H).
Qed.
Lemma slots_grow t k : slots (t ++ replicate k None) = slots t.
Proof. unfold slots. rewrite omap_app. assert (omap (fmap f_dirent) (replicate k (None : option fs_file_t)) = []) as -> by (by induction k). apply app_nil_r. Qed.

(** The first descriptor with no file, the table's length when it is full. *)
Definition free_fd (t : list (option fs_file_t)) : nat := default (length t) (find_index (fun o => bool_decide (o = None)) t).
Definition table_put (fd : nat) (f : fs_file_t) (t : list (option fs_file_t)) : list (option fs_file_t) :=
  <[fd := Some f]> (t ++ replicate (S fd - length t) None).

Lemma free_fd_spec t : free_fd t = length t \/ t !! free_fd t = Some None.
Proof.
  unfold free_fd. destruct (find_index _ t) as [i|] eqn:E; [|by left]. right.
  apply find_index_Some in E as (x & Hx & Hp & _). by apply bool_decide_eq_true in Hp as ->.
Qed.
Lemma free_fd_lowest t i : (i < free_fd t)%nat -> exists f, t !! i = Some (Some f).
Proof.
  unfold free_fd. intros Hi. destruct (find_index _ t) as [j|] eqn:E; simpl in Hi.
  - pose proof (find_index_Some_lt _ _ _ E). apply find_index_Some in E as (x & _ & _ & Hlow). destruct (t !! i) as [[f|]|] eqn:Ei; [by eexists| |].
    + specialize (Hlow i None Hi Ei). by rewrite bool_decide_true in Hlow.
    + apply lookup_ge_None in Ei. lia.
  - rewrite find_index_None in E. destruct (t !! i) as [[f|]|] eqn:Ei; [by eexists| |].
    + rewrite Forall_lookup in E. specialize (E i None Ei). by rewrite bool_decide_true in E.
    + apply lookup_ge_None in Ei. lia.
Qed.

Section table.
Context (heap_room : Z -> bool) (Hroom : forall n, heap_room n = true).

Lemma on_fs_done {A} (m : M fs A) p a s' : m (fsys p) = Done (a, s') ->
  on_fs m p = Done (a, Proc s' (files p) (working_dir p)).
Proof. intros H. unfold on_fs, zoom. by rewrite H. Qed.

Lemma grow_table_done s t w fd : (length t <= fd)%nat -> Z.of_nat fd < 2 ^ 60 ->
  grow_table heap_room (Z.of_nat fd) (Proc s t w) = Done (tt, Proc s (t ++ replicate (S fd - length t) None) w).
Proof.
  intros Hl Hb. unfold grow_table, get. unfold bind at 1. rewrite (u64_small (_ + 1)) by lia.
  rewrite u64_small by lia. rewrite (proj2 (Z.eqb_neq _ 0)) by lia. rewrite Hroom. simpl negb. cbv iota.
  rewrite (proj2 (Z.leb_gt _ _)) by lia. unfold set_files, modify. simpl. do 5 f_equal. lia.
Qed.

Lemma set_slot_done s t w fd o : (fd < length t)%nat ->
  set_slot (Z.of_nat fd) o (Proc s t w) = Done (tt, Proc s (<[fd := o]> t) w).
Proof.
  intros H. unfold set_slot, get, capacity. unfold bind. simpl.
  replace ((0 <=? Z.of_nat fd) && _) with true by (symmetry; apply andb_true_intro; split; [apply Z.leb_le|apply Z.ltb_lt]; lia).
  unfold set_files, modify. simpl. by rewrite Nat2Z.id.
Qed.

Lemma slot_done s t w fd o : t !! fd = Some o -> slot (Z.of_nat fd) (Proc s t w) = Done (o, Proc s t w).
Proof.
  intros H. unfold slot, get. unfold bind. rewrite (proj2 (Z.leb_le 0 _)) by lia. simpl. by rewrite Nat2Z.id, H.
Qed.

(** The array after the growth both [file_table_set] and [file_table_add] do. *)
Lemma grown_length (t : list (option fs_file_t)) fd : (fd < length (t ++ replicate (S fd - length t) None))%nat.
Proof. rewrite length_app, length_replicate. lia. Qed.

Lemma file_table_add_done s t w f : Z.of_nat (length t) < 2 ^ 60 ->
  file_table_add heap_room f (Proc s t w) = Done (Z.of_nat (free_fd t), Proc s (table_put (free_fd t) f t) w).
Proof.
  intros Hb. unfold file_table_add. unfold get at 1, bind at 1. simpl files. fold (free_fd t). cbv zeta.
  unfold table_put, capacity. pose proof (free_fd_spec t) as Hf.
  destruct (Z.geb_spec (Z.of_nat (free_fd t)) (Z.of_nat (length t))) as [Hge|Hlt].
  - destruct Hf as [Hf|Hf]; [|apply lookup_lt_Some in Hf; lia].
    rewrite (bind_done _ _ _ _ _ (grow_table_done s t w (free_fd t) ltac:(lia) ltac:(lia))).
    rewrite (bind_done _ _ _ _ _ (set_slot_done s _ w (free_fd t) (Some f) (grown_length t _))). done.
  - rewrite (bind_done _ _ _ tt _ eq_refl).
    rewrite (bind_done _ _ _ _ _ (set_slot_done s t w (free_fd t) (Some f) ltac:(lia))).
    replace (S (free_fd t) - length t)%nat with 0%nat by lia. simpl. by rewrite app_nil_r.
Qed.

Lemma slots_add t f : slots (table_put (free_fd t) f t) ≡ₚ f_dirent f :: slots t.
Proof.
  pose proof (grown_length t (free_fd t)) as Hl. apply lookup_lt_is_Some_2 in Hl as [o Ho].
  pose proof (slots_insert _ _ (Some f) o Ho) as Hp. fold (table_put (free_fd t) f t) in Hp. rewrite slots_grow in Hp.
  assert (o = None) as ->.
  { destruct (free_fd_spec t) as [E|E].
    - rewrite lookup_app_r, E, Nat.sub_diag in Ho by lia. apply lookup_replicate in Ho as [-> _]. done.
    - pose proof (lookup_lt_Some _ _ _ E). rewrite lookup_app_l, E in Ho by done. by injection Ho. }
  simpl in Hp. rewrite app_nil_r in Hp. rewrite Hp. by rewrite Permutation_app_comm.
Qed.

(** Directory entries keep their type. *)
Definition types_kept (s s' : fs) : Prop :=
  forall d e, dirents s !! d = Some e -> exists e', dirents s' !! d = Some e' /\ type e' = type e.

Lemma types_kept_refl s : types_kept s s.
Proof. intros d e He. eauto. Qed.
Lemma types_kept_trans s1 s2 s3 : types_kept s1 s2 -> types_kept s2 s3 -> types_kept s1 s3.
Proof. intros H1 H2 d e He. destruct (H1 d e He) as (e1 & He1 & <-). by apply H2. Qed.
Lemma types_kept_hold d s : types_kept s (hold d s).
Proof. intros x e He. destruct (hold_dirent d x s e He) as (n & Hn & _). by eexists. Qed.
Lemma types_kept_unhold d s : types_kept s (unhold d s).
Proof.
  intros x e He. simpl. destruct (decide (x = d)) as [->|].
  - rewrite lookup_alter_eq, He. by eexists.
  - rewrite lookup_alter_ne by done. eauto.
Qed.
Lemma types_kept_made d e name t s : ids_below s -> dirents s !! d = Some e -> types_kept s (made d e name t s).
Proof.
  intros Hi He x e0 Hx. rewrite (made_old d e name t s x e0 Hi He Hx). eexists. split; [done|].
  case_decide; [|done]. subst x. by assert (e0 = e) as -> by congruence.
Qed.

(** Giving up slot [fd]: the table keeps everything else. *)
Lemma slots_put t fd f o : (t ++ replicate (S fd - length t) None) !! fd = Some o ->
  slots (table_put fd f t) ++ slot_of o ≡ₚ f_dirent f :: slots t.
Proof.
  intros Ho. pose proof (slots_insert _ _ (Some f) o Ho) as Hp. fold (table_put fd f t) in Hp.
  rewrite slots_grow in Hp. rewrite Hp. by rewrite Permutation_app_comm.
Qed.

Lemma free_fd_le (t : list (option fs_file_t)) : (free_fd t <= length t)%nat.
Proof. destruct (free_fd_spec t) as [->|H%lookup_lt_Some]; lia. Qed.

Lemma length_table_put t fd f : length (table_put fd f t) = Nat.max (length t) (S fd).
Proof. unfold table_put. rewrite length_insert, length_app, length_replicate. lia. Qed.

Lemma file_table_set_done b s t w fd f lk : Z.of_nat fd < 2 ^ 60 ->
  tree_inv b s (f_dirent f :: slots t ++ lk) ->
  exists s', file_table_set fs_ops heap_room (Z.of_nat fd) f (Proc s t w) = Done (tt, Proc s' (table_put fd f t) w) /\
    tree_inv b s' (slots (table_put fd f t) ++ lk) /\
    load s' (slots (table_put fd f t) ++ lk) <= load s (f_dirent f :: slots t ++ lk) /\ types_kept s s'.
Proof.
  intros Hb Hi. set (t1 := t ++ replicate (S fd - length t) None).
  assert ((if u64 (Z.of_nat fd) >=? capacity t then grow_table heap_room (Z.of_nat fd) else ret tt) (Proc s t w)
    = Done (tt, Proc s t1 w)) as Hg.
  { unfold capacity. rewrite u64_small by lia. destruct (Z.geb_spec (Z.of_nat fd) (Z.of_nat (length t))).
    - apply grow_table_done; lia.
    - unfold t1. replace (S fd - length t)%nat with 0%nat by lia. simpl. by rewrite app_nil_r. }
  destruct (lookup_lt_is_Some_2 t1 fd (grown_length t fd)) as [o Ho].
  unfold file_table_set, get. unfold bind at 1. simpl files.
  rewrite (bind_done _ _ _ _ _ Hg), (bind_done _ _ _ _ _ (slot_done s t1 w fd o Ho)).
  pose proof (slots_put t fd f o Ho) as Hp.
  destruct o as [old|]; simpl in Hp.
  - assert (f_dirent f :: slots t ++ lk ≡ₚ f_dirent old :: slots (table_put fd f t) ++ lk) as Hpp.
    { rewrite app_comm_cons, <- Hp. solve_Permutation. }
    apply (tree_perm _ _ _ _ Hpp) in Hi. destruct (tree_release b s (f_dirent old) _ Hi) as (s' & Hrel & Hi' & Hld & Es').
    exists s'. rewrite (bind_done _ _ _ _ _ (on_fs_done _ (Proc s t1 w) tt s' Hrel)). cbn [files working_dir].
    rewrite (set_slot_done s' t1 w fd (Some f) (grown_length t fd)).
    split; [done|]. split; [done|]. apply Permutation_length in Hpp. split; [unfold load in *; lia|].
    subst s'. apply types_kept_unhold.
  - exists s. rewrite (bind_done _ _ _ tt _ eq_refl), (set_slot_done s t1 w fd (Some f) (grown_length t fd)).
    rewrite app_nil_r in Hp. split; [done|]. split.
    + eapply tree_perm; [|exact Hi]. rewrite app_comm_cons. by rewrite Hp.
    + apply Permutation_length in Hp. split; [|apply types_kept_refl]. unfold load. rewrite app_comm_cons, !length_app. lia.
Qed.

(** *** Sessions *)

(** Descriptor numbers a process passes in are arbitrary integers for [close]
    and the source of [dup]; the destination of a [dup] is a table index. *)
Inductive file_request :=
  | OpenFile (seg : list Z) (tails : list (list Z)) (o : open_options)
  | CreateFile (name : list Z) (o : open_options)
  | CloseFile (fd : Z)
  | DupFile (dst : nat) (src : Z).

Definition file_call (r : file_request) : M proc code :=
  match r with
  | OpenFile seg tails o => syscall_open fs_ops heap_room (Some (path_mem seg tails [])) (Options (O_RD o) (O_WR o) false)
  | CreateFile name o => syscall_open fs_ops heap_room (Some (path_mem name [] [])) (Options (O_RD o) (O_WR o) true)
  | CloseFile fd => syscall_close fs_ops fd
  | DupFile dst src => syscall_dup fs_ops heap_room (Z.of_nat dst) src
  end.
Fixpoint file_calls (rs : list file_request) : M proc (list code) :=
  match rs with
  | [] => ret []
  | r :: rs' => let! c := file_call r in let! cs := file_calls rs' in ret (c :: cs)
  end.

Definition wf_file_request (r : file_request) : Prop :=
  match r with
  | OpenFile seg tails _ => seg <> [] /\ Forall plain seg /\ Forall scannable tails
  | CreateFile name _ => name <> [] /\ Forall plain name
  | CloseFile fd => - 2 ^ 63 <= fd < 2 ^ 63
  | DupFile dst src => Z.of_nat dst < 2 ^ 20 /\ - 2 ^ 63 <= src < 2 ^ 63
  end.

(** A call that took a reference it did not store. *)
Definition leaks (c : code) : bool := bool_decide (c = Err ERROR_IS_DIR).

Lemma lookup_fd_done s t w fd :
  lookup_fd fd (Proc s t w) =
    if u64 fd >=? capacity t then Done (None, Proc s t w)
    else slot fd (Proc s t w).
Proof. unfold lookup_fd, get, bind. simpl. by destruct (_ >=? _). Qed.

(** A descriptor below the capacity, as an index. *)
Lemma lookup_fd_cases s t w fd : Z.of_nat (length t) < 2 ^ 62 -> - 2 ^ 63 <= fd < 2 ^ 63 ->
  lookup_fd fd (Proc s t w) = Done (None, Proc s t w) \/
  exists i f, fd = Z.of_nat i /\ t !! i = Some (Some f) /\ lookup_fd fd (Proc s t w) = Done (Some f, Proc s t w).
Proof.
  intros Hb Hfd. rewrite lookup_fd_done. unfold capacity. destruct (Z.geb_spec (u64 fd) (Z.of_nat (length t))) as [H|H]; [by left|].
  assert (0 <= fd) as H0.
  { destruct (decide (0 <= fd)); [done|]. unfold u64 in H.
    replace (fd mod 2 ^ 64) with (fd + 2 ^ 64) in H; [lia|]. apply (Z.mod_unique fd (2 ^ 64) (-1)); lia. }
  rewrite u64_small in H by lia. destruct (lookup_lt_is_Some_2 t (Z.to_nat fd) ltac:(lia)) as [[f|] Hf].
  - right. exists (Z.to_nat fd), f. split_and!; [lia|done|].
    rewrite <- (Z2Nat.id fd) at 1 by lia. by apply slot_done.
  - left. rewrite <- (Z2Nat.id fd) by lia. by apply slot_done.
Qed.

(** Making a one-segment path in a directory where the name does not resolve. *)
Lemma make_path_single b s hs d name rest ty : tree_inv b s hs -> load s hs < 2 ^ 61 -> is_Some (dirents s !! d) ->
  Forall plain name -> walk s d [name] = None -> ty <> FS_DEVICE ->
  exists c s', fs_make_path fs_ops d (path_mem name [] rest) ty s = Done (Some c, s') /\
    tree_inv b s' (c :: hs) /\ load s' (c :: hs) <= load s hs + 2 /\ types_kept s s' /\
    walk s' d [name] = Some c /\ exists ce, dirents s' !! c = Some ce /\ type ce = ty.
Proof.
  intros Hi Hl [e He] Hpl Hw Hty. assert (resident s) as Hr by (eapply tree_resident; [done|unfold load in Hl; lia]).
  pose proof (res_refs s Hr d e He).
  assert (lookup_entry (enodes s) name (entries e) = None) as Hnone.
  { cbn [walk] in Hw. unfold walk_step in Hw. destruct (is_dot name); [done|]. destruct (is_dotdot name); [done|].
    unfold child in Hw. rewrite He in Hw. simpl in Hw. destruct (lookup_entry _ _ _) as [n|] eqn:El; [|done].
    apply lookup_entry_Some in El as [Hin _]. destruct (res_entry s Hr d e n He Hin) as (c & nm & Hen & _).
    simpl in Hw. by rewrite Hen in Hw. }
  apply (tree_hold b s hs d (ex_intro _ e He)) in Hi.
  destruct (hold_dirent d d s e He) as (k & Hk & _).
  destruct (tree_make b (hold d s) (d :: hs) d name ty _ Hi ltac:(rewrite load_hold; lia) Hk Hnone Hty)
    as (c & s1 & Hm & Hi1 & Hl1 & Hs1 & Hc1).
  assert (c :: d :: hs ≡ₚ d :: c :: hs) as Hp by apply Permutation_swap.
  apply (tree_perm _ _ _ _ Hp) in Hi1. destruct (tree_release b s1 d (c :: hs) Hi1) as (s2 & Hrel & Hi2 & Hl2 & Hs2).
  exists c, s2. split; [|split; [done|split; [|split; [|split]]]].
  - unfold fs_make_path, path_mem. rewrite (bind_done _ _ _ _ _ (add_reference_hold _ _ _ He ltac:(lia) ltac:(lia))).
    cbn [slashed app]. replace (S (length (name ++ 0 :: rest))) with (length name + S (S (length rest)))%nat
      by (rewrite length_app; simpl; lia).
    rewrite make_path_scan by (intros i Hi'; apply (plain_segment [] name (0 :: rest) 0%nat); [simpl; lia|done|simpl; lia]).
    cbn [make_path_loop Nat.add]. rewrite lookup_app_r, Nat.sub_diag by lia. cbn [lookup list_lookup of_option].
    rewrite (bind_done _ _ _ _ _ eq_refl). change ((0 =? SLASH) || (0 =? 0)) with true. change (0 =? 0) with true. cbv iota zeta.
    assert (segment (name ++ 0 :: rest) 0 (length name) = name) as ->.
    { pose proof (segment_at [] name (0 :: rest)) as Hs. simpl in Hs. by rewrite Hs, cstr_plain. }
    by rewrite (bind_done _ _ _ _ _ Hm), (bind_done _ _ _ _ _ Hrel).
  - rewrite load_hold in Hl1. unfold load in *. simpl length in *. lia.
  - subst s2 s1. eapply types_kept_trans; [apply (types_kept_hold d)|]. eapply types_kept_trans; [|apply types_kept_unhold].
    apply types_kept_made; [apply Hi|done].
  - subst s2 s1. cbn [walk] in Hw |- *. unfold walk_step in *. destruct (is_dot name); [done|]. destruct (is_dotdot name); [done|].
    unfold child. assert (d <> c) as Hdc by (intros ->; pose proof (ib_dirent _ (ti_ids _ _ _ Hi) c ltac:(by eexists)); lia). subst c.
    cbn [unhold made set_dirents dirents enodes]. rewrite lookup_alter_eq, lookup_insert_ne by done. rewrite lookup_insert_eq. cbn.
    rewrite lookup_insert_eq. cbn. rewrite decide_True by done. cbn. by rewrite lookup_insert_eq.
  - subst s2 s1. assert (d <> c) as Hdc by (intros ->; pose proof (ib_dirent _ (ti_ids _ _ _ Hi) c ltac:(by eexists)); lia). subst c.
    eexists. cbn [unhold made set_dirents dirents]. rewrite lookup_alter_ne by done. rewrite lookup_insert_eq. done.
Qed.

Lemma lookup_first seg tails rest : seg <> [] -> Forall plain seg ->
  exists c, path_mem seg tails rest !! 0%nat = Some c /\ (c =? SLASH) = false.
Proof.
  destruct seg as [|c seg]; [done|]. intros _ [[_ H] _]%Forall_cons. exists c. split; [done|]. by apply Z.eqb_neq.
Qed.

(** A file open for writing is not a directory. *)
Definition file_ok (s : fs) (o : option fs_file_t) : Prop :=
  match o with
  | Some f => O_WR (options f) = true -> exists e, dirents s !! f_dirent f = Some e /\ type e <> FS_DIRECTORY
  | None => True
  end.
Lemma file_ok_kept s s' o : types_kept s s' -> file_ok s o -> file_ok s' o.
Proof.
  destruct o as [f|]; [|done]. simpl. intros Hk Hf Hw. destruct (Hf Hw) as (e & He & Ht).
  destruct (Hk _ e He) as (e' & He' & Ht'). exists e'. split; [done|congruence].
Qed.
Lemma files_ok_put s t fd f : Forall (file_ok s) t -> file_ok s (Some f) -> Forall (file_ok s) (table_put fd f t).
Proof.
  intros Ht Hf. unfold table_put. apply Forall_insert; [|done]. apply Forall_app. split; [done|]. by apply Forall_replicate.
Qed.

Lemma file_init_done s d e o : dirents s !! d = Some e ->
  exists r, file_init d o s = Done (r, s) /\
    ((r = inl (Err ERROR_IS_DIR) /\ O_WR o = true /\ type e = FS_DIRECTORY) \/
     exists n, r = inr (File d o 0 n) /\ file_ok s (Some (File d o 0 n))).
Proof.
  intros He. unfold file_init. rewrite (bind_done _ _ _ _ _ (get_dirent_done _ _ _ He)).
  case_bool_decide as Ht; destruct (O_WR o) eqn:Ew; simpl; (eexists; split; [reflexivity|]); [by left|right..];
    (eexists; split; [reflexivity|]); simpl; intros; try congruence. eauto.
Qed.

(** What a call keeps: the books, with [lk] the references that calls lost. *)
Record proc_inv (s : fs) (t : list (option fs_file_t)) (lk : list Z) : Prop := ProcInv {
  pi_tree : tree_inv 2 s (slots t ++ lk);
  pi_files : Forall (file_ok s) t
}.
Definition proc_load (s : fs) (t : list (option fs_file_t)) (lk : list Z) : Z := load s (slots t ++ lk).

(** The call returns, keeps the books, and leaks a reference only together
    with the error that says so. *)
Definition keeps (m : M proc code) (s : fs) (t : list (option fs_file_t)) (lk : list Z) (grow : Z) : Prop :=
  exists c s' t' lk', m (Proc s t fs_root) = Done (c, Proc s' t' fs_root) /\ proc_inv s' t' lk' /\
    Z.of_nat (length lk') = Z.of_nat (length lk) + (if leaks c then 1 else 0) /\
    proc_load s' t' lk' <= proc_load s t lk + grow /\ Z.of_nat (length t') <= Z.max (Z.of_nat (length t) + 1) (2 ^ 20).

(** Installing a node that the caller holds. *)
Lemma file_table_open_done s t d o lk : tree_inv 2 s (d :: slots t ++ lk) -> Forall (file_ok s) t ->
  Z.of_nat (length t) < 2 ^ 60 -> keeps (file_table_open heap_room d o) s t lk 1.
Proof.
  intros Hi Hf Hb. destruct (ti_handle _ _ _ Hi d ltac:(by left)) as [e He]. unfold keeps, proc_load.
  destruct (file_init_done s d e o He) as (r & Hr & Hcases). unfold file_table_open.
  rewrite (bind_done _ _ _ _ _ (on_fs_done _ (Proc s t fs_root) r s Hr)). cbn [files working_dir].
  destruct Hcases as [(-> & _)|(n & -> & Hok)].
  - exists (Err ERROR_IS_DIR), s, t, (d :: lk). split; [done|].
    assert (d :: slots t ++ lk ≡ₚ slots t ++ d :: lk) as Hp by apply Permutation_middle.
    split; [split; [by eapply tree_perm|done]|]. split; [simpl; lia|]. apply Permutation_length in Hp.
    unfold load. simpl in *. lia.
  - rewrite (bind_done _ _ _ _ _ (file_table_add_done s t fs_root (File d o 0 n) Hb)).
    pose proof (slots_add t (File d o 0 n)) as Hp. simpl in Hp.
    exists (Num (Z.of_nat (free_fd t))), s. eexists. exists lk. split; [reflexivity|]. split; [split|].
    + eapply tree_perm; [|exact Hi]. rewrite app_comm_cons. by rewrite Hp.
    + by apply files_ok_put.
    + split; [simpl; lia|]. apply Permutation_length in Hp. rewrite length_table_put.
      pose proof (free_fd_le t). unfold load. rewrite !length_app. simpl in *. lia.
Qed.

Lemma open_call s t lk name tails o creat : proc_inv s t lk -> proc_load s t lk < 2 ^ 60 -> Z.of_nat (length t) < 2 ^ 59 ->
  name <> [] -> Forall plain name -> Forall scannable tails -> (creat = true -> tails = []) ->
  keeps (syscall_open fs_ops heap_room (Some (path_mem name tails [])) (Options (O_RD o) (O_WR o) creat)) s t lk 3.
Proof.
  intros [Hi Hf] Hl Ht Hne Hpl Htl Hcr. unfold keeps, proc_load in *.
  assert (resident s) as Hr by (eapply tree_resident; [done|unfold load in Hl; lia]).
  pose proof (ti_root _ _ _ Hi) as Hroot. destruct (lookup_first name tails [] Hne Hpl) as (c0 & Hc0 & Hns).
  unfold syscall_open, open_node, get. rewrite bind_assoc. unfold bind at 1. cbn [working_dir].
  rewrite bind_assoc.
  assert (process_open_path fs_ops fs_root (path_mem name tails []) s =
    Done (walk s fs_root (map cstr (name :: tails)), match walk s fs_root (map cstr (name :: tails)) with Some d => hold d s | None => s end)) as Hopen.
  { unfold process_open_path. rewrite Hc0. unfold of_option. rewrite (bind_done _ _ s c0 s eq_refl), Hns.
    by apply open_path_mem_walks. }
  rewrite (bind_done _ _ _ _ _ (on_fs_done _ (Proc s t fs_root) _ _ Hopen)). cbn [files working_dir O_CREAT].
  destruct (walk s fs_root (map cstr (name :: tails))) as [d|] eqn:Ew.
  - pose proof (walk_live s _ Hr _ _ Hroot Ew) as Hd. rewrite bind_ret_l.
    destruct (file_table_open_done (hold d s) t d (Options (O_RD o) (O_WR o) creat) lk) as (c & s' & t' & lk' & Hop & Hi' & Hlk & Hlen & Hlt).
    + by apply tree_hold.
    + eapply Forall_impl; [exact Hf|]. intros x. apply file_ok_kept, types_kept_hold.
    + lia.
    + exists c, s', t', lk'. split; [done|]. split; [done|]. split; [done|]. split; [|done].
      pose proof (load_hold d s (slots t ++ lk)) as Hld. unfold proc_load, load in *. simpl length in Hld. lia.
  - destruct creat.
    + rewrite (Hcr eq_refl) in *. simpl map in Ew. rewrite cstr_plain in Ew by done.
      destruct (make_path_single 2 s (slots t ++ lk) fs_root name [] FS_REGULAR Hi ltac:(lia) Hroot Hpl Ew ltac:(done))
        as (d & s' & Hm & Hi' & Hl' & Hk & _).
      assert (process_make_path fs_ops fs_root (path_mem name [] []) FS_REGULAR s = Done (Some d, s')) as Hmk.
      { unfold process_make_path. rewrite Hc0. unfold of_option. by rewrite (bind_done _ _ s c0 s eq_refl), Hns. }
      rewrite (bind_done _ _ _ _ _ (on_fs_done _ (Proc s t fs_root) _ _ Hmk)). cbn [files working_dir].
      destruct (file_table_open_done s' t d (Options (O_RD o) (O_WR o) true) lk Hi') as (c & s2 & t' & lk' & Hop & Hi'' & Hlk & Hlen & Hlt).
      * eapply Forall_impl; [exact Hf|]. intros x. by apply file_ok_kept.
      * lia.
      * exists c, s2, t', lk'. split; [done|]. split; [done|]. split; [done|]. split; [|done].
        unfold proc_load, load in *. simpl length in *. lia.
    + exists (NegErr ENOENT), s, t, lk. split; [done|]. split; [done|]. split; [simpl; lia|]. split; lia.
Qed.

Lemma close_call s t lk fd : proc_inv s t lk -> Z.of_nat (length t) < 2 ^ 59 -> - 2 ^ 63 <= fd < 2 ^ 63 ->
  keeps (file_call (CloseFile fd)) s t lk 3.
Proof.
  intros [Hi Hok] Ht Hfd. unfold keeps, proc_load, file_call, syscall_close, file_table_close in *.
  destruct (lookup_fd_cases s t fs_root fd ltac:(lia) Hfd) as [Hl|(i & f & -> & Hf & Hl)]; rewrite (bind_done _ _ _ _ _ Hl).
  - exists (NegErr EBADFD), s, t, lk. split; [done|]. split; [done|]. split; [simpl; lia|]. split; lia.
  - pose proof (slots_insert t i None (Some f) Hf) as Hp. simpl in Hp. rewrite app_nil_r in Hp.
    assert (slots t ++ lk ≡ₚ f_dirent f :: slots (<[i:=None]> t) ++ lk) as Hpp by (rewrite <- Hp; solve_Permutation).
    apply (tree_perm _ _ _ _ Hpp) in Hi. destruct (tree_release 2 s (f_dirent f) _ Hi) as (s' & Hrel & Hi' & Hld & ->).
    rewrite (bind_done _ _ _ _ _ (on_fs_done _ (Proc s t fs_root) tt _ Hrel)). cbn [files working_dir].
    rewrite (bind_done _ _ _ _ _ (set_slot_done _ t fs_root i None ltac:(by eapply lookup_lt_Some))).
    exists (Num 0), (unhold (f_dirent f) s), (<[i:=None]> t), lk. split; [done|]. split; [split; [done|]|split; [simpl; lia|]].
    + apply Forall_insert; [|done]. eapply Forall_impl; [exact Hok|]. intros x. apply file_ok_kept, types_kept_unhold.
    + rewrite length_insert. apply Permutation_length in Hpp. unfold load in *. split; lia.
Qed.

Lemma dup_call s t lk dst src : proc_inv s t lk -> proc_load s t lk < 2 ^ 60 -> Z.of_nat (length t) < 2 ^ 59 ->
  Z.of_nat dst < 2 ^ 20 -> - 2 ^ 63 <= src < 2 ^ 63 -> keeps (file_call (DupFile dst src)) s t lk 3.
Proof.
  intros [Hi Hok] Hload Ht Hdst Hsrc. unfold keeps, proc_load, file_call, syscall_dup, file_table_dup in *.
  assert (resident s) as Hr by (eapply tree_resident; [done|unfold load in Hload; lia]).
  destruct (lookup_fd_cases s t fs_root src ltac:(lia) Hsrc) as [Hl|(i & f & -> & Hf & Hl)]; rewrite (bind_done _ _ _ _ _ Hl).
  { exists (NegErr EBADF), s, t, lk. split; [done|]. split; [done|]. split; [simpl; lia|]. split; lia. }
  pose proof (slots_insert t i None (Some f) Hf) as Hp. simpl in Hp. rewrite app_nil_r in Hp.
  assert (f_dirent f ∈ slots t ++ lk) as Hin by (rewrite <- Hp; set_solver).
  destruct (ti_handle _ _ _ Hi _ Hin) as [e He]. pose proof (res_refs s Hr _ e He).
  rewrite (bind_done _ _ _ _ _ (on_fs_done _ (Proc s t fs_root) tt _ (add_reference_hold _ s e He ltac:(lia) ltac:(lia)))). cbn [files working_dir].
  destruct (hold_dirent (f_dirent f) (f_dirent f) s e He) as (k & Hk & _).
  destruct (file_init_done (hold (f_dirent f) s) _ _ (options f) Hk) as (r & Hr' & Hcases).
  rewrite (bind_done _ _ _ _ _ (on_fs_done _ (Proc (hold (f_dirent f) s) t fs_root) r _ Hr')). cbn [files working_dir].
  rewrite Forall_lookup in Hok. pose proof (Hok i _ Hf) as Hfok. rewrite <- Forall_lookup in Hok.
  destruct Hcases as [(-> & Hw & Hty)|(n & -> & Hok')].
  { exfalso. destruct (Hfok Hw) as (e' & He' & Hne). simpl in Hty. congruence. }
  apply (tree_hold 2 s _ (f_dirent f) (ex_intro _ e He)) in Hi.
  destruct (file_table_set_done 2 (hold (f_dirent f) s) t fs_root dst (File (f_dirent f) (options f) 0 n) lk ltac:(lia) Hi)
    as (s' & Hset & Hi' & Hld & Hk').
  rewrite (bind_done _ _ _ _ _ Hset). exists (Num 0), s'. eexists. exists lk. split; [reflexivity|].
  split; [split; [done|]|split; [simpl; lia|]].
  - apply files_ok_put; [|by eapply file_ok_kept].
    eapply Forall_impl; [exact Hok|]. intros x. apply file_ok_kept. eapply types_kept_trans; [apply types_kept_hold|done].
  - rewrite length_table_put. pose proof (load_hold (f_dirent f) s (slots t ++ lk)) as Hlh.
    split; [unfold load in *; simpl length in *; lia|]. lia.
Qed.

Lemma file_call_keeps s t lk r : proc_inv s t lk -> proc_load s t lk < 2 ^ 60 -> Z.of_nat (length t) < 2 ^ 59 ->
  wf_file_request r -> keeps (file_call r) s t lk 3.
Proof.
  intros Hi Hl Ht Hr. destruct r as [seg tails o|name o|fd|dst src]; simpl in Hr.
  - destruct Hr as (? & ? & ?). by apply open_call.
  - destruct Hr as (? & ?). by apply open_call.
  - by apply close_call.
  - destruct Hr as (? & ?). by apply dup_call.
Qed.

Definition leak_count (cs : list code) : Z := Z.of_nat (length (filter (fun c => leaks c = true) cs)).

Lemma file_calls_keep rs : forall s t lk, proc_inv s t lk -> Forall wf_file_request rs ->
  proc_load s t lk + 3 * Z.of_nat (length rs) < 2 ^ 60 ->
  Z.max (Z.of_nat (length t)) (2 ^ 20) + Z.of_nat (length rs) < 2 ^ 59 ->
  exists cs s' t' lk', file_calls rs (Proc s t fs_root) = Done (cs, Proc s' t' fs_root) /\ proc_inv s' t' lk' /\
    Z.of_nat (length lk') = Z.of_nat (length lk) + leak_count cs.
Proof.
  induction rs as [|r rs IH]; intros s t lk Hi Hwf Hl Ht.
  { exists [], s, t, lk. split; [done|]. split; [done|]. unfold leak_count. simpl. lia. }
  apply Forall_cons in Hwf as [Hr Hrs]. cbn [length] in *.
  destruct (file_call_keeps s t lk r Hi ltac:(lia) ltac:(lia) Hr) as (c & s1 & t1 & lk1 & H1 & Hi1 & Hlk1 & Hl1 & Ht1).
  destruct (IH s1 t1 lk1 Hi1 Hrs ltac:(lia) ltac:(lia)) as (cs & s2 & t2 & lk2 & H2 & Hi2 & Hlk2).
  exists (c :: cs), s2, t2, lk2. cbn [file_calls]. rewrite (bind_done _ _ _ _ _ H1), (bind_done _ _ _ _ _ H2).
  split; [done|]. split; [done|]. unfold leak_count in *. rewrite filter_cons. rewrite Hlk2, Hlk1.
  destruct (leaks c); [rewrite decide_True by done; simpl; lia|rewrite decide_False by done; lia].
Qed.
End table.

(** A process on a freshly booted ramfs, its working directory the root. *)
Definition fresh_proc : proc := Proc booted file_table_init fs_root.

Lemma fresh_proc_inv : proc_inv booted file_table_init [].
Proof. split; [exact booted_inv|]. repeat constructor. Qed.


Definition demo_requests : list file_request :=
  [CreateFile [102] rw; OpenFile [102] [] rw; DupFile 5 0; OpenFile [DOT] [] rw; CloseFile (-1); CloseFile 0].

Lemma demo_requests_wf : Forall wf_file_request demo_requests.
Proof. repeat constructor; unfold SLASH, DOT; done. Qed.


Lemma demo_requests_run :
  match file_calls (fun _ => true) demo_requests fresh_proc with
  | Done (cs, p) => cs = [Num 0; Num 1; Num 0; Err ERROR_IS_DIR; NegErr EBADFD; Num 0] /\
      map (fmap f_dirent) (files p) = [None; Some 6; None; None; None; Some 6]
  | Stop _ => False
  end.
Proof. vm_compute. done. Qed.

(** Installing a file that is not a directory. *)
Lemma file_table_open_put heap_room s (t : list (option fs_file_t)) w d o e :
  (forall n, heap_room n = true) -> Z.of_nat (length t) < 2 ^ 60 -> dirents s !! d = Some e -> type e <> FS_DIRECTORY ->
  file_table_open heap_room d o (Proc s t w) = Done (Num (Z.of_nat (free_fd t)), Proc s (table_put (free_fd t) (File d o 0 None) t) w).
Proof.
  intros Hroom Hl He Ht. unfold file_table_open.
  assert (file_init d o s = Done (inr (File d o 0 None), s)) as Hin.
  { unfold file_init. rewrite (bind_done _ _ _ _ _ (get_dirent_done _ _ _ He)). by rewrite (bool_decide_false _ Ht). }
  rewrite (bind_done _ _ _ _ _ (on_fs_done _ (Proc s t w) _ _ Hin)).
  by rewrite (bind_done _ _ _ _ _ (file_table_add_done heap_room Hroom s t w (File d o 0 None) Hl)).
Qed.

(** Opening hands out the lowest free descriptor, which then names the new
    file, positioned at 0, and no other descriptor changes. *)
Theorem open_lowest_descriptor heap_room s (t : list (option fs_file_t)) w d o e :
  (forall n, heap_room n = true) -> Z.of_nat (length t) < 2 ^ 60 -> dirents s !! d = Some e ->
  type e <> FS_DIRECTORY ->
  exists fd (t' : list (option fs_file_t)), file_table_open heap_room d o (Proc s t w) = Done (Num (Z.of_nat fd), Proc s t' w) /\
    t' !! fd = Some (Some (File d o 0 None)) /\
    (forall i, (i < fd)%nat -> exists f, t !! i = Some (Some f)) /\
    (t !! fd = Some None \/ t !! fd = None) /\
    (forall i, i <> fd -> t' !! i = t !! i).
Proof.
  intros Hroom Hl He Ht.
  exists (free_fd t), (table_put (free_fd t) (File d o 0 None) t).
  split; [by eapply file_table_open_put|].
  pose proof (free_fd_le t) as Hle. pose proof (grown_length t (free_fd t)) as Hg.
  split; [by apply list_lookup_insert_eq|]. split; [apply free_fd_lowest|]. split.
  - destruct (free_fd_spec t) as [E|E]; [right; apply lookup_ge_None; lia|by left].
  - intros i Hi. unfold table_put. rewrite list_lookup_insert_ne by done.
    destruct (decide (i < length t)%nat); [by rewrite lookup_app_l|].
    rewrite lookup_app_r, (lookup_ge_None_2 t) by lia. apply lookup_ge_None_2.
    rewrite length_replicate. destruct (free_fd_spec t) as [E|E%lookup_lt_Some]; lia.
Qed.

Lemma open_lowest_descriptor_witness :
  exists fd (t' : list (option fs_file_t)), file_table_open (fun _ => true) 6 rw (Proc demo_file_tree [None; None] fs_root)
      = Done (Num (Z.of_nat fd), Proc demo_file_tree t' fs_root) /\
    t' !! fd = Some (Some (File 6 rw 0 None)) /\
    (forall i, (i < fd)%nat -> exists f, ([None; None] : list (option fs_file_t)) !! i = Some (Some f)) /\
    (([None; None] : list (option fs_file_t)) !! fd = Some None \/ ([None; None] : list (option fs_file_t)) !! fd = None) /\
    (forall i, i <> fd -> t' !! i = ([None; None] : list (option fs_file_t)) !! i).
Proof.
  refine (open_lowest_descriptor (fun _ => true) demo_file_tree [None; None] fs_root 6 rw
    (Dirent (Some fs_root) (Some 5) 2 (Some 2) FS_REGULAR (Some 4) None None None None []) (fun _ => eq_refl) _ _ _);
    first [reflexivity | done].
Defined.

(** An entry with one reference, no parent and no inode cannot be closed. *)
Lemma close_anonymous s (t : list (option fs_file_t)) w i f e : t !! i = Some (Some f) -> Z.of_nat (length t) < 2 ^ 62 ->
  dirents s !! f_dirent f = Some e -> references e = 1 -> parent e = None -> node e = None ->
  syscall_close fs_ops (Z.of_nat i) (Proc s t w) = Stop Undefined.
Proof.
  intros Hi Hl He Hr Hp Hn. unfold syscall_close, file_table_close.
  pose proof (lookup_lt_Some _ _ _ Hi) as Hlt.
  assert (lookup_fd (Z.of_nat i) (Proc s t w) = Done (Some f, Proc s t w)) as Hlk.
  { rewrite lookup_fd_done. unfold capacity. rewrite u64_small by lia.
    destruct (Z.geb_spec (Z.of_nat i) (Z.of_nat (length t))); [lia|]. by apply slot_done. }
  rewrite (bind_done _ _ _ _ _ Hlk). apply bind_stop. unfold on_fs, zoom. simpl fsys. unfold file_close, fs_directory_entry_release.
  cbn [release_fuel]. rewrite (bind_done _ _ _ _ _ (get_dirent_done _ _ _ He)), Hr. change (1 =? 0) with false. cbv iota.
  rewrite (bind_done _ _ _ _ _ (upd_dirent_done _ _ _ _ He)). change (1 - 1 =? 0) with true. cbv iota. rewrite Hp, bind_ret_l.
  set (s1 := set_dirents _ s).
  assert (dirents s1 !! f_dirent f = Some (with_references (1 - 1) e)) as He1 by (simpl; apply lookup_insert_eq).
  assert (fs_node_release fs_ops (f_dirent f) s1 = Stop Undefined) as Hs.
  { unfold fs_node_release. rewrite (bind_done _ _ _ _ _ (get_dirent_done _ _ _ He1)).
    replace (node (with_references (1 - 1) e)) with (None : option Z) by (by rewrite <- Hn; destruct e). done. }
  by rewrite (bind_stop _ _ _ _ Hs).
Qed.

(** Neither end of a pipe can be closed.  The two files [syscall_pipe]
    installs share a directory entry with one reference and no inode, so
    closing either descriptor releases the entry for good and reads through its
    NULL inode. *)
Theorem pipe_close_dereferences_null heap_room s (t : list (option fs_file_t)) w page :
  (forall n, heap_room n = true) -> Z.of_nat (length t) < 2 ^ 58 ->
  exists i j p, syscall_pipe heap_room true page (Proc s t w) = Done ((Num 0, Some (Num (Z.of_nat i), Num (Z.of_nat j))), p) /\
    i <> j /\ syscall_close fs_ops (Z.of_nat i) p = Stop Undefined /\ syscall_close fs_ops (Z.of_nat j) p = Stop Undefined.
Proof.
  intros Hroom Hl. set (d := next_id s). set (e := Dirent None None 1 None FS_PIPE None None (Some (d + 1)) None None []).
  assert (exists s1, fs_make_anon_pipe page s = Done (d, s1) /\ dirents s1 !! d = Some e) as (s1 & Hmk & He).
  { eexists. split.
    - unfold fs_make_anon_pipe, fs_directory_entry_create, fresh_id, upd_dirent, get_dirent, modify, bind, get, put, ret.
      simpl. rewrite lookup_insert_eq. simpl. rewrite lookup_insert_eq. reflexivity.
    - simpl. apply lookup_insert_eq. }
  set (f1 := File d (Options false true false) 0 None). set (f2 := File d (Options true false false) 0 None).
  set (t1 := table_put (free_fd t) f1 t). set (t2 := table_put (free_fd t1) f2 t1).
  assert (length t1 <= S (length t))%nat as Hl1 by (unfold t1; rewrite length_table_put; pose proof (free_fd_le t); lia).
  assert (length t2 <= S (S (length t)))%nat as Hl2 by (unfold t2; rewrite length_table_put; pose proof (free_fd_le t1); lia).
  assert (t1 !! free_fd t = Some (Some f1)) as Hf1 by (apply list_lookup_insert_eq, grown_length).
  assert (t2 !! free_fd t1 = Some (Some f2)) as Hf2 by (apply list_lookup_insert_eq, grown_length).
  assert (free_fd t <> free_fd t1) as Hne.
  { intros E. rewrite E in Hf1. destruct (free_fd_spec t1) as [H|H]; [apply lookup_lt_Some in Hf1; lia|congruence]. }
  exists (free_fd t), (free_fd t1), (Proc s1 t2 w). split; [|split; [done|]].
  - unfold syscall_pipe. cbn [negb]. rewrite (bind_done _ _ _ _ _ (on_fs_done _ (Proc s t w) d s1 Hmk)). cbn [files working_dir].
    rewrite (bind_done _ _ _ _ _ (file_table_open_put heap_room s1 t w d (Options false true false) e Hroom ltac:(lia) He ltac:(done))).
    by rewrite (bind_done _ _ _ _ _ (file_table_open_put heap_room s1 t1 w d (Options true false false) e Hroom ltac:(lia) He ltac:(done))).
  - split; [apply (close_anonymous s1 t2 w _ f1 e)|apply (close_anonymous s1 t2 w _ f2 e)]; try done; try lia.
    unfold t2, table_put. rewrite list_lookup_insert_ne by done. apply lookup_app_l_Some, Hf1.
Qed.

Lemma pipe_close_dereferences_null_witness :
  exists i j p, syscall_pipe (fun _ => true) true (replicate 8 0) (Proc booted [None] fs_root)
      = Done ((Num 0, Some (Num (Z.of_nat i), Num (Z.of_nat j))), p) /\
    i <> j /\ syscall_close fs_ops (Z.of_nat i) p = Stop Undefined /\ syscall_close fs_ops (Z.of_nat j) p = Stop Undefined.
Proof.
  exact (pipe_close_dereferences_null (fun _ => true) booted [None] fs_root (replicate 8 0) (fun _ => eq_refl)
    ltac:(vm_compute; reflexivity)).
Defined.
