(* ===== verification/Socket.v ===== *)
(** * Socket: sockets in the file system (src/filesystem/socket.c and the
      socket system calls of src/syscall/handlers/)

    A [socket_t] is found through the directory entry of an open file or of a
    path; it stands for a unix socket.  The state is that of a process' file
    calls (File.v), the [socket_t] objects, and the unix sockets next to their
    events.  Other domains have no operation.  A call that is suspended in
    [accept] starts again from the check of the queue when it is resumed; one
    suspended in [connect] returns 0. *)
From S2P Require Import Prelude Dll Sched Wait UnixSocket Pipe Fs FsPath RamfsTree File FileProofs.

Inductive socket_domain_t := SOCKET_UNIX | SOCKET_OTHER.
#[export] Instance socket_domain_eq_dec : EqDecision socket_domain_t.
Proof. solve_decision. Defined.

Record socket_t := Socket { domain : socket_domain_t; sk_type : Z; protocol : Z; unix_socket : Z }.

Section socket.
Context {W : Type} `{!EventService W}.
Context (ops : Z -> fs_superblock_ops_t) (heap_room : Z -> bool).

Record net_state := Net { net_proc : proc; net_sockets : gmap Z socket_t; net_unix : waiting sockets W }.
Definition on_proc {A} (m : M proc A) : M net_state A := zoom net_proc (fun p s => Net p (net_sockets s) (net_unix s)) m.
Definition on_unix {A} (m : M (waiting sockets W) A) : M net_state A := zoom net_unix (fun u s => Net (net_proc s) (net_sockets s) u) m.
Definition get_sock (k : Z) : M net_state socket_t := fun s => of_option Undefined (net_sockets s !! k) s.
Definition put_sock (k : Z) (v : socket_t) : M net_state unit :=
  modify (fun s => Net (net_proc s) (<[k := v]> (net_sockets s)) (net_unix s)).

(** [k], [u] and [e1 .. e3]: the addresses of the two objects and the events. *)
Definition socket_init (k u e1 e2 e3 : Z) (d : socket_domain_t) (type protocol : Z) : M net_state unit :=
  do! match d with
      | SOCKET_UNIX => on_unix (unix_socket_init u e1 e2 e3)
      | SOCKET_OTHER => ret tt
      end;
  put_sock k (Socket d type protocol u).

Definition socket_free (k : Z) : M net_state unit :=
  modify (fun s => Net (net_proc s) (delete k (net_sockets s)) (net_unix s)).

(** [sockaddr->path[sockaddr_len - 1] != '\0']; reading outside the memory
    that [path] stands for has no meaning. *)
Definition terminated (path : list Z) (len : Z) : M net_state bool :=
  let! c := (if 0 <? len then of_option Undefined (path !! Z.to_nat (len - 1)) else stop_with Undefined) in
  ret (c =? 0).

Definition open_here (path : list Z) : M net_state (option Z) :=
  on_proc (let! p := get in on_fs (process_open_path ops (working_dir p) path)).
Definition make_here (path : list Z) (t : fs_file_type_t) : M net_state (option Z) :=
  on_proc (let! p := get in on_fs (process_make_path ops (working_dir p) path t)).

Definition socket_connect (k : Z) (path : list Z) (len : Z) : M net_state (waited code) :=
  let! s := get_sock k in
  match domain s with
  | SOCKET_UNIX =>
      let! ok := terminated path len in
      if negb ok then ret (Ready (NegErr EINVAL))
      else
        let! d := open_here path in
        match d with
        | None => ret (Ready (NegErr ENOENT))
        | Some d =>
            let! e := on_proc (on_fs (get_dirent d)) in
            if negb (bool_decide (type e = FS_SOCKET)) then ret (Ready (NegErr ENOTSOCK))
            else
              let! j := of_option Undefined (socket e) in
              let! t := get_sock j in
              on_unix (unix_socket_connect (unix_socket s) (unix_socket t))
        end
  | SOCKET_OTHER => ret (Ready (NegErr ENOTSUP))
  end.

Definition socket_bind (k : Z) (path : list Z) (len : Z) : M net_state code :=
  let! s := get_sock k in
  match domain s with
  | SOCKET_UNIX =>
      let! ok := terminated path len in
      if negb ok then ret (NegErr EINVAL)
      else
        let! d := open_here path in
        match d with
        | Some d => do! on_proc (on_fs (fs_directory_entry_release ops d)); ret (NegErr EEXIST)
        | None =>
            let! m := make_here path FS_SOCKET in
            match m with
            | None => ret (NegErr ENOENT)
            | Some d => do! on_proc (on_fs (upd_dirent d (with_socket (Some k)))); ret (Num 0)
            end
        end
  | SOCKET_OTHER => ret (NegErr ENOTSUP)
  end.

Definition socket_listen (k size : Z) : M net_state code :=
  let! s := get_sock k in
  match domain s with
  | SOCKET_UNIX => do! on_unix (unix_socket_listen (unix_socket s) size); ret (Num 0)
  | SOCKET_OTHER => ret (NegErr ENOTSUP)
  end.

(** [nk], [n] and [e1 .. e3]: the addresses of the new objects and events. *)
Definition socket_accept (k nk n e1 e2 e3 : Z) : M net_state (waited (code * option Z)) :=
  let! s := get_sock k in
  match domain s with
  | SOCKET_UNIX =>
      let! r := on_unix (unix_socket_accept (unix_socket s) n e1 e2 e3) in
      match r with
      | Blocked => ret Blocked
      | Ready (c, o) =>
          if negb (bool_decide (c = Num 0)) then ret (Ready (c, None))
          else
            let! u := of_option Undefined o in
            do! put_sock nk (Socket (domain s) (sk_type s) (protocol s) u);
            ret (Ready (Num 0, Some nk))
      end
  | SOCKET_OTHER => ret (Ready (NegErr ENOTSUP, None))
  end.

Definition socket_read (k size : Z) : M net_state (waited (code * option (list Z))) :=
  let! s := get_sock k in
  match domain s with
  | SOCKET_UNIX => on_unix (unix_socket_read (unix_socket s) size)
  | SOCKET_OTHER => ret (Ready (Err ERROR_UNIMPLEMENTED, None))
  end.
Definition socket_write (k : Z) (data : list Z) : M net_state (code * option Z) :=
  let! s := get_sock k in
  match domain s with
  | SOCKET_UNIX => on_unix (unix_socket_write heap_room (unix_socket s) data)
  | SOCKET_OTHER => ret (Err ERROR_UNIMPLEMENTED, None)
  end.

(** ** System calls *)

(** The socket of an open file, or the error of the call. *)
Definition fd_socket (fd : Z) : M net_state (code + Z) :=
  let! file := on_proc (file_table_get fd) in
  match file with
  | None => ret (inl (NegErr EBADF))
  | Some f =>
      let! e := on_proc (on_fs (get_dirent (f_dirent f))) in
      if negb (bool_decide (type e = FS_SOCKET)) then ret (inl (NegErr ENOTSOCK))
      else let! k := of_option Undefined (socket e) in ret (inr k)
  end.

Definition RDWR : open_options := Options true true false.

Definition syscall_socket (k u e1 e2 e3 : Z) (d : socket_domain_t) (type protocol : Z) : M net_state code :=
  do! socket_init k u e1 e2 e3 d type protocol;
  let! dirent := on_proc (on_fs (fs_make_anon_socket k)) in
  on_proc (file_table_open heap_room dirent RDWR).

(** [sockaddr]: [None] is a pointer the process does not map.  [bind] does not
    test for it, and reads through it. *)
Definition syscall_bind (fd : Z) (sockaddr : option (list Z)) (len : Z) : M net_state code :=
  let! r := fd_socket fd in
  match r with
  | inl c => ret c
  | inr k =>
      match sockaddr with
      | Some path => socket_bind k path len
      | None =>
          let! s := get_sock k in
          match domain s with SOCKET_UNIX => stop_with Undefined | SOCKET_OTHER => ret (NegErr ENOTSUP) end
      end
  end.

Definition syscall_connect (fd : Z) (sockaddr : option (list Z)) (len : Z) : M net_state (waited code) :=
  match sockaddr with
  | None => ret (Ready (NegErr EFAULT))
  | Some path =>
      let! r := fd_socket fd in
      match r with
      | inl c => ret (Ready c)
      | inr k => socket_connect k path len
      end
  end.

Definition syscall_listen (fd size : Z) : M net_state code :=
  let! r := fd_socket fd in
  match r with inl c => ret c | inr k => socket_listen k size end.

Definition syscall_accept (fd nk n e1 e2 e3 : Z) : M net_state (waited code) :=
  let! r := fd_socket fd in
  match r with
  | inl c => ret (Ready c)
  | inr k =>
      let! a := socket_accept k nk n e1 e2 e3 in
      match a with
      | Blocked => ret Blocked
      | Ready (c, o) =>
          if negb (bool_decide (c = Num 0)) then ret (Ready c)
          else
            let! j := of_option Undefined o in
            let! dirent := on_proc (on_fs (fs_make_anon FS_SOCKET)) in
            do! on_proc (on_fs (upd_dirent dirent (with_socket (Some j))));
            let! fd := on_proc (file_table_open heap_room dirent RDWR) in
            ret (Ready fd)
      end
  end.
End socket.

(** ** A name in the file system leads to its socket *)

(** States that differ in what path resolution does not read. *)
Definition same_tree (s s' : fs) : Prop :=
  enodes s' = enodes s /\ forall d, match dirents s !! d, dirents s' !! d with
  | Some e, Some e' => parent e' = parent e /\ entries e' = entries e /\ references e' = references e
  | None, None => True
  | _, _ => False
  end.

Lemma same_tree_dirent s s' d e' : same_tree s s' -> dirents s' !! d = Some e' ->
  exists e, dirents s !! d = Some e /\ parent e' = parent e /\ entries e' = entries e /\ references e' = references e.
Proof. intros [_ H] He'. specialize (H d). rewrite He' in H. destruct (dirents s !! d) as [e|]; [|done]. by exists e. Qed.
Lemma same_tree_live s s' d : same_tree s s' -> is_Some (dirents s !! d) -> is_Some (dirents s' !! d).
Proof. intros [_ H] [e He]. specialize (H d). rewrite He in H. destruct (dirents s' !! d); [by eexists|done]. Qed.

Lemma same_tree_resident s s' : same_tree s s' -> resident s -> resident s'.
Proof.
  intros Hs Hr. split.
  - intros d e' He'. destruct (same_tree_dirent s s' d e' Hs He') as (e & He & _ & _ & ->). by apply (res_refs s Hr d).
  - intros d e' p He' Hp. destruct (same_tree_dirent s s' d e' Hs He') as (e & He & Ep & _). apply (same_tree_live s s' p Hs).
    apply (res_parent s Hr d e); [done|congruence].
  - intros d e' n He' Hn. destruct (same_tree_dirent s s' d e' Hs He') as (e & He & _ & Ee & _). rewrite Ee in Hn.
    destruct (res_entry s Hr d e n He Hn) as (c & nm & Hen & Hc). exists c, nm. rewrite (proj1 Hs). split; [done|]. by apply (same_tree_live s s').
Qed.

Lemma same_tree_walk s s' segs : same_tree s s' -> forall d, walk s' d segs = walk s d segs.
Proof.
  intros Hs. induction segs as [|seg segs IH]; intros d; [done|]. cbn [walk].
  assert (walk_step s' d seg = walk_step s d seg) as ->; [|by destruct (walk_step s d seg)].
  unfold walk_step, child. rewrite (proj1 Hs). pose proof (proj2 Hs d) as Hd. repeat case_match; try done; cbn.
  - by destruct Hd as (-> & _).
  - by destruct Hd as (_ & -> & _).
Qed.

Lemma same_tree_socket s c k e : dirents s !! c = Some e -> same_tree s (set_dirents <[c := with_socket k e]> s).
Proof.
  intros He. split; [done|]. intros d. cbn. destruct (decide (d = c)) as [->|Hne]; [by rewrite lookup_insert_eq, He|].
  rewrite lookup_insert_ne by done. by destruct (dirents s !! d).
Qed.

Section bind_connect.
Context {W : Type} `{!EventService W}.
Implicit Types (ns : gmap Z socket_t) (un : waiting sockets W).

Lemma terminated_path name rest (s : @net_state W) :
  terminated (path_mem name [] rest) (Z.of_nat (length name) + 1) s = Done (true, s).
Proof.
  unfold terminated. rewrite (proj2 (Z.ltb_lt _ _)) by lia. replace (Z.to_nat (Z.of_nat (length name) + 1 - 1)) with (length name) by lia.
  unfold path_mem. cbn [slashed app]. rewrite lookup_app_r, Nat.sub_diag by lia. done.
Qed.

Lemma open_here_done path s t d ns un o s' : process_open_path fs_ops d path s = Done (o, s') ->
  open_here fs_ops path (Net (Proc s t d) ns un) = Done (o, Net (Proc s' t d) ns un).
Proof. intros E. unfold open_here, on_proc, zoom, bind, get, on_fs, zoom. cbn. by rewrite E. Qed.

(** Binding a socket to a name makes the name lead to it.  [bind] to a
    free name succeeds and changes only the file system; from then on [connect]
    to the name, from any process with the same working directory and whatever
    happened to the sockets in between, is [unix_socket_connect] to the bound
    socket, and another [bind] to the name is refused with EEXIST and changes
    nothing.  [connect] keeps a reference to the name's directory entry. *)
Theorem bind_then_connect b s hs t d name ns un ks kc server client
  (Hi : tree_inv b s hs) (Hl : load s hs < 2 ^ 60) (Hd : is_Some (dirents s !! d)) (Hne : name <> []) (Hpl : Forall plain name)
  (Hw : walk s d [name] = None) (Hks : ns !! ks = Some server) (Hkc : ns !! kc = Some client)
  (Hds : domain server = SOCKET_UNIX) (Hdc : domain client = SOCKET_UNIX) :
  let path := path_mem name [] [] in let len := Z.of_nat (length name) + 1 in
  exists c s', socket_bind fs_ops ks path len (Net (Proc s t d) ns un) = Done (Num 0, Net (Proc s' t d) ns un) /\
    (forall t' un', socket_connect fs_ops kc path len (Net (Proc s' t' d) ns un') =
       on_unix (unix_socket_connect (unix_socket client) (unix_socket server)) (Net (Proc (hold c s') t' d) ns un')) /\
    (forall t' un', socket_bind fs_ops kc path len (Net (Proc s' t' d) ns un') = Done (NegErr EEXIST, Net (Proc s' t' d) ns un')).
Proof.
  intros path len. assert (resident s) as Hr by (eapply tree_resident; [done|unfold load in Hl; lia]).
  destruct (lookup_first name [] [] Hne Hpl) as (c0 & Hc0 & Hns).
  assert (forall s0, resident s0 -> is_Some (dirents s0 !! d) -> process_open_path fs_ops d path s0 =
    Done (walk s0 d [name], match walk s0 d [name] with Some x => hold x s0 | None => s0 end)) as Hopen.
  { intros s0 Hr0 Hd0. unfold process_open_path, path. rewrite Hc0. unfold of_option. rewrite (bind_done _ _ s0 c0 s0 eq_refl), Hns.
    rewrite (open_path_mem_walks fs_ops s0 d name [] [] Hr0 Hd0 Hpl ltac:(constructor)). cbn [map]. by rewrite cstr_plain. }
  destruct (make_path_single b s hs d name [] FS_SOCKET Hi ltac:(lia) Hd Hpl Hw ltac:(done)) as (c & s1 & Hm & Hi1 & Hl1 & _ & Hw1 & ce & Hce & Hty).
  set (s2 := set_dirents <[c := with_socket (Some ks) ce]> s1). exists c, s2.
  assert (same_tree s1 s2) as Hs by by apply same_tree_socket.
  assert (resident s2) as Hr2. { apply (same_tree_resident s1 s2 Hs). eapply tree_resident; [done|unfold load in *; cbn [length] in *; lia]. }
  assert (is_Some (dirents s2 !! d)) as Hd2.
  { apply (same_tree_live s1 s2 d Hs). cbn [walk] in Hw1. unfold walk_step in Hw1.
    destruct (dirents s1 !! d) eqn:E; [by eexists|]. exfalso. unfold child in Hw1. rewrite E in Hw1.
    destruct (is_dot name) eqn:E1; [|destruct (is_dotdot name) eqn:E2; [|done]].
    - cbn in Hw. unfold walk_step in Hw. by rewrite E1 in Hw.
    - cbn in Hw. unfold walk_step in Hw. by rewrite E1, E2 in Hw. }
  assert (walk s2 d [name] = Some c) as Hw2 by (by rewrite (same_tree_walk s1 s2)).
  assert (dirents s2 !! c = Some (with_socket (Some ks) ce)) as Hc2 by (cbn; apply lookup_insert_eq).
  pose proof (Hopen s Hr Hd) as Ho. rewrite Hw in Ho. pose proof (Hopen s2 Hr2 Hd2) as Ho2. rewrite Hw2 in Ho2.
  destruct (hold_dirent c c s2 _ Hc2) as (n & Hn & _).
  assert (forall k v p, ns !! k = Some v -> get_sock k (@Net W p ns un) = Done (v, Net p ns un)) as Hg0 by (intros k v p Hk; unfold get_sock; cbn; by rewrite Hk).
  split; [|split].
  - unfold socket_bind. rewrite (bind_done _ _ _ _ _ (Hg0 ks server _ Hks)), Hds, (bind_done _ _ _ _ _ (terminated_path name [] _)). cbn [negb].
    rewrite (bind_done _ _ _ _ _ (open_here_done _ _ _ _ _ _ _ _ Ho)).
    assert (make_here fs_ops path FS_SOCKET (Net (Proc s t d) ns un) = Done (Some c, Net (Proc s1 t d) ns un)) as Hmk.
    { unfold make_here, on_proc, zoom, bind, get, on_fs, zoom. cbn. unfold process_make_path, path. rewrite Hc0. unfold of_option.
      rewrite (bind_done _ _ s c0 s eq_refl), Hns. by rewrite Hm. }
    rewrite (bind_done _ _ _ _ _ Hmk). unfold on_proc, on_fs, zoom, bind. cbn. by rewrite (upd_dirent_done c _ s1 ce Hce).
  - intros t' un'. unfold socket_connect. assert (get_sock kc (@Net W (Proc s2 t' d) ns un') = Done (client, Net (Proc s2 t' d) ns un')) as Hg by (unfold get_sock; cbn; by rewrite Hkc).
    rewrite (bind_done _ _ _ _ _ Hg), Hdc, (bind_done _ _ _ _ _ (terminated_path name [] _)). cbn [negb].
    rewrite (bind_done _ _ _ _ _ (open_here_done _ _ _ _ _ _ _ _ Ho2)).
    assert (on_proc (on_fs (get_dirent c)) (@Net W (Proc (hold c s2) t' d) ns un') = Done (with_references n (with_socket (Some ks) ce), Net (Proc (hold c s2) t' d) ns un')) as Hg2.
    { unfold on_proc, on_fs, zoom. cbn [net_proc fsys]. by rewrite (get_dirent_done _ _ _ Hn). }
    rewrite (bind_done _ _ _ _ _ Hg2). cbn [type with_references with_socket socket]. rewrite Hty. cbn [bool_decide negb].
    rewrite bool_decide_true by done. cbn [negb]. rewrite (bind_done (of_option Undefined (Some ks)) _ _ ks _ eq_refl).
    assert (get_sock ks (@Net W (Proc (hold c s2) t' d) ns un') = Done (server, Net (Proc (hold c s2) t' d) ns un')) as Hg3 by (unfold get_sock; cbn; by rewrite Hks).
    by rewrite (bind_done _ _ _ _ _ Hg3).
  - intros t' un'. unfold socket_bind. assert (get_sock kc (@Net W (Proc s2 t' d) ns un') = Done (client, Net (Proc s2 t' d) ns un')) as Hg by (unfold get_sock; cbn; by rewrite Hkc).
    rewrite (bind_done _ _ _ _ _ Hg), Hdc, (bind_done _ _ _ _ _ (terminated_path name [] _)). cbn [negb].
    rewrite (bind_done _ _ _ _ _ (open_here_done _ _ _ _ _ _ _ _ Ho2)).
    pose proof (res_refs s2 Hr2 c _ Hc2) as Hrefs.
    assert (on_proc (on_fs (fs_directory_entry_release fs_ops c)) (@Net W (Proc (hold c s2) t' d) ns un') = Done (tt, Net (Proc s2 t' d) ns un')) as Hrel.
    { unfold on_proc, on_fs, zoom. cbn [net_proc fsys]. rewrite (release_hold fs_ops c s2 _ Hc2) by lia. done. }
    by rewrite (bind_done _ _ _ _ _ Hrel).
Qed.
End bind_connect.

(** ** A run: the name "s" in the root directory *)

Definition demo_socket_objects : gmap Z socket_t := {[ 21 := Socket SOCKET_UNIX 1 0 1; 22 := Socket SOCKET_UNIX 1 0 2 ]}.

Lemma bind_then_connect_witness : exists c s',
  socket_bind fs_ops 21 [115; 0] 2 (Net (Proc demo_tree [] fs_root) demo_socket_objects (Waiting demo_sockets demo_flags)) =
    Done (Num 0, Net (Proc s' [] fs_root) demo_socket_objects (Waiting demo_sockets demo_flags)) /\
  socket_connect (EventService0 := flag_events) fs_ops 22 [115; 0] 2 (Net (Proc s' [] fs_root) demo_socket_objects (Waiting demo_sockets demo_flags)) =
    on_unix (unix_socket_connect (EventService0 := flag_events) 2 1) (Net (Proc (hold c s') [] fs_root) demo_socket_objects (Waiting demo_sockets demo_flags)).
Proof.
  destruct (bind_then_connect (EventService0 := flag_events) 2 demo_tree [6] [] fs_root [115] demo_socket_objects (Waiting demo_sockets demo_flags)
    21 22 (Socket SOCKET_UNIX 1 0 1) (Socket SOCKET_UNIX 1 0 2) demo_tree_inv ltac:(vm_compute; reflexivity) ltac:(vm_compute; by eexists) ltac:(discriminate)
    ltac:(repeat constructor; discriminate) ltac:(vm_compute; reflexivity) ltac:(reflexivity) ltac:(reflexivity) ltac:(reflexivity) ltac:(reflexivity))
    as (c & s' & E & H & _).
  exists c, s'. split; [exact E|]. exact (H [] (Waiting demo_sockets demo_flags)).
Defined.
