(* ===== verification/TransMap.v ===== *)
(** * TransMap: physical-to-virtual translation of page tables
    (src/paging/translation_map.c)

    A hash table from the physical address of a page table to the virtual
    address it can be edited at: 256 buckets, each a chain of pages of 254
    entries.  The chain of a bucket is the list of its pages, first page first.
    The pages live in a window whose own page tables are edited through a
    temporary mapping: a write to entry [i] of the table at physical address
    [t] is [tm_window !! (t, i)].  Page frames come from the Bitmap component;
    when it has none left it returns 0, and two tables on frame 0 have no
    meaning. *)
From S2P Require Import Prelude Bitmap.

Definition PAGING_TMAP_BUCKETS : Z := 256.
(** (4096 - 8 - 8 - 4) / 16 *)
Definition PAGING_TMAP_PAGE_ENTRIES : nat := 254.

Abbreviation paging_tmap_entry_t := (Z * Z)%type.   (* paddr, vaddr *)
Record paging_tmap_page_t := TmapPage { tp_at : Z; tp_paddr : Z; tp_entries : list (Z * Z) }.

Record paging_tmap_t := Tmap {
  root_entries : list (list paging_tmap_page_t);
  next_page_ptr : Z;
  tmap_pdt_paddr : Z; tmap_pt_paddr : Z;
  tm_window : gmap (Z * Z) Z;
  tm_pdpt : gmap Z Z;
  tm_bitmap : bitmap
}.

Definition table_index (shift vaddr : Z) : Z := Z.land (Z.shiftr vaddr shift) 0x1FF.

Definition tmap_hash_function (paddr : Z) : Z := Z.shiftr paddr 12 mod PAGING_TMAP_BUCKETS.

(** [bitmap_reserve]; the frame is cleared through the temporary mapping. *)
Definition tm_reserve : M paging_tmap_t Z := fun t =>
  match bitmap_reserve (tm_bitmap t) with
  | Done (p, b) =>
      if p =? 0 then Stop Undefined
      else Done (p, Tmap (root_entries t) (next_page_ptr t) (tmap_pdt_paddr t) (tmap_pt_paddr t) (tm_window t) (tm_pdpt t) b)
  | Stop w => Stop w
  end.
Definition set_window (k : Z * Z) (p : Z) : M paging_tmap_t unit := modify (fun t =>
  Tmap (root_entries t) (next_page_ptr t) (tmap_pdt_paddr t) (tmap_pt_paddr t) (<[k := p]> (tm_window t)) (tm_pdpt t) (tm_bitmap t)).
Definition set_tm_pdpt (i p : Z) : M paging_tmap_t unit := modify (fun t =>
  Tmap (root_entries t) (next_page_ptr t) (tmap_pdt_paddr t) (tmap_pt_paddr t) (tm_window t) (<[i := p]> (tm_pdpt t)) (tm_bitmap t)).
Definition set_next_page (v : Z) : M paging_tmap_t unit := modify (fun t =>
  Tmap (root_entries t) v (tmap_pdt_paddr t) (tmap_pt_paddr t) (tm_window t) (tm_pdpt t) (tm_bitmap t)).
Definition set_tables (pdt pt : Z) : M paging_tmap_t unit := modify (fun t =>
  Tmap (root_entries t) (next_page_ptr t) pdt pt (tm_window t) (tm_pdpt t) (tm_bitmap t)).
Definition set_bucket (i : Z) (l : list paging_tmap_page_t) : M paging_tmap_t unit := modify (fun t =>
  Tmap (<[Z.to_nat i := l]> (root_entries t)) (next_page_ptr t) (tmap_pdt_paddr t) (tmap_pt_paddr t) (tm_window t) (tm_pdpt t) (tm_bitmap t)).

Definition add_tmap_page : M paging_tmap_t paging_tmap_page_t :=
  let! tmap_page_paddr := tm_reserve in
  let! t := get in
  let at_ := next_page_ptr t in
  let pt_index := table_index 12 at_ in
  do! set_window (tmap_pt_paddr t, pt_index) tmap_page_paddr;
  do! set_next_page (u64 (at_ + PAGE_SIZE));
  do! (if pt_index =? 511 then
         let! pt := tm_reserve in
         do! set_tables (tmap_pdt_paddr t) pt;
         let pdt_index := table_index 21 (u64 (at_ + PAGE_SIZE)) in
         do! set_window (tmap_pdt_paddr t, pdt_index) pt;
         if pdt_index =? 511 then
           let! pdt := tm_reserve in
           do! set_tables pdt pt;
           set_tm_pdpt (table_index 30 (u64 (at_ + PAGE_SIZE))) pdt
         else ret tt
       else ret tt);
  ret (TmapPage at_ tmap_page_paddr []).

(** [paging_tmap_init] from the state the image boots with, [window] being
    [PAGING_TMAP_VADDR]. *)
Definition paging_tmap_init (window : Z) : M paging_tmap_t unit :=
  let! pdt := tm_reserve in
  let! pt := tm_reserve in
  do! set_tables pdt pt;
  do! set_window (pdt, table_index 21 window) pt;
  do! set_tm_pdpt (table_index 30 window) pdt;
  for_range (Z.to_nat PAGING_TMAP_BUCKETS)
    (fun i => let! p := add_tmap_page in set_bucket (Z.of_nat i) [p]).

Definition get_bucket (paddr : Z) : M paging_tmap_t (list paging_tmap_page_t) := fun t =>
  of_option Undefined (root_entries t !! Z.to_nat (tmap_hash_function paddr)) t.

(** Add to the first page that is not full. *)
Fixpoint add_to_chain (e : paging_tmap_entry_t) (l : list paging_tmap_page_t) : option (list paging_tmap_page_t) :=
  match l with
  | [] => None
  | p :: l' =>
      if bool_decide (length (tp_entries p) = PAGING_TMAP_PAGE_ENTRIES)
      then cons p <$> add_to_chain e l'
      else Some (TmapPage (tp_at p) (tp_paddr p) (tp_entries p ++ [e]) :: l')
  end.

Definition paging_tmap_map (paddr vaddr : Z) : M paging_tmap_t unit :=
  let! l := get_bucket paddr in
  match add_to_chain (paddr, vaddr) l with
  | Some l' => set_bucket (tmap_hash_function paddr) l'
  | None =>
      let! p := add_tmap_page in
      set_bucket (tmap_hash_function paddr) (TmapPage (tp_at p) (tp_paddr p) (tp_entries p ++ [(paddr, vaddr)]) :: l)
  end.

Definition has_paddr (paddr : Z) (e : paging_tmap_entry_t) : bool := e.1 =? paddr.

Fixpoint remove_from_chain (paddr : Z) (l : list paging_tmap_page_t) : option (list paging_tmap_page_t) :=
  match l with
  | [] => None
  | p :: l' =>
      match find_index (has_paddr paddr) (tp_entries p) with
      | Some i => Some (TmapPage (tp_at p) (tp_paddr p) (delete i (tp_entries p)) :: l')
      | None => cons p <$> remove_from_chain paddr l'
      end
  end.

Definition paging_tmap_unmap (paddr : Z) : M paging_tmap_t bool :=
  let! l := get_bucket paddr in
  match remove_from_chain paddr l with
  | Some l' => do! set_bucket (tmap_hash_function paddr) l'; ret true
  | None => ret false
  end.

Fixpoint search_chain (paddr : Z) (l : list paging_tmap_page_t) : Z :=
  match l with
  | [] => 0
  | p :: l' =>
      match find_index (has_paddr paddr) (tp_entries p) with
      | Some i => match tp_entries p !! i with Some e => e.2 | None => 0 end
      | None => search_chain paddr l'
      end
  end.

(** NULL, 0, when there is no entry. *)
Definition paging_tmap_translate (paddr : Z) : M paging_tmap_t Z :=
  let! l := get_bucket paddr in ret (search_chain paddr l).

(** ** What the table is for: a finite map *)

Definition chain_entries (l : list paging_tmap_page_t) : list (Z * Z) := l ≫= tp_entries.

Record tmap_rep (t : paging_tmap_t) (m : gmap Z Z) : Prop := TmapRep {
  tr_bitmap : bitmap_ok (tm_bitmap t);
  tr_buckets : length (root_entries t) = Z.to_nat PAGING_TMAP_BUCKETS;
  tr_capacity i l p : root_entries t !! i = Some l -> p ∈ l -> (length (tp_entries p) <= PAGING_TMAP_PAGE_ENTRIES)%nat;
  tr_keys i l : root_entries t !! i = Some l -> NoDup (chain_entries l).*1;
  tr_lookup p v : m !! p = Some v <->
    exists l, root_entries t !! Z.to_nat (tmap_hash_function p) = Some l /\ (p, v) ∈ chain_entries l
}.

Lemma hash_lt p : (Z.to_nat (tmap_hash_function p) < Z.to_nat PAGING_TMAP_BUCKETS)%nat.
Proof. unfold tmap_hash_function. pose proof (Z.mod_pos_bound (Z.shiftr p 12) PAGING_TMAP_BUCKETS eq_refl). lia. Qed.

Lemma get_bucket_done t p : length (root_entries t) = Z.to_nat PAGING_TMAP_BUCKETS ->
  exists l, root_entries t !! Z.to_nat (tmap_hash_function p) = Some l /\ get_bucket p t = Done (l, t).
Proof.
  intros Hl. destruct (lookup_lt_is_Some_2 (root_entries t) (Z.to_nat (tmap_hash_function p))) as [l Hb];
    [rewrite Hl; apply hash_lt|]. exists l. unfold get_bucket. by rewrite Hb.
Qed.

Lemma chain_cons p l : chain_entries (p :: l) = tp_entries p ++ chain_entries l.
Proof. done. Qed.

Lemma add_to_chain_Some e l l' : add_to_chain e l = Some l' ->
  chain_entries l' ≡ₚ e :: chain_entries l /\
  ((forall p, p ∈ l -> (length (tp_entries p) <= PAGING_TMAP_PAGE_ENTRIES)%nat) ->
   forall p, p ∈ l' -> (length (tp_entries p) <= PAGING_TMAP_PAGE_ENTRIES)%nat).
Proof.
  revert l'. induction l as [|p l IH]; cbn [add_to_chain]; intros l'; [done|]. case_bool_decide as Hf.
  - destruct (add_to_chain e l) as [k|] eqn:E; [|done]. intros [= <-]. destruct (IH k eq_refl) as [Hp Hc].
    rewrite !chain_cons, Hp. split; [by rewrite Permutation_middle|].
    intros Hl q [->|Hq]%elem_of_cons; [apply Hl; by left|]. apply Hc; [|done]. intros r Hr. apply Hl. by right.
  - intros [= <-]. rewrite !chain_cons. cbn [tp_entries]. split; [rewrite <- app_assoc; by rewrite Permutation_middle|].
    intros Hl q [->|Hq]%elem_of_cons; [|apply Hl; by right]. cbn [tp_entries]. rewrite length_app. cbn [length].
    specialize (Hl p ltac:(by left)). lia.
Qed.

Lemma find_paddr_None paddr l : find_index (has_paddr paddr) l = None <-> paddr ∉ l.*1.
Proof.
  rewrite find_index_None. induction l as [|e l IH]; simpl; [split; [intros _; apply not_elem_of_nil|done]|].
  rewrite Forall_cons, not_elem_of_cons, IH. unfold has_paddr. rewrite Z.eqb_neq. naive_solver.
Qed.
Lemma find_paddr_Some paddr l i : find_index (has_paddr paddr) l = Some i ->
  exists v, l !! i = Some (paddr, v).
Proof.
  intros (e & He & Hp & _)%find_index_Some. unfold has_paddr in Hp. apply Z.eqb_eq in Hp as <-.
  exists e.2. by destruct e.
Qed.

Lemma remove_from_chain_spec paddr l :
  match remove_from_chain paddr l with
  | Some l' => exists v, chain_entries l ≡ₚ (paddr, v) :: chain_entries l' /\
      ((forall p, p ∈ l -> (length (tp_entries p) <= PAGING_TMAP_PAGE_ENTRIES)%nat) ->
       forall p, p ∈ l' -> (length (tp_entries p) <= PAGING_TMAP_PAGE_ENTRIES)%nat)
  | None => paddr ∉ (chain_entries l).*1
  end.
Proof.
  induction l as [|p l IH]; cbn [remove_from_chain]; [apply not_elem_of_nil|].
  destruct (find_index (has_paddr paddr) (tp_entries p)) as [i|] eqn:E.
  - destruct (find_paddr_Some _ _ _ E) as [v Hv]. exists v. rewrite !chain_cons. cbn [tp_entries].
    split; [rewrite app_comm_cons; apply Permutation_app_tail; by apply delete_Permutation|].
    intros Hl q [->|Hq]%elem_of_cons; [|apply Hl; by right]. cbn [tp_entries].
    specialize (Hl p ltac:(by left)). pose proof (Permutation_length (delete_Permutation _ _ _ Hv)) as Hd. simpl in Hd. lia.
  - apply find_paddr_None in E. destruct (remove_from_chain paddr l) as [k|]; cbn [fmap option_fmap option_map].
    + destruct IH as (v & Hp & Hc). exists v. rewrite !chain_cons. split; [rewrite Hp; by rewrite Permutation_middle|].
      intros Hl q [->|Hq]%elem_of_cons; [apply Hl; by left|]. apply Hc; [|done]. intros r Hr. apply Hl. by right.
    + rewrite chain_cons, fmap_app, not_elem_of_app. done.
Qed.

Lemma search_chain_spec paddr l :
  (exists v, (paddr, v) ∈ chain_entries l /\ search_chain paddr l = v) \/
  ((paddr ∉ (chain_entries l).*1) /\ search_chain paddr l = 0).
Proof.
  induction l as [|p l IH]; cbn [search_chain]; [right; split; [apply not_elem_of_nil|done]|].
  destruct (find_index (has_paddr paddr) (tp_entries p)) as [i|] eqn:E.
  - left. destruct (find_paddr_Some _ _ _ E) as [v Hv]. rewrite Hv. exists v. split; [|done].
    rewrite chain_cons. apply elem_of_app. left. by eapply list_elem_of_lookup_2.
  - apply find_paddr_None in E. rewrite chain_cons. destruct IH as [(v & Hv & ->)|[Hn ->]].
    + left. exists v. split; [|done]. apply elem_of_app. by right.
    + right. split; [|done]. rewrite fmap_app, not_elem_of_app. done.
Qed.

(** Replacing the bucket of [p] by one that differs only in [p]'s entry. *)
Lemma set_bucket_rep t m p l l' m' : tmap_rep t m ->
  root_entries t !! Z.to_nat (tmap_hash_function p) = Some l ->
  (forall q, q ∈ l' -> (length (tp_entries q) <= PAGING_TMAP_PAGE_ENTRIES)%nat) ->
  NoDup (chain_entries l').*1 ->
  (forall q v, q <> p -> m' !! q = Some v <-> m !! q = Some v) ->
  (forall q v, q <> p -> (q, v) ∈ chain_entries l' <-> (q, v) ∈ chain_entries l) ->
  (forall v, m' !! p = Some v <-> (p, v) ∈ chain_entries l') ->
  exists t', set_bucket (tmap_hash_function p) l' t = Done (tt, t') /\ tmap_rep t' m' /\ tm_bitmap t' = tm_bitmap t.
Proof.
  intros [R0 R1 R2 R3 R4] Hl Hcap Hnd Hm Hc Hp. eexists. split; [reflexivity|]. split; [|done].
  pose proof (lookup_lt_Some _ _ _ Hl) as Hlt.
  split; cbn [root_entries tm_bitmap].
  - done.
  - by rewrite length_insert.
  - intros i k q [(<- & <- & _)|(_ & Hi)]%list_lookup_insert_Some Hq; [by apply Hcap|by eapply R2].
  - intros i k [(<- & <- & _)|(_ & Hi)]%list_lookup_insert_Some; [done|by eapply R3].
  - intros q v. destruct (decide (q = p)) as [->|Hq].
    + rewrite Hp. split; [intros H; exists l'; split; [by apply list_lookup_insert_eq|done]|].
      intros (k & Hk & Hin). rewrite list_lookup_insert_eq in Hk by done. by simplify_eq.
    + rewrite (Hm q v Hq), R4. destruct (decide (Z.to_nat (tmap_hash_function q) = Z.to_nat (tmap_hash_function p))) as [E|E].
      * rewrite E, Hl, list_lookup_insert_eq by done. split; intros (k & Hk & Hin); simplify_eq;
          eexists; (split; [done|]); by apply (Hc q v Hq).
      * by rewrite list_lookup_insert_ne by done.
Qed.

(** *** Page frames: reservation only ever adds to the marked ones *)

Definition marked (b : bitmap) (p : Z) : Prop := exists k, used_page b k /\ p = page_addr b k.
Record bm_le (b b' : bitmap) : Prop := BmLe {
  ble_start : allocation_region_start b' = allocation_region_start b;
  ble_avail : bitmap_available_pages b' = bitmap_available_pages b;
  ble_used k : used_page b k -> used_page b' k
}.
#[export] Instance bm_le_preorder : PreOrder bm_le.
Proof. split; [by intros b|]. intros a b c [] []. split; [congruence|congruence|auto]. Qed.
Lemma marked_le b b' p : bm_le b b' -> marked b p -> marked b' p.
Proof. intros [Hs _ Hu] (k & Hk & ->). exists k. split; [auto|]. unfold page_addr. by rewrite Hs. Qed.

(** A frame that was not marked, of a page below the end of the region. *)
Record new_frame (b b' : bitmap) (p : Z) : Prop := NewFrame {
  nf_ok : bitmap_ok b';
  nf_le : bm_le b b';
  nf_fresh : ~ marked b p;
  nf_marked : marked b' p;
  nf_page : exists k, 0 <= k < bitmap_available_pages b /\ p = page_addr b k
}.

Lemma tm_reserve_spec t : bitmap_ok (tm_bitmap t) ->
  tm_reserve t = Stop Undefined \/
  exists p b, tm_reserve t = Done (p, Tmap (root_entries t) (next_page_ptr t) (tmap_pdt_paddr t) (tmap_pt_paddr t) (tm_window t) (tm_pdpt t) b) /\
    new_frame (tm_bitmap t) b p.
Proof.
  intros Hok. unfold tm_reserve.
  destruct (bitmap_reserve_spec _ Hok) as [(k & b & -> & Hb & Hset & Hres & _ & Hu & Hmono & _)|[-> _]]; [|by left].
  case_match; [by left|]. right. do 2 eexists. split; [done|]. destruct Hres as (Hk & _ & Hnu).
  assert (bm_le (tm_bitmap t) b) as Hle by (rewrite Hset; split; [done|done|]; rewrite <- Hset; done).
  split; [done|done| | |eauto].
  - intros (j & Hj & Hp). unfold page_addr, PAGE_SIZE in Hp. assert (j = k) as -> by lia. done.
  - exists k. split; [done|]. unfold page_addr. by rewrite (ble_start _ _ Hle).
Qed.

Lemma add_tmap_page_spec t : bitmap_ok (tm_bitmap t) ->
  add_tmap_page t = Stop Undefined \/
  exists p t', add_tmap_page t = Done (p, t') /\ tp_entries p = [] /\ root_entries t' = root_entries t /\
    bitmap_ok (tm_bitmap t') /\ bm_le (tm_bitmap t) (tm_bitmap t').
Proof.
  intros Hok. unfold add_tmap_page, set_window, set_next_page, set_tables, set_tm_pdpt.
  destruct (tm_reserve_spec t Hok) as [E|(p & b & E & [Hb Hle _ _ _])]; [left; by apply bind_stop|].
  rewrite (bind_done _ _ _ _ _ E), bind_get. cbv zeta. rewrite !bind_modify.
  match goal with |- context [bind (if ?c then _ else _) _ ?s0] => set (s := s0); destruct c end.
  2:{ right. do 2 eexists. split; [reflexivity|]. done. }
  destruct (tm_reserve_spec s Hb) as [E2|(p2 & b2 & E2 & [Hb2 Hle2 _ _ _])]; [left; by rewrite (bind_stop _ _ _ _ (bind_stop _ _ _ _ E2))|].
  rewrite bind_assoc, (bind_done _ _ _ _ _ E2), !bind_assoc, bind_modify, bind_assoc, bind_modify.
  match goal with |- context [bind (if ?c then _ else _) _ ?s0] => set (s3 := s0); destruct c end.
  2:{ right. do 2 eexists. split; [reflexivity|]. split_and!; [done|done|done|]. by etrans. }
  destruct (tm_reserve_spec s3 Hb2) as [E3|(p3 & b3 & E3 & [Hb3 Hle3 _ _ _])]; [left; by rewrite (bind_stop _ _ _ _ (bind_stop _ _ _ _ E3))|].
  rewrite bind_assoc, (bind_done _ _ _ _ _ E3), bind_assoc, bind_modify. right. do 2 eexists. split; [reflexivity|].
  split_and!; [done|done|done|]. etrans; [exact Hle|]. by etrans.
Qed.

Lemma paging_tmap_map_spec t m p v : tmap_rep t m -> m !! p = None ->
  paging_tmap_map p v t = Stop Undefined \/ exists t', paging_tmap_map p v t = Done (tt, t') /\
    tmap_rep t' (<[p := v]> m) /\ bm_le (tm_bitmap t) (tm_bitmap t').
Proof.
  intros Hr Hp. pose proof Hr as [R0 R1 R2 R3 R4]. destruct (get_bucket_done t p R1) as (l & Hl & Hg). unfold paging_tmap_map.
  rewrite (bind_done _ _ _ _ _ Hg).
  assert (p ∉ (chain_entries l).*1) as Hnew.
  { intros ([q w] & Hq & Hin)%list_elem_of_fmap. simpl in Hq. subst q. assert (m !! p = Some w) by (apply R4; eauto). congruence. }
  assert (forall l', chain_entries l' ≡ₚ (p, v) :: chain_entries l ->
    (forall q, q ∈ l' -> (length (tp_entries q) <= PAGING_TMAP_PAGE_ENTRIES)%nat) ->
    forall t1, root_entries t1 = root_entries t -> bitmap_ok (tm_bitmap t1) -> bm_le (tm_bitmap t) (tm_bitmap t1) ->
    exists t', set_bucket (tmap_hash_function p) l' t1 = Done (tt, t') /\
      tmap_rep t' (<[p := v]> m) /\ bm_le (tm_bitmap t) (tm_bitmap t')) as Hset.
  { intros l' Hperm Hcap t1 Ht1 Hb1 Hle1.
    destruct (set_bucket_rep t1 m p l l' (<[p := v]> m)) as (t' & Ht' & Hr' & Hb'); [..|exists t'; by rewrite Hb'].
    - split; rewrite ?Ht1; done.
    - by rewrite Ht1.
    - done.
    - rewrite Hperm. simpl. apply NoDup_cons. split; [done|by eapply R3].
    - intros q w Hq. by rewrite lookup_insert_ne.
    - intros q w Hq. rewrite Hperm, elem_of_cons. split; [intros [E|?]; [by simplify_eq|done]|by right].
    - intros w. rewrite Hperm, elem_of_cons, lookup_insert_eq. split; [intros [= ->]; by left|].
      intros [E|Hin]; [by simplify_eq|]. exfalso. apply Hnew. apply list_elem_of_fmap. by exists (p, w). }
  destruct (add_to_chain (p, v) l) as [l'|] eqn:E.
  - right. destruct (add_to_chain_Some _ _ _ E) as [Hperm Hcap]. apply Hset; [done| |done|done|done].
    apply Hcap. intros q Hq. by eapply R2.
  - destruct (add_tmap_page_spec t R0) as [E1|(pg & t1 & E1 & He & Ht1 & Hb1 & Hle1)]; [left; by apply bind_stop|].
    right. rewrite (bind_done _ _ _ _ _ E1), He. apply Hset; [|intros q [->|Hq]%elem_of_cons; [cbn; unfold PAGING_TMAP_PAGE_ENTRIES; lia|by eapply R2]|done|done|done].
    by rewrite chain_cons.
Qed.

Lemma paging_tmap_unmap_spec t m p : tmap_rep t m ->
  exists t', paging_tmap_unmap p t = Done (bool_decide (is_Some (m !! p)), t') /\
    tmap_rep t' (delete p m) /\ tm_bitmap t' = tm_bitmap t.
Proof.
  intros Hr. pose proof Hr as [R0 R1 R2 R3 R4]. destruct (get_bucket_done t p R1) as (l & Hl & Hg). unfold paging_tmap_unmap.
  rewrite (bind_done _ _ _ _ _ Hg). pose proof (remove_from_chain_spec p l) as Hs.
  destruct (remove_from_chain p l) as [l'|].
  - destruct Hs as (v & Hperm & Hcap). pose proof (R3 _ _ Hl) as Hnd. rewrite Hperm in Hnd. simpl in Hnd.
    apply NoDup_cons in Hnd as [Hnin Hnd].
    assert (m !! p = Some v) as Hpv by (apply R4; exists l; split; [done|]; rewrite Hperm; by left).
    rewrite bool_decide_true by (by rewrite Hpv).
    destruct (set_bucket_rep t m p l l' (delete p m) Hr Hl) as (t' & Ht' & Hr' & Hb').
    + apply Hcap. intros q Hq. by eapply R2.
    + done.
    + intros q w Hq. by rewrite lookup_delete_ne.
    + intros q w Hq. rewrite Hperm, elem_of_cons. split; [by right|intros [E|?]; [by simplify_eq|done]].
    + intros w. rewrite lookup_delete_eq. split; [done|]. intros Hin. exfalso. apply Hnin. apply list_elem_of_fmap. by exists (p, w).
    + exists t'. rewrite (bind_done _ _ _ _ _ Ht'). done.
  - assert (m !! p = None) as Hnone.
    { destruct (m !! p) as [v|] eqn:E; [|done]. apply R4 in E as (k & Hk & Hin). exfalso. apply Hs.
      simplify_eq. apply list_elem_of_fmap. by exists (p, v). }
    exists t. rewrite bool_decide_false by (rewrite Hnone; by intros [? ?]). split; [done|]. by rewrite delete_id.
Qed.

Lemma paging_tmap_translate_spec t m p : tmap_rep t m -> paging_tmap_translate p t = Done (default 0 (m !! p), t).
Proof.
  intros [R0 R1 R2 R3 R4]. destruct (get_bucket_done t p R1) as (l & Hl & Hg). unfold paging_tmap_translate.
  rewrite (bind_done _ _ _ _ _ Hg). unfold ret. do 2 f_equal. destruct (search_chain_spec p l) as [(v & Hin & ->)|[Hn ->]].
  - assert (m !! p = Some v) as -> by (apply R4; eauto). done.
  - destruct (m !! p) as [v|] eqn:E; [|done]. apply R4 in E as (k & Hk & Hin). exfalso. apply Hn. simplify_eq.
    apply list_elem_of_fmap. by exists (p, v).
Qed.

(** ** Sequences of operations *)

Inductive tmap_op := TMap (paddr vaddr : Z) | TUnmap (paddr : Z) | TTranslate (paddr : Z).
Inductive tmap_result := RUnit | RBool (b : bool) | RAddr (v : Z).

Definition run_tmap_op (o : tmap_op) : M paging_tmap_t tmap_result :=
  match o with
  | TMap p v => do! paging_tmap_map p v; ret RUnit
  | TUnmap p => let! b := paging_tmap_unmap p in ret (RBool b)
  | TTranslate p => let! v := paging_tmap_translate p in ret (RAddr v)
  end.
Fixpoint run_tmap (os : list tmap_op) : M paging_tmap_t (list tmap_result) :=
  match os with
  | [] => ret []
  | o :: os' => let! r := run_tmap_op o in let! rs := run_tmap os' in ret (r :: rs)
  end.

(** The same on a finite map; a table is not registered twice. *)
Definition map_op (m : gmap Z Z) (o : tmap_op) : option (tmap_result * gmap Z Z) :=
  match o with
  | TMap p v => match m !! p with None => Some (RUnit, <[p := v]> m) | Some _ => None end
  | TUnmap p => Some (RBool (bool_decide (is_Some (m !! p))), delete p m)
  | TTranslate p => Some (RAddr (default 0 (m !! p)), m)
  end.
Fixpoint run_map (m : gmap Z Z) (os : list tmap_op) : option (list tmap_result * gmap Z Z) :=
  match os with
  | [] => Some ([], m)
  | o :: os' => '(r, m1) ← map_op m o; '(rs, m2) ← run_map m1 os'; Some (r :: rs, m2)
  end.

(** C35: The translation map refines a finite map: every sequence of map, unmap
    and translate operations that does not register a frame twice gives the
    results of the map (0 for a missing entry), however the entries spread over
    the pages of a bucket, or stops because no page frame is left for a new
    page of the table. *)
Theorem tmap_refines_map os : forall t m rs m', tmap_rep t m -> run_map m os = Some (rs, m') ->
  run_tmap os t = Stop Undefined \/ exists t', run_tmap os t = Done (rs, t') /\ tmap_rep t' m'.
Proof.
  induction os as [|o os IH]; intros t m rs m' Hr Hm; cbn [run_map run_tmap] in *.
  { injection Hm as <- <-. right. by exists t. }
  destruct (map_op m o) as [[r m1]|] eqn:Eo; [|done]. simpl in Hm.
  destruct (run_map m1 os) as [[rs1 m2]|] eqn:Er; [|done]. simpl in Hm. injection Hm as <- <-.
  assert (run_tmap_op o t = Stop Undefined \/ exists t1, run_tmap_op o t = Done (r, t1) /\ tmap_rep t1 m1) as [Hs|(t1 & Ho & Hr1)].
  { destruct o as [p v|p|p]; simpl in Eo.
    - destruct (m !! p) eqn:Ep; [done|]. injection Eo as <- <-.
      destruct (paging_tmap_map_spec t m p v Hr Ep) as [E|(t1 & E & Hr1 & _)]; [left; by apply bind_stop|].
      right. exists t1. split; [|done]. simpl. by rewrite (bind_done _ _ _ _ _ E).
    - injection Eo as <- <-. destruct (paging_tmap_unmap_spec t m p Hr) as (t1 & E & Hr1 & _).
      right. exists t1. split; [|done]. simpl. by rewrite (bind_done _ _ _ _ _ E).
    - injection Eo as <- <-. right. exists t. split; [|done]. simpl.
      by rewrite (bind_done _ _ _ _ _ (paging_tmap_translate_spec t m p Hr)). }
  { left. by apply bind_stop. }
  rewrite (bind_done _ _ _ _ _ Ho).
  destruct (IH t1 m1 rs1 m2 Hr1 Er) as [E|(t2 & E & Hr2)]; [left; by apply bind_stop|].
  right. exists t2. by rewrite (bind_done _ _ _ _ _ E).
Qed.

Definition demo_tmap : paging_tmap_t :=
  Tmap (replicate 256 [TmapPage 0 0 []]) 0x100000 0 0 ∅ ∅ (fresh_bitmap 40 (16 * PAGE_SIZE)).
Lemma demo_tmap_rep : tmap_rep demo_tmap ∅.
Proof.
  split.
  - apply fresh_bitmap_ok; vm_compute; done.
  - done.
  - intros i l p Hl Hp. apply lookup_replicate in Hl as [-> _]. apply list_elem_of_singleton in Hp as ->. simpl. lia.
  - intros i l Hl. apply lookup_replicate in Hl as [-> _]. constructor.
  - intros p v. rewrite lookup_empty. split; [done|]. intros (l & Hl & Hin).
    apply lookup_replicate in Hl as [-> _]. by apply elem_of_nil in Hin.
Qed.

Lemma tmap_refines_map_witness :
  run_tmap [TMap 0x5000 7; TMap 0x105000 8; TUnmap 0x5000; TTranslate 0x105000; TTranslate 0x5000] demo_tmap = Stop Undefined \/
  exists t', run_tmap [TMap 0x5000 7; TMap 0x105000 8; TUnmap 0x5000; TTranslate 0x105000; TTranslate 0x5000] demo_tmap
      = Done ([RUnit; RUnit; RBool true; RAddr 8; RAddr 0], t') /\ tmap_rep t' {[ 0x105000 := 8 ]}.
Proof.
  apply (tmap_refines_map _ _ _ _ _ demo_tmap_rep). vm_compute. reflexivity.
Defined.
