(* ===== verification/PageTables.v ===== *)
(** * PageTables: four-level page tables (src/paging/mapper.c,
    src/paging/table_allocator.c, system/x86_64/include/sys/paging/)

    A page table is edited at a virtual address; [tables] gives its 512
    entries (an absent one is all zero).  The table of a frame is found with
    the translation map of TransMap.  Tables are handed out from windows of 512
    pages, the first page of a window being the page table that maps the
    window; [talloc_pts] has the present bits of each window.

    [mmu_walk] is what the processor does with a virtual address.  PageTree and
    PageMap show that [paging_map_single], [paging_map_ex] and [paging_unmap]
    change the result of that walk at the given pages of the given page table
    and nowhere else, in any page table. *)
From S2P Require Import Prelude Bitmap TransMap.

(** The bit fields the mapper uses; [address] has 40 bits. *)
Record pt_entry := PtEntry {
  present : bool; address : Z; read_write : bool; execute_disable : bool; user_super : bool
}.
#[export] Instance pt_entry_eq_dec : EqDecision pt_entry.
Proof. solve_decision. Defined.
Definition zero_entry : pt_entry := PtEntry false 0 false false false.

Definition SET_ADDRESS (paddr : Z) : Z := Z.shiftr paddr 12 mod 2 ^ 40.
Definition GET_ADDRESS (e : pt_entry) : Z := u64 (Z.shiftl (address e) 12).

Definition PAGING_TALLOC_VADDR : Z := 0x028000000000.

Record vm := Vm {
  tables : gmap Z (gmap Z pt_entry);
  vm_tmap : paging_tmap_t;
  talloc_pts : list (list bool);
  current_vaddr : Z;
  talloc_pdt_paddr : Z; talloc_pt_paddr : Z;
  talloc_window : gmap (Z * Z) Z;
  talloc_pdpt : gmap Z Z
}.

Definition on_tmap {A} (m : M paging_tmap_t A) : M vm A :=
  zoom vm_tmap (fun t s => Vm (tables s) t (talloc_pts s) (current_vaddr s) (talloc_pdt_paddr s) (talloc_pt_paddr s)
    (talloc_window s) (talloc_pdpt s)) m.
Definition set_vm_tables (f : gmap Z (gmap Z pt_entry) -> gmap Z (gmap Z pt_entry)) : M vm unit := modify (fun s =>
  Vm (f (tables s)) (vm_tmap s) (talloc_pts s) (current_vaddr s) (talloc_pdt_paddr s) (talloc_pt_paddr s)
    (talloc_window s) (talloc_pdpt s)).
Definition set_talloc_pts (l : list (list bool)) : M vm unit := modify (fun s =>
  Vm (tables s) (vm_tmap s) l (current_vaddr s) (talloc_pdt_paddr s) (talloc_pt_paddr s) (talloc_window s) (talloc_pdpt s)).
Definition set_talloc (v pdt pt : Z) (w : gmap (Z * Z) Z) (pd : gmap Z Z) : M vm unit := modify (fun s =>
  Vm (tables s) (vm_tmap s) (talloc_pts s) v pdt pt w pd).

(** ** table_allocator.c *)

(** A fresh window: its page 0 is its own page table. *)
Definition new_window : list bool := true :: replicate 511 false.

Definition add_pt : M vm Z :=
  let! pt := on_tmap tm_reserve in
  let! s := get in
  let pdt_index := table_index 21 (current_vaddr s) in
  do! set_talloc (current_vaddr s) (talloc_pdt_paddr s) pt (<[(talloc_pdt_paddr s, pdt_index) := pt]> (talloc_window s)) (talloc_pdpt s);
  do! (if pdt_index =? 511 then
         let! pdt := on_tmap tm_reserve in
         let! s := get in
         set_talloc (current_vaddr s) pdt pt (talloc_window s) (<[table_index 30 (current_vaddr s) := pdt]> (talloc_pdpt s))
       else ret tt);
  let! s := get in
  do! set_talloc (u64 (current_vaddr s + 512 * PAGE_SIZE)) (talloc_pdt_paddr s) pt (talloc_window s) (talloc_pdpt s);
  do! set_talloc_pts (talloc_pts s ++ [new_window]);
  ret pt.

Definition paging_talloc_init : M vm unit :=
  let! pdt := on_tmap tm_reserve in
  let! s := get in
  do! set_talloc (current_vaddr s) pdt (talloc_pt_paddr s) (talloc_window s)
        (<[table_index 30 PAGING_TALLOC_VADDR := pdt]> (talloc_pdpt s));
  do! set_talloc_pts [];
  do! add_pt; ret tt.

(** The first page of a window after page 0 that is not present. *)
Definition free_page (w : list bool) : option nat := S <$> find_index negb (drop 1 w).
Fixpoint free_slot (k : nat) (l : list (list bool)) : option (nat * nat) :=
  match l with
  | [] => None
  | w :: l' => match free_page w with Some i => Some (k, i) | None => free_slot (S k) l' end
  end.

Definition slot_vaddr (k i : nat) : Z := PAGING_TALLOC_VADDR + (Z.of_nat k * 512 + Z.of_nat i) * PAGE_SIZE.

Record paging_table_allocation_t := Talloc { ta_paddr : Z; ta_vaddr : Z }.

Definition paging_talloc_alloc : M vm paging_table_allocation_t :=
  let! s := get in
  let! (k, i) := match free_slot 0 (talloc_pts s) with
                  | Some x => ret x
                  | None => do! add_pt; ret (length (talloc_pts s), 1%nat)
                  end in
  let! paddr := on_tmap tm_reserve in
  let! s := get in
  do! set_talloc_pts (alter (fun w => <[i := true]> w) k (talloc_pts s));
  do! set_vm_tables <[slot_vaddr k i := ∅]>;
  do! on_tmap (paging_tmap_map paddr (slot_vaddr k i));
  ret (Talloc paddr (slot_vaddr k i)).

(** The frame and the window page stay reserved. *)
Definition paging_talloc_free (a : paging_table_allocation_t) : M vm unit :=
  do! on_tmap (paging_tmap_unmap (ta_paddr a)); ret tt.

(** ** mapper.c *)

(** Reading through a table pointer; NULL and unknown addresses have no meaning. *)
Definition get_entry (t i : Z) : M vm pt_entry := fun s =>
  match tables s !! t with Some tab => Done (default zero_entry (tab !! i), s) | None => Stop Undefined end.
Definition put_entry (t i : Z) (e : pt_entry) : M vm unit := fun s =>
  match tables s !! t with
  | Some tab => set_vm_tables <[t := <[i := e]> tab]> s
  | None => Stop Undefined
  end.

(** One level down, allocating the next table when there is none.  [on_null]
    is what happens when the translation map does not know the table. *)
Definition next_table (on_null : stop) (t i : Z) : M vm (Z * option paging_table_allocation_t) :=
  let! e := get_entry t i in
  if negb (present e) then
    let! a := paging_talloc_alloc in
    do! put_entry t i (PtEntry true (SET_ADDRESS (ta_paddr a)) true (execute_disable e) true);
    ret (ta_vaddr a, Some a)
  else
    let! w := on_tmap (paging_tmap_translate (GET_ADDRESS e)) in
    if w =? 0 then stop_with on_null else ret (w, None).

(** The result and the allocations for the page table, the page directory and
    the page directory pointer table. *)
Definition paging_map_single (pml4t paddr vaddr : Z) (rw xd us : bool) : M vm (bool * list paging_table_allocation_t) :=
  let! (pdpt, a3) := next_table (EntryError 0x601) pml4t (table_index 39 vaddr) in
  let! (pdt, a2) := next_table Undefined pdpt (table_index 30 vaddr) in
  let! (pt, a1) := next_table Undefined pdt (table_index 21 vaddr) in
  let allocs := option_list a1 ++ option_list a2 ++ option_list a3 in
  let! e := get_entry pt (table_index 12 vaddr) in
  if negb (present e) then
    do! put_entry pt (table_index 12 vaddr) (PtEntry true (SET_ADDRESS paddr) rw xd us);
    ret (true, allocs)
  else ret (false, allocs).

(** [mapping->allocations] with its capacity; a store past the capacity has no
    meaning. *)
Definition add_allocation (a : paging_table_allocation_t) (m : list paging_table_allocation_t * nat) :
    M vm (list paging_table_allocation_t * nat) :=
  let (l, capacity) := m in
  do! guard_or Undefined (bool_decide (length l < capacity)%nat);
  ret (l ++ [a], if bool_decide (S (length l) = capacity) then (capacity * 2)%nat else capacity).
Fixpoint add_allocations (l : list paging_table_allocation_t) (m : list paging_table_allocation_t * nat) :
    M vm (list paging_table_allocation_t * nat) :=
  match l with
  | [] => ret m
  | a :: l' => let! m' := add_allocation a m in add_allocations l' m'
  end.

Record paging_mapping_t := PagingMapping { mp_size_pages : nat; allocations : list paging_table_allocation_t; mp_vaddr : Z }.

(** The loop of [paging_map_ex]; a page that is already mapped ends in [hlt()]. *)
Fixpoint map_pages (n : nat) (pml4t paddr vaddr : Z) (rw xd us : bool) (m : list paging_table_allocation_t * nat) :
    M vm (list paging_table_allocation_t * nat) :=
  match n with
  | O => ret m
  | S n' =>
      let! (ok, allocs) := paging_map_single pml4t paddr vaddr rw xd us in
      if negb ok then stop_with Halted
      else
        let! m' := add_allocations allocs m in
        map_pages n' pml4t (u64 (paddr + PAGE_SIZE)) (u64 (vaddr + PAGE_SIZE)) rw xd us m'
  end.

Definition paging_map_ex (pml4t paddr vaddr : Z) (size_pages : nat) (rw xd us : bool) : M vm paging_mapping_t :=
  let! m := map_pages size_pages pml4t paddr vaddr rw xd us ([], 1%nat) in
  ret (PagingMapping size_pages m.1 vaddr).

Definition paging_unmap_single (pml4t vaddr : Z) : M vm bool :=
  let! e4 := get_entry pml4t (table_index 39 vaddr) in
  let! pdpt := on_tmap (paging_tmap_translate (GET_ADDRESS e4)) in
  let! e3 := get_entry pdpt (table_index 30 vaddr) in
  let! pdt := on_tmap (paging_tmap_translate (GET_ADDRESS e3)) in
  let! e2 := get_entry pdt (table_index 21 vaddr) in
  let! pt := on_tmap (paging_tmap_translate (GET_ADDRESS e2)) in
  let! e1 := get_entry pt (table_index 12 vaddr) in
  if negb (present e1) then ret false
  else
    do! put_entry pt (table_index 12 vaddr) (PtEntry false (address e1) (read_write e1) (execute_disable e1) (user_super e1));
    ret true.

Fixpoint unmap_pages (n : nat) (pml4t vaddr : Z) : M vm unit :=
  match n with
  | O => ret tt
  | S n' => do! paging_unmap_single pml4t vaddr; unmap_pages n' pml4t (u64 (vaddr + PAGE_SIZE))
  end.
Definition paging_unmap (pml4t : Z) (m : paging_mapping_t) : M vm unit := unmap_pages (mp_size_pages m) pml4t (mp_vaddr m).

(** ** The processor's walk *)

(** The table in frame [p]. *)
Definition frame_table (s : vm) (p : Z) : Z :=
  match root_entries (vm_tmap s) !! Z.to_nat (tmap_hash_function p) with Some l => search_chain p l | None => 0 end.

Definition table_entry (s : vm) (t i : Z) : option pt_entry :=
  tab ← tables s !! t; e ← tab !! i; if present e then Some e else None.

Definition mmu_step (s : vm) (t i : Z) : option (Z * pt_entry) :=
  e ← table_entry s t i; Some (frame_table s (GET_ADDRESS e), e).

(** The frame a virtual address is mapped to, with the permissions of the
    whole path. *)
Definition mmu_walk (s : vm) (pml4t vaddr : Z) : option pt_entry :=
  '(pdpt, e4) ← mmu_step s pml4t (table_index 39 vaddr);
  '(pdt, e3) ← mmu_step s pdpt (table_index 30 vaddr);
  '(pt, e2) ← mmu_step s pdt (table_index 21 vaddr);
  e1 ← table_entry s pt (table_index 12 vaddr);
  Some (PtEntry true (address e1)
    (read_write e1 && read_write e2 && read_write e3 && read_write e4)
    (execute_disable e1 || execute_disable e2 || execute_disable e3 || execute_disable e4)
    (user_super e1 && user_super e2 && user_super e3 && user_super e4)).
