(* ===== verification/PageTree.v ===== *)
(** * PageTree: the trees of tables behind the page tables

    The invariant [vm_ok]: every table reachable from a root is known to the
    translation map under the frame its parent entry names, lives at an address
    the table allocator handed out, and is reached on one path only.  The
    processor's walk then sees exactly the entries of the leaf tables, and one
    [paging_map_single] changes exactly one of them. *)
From S2P Require Import Prelude Bitmap TransMap PageTables.

(** ** The services below: frames and windows *)

Definition slot_used (pts : list (list bool)) (v : Z) : Prop :=
  exists k i w, v = slot_vaddr k i /\ pts !! k = Some w /\ w !! i = Some true.

(** A frame the 40-bit address field can hold. *)
Definition frame_ok (p : Z) : Prop := 0 <= p < 2 ^ 52 /\ p mod PAGE_SIZE = 0.

Record alloc_ok (s : vm) (tm : gmap Z Z) : Prop := AllocOk {
  ao_tmap : tmap_rep (vm_tmap s) tm;
  ao_region : allocation_region_start (tm_bitmap (vm_tmap s)) mod PAGE_SIZE = 0 /\
    allocation_region_start (tm_bitmap (vm_tmap s)) +
      bitmap_available_pages (tm_bitmap (vm_tmap s)) * PAGE_SIZE <= 2 ^ 52;
  ao_marked p v : tm !! p = Some v -> marked (tm_bitmap (vm_tmap s)) p;
  ao_windows w : w ∈ talloc_pts s -> length w = 512%nat
}.

Lemma slot_vaddr_inj k i k' i' : (i < 512)%nat -> (i' < 512)%nat -> slot_vaddr k i = slot_vaddr k' i' -> k = k' /\ i = i'.
Proof. unfold slot_vaddr, PAGE_SIZE. lia. Qed.
Lemma slot_vaddr_pos k i : 0 < slot_vaddr k i.
Proof. unfold slot_vaddr, PAGING_TALLOC_VADDR, PAGE_SIZE. lia. Qed.

Lemma SET_GET p : frame_ok p -> SET_ADDRESS p = Z.shiftr p 12 /\ forall rw xd us, GET_ADDRESS (PtEntry true (SET_ADDRESS p) rw xd us) = p.
Proof.
  intros [Hp Hm]. unfold SET_ADDRESS, GET_ADDRESS, PAGE_SIZE in *. cbn [address]. rewrite Z.shiftr_div_pow2 by lia.
  change (2 ^ 12) with 4096. rewrite (Z.mod_small (p / 4096)) by (split; [apply Z.div_pos; lia|apply Z.div_lt_upper_bound; lia]).
  split; [done|]. intros _ _ _. rewrite Z.shiftl_mul_pow2 by lia. change (2 ^ 12) with 4096.
  pose proof (Z.div_mod p 4096 ltac:(lia)). rewrite u64_small; lia.
Qed.

Lemma on_tmap_done {A} (m : M paging_tmap_t A) s a t : m (vm_tmap s) = Done (a, t) ->
  on_tmap m s = Done (a, Vm (tables s) t (talloc_pts s) (current_vaddr s) (talloc_pdt_paddr s) (talloc_pt_paddr s)
    (talloc_window s) (talloc_pdpt s)).
Proof. intros H. unfold on_tmap, zoom. by rewrite H. Qed.
Lemma on_tmap_stop {A} (m : M paging_tmap_t A) s w : m (vm_tmap s) = Stop w -> on_tmap m s = Stop w.
Proof. intros H. unfold on_tmap, zoom. by rewrite H. Qed.

(** Moving the bitmap forward keeps the services sound. *)
Lemma alloc_ok_bitmap s s' tm b : alloc_ok s tm -> bitmap_ok b -> bm_le (tm_bitmap (vm_tmap s)) b ->
  root_entries (vm_tmap s') = root_entries (vm_tmap s) -> tm_bitmap (vm_tmap s') = b ->
  (forall w, w ∈ talloc_pts s' -> length w = 512%nat) -> alloc_ok s' tm.
Proof.
  intros [[R0 R1 R2 R3 R4] [Hr1 Hr2] Hm Hw] Hb Hle He Hb' Hw'. split.
  - split; rewrite ?He, ?Hb'; done.
  - rewrite Hb', (ble_start _ _ Hle), (ble_avail _ _ Hle). done.
  - intros p v Hp. rewrite Hb'. eapply marked_le; [done|by eapply Hm].
  - done.
Qed.

(** Reserving a frame: a frame no table occupies. *)
Lemma reserve_spec s tm : alloc_ok s tm ->
  on_tmap tm_reserve s = Stop Undefined \/
  exists p s', on_tmap tm_reserve s = Done (p, s') /\ alloc_ok s' tm /\ tables s' = tables s /\ talloc_pts s' = talloc_pts s /\
    current_vaddr s' = current_vaddr s /\ talloc_pdt_paddr s' = talloc_pdt_paddr s /\
    talloc_window s' = talloc_window s /\ talloc_pdpt s' = talloc_pdpt s /\
    frame_ok p /\ tm !! p = None /\ marked (tm_bitmap (vm_tmap s')) p /\ bm_le (tm_bitmap (vm_tmap s)) (tm_bitmap (vm_tmap s')).
Proof.
  intros Hok. pose proof (tr_bitmap _ _ (ao_tmap _ _ Hok)) as Hb.
  destruct (tm_reserve_spec _ Hb) as [E|(p & b & E & [Hb' Hle Hfr Hmk (k & Hk & Hpk)])]; [left; by apply on_tmap_stop|].
  right. do 2 eexists. split; [apply (on_tmap_done _ _ _ _ E)|]. cbn [tables talloc_pts current_vaddr talloc_pdt_paddr talloc_window talloc_pdpt vm_tmap tm_bitmap].
  split; [eapply alloc_ok_bitmap; try done; apply Hok|]. do 6 (split; [done|]). split.
  - destruct (ao_region _ _ Hok) as [H1 H2]. pose proof (ok_start _ Hb). unfold page_addr, PAGE_SIZE in *. split; [lia|].
    subst p. rewrite Z_mod_plus_full. done.
  - split; [|done]. destruct (tm !! p) as [v|] eqn:Ep; [|done]. exfalso. apply Hfr. by eapply (ao_marked _ _ Hok).
Qed.

Lemma set_talloc_done v pdt pt w pd s : exists s', set_talloc v pdt pt w pd s = Done (tt, s') /\
  tables s' = tables s /\ talloc_pts s' = talloc_pts s /\ vm_tmap s' = vm_tmap s.
Proof. eexists. done. Qed.

Lemma alloc_ok_same s s' tm : alloc_ok s tm -> vm_tmap s' = vm_tmap s -> talloc_pts s' = talloc_pts s -> alloc_ok s' tm.
Proof. intros Hok E1 E2. destruct Hok as [A B C D]. split; rewrite ?E1, ?E2; done. Qed.

Lemma add_pt_spec s tm : alloc_ok s tm ->
  add_pt s = Stop Undefined \/
  exists p s', add_pt s = Done (p, s') /\ alloc_ok s' tm /\ tables s' = tables s /\
    talloc_pts s' = talloc_pts s ++ [new_window].
Proof.
  intros Hok. unfold add_pt.
  destruct (reserve_spec s tm Hok) as [E|(p & s1 & E & Hok1 & Ht & Hw & _)]; [left; by apply bind_stop|].
  rewrite (bind_done _ _ _ _ _ E), bind_get. cbv zeta.
  edestruct set_talloc_done as (s2 & E2 & Ht2 & Hw2 & Hm2). rewrite (bind_done _ _ _ _ _ E2).
  pose proof (alloc_ok_same _ _ _ Hok1 Hm2 Hw2) as Hok2.
  assert (forall s3, alloc_ok s3 tm -> tables s3 = tables s -> talloc_pts s3 = talloc_pts s ->
    exists q s', (let! s := get in
      do! set_talloc (u64 (current_vaddr s + 512 * PAGE_SIZE)) (talloc_pdt_paddr s) p (talloc_window s) (talloc_pdpt s);
      do! set_talloc_pts (talloc_pts s ++ [new_window]); ret p) s3 = Done (q, s') /\ alloc_ok s' tm /\ tables s' = tables s /\
      talloc_pts s' = talloc_pts s ++ [new_window]) as Hfin.
  { intros s3 Hok3 Ht3 Hw3. rewrite bind_get. do 2 eexists. split; [reflexivity|]. cbn [tables talloc_pts]. rewrite Hw3.
    split; [|done]. destruct Hok3 as [A B C D]. split; [done|done|done|].
    intros w. cbn [talloc_pts]. rewrite <- Hw3, elem_of_app. intros [Hin|Hin]; [by apply D|].
    apply list_elem_of_singleton in Hin as ->. done. }
  destruct (_ =? 511).
  2:{ right. rewrite (bind_done _ _ s2 tt s2 eq_refl). apply Hfin; [done|congruence|congruence]. }
  destruct (reserve_spec s2 tm Hok2) as [E3|(p3 & s3 & E3 & Hok3 & Ht3 & Hw3 & _)].
  { left. apply bind_stop. by apply bind_stop. }
  right. rewrite bind_assoc, (bind_done _ _ _ _ _ E3), bind_assoc, bind_get.
  edestruct set_talloc_done as (s4 & E4 & Ht4 & Hw4 & Hm4). rewrite (bind_done _ _ _ _ _ E4).
  apply Hfin; [by eapply alloc_ok_same|congruence|congruence].
Qed.

Lemma free_slot_Some l : forall k k0 i, free_slot k0 l = Some (k, i) ->
  exists w, (k0 <= k)%nat /\ l !! (k - k0)%nat = Some w /\ w !! i = Some false.
Proof.
  induction l as [|w l IH]; intros k k0 i; cbn [free_slot]; [done|].
  destruct (free_page w) as [j|] eqn:E.
  - intros [= -> ->]. exists w. rewrite Nat.sub_diag. split_and!; [lia|done|].
    unfold free_page in E. destruct (find_index negb (drop 1 w)) as [m|] eqn:Em; [|done]. injection E as <-.
    apply find_index_Some in Em as (x & Hx & Hb & _). rewrite lookup_drop in Hx. apply negb_true_iff in Hb as ->. done.
  - intros H. destruct (IH _ _ _ H) as (w' & Hle & Hl & Hi). exists w'. split_and!; [lia| |done].
    replace (k - k0)%nat with (S (k - S k0)) by lia. done.
Qed.

(** A new table: an empty table at an address no slot used, in a frame the
    translation map did not know. *)
Lemma talloc_alloc_spec s tm : alloc_ok s tm ->
  paging_talloc_alloc s = Stop Undefined \/
  exists p v s', paging_talloc_alloc s = Done (Talloc p v, s') /\ alloc_ok s' (<[p := v]> tm) /\
    tables s' = <[v := ∅]> (tables s) /\ frame_ok p /\ tm !! p = None /\ 0 < v /\
    ~ slot_used (talloc_pts s) v /\ slot_used (talloc_pts s') v /\
    (forall x, slot_used (talloc_pts s) x -> slot_used (talloc_pts s') x).
Proof.
  intros Hok. unfold paging_talloc_alloc. rewrite bind_get.
  set (pick := match free_slot 0 (talloc_pts s) with Some x => ret x | None => do! add_pt; ret (length (talloc_pts s), 1%nat) end).
  assert (pick s = Stop Undefined \/ exists k i s1 w, pick s = Done ((k, i), s1) /\ alloc_ok s1 tm /\ tables s1 = tables s /\
    talloc_pts s1 !! k = Some w /\ w !! i = Some false /\
    (forall x, slot_used (talloc_pts s) x -> slot_used (talloc_pts s1) x) /\
    (talloc_pts s = talloc_pts s1 \/ k = length (talloc_pts s))) as [Hs|(k & i & s1 & w & Hpk & Hok1 & Ht1 & Hw & Hi & Hmono & Hnew)].
  { unfold pick. destruct (free_slot 0 (talloc_pts s)) as [[k i]|] eqn:E.
    - right. destruct (free_slot_Some _ _ _ _ E) as (w & _ & Hl & Hi). rewrite Nat.sub_0_r in Hl.
      exists k, i, s, w. split_and!; auto.
    - destruct (add_pt_spec s tm Hok) as [Ea|(p & s1 & Ea & Hok1 & Ht1 & Hw1)]; [left; by apply bind_stop|].
      right. exists (length (talloc_pts s)), 1%nat, s1, new_window. rewrite (bind_done _ _ _ _ _ Ea), Hw1.
      split_and!; [done|done|done| |done| |by right].
      + rewrite lookup_app_r by lia. by rewrite Nat.sub_diag.
      + intros x (k & i & w & -> & Hk & Hi). exists k, i, w. split_and!; [done| |done]. by apply lookup_app_l_Some. }
  { left. by apply bind_stop. }
  rewrite (bind_done _ _ _ _ _ Hpk).
  destruct (reserve_spec s1 tm Hok1) as [E2|(p & s2 & E2 & Hok2 & Ht2 & Hw2 & _ & _ & _ & _ & Hf & Hp & Hmk & _)]; [left; by apply bind_stop|].
  rewrite (bind_done _ _ _ _ _ E2), bind_get. unfold set_talloc_pts, set_vm_tables. rewrite !bind_modify. cbn [tables vm_tmap talloc_pts current_vaddr talloc_pdt_paddr talloc_pt_paddr talloc_window talloc_pdpt].
  destruct Hok2 as [A B C D].
  destruct (paging_tmap_map_spec (vm_tmap s2) tm p (slot_vaddr k i) A Hp) as [E3|(t3 & E3 & Hr3 & Hle3)].
  { left. apply bind_stop. by apply on_tmap_stop. }
  right. exists p, (slot_vaddr k i). eexists.
  assert (i < 512)%nat as Hi512.
  { apply lookup_lt_Some in Hi. rewrite (ao_windows _ _ Hok1 w) in Hi; [done|by eapply list_elem_of_lookup_2]. }
  split; [match goal with |- bind _ _ ?st = _ => rewrite (bind_done _ _ _ _ _ (on_tmap_done _ st _ _ E3)); reflexivity end|].
  cbn [tables vm_tmap talloc_pts]. rewrite Hw2.
  assert (forall x, slot_used (talloc_pts s1) x -> slot_used (alter (λ w, <[i:=true]> w) k (talloc_pts s1)) x) as Hm2.
  { intros x (k' & i' & w' & -> & Hk' & Hi'). destruct (decide (k' = k)) as [->|Hne].
    - exists k, i', (<[i := true]> w'). split_and!; [done|by rewrite list_lookup_alter_eq, Hk'|].
      destruct (decide (i' = i)) as [->|]; [by apply list_lookup_insert_eq, lookup_lt_Some with true|by rewrite list_lookup_insert_ne].
    - exists k', i', w'. by rewrite list_lookup_alter_ne. }
  split_and!; [|congruence|done|done|apply slot_vaddr_pos| | |].
  - split; cbn [vm_tmap talloc_pts].
    + done.
    + rewrite (ble_start _ _ Hle3), (ble_avail _ _ Hle3). done.
    + intros q v [[<- _]|[_ Hq]]%lookup_insert_Some; (eapply marked_le; [exact Hle3|]); [done|by eapply C].
    + intros x (j & Hj)%list_elem_of_lookup_1. destruct (decide (j = k)) as [->|Hne].
      * rewrite list_lookup_alter_eq, Hw in Hj. simpl in Hj. injection Hj as <-. rewrite length_insert.
        apply (ao_windows _ _ Hok1). by eapply list_elem_of_lookup_2.
      * rewrite list_lookup_alter_ne in Hj by done. apply (ao_windows _ _ Hok1). by eapply list_elem_of_lookup_2.
  - intros (k' & i' & w' & Hv & Hk' & Hi'). apply slot_vaddr_inj in Hv as [<- <-]; [|done|].
    + destruct Hnew as [Heq|Hlen]; [rewrite Heq in Hk'; congruence|]. apply lookup_lt_Some in Hk'. lia.
    + apply lookup_lt_Some in Hi'. rewrite (ao_windows _ _ Hok w') in Hi'; [done|by eapply list_elem_of_lookup_2].
  - exists k, i, (<[i := true]> w). split_and!; [done|by rewrite list_lookup_alter_eq, Hw|].
    by apply list_lookup_insert_eq, lookup_lt_Some with false.
  - intros x Hx. by apply Hm2, Hmono.
Qed.

(** ** The trees of tables *)

(** [own] names each table by its path: the root table followed by the index
    taken in each table on the way down. *)
Record tree_ok (tabs : gmap Z (gmap Z pt_entry)) (tm : gmap Z Z) (own : gmap Z (list Z)) : Prop := TreeOk {
  to_own v pi : own !! v = Some pi -> 0 < v /\ pi <> [] /\ (length pi <= 4)%nat /\ is_Some (tabs !! v);
  to_inj v w pi : own !! v = Some pi -> own !! w = Some pi -> v = w;
  to_child v pi t i e : own !! v = Some pi -> (length pi < 4)%nat -> tabs !! v = Some t -> t !! i = Some e ->
    present e = true /\ read_write e = true /\ execute_disable e = false /\ user_super e = true /\
    exists w, tm !! GET_ADDRESS e = Some w /\ own !! w = Some (pi ++ [i]);
  to_parent w pi i : own !! w = Some (pi ++ [i]) -> pi <> [] ->
    exists v t e, own !! v = Some pi /\ tabs !! v = Some t /\ t !! i = Some e
}.

Record vm_ok (s : vm) (own : gmap Z (list Z)) (tm : gmap Z Z) : Prop := VmOk {
  vo_alloc : alloc_ok s tm;
  vo_tree : tree_ok (tables s) tm own;
  vo_used v pi : own !! v = Some pi -> slot_used (talloc_pts s) v
}.

(** The entry [i] of the table with path [pi]. *)
Definition entry_at (tabs : gmap Z (gmap Z pt_entry)) (own : gmap Z (list Z)) (pi : list Z) (i : Z) (e : pt_entry) : Prop :=
  exists w t, own !! w = Some pi /\ tabs !! w = Some t /\ t !! i = Some e.

Lemma get_entry_done s t tab i : tables s !! t = Some tab -> get_entry t i s = Done (default zero_entry (tab !! i), s).
Proof. intros H. unfold get_entry. by rewrite H. Qed.

Definition with_tables (tabs : gmap Z (gmap Z pt_entry)) (s : vm) : vm :=
  Vm tabs (vm_tmap s) (talloc_pts s) (current_vaddr s) (talloc_pdt_paddr s) (talloc_pt_paddr s) (talloc_window s) (talloc_pdpt s).
Lemma put_entry_done s t tab i e : tables s !! t = Some tab ->
  put_entry t i e s = Done (tt, with_tables (<[t := <[i := e]> tab]> (tables s)) s).
Proof. intros H. unfold put_entry. by rewrite H. Qed.

Lemma translate_done s tm p : alloc_ok s tm -> on_tmap (paging_tmap_translate p) s = Done (default 0 (tm !! p), s).
Proof.
  intros Hok. rewrite (on_tmap_done _ s _ _ (paging_tmap_translate_spec _ _ p (ao_tmap _ _ Hok))). by destruct s.
Qed.

(** Going one level down reaches the table with the longer path, created empty
    if need be; nothing else in any tree changes. *)
Lemma next_table_spec stopper s own tm v pi i : vm_ok s own tm -> own !! v = Some pi -> (length pi < 4)%nat ->
  next_table stopper v i s = Stop Undefined \/
  exists w a s' own' tm', next_table stopper v i s = Done ((w, a), s') /\ vm_ok s' own' tm' /\
    own' !! w = Some (pi ++ [i]) /\ own ⊆ own' /\ tm ⊆ tm' /\
    (forall rho j e, length rho = 4%nat -> entry_at (tables s') own' rho j e <-> entry_at (tables s) own rho j e).
Proof.
  intros Hok Hv Hlen. pose proof (vo_alloc _ _ _ Hok) as Ha. pose proof (vo_tree _ _ _ Hok) as Ht. unfold next_table.
  destruct (to_own _ _ _ Ht v pi Hv) as (Hv0 & Hpi & _ & tab & Htab).
  rewrite (bind_done _ _ _ _ _ (get_entry_done s v tab i Htab)).
  destruct (tab !! i) as [e|] eqn:Ei; unfold default, id, from_option.
  { destruct (to_child _ _ _ Ht v pi tab i e Hv Hlen Htab Ei) as (Hp & _ & _ & _ & w & Hw & How). rewrite Hp. cbn [negb]. cbv iota.
    rewrite (bind_done _ _ _ _ _ (translate_done s tm _ Ha)), Hw. unfold default, id, from_option.
    destruct (to_own _ _ _ Ht w _ How) as (Hw0 & _). rewrite (proj2 (Z.eqb_neq w 0)) by lia.
    right. do 5 eexists. split; [reflexivity|]. done. }
  cbn [present zero_entry negb]. cbv iota.
  destruct (talloc_alloc_spec s tm Ha) as [E|(p & w & s1 & E & Ha1 & Ht1 & Hf & Hp & Hw0 & Hnu & Hu & Hmono)]; [left; by apply bind_stop|].
  right. rewrite (bind_done _ _ _ _ _ E). cbn [ta_paddr ta_vaddr].
  assert (own !! w = None) as Hwn.
  { destruct (own !! w) eqn:Ew; [|done]. exfalso. apply Hnu. by eapply (vo_used _ _ _ Hok). }
  assert (w <> v) as Hwv by (intros ->; congruence).
  assert (tables s1 !! v = Some tab) as Htab1 by (rewrite Ht1, lookup_insert_ne by done; done).
  rewrite (bind_done _ _ _ _ _ (put_entry_done s1 v tab i _ Htab1)).
  set (e1 := PtEntry true (SET_ADDRESS p) true (execute_disable zero_entry) true).
  exists w, (Some (Talloc p w)). eexists. exists (<[w := pi ++ [i]]> own), (<[p := w]> tm). split; [reflexivity|].
  assert (forall x, is_Some (own !! x) -> x <> v -> <[v := <[i := e1]> tab]> (tables s1) !! x = tables s !! x) as Hsame.
  { intros x [rho Hx] Hxv. rewrite lookup_insert_ne by done. rewrite Ht1, lookup_insert_ne; [done|]. intros ->. congruence. }
  assert (forall x, own !! x = Some (pi ++ [i]) -> False) as Hnochild.
  { intros x Hx. destruct (to_parent _ _ _ Ht x pi i Hx Hpi) as (v' & t' & e' & Hv' & Ht' & He').
    assert (v' = v) as -> by (by eapply to_inj). congruence. }
  split_and!.
  - split.
    + by eapply alloc_ok_same.
    + cbn [with_tables tables]. split.
      * intros x rho [[<- <-]|[Hne Hx]]%lookup_insert_Some.
        -- split_and!; [done|by destruct pi|rewrite length_app; simpl; lia|]. rewrite lookup_insert_ne by done.
           rewrite Ht1, lookup_insert_eq. by eexists.
        -- destruct (to_own _ _ _ Ht x rho Hx) as (? & ? & ? & t & Hxt). split_and!; [done..|].
           destruct (decide (x = v)) as [->|Hxv]; [rewrite lookup_insert_eq; by eexists|].
           rewrite Hsame by (try done; by eexists). by eexists.
      * intros x y rho [[<- <-]|[Hnx Hx]]%lookup_insert_Some [[<- Hy2]|[Hny Hy]]%lookup_insert_Some;
          [done|by exfalso; eapply Hnochild|subst rho; by exfalso; eapply Hnochild|by eapply to_inj].
      * intros x rho t j e [[<- <-]|[Hne Hx]]%lookup_insert_Some Hl Hxt Hj.
        { rewrite lookup_insert_ne, Ht1, lookup_insert_eq in Hxt by done. injection Hxt as <-. by rewrite lookup_empty in Hj. }
        destruct (decide (x = v)) as [->|Hxv].
        -- rewrite lookup_insert_eq in Hxt. injection Hxt as <-. assert (rho = pi) as -> by congruence.
           apply lookup_insert_Some in Hj as [[<- <-]|[Hji Hj]].
           ++ split_and!; [done..|]. exists w. unfold e1. rewrite (proj2 (SET_GET p Hf)), !lookup_insert_eq. done.
           ++ destruct (to_child _ _ _ Ht v pi tab j e Hv Hlen Htab Hj) as (? & ? & ? & ? & y & Hy & Hoy). split_and!; [done..|].
              exists y. split; [rewrite lookup_insert_ne; [done|intros ->; congruence]|]. rewrite lookup_insert_ne; [done|intros ->; congruence].
        -- rewrite Hsame in Hxt by (try done; by eexists).
           destruct (to_child _ _ _ Ht x rho t j e Hx Hl Hxt Hj) as (? & ? & ? & ? & y & Hy & Hoy). split_and!; [done..|].
           exists y. split; [rewrite lookup_insert_ne; [done|intros ->; congruence]|]. rewrite lookup_insert_ne; [done|intros ->; congruence].
      * intros x rho j [[<- Heq]|[Hne Hx]]%lookup_insert_Some Hrho.
        { apply app_inj_tail in Heq as [<- <-]. exists v, (<[i := e1]> tab), e1. rewrite lookup_insert_ne, !lookup_insert_eq by done. done. }
        destruct (to_parent _ _ _ Ht x rho j Hx Hrho) as (y & t & e & Hy & Hyt & He).
        exists y. destruct (decide (y = v)) as [->|Hyv].
        -- exists (<[i := e1]> tab), e. rewrite lookup_insert_ne, lookup_insert_eq by done. split_and!; [done|done|].
           rewrite lookup_insert_ne; congruence.
        -- exists t, e. rewrite Hsame by (try done; by eexists). rewrite lookup_insert_ne; [done|intros ->; congruence].
    + cbn [with_tables talloc_pts]. intros x rho [[<- _]|[_ Hx]]%lookup_insert_Some; [done|]. by eapply Hmono, (vo_used _ _ _ Hok).
  - apply lookup_insert_eq.
  - by apply insert_subseteq.
  - by apply insert_subseteq.
  - intros rho j e Hrho. cbn [with_tables tables]. split.
    + intros (x & t & [[<- <-]|[Hne Hx]]%lookup_insert_Some & Hxt & Hj).
      * rewrite lookup_insert_ne, Ht1, lookup_insert_eq in Hxt by done. injection Hxt as <-. by rewrite lookup_empty in Hj.
      * exists x, t. destruct (decide (x = v)) as [->|Hxv]; [exfalso; assert (rho = pi) by congruence; subst; lia|].
        rewrite Hsame in Hxt by (try done; by eexists). done.
    + intros (x & t & Hx & Hxt & Hj). exists x, t. destruct (decide (x = v)) as [->|Hxv]; [exfalso; assert (rho = pi) by congruence; subst; lia|].
      rewrite Hsame by (try done; by eexists). rewrite lookup_insert_ne; [done|intros ->; congruence].
Qed.

(** *** The walk sees exactly the leaf entries of the tree *)

Lemma frame_table_spec s tm p : alloc_ok s tm -> frame_table s p = default 0 (tm !! p).
Proof.
  intros Ha. pose proof (paging_tmap_translate_spec _ _ p (ao_tmap _ _ Ha)) as H.
  unfold paging_tmap_translate, get_bucket, bind, of_option, ret in H. unfold frame_table.
  destruct (root_entries (vm_tmap s) !! _) as [l|]; [by injection H|done].
Qed.

Lemma table_entry_Some s t i e : table_entry s t i = Some e <->
  exists tab, tables s !! t = Some tab /\ tab !! i = Some e /\ present e = true.
Proof.
  unfold table_entry. split.
  - destruct (tables s !! t) as [tab|]; simpl; [|done]. destruct (tab !! i) as [x|] eqn:E; simpl; [|done].
    destruct (present x) eqn:Ep; [|done]. intros [= <-]. by exists tab.
  - intros (tab & Ht & He & Hp). rewrite Ht. simpl. rewrite He. simpl. by rewrite Hp.
Qed.

Lemma mmu_step_spec s own tm v pi i : vm_ok s own tm -> own !! v = Some pi -> (length pi < 4)%nat ->
  (mmu_step s v i = None /\ forall w, own !! w <> Some (pi ++ [i])) \/
  exists w e, mmu_step s v i = Some (w, e) /\ own !! w = Some (pi ++ [i]) /\
    read_write e = true /\ execute_disable e = false /\ user_super e = true.
Proof.
  intros [Ha Ht _] Hv Hlen. unfold mmu_step. destruct (to_own _ _ _ Ht v pi Hv) as (_ & Hpi & _ & tab & Htab).
  destruct (table_entry s v i) as [e|] eqn:E; simpl.
  - right. apply table_entry_Some in E as (tab' & Htab' & He & Hp). assert (tab' = tab) as -> by congruence.
    destruct (to_child _ _ _ Ht v pi tab i e Hv Hlen Htab He) as (_ & ? & ? & ? & w & Hw & How).
    exists w, e. rewrite (frame_table_spec s tm _ Ha), Hw. done.
  - left. split; [done|]. intros w Hw. destruct (to_parent _ _ _ Ht w pi i Hw Hpi) as (v' & t & e & Hv' & Htt & He).
    assert (v' = v) as -> by (by eapply to_inj). destruct (to_child _ _ _ Ht v pi t i e Hv Hlen Htt He) as (Hp & _).
    assert (table_entry s v i = Some e) by (apply table_entry_Some; eauto). congruence.
Qed.

Lemma own_prefix tabs tm own w pi i j : tree_ok tabs tm own -> pi <> [] -> own !! w = Some ((pi ++ [i]) ++ [j]) ->
  exists v, own !! v = Some (pi ++ [i]).
Proof. intros Ht Hpi Hw. destruct (to_parent _ _ _ Ht w (pi ++ [i]) j Hw ltac:(by destruct pi)) as (v & _ & _ & Hv & _). by exists v. Qed.

Definition path_of (r vaddr : Z) : list Z := [r; table_index 39 vaddr; table_index 30 vaddr; table_index 21 vaddr].

Lemma mmu_walk_spec s own tm root r vaddr e : vm_ok s own tm -> own !! root = Some [r] ->
  mmu_walk s root vaddr = Some e <->
  entry_at (tables s) own (path_of r vaddr) (table_index 12 vaddr) e /\ present e = true.
Proof.
  intros Hok Hr. pose proof (vo_tree _ _ _ Hok) as Ht. unfold mmu_walk, path_of.
  set (i4 := table_index 39 vaddr). set (i3 := table_index 30 vaddr). set (i2 := table_index 21 vaddr). set (i1 := table_index 12 vaddr).
  destruct (mmu_step_spec s own tm root [r] i4 Hok Hr ltac:(simpl; lia)) as [[-> Hn]|(w3 & e4 & -> & H3 & R4 & X4 & U4)]; simpl.
  { split; [done|]. intros [(w & t & Hw & _) _].
    destruct (own_prefix _ _ _ w [r; i4] i3 i2 Ht ltac:(done) Hw) as [w2 Hw2].
    destruct (own_prefix _ _ _ w2 [r] i4 i3 Ht ltac:(done) Hw2) as [w3 Hw3]. by apply Hn in Hw3. }
  destruct (mmu_step_spec s own tm w3 _ i3 Hok H3 ltac:(simpl; lia)) as [[-> Hn]|(w2 & e3 & -> & H2 & R3 & X3 & U3)]; simpl.
  { split; [done|]. intros [(w & t & Hw & _) _].
    destruct (own_prefix _ _ _ w [r; i4] i3 i2 Ht ltac:(done) Hw) as [w2 Hw2]. by apply Hn in Hw2. }
  destruct (mmu_step_spec s own tm w2 _ i2 Hok H2 ltac:(simpl; lia)) as [[-> Hn]|(w1 & e2 & -> & H1 & R2 & X2 & U2)]; simpl.
  { split; [done|]. intros [(w & t & Hw & _) _]. by apply Hn in Hw. }
  rewrite R4, R3, R2, X4, X3, X2, U4, U3, U2. split.
  - destruct (table_entry s w1 i1) as [e1|] eqn:E; [|done]. simpl. intros [= <-].
    apply table_entry_Some in E as (tab & Htab & He & Hp).
    rewrite !andb_true_r, !orb_false_r. destruct e1 as [pr ad rw xd us]. simpl in *. subst pr.
    split; [|done]. by exists w1, tab.
  - intros [(w & t & Hw & Hwt & He) Hp]. assert (w = w1) as -> by (by eapply (to_inj _ _ _ Ht)).
    assert (table_entry s w1 i1 = Some e) as -> by (apply table_entry_Some; eauto). simpl.
    rewrite !andb_true_r, !orb_false_r. destruct e as [pr ad rw xd us]. simpl in *. by subst pr.
Qed.

(** The page a virtual address is in, of the 48 bits that are translated. *)
Definition page_of (vaddr : Z) : Z := (vaddr / PAGE_SIZE) mod 2 ^ 36.

Lemma table_index_div n vaddr : 0 <= n -> table_index n vaddr = (vaddr / 2 ^ n) mod 512.
Proof. intros Hn. unfold table_index. rewrite Z.shiftr_div_pow2 by lia. by rewrite (Z.land_ones _ 9). Qed.

Lemma page_of_indices vaddr : page_of vaddr =
  table_index 12 vaddr + 512 * (table_index 21 vaddr + 512 * (table_index 30 vaddr + 512 * table_index 39 vaddr)).
Proof.
  rewrite !table_index_div by lia. unfold page_of, PAGE_SIZE.
  replace (vaddr / 2 ^ 21) with (vaddr / 4096 / 512) by (by rewrite Z.div_div by lia).
  replace (vaddr / 2 ^ 30) with (vaddr / 4096 / 512 / 512) by (by rewrite !Z.div_div by lia).
  replace (vaddr / 2 ^ 39) with (vaddr / 4096 / 512 / 512 / 512) by (by rewrite !Z.div_div by lia).
  change (2 ^ 12) with 4096. generalize (vaddr / 4096). intros q.
  change (2 ^ 36) with (512 * (512 * (512 * 512))). by rewrite !Z.rem_mul_r by lia.
Qed.

Lemma path_of_page r r' a b : path_of r a = path_of r' b /\ table_index 12 a = table_index 12 b <-> r = r' /\ page_of a = page_of b.
Proof.
  rewrite !page_of_indices, !table_index_div by lia. unfold path_of. rewrite !table_index_div by lia. split.
  - intros [[= -> H3 H2 H1] H0]. by rewrite H3, H2, H1, H0.
  - intros [-> H]. assert (forall x, 0 <= x mod 512 < 512) as Hb by (intros x; by apply Z.mod_pos_bound).
    pose proof (Hb (a / 2 ^ 12)). pose proof (Hb (b / 2 ^ 12)). pose proof (Hb (a / 2 ^ 21)). pose proof (Hb (b / 2 ^ 21)).
    pose proof (Hb (a / 2 ^ 30)). pose proof (Hb (b / 2 ^ 30)).
    generalize dependent ((a / 2 ^ 12) mod 512). generalize dependent ((b / 2 ^ 12) mod 512).
    generalize dependent ((a / 2 ^ 21) mod 512). generalize dependent ((b / 2 ^ 21) mod 512).
    generalize dependent ((a / 2 ^ 30) mod 512). generalize dependent ((b / 2 ^ 30) mod 512).
    generalize ((a / 2 ^ 39) mod 512) ((b / 2 ^ 39) mod 512). intros.
    split; [repeat f_equal|]; lia.
Qed.

(** Writing an entry of a leaf table. *)
Lemma put_leaf s own tm v pi tab i e : vm_ok s own tm -> own !! v = Some pi -> length pi = 4%nat -> tables s !! v = Some tab ->
  exists s', put_entry v i e s = Done (tt, s') /\ vm_ok s' own tm /\ vm_tmap s' = vm_tmap s /\
  forall rho j x, length rho = 4%nat ->
    entry_at (tables s') own rho j x <-> (rho = pi /\ j = i /\ x = e) \/ (~ (rho = pi /\ j = i) /\ entry_at (tables s) own rho j x).
Proof.
  intros [Ha Ht Hu] Hv Hpi Htab. eexists. split; [by apply put_entry_done|].
  assert (forall x rho, own !! x = Some rho -> x <> v -> <[v := <[i := e]> tab]> (tables s) !! x = tables s !! x) as Hsame.
  { intros x rho _ Hxv. by rewrite lookup_insert_ne. }
  split_and!; [split; cbn [with_tables tables talloc_pts]|done|].
  - by eapply alloc_ok_same.
  - split.
    + intros x rho Hx. destruct (to_own _ _ _ Ht x rho Hx) as (? & ? & ? & Hs). split_and!; [done..|].
      destruct (decide (x = v)) as [->|]; [rewrite lookup_insert_eq; by eexists|by rewrite lookup_insert_ne].
    + apply Ht.
    + intros x rho t j y Hx Hl Hxt Hj. destruct (decide (x = v)) as [->|Hxv]; [exfalso; assert (rho = pi) by congruence; subst; lia|].
      rewrite lookup_insert_ne in Hxt by done. by eapply (to_child _ _ _ Ht x rho t j y).
    + intros x rho j Hx Hr. destruct (to_parent _ _ _ Ht x rho j Hx Hr) as (y & t & z & Hy & Hyt & Hz).
      destruct (to_own _ _ _ Ht x _ Hx) as (_ & _ & Hl & _). rewrite length_app in Hl. simpl in Hl.
      exists y, t, z. rewrite lookup_insert_ne; [done|]. intros ->. assert (rho = pi) by congruence. subst. lia.
  - apply Hu.
  - intros rho j x Hrho. cbn [with_tables tables]. split.
    + intros (w & t & Hw & Hwt & Hj). destruct (decide (w = v)) as [->|Hwv].
      * rewrite lookup_insert_eq in Hwt. injection Hwt as <-. assert (rho = pi) as -> by congruence.
        apply lookup_insert_Some in Hj as [[<- <-]|[Hji Hj]]; [by left|right]. split; [naive_solver|]. by exists v, tab.
      * rewrite lookup_insert_ne in Hwt by done. right. split; [|by exists w, t].
        intros [-> _]. apply Hwv. by eapply (to_inj _ _ _ Ht).
    + intros [(-> & -> & ->)|(Hn & w & t & Hw & Hwt & Hj)].
      * exists v, (<[i := e]> tab). by rewrite !lookup_insert_eq.
      * destruct (decide (w = v)) as [->|Hwv].
        -- assert (rho = pi) as -> by congruence. assert (t = tab) as -> by congruence. exists v, (<[i := e]> tab).
           rewrite lookup_insert_eq, lookup_insert_ne; [done|naive_solver].
        -- exists w, t. by rewrite lookup_insert_ne.
Qed.

Lemma length_path r va : length (path_of r va) = 4%nat.
Proof. done. Qed.

Lemma entry_at_fun tabs tm own pi i e e' : tree_ok tabs tm own -> entry_at tabs own pi i e -> entry_at tabs own pi i e' -> e = e'.
Proof.
  intros Ht (w & t & Hw & Hwt & He) (w' & t' & Hw' & Hwt' & He').
  assert (w' = w) as -> by (by eapply (to_inj _ _ _ Ht)). congruence.
Qed.

Lemma walk_None s own tm root r va : vm_ok s own tm -> own !! root = Some [r] ->
  (mmu_walk s root va = None <-> forall e, entry_at (tables s) own (path_of r va) (table_index 12 va) e -> present e = false).
Proof.
  intros Hok Hr. split.
  - intros Hn e He. destruct (present e) eqn:Ep; [|done]. assert (mmu_walk s root va = Some e) by (by eapply mmu_walk_spec). congruence.
  - intros Hall. destruct (mmu_walk s root va) as [e|] eqn:E; [|done]. eapply mmu_walk_spec in E as [He Hp]; [|done|done].
    rewrite (Hall _ He) in Hp. done.
Qed.

(** Two states with the same leaf entries have the same walks. *)
Lemma walk_same s s' own own' tm tm' root r va : vm_ok s own tm -> vm_ok s' own' tm' -> own !! root = Some [r] -> own' !! root = Some [r] ->
  (forall rho j e, length rho = 4%nat -> entry_at (tables s') own' rho j e <-> entry_at (tables s) own rho j e) ->
  mmu_walk s' root va = mmu_walk s root va.
Proof.
  intros Hok Hok' Hr Hr' Hsame. apply option_eq. intros e.
  rewrite (mmu_walk_spec s' own' tm' root r va e Hok' Hr'), (mmu_walk_spec s own tm root r va e Hok Hr). by rewrite Hsame.
Qed.

Lemma paging_map_single_spec s own tm root r paddr vaddr rw xd us : vm_ok s own tm -> own !! root = Some [r] ->
  paging_map_single root paddr vaddr rw xd us s = Stop Undefined \/
  exists ok allocs s' own' tm', paging_map_single root paddr vaddr rw xd us s = Done ((ok, allocs), s') /\
    vm_ok s' own' tm' /\ own ⊆ own' /\ (length allocs <= 3)%nat /\ ok = bool_decide (mmu_walk s root vaddr = None) /\
    forall root2 r2 va, own !! root2 = Some [r2] -> mmu_walk s' root2 va =
      if ok && bool_decide (root2 = root) && bool_decide (page_of va = page_of vaddr)
      then Some (PtEntry true (SET_ADDRESS paddr) rw xd us) else mmu_walk s root2 va.
Proof.
  intros Hok Hr. unfold paging_map_single.
  destruct (next_table_spec (EntryError 0x601) s own tm root [r] (table_index 39 vaddr) Hok Hr ltac:(simpl; lia))
    as [E|(w3 & a3 & s3 & own3 & tm3 & E & Hok3 & H3 & Hs3 & _ & Hsame3)]; [left; by apply bind_stop|].
  rewrite (bind_done _ _ _ _ _ E). cbv beta iota. clear E.
  destruct (next_table_spec Undefined s3 own3 tm3 w3 _ (table_index 30 vaddr) Hok3 H3 ltac:(simpl; lia))
    as [E|(w2 & a2 & s2 & own2 & tm2 & E & Hok2 & H2 & Hs2 & _ & Hsame2)]; [left; by apply bind_stop|].
  rewrite (bind_done _ _ _ _ _ E). cbv beta iota. clear E.
  destruct (next_table_spec Undefined s2 own2 tm2 w2 _ (table_index 21 vaddr) Hok2 H2 ltac:(simpl; lia))
    as [E|(w1 & a1 & s1 & own1 & tm1 & E & Hok1 & H1 & Hs1 & _ & Hsame1)]; [left; by apply bind_stop|].
  rewrite (bind_done _ _ _ _ _ E). cbv beta iota zeta. clear E.
  pose proof (vo_tree _ _ _ Hok1) as Ht1. destruct (to_own _ _ _ Ht1 w1 _ H1) as (_ & _ & _ & tab & Htab).
  rewrite (bind_done _ _ _ _ _ (get_entry_done s1 w1 tab _ Htab)).
  assert (own ⊆ own1) as Hown by (etrans; [exact Hs3|]; by etrans).
  assert (forall x y, own !! x = Some y -> own1 !! x = Some y) as Hlift by (intros x y Hx; by eapply lookup_weaken).
  assert (forall rho j e, length rho = 4%nat -> entry_at (tables s1) own1 rho j e <-> entry_at (tables s) own rho j e) as Hsame.
  { intros rho j e Hl. by rewrite Hsame1, Hsame2, Hsame3. }
  assert (length (option_list a1 ++ option_list a2 ++ option_list a3) <= 3)%nat as Hlen by (destruct a1, a2, a3; simpl; lia).
  change ((([r] ++ [table_index 39 vaddr]) ++ [table_index 30 vaddr]) ++ [table_index 21 vaddr]) with (path_of r vaddr) in H1.
  set (i := table_index 12 vaddr) in *.
  assert (forall root2 r2 va, own !! root2 = Some [r2] -> mmu_walk s1 root2 va = mmu_walk s root2 va) as Hwalk.
  { intros root2 r2 va Hr2. by eapply (walk_same s s1 own own1 tm tm1 root2 r2 va); auto. }
  assert (present (default zero_entry (tab !! i)) = negb (bool_decide (mmu_walk s root vaddr = None))) as Hpres.
  { rewrite <- (Hwalk root r vaddr Hr). destruct (present (default zero_entry (tab !! i))) eqn:Ep; symmetry.
    - apply negb_true_iff, bool_decide_eq_false. rewrite (walk_None s1 own1 tm1 root r vaddr Hok1 (Hlift _ _ Hr)). intros Hall.
      destruct (tab !! i) as [e|] eqn:Ei; [|done]. simpl in Ep.
      rewrite (Hall e) in Ep; [done|]. by exists w1, tab.
    - apply negb_false_iff, bool_decide_eq_true. apply (walk_None s1 own1 tm1 root r vaddr Hok1 (Hlift _ _ Hr)).
      intros e (w & t & Hw & Hwt & He). assert (w = w1) as -> by (by eapply (to_inj _ _ _ Ht1)).
      assert (t = tab) as -> by congruence. fold i in He. rewrite He in Ep. done. }
  rewrite Hpres, negb_involutive. destruct (bool_decide (mmu_walk s root vaddr = None)) eqn:Ed; right.
  2:{ exists false. do 4 eexists. split; [reflexivity|]. split_and!; [done|done|done|done|]. apply Hwalk. }
  destruct (put_leaf s1 own1 tm1 w1 (path_of r vaddr) tab i (PtEntry true (SET_ADDRESS paddr) rw xd us) Hok1 H1 (length_path _ _) Htab)
    as (s' & E & Hok' & _ & Hent).
  exists true. do 4 eexists. split; [by rewrite (bind_done _ _ _ _ _ E)|]. split_and!; [done|done|done|done|].
  intros root2 r2 va Hr2. rewrite andb_true_l, <- (Hwalk root2 r2 va Hr2). apply option_eq. intros e.
  rewrite (mmu_walk_spec s' own1 tm1 root2 r2 va e Hok' (Hlift _ _ Hr2)), (Hent _ _ _ (length_path _ _)).
  unfold i.
  assert (r2 = r <-> root2 = root) as Hroot.
  { split; [intros ->; by eapply (to_inj _ _ _ (vo_tree _ _ _ Hok))|intros ->; congruence]. }
  destruct (bool_decide (root2 = root) && bool_decide (page_of va = page_of vaddr)) eqn:Eb.
  - apply andb_prop in Eb as [E1 E2]. apply bool_decide_eq_true in E1, E2.
    assert (path_of r2 va = path_of r vaddr /\ table_index 12 va = table_index 12 vaddr) as [P1 P2] by (apply path_of_page; split; [by apply Hroot|done]).
    rewrite P1, P2. split.
    { intros [[(_ & Hx & ->)|[Hn _]] _]; [done|]. by exfalso; apply Hn. }
    intros [= <-]. split; [|done]. by left.
  - assert (~ (r2 = r /\ page_of va = page_of vaddr)) as Hn.
    { intros [H4%Hroot H5]. apply andb_false_iff in Eb as [Eb|Eb]; by apply bool_decide_eq_false in Eb. }
    rewrite <- path_of_page in Hn.
    rewrite (mmu_walk_spec s1 own1 tm1 root2 r2 va e Hok1 (Hlift _ _ Hr2)).
    split; [intros [[(? & ? & _)|[_ He]] Hp]; [by exfalso; apply Hn|done]|]. intros [He Hp]. split; [by right|done].
Qed.
