(* ===== verification/PageMap.v ===== *)
(** * PageMap: mapping and unmapping ranges of pages

    [paging_map_ex] and [paging_unmap] on whole ranges, how many page frames a
    mapping can take, and the properties of the mapper. *)
From S2P Require Import Prelude Bitmap TransMap PageTables PageTree.

(** *** Ranges of pages *)

Lemma page_of_u64 va : page_of (u64 va) = page_of va.
Proof.
  unfold page_of, u64, PAGE_SIZE. change (2 ^ 64) with (4096 * 2 ^ 52). rewrite Z.rem_mul_r by lia.
  rewrite (Z.mul_comm 4096), Z.div_add, Z.div_small, Z.add_0_l by (try apply Z.mod_pos_bound; lia).
  change (2 ^ 52) with (2 ^ 36 * 2 ^ 16). rewrite Z.rem_mul_r by lia.
  rewrite (Z.mul_comm (2 ^ 36)), Z.mod_add by lia. by rewrite Z.mod_mod.
Qed.
Lemma page_of_succ va : page_of (u64 (va + PAGE_SIZE)) = (page_of va + 1) mod 2 ^ 36.
Proof.
  rewrite page_of_u64. unfold page_of, PAGE_SIZE. rewrite <- (Z.mul_1_l 4096) at 1. rewrite Z.div_add by lia.
  by rewrite Zplus_mod_idemp_l.
Qed.
Lemma SET_ADDRESS_u64 p : SET_ADDRESS (u64 p) = SET_ADDRESS p.
Proof.
  unfold SET_ADDRESS, u64. rewrite !Z.shiftr_div_pow2 by lia.
  change (2 ^ 64) with (2 ^ 12 * 2 ^ 52). rewrite Z.rem_mul_r by lia.
  rewrite (Z.mul_comm (2 ^ 12)), Z.div_add, Z.div_small, Z.add_0_l by (try apply Z.mod_pos_bound; lia).
  change (2 ^ 52) with (2 ^ 40 * 2 ^ 12). rewrite Z.rem_mul_r by lia.
  rewrite (Z.mul_comm (2 ^ 40)), Z.mod_add by lia. by rewrite Z.mod_mod.
Qed.
Lemma SET_ADDRESS_u64_add p q : SET_ADDRESS (u64 p + q) = SET_ADDRESS (p + q).
Proof. by rewrite <- SET_ADDRESS_u64, u64_add_l, SET_ADDRESS_u64. Qed.

(** The index of the page of [va] in a range that starts at [vaddr]. *)
Definition range_index (vaddr va : Z) : Z := (page_of va - page_of vaddr) mod 2 ^ 36.

Lemma range_index_0 vaddr va : range_index vaddr va = 0 <-> page_of va = page_of vaddr.
Proof.
  unfold range_index, page_of. generalize (va / PAGE_SIZE) (vaddr / PAGE_SIZE). intros a b. split.
  - intros H. assert (0 <= a mod 2 ^ 36 < 2 ^ 36) by (by apply Z.mod_pos_bound).
    assert (0 <= b mod 2 ^ 36 < 2 ^ 36) by (by apply Z.mod_pos_bound).
    apply Z.mod_divide in H as [k Hk]; lia.
  - intros ->. by rewrite Z.sub_diag.
Qed.
Lemma range_index_bound vaddr va : 0 <= range_index vaddr va < 2 ^ 36.
Proof. by apply Z.mod_pos_bound. Qed.
Lemma range_index_succ vaddr va : range_index (u64 (vaddr + PAGE_SIZE)) va =
  if range_index vaddr va =? 0 then 2 ^ 36 - 1 else range_index vaddr va - 1.
Proof.
  pose proof (range_index_bound vaddr va) as Hb. unfold range_index in *. rewrite page_of_succ, Zminus_mod_idemp_r.
  replace (page_of va - (page_of vaddr + 1)) with (page_of va - page_of vaddr - 1) by lia.
  rewrite <- Zminus_mod_idemp_l. generalize dependent ((page_of va - page_of vaddr) mod 2 ^ 36). intros o Ho.
  destruct (o =? 0) eqn:E.
  - apply Z.eqb_eq in E as ->. done.
  - apply Z.eqb_neq in E. apply Z.mod_small. lia.
Qed.

(** What a walk gives once [n] pages from [vaddr] are mapped to the frames from
    [paddr]. *)
Definition range_view (n : nat) (paddr vaddr : Z) (rw xd us : bool) (old : Z -> option pt_entry) (va : Z) : option pt_entry :=
  if range_index vaddr va <? Z.of_nat n
  then Some (PtEntry true (SET_ADDRESS (paddr + range_index vaddr va * PAGE_SIZE)) rw xd us)
  else old va.

Lemma range_view_succ n paddr vaddr rw xd us old va : Z.of_nat (S n) <= 2 ^ 36 ->
  range_view n (u64 (paddr + PAGE_SIZE)) (u64 (vaddr + PAGE_SIZE)) rw xd us
    (fun va => if bool_decide (page_of va = page_of vaddr) then Some (PtEntry true (SET_ADDRESS paddr) rw xd us) else old va) va
  = range_view (S n) paddr vaddr rw xd us old va.
Proof.
  intros Hn. unfold range_view. rewrite range_index_succ, SET_ADDRESS_u64_add. pose proof (range_index_bound vaddr va) as Hb.
  destruct (range_index vaddr va =? 0) eqn:E.
  - apply Z.eqb_eq in E as E0. rewrite bool_decide_true by (by apply range_index_0). rewrite E0, Z.mul_0_l, Z.add_0_r.
    rewrite (proj2 (Z.ltb_ge _ _)) by lia. by rewrite (proj2 (Z.ltb_lt _ _)) by lia.
  - apply Z.eqb_neq in E. rewrite bool_decide_false by (by intros ?%range_index_0).
    replace (paddr + PAGE_SIZE + (range_index vaddr va - 1) * PAGE_SIZE) with (paddr + range_index vaddr va * PAGE_SIZE) by lia.
    destruct (range_index vaddr va - 1 <? Z.of_nat n) eqn:E1.
    + apply Z.ltb_lt in E1. by rewrite (proj2 (Z.ltb_lt _ _)) by lia.
    + apply Z.ltb_ge in E1. by rewrite (proj2 (Z.ltb_ge _ _)) by lia.
Qed.

(** The array of allocations always has room for one more. *)
Lemma add_allocations_done al m s : (length m.1 < m.2)%nat ->
  exists m', add_allocations al m s = Done (m', s) /\ m'.1 = m.1 ++ al /\ (length m'.1 < m'.2)%nat.
Proof.
  revert m. induction al as [|a al IH]; intros [l c] Hm; cbn [fst snd] in Hm.
  - exists (l, c). cbn [fst snd]. by rewrite app_nil_r.
  - cbn [add_allocations add_allocation]. rewrite bind_assoc. unfold guard_or. rewrite bool_decide_true by done.
    rewrite bind_ret_l, bind_ret_l.
    destruct (IH (l ++ [a], if bool_decide (S (length l) = c) then (c * 2)%nat else c)) as (m' & -> & H1 & H2).
    { cbn [fst snd]. rewrite length_app. simpl. case_bool_decide; lia. }
    exists m'. split; [done|]. split; [|done]. rewrite H1. cbn [fst]. by rewrite <- app_assoc.
Qed.

Lemma walk_page s own tm root r va va' : vm_ok s own tm -> own !! root = Some [r] -> page_of va = page_of va' ->
  mmu_walk s root va = mmu_walk s root va'.
Proof.
  intros Hok Hr Hp. apply option_eq. intros e. rewrite !(mmu_walk_spec s own tm root r _ e Hok Hr).
  destruct (proj2 (path_of_page r r va va') (conj eq_refl Hp)) as [-> ->]. done.
Qed.

Definition range_free (n : nat) (vaddr : Z) (walk : Z -> option pt_entry) : Prop :=
  forall va, range_index vaddr va < Z.of_nat n -> walk va = None.

Lemma map_pages_spec n : forall s own tm root r paddr vaddr rw xd us m, vm_ok s own tm -> own !! root = Some [r] ->
  Z.of_nat n <= 2 ^ 36 -> (length m.1 < m.2)%nat ->
  map_pages n root paddr vaddr rw xd us m s = Stop Undefined \/
  (range_free n vaddr (mmu_walk s root) ->
    exists m' s' own' tm', map_pages n root paddr vaddr rw xd us m s = Done (m', s') /\ vm_ok s' own' tm' /\ own ⊆ own' /\
      (length m'.1 <= length m.1 + 3 * n)%nat /\
      (forall va, mmu_walk s' root va = range_view n paddr vaddr rw xd us (mmu_walk s root) va) /\
      (forall root2 r2 va, own !! root2 = Some [r2] -> root2 <> root -> mmu_walk s' root2 va = mmu_walk s root2 va)) /\
  ((exists va, range_index vaddr va < Z.of_nat n /\ mmu_walk s root va <> None) ->
    map_pages n root paddr vaddr rw xd us m s = Stop Halted).
Proof.
  induction n as [|n IH]; intros s own tm root r paddr vaddr rw xd us m Hok Hr Hn Hm; cbn [map_pages].
  { right. split.
    - intros _. exists m, s, own, tm. split_and!; [done|done|done|lia| |done].
      intros va. unfold range_view. by rewrite (proj2 (Z.ltb_ge _ _)) by apply range_index_bound.
    - intros (va & Hv & _). pose proof (range_index_bound vaddr va). lia. }
  destruct (paging_map_single_spec s own tm root r paddr vaddr rw xd us Hok Hr)
    as [E|(ok & al & s1 & own1 & tm1 & E & Hok1 & Hs1 & Hal & Hokb & Hwalk)]; [left; by apply bind_stop|].
  rewrite (bind_done _ _ _ _ _ E). cbv beta iota. clear E. destruct ok; cbn [negb andb] in *.
  2:{ right. symmetry in Hokb. apply bool_decide_eq_false in Hokb. split; [|done].
      intros Hfree. exfalso. apply Hokb, Hfree. rewrite (proj2 (range_index_0 _ _)) by done. lia. }
  symmetry in Hokb. apply bool_decide_eq_true in Hokb.
  destruct (add_allocations_done al m s1 Hm) as (m1 & E & Hm1 & Hm1c). rewrite (bind_done _ _ _ _ _ E). clear E.
  assert (own1 !! root = Some [r]) as Hr1 by (by eapply lookup_weaken).
  assert (forall va, mmu_walk s1 root va = if bool_decide (page_of va = page_of vaddr)
    then Some (PtEntry true (SET_ADDRESS paddr) rw xd us) else mmu_walk s root va) as Hw1.
  { intros va. rewrite (Hwalk root r va Hr). by rewrite bool_decide_true. }
  destruct (IH s1 own1 tm1 root r (u64 (paddr + PAGE_SIZE)) (u64 (vaddr + PAGE_SIZE)) rw xd us m1 Hok1 Hr1 ltac:(lia) Hm1c)
    as [E|[Hfree Hhalt]]; [by left|]. right. split.
  - intros Hall. destruct Hfree as (m' & s' & own' & tm' & E & Hok' & Hs' & Hlen & Hv & Hother).
    { intros va Hva. rewrite Hw1. rewrite range_index_succ in Hva. destruct (range_index vaddr va =? 0) eqn:E0; [lia|].
      apply Z.eqb_neq in E0. rewrite bool_decide_false by (by intros ?%range_index_0). apply Hall. lia. }
    exists m', s', own', tm'. split_and!; [done|done|by etrans| | |].
    + rewrite Hm1, length_app in Hlen. lia.
    + intros va. rewrite Hv, <- range_view_succ by lia. unfold range_view. case_bool; [done|apply Hw1].
    + intros root2 r2 va Hr2 Hne. rewrite (Hother root2 r2 va) by (try done; by eapply lookup_weaken).
      rewrite (Hwalk root2 r2 va Hr2). by rewrite bool_decide_false.
  - intros (va & Hva & Hne). apply Hhalt. exists va. pose proof (range_index_bound vaddr va) as Hb.
    assert (range_index vaddr va <> 0) as H0.
    { intros H0%range_index_0. apply Hne. by rewrite (walk_page s own tm root r va vaddr). }
    split; [rewrite range_index_succ; rewrite (proj2 (Z.eqb_neq _ _)) by done; lia|].
    rewrite Hw1. by rewrite bool_decide_false by (by intros ?%range_index_0).
Qed.

(** *** Unmapping *)

(** Going down existing tables. *)
Lemma walk_down s own tm v pi i w0 pi0 more : vm_ok s own tm -> own !! v = Some pi -> (length pi < 4)%nat ->
  own !! w0 = Some pi0 -> pi0 = (pi ++ [i]) ++ more ->
  exists w e, get_entry v i s = Done (e, s) /\ on_tmap (paging_tmap_translate (GET_ADDRESS e)) s = Done (w, s) /\ own !! w = Some (pi ++ [i]).
Proof.
  intros Hok Hv Hlen Hw0 ->. pose proof (vo_tree _ _ _ Hok) as Ht. destruct (to_own _ _ _ Ht v pi Hv) as (_ & Hpi & _ & tab & Htab).
  assert (exists w, own !! w = Some (pi ++ [i])) as [w Hw].
  { clear -Ht Hpi Hw0. revert w0 Hw0. induction more as [|x more IH] using rev_ind; intros w0 Hw0; [exists w0; by rewrite app_nil_r in Hw0|].
    rewrite app_assoc in Hw0. destruct (to_parent _ _ _ Ht w0 _ x Hw0) as (y & _ & _ & Hy & _); [by destruct pi|]. by eapply IH. }
  destruct (to_parent _ _ _ Ht w pi i Hw Hpi) as (v' & t & e & Hv' & Htt & He).
  assert (v' = v) as -> by (by eapply (to_inj _ _ _ Ht)). assert (t = tab) as -> by congruence.
  destruct (to_child _ _ _ Ht v pi tab i e Hv Hlen Htab He) as (_ & _ & _ & _ & w' & Hw' & How').
  exists w', e. split_and!; [|by rewrite (translate_done s tm _ (vo_alloc _ _ _ Hok)), Hw'|done].
  rewrite (get_entry_done s v tab i Htab). by rewrite He.
Qed.

Lemma paging_unmap_single_spec s own tm root r vaddr : vm_ok s own tm -> own !! root = Some [r] -> mmu_walk s root vaddr <> None ->
  exists s', paging_unmap_single root vaddr s = Done (true, s') /\ vm_ok s' own tm /\ vm_tmap s' = vm_tmap s /\
    forall root2 r2 va, own !! root2 = Some [r2] -> mmu_walk s' root2 va =
      if bool_decide (root2 = root) && bool_decide (page_of va = page_of vaddr) then None else mmu_walk s root2 va.
Proof.
  intros Hok Hr Hm. pose proof (vo_tree _ _ _ Hok) as Ht. destruct (mmu_walk s root vaddr) as [e|] eqn:Ew; [|done]. clear Hm.
  apply (mmu_walk_spec s own tm root r vaddr e Hok Hr) in Ew as [Hent Hpr]. pose proof Hent as (w & t & Hw & Hwt & He).
  unfold paging_unmap_single.
  destruct (walk_down s own tm root [r] (table_index 39 vaddr) w _ [table_index 30 vaddr; table_index 21 vaddr] Hok Hr ltac:(simpl; lia) Hw eq_refl)
    as (w3 & e4 & E & E' & H3).
  rewrite (bind_done _ _ _ _ _ E), (bind_done _ _ _ _ _ E'). clear E E'.
  destruct (walk_down s own tm w3 _ (table_index 30 vaddr) w _ [table_index 21 vaddr] Hok H3 ltac:(simpl; lia) Hw eq_refl)
    as (w2 & e3 & E & E' & H2).
  rewrite (bind_done _ _ _ _ _ E), (bind_done _ _ _ _ _ E'). clear E E'.
  destruct (walk_down s own tm w2 _ (table_index 21 vaddr) w _ [] Hok H2 ltac:(simpl; lia) Hw eq_refl)
    as (w1 & e2 & E & E' & H1).
  rewrite (bind_done _ _ _ _ _ E), (bind_done _ _ _ _ _ E'). clear E E'.
  assert (w1 = w) as -> by (by eapply (to_inj _ _ _ Ht)). rewrite (bind_done _ _ _ _ _ (get_entry_done s w t _ Hwt)), He.
  unfold default, from_option, id. rewrite Hpr. cbn [negb]. cbv iota.
  destruct (put_leaf s own tm w (path_of r vaddr) t (table_index 12 vaddr)
    (PtEntry false (address e) (read_write e) (execute_disable e) (user_super e)) Hok Hw (length_path _ _) Hwt) as (s' & E & Hok' & Htm & Hput).
  exists s'. split; [by rewrite (bind_done _ _ _ _ _ E)|]. split_and!; [done|done|].
  intros root2 r2 va Hr2.
  assert (r2 = r <-> root2 = root) as Hroot.
  { split; [intros ->; by eapply (to_inj _ _ _ Ht)|intros ->; congruence]. }
  destruct (bool_decide (root2 = root) && bool_decide (page_of va = page_of vaddr)) eqn:Eb.
  - apply andb_prop in Eb as [E1 E2]. apply bool_decide_eq_true in E1, E2.
    assert (path_of r2 va = path_of r vaddr /\ table_index 12 va = table_index 12 vaddr) as [P1 P2] by (apply path_of_page; split; [by apply Hroot|done]).
    apply (walk_None s' own tm root2 r2 va Hok' Hr2). intros x Hx. rewrite P1, P2 in Hx.
    apply Hput in Hx as [(_ & _ & ->)|[Hx _]]; [done|by destruct Hx|done].
  - apply option_eq. intros x. rewrite (mmu_walk_spec s' own tm root2 r2 va x Hok' Hr2), (mmu_walk_spec s own tm root2 r2 va x Hok Hr2).
    rewrite (Hput _ _ _ (length_path _ _)).
    assert (~ (r2 = r /\ page_of va = page_of vaddr)) as Hn.
    { intros [H4%Hroot H5]. apply andb_false_iff in Eb as [Eb|Eb]; by apply bool_decide_eq_false in Eb. }
    rewrite <- path_of_page in Hn.
    split; [intros [[(? & ? & _)|[_ Hx]] Hp]; [by exfalso; apply Hn|done]|]. intros [Hx Hp]. split; [by right|done].
Qed.

Lemma unmap_pages_spec n : forall s own tm root r vaddr, vm_ok s own tm -> own !! root = Some [r] -> Z.of_nat n <= 2 ^ 36 ->
  (forall va, range_index vaddr va < Z.of_nat n -> mmu_walk s root va <> None) ->
  exists s', unmap_pages n root vaddr s = Done (tt, s') /\ vm_ok s' own tm /\ vm_tmap s' = vm_tmap s /\
    forall root2 r2 va, own !! root2 = Some [r2] -> mmu_walk s' root2 va =
      if bool_decide (root2 = root) && (range_index vaddr va <? Z.of_nat n) then None else mmu_walk s root2 va.
Proof.
  induction n as [|n IH]; intros s own tm root r vaddr Hok Hr Hn Hall; cbn [unmap_pages].
  { exists s. split_and!; [done|done|done|]. intros. rewrite (proj2 (Z.ltb_ge _ _)) by apply range_index_bound. by rewrite andb_false_r. }
  destruct (paging_unmap_single_spec s own tm root r vaddr Hok Hr) as (s1 & E & Hok1 & Htm1 & Hw1).
  { apply Hall. rewrite (proj2 (range_index_0 _ _)) by done. lia. }
  rewrite (bind_done _ _ _ _ _ E).
  destruct (IH s1 own tm root r (u64 (vaddr + PAGE_SIZE)) Hok1 Hr ltac:(lia)) as (s' & E' & Hok' & Htm' & Hw').
  { intros va Hva. rewrite range_index_succ in Hva. destruct (range_index vaddr va =? 0) eqn:E0; [lia|]. apply Z.eqb_neq in E0.
    rewrite (Hw1 root r va Hr), bool_decide_true, bool_decide_false by (try done; by intros ?%range_index_0). apply Hall. lia. }
  exists s'. split_and!; [done|done|congruence|]. intros root2 r2 va Hr2. rewrite (Hw' root2 r2 va Hr2), (Hw1 root2 r2 va Hr2), range_index_succ.
  destruct (bool_decide (root2 = root)); cbn [andb]; [|done]. pose proof (range_index_bound vaddr va).
  destruct (range_index vaddr va =? 0) eqn:E0.
  - apply Z.eqb_eq in E0 as E1. rewrite bool_decide_true by (by apply range_index_0).
    rewrite (proj2 (Z.ltb_ge _ _)), (proj2 (Z.ltb_lt _ _)) by lia. done.
  - apply Z.eqb_neq in E0. rewrite bool_decide_false by (by intros ?%range_index_0).
    destruct (range_index vaddr va - 1 <? Z.of_nat n) eqn:E1.
    + apply Z.ltb_lt in E1. by rewrite (proj2 (Z.ltb_lt _ _)) by lia.
    + apply Z.ltb_ge in E1. by rewrite (proj2 (Z.ltb_ge _ _)) by lia.
Qed.

(** *** How many free page frames are enough *)

Definition frames_left (n : nat) (b : bitmap) : Prop :=
  0 < allocation_region_start b /\ exists ks, NoDup ks /\ length ks = n /\ Forall (reservable b) ks.

Lemma frames_left_weaken n m b : (m <= n)%nat -> frames_left n b -> frames_left m b.
Proof.
  intros Hle [Hs (ks & Hnd & Hl & Hf)]. split; [done|]. exists (take m ks).
  split_and!; [eapply sublist_NoDup; [exact Hnd|apply sublist_take]|rewrite length_take; lia|by apply Forall_take].
Qed.

Lemma frames_left_reserve n b k b' : (forall j, reservable b j -> j <> k -> reservable b' j) ->
  allocation_region_start b' = allocation_region_start b -> frames_left (S n) b -> frames_left n b'.
Proof.
  intros Hkeep Hst [Hs (ks & Hnd & Hl & Hf)]. split; [by rewrite Hst|].
  rewrite Forall_forall in Hf.
  destruct (decide (k ∈ ks)) as [Hin|Hin].
  - apply list_elem_of_split in Hin as (l1 & l2 & ->). exists (l1 ++ l2).
    rewrite length_app in Hl. simpl in Hl. rewrite <- Permutation_middle in Hnd. apply NoDup_cons in Hnd as [Hk Hnd].
    split_and!; [done|rewrite length_app; lia|]. apply Forall_forall. intros j Hj. apply Hkeep; [apply Hf; set_solver|by intros ->].
  - destruct ks as [|x ks]; [done|]. apply NoDup_cons in Hnd as [_ Hnd]. simpl in Hl. exists ks.
    split_and!; [done|lia|]. apply Forall_forall. intros j Hj. apply Hkeep; [apply Hf; by right|]. intros ->. apply Hin. by right.
Qed.

Section affords.
Context {S : Type} (bm : S -> bitmap).

(** [m] returns from [s] when [K] frames are left, and takes no more than those. *)
Definition affords {A} (K : nat) (m : M S A) (s : S) : Prop :=
  forall n, frames_left (K + n) (bm s) -> exists a s', m s = Done (a, s') /\ frames_left n (bm s').

Lemma affords_bind {A B} K1 K2 (m : M S A) (k : A -> M S B) s : affords K1 m s ->
  (forall a s1, m s = Done (a, s1) -> affords K2 (k a) s1) -> affords (K1 + K2) (bind m k) s.
Proof.
  intros Hm Hk n Hn. rewrite <- Nat.add_assoc in Hn. destruct (Hm _ Hn) as (a & s1 & E & Hn1).
  destruct (Hk a s1 E n Hn1) as (b & s2 & E2 & Hn2). exists b, s2. by rewrite (bind_done _ _ _ _ _ E).
Qed.
Lemma affords_weaken {A} K K' (m : M S A) s : (K <= K')%nat -> affords K m s -> affords K' m s.
Proof. intros Hle Hm n Hn. apply Hm. eapply frames_left_weaken; [|exact Hn]. lia. Qed.
Lemma affords_pure {A} (m : M S A) s a s' : m s = Done (a, s') -> bm s' = bm s -> affords 0 m s.
Proof. intros E Hb n Hn. exists a, s'. by rewrite Hb. Qed.
Lemma affords_if {A} K (b : bool) (m1 m2 : M S A) s : affords K m1 s -> affords K m2 s -> affords K (if b then m1 else m2) s.
Proof. by destruct b. Qed.
End affords.

Ltac affords_step K1 K2 :=
  apply (affords_weaken _ (K1 + K2)); [lia|]; apply affords_bind; [|intros].

Lemma tm_reserve_affords t : bitmap_ok (tm_bitmap t) -> affords tm_bitmap 1 tm_reserve t.
Proof.
  intros Hok n Hn. unfold tm_reserve.
  destruct (bitmap_reserve_spec _ Hok) as [(k & b & -> & Hb & Hset & Hres & _ & _ & _ & Hkeep)|[_ Hnone]].
  - assert (allocation_region_start b = allocation_region_start (tm_bitmap t)) as Hst by (by rewrite Hset).
    destruct (page_addr (tm_bitmap t) k =? 0) eqn:E.
    { exfalso. destruct Hn as [Hs _]. destruct Hres as (Hk & _ & _). apply Z.eqb_eq in E. unfold page_addr, PAGE_SIZE in E. lia. }
    do 2 eexists. split; [reflexivity|]. cbn [tm_bitmap]. by eapply frames_left_reserve.
  - exfalso. destruct Hn as [_ (ks & _ & Hl & Hf)]. destruct ks as [|k ks]; [done|]. apply Forall_cons in Hf as [Hk _]. by eapply Hnone.
Qed.

Lemma tm_reserve_keeps t p t' : bitmap_ok (tm_bitmap t) -> tm_reserve t = Done (p, t') -> bitmap_ok (tm_bitmap t').
Proof. intros Hok E. destruct (tm_reserve_spec t Hok) as [E'|(q & b & E' & Hn)]; rewrite E in E'; [done|]. injection E' as -> ->. apply Hn. Qed.

Lemma modify_affords {S} (bm : S -> bitmap) f (s : S) : bm (f s) = bm s -> affords bm 0 (modify f) s.
Proof. intros H. by eapply affords_pure. Qed.

Lemma add_tmap_page_affords t : bitmap_ok (tm_bitmap t) -> affords tm_bitmap 3 add_tmap_page t.
Proof.
  intros Hok. unfold add_tmap_page. affords_step 1%nat 2%nat; [by apply tm_reserve_affords|].
  rename s1 into t1. assert (bitmap_ok (tm_bitmap t1)) as Hok1 by (by eapply tm_reserve_keeps).
  affords_step 0%nat 2%nat; [by eapply affords_pure|]. injection H0 as <- <-.
  affords_step 0%nat 2%nat; [by apply modify_affords|]. injection H0 as _ <-.
  affords_step 0%nat 2%nat; [by apply modify_affords|]. injection H0 as _ <-.
  affords_step 2%nat 0%nat; [|by eapply affords_pure]. apply affords_if; [|by eapply affords_weaken, affords_pure; [lia|..]].
  affords_step 1%nat 1%nat; [by apply tm_reserve_affords|]. apply tm_reserve_keeps in H0; [|done].
  affords_step 0%nat 1%nat; [by apply modify_affords|]. injection H1 as _ <-.
  affords_step 0%nat 1%nat; [by apply modify_affords|]. injection H1 as _ <-.
  apply affords_if; [|by eapply affords_weaken, affords_pure; [lia|..]].
  affords_step 1%nat 0%nat; [by apply tm_reserve_affords|].
  affords_step 0%nat 0%nat; by apply modify_affords.
Qed.

Lemma paging_tmap_map_affords t m p v : tmap_rep t m -> affords tm_bitmap 3 (paging_tmap_map p v) t.
Proof.
  intros [R0 R1 _ _ _]. destruct (get_bucket_done t p R1) as (l & _ & Hg). unfold paging_tmap_map.
  affords_step 0%nat 3%nat; [by eapply affords_pure|]. rewrite Hg in H. injection H as <- <-.
  destruct (add_to_chain (p, v) l); [by apply (affords_weaken _ 0); [lia|apply modify_affords]|].
  affords_step 3%nat 0%nat; [by apply add_tmap_page_affords|by apply modify_affords].
Qed.

Abbreviation vm_bitmap := (fun s => tm_bitmap (vm_tmap s)).

Lemma on_tmap_affords {A} K (m : M paging_tmap_t A) s : affords tm_bitmap K m (vm_tmap s) -> affords vm_bitmap K (on_tmap m) s.
Proof. intros Hm n Hn. destruct (Hm n Hn) as (a & t & E & Ht). do 2 eexists. split; [by apply on_tmap_done|done]. Qed.

Lemma reserve_keeps s tm p s' : alloc_ok s tm -> on_tmap tm_reserve s = Done (p, s') -> alloc_ok s' tm.
Proof. intros Hok E. destruct (reserve_spec s tm Hok) as [E'|(q & s1 & E' & H & _)]; rewrite E in E'; [done|]. by injection E' as -> ->. Qed.
Lemma reserve_affords s tm : alloc_ok s tm -> affords vm_bitmap 1 (on_tmap tm_reserve) s.
Proof. intros Hok. apply on_tmap_affords, tm_reserve_affords, (ao_tmap _ _ Hok). Qed.

Lemma add_pt_affords s tm : alloc_ok s tm -> affords vm_bitmap 2 add_pt s.
Proof.
  intros Hok. unfold add_pt. affords_step 1%nat 1%nat; [by eapply reserve_affords|]. apply (reserve_keeps _ tm) in H; [|done].
  affords_step 0%nat 1%nat; [by eapply affords_pure|]. injection H0 as <- <-.
  affords_step 0%nat 1%nat; [by apply modify_affords|]. injection H0 as _ <-.
  affords_step 1%nat 0%nat.
  - apply affords_if; [|by eapply affords_weaken, affords_pure; [lia|..]].
    affords_step 1%nat 0%nat; [eapply reserve_affords; by eapply alloc_ok_same|].
    affords_step 0%nat 0%nat; [by eapply affords_pure|]. by apply modify_affords.
  - affords_step 0%nat 0%nat; [by eapply affords_pure|]. injection H1 as <- <-.
    affords_step 0%nat 0%nat; [by apply modify_affords|]. affords_step 0%nat 0%nat; [by apply modify_affords|]. by eapply affords_pure.
Qed.

Lemma talloc_alloc_affords s tm : alloc_ok s tm -> affords vm_bitmap 6 paging_talloc_alloc s.
Proof.
  intros Hok. unfold paging_talloc_alloc. affords_step 0%nat 6%nat; [by eapply affords_pure|]. injection H as <- <-.
  affords_step 2%nat 4%nat.
  { destruct (free_slot 0 (talloc_pts s)); [by eapply affords_weaken, affords_pure; [lia|..]|].
    affords_step 2%nat 0%nat; [by eapply add_pt_affords|by eapply affords_pure]. }
  assert (alloc_ok s1 tm) as Hok1.
  { destruct (free_slot 0 (talloc_pts s)); [by injection H as _ <-|].
    destruct (add_pt_spec s tm Hok) as [E|(p & s2 & E & Hok2 & _)]; [by rewrite (bind_stop _ _ _ _ E) in H|].
    rewrite (bind_done _ _ _ _ _ E) in H. by injection H as _ <-. }
  destruct a as [k i]. affords_step 1%nat 3%nat; [by eapply reserve_affords|].
  apply (reserve_keeps _ tm) in H0; [|done].
  affords_step 0%nat 3%nat; [by eapply affords_pure|]. injection H1 as <- <-.
  affords_step 0%nat 3%nat; [by apply modify_affords|]. injection H1 as _ <-.
  affords_step 0%nat 3%nat; [by apply modify_affords|]. injection H1 as _ <-.
  affords_step 3%nat 0%nat; [|by eapply affords_pure].
  apply on_tmap_affords. eapply paging_tmap_map_affords. apply H0.
Qed.

Lemma next_table_affords stopper s own tm v pi i : vm_ok s own tm -> own !! v = Some pi -> (length pi < 4)%nat ->
  affords vm_bitmap 6 (next_table stopper v i) s.
Proof.
  intros Hok Hv Hlen. pose proof (vo_alloc _ _ _ Hok) as Ha. pose proof (vo_tree _ _ _ Hok) as Ht.
  destruct (to_own _ _ _ Ht v pi Hv) as (_ & _ & _ & tab & Htab). unfold next_table.
  pose proof (get_entry_done s v tab i Htab) as Hge. affords_step 0%nat 6%nat; [by eapply affords_pure|].
  rewrite Hge in H. injection H as <- <-. destruct (present (default zero_entry (tab !! i))) eqn:Ep; cbn [negb].
  - destruct (tab !! i) as [e|] eqn:Ei; [|done]. destruct (to_child _ _ _ Ht v pi tab i e Hv Hlen Htab Ei) as (_ & _ & _ & _ & w & Hw & How).
    pose proof (translate_done s tm (GET_ADDRESS e) Ha) as Htr. rewrite Hw in Htr.
    affords_step 0%nat 6%nat; [by eapply affords_pure|]. unfold default, from_option, id in H, Htr. rewrite Htr in H. injection H as <- <-.
    destruct (to_own _ _ _ Ht w _ How) as (Hw0 & _). rewrite (proj2 (Z.eqb_neq w 0)) by lia.
    apply (affords_weaken _ 0); [lia|]. by eapply affords_pure.
  - affords_step 6%nat 0%nat; [by eapply talloc_alloc_affords|].
    destruct (talloc_alloc_spec s tm Ha) as [E|(p & w & s2 & E & _ & Ht1 & _)]; rewrite E in H; [done|]. injection H as <- <-.
    assert (is_Some (tables s2 !! v)) as [tab2 Htab2] by (rewrite Ht1; apply lookup_insert_is_Some'; right; by eexists).
    affords_step 0%nat 0%nat; [eapply affords_pure; [by apply put_entry_done|done]|]. by eapply affords_pure.
Qed.

Lemma paging_map_single_affords s own tm root r paddr vaddr rw xd us : vm_ok s own tm -> own !! root = Some [r] ->
  affords vm_bitmap 18 (paging_map_single root paddr vaddr rw xd us) s.
Proof.
  intros Hok Hr. unfold paging_map_single.
  assert (forall st s own tm v pi i w a s1, vm_ok s own tm -> own !! v = Some pi -> (length pi < 4)%nat ->
    next_table st v i s = Done ((w, a), s1) -> exists own1 tm1, vm_ok s1 own1 tm1 /\ own1 !! w = Some (pi ++ [i])) as Hnext.
  { clear. intros st s own tm v pi i w a s1 Hok Hv Hl E.
    destruct (next_table_spec st s own tm v pi i Hok Hv Hl) as [E'|(w' & a' & s' & own' & tm' & E' & Hok' & How' & _)]; rewrite E in E'; [done|].
    injection E' as -> -> ->. eauto. }
  affords_step 6%nat 12%nat; [eapply next_table_affords; [done|done|simpl; lia]|]. destruct a as [w3 a3].
  destruct (Hnext _ s own tm root [r] _ w3 a3 s1 Hok Hr ltac:(simpl; lia) H) as (own3 & tm3 & Hok3 & H3).
  affords_step 6%nat 6%nat; [eapply next_table_affords; [done|done|simpl; lia]|]. destruct a as [w2 a2].
  destruct (Hnext _ s1 own3 tm3 w3 _ _ w2 a2 s0 Hok3 H3 ltac:(simpl; lia) H0) as (own2 & tm2 & Hok2 & H2).
  affords_step 6%nat 0%nat; [eapply next_table_affords; [done|done|simpl; lia]|]. destruct a as [w1 a1].
  destruct (Hnext _ s0 own2 tm2 w2 _ _ w1 a1 s2 Hok2 H2 ltac:(simpl; lia) H1) as (own1 & tm1 & Hok1 & Hw1).
  destruct (to_own _ _ _ (vo_tree _ _ _ Hok1) w1 _ Hw1) as (_ & _ & _ & tab & Htab). cbv zeta.
  affords_step 0%nat 0%nat; [eapply affords_pure; [by apply get_entry_done|done]|].
  rewrite (get_entry_done s2 w1 tab _ Htab) in H4. injection H4 as _ <-.
  apply affords_if; [|by eapply affords_pure].
  affords_step 0%nat 0%nat; [eapply affords_pure; [by apply put_entry_done|done]|]. by eapply affords_pure.
Qed.

Lemma map_pages_affords n : forall s own tm root r paddr vaddr rw xd us m, vm_ok s own tm -> own !! root = Some [r] ->
  Z.of_nat n <= 2 ^ 36 -> (length m.1 < m.2)%nat -> range_free n vaddr (mmu_walk s root) ->
  affords vm_bitmap (18 * n) (map_pages n root paddr vaddr rw xd us m) s.
Proof.
  induction n as [|n IH]; intros s own tm root r paddr vaddr rw xd us m Hok Hr Hn Hm Hfree; cbn [map_pages]; [by eapply affords_pure|].
  affords_step 18%nat (18 * n)%nat; [by eapply paging_map_single_affords|]. destruct a as [ok al].
  destruct (paging_map_single_spec s own tm root r paddr vaddr rw xd us Hok Hr)
    as [E|(ok' & al' & s' & own1 & tm1 & E & Hok1 & Hs1 & Hal & Hokb & Hwalk)]; rewrite E in H; [done|].
  injection H as -> -> ->.
  assert (ok = true) as ->.
  { rewrite Hokb. apply bool_decide_eq_true, Hfree. rewrite (proj2 (range_index_0 _ _)) by done. lia. }
  cbn [negb]. destruct (add_allocations_done al m s1 Hm) as (m1 & E1 & Hm1 & Hm1c).
  affords_step 0%nat (18 * n)%nat; [by eapply affords_pure|]. rewrite E1 in H. injection H as <- <-.
  eapply IH; [done|by eapply lookup_weaken|lia|done|].
  intros va Hva. rewrite (Hwalk root r va Hr). cbn [andb]. rewrite range_index_succ in Hva.
  destruct (range_index vaddr va =? 0) eqn:E0; [pose proof (range_index_bound vaddr va); lia|].
  apply Z.eqb_neq in E0. rewrite (bool_decide_false (page_of va = page_of vaddr)) by (by intros ?%range_index_0).
  rewrite andb_false_r. apply Hfree. pose proof (range_index_bound vaddr va). lia.
Qed.

(** ** Properties *)

(** C28: Mapping a range of pages that are not mapped yet returns when enough page
    frames are left (18 per page), whatever tables have to be created on the
    way.  Afterwards the processor translates page [k] of the range, in this
    page table, to frame [k] of the given frames with the given permissions,
    and every other address of this page table, and every address of every
    other page table, as before.  The array of table allocations has at most
    three entries per page. *)
Theorem paging_map_ex_range s own tm root r n paddr vaddr rw xd us :
  vm_ok s own tm -> own !! root = Some [r] -> Z.of_nat n <= 2 ^ 36 ->
  frames_left (18 * n) (tm_bitmap (vm_tmap s)) ->
  (forall va, range_index vaddr va < Z.of_nat n -> mmu_walk s root va = None) ->
  exists m s' own' tm', paging_map_ex root paddr vaddr n rw xd us s = Done (m, s') /\ vm_ok s' own' tm' /\ own ⊆ own' /\
    mp_size_pages m = n /\ mp_vaddr m = vaddr /\ (length (allocations m) <= 3 * n)%nat /\
    (forall va, mmu_walk s' root va =
      if range_index vaddr va <? Z.of_nat n
      then Some (PtEntry true (SET_ADDRESS (paddr + range_index vaddr va * PAGE_SIZE)) rw xd us) else mmu_walk s root va) /\
    (forall root2 r2 va, own !! root2 = Some [r2] -> root2 <> root -> mmu_walk s' root2 va = mmu_walk s root2 va).
Proof.
  intros Hok Hr Hn Hfr Hfree. unfold paging_map_ex.
  destruct (map_pages_affords n s own tm root r paddr vaddr rw xd us ([], 1%nat) Hok Hr Hn ltac:(simpl; lia) Hfree 0%nat) as (m & s' & E & _).
  { by rewrite Nat.add_0_r. }
  destruct (map_pages_spec n s own tm root r paddr vaddr rw xd us ([], 1%nat) Hok Hr Hn ltac:(simpl; lia)) as [E'|[H _]]; [congruence|].
  destruct (H Hfree) as (m1 & s1 & own' & tm' & E1 & Hok' & Hs' & Hl & Hv & Ho). rewrite E in E1. injection E1 as -> ->.
  rewrite (bind_done _ _ _ _ _ E). do 4 eexists. split; [reflexivity|]. split_and!; done.
Qed.

(** C30: Mapping a fresh range and unmapping the mapping that was returned leaves
    every translation of every page table as it was. *)
Theorem paging_map_unmap s own tm root r n paddr vaddr rw xd us :
  vm_ok s own tm -> own !! root = Some [r] -> Z.of_nat n <= 2 ^ 36 ->
  frames_left (18 * n) (tm_bitmap (vm_tmap s)) ->
  (forall va, range_index vaddr va < Z.of_nat n -> mmu_walk s root va = None) ->
  exists m s1 s2, paging_map_ex root paddr vaddr n rw xd us s = Done (m, s1) /\ paging_unmap root m s1 = Done (tt, s2) /\
    forall root2 r2 va, own !! root2 = Some [r2] -> mmu_walk s2 root2 va = mmu_walk s root2 va.
Proof.
  intros Hok Hr Hn Hfr Hfree. unfold paging_map_ex.
  destruct (map_pages_affords n s own tm root r paddr vaddr rw xd us ([], 1%nat) Hok Hr Hn ltac:(simpl; lia) Hfree 0%nat) as (m & s1 & E & _).
  { by rewrite Nat.add_0_r. }
  destruct (map_pages_spec n s own tm root r paddr vaddr rw xd us ([], 1%nat) Hok Hr Hn ltac:(simpl; lia)) as [E'|[H _]]; [congruence|].
  destruct (H Hfree) as (m1 & s1' & own' & tm' & E1 & Hok' & Hs' & Hl & Hv & Ho). rewrite E in E1. injection E1 as <- <-.
  assert (forall x y, own !! x = Some y -> own' !! x = Some y) as Hlift by (intros x y Hx; by eapply lookup_weaken).
  destruct (unmap_pages_spec n s1 own' tm' root r vaddr Hok' (Hlift _ _ Hr) Hn) as (s2 & E2 & _ & _ & H2).
  { intros va Hva. rewrite Hv. unfold range_view. by rewrite (proj2 (Z.ltb_lt _ _)). }
  exists (PagingMapping n m.1 vaddr), s1, s2. rewrite (bind_done _ _ _ _ _ E). split_and!; [done|done|].
  intros root2 r2 va Hr2. rewrite (H2 root2 r2 va (Hlift _ _ Hr2)). case_bool_decide as Hrt; cbn [andb]; [subst root2|by eapply Ho].
  destruct (range_index vaddr va <? Z.of_nat n) eqn:Ei; [apply Z.ltb_lt in Ei; by rewrite Hfree|].
  rewrite Hv. unfold range_view. by rewrite Ei.
Qed.

(** *** A page table to run on: one empty root table in the first window *)

Definition demo_root : Z := slot_vaddr 0 1.
Definition demo_vm : vm :=
  Vm {[ demo_root := ∅ ]} (Tmap (replicate 256 [TmapPage 0 0 []]) 0x100000 0 0 ∅ ∅ (fresh_bitmap 200 (16 * PAGE_SIZE)))
    [true :: true :: replicate 510 false] (PAGING_TALLOC_VADDR + 512 * PAGE_SIZE) 0 0 ∅ ∅.
Definition demo_own : gmap Z (list Z) := {[ demo_root := [1] ]}.

Lemma demo_vm_ok : vm_ok demo_vm demo_own ∅.
Proof.
  split.
  - split.
    + split.
      * apply fresh_bitmap_ok; vm_compute; done.
      * done.
      * apply demo_tmap_rep.
      * apply demo_tmap_rep.
      * apply demo_tmap_rep.
    + vm_compute. split; [done|by intros].
    + intros p v. by rewrite lookup_empty.
    + intros w Hw. apply list_elem_of_singleton in Hw as ->. done.
  - unfold demo_own, demo_vm. cbn [tables]. split.
    + intros v pi [<- <-]%lookup_singleton_Some. split_and!; [apply slot_vaddr_pos|done|simpl; lia|]. rewrite lookup_singleton_eq. by eexists.
    + intros v w pi [<- _]%lookup_singleton_Some [<- _]%lookup_singleton_Some. done.
    + intros v pi t i e [<- <-]%lookup_singleton_Some _ Ht He. rewrite lookup_singleton_eq in Ht. injection Ht as <-.
      by rewrite lookup_empty in He.
    + intros w pi i [_ Hp]%lookup_singleton_Some Hpi. by destruct pi as [|? [|? ?]].
  - unfold demo_own. intros v pi [<- _]%lookup_singleton_Some. exists 0%nat, 1%nat. eexists. split_and!; [done|reflexivity|done].
Qed.

Lemma fresh_reservable n start j : 0 <= j < n -> j mod 64 < 32 -> reservable (fresh_bitmap n start) j.
Proof.
  intros Hj Hm. split; [done|]. split; [done|]. intros (w & Hw & Hb). simpl in Hw. apply lookup_replicate in Hw as [-> _].
  by rewrite Z.bits_0 in Hb.
Qed.

Lemma demo_frames : frames_left 36 (tm_bitmap (vm_tmap demo_vm)).
Proof.
  split; [done|]. exists (Z.of_nat <$> seq 0 32 ++ seq 64 4). split_and!.
  - apply (NoDup_fmap_2 _). vm_compute. by repeat (constructor; [set_solver|]); constructor.
  - done.
  - assert (Forall (fun j => 0 <= j < 200 /\ j mod 64 < 32) (Z.of_nat <$> seq 0 32 ++ seq 64 4)) as H.
    { apply (bool_decide_unpack _). vm_compute. done. }
    eapply Forall_impl; [exact H|]. intros j [? ?]. by apply fresh_reservable.
Qed.

Lemma demo_unmapped va : mmu_walk demo_vm demo_root va = None.
Proof. apply (walk_None demo_vm demo_own ∅ demo_root 1 va demo_vm_ok eq_refl).
  intros e (w & t & Hw & Ht & He). unfold demo_own in Hw. apply lookup_singleton_Some in Hw as [<- _].
  cbn [demo_vm tables] in Ht. rewrite lookup_singleton_eq in Ht. injection Ht as <-. by rewrite lookup_empty in He.
Qed.

Lemma paging_map_ex_range_witness :
  exists m s', paging_map_ex demo_root 0x7000 0x401000 2 true false true demo_vm = Done (m, s') /\
    mmu_walk s' demo_root 0x402abc = Some (PtEntry true 8 true false true).
Proof.
  destruct (paging_map_ex_range demo_vm demo_own ∅ demo_root 1 2 0x7000 0x401000 true false true demo_vm_ok eq_refl
    ltac:(lia) demo_frames (fun va _ => demo_unmapped va)) as (m & s' & _ & _ & E & _ & _ & _ & _ & _ & Hv & _).
  exists m, s'. split; [exact E|]. rewrite Hv. vm_compute. reflexivity.
Defined.

Lemma paging_map_unmap_witness :
  exists m s1 s2, paging_map_ex demo_root 0x7000 0x401000 2 true false true demo_vm = Done (m, s1) /\
    paging_unmap demo_root m s1 = Done (tt, s2) /\ mmu_walk s2 demo_root 0x402abc = None.
Proof.
  destruct (paging_map_unmap demo_vm demo_own ∅ demo_root 1 2 0x7000 0x401000 true false true demo_vm_ok eq_refl
    ltac:(lia) demo_frames (fun va _ => demo_unmapped va)) as (m & s1 & s2 & E1 & E2 & Hv).
  exists m, s1, s2. split_and!; [exact E1|exact E2|]. rewrite (Hv demo_root 1 0x402abc eq_refl). apply demo_unmapped.
Defined.
