(* ===== verification/PmanIface.v ===== *)
(** * PmanIface: what the paging manager needs from the components below it

    Three interfaces: page tables ([PageMapper], implemented by PageTables),
    an address space of page ranges ([VirtualRanges], implemented by Valloc)
    and page frames ([FrameAllocator]).  Bitmap.v models the frame allocator
    the kernel links; its [bitmap_free_wrong_page] shows that releasing does not
    meet [fa_free_ok], so the manager's theorems hold for the allocator the
    interface describes.  PmanInst.v has the instances. *)
From S2P Require Import Prelude Heap Bitmap Valloc TransMap PageTables PageTree PageMap.

(** ** Ranges of pages *)

Definition in_range (vaddr pages va : Z) : Prop := range_index vaddr va < pages.
Definition range_ok (vaddr pages : Z) : Prop :=
  0 <= vaddr /\ vaddr mod PAGE_SIZE = 0 /\ 0 < pages /\ vaddr + pages * PAGE_SIZE <= 2 ^ 48.
Definition apart (a n b m : Z) : Prop := a + n * PAGE_SIZE <= b \/ b + m * PAGE_SIZE <= a.

Lemma range_index_div a va : 0 <= a < 2 ^ 48 -> 0 <= va < 2 ^ 48 -> range_index a va = (va / PAGE_SIZE - a / PAGE_SIZE) mod 2 ^ 36.
Proof.
  intros Ha Hv. unfold range_index, page_of, PAGE_SIZE. rewrite !(Z.mod_small (_ / 4096)); [done|..];
    (split; [apply Z.div_pos; lia|apply Z.div_lt_upper_bound; lia]).
Qed.

(** Two ranges of whole pages that do not overlap have no page in common. *)
Lemma apart_in_range a n b m va : range_ok a n -> range_ok b m -> apart a n b m ->
  in_range a n va -> in_range b m va -> False.
Proof.
  unfold range_ok, apart, in_range, range_index. intros (Ha0 & Ha & Hn & Hae) (Hb0 & Hb & Hm & Hbe) Hap.
  assert (0 <= page_of va < 2 ^ 36) as Hv by (by apply Z.mod_pos_bound). generalize dependent (page_of va). intros x Hx.
  unfold page_of, PAGE_SIZE in *.
  assert (a = 4096 * (a / 4096)) as Ea by (apply Z_div_exact_full_2; lia).
  assert (b = 4096 * (b / 4096)) as Eb by (apply Z_div_exact_full_2; lia).
  generalize dependent (a / 4096). intros p Ea. generalize dependent (b / 4096). intros q Eb. subst a b.
  rewrite !(Z.mod_small p), !(Z.mod_small q) by lia. intros H1 H2.
  assert (p <= x) as Hpx.
  { destruct (Z_lt_dec x p); [|lia]. replace (x - p) with (x - p + 2 ^ 36 + (-1) * 2 ^ 36) in H1 by lia.
    rewrite Z.mod_add, Z.mod_small in H1; lia. }
  assert (q <= x) as Hqx.
  { destruct (Z_lt_dec x q); [|lia]. replace (x - q) with (x - q + 2 ^ 36 + (-1) * 2 ^ 36) in H2 by lia.
    rewrite Z.mod_add, Z.mod_small in H2; lia. }
  rewrite Z.mod_small in H1, H2 by lia. lia.
Qed.

Lemma DIV_UP_pages n : 0 <= n <= 2 ^ 36 -> DIV_UP (n * PAGE_SIZE) PAGE_SIZE = n.
Proof.
  intros Hn. rewrite DIV_UP_exact by (unfold PAGE_SIZE; lia). unfold PAGE_SIZE.
  replace (n * 4096 + 4096 - 1) with (4095 + n * 4096) by lia. by rewrite Z.div_add.
Qed.

(** ** Page tables *)

Class PageMapper (T : Type) := {
  pm_new : M T paging_table_allocation_t;
  pm_free : paging_table_allocation_t -> M T unit;
  pm_map : Z -> Z -> Z -> Z -> bool -> bool -> bool -> M T paging_mapping_t;
  pm_unmap : Z -> paging_mapping_t -> M T unit;
  pm_walk : T -> Z -> Z -> option pt_entry;
  pm_ok : T -> Prop;
  pm_root : T -> Z -> Prop;
  pm_new_ok t : pm_ok t -> pm_new t = Stop Undefined \/
    exists a t', pm_new t = Done (a, t') /\ pm_ok t' /\ ~ pm_root t (ta_vaddr a) /\ pm_root t' (ta_vaddr a) /\
      (forall va, pm_walk t' (ta_vaddr a) va = None) /\
      forall r, pm_root t r -> pm_root t' r /\ forall va, pm_walk t' r va = pm_walk t r va;
  pm_map_ok t root paddr vaddr n rw xd us : pm_ok t -> pm_root t root -> n <= 2 ^ 36 ->
    (forall va, in_range vaddr n va -> pm_walk t root va = None) ->
    pm_map root paddr vaddr n rw xd us t = Stop Undefined \/
    exists m t', pm_map root paddr vaddr n rw xd us t = Done (m, t') /\ pm_ok t' /\
      mp_vaddr m = vaddr /\ mp_size_pages m = Z.to_nat n /\
      forall r, pm_root t r -> pm_root t' r /\ forall va, pm_walk t' r va =
        if bool_decide (r = root) && (range_index vaddr va <? n)
        then Some (PtEntry true (SET_ADDRESS (paddr + range_index vaddr va * PAGE_SIZE)) rw xd us)
        else pm_walk t r va;
  pm_unmap_ok t root m : pm_ok t -> pm_root t root -> Z.of_nat (mp_size_pages m) <= 2 ^ 36 ->
    (forall va, in_range (mp_vaddr m) (Z.of_nat (mp_size_pages m)) va -> pm_walk t root va <> None) ->
    exists t', pm_unmap root m t = Done (tt, t') /\ pm_ok t' /\
      forall r, pm_root t r -> pm_root t' r /\ forall va, pm_walk t' r va =
        if bool_decide (r = root) && (range_index (mp_vaddr m) va <? Z.of_nat (mp_size_pages m))
        then None else pm_walk t r va
}.

(** ** Address spaces *)

Class VirtualRanges (V : Type) := {
  vr_new : outcome V;
  vr_alloc : Z -> M V Z;
  vr_reserve : Z -> Z -> M V Z;
  vr_release : Z -> M V bool;
  vr_free : M V unit;
  vr_ok : V -> Prop;
  vr_ranges : V -> gmap Z Z;
  vr_new_ok v : vr_new = Done v -> vr_ok v /\ vr_ranges v = ∅;
  vr_range v a n : vr_ok v -> vr_ranges v !! a = Some n -> range_ok a n;
  vr_apart v a n b m : vr_ok v -> vr_ranges v !! a = Some n -> vr_ranges v !! b = Some m -> a <> b -> apart a n b m;
  vr_alloc_ok v size : vr_ok v -> 0 < size <= 2 ^ 48 ->
    (exists w, vr_alloc size v = Stop w) \/
    exists a v', vr_alloc size v = Done (a, v') /\ vr_ok v' /\ vr_ranges v !! a = None /\
      vr_ranges v' = <[a := DIV_UP size PAGE_SIZE]> (vr_ranges v);
  vr_reserve_ok v a size : vr_ok v -> 0 < size <= 2 ^ 48 -> range_ok a (DIV_UP size PAGE_SIZE) ->
    (forall b m, vr_ranges v !! b = Some m -> apart a (DIV_UP size PAGE_SIZE) b m) ->
    (exists w, vr_reserve a size v = Stop w) \/
    exists v', vr_reserve a size v = Done (a, v') /\ vr_ok v' /\ vr_ranges v !! a = None /\
      vr_ranges v' = <[a := DIV_UP size PAGE_SIZE]> (vr_ranges v);
  vr_release_ok v a n : vr_ok v -> vr_ranges v !! a = Some n ->
    exists v', vr_release a v = Done (true, v') /\ vr_ok v' /\ vr_ranges v' = delete a (vr_ranges v)
}.

(** ** Page frames *)

(** What [palloc_t] says, its array inlined: one address per page, or the first
    address of [fr_pages] consecutive ones. *)
Record frames_t := Frames { fr_type : palloc_type_t; fr_pages : Z; fr_paddrs : list Z }.

(** The frame of page [k]. *)
Definition fr_frame (fr : frames_t) (k : Z) : option Z :=
  match fr_type fr with
  | PALLOC_ALLOC => fr_paddrs fr !! Z.to_nat k
  | _ => p ← fr_paddrs fr !! 0%nat; Some (p + k * PAGE_SIZE)
  end.
(** The frames that go back when the allocation is released. *)
Definition fr_owned (fr : frames_t) : gset Z :=
  match fr_type fr with
  | PALLOC_ALLOC => list_to_set (fr_paddrs fr)
  | PALLOC_CONTIGUOUS_ALLOC => list_to_set (omap (fun k => fr_frame fr k) (seqZ 0 (fr_pages fr)))
  | PALLOC_CONTIGUOUS_MAP => ∅
  end.
Definition fresh_in (u u' : gset Z) (fr : frames_t) : Prop :=
  fr_owned fr ## u /\ u' = u ∪ fr_owned fr /\ forall p, p ∈ fr_owned fr -> frame_ok p.

Class FrameAllocator (F : Type) := {
  fa_alloc : Z -> M F frames_t;
  fa_contiguous : Z -> Z -> M F frames_t;
  fa_free : frames_t -> M F unit;
  fa_used : F -> gset Z;
  fa_alloc_ok f size : (exists w, fa_alloc size f = Stop w) \/
    exists l f', fa_alloc size f = Done (Frames PALLOC_ALLOC (DIV_UP size PAGE_SIZE) l, f') /\
      length l = Z.to_nat (DIV_UP size PAGE_SIZE) /\ NoDup l /\
      fresh_in (fa_used f) (fa_used f') (Frames PALLOC_ALLOC (DIV_UP size PAGE_SIZE) l);
  fa_contiguous_ok f size paddr : (exists w, fa_contiguous size paddr f = Stop w) \/
    exists ty p f', ty <> PALLOC_ALLOC /\
      fa_contiguous size paddr f = Done (Frames ty (DIV_UP size PAGE_SIZE) [p], f') /\
      fresh_in (fa_used f) (fa_used f') (Frames ty (DIV_UP size PAGE_SIZE) [p]);
  fa_free_ok f fr : exists f', fa_free fr f = Done (tt, f') /\ fa_used f' = fa_used f ∖ fr_owned fr
}.
