(* ===== verification/Pman.v ===== *)
(** * Pman: the paging manager (src/paging/manager.c, include/paging/manager.h)

    A mapping object is named by an identity that is never reused ([nat]); an
    identity without an entry in [pm_maps] has been freed, and following it has
    no meaning.  The list between [head] and [tail] of a context is the list of
    its identities.  The counters of live mappings and the log lines are not
    modelled, and neither are the heap blocks of the mappings.  Reference counts
    do not wrap: there are fewer than [2 ^ 64] mappings.  The kernel runs on the page table
    of the kernel context, so its reads and writes go through that table. *)
From S2P Require Import Prelude Bitmap Valloc PageTables PageMap PmanIface.

Definition PMAN_PROT_WRITE : Z := 1.
Definition PMAN_PROT_EXECUTE : Z := 2.
Definition PMAN_PROT_SHARED : Z := 4.
Definition PMAN_PROT_VRESERVE : Z := 8.
Definition has_prot (prot flag : Z) : bool := negb (Z.land prot flag =? 0).

Inductive mapping_type :=
  | PMAN_MAPPING_ALLOC (references : Z) (palloc : frames_t) (mappings : list paging_mapping_t)
  | PMAN_MAPPING_MAP (references : Z) (palloc : frames_t) (mapping : paging_mapping_t)
  | PMAN_MAPPING_BORROWED (lender : nat) (mappings : list paging_mapping_t)
  | PMAN_MAPPING_SHARED (lender : nat) (mappings : list paging_mapping_t)
  | PMAN_MAPPING_HANDLER.

Record pman_mapping_t := PmanMapping {
  m_context : nat; m_type : mapping_type; m_protection : Z; m_vaddr : Z; m_size_pages : Z
}.

Section pman.
Context {V F T : Type} `{VirtualRanges V} `{FrameAllocator F} `{PageMapper T}.

Record pman_context_t := PmanContext { c_top : paging_table_allocation_t; c_valloc : V; c_list : list nat }.
Record pman := Pman {
  pm_maps : gmap nat pman_mapping_t;
  pm_contexts : gmap nat pman_context_t;
  pm_tables : T;
  pm_frames : F;
  pm_memory : gmap Z Z;       (* bytes by physical address *)
  pm_next : nat
}.

Definition pman_kernel_context : nat := 0.

(** ** State access *)

Definition get_mapping (m : nat) : M pman pman_mapping_t := fun s => of_option Undefined (pm_maps s !! m) s.
Definition put_mapping (m : nat) (x : pman_mapping_t) : M pman unit := modify (fun s =>
  Pman (<[m := x]> (pm_maps s)) (pm_contexts s) (pm_tables s) (pm_frames s) (pm_memory s) (pm_next s)).
Definition free_mapping (m : nat) : M pman unit := modify (fun s =>
  Pman (delete m (pm_maps s)) (pm_contexts s) (pm_tables s) (pm_frames s) (pm_memory s) (pm_next s)).
Definition new_id : M pman nat := fun s =>
  Done (pm_next s, Pman (pm_maps s) (pm_contexts s) (pm_tables s) (pm_frames s) (pm_memory s) (S (pm_next s))).
Definition get_context (c : nat) : M pman pman_context_t := fun s => of_option Undefined (pm_contexts s !! c) s.
Definition put_context (c : nat) (x : pman_context_t) : M pman unit := modify (fun s =>
  Pman (pm_maps s) (<[c := x]> (pm_contexts s)) (pm_tables s) (pm_frames s) (pm_memory s) (pm_next s)).
Definition on_tables {A} : M T A -> M pman A := zoom pm_tables (fun t s =>
  Pman (pm_maps s) (pm_contexts s) t (pm_frames s) (pm_memory s) (pm_next s)).
Definition on_frames {A} : M F A -> M pman A := zoom pm_frames (fun f s =>
  Pman (pm_maps s) (pm_contexts s) (pm_tables s) f (pm_memory s) (pm_next s)).
Definition on_valloc {A} (c : nat) (m : M V A) : M pman A :=
  let! x := get_context c in
  match m (c_valloc x) with
  | Done (a, v) => do! put_context c (PmanContext (c_top x) v (c_list x)); ret a
  | Stop w => stop_with w
  end.

(** Link a mapping in behind [head], and unlink one. *)
Definition list_mapping (c m : nat) : M pman unit :=
  let! x := get_context c in put_context c (PmanContext (c_top x) (c_valloc x) (m :: c_list x)).
Definition unlist_mapping (c m : nat) : M pman unit :=
  let! x := get_context c in put_context c (PmanContext (c_top x) (c_valloc x) (remove_first (Nat.eqb m) (c_list x))).

(** ** References *)

Fixpoint root_from (fuel : nat) (m : nat) : M pman nat :=
  match fuel with
  | O => stop_with NoFuel
  | S fuel' =>
      let! x := get_mapping m in
      match m_type x with
      | PMAN_MAPPING_BORROWED lender _ | PMAN_MAPPING_SHARED lender _ => root_from fuel' lender
      | _ => ret m
      end
  end.
(** A chain of lenders visits a mapping at most once. *)
Definition get_root_mapping (m : nat) : M pman nat :=
  let! s := get in root_from (S (size (pm_maps s))) m.

Definition set_type (m : nat) (x : pman_mapping_t) (ty : mapping_type) : M pman unit :=
  put_mapping m (PmanMapping (m_context x) ty (m_protection x) (m_vaddr x) (m_size_pages x)).

Definition pman_add_reference (m : nat) : M pman unit :=
  let! x := get_mapping m in
  match m_type x with
  | PMAN_MAPPING_ALLOC r p l => set_type m x (PMAN_MAPPING_ALLOC (r + 1) p l)
  | PMAN_MAPPING_MAP r p l => set_type m x (PMAN_MAPPING_MAP (r + 1) p l)
  | _ => stop_with Undefined
  end.

(** ** Mapping pages *)

(** One mapping of one page per frame. *)
Fixpoint map_each (root : Z) (ps : list Z) (vaddr : Z) (rw xd us : bool) : M T (list paging_mapping_t) :=
  match ps with
  | [] => ret []
  | p :: ps' =>
      let! m := pm_map root p vaddr 1 rw xd us in
      let! ms := map_each root ps' (u64 (vaddr + PAGE_SIZE)) rw xd us in
      ret (m :: ms)
  end.
Fixpoint unmap_each (root : Z) (ms : list paging_mapping_t) : M T unit :=
  match ms with
  | [] => ret tt
  | m :: ms' => do! pm_unmap root m; unmap_each root ms'
  end.

Definition is_user (c : nat) : bool := negb (Nat.eqb c pman_kernel_context).
Definition get_range (c : nat) (any : bool) (vaddr size : Z) : M pman Z :=
  on_valloc c (if any then vr_alloc size else vr_reserve vaddr size).

Definition pman_context_add_alloc (c : nat) (prot vaddr sz : Z) : M pman nat :=
  let pages := DIV_UP sz PAGE_SIZE in
  let! m := new_id in
  let! va := get_range c (vaddr =? 0) vaddr sz in
  let! fr := on_frames (fa_alloc (u64 (pages * PAGE_SIZE))) in
  let! x := get_context c in
  let! ms := on_tables (map_each (ta_vaddr (c_top x)) (fr_paddrs fr) va
               (has_prot prot PMAN_PROT_WRITE) (negb (has_prot prot PMAN_PROT_EXECUTE)) (is_user c)) in
  do! put_mapping m (PmanMapping c (PMAN_MAPPING_ALLOC 1 fr ms) prot va pages);
  do! list_mapping c m;
  ret m.

Definition pman_context_add_map (c : nat) (prot vaddr paddr sz : Z) : M pman nat :=
  let pages := DIV_UP sz PAGE_SIZE in
  let! m := new_id in
  let! va := get_range c ((vaddr =? 0) && negb (has_prot prot PMAN_PROT_VRESERVE)) vaddr sz in
  let! fr := on_frames (fa_contiguous (u64 (pages * PAGE_SIZE)) paddr) in
  let! x := get_context c in
  let! p := of_option Undefined (fr_paddrs fr !! 0%nat) in
  let! pm := on_tables (pm_map (ta_vaddr (c_top x)) p va pages
               (has_prot prot PMAN_PROT_WRITE) (negb (has_prot prot PMAN_PROT_EXECUTE)) (is_user c)) in
  do! put_mapping m (PmanMapping c (PMAN_MAPPING_MAP 1 fr pm) prot va pages);
  do! list_mapping c m;
  ret m.

(** The frames of the root, mapped page by page or as one block. *)
Definition lend_pages (root_lender : pman_mapping_t) (c : nat) (va : Z) (rw xd : bool) : M pman (list paging_mapping_t) :=
  let! x := get_context c in
  match m_type root_lender with
  | PMAN_MAPPING_ALLOC _ fr _ => on_tables (map_each (ta_vaddr (c_top x)) (fr_paddrs fr) va rw xd (is_user c))
  | PMAN_MAPPING_MAP _ fr _ =>
      let! p := of_option Undefined (fr_paddrs fr !! 0%nat) in
      let! pm := on_tables (pm_map (ta_vaddr (c_top x)) p va (m_size_pages root_lender) rw xd (is_user c)) in
      ret [pm]
  | _ => stop_with Undefined
  end.

(** An empty borrowing of an ALLOC mapping panics. *)
Definition pman_context_add_borrowed (c : nat) (prot : Z) (lender : nat) (vaddr : Z) : M pman nat :=
  let! root_lender := get_root_mapping lender in
  let! m := new_id in
  let! l := get_mapping lender in
  let! va := get_range c (vaddr =? 0) vaddr (u64 (m_size_pages l * PAGE_SIZE)) in
  do! pman_add_reference root_lender;
  let! r := get_mapping root_lender in
  do! (match m_type r with
       | PMAN_MAPPING_ALLOC _ _ ms => guard_or (Panic "yep") (negb (bool_decide (length ms = 0%nat)))
       | _ => ret tt
       end);
  let! ms := lend_pages r c va false (negb (has_prot prot PMAN_PROT_EXECUTE)) in
  do! put_mapping m (PmanMapping c (PMAN_MAPPING_BORROWED root_lender ms) prot va (m_size_pages l));
  do! list_mapping c m;
  ret m.

Definition pman_context_add_shared (c : nat) (prot : Z) (lender : nat) (vaddr : Z) : M pman nat :=
  let! root_lender := get_root_mapping lender in
  let! m := new_id in
  let! l := get_mapping lender in
  let! va := get_range c (vaddr =? 0) vaddr (u64 (m_size_pages l * PAGE_SIZE)) in
  do! pman_add_reference root_lender;
  let! r := get_mapping root_lender in
  let! ms := lend_pages r c va (has_prot prot PMAN_PROT_WRITE) (negb (has_prot prot PMAN_PROT_EXECUTE)) in
  do! put_mapping m (PmanMapping c (PMAN_MAPPING_SHARED root_lender ms) prot va (m_size_pages l));
  do! list_mapping c m;
  ret m.

(** ** Unmapping *)

(** Unlink, release the range, unmap the pages, and free the object; what
    [before] and [after] do is the only difference between the types. *)
Definition drop_range (x : pman_mapping_t) (ms : list paging_mapping_t) : M pman unit :=
  let! _ := on_valloc (m_context x) (vr_release (m_vaddr x)) in
  let! k := get_context (m_context x) in
  on_tables (unmap_each (ta_vaddr (c_top k)) ms).

Fixpoint unmap_from (fuel : nat) (m : nat) : M pman unit :=
  match fuel with
  | O => stop_with NoFuel
  | S fuel' =>
      let! x := get_mapping m in
      match m_type x with
      | PMAN_MAPPING_ALLOC refs fr ms =>
          do! set_type m x (PMAN_MAPPING_ALLOC (refs - 1) fr ms);
          if refs - 1 =? 0 then
            do! unlist_mapping (m_context x) m;
            do! drop_range x ms;
            do! on_frames (fa_free fr);
            free_mapping m
          else ret tt
      | PMAN_MAPPING_MAP refs fr pm =>
          do! set_type m x (PMAN_MAPPING_MAP (refs - 1) fr pm);
          if refs - 1 =? 0 then
            do! unlist_mapping (m_context x) m;
            do! drop_range x [pm];
            do! on_frames (fa_free fr);
            free_mapping m
          else ret tt
      | PMAN_MAPPING_BORROWED lender ms | PMAN_MAPPING_SHARED lender ms =>
          do! unlist_mapping (m_context x) m;
          do! unmap_from fuel' lender;
          do! drop_range x ms;
          free_mapping m
      | PMAN_MAPPING_HANDLER => ret tt
      end
  end.
Definition pman_context_unmap (m : nat) : M pman code :=
  let! s := get in
  do! unmap_from (S (size (pm_maps s))) m; ret (Num 0).

(** ** Contexts *)

Definition pman_new_context (c : nat) : M pman nat :=
  let! a := on_tables pm_new in
  match vr_new with
  | Stop w => stop_with w
  | Done v => do! put_context c (PmanContext a v []); ret c
  end.

Fixpoint unmap_all (fuel : nat) (c : nat) : M pman unit :=
  match fuel with
  | O => stop_with NoFuel
  | S fuel' =>
      let! x := get_context c in
      match c_list x with
      | [] => ret tt
      | m :: _ => do! pman_context_unmap m; unmap_all fuel' c
      end
  end.
Definition pman_free_context (fuel : nat) (c : nat) : M pman code :=
  do! unmap_all fuel c;
  let! x := get_context c in
  do! on_valloc c vr_free;
  do! on_tables (pm_free (c_top x));
  do! modify (fun s => Pman (pm_maps s) (delete c (pm_contexts s)) (pm_tables s) (pm_frames s) (pm_memory s) (pm_next s));
  ret (Num 0).

(** The first mapping of the list that covers the address. *)
Fixpoint find_vaddr (l : list nat) (vaddr : Z) : M pman (option nat) :=
  match l with
  | [] => ret None
  | m :: l' =>
      let! x := get_mapping m in
      if (m_vaddr x <=? vaddr) && (vaddr <? u64 (m_vaddr x + u64 (m_size_pages x * PAGE_SIZE)))
      then ret (Some m) else find_vaddr l' vaddr
  end.
Definition pman_context_get_vaddr (c : nat) (vaddr : Z) : M pman (option nat) :=
  let! x := get_context c in find_vaddr (c_list x) vaddr.

(** ** The kernel's own loads and stores *)

Definition phys_of (e : pt_entry) (va : Z) : Z := GET_ADDRESS e + va mod PAGE_SIZE.
Definition load (s : pman) (c : nat) (va : Z) : option Z :=
  x ← pm_contexts s !! c; e ← pm_walk (pm_tables s) (ta_vaddr (c_top x)) va;
  Some (default 0 (pm_memory s !! phys_of e va)).

(** A byte the kernel copies; a page that is not present ends in [halt]. *)
Definition copy_byte (dst src : Z) : M pman unit := fun s =>
  match pm_contexts s !! pman_kernel_context with
  | Some x =>
      match load s pman_kernel_context src, pm_walk (pm_tables s) (ta_vaddr (c_top x)) dst with
      | Some b, Some e => Done (tt, Pman (pm_maps s) (pm_contexts s) (pm_tables s) (pm_frames s)
          (<[phys_of e dst := b]> (pm_memory s)) (pm_next s))
      | _, _ => Stop Halted
      end
  | None => Stop Undefined
  end.
Definition memcpy (dst src n : Z) : M pman unit :=
  for_range (Z.to_nat n) (fun i => copy_byte (u64 (dst + Z.of_nat i)) (u64 (src + Z.of_nat i))).

Definition pman_context_resize (m : nat) (new_vaddr sz : Z) : M pman nat :=
  let! x := get_mapping m in
  match m_type x with
  | PMAN_MAPPING_ALLOC _ _ _ =>
      let! n := pman_context_add_alloc pman_kernel_context (m_protection x) 0 sz in
      let! y := get_mapping n in
      do! memcpy (m_vaddr y) (m_vaddr x) (MIN (u64 (m_size_pages x * PAGE_SIZE)) sz);
      do! pman_context_unmap m;
      ret n
  | PMAN_MAPPING_BORROWED _ _ =>
      let vaddr := if new_vaddr =? 0 then m_vaddr x else new_vaddr in
      let! new_lender := pman_context_add_alloc pman_kernel_context PMAN_PROT_WRITE 0 sz in
      let! y := get_mapping new_lender in
      let! root := get_root_mapping m in
      let! r := get_mapping root in
      do! memcpy (m_vaddr y) (m_vaddr r) (MIN (u64 (m_size_pages x * PAGE_SIZE)) sz);
      do! pman_context_unmap m;
      let! n := pman_context_add_shared (m_context x) (m_protection x) new_lender vaddr in
      do! pman_context_unmap new_lender;
      ret n
  | _ => stop_with (Panic "Resize of non borrowed or alloc memory unimplemented")
  end.

Definition references (ty : mapping_type) : option Z :=
  match ty with PMAN_MAPPING_ALLOC r _ _ | PMAN_MAPPING_MAP r _ _ => Some r | _ => None end.

(** The mapping to write through, and whether the threads' stack mappings have
    to be renamed ([process_remap], Process.v). *)
Definition pman_context_prepare_write (m : nat) : M pman (nat * bool) :=
  let! x := get_mapping m in
  match m_type x with
  | PMAN_MAPPING_BORROWED _ _ =>
      let! root := get_root_mapping m in
      let! r := get_mapping root in
      let! refs := of_option Undefined (references (m_type r)) in
      if refs =? 1 then
        do! pman_add_reference root;
        do! pman_context_unmap m;
        let! u := pman_context_add_shared (m_context x) (m_protection x) root (m_vaddr x) in
        do! pman_context_unmap root;
        ret (u, true)
      else
        let n := u64 (m_size_pages r * PAGE_SIZE) in
        let! k := pman_context_add_alloc pman_kernel_context PMAN_PROT_WRITE 0 n in
        let! y := get_mapping k in
        do! memcpy (m_vaddr y) (m_vaddr r) n;
        do! pman_context_unmap m;
        let! u := pman_context_add_shared (m_context x) (m_protection x) k (m_vaddr x) in
        do! pman_context_unmap k;
        ret (u, true)
  | _ => ret (m, false)
  end.

(** ** Page faults *)

Inductive fault_result :=
  | FaultSignal               (* SIG_PAGE for the current process *)
  | FaultRetry (m : nat) (remapped : bool).

(** A fault in the kernel halts the machine.  [pman_context_prepare_write]
    always returns a mapping, so what the handler does with [NULL] is not
    reached; its output on the debug port is not modelled. *)
Definition pman_page_fault_handler (user looping : bool) (c : nat) (fault_vaddr : Z) : M pman fault_result :=
  if negb user then stop_with (if looping then Panic "Stopped kernel page fault loop" else Halted)
  else
    let! mapping := pman_context_get_vaddr c fault_vaddr in
    match mapping with
    | None => ret FaultSignal
    | Some m => let! r := pman_context_prepare_write m in ret (FaultRetry r.1 r.2)
    end.
End pman.
