(* ===== verification/PmanInv.v ===== *)
(** * PmanInv: the invariant of the paging manager, and the steps that keep it

    Reference counts, page tables, address ranges and frames of all mappings
    are tied together by [pman_inv].  Adding a mapping and taking one out of its
    list are shown here to keep it; PmanOps composes the steps into the
    operations. *)
From S2P Require Import Prelude Bitmap Valloc PageTables PageTree PageMap PmanIface Pman.

(** ** Ranges *)

Lemma range_index_shift a k va : 0 <= k <= 2 ^ 36 ->
  range_index (a + k * PAGE_SIZE) va =
    if range_index a va <? k then range_index a va - k + 2 ^ 36 else range_index a va - k.
Proof.
  intros Hk. pose proof (range_index_bound a va) as Hb.
  assert (range_index (a + k * PAGE_SIZE) va = (range_index a va - k) mod 2 ^ 36) as ->.
  { unfold range_index. unfold page_of at 2 4. unfold PAGE_SIZE. rewrite Z.div_add by lia.
    rewrite Zminus_mod_idemp_r, Zminus_mod_idemp_l.
    replace (page_of va - (a / 4096) mod 2 ^ 36 - k) with (page_of va - k - (a / 4096) mod 2 ^ 36) by lia.
    rewrite Zminus_mod_idemp_r. f_equal. lia. }
  case_match eqn:E.
  - apply Z.ltb_lt in E. rewrite <- (Z.mod_add _ 1) by lia. rewrite Z.mod_small; lia.
  - apply Z.ltb_ge in E. rewrite Z.mod_small; lia.
Qed.

(** A list of page mappings that covers [n] pages from [a] one after another. *)
Fixpoint tiled (ms : list paging_mapping_t) (a n : Z) : Prop :=
  match ms with
  | [] => n = 0
  | m :: ms' => mp_vaddr m = a /\ 0 < Z.of_nat (mp_size_pages m) <= n /\
      tiled ms' (a + Z.of_nat (mp_size_pages m) * PAGE_SIZE) (n - Z.of_nat (mp_size_pages m))
  end.

Section pman_proofs.
Context {V F T : Type} `{HV : VirtualRanges V} `{HF : FrameAllocator F} `{HT : PageMapper T}.

(** What the operations on tables change: the walks of one table. *)
Definition tables_to (t t' : T) (root : Z) (f : Z -> option pt_entry -> option pt_entry) : Prop :=
  pm_ok t' /\ forall r, pm_root t r -> pm_root t' r /\
    forall va, pm_walk t' r va = if bool_decide (r = root) then f va (pm_walk t r va) else pm_walk t r va.

Definition page_entry (rw xd us : bool) (p : Z) : pt_entry := PtEntry true (SET_ADDRESS p) rw xd us.

Lemma map_each_spec ps : forall t root a rw xd us, pm_ok t -> pm_root t root ->
  (ps = [] \/ range_ok a (Z.of_nat (length ps))) ->
  (forall va, in_range a (Z.of_nat (length ps)) va -> pm_walk t root va = None) ->
  map_each root ps a rw xd us t = Stop Undefined \/
  exists ms t', map_each root ps a rw xd us t = Done (ms, t') /\ length ms = length ps /\
    tiled ms a (Z.of_nat (length ps)) /\
    tables_to t t' root (fun va old => match ps !! Z.to_nat (range_index a va) with
      | Some p => Some (page_entry rw xd us p) | None => old end).
Proof.
  induction ps as [|p ps IH]; intros t root a rw xd us Hok Hr Ha Hfree; cbn [map_each].
  { right. exists [], t. split_and!; [done|done|done|]. split; [done|]. intros r Hr'. split; [done|]. intros va. by case_bool_decide. }
  destruct Ha as [|Ha]; [done|]. destruct Ha as (Ha0 & Ham & _ & Hae). cbn [length] in Hae, Hfree.
  destruct (pm_map_ok t root p a 1 rw xd us Hok Hr ltac:(lia)) as [E|(m & t1 & E & Hok1 & Hmv & Hms & Hw)]; [..|].
  { intros va Hva. apply Hfree. unfold in_range in *. lia. }
  { left. by apply bind_stop. }
  rewrite (bind_done _ _ _ _ _ E).
  assert (u64 (a + PAGE_SIZE) = a + 1 * PAGE_SIZE) as Hu by (rewrite u64_small; unfold PAGE_SIZE in *; lia). rewrite Hu.
  assert (Z.of_nat (length ps) < 2 ^ 36) as Hlen by (unfold PAGE_SIZE in *; lia).
  pose proof (fun va => range_index_bound a va) as Hb.
  destruct (IH t1 root (a + 1 * PAGE_SIZE) rw xd us Hok1 (proj1 (Hw root Hr))) as [E1|(ms & t2 & E1 & Hl & Ht & Hok2 & Hw2)].
  { destruct ps as [|q ps]; [by left|right]. cbn [length] in *. unfold range_ok. rewrite Z.mod_add by done. unfold PAGE_SIZE in *. split_and!; lia. }
  { intros va Hva. rewrite (proj2 (Hw root Hr) va), bool_decide_true by done. cbn [andb]. unfold in_range in Hva.
    rewrite range_index_shift in Hva by lia. specialize (Hb va). destruct (range_index a va <? 1) eqn:E0.
    - apply Z.ltb_lt in E0. lia.
    - apply Z.ltb_ge in E0. apply Hfree. unfold in_range. lia. }
  { left. by apply bind_stop. }
  right. rewrite (bind_done _ _ _ _ _ E1). do 2 eexists. split; [reflexivity|]. split_and!; [by cbn; rewrite Hl| |].
  - cbn [tiled]. rewrite Hms. change (Z.of_nat (Z.to_nat 1)) with 1. cbn [length]. split_and!; [done|lia|lia|].
    replace (Z.of_nat (S (length ps)) - 1) with (Z.of_nat (length ps)) by lia. done.
  - split; [done|]. intros r Hr'. destruct (Hw r Hr') as [Hr1 Hw1]. destruct (Hw2 r Hr1) as [Hr2 Hw3]. split; [done|].
    intros va. rewrite Hw3, Hw1. case_bool_decide as Hd; cbn [andb]; [|done]. specialize (Hb va).
    rewrite range_index_shift by lia. destruct (range_index a va <? 1) eqn:E0.
    + apply Z.ltb_lt in E0. replace (range_index a va) with 0 by lia. rewrite lookup_ge_None_2 by lia.
      cbn. by rewrite Z.add_0_r.
    + apply Z.ltb_ge in E0. replace (Z.to_nat (range_index a va)) with (S (Z.to_nat (range_index a va - 1))) by lia. done.
Qed.

Lemma unmap_each_spec ms : forall t root a n, pm_ok t -> pm_root t root -> tiled ms a n -> n <= 2 ^ 36 ->
  (forall va, in_range a n va -> pm_walk t root va <> None) ->
  exists t', unmap_each root ms t = Done (tt, t') /\
    tables_to t t' root (fun va old => if range_index a va <? n then None else old).
Proof.
  induction ms as [|m ms IH]; intros t root a n Hok Hr Ht Hn Hm; cbn [unmap_each].
  { cbn in Ht. subst n. exists t. split; [done|]. split; [done|]. intros r Hr'. split; [done|]. intros va.
    rewrite (proj2 (Z.ltb_ge _ _)) by apply range_index_bound. by case_bool_decide. }
  destruct Ht as (Hv & Hs & Ht). set (k := Z.of_nat (mp_size_pages m)) in *.
  destruct (pm_unmap_ok t root m Hok Hr ltac:(lia)) as (t1 & E & Hok1 & Hw).
  { intros va Hva. apply Hm. rewrite Hv in Hva. unfold in_range in *. fold k in Hva. lia. }
  rewrite (bind_done _ _ _ _ _ E). rewrite Hv in Hw. fold k in Hw.
  destruct (IH t1 root (a + k * PAGE_SIZE) (n - k) Hok1 (proj1 (Hw root Hr)) Ht ltac:(lia)) as (t2 & E2 & Hok2 & Hw2).
  { intros va Hva. rewrite (proj2 (Hw root Hr) va), bool_decide_true by done. cbn [andb]. unfold in_range in Hva.
    pose proof (range_index_bound a va) as Hb.
    rewrite range_index_shift in Hva by lia. destruct (range_index a va <? k) eqn:E0; [lia|]. apply Hm. unfold in_range. lia. }
  exists t2. split; [done|]. split; [done|]. intros r Hr'. destruct (Hw r Hr') as [Hr1 Hw1]. destruct (Hw2 r Hr1) as [Hr2 Hw3].
  split; [done|]. intros va. rewrite Hw3, Hw1. case_bool_decide as Hd; cbn [andb]; [|done].
  pose proof (range_index_bound a va) as Hb. rewrite range_index_shift by lia. destruct (range_index a va <? k) eqn:E0.
  - apply Z.ltb_lt in E0. rewrite (proj2 (Z.ltb_ge _ _)), (proj2 (Z.ltb_lt _ _)) by lia. done.
  - apply Z.ltb_ge in E0. destruct (range_index a va <? n) eqn:E1.
    + apply Z.ltb_lt in E1. by rewrite (proj2 (Z.ltb_lt _ _)) by lia.
    + apply Z.ltb_ge in E1. by rewrite (proj2 (Z.ltb_ge _ _)) by lia.
Qed.

(** ** The invariant *)

Abbreviation pman_state := (@pman V F T).
Abbreviation context_t := (@pman_context_t V).
Implicit Types (s : pman_state) (x : context_t).

Definition lender_of (y : pman_mapping_t) : option nat :=
  match m_type y with PMAN_MAPPING_BORROWED l _ | PMAN_MAPPING_SHARED l _ => Some l | _ => None end.
Definition root_of (m : nat) (y : pman_mapping_t) : nat := default m (lender_of y).
Definition frames_of (y : pman_mapping_t) : option frames_t :=
  match m_type y with PMAN_MAPPING_ALLOC _ fr _ | PMAN_MAPPING_MAP _ fr _ => Some fr | _ => None end.
Definition refs_of (y : pman_mapping_t) : option Z := references (m_type y).
Definition paging_of (y : pman_mapping_t) : list paging_mapping_t :=
  match m_type y with
  | PMAN_MAPPING_ALLOC _ _ l | PMAN_MAPPING_BORROWED _ l | PMAN_MAPPING_SHARED _ l => l
  | PMAN_MAPPING_MAP _ _ l => [l]
  | PMAN_MAPPING_HANDLER => []
  end.
(** A borrowed mapping is read-only whatever its protection says. *)
Definition shown_rw (y : pman_mapping_t) : bool :=
  match m_type y with PMAN_MAPPING_BORROWED _ _ => false | _ => has_prot (m_protection y) PMAN_PROT_WRITE end.
Definition shown_entry (y : pman_mapping_t) (p : Z) : pt_entry :=
  page_entry (shown_rw y) (negb (has_prot (m_protection y) PMAN_PROT_EXECUTE)) (is_user (m_context y)) p.

Definition walk (s : pman_state) (x : context_t) (va : Z) : option pt_entry :=
  pm_walk (pm_tables s) (ta_vaddr (c_top x)) va.

(** The mappings that borrow from [r], those being torn down left out. *)
Definition borrowers (s : pman_state) (zs : gset nat) (r : nat) : nat :=
  size (filter (fun p => lender_of p.2 = Some r /\ p.1 ∉ zs) (pm_maps s)).

(** The range, the page mappings and the present pages of a mapping. *)
Definition placed (s : pman_state) (y : pman_mapping_t) : Prop :=
  exists x, pm_contexts s !! m_context y = Some x /\ vr_ranges (c_valloc x) !! m_vaddr y = Some (m_size_pages y) /\
    tiled (paging_of y) (m_vaddr y) (m_size_pages y) /\
    forall va, in_range (m_vaddr y) (m_size_pages y) va -> walk s x va <> None.

(** The pages of a mapping are the frames of a live root of the same size. *)
Definition shows_root (s : pman_state) (zs : gset nat) (m : nat) (y : pman_mapping_t) : Prop :=
  exists x z fr, pm_contexts s !! m_context y = Some x /\ pm_maps s !! root_of m y = Some z /\ (root_of m y ∉ zs) /\
    frames_of z = Some fr /\ m_size_pages z = m_size_pages y /\
    forall va, in_range (m_vaddr y) (m_size_pages y) va ->
      exists p, fr_frame fr (range_index (m_vaddr y) va) = Some p /\ walk s x va = Some (shown_entry y p).

(** The frames of a root are one per page, or one block. *)
Definition kind_ok (y : pman_mapping_t) (fr : frames_t) : Prop :=
  match m_type y with
  | PMAN_MAPPING_ALLOC _ _ _ => fr_type fr = PALLOC_ALLOC /\ Z.of_nat (length (fr_paddrs fr)) = m_size_pages y
  | PMAN_MAPPING_MAP _ _ _ => fr_type fr <> PALLOC_ALLOC
  | _ => True
  end.

(** [own r] is the number of references to [r] its clients hold; [zs] are the
    mappings being torn down. *)
Record pman_inv (s : pman_state) (own : nat -> nat) (zs : gset nat) : Prop := PmanInv {
  pi_tables : pm_ok (pm_tables s);
  pi_next m y : pm_maps s !! m = Some y -> (m < pm_next s)%nat;
  pi_context c x : pm_contexts s !! c = Some x ->
    vr_ok (c_valloc x) /\ pm_root (pm_tables s) (ta_vaddr (c_top x)) /\ NoDup (c_list x);
  pi_top c c' x x' : pm_contexts s !! c = Some x -> pm_contexts s !! c' = Some x' ->
    ta_vaddr (c_top x) = ta_vaddr (c_top x') -> c = c';
  pi_list c x m : pm_contexts s !! c = Some x ->
    (m ∈ c_list x) <-> (m ∉ zs) /\ exists y, pm_maps s !! m = Some y /\ m_context y = c;
  pi_stray c x va : pm_contexts s !! c = Some x -> walk s x va <> None ->
    exists a n, vr_ranges (c_valloc x) !! a = Some n /\ in_range a n va;
  pi_placed m y : pm_maps s !! m = Some y -> placed s y;
  pi_distinct m m' y y' : pm_maps s !! m = Some y -> pm_maps s !! m' = Some y' ->
    m_context y = m_context y' -> m_vaddr y = m_vaddr y' -> m = m';
  pi_shows m y : pm_maps s !! m = Some y -> m ∉ zs -> shows_root s zs m y;
  pi_refs m y r : pm_maps s !! m = Some y -> m ∉ zs -> refs_of y = Some r ->
    r = Z.of_nat (own m + borrowers s zs m) /\ 0 < r;
  pi_own m : own m <> 0%nat -> (m ∉ zs) /\ exists y, pm_maps s !! m = Some y /\ is_Some (refs_of y);
  pi_kind m y fr : pm_maps s !! m = Some y -> frames_of y = Some fr -> kind_ok y fr;
  pi_frames m y fr : pm_maps s !! m = Some y -> frames_of y = Some fr ->
    fr_owned fr ⊆ fa_used (pm_frames s) /\ forall p, p ∈ fr_owned fr -> frame_ok p;
  pi_disjoint m m' y y' fr fr' : pm_maps s !! m = Some y -> pm_maps s !! m' = Some y' -> m <> m' ->
    frames_of y = Some fr -> frames_of y' = Some fr' -> fr_owned fr ## fr_owned fr'
}.

Lemma root_has_frames y : is_Some (refs_of y) <-> is_Some (frames_of y).
Proof. unfold refs_of, references, frames_of. destruct (m_type y); split; intros [? ?]; (done || by eexists). Qed.
Lemma root_no_lender y : is_Some (frames_of y) -> lender_of y = None.
Proof. unfold frames_of, lender_of. destruct (m_type y); intros [? ?]; done. Qed.

(** *** Stepping through the state *)

Lemma get_mapping_done s m y : pm_maps s !! m = Some y -> get_mapping m s = Done (y, s).
Proof. intros E. unfold get_mapping. by rewrite E. Qed.
Lemma get_context_done s c x : pm_contexts s !! c = Some x -> get_context c s = Done (x, s).
Proof. intros E. unfold get_context. by rewrite E. Qed.

Definition with_tables_p (t : T) (s : pman_state) : pman_state :=
  Pman (pm_maps s) (pm_contexts s) t (pm_frames s) (pm_memory s) (pm_next s).
Definition with_frames (f : F) (s : pman_state) : pman_state :=
  Pman (pm_maps s) (pm_contexts s) (pm_tables s) f (pm_memory s) (pm_next s).
Definition with_context (c : nat) (x : context_t) (s : pman_state) : pman_state :=
  Pman (pm_maps s) (<[c := x]> (pm_contexts s)) (pm_tables s) (pm_frames s) (pm_memory s) (pm_next s).
Definition with_mapping (m : nat) (y : pman_mapping_t) (s : pman_state) : pman_state :=
  Pman (<[m := y]> (pm_maps s)) (pm_contexts s) (pm_tables s) (pm_frames s) (pm_memory s) (pm_next s).
Definition without_mapping (m : nat) (s : pman_state) : pman_state :=
  Pman (delete m (pm_maps s)) (pm_contexts s) (pm_tables s) (pm_frames s) (pm_memory s) (pm_next s).

Lemma on_tables_done {A} (m : M T A) (s : pman_state) a t : m (pm_tables s) = Done (a, t) -> on_tables m s = Done (a, with_tables_p t s).
Proof. intros E. unfold on_tables, zoom. by rewrite E. Qed.
Lemma on_tables_stop {A} (m : M T A) (s : pman_state) w : m (pm_tables s) = Stop w -> on_tables m s = Stop w.
Proof. intros E. unfold on_tables, zoom. by rewrite E. Qed.
Lemma on_frames_done {A} (m : M F A) (s : pman_state) a f : m (pm_frames s) = Done (a, f) -> on_frames m s = Done (a, with_frames f s).
Proof. intros E. unfold on_frames, zoom. by rewrite E. Qed.
Lemma on_frames_stop {A} (m : M F A) (s : pman_state) w : m (pm_frames s) = Stop w -> on_frames m s = Stop w.
Proof. intros E. unfold on_frames, zoom. by rewrite E. Qed.
Lemma on_valloc_done {A} c (m : M V A) (s : pman_state) x a v : pm_contexts s !! c = Some x -> m (c_valloc x) = Done (a, v) ->
  on_valloc c m s = Done (a, with_context c (PmanContext (c_top x) v (c_list x)) s).
Proof. intros Hx E. unfold on_valloc. by rewrite (bind_done _ _ _ _ _ (get_context_done s c x Hx)), E. Qed.
Lemma on_valloc_stop {A} c (m : M V A) (s : pman_state) x w : pm_contexts s !! c = Some x -> m (c_valloc x) = Stop w ->
  on_valloc c m s = Stop w.
Proof. intros Hx E. unfold on_valloc. by rewrite (bind_done _ _ _ _ _ (get_context_done s c x Hx)), E. Qed.

(** The borrowers do not depend on the rest of the state. *)
Lemma borrowers_maps s s' zs r : pm_maps s' = pm_maps s -> borrowers s' zs r = borrowers s zs r.
Proof. intros E. unfold borrowers. by rewrite E. Qed.

(** Changes that leave the mappings alone. *)
Lemma inv_frames s own zs f : pman_inv s own zs -> fa_used (pm_frames s) ⊆ fa_used f -> pman_inv (with_frames f s) own zs.
Proof.
  intros [] Hu. split; try done. intros m y fr Hm Hf. destruct (pi_frames0 m y fr Hm Hf) as [H1 H2]. split; [|done]. cbn. set_solver.
Qed.
Lemma inv_new_id s own zs : pman_inv s own zs ->
  pman_inv (Pman (pm_maps s) (pm_contexts s) (pm_tables s) (pm_frames s) (pm_memory s) (S (pm_next s))) own zs.
Proof. intros []. split; try done. intros m y Hm. cbn. specialize (pi_next0 m y Hm). lia. Qed.
Lemma inv_memory s own zs mem : pman_inv s own zs ->
  pman_inv (Pman (pm_maps s) (pm_contexts s) (pm_tables s) (pm_frames s) mem (pm_next s)) own zs.
Proof. intros []. split; done. Qed.

(** *** Steps that keep the invariant *)

Lemma inv_context s own zs c x v : pman_inv s own zs -> pm_contexts s !! c = Some x -> vr_ok v ->
  vr_ranges (c_valloc x) ⊆ vr_ranges v ->
  pman_inv (with_context c (PmanContext (c_top x) v (c_list x)) s) own zs.
Proof.
  intros [] Hc Hv Hsub.
  assert (forall d x', (<[c := PmanContext (c_top x) v (c_list x)]> (pm_contexts s)) !! d = Some x' ->
    exists x0, pm_contexts s !! d = Some x0 /\ c_top x' = c_top x0 /\ c_list x' = c_list x0 /\ vr_ok (c_valloc x') /\
      vr_ranges (c_valloc x0) ⊆ vr_ranges (c_valloc x')) as Hback.
  { intros d x' [[<- <-]|[_ Hd]]%lookup_insert_Some; [by exists x|]. exists x'. split_and!; try done. by eapply pi_context0. }
  assert (forall d x0, pm_contexts s !! d = Some x0 -> exists x', (<[c := PmanContext (c_top x) v (c_list x)]> (pm_contexts s)) !! d = Some x' /\
    c_top x' = c_top x0 /\ vr_ranges (c_valloc x0) ⊆ vr_ranges (c_valloc x')) as Hfwd.
  { intros d x0 Hd. destruct (decide (c = d)) as [->|Hne].
    - rewrite lookup_insert_eq. eexists. split; [done|]. assert (x0 = x) as -> by congruence. done.
    - exists x0. by rewrite lookup_insert_ne. }
  split; cbn [with_context pm_tables pm_maps pm_contexts pm_frames pm_next]; try done.
  - intros d x' (x0 & Hd & -> & -> & Hv' & _)%Hback. destruct (pi_context0 d x0 Hd) as (_ & ? & ?). done.
  - intros d d' x1 x2 (x1' & H1 & -> & _)%Hback (x2' & H2 & -> & _)%Hback. by eapply pi_top0.
  - intros d x' m (x0 & Hd & _ & -> & _)%Hback. by apply pi_list0.
  - intros d x' va (x0 & Hd & Ht & _ & _ & Hs)%Hback. unfold walk. cbn. rewrite Ht. intros Hw.
    destruct (pi_stray0 d x0 va Hd Hw) as (a & n & Ha & Hin). exists a, n. split; [by eapply lookup_weaken|done].
  - intros m y Hm. destruct (pi_placed0 m y Hm) as (x0 & Hx & Hr & Ht & Hw). destruct (Hfwd _ _ Hx) as (x' & Hx' & Htop & Hs).
    exists x'. split_and!; [done|by eapply lookup_weaken|done|]. intros va Hva. unfold walk. cbn. rewrite Htop. by apply Hw.
  - intros m y Hm Hz. destruct (pi_shows0 m y Hm Hz) as (x0 & z & fr & Hx & Hr & Hrz & Hf & Hsz & Hw).
    destruct (Hfwd _ _ Hx) as (x' & Hx' & Htop & Hs). exists x', z, fr. split_and!; [done..|].
    intros va Hva. unfold walk. cbn. rewrite Htop. by apply Hw.
Qed.

(** The request is for any address, or for a range that is free. *)
Definition range_request (x : context_t) (any : bool) (vaddr size : Z) : Prop :=
  any = true \/ (range_ok vaddr (DIV_UP size PAGE_SIZE) /\
    forall b m, vr_ranges (c_valloc x) !! b = Some m -> apart vaddr (DIV_UP size PAGE_SIZE) b m).

Record new_range (s : pman_state) (x : context_t) (va pages : Z) (v : V) : Prop := NewRange {
  nr_ok : vr_ok v;
  nr_fresh : vr_ranges (c_valloc x) !! va = None;
  nr_ranges : vr_ranges v = <[va := pages]> (vr_ranges (c_valloc x));
  nr_range : range_ok va pages;
  nr_unmapped va' : in_range va pages va' -> walk s x va' = None
}.

Lemma get_range_spec s own zs c x any vaddr size : pman_inv s own zs -> pm_contexts s !! c = Some x ->
  0 < size <= 2 ^ 48 -> range_request x any vaddr size ->
  (exists w, get_range c any vaddr size s = Stop w) \/
  exists va v, get_range c any vaddr size s = Done (va, with_context c (PmanContext (c_top x) v (c_list x)) s) /\
    new_range s x va (DIV_UP size PAGE_SIZE) v /\ (any = false -> va = vaddr) /\
    pman_inv (with_context c (PmanContext (c_top x) v (c_list x)) s) own zs.
Proof.
  intros Hinv Hc Hsz Hreq. pose proof (pi_context _ _ _ Hinv c x Hc) as (Hv & _ & _). unfold get_range.
  assert (forall a v, (if any then vr_alloc size else vr_reserve vaddr size) (c_valloc x) = Done (a, v) -> vr_ok v ->
    vr_ranges (c_valloc x) !! a = None -> vr_ranges v = <[a := DIV_UP size PAGE_SIZE]> (vr_ranges (c_valloc x)) ->
    new_range s x a (DIV_UP size PAGE_SIZE) v /\ pman_inv (with_context c (PmanContext (c_top x) v (c_list x)) s) own zs) as Hnew.
  { intros a v _ Hok Hn Hr. assert (range_ok a (DIV_UP size PAGE_SIZE)) as Hro by (apply (vr_range v); [done|by rewrite Hr, lookup_insert_eq]).
    split; [|eapply inv_context; try done; rewrite Hr; by apply insert_subseteq].
    split; try done. intros va' Hin. destruct (walk s x va') eqn:E; [|done]. exfalso.
    destruct (pi_stray _ _ _ Hinv c x va' Hc) as (b & m & Hb & Hbin); [by rewrite E|].
    assert (a <> b) as Hab by (intros ->; congruence).
    eapply (apart_in_range a _ b m va'); [done|by apply (vr_range (c_valloc x))|apply (vr_apart v); [done|by rewrite Hr, lookup_insert_eq|by rewrite Hr, lookup_insert_ne|done]|done|done]. }
  destruct any; [|destruct Hreq as [|[Hro Hap]]; [done|]].
  - destruct (vr_alloc_ok _ size Hv Hsz) as [[w E]|(a & v & E & Hok & Hn & Hr)]; [left; exists w; by eapply on_valloc_stop|].
    right. exists a, v. split; [by apply on_valloc_done|]. destruct (Hnew a v E Hok Hn Hr). done.
  - destruct (vr_reserve_ok _ vaddr size Hv Hsz Hro Hap) as [[w E]|(v & E & Hok & Hn & Hr)]; [left; exists w; by eapply on_valloc_stop|].
    right. exists vaddr, v. split; [by apply on_valloc_done|]. destruct (Hnew vaddr v E Hok Hn Hr). done.
Qed.

(** New pages in a range of the address space of [c]. *)
Lemma inv_map s own zs c x t' va n f : pman_inv s own zs -> pm_contexts s !! c = Some x ->
  vr_ranges (c_valloc x) !! va = Some n -> tables_to (pm_tables s) t' (ta_vaddr (c_top x)) f ->
  (forall a, in_range va n a -> walk s x a = None) -> (forall a old, ~ in_range va n a -> f a old = old) ->
  pman_inv (with_tables_p t' s) own zs.
Proof.
  intros [] Hc Hr [Hok Hw] Hfree Hout.
  assert (forall a, in_range va n a \/ ~ in_range va n a) as Hdec by (intros a; unfold in_range; lia).
  assert (forall d x', pm_contexts s !! d = Some x' -> pm_root t' (ta_vaddr (c_top x')) /\
    (forall a e, walk s x' a = Some e -> pm_walk t' (ta_vaddr (c_top x')) a = Some e) /\
    (forall a, pm_walk t' (ta_vaddr (c_top x')) a <> None -> walk s x' a <> None \/ (d = c /\ in_range va n a))) as Hall.
  { intros d x' Hd. destruct (pi_context0 d x' Hd) as (_ & Hroot & _). destruct (Hw _ Hroot) as [Hroot' Hw']. split; [done|]. unfold walk. split.
    - intros a e He. rewrite Hw', He. case_bool_decide as Hd'; [|done]. destruct (Hdec a) as [Ha|Ha]; [|by apply Hout].
      assert (d = c) as -> by (by eapply pi_top0). assert (x' = x) as -> by congruence. unfold walk in Hfree. rewrite Hfree in He by done. done.
    - intros a. rewrite Hw'. case_bool_decide as Hd'; [|by left]. destruct (Hdec a) as [Ha|Ha]; [|rewrite Hout by done; by left].
      intros _. right. split; [by eapply pi_top0|done]. }
  split; cbn [with_tables_p pm_tables pm_maps pm_contexts pm_frames pm_next]; try done.
  - intros d x' Hd. destruct (pi_context0 d x' Hd) as (? & _ & ?). destruct (Hall d x' Hd) as (? & _). done.
  - intros d x' a Hd Hx. destruct (Hall d x' Hd) as (_ & _ & Hb). destruct (Hb a Hx) as [Ho|[-> Hin]].
    + by eapply pi_stray0.
    + assert (x' = x) as -> by congruence. by exists va, n.
  - intros m y Hm. destruct (pi_placed0 m y Hm) as (x0 & Hx & ? & ? & Hmap). exists x0. split_and!; [done..|].
    intros a Ha. destruct (Hall _ x0 Hx) as (_ & Hf & _). specialize (Hmap a Ha). destruct (walk s x0 a) as [e|] eqn:E; [|done].
    unfold walk. cbn. by rewrite (Hf a e E).
  - intros m y Hm Hz. destruct (pi_shows0 m y Hm Hz) as (x0 & z & fr & Hx & ? & ? & ? & ? & Hmap).
    exists x0, z, fr. split_and!; [done..|]. intros a Ha. destruct (Hmap a Ha) as (p & Hp & E). exists p. split; [done|].
    destruct (Hall _ x0 Hx) as (_ & Hf & _). unfold walk. cbn. by rewrite (Hf a _ E).
Qed.

(** Changing the number of references to a root. *)
Definition same_but_refs (y y' : pman_mapping_t) : Prop :=
  m_context y' = m_context y /\ m_protection y' = m_protection y /\ m_vaddr y' = m_vaddr y /\ m_size_pages y' = m_size_pages y /\
  frames_of y' = frames_of y /\ paging_of y' = paging_of y /\ lender_of y' = lender_of y /\ shown_rw y' = shown_rw y /\
  (forall fr, kind_ok y fr -> kind_ok y' fr) /\ (refs_of y = None -> y' = y).

Lemma borrowers_same s zs r y y' k : pm_maps s !! r = Some y -> lender_of y' = lender_of y ->
  borrowers (with_mapping r y' s) zs k = borrowers s zs k.
Proof.
  intros Hr Hl. unfold borrowers. cbn [with_mapping pm_maps].
  destruct (decide (lender_of y = Some k /\ r ∉ zs)) as [Hp|Hp].
  - rewrite map_filter_insert_True by (cbn; by rewrite Hl). rewrite map_size_insert_Some; [done|].
    exists y. apply (map_lookup_filter_Some_2 _ (pm_maps s) r y); [done|done].
  - rewrite map_filter_insert_False by (cbn; by rewrite Hl). rewrite map_filter_delete. rewrite delete_id; [done|].
    apply map_lookup_filter_None_2. right. intros z Hz. cbn. assert (z = y) as -> by congruence. done.
Qed.

Lemma inv_set_refs s own own' zs r y y' k : pman_inv s own zs -> pm_maps s !! r = Some y -> r ∉ zs ->
  same_but_refs y y' -> refs_of y' = Some k -> is_Some (frames_of y) ->
  (forall m, m <> r -> own' m = own m) -> k = Z.of_nat (own' r + borrowers s zs r) -> 0 < k ->
  pman_inv (with_mapping r y' s) own' zs.
Proof.
  intros [] Hr Hrz (Ec & Ep & Ev & Es & Ef & Eg & El & Ew & Eki & Eno) Hk Hfr Hown Hcount Hpos.
  assert (forall m z, (<[r := y']> (pm_maps s)) !! m = Some z -> exists z0, pm_maps s !! m = Some z0 /\ same_but_refs z0 z /\
    ((m <> r /\ z = z0) \/ (m = r /\ z = y'))) as Hback.
  { intros m z [[<- <-]|[Hne Hm]]%lookup_insert_Some; [exists y; split; [done|]; split; [by split_and!|by right]|].
    exists z. split; [done|]. split; [by split_and!|by left]. }
  assert (forall m z0, pm_maps s !! m = Some z0 -> exists z, (<[r := y']> (pm_maps s)) !! m = Some z /\ same_but_refs z0 z) as Hfwd.
  { intros m z0 Hm. destruct (decide (r = m)) as [->|Hne]; [rewrite lookup_insert_eq; exists y'; split; [done|]; assert (z0 = y) as -> by congruence; done|].
    rewrite lookup_insert_ne by done. exists z0. split; [done|by split_and!]. }
  split; cbn [with_mapping pm_tables pm_maps pm_contexts pm_frames pm_next]; try done.
  - intros m z (z0 & Hm & _)%Hback. by eapply pi_next0.
  - intros c x m Hc. rewrite (pi_list0 c x m Hc). split; intros [Hz (z & Hm & Hcz)]; (split; [done|]).
    + destruct (Hfwd m z Hm) as (z' & Hm' & E & _). exists z'. split; [done|congruence].
    + destruct (Hback m z Hm) as (z' & Hm' & (E & _) & _). exists z'. split; [done|congruence].
  - intros m z (z0 & Hm & (E1 & _ & E3 & E4 & _ & E6 & _) & _)%Hback. destruct (pi_placed0 m z0 Hm) as (x & H1 & H2 & H3 & H4).
    exists x. rewrite E1, E3, E4, E6. done.
  - intros m m' z z' (z0 & Hm & (E1 & _ & E3 & _) & _)%Hback (z0' & Hm' & (E1' & _ & E3' & _) & _)%Hback Hc Hv.
    eapply pi_distinct0; [done|done|congruence|congruence].
  - intros m z (z0 & Hm & (E1 & E2 & E3 & E4 & E5 & E6 & E7 & E8 & _) & _)%Hback Hz.
    destruct (pi_shows0 m z0 Hm Hz) as (x & w & fr & H1 & H2 & H3 & H4 & H5 & H6).
    assert (root_of m z = root_of m z0) as Hro by (unfold root_of; by rewrite E7). destruct (Hfwd _ _ H2) as (w' & Hw' & (_ & _ & _ & F4 & F5 & _)).
    exists x, w', fr. rewrite Hro, E1, E3, E4. split_and!; [done|done|done|congruence|congruence|].
    intros va Hva. destruct (H6 va Hva) as (p & Hp & Hwk). exists p. split; [done|]. unfold shown_entry. rewrite E1, E2, E8. done.
  - intros m z j (z0 & Hm & Hs & [[Hne ->]|[-> ->]])%Hback Hz Hj.
    + rewrite (borrowers_same s zs r y y' m Hr El), Hown by done. by eapply pi_refs0.
    + rewrite (borrowers_same s zs r y y' r Hr El). assert (j = k) as -> by congruence. done.
  - intros m Hm. destruct (decide (m = r)) as [->|Hne].
    + split; [done|]. exists y'. rewrite lookup_insert_eq. split; [done|by eexists].
    + rewrite Hown in Hm by done. destruct (pi_own0 m Hm) as (Hz & z & Hz' & Hi). split; [done|]. exists z. by rewrite lookup_insert_ne.
  - intros m z fr (z0 & Hm & (_ & _ & _ & _ & E5 & _ & _ & _ & E9 & _) & _)%Hback Hf. rewrite E5 in Hf. apply E9. by eapply pi_kind0.
  - intros m z fr (z0 & Hm & (_ & _ & _ & _ & E5 & _) & _)%Hback Hf. rewrite E5 in Hf. by eapply pi_frames0.
  - intros m m' z z' fr fr' (z0 & Hm & (_ & _ & _ & _ & E5 & _) & _)%Hback (z0' & Hm' & (_ & _ & _ & _ & E5' & _) & _)%Hback Hne Hf Hf'.
    rewrite E5 in Hf. rewrite E5' in Hf'. by apply (pi_disjoint0 m m' z0 z0').
Qed.

(** *** A new mapping object *)

Definition linked (c : nat) (x : context_t) (m : nat) (y : pman_mapping_t) (s : pman_state) : pman_state :=
  with_context c (PmanContext (c_top x) (c_valloc x) (m :: c_list x)) (with_mapping m y s).

Lemma borrowers_add s m y k : pm_maps s !! m = None ->
  borrowers (with_mapping m y s) ∅ k = (if bool_decide (lender_of y = Some k) then S (borrowers s ∅ k) else borrowers s ∅ k).
Proof.
  intros Hm. unfold borrowers. cbn [with_mapping pm_maps]. case_bool_decide as Hl.
  - rewrite map_filter_insert_True by (cbn; set_solver). apply map_size_insert_None.
    apply map_lookup_filter_None_2. by left.
  - rewrite map_filter_insert_not' by (cbn; naive_solver). done.
Qed.

Lemma borrowers_none s own m : pman_inv s own ∅ -> pm_maps s !! m = None -> borrowers s ∅ m = 0%nat.
Proof.
  intros Hinv Hm. unfold borrowers. apply map_size_empty_iff, map_empty_filter_2. intros i y Hi [Hl _]. cbn in Hl.
  destruct (pi_shows _ _ _ Hinv i y Hi (not_elem_of_empty i)) as (x & z & fr & _ & Hz & _). unfold root_of in Hz. rewrite Hl in Hz. cbn in Hz. congruence.
Qed.

Lemma inv_link s own own' c x m y : pman_inv s own ∅ -> pm_contexts s !! c = Some x -> pm_maps s !! m = None -> (m < pm_next s)%nat ->
  m_context y = c -> vr_ranges (c_valloc x) !! m_vaddr y = Some (m_size_pages y) ->
  (forall m' y', pm_maps s !! m' = Some y' -> m_context y' = c -> m_vaddr y' <> m_vaddr y) ->
  tiled (paging_of y) (m_vaddr y) (m_size_pages y) ->
  (exists z fr, <[m := y]> (pm_maps s) !! root_of m y = Some z /\ frames_of z = Some fr /\ m_size_pages z = m_size_pages y /\
    forall va, in_range (m_vaddr y) (m_size_pages y) va ->
      exists p, fr_frame fr (range_index (m_vaddr y) va) = Some p /\ walk s x va = Some (shown_entry y p)) ->
  (forall m' z r, <[m := y]> (pm_maps s) !! m' = Some z -> refs_of z = Some r ->
    r = Z.of_nat (own' m' + borrowers (with_mapping m y s) ∅ m') /\ 0 < r) ->
  (forall m', own' m' <> 0%nat -> exists z, <[m := y]> (pm_maps s) !! m' = Some z /\ is_Some (refs_of z)) ->
  (forall fr, frames_of y = Some fr -> kind_ok y fr /\ fr_owned fr ⊆ fa_used (pm_frames s) /\ (forall p, p ∈ fr_owned fr -> frame_ok p) /\
    forall m' y' fr', pm_maps s !! m' = Some y' -> frames_of y' = Some fr' -> fr_owned fr ## fr_owned fr') ->
  pman_inv (linked c x m y s) own' ∅.
Proof.
  intros Hinv Hc Hm Hlt Hyc Hyr Hyd Hyt Hys Hrefs Hown Hfr. pose proof Hinv as [].
  assert (forall d x', (<[c := PmanContext (c_top x) (c_valloc x) (m :: c_list x)]> (pm_contexts s)) !! d = Some x' ->
    exists x0, pm_contexts s !! d = Some x0 /\ c_top x' = c_top x0 /\ c_valloc x' = c_valloc x0 /\
      ((d <> c /\ c_list x' = c_list x0) \/ (d = c /\ c_list x' = m :: c_list x0))) as Hback.
  { intros d x' [[<- <-]|[Hne Hd]]%lookup_insert_Some; [exists x; split_and!; try done; by right|].
    exists x'. split_and!; try done. left. done. }
  assert (forall d x0, pm_contexts s !! d = Some x0 -> exists x', (<[c := PmanContext (c_top x) (c_valloc x) (m :: c_list x)]> (pm_contexts s)) !! d = Some x' /\
    c_top x' = c_top x0 /\ c_valloc x' = c_valloc x0) as Hfwd.
  { intros d x0 Hd. destruct (decide (c = d)) as [->|Hne].
    - rewrite lookup_insert_eq. eexists. split; [done|]. assert (x0 = x) as -> by congruence. done.
    - exists x0. by rewrite lookup_insert_ne. }
  assert (m ∉ c_list x) as Hml by (rewrite (pi_list0 c x m Hc); intros (_ & z & Hz & _); congruence).
  destruct (Hfwd c x Hc) as (xc & Hxc & Hxt & Hxv).
  assert (forall m' z, <[m := y]> (pm_maps s) !! m' = Some z -> (m' = m /\ z = y) \/ (m' <> m /\ pm_maps s !! m' = Some z)) as Hmaps.
  { intros m' z [[<- <-]|[? ?]]%lookup_insert_Some; [by left|right; done]. }
  split; cbn [linked with_context with_mapping pm_tables pm_maps pm_contexts pm_frames pm_next]; try done.
  - intros m' z [[-> ->]|[_ Hz]]%Hmaps; [done|by eapply pi_next0].
  - intros d x' (x0 & Hd & -> & -> & Hl)%Hback. destruct (pi_context0 d x0 Hd) as (? & ? & Hnd). split_and!; [done|done|].
    destruct Hl as [[_ ->]|[-> ->]]; [done|]. assert (x0 = x) as -> by congruence. by apply NoDup_cons.
  - intros d d' x1 x2 (x1' & H1 & -> & _)%Hback (x2' & H2 & -> & _)%Hback. by eapply pi_top0.
  - intros d x' m' (x0 & Hd & _ & _ & Hl)%Hback.
    assert ((m' ∈ c_list x0) <-> exists z, pm_maps s !! m' = Some z /\ m_context z = d) as Hold by (rewrite (pi_list0 d x0 m' Hd); set_solver).
    destruct Hl as [[Hne ->]|[-> ->]].
    + rewrite Hold. split; [intros (z & Hz & Hcz); split; [set_solver|]|intros [_ (z & [[-> ->]|[Hmm Hz]]%Hmaps & Hcz)]; [congruence|eauto]].
      exists z. rewrite lookup_insert_ne; [done|congruence].
    + rewrite elem_of_cons, Hold. split.
      * intros [->|(z & Hz & Hcz)]; (split; [set_solver|]); [exists y; by rewrite lookup_insert_eq|].
        exists z. rewrite lookup_insert_ne; [done|congruence].
      * intros [_ (z & [[-> ->]|[Hmm Hz]]%Hmaps & Hcz)]; [by left|right; eauto].
  - intros d x' va (x0 & Hd & Ht & -> & _)%Hback. unfold walk. cbn. rewrite Ht. by apply (pi_stray0 d x0).
  - intros m' z [[-> ->]|[_ Hz]]%Hmaps.
    + exists xc. rewrite Hyc, Hxv. split_and!; [done|done|done|]. destruct Hys as (z & fr & _ & _ & _ & Hw). intros va Hva.
      unfold walk. cbn. rewrite Hxt. destruct (Hw va Hva) as (p & _ & E). unfold walk in E. by rewrite E.
    + destruct (pi_placed0 m' z Hz) as (x0 & Hd & Hr & Ht & Hw). destruct (Hfwd _ _ Hd) as (x' & Hx' & Htop & Hva).
      exists x'. rewrite Hva. split_and!; [done..|]. unfold walk. cbn. rewrite Htop. done.
  - intros m1 m2 z1 z2 [[-> ->]|[Hn1 H1]]%Hmaps [[-> ->]|[Hn2 H2]]%Hmaps Hcc Hvv; [done| | |].
    + exfalso. eapply Hyd; [exact H2|congruence|done].
    + exfalso. eapply Hyd; [exact H1|congruence|done].
    + by eapply (pi_distinct0 m1 m2).
  - intros m' z [[-> ->]|[Hne Hz]]%Hmaps _.
    + destruct Hys as (z & fr & Hrz & Hf & Hsz & Hw). exists xc, z, fr. rewrite Hyc. split_and!; [done|done|set_solver|done|done|].
      intros va Hva. unfold walk. cbn. rewrite Hxt. by apply Hw.
    + destruct (pi_shows0 m' z Hz (not_elem_of_empty _)) as (x0 & w & fr & Hd & Hw & _ & Hf & Hsz & Hwalk).
      destruct (Hfwd _ _ Hd) as (x' & Hx' & Htop & _). exists x', w, fr. split_and!; [done| |set_solver|done|done|].
      * cbn [linked with_context with_mapping pm_maps]. rewrite lookup_insert_ne; [done|]. intros Heq. rewrite Heq in Hm. congruence.
      * intros va Hva. unfold walk. cbn. rewrite Htop. by apply Hwalk.
  - intros m' z r Hz _ Hr. destruct (Hrefs m' z r Hz Hr) as [-> ?]. done.
  - intros m' Hne. split; [set_solver|]. by apply Hown.
  - intros m' z fr [[-> ->]|[Hne Hz]]%Hmaps Hf; [by apply Hfr|by eapply pi_kind0].
  - intros m' z fr [[-> ->]|[Hne Hz]]%Hmaps Hf; [destruct (Hfr fr Hf) as (_ & ? & ? & _); done|by eapply pi_frames0].
  - intros m1 m2 z1 z2 f1 f2 [[-> ->]|[Hn1 H1]]%Hmaps [[-> ->]|[Hn2 H2]]%Hmaps Hne Hf1 Hf2; [done| | |].
    + destruct (Hfr f1 Hf1) as (_ & _ & _ & Hd). by eapply Hd.
    + destruct (Hfr f2 Hf2) as (_ & _ & _ & Hd). symmetry. by eapply Hd.
    + by apply (pi_disjoint0 m1 m2 z1 z2).
Qed.

(** *** What the operations promise *)

Definition view (s : pman_state) (c : nat) (a : Z) : option pt_entry := x ← pm_contexts s !! c; walk s x a.
Definition ranges (s : pman_state) (c : nat) : gmap Z Z := from_option (fun x => vr_ranges (c_valloc x)) ∅ (pm_contexts s !! c).
Definition used (s : pman_state) : gset Z := fa_used (pm_frames s).

(** The view in which pages of [c] from [va] on are given by [g]. *)
Definition view_with (c : nat) (va n : Z) (g : Z -> option pt_entry) (old : nat -> Z -> option pt_entry) (d : nat) (a : Z) : option pt_entry :=
  if bool_decide (d = c) && (range_index va a <? n) then g (range_index va a) else old d a.
Definition same_contexts (s s' : pman_state) : Prop := forall d, is_Some (pm_contexts s' !! d) <-> is_Some (pm_contexts s !! d).

Definition frame_entry (y : pman_mapping_t) (fr : frames_t) (k : Z) : option pt_entry := p ← fr_frame fr k; Some (shown_entry y p).

(** The mapping [y] named [m] has been added to context [c], showing [fr]. *)
Record added (s s' : pman_state) (c m : nat) (y : pman_mapping_t) (fr : frames_t) : Prop := Added {
  ad_fresh : pm_maps s !! m = None;
  ad_maps m' : m' <> m -> lender_of y <> Some m' -> pm_maps s' !! m' = pm_maps s !! m';
  ad_mapping : pm_maps s' !! m = Some y;
  ad_context : m_context y = c;
  ad_range : range_ok (m_vaddr y) (m_size_pages y);
  ad_view d a : view s' d a = view_with c (m_vaddr y) (m_size_pages y) (frame_entry y fr) (view s) d a;
  ad_free a : in_range (m_vaddr y) (m_size_pages y) a -> view s c a = None;
  ad_ranges d : ranges s' d = if bool_decide (d = c) then <[m_vaddr y := m_size_pages y]> (ranges s d) else ranges s d;
  ad_new : ranges s c !! m_vaddr y = None;
  ad_contexts : same_contexts s s';
  ad_memory : pm_memory s' = pm_memory s;
  ad_used : used s ⊆ used s'
}.

Lemma pages_bound sz : 0 < sz <= 2 ^ 48 -> 0 < DIV_UP sz PAGE_SIZE <= 2 ^ 36 /\ u64 (DIV_UP sz PAGE_SIZE * PAGE_SIZE) = DIV_UP sz PAGE_SIZE * PAGE_SIZE /\
  DIV_UP (DIV_UP sz PAGE_SIZE * PAGE_SIZE) PAGE_SIZE = DIV_UP sz PAGE_SIZE.
Proof.
  intros Hs. pose proof (DIV_UP_bounds sz PAGE_SIZE eq_refl ltac:(lia) ltac:(unfold PAGE_SIZE; lia)) as Hd.
  unfold PAGE_SIZE in *. assert (0 < DIV_UP sz 4096 <= 2 ^ 36) as Hb by lia. split_and!; [lia|lia|rewrite u64_small; lia|].
  rewrite DIV_UP_exact by lia. revert Hb. generalize (DIV_UP sz 4096). intros n Hn.
  replace (n * 4096 + 4096 - 1) with (4095 + n * 4096) by lia. by rewrite Z.div_add.
Qed.

Lemma view_same s c x a : pm_contexts s !! c = Some x -> view s c a = walk s x a.
Proof. intros E. unfold view. by rewrite E. Qed.

(** New pages for [c] change the view of [c] and no other. *)
Lemma view_tables s own zs c x t' f d a : pman_inv s own zs -> pm_contexts s !! c = Some x ->
  tables_to (pm_tables s) t' (ta_vaddr (c_top x)) f ->
  view (with_tables_p t' s) d a = if bool_decide (d = c) then f a (view s d a) else view s d a.
Proof.
  intros Hinv Hc [_ Hw]. unfold view. cbn [with_tables_p pm_contexts]. destruct (pm_contexts s !! d) as [x'|] eqn:Hd; cbn.
  - destruct (pi_context _ _ _ Hinv d x' Hd) as (_ & Hroot & _). destruct (Hw _ Hroot) as [_ Hw']. unfold walk. cbn. rewrite Hw'.
    destruct (decide (d = c)) as [->|Hne].
    + assert (x' = x) as -> by congruence. by rewrite !bool_decide_true by done.
    + rewrite (bool_decide_false (d = c)) by done. rewrite bool_decide_false; [done|]. intros E. apply Hne. by eapply (pi_top _ _ _ Hinv).
  - rewrite bool_decide_false; [done|]. intros ->. congruence.
Qed.

(** Replacing a context record by one with the same table does not change views. *)
Lemma view_context s c x x' d a : pm_contexts s !! c = Some x -> c_top x' = c_top x -> view (with_context c x' s) d a = view s d a.
Proof.
  intros Hc Ht. unfold view. cbn [with_context pm_contexts]. destruct (decide (c = d)) as [->|Hne].
  - rewrite lookup_insert_eq, Hc. cbn. unfold walk. cbn. by rewrite Ht.
  - rewrite lookup_insert_ne by done. done.
Qed.
Lemma ranges_context s c x x' d : pm_contexts s !! c = Some x -> ranges (with_context c x' s) d =
  if bool_decide (d = c) then vr_ranges (c_valloc x') else ranges s d.
Proof.
  intros Hc. unfold ranges. cbn [with_context pm_contexts]. case_bool_decide as Hd; [subst d; by rewrite lookup_insert_eq|by rewrite lookup_insert_ne].
Qed.
Lemma same_contexts_insert s c x x' : pm_contexts s !! c = Some x -> same_contexts s (with_context c x' s).
Proof.
  intros Hc d. cbn [with_context pm_contexts]. rewrite lookup_insert_is_Some'. split; [intros [->|?]; [by eexists|done]|by right].
Qed.

Definition own_set (own : nat -> nat) (m k : nat) : nat -> nat := fun m' => if decide (m' = m) then k else own m'.

Lemma fresh_id s own zs : pman_inv s own zs -> pm_maps s !! pm_next s = None.
Proof. intros Hinv. destruct (pm_maps s !! pm_next s) as [y|] eqn:E; [|done]. apply (pi_next _ _ _ Hinv) in E. lia. Qed.
Lemma own_dead s own zs m : pman_inv s own zs -> pm_maps s !! m = None -> own m = 0%nat.
Proof. intros Hinv Hm. destruct (decide (own m = 0%nat)) as [|Hne]; [done|]. destruct (pi_own _ _ _ Hinv m Hne) as (_ & y & Hy & _). congruence. Qed.

(** The reference counts after a new root has been added. *)
Lemma refs_new_root s own m y : pman_inv s own ∅ -> pm_maps s !! m = None -> lender_of y = None -> refs_of y = Some 1 ->
  forall m' z r, <[m := y]> (pm_maps s) !! m' = Some z -> refs_of z = Some r ->
    r = Z.of_nat (own_set own m 1 m' + borrowers (with_mapping m y s) ∅ m') /\ 0 < r.
Proof.
  intros Hinv Hm Hl Hr1 m' z r Hz Hr. rewrite borrowers_add by done. rewrite bool_decide_false by (rewrite Hl; done).
  apply lookup_insert_Some in Hz as [[<- <-]|[Hne Hz]]; unfold own_set.
  - rewrite decide_True by done. rewrite (borrowers_none s own m Hinv Hm). assert (r = 1) as -> by congruence. lia.
  - rewrite decide_False by done. by eapply (pi_refs _ _ _ Hinv).
Qed.
Lemma own_new_root s own m y : pman_inv s own ∅ -> is_Some (refs_of y) ->
  forall m', own_set own m 1 m' <> 0%nat -> exists z, <[m := y]> (pm_maps s) !! m' = Some z /\ is_Some (refs_of z).
Proof.
  intros Hinv Hy m' Hne. unfold own_set in Hne. destruct (decide (m' = m)) as [->|Hn]; [exists y; by rewrite lookup_insert_eq|].
  destruct (pi_own _ _ _ Hinv m' Hne) as (_ & z & Hz & Hs). exists z. by rewrite lookup_insert_ne.
Qed.

(** *** Adding mappings *)

(** From the states an adding operation goes through to [added]. *)
Lemma added_intro s s1 s3 own c x x3 m y fr va n v f t' :
  pman_inv s own ∅ -> pm_contexts s !! c = Some x -> new_range s x va n v ->
  (* the range is taken *)
  pm_contexts s1 = <[c := PmanContext (c_top x) v (c_list x)]> (pm_contexts s) -> pm_tables s1 = pm_tables s ->
  pman_inv s1 own ∅ ->
  (* the pages are mapped *)
  tables_to (pm_tables s1) t' (ta_vaddr (c_top x)) f ->
  (forall a, in_range va n a -> f a None = frame_entry y fr (range_index va a)) ->
  (forall a old, ~ in_range va n a -> f a old = old) ->
  pm_contexts s3 = pm_contexts s1 -> pm_tables s3 = t' -> pm_contexts s3 !! c = Some x3 ->
  m_context y = c -> m_vaddr y = va -> m_size_pages y = n ->
  pm_maps s !! m = None ->
  (forall m', m' <> m -> lender_of y <> Some m' -> pm_maps s3 !! m' = pm_maps s !! m') ->
  pm_memory s3 = pm_memory s -> used s ⊆ used s3 ->
  added s (linked c x3 m y s3) c m y fr.
Proof.
  intros Hinv Hc [Hv Hn Hr Hro Hun] Hc1 Ht1 Hinv1 Htt Hin Hout Hc3 Ht3 Hx3 Hyc Hyv Hyn Hm Hmaps Hmem Hused.
  assert (c_top x3 = c_top x /\ c_valloc x3 = v) as [Htop Hval].
  { rewrite Hc3, Hc1, lookup_insert_eq in Hx3. by injection Hx3 as <-. }
  assert (forall d a, view s1 d a = view s d a) as Hv1.
  { intros d a. unfold view. rewrite Hc1. destruct (decide (c = d)) as [->|Hne].
    - rewrite lookup_insert_eq, Hc. cbn. unfold walk. by rewrite Ht1.
    - rewrite lookup_insert_ne by done. destruct (pm_contexts s !! d); [|done]. cbn. unfold walk. by rewrite Ht1. }
  assert (pm_contexts s1 !! c = Some (PmanContext (c_top x) v (c_list x))) as Hc1' by (by rewrite Hc1, lookup_insert_eq).
  split; try done.
  - intros m' Hne Hl. cbn [linked with_context with_mapping pm_maps]. rewrite lookup_insert_ne by done. by apply Hmaps.
  - apply lookup_insert_eq.
  - by rewrite Hyv, Hyn.
  - intros d a. unfold linked. rewrite (view_context (with_mapping m y s3) c x3) by done.
    assert (view (with_mapping m y s3) d a = view (with_tables_p t' s1) d a) as ->.
    { unfold view. cbn [with_mapping with_tables_p pm_contexts]. rewrite Hc3. unfold walk. cbn. by rewrite Ht3. }
    rewrite (view_tables s1 own ∅ c _ t' f d a Hinv1 Hc1' Htt), Hv1. unfold view_with. rewrite Hyv, Hyn. case_bool_decide as Hd; cbn [andb]; [|done].
    subst d. destruct (range_index va a <? n) eqn:E.
    + apply Z.ltb_lt in E. rewrite (view_same s c x a Hc), Hun by done. by apply Hin.
    + apply Z.ltb_ge in E. apply Hout. unfold in_range. lia.
  - intros a Ha. rewrite Hyv, Hyn in Ha. rewrite (view_same s c x a Hc). by apply Hun.
  - intros d. rewrite Hyv, Hyn. unfold ranges. cbn [linked with_context with_mapping pm_contexts]. case_bool_decide as Hd.
    + subst d. rewrite lookup_insert_eq, Hc. cbn. by rewrite Hval, Hr.
    + rewrite lookup_insert_ne by done. by rewrite Hc3, Hc1, lookup_insert_ne by done.
  - unfold ranges. rewrite Hc. by rewrite Hyv.
  - intros d. cbn [linked with_context with_mapping pm_contexts]. rewrite Hc3, Hc1, !lookup_insert_is_Some'.
    split; [intros [->|[->|?]]; [by eexists|by eexists|done]|by auto].
Qed.

(** No mapping of [c] starts at a fresh range. *)
Lemma fresh_vaddr s own zs c x va m' y' : pman_inv s own zs -> pm_contexts s !! c = Some x -> vr_ranges (c_valloc x) !! va = None ->
  pm_maps s !! m' = Some y' -> m_context y' = c -> m_vaddr y' <> va.
Proof.
  intros Hinv Hc Hn Hm Hcc <-. destruct (pi_placed _ _ _ Hinv m' y' Hm) as (x0 & Hx & Hr & _). rewrite Hcc in Hx. congruence.
Qed.

Lemma add_alloc_spec s own c x prot vaddr sz : pman_inv s own ∅ -> pm_contexts s !! c = Some x -> 0 < sz <= 2 ^ 48 ->
  range_request x (vaddr =? 0) vaddr sz ->
  (exists w, pman_context_add_alloc c prot vaddr sz s = Stop w) \/
  exists m s' va fr ms, pman_context_add_alloc c prot vaddr sz s = Done (m, s') /\ pman_inv s' (own_set own m 1) ∅ /\
    added s s' c m (PmanMapping c (PMAN_MAPPING_ALLOC 1 fr ms) prot va (DIV_UP sz PAGE_SIZE)) fr /\
    fr_type fr = PALLOC_ALLOC /\ NoDup (fr_paddrs fr) /\ fr_owned fr ## used s /\ ((vaddr =? 0) = false -> va = vaddr) /\
    (forall p, p ∈ fr_owned fr -> frame_ok p) /\ Z.of_nat (length (fr_paddrs fr)) = DIV_UP sz PAGE_SIZE.
Proof.
  intros Hinv Hc Hsz Hreq. unfold pman_context_add_alloc. cbv zeta.
  destruct (pages_bound sz Hsz) as (Hpg & Hu & Hdd). rewrite Hu. set (n := DIV_UP sz PAGE_SIZE) in *. set (m := pm_next s).
  rewrite (bind_done new_id _ s m _ eq_refl).
  pose proof (inv_new_id s own ∅ Hinv) as Hinv0. set (s0 := Pman _ _ _ _ _ _) in *.
  destruct (get_range_spec s0 own ∅ c x (vaddr =? 0) vaddr sz Hinv0 Hc Hsz Hreq) as [[w E]|(va & v & E & Hnr & Hva & Hinv1)];
    [left; exists w; by apply bind_stop|].
  rewrite (bind_done _ _ _ _ _ E). clear E. set (s1 := with_context _ _ _) in *. fold n in Hnr.
  destruct (fa_alloc_ok (pm_frames s1) (n * PAGE_SIZE)) as [[w E]|(l & f' & E & Hl & Hnd & Hfresh)].
  { left. exists w. apply bind_stop. by apply on_frames_stop. }
  rewrite (bind_done _ _ _ _ _ (on_frames_done _ s1 _ _ E)). rewrite Hdd in Hfresh, Hl. clear E. rewrite Hdd.
  set (fr := Frames PALLOC_ALLOC n l) in *. destruct Hfresh as (Hdisj & Hused & Hfok).
  pose proof (inv_frames s1 own ∅ f' Hinv1 ltac:(set_solver)) as Hinv2. set (s2 := with_frames f' s1) in *.
  set (x1 := PmanContext (c_top x) v (c_list x)) in *.
  assert (pm_contexts s2 !! c = Some x1) as Hc2 by apply lookup_insert_eq.
  rewrite (bind_done _ _ _ _ _ (get_context_done s2 c x1 Hc2)).
  pose proof (pi_context _ _ _ Hinv2 c x1 Hc2) as (_ & Hroot & _).
  set (rw := has_prot prot PMAN_PROT_WRITE). set (xd := negb (has_prot prot PMAN_PROT_EXECUTE)).
  cbn [fr_paddrs fr]. assert (Z.of_nat (length l) = n) as Hln by lia.
  destruct (map_each_spec l (pm_tables s2) (ta_vaddr (c_top x1)) va rw xd (is_user c) (pi_tables _ _ _ Hinv2) Hroot) as [E|(ms & t' & E & Hml & Htl & Htt)].
  { right. rewrite Hln. apply Hnr. }
  { intros a Ha. rewrite Hln in Ha. by apply (nr_unmapped _ _ _ _ _ Hnr). }
  { left. exists Undefined. apply bind_stop. by apply on_tables_stop. }
  rewrite (bind_done _ _ _ _ _ (on_tables_done _ s2 _ _ E)). clear E. rewrite Hln in Htl.
  set (y := PmanMapping c (PMAN_MAPPING_ALLOC 1 fr ms) prot va n).
  assert (pman_inv (with_tables_p t' s2) own ∅) as Hinv3.
  { eapply (inv_map s2 own ∅ c x1 t' va n); [done|done| |exact Htt|by apply (nr_unmapped _ _ _ _ _ Hnr)|].
    - cbn. rewrite (nr_ranges _ _ _ _ _ Hnr). apply lookup_insert_eq.
    - intros a old Ha. cbv beta. rewrite lookup_ge_None_2; [done|]. unfold in_range in Ha. lia. }
  set (s3 := with_tables_p t' s2) in *. change (put_mapping m y) with (modify (with_mapping m y)). rewrite bind_modify.
  assert (pm_contexts (with_mapping m y s3) !! c = Some x1) as Hc3 by exact Hc2.
  unfold list_mapping. rewrite bind_assoc, (bind_done _ _ _ _ _ (get_context_done _ c x1 Hc3)).
  right. exists m, (linked c x1 m y s3), va, fr, ms.
  assert (pm_maps s !! m = None) as Hm by (by eapply fresh_id).
  split; [reflexivity|]. split; [|split; [|split_and!; try done]].
  - eapply (inv_link s3 own (own_set own m 1) c x1 m y Hinv3 Hc2 Hm); try done.
    + cbn. lia.
    + cbn. rewrite (nr_ranges _ _ _ _ _ Hnr). apply lookup_insert_eq.
    + intros m' y' Hm' Hcc. cbn. eapply (fresh_vaddr s own ∅ c x va m' y' Hinv Hc); try done. apply Hnr.
    + exists y, fr. unfold root_of. cbn [y lender_of m_type default]. rewrite lookup_insert_eq. split_and!; [done|done|done|].
      intros a Ha. cbn [m_vaddr m_size_pages y] in *. pose proof (range_index_bound va a). unfold in_range in Ha.
      destruct (lookup_lt_is_Some_2 l (Z.to_nat (range_index va a))) as [p Hp]; [lia|]. exists p. split; [done|].
      rewrite <- (view_same s3 c x1 a Hc2). unfold s3. rewrite (view_tables s2 own ∅ c x1 t' _ c a Hinv2 Hc2 Htt), bool_decide_true by done.
      cbv beta. rewrite Hp. done.
    + apply (refs_new_root s3 own m y Hinv3 Hm); done.
    + apply (own_new_root s3 own m y Hinv3). by eexists.
    + intros fr0 [= <-]. split; [done|]. split_and!; [cbn; set_solver|done|]. intros m' y' fr' Hm' Hf'.
      destruct (pi_frames _ _ _ Hinv m' y' fr' Hm' Hf') as [Hsub _]. set_solver.
  - assert (new_range s x va n v) as Hnr' by (destruct Hnr; by split).
    eapply (added_intro s s1 s3 own c x x1 m y fr va n v); try done.
    + intros a old Ha. cbv beta. rewrite lookup_ge_None_2; [done|]. unfold in_range in Ha. lia.
    + cbn. set_solver.
Qed.

(** *** Lending *)

Lemma get_root_done s own zs m y : pman_inv s own zs -> pm_maps s !! m = Some y -> m ∉ zs ->
  get_root_mapping m s = Done (root_of m y, s) /\
  exists z fr, pm_maps s !! root_of m y = Some z /\ (root_of m y ∉ zs) /\ frames_of z = Some fr /\ lender_of z = None /\
    m_size_pages z = m_size_pages y.
Proof.
  intros Hinv Hm Hz. destruct (pi_shows _ _ _ Hinv m y Hm Hz) as (x & z & fr & _ & Hr & Hrz & Hf & Hs & _).
  assert (lender_of z = None) as Hl by (apply root_no_lender; by eexists).
  split; [|by exists z, fr]. unfold get_root_mapping. rewrite bind_get. cbn [root_from].
  rewrite (bind_done _ _ _ _ _ (get_mapping_done s m y Hm)).
  assert (forall n, root_from (S n) (root_of m y) s = Done (root_of m y, s)) as Hroot.
  { intros n. cbn [root_from]. rewrite (bind_done _ _ _ _ _ (get_mapping_done s _ z Hr)). unfold lender_of in Hl. by destruct (m_type z). }
  assert (size (pm_maps s) <> 0%nat) as Hsz by (intros E%map_size_empty_inv; rewrite E, lookup_empty in Hm; done).
  destruct (size (pm_maps s)) as [|n]; [done|]. unfold root_of, lender_of in *. destruct (m_type y) eqn:Et; cbn in *; try done; apply Hroot.
Qed.

Lemma add_reference_done s m y k : pm_maps s !! m = Some y -> refs_of y = Some k ->
  exists y', pman_add_reference m s = Done (tt, with_mapping m y' s) /\ same_but_refs y y' /\ refs_of y' = Some (k + 1).
Proof.
  intros Hm Hk. unfold pman_add_reference. rewrite (bind_done _ _ _ _ _ (get_mapping_done s m y Hm)).
  unfold same_but_refs. unfold refs_of, references in *. unfold frames_of, paging_of, lender_of, shown_rw, kind_ok.
  destruct (m_type y) as [r p l|r p l| | |]; [| |done..]; injection Hk as ->; eexists; (split; [reflexivity|]); done.
Qed.

(** The invariant with one more reference held. *)
Lemma inv_add_reference s own zs m y y' k : pman_inv s own zs -> pm_maps s !! m = Some y -> m ∉ zs -> refs_of y = Some k ->
  same_but_refs y y' -> refs_of y' = Some (k + 1) -> pman_inv (with_mapping m y' s) (own_set own m (S (own m))) zs.
Proof.
  intros Hinv Hm Hz Hk Hs Hk'. destruct (pi_refs _ _ _ Hinv m y k Hm Hz Hk) as [Hc Hp].
  eapply (inv_set_refs s own _ zs m y y' (k + 1)); try done.
  - apply root_has_frames. by eexists.
  - intros m' Hne. unfold own_set. by rewrite decide_False.
  - unfold own_set. rewrite decide_True by done. lia.
  - lia.
Qed.

(** What both lending operations do. *)
Definition add_lent (borrow : bool) (c : nat) (prot : Z) (lender : nat) (vaddr : Z) : M pman_state nat :=
  let! root_lender := get_root_mapping lender in
  let! m := new_id in
  let! l := get_mapping lender in
  let! va := get_range c (vaddr =? 0) vaddr (u64 (m_size_pages l * PAGE_SIZE)) in
  do! pman_add_reference root_lender;
  let! r := get_mapping root_lender in
  do! (if borrow then match m_type r with
       | PMAN_MAPPING_ALLOC _ _ ms => guard_or (Panic "yep") (negb (bool_decide (length ms = 0%nat)))
       | _ => ret tt
       end else ret tt);
  let! ms := lend_pages r c va (if borrow then false else has_prot prot PMAN_PROT_WRITE) (negb (has_prot prot PMAN_PROT_EXECUTE)) in
  do! put_mapping m (PmanMapping c (if borrow then PMAN_MAPPING_BORROWED root_lender ms else PMAN_MAPPING_SHARED root_lender ms) prot va (m_size_pages l));
  do! list_mapping c m;
  ret m.
Lemma add_borrowed_lent c prot lender vaddr s : pman_context_add_borrowed c prot lender vaddr s = add_lent true c prot lender vaddr s.
Proof. reflexivity. Qed.
Lemma add_shared_lent c prot lender vaddr s : pman_context_add_shared c prot lender vaddr s = add_lent false c prot lender vaddr s.
Proof. reflexivity. Qed.

Lemma tables_to_ext t t' root f g : tables_to t t' root f -> (forall va old, f va old = g va old) -> tables_to t t' root g.
Proof. intros [Hok Hw] He. split; [done|]. intros r Hr. destruct (Hw r Hr) as [? Hv]. split; [done|]. intros va. rewrite Hv. case_bool_decide; [apply He|done]. Qed.

(** The pages a root lends, as one function of the page number. *)
Lemma lend_pages_spec s own c x z fr va rw xd : pman_inv s own ∅ -> pm_contexts s !! c = Some x ->
  frames_of z = Some fr -> kind_ok z fr -> range_ok va (m_size_pages z) ->
  (forall k, 0 <= k < m_size_pages z -> is_Some (fr_frame fr k)) ->
  (forall a, in_range va (m_size_pages z) a -> walk s x a = None) ->
  lend_pages z c va rw xd s = Stop Undefined \/
  exists ms t' f, lend_pages z c va rw xd s = Done (ms, with_tables_p t' s) /\ tiled ms va (m_size_pages z) /\
    ((0 < m_size_pages z) -> ms <> []) /\
    tables_to (pm_tables s) t' (ta_vaddr (c_top x)) f /\
    (forall a, in_range va (m_size_pages z) a -> f a None = p ← fr_frame fr (range_index va a); Some (page_entry rw xd (is_user c) p)) /\
    (forall a old, ~ in_range va (m_size_pages z) a -> f a old = old).
Proof.
  intros Hinv Hc Hfr Hkind Hro Hall Hfree. pose proof (pi_context _ _ _ Hinv c x Hc) as (_ & Hroot & _). pose proof (pi_tables _ _ _ Hinv) as Hok.
  unfold lend_pages. rewrite (bind_done _ _ _ _ _ (get_context_done s c x Hc)). unfold frames_of in Hfr. unfold kind_ok in Hkind.
  pose proof Hro as (Hva0 & _ & Hpos & Hend).
  destruct (m_type z) as [r p l|r p l| | |]; [| |done..]; injection Hfr as ->.
  - destruct Hkind as [Hty Hlen].
    destruct (map_each_spec (fr_paddrs fr) (pm_tables s) (ta_vaddr (c_top x)) va rw xd (is_user c) Hok Hroot) as [E|(ms & t' & E & Hml & Htl & Htt)].
    { right. by rewrite Hlen. } { intros a Ha. rewrite Hlen in Ha. by apply Hfree. } { left. by apply on_tables_stop. }
    right. exists ms, t'. eexists. split; [by apply on_tables_done|]. rewrite Hlen in Htl. split_and!; [done| |exact Htt| |].
    + intros _ ->. cbn in Htl. lia.
    + intros a Ha. cbv beta. unfold fr_frame. rewrite Hty. by destruct (fr_paddrs fr !! Z.to_nat (range_index va a)).
    + intros a old Ha. cbv beta. rewrite lookup_ge_None_2; [done|]. unfold in_range in Ha. lia.
  - destruct (Hall 0 ltac:(lia)) as [q Hq]. unfold fr_frame in Hq.
    assert (exists q, fr_paddrs fr !! 0%nat = Some q /\ forall k, fr_frame fr k = Some (q + k * PAGE_SIZE)) as (q0 & Hq0 & Hfk).
    { unfold fr_frame. destruct (fr_type fr); [done|..]; destruct (fr_paddrs fr !! 0%nat) as [q0|]; (done || by exists q0). }
    rewrite Hq0. rewrite bind_assoc || rewrite (bind_done (of_option Undefined (Some q0)) _ s q0 s eq_refl).
    destruct (pm_map_ok (pm_tables s) (ta_vaddr (c_top x)) q0 va (m_size_pages z) rw xd (is_user c) Hok Hroot) as [E|(pm & t' & E & Hok' & Hpv & Hps & Hw)].
    { unfold PAGE_SIZE in *. lia. } { done. } { left. apply bind_stop. by apply on_tables_stop. }
    right. exists [pm], t', (fun a old => if range_index va a <? m_size_pages z then Some (page_entry rw xd (is_user c) (q0 + range_index va a * PAGE_SIZE)) else old).
    rewrite (bind_done _ _ _ _ _ (on_tables_done _ s _ _ E)). split; [done|]. split_and!; [|done| | |].
    + cbn [tiled]. rewrite Hpv, Hps. rewrite Z2Nat.id by lia. split_and!; [done|lia|lia|lia].
    + split; [done|]. intros r' Hr'. destruct (Hw r' Hr') as [? Hv]. split; [done|]. intros a. rewrite Hv. case_bool_decide; cbn [andb]; done.
    + intros a Ha. cbv beta. rewrite (proj2 (Z.ltb_lt _ _)) by exact Ha. by rewrite Hfk.
    + intros a old Ha. cbv beta. rewrite (proj2 (Z.ltb_ge _ _)); [done|]. unfold in_range in Ha. lia.
Qed.

Lemma placed_range s own zs m y : pman_inv s own zs -> pm_maps s !! m = Some y -> range_ok (m_vaddr y) (m_size_pages y).
Proof.
  intros Hinv Hm. destruct (pi_placed _ _ _ Hinv m y Hm) as (x & Hx & Hr & _).
  destruct (pi_context _ _ _ Hinv _ x Hx) as (Hv & _). by eapply vr_range.
Qed.

(** A page of every root mapping has a frame. *)
Lemma root_frame s own m z fr k : pman_inv s own ∅ -> pm_maps s !! m = Some z -> frames_of z = Some fr -> 0 <= k < m_size_pages z ->
  is_Some (fr_frame fr k).
Proof.
  intros Hinv Hm Hf Hk. destruct (pi_shows _ _ _ Hinv m z Hm (not_elem_of_empty m)) as (x & z' & fr' & _ & Hz' & _ & Hf' & _ & Hw).
  assert (root_of m z = m) as Hroot by (unfold root_of; rewrite (root_no_lender z) by (by eexists); done). rewrite Hroot in Hz'.
  assert (z' = z) as -> by congruence. assert (fr' = fr) as -> by congruence.
  pose proof (placed_range s own ∅ m z Hinv Hm) as (H0 & _ & H1 & H2).
  assert (range_index (m_vaddr z) (m_vaddr z + k * PAGE_SIZE) = k) as Hi.
  { assert (k < 2 ^ 36) by (unfold PAGE_SIZE in *; lia).
    pose proof (range_index_shift (m_vaddr z) k (m_vaddr z + k * PAGE_SIZE) ltac:(unfold PAGE_SIZE in *; lia)) as Hs.
    rewrite (proj2 (range_index_0 _ _)) in Hs by done. pose proof (range_index_bound (m_vaddr z) (m_vaddr z + k * PAGE_SIZE)).
    destruct (range_index (m_vaddr z) (m_vaddr z + k * PAGE_SIZE) <? k) eqn:E; lia. }
  destruct (Hw (m_vaddr z + k * PAGE_SIZE)) as (p & Hp & _); [unfold in_range; rewrite Hi; lia|]. rewrite Hi in Hp. by eexists.
Qed.

Lemma add_lent_spec borrow s own c x prot lender l z fr vaddr : pman_inv s own ∅ -> pm_contexts s !! c = Some x ->
  pm_maps s !! lender = Some l -> pm_maps s !! root_of lender l = Some z -> frames_of z = Some fr ->
  range_request x (vaddr =? 0) vaddr (m_size_pages l * PAGE_SIZE) ->
  (exists w, add_lent borrow c prot lender vaddr s = Stop w) \/
  exists m s' va ms z', let y := PmanMapping c (if borrow then PMAN_MAPPING_BORROWED (root_of lender l) ms else PMAN_MAPPING_SHARED (root_of lender l) ms)
      prot va (m_size_pages l) in
    add_lent borrow c prot lender vaddr s = Done (m, s') /\ pman_inv s' own ∅ /\ added s s' c m y fr /\
    used s' = used s /\ pm_maps s' !! root_of lender l = Some z' /\ same_but_refs z z' /\
    (forall k, refs_of z = Some k -> refs_of z' = Some (k + 1)) /\ ((vaddr =? 0) = false -> va = vaddr).
Proof.
  intros Hinv Hc Hl Hz Hfr Hreq. pose proof (placed_range s own ∅ lender l Hinv Hl) as (Hl0 & _ & Hlp & Hle).
  set (n := m_size_pages l) in *. set (rt := root_of lender l) in *.
  assert (0 < n * PAGE_SIZE <= 2 ^ 48) as Hsz by (unfold PAGE_SIZE in *; lia).
  assert (DIV_UP (n * PAGE_SIZE) PAGE_SIZE = n) as Hdd.
  { apply DIV_UP_pages. unfold PAGE_SIZE in *. lia. }
  destruct (get_root_done s own ∅ lender l Hinv Hl (not_elem_of_empty _)) as [Eroot (z0 & fr0 & Hz0 & _ & Hfr0 & Hlz & Hszz)].
  fold rt in Eroot, Hz0. assert (z0 = z) as -> by congruence. clear Hz0. assert (fr0 = fr) as -> by congruence. clear Hfr0. fold n in Hszz.
  unfold add_lent. rewrite (bind_done _ _ _ _ _ Eroot). set (m := pm_next s). rewrite (bind_done new_id _ s m _ eq_refl).
  pose proof (inv_new_id s own ∅ Hinv) as Hinv0. set (s0 := Pman _ _ _ _ _ _) in *.
  rewrite (bind_done _ _ s0 l s0) by (by apply get_mapping_done). fold n. rewrite u64_small by lia.
  destruct (get_range_spec s0 own ∅ c x (vaddr =? 0) vaddr (n * PAGE_SIZE) Hinv0 Hc Hsz Hreq) as [[w E]|(va & v & E & Hnr & Hva & Hinv1)];
    [left; exists w; by apply bind_stop|].
  rewrite (bind_done _ _ _ _ _ E). clear E. rewrite Hdd in Hnr. set (x1 := PmanContext (c_top x) v (c_list x)) in *.
  set (s1 := with_context c x1 s0) in *.
  assert (pm_maps s1 !! rt = Some z) as Hz1 by exact Hz.
  destruct (proj2 (root_has_frames z) ltac:(by eexists)) as [k Hk].
  destruct (add_reference_done s1 rt z k Hz1 Hk) as (z' & E & Hsame & Hk'). rewrite (bind_done _ _ _ _ _ E). clear E.
  pose proof (inv_add_reference s1 own ∅ rt z z' k Hinv1 Hz1 (not_elem_of_empty _) Hk Hsame Hk') as Hinv2.
  set (s2 := with_mapping rt z' s1) in *.
  assert (pm_maps s2 !! rt = Some z') as Hz2 by apply lookup_insert_eq.
  rewrite (bind_done _ _ _ _ _ (get_mapping_done s2 rt z' Hz2)).
  pose proof Hsame as Hsm. destruct Hsame as (Sc & Sp & Sv & Ss & Sf & Sg & Sl & Sw & Sk & Sn).
  assert (frames_of z' = Some fr) as Hfr' by congruence. assert (m_size_pages z' = n) as Hsz' by congruence.
  assert (paging_of z' <> []) as Hpne.
  { rewrite Sg. destruct (pi_placed _ _ _ Hinv rt z Hz) as (? & _ & _ & Ht & _). intros E. rewrite E in Ht. cbn in Ht. lia. }
  match goal with |- context [bind (if borrow then ?a else ?b) _ s2] =>
    assert ((if borrow then a else b) s2 = Done (tt, s2)) as E end.
  { destruct borrow; [|done]. unfold paging_of in Hpne. destruct (m_type z'); try done. unfold guard_or. rewrite bool_decide_false; [done|]. by destruct mappings. }
  rewrite (bind_done _ _ _ _ _ E). clear E.
  assert (pm_contexts s2 !! c = Some x1) as Hc2 by apply lookup_insert_eq.
  destruct (lend_pages_spec s2 _ c x1 z' fr va (if borrow then false else has_prot prot PMAN_PROT_WRITE) (negb (has_prot prot PMAN_PROT_EXECUTE)) Hinv2 Hc2 Hfr')
    as [E|(ms & t' & f & E & Htl & _ & Htt & Hfin & Hfout)].
  { apply Sk. by eapply (pi_kind _ _ _ Hinv). }
  { rewrite Hsz'. apply Hnr. }
  { intros j Hj. rewrite Hsz' in Hj. apply (root_frame s own rt z fr j Hinv Hz Hfr). by rewrite Hszz. }
  { intros a Ha. rewrite Hsz' in Ha. by apply (nr_unmapped _ _ _ _ _ Hnr). }
  { left. exists Undefined. by apply bind_stop. }
  rewrite (bind_done _ _ _ _ _ E). clear E. rewrite Hsz' in *.
  set (y := PmanMapping c (if borrow then PMAN_MAPPING_BORROWED rt ms else PMAN_MAPPING_SHARED rt ms) prot va n).
  assert (pman_inv (with_tables_p t' s2) (own_set own rt (S (own rt))) ∅) as Hinv3.
  { eapply (inv_map s2 _ ∅ c x1 t' va n f); [done|done| |exact Htt|by apply (nr_unmapped _ _ _ _ _ Hnr)|done].
    cbn. rewrite (nr_ranges _ _ _ _ _ Hnr). apply lookup_insert_eq. }
  set (s3 := with_tables_p t' s2) in *. change (put_mapping m y) with (modify (with_mapping m y)). rewrite bind_modify.
  assert (pm_contexts (with_mapping m y s3) !! c = Some x1) as Hc3 by exact Hc2.
  unfold list_mapping. rewrite bind_assoc, (bind_done _ _ _ _ _ (get_context_done _ c x1 Hc3)).
  assert (pm_maps s !! m = None) as Hm by (by eapply fresh_id).
  assert (rt <> m) as Hrm by (intros Hrm; rewrite Hrm in Hz; congruence).
  assert (pm_maps s3 !! m = None) as Hm3 by (cbn; by rewrite lookup_insert_ne).
  assert (lender_of y = Some rt /\ frames_of y = None /\ paging_of y = ms /\ refs_of y = None) as (Yl & Yf & Yg & Yr) by (by destruct borrow).
  assert (shown_rw y = if borrow then false else has_prot prot PMAN_PROT_WRITE) as Yw by (by destruct borrow).
  assert (forall a, in_range va n a -> f a None = frame_entry y fr (range_index va a)) as Hent.
  { intros a Ha. rewrite Hfin by done. unfold frame_entry, shown_entry. by rewrite Yw. }
  right. exists m, (linked c x1 m y s3), va, ms, z'.
  split; [reflexivity|]. split; [|split; [|split_and!; try done]].
  - eapply (inv_link s3 _ own c x1 m y Hinv3 Hc2 Hm3); try done.
    + cbn. lia.
    + cbn. rewrite (nr_ranges _ _ _ _ _ Hnr). apply lookup_insert_eq.
    + intros m' y' Hm' Hcc. assert (exists y0, pm_maps s !! m' = Some y0 /\ m_context y0 = c /\ m_vaddr y0 = m_vaddr y') as (y0 & Hy0 & Hc0 & <-).
      { cbn in Hm'. apply lookup_insert_Some in Hm' as [[<- <-]|[_ Hm']]; [exists z; rewrite <- Sc; done|by exists y']. }
      eapply (fresh_vaddr s own ∅ c x va m' y0 Hinv Hc); try done. apply Hnr.
    + by rewrite Yg.
    + exists z', fr. unfold root_of. rewrite Yl. cbn [default]. split_and!; [cbn; rewrite lookup_insert_ne by done; apply lookup_insert_eq|done|done|].
      intros a Ha. cbn [m_vaddr m_size_pages y] in *. pose proof Ha as Ha'. unfold in_range in Ha'. pose proof (range_index_bound va a).
      destruct (root_frame s own rt z fr (range_index va a) Hinv Hz Hfr) as [p Hp]; [rewrite Hszz; lia|]. exists p. split; [done|].
      rewrite <- (view_same s3 c x1 a Hc2). unfold s3. rewrite (view_tables s2 _ ∅ c x1 t' f c a Hinv2 Hc2 Htt), bool_decide_true by done.
      rewrite (view_same s2 c x1 a Hc2). change (walk s2 x1 a) with (walk s0 x a). rewrite (nr_unmapped _ _ _ _ _ Hnr a Ha), Hent by done.
      unfold frame_entry. by rewrite Hp.
    + intros m' w j Hw Hj. rewrite borrowers_add by done. apply lookup_insert_Some in Hw as [[<- <-]|[Hne Hw]]; [congruence|].
      destruct (pi_refs _ _ _ Hinv3 m' w j Hw (not_elem_of_empty _) Hj) as [-> Hpos]. split; [|done]. unfold own_set.
      case_bool_decide as Hb; [rewrite Yl in Hb; injection Hb as <-; rewrite decide_True by done; lia|rewrite decide_False by congruence; done].
    + intros m' Hne. destruct (pi_own _ _ _ Hinv m' Hne) as (_ & w & Hw & Hs).
      destruct (decide (m' = rt)) as [->|Hmr].
      * exists z'. cbn. rewrite lookup_insert_ne, lookup_insert_eq by done. split; [done|]. rewrite Hk'. by eexists.
      * exists w. cbn. rewrite !lookup_insert_ne; [done|done|]. intros <-. congruence.
    + intros fr1 Hf1. congruence.
  - assert (new_range s x va n v) as Hnr' by (destruct Hnr; by split).
    eapply (added_intro s s1 s3 own c x x1 m y fr va n v); try done.
    intros m' Hne Hne'. rewrite Yl in Hne'. cbn. rewrite lookup_insert_ne; [done|congruence].
  - cbn. rewrite lookup_insert_ne by done. apply lookup_insert_eq.
  - intros j Hj. assert (j = k) as -> by congruence. done.
Qed.

(** *** Removing mappings *)

Lemma borrowers_retire s zs m y k : pm_maps s !! m = Some y -> m ∉ zs ->
  borrowers s zs k = if bool_decide (lender_of y = Some k) then S (borrowers s ({[m]} ∪ zs) k) else borrowers s ({[m]} ∪ zs) k.
Proof.
  intros Hm Hz. unfold borrowers.
  assert (filter (fun p => lender_of p.2 = Some k /\ p.1 ∉ {[m]} ∪ zs) (pm_maps s) =
    delete m (filter (fun p => lender_of p.2 = Some k /\ p.1 ∉ zs) (pm_maps s))) as ->.
  { apply map_eq. intros i. apply option_eq. intros z. rewrite lookup_delete_Some, !map_lookup_filter_Some. cbn. set_solver. }
  case_bool_decide as Hl.
  - rewrite map_size_delete_Some.
    + assert (size (filter (fun p => lender_of p.2 = Some k /\ p.1 ∉ zs) (pm_maps s)) <> 0%nat); [|lia].
      intros E%map_size_empty_inv. assert (filter (fun p => lender_of p.2 = Some k /\ p.1 ∉ zs) (pm_maps s) !! m = Some y) as H.
      { apply map_lookup_filter_Some. done. }
      by rewrite E, lookup_empty in H.
    + exists y. apply map_lookup_filter_Some. done.
  - rewrite map_size_delete_None; [done|]. apply map_lookup_filter_None. right. intros z Hz'. cbn. assert (z = y) as -> by congruence. naive_solver.
Qed.

Definition unlisted (c m : nat) (x : context_t) (s : pman_state) : pman_state :=
  with_context c (PmanContext (c_top x) (c_valloc x) (remove_first (Nat.eqb m) (c_list x))) s.

Lemma unlist_done s c m x : pm_contexts s !! c = Some x -> unlist_mapping c m s = Done (tt, unlisted c m x s).
Proof. intros Hc. unfold unlist_mapping. by rewrite (bind_done _ _ _ _ _ (get_context_done s c x Hc)). Qed.

Lemma remove_first_in (l : list nat) m k : NoDup l -> (k ∈ remove_first (Nat.eqb m) l) <-> (k ∈ l) /\ k <> m.
Proof.
  induction l as [|a l IH]; intros Hnd; cbn [remove_first]; [set_solver|]. apply NoDup_cons in Hnd as [Ha Hnd].
  destruct (Nat.eqb_spec m a) as [->|Hne].
  - rewrite elem_of_cons. split; [intros Hk; split; [by right|by intros ->]|intros [[->|Hk] Hka]; done].
  - rewrite !elem_of_cons, IH by done. split; [intros [->|[? ?]]; split; auto|intros [[->|?] ?]; auto].
Qed.

(** A mapping leaves the list of its context and becomes one to tear down. *)
Lemma inv_retire s own own' zs m y y' x : pman_inv s own zs -> pm_maps s !! m = Some y -> m ∉ zs -> pm_contexts s !! m_context y = Some x ->
  same_but_refs y y' -> borrowers s zs m = 0%nat -> own' m = 0%nat ->
  (forall k, k <> m -> (own' k + borrowers s ({[m]} ∪ zs) k = own k + borrowers s zs k)%nat) ->
  (forall k, own' k <> 0%nat -> exists z, pm_maps s !! k = Some z /\ is_Some (refs_of z) /\ k ∉ zs) ->
  pman_inv (unlisted (m_context y) m x (with_mapping m y' s)) own' ({[m]} ∪ zs).
Proof.
  intros Hinv Hm Hmz Hc (Ec & Ep & Ev & Es & Ef & Eg & El & Ew & Eki & Eno) Hb0 Hown0 Hcount Hown. pose proof Hinv as [].
  set (c := m_context y) in *.
  assert (forall d x', (<[c := PmanContext (c_top x) (c_valloc x) (remove_first (Nat.eqb m) (c_list x))]> (pm_contexts s)) !! d = Some x' ->
    exists x0, pm_contexts s !! d = Some x0 /\ c_top x' = c_top x0 /\ c_valloc x' = c_valloc x0 /\
      ((d <> c /\ c_list x' = c_list x0) \/ (d = c /\ c_list x' = remove_first (Nat.eqb m) (c_list x0)))) as Hback.
  { intros d x' [[<- <-]|[Hne Hd]]%lookup_insert_Some; [exists x; split_and!; try done; by right|]. exists x'. split_and!; try done. left. done. }
  assert (forall d x0, pm_contexts s !! d = Some x0 -> exists x', (<[c := PmanContext (c_top x) (c_valloc x) (remove_first (Nat.eqb m) (c_list x))]> (pm_contexts s)) !! d = Some x' /\
    c_top x' = c_top x0 /\ c_valloc x' = c_valloc x0) as Hfwd.
  { intros d x0 Hd. destruct (decide (c = d)) as [->|Hne].
    - rewrite lookup_insert_eq. eexists. split; [done|]. assert (x0 = x) as -> by congruence. done.
    - exists x0. by rewrite lookup_insert_ne. }
  assert (forall k z, (<[m := y']> (pm_maps s)) !! k = Some z -> exists z0, pm_maps s !! k = Some z0 /\ same_but_refs z0 z /\ (k <> m -> z = z0)) as Hmaps.
  { intros k z [[<- <-]|[Hne Hk]]%lookup_insert_Some; [exists y; split; [done|]; split; [by split_and!|done]|]. exists z. split; [done|]. split; [by split_and!|done]. }
  assert (forall k z0, pm_maps s !! k = Some z0 -> exists z, (<[m := y']> (pm_maps s)) !! k = Some z /\ same_but_refs z0 z) as Hmaps'.
  { intros k z0 Hk. destruct (decide (m = k)) as [->|Hne]; [exists y'; rewrite lookup_insert_eq; assert (z0 = y) as -> by congruence; split; [done|by split_and!]|].
    exists z0. rewrite lookup_insert_ne by done. split; [done|by split_and!]. }
  assert (forall k, borrowers (with_mapping m y' s) ({[m]} ∪ zs) k = borrowers s ({[m]} ∪ zs) k) as Hbor by (intros k; by apply (borrowers_same s _ m y)).
  split; cbn [unlisted with_context with_mapping pm_tables pm_maps pm_contexts pm_frames pm_next]; try done.
  - intros k z (z0 & Hk & _)%Hmaps. by eapply pi_next0.
  - intros d x' (x0 & Hd & -> & -> & Hl)%Hback. destruct (pi_context0 d x0 Hd) as (? & ? & Hnd). split_and!; [done|done|].
    destruct Hl as [[_ ->]|[_ ->]]; [done|by apply NoDup_remove_first].
  - intros d d' x1 x2 (x1' & H1 & -> & _)%Hback (x2' & H2 & -> & _)%Hback. by eapply pi_top0.
  - intros d x' k (x0 & Hd & _ & _ & Hl)%Hback.
    assert (forall P : Prop, (exists z, (<[m := y']> (pm_maps s)) !! k = Some z /\ m_context z = d) <-> (exists z, pm_maps s !! k = Some z /\ m_context z = d)) as Hex.
    { intros _. split; [intros (z & (z0 & Hk & (E & _) & _)%Hmaps & <-); exists z0; split; [done|congruence]|].
      intros (z0 & (z & Hk & (E & _))%Hmaps' & <-). exists z. split; [done|congruence]. }
    rewrite (Hex True). destruct Hl as [[Hne ->]|[-> ->]].
    + rewrite (pi_list0 d x0 k Hd). split; intros [Hz (z & Hk & Hcz)]; (split; [|by exists z]); [|set_solver].
      assert (k <> m) by (intros ->; apply Hne; unfold c; congruence). set_solver.
    + destruct (pi_context0 c x0 Hd) as (_ & _ & Hnd). rewrite remove_first_in by done. rewrite (pi_list0 c x0 k Hd). set_solver.
  - intros d x' va (x0 & Hd & Ht & -> & _)%Hback. unfold walk. cbn. rewrite Ht. by apply (pi_stray0 d x0).
  - intros k z (z0 & Hk & (E1 & _ & E3 & E4 & _ & E6 & _) & _)%Hmaps. destruct (pi_placed0 k z0 Hk) as (x0 & Hd & Hr & Ht & Hw).
    destruct (Hfwd _ _ Hd) as (x' & Hx' & Htop & Hva). exists x'. rewrite E1, E3, E4, E6, Hva. split_and!; [done..|]. unfold walk. cbn. by rewrite Htop.
  - intros k1 k2 z1 z2 (w1 & H1 & (E1 & _ & E3 & _) & _)%Hmaps (w2 & H2 & (F1 & _ & F3 & _) & _)%Hmaps Hcc Hvv.
    eapply pi_distinct0; [done|done|congruence|congruence].
  - intros k z (z0 & Hk & _ & Heq)%Hmaps Hkz. assert (k <> m) as Hkm by set_solver. assert (k ∉ zs) as Hkz' by set_solver. rewrite (Heq Hkm). clear Heq z.
    destruct (pi_shows0 k z0 Hk Hkz') as (x0 & w & fr & Hd & Hw & Hwz & Hf & Hsz & Hwalk).
    destruct (Hfwd _ _ Hd) as (x' & Hx' & Htop & _).
    assert (root_of k z0 <> m) as Hrm.
    { intros Hrm. unfold root_of in Hrm. destruct (lender_of z0) as [l|] eqn:Hl; cbn in Hrm; [|done]. subst l.
      assert (filter (fun p => lender_of p.2 = Some m /\ p.1 ∉ zs) (pm_maps s) !! k = Some z0) as Hin by (apply map_lookup_filter_Some; done).
      unfold borrowers in Hb0. apply map_size_empty_inv in Hb0. by rewrite Hb0, lookup_empty in Hin. }
    exists x', w, fr. split; [exact Hx'|]. split; [cbn; by rewrite lookup_insert_ne by congruence|].
    split_and!; [set_solver|done|done|]. intros va Hva. unfold walk. cbn. rewrite Htop. by apply Hwalk.
  - intros k z r (z0 & Hk & _ & Heq)%Hmaps Hkz Hr. assert (k <> m) as Hkm by set_solver. rewrite (Heq Hkm) in Hr.
    change (borrowers (unlisted c m x (with_mapping m y' s)) ({[m]} ∪ zs) k) with (borrowers (with_mapping m y' s) ({[m]} ∪ zs) k). rewrite Hbor.
    destruct (pi_refs0 k z0 r Hk ltac:(set_solver) Hr) as [-> Hpos]. specialize (Hcount k Hkm). split; [f_equal; lia|done].
  - intros k Hk. destruct (Hown k Hk) as (z & Hz & Hs & Hkz). assert (k <> m) by (intros ->; lia). split; [set_solver|].
    exists z. by rewrite lookup_insert_ne.
  - intros k z fr (z0 & Hk & (_ & _ & _ & _ & E5 & _ & _ & _ & E9 & _) & _)%Hmaps Hf. rewrite E5 in Hf. apply E9. by eapply pi_kind0.
  - intros k z fr (z0 & Hk & (_ & _ & _ & _ & E5 & _) & _)%Hmaps Hf. rewrite E5 in Hf. by eapply pi_frames0.
  - intros k k' z z' fr fr' (z0 & Hk & (_ & _ & _ & _ & E5 & _) & _)%Hmaps (z0' & Hk' & (_ & _ & _ & _ & E5' & _) & _)%Hmaps Hne Hf Hf'.
    rewrite E5 in Hf. rewrite E5' in Hf'. by apply (pi_disjoint0 k k' z0 z0').
Qed.
End pman_proofs.
