(* ===== verification/PmanOps.v ===== *)
(** * PmanOps: mapping, unmapping and new address spaces

    What each operation of the paging manager leaves, stated for every state
    that satisfies the invariant of PmanInv: [added] says what a new mapping
    changes, [removed] what a torn down one does. *)
From S2P Require Import Prelude Bitmap Valloc PageTables PageTree PageMap PmanIface Pman PmanInv.

Section pman_props.
Context {V F T : Type} `{HV : VirtualRanges V} `{HF : FrameAllocator F} `{HT : PageMapper T}.
Abbreviation pman_state := (@pman V F T).
Abbreviation context_t := (@pman_context_t V).
Implicit Types (s : pman_state) (x : context_t).

(** ** Tearing a mapping down *)

Lemma shown_present s c m y fr a : view s c a = frame_entry y fr m -> is_Some (fr_frame fr m) -> view s c a <> None.
Proof. intros -> [p Hp]. unfold frame_entry. by rewrite Hp. Qed.

(** The range goes back, the pages are unmapped, and the object goes, with the
    frames [f'] left. *)
Lemma drop_range_spec s own zs m y f' : pman_inv s own zs -> pm_maps s !! m = Some y -> m ∈ zs ->
  used s ∖ from_option fr_owned ∅ (frames_of y) ⊆ fa_used f' ->
  exists s1, drop_range y (paging_of y) s = Done (tt, s1) /\
    pm_maps s1 = pm_maps s /\ pm_frames s1 = pm_frames s /\ pm_memory s1 = pm_memory s /\ same_contexts s s1 /\
    pman_inv (without_mapping m (with_frames f' s1)) own (zs ∖ {[m]}) /\
    (forall d a, view s1 d a = if bool_decide (d = m_context y) && (range_index (m_vaddr y) a <? m_size_pages y) then None else view s d a) /\
    (forall d, ranges s1 d = if bool_decide (d = m_context y) then delete (m_vaddr y) (ranges s d) else ranges s d).
Proof.
  intros Hinv Hm Hmz Hfr. pose proof Hinv as [pi_tables0 pi_next0 pi_context0 pi_top0 pi_list0 pi_stray0 pi_placed0 pi_distinct0 pi_shows0 pi_refs0 pi_own0 pi_kind0 pi_frames0 pi_disjoint0].
  destruct (pi_placed0 m y Hm) as (x & Hc & Hr & Ht & Hw).
  destruct (pi_context0 _ x Hc) as (Hv & Hroot & Hnd). set (c := m_context y) in *.
  pose proof (vr_range _ _ _ Hv Hr) as (Hv0 & _ & Hpos & Hend).
  unfold drop_range. fold c. destruct (vr_release_ok (c_valloc x) (m_vaddr y) (m_size_pages y) Hv Hr) as (v & E & Hv' & Hr').
  rewrite (bind_done _ _ _ _ _ (on_valloc_done c _ s x _ v Hc E)). clear E.
  set (x1 := PmanContext (c_top x) v (c_list x)). set (s0 := with_context c x1 s).
  assert (pm_contexts s0 !! c = Some x1) as Hc1 by apply lookup_insert_eq.
  rewrite (bind_done _ _ _ _ _ (get_context_done s0 c x1 Hc1)).
  destruct (unmap_each_spec (paging_of y) (pm_tables s0) (ta_vaddr (c_top x1)) (m_vaddr y) (m_size_pages y) pi_tables0 Hroot Ht
    ltac:(unfold PAGE_SIZE in *; lia) Hw) as (t' & E & Hok' & Hw').
  exists (with_tables_p t' s0). split; [by apply on_tables_done|]. split_and!; [done|done|done|by eapply same_contexts_insert| | |].
  2:{ intros d a. unfold view. cbn [with_tables_p pm_contexts s0 with_context]. destruct (decide (c = d)) as [->|Hne].
      - rewrite lookup_insert_eq, (bool_decide_true (d = d)) by done. cbn. rewrite Hc. cbn. unfold walk. cbn.
        destruct (Hw' _ Hroot) as [_ Hwk]. rewrite Hwk, bool_decide_true by done. done.
      - rewrite lookup_insert_ne by done. rewrite (bool_decide_false (d = c)) by congruence. cbn.
        destruct (pm_contexts s !! d) as [x'|] eqn:Hd; [|done]. cbn. unfold walk. cbn.
        destruct (pi_context0 d x' Hd) as (_ & Hroot' & _). destruct (Hw' _ Hroot') as [_ Hwk]. rewrite Hwk.
        rewrite bool_decide_false; [done|]. intros Et. apply Hne. symmetry. by eapply pi_top0. }
  2:{ intros d. unfold ranges. cbn [with_tables_p pm_contexts s0 with_context]. case_bool_decide as Hd.
      - subst d. rewrite lookup_insert_eq, Hc. cbn. done.
      - by rewrite lookup_insert_ne by done. }
  assert (forall d x', (<[c := x1]> (pm_contexts s)) !! d = Some x' -> exists x0, pm_contexts s !! d = Some x0 /\ c_top x' = c_top x0 /\
    c_list x' = c_list x0 /\ vr_ok (c_valloc x') /\
    vr_ranges (c_valloc x') = if bool_decide (d = c) then delete (m_vaddr y) (vr_ranges (c_valloc x0)) else vr_ranges (c_valloc x0)) as Hback.
  { intros d x' [[<- <-]|[Hne Hd]]%lookup_insert_Some; [exists x; rewrite bool_decide_true by done; done|].
    exists x'. rewrite bool_decide_false by done. destruct (pi_context0 d x' Hd) as (? & _). done. }
  assert (forall d x0, pm_contexts s !! d = Some x0 -> exists x', (<[c := x1]> (pm_contexts s)) !! d = Some x' /\ c_top x' = c_top x0 /\
    vr_ranges (c_valloc x') = if bool_decide (d = c) then delete (m_vaddr y) (vr_ranges (c_valloc x0)) else vr_ranges (c_valloc x0)) as Hfwd.
  { intros d x0 Hd. destruct (decide (c = d)) as [->|Hne].
    - exists x1. rewrite lookup_insert_eq, bool_decide_true by done. assert (x0 = x) as -> by congruence. done.
    - exists x0. rewrite lookup_insert_ne, bool_decide_false by done. done. }
  (* the pages of the other mappings are elsewhere *)
  assert (forall k z x0 a, pm_maps s !! k = Some z -> k <> m -> pm_contexts s !! m_context z = Some x0 -> in_range (m_vaddr z) (m_size_pages z) a ->
    pm_walk t' (ta_vaddr (c_top x0)) a = walk s x0 a) as Hother.
  { intros k z x0 a Hk Hkm Hx0 Ha. destruct (pi_context0 _ x0 Hx0) as (_ & Hroot0 & _). destruct (Hw' _ Hroot0) as [_ Hwk]. rewrite Hwk.
    case_bool_decide as Htop; [|done]. assert (m_context z = c) as Hzc by (by eapply pi_top0).
    destruct (range_index (m_vaddr y) a <? m_size_pages y) eqn:Ea; [|done]. exfalso. apply Z.ltb_lt in Ea.
    assert (x0 = x) as -> by congruence. destruct (pi_placed0 k z Hk) as (x0 & Hx0' & Hrz & _). assert (x0 = x) as -> by congruence.
    assert (m_vaddr z <> m_vaddr y) as Hvv by (intros Evv; apply Hkm; by eapply (pi_distinct0 k m)).
    eapply (apart_in_range (m_vaddr z) _ (m_vaddr y) (m_size_pages y) a); [by eapply (vr_range (c_valloc x))|by eapply (vr_range (c_valloc x))| |done|exact Ea].
    by apply (vr_apart (c_valloc x)). }
  assert (forall k z, delete m (pm_maps s) !! k = Some z -> k <> m /\ pm_maps s !! k = Some z) as Hmaps by (intros k z [? ?]%lookup_delete_Some; done).
  split; cbn [without_mapping with_frames with_tables_p s0 with_context pm_tables pm_maps pm_contexts pm_frames pm_next]; try done.
  - intros k z [_ Hk]%Hmaps. by eapply pi_next0.
  - intros d x' (x0 & Hd & -> & -> & Hvok & _)%Hback. destruct (pi_context0 d x0 Hd) as (? & Hr0 & ?). split_and!; [done| |done]. by apply Hw'.
  - intros d d' x2 x3 (x2' & H2 & -> & _)%Hback (x3' & H3 & -> & _)%Hback. by eapply pi_top0.
  - intros d x' k (x0 & Hd & _ & -> & _)%Hback. rewrite (pi_list0 d x0 k Hd). split.
    + intros [Hkz (z & Hk & Hcz)]. assert (k <> m) by set_solver. split; [set_solver|]. exists z. by rewrite lookup_delete_ne.
    + intros [Hkz (z & [Hkm Hk]%Hmaps & Hcz)]. split; [set_solver|by exists z].
  - intros d x' a (x0 & Hd & Htop & _ & _ & Hrg)%Hback. unfold walk. cbn. rewrite Htop. destruct (pi_context0 d x0 Hd) as (_ & Hr0 & _).
    destruct (Hw' _ Hr0) as [_ Hwk]. rewrite Hwk. intros Hne.
    destruct (decide (d = c)) as [->|Hdc].
    + assert (x0 = x) as -> by congruence. rewrite bool_decide_true in Hne, Hrg by done.
      destruct (range_index (m_vaddr y) a <? m_size_pages y) eqn:Ea; [done|]. apply Z.ltb_ge in Ea.
      destruct (pi_stray0 c x a Hd Hne) as (b & n & Hb & Hin). exists b, n. split; [|done]. rewrite Hrg, lookup_delete_ne; [done|].
      intros <-. unfold in_range in Hin. assert (n = m_size_pages y) by congruence. lia.
    + rewrite bool_decide_false in Hne by (intros Et; apply Hdc; by eapply pi_top0).
      destruct (pi_stray0 d x0 a Hd Hne) as (b & n & Hb & Hin). exists b, n. rewrite Hrg, bool_decide_false by done. done.
  - intros k z [Hkm Hk]%Hmaps. destruct (pi_placed0 k z Hk) as (x0 & Hd & Hrz & Htz & Hwz).
    destruct (Hfwd _ _ Hd) as (x' & Hx' & Htop & Hrg). exists x'. split_and!; [done| |done|].
    + rewrite Hrg. case_bool_decide as Hdc; [|done]. rewrite lookup_delete_ne; [done|]. intros Evv. apply Hkm. by eapply (pi_distinct0 k m).
    + intros a Ha. unfold walk. cbn. rewrite Htop. rewrite (Hother k z x0 a Hk Hkm Hd Ha). by apply Hwz.
  - intros k k' z z' [_ Hk]%Hmaps [_ Hk']%Hmaps. by eapply pi_distinct0.
  - intros k z [Hkm Hk]%Hmaps Hkz. assert (k ∉ zs) as Hkz' by set_solver.
    destruct (pi_shows0 k z Hk Hkz') as (x0 & w & fr & Hd & Hw0 & Hwz & Hf & Hsz & Hwalk).
    destruct (Hfwd _ _ Hd) as (x' & Hx' & Htop & _). exists x', w, fr. split; [exact Hx'|].
    split; [cbn; rewrite lookup_delete_ne; [done|intros Heq; apply Hwz; by rewrite <- Heq]|]. split_and!; [set_solver|done|done|].
    intros a Ha. unfold walk. cbn. rewrite Htop, (Hother k z x0 a Hk Hkm Hd Ha). by apply Hwalk.
  - intros k z r [Hkm Hk]%Hmaps Hkz Hrf. assert (k ∉ zs) as Hkz' by set_solver. destruct (pi_refs0 k z r Hk Hkz' Hrf) as [-> Hp]. split; [|done].
    do 2 f_equal. unfold borrowers. cbn [without_mapping with_frames with_tables_p with_context pm_maps]. f_equal.
    apply map_eq. intros i. apply option_eq. intros w. rewrite !map_lookup_filter_Some, lookup_delete_Some. cbn. split.
    + intros [Hi [Hl Hiz]]. assert (i <> m) by (intros ->; done). split_and!; [done|done|done|set_solver].
    + intros [[Him Hi] [Hl Hiz]]. split_and!; [done|done|set_solver].
  - intros k Hk. destruct (pi_own0 k Hk) as (Hkz & z & Hz & Hs). assert (k <> m) by set_solver. split; [set_solver|]. exists z. by rewrite lookup_delete_ne.
  - intros k z fr [Hkm Hk]%Hmaps. by eapply pi_kind0.
  - intros k z fr [Hkm Hk]%Hmaps Hf. destruct (pi_frames0 k z fr Hk Hf) as [Hsub ?]. split; [|done].
    destruct (frames_of y) as [fry|] eqn:Hfy; cbn in Hfr; [|set_solver].
    pose proof (pi_disjoint0 k m z y fr fry Hk Hm Hkm Hf Hfy). set_solver.
  - intros k k' z z' fr fr' [_ Hk]%Hmaps [_ Hk']%Hmaps. by apply (pi_disjoint0 k k' z z').
Qed.

(** ** Unmapping *)

Definition covers (s : pman_state) (ms : list nat) (d : nat) (a : Z) : Prop :=
  exists m y, m ∈ ms /\ pm_maps s !! m = Some y /\ m_context y = d /\ in_range (m_vaddr y) (m_size_pages y) a.

(** The mappings [ms] have gone, with their ranges and pages. *)
Record removed (s s' : pman_state) (ms : list nat) : Prop := Removed {
  rm_gone m : m ∈ ms -> pm_maps s' !! m = None;
  rm_kept m y : pm_maps s !! m = Some y -> m ∉ ms -> exists y', pm_maps s' !! m = Some y' /\ same_but_refs y y';
  rm_back m y' : pm_maps s' !! m = Some y' -> exists y, pm_maps s !! m = Some y /\ same_but_refs y y';
  rm_view d a : ~ covers s ms d a -> view s' d a = view s d a;
  rm_view_le d a e : view s' d a = Some e -> view s d a = Some e;
  rm_ranges_le d v n : ranges s' d !! v = Some n -> ranges s d !! v = Some n;
  rm_unmapped d a : covers s ms d a -> view s' d a = None;
  rm_ranges d v : (forall m y, m ∈ ms -> pm_maps s !! m = Some y -> m_context y = d -> m_vaddr y <> v) ->
    ranges s' d !! v = ranges s d !! v;
  rm_released m y : m ∈ ms -> pm_maps s !! m = Some y -> ranges s' (m_context y) !! m_vaddr y = None;
  rm_contexts : same_contexts s s';
  rm_memory : pm_memory s' = pm_memory s
}.

Lemma same_but_refs_refl y : same_but_refs y y.
Proof. by split_and!. Qed.
Lemma same_but_refs_trans y1 y2 y3 : same_but_refs y1 y2 -> same_but_refs y2 y3 -> same_but_refs y1 y3.
Proof.
  intros (?&?&?&?&?&?&?&?&?&Hn1) (?&?&?&?&?&?&?&?&?&Hn2). split_and!; try congruence; [auto|].
  intros Hn. rewrite Hn2; [by apply Hn1|]. by rewrite Hn1.
Qed.

(** Tearing [m] down after its references have been dropped ([s0] differs from
    [s] in the lists and references only). *)
Lemma drop_removed s s0 s1 m y : pm_maps s !! m = Some y ->
  (forall k z, pm_maps s !! k = Some z -> exists z', pm_maps s0 !! k = Some z' /\ same_but_refs z z') ->
  (forall k z', pm_maps s0 !! k = Some z' -> exists z, pm_maps s !! k = Some z /\ same_but_refs z z') ->
  (forall d a, view s0 d a = view s d a) -> (forall d, ranges s0 d = ranges s d) -> same_contexts s s0 -> pm_memory s0 = pm_memory s ->
  pm_maps s1 = delete m (pm_maps s0) -> pm_memory s1 = pm_memory s0 -> same_contexts s0 s1 ->
  (forall d a, view s1 d a = if bool_decide (d = m_context y) && (range_index (m_vaddr y) a <? m_size_pages y) then None else view s0 d a) ->
  (forall d, ranges s1 d = if bool_decide (d = m_context y) then delete (m_vaddr y) (ranges s0 d) else ranges s0 d) ->
  removed s s1 [m].
Proof.
  intros Hm Hmaps Hmaps' Hv Hr Hc0 Hmem0 Hm1 Hmem1 Hc1 Hv1 Hr1. split.
  - intros k ->%list_elem_of_singleton. by rewrite Hm1, lookup_delete_eq.
  - intros k z Hk Hkm. destruct (Hmaps k z Hk) as (z' & Hz' & Hs). exists z'. split; [|done]. rewrite Hm1, lookup_delete_ne; [done|set_solver].
  - intros k z' Hk. rewrite Hm1 in Hk. apply lookup_delete_Some in Hk as [_ Hk]. by apply Hmaps'.
  - intros d a Hn. rewrite Hv1, Hv. destruct (bool_decide (d = m_context y) && (range_index (m_vaddr y) a <? m_size_pages y)) eqn:E; [|done].
    exfalso. apply andb_prop in E as [E1 E2]. apply bool_decide_eq_true in E1. apply Z.ltb_lt in E2. apply Hn. exists m, y. split_and!; [set_solver|done|done|done].
  - intros d a e. rewrite Hv1, Hv. by case_match.
  - intros d v n. rewrite Hr1, Hr. case_bool_decide; [|done]. by intros [_ ?]%lookup_delete_Some.
  - intros d a (k & z & ->%list_elem_of_singleton & Hz & <- & Hin). assert (z = y) as -> by congruence. rewrite Hv1, bool_decide_true by done.
    by rewrite (proj2 (Z.ltb_lt _ _)) by exact Hin.
  - intros d v Hn. rewrite Hr1, Hr. case_bool_decide as Hd; [|done]. rewrite lookup_delete_ne; [done|]. apply (Hn m y); [set_solver|done|done].
  - intros k z ->%list_elem_of_singleton Hz. assert (z = y) as -> by congruence. rewrite Hr1, bool_decide_true by done. apply lookup_delete_eq.
  - intros d. by rewrite (Hc1 d).
  - congruence.
Qed.

Lemma with_mapping_view s m y d a : view (with_mapping m y s) d a = view s d a.
Proof. done. Qed.
Lemma view_unlisted s c m x d a : pm_contexts s !! c = Some x -> view (unlisted c m x s) d a = view s d a.
Proof. intros Hc. by eapply view_context. Qed.
Lemma ranges_unlisted s c m x d : pm_contexts s !! c = Some x -> ranges (unlisted c m x s) d = ranges s d.
Proof. intros Hc. unfold unlisted. rewrite (ranges_context s c x) by done. case_bool_decide as Hd; [|done]. subst d. unfold ranges. by rewrite Hc. Qed.

(** Dropping one reference to a root. *)
Lemma set_refs_done s m y k : pm_maps s !! m = Some y -> refs_of y = Some k -> forall n, exists y',
  same_but_refs y y' /\ refs_of y' = Some (k - 1) /\
  unmap_from (S n) m s = (if k - 1 =? 0 then
      do! unlist_mapping (m_context y) m; do! drop_range y (paging_of y);
      do! on_frames (fa_free (default (Frames PALLOC_ALLOC 0 []) (frames_of y))); free_mapping m
    else ret tt) (with_mapping m y' s).
Proof.
  intros Hm Hk n. cbn [unmap_from]. rewrite (bind_done _ _ _ _ _ (get_mapping_done s m y Hm)).
  unfold same_but_refs. unfold refs_of, references in *. unfold frames_of, paging_of, lender_of, shown_rw, kind_ok.
  destruct (m_type y) as [r p l|r p l| | |]; [| |done..]; injection Hk as ->; eexists; (split; [|split; [|reflexivity]]); done.
Qed.

(** One of the [k] references to [r] has gone; with the last one its frames
    went back. *)
Definition reference_dropped (s s' : pman_state) (r : nat) (z : pman_mapping_t) (k : Z) : Prop :=
  (k <> 1 -> exists z', pm_maps s' !! r = Some z' /\ same_but_refs z z' /\ refs_of z' = Some (k - 1) /\ pm_frames s' = pm_frames s) /\
  (k = 1 -> used s' = used s ∖ from_option fr_owned ∅ (frames_of z)).

Lemma unmap_root_spec n s own zs r z k : pman_inv s own zs -> pm_maps s !! r = Some z -> r ∉ zs -> refs_of z = Some k -> own r <> 0%nat ->
  exists s', unmap_from (S n) r s = Done (tt, s') /\ pman_inv s' (own_set own r (pred (own r))) zs /\
    removed s s' (if k =? 1 then [r] else []) /\
    reference_dropped s s' r z k.
Proof.
  intros Hinv Hr Hz Hk Hown. destruct (pi_refs _ _ _ Hinv r z k Hr Hz Hk) as [Hkc Hkp].
  destruct (set_refs_done s r z k Hr Hk n) as (z' & Hs & Hk' & ->).
  assert (is_Some (frames_of z)) as [fr Hfr] by (apply root_has_frames; by eexists).
  destruct (Z.eqb_spec k 1) as [->|Hk1].
  2:{ rewrite (proj2 (Z.eqb_neq (k - 1) 0)) by lia. exists (with_mapping r z' s). split; [done|]. split_and!.
      - eapply (inv_set_refs s own _ zs r z z' (k - 1)); try done; [|unfold own_set; rewrite decide_True by done; lia|lia].
        intros m Hne. unfold own_set. by rewrite decide_False.
      - split; try done.
        + intros m Hm. by apply elem_of_nil in Hm.
        + intros m y Hm _. cbn. destruct (decide (r = m)) as [<-|Hne]; [exists z'; rewrite lookup_insert_eq; split; [done|]; assert (y = z) as -> by congruence; exact Hs|].
          exists y. rewrite lookup_insert_ne by done. split; [done|apply same_but_refs_refl].
        + intros m y' Hm. cbn in Hm. apply lookup_insert_Some in Hm as [[<- <-]|[_ Hm]]; [by exists z|exists y'; split; [done|apply same_but_refs_refl]].
        + intros d a (m & _ & Hm & _). by apply elem_of_nil in Hm.
        + intros m y Hm. by apply elem_of_nil in Hm.
      - split; [|done]. intros _. exists z'. cbn. rewrite lookup_insert_eq. done. }
  change (1 - 1 =? 0) with true. cbv iota.
  assert (own r = 1%nat /\ borrowers s zs r = 0%nat) as [Ho1 Hb0] by lia.
  pose proof (pi_placed _ _ _ Hinv r z Hr) as (x & Hc & _).
  set (c := m_context z) in *. set (s0 := with_mapping r z' s).
  assert (pm_contexts s0 !! c = Some x) as Hc0 by exact Hc.
  rewrite (bind_done _ _ _ _ _ (unlist_done s0 c r x Hc0)).
  assert (pman_inv (unlisted c r x s0) (own_set own r 0) ({[r]} ∪ zs)) as Hinv1.
  { eapply (inv_retire s own _ zs r z z' x); try done.
    - unfold own_set. by rewrite decide_True.
    - intros m Hm. unfold own_set. rewrite decide_False by done. f_equal. rewrite (borrowers_retire s zs r z m Hr Hz).
      rewrite bool_decide_false; [done|]. rewrite (root_no_lender z) by (by eexists). done.
    - intros m Hm. unfold own_set in Hm. destruct (decide (m = r)); [done|]. destruct (pi_own _ _ _ Hinv m Hm) as (Hmz & w & Hw & Hs'). by exists w. }
  set (s1 := unlisted c r x s0) in *.
  assert (pm_maps s1 !! r = Some z') as Hr1 by apply lookup_insert_eq.
  pose proof Hs as Hsame. destruct Hs as (Sc & Sp & Sv & Ss & Sf & Sg & Sl & Sw & Sk & Sn).
  destruct (fa_free_ok (pm_frames s) fr) as (f' & Ef & Huf).
  destruct (drop_range_spec s1 _ ({[r]} ∪ zs) r z' f' Hinv1 Hr1 ltac:(set_solver)) as (s2 & E & Hm2 & Hf2 & Hmem2 & Hc2 & Hinv2 & Hv2 & Hr2).
  { rewrite Sf, Hfr. cbn. rewrite Huf. done. }
  assert (drop_range z (paging_of z) s1 = Done (tt, s2)) as E'.
  { rewrite <- E, Sg. unfold drop_range. by rewrite Sc, Sv. }
  rewrite (bind_done _ _ _ _ _ E'). clear E E'. rewrite Hfr. cbn [default].
  assert (fa_free fr (pm_frames s2) = Done (tt, f')) as Ef2 by (rewrite Hf2; exact Ef).
  rewrite (bind_done _ _ _ _ _ (on_frames_done _ s2 _ _ Ef2)). exists (without_mapping r (with_frames f' s2)). split; [done|].
  assert (forall d a, view s2 d a = if bool_decide (d = m_context z) && (range_index (m_vaddr z) a <? m_size_pages z) then None else view s1 d a) as Hv2'
    by (intros d a; by rewrite Hv2, Sc, Sv, Ss).
  assert (forall d, ranges s2 d = if bool_decide (d = m_context z) then delete (m_vaddr z) (ranges s1 d) else ranges s1 d) as Hr2'
    by (intros d; by rewrite Hr2, Sc, Sv).
  split_and!; [| |split; [done|]].
  3:{ intros _. rewrite Hfr. exact Huf. }
  - rewrite Ho1. cbn [pred]. replace (({[r]} ∪ zs) ∖ {[r]}) with zs in Hinv2 by set_solver. done.
  - eapply (drop_removed s s1 _ r z Hr); try done.
    + intros m w Hm. cbn. destruct (decide (r = m)) as [<-|Hne]; [exists z'; rewrite lookup_insert_eq; split; [done|]; assert (w = z) as -> by congruence; exact Hsame|].
      exists w. rewrite lookup_insert_ne by done. split; [done|apply same_but_refs_refl].
    + intros m w Hm. cbn in Hm. apply lookup_insert_Some in Hm as [[<- <-]|[_ Hm]]; [by exists z|exists w; split; [done|apply same_but_refs_refl]].
    + intros d a. unfold s1. by rewrite (view_unlisted s0).
    + intros d. unfold s1. by rewrite (ranges_unlisted s0).
    + by eapply (same_contexts_insert s0).
    + cbn. by rewrite Hm2.
Qed.

Lemma removed_trans s s1 s2 l1 l2 : removed s s1 l1 -> removed s1 s2 l2 -> removed s s2 (l1 ++ l2).
Proof.
  intros [G1 K1 B1 V1 L1 N1 U1 R1 D1 C1 M1] [G2 K2 B2 V2 L2 N2 U2 R2 D2 C2 M2].
  assert (forall m y, pm_maps s !! m = Some y -> m ∉ l1 -> exists y1, pm_maps s1 !! m = Some y1 /\ same_but_refs y y1) as Hk by apply K1.
  assert (forall d a, covers s1 l2 d a -> covers s l2 d a) as Hcov.
  { intros d a (m & y1 & Hm & Hy1 & Hc & Hin). destruct (B1 m y1 Hy1) as (y & Hy & E1 & _ & E3 & E4 & _).
    exists m, y. rewrite <- E3, <- E4. split_and!; [done|done|congruence|done]. }
  assert (forall d a, covers s (l1 ++ l2) d a -> covers s l1 d a \/ covers s1 l2 d a) as Hsplit.
  { intros d a (m & y & Hm & Hy & Hc & Hin). destruct (decide (m ∈ l1)) as [H1|H1]; [left; by exists m, y|right].
    destruct (K1 m y Hy H1) as (y1 & Hy1 & E1 & _ & E3 & E4 & _). exists m, y1. rewrite E3, E4. split_and!; [set_solver|done|congruence|done]. }
  split.
  - intros m [Hm|Hm]%elem_of_app; [|by apply G2]. destruct (pm_maps s2 !! m) eqn:E; [|done].
    destruct (B2 _ _ E) as (y & Hy & _). rewrite G1 in Hy by done. done.
  - intros m y Hy [H1 H2]%not_elem_of_app. destruct (K1 m y Hy H1) as (y1 & Hy1 & S1). destruct (K2 m y1 Hy1 H2) as (y2 & Hy2 & S2).
    exists y2. split; [done|]. by eapply same_but_refs_trans.
  - intros m y2 Hy2. destruct (B2 m y2 Hy2) as (y1 & Hy1 & S2). destruct (B1 m y1 Hy1) as (y & Hy & S1). exists y. split; [done|]. by eapply same_but_refs_trans.
  - intros d a Hn. rewrite V2, V1; [done|..].
    + intros (m & y & Hm & Hrest). apply Hn. exists m, y. split; [apply elem_of_app; by left|done].
    + intros (m & y & Hm & Hrest)%Hcov. apply Hn. exists m, y. split; [apply elem_of_app; by right|done].
  - intros d a e He. by apply L1, L2.
  - intros d v n Hn. by apply N1, N2.
  - intros d a [H|H]%Hsplit; [|by apply U2]. specialize (U1 d a H). destruct (view s2 d a) eqn:E; [|done]. apply L2 in E. congruence.
  - intros d v Hn. rewrite R2, R1; [done|..].
    + intros m y Hm. apply (Hn m y). apply elem_of_app. by left.
    + intros m y1 Hm Hy1 Hc. destruct (B1 m y1 Hy1) as (y & Hy & E1 & _ & E3 & _). rewrite E3. apply (Hn m y); [apply elem_of_app; by right|done|congruence].
  - intros m y Hm Hy. destruct (ranges s2 (m_context y) !! m_vaddr y) as [n|] eqn:E; [|done]. exfalso.
    destruct (decide (m ∈ l1)) as [H1|H1]; [apply N2 in E; by rewrite (D1 m y H1 Hy) in E|].
    destruct (K1 m y Hy H1) as (y1 & Hy1 & E1 & _ & E3 & _). apply elem_of_app in Hm as [|H2]; [done|].
    specialize (D2 m y1 H2 Hy1). rewrite E1, E3 in D2. congruence.
  - intros d. by rewrite (C2 d), (C1 d).
  - congruence.
Qed.

Lemma with_mapping_id s m y : pm_maps s !! m = Some y -> with_mapping m y s = s.
Proof. intros Hm. destruct s. unfold with_mapping. cbn in *. by rewrite insert_id. Qed.
Lemma with_frames_id s : with_frames (pm_frames s) s = s.
Proof. by destruct s. Qed.
Lemma inv_own_ext s own own' zs : (forall m, own m = own' m) -> pman_inv s own zs -> pman_inv s own' zs.
Proof.
  intros He []. split; try done.
  - intros m y r Hm Hz Hr. rewrite <- He. by eapply pi_refs.
  - intros m Hm. apply pi_own. by rewrite He.
Qed.

(** Nobody borrows from a mapping that borrows itself. *)
Lemma lent_no_borrowers s own m y : pman_inv s own ∅ -> pm_maps s !! m = Some y -> is_Some (lender_of y) -> borrowers s ∅ m = 0%nat.
Proof.
  intros Hinv Hm Hl. unfold borrowers. apply map_size_empty_iff, map_empty_filter_2. intros i w Hi [Hw _]. cbn in Hw.
  destruct (pi_shows _ _ _ Hinv i w Hi (not_elem_of_empty i)) as (x & z & fr & _ & Hz & _ & Hf & _). unfold root_of in Hz. rewrite Hw in Hz. cbn in Hz.
  assert (z = y) as -> by congruence. rewrite (root_no_lender y) in Hl by (by eexists). by destruct Hl.
Qed.

Lemma unmap_lent_spec n s own m y r z k : pman_inv s own ∅ -> pm_maps s !! m = Some y -> lender_of y = Some r ->
  pm_maps s !! r = Some z -> refs_of z = Some k ->
  exists s', unmap_from (S (S n)) m s = Done (tt, s') /\ pman_inv s' own ∅ /\ removed s s' (if k =? 1 then [r; m] else [m]) /\
    reference_dropped s s' r z k.
Proof.
  intros Hinv Hm Hl Hr Hk.
  assert (frames_of y = None /\ refs_of y = None) as [Hfy Hry].
  { unfold lender_of, frames_of, refs_of, references in *. by destruct (m_type y). }
  assert (r <> m) as Hrm by (intros ->; congruence).
  pose proof (pi_placed _ _ _ Hinv m y Hm) as (x & Hc & _).
  set (c := m_context y) in *.
  assert (unmap_from (S (S n)) m s = (do! unlist_mapping c m; do! unmap_from (S n) r; do! drop_range y (paging_of y); free_mapping m) s) as ->.
  { change (unmap_from (S (S n)) m) with (let! w0 := get_mapping m in
      match m_type w0 with
      | PMAN_MAPPING_ALLOC refs fr ms =>
          do! set_type m w0 (PMAN_MAPPING_ALLOC (refs - 1) fr ms);
          if refs - 1 =? 0 then
            do! unlist_mapping (m_context w0) m; do! drop_range w0 ms; do! on_frames (fa_free fr); free_mapping m
          else ret tt
      | PMAN_MAPPING_MAP refs fr pm =>
          do! set_type m w0 (PMAN_MAPPING_MAP (refs - 1) fr pm);
          if refs - 1 =? 0 then
            do! unlist_mapping (m_context w0) m; do! drop_range w0 [pm]; do! on_frames (fa_free fr); free_mapping m
          else ret tt
      | PMAN_MAPPING_BORROWED lender ms | PMAN_MAPPING_SHARED lender ms =>
          do! unlist_mapping (m_context w0) m; do! unmap_from (S n) lender; do! drop_range w0 ms; free_mapping m
      | PMAN_MAPPING_HANDLER => ret tt
      end). rewrite (bind_done _ _ _ _ _ (get_mapping_done s m y Hm)).
    unfold lender_of, paging_of in *. destruct (m_type y); try done; by injection Hl as ->. }
  rewrite (bind_done _ _ _ _ _ (unlist_done s c m x Hc)).
  assert (pman_inv (unlisted c m x s) (own_set own r (S (own r))) ({[m]} ∪ ∅)) as Hinv0.
  { rewrite <- (with_mapping_id s m y Hm) at 1. eapply (inv_retire s own _ ∅ m y y x Hinv Hm); try done.
    - eapply lent_no_borrowers; [done|done|by eexists].
    - unfold own_set. rewrite decide_False by congruence. destruct (decide (own m = 0%nat)) as [|Hne]; [done|].
      destruct (pi_own _ _ _ Hinv m Hne) as (_ & w & Hw & Hs). assert (w = y) as -> by congruence. rewrite Hry in Hs. by destruct Hs.
    - intros j Hj. rewrite (borrowers_retire s ∅ m y j Hm ltac:(set_solver)). unfold own_set. rewrite Hl. case_bool_decide as Hb.
      + injection Hb as ->. rewrite decide_True by done. lia.
      + rewrite decide_False by congruence. done.
    - intros j Hj. unfold own_set in Hj. destruct (decide (j = r)) as [->|Hjr].
      + exists z. split_and!; [done|by rewrite Hk|set_solver].
      + destruct (pi_own _ _ _ Hinv j Hj) as (_ & w & Hw & Hs). by exists w. }
  set (s0 := unlisted c m x s) in *. rewrite union_empty_r_L in Hinv0.
  destruct (unmap_root_spec n s0 _ {[m]} r z k Hinv0 Hr ltac:(set_solver) Hk) as (s1 & E & Hinv1 & Hrem1 & Hkeep).
  { unfold own_set. by rewrite decide_True. }
  rewrite (bind_done _ _ _ _ _ E). clear E.
  assert (pman_inv s1 own {[m]}) as Hinv1'.
  { eapply inv_own_ext; [|exact Hinv1]. intros j. unfold own_set. destruct (decide (j = r)) as [->|]; [|done]. by rewrite !decide_True. }
  assert (m ∉ (if k =? 1 then [r] else [])) as Hmn by (destruct (k =? 1); set_solver).
  destruct (rm_kept _ _ _ Hrem1 m y Hm Hmn) as (y1 & Hy1 & S1). pose proof S1 as (Sc & _ & Sv & Ss & Sf & Sg & _).
  destruct (drop_range_spec s1 own {[m]} m y1 (pm_frames s1) Hinv1' Hy1 ltac:(set_solver)) as (s2 & E & Hm2 & Hf2 & Hmem2 & Hc2 & Hinv2 & Hv2 & Hr2).
  { rewrite Sf, Hfy. cbn. unfold used. set_solver. }
  assert (drop_range y (paging_of y) s1 = Done (tt, s2)) as E'.
  { rewrite <- E, Sg. unfold drop_range. by rewrite Sc, Sv. }
  rewrite (bind_done _ _ _ _ _ E'). clear E E'. rewrite <- Hf2, with_frames_id in Hinv2.
  replace ({[m]} ∖ {[m]}) with (∅ : gset nat) in Hinv2 by set_solver.
  exists (without_mapping m s2). split; [done|]. split; [done|]. split.
  - assert (removed s0 (without_mapping m s2) ((if k =? 1 then [r] else []) ++ [m])) as Hrem.
    { eapply removed_trans; [exact Hrem1|]. eapply (drop_removed s1 s1 _ m y1 Hy1); try done.
      + intros j w Hj. exists w. split; [done|apply same_but_refs_refl].
      + intros j w Hj. exists w. split; [done|apply same_but_refs_refl].
      + cbn. by rewrite Hm2. }
    assert (removed s s0 []) as Hrem0.
    { split; try done.
      + intros j Hj. by apply elem_of_nil in Hj.
      + intros j w Hj _. exists w. split; [done|apply same_but_refs_refl].
      + intros j w Hj. exists w. split; [done|apply same_but_refs_refl].
      + intros d a _. unfold s0. by rewrite (view_unlisted s).
      + intros d a e. unfold s0. by rewrite (view_unlisted s).
      + intros d v q. unfold s0. by rewrite (ranges_unlisted s).
      + intros d a (j & _ & Hj & _). by apply elem_of_nil in Hj.
      + intros d v _. unfold s0. by rewrite (ranges_unlisted s).
      + intros j w Hj. by apply elem_of_nil in Hj.
      + by eapply (same_contexts_insert s). }
    pose proof (removed_trans _ _ _ _ _ Hrem0 Hrem) as Ht. cbn [app] in Ht. by destruct (k =? 1).
  - destruct Hkeep as [Hkeep Hlast]. split.
    2:{ intros Hk1. specialize (Hlast Hk1). unfold used in *. cbn. by rewrite Hf2, Hlast. }
    intros Hk1. destruct (Hkeep Hk1) as (z' & Hz' & Hs & Hk' & Hfr). exists z'. split_and!; [|done|done|].
    + cbn. rewrite Hm2, lookup_delete_ne by done. done.
    + cbn. by rewrite Hf2, Hfr.
Qed.

(** [pman_context_unmap] gives back a reference to a root, or takes a borrowed
    or shared mapping away. *)
Lemma unmap_root_done s own r z k : pman_inv s own ∅ -> pm_maps s !! r = Some z -> refs_of z = Some k -> own r <> 0%nat ->
  exists s', pman_context_unmap r s = Done (Num 0, s') /\ pman_inv s' (own_set own r (pred (own r))) ∅ /\
    removed s s' (if k =? 1 then [r] else []) /\
    reference_dropped s s' r z k.
Proof.
  intros Hinv Hr Hk Hown. unfold pman_context_unmap. rewrite bind_get.
  destruct (unmap_root_spec (size (pm_maps s)) s own ∅ r z k Hinv Hr ltac:(set_solver) Hk Hown) as (s' & E & H1 & H2 & H3).
  exists s'. by rewrite (bind_done _ _ _ _ _ E).
Qed.
Lemma unmap_lent_done s own m y r z k : pman_inv s own ∅ -> pm_maps s !! m = Some y -> lender_of y = Some r ->
  pm_maps s !! r = Some z -> refs_of z = Some k ->
  exists s', pman_context_unmap m s = Done (Num 0, s') /\ pman_inv s' own ∅ /\ removed s s' (if k =? 1 then [r; m] else [m]) /\
    reference_dropped s s' r z k.
Proof.
  intros Hinv Hm Hl Hr Hk. unfold pman_context_unmap. rewrite bind_get.
  assert (size (pm_maps s) <> 0%nat) as Hsz by (intros E%map_size_empty_inv; rewrite E, lookup_empty in Hm; done).
  destruct (size (pm_maps s)) as [|n]; [done|].
  destruct (unmap_lent_spec n s own m y r z k Hinv Hm Hl Hr Hk) as (s' & E & H1 & H2 & H3). exists s'. by rewrite (bind_done _ _ _ _ _ E).
Qed.

(** ** The other operations *)

Lemma add_map_spec s own c x prot vaddr paddr sz : pman_inv s own ∅ -> pm_contexts s !! c = Some x -> 0 < sz <= 2 ^ 48 ->
  range_request x ((vaddr =? 0) && negb (has_prot prot PMAN_PROT_VRESERVE)) vaddr sz ->
  (exists w, pman_context_add_map c prot vaddr paddr sz s = Stop w) \/
  exists m s' va fr pm, pman_context_add_map c prot vaddr paddr sz s = Done (m, s') /\ pman_inv s' (own_set own m 1) ∅ /\
    added s s' c m (PmanMapping c (PMAN_MAPPING_MAP 1 fr pm) prot va (DIV_UP sz PAGE_SIZE)) fr.
Proof.
  intros Hinv Hc Hsz Hreq. unfold pman_context_add_map. cbv zeta.
  destruct (pages_bound sz Hsz) as (Hpg & Hu & Hdd). rewrite Hu. set (n := DIV_UP sz PAGE_SIZE) in *. set (m := pm_next s).
  rewrite (bind_done new_id _ s m _ eq_refl).
  pose proof (inv_new_id s own ∅ Hinv) as Hinv0. set (s0 := Pman _ _ _ _ _ _) in *.
  destruct (get_range_spec s0 own ∅ c x _ vaddr sz Hinv0 Hc Hsz Hreq) as [[w E]|(va & v & E & Hnr & _ & Hinv1)];
    [left; exists w; by apply bind_stop|].
  rewrite (bind_done _ _ _ _ _ E). clear E. set (s1 := with_context _ _ _) in *. fold n in Hnr.
  destruct (fa_contiguous_ok (pm_frames s1) (n * PAGE_SIZE) paddr) as [[w E]|(ty & p & f' & Hty & E & Hfresh)].
  { left. exists w. apply bind_stop. by apply on_frames_stop. }
  rewrite (bind_done _ _ _ _ _ (on_frames_done _ s1 _ _ E)). rewrite Hdd in Hfresh. clear E. rewrite Hdd.
  set (fr := Frames ty n [p]) in *. destruct Hfresh as (Hdisj & Hused & Hfok).
  pose proof (inv_frames s1 own ∅ f' Hinv1 ltac:(rewrite Hused; set_solver)) as Hinv2. set (s2 := with_frames f' s1) in *.
  set (x1 := PmanContext (c_top x) v (c_list x)) in *.
  assert (pm_contexts s2 !! c = Some x1) as Hc2 by apply lookup_insert_eq.
  rewrite (bind_done _ _ _ _ _ (get_context_done s2 c x1 Hc2)).
  pose proof (pi_context _ _ _ Hinv2 c x1 Hc2) as (_ & Hroot & _).
  assert (of_option (S := pman_state) Undefined (fr_paddrs fr !! 0%nat) s2 = Done (p, s2)) as E by reflexivity.
  rewrite (bind_done _ _ _ _ _ E). clear E.
  set (rw := has_prot prot PMAN_PROT_WRITE). set (xd := negb (has_prot prot PMAN_PROT_EXECUTE)).
  destruct (pm_map_ok (pm_tables s2) (ta_vaddr (c_top x1)) p va n rw xd (is_user c) (pi_tables _ _ _ Hinv2) Hroot)
    as [E|(pg & t' & E & Hok' & Hpv & Hps & Hw)].
  { lia. } { apply (nr_unmapped _ _ _ _ _ Hnr). }
  { left. exists Undefined. apply bind_stop. by apply on_tables_stop. }
  rewrite (bind_done _ _ _ _ _ (on_tables_done _ s2 _ _ E)). clear E.
  set (f := fun a old => if range_index va a <? n then Some (page_entry rw xd (is_user c) (p + range_index va a * PAGE_SIZE)) else old).
  assert (tables_to (pm_tables s2) t' (ta_vaddr (c_top x1)) f) as Htt.
  { split; [done|]. intros r Hr. destruct (Hw r Hr) as [? Hwk]. split; [done|]. intros a. rewrite Hwk. unfold f. case_bool_decide; done. }
  assert (forall k, fr_frame fr k = Some (p + k * PAGE_SIZE)) as Hfk by (intros k; unfold fr_frame; cbn; by destruct ty).
  set (y := PmanMapping c (PMAN_MAPPING_MAP 1 fr pg) prot va n).
  assert (forall a old, ~ in_range va n a -> f a old = old) as Hfout.
  { intros a old Ha. unfold f. rewrite (proj2 (Z.ltb_ge _ _)); [done|]. unfold in_range in Ha. lia. }
  assert (forall a, in_range va n a -> f a None = frame_entry y fr (range_index va a)) as Hfin.
  { intros a Ha. unfold f, frame_entry. rewrite (proj2 (Z.ltb_lt _ _)) by exact Ha. by rewrite Hfk. }
  assert (pman_inv (with_tables_p t' s2) own ∅) as Hinv3.
  { eapply (inv_map s2 own ∅ c x1 t' va n f); [done|done| |exact Htt|by apply (nr_unmapped _ _ _ _ _ Hnr)|done].
    cbn. rewrite (nr_ranges _ _ _ _ _ Hnr). apply lookup_insert_eq. }
  set (s3 := with_tables_p t' s2) in *. change (put_mapping m y) with (modify (with_mapping (V:=V) (F:=F) (T:=T) m y)). rewrite bind_modify.
  assert (pm_contexts (with_mapping m y s3) !! c = Some x1) as Hc3 by exact Hc2.
  unfold list_mapping. rewrite bind_assoc, (bind_done _ _ _ _ _ (get_context_done _ c x1 Hc3)).
  right. exists m, (linked c x1 m y s3), va, fr, pg.
  assert (pm_maps s !! m = None) as Hm by (by eapply fresh_id).
  split; [reflexivity|]. split.
  - eapply (inv_link s3 own (own_set own m 1) c x1 m y Hinv3 Hc2 Hm); try done.
    + cbn. lia.
    + cbn. rewrite (nr_ranges _ _ _ _ _ Hnr). apply lookup_insert_eq.
    + intros m' y' Hm' Hcc. cbn. eapply (fresh_vaddr s own ∅ c x va m' y' Hinv Hc); try done. apply Hnr.
    + cbn. rewrite Hpv, Hps, Z2Nat.id by lia. split_and!; [done|lia|lia|lia].
    + exists y, fr. unfold root_of. cbn [y lender_of m_type default]. rewrite lookup_insert_eq. split_and!; [done|done|done|].
      intros a Ha. cbn [m_vaddr m_size_pages y] in *. exists (p + range_index va a * PAGE_SIZE). split; [apply Hfk|].
      rewrite <- (view_same s3 c x1 a Hc2). unfold s3. rewrite (view_tables s2 own ∅ c x1 t' f c a Hinv2 Hc2 Htt), bool_decide_true by done.
      unfold f. by rewrite (proj2 (Z.ltb_lt _ _)) by exact Ha.
    + apply (refs_new_root s3 own m y Hinv3 Hm); done.
    + apply (own_new_root s3 own m y Hinv3). by eexists.
    + intros fr0 [= <-]. split; [done|]. split_and!; [cbn; rewrite Hused; set_solver|done|]. intros m' y' fr' Hm' Hf'.
      destruct (pi_frames _ _ _ Hinv m' y' fr' Hm' Hf') as [Hsub _]. change (fa_used (pm_frames s1)) with (fa_used (pm_frames s)) in Hdisj. set_solver.
  - assert (new_range s x va n v) as Hnr' by (destruct Hnr; by split).
    eapply (added_intro s s1 s3 own c x x1 m y fr va n v); try done.
    unfold used. cbn. rewrite Hused. set_solver.
Qed.

(** A new address space. *)
Lemma new_context_spec s own c : pman_inv s own ∅ -> pm_contexts s !! c = None ->
  (exists w, pman_new_context c s = Stop w) \/
  exists s', pman_new_context c s = Done (c, s') /\ pman_inv s' own ∅ /\ pm_maps s' = pm_maps s /\ pm_frames s' = pm_frames s /\
    pm_memory s' = pm_memory s /\ (exists x, pm_contexts s' = <[c := x]> (pm_contexts s)) /\ ranges s' c = ∅ /\
    (forall d a, view s' d a = view s d a) /\ forall d, d <> c -> ranges s' d = ranges s d.
Proof.
  intros Hinv Hc. unfold pman_new_context. pose proof Hinv as [pi_tables0 pi_next0 pi_context0 pi_top0 pi_list0 pi_stray0 pi_placed0 pi_distinct0 pi_shows0 pi_refs0 pi_own0 pi_kind0 pi_frames0 pi_disjoint0].
  destruct (pm_new_ok (pm_tables s) pi_tables0) as [E|(a & t' & E & Hok' & Hnr & Hroot & Hnone & Hold)].
  { left. exists Undefined. apply bind_stop. by apply on_tables_stop. }
  rewrite (bind_done _ _ _ _ _ (on_tables_done _ s _ _ E)). clear E.
  destruct vr_new as [v|w] eqn:Ev; [|left; by exists w]. destruct (vr_new_ok v Ev) as [Hv Hr].
  right. set (x := PmanContext a v []). exists (with_context c x (with_tables_p t' s)). split; [done|].
  assert (forall d x', pm_contexts s !! d = Some x' -> d <> c) as Hdc by (intros d x' Hd ->; congruence).
  assert (forall d x' b, pm_contexts s !! d = Some x' -> pm_walk t' (ta_vaddr (c_top x')) b = walk s x' b) as Hwalk.
  { intros d x' b Hd. destruct (pi_context0 d x' Hd) as (_ & Hr' & _). by destruct (Hold _ Hr') as [_ ->]. }
  assert (forall d x', (<[c := x]> (pm_contexts s)) !! d = Some x' -> (d = c /\ x' = x) \/ (d <> c /\ pm_contexts s !! d = Some x')) as Hback.
  { intros d x' [[<- <-]|[? ?]]%lookup_insert_Some; [by left|right; done]. }
  split_and!; try done.
  - split; cbn [with_context with_tables_p pm_tables pm_maps pm_contexts pm_frames pm_next]; try done.
    + intros d x' [[-> ->]|[_ Hd]]%Hback; [split_and!; [done|done|constructor]|].
      destruct (pi_context0 d x' Hd) as (? & Hr' & ?). destruct (Hold _ Hr') as [? _]. done.
    + intros d d' x1 x2 [[-> ->]|[_ H1]]%Hback [[-> ->]|[_ H2]]%Hback Ht; [done| | |by eapply pi_top0].
      * exfalso. apply Hnr. cbn in Ht. rewrite Ht. by apply (pi_context0 d').
      * exfalso. apply Hnr. cbn in Ht. rewrite <- Ht. by apply (pi_context0 d).
    + intros d x' m [[-> ->]|[_ Hd]]%Hback; [|by apply pi_list0]. cbn [c_list x]. split; [intros Hm; by apply elem_of_nil in Hm|].
      intros [_ (y & Hy & Hcy)]. destruct (pi_placed0 m y Hy) as (x0 & Hx0 & _). congruence.
    + intros d x' b [[-> ->]|[_ Hd]]%Hback; unfold walk; cbn; [by rewrite Hnone|]. rewrite (Hwalk d x' b Hd). by apply (pi_stray0 d x').
    + intros m y Hm. destruct (pi_placed0 m y Hm) as (x0 & Hx0 & ? & ? & Hw). exists x0. split_and!; [|done|done|].
      * cbn. rewrite lookup_insert_ne; [done|]. apply not_eq_sym. by eapply Hdc.
      * intros b Hb. unfold walk. cbn. rewrite (Hwalk _ _ _ Hx0). by apply Hw.
    + intros m y Hm Hz. destruct (pi_shows0 m y Hm Hz) as (x0 & z & fr & Hx0 & Hz0 & Hrz & Hf & Hs & Hw). exists x0, z, fr.
      split; [cbn; rewrite lookup_insert_ne; [done|apply not_eq_sym; by eapply Hdc]|]. split_and!; try done.
      intros b Hb. unfold walk. cbn. rewrite (Hwalk _ _ _ Hx0). by apply Hw.
  - by exists x.
  - unfold ranges. cbn. rewrite lookup_insert_eq. cbn. done.
  - intros d b. unfold view. cbn. destruct (decide (c = d)) as [->|Hne].
    + rewrite lookup_insert_eq, Hc. cbn. unfold walk. cbn. apply Hnone.
    + rewrite lookup_insert_ne by done. destruct (pm_contexts s !! d) as [x'|] eqn:Hd; [|done]. cbn. unfold walk at 1. cbn. by rewrite (Hwalk d x' b Hd).
  - intros d Hne. unfold ranges. cbn. by rewrite lookup_insert_ne.
Qed.
End pman_props.
