(* ===== verification/PmanWrite.v ===== *)
(** * PmanWrite: writing to borrowed memory

    [pman_context_prepare_write] turns a borrowed mapping into one that may be
    written, in place when nobody else uses the memory, by copying it when
    somebody does.  Both cases leave a [writable_copy]. *)
From S2P Require Import Prelude Bitmap Valloc PageTables PageTree PageMap PmanIface Pman PmanInv PmanOps.

Section pman_props.
Context {V F T : Type} `{HV : VirtualRanges V} `{HF : FrameAllocator F} `{HT : PageMapper T}.
Abbreviation pman_state := (@pman V F T).
Abbreviation context_t := (@pman_context_t V).
Implicit Types (s : pman_state) (x : context_t).


(** ** Copying memory *)

Definition with_memory (mem : gmap Z Z) (s : pman_state) : pman_state :=
  Pman (pm_maps s) (pm_contexts s) (pm_tables s) (pm_frames s) mem (pm_next s).

Lemma copy_byte_done s dst src e e' x : pm_contexts s !! 0%nat = Some x -> view s 0 src = Some e -> view s 0 dst = Some e' ->
  copy_byte dst src s = Done (tt, with_memory (<[phys_of e' dst := default 0 (pm_memory s !! phys_of e src)]> (pm_memory s)) s).
Proof.
  intros Hx Hs Hd. unfold copy_byte, load, pman_kernel_context. unfold view in Hs, Hd. rewrite Hx in Hs, Hd |- *. cbn in *.
  unfold walk in Hs, Hd. rewrite Hs. cbn. rewrite Hd. done.
Qed.

Lemma memcpy_spec s dst src n (Pd Ps : Z -> Z) x : pm_contexts s !! 0%nat = Some x ->
  0 <= dst -> dst + n <= 2 ^ 64 -> 0 <= src -> src + n <= 2 ^ 64 ->
  (forall i, 0 <= i < n -> exists e, view s 0 (dst + i) = Some e /\ phys_of e (dst + i) = Pd i) ->
  (forall i, 0 <= i < n -> exists e, view s 0 (src + i) = Some e /\ phys_of e (src + i) = Ps i) ->
  (forall i j, 0 <= i < n -> 0 <= j < n -> Pd i = Pd j -> i = j) -> (forall i j, 0 <= i < n -> 0 <= j < n -> Pd i <> Ps j) ->
  exists mem, memcpy dst src n s = Done (tt, with_memory mem s) /\
    (forall i, 0 <= i < n -> mem !! Pd i = Some (default 0 (pm_memory s !! Ps i))) /\
    (forall q, (forall i, 0 <= i < n -> q <> Pd i) -> mem !! q = pm_memory s !! q).
Proof.
  intros Hx Hd0 Hdn Hs0 Hsn Hd Hs Hinj Hdis. unfold memcpy, for_range.
  assert (forall k, (k <= Z.to_nat n)%nat -> exists mem,
    for_each (seq 0 k) (fun i => copy_byte (u64 (dst + Z.of_nat i)) (u64 (src + Z.of_nat i))) s = Done (tt, with_memory mem s) /\
    (forall i, 0 <= i < Z.of_nat k -> mem !! Pd i = Some (default 0 (pm_memory s !! Ps i))) /\
    (forall q, (forall i, 0 <= i < Z.of_nat k -> q <> Pd i) -> mem !! q = pm_memory s !! q)) as Hk.
  2:{ destruct (Hk (Z.to_nat n) ltac:(lia)) as (mem & E & H1 & H2). exists mem. split; [done|].
      split; [intros i Hi; apply H1; lia|intros q Hq; apply H2; intros i Hi; apply Hq; lia]. }
  induction k as [|k IH]; intros Hkn.
  { exists (pm_memory s). split_and!; [by destruct s|lia|done]. }
  destruct (IH ltac:(lia)) as (mem & E & H1 & H2). rewrite seq_S, for_each_app, (bind_done _ _ _ _ _ E). cbn [for_each].
  destruct (Hd (Z.of_nat k) ltac:(lia)) as (ed & Hed & Pd_). destruct (Hs (Z.of_nat k) ltac:(lia)) as (es & Hes & Ps_).
  rewrite !Nat.add_0_l, !u64_small by lia.
  pose proof (copy_byte_done (with_memory mem s) _ _ es ed x Hx Hes Hed) as Ec. rewrite (bind_done _ _ _ _ _ Ec).
  cbn [with_memory pm_memory]. rewrite Pd_, Ps_.
  assert (mem !! Ps (Z.of_nat k) = pm_memory s !! Ps (Z.of_nat k)) as ->.
  { apply H2. intros i Hi Heq. eapply (Hdis i (Z.of_nat k)); [lia|lia|done]. }
  eexists. split; [reflexivity|]. split.
  - intros i Hi. destruct (decide (i = Z.of_nat k)) as [->|Hne]; [apply lookup_insert_eq|].
    rewrite lookup_insert_ne by (intros Heq; apply Hne; symmetry; apply Hinj; [lia|lia|done]). apply H1. lia.
  - intros q Hq. rewrite lookup_insert_ne by (apply not_eq_sym, Hq; lia). apply H2. intros i Hi. apply Hq. lia.
Qed.

(** Byte [i] of a mapping of whole frames. *)
Definition frame_byte (fr : frames_t) (i : Z) : option Z := p ← fr_frame fr (i / PAGE_SIZE); Some (p + i mod PAGE_SIZE).

Lemma range_index_byte a n i : range_ok a n -> 0 <= i < n * PAGE_SIZE ->
  range_index a (a + i) = i / PAGE_SIZE /\ (a + i) mod PAGE_SIZE = i mod PAGE_SIZE /\ in_range a n (a + i).
Proof.
  intros (H0 & Hm & Hn & He) Hi. unfold in_range, PAGE_SIZE in *.
  assert (range_index a (a + i) = i / 4096) as Hr.
  { rewrite range_index_div by lia. unfold PAGE_SIZE. assert (a = (a / 4096) * 4096) as Ha by (pose proof (Z.div_mod a 4096); lia).
    rewrite Ha at 1. rewrite Z.div_add_l by lia. replace (a / 4096 + i / 4096 - a / 4096) with (i / 4096) by lia.
    apply Z.mod_small. split; [apply Z.div_pos; lia|]. apply Z.div_lt_upper_bound; lia. }
  split; [done|]. split.
  - rewrite Zplus_mod, Hm, Z.add_0_l. by rewrite Zmod_mod.
  - rewrite Hr. apply Z.div_lt_upper_bound; lia.
Qed.

Lemma phys_of_entry rw xd us p va : frame_ok p -> phys_of (page_entry rw xd us p) va = p + va mod PAGE_SIZE.
Proof. intros Hp. unfold phys_of, page_entry. destruct (SET_GET p Hp) as [_ Hg]. by rewrite Hg. Qed.

Lemma frame_byte_inj fr i j q : fr_type fr = PALLOC_ALLOC -> NoDup (fr_paddrs fr) -> (forall p, p ∈ fr_owned fr -> frame_ok p) ->
  0 <= i -> 0 <= j -> frame_byte fr i = Some q -> frame_byte fr j = Some q -> i = j.
Proof.
  unfold frame_byte, fr_frame, fr_owned. intros Hty Hnd Hok Hi Hj. rewrite Hty in *.
  destruct (fr_paddrs fr !! Z.to_nat (i / PAGE_SIZE)) as [p|] eqn:Ep; [|done]. cbn. intros [= <-].
  destruct (fr_paddrs fr !! Z.to_nat (j / PAGE_SIZE)) as [p'|] eqn:Ep'; [|done]. cbn. intros [= Hq].
  assert (p mod PAGE_SIZE = 0 /\ p' mod PAGE_SIZE = 0) as [Hp Hp'].
  { split; apply Hok; apply elem_of_list_to_set; by eapply list_elem_of_lookup_2. }
  assert (p = p') as <-.
  { clear -Hq Hp Hp'. unfold PAGE_SIZE in *. pose proof (Z.div_mod p 4096 ltac:(done)). pose proof (Z.div_mod p' 4096 ltac:(done)).
    pose proof (Z.mod_pos_bound i 4096 eq_refl). pose proof (Z.mod_pos_bound j 4096 eq_refl). lia. }
  pose proof (NoDup_lookup _ _ _ _ Hnd Ep Ep') as Hn. clear -Hi Hj Hq Hn. unfold PAGE_SIZE in *.
  apply Z2Nat.inj in Hn; [|by apply Z.div_pos..]. pose proof (Z.div_mod i 4096 ltac:(done)). pose proof (Z.div_mod j 4096 ltac:(done)). lia.
Qed.

Lemma frame_byte_owned fr i q : fr_type fr = PALLOC_ALLOC -> frame_byte fr i = Some q -> exists p, p ∈ fr_owned fr /\ q = p + i mod PAGE_SIZE.
Proof.
  unfold frame_byte, fr_frame, fr_owned. intros Hty. rewrite Hty. destruct (fr_paddrs fr !! Z.to_nat (i / PAGE_SIZE)) as [p|] eqn:Ep; [|done].
  cbn. intros [= <-]. exists p. split; [|done]. apply elem_of_list_to_set. by eapply list_elem_of_lookup_2.
Qed.

(** ** Writing to borrowed memory *)

(** The range of a mapping that has gone can be reserved again. *)
Lemma request_again s own m y s' l x' : pman_inv s own ∅ -> pm_maps s !! m = Some y -> removed s s' l -> m ∈ l ->
  pm_contexts s' !! m_context y = Some x' -> range_request x' false (m_vaddr y) (m_size_pages y * PAGE_SIZE).
Proof.
  intros Hinv Hm Hrem Hl Hx'. pose proof (placed_range s own ∅ m y Hinv Hm) as Hro. pose proof Hro as (H0 & Hmod & Hpos & Hend).
  destruct (pi_placed _ _ _ Hinv m y Hm) as (x & Hx & Hr & _). destruct (pi_context _ _ _ Hinv _ x Hx) as (Hv & _).
  assert (DIV_UP (m_size_pages y * PAGE_SIZE) PAGE_SIZE = m_size_pages y) as Hdd.
  { apply DIV_UP_pages. unfold PAGE_SIZE in *. lia. }
  right. rewrite Hdd. split; [done|]. intros b n Hb.
  assert (ranges s' (m_context y) !! b = Some n) as Hb' by (unfold ranges; by rewrite Hx').
  assert (b <> m_vaddr y) as Hne by (intros ->; rewrite (rm_released _ _ _ Hrem m y Hl Hm) in Hb'; done).
  apply (rm_ranges_le _ _ _ Hrem) in Hb'. unfold ranges in Hb'. rewrite Hx in Hb'. cbn in Hb'. apply (vr_apart (c_valloc x)); done.
Qed.

Definition lender_type (borrow : bool) (r : nat) (ms : list paging_mapping_t) : mapping_type :=
  if borrow then PMAN_MAPPING_BORROWED r ms else PMAN_MAPPING_SHARED r ms.

(** Lending a root anew at the range a mapping has left. *)
Lemma lend_again borrow prot s own m y s' own' l r z fr : pman_inv s own ∅ -> pm_maps s !! m = Some y -> removed s s' l -> m ∈ l -> m_vaddr y <> 0 ->
  pman_inv s' own' ∅ -> pm_maps s' !! r = Some z -> frames_of z = Some fr -> m_size_pages z = m_size_pages y ->
  (exists w, add_lent borrow (m_context y) prot r (m_vaddr y) s' = Stop w) \/
  exists u s2 ms z', add_lent borrow (m_context y) prot r (m_vaddr y) s' = Done (u, s2) /\ pman_inv s2 own' ∅ /\
    added s' s2 (m_context y) u (PmanMapping (m_context y) (lender_type borrow r ms) prot (m_vaddr y) (m_size_pages y)) fr /\
    used s2 = used s' /\ pm_maps s2 !! r = Some z' /\ same_but_refs z z' /\ (forall k, refs_of z = Some k -> refs_of z' = Some (k + 1)).
Proof.
  intros Hinv Hm Hrem Hl Hnz Hinv' Hr Hfr Hsz.
  destruct (pi_placed _ _ _ Hinv m y Hm) as (x & Hx & _).
  assert (is_Some (pm_contexts s' !! m_context y)) as [x' Hx'] by (apply (rm_contexts _ _ _ Hrem); by eexists).
  assert (root_of r z = r) as Hroot by (unfold root_of; rewrite (root_no_lender z) by (by eexists); done).
  destruct (add_lent_spec borrow s' own' (m_context y) x' prot r z z fr (m_vaddr y) Hinv' Hx' Hr) as [[w E]|H].
  { by rewrite Hroot. } { done. }
  { rewrite (proj2 (Z.eqb_neq (m_vaddr y) 0) Hnz). rewrite Hsz. eapply (request_again s own m y s' l); done. }
  - left. by exists w.
  - right. destruct H as (u & s2 & va & ms & z' & H). cbv zeta in H. rewrite Hroot, Hsz in H. destruct H as (E & H1 & H2 & H3 & H4 & H5 & H7 & H6).
    specialize (H6 ltac:(by apply Z.eqb_neq)). subst va. exists u, s2, ms, z'. unfold lender_type. done.
Qed.

Lemma share_again s own m y s' own' l r z fr : pman_inv s own ∅ -> pm_maps s !! m = Some y -> removed s s' l -> m ∈ l -> m_vaddr y <> 0 ->
  pman_inv s' own' ∅ -> pm_maps s' !! r = Some z -> frames_of z = Some fr -> m_size_pages z = m_size_pages y ->
  (exists w, pman_context_add_shared (m_context y) (m_protection y) r (m_vaddr y) s' = Stop w) \/
  exists u s2 ms z', pman_context_add_shared (m_context y) (m_protection y) r (m_vaddr y) s' = Done (u, s2) /\ pman_inv s2 own' ∅ /\
    added s' s2 (m_context y) u (PmanMapping (m_context y) (PMAN_MAPPING_SHARED r ms) (m_protection y) (m_vaddr y) (m_size_pages y)) fr /\
    used s2 = used s' /\ pm_maps s2 !! r = Some z' /\ same_but_refs z z' /\ (forall k, refs_of z = Some k -> refs_of z' = Some (k + 1)).
Proof. rewrite add_shared_lent. apply (lend_again false). Qed.

(** What writing to a borrowed mapping promises; [fr] are the frames the new
    mapping shows. *)
Record writable_copy (s s' : pman_state) (m u : nat) (y : pman_mapping_t) : Prop := WritableCopy {
  wc_mapping : exists r ms fr, let yu := PmanMapping (m_context y) (PMAN_MAPPING_SHARED r ms) (m_protection y) (m_vaddr y) (m_size_pages y) in
    pm_maps s' !! u = Some yu /\ frames_of <$> pm_maps s' !! r = Some (Some fr) /\
    (* the pages are writable when the protection says so *)
    (forall a, in_range (m_vaddr y) (m_size_pages y) a -> exists p,
      fr_frame fr (range_index (m_vaddr y) a) = Some p /\ view s' (m_context y) a = Some (shown_entry yu p)) /\
    (* no other mapping lends from that root *)
    forall m' y', pm_maps s' !! m' = Some y' -> m' <> u -> m' <> r -> root_of m' y' <> r;
  (* they hold the same bytes *)
  wc_same a : in_range (m_vaddr y) (m_size_pages y) a -> load s' (m_context y) a = load s (m_context y) a;
  (* the other mappings are as they were *)
  wc_others m' y' z' a : pm_maps s !! m' = Some y' -> m' <> m -> pm_maps s !! root_of m' y' = Some z' ->
    (exists k fr ms, m_type z' = PMAN_MAPPING_ALLOC k fr ms) -> in_range (m_vaddr y') (m_size_pages y') a ->
    view s' (m_context y') a = view s (m_context y') a /\ load s' (m_context y') a = load s (m_context y') a
}.

Lemma load_view s s' c a a' e : view s' c a' = Some e -> view s c a = Some e ->
  pm_memory s' !! phys_of e a' = pm_memory s !! phys_of e a -> load s' c a' = load s c a.
Proof.
  intros H1 H2 Hmem. unfold load, view, walk in *. destruct (pm_contexts s' !! c); [|done]. destruct (pm_contexts s !! c); [|done]. cbn in *.
  rewrite H1, H2. cbn. by rewrite Hmem.
Qed.

Lemma load_done s c a e : view s c a = Some e -> load s c a = Some (default 0 (pm_memory s !! phys_of e a)).
Proof. unfold load, view, walk. destruct (pm_contexts s !! c); [|done]. cbn. by intros ->. Qed.

(** Two mappings never cover the same address of a context. *)
Lemma covers_apart s own zs m m' y y' a : pman_inv s own zs -> pm_maps s !! m = Some y -> pm_maps s !! m' = Some y' -> m <> m' ->
  m_context y = m_context y' -> in_range (m_vaddr y) (m_size_pages y) a -> in_range (m_vaddr y') (m_size_pages y') a -> False.
Proof.
  intros Hinv Hm Hm' Hne Hc. destruct (pi_placed _ _ _ Hinv m y Hm) as (x & Hx & Hr & _). destruct (pi_placed _ _ _ Hinv m' y' Hm') as (x' & Hx' & Hr' & _).
  assert (x' = x) as -> by congruence. destruct (pi_context _ _ _ Hinv _ x Hx) as (Hv & _).
  assert (m_vaddr y <> m_vaddr y') as Hvv by (intros Ev; apply Hne; by eapply (pi_distinct _ _ _ Hinv m m')).
  apply apart_in_range; [by apply (vr_range (c_valloc x))|by apply (vr_range (c_valloc x))|by apply (vr_apart (c_valloc x))].
Qed.

(** A root with one reference that its client does not hold has one borrower. *)
Lemma sole_borrower s own r z u yu : pman_inv s own ∅ -> pm_maps s !! r = Some z -> refs_of z = Some 1 ->
  pm_maps s !! u = Some yu -> lender_of yu = Some r ->
  forall m' y', pm_maps s !! m' = Some y' -> m' <> u -> m' <> r -> root_of m' y' <> r.
Proof.
  intros Hinv Hr Hk Hu Hl m' y' Hm' Hne Hnr Hroot. destruct (pi_refs _ _ _ Hinv r z 1 Hr (not_elem_of_empty _) Hk) as [Hc _].
  unfold root_of in Hroot. destruct (lender_of y') as [l|] eqn:Hl'; cbn in Hroot; [subst l|done].
  assert (2 <= borrowers s ∅ r)%nat; [|lia]. unfold borrowers.
  set (f := filter (fun p => lender_of p.2 = Some r /\ p.1 ∉ (∅ : gset nat)) (pm_maps s)).
  assert (f !! u = Some yu) as Hfu by (apply map_lookup_filter_Some; split; [done|]; split; [done|apply not_elem_of_empty]).
  assert (f !! m' = Some y') as Hfm by (apply map_lookup_filter_Some; split; [done|]; split; [done|apply not_elem_of_empty]).
  rewrite <- (insert_delete_id f u yu Hfu), map_size_insert_None by apply lookup_delete_eq.
  assert (delete u f !! m' = Some y') as Hd by (by rewrite lookup_delete_ne).
  rewrite <- (insert_delete_id (delete u f) m' y' Hd), map_size_insert_None by apply lookup_delete_eq. lia.
Qed.

(** The pages of a lent mapping, by offset. *)
Lemma lent_view s own m y r z fr a : pman_inv s own ∅ -> pm_maps s !! m = Some y -> root_of m y = r -> pm_maps s !! r = Some z -> frames_of z = Some fr ->
  in_range (m_vaddr y) (m_size_pages y) a ->
  exists p, fr_frame fr (range_index (m_vaddr y) a) = Some p /\ view s (m_context y) a = Some (shown_entry y p).
Proof.
  intros Hinv Hm Hr Hz Hf Ha. destruct (pi_shows _ _ _ Hinv m y Hm (not_elem_of_empty _)) as (x & z' & fr' & Hx & Hz' & _ & Hf' & _ & Hw).
  rewrite Hr in Hz'. assert (z' = z) as -> by congruence. assert (fr' = fr) as -> by congruence.
  destruct (Hw a Ha) as (p & Hp & E). exists p. split; [done|]. by rewrite (view_same s _ x a Hx).
Qed.

(** A range that a mapping of [s] covers is not touched by an addition. *)
Lemma added_view_old s s' c u yu fr d a : added s s' c u yu fr -> view s d a <> None -> view s' d a = view s d a.
Proof.
  intros Hadd Hv. rewrite (ad_view _ _ _ _ _ _ Hadd). unfold view_with.
  destruct (bool_decide (d = c) && (range_index (m_vaddr yu) a <? m_size_pages yu)) eqn:E; [|done].
  exfalso. apply andb_prop in E as [E1 E2]. apply bool_decide_eq_true in E1 as ->. apply Z.ltb_lt in E2.
  by apply Hv, (ad_free _ _ _ _ _ _ Hadd).
Qed.
Lemma added_view_new s s' c u yu fr a : added s s' c u yu fr -> in_range (m_vaddr yu) (m_size_pages yu) a ->
  view s' c a = frame_entry yu fr (range_index (m_vaddr yu) a).
Proof.
  intros Hadd Ha. rewrite (ad_view _ _ _ _ _ _ Hadd). unfold view_with. rewrite bool_decide_true by done. cbn [andb].
  by rewrite (proj2 (Z.ltb_lt _ _)) by exact Ha.
Qed.
Lemma removed_view_other s own s' l m y m' y' a : pman_inv s own ∅ -> removed s s' l -> (forall k, k ∈ l -> k = m) ->
  pm_maps s !! m = Some y -> pm_maps s !! m' = Some y' -> m' <> m -> in_range (m_vaddr y') (m_size_pages y') a ->
  view s' (m_context y') a = view s (m_context y') a.
Proof.
  intros Hinv Hrem Hl Hm Hm' Hne Ha. apply (rm_view _ _ _ Hrem). intros (k & w & Hk & Hw & Hc & Hin).
  apply Hl in Hk as ->. assert (w = y) as -> by congruence. by eapply (covers_apart s own ∅ m m').
Qed.

Lemma load_stays s s' c a e : view s c a = Some e -> view s' c a = Some e -> pm_memory s' !! phys_of e a = pm_memory s !! phys_of e a ->
  load s' c a = load s c a.
Proof. intros H1 H2 Hm. by rewrite (load_done s c a e H1), (load_done s' c a e H2), Hm. Qed.

Lemma removed_nil_view s s' d a : removed s s' [] -> view s' d a = view s d a.
Proof. intros Hrem. apply (rm_view _ _ _ Hrem). intros (k & w & Hk & _). by apply elem_of_nil in Hk. Qed.
Lemma removed_nil_maps s s' m y : removed s s' [] -> pm_maps s !! m = Some y -> refs_of y = None -> pm_maps s' !! m = Some y.
Proof.
  intros Hrem Hm Hr. destruct (rm_kept _ _ _ Hrem m y Hm (not_elem_of_nil _)) as (y' & Hy' & Hs).
  destruct Hs as (_&_&_&_&_&_&_&_&_&Hn). rewrite Hy'. f_equal. by apply Hn.
Qed.

Lemma prepare_write_single s own m y r z fr ms mz : pman_inv s own ∅ -> pm_maps s !! m = Some y -> m_type y = PMAN_MAPPING_BORROWED r ms ->
  pm_maps s !! r = Some z -> m_type z = PMAN_MAPPING_ALLOC 1 fr mz -> m_vaddr y <> 0 ->
  (exists w, pman_context_prepare_write m s = Stop w) \/
  exists u s', pman_context_prepare_write m s = Done ((u, true), s') /\ pman_inv s' own ∅ /\ writable_copy s s' m u y.
Proof.
  intros Hinv Hm Hty Hr Hz Hnz. unfold pman_context_prepare_write. rewrite (bind_done _ _ _ _ _ (get_mapping_done s m y Hm)), Hty.
  assert (lender_of y = Some r /\ root_of m y = r) as [Hl Hroot] by (unfold root_of, lender_of; by rewrite Hty).
  assert (frames_of z = Some fr /\ refs_of z = Some 1) as [Hf Hk] by (unfold frames_of, refs_of, references; by rewrite Hz).
  assert (r <> m) as Hrm by (intros ->; congruence).
  destruct (get_root_done s own ∅ m y Hinv Hm (not_elem_of_empty _)) as [E (z0 & fr0 & Hz0 & _ & _ & _ & Hsz)]. rewrite Hroot in E, Hz0.
  assert (z0 = z) as -> by congruence. clear Hz0.
  rewrite (bind_done _ _ _ _ _ E), (bind_done _ _ _ _ _ (get_mapping_done s r z Hr)). clear E.
  assert (of_option (S := pman_state) Undefined (references (m_type z)) s = Done (1, s)) as E by (rewrite Hz; reflexivity).
  rewrite (bind_done _ _ _ _ _ E). clear E. cbn [Z.eqb Pos.eqb].
  (* hold the root *)
  destruct (add_reference_done s r z 1 Hr Hk) as (z1 & E & Hs1 & Hk1). rewrite (bind_done _ _ _ _ _ E). clear E.
  pose proof (inv_add_reference s own ∅ r z z1 1 Hinv Hr (not_elem_of_empty _) Hk Hs1 Hk1) as Hinv1.
  set (s1 := with_mapping r z1 s) in *. set (own1 := own_set own r (S (own r))) in *.
  assert (pm_maps s1 !! m = Some y) as Hm1 by (cbn; by rewrite lookup_insert_ne).
  assert (pm_maps s1 !! r = Some z1) as Hr1 by apply lookup_insert_eq.
  (* drop the borrowed mapping *)
  destruct (unmap_lent_done s1 own1 m y r z1 (1 + 1) Hinv1 Hm1 Hl Hr1 Hk1) as (s2 & E & Hinv2 & Hrem & Hkeep).
  rewrite (bind_done _ _ _ _ _ E). clear E. change (1 + 1 =? 1) with false in Hrem. cbv iota in Hrem.
  destruct (proj1 Hkeep ltac:(lia)) as (z2 & Hz2 & Hs2 & Hk2 & Hfr2). change (1 + 1 - 1) with 1 in Hk2.
  pose proof (same_but_refs_trans _ _ _ Hs1 Hs2) as Hs12. pose proof Hs12 as (_ & _ & _ & Hsz2 & Hf2 & _).
  (* share the root in its place *)
  destruct (share_again s1 own1 m y s2 own1 [m] r z2 fr Hinv1 Hm1 Hrem ltac:(set_solver) Hnz Hinv2 Hz2 ltac:(congruence) ltac:(congruence))
    as [[w E]|(u & s3 & ms' & z3 & E & Hinv3 & Hadd & Hused & Hz3 & Hs3 & Hk3)]; [left; exists w; by apply bind_stop|].
  rewrite (bind_done _ _ _ _ _ E). clear E. set (yu := PmanMapping _ _ _ _ _) in *. specialize (Hk3 1 Hk2). pose proof Hs3 as (_ & _ & _ & _ & Hf3 & _).
  (* let the root go *)
  assert (own1 r = S (own r)) as Ho1 by (unfold own1, own_set; by rewrite decide_True).
  destruct (unmap_root_done s3 own1 r z3 (1 + 1) Hinv3 Hz3 Hk3 ltac:(lia)) as (s4 & E & Hinv4 & Hrem4 & Hkeep4).
  rewrite (bind_done _ _ _ _ _ E). clear E. change (1 + 1 =? 1) with false in Hrem4. cbv iota in Hrem4.
  destruct (proj1 Hkeep4 ltac:(lia)) as (z4 & Hz4 & Hs4 & Hk4 & _). change (1 + 1 - 1) with 1 in Hk4. pose proof Hs4 as (_ & _ & _ & _ & Hf4 & _).
  assert (pman_inv s4 own ∅) as Hinv4'.
  { eapply inv_own_ext; [|exact Hinv4]. intros k. unfold own_set at 1. destruct (decide (k = r)) as [->|Hkr]; [by rewrite Ho1|].
    unfold own1, own_set. by rewrite decide_False. }
  assert (pm_maps s4 !! u = Some yu) as Hu4 by (eapply removed_nil_maps; [exact Hrem4|apply Hadd|done]).
  assert (forall d a, view s4 d a = view s3 d a) as Hv4 by (intros d a; by apply removed_nil_view).
  assert (pm_memory s4 = pm_memory s) as Hmem.
  { rewrite (rm_memory _ _ _ Hrem4), (ad_memory _ _ _ _ _ _ Hadd), (rm_memory _ _ _ Hrem). done. }
  right. exists u, s4. split; [done|]. split; [done|]. split.
  - exists r, ms', fr. cbv zeta. fold yu. split; [done|]. split; [by rewrite Hz4; cbn; congruence|]. split.
    + intros a Ha. apply (lent_view s4 own u yu r z4 fr a Hinv4' Hu4); try done. congruence.
    + by eapply (sole_borrower s4 own r z4 u yu).
  - intros a Ha. destruct (lent_view s own m y r z fr a Hinv Hm Hroot Hr Hf Ha) as (p & Hp & Hv).
    destruct (lent_view s4 own u yu r z4 fr a Hinv4' Hu4 eq_refl Hz4 ltac:(congruence) Ha) as (p' & Hp' & Hv').
    cbn [m_vaddr yu] in Hp'. assert (p' = p) as -> by congruence.
    rewrite (load_done _ _ _ _ Hv), (load_done s4 (m_context y) a _ Hv'). by rewrite Hmem.
  - intros m' y' z' a Hm' Hne _ _ Ha.
    assert (view s (m_context y') a <> None) as Hvn.
    { destruct (pi_placed _ _ _ Hinv m' y' Hm') as (x' & Hx' & _ & _ & Hw). rewrite (view_same s _ x' a Hx'). by apply Hw. }
    assert (view s4 (m_context y') a = view s (m_context y') a) as Hv.
    { rewrite Hv4. assert (view s2 (m_context y') a = view s (m_context y') a) as Hv2.
      { change (view s (m_context y') a) with (view s1 (m_context y') a).
        destruct (decide (m' = r)) as [->|Hmr].
        - assert (y' = z) as -> by congruence. pose proof Hs1 as (Ec & _ & Ev & Es & _). rewrite <- Ec. rewrite <- Ev, <- Es in Ha.
          eapply (removed_view_other s1 own1 s2 [m] m y r z1); try done. set_solver.
        - eapply (removed_view_other s1 own1 s2 [m] m y m' y'); try done; [set_solver|]. cbn. by rewrite lookup_insert_ne. }
      rewrite <- Hv2. eapply added_view_old; [exact Hadd|]. by rewrite Hv2. }
    split; [done|]. destruct (view s (m_context y') a) as [e|] eqn:Ee; [|done]. eapply load_stays; [done|done|]. by rewrite Hmem.
Qed.

Lemma alloc_frame_owned fr k p : fr_type fr = PALLOC_ALLOC -> fr_frame fr k = Some p -> p ∈ fr_owned fr.
Proof. unfold fr_frame, fr_owned. intros Hty. rewrite Hty. intros Hp. apply elem_of_list_to_set. by eapply list_elem_of_lookup_2. Qed.

(** Whole frames that differ have no byte in common. *)
Lemma frames_apart p q i j : frame_ok p -> frame_ok q -> p + i mod PAGE_SIZE = q + j mod PAGE_SIZE -> p = q.
Proof.
  intros [_ Hp] [_ Hq] He. unfold PAGE_SIZE in *. pose proof (Z.div_mod p 4096 ltac:(done)). pose proof (Z.div_mod q 4096 ltac:(done)).
  pose proof (Z.mod_pos_bound i 4096 eq_refl). pose proof (Z.mod_pos_bound j 4096 eq_refl). lia.
Qed.

(** Copying one mapping of the kernel context to another one whose frames are
    new. *)
Lemma copy_mapping s own r z fr q yq frq x : pman_inv s own ∅ -> pm_contexts s !! 0%nat = Some x ->
  pm_maps s !! r = Some z -> m_context z = 0%nat -> frames_of z = Some fr -> fr_type fr = PALLOC_ALLOC ->
  pm_maps s !! q = Some yq -> m_context yq = 0%nat -> frames_of yq = Some frq -> fr_type frq = PALLOC_ALLOC -> NoDup (fr_paddrs frq) ->
  r <> q -> m_size_pages yq = m_size_pages z ->
  exists mem, memcpy (m_vaddr yq) (m_vaddr z) (m_size_pages z * PAGE_SIZE) s = Done (tt, with_memory mem s) /\
    (forall k p p' i, 0 <= k < m_size_pages z -> fr_frame frq k = Some p' -> fr_frame fr k = Some p ->
      mem !! (p' + i mod PAGE_SIZE) = Some (default 0 (pm_memory s !! (p + i mod PAGE_SIZE)))) /\
    (forall p i, frame_ok p -> p ∉ fr_owned frq -> mem !! (p + i mod PAGE_SIZE) = pm_memory s !! (p + i mod PAGE_SIZE)).
Proof.
  intros Hinv Hx Hr Hc Hf Hty Hq Hcq Hfq Htyq Hnd Hrq Hsz.
  pose proof (placed_range s own ∅ r z Hinv Hr) as Hro. pose proof (placed_range s own ∅ q yq Hinv Hq) as Hroq.
  destruct (pi_frames _ _ _ Hinv r z fr Hr Hf) as [_ Hok]. destruct (pi_frames _ _ _ Hinv q yq frq Hq Hfq) as [_ Hokq].
  pose proof (pi_disjoint _ _ _ Hinv r q z yq fr frq Hr Hq Hrq Hf Hfq) as Hdis.
  assert (root_of r z = r /\ root_of q yq = q) as [Hroot Hrootq].
  { unfold root_of. rewrite (root_no_lender z), (root_no_lender yq) by (by eexists). done. }
  set (n := m_size_pages z) in *. rewrite Hsz in Hroq.
  set (B := fun fr i => default 0 (frame_byte fr i)).
  assert (forall m y f i, pm_maps s !! m = Some y -> m_context y = 0%nat -> root_of m y = m -> frames_of y = Some f -> m_size_pages y = n ->
    fr_type f = PALLOC_ALLOC -> (forall p, p ∈ fr_owned f -> frame_ok p) -> 0 <= i < n * PAGE_SIZE ->
    exists e, view s 0 (m_vaddr y + i) = Some e /\ phys_of e (m_vaddr y + i) = B f i /\ frame_byte f i = Some (B f i)) as Hbyte.
  { intros m y f i Hm Hcy Hroy Hfy Hsy Htf Hokf Hi. pose proof (placed_range s own ∅ m y Hinv Hm) as Hroy'. rewrite Hsy in Hroy'.
    destruct (range_index_byte _ _ i Hroy' Hi) as (Hidx & Hmod & Hin).
    destruct (lent_view s own m y m y f (m_vaddr y + i) Hinv Hm Hroy Hm Hfy) as (p & Hp & Hv); [by rewrite Hsy|].
    rewrite Hcy in Hv. rewrite Hidx in Hp. eexists. split; [exact Hv|]. unfold shown_entry.
    rewrite phys_of_entry by (apply Hokf; by eapply alloc_frame_owned). rewrite Hmod. unfold B, frame_byte. rewrite Hp. cbn. done. }
  assert (forall i, 0 <= i < n * PAGE_SIZE -> exists p, p ∈ fr_owned fr /\ B fr i = p + i mod PAGE_SIZE) as Hb1.
  { intros i Hi. destruct (Hbyte r z fr i Hr Hc Hroot Hf eq_refl Hty Hok Hi) as (e & _ & _ & Hfb). by eapply frame_byte_owned. }
  assert (forall i, 0 <= i < n * PAGE_SIZE -> exists p, p ∈ fr_owned frq /\ B frq i = p + i mod PAGE_SIZE) as Hb2.
  { intros i Hi. destruct (Hbyte q yq frq i Hq Hcq Hrootq Hfq Hsz Htyq Hokq Hi) as (e & _ & _ & Hfb). by eapply frame_byte_owned. }
  destruct Hro as (R0 & _ & Rn & Re). destruct Hroq as (Q0 & _ & _ & Qe).
  destruct (memcpy_spec s (m_vaddr yq) (m_vaddr z) (n * PAGE_SIZE) (B frq) (B fr) x Hx) as (mem & E & Hcopy & Hrest);
    [lia|lia|lia|lia| | | | |].
  - intros i Hi. destruct (Hbyte q yq frq i Hq Hcq Hrootq Hfq Hsz Htyq Hokq Hi) as (e & ? & ? & _). by exists e.
  - intros i Hi. destruct (Hbyte r z fr i Hr Hc Hroot Hf eq_refl Hty Hok Hi) as (e & ? & ? & _). by exists e.
  - intros i j Hi Hj Heq. destruct (Hbyte q yq frq i Hq Hcq Hrootq Hfq Hsz Htyq Hokq Hi) as (_ & _ & _ & H1).
    destruct (Hbyte q yq frq j Hq Hcq Hrootq Hfq Hsz Htyq Hokq Hj) as (_ & _ & _ & H2). rewrite <- Heq in H2.
    eapply (frame_byte_inj frq i j); try done; lia.
  - intros i j Hi Hj Heq. destruct (Hb2 i Hi) as (p & Hp & Ep). destruct (Hb1 j Hj) as (p' & Hp' & Ep'). rewrite Ep, Ep' in Heq.
    apply frames_apart in Heq as ->; [by eapply Hdis|by apply Hokq|by apply Hok].
  - exists mem. split; [done|]. split.
    + intros k p p' i Hk Hp' Hp. set (j := k * PAGE_SIZE + i mod PAGE_SIZE).
      assert (j / PAGE_SIZE = k /\ j mod PAGE_SIZE = i mod PAGE_SIZE /\ 0 <= j < n * PAGE_SIZE) as (Jd & Jm & Jb).
      { unfold j, PAGE_SIZE in *. pose proof (Z.mod_pos_bound i 4096 eq_refl). split_and!; [|rewrite Z.add_comm, Z.mod_add, Zmod_mod by done; done|lia|lia].
        rewrite Z.div_add_l by done. rewrite Z.div_small by done. lia. }
      specialize (Hcopy j Jb). unfold B, frame_byte in Hcopy. rewrite Jd, Jm, Hp', Hp in Hcopy. exact Hcopy.
    + intros p i Hpok Hp. apply Hrest. intros j Hj Heq. destruct (Hb2 j Hj) as (p' & Hp' & Ep'). rewrite Ep' in Heq.
      apply frames_apart in Heq as ->; [done|done|by apply Hokq].
Qed.

(** No mapping borrows from an identity that was not in use. *)
Lemma no_lender s own q m y : pman_inv s own ∅ -> pm_maps s !! q = None -> pm_maps s !! m = Some y -> lender_of y <> Some q.
Proof.
  intros Hinv Hq Hm Hl. destruct (pi_shows _ _ _ Hinv m y Hm (not_elem_of_empty _)) as (x & z & fr & _ & Hz & _).
  unfold root_of in Hz. rewrite Hl in Hz. cbn in Hz. congruence.
Qed.
Lemma borrowers_zero s q : (forall m y, pm_maps s !! m = Some y -> lender_of y <> Some q) -> borrowers s ∅ q = 0%nat.
Proof.
  intros Hn. unfold borrowers. apply map_size_empty_iff, map_empty_filter_2. intros i w Hi [Hw _]. by apply (Hn i w Hi).
Qed.

Lemma prepare_write_multi s own m y r z k fr ms mz x0 : pman_inv s own ∅ -> pm_maps s !! m = Some y -> m_type y = PMAN_MAPPING_BORROWED r ms ->
  pm_maps s !! r = Some z -> m_type z = PMAN_MAPPING_ALLOC k fr mz -> k <> 1 -> m_vaddr y <> 0 -> m_context z = 0%nat ->
  pm_contexts s !! 0%nat = Some x0 ->
  (exists w, pman_context_prepare_write m s = Stop w) \/
  exists u s', pman_context_prepare_write m s = Done ((u, true), s') /\ pman_inv s' own ∅ /\ writable_copy s s' m u y.
Proof.
  intros Hinv Hm Hty Hr Hz Hk1 Hnz Hcz Hx0. unfold pman_context_prepare_write. rewrite (bind_done _ _ _ _ _ (get_mapping_done s m y Hm)), Hty.
  assert (lender_of y = Some r /\ root_of m y = r) as [Hl Hroot] by (unfold root_of, lender_of; by rewrite Hty).
  assert (frames_of z = Some fr /\ refs_of z = Some k) as [Hf Hk] by (unfold frames_of, refs_of, references; by rewrite Hz).
  destruct (get_root_done s own ∅ m y Hinv Hm (not_elem_of_empty _)) as [E (z0 & fr0 & Hz0 & _ & _ & _ & Hsz)]. rewrite Hroot in E, Hz0.
  assert (z0 = z) as -> by congruence. clear Hz0.
  rewrite (bind_done _ _ _ _ _ E), (bind_done _ _ _ _ _ (get_mapping_done s r z Hr)). clear E.
  assert (of_option (S := pman_state) Undefined (references (m_type z)) s = Done (k, s)) as E by (rewrite Hz; reflexivity).
  rewrite (bind_done _ _ _ _ _ E). clear E. rewrite (proj2 (Z.eqb_neq k 1)) by done.
  pose proof (placed_range s own ∅ r z Hinv Hr) as (Rz0 & _ & Rzn & Rze). pose proof (pi_kind _ _ _ Hinv r z fr Hr Hf) as Hkind.
  unfold kind_ok in Hkind. rewrite Hz in Hkind. destruct Hkind as [Hfty _].
  set (n := m_size_pages z) in *.
  assert (0 < n * PAGE_SIZE <= 2 ^ 48) as Hnb by (unfold PAGE_SIZE in *; lia). cbv zeta. rewrite u64_small by lia.
  assert (DIV_UP (n * PAGE_SIZE) PAGE_SIZE = n) as Hdd.
  { apply DIV_UP_pages. unfold PAGE_SIZE in *. lia. }
  (* allocate a copy in the kernel context *)
  destruct (add_alloc_spec s own 0 x0 PMAN_PROT_WRITE 0 (n * PAGE_SIZE) Hinv Hx0 Hnb ltac:(by left))
    as [[w E]|(q & s1 & va & frq & mq & E & Hinv1 & Hadd1 & Htyq & Hndq & Hnew & _ & Hokq & _)]; [left; exists w; by apply bind_stop|].
  change pman_kernel_context with 0%nat. rewrite (bind_done _ _ _ _ _ E). clear E. rewrite Hdd in Hadd1.
  set (yq := PmanMapping 0 (PMAN_MAPPING_ALLOC 1 frq mq) PMAN_PROT_WRITE va n) in *.
  set (own1 := own_set own q 1) in *. pose proof (ad_fresh _ _ _ _ _ _ Hadd1) as Hqs. pose proof (ad_mapping _ _ _ _ _ _ Hadd1) as Hq1.
  rewrite (bind_done _ _ _ _ _ (get_mapping_done s1 q yq Hq1)).
  assert (forall m' y', pm_maps s !! m' = Some y' -> m' <> q /\ pm_maps s1 !! m' = Some y') as Hold1.
  { intros m' y' Hm'. assert (m' <> q) by (intros ->; congruence). split; [done|]. by rewrite (ad_maps _ _ _ _ _ _ Hadd1). }
  destruct (Hold1 r z Hr) as [Hrq Hr1]. destruct (Hold1 m y Hm) as [Hmq Hm1].
  assert (is_Some (pm_contexts s1 !! 0%nat)) as [x1 Hx1] by (apply (ad_contexts _ _ _ _ _ _ Hadd1); by eexists).
  (* copy *)
  destruct (copy_mapping s1 own1 r z fr q yq frq x1 Hinv1 Hx1 Hr1 Hcz Hf Hfty Hq1 eq_refl eq_refl Htyq Hndq Hrq eq_refl) as (mem & E & Hcopy & Hkeepm).
  fold n in E. rewrite (bind_done _ _ _ _ _ E). clear E. set (s2 := with_memory mem s1) in *.
  pose proof (inv_memory s1 own1 ∅ mem Hinv1) as Hinv2. change (Pman _ _ _ _ _ _) with s2 in Hinv2.
  (* drop the borrowed mapping *)
  destruct (unmap_lent_done s2 own1 m y r z k Hinv2 Hm1 Hl Hr1 Hk) as (s3 & E & Hinv3 & Hrem & _).
  rewrite (bind_done _ _ _ _ _ E). clear E. rewrite (proj2 (Z.eqb_neq k 1)) in Hrem by done.
  destruct (rm_kept _ _ _ Hrem q yq Hq1 ltac:(set_solver)) as (zq & Hzq & Hsq). pose proof Hsq as (_ & _ & _ & Hszq & Hfq & _ & Hlq & _).
  assert (forall m' y', pm_maps s3 !! m' = Some y' -> lender_of y' <> Some q) as Hnl.
  { intros m' y' Hm' Hlm. destruct (rm_back _ _ _ Hrem m' y' Hm') as (w & Hw & _ & _ & _ & _ & _ & _ & Hlw & _).
    change (pm_maps s2) with (pm_maps s1) in Hw. destruct (decide (m' = q)) as [->|Hne]; [assert (w = yq) as -> by congruence; cbn in Hlw; congruence|].
    rewrite (ad_maps _ _ _ _ _ _ Hadd1) in Hw by done. rewrite Hlw in Hlm. by apply (no_lender s own q m' w Hinv Hqs Hw). }
  assert (own1 q = 1%nat) as Ho1 by (unfold own1, own_set; by rewrite decide_True).
  assert (refs_of zq = Some 1) as Hkq.
  { destruct (proj2 (root_has_frames zq) ltac:(rewrite Hfq; by eexists)) as [j Hj]. destruct (pi_refs _ _ _ Hinv3 q zq j Hzq (not_elem_of_empty _) Hj) as [-> _].
    rewrite Hj, Ho1, (borrowers_zero s3 q Hnl). done. }
  (* share the copy in its place *)
  destruct (share_again s2 own1 m y s3 own1 [m] q zq frq Hinv2 Hm1 Hrem ltac:(set_solver) Hnz Hinv3 Hzq ltac:(by rewrite Hfq) ltac:(rewrite Hszq; exact Hsz))
    as [[w E]|(u & s4 & ms' & z4 & E & Hinv4 & Hadd4 & _ & Hz4 & Hs4 & Hk4)]; [left; exists w; by apply bind_stop|].
  rewrite (bind_done _ _ _ _ _ E). clear E. set (yu := PmanMapping (m_context y) (PMAN_MAPPING_SHARED q ms') (m_protection y) (m_vaddr y) (m_size_pages y)) in *. specialize (Hk4 1 Hkq).
  (* let the copy go: the new mapping keeps it *)
  destruct (unmap_root_done s4 own1 q z4 (1 + 1) Hinv4 Hz4 Hk4 ltac:(lia)) as (s5 & E & Hinv5 & Hrem5 & Hkeep5).
  rewrite (bind_done _ _ _ _ _ E). clear E. change (1 + 1 =? 1) with false in Hrem5. cbv iota in Hrem5.
  destruct (proj1 Hkeep5 ltac:(lia)) as (z5 & Hz5 & Hs5 & Hk5 & _). change (1 + 1 - 1) with 1 in Hk5.
  assert (frames_of z5 = Some frq) as Hf5.
  { destruct Hs5 as (_ & _ & _ & _ & -> & _). destruct Hs4 as (_ & _ & _ & _ & -> & _). by rewrite Hfq. }
  assert (pman_inv s5 own ∅) as Hinv5'.
  { eapply inv_own_ext; [|exact Hinv5]. intros j. unfold own_set at 1. destruct (decide (j = q)) as [->|Hjq].
    - rewrite Ho1. symmetry. by eapply own_dead.
    - unfold own1, own_set. by rewrite decide_False. }
  assert (pm_maps s5 !! u = Some yu) as Hu5 by (eapply removed_nil_maps; [exact Hrem5|exact (ad_mapping _ _ _ _ _ _ Hadd4)|done]).
  assert (pm_memory s5 = mem) as Hmem5.
  { rewrite (rm_memory _ _ _ Hrem5), (ad_memory _ _ _ _ _ _ Hadd4), (rm_memory _ _ _ Hrem). done. }
  right. exists u, s5. split; [done|]. split; [done|]. split.
  - exists q, ms', frq. cbv zeta. fold yu. split; [done|]. split; [rewrite Hz5; cbn; by rewrite Hf5|]. split.
    + intros a Ha. by apply (lent_view s5 own u yu q z5 frq a Hinv5' Hu5).
    + by eapply (sole_borrower s5 own q z5 u yu).
  - intros a Ha. destruct (lent_view s own m y r z fr a Hinv Hm Hroot Hr Hf Ha) as (p & Hp & Hv).
    destruct (lent_view s5 own u yu q z5 frq a Hinv5' Hu5 eq_refl Hz5 Hf5 Ha) as (p' & Hp' & Hv'). cbn [m_vaddr m_context yu] in Hp', Hv'.
    rewrite (load_done s _ _ _ Hv), (load_done s5 _ _ _ Hv'). unfold shown_entry.
    assert (frame_ok p) by (apply (pi_frames _ _ _ Hinv r z fr Hr Hf); by eapply alloc_frame_owned).
    assert (frame_ok p') by (apply Hokq; by eapply alloc_frame_owned).
    rewrite !phys_of_entry, Hmem5 by done. f_equal.
    assert (0 <= range_index (m_vaddr y) a < n) as Hidx by (pose proof (range_index_bound (m_vaddr y) a); unfold in_range in Ha; lia).
    rewrite (Hcopy _ p p' a Hidx Hp' Hp). cbn. by rewrite (ad_memory _ _ _ _ _ _ Hadd1).
  - intros m' y' z' a Hm' Hne Hz' (k' & fr' & ms0 & Htz') Ha. destruct (Hold1 m' y' Hm') as [Hmq' Hm1'].
    assert (frames_of z' = Some fr') as Hf' by (unfold frames_of; by rewrite Htz').
    destruct (lent_view s own m' y' _ z' fr' a Hinv Hm' eq_refl Hz' Hf' Ha) as (p & Hp & Hv).
    assert (fr_type fr' = PALLOC_ALLOC) as Hty'.
    { pose proof (pi_kind _ _ _ Hinv _ z' fr' Hz' Hf') as Hkd. unfold kind_ok in Hkd. rewrite Htz' in Hkd. apply Hkd. }
    destruct (pi_frames _ _ _ Hinv _ z' fr' Hz' Hf') as [Hsub Hok']. pose proof (alloc_frame_owned _ _ _ Hty' Hp) as Hpo.
    assert (view s1 (m_context y') a = view s (m_context y') a) as Hv1 by (eapply added_view_old; [exact Hadd1|by rewrite Hv]).
    assert (view s3 (m_context y') a = view s1 (m_context y') a) as Hv3.
    { change (view s1 (m_context y') a) with (view s2 (m_context y') a). eapply (removed_view_other s2 own1 s3 [m] m y m' y'); try done. set_solver. }
    assert (view s5 (m_context y') a = view s (m_context y') a) as Hv5.
    { rewrite (removed_nil_view s4 s5 _ _ Hrem5). rewrite <- Hv1, <- Hv3. eapply added_view_old; [exact Hadd4|]. by rewrite Hv3, Hv1, Hv. }
    split; [done|]. rewrite Hv in Hv5. eapply load_stays; [exact Hv|exact Hv5|]. unfold shown_entry. rewrite phys_of_entry by (by apply Hok').
    rewrite Hmem5. rewrite Hkeepm; [by rewrite (ad_memory _ _ _ _ _ _ Hadd1)|by apply Hok'|]. intros Hin. eapply Hnew; [exact Hin|]. by apply Hsub.
Qed.
End pman_props.
