(* ===== verification/PmanInst.v ===== *)
(** * PmanInst: the components below the paging manager meet its interfaces

    The page tables of PageTables.v, the address spaces of Valloc.v over any
    kernel heap, and, for page frames, a reference allocator that hands out
    frames in ascending order. *)
From S2P Require Import Prelude Heap Bitmap Valloc TransMap PageTables PageTree PageMap PmanIface.

(** ** Page tables: the tables and the roots handed out so far *)

Record page_tables := PageTablesOf { pgt_vm : vm; pgt_roots : gset Z }.
Definition on_vm {A} (m : M vm A) : M page_tables A :=
  zoom pgt_vm (fun s t => PageTablesOf s (pgt_roots t)) m.

Definition page_tables_new : M page_tables paging_table_allocation_t :=
  let! a := on_vm paging_talloc_alloc in
  do! modify (fun t => PageTablesOf (pgt_vm t) ({[ta_vaddr a]} ∪ pgt_roots t));
  ret a.
Definition page_tables_free (a : paging_table_allocation_t) : M page_tables unit :=
  do! on_vm (paging_talloc_free a);
  modify (fun t => PageTablesOf (pgt_vm t) (pgt_roots t ∖ {[ta_vaddr a]})).

Definition page_tables_ok (t : page_tables) : Prop := exists own tm, vm_ok (pgt_vm t) own tm /\
  forall r, r ∈ pgt_roots t -> exists x, own !! r = Some [x].

Lemma on_vm_done {A} (m : M vm A) t a s : m (pgt_vm t) = Done (a, s) -> on_vm m t = Done (a, PageTablesOf s (pgt_roots t)).
Proof. intros E. unfold on_vm, zoom. by rewrite E. Qed.
Lemma on_vm_stop {A} (m : M vm A) t w : m (pgt_vm t) = Stop w -> on_vm m t = Stop w.
Proof. intros E. unfold on_vm, zoom. by rewrite E. Qed.

(** Paths start anywhere: one that starts where no other does exists. *)
Lemma fresh_path (own : gmap Z (list Z)) : exists x, forall w pi, own !! w = Some pi -> head pi <> Some x.
Proof.
  exists (fresh (omap (fun p => head p.2) (map_to_list own))). intros w pi Hw Hh.
  apply (infinite_is_fresh (omap (fun p => head p.2) (map_to_list own))).
  apply list_elem_of_omap. exists (w, pi). split; [by apply elem_of_map_to_list|done].
Qed.

(** A fresh empty table can become a root. *)
Lemma add_root s s' own tm p v x : vm_ok s own tm -> (forall w pi, own !! w = Some pi -> head pi <> Some x) ->
  alloc_ok s' (<[p := v]> tm) -> tables s' = <[v := ∅]> (tables s) -> tm !! p = None -> 0 < v ->
  ~ slot_used (talloc_pts s) v -> slot_used (talloc_pts s') v -> (forall w, slot_used (talloc_pts s) w -> slot_used (talloc_pts s') w) ->
  vm_ok s' (<[v := [x]]> own) (<[p := v]> tm) /\ own !! v = None /\
  (forall rho j e, entry_at (tables s') (<[v := [x]]> own) rho j e <-> entry_at (tables s) own rho j e).
Proof.
  intros [Ha Ht Hu] Hx Ha' Htab Hp Hv Hnu Hu' Hmono.
  assert (own !! v = None) as Hvn by (destruct (own !! v) eqn:E; [|done]; exfalso; by eapply Hnu, Hu).
  assert (forall w pi, own !! w = Some pi -> tables s' !! w = tables s !! w) as Hsame.
  { intros w pi Hw. rewrite Htab, lookup_insert_ne; [done|]. intros ->. congruence. }
  split; [|split; [done|]].
  - split; [done| |].
    + split.
      * intros w pi [[<- <-]|[_ Hw]]%lookup_insert_Some.
        -- split_and!; [done|done|simpl; lia|]. rewrite Htab, lookup_insert_eq. by eexists.
        -- rewrite (Hsame w pi Hw). by apply (to_own _ _ _ Ht).
      * intros w1 w2 pi [[<- <-]|[_ H1]]%lookup_insert_Some [[<- H2]|[_ H2]]%lookup_insert_Some; [done| |subst pi|by eapply (to_inj _ _ _ Ht)].
        -- by apply Hx in H2.
        -- by apply Hx in H1.
      * intros w pi t i e [[<- <-]|[Hne Hw]]%lookup_insert_Some Hl Hwt He.
        -- rewrite Htab, lookup_insert_eq in Hwt. injection Hwt as <-. by rewrite lookup_empty in He.
        -- rewrite (Hsame w pi Hw) in Hwt. destruct (to_child _ _ _ Ht w pi t i e Hw Hl Hwt He) as (?&?&?&?&c&Hc&Hoc). split_and!; [done..|].
           exists c. split; [rewrite lookup_insert_ne; [done|intros ->; congruence]|]. rewrite lookup_insert_ne; [done|intros ->; congruence].
      * intros w pi i [[<- Heq]|[_ Hw]]%lookup_insert_Some Hpi.
        -- destruct pi as [|a [|b pi]]; [done|..]; by apply (f_equal length) in Heq.
        -- destruct (to_parent _ _ _ Ht w pi i Hw Hpi) as (c & t & e & Hc & Hct & He). exists c, t, e. rewrite (Hsame c pi Hc).
           rewrite lookup_insert_ne; [done|intros ->; congruence].
    + intros w pi [[<- _]|[_ Hw]]%lookup_insert_Some; [done|]. by eapply Hmono, Hu.
  - intros rho j e. split.
    + intros (w & t & [[<- <-]|[_ Hw]]%lookup_insert_Some & Hwt & He).
      * rewrite Htab, lookup_insert_eq in Hwt. injection Hwt as <-. by rewrite lookup_empty in He.
      * rewrite (Hsame w rho Hw) in Hwt. by exists w, t.
    + intros (w & t & Hw & Hwt & He). exists w, t. rewrite (Hsame w rho Hw). rewrite lookup_insert_ne; [done|intros ->; congruence].
Qed.

Lemma range_index_lt_pages n vaddr va : 0 <= n -> (in_range vaddr n va <-> range_index vaddr va < Z.of_nat (Z.to_nat n)).
Proof. intros Hn. unfold in_range. by rewrite Z2Nat.id. Qed.

#[export] Program Instance page_tables_mapper : PageMapper page_tables := {|
  pm_new := page_tables_new;
  pm_free := page_tables_free;
  pm_map root paddr vaddr n rw xd us := on_vm (paging_map_ex root paddr vaddr (Z.to_nat n) rw xd us);
  pm_unmap root m := on_vm (paging_unmap root m);
  pm_walk t root va := mmu_walk (pgt_vm t) root va;
  pm_ok := page_tables_ok;
  pm_root t r := r ∈ pgt_roots t
|}.
Next Obligation.
  intros t (own & tm & Hok & Hroots). unfold page_tables_new.
  destruct (talloc_alloc_spec (pgt_vm t) tm (vo_alloc _ _ _ Hok)) as [E|(p & v & s' & E & Ha & Ht & _ & Hp & Hv & Hnu & Hu & Hm)].
  { left. apply bind_stop. by apply on_vm_stop. }
  right. rewrite (bind_done _ _ _ _ _ (on_vm_done _ t _ _ E)). cbn [ta_vaddr]. do 2 eexists. split; [reflexivity|]. cbn [ta_vaddr].
  destruct (fresh_path own) as [x Hx].
  destruct (add_root (pgt_vm t) s' own tm p v x Hok Hx Ha Ht Hp Hv Hnu Hu Hm) as (Hok' & Hvn & Hent).
  assert (v ∉ pgt_roots t) as Hnew by (intros [y Hy]%Hroots; congruence).
  split_and!; [|done|cbn; set_solver| |].
  - exists (<[v := [x]]> own), (<[p := v]> tm). cbn. split; [done|].
    intros r Hr. destruct (decide (r = v)) as [->|Hne]; [exists x; apply lookup_insert_eq|]. rewrite lookup_insert_ne by done. apply Hroots. set_solver.
  - intros va. cbn. apply (walk_None s' _ _ v x va Hok'); [apply lookup_insert_eq|]. intros e He. apply Hent in He as (w & tb & Hw & _).
    by apply Hx in Hw.
  - intros r Hr. split; [cbn; set_solver|]. intros va. cbn. destruct (Hroots r Hr) as [y Hor].
    eapply (walk_same (pgt_vm t) s' own _ tm _ r y va Hok Hok'); [done|rewrite lookup_insert_ne; [done|intros ->; congruence]|]. intros rho j e _. apply Hent.
Qed.
Next Obligation.
  intros t root paddr vaddr n rw xd us (own & tm & Hok & Hroots) Hroot Hn Hfree. destruct (Hroots _ Hroot) as [x Hx].
  destruct (decide (0 <= n)) as [Hn0|Hn0].
  2:{ replace (Z.to_nat n) with 0%nat by lia. right. do 2 eexists. split; [by apply on_vm_done|]. cbn. split_and!; [by exists own, tm|done|done|].
      intros r Hr. split; [done|]. intros va. rewrite (proj2 (Z.ltb_ge _ _)); [by rewrite andb_false_r|]. pose proof (range_index_bound vaddr va). lia. }
  unfold paging_map_ex.
  destruct (map_pages_spec (Z.to_nat n) (pgt_vm t) own tm root x paddr vaddr rw xd us ([], 1%nat) Hok Hx ltac:(lia) ltac:(simpl; lia))
    as [E|[H _]]; [left; apply on_vm_stop; by apply bind_stop|].
  destruct H as (m & s' & own' & tm' & E & Hok' & Hs & _ & Hv & Ho).
  { intros va Hva. apply Hfree. by apply range_index_lt_pages. }
  right. do 2 eexists. split; [apply on_vm_done; by rewrite (bind_done _ _ _ _ _ E)|]. cbn.
  assert (forall y z, own !! y = Some z -> own' !! y = Some z) as Hlift by (intros y z Hy; by eapply lookup_weaken).
  split_and!; [|done|done|].
  - exists own', tm'. cbn. split; [done|]. intros r Hr. destruct (Hroots r Hr) as [y Hy]. exists y. by apply Hlift.
  - intros r Hr. split; [done|]. intros va. case_bool_decide as Hd; cbn [andb].
    + subst r. rewrite Hv. unfold range_view. rewrite Z2Nat.id by lia. done.
    + destruct (Hroots r Hr) as [y Hy]. by apply (Ho r y va Hy).
Qed.
Next Obligation.
  intros t root m (own & tm & Hok & Hroots) Hroot Hn Hmapped. destruct (Hroots _ Hroot) as [x Hx].
  destruct (unmap_pages_spec (mp_size_pages m) (pgt_vm t) own tm root x (mp_vaddr m) Hok Hx Hn Hmapped) as (s' & E & Hok' & _ & Hw).
  eexists. split; [apply on_vm_done; exact E|]. split; [by exists own, tm|]. cbn. intros r Hr. split; [done|]. intros va.
  destruct (Hroots r Hr) as [y Hy]. by apply (Hw r y va Hy).
Qed.

(** ** Address spaces: Valloc.v over a heap of their own *)

Lemma valloc_page : VALLOC_PAGE_SIZE = PAGE_SIZE. Proof. done. Qed.

Section ranges.
Context {H : Type} `{KernelHeap H}.
Implicit Types s : @valloc_t H.

Definition valloc_map s : gmap Z Z := list_to_map (allocated (nodes s)).

Lemma allocated_NoDup a l e : tiles a l e -> NoDup (allocated l).*1.
Proof.
  intros Ht. apply NoDup_alt. intros i j x Hi Hj. rewrite !list_lookup_fmap in Hi, Hj.
  apply fmap_Some in Hi as ([p n] & Hi & ->). apply fmap_Some in Hj as ([q m] & Hj & Hpq). cbn in Hpq. subst q.
  pose proof (allocated_bounds _ _ _ _ _ Ht (list_elem_of_lookup_2 _ _ _ Hi)) as (_ & _ & Hn).
  pose proof (allocated_bounds _ _ _ _ _ Ht (list_elem_of_lookup_2 _ _ _ Hj)) as (_ & _ & Hm).
  destruct (Nat.lt_trichotomy i j) as [Hij|[->|Hij]]; [|done|].
  - pose proof (allocated_sorted _ _ _ Ht _ _ _ _ _ _ Hij Hi Hj). unfold VALLOC_PAGE_SIZE in *. lia.
  - pose proof (allocated_sorted _ _ _ Ht _ _ _ _ _ _ Hij Hj Hi). unfold VALLOC_PAGE_SIZE in *. lia.
Qed.

Lemma valloc_map_lookup s others p n : valloc_ok s others -> (valloc_map s !! p = Some n <-> (p, n) ∈ allocated (nodes s)).
Proof.
  intros [Ht _ _]. symmetry. apply elem_of_list_to_map. by eapply allocated_NoDup.
Qed.

Lemma valloc_map_add s s' others a n : valloc_ok s' others -> allocated (nodes s') ≡ₚ (a, n) :: allocated (nodes s) ->
  valloc_map s !! a = None /\ valloc_map s' = <[a := n]> (valloc_map s).
Proof.
  intros [Ht _ _] Hp. pose proof (allocated_NoDup _ _ _ Ht) as Hnd. split.
  - rewrite Hp in Hnd. cbn in Hnd. apply NoDup_cons in Hnd as [Hn _]. by apply not_elem_of_list_to_map.
  - unfold valloc_map. by rewrite (list_to_map_proper _ _ Hnd Hp).
Qed.

(** Allocated ranges keep clear of each other. *)
Lemma valloc_map_apart s others a n b m : valloc_ok s others -> valloc_map s !! a = Some n -> valloc_map s !! b = Some m -> a <> b -> apart a n b m.
Proof.
  intros Hok Ha Hb Hne. apply (valloc_map_lookup s others) in Ha, Hb; [|done..]. destruct Hok as [Ht _ _].
  apply list_elem_of_lookup in Ha as [i Hi]. apply list_elem_of_lookup in Hb as [j Hj].
  unfold apart. pose proof (allocated_sorted _ _ _ Ht i j a n b m) as H1. pose proof (allocated_sorted _ _ _ Ht j i b m a n) as H2.
  rewrite valloc_page in *. assert (i <> j) by (intros ->; congruence). destruct (Nat.lt_total i j) as [Hl|[|Hl]]; [|done|].
  - specialize (H1 Hl Hi Hj). lia.
  - specialize (H2 Hl Hj Hi). lia.
Qed.

(** A range that overlaps no allocated one lies in one free node. *)
Lemma free_range_fits s others l n r a pages : valloc_ok s others -> nodes s = l ++ n :: r -> Valloc.covers a n = true ->
  0 < pages -> a + pages * PAGE_SIZE <= VALLOC_REGION_SIZE ->
  (forall b m, valloc_map s !! b = Some m -> apart a pages b m) -> is_free n = true /\ a + pages * PAGE_SIZE <= node_end n.
Proof.
  intros Hok En Hc Hpg Hend Hap. pose proof Hok as [Ht Hp _]. rewrite En in Ht, Hp.
  unfold Valloc.covers in Hc. apply andb_prop in Hc as [Hc1 Hc2]. unfold node_end in *.
  destruct (fit_in_region _ _ _ Ht) as (Hst & Hsz & _ & Hr & _). rewrite valloc_page in *.
  assert (forall x, x ∈ nodes s -> is_free x = false -> apart a pages (start_addr x) (size_pages x)) as Hx.
  { intros x Hx Hf. apply Hap. apply (valloc_map_lookup s others); [done|]. unfold allocated. apply list_elem_of_fmap. exists x.
    split; [done|]. by apply list_elem_of_filter. }
  assert (is_free n = true) as Hf.
  { destruct (is_free n) eqn:Ef; [done|]. destruct (Hx n) as [Hd|Hd]; [rewrite En; set_solver|done|..]; unfold PAGE_SIZE in *; lia. }
  split; [done|]. apply Z.nlt_ge. intros Hlt.
  apply no_free_pair_app in Hp as (_ & Hp2 & _). apply no_free_pair_cons in Hp2 as [_ Hp4].
  destruct r as [|m r]; [cbn in Hr; lia|]. destruct (Hp4 m eq_refl) as [|Hm]; [congruence|]. destruct Hr as (Hms & Hmp & _).
  destruct (Hx m) as [Hd|Hd]; [rewrite En; set_solver|done|..]; unfold PAGE_SIZE in *; lia.
Qed.

Section instance.
Variable h0 : H.
Hypothesis Hh0 : kh_live h0 [].

Program Definition valloc_ranges : VirtualRanges (@valloc_t H) := {|
  vr_new := match valloc_init (Valloc [] h0) with Done (_, s) => Done s | Stop w => Stop w end;
  vr_alloc := valloc_alloc; vr_reserve := valloc_reserve; vr_release := valloc_release; vr_free := valloc_free;
  vr_ok s := valloc_ok s [];
  vr_ranges := valloc_map
|}.
Next Obligation.
  intros v E. destruct (valloc_init_spec h0 [] Hh0) as [(s & E' & Hok & Hn)|[msg E']]; rewrite E' in E; [|done].
  injection E as <-. split; [done|]. unfold valloc_map. by rewrite Hn.
Qed.
Next Obligation.
  intros s a n Hok Ha. apply (valloc_map_lookup s []) in Ha; [|done]. pose proof Hok as [Ht _ _].
  pose proof (allocated_bounds _ _ _ _ _ Ht Ha) as (Hb0 & Hb1 & Hb2). rewrite valloc_page in *. unfold range_ok. split_and!; [done| |done|].
  - apply allocated_split in Ha as (l1 & x & l2 & En & _ & <- & _).
    pose proof (tiles_aligned 0 _ _ eq_refl Ht) as Hal. rewrite En in Hal. apply Forall_app in Hal as [_ Hal]. by apply Forall_cons in Hal as [[? _] _].
  - unfold VALLOC_REGION_SIZE in *. lia.
Qed.
Next Obligation. intros s a n b m Hok. by apply valloc_map_apart with (others := []). Qed.
Next Obligation.
  intros s size Hok Hsz.
  destruct (valloc_alloc_spec s [] size Hok) as [[msg E]|[[E _]|(l & n & r & s' & mid & En & Hc & _ & E & Hok' & En' & Hmid)]];
    [lia|unfold VALLOC_PAGE_SIZE; lia|left; by eexists..|].
  right. exists (start_addr n), s'. split; [done|]. split; [done|].
  apply (valloc_map_add s s' []); [done|]. apply andb_prop in Hc as [Hf _].
  rewrite En', En, allocated_app, allocated_cons, allocated_app, (allocated_app l), (allocated_cons n), Hf. cbn [is_free start_addr size_pages app].
  assert (allocated mid = []) as -> by (destruct Hmid as [[-> _]|(p & -> & _)]; done). rewrite <- Permutation_middle. done.
Qed.
Next Obligation.
  intros s a size Hok Hsz (Ha0 & Ham & Hpg & Hend) Hap.
  destruct (valloc_reserve_spec s [] a size Hok) as [[msg E]|[(l & n & r & En & Hc & Hno & E)|(l & n & r & p & q & s' & En & Hc & Hf & He & E & Hok' & En')]].
  { unfold VALLOC_REGION_SIZE, PAGE_SIZE in *. lia. } { done. } { unfold VALLOC_REGION_SIZE. lia. }
  - left. by eexists.
  - exfalso. destruct (free_range_fits s [] l n r a (DIV_UP size PAGE_SIZE) Hok En Hc Hpg ltac:(unfold VALLOC_REGION_SIZE; lia) Hap) as [Hf He].
    unfold pages_of in Hno. rewrite valloc_page in Hno. destruct Hno; [congruence|lia].
  - right. exists s'. split; [done|]. split; [done|]. apply (valloc_map_add s s' []); [done|]. rewrite En', En.
    change (DIV_UP size PAGE_SIZE) with (pages_of size). by apply reserve_nodes_allocated.
Qed.
Next Obligation.
  intros s a n Hok Ha. apply (valloc_map_lookup s []) in Ha as Hin; [|done].
  apply allocated_split in Hin as (l1 & x & l2 & En & Hf & <- & <-).
  destruct (valloc_release_spec s [] l1 x l2 Hok En Hf) as (s' & E & En' & Hok'). exists s'. split; [done|]. split; [done|].
  pose proof Hok as [Ht Hp _]. rewrite En in Ht, Hp. destruct (release_nodes_ok l1 x l2 Hf Ht Hp) as (_ & _ & Hal).
  rewrite <- En, <- En' in Hal. destruct (valloc_map_add s' s [] (start_addr x) (size_pages x) Hok Hal) as [Hn ->].
  by rewrite delete_insert_id.
Qed.
End instance.
End ranges.

#[export] Instance demo_ranges : VirtualRanges (@valloc_t bump) := valloc_ranges (Bump 4096) demo_live.

(** ** Page frames: ascending frames, and those in use *)

Record frame_pool := FramePool { fp_next : Z; fp_used : gset Z }.

(** Hand out [fr], which lies behind [fp_next], unless memory has run out. *)
Definition hand_out (pages : Z) (fr : frames_t) : M frame_pool frames_t := fun f =>
  if (0 <=? fp_next f) && (fp_next f + pages <=? 2 ^ 40) && bool_decide (fr_owned fr ## fp_used f)
  then Done (fr, FramePool (fp_next f + Z.max 0 pages) (fp_used f ∪ fr_owned fr)) else Stop (EntryError 0).
Definition next_frames (pages next : Z) : list Z := (fun k => k * PAGE_SIZE) <$> seqZ next pages.
Definition pool_alloc (size : Z) : M frame_pool frames_t := fun f =>
  let pages := DIV_UP size PAGE_SIZE in hand_out pages (Frames PALLOC_ALLOC pages (next_frames pages (fp_next f))) f.
(** Frames from anywhere, or, for a device, the ones it says. *)
Definition pool_contiguous (size paddr : Z) : M frame_pool frames_t := fun f =>
  let pages := DIV_UP size PAGE_SIZE in
  if paddr =? 0 then hand_out pages (Frames PALLOC_CONTIGUOUS_ALLOC pages [fp_next f * PAGE_SIZE]) f
  else Done (Frames PALLOC_CONTIGUOUS_MAP pages [paddr], f).

Lemma frame_number k : 0 <= k < 2 ^ 40 -> frame_ok (k * PAGE_SIZE).
Proof. unfold frame_ok, PAGE_SIZE. intros Hk. split; [lia|]. by rewrite Z.mod_mul. Qed.

Lemma hand_out_ok f pages fr : (forall p, p ∈ fr_owned fr -> exists k, p = k * PAGE_SIZE /\ fp_next f <= k < fp_next f + pages) ->
  (exists w, hand_out pages fr f = Stop w) \/
  exists f', hand_out pages fr f = Done (fr, f') /\ fresh_in (fp_used f) (fp_used f') fr.
Proof.
  intros Hfr. unfold hand_out. destruct (_ && _ && _) eqn:E; [|left; by eexists]. right. eexists. split; [done|].
  apply andb_prop in E as [[E1 E2]%andb_prop E3]. apply bool_decide_eq_true in E3.
  split_and!; [done|done|]. intros p (k & -> & Hk)%Hfr. apply frame_number. lia.
Qed.

#[export] Program Instance frame_pool_allocator : FrameAllocator frame_pool := {|
  fa_alloc := pool_alloc; fa_contiguous := pool_contiguous;
  fa_free fr f := Done (tt, FramePool (fp_next f) (fp_used f ∖ fr_owned fr));
  fa_used := fp_used
|}.
Next Obligation.
  intros f size. unfold pool_alloc. set (pages := DIV_UP size PAGE_SIZE). set (l := next_frames pages (fp_next f)).
  assert (forall p, p ∈ l -> exists k, p = k * PAGE_SIZE /\ fp_next f <= k < fp_next f + pages) as Hl.
  { intros p (k & -> & Hk%elem_of_seqZ)%list_elem_of_fmap. by exists k. }
  destruct (hand_out_ok f pages (Frames PALLOC_ALLOC pages l)) as [[w E]|(f' & E & Hf)]; [by intros p Hp%elem_of_list_to_set; apply Hl|left; by exists w|].
  right. exists l, f'. split_and!; [done| | |done].
  - unfold l, next_frames. rewrite length_fmap. apply length_seqZ.
  - unfold l, next_frames. apply NoDup_fmap_2; [|apply NoDup_seqZ]. intros x y. unfold PAGE_SIZE. lia.
Qed.
Next Obligation.
  intros f size paddr. unfold pool_contiguous. set (pages := DIV_UP size PAGE_SIZE). destruct (paddr =? 0).
  - destruct (hand_out_ok f pages (Frames PALLOC_CONTIGUOUS_ALLOC pages [fp_next f * PAGE_SIZE])) as [[w E]|(f' & E & Hf)]; [|left; by exists w|].
    + intros p [k [Hk%elem_of_seqZ Hp]]%elem_of_list_to_set%list_elem_of_omap. injection Hp as <-. exists (fp_next f + k). unfold PAGE_SIZE in *. cbn in Hk. lia.
    + right. by exists PALLOC_CONTIGUOUS_ALLOC, (fp_next f * PAGE_SIZE), f'.
  - right. exists PALLOC_CONTIGUOUS_MAP, paddr, f. split_and!; [done|done|]. unfold fresh_in, fr_owned. cbn. split_and!; [set_solver|set_solver|set_solver].
Qed.
Next Obligation. intros f fr. by eexists. Qed.
