(* ===== verification/PmanProps.v ===== *)
(** * PmanProps: what holds of every use of the paging manager

    A client session from an empty manager, writing to borrowed memory, the
    last unmapping, the search by address, and two things the code does that a
    client has to avoid.  The witnesses run on the instances of PmanInst. *)
From S2P Require Import Prelude Heap Bitmap Valloc PageTables PageTree PageMap PmanIface Pman PmanInv PmanOps PmanWrite PmanInst.

Section pman_props.
Context {V F T : Type} `{HV : VirtualRanges V} `{HF : FrameAllocator F} `{HT : PageMapper T}.
Abbreviation pman_state := (@pman V F T).
Abbreviation context_t := (@pman_context_t V).
Implicit Types (s : pman_state) (x : context_t).

(** ** Sessions *)

Inductive pman_op :=
  | PmNewContext (c : nat)
  | PmAddAlloc (c : nat) (prot vaddr sz : Z)
  | PmAddMap (c : nat) (prot vaddr paddr sz : Z)
  | PmAddBorrowed (c : nat) (prot : Z) (lender : nat) (vaddr : Z)
  | PmAddShared (c : nat) (prot : Z) (lender : nat) (vaddr : Z)
  | PmUnmap (m : nat)
  | PmPrepareWrite (m : nat).

(** The mapping an operation returns. *)
Definition run_op (o : pman_op) : M pman_state (option nat) :=
  match o with
  | PmNewContext c => do! pman_new_context c; ret None
  | PmAddAlloc c prot vaddr sz => let! m := pman_context_add_alloc c prot vaddr sz in ret (Some m)
  | PmAddMap c prot vaddr paddr sz => let! m := pman_context_add_map c prot vaddr paddr sz in ret (Some m)
  | PmAddBorrowed c prot l vaddr => let! m := pman_context_add_borrowed c prot l vaddr in ret (Some m)
  | PmAddShared c prot l vaddr => let! m := pman_context_add_shared c prot l vaddr in ret (Some m)
  | PmUnmap m => do! pman_context_unmap m; ret None
  | PmPrepareWrite m => let! r := pman_context_prepare_write m in ret (Some r.1)
  end.

(** What a client keeps to: it names live mappings and contexts, asks for free
    ranges, gives back only references it holds ([own]), and writes to
    borrowed ALLOC mappings of the kernel context. *)
Definition valid_op (s : pman_state) (own : nat -> nat) (o : pman_op) : Prop :=
  match o with
  | PmNewContext c => pm_contexts s !! c = None
  | PmAddAlloc c _ vaddr sz => 0 < sz <= 2 ^ 48 /\ exists x, pm_contexts s !! c = Some x /\ range_request x (vaddr =? 0) vaddr sz
  | PmAddMap c prot vaddr _ sz => 0 < sz <= 2 ^ 48 /\ exists x, pm_contexts s !! c = Some x /\
      range_request x ((vaddr =? 0) && negb (has_prot prot PMAN_PROT_VRESERVE)) vaddr sz
  | PmAddBorrowed c _ l vaddr | PmAddShared c _ l vaddr => exists x y, pm_contexts s !! c = Some x /\ pm_maps s !! l = Some y /\
      range_request x (vaddr =? 0) vaddr (m_size_pages y * PAGE_SIZE)
  | PmUnmap m => exists y, pm_maps s !! m = Some y /\ (is_Some (lender_of y) \/ own m <> 0%nat)
  | PmPrepareWrite m => exists y, pm_maps s !! m = Some y /\ forall r l, m_type y = PMAN_MAPPING_BORROWED r l ->
      m_vaddr y <> 0 /\ exists z k fr ms x0, pm_maps s !! r = Some z /\ m_type z = PMAN_MAPPING_ALLOC k fr ms /\ m_context z = 0%nat /\
        pm_contexts s !! 0%nat = Some x0
  end.
(** The references the client holds afterwards. *)
Definition owns (s : pman_state) (own : nat -> nat) (o : pman_op) (res : option nat) : nat -> nat :=
  match o, res with
  | PmAddAlloc _ _ _ _, Some m | PmAddMap _ _ _ _ _, Some m => own_set own m 1
  | PmUnmap m, _ =>
      match pm_maps s !! m with
      | Some y => match lender_of y with Some _ => own | None => own_set own m (pred (own m)) end
      | None => own
      end
  | _, _ => own
  end.

Inductive session : pman_state -> (nat -> nat) -> list pman_op -> pman_state -> (nat -> nat) -> Prop :=
  | session_nil s own : session s own [] s own
  | session_step s own o os res s1 s2 own2 : valid_op s own o -> run_op o s = Done (res, s1) ->
      session s1 (owns s own o res) os s2 own2 -> session s own (o :: os) s2 own2.

Lemma prepare_write_spec s own m y r z k fr ms mz x0 : pman_inv s own ∅ -> pm_maps s !! m = Some y -> m_type y = PMAN_MAPPING_BORROWED r ms ->
  pm_maps s !! r = Some z -> m_type z = PMAN_MAPPING_ALLOC k fr mz -> m_vaddr y <> 0 -> m_context z = 0%nat ->
  pm_contexts s !! 0%nat = Some x0 ->
  (exists w, pman_context_prepare_write m s = Stop w) \/
  exists u s', pman_context_prepare_write m s = Done ((u, true), s') /\ pman_inv s' own ∅ /\ writable_copy s s' m u y.
Proof.
  intros. destruct (decide (k = 1)) as [->|Hk]; [by eapply prepare_write_single|by eapply prepare_write_multi].
Qed.

(** The root of a mapping, and its references. *)
Lemma live_root s own m y : pman_inv s own ∅ -> pm_maps s !! m = Some y ->
  exists z fr k, pm_maps s !! root_of m y = Some z /\ frames_of z = Some fr /\ refs_of z = Some k /\ lender_of z = None.
Proof.
  intros Hinv Hm. destruct (pi_shows _ _ _ Hinv m y Hm (not_elem_of_empty _)) as (x & z & fr & _ & Hz & _ & Hf & _).
  destruct (proj2 (root_has_frames z)) as [k Hk]; [by eexists|]. exists z, fr, k. split_and!; [done|done|done|]. by apply root_no_lender; eexists.
Qed.

(** The operation ended in the state its specification names. *)
Local Ltac same_end E Hr := rewrite E in Hr; first [discriminate Hr | injection Hr; intros; subst; assumption].

Lemma run_op_inv s own o res s' : pman_inv s own ∅ -> valid_op s own o -> run_op o s = Done (res, s') -> pman_inv s' (owns s own o res) ∅.
Proof.
  intros Hinv Hv Hr. destruct o as [c|c prot va sz|c prot va pa sz|c prot l va|c prot l va|m|m]; cbn [run_op valid_op] in *.
  - apply bind_done_inv in Hr as (res1 & s1 & Hr & [= <- <-]). destruct (new_context_spec s own c Hinv Hv) as [[w E]|(s2 & E & Hi & _)]; same_end E Hr.
  - apply bind_done_inv in Hr as (res1 & s1 & Hr & [= <- <-]). destruct Hv as (Hsz & x & Hx & Hq).
    destruct (add_alloc_spec s own c x prot va sz Hinv Hx Hsz Hq) as [[w E]|(m & s2 & ? & ? & ? & E & Hi & _)]; same_end E Hr.
  - apply bind_done_inv in Hr as (res1 & s1 & Hr & [= <- <-]). destruct Hv as (Hsz & x & Hx & Hq).
    destruct (add_map_spec s own c x prot va pa sz Hinv Hx Hsz Hq) as [[w E]|(m & s2 & ? & ? & ? & E & Hi & _)]; same_end E Hr.
  - apply bind_done_inv in Hr as (res1 & s1 & Hr & [= <- <-]). destruct Hv as (x & y & Hx & Hy & Hq).
    destruct (live_root s own l y Hinv Hy) as (z & fr & k & Hz & Hf & _). rewrite add_borrowed_lent in Hr.
    destruct (add_lent_spec true s own c x prot l y z fr va Hinv Hx Hy Hz Hf Hq) as [[w E]|(m & s2 & ? & ? & ? & E & Hi & _)]; same_end E Hr.
  - apply bind_done_inv in Hr as (res1 & s1 & Hr & [= <- <-]). destruct Hv as (x & y & Hx & Hy & Hq).
    destruct (live_root s own l y Hinv Hy) as (z & fr & k & Hz & Hf & _). rewrite add_shared_lent in Hr.
    destruct (add_lent_spec false s own c x prot l y z fr va Hinv Hx Hy Hz Hf Hq) as [[w E]|(m & s2 & ? & ? & ? & E & Hi & _)]; same_end E Hr.
  - apply bind_done_inv in Hr as (res1 & s1 & Hr & [= <- <-]). destruct Hv as (y & Hy & Hown). cbn [owns]. rewrite Hy.
    destruct (live_root s own m y Hinv Hy) as (z & fr & k & Hz & Hf & Hk & Hl).
    destruct (lender_of y) as [r|] eqn:Hly.
    + unfold root_of in Hz. rewrite Hly in Hz. destruct (unmap_lent_done s own m y r z k Hinv Hy Hly Hz Hk) as (s2 & E & Hi & _). same_end E Hr.
    + unfold root_of in Hz. rewrite Hly in Hz. cbn in Hz. destruct Hown as [[? ?]|Hown]; [done|].
      destruct (unmap_root_done s own m z k Hinv Hz Hk Hown) as (s2 & E & Hi & _). same_end E Hr.
  - apply bind_done_inv in Hr as (res1 & s1 & Hr & [= <- <-]). destruct Hv as (y & Hy & Hq). cbn [owns].
    destruct (m_type y) as [| |r l| |] eqn:Hty.
    3:{ destruct (Hq r l eq_refl) as (Hnz & z & k & fr & ms & x0 & Hz & Htz & Hc & Hx0).
        destruct (prepare_write_spec s own m y r z k fr l ms x0 Hinv Hy Hty Hz Htz Hnz Hc Hx0) as [[w E]|(u & s2 & E & Hi & _)]; same_end E Hr. }
    all: unfold pman_context_prepare_write in Hr; rewrite (bind_done _ _ _ _ _ (get_mapping_done s m y Hy)), Hty in Hr; by injection Hr as _ <-.
Qed.

Lemma session_inv s own os s' own' : session s own os s' own' -> pman_inv s own ∅ -> pman_inv s' own' ∅.
Proof. induction 1 as [|s own o os res s1 s2 own2 Hv Hr _ IH]; intros Hinv; [done|]. apply IH. by eapply run_op_inv. Qed.

Definition pman_empty (t : T) (f : F) : pman_state := Pman ∅ ∅ t f ∅ 0.
Lemma empty_inv t f : pm_ok t -> pman_inv (pman_empty t f) (fun _ => 0%nat) ∅.
Proof. intros Hok. split; try done; intros; by rewrite lookup_empty in *. Qed.




(** ** Finding a mapping by address *)

Definition covers_addr (y : pman_mapping_t) (a : Z) : Prop := m_vaddr y <= a < m_vaddr y + m_size_pages y * PAGE_SIZE.

Lemma find_vaddr_spec s own l a : pman_inv s own ∅ -> (forall m, m ∈ l -> is_Some (pm_maps s !! m)) ->
  exists r, find_vaddr l a s = Done (r, s) /\
    match r with
    | Some m => exists y, m ∈ l /\ pm_maps s !! m = Some y /\ covers_addr y a
    | None => forall m y, m ∈ l -> pm_maps s !! m = Some y -> ~ covers_addr y a
    end.
Proof.
  intros Hinv. induction l as [|m l IH]; intros Hl; cbn [find_vaddr].
  { exists None. split; [done|]. intros m y Hm. by apply elem_of_nil in Hm. }
  destruct (Hl m) as [y Hy]; [set_solver|]. rewrite (bind_done _ _ _ _ _ (get_mapping_done s m y Hy)).
  pose proof (placed_range s own ∅ m y Hinv Hy) as (H0 & _ & H1 & H2).
  rewrite (u64_small (m_size_pages y * PAGE_SIZE)), u64_small by (unfold PAGE_SIZE in *; lia).
  destruct ((m_vaddr y <=? a) && (a <? m_vaddr y + m_size_pages y * PAGE_SIZE)) eqn:E.
  - exists (Some m). split; [done|]. exists y. split_and!; [set_solver|done|unfold covers_addr; lia].
  - destruct IH as (r & Er & Hr); [intros; apply Hl; set_solver|]. exists r. split; [done|]. destruct r as [m'|].
    + destruct Hr as (y' & ? & ?). exists y'. split; [set_solver|done].
    + intros m' y' [->|Hm']%elem_of_cons Hy'; [|by apply (Hr m' y')]. assert (y' = y) as -> by congruence. unfold covers_addr. lia.
Qed.

(** [pman_context_get_vaddr] finds the one mapping of the context that covers
    the address, and [NULL] exactly when there is none. *)
Theorem pman_context_get_vaddr_finds s own c x a (Hinv : pman_inv s own ∅) (Hc : pm_contexts s !! c = Some x) :
  exists r, pman_context_get_vaddr c a s = Done (r, s) /\
    match r with
    | Some m => exists y, pm_maps s !! m = Some y /\ m_context y = c /\ covers_addr y a /\
        forall m' y', pm_maps s !! m' = Some y' -> m_context y' = c -> covers_addr y' a -> m' = m
    | None => forall m y, pm_maps s !! m = Some y -> m_context y = c -> ~ covers_addr y a
    end.
Proof.
  assert (forall m, m ∈ c_list x <-> exists y, pm_maps s !! m = Some y /\ m_context y = c) as Hlist.
  { intros m. rewrite (pi_list _ _ _ Hinv c x m Hc). set_solver. }
  unfold pman_context_get_vaddr. rewrite (bind_done _ _ _ _ _ (get_context_done s c x Hc)).
  destruct (find_vaddr_spec s own (c_list x) a Hinv) as (r & E & Hr); [intros m (y & ? & _)%Hlist; by eexists|].
  exists r. split; [done|]. destruct r as [m|].
  - destruct Hr as (y & Hm & Hy & Ha). apply Hlist in Hm as (y' & Hy' & Hcy). assert (y' = y) as -> by congruence.
    exists y. split_and!; [done|done|done|]. intros m' y' Hm' Hcy' Ha'. destruct (decide (m' = m)) as [|Hne]; [done|]. exfalso.
    assert (forall k w, pm_maps s !! k = Some w -> covers_addr w a -> in_range (m_vaddr w) (m_size_pages w) a) as Hin.
    { intros k w Hk [Hw1 Hw2]. pose proof (placed_range s own ∅ k w Hinv Hk) as Hro.
      destruct (range_index_byte _ _ (a - m_vaddr w) Hro ltac:(lia)) as (_ & _ & Hi). by replace (m_vaddr w + (a - m_vaddr w)) with a in Hi by lia. }
    eapply (covers_apart s own ∅ m' m); [done|done|done|done|congruence|by eapply Hin|by eapply Hin].
  - intros m y Hm Hcy. apply (Hr m y); [|done]. apply Hlist. by exists y.
Qed.

(** ** Freeing a context that lends *)

Lemma drop_range_done s y x : pm_contexts s !! m_context y = Some x -> vr_ok (c_valloc x) ->
  vr_ranges (c_valloc x) !! m_vaddr y = Some (m_size_pages y) -> pm_ok (pm_tables s) -> pm_root (pm_tables s) (ta_vaddr (c_top x)) ->
  tiled (paging_of y) (m_vaddr y) (m_size_pages y) ->
  (forall a, in_range (m_vaddr y) (m_size_pages y) a -> walk s x a <> None) ->
  exists v t' f, drop_range y (paging_of y) s = Done (tt, with_tables_p t' (with_context (m_context y) (PmanContext (c_top x) v (c_list x)) s)) /\
    tables_to (pm_tables s) t' (ta_vaddr (c_top x)) f.
Proof.
  intros Hc Hv Hr Hok Hroot Ht Hw. pose proof (vr_range _ _ _ Hv Hr) as (_ & _ & _ & Hend).
  destruct (vr_release_ok _ _ _ Hv Hr) as (v & E & _). unfold drop_range.
  rewrite (bind_done _ _ _ _ _ (on_valloc_done _ _ s x _ v Hc E)).
  set (x1 := PmanContext (c_top x) v (c_list x)). set (s0 := with_context _ x1 s).
  assert (pm_contexts s0 !! m_context y = Some x1) as Hc1 by apply lookup_insert_eq.
  rewrite (bind_done _ _ _ _ _ (get_context_done s0 _ x1 Hc1)).
  destruct (vr_range _ _ _ Hv Hr) as (H0 & _).
  destruct (unmap_each_spec (paging_of y) (pm_tables s0) (ta_vaddr (c_top x1)) (m_vaddr y) (m_size_pages y) Hok Hroot Ht
    ltac:(unfold PAGE_SIZE in *; lia) Hw) as (t' & E' & Ht').
  exists v, t'. eexists. split; [by apply on_tables_done|exact Ht'].
Qed.

(** [unmap_all] on a context whose only mapping is the root [r] takes away
    reference after reference, those of the borrowers as well. *)
Lemma unmap_all_root s own c x r z fr : pman_inv s own ∅ -> pm_contexts s !! c = Some x -> c_list x = [r] ->
  pm_maps s !! r = Some z -> m_context z = c -> frames_of z = Some fr ->
  forall j z', same_but_refs z z' -> refs_of z' = Some (Z.of_nat (S j)) ->
  exists s', unmap_all (S (S j)) c (with_mapping r z' s) = Done (tt, s') /\ used s' = used s ∖ fr_owned fr /\
    pm_maps s' = delete r (pm_maps s) /\ forall d a, d <> c -> view s' d a = view s d a.
Proof.
  intros Hinv Hc Hl Hr Hcz Hf. induction j as [|j IH]; intros z' Hs Hk.
  all: cbn [unmap_all]; rewrite (bind_done _ _ _ _ _ (get_context_done (with_mapping r z' s) c x Hc)), Hl; unfold pman_context_unmap;
    rewrite bind_assoc, bind_get.
  all: destruct (set_refs_done (with_mapping r z' s) r z' _ (lookup_insert_eq _ _ _) Hk (size (pm_maps (with_mapping r z' s)))) as (w & Hw & Hkw & Ew).
  all: assert (with_mapping r w (with_mapping r z' s) = with_mapping r w s) as Eww by (unfold with_mapping; cbn; by rewrite insert_insert_eq).
  all: rewrite Eww in Ew; rewrite bind_assoc; unfold bind at 1; rewrite Ew; pose proof (same_but_refs_trans _ _ _ Hs Hw) as Hzw.
  2:{ rewrite (proj2 (Z.eqb_neq _ 0)) by lia. cbn [ret]. destruct (IH w Hzw) as (s' & E & H); [rewrite Hkw; f_equal; lia|]. exists s'. split; [|done].
      unfold ret, bind in E |- *. exact E. }
  change (Z.of_nat 1 - 1 =? 0) with true. cbv iota. pose proof Hs as (Sc & _ & Sv & Ss & Sf & Sg & _). rewrite Sc, Hcz.
  set (s0 := with_mapping r w s).
  rewrite (bind_done _ _ _ _ _ (unlist_done s0 c r x Hc)). set (s1 := unlisted c r x s0).
  set (x1 := PmanContext (c_top x) (c_valloc x) (remove_first (Nat.eqb r) (c_list x))).
  assert (pm_contexts s1 !! c = Some x1) as Hc1 by apply lookup_insert_eq.
  destruct (pi_placed _ _ _ Hinv r z Hr) as (x0 & Hx0 & Hrg & Ht & Hwk). rewrite Hcz in Hx0. assert (x0 = x) as -> by congruence.
  destruct (pi_context _ _ _ Hinv c x Hc) as (Hv & Hroot & _).
  edestruct (drop_range_done s1 z' x1) as (v & t' & g & E & Htt).
  1-7: rewrite ?Sc, ?Sv, ?Ss, ?Sg, ?Hcz; try done; apply (pi_tables _ _ _ Hinv).
  rewrite (bind_done _ _ _ _ _ E). rewrite Sc, Hcz, Sf, Hf. cbn [default].
  set (s2 := with_tables_p t' _). destruct (fa_free_ok (pm_frames s2) fr) as (f' & Ef & Hu).
  rewrite (bind_done _ _ _ _ _ (on_frames_done _ s2 _ _ Ef)). exists (without_mapping r (with_frames f' s2)).
  assert (forall s3 : pman_state, pm_contexts s3 !! c = Some (PmanContext (c_top x) v []) -> unmap_all 1 c s3 = Done (tt, s3)) as Hend.
  { intros s3 H3. cbn [unmap_all]. by rewrite (bind_done _ _ _ _ _ (get_context_done s3 c _ H3)). }
  split_and!.
  - change (unmap_all 1 c (without_mapping r (with_frames f' s2)) = Done (tt, without_mapping r (with_frames f' s2))). apply Hend.
    cbn. rewrite lookup_insert_eq. unfold x1. cbn. rewrite Hl. cbn. by rewrite Nat.eqb_refl.
  - exact Hu.
  - cbn. by rewrite delete_insert_eq.
  - intros d a Hd. unfold view. cbn. rewrite !lookup_insert_ne by done. destruct (pm_contexts s !! d) as [xd|] eqn:Hxd; [|done]. cbn. unfold walk. cbn.
    destruct (pi_context _ _ _ Hinv d xd Hxd) as (_ & Hrd & _). destruct Htt as [_ Htt]. destruct (Htt _ Hrd) as [_ ->].
    rewrite bool_decide_false; [done|]. intros Et. apply Hd. by eapply (pi_top _ _ _ Hinv).
Qed.

(** [pman_free_context] unmaps the first mapping of the context until none is left.
    An allocation that a mapping of another context borrows from loses the
    borrower's reference that way and is freed under it: the borrower's pages
    still show its frames, which are no longer in use. *)
Theorem pman_free_context_under_borrower s own c x r z k fr ms m y
  (Hinv : pman_inv s own ∅) (Hc : pm_contexts s !! c = Some x) (Hl : c_list x = [r]) (Hr : pm_maps s !! r = Some z)
  (Hz : m_type z = PMAN_MAPPING_ALLOC k fr ms) (Hm : pm_maps s !! m = Some y) (Hy : lender_of y = Some r) (Hd : m_context y <> c) :
  exists fuel s', unmap_all fuel c s = Done (tt, s') /\ used s' = used s ∖ fr_owned fr /\
    pm_maps s' !! r = None /\ pm_maps s' !! m = Some y /\
    forall a, in_range (m_vaddr y) (m_size_pages y) a -> exists p, p ∈ fr_owned fr /\ view s' (m_context y) a = Some (shown_entry y p).
Proof.
  assert (frames_of z = Some fr /\ refs_of z = Some k) as [Hf Hk] by (unfold frames_of, refs_of, references; by rewrite Hz).
  assert (m_context z = c) as Hcz.
  { destruct (proj1 (pi_list _ _ _ Hinv c x r Hc)) as (_ & z' & Hz' & <-); [rewrite Hl; set_solver|]. congruence. }
  destruct (pi_refs _ _ _ Hinv r z k Hr (not_elem_of_empty _) Hk) as [_ Hpos].
  destruct (unmap_all_root s own c x r z fr Hinv Hc Hl Hr Hcz Hf (Z.to_nat (k - 1)) z (same_but_refs_refl z)) as (s' & E & Hu & Hmaps & Hv);
    [rewrite Hk; f_equal; lia|].
  rewrite (with_mapping_id s r z Hr) in E. exists (S (S (Z.to_nat (k - 1)))), s'.
  assert (m <> r) as Hmr.
  { intros ->. assert (y = z) as -> by congruence. rewrite (root_no_lender z) in Hy by (by eexists). done. }
  split_and!; [done|done|rewrite Hmaps; apply lookup_delete_eq|by rewrite Hmaps, lookup_delete_ne|].
  intros a Ha. destruct (lent_view s own m y r z fr a Hinv Hm) as (p & Hp & Hvw); [by unfold root_of; rewrite Hy|done|done|done|].
  exists p. split; [|by rewrite Hv]. eapply alloc_frame_owned; [|exact Hp]. pose proof (pi_kind _ _ _ Hinv r z fr Hr Hf) as Hkd.
  unfold kind_ok in Hkd. rewrite Hz in Hkd. apply Hkd.
Qed.
End pman_props.

(** ** Concrete runs *)

Abbreviation demo_pman := (@pman (@valloc_t bump) frame_pool page_tables).
Definition demo_tables : page_tables := PageTablesOf demo_vm ∅.
Definition demo_pool : frame_pool := FramePool 256 ∅.

Definition demo_run (os : list pman_op) : outcome (unit * demo_pman) :=
  for_each os (fun o => do! run_op o; ret tt) (pman_empty demo_tables demo_pool).
Definition demo_state (os : list pman_op) : demo_pman :=
  match demo_run os with Done (_, s) => s | Stop _ => pman_empty demo_tables demo_pool end.

(** Two contexts; a page of the kernel, lent twice. *)
Definition demo_lend : list pman_op :=
  [PmNewContext 0; PmNewContext 1; PmAddAlloc 0 PMAN_PROT_WRITE 0 4096; PmAddBorrowed 1 PMAN_PROT_WRITE 0 0; PmAddBorrowed 1 PMAN_PROT_WRITE 0 0].
Definition demo_own : nat -> nat := own_set (fun _ => 0%nat) 0 1.

Lemma demo_tables_ok : pm_ok demo_tables.
Proof. exists PageMap.demo_own, ∅. split; [apply demo_vm_ok|]. intros r Hr. by apply not_elem_of_empty in Hr. Qed.

Lemma demo_session : session (pman_empty demo_tables demo_pool) (fun _ => 0%nat) demo_lend (demo_state demo_lend) demo_own.
Proof.
  eapply (session_step _ _ _ _ None (demo_state (take 1 demo_lend))); [done|vm_compute; reflexivity|cbn [owns]].
  eapply (session_step _ _ _ _ None (demo_state (take 2 demo_lend))); [vm_compute; reflexivity..|cbn [owns]].
  eapply (session_step _ _ _ _ (Some 0%nat) (demo_state (take 3 demo_lend))); [|vm_compute; reflexivity|cbn [owns]].
  { split; [lia|]. eexists. split; [vm_compute; reflexivity|by left]. }
  eapply (session_step _ _ _ _ (Some 1%nat) (demo_state (take 4 demo_lend))); [|vm_compute; reflexivity|cbn [owns]].
  { do 2 eexists. split; [vm_compute; reflexivity|]. split; [vm_compute; reflexivity|by left]. }
  eapply (session_step _ _ _ _ (Some 2%nat) (demo_state demo_lend)); [|vm_compute; reflexivity|cbn [owns]].
  { do 2 eexists. split; [vm_compute; reflexivity|]. split; [vm_compute; reflexivity|by left]. }
  apply session_nil.
Qed.
Lemma demo_inv : pman_inv (demo_state demo_lend) demo_own ∅.
Proof. eapply session_inv; [apply demo_session|]. apply empty_inv, demo_tables_ok. Qed.


(** One loan at 0x5000, of memory whose owner has given its reference back. *)
Definition demo_left : list pman_op :=
  [PmNewContext 0; PmNewContext 1; PmAddAlloc 0 PMAN_PROT_WRITE 0 4096; PmAddBorrowed 1 PMAN_PROT_WRITE 0 0x5000; PmUnmap 0].
Definition left_own : nat -> nat := own_set demo_own 0 0.

Lemma left_session : session (pman_empty demo_tables demo_pool) (fun _ => 0%nat) demo_left (demo_state demo_left) left_own.
Proof.
  eapply (session_step _ _ _ _ None (demo_state (take 1 demo_left))); [done|vm_compute; reflexivity|cbn [owns]].
  eapply (session_step _ _ _ _ None (demo_state (take 2 demo_left))); [vm_compute; reflexivity..|cbn [owns]].
  eapply (session_step _ _ _ _ (Some 0%nat) (demo_state (take 3 demo_left))); [|vm_compute; reflexivity|cbn [owns]].
  { split; [lia|]. eexists. split; [vm_compute; reflexivity|by left]. }
  eapply (session_step _ _ _ _ (Some 1%nat) (demo_state (take 4 demo_left))); [|vm_compute; reflexivity|cbn [owns]].
  { do 2 eexists. split; [vm_compute; reflexivity|]. split; [vm_compute; reflexivity|]. right.
    split; [unfold range_ok; split_and!; vm_compute; reflexivity || congruence|]. intros b m Hb. vm_compute in Hb. discriminate Hb. }
  eapply (session_step _ _ _ _ None (demo_state demo_left)); [|vm_compute; reflexivity|].
  { eexists. split; [vm_compute; reflexivity|]. right. done. }
  assert (owns (demo_state (take 4 demo_left)) (own_set (fun _ => 0%nat) 0 1) (PmUnmap 0) None = left_own) as ->; [|apply session_nil].
  cbn [owns]. assert (exists y, pm_maps (demo_state (take 4 demo_left)) !! 0%nat = Some y /\ lender_of y = None) as (y & -> & ->)
    by (eexists; split; vm_compute; reflexivity). done.
Qed.
Lemma left_inv : pman_inv (demo_state demo_left) left_own ∅.
Proof. eapply session_inv; [apply left_session|]. apply empty_inv, demo_tables_ok. Qed.

Definition demo_written : demo_pman :=
  match pman_context_prepare_write 1 (demo_state demo_left) with Done (_, s) => s | Stop _ => pman_empty demo_tables demo_pool end.
Lemma demo_write : pman_context_prepare_write 1 (demo_state demo_left) = Done ((2%nat, true), demo_written).
Proof. vm_compute. reflexivity. Qed.
Lemma demo_loan : exists y ms z k fr mz x0, pm_maps (demo_state demo_left) !! 1%nat = Some y /\ m_type y = PMAN_MAPPING_BORROWED 0 ms /\
    pm_maps (demo_state demo_left) !! 0%nat = Some z /\ m_type z = PMAN_MAPPING_ALLOC k fr mz /\ m_vaddr y <> 0 /\ m_context z = 0%nat /\
    pm_contexts (demo_state demo_left) !! 0%nat = Some x0.
Proof.
  do 7 eexists. split; [vm_compute; reflexivity|]. split; [reflexivity|]. split; [vm_compute; reflexivity|]. split; [reflexivity|].
  split; [done|]. split; [done|]. vm_compute; reflexivity.
Qed.


Lemma pman_context_get_vaddr_finds_witness : exists x, pm_contexts (demo_state demo_lend) !! 1%nat = Some x /\
  pman_context_get_vaddr 1 0x1abc (demo_state demo_lend) = Done (Some 2%nat, demo_state demo_lend).
Proof.
  assert (exists x, pm_contexts (demo_state demo_lend) !! 1%nat = Some x) as [x Hx] by (eexists; vm_compute; reflexivity).
  exists x. split; [exact Hx|].
  destruct (pman_context_get_vaddr_finds _ _ 1 x 0x1abc demo_inv Hx) as (r & E & Hr).
  assert (exists y, pm_maps (demo_state demo_lend) !! 2%nat = Some y /\ m_context y = 1%nat /\ m_vaddr y = 0x1000 /\ m_size_pages y = 1)
    as (y & Hy & Hc & Hv & Hs) by (eexists; split; [vm_compute; reflexivity|split_and!; reflexivity]).
  assert (covers_addr y 0x1abc) as Ha by (unfold covers_addr; rewrite Hv, Hs; unfold PAGE_SIZE; lia).
  destruct r as [m|]; [|by destruct (Hr 2%nat y Hy Hc)]. destruct Hr as (_ & _ & _ & _ & Hone).
  rewrite <- (Hone 2%nat y Hy Hc Ha) in E. exact E.
Defined.

(** The kernel's context goes while context 1 borrows from it. *)
Lemma pman_free_context_under_borrower_witness : exists fuel s' y, unmap_all fuel 0 (demo_state demo_lend) = Done (tt, s') /\
  pm_maps s' !! 0%nat = None /\ pm_maps s' !! 2%nat = Some y.
Proof.
  assert (exists x r z k fr ms y, r = 0%nat /\ pm_contexts (demo_state demo_lend) !! 0%nat = Some x /\ c_list x = [r] /\ pm_maps (demo_state demo_lend) !! r = Some z /\
    m_type z = PMAN_MAPPING_ALLOC k fr ms /\ pm_maps (demo_state demo_lend) !! 2%nat = Some y /\ lender_of y = Some r /\ m_context y <> 0%nat)
    as (x & r & z & k & fr & ms & y & -> & H1 & H2 & H3 & H4 & H5 & H6 & H7).
  { do 7 eexists. split; [reflexivity|]. split; [vm_compute; reflexivity|]. split; [reflexivity|]. split; [vm_compute; reflexivity|]. split; [reflexivity|].
    split; [vm_compute; reflexivity|]. done. }
  destruct (pman_free_context_under_borrower _ _ 0 x 0 z k fr ms 2 y demo_inv H1 H2 H3 H4 H5 H6 H7) as (fuel & s' & E & _ & Hr & Hm & _).
  exists fuel, s', y. split; [exact E|]. split; [exact Hr|exact Hm].
Defined.
