(* ===== verification/ProcMem.v ===== *)
(** * ProcMem: the memory of a process

    src/process/process.c, src/process/thread.c, src/prog_loader/prog_loader.c
    and src/syscall/handlers/map.c, as far as they work on address spaces: the
    segments and stacks of a process, the kernel's view of a user address, and
    what a fork does with the mappings of the parent.  A process is here its
    paging context and the list of its threads; [stack_mapping] says which
    mapping a thread has its stack in.  Process.v has the rest of a process. *)
From S2P Require Import Prelude Heap Bitmap Valloc PageTables PageMap PmanIface Pman PmanInv PmanOps PmanWrite PmanInst PmanProps.

Definition DEFAULT_THREAD_STACK_SIZE : Z := 0x2000.

(** A loadable segment of an ELF file; the file format is read by a library. *)
Record elf_pheader_t := ElfPheader { ph_vaddr : Z; ph_memsz : Z; ph_W : bool; ph_X : bool }.

Section memory.
Context {V F T : Type} `{HV : VirtualRanges V} `{HF : FrameAllocator F} `{HT : PageMapper T}.
Abbreviation pman_state := (@pman V F T).

(** ** Segments and stacks *)

(** Memory of the kernel that is shared with a user context and then belongs to
    the user's mapping alone; the kernel's and the user's mapping. *)
Definition shared_alloc (c : nat) (prot vaddr size : Z) : M pman_state (nat * nat) :=
  let! kernel_mapping := pman_context_add_alloc pman_kernel_context PMAN_PROT_WRITE 0 size in
  let! user_mapping := pman_context_add_shared c prot kernel_mapping vaddr in
  do! pman_context_unmap kernel_mapping;
  ret (kernel_mapping, user_mapping).

Definition process_create_segment (c : nat) (vaddr size prot : Z) : M pman_state Z :=
  let! (k, _) := shared_alloc c prot vaddr size in
  let! y := get_mapping k in ret (m_vaddr y).

(** The stack of a user thread, of a kernel thread, and of the thread a fork
    makes: the mapping at the address of the original's stack. *)
Definition user_stack (c : nat) : M pman_state nat :=
  let! (_, u) := shared_alloc c PMAN_PROT_WRITE 0 DEFAULT_THREAD_STACK_SIZE in ret u.
Definition kernel_stack : M pman_state nat :=
  pman_context_add_alloc pman_kernel_context PMAN_PROT_WRITE 0 DEFAULT_THREAD_STACK_SIZE.
Definition fork_stack (c target_stack : nat) : M pman_state (option nat) :=
  let! y := get_mapping target_stack in pman_context_get_vaddr c (m_vaddr y).

(** [mmap] of anonymous memory; [MAP_WRITE] and [MAP_EXECUTE] are options. *)
Definition syscall_map_anon (c : nat) (map_address size : Z) (write execute : bool) : M pman_state Z :=
  if size =? 0 then ret 0
  else
    let prot := Z.lor (if write then PMAN_PROT_WRITE else 0) (if execute then PMAN_PROT_EXECUTE else 0) in
    let! (_, u) := shared_alloc c prot map_address size in
    let! y := get_mapping u in ret (m_vaddr y).

(** Where the kernel can write the segment, if it has any bytes.
    [(intptr_t) vaddr / PAGE_SIZE] rounds an address of the lower half down. *)
Definition load_segment (c : nat) (h : elf_pheader_t) : M pman_state (option Z) :=
  let aligned_vaddr := u64 (Z.quot (s64 (ph_vaddr h)) PAGE_SIZE * PAGE_SIZE) in
  let extra_size := u64 (ph_vaddr h - aligned_vaddr) in
  let! mapping := pman_context_get_vaddr c (ph_vaddr h) in
  match mapping with
  | None =>
      if ph_memsz h =? 0 then ret None
      else
        let prot := Z.lor (if ph_W h then PMAN_PROT_WRITE else 0) (if ph_X h then PMAN_PROT_EXECUTE else 0) in
        let! k := pman_context_add_alloc pman_kernel_context PMAN_PROT_WRITE 0 (u64 (ph_memsz h + extra_size)) in
        let! _ := pman_context_add_shared c prot k aligned_vaddr in
        let! y := get_mapping k in
        do! pman_context_unmap k;
        ret (Some (u64 (m_vaddr y + extra_size)))
  | Some m =>
      if ph_memsz h =? 0 then do! pman_context_unmap m; ret None
      else
        let! n := pman_context_resize m aligned_vaddr (u64 (ph_memsz h + extra_size)) in
        let! root := get_root_mapping n in
        let! r := get_mapping root in
        ret (Some (u64 (m_vaddr r + extra_size)))
  end.

(** ** The kernel's address of a user byte *)

Fixpoint user_to_kernel_from (l : list nat) (user_vaddr : Z) : M pman_state (option Z) :=
  match l with
  | [] => ret None
  | m :: l' =>
      let! y := get_mapping m in
      if (m_vaddr y <=? user_vaddr) && (user_vaddr <? u64 (m_vaddr y + u64 (m_size_pages y * PAGE_SIZE))) then
        let! root_mapping := get_root_mapping m in
        let! r := get_mapping root_mapping in
        ret (Some (u64 (user_vaddr - m_vaddr y + m_vaddr r)))
      else user_to_kernel_from l' user_vaddr
  end.
Definition process_user_to_kernel (c : nat) (user_vaddr : Z) : M pman_state (option Z) :=
  let! x := get_context c in user_to_kernel_from (c_list x) user_vaddr.

(** ** Fork *)

(** One mapping of the parent; the mapping that replaces it, if one does. *)
Definition fork_mapping (parent child m : nat) : M pman_state (option (nat * nat)) :=
  let! y := get_mapping m in
  if has_prot (m_protection y) PMAN_PROT_SHARED then
    match m_type y with
    | PMAN_MAPPING_SHARED _ _ =>
        let! root_mapping := get_root_mapping m in
        let! _ := pman_context_add_shared child (m_protection y) root_mapping (m_vaddr y) in
        ret None
    | _ => ret None
    end
  else
    let! root_mapping := get_root_mapping m in
    let! _ := pman_context_add_borrowed child (m_protection y) root_mapping (m_vaddr y) in
    do! pman_context_unmap m;
    let! n := pman_context_add_borrowed parent (m_protection y) root_mapping (m_vaddr y) in
    ret (Some (m, n)).

(** ** Threads follow their stacks *)

Record pmem := Pmem { mem_pman : pman_state; stack_mapping : gmap Z nat }.
Definition on_pman {A} (m : M pman_state A) : M pmem A := zoom mem_pman (fun s p => Pmem s (stack_mapping p)) m.

Definition process_remap (threads : list Z) (old_mapping new_mapping : nat) : M pmem unit :=
  for_each threads (fun t =>
    let! p := get in
    let! k := of_option Undefined (stack_mapping p !! t) in
    if Nat.eqb k old_mapping then modify (fun p => Pmem (mem_pman p) (<[t := new_mapping]> (stack_mapping p)))
    else ret tt).

(** [pman_context_prepare_write] with the threads of the process. *)
Definition prepare_write_remap (threads : list Z) (m : nat) : M pmem nat :=
  let! r := on_pman (pman_context_prepare_write m) in
  do! (if r.2 : bool then process_remap threads m r.1 else ret tt);
  ret r.1.

(** The mappings of the parent are collected before any is touched. *)
Definition fork_mappings (threads : list Z) (parent child : nat) (ms : list nat) : M pmem unit :=
  for_each ms (fun m =>
    let! r := on_pman (fork_mapping parent child m) in
    match r with Some (old_mapping, new_mapping) => process_remap threads old_mapping new_mapping | None => ret tt end).
Definition fork_memory (threads : list Z) (parent child : nat) : M pmem unit :=
  let! x := on_pman (get_context parent) in fork_mappings threads parent child (c_list x).
End memory.

(** ** A mapping that is lent twice in place of the original *)

Section fork.
Context {V F T : Type} `{HV : VirtualRanges V} `{HF : FrameAllocator F} `{HT : PageMapper T}.
Abbreviation pman_state := (@pman V F T).
Abbreviation context_t := (@pman_context_t V).
Implicit Types (s : pman_state) (x : context_t).

(** An entry as it is after the fork: the same frame, not writable. *)
Definition cow_entry (d : nat) (e : pt_entry) : pt_entry := PtEntry (present e) (address e) false (execute_disable e) (is_user d).

Record forked (s s' : pman_state) (parent child m n : nat) (y : pman_mapping_t) : Prop := Forked {
  fk_new m' y' : pm_maps s !! m' = Some y' -> m' <> m -> refs_of y' = None -> m' <> n;
  fk_mapping : exists r ms, pm_maps s' !! n = Some (PmanMapping parent (PMAN_MAPPING_BORROWED r ms) (m_protection y) (m_vaddr y) (m_size_pages y));
  fk_maps m' y' : pm_maps s !! m' = Some y' -> m' <> m -> refs_of y' = None -> pm_maps s' !! m' = Some y';
  fk_view d a : view s' d a = if (bool_decide (d = parent) || bool_decide (d = child)) && (range_index (m_vaddr y) a <? m_size_pages y)
    then cow_entry d <$> view s parent a else view s d a;
  fk_ranges d : ranges s' d = if bool_decide (d = child) then <[m_vaddr y := m_size_pages y]> (ranges s d) else ranges s d;
  fk_contexts : same_contexts s s';
  fk_memory : pm_memory s' = pm_memory s
}.

Lemma frame_cow s own m y r z fr d ms ms' a : pman_inv s own ∅ -> pm_maps s !! m = Some y -> lender_of y = Some r -> pm_maps s !! r = Some z ->
  frames_of z = Some fr -> in_range (m_vaddr y) (m_size_pages y) a ->
  frame_entry (PmanMapping d (PMAN_MAPPING_BORROWED ms ms') (m_protection y) (m_vaddr y) (m_size_pages y)) fr (range_index (m_vaddr y) a) =
    cow_entry d <$> view s (m_context y) a.
Proof.
  intros Hinv Hm Hl Hr Hf Ha. destruct (lent_view s own m y r z fr a Hinv Hm) as (p & Hp & ->); [by unfold root_of; rewrite Hl|done..|].
  unfold frame_entry. by rewrite Hp.
Qed.

Lemma same_kept s s1 m y : pm_maps s1 !! m = pm_maps s !! m -> pm_maps s !! m = Some y -> pm_maps s1 !! m = Some y.
Proof. congruence. Qed.

Lemma fork_mapping_spec s own m y r z parent child xc : pman_inv s own ∅ -> pm_maps s !! m = Some y -> m_context y = parent -> child <> parent ->
  lender_of y = Some r -> pm_maps s !! r = Some z -> m_vaddr y <> 0 -> has_prot (m_protection y) PMAN_PROT_SHARED = false ->
  pm_contexts s !! child = Some xc -> range_request xc false (m_vaddr y) (m_size_pages y * PAGE_SIZE) ->
  (exists w, fork_mapping parent child m s = Stop w) \/
  exists n s', fork_mapping parent child m s = Done (Some (m, n), s') /\ pman_inv s' own ∅ /\ forked s s' parent child m n y.
Proof.
  intros Hinv Hm Hp Hcp Hl Hr Hnz Hprot Hc Hreq. unfold fork_mapping. rewrite (bind_done _ _ _ _ _ (get_mapping_done s m y Hm)), Hprot.
  assert (root_of m y = r) as Hroot by (unfold root_of; by rewrite Hl).
  destruct (get_root_done s own ∅ m y Hinv Hm (not_elem_of_empty _)) as [E (z0 & fr & Hz0 & _ & Hf & Hlz & Hsz)]. rewrite Hroot in E, Hz0.
  assert (z0 = z) as -> by congruence. rewrite (bind_done _ _ _ _ _ E). clear E.
  assert (root_of r z = r) as Hrr by (unfold root_of; by rewrite Hlz).
  assert (refs_of y = None) as Hry by (unfold lender_of, refs_of, references in *; by destruct (m_type y)).
  destruct (proj2 (root_has_frames z)) as [k Hk]; [by eexists|].
  assert (r <> m) as Hrm by (intros ->; congruence).
  (* the child's mapping *)
  destruct (add_lent_spec true s own child xc (m_protection y) r z z fr (m_vaddr y) Hinv Hc Hr) as [[w E]|H1].
  { by rewrite Hrr. } { done. } { rewrite (proj2 (Z.eqb_neq (m_vaddr y) 0) Hnz), Hsz. done. }
  { left. exists w. apply bind_stop. by rewrite add_borrowed_lent. }
  destruct H1 as (c & s1 & va & ms & z1 & H1). cbv zeta in H1. rewrite Hrr, Hsz in H1. destruct H1 as (E & Hinv1 & Hadd & _ & Hz1 & Hs1 & Hk1 & Hva).
  specialize (Hva ltac:(by apply Z.eqb_neq)). subst va. specialize (Hk1 k Hk). rewrite <- add_borrowed_lent in E.
  rewrite (bind_done _ _ _ _ _ E). clear E. set (yc := PmanMapping child _ _ _ _) in Hadd.
  pose proof (ad_fresh _ _ _ _ _ _ Hadd) as Hcn.
  assert (forall m' y', pm_maps s !! m' = Some y' -> m' <> r -> pm_maps s1 !! m' = Some y') as Hold1.
  { intros m' y' Hm' Hne. eapply same_kept; [|exact Hm']. apply (ad_maps _ _ _ _ _ _ Hadd); [intros ->; congruence|cbn; congruence]. }
  pose proof (Hold1 m y Hm ltac:(done)) as Hm1.
  (* the parent's goes *)
  destruct (pi_refs _ _ _ Hinv r z k Hr (not_elem_of_empty _) Hk) as [_ Hkp].
  destruct (unmap_lent_done s1 own m y r z1 (k + 1) Hinv1 Hm1 Hl Hz1 Hk1) as (s2 & E & Hinv2 & Hrem & [Hkeep _]).
  rewrite (bind_done _ _ _ _ _ E). clear E. rewrite (proj2 (Z.eqb_neq (k + 1) 1)) in Hrem by lia.
  destruct (Hkeep ltac:(lia)) as (z2 & Hz2 & Hs2 & _).
  assert (frames_of z2 = Some fr /\ m_size_pages z2 = m_size_pages y) as [Hf2 Hsz2].
  { destruct Hs1 as (_ & _ & _ & A1 & B1 & _). destruct Hs2 as (_ & _ & _ & A2 & B2 & _). split; congruence. }
  (* and comes back borrowed *)
  destruct (lend_again true (m_protection y) s1 own m y s2 own [m] r z2 fr Hinv1 Hm1 Hrem ltac:(set_solver) Hnz Hinv2 Hz2 Hf2 Hsz2)
    as [[w E]|(n & s3 & ms' & z3 & E & Hinv3 & Hadd3 & _)].
  { left. exists w. apply bind_stop. rewrite add_borrowed_lent, <- Hp. exact E. }
  rewrite Hp, <- add_borrowed_lent in E. rewrite (bind_done _ _ _ _ _ E). clear E. right. exists n, s3. split; [done|]. split; [done|].
  rewrite Hp in Hadd3. cbn [lender_type] in Hadd3. set (yn := PmanMapping parent _ _ _ _) in Hadd3.
  pose proof (rm_kept _ _ _ Hrem) as Hkept.
  assert (forall m' y', pm_maps s !! m' = Some y' -> m' <> m -> refs_of y' = None -> pm_maps s2 !! m' = Some y') as Hold2.
  { intros m' y' Hm' Hne Hr'. assert (m' <> r) by (intros ->; congruence).
    destruct (Hkept m' y' (Hold1 m' y' Hm' ltac:(done)) ltac:(set_solver)) as (w & Hw & (_&_&_&_&_&_&_&_&_&Hn)). rewrite Hw. f_equal. by apply Hn. }
  assert (forall d a, ~ (d = parent /\ in_range (m_vaddr y) (m_size_pages y) a) -> view s2 d a = view s1 d a) as Hv2.
  { intros d a Hn. apply (rm_view _ _ _ Hrem). intros (m' & y' & ->%list_elem_of_singleton & Hy' & Hd & Ha).
    assert (y' = y) as -> by congruence. apply Hn. split; [congruence|done]. }
  split.
  - intros m' y' Hm' Hne Hr' ->. specialize (Hold2 n y' Hm' Hne Hr'). pose proof (ad_fresh _ _ _ _ _ _ Hadd3). congruence.
  - exists r, ms'. apply (ad_mapping _ _ _ _ _ _ Hadd3).
  - intros m' y' Hm' Hne Hr'. eapply same_kept; [|by apply (Hold2 m' y')].
    apply (ad_maps _ _ _ _ _ _ Hadd3); [|cbn; intros [= ->]; congruence]. intros ->. specialize (Hold2 n y' Hm' Hne Hr').
    pose proof (ad_fresh _ _ _ _ _ _ Hadd3). congruence.
  - intros d a. rewrite (ad_view _ _ _ _ _ _ Hadd3). unfold view_with. cbn [m_vaddr m_size_pages yn].
    destruct (Z.ltb_spec (range_index (m_vaddr y) a) (m_size_pages y)) as [Ha|Ha]; rewrite ?andb_true_r, ?andb_false_r.
    + destruct (decide (d = parent)) as [->|Hd].
      * rewrite bool_decide_true by done. cbn [orb]. unfold yn. by rewrite (frame_cow s own m y r z fr parent r ms' a Hinv Hm Hl Hr Hf Ha), Hp.
      * rewrite bool_decide_false by done. cbn [orb]. rewrite Hv2 by tauto. rewrite (ad_view _ _ _ _ _ _ Hadd). unfold view_with.
        cbn [m_vaddr m_size_pages yc]. rewrite (proj2 (Z.ltb_lt _ _)) by done. rewrite andb_true_r. case_bool_decide as Hdc; [|done]. subst d.
        unfold yc. by rewrite (frame_cow s own m y r z fr child r ms a Hinv Hm Hl Hr Hf Ha), Hp.
    + rewrite Hv2 by (intros [_ H]; unfold in_range in H; lia). rewrite (ad_view _ _ _ _ _ _ Hadd). unfold view_with.
      cbn [m_vaddr m_size_pages yc]. rewrite (proj2 (Z.ltb_ge _ _)) by lia. by rewrite andb_false_r.
  - intros d. rewrite (ad_ranges _ _ _ _ _ _ Hadd3). cbn [m_vaddr m_size_pages yn].
    assert (forall v, (d = parent -> v <> m_vaddr y) -> ranges s2 d !! v = ranges s1 d !! v) as Hr2.
    { intros v Hv. apply (rm_ranges _ _ _ Hrem). intros m' y' ->%list_elem_of_singleton Hy' Hd. assert (y' = y) as -> by congruence.
      intros <-. apply Hv; [congruence|done]. }
    pose proof (ad_ranges _ _ _ _ _ _ Hadd d) as Hr1. cbn [m_vaddr m_size_pages yc] in Hr1.
    destruct (decide (d = parent)) as [->|Hd].
    + rewrite (bool_decide_true (parent = parent)) by done. rewrite (bool_decide_false (parent = child)) in * by congruence.
      apply map_eq. intros v. destruct (decide (m_vaddr y = v)) as [<-|Hv].
      * rewrite lookup_insert_eq. destruct (pi_placed _ _ _ Hinv m y Hm) as (x & Hx & Hrg & _). unfold ranges. rewrite <- Hp, Hx. symmetry. exact Hrg.
      * rewrite lookup_insert_ne by done. rewrite Hr2 by congruence. by rewrite Hr1.
    + rewrite (bool_decide_false (d = parent)) by done. rewrite <- Hr1. apply map_eq. intros v. by apply Hr2.
  - intros d. rewrite (ad_contexts _ _ _ _ _ _ Hadd3 d), (rm_contexts _ _ _ Hrem d). apply (ad_contexts _ _ _ _ _ _ Hadd).
  - rewrite (ad_memory _ _ _ _ _ _ Hadd3), (rm_memory _ _ _ Hrem). apply (ad_memory _ _ _ _ _ _ Hadd).
Qed.

(** ** All mappings of the parent *)

Lemma process_remap_spec (threads : list Z) (o n : nat) : forall p : @pmem V F T, (forall t, t ∈ threads -> is_Some (stack_mapping p !! t)) ->
  exists st, process_remap threads o n p = Done (tt, Pmem (mem_pman p) st) /\
    forall t k, stack_mapping p !! t = Some k -> st !! t = Some (if decide (t ∈ threads /\ k = o) then n else k).
Proof.
  unfold process_remap. induction threads as [|t0 threads IH]; intros p Hall; cbn [for_each].
  { exists (stack_mapping p). split; [by destruct p|]. intros t k Hk. rewrite decide_False; [done|]. intros [Ht _]. by apply elem_of_nil in Ht. }
  destruct (Hall t0) as [k0 Hk0]; [set_solver|]. rewrite bind_assoc, bind_get, bind_assoc.
  assert (of_option (S := @pmem V F T) Undefined (stack_mapping p !! t0) p = Done (k0, p)) as E by (by rewrite Hk0).
  rewrite (bind_done _ _ _ _ _ E). clear E. destruct (Nat.eqb_spec k0 o) as [->|Hne].
  - rewrite bind_modify. set (p1 := Pmem _ _). destruct (IH p1) as (st & E & Hst).
    { intros t Ht. cbn. apply lookup_insert_is_Some'. right. apply Hall. set_solver. }
    exists st. split; [exact E|]. intros t k Hk. destruct (decide (t = t0)) as [->|Htt].
    + assert (k = o) as -> by congruence. rewrite decide_True by set_solver. rewrite (Hst t0 n) by apply lookup_insert_eq.
      destruct (decide _) as [[_ ?]|]; done.
    + rewrite (Hst t k) by (cbn; by rewrite lookup_insert_ne). by rewrite (decide_ext _ (t ∈ t0 :: threads /\ k = o)) by set_solver.
  - rewrite bind_ret_l. destruct (IH p) as (st & E & Hst); [intros; apply Hall; set_solver|]. exists st. split; [exact E|].
    intros t k Hk. rewrite (Hst t k Hk). destruct (decide (t = t0)) as [->|Htt].
    + assert (k = k0) as -> by congruence. rewrite !decide_False by tauto. done.
    + by rewrite (decide_ext _ (t ∈ t0 :: threads /\ k = o)) by set_solver.
Qed.

(** What a fork needs of the parent's mappings: all are lent (the user's memory
    belongs to mappings of the kernel), above address 0, and not to be shared. *)
Definition forkable (s : pman_state) (parent : nat) : Prop := forall m y, pm_maps s !! m = Some y -> m_context y = parent ->
  is_Some (lender_of y) /\ m_vaddr y <> 0 /\ has_prot (m_protection y) PMAN_PROT_SHARED = false.

Section loop.
Variables (p0 : @pmem V F T) (own : nat -> nat) (threads : list Z) (parent child : nat).
Let s0 := mem_pman p0.
Hypothesis Hinv0 : pman_inv s0 own ∅.
Hypothesis Hpc : child <> parent.
Hypothesis Hfork : forkable s0 parent.
Hypothesis Hchild : ranges s0 child = ∅.

(** The state once the mappings [done] have been treated and [todo] are left. *)
Record fork_inv (done todo : list nat) (p : @pmem V F T) : Prop := ForkInv {
  fi_inv : pman_inv (mem_pman p) own ∅;
  fi_todo m : m ∈ todo -> pm_maps (mem_pman p) !! m = pm_maps s0 !! m;
  fi_parent : ranges (mem_pman p) parent = ranges s0 parent;
  fi_child v n : ranges (mem_pman p) child !! v = Some n ->
    exists m y, m ∈ done /\ pm_maps s0 !! m = Some y /\ m_vaddr y = v /\ m_size_pages y = n;
  fi_done d a : d = parent \/ d = child -> covers s0 done parent a -> view (mem_pman p) d a = cow_entry d <$> view s0 parent a;
  fi_rest d a : ~ covers s0 done parent a -> view (mem_pman p) d a = view s0 d a;
  fi_other d a : d <> parent -> d <> child -> view (mem_pman p) d a = view s0 d a;
  fi_memory : pm_memory (mem_pman p) = pm_memory s0;
  fi_contexts : same_contexts s0 (mem_pman p);
  fi_stack t k y : t ∈ threads -> stack_mapping p0 !! t = Some k -> pm_maps s0 !! k = Some y -> exists k', stack_mapping p !! t = Some k' /\
    (k ∉ done -> k' = k) /\ (k ∈ done -> (k' ∉ todo) /\ exists r ms,
      pm_maps (mem_pman p) !! k' = Some (PmanMapping parent (PMAN_MAPPING_BORROWED r ms) (m_protection y) (m_vaddr y) (m_size_pages y)))
}.

Lemma fork_start todo : fork_inv [] todo p0.
Proof.
  split; try done.
  - intros v n Hv. exfalso. change (ranges s0 child !! v = Some n) in Hv. by rewrite Hchild, lookup_empty in Hv.
  - intros d a _ (m & y & Hm & _). by apply elem_of_nil in Hm.
  - intros t k y _ Hk _. exists k. split_and!; [done|done|]. intros H. by apply elem_of_nil in H.
Qed.

Lemma covers_snoc l m y a : pm_maps s0 !! m = Some y -> m_context y = parent ->
  (covers s0 (l ++ [m]) parent a <-> covers s0 l parent a \/ in_range (m_vaddr y) (m_size_pages y) a).
Proof.
  intros Hm Hc. split.
  - intros (k & w & [Hk| ->%list_elem_of_singleton]%elem_of_app & Hw & Hcw & Ha); [left; by exists k, w|].
    right. by assert (w = y) as -> by congruence.
  - intros [(k & w & Hk & Hw)|Ha]; [exists k, w; set_solver|]. exists m, y. set_solver.
Qed.

Lemma fork_request l todo p m y xc : fork_inv l todo p -> pm_maps s0 !! m = Some y -> m_context y = parent -> m ∉ l ->
  (forall k, k ∈ l -> exists w, pm_maps s0 !! k = Some w /\ m_context w = parent) ->
  pm_contexts (mem_pman p) !! child = Some xc -> range_request xc false (m_vaddr y) (m_size_pages y * PAGE_SIZE).
Proof.
  intros Hfi Hm Hc Hml Hl Hxc. pose proof (placed_range s0 own ∅ m y Hinv0 Hm) as Hro. pose proof Hro as (Hp0 & _ & Hp1 & Hp2).
  right. rewrite DIV_UP_pages by (unfold PAGE_SIZE in *; lia). split; [done|]. intros b n Hb.
  destruct (fi_child _ _ _ Hfi b n) as (k & w & Hk & Hw & <- & <-); [unfold ranges; by rewrite Hxc|].
  destruct (Hl k Hk) as (w' & Hw' & Hcw). assert (w' = w) as -> by congruence.
  destruct (pi_placed _ _ _ Hinv0 m y Hm) as (x & Hx & Hr & _). destruct (pi_placed _ _ _ Hinv0 k w Hw) as (x' & Hx' & Hr' & _).
  assert (x' = x) as -> by congruence. destruct (pi_context _ _ _ Hinv0 _ x Hx) as (Hv & _).
  apply (vr_apart (c_valloc x)); [done|done|done|]. intros Ev. apply Hml. by rewrite (pi_distinct _ _ _ Hinv0 m k y w Hm Hw ltac:(congruence) Ev).
Qed.

Lemma fork_step l m todo p p' : fork_inv l (m :: todo) p -> NoDup (l ++ m :: todo) ->
  (forall k, k ∈ l ++ m :: todo -> exists w, pm_maps s0 !! k = Some w /\ m_context w = parent) ->
  (forall t, t ∈ threads -> exists k y, stack_mapping p0 !! t = Some k /\ pm_maps s0 !! k = Some y) ->
  is_Some (pm_contexts s0 !! child) ->
  (let! r := on_pman (fork_mapping parent child m) in
   match r with Some (o, n) => process_remap threads o n | None => ret tt end) p = Done (tt, p') ->
  fork_inv (l ++ [m]) todo p'.
Proof.
  intros Hfi Hnd Hall Hth Hc Hrun. destruct (Hall m) as (y & Hm & Hcy); [set_solver|].
  destruct (Hfork m y Hm Hcy) as ([r Hl] & Hnz & Hprot).
  apply NoDup_app in Hnd as (Hndl & Hndd & [Hmt Hndt]%NoDup_cons).
  assert (m ∉ l) as Hml by (intros Hml; eapply Hndd; [exact Hml|set_solver]).
  pose proof (fi_inv _ _ _ Hfi) as Hinv. pose proof (fi_todo _ _ _ Hfi m ltac:(set_solver)) as Hmp. rewrite Hm in Hmp.
  destruct (proj2 (fi_contexts _ _ _ Hfi child) Hc) as [xc Hxc].
  destruct (pi_shows _ _ _ Hinv m y Hmp (not_elem_of_empty _)) as (_ & z & _ & _ & Hz & _). unfold root_of in Hz. rewrite Hl in Hz. cbn in Hz.
  pose proof (fork_request l (m :: todo) p m y xc Hfi Hm Hcy Hml ltac:(intros; apply Hall; set_solver) Hxc) as Hreq.
  apply bind_done_inv in Hrun as (o & p1 & Hrun & Hremap). unfold on_pman, zoom in Hrun.
  destruct (fork_mapping_spec (mem_pman p) own m y r z parent child xc Hinv Hmp Hcy Hpc Hl Hz Hnz Hprot Hxc Hreq) as [[w E]|(n & s1 & E & Hinv1 & Hfk)];
    rewrite E in Hrun; [done|]. injection Hrun as <- <-.
  set (p1 := Pmem s1 (stack_mapping p)) in *.
  destruct (process_remap_spec threads m n p1) as (st & E1 & Hst).
  { intros t Ht. destruct (Hth t Ht) as (k & w & Hk & Hw). destruct (fi_stack _ _ _ Hfi t k w Ht Hk Hw) as (k' & Hk' & _). by exists k'. }
  rewrite E1 in Hremap. injection Hremap as <-.
  assert (forall k w, k ∈ todo -> pm_maps s0 !! k = Some w -> pm_maps (mem_pman p) !! k = Some w /\ refs_of w = None) as Htodo.
  { intros k w Hk Hw. split; [by rewrite (fi_todo _ _ _ Hfi) by set_solver|]. destruct (Hall k) as (w' & Hw' & Hcw); [set_solver|].
    assert (w' = w) as -> by congruence. destruct (Hfork k w Hw Hcw) as ([? Hlw] & _). unfold lender_of, refs_of, references in *. by destruct (m_type w). }
  split; cbn [mem_pman stack_mapping p1].
  - done.
  - intros k Hk. destruct (Hall k) as (w & Hw & Hcw); [set_solver|]. destruct (Htodo k w Hk Hw) as [Hkp Hrw].
    rewrite (fk_maps _ _ _ _ _ _ _ Hfk k w Hkp); [done|intros ->; done|done].
  - rewrite (fk_ranges _ _ _ _ _ _ _ Hfk). rewrite bool_decide_false by congruence. apply (fi_parent _ _ _ Hfi).
  - intros v c. rewrite (fk_ranges _ _ _ _ _ _ _ Hfk), bool_decide_true by done. intros [[<- <-]|[_ Hv]]%lookup_insert_Some.
    + exists m, y. set_solver.
    + destruct (fi_child _ _ _ Hfi v c Hv) as (k & w & Hk & Hw). exists k, w. set_solver.
  - intros d a Hd Hcov. rewrite (fk_view _ _ _ _ _ _ _ Hfk). destruct (Z.ltb_spec (range_index (m_vaddr y) a) (m_size_pages y)) as [Ha|Ha].
    + assert (bool_decide (d = parent) || bool_decide (d = child) = true) as -> by (destruct Hd as [->| ->]; [by rewrite bool_decide_true|by rewrite (bool_decide_true (child = child)), orb_true_r]).
      cbn [andb]. f_equal. apply (fi_rest _ _ _ Hfi). intros (k & w & Hk & Hw & Hcw & Haw).
      eapply (covers_apart s0 own ∅ k m w y a Hinv0 Hw Hm); [intros ->; done|congruence|done|exact Ha].
    + rewrite andb_false_r. apply (fi_done _ _ _ Hfi d a Hd). apply (covers_snoc l m y a Hm Hcy) in Hcov as [|Hin]; [done|]. unfold in_range in Hin. lia.
  - intros d a Hn. assert (~ covers s0 l parent a /\ ~ in_range (m_vaddr y) (m_size_pages y) a) as [Hn1 Hn2].
    { split; intros H; apply Hn, (covers_snoc l m y a Hm Hcy); tauto. }
    rewrite (fk_view _ _ _ _ _ _ _ Hfk), (proj2 (Z.ltb_ge _ _)) by (unfold in_range in Hn2; lia). rewrite andb_false_r. by apply (fi_rest _ _ _ Hfi).
  - intros d a H1 H2. rewrite (fk_view _ _ _ _ _ _ _ Hfk), !bool_decide_false by done. cbn [orb andb]. by apply (fi_other _ _ _ Hfi).
  - rewrite (fk_memory _ _ _ _ _ _ _ Hfk). apply (fi_memory _ _ _ Hfi).
  - intros d. rewrite (fk_contexts _ _ _ _ _ _ _ Hfk d). apply (fi_contexts _ _ _ Hfi).
  - intros t k w Ht Hk Hw. destruct (fi_stack _ _ _ Hfi t k w Ht Hk Hw) as (k' & Hk' & H1 & H2). specialize (Hst t k' Hk').
    destruct (decide (k = m)) as [->|Hkm].
    + rewrite (H1 Hml) in Hst. rewrite decide_True in Hst by done. assert (w = y) as -> by congruence. exists n. split; [done|]. split; [intros Hn; exfalso; set_solver|].
      intros _. split; [|apply (fk_mapping _ _ _ _ _ _ _ Hfk)]. intros Hn. destruct (Hall n) as (w & Hw' & _); [set_solver|].
      destruct (Htodo n w Hn Hw') as [Hnp Hrn]. by apply (fk_new _ _ _ _ _ _ _ Hfk n w Hnp); [intros ->|..].
    + destruct (decide (k ∈ l)) as [Hkl|Hkl].
      * destruct (H2 Hkl) as (Hk'n & r' & ms & Hlive). rewrite decide_False in Hst by (intros [_ ->]; set_solver). exists k'. split; [done|].
        split; [intros Hn; exfalso; set_solver|]. intros _. split; [set_solver|]. exists r', ms.
        apply (fk_maps _ _ _ _ _ _ _ Hfk); [done|intros ->; set_solver|done].
      * rewrite (H1 Hkl) in Hst. rewrite decide_False in Hst by tauto. exists k. split; [done|]. split; [done|]. intros Hn. exfalso. set_solver.
Qed.

Lemma fork_mappings_inv todo : forall l p p', fork_inv l todo p -> NoDup (l ++ todo) ->
  (forall k, k ∈ l ++ todo -> exists w, pm_maps s0 !! k = Some w /\ m_context w = parent) ->
  (forall t, t ∈ threads -> exists k y, stack_mapping p0 !! t = Some k /\ pm_maps s0 !! k = Some y) ->
  is_Some (pm_contexts s0 !! child) -> fork_mappings threads parent child todo p = Done (tt, p') -> fork_inv (l ++ todo) [] p'.
Proof.
  induction todo as [|m todo IH]; intros l p p' Hfi Hnd Hall Hth Hc Hrun; unfold fork_mappings in Hrun; cbn [for_each] in Hrun.
  - injection Hrun as <-. by rewrite app_nil_r.
  - apply bind_done_inv in Hrun as ([] & p1 & H1 & Hrun). rewrite cons_middle, app_assoc. rewrite cons_middle, app_assoc in Hnd, Hall.
    apply (IH (l ++ [m]) p1 p'); [|done..]. rewrite <- app_assoc in Hnd, Hall. by apply (fork_step l m todo p p1).
Qed.
End loop.

End fork.

(** ** The kernel's address of a user byte *)

Section translate.
Context {V F T : Type} `{HV : VirtualRanges V} `{HF : FrameAllocator F} `{HT : PageMapper T}.
Implicit Types (s : @pman V F T).

(** The same byte of a mapping and of its root: one frame, one offset. *)
Lemma root_byte s own m y z fr va : pman_inv s own ∅ -> pm_maps s !! m = Some y -> pm_maps s !! root_of m y = Some z -> frames_of z = Some fr ->
  m_vaddr y <= va < m_vaddr y + m_size_pages y * PAGE_SIZE ->
  exists e e', view s (m_context y) va = Some e /\ view s (m_context z) (va - m_vaddr y + m_vaddr z) = Some e' /\
    phys_of e va = phys_of e' (va - m_vaddr y + m_vaddr z).
Proof.
  intros Hinv Hm Hz Hf Hva. set (i := va - m_vaddr y).
  destruct (pi_shows _ _ _ Hinv m y Hm (not_elem_of_empty _)) as (_ & z' & _ & _ & Hz' & _ & _ & Hsz & _).
  assert (z' = z) as -> by congruence.
  pose proof (placed_range s own ∅ m y Hinv Hm) as Hy. pose proof (placed_range s own ∅ _ z Hinv Hz) as Hzr. rewrite Hsz in Hzr.
  destruct (range_index_byte _ _ i Hy ltac:(lia)) as (Hiy & Hmy & Hry). destruct (range_index_byte _ _ i Hzr ltac:(lia)) as (Hiz & Hmz & Hrz).
  replace (m_vaddr y + i) with va in * by lia. rewrite (Z.add_comm i).
  assert (root_of (root_of m y) z = root_of m y) as Hrr by (unfold root_of at 1; rewrite (root_no_lender z) by (by eexists); done).
  destruct (lent_view s own m y _ z fr va Hinv Hm eq_refl Hz Hf Hry) as (p & Hp & Hv).
  destruct (lent_view s own _ z _ z fr (m_vaddr z + i) Hinv Hz Hrr Hz Hf) as (p' & Hp' & Hv'); [by rewrite Hsz|].
  rewrite Hiy in Hp. rewrite Hiz in Hp'. assert (p' = p) as -> by congruence.
  do 2 eexists. split; [exact Hv|]. split; [exact Hv'|]. unfold phys_of. by rewrite Hmy, Hmz.
Qed.

Lemma user_to_kernel_from_spec s own l va : pman_inv s own ∅ -> (forall m, m ∈ l -> is_Some (pm_maps s !! m)) ->
  exists r, user_to_kernel_from l va s = Done (r, s) /\
    match r with
    | Some k => exists m y z fr, m ∈ l /\ pm_maps s !! m = Some y /\ pm_maps s !! root_of m y = Some z /\ frames_of z = Some fr /\
        m_vaddr y <= va < m_vaddr y + m_size_pages y * PAGE_SIZE /\ k = va - m_vaddr y + m_vaddr z
    | None => forall m y, m ∈ l -> pm_maps s !! m = Some y -> ~ (m_vaddr y <= va < m_vaddr y + m_size_pages y * PAGE_SIZE)
    end.
Proof.
  intros Hinv. induction l as [|m l IH]; intros Hl; cbn [user_to_kernel_from].
  { exists None. split; [done|]. intros m y Hm. by apply elem_of_nil in Hm. }
  destruct (Hl m) as [y Hy]; [set_solver|]. rewrite (bind_done _ _ _ _ _ (get_mapping_done s m y Hy)).
  pose proof (placed_range s own ∅ m y Hinv Hy) as (H0 & _ & H1 & H2).
  rewrite (u64_small (m_size_pages y * PAGE_SIZE)), u64_small by (unfold PAGE_SIZE in *; lia).
  destruct ((m_vaddr y <=? va) && (va <? m_vaddr y + m_size_pages y * PAGE_SIZE)) eqn:E.
  - destruct (get_root_done s own ∅ m y Hinv Hy (not_elem_of_empty _)) as [Er (z & fr & Hz & _ & Hf & _ & Hsz)].
    rewrite (bind_done _ _ _ _ _ Er), (bind_done _ _ _ _ _ (get_mapping_done s _ z Hz)).
    pose proof (placed_range s own ∅ _ z Hinv Hz) as (Z0 & _ & Z1 & Z2). rewrite Hsz in Z2.
    rewrite u64_small by (unfold PAGE_SIZE in *; lia). eexists. split; [reflexivity|]. exists m, y, z, fr. split_and!; try done; [set_solver|lia|lia].
  - destruct IH as (r & Er & Hr); [intros; apply Hl; set_solver|]. exists r. split; [done|]. destruct r as [k|].
    + destruct Hr as (m' & y' & z & fr & ? & ?). exists m', y', z, fr. split; [set_solver|done].
    + intros m' y' [->|Hm']%elem_of_cons Hy'; [|by apply (Hr m' y')]. assert (y' = y) as -> by congruence. lia.
Qed.

(** The address [process_user_to_kernel] gives for a user address is mapped
    in the kernel and names the same byte of physical memory; [NULL] comes back
    only when the process has nothing mapped there. *)
Theorem process_user_to_kernel_same_byte s own c x va (Hinv : pman_inv s own ∅) (Hc : pm_contexts s !! c = Some x)
  (Hroots : forall m y z, pm_maps s !! m = Some y -> m_context y = c -> pm_maps s !! root_of m y = Some z -> m_context z = pman_kernel_context) :
  exists r, process_user_to_kernel c va s = Done (r, s) /\
    match r with
    | Some k => exists e e', view s c va = Some e /\ view s pman_kernel_context k = Some e' /\ phys_of e va = phys_of e' k
    | None => forall m y, pm_maps s !! m = Some y -> m_context y = c -> ~ (m_vaddr y <= va < m_vaddr y + m_size_pages y * PAGE_SIZE)
    end.
Proof.
  assert (forall m, (m ∈ c_list x) <-> exists y, pm_maps s !! m = Some y /\ m_context y = c) as Hlist.
  { intros m. rewrite (pi_list _ _ _ Hinv c x m Hc). set_solver. }
  unfold process_user_to_kernel. rewrite (bind_done _ _ _ _ _ (get_context_done s c x Hc)).
  destruct (user_to_kernel_from_spec s own (c_list x) va Hinv) as (r & E & Hr); [intros m (y & Hy & _)%Hlist; by eexists|].
  exists r. split; [done|]. destruct r as [k|].
  - destruct Hr as (m & y & z & fr & Hm & Hy & Hz & Hf & Hva & ->). apply Hlist in Hm as (y' & Hy' & Hcy). assert (y' = y) as -> by congruence.
    destruct (root_byte s own m y z fr va Hinv Hy Hz Hf Hva) as (e & e' & H1 & H2 & H3). rewrite Hcy in H1. rewrite (Hroots m y z Hy Hcy Hz) in H2.
    by exists e, e'.
  - intros m y Hm Hcy. apply (Hr m y); [|done]. apply Hlist. by exists y.
Qed.
End translate.

(** ** Concrete runs *)

(** A parent with one page at 0x5000, where its only thread has its stack, and a
    fresh child. *)
Definition demo_before : demo_pman := demo_state (demo_left ++ [PmNewContext 2]).
Definition demo_pmem : @pmem (@valloc_t bump) frame_pool page_tables := Pmem demo_before {[ 7 := 1%nat ]}.

Lemma before_inv : pman_inv demo_before left_own ∅.
Proof.
  apply (run_op_inv (demo_state demo_left) left_own (PmNewContext 2) None); [apply left_inv|vm_compute; reflexivity|vm_compute; reflexivity].
Qed.
Lemma before_maps m y : pm_maps demo_before !! m = Some y -> m_context y = 1%nat ->
  m = 1%nat /\ lender_of y = Some 0%nat /\ m_vaddr y = 0x5000 /\ has_prot (m_protection y) PMAN_PROT_SHARED = false.
Proof.
  intros Hm Hc. apply elem_of_map_to_list in Hm. vm_compute in Hm.
  repeat (apply elem_of_cons in Hm as [[= -> ->]|Hm]; [vm_compute in Hc; first [discriminate Hc|split_and!; reflexivity]|]).
  by apply elem_of_nil in Hm.
Qed.


Lemma process_user_to_kernel_same_byte_witness : exists r, process_user_to_kernel 1 0x5123 demo_before = Done (r, demo_before) /\ is_Some r.
Proof.
  assert (exists xp, pm_contexts demo_before !! 1%nat = Some xp) as [xp Hxp] by (eexists; vm_compute; reflexivity).
  assert (exists y, pm_maps demo_before !! 1%nat = Some y /\ m_context y = 1%nat /\ m_vaddr y = 0x5000 /\ m_size_pages y = 1)
    as (y & Hy & Hcy & Hv & Hs) by (eexists; split; [vm_compute; reflexivity|split_and!; reflexivity]).
  assert (exists z, pm_maps demo_before !! 0%nat = Some z /\ m_context z = 0%nat) as (z0 & Hz0 & Hcz) by (eexists; split; [vm_compute; reflexivity|reflexivity]).
  destruct (process_user_to_kernel_same_byte demo_before left_own 1 xp 0x5123 before_inv Hxp) as (r & E & Hr).
  - intros m w z Hm Hc Hz. destruct (before_maps m w Hm Hc) as (-> & Hl & _). unfold root_of in Hz. rewrite Hl in Hz. change (default 1%nat (Some 0%nat)) with 0%nat in Hz.
    assert (z = z0) as -> by congruence. exact Hcz.
  - exists r. split; [exact E|]. destruct r as [k|]; [by eexists|]. destruct (Hr 1%nat y Hy Hcy). rewrite Hv, Hs. unfold PAGE_SIZE. lia.
Defined.
