(* ===== verification/Process.v ===== *)
(** * Process: processes, from creation to exit

    src/process/process.c, the constructors of src/process/thread.c, and the
    system calls of src/syscall/handlers/ that act on whole processes.  A
    process ties the other components together: its paging context and the
    stacks of its threads (ProcMem.v), its threads (Sched.v), its descriptors
    and working directory (File.v), its pending signals (Signal.v) and the
    event its parent waits on.  [kernel] is the state of all of them.

    Objects are named by addresses; the addresses a call allocates are its
    arguments.  The arguments of a program are in ExecArgs.v, and the saved
    registers in Interrupts.v. *)
From S2P Require Import Prelude Dll Sched Signal Timer Pipe Fs FsPath RamfsTree File FileProofs Heap Bitmap Valloc PageTables PageMap PmanIface Pman PmanInv PmanOps PmanWrite PmanInst PmanProps ProcMem.

Record process_t := Process {
  paging_context : nat;
  pid : Z; parent_id : Z;
  thread_capacity : Z; p_threads : list Z;
  file_table : file_table_t;
  p_working_dir : Z;
  child_finished : Z;
  signal_table : signal_table_t
}.
Definition set_parent_id (n : Z) (p : process_t) : process_t :=
  Process (paging_context p) (pid p) n (thread_capacity p) (p_threads p) (file_table p) (p_working_dir p) (child_finished p) (signal_table p).
Definition set_p_threads (c : Z) (l : list Z) (p : process_t) : process_t :=
  Process (paging_context p) (pid p) (parent_id p) c l (file_table p) (p_working_dir p) (child_finished p) (signal_table p).
Definition set_file_table (t : file_table_t) (p : process_t) : process_t :=
  Process (paging_context p) (pid p) (parent_id p) (thread_capacity p) (p_threads p) t (p_working_dir p) (child_finished p) (signal_table p).
Definition set_wd (d : Z) (p : process_t) : process_t :=
  Process (paging_context p) (pid p) (parent_id p) (thread_capacity p) (p_threads p) (file_table p) d (child_finished p) (signal_table p).
Definition set_signal_table (t : signal_table_t) (p : process_t) : process_t :=
  Process (paging_context p) (pid p) (parent_id p) (thread_capacity p) (p_threads p) (file_table p) (p_working_dir p) (child_finished p) t.

Lemma remove_first_elem p (l : list Z) z : NoDup l -> (z ∈ remove_first (Z.eqb p) l <-> (z ∈ l) /\ z <> p).
Proof.
  induction l as [|a l IH]; intros Hnd; cbn [remove_first]; [split; [by intros ?%elem_of_nil|by intros [?%elem_of_nil _]]|].
  apply NoDup_cons in Hnd as [Hni Hnd]. destruct (Z.eqb_spec p a) as [->|Hne].
  - split; [|set_solver]. intros Hz. split; [by right|]. by intros ->.
  - rewrite !elem_of_cons, IH by done. split; [|tauto]. intros [->|[? ?]]; [split; [by left|congruence]|tauto].
Qed.

Section process.
Context {V F T : Type} `{HV : VirtualRanges V} `{HF : FrameAllocator F} `{HT : PageMapper T}.
Context (ops : Z -> fs_superblock_ops_t).
(** Numbers of the external pkos/signal.h. *)
Variables _SIG_COUNT SIG_CHILD SIG_ALARM : Z.

(** [process_list]: from [process_head.global_next] to the tail. *)
Record kernel := Kernel {
  processes : gmap Z process_t; process_list : list Z; current_pid : Z;
  k_sched : sched; k_fs : fs; k_mem : @pmem V F T
}.

Definition with_sched (c : sched) (k : kernel) : kernel :=
  Kernel (processes k) (process_list k) (current_pid k) c (k_fs k) (k_mem k).
Definition with_fs (f : fs) (k : kernel) : kernel :=
  Kernel (processes k) (process_list k) (current_pid k) (k_sched k) f (k_mem k).
Definition with_mem (x : @pmem V F T) (k : kernel) : kernel :=
  Kernel (processes k) (process_list k) (current_pid k) (k_sched k) (k_fs k) x.
Definition on_k_sched {A} (m : M sched A) : M kernel A := zoom k_sched with_sched m.
Definition on_k_fs {A} (m : M fs A) : M kernel A := zoom k_fs with_fs m.
Definition on_k_mem {A} (m : M (@pmem V F T) A) : M kernel A := zoom k_mem with_mem m.
Definition on_k_pman {A} (m : M (@pman V F T) A) : M kernel A := on_k_mem (on_pman m).
Definition set_processes (m : gmap Z process_t) (k : kernel) : kernel :=
  Kernel m (process_list k) (current_pid k) (k_sched k) (k_fs k) (k_mem k).
Definition get_process (p : Z) : M kernel process_t := fun k => of_option Undefined (processes k !! p) k.
Definition put_process (p : Z) (x : process_t) : M kernel unit := modify (fun k => set_processes (<[p := x]> (processes k)) k).
Definition set_stack (t : Z) (m : nat) : M kernel unit :=
  on_k_mem (modify (fun x => Pmem (mem_pman x) (<[t := m]> (stack_mapping x)))).

(** ** Threads with their stacks *)

(** [k]: the kernel thread, [a]: the user thread. *)
Definition thread_create_user_k (c : nat) (parent a k : Z) : M kernel unit :=
  let! ks := on_k_pman kernel_stack in
  do! set_stack k ks;
  let! us := on_k_pman (user_stack c) in
  do! set_stack a us;
  on_k_sched (thread_create_user a k parent).

(** Without a mapping at the original's stack address the new thread has none. *)
Definition thread_create_fork_k (c : nat) (parent target a k : Z) : M kernel unit :=
  let! ks := on_k_pman kernel_stack in
  do! set_stack k ks;
  let! x := on_k_mem get in
  let! ts := of_option Undefined (stack_mapping x !! target) in
  let! us := on_k_pman (fork_stack c ts) in
  do! match us with Some m => set_stack a m | None => ret tt end;
  on_k_sched (thread_create_fork a k parent).

(** ** Creation *)

(** [p], [e], [c]: the process, its event and its context; [junk]: what the
    signal queue held.  No reference to the root directory is taken. *)
Definition process_create (p e : Z) (c : nat) (junk : list Z) : M kernel Z :=
  let! c := on_k_pman (pman_new_context c) in
  do! on_k_sched (event_init e);
  do! modify (fun k => Kernel
        (<[p := Process c (current_pid k) 0 1 [] file_table_init fs_root e (signal_table_init _SIG_COUNT SIG_CHILD junk)]> (processes k))
        (p :: process_list k) (current_pid k + 1) (k_sched k) (k_fs k) (k_mem k));
  ret p.

Definition process_add_thread (p t : Z) : M kernel unit :=
  let! x := get_process p in
  do! guard_or Undefined (Z.of_nat (length (p_threads x)) <? thread_capacity x);
  let n := Z.of_nat (length (p_threads x)) + 1 in
  put_process p (set_p_threads (if n =? thread_capacity x then thread_capacity x * 2 else thread_capacity x) (p_threads x ++ [t]) x).

(** The first process of the list with that number. *)
Fixpoint lookup_pid (l : list Z) (n : Z) : M kernel (option Z) :=
  match l with
  | [] => ret None
  | p :: l' => let! x := get_process p in if pid x =? n then ret (Some p) else lookup_pid l' n
  end.
Definition process_lookup (n : Z) : M kernel (option Z) := let! k := get in lookup_pid (process_list k) n.

(** [a], [k]: the child's thread and its kernel twin. *)
Definition process_create_fork (parent p e : Z) (c : nat) (junk : list Z) (a k : Z) : M kernel Z :=
  do! process_create p e c junk;
  let! x := get_process parent in
  let! y := get_process p in
  do! put_process p (set_parent_id (pid x) y);
  do! on_k_mem (fork_memory (p_threads x) (paging_context x) (paging_context y));
  let! t0 := of_option Undefined (p_threads x !! 0%nat) in
  do! thread_create_fork_k (paging_context y) p t0 a k;
  do! process_add_thread p a;
  let! t := on_k_fs (file_table_clone (file_table x)) in
  let! y := get_process p in
  do! put_process p (set_file_table t y);
  do! on_k_fs (fs_directory_entry_add_reference (p_working_dir x));
  let! y := get_process p in
  do! put_process p (set_wd (p_working_dir x) y);
  ret p.

(** ** Exit *)

(** Run the signal operations of process [p]. *)
Definition on_signals {A} (p : Z) (m : M signals A) : M kernel A :=
  let! x := get_process p in
  let! k := get in
  match m (Signals (signal_table x) (k_sched k)) with
  | Done (a, s) =>
      do! put_process p (set_signal_table (table s) x);
      do! modify (with_sched (sig_sched s));
      ret a
  | Stop w => stop_with w
  end.
Definition signal_process (p sig : Z) : M kernel code :=
  let! x := get_process p in on_signals p (signal_table_invoke _SIG_COUNT (p_threads x) sig).

(** [fuel] bounds the mappings of the address space. *)
Definition process_free (fuel : nat) (p : Z) : M kernel unit :=
  let! x := get_process p in
  do! modify (fun k => Kernel (processes k) (remove_first (Z.eqb p) (process_list k)) (current_pid k) (k_sched k) (k_fs k) (k_mem k));
  let! parent := process_lookup (parent_id x) in
  do! match parent with
      | Some q =>
          do! signal_process q SIG_CHILD;
          let! y := get_process q in
          on_k_sched (event_invoke (child_finished y))
      | None => ret tt
      end;
  do! on_k_sched (for_each (p_threads x) (fun t =>
        do! upd_thread t (set_process None); upd_thread t (set_state TS_DEAD)));
  do! on_k_sched (event_free (child_finished x));
  do! on_k_fs (close_all ops (file_table x));
  do! on_k_fs (fs_directory_entry_release ops (p_working_dir x));
  do! on_k_pman (pman_free_context fuel (paging_context x));
  modify (fun k => set_processes (delete p (processes k)) k).

Definition process_kill (fuel : nat) (p : Z) : M kernel unit :=
  let! x := get_process p in
  do! on_k_sched (for_each (p_threads x) (fun t => do! upd_thread t (set_process None); thread_kill t));
  process_free fuel p.

(** ** System calls *)

(** [scheduler_current_process]: the process of the running thread. *)
Definition scheduler_current_process : M kernel Z :=
  let! k := get in
  let! t := of_option Undefined (current_thread (k_sched k)) in
  let! th := on_k_sched (get_thread t) in
  of_option Undefined (process th).

Definition syscall_fork (p e : Z) (c : nat) (junk : list Z) (a k : Z) : M kernel Z :=
  let! cur := scheduler_current_process in
  let! child := process_create_fork cur p e c junk a k in
  let! y := get_process child in
  let! t := of_option Undefined (p_threads y !! 0%nat) in
  do! on_k_sched (thread_run t);
  ret (pid y).

Definition syscall_exit (fuel : nat) : M kernel unit :=
  let! cur := scheduler_current_process in process_kill fuel cur.

Definition syscall_kill (fuel : nat) (n : Z) : M kernel code :=
  let! target := process_lookup n in
  match target with
  | None => ret (NegErr ESRCH)
  | Some p => do! process_kill fuel p; ret (Num 0)
  end.

Definition syscall_signal (sig handler : Z) : M kernel code :=
  let! cur := scheduler_current_process in
  on_signals cur (on_table (signal_table_set _SIG_COUNT sig handler)).

(** [SYSCALL_WAIT]: the thread that runs next, if the caller is suspended. *)
Definition syscall_wait : M kernel (option (option Z)) :=
  let! cur := scheduler_current_process in
  let! x := get_process cur in
  on_k_sched (scheduler_await (child_finished x)).

(** The program counter of the new thread is not modelled. *)
Definition syscall_thread (a k : Z) : M kernel code :=
  let! cur := scheduler_current_process in
  let! x := get_process cur in
  do! thread_create_user_k (paging_context x) cur a k;
  do! process_add_thread cur a;
  do! on_k_sched (thread_run a);
  ret (Num 0).

(** A delivered signal whose action is to terminate the process; the handler's
    frame on the user's stack is not modelled. *)
Definition signal_table_resume (fuel : nat) (t : Z) : M kernel delivery :=
  let! th := on_k_sched (get_thread t) in
  let! p := of_option Undefined (process th) in
  let! d := on_signals p (on_table take_signal) in
  match d with
  | DefaultAction ACT_TERMINATE => do! process_kill fuel p; do! on_k_sched scheduler_yield; ret d
  | _ => ret d
  end.

(** ** Timers of system calls *)

Inductive timer_handler := AlarmHandler | NanosleepHandler.
Abbreviation k_timers := (@timers timer_handler kernel).

Definition alarm_timer_handler (a : Z) : M k_timers unit :=
  let! t := get_timer a in
  do! on_world (signal_process (cookie t) SIG_ALARM);
  timer_free a.
Definition nanosleep_timer_handler (a : Z) : M k_timers unit :=
  let! t := get_timer a in
  do! on_world (on_k_sched (event_invoke (cookie t)));
  timer_free a.
Definition call_handler (h : timer_handler) (a : Z) : M k_timers unit :=
  match h with AlarmHandler => alarm_timer_handler a | NanosleepHandler => nanosleep_timer_handler a end.

Definition syscall_alarm (a seconds : Z) : M k_timers code :=
  let! cur := on_world scheduler_current_process in
  do! timer_init a AlarmHandler cur (TIMER_S_TO_TICKS seconds) 0;
  ret (Num 0).
(** Until the caller is suspended or, with a latched signal, goes on. *)
Definition syscall_nanosleep (a e nanos : Z) : M k_timers (option (option Z)) :=
  do! on_world (on_k_sched (event_init e));
  do! timer_init a NanosleepHandler e (TIMER_NS_TO_TICKS nanos) 0;
  on_world (on_k_sched (scheduler_await e)).
Definition nanosleep_rest (e : Z) : M k_timers code :=
  do! on_world (on_k_sched (event_free e)); ret (Num 0).

(** When an alarm fires, the kernel uses memory it has freed.  The handler
    signals the process and frees its timer; back in the tick, the timer's
    count is updated through the dangling pointer. *)
Theorem alarm_tick_uses_freed_timer s a t c k (Ha : objects s !! a = Some t) (Hh : handler t = AlarmHandler) (Hs : t_state t = WAITING)
  (Hdue : start_ticks t <= u64 (current_ticks t + 1)) (Hsig : signal_process (cookie t) SIG_ALARM (world s) = Done (c, k)) :
  timer_update call_handler a s = Stop Undefined.
Proof.
  apply (self_freeing_timer call_handler (signal_process (cookie t) SIG_ALARM) s a t c k Ha Hs Hdue Hsig).
  intros s1 t1 H1 Hc. rewrite Hh. cbn [call_handler]. unfold alarm_timer_handler.
  assert (get_timer a s1 = Done (t1, s1)) as Hg by (unfold get_timer; by rewrite H1). by rewrite (bind_done _ _ _ _ _ Hg), Hc.
Qed.

(** ** The end of a process *)

(** A thread that is not dead is only marked: a running one stays on its run
    queue, the others are refused by it. *)
Lemma thread_kill_marks s t th : threads s !! t = Some th -> state th <> TS_DEAD ->
  thread_kill t s = Done (tt, set_threads (<[t := set_state TS_DEAD th]> (threads s)) s).
Proof.
  intros Ht Hd. unfold thread_kill. rewrite (bind_done _ _ _ _ _ (get_thread_done _ _ _ Ht)).
  destruct (decide (state th = TS_RUNNING)) as [Hr|Hr].
  - rewrite Hr. by rewrite bind_ret_l, (upd_thread_done _ _ _ _ Ht).
  - assert ((match state th with TS_RUNNING => ret tt | _ => scheduler_queue t end) s = Done (tt, s)) as E.
    { assert (scheduler_queue t s = Done (tt, s)) by (apply (scheduler_queue_reject s t th Ht); by destruct (state th)). by destruct (state th). }
    by rewrite (bind_done _ _ _ _ _ E), (upd_thread_done _ _ _ _ Ht).
Qed.

Definition kill_mark (th : thread_t) : thread_t := set_state TS_DEAD (set_process None th).
Fixpoint mark (ts : list Z) (m : gmap Z thread_t) : gmap Z thread_t :=
  match ts with [] => m | t :: ts' => mark ts' (alter kill_mark t m) end.

Lemma mark_lookup ts : forall m t, mark ts m !! t = if decide (t ∈ ts) then kill_mark <$> m !! t else m !! t.
Proof.
  induction ts as [|t0 ts IH]; intros m t; cbn [mark]; [done|]. rewrite IH. destruct (decide (t = t0)) as [->|Hne].
  - rewrite lookup_alter_eq. rewrite (decide_True (P := t0 ∈ t0 :: ts)) by by left. case_decide; [|done]. by destruct (m !! t0).
  - rewrite lookup_alter_ne by done. by rewrite (decide_ext (t ∈ ts) (t ∈ t0 :: ts)) by set_solver.
Qed.

Lemma insert_alter (f : thread_t -> thread_t) t th (m : gmap Z thread_t) : m !! t = Some th -> <[t := f th]> m = alter f t m.
Proof.
  intros Ht. apply map_eq. intros z. destruct (decide (z = t)) as [->|Hne]; [by rewrite lookup_insert_eq, lookup_alter_eq, Ht|].
  by rewrite lookup_insert_ne, lookup_alter_ne.
Qed.

Lemma mark_rep ts s q : sched_rep s q -> sched_rep (set_threads (mark ts (threads s)) s) q.
Proof.
  intros [H1 H2 H3]. split; [done| |].
  - intros p t Ht. destruct (H2 p t Ht) as (th & Hth & Hp). cbn. rewrite mark_lookup, Hth. case_decide; eexists; by split.
  - intros t Ht. apply H3. cbn in Ht. rewrite mark_lookup in Ht. case_decide; [by apply fmap_is_Some in Ht|done].
Qed.

Lemma kill_threads ts : forall s, NoDup ts -> (forall t, t ∈ ts -> exists th, threads s !! t = Some th /\ state th <> TS_DEAD) ->
  for_each ts (fun t => do! upd_thread t (set_process None); thread_kill t) s = Done (tt, set_threads (mark ts (threads s)) s).
Proof.
  induction ts as [|t ts IH]; intros s Hnd Hall; cbn [for_each mark]; [by destruct s|].
  apply NoDup_cons in Hnd as [Hni Hnd]. destruct (Hall t) as (th & Ht & Hd); [by left|].
  rewrite bind_assoc, (bind_done _ _ _ _ _ (upd_thread_done _ _ _ _ Ht)). set (s1 := set_threads _ s).
  assert (threads s1 !! t = Some (set_process None th)) as Ht1 by apply lookup_insert_eq.
  rewrite (bind_done _ _ _ _ _ (thread_kill_marks s1 t _ Ht1 Hd)). cbn [threads set_threads s1]. rewrite insert_insert_eq.
  change (set_state TS_DEAD (set_process None th)) with (kill_mark th). rewrite (insert_alter kill_mark t th _ Ht).
  rewrite IH; [done|done|]. intros t' Ht'. destruct (Hall t') as (th' & ? & ?); [by right|]. exists th'.
  cbn. rewrite lookup_alter_ne by (intros ->; done). done.
Qed.

Lemma mark_threads ts : forall s, (forall t, t ∈ ts -> is_Some (threads s !! t)) ->
  for_each ts (fun t => do! upd_thread t (set_process None); upd_thread t (set_state TS_DEAD)) s = Done (tt, set_threads (mark ts (threads s)) s).
Proof.
  induction ts as [|t ts IH]; intros s Hall; cbn [for_each mark]; [by destruct s|]. destruct (Hall t) as [th Ht]; [by left|].
  rewrite bind_assoc, (bind_done _ _ _ _ _ (upd_thread_done _ _ _ _ Ht)). set (s1 := set_threads _ s).
  assert (threads s1 !! t = Some (set_process None th)) as Ht1 by apply lookup_insert_eq.
  rewrite (bind_done _ _ _ _ _ (upd_thread_done _ _ _ _ Ht1)). cbn [threads set_threads s1]. rewrite insert_insert_eq.
  change (set_state TS_DEAD (set_process None th)) with (kill_mark th). rewrite (insert_alter kill_mark t th _ Ht).
  rewrite IH; [done|]. intros t' Ht'. cbn. destruct (decide (t' = t)) as [->|]; [rewrite lookup_alter_eq, Ht; by eexists|].
  rewrite lookup_alter_ne by done. apply Hall. by right.
Qed.

(** ** The table of processes *)

(** Every listed process exists, no number is used twice, and the next number
    is free. *)
Record table_ok (k : kernel) : Prop := {
  tb_list : NoDup (process_list k);
  tb_live p : (p ∈ process_list k) <-> is_Some (processes k !! p);
  tb_pid p q x y : processes k !! p = Some x -> processes k !! q = Some y -> pid x = pid y -> p = q;
  tb_next p x : processes k !! p = Some x -> pid x < current_pid k
}.

Lemma on_k_sched_done {A} (m : M sched A) k a c : m (k_sched k) = Done (a, c) -> on_k_sched m k = Done (a, with_sched c k).
Proof. unfold on_k_sched, zoom. by intros ->. Qed.
Lemma on_k_fs_done {A} (m : M fs A) k a f : m (k_fs k) = Done (a, f) -> on_k_fs m k = Done (a, with_fs f k).
Proof. unfold on_k_fs, zoom. by intros ->. Qed.

Lemma get_process_done k p x : processes k !! p = Some x -> get_process p k = Done (x, k).
Proof. unfold get_process. by intros ->. Qed.

Lemma lookup_pid_found l k q y n : (forall p, p ∈ l -> is_Some (processes k !! p)) -> q ∈ l -> processes k !! q = Some y -> pid y = n ->
  (forall p x, p ∈ l -> processes k !! p = Some x -> pid x = n -> p = q) -> lookup_pid l n k = Done (Some q, k).
Proof.
  induction l as [|p l IH]; intros Hl Hq Hy Hn Hu; [by apply elem_of_nil in Hq|]. cbn [lookup_pid].
  destruct (Hl p) as [x Hx]; [by left|]. rewrite (bind_done _ _ _ _ _ (get_process_done k p x Hx)).
  destruct (Z.eqb_spec (pid x) n) as [E|E]; [by rewrite (Hu p x) by first [by left|done]|].
  apply IH; [intros; apply Hl; by right| |done|done|intros; eapply Hu; [by right|done..]].
  apply elem_of_cons in Hq as [->|]; [|done]. congruence.
Qed.

(** The parent is still found once the child is off the list. *)
Lemma lookup_without k p q x y c : table_ok k -> processes k !! q = Some y -> q <> p -> parent_id x = pid y ->
  let k2 := Kernel (processes k) (remove_first (Z.eqb p) (process_list k)) (current_pid k) c (k_fs k) (k_mem k) in
  process_lookup (parent_id x) k2 = Done (Some q, k2).
Proof.
  intros Hok Hq Hpq Hpar k2. unfold process_lookup. rewrite bind_get. apply (lookup_pid_found _ k2 q y); [| |done|done|].
  - intros r [Hr _]%remove_first_elem; [|apply Hok]. by apply (tb_live _ Hok).
  - apply remove_first_elem; [apply Hok|]. split; [|done]. by apply (tb_live _ Hok).
  - intros r z _ Hr Hz. apply (tb_pid _ Hok r q z y Hr Hq). congruence.
Qed.

(** A process that has a thread in the way of an interruption. *)
Definition uninterruptable (s : sched) (ts : list Z) : Prop :=
  exists t ts' th, ts = t :: ts' /\ threads s !! t = Some th /\ state th <> TS_INTERRUPTABLE_WAIT.

Lemma signal_process_queues k q y pd sig : processes k !! q = Some y -> signal_rep _SIG_COUNT SIG_CHILD (signal_table y) pd ->
  length (queued pd) <> 10%nat -> 0 <= sig < _SIG_COUNT -> uninterruptable (k_sched k) (p_threads y) ->
  exists st, signal_process q sig k = Done (Num 0, set_processes (<[q := set_signal_table st y]> (processes k)) k) /\
    signal_rep _SIG_COUNT SIG_CHILD st (Pending (queued pd ++ [sig]) (handler_of pd)).
Proof.
  intros Hq Hr Hroom Hsig (t & ts & th & Ets & Ht & Hs). pose proof (queue_signal_spec _ _ _ _ sig Hr Hsig) as Hqs.
  rewrite bool_decide_false in Hqs by done. destruct Hqs as (st & E & Hr'). exists st. split; [|done].
  unfold signal_process. rewrite (bind_done _ _ _ _ _ (get_process_done k q y Hq)). unfold on_signals.
  rewrite (bind_done _ _ _ _ _ (get_process_done k q y Hq)), bind_get.
  assert (signal_table_invoke _SIG_COUNT (p_threads y) sig (Signals (signal_table y) (k_sched k)) = Done (Num 0, Signals st (k_sched k))) as ->.
  { unfold signal_table_invoke. destruct (Z.geb_spec sig _SIG_COUNT); [lia|].
    assert (on_table (queue_signal sig) (Signals (signal_table y) (k_sched k)) = Done (true, Signals st (k_sched k))) as E1
      by (unfold on_table, zoom; cbn [table]; by rewrite E).
    rewrite (bind_done _ _ _ _ _ E1). cbn [negb]. rewrite Ets. unfold on_sched, zoom, bind at 1. cbn [thread_to_interrupt sig_sched]. unfold bind at 1, get_thread. rewrite Ht.
    by rewrite bool_decide_false. }
  by destruct k.
Qed.

(** Giving back what the process held. *)
Lemma release_resources k p x fuel f1 f' c m' : close_all ops (file_table x) (k_fs k) = Done (tt, f1) ->
  fs_directory_entry_release ops (p_working_dir x) f1 = Done (tt, f') ->
  pman_free_context fuel (paging_context x) (mem_pman (k_mem k)) = Done (c, m') ->
  (do! on_k_sched (event_free (child_finished x));
   do! on_k_fs (close_all ops (file_table x));
   do! on_k_fs (fs_directory_entry_release ops (p_working_dir x));
   do! on_k_pman (pman_free_context fuel (paging_context x));
   modify (fun k => set_processes (delete p (processes k)) k)) k =
  Done (tt, Kernel (delete p (processes k)) (process_list k) (current_pid k)
    (set_events (delete (child_finished x) (events (k_sched k))) (k_sched k)) f' (Pmem m' (stack_mapping (k_mem k)))).
Proof.
  intros Hc Hr Hm. set (c0 := set_events _ _).
  rewrite (bind_done (on_k_sched (event_free (child_finished x))) _ k tt (with_sched c0 k) eq_refl).
  rewrite (bind_done _ _ _ _ _ (on_k_fs_done _ (with_sched c0 k) tt f1 Hc)).
  rewrite (bind_done _ _ _ _ _ (on_k_fs_done _ (with_fs f1 (with_sched c0 k)) tt f' Hr)).
  assert (on_k_pman (pman_free_context fuel (paging_context x)) (with_fs f' (with_fs f1 (with_sched c0 k))) =
    Done (c, with_mem (Pmem m' (stack_mapping (k_mem k))) (with_fs f' (with_fs f1 (with_sched c0 k))))) as E
    by (unfold on_k_pman, on_k_mem, on_pman, zoom; cbn [k_mem mem_pman with_fs with_sched]; by rewrite Hm).
  by rewrite (bind_done _ _ _ _ _ E).
Qed.

(** C4: A parent that waits for its child is woken when the child dies.
    Killing a process takes it off the table, marks its threads dead, queues
    SIG_CHILD on the parent, gives back the descriptors, the working directory
    and the address space, and makes the thread of the parent that waits on
    [child_finished] runnable, at the end of its run queue. *)
Theorem exit_wakes_parent k p x q y fuel qs e hs w t ws th pd f' c m' (Hok : table_ok k)
  (Hp : processes k !! p = Some x) (Hq : processes k !! q = Some y) (Hpq : q <> p) (Hpar : parent_id x = pid y)
  (Hnd : NoDup (p_threads x)) (Hts : forall z, z ∈ p_threads x -> exists zh, threads (k_sched k) !! z = Some zh /\ state zh <> TS_DEAD)
  (Hsched : sched_rep (k_sched k) qs) (He : child_finished y = e) (Hxe : child_finished x <> e)
  (Hev : events (k_sched k) !! e = Some (Event hs ((w, t) :: ws))) (Hon : only_on (k_sched k) w e)
  (Ht : threads (k_sched k) !! t = Some th) (Hst : state th = TS_UNINTERRUPTABLE_WAIT) (Htp : t ∉ p_threads x) (Hni : forall r, t ∉ qs r)
  (Hsig : signal_rep _SIG_COUNT SIG_CHILD (signal_table y) pd) (Hroom : length (queued pd) <> 10%nat) (Hnum : 0 <= SIG_CHILD < _SIG_COUNT)
  (Hun : exists z zs zh, p_threads y = z :: zs /\ (z ∉ p_threads x) /\ threads (k_sched k) !! z = Some zh /\ state zh <> TS_INTERRUPTABLE_WAIT)
  (Hfs : (do! close_all ops (file_table x); fs_directory_entry_release ops (p_working_dir x)) (k_fs k) = Done (tt, f'))
  (Hmem : pman_free_context fuel (paging_context x) (mem_pman (k_mem k)) = Done (c, m')) :
  exists k' st, process_kill fuel p k = Done (tt, k') /\
    state_of (k_sched k') t = Some TS_RUNNING /\
    sched_rep (k_sched k') (upd_queue qs (priority th) (qs (priority th) ++ [t])) /\
    (forall z, z ∈ p_threads x -> state_of (k_sched k') z = Some TS_DEAD) /\
    processes k' !! p = None /\ (p ∉ process_list k') /\
    processes k' !! q = Some (set_signal_table st y) /\
    signal_rep _SIG_COUNT SIG_CHILD st (Pending (queued pd ++ [SIG_CHILD]) (handler_of pd)) /\
    k_fs k' = f' /\ mem_pman (k_mem k') = m'.
Proof.
  unfold process_kill. rewrite (bind_done _ _ _ _ _ (get_process_done k p x Hp)).
  set (c1 := set_threads (mark (p_threads x) (threads (k_sched k))) (k_sched k)).
  rewrite (bind_done _ _ _ _ _ (on_k_sched_done _ k tt c1 (kill_threads _ _ Hnd Hts))).
  unfold process_free. rewrite (bind_done _ _ _ _ _ (get_process_done (with_sched c1 k) p x Hp)), bind_modify.
  set (l' := remove_first (Z.eqb p) (process_list k)). set (k2 := Kernel (processes k) l' (current_pid k) c1 (k_fs k) (k_mem k)).
  assert (process_lookup (parent_id x) k2 = Done (Some q, k2)) as E2 by by apply (lookup_without k p q x y).
  rewrite (bind_done _ _ _ _ _ E2). clear E2.
  assert (uninterruptable c1 (p_threads y)) as Hun'.
  { destruct Hun as (z & zs & zh & Ey & Hz & Hzh & Hzs). exists z, zs, zh. cbn. by rewrite mark_lookup, decide_False. }
  destruct (signal_process_queues k2 q y pd SIG_CHILD Hq Hsig Hroom Hnum Hun') as (st & E3 & Hsig').
  rewrite bind_assoc, (bind_done _ _ _ _ _ E3). clear E3. set (k3 := set_processes (<[q := set_signal_table st y]> (processes k2)) k2).
  assert (processes k3 !! q = Some (set_signal_table st y)) as Hq3 by apply lookup_insert_eq.
  rewrite bind_assoc, (bind_done _ _ _ _ _ (get_process_done k3 q _ Hq3)). cbn [child_finished set_signal_table]. rewrite He.
  assert (threads c1 !! t = Some th) as Ht1 by (cbn; by rewrite mark_lookup, decide_False).
  destruct (event_invoke_spec c1 qs e w t ws th hs (mark_rep _ _ _ Hsched) Hev Hon Ht1 ltac:(by rewrite Hst) Hni) as (c2 & E4 & Hr2 & Hth2 & He2 & Hoth2).
  rewrite (bind_done _ _ _ _ _ (on_k_sched_done _ k3 tt c2 E4)). clear E4.
  set (c3 := set_threads (mark (p_threads x) (threads c2)) c2).
  assert (forall z, z ∈ p_threads x -> is_Some (threads c2 !! z)) as Hdead.
  { intros z Hz. rewrite Hth2. apply lookup_insert_is_Some'. right. cbn. rewrite mark_lookup, decide_True by done.
    destruct (Hts z Hz) as (zh & -> & _). by eexists. }
  rewrite (bind_done _ _ _ _ _ (on_k_sched_done _ (with_sched c2 k3) tt c3 (mark_threads _ c2 Hdead))).
  apply bind_done_inv in Hfs as ([] & f1 & Hf1 & Hf2).
  rewrite (release_resources (with_sched c3 (with_sched c2 k3)) p x fuel f1 f' c m' Hf1 Hf2 Hmem).
  eexists _, st. split; [reflexivity|]. cbn [k_sched processes process_list k_fs k_mem mem_pman set_processes with_sched].
  split_and!; try done.
  - unfold state_of. cbn [set_events threads c3 set_threads]. by rewrite mark_lookup, decide_False, Hth2, lookup_insert_eq.
  - apply sched_rep_events. by apply mark_rep.
  - intros z Hz. unfold state_of. cbn [set_events threads c3 set_threads]. rewrite mark_lookup, decide_True by done.
    destruct (Hdead z Hz) as [zh Hzh]. by rewrite Hzh.
  - apply lookup_delete_eq.
  - intros [_ Hz]%remove_first_elem; [done|apply Hok].
  - by rewrite lookup_delete_ne.
Qed.
End process.

(** ** Concrete runs *)

(** One process with a thread, a page at 0x5000, and the root directory open. *)
Definition demo_first : process_t :=
  Process 1 0 0 2 [7] [Some (File fs_root (Options true false false) 0 None)] fs_root 50 (signal_table_init 8 2 (replicate 10 0)).
Definition demo_system : @kernel (@valloc_t bump) frame_pool page_tables :=
  Kernel {[ 100 := demo_first ]} [100] 1
    (Sched {[ 7 := Thread (Some 100) TL_USER TS_RUNNING TP_MEDIUM (Some 8) None None; 8 := Thread (Some 100) TL_KERNEL TS_STOPPED TP_MEDIUM (Some 7) None None ]}
       (foldr (fun p m => <[queue_head p := Link (queue_tail p) 0]> (<[queue_tail p := Link 0 (queue_head p)]> m)) {[ 7 := Link 0 0; 8 := Link 0 0 ]} all_priorities)
       {[ 50 := Event false [] ]} (Some 7) 60)
    (hold fs_root booted) (Pmem (demo_state demo_left) {[ 7 := 1%nat ]}).

Definition demo_fork := process_create_fork 8 2 100 200 300 2 (replicate 10 0) 20 21 demo_system.
Definition demo_forked := match demo_fork with Done (_, k) => k | Stop _ => demo_system end.
Lemma demo_fork_done : process_create_fork 8 2 100 200 300 2 (replicate 10 0) 20 21 demo_system = Done (200, demo_forked).
Proof. vm_compute. reflexivity. Qed.

(** The parent waits for its child. *)
Definition demo_waiting := match syscall_wait demo_forked with Done (_, k) => k | Stop _ => demo_system end.
Lemma demo_wait_done : exists r, syscall_wait demo_forked = Done (r, demo_waiting).
Proof. eexists. vm_compute. reflexivity. Qed.

(** The entries of a concrete map, one by one. *)
Ltac entries H := apply elem_of_map_to_list in H; vm_compute in H;
  repeat (apply elem_of_cons in H as [[= -> ->]|H]; [|]); [..|by apply elem_of_nil in H].

Lemma two_processes {V F T} (k : @kernel V F T) p q x y : p <> q -> process_list k = [q; p] -> processes k = {[ p := x; q := y ]} ->
  pid x < pid y < current_pid k -> table_ok k.
Proof.
  intros Hne Hl Hm Hpid. assert (forall r z, processes k !! r = Some z -> (r = p /\ z = x) \/ (r = q /\ z = y)) as Hone.
  { intros r z. rewrite Hm. intros [[<- <-]|[_ [<- <-]%lookup_singleton_Some]]%lookup_insert_Some; [by left|by right]. }
  split.
  - rewrite Hl. apply NoDup_cons. split; [set_solver|apply NoDup_singleton].
  - intros r. rewrite Hl. split; [|intros [z [[-> _]|[-> _]]%Hone]; set_solver].
    rewrite Hm. intros [->|[->|[]%elem_of_nil]%elem_of_cons]%elem_of_cons.
    + rewrite lookup_insert_ne by done. rewrite lookup_singleton_eq. by eexists.
    + rewrite lookup_insert_eq. by eexists.
  - intros r r' z z' [[-> ->]|[-> ->]]%Hone [[-> ->]|[-> ->]]%Hone; [done|lia..|done].
  - intros r z [[-> ->]|[-> ->]]%Hone; lia.
Qed.

Lemma demo_waiting_table : table_ok demo_waiting.
Proof. eapply (two_processes _ 100 200); [discriminate|vm_compute; reflexivity..|split; vm_compute; reflexivity]. Qed.

Lemma demo_waiting_sched : sched_rep (k_sched demo_waiting) no_queues.
Proof.
  constructor.
  - intros p. split.
    + destruct p; apply (bool_decide_unpack _); vm_compute; exact I.
    + destruct p; vm_compute; (split_and!; [reflexivity|reflexivity|by eexists]).
  - by intros p t ?%elem_of_nil.
  - intros t [th Ht]. entries Ht; (split; [lia|vm_compute; by eexists]).
Qed.

Definition demo_child := match processes demo_waiting !! 200 with Some x => x | None => demo_first end.
Definition demo_parent := match processes demo_waiting !! 100 with Some x => x | None => demo_first end.
Definition demo_waiter : thread_t := Thread (Some 100) TL_USER TS_UNINTERRUPTABLE_WAIT TP_MEDIUM (Some 8) (Some 60) (Some 50).
Definition demo_freed := match pman_free_context 10 2 (mem_pman (k_mem demo_waiting)) with Done r => r | Stop _ => (Num 0, demo_before) end.

Lemma exit_wakes_parent_witness : exists k', process_kill fs_ops 8 2 10 200 demo_waiting = Done (tt, k') /\
  state_of (k_sched k') 7 = Some TS_RUNNING /\ processes k' !! 200 = None.
Proof.
  destruct (exit_wakes_parent fs_ops 8 2 demo_waiting 200 demo_child 100 demo_parent 10 no_queues 50 false 60 7 []
    demo_waiter (Pending [] (fun _ => 0)) (hold fs_root booted) demo_freed.1 demo_freed.2) as (k' & st & E & Hrun & _ & _ & Hp & _);
    try (vm_compute; reflexivity).
  - exact demo_waiting_table.
  - discriminate.
  - change (p_threads demo_child) with [20]. apply NoDup_singleton.
  - change (p_threads demo_child) with [20]. intros z ->%list_elem_of_singleton. eexists. split; [vm_compute; reflexivity|discriminate].
  - exact demo_waiting_sched.
  - vm_compute. discriminate.
  - intros e ev Hne He. entries He; [done|vm_compute; reflexivity].
  - change (p_threads demo_child) with [20]. intros H%list_elem_of_singleton. discriminate H.
  - intros r H%elem_of_nil. done.
  - assert (signal_table demo_parent = signal_table_init 8 2 (replicate 10 0)) as -> by (vm_compute; reflexivity).
    by apply signal_table_init_rep.
  - discriminate.
  - lia.
  - exists 7, [], demo_waiter. change (p_threads demo_child) with [20]. split_and!; [vm_compute; reflexivity| |vm_compute; reflexivity|discriminate].
    intros H%list_elem_of_singleton. discriminate H.
  - exists k'. split_and!; [exact E|exact Hrun|exact Hp].
Defined.

(** The parent asks for an alarm. *)
Definition demo_alarm :=
  (do! timers_init; syscall_alarm 500 0) (Timers ∅ {[ timers_head := Link 0 0; timers_tail := Link 0 0 ]} demo_forked).

Definition demo_alarm_set := match demo_alarm with Done (_, s) => s | Stop _ => Timers ∅ ∅ demo_forked end.

Lemma alarm_tick_uses_freed_timer_witness : demo_alarm = Done (Num 0, demo_alarm_set) /\
  timer_update (call_handler 8 3) 500 demo_alarm_set = Stop Undefined.
Proof.
  split; [vm_compute; reflexivity|].
  eapply (alarm_tick_uses_freed_timer 8 3 demo_alarm_set 500 (Timer WAITING 0 0 0 100 AlarmHandler));
    [vm_compute; reflexivity|vm_compute; reflexivity|vm_compute; reflexivity|vm_compute; discriminate|vm_compute; reflexivity].
Defined.
