(* ===== verification/ProcessTable.v ===== *)
(** * ProcessTable: what creating and ending processes keeps true

    [accounts]: the table of processes is well formed, and the reference counts
    of the file system are exactly those of the tree plus one for every
    descriptor and every working directory of every process.  Forks and exits
    keep both. *)
From S2P Require Import Prelude Dll Sched Signal Timer Pipe Fs FsPath RamfsTree File FileProofs Heap Bitmap Valloc PageTables PageMap PmanIface Pman PmanInv PmanOps PmanWrite PmanInst PmanProps ProcMem Process.

(** ** Tables of descriptors *)

Lemma file_clone_done b s hs f : tree_inv b s hs -> RamfsTree.load s hs < 2 ^ 61 -> is_Some (dirents s !! f_dirent f) ->
  exists f', file_clone f s = Done (f', hold (f_dirent f) s) /\ f_dirent f' = f_dirent f /\ tree_inv b (hold (f_dirent f) s) (f_dirent f :: hs).
Proof.
  intros Hi Hl [e He]. assert (resident s) as Hr by (eapply tree_resident; [done|unfold RamfsTree.load in Hl; lia]).
  pose proof (res_refs s Hr _ e He). unfold file_clone. rewrite (bind_done _ _ _ _ _ (add_reference_hold _ _ _ He ltac:(lia) ltac:(lia))).
  destruct (hold_dirent (f_dirent f) (f_dirent f) s e He) as (n & Hn & _). rewrite (bind_done _ _ _ _ _ (get_dirent_done _ _ _ Hn)).
  eexists. split; [reflexivity|]. split; [done|]. by apply tree_hold.
Qed.

(** The clone of a table has the same descriptors on the same files and holds
    a reference of its own for each. *)
Lemma file_table_clone_done b t : forall s hs, tree_inv b s hs -> RamfsTree.load s hs + Z.of_nat (length t) < 2 ^ 61 ->
  (forall d, d ∈ slots t -> is_Some (dirents s !! d)) ->
  exists t' s', file_table_clone t s = Done (t', s') /\ map (fmap f_dirent) t' = map (fmap f_dirent) t /\
    tree_inv b s' (slots t ++ hs) /\ RamfsTree.load s' (slots t ++ hs) = RamfsTree.load s hs + Z.of_nat (length (slots t)) /\
    (forall d, is_Some (dirents s !! d) -> is_Some (dirents s' !! d)).
Proof.
  induction t as [|[f|] t IH]; intros s hs Hi Hl Hd; cbn [file_table_clone].
  - exists [], s. split_and!; [done..|cbn; lia|done].
  - destruct (file_clone_done b s hs f Hi ltac:(cbn [length] in Hl; lia)) as (f' & E & Ef & Hi1); [apply Hd; rewrite slots_cons; set_solver|].
    rewrite (bind_done _ _ _ _ _ E). pose proof (load_hold (f_dirent f) s hs) as Hlh.
    destruct (IH (hold (f_dirent f) s) (f_dirent f :: hs) Hi1) as (t' & s' & E' & Ht' & Hi' & Hl' & Hlive); [cbn [length] in Hl; lia| |].
    { intros d Hin. apply hold_is_Some, Hd. rewrite slots_cons. set_solver. }
    rewrite (bind_done _ _ _ _ _ E'). assert (slots t ++ f_dirent f :: hs ≡ₚ slots (Some f :: t) ++ hs) as Hp by (rewrite slots_cons; cbn; by rewrite Permutation_middle).
    exists (Some f' :: t'), s'. split_and!; [done|cbn; by rewrite Ef, Ht'|by eapply tree_perm| |].
    + rewrite slots_cons. cbn. unfold RamfsTree.load in *. rewrite length_app in *. cbn [length] in *. rewrite ?length_app in *. cbn [length] in *. lia.
    + intros d Hx. apply Hlive. by apply hold_is_Some.
  - destruct (IH s hs Hi ltac:(cbn [length] in Hl; lia)) as (t' & s' & E' & Ht' & H); [intros d Hin; by apply Hd|].
    rewrite (bind_done _ _ _ _ _ E'). destruct H as (? & ? & ?). exists (None :: t'), s'. split_and!; [done|cbn; by rewrite Ht'|done..].
Qed.

Lemma slots_dirents t : forall t', map (fmap f_dirent) t' = map (fmap f_dirent) t -> slots t' = slots t.
Proof.
  induction t as [|o t IH]; intros [|o' t']; try done. cbn [map]. intros [= Ho Ht]. rewrite !slots_cons, (IH t' Ht). f_equal.
  unfold slot_of. destruct o, o'; cbn in *; congruence.
Qed.

Lemma length_slots t : (length (slots t) <= length t)%nat.
Proof. induction t as [|[f|] t IH]; rewrite ?slots_cons; cbn; [done|lia..]. Qed.

Lemma close_all_done b t : forall s hs, tree_inv b s (slots t ++ hs) ->
  exists s', close_all fs_ops t s = Done (tt, s') /\ tree_inv b s' hs.
Proof.
  induction t as [|[f|] t IH]; intros s hs Hi; cbn [close_all].
  - by exists s.
  - rewrite slots_cons in Hi. cbn in Hi. destruct (tree_release b s (f_dirent f) (slots t ++ hs) Hi) as (s1 & E & Hi1 & _).
    destruct (IH s1 hs Hi1) as (s' & E' & Hi'). exists s'. split; [|done]. unfold file_close. by rewrite (bind_done _ _ _ _ _ E).
  - by apply IH.
Qed.

Lemma remove_first_comm p q (l : list Z) : remove_first (Z.eqb p) (remove_first (Z.eqb q) l) = remove_first (Z.eqb q) (remove_first (Z.eqb p) l).
Proof.
  induction l as [|a l IH]; [done|]. cbn [remove_first]. destruct (Z.eqb_spec p a) as [->|Hp], (Z.eqb_spec q a) as [->|Hq]; cbn [remove_first]; [done|..].
  - by rewrite Z.eqb_refl.
  - by rewrite Z.eqb_refl.
  - rewrite IH. by rewrite (proj2 (Z.eqb_neq p a) Hp), (proj2 (Z.eqb_neq q a) Hq).
Qed.

(** What the books say of a process. *)
Record entry := Entry { en_pid : Z; en_dir : Z; en_files : file_table_t }.

Section table.
Context {V F T : Type} `{HV : VirtualRanges V} `{HF : FrameAllocator F} `{HT : PageMapper T}.
Variables _SIG_COUNT SIG_CHILD : Z.
Abbreviation kernel := (@kernel V F T).
Implicit Types k : kernel.

(** ** What leaves the books alone *)

Definition entry_of (x : process_t) : entry := Entry (pid x) (p_working_dir x) (file_table x).
Definition same_books k k' : Prop :=
  k_fs k' = k_fs k /\ process_list k' = process_list k /\ current_pid k' = current_pid k /\
  (forall p, entry_of <$> processes k' !! p = entry_of <$> processes k !! p).
Definition quiet {A} (m : M kernel A) : Prop := forall k a k', m k = Done (a, k') -> same_books k k'.

Lemma same_books_refl k : same_books k k.
Proof. done. Qed.
Lemma same_books_trans k1 k2 k3 : same_books k1 k2 -> same_books k2 k3 -> same_books k1 k3.
Proof. intros (A1 & A2 & A3 & A4) (B1 & B2 & B3 & B4). split_and!; [congruence..|]. intros p. by rewrite B4. Qed.

Lemma quiet_ret {A} (a : A) : quiet (ret a).
Proof. intros k b k' [= <- <-]. done. Qed.
Lemma quiet_get : quiet get.
Proof. intros k b k' [= <- <-]. done. Qed.
Lemma quiet_bind {A B} (m : M kernel A) (f : A -> M kernel B) : quiet m -> (forall a, quiet (f a)) -> quiet (bind m f).
Proof.
  intros Hm Hf k b k' (a & k1 & H1 & H2)%bind_done_inv. eapply same_books_trans; [by eapply Hm|by eapply Hf].
Qed.
Lemma quiet_of_option {A} w (o : option A) : quiet (of_option w o).
Proof. intros k a k' H. unfold of_option in H. by destruct o; [injection H as <- <-|]. Qed.
Lemma quiet_guard w c : quiet (guard_or w c).
Proof. intros k a k' H. unfold guard_or in H. by destruct c; [injection H as <- <-|]. Qed.
Lemma quiet_sched {A} (m : M sched A) : quiet (on_k_sched m).
Proof. intros k a k' H. unfold on_k_sched, zoom in H. destruct (m _) as [[? ?]|]; [|done]. by injection H as <- <-. Qed.
Lemma quiet_mem {A} (m : M (@pmem V F T) A) : quiet (on_k_mem m).
Proof. intros k a k' H. unfold on_k_mem, zoom in H. destruct (m _) as [[? ?]|]; [|done]. by injection H as <- <-. Qed.
Lemma quiet_get_process p : quiet (get_process p).
Proof. intros k x k' H. unfold get_process, of_option in H. by destruct (processes k !! p); [injection H as <- <-|]. Qed.

(** Writing back a process with the same number, directory and files. *)
Lemma put_same_books k p x y : processes k !! p = Some x -> entry_of y = entry_of x ->
  same_books k (set_processes (<[p := y]> (processes k)) k).
Proof.
  intros Hp He. split_and!; [done..|]. intros q. cbn. destruct (decide (q = p)) as [->|].
  - rewrite lookup_insert_eq, Hp. cbn. by rewrite He.
  - by rewrite lookup_insert_ne.
Qed.

Lemma get_process_inv {B} p (f : process_t -> M kernel B) k b k' : (let! x := get_process p in f x) k = Done (b, k') ->
  exists x, processes k !! p = Some x /\ f x k = Done (b, k').
Proof.
  intros (x & k1 & H1 & H2)%bind_done_inv. unfold get_process, of_option in H1. destruct (processes k !! p) as [y|]; [|done].
  injection H1 as <- <-. by exists y.
Qed.

Lemma quiet_on_signals {A} p (m : M signals A) : quiet (on_signals p m).
Proof.
  intros k a k' (x & Hp & H2)%get_process_inv. rewrite bind_get in H2. destruct (m _) as [[b s]|] eqn:E; [|done].
  injection H2 as <- <-. exact (put_same_books k p x (set_signal_table (table s) x) Hp eq_refl).
Qed.

Lemma quiet_add_thread p t : quiet (process_add_thread p t).
Proof.
  intros k a k' (x & Hp & H)%get_process_inv. unfold guard_or in H. destruct (_ <? _); [|done].
  injection H as <- <-. by apply (put_same_books k p x).
Qed.

Create HintDb quiet.
Hint Resolve quiet_ret quiet_get quiet_of_option quiet_guard quiet_sched quiet_mem quiet_get_process quiet_on_signals quiet_add_thread : quiet.
Ltac quiet := repeat first [solve [auto with quiet nocore] | match goal with |- quiet (match ?x with _ => _ end) => destruct x end | apply quiet_bind; [|intros ?] ].

Lemma quiet_thread_create_fork c parent target a kt : quiet (thread_create_fork_k c parent target a kt).
Proof. unfold thread_create_fork_k, set_stack, on_k_pman. quiet. Qed.
Lemma quiet_signal_process p sig : quiet (signal_process _SIG_COUNT p sig).
Proof. unfold signal_process. quiet. Qed.

Lemma lookup_pid_quiet n : forall l, quiet (lookup_pid l n).
Proof. induction l as [|p l IH]; cbn [lookup_pid]; [quiet|]. apply quiet_bind; [quiet|intros x]. destruct (_ =? _); [quiet|done]. Qed.
Lemma process_lookup_quiet n : quiet (process_lookup n).
Proof. apply quiet_bind; [quiet|intros k]. apply lookup_pid_quiet. Qed.
Hint Resolve quiet_thread_create_fork quiet_signal_process process_lookup_quiet : quiet.

(** ** The books of the whole kernel *)

(** The directory entries a process holds a reference to. *)
Definition handles_of (n : entry) : list Z := en_dir n :: slots (en_files n).
Definition books k : gmap Z (entry) := entry_of <$> processes k.

Lemma same_books_eq k k' : same_books k k' -> books k' = books k.
Proof. intros (_ & _ & _ & H). apply map_eq. intros p. unfold books. by rewrite !lookup_fmap. Qed.

(** The first process works in the root directory without a reference to it;
    every other one pays for its directory, and all of them for their files. *)
Definition handles_in (m : gmap Z (entry)) (l : list Z) : list Z :=
  l ≫= fun p => match m !! p with Some n => handles_of n | None => [] end.

Definition handles (init : Z) (k : kernel) : list Z :=
  (match books k !! init with Some n => slots (en_files n) | None => [] end) ++
  handles_in (books k) (remove_first (Z.eqb init) (process_list k)).

Record accounts (b init : Z) (k : kernel) : Prop := {
  ac_table : table_ok k;
  ac_init : exists n t, books k !! init = Some (Entry n fs_root t);
  ac_tree : tree_inv b (k_fs k) (handles init k)
}.

Lemma on_k_fs_inv {A} (m : M fs A) k a k' : on_k_fs m k = Done (a, k') -> exists f, m (k_fs k) = Done (a, f) /\ k' = with_fs f k.
Proof. unfold on_k_fs, zoom. destruct (m _) as [[b f]|]; [|done]. intros [= <- <-]. by exists f. Qed.

Lemma put_books k p x : books (set_processes (<[p := x]> (processes k)) k) = <[p := entry_of x]> (books k).
Proof. apply fmap_insert. Qed.

Lemma books_lookup k p x : processes k !! p = Some x -> books k !! p = Some (entry_of x).
Proof. intros Hp. unfold books. by rewrite lookup_fmap, Hp. Qed.

Lemma create_books p e c junk k q k' : process_create _SIG_COUNT SIG_CHILD p e c junk k = Done (q, k') ->
  q = p /\ books k' = <[p := Entry (current_pid k) fs_root file_table_init]> (books k) /\
  k_fs k' = k_fs k /\ process_list k' = p :: process_list k /\ current_pid k' = current_pid k + 1.
Proof.
  intros (c' & k0 & H0 & H1)%bind_done_inv. apply bind_done_inv in H1 as ([] & k2 & H2 & H1). unfold on_k_pman in H0.
  apply (quiet_mem _) in H0. apply (quiet_sched _) in H2. destruct (same_books_trans _ _ _ H0 H2) as (F1 & L1 & C1 & E1).
  rewrite bind_modify in H1. injection H1 as <- <-. split_and!; [done| |cbn; congruence..].
  rewrite <- (same_books_eq k k2), <- C1 by done. apply (fmap_insert entry_of).
Qed.

Lemma update_books p (g : process_t -> process_t) k a k' : (let! y := get_process p in put_process p (g y)) k = Done (a, k') ->
  exists y, processes k !! p = Some y /\ books k' = <[p := entry_of (g y)]> (books k) /\
    k_fs k' = k_fs k /\ process_list k' = process_list k /\ current_pid k' = current_pid k.
Proof. intros (y & Hy & H)%get_process_inv. injection H as <- <-. exists y. split; [done|]. split; [apply (put_books k p (g y))|done]. Qed.

Lemma quiet_step {A B} (m : M kernel A) (f : A -> M kernel B) k b k' : quiet m -> bind m f k = Done (b, k') ->
  exists a k1, same_books k k1 /\ f a k1 = Done (b, k').
Proof. intros Hm (a & k1 & H1 & H2)%bind_done_inv. exists a, k1. split; [by eapply Hm|done]. Qed.

(** What a fork does to the books. *)
Lemma fork_books parent p e c junk a kt k child k' : is_Some (processes k !! parent) -> processes k !! p = None ->
  process_create_fork _SIG_COUNT SIG_CHILD parent p e c junk a kt k = Done (child, k') ->
  exists n d t t' f, books k !! parent = Some (Entry n d t) /\ child = p /\
    file_table_clone t (k_fs k) = Done (t', f) /\ fs_directory_entry_add_reference d f = Done (tt, k_fs k') /\
    books k' = <[p := Entry (current_pid k) d t']> (books k) /\ process_list k' = p :: process_list k /\ current_pid k' = current_pid k + 1.
Proof.
  intros [x Hx] Hp H. assert (parent <> p) as Hne by congruence. unfold process_create_fork in H.
  apply bind_done_inv in H as (p0 & k1 & H1 & H). apply create_books in H1 as (_ & B1 & F1 & L1 & C1).
  apply get_process_inv in H as (x' & Hx' & H). apply get_process_inv in H as (y & Hy & H).
  assert (entry_of x' = entry_of x) as Ex.
  { apply books_lookup in Hx', Hx. rewrite B1, lookup_insert_ne in Hx' by done. congruence. }
  apply bind_done_inv in H as ([] & k2 & H2 & H). injection H2 as <-.
  pose proof (put_same_books k1 p y (set_parent_id (pid x') y) Hy eq_refl) as Q2.
  apply quiet_step in H as (_ & k3 & Q3 & H); [|quiet]. apply quiet_step in H as (t0 & k4 & Q4 & H); [|quiet].
  apply quiet_step in H as (_ & k5 & Q5 & H); [|quiet]. apply quiet_step in H as (_ & k6 & Q6 & H); [|quiet].
  pose proof (same_books_trans _ _ _ Q2 (same_books_trans _ _ _ Q3 (same_books_trans _ _ _ Q4 (same_books_trans _ _ _ Q5 Q6)))) as Q. clear Q2 Q3 Q4 Q5 Q6.
  pose proof (same_books_eq _ _ Q) as BQ. destruct Q as (FQ & LQ & CQ & _).
  apply bind_done_inv in H as (t' & k7 & (f1 & Hclone & ->)%on_k_fs_inv & H).
  apply get_process_inv in H as (z & Hz & H). apply bind_done_inv in H as ([] & k8 & H8 & H). injection H8 as <-.
  apply bind_done_inv in H as ([] & k9 & (f2 & Hadd & ->)%on_k_fs_inv & H).
  apply get_process_inv in H as (z' & Hz' & H). injection H as <- <-.
  injection Ex as En Ed Et. exists (pid x), (p_working_dir x), (file_table x), t', f1.
  rewrite <- Et, <- Ed, <- F1, <- FQ. cbn in Hadd. rewrite Ed in Hadd.
  split_and!; [apply books_lookup in Hx; unfold entry_of in Hx; congruence|done|done|by rewrite Ed| |cbn; congruence..].
  cbn in Hz, Hz'. rewrite lookup_insert_eq in Hz'. injection Hz' as <-.
  apply books_lookup in Hz. change (books (with_fs f1 k6)) with (books k6) in Hz. rewrite BQ, B1, lookup_insert_eq in Hz. injection Hz as Hz _ _.
  cbn. unfold books. cbn. rewrite !fmap_insert. change (entry_of <$> processes k6) with (books k6).
  rewrite BQ, B1, !insert_insert_eq. change (entry_of <$> processes k) with (books k). by rewrite Hz.
Qed.

(** What the end of a process does to the books. *)
Lemma kill_books (ops : Z -> fs_superblock_ops_t) fuel p k k' : process_kill ops _SIG_COUNT SIG_CHILD fuel p k = Done (tt, k') ->
  exists n d t f, books k !! p = Some (Entry n d t) /\ close_all ops t (k_fs k) = Done (tt, f) /\
    fs_directory_entry_release ops d f = Done (tt, k_fs k') /\ books k' = delete p (books k) /\
    process_list k' = remove_first (Z.eqb p) (process_list k) /\ current_pid k' = current_pid k.
Proof.
  intros (x & Hx & H)%get_process_inv. apply quiet_step in H as (_ & k1 & Q1 & H); [|quiet].
  pose proof (same_books_eq _ _ Q1) as B1. destruct Q1 as (F1 & L1 & C1 & _).
  apply get_process_inv in H as (x1 & Hx1 & H). apply books_lookup in Hx, Hx1. rewrite B1 in Hx1.
  assert (entry_of x1 = entry_of x) as Ex by congruence. injection Ex as En Ed Et.
  rewrite bind_modify in H. set (k2 := Kernel _ _ _ _ _ _) in H.
  apply quiet_step in H as (q & k3 & Q3 & H); [|quiet].
  apply quiet_step in H as (_ & k4 & Q4 & H); [|quiet]. apply quiet_step in H as (_ & k5 & Q5 & H); [|quiet].
  apply quiet_step in H as (_ & k6 & Q6 & H); [|quiet].
  pose proof (same_books_trans _ _ _ Q3 (same_books_trans _ _ _ Q4 (same_books_trans _ _ _ Q5 Q6))) as Q. clear Q3 Q4 Q5 Q6.
  pose proof (same_books_eq _ _ Q) as B6. destruct Q as (F6 & L6 & C6 & _).
  apply bind_done_inv in H as ([] & k7 & (f1 & Hclose & ->)%on_k_fs_inv & H).
  apply bind_done_inv in H as ([] & k8 & (f2 & Hrel & ->)%on_k_fs_inv & H).
  apply quiet_step in H as (c & k9 & Q9 & H); [|unfold on_k_pman; quiet].
  pose proof (same_books_eq _ _ Q9) as B9. destruct Q9 as (F9 & L9 & C9 & _). injection H as <-.
  exists (pid x), (p_working_dir x), (file_table x), f1. rewrite <- Ed, <- Et. rewrite <- F1. change (k_fs k1) with (k_fs k2). rewrite <- F6.
  cbn in Hrel, F9, L9, C9, L6, C6. rewrite <- F9 in Hrel. split_and!; [by rewrite Ed, Et, Hx|done|done| |cbn; congruence..].
  unfold books. cbn. rewrite fmap_delete. change (entry_of <$> processes k9) with (books k9). rewrite B9.
  change (books (with_fs f2 (with_fs f1 k6))) with (books k6). rewrite B6. change (books k2) with (books k1). by rewrite B1.
Qed.

(** ** Forks and exits keep the books *)

Lemma table_ok_books k : table_ok k <->
  NoDup (process_list k) /\ (forall p, (p ∈ process_list k) <-> is_Some (books k !! p)) /\
  (forall p q m n, books k !! p = Some m -> books k !! q = Some n -> en_pid m = en_pid n -> p = q) /\
  (forall p n, books k !! p = Some n -> en_pid n < current_pid k).
Proof.
  assert (forall p n, books k !! p = Some n <-> exists x, processes k !! p = Some x /\ n = entry_of x) as Hb
    by (intros p n; unfold books; rewrite lookup_fmap; apply fmap_Some).
  assert (forall p, is_Some (books k !! p) <-> is_Some (processes k !! p)) as Hs by (intros p; unfold books; rewrite lookup_fmap; apply fmap_is_Some).
  setoid_rewrite Hs. split.
  - intros [H1 H2 H3 H4]. split_and!; [done..| |].
    + intros p q m n (x & Hx & ->)%Hb (y & Hy & ->)%Hb. by apply H3.
    + intros p n (x & Hx & ->)%Hb. by eapply H4.
  - intros (H1 & H2 & H3 & H4). split; [done..| |].
    + intros p q x y Hx%books_lookup Hy%books_lookup. by apply (H3 p q _ _ Hx Hy).
    + intros p x Hx%books_lookup. apply (H4 p _ Hx).
Qed.

Lemma handles_in_ext m m' l : (forall p, p ∈ l -> m !! p = m' !! p) -> handles_in m l = handles_in m' l.
Proof.
  induction l as [|p l IH]; intros Hm; [done|]. unfold handles_in in *. cbn. rewrite IH by (intros q Hq; apply Hm; by right).
  by rewrite (Hm p ltac:(by left)).
Qed.

Lemma handles_in_remove m l p n : NoDup l -> p ∈ l -> m !! p = Some n ->
  handles_in m l ≡ₚ handles_of n ++ handles_in m (remove_first (Z.eqb p) l).
Proof.
  induction l as [|q l IH]; intros Hnd Hin Hp; [by apply elem_of_nil in Hin|]. apply NoDup_cons in Hnd as [Hni Hnd]. cbn [remove_first].
  destruct (Z.eqb_spec p q) as [->|Hne].
  - unfold handles_in. cbn. by rewrite Hp.
  - apply elem_of_cons in Hin as [|Hin]; [done|]. specialize (IH Hnd Hin Hp). unfold handles_in in *. cbn. rewrite IH.
    destruct (m !! q); cbn; solve_Permutation.
Qed.

(** Every file and directory a process refers to is an entry of the file system. *)
Lemma process_live b init k p n d t : accounts b init k -> books k !! p = Some (Entry n d t) ->
  is_Some (dirents (k_fs k) !! d) /\ (forall z, z ∈ slots t -> is_Some (dirents (k_fs k) !! z)).
Proof.
  intros [Hok (ni & ti & Hinit) Htree] Hp. apply table_ok_books in Hok as (Hnd & Hlive & _ & _).
  assert (forall z, z ∈ handles init k -> is_Some (dirents (k_fs k) !! z)) as Hh by apply Htree.
  destruct (decide (p = init)) as [->|Hne].
  - rewrite Hinit in Hp. injection Hp as <- <- <-. split; [apply Htree|]. intros z Hz. apply Hh. unfold handles. rewrite Hinit. cbn. set_solver.
  - assert (p ∈ remove_first (Z.eqb init) (process_list k)) as Hin by (apply (proj2 (remove_first_elem init _ p Hnd)); split; [apply Hlive; by eexists|done]).
    pose proof (handles_in_remove (books k) _ p _ (NoDup_remove_first (Z.eqb init) _ Hnd) Hin Hp) as Hperm.
    assert (forall z, z ∈ handles_of (Entry n d t) -> is_Some (dirents (k_fs k) !! z)) as Hz.
    { intros z Hz. apply Hh. unfold handles. rewrite Hperm. set_solver. }
    split; [apply Hz; by left|]. intros z Hz'. apply Hz. by right.
Qed.

(** Room for the references a fork takes. *)
Definition room (init : Z) k (t : file_table_t) : Prop := RamfsTree.load (k_fs k) (handles init k) + Z.of_nat (length t) < 2 ^ 60.

Lemma fork_accounts b init parent p e c junk a kt k child k' x : accounts b init k -> processes k !! parent = Some x -> processes k !! p = None ->
  room init k (file_table x) -> process_create_fork _SIG_COUNT SIG_CHILD parent p e c junk a kt k = Done (child, k') ->
  accounts b init k' /\ exists t', books k' !! p = Some (Entry (current_pid k) (p_working_dir x) t') /\ map (fmap f_dirent) t' = map (fmap f_dirent) (file_table x).
Proof.
  intros Hac Hx Hp Hroom H. destruct (fork_books _ _ _ _ _ _ _ _ _ _ ltac:(by eexists) Hp H) as (n & d & t & t' & f & Hb & -> & Hclone & Hadd & B & L & C).
  pose proof (process_live _ _ _ _ _ _ _ Hac Hb) as [Hd Ht]. apply books_lookup in Hx. assert (d = p_working_dir x /\ t = file_table x) as [Ed Et] by (unfold entry_of in Hx; split; congruence).
  destruct Hac as [Hok (ni & ti & Hinit) Htree]. pose proof Hok as (Hnd & Hlive & Hpid & Hnext)%table_ok_books.
  assert (books k !! p = None) as Hbp by (unfold books; by rewrite lookup_fmap, Hp).
  assert (p ∉ process_list k) as Hpl by (intros Hin%Hlive; rewrite Hbp in Hin; by destruct Hin).
  assert (p <> init) as Hpi by congruence. unfold room in Hroom. rewrite <- Et in Hroom.
  destruct (file_table_clone_done b t _ _ Htree ltac:(lia) Ht) as (t2 & f2 & Hclone' & Hmap & Hi2 & Hld & Hkeep).
  rewrite Hclone in Hclone'. injection Hclone' as <- <-. destruct (Hkeep d Hd) as [ed Hed].
  assert (resident f) as Hr by (eapply tree_resident; [done|unfold RamfsTree.load in *; pose proof (length_slots t); lia]).
  pose proof (res_refs f Hr _ _ Hed). rewrite (add_reference_hold _ _ _ Hed) in Hadd by lia. injection Hadd as Hadd.
  split; [|exists t'; split; [rewrite B, lookup_insert_eq; congruence|congruence]]. split.
  - apply table_ok_books. rewrite B, L, C. split_and!.
    + by apply NoDup_cons.
    + intros q. rewrite elem_of_cons, lookup_insert_is_Some', Hlive. intuition congruence.
    + intros q r m1 m2. rewrite !lookup_insert_Some. intros [[-> <-]|[Hq H1]] [[-> <-]|[Hr' H2]]; cbn; [done|..|by eapply Hpid].
      * intros E. pose proof (Hnext _ _ H2). lia.
      * intros E. pose proof (Hnext _ _ H1). lia.
    + intros q m. rewrite lookup_insert_Some. intros [[-> <-]|[_ Hq]]; cbn; [lia|]. pose proof (Hnext _ _ Hq). lia.
  - exists ni, ti. by rewrite B, lookup_insert_ne.
  - rewrite <- Hadd. apply (tree_perm b _ (d :: slots t ++ handles init k)); [|apply tree_hold; [by eexists|done]].
    unfold handles. rewrite B, L, lookup_insert_ne, Hinit by done. cbn [remove_first]. rewrite (proj2 (Z.eqb_neq init p)) by congruence.
    assert (handles_in (<[p := Entry (current_pid k) d t']> (books k)) (p :: remove_first (Z.eqb init) (process_list k)) =
      d :: slots t' ++ handles_in (books k) (remove_first (Z.eqb init) (process_list k))) as ->.
    { unfold handles_in. cbn. rewrite lookup_insert_eq. cbn. do 2 f_equal. apply handles_in_ext. intros q Hq%elem_of_remove_first.
      apply lookup_insert_ne. congruence. }
    rewrite (slots_dirents t t' Hmap). cbn. solve_Permutation.
Qed.

Lemma exit_accounts fuel b init p k k' : accounts b init k -> p <> init ->
  process_kill fs_ops _SIG_COUNT SIG_CHILD fuel p k = Done (tt, k') -> accounts b init k' /\ books k' !! p = None.
Proof.
  intros [Hok (ni & ti & Hinit) Htree] Hne H. destruct (kill_books _ _ _ _ _ H) as (n & d & t & f & Hb & Hclose & Hrel & B & L & C). clear H.
  pose proof Hok as (Hnd & Hlive & Hpid & Hnext)%table_ok_books. split; [|rewrite B; apply lookup_delete_eq]. split.
  - apply table_ok_books. rewrite B, L, C. split_and!; [by apply NoDup_remove_first|..].
    + intros q. rewrite remove_first_elem, Hlive by done. split.
      * intros [Hq Hqp]. by rewrite lookup_delete_ne.
      * intros [m [Hq Hm]%lookup_delete_Some]. split; [by eexists|done].
    + intros q r m1 m2 [_ H1]%lookup_delete_Some [_ H2]%lookup_delete_Some. by eapply Hpid.
    + intros q m [_ Hq]%lookup_delete_Some. by eapply Hnext.
  - exists ni, ti. by rewrite B, lookup_delete_ne.
  - assert (p ∈ remove_first (Z.eqb init) (process_list k)) as Hin
      by (apply (proj2 (remove_first_elem init _ p Hnd)); split; [apply Hlive; by eexists|done]).
    set (rest := remove_first (Z.eqb p) (remove_first (Z.eqb init) (process_list k))).
    assert (handles init k' = slots ti ++ handles_in (books k) rest) as ->.
    { unfold handles. rewrite B, L, lookup_delete_ne, Hinit by done. rewrite remove_first_comm. fold rest. cbn. f_equal.
      apply handles_in_ext. intros q Hq. apply lookup_delete_ne. intros <-.
      apply remove_first_elem in Hq as [_ Hq]; [done|]. by apply NoDup_remove_first. }
    assert (handles init k ≡ₚ slots t ++ d :: slots ti ++ handles_in (books k) rest) as Hperm.
    { unfold handles. rewrite Hinit, (handles_in_remove (books k) _ p _ (NoDup_remove_first (Z.eqb init) _ Hnd) Hin Hb). fold rest. cbn. solve_Permutation. }
    destruct (close_all_done b t _ _ (tree_perm _ _ _ _ Hperm Htree)) as (f1 & E1 & Hi1). rewrite E1 in Hclose. injection Hclose as ->.
    destruct (tree_release b f d _ Hi1) as (f2 & E2 & Hi2 & _). rewrite E2 in Hrel. injection Hrel as ->. done.
Qed.

(** ** The life of the system *)

(** A fork gives the child an address no process has; the references it takes
    fit; a process that ends is not the first. *)
Inductive life_step (init : Z) : kernel -> kernel -> Prop :=
  | forks parent p e c junk a kt x child k k' :
      processes k !! parent = Some x -> processes k !! p = None -> room init k (file_table x) ->
      process_create_fork _SIG_COUNT SIG_CHILD parent p e c junk a kt k = Done (child, k') -> life_step init k k'
  | ends fuel p k k' : p <> init ->
      process_kill fs_ops _SIG_COUNT SIG_CHILD fuel p k = Done (tt, k') -> life_step init k k'.

End table.

(** ** Concrete runs *)

Lemma demo_system_accounts : accounts 2 100 demo_system.
Proof.
  assert (forall p x, processes demo_system !! p = Some x -> p = 100 /\ x = demo_first) as Hone
    by (intros p x Hp; cbn in Hp; by apply lookup_singleton_Some in Hp as [<- <-]).
  split.
  - split.
    + apply NoDup_singleton.
    + intros p. change (process_list demo_system) with [100]. rewrite list_elem_of_singleton. split; [intros ->; by eexists|]. by intros [x [-> _]%Hone].
    + by intros p q x y [-> _]%Hone [-> _]%Hone.
    + intros p x [_ ->]%Hone. vm_compute. reflexivity.
  - by do 2 eexists.
  - apply (tree_hold 2 booted [] fs_root); [by eexists|exact booted_inv].
Qed.

