(* ===== verification/Pkfs.v ===== *)
(** * Pkfs: the file system on disc (src modules/pkfs)

    The operations of [disc_operations.c] on pages of 512 bytes.  A page is the
    bytes of its sector, and the fields of the packed structures of [pkfs.h]
    are little-endian numbers at fixed offsets, so that a page read as the
    wrong kind gives what the program would see.  The device is an interface,
    [BlockDevice]; static buffers are overwritten before they are used, or hold
    the same bytes every time, and are not part of the state. *)
From S2P Require Import Prelude CString.

(** ** Pages *)

Abbreviation page := (list Z).
Definition page_bytes : nat := 512.

Definition field (off n : nat) (p : page) : Z := le_value (take n (drop off p)).
Definition set_bytes (off : nat) (bs : list Z) (p : page) : page := take off p ++ bs ++ drop (off + length bs) p.
Definition set_field (off n : nat) (v : Z) (p : page) : page := set_bytes off (le_bytes n v) p.

Definition FILESYSTEM_NAME_MAX_SIZE : nat := 128.
Definition FILESYSTEM_FILE_DATA_PAGE_SIZE : Z := 484.
Definition FILESYSTEM_DIRECTORY_INDEX_CHILDREN_SIZE : nat := 60.
Definition FILESYSTEM_ROOT_ADDRESS : Z := 64.
(** "PKFS" *)
Definition FILESYSTEM_ROOT_SIGNATURE : list Z := [80; 75; 70; 83; 0].

Definition FILESYSTEM_PAGE_TYPE_FILE : Z := 0.
Definition FILESYSTEM_PAGE_TYPE_FILE_DATA : Z := 1.
Definition FILESYSTEM_PAGE_TYPE_DIRECTORY : Z := 2.
Definition FILESYSTEM_PAGE_TYPE_DIRECTORY_INDEX : Z := 3.

(** The tag and the type every page starts with. *)
Definition in_use (p : page) : bool := Z.testbit (field 0 1 p) 0.
Definition set_in_use (b : bool) (p : page) : page :=
  set_field 0 1 (if b then Z.lor (field 0 1 p) 1 else Z.land (field 0 1 p) (Z.lnot 1)) p.
Definition page_type (p : page) : Z := field 1 1 p.
Definition set_page_type (t : Z) (p : page) : page := set_field 1 1 t p.

(** [filesystem_root_page_t] *)
Definition signature (p : page) : list Z := drop 1 p.
Definition root_directory_address (p : page) : Z := field 5 8 p.
Definition first_free (p : page) : Z := field 13 8 p.
Definition set_first_free (a : Z) (p : page) : page := set_field 13 8 a p.

(** [filesystem_file_node_page_t], [filesystem_directory_node_page_t] *)
Definition name (p : page) : list Z := drop 2 p.
Definition node_parent (p : page) : Z := field 130 8 p.
Definition set_node_parent (a : Z) (p : page) : page := set_field 130 8 a p.
Definition root_data_address (p : page) : Z := field 138 8 p.
Definition set_root_data_address (a : Z) (p : page) : page := set_field 138 8 a p.
Definition directory_index_address (p : page) : Z := field 138 8 p.
Definition set_directory_index_address (a : Z) (p : page) : page := set_field 138 8 a p.

(** [filesystem_file_data_page_t] *)
Definition set_parent_file_address (a : Z) (p : page) : page := set_field 2 8 a p.
Definition set_prev_data_address (a : Z) (p : page) : page := set_field 10 8 a p.
Definition next_data_address (p : page) : Z := field 18 8 p.
Definition set_next_data_address (a : Z) (p : page) : page := set_field 18 8 a p.
Definition data_size (p : page) : Z := field 26 2 p.
Definition set_data_size (n : Z) (p : page) : page := set_field 26 2 n p.
Definition data (p : page) : list Z := drop 28 p.

(** [filesystem_directory_index_page_t] *)
Definition set_parent_directory_address (a : Z) (p : page) : page := set_field 2 8 a p.
Definition set_prev_index_address (a : Z) (p : page) : page := set_field 10 8 a p.
Definition next_index_address (p : page) : Z := field 18 8 p.
Definition set_next_index_address (a : Z) (p : page) : page := set_field 18 8 a p.
Definition children (p : page) : list Z := (fun i => field (26 + 8 * i) 8 p) <$> seq 0 FILESYSTEM_DIRECTORY_INDEX_CHILDREN_SIZE.
Definition set_children (cs : list Z) (p : page) : page := set_bytes 26 (cs ≫= le_bytes 8) p.

(** ** The device *)

(** Reading a sector gives its bytes or fails; writing one says whether it was
    written. *)
Class BlockDevice (D : Type) := {
  bd_read : Z -> D -> option page;
  bd_write : Z -> page -> D -> bool * D
}.

Section pkfs.
Context {D : Type} `{!BlockDevice D}.

Definition disc_write (lba : Z) (p : page) : M D bool := fun d => Done (bd_write lba p d).
Definition disc_read (lba : Z) : M D (option page) := fun d => Done (bd_read lba d, d).

(** [if (!disc_read(...)) return fail;] and the same for writing. *)
Definition on_read {A} (lba : Z) (fail : A) (k : page -> M D A) : M D A :=
  let! r := disc_read lba in match r with Some p => k p | None => ret fail end.
Definition on_write {A} (lba : Z) (p : page) (fail : A) (k : M D A) : M D A :=
  let! ok := disc_write lba p in if ok : bool then k else ret fail.

(** The first page after [node] that is not in use; [None] if a read fails. *)
Fixpoint free_after (fuel : nat) (node : Z) : M D (option Z) :=
  match fuel with
  | O => stop_with NoFuel
  | S fuel' =>
      let node := u64 (node + 1) in
      on_read node None (fun p => if in_use p then free_after fuel' node else ret (Some node))
  end.

Definition alloc_page (fuel : nat) : M D Z :=
  on_read FILESYSTEM_ROOT_ADDRESS 0 (fun root_node =>
    let alloc_node := first_free root_node in
    let! node := free_after fuel alloc_node in
    match node with
    | None => ret 0
    | Some node => on_write FILESYSTEM_ROOT_ADDRESS (set_first_free node root_node) 0 (ret alloc_node)
    end).

(** [here], [there]: the addresses of the page and of the literal. *)
Definition open_filesystem (here there root_address : Z) : M D Z :=
  on_read root_address 0 (fun root_page =>
    let! c := of_option Undefined (strcmpn (here + 1) there (signature root_page) FILESYSTEM_ROOT_SIGNATURE 4) in
    if negb (c =? 0) then ret 0 else ret (root_directory_address root_page)).

(** One index page: [inl] when the function returns. *)
Fixpoint scan_children (cs : list Z) (directory_name : list Z) : M D (Z + unit) :=
  match cs with
  | [] => ret (inr tt)
  | c :: cs' =>
      if c =? 0 then ret (inl 0)
      else on_read c (inl 0) (fun node =>
        let! r := of_option Undefined (strcmp (name node) directory_name) in
        if r =? 0 then ret (inl c) else scan_children cs' directory_name)
  end.
Fixpoint open_index (fuel : nat) (directory_index_address : Z) (directory_name : list Z) : M D Z :=
  match fuel with
  | O => stop_with NoFuel
  | S fuel' =>
      on_read directory_index_address 0 (fun directory_index =>
        let! r := scan_children (children directory_index) directory_name in
        match r with
        | inl a => ret a
        | inr _ =>
            if negb (next_index_address directory_index =? 0) then open_index fuel' (next_index_address directory_index) directory_name
            else ret 0
        end)
  end.
Definition open_directory (fuel : nat) (parent : Z) (directory_name : list Z) : M D Z :=
  on_read parent 0 (fun directory_page => open_index fuel (directory_index_address directory_page) directory_name).
Definition open_file (fuel : nat) (parent : Z) (directory_name : list Z) : M D Z :=
  on_read parent 0 (fun directory_page => open_index fuel (directory_index_address directory_page) directory_name).

(** The bytes stored in the caller's buffer: the name, at most
    [FILESYSTEM_NAME_MAX_SIZE] characters, and a terminator. *)
Fixpoint copy_name (n : nat) (l : list Z) {struct n} : list Z :=
  match n, l with
  | S n', c :: l' => if c =? 0 then [0] else c :: copy_name n' l'
  | _, _ => [0]
  end.
Definition get_directory_name (file : Z) : M D (option (list Z)) :=
  on_read file None (fun directory_node => ret (Some (copy_name FILESYSTEM_NAME_MAX_SIZE (name directory_node)))).
Definition get_file_name (file : Z) : M D (option (list Z)) :=
  on_read file None (fun file_node => ret (Some (copy_name FILESYSTEM_NAME_MAX_SIZE (name file_node)))).

Fixpoint size_loop (fuel : nat) (current_file size : Z) : M D Z :=
  match fuel with
  | O => stop_with NoFuel
  | S fuel' =>
      on_read current_file 0 (fun file_node =>
        let size := u64 (size + data_size file_node) in
        if negb (next_data_address file_node =? 0) then ret size
        else size_loop fuel' (next_data_address file_node) size)
  end.
Definition get_file_size (fuel : nat) (file : Z) : M D Z :=
  on_read file 0 (fun root_node => size_loop fuel (root_data_address root_node) 0).

(** ** Creation *)

Definition blank : page := replicate page_bytes 0.
(** The data page of a new file is marked as a file node. *)
Definition new_file_page (data_address : Z) : page :=
  set_root_data_address data_address (set_page_type FILESYSTEM_PAGE_TYPE_FILE (set_in_use true blank)).
Definition empty_data_page (parent : Z) : page :=
  set_data_size 0 (set_next_data_address 0 (set_prev_data_address 0 (set_parent_file_address parent
    (set_page_type FILESYSTEM_PAGE_TYPE_FILE (set_in_use true blank))))).
Definition new_directory_page (index_address : Z) : page :=
  set_directory_index_address index_address (set_page_type FILESYSTEM_PAGE_TYPE_DIRECTORY (set_in_use true blank)).
Definition empty_index_page (parent : Z) : page :=
  set_children (replicate FILESYSTEM_DIRECTORY_INDEX_CHILDREN_SIZE 0)
    (set_next_index_address 0 (set_prev_index_address 0 (set_parent_directory_address parent
      (set_page_type FILESYSTEM_PAGE_TYPE_DIRECTORY_INDEX (set_in_use true blank))))).

Definition create_file (fuel : nat) : M D Z :=
  on_read FILESYSTEM_ROOT_ADDRESS 0 (fun root_node =>
    let file_root_addr := first_free root_node in
    let! node := free_after fuel file_root_addr in
    match node with
    | None => ret 0
    | Some node =>
        on_write file_root_addr (new_file_page node) 0 (
        on_write node (empty_data_page file_root_addr) 0 (
        let! node' := free_after fuel node in
        match node' with
        | None => ret 0
        | Some node' => on_write FILESYSTEM_ROOT_ADDRESS (set_first_free node' root_node) 0 (ret file_root_addr)
        end))
    end).

Definition create_dir (fuel : nat) : M D Z :=
  on_read FILESYSTEM_ROOT_ADDRESS 0 (fun root_node =>
    let file_root_addr := first_free root_node in
    let! node := free_after fuel file_root_addr in
    match node with
    | None => ret 0
    | Some node =>
        on_write file_root_addr (new_directory_page node) 0 (
        on_write node (empty_index_page file_root_addr) 0 (
        let! node' := free_after fuel node in
        match node' with
        | None => ret 0
        | Some node' => on_write FILESYSTEM_ROOT_ADDRESS (set_first_free node' root_node) 0 (ret file_root_addr)
        end))
    end).

(** [strcpy] does not know the size of the name: a long one runs over the
    addresses behind it. *)
Definition link_node (directory node : Z) (new_name : list Z) : M D bool :=
  on_read directory false (fun node_page =>
  on_read (directory_index_address node_page) false (fun index_page =>
    match find_index (Z.eqb 0) (children index_page) with
    | None => ret false
    | Some i =>
        on_read node false (fun file_page =>
          let! named := of_option Undefined (strcpy (name file_page) new_name) in
          on_write node (set_node_parent directory (set_bytes 2 named file_page)) false (
          on_write (directory_index_address node_page) (set_children (<[i := node]> (children index_page)) index_page) false (
          ret true)))
    end)).

(** ** Listing *)

Record directory_iterator_t := DirectoryIterator { it_node_page : page; it_index_page : page; it_index_location : nat }.
Inductive filesystem_directory_entry_type_t := FS_DET_NONE | FS_DET_FILE | FS_DET_DIRECTORY.

Definition directory_iterator_init (directory : Z) : M D (option directory_iterator_t) :=
  on_read directory None (fun node_page =>
  on_read (directory_index_address node_page) None (fun index_page =>
    ret (Some (DirectoryIterator node_page index_page 0)))).

(** The body of the recursion below the end of the index page. *)
Definition iterator_entry (it : directory_iterator_t) : M D (filesystem_directory_entry_type_t * option Z * directory_iterator_t) :=
  let! handle := of_option Undefined (children (it_index_page it) !! it_index_location it) in
  if handle =? 0 then ret (FS_DET_NONE, None, it)
  else
    let it := DirectoryIterator (it_node_page it) (it_index_page it) (S (it_index_location it)) in
    on_read handle (FS_DET_NONE, Some handle, it) (fun p =>
      ret (if page_type p =? FILESYSTEM_PAGE_TYPE_FILE then FS_DET_FILE
           else if page_type p =? FILESYSTEM_PAGE_TYPE_DIRECTORY then FS_DET_DIRECTORY else FS_DET_NONE, Some handle, it)).
(** The entry, the handle if it was stored, and the iterator. *)
Definition directory_iterator_next (it : directory_iterator_t) : M D (filesystem_directory_entry_type_t * option Z * directory_iterator_t) :=
  if (FILESYSTEM_DIRECTORY_INDEX_CHILDREN_SIZE <=? it_index_location it)%nat then
    on_read (next_index_address (it_index_page it)) (FS_DET_NONE, None, it) (fun index_page =>
      iterator_entry (DirectoryIterator (it_node_page it) index_page 0))
  else iterator_entry it.

(** ** Reading and writing *)

(** Step over [offset] bytes: the page and the place in it. *)
Fixpoint skip_loop (fuel : nat) (data_page : page) (inner_offset offset : Z) : M D (option (page * Z)) :=
  match fuel with
  | O => stop_with NoFuel
  | S fuel' =>
      if offset >? 0 then
        if inner_offset <? data_size data_page then skip_loop fuel' data_page (inner_offset + 1) (offset - 1)
        else if next_data_address data_page =? 0 then ret None
        else on_read (next_data_address data_page) None (fun p => skip_loop fuel' p 0 offset)
      else ret (Some (data_page, inner_offset))
  end.

(** The bytes copied so far are [buffer]. *)
Fixpoint copy_loop (fuel : nat) (data_page : page) (inner_offset size : Z) (buffer : list Z) : M D (list Z) :=
  match fuel with
  | O => stop_with NoFuel
  | S fuel' =>
      if size >? 0 then
        if inner_offset <? data_size data_page then
          let! c := of_option Undefined (data data_page !! Z.to_nat inner_offset) in
          copy_loop fuel' data_page (inner_offset + 1) (size - 1) (buffer ++ [c])
        else if next_data_address data_page =? 0 then ret buffer
        else on_read (next_data_address data_page) buffer (fun p => copy_loop fuel' p 0 size buffer)
      else ret buffer
  end.

(** The bytes stored; the function returns their number. *)
Definition read_file (fuel : nat) (file size offset : Z) : M D (list Z) :=
  on_read file [] (fun file_node =>
  on_read (root_data_address file_node) [] (fun data_page =>
    let! r := skip_loop fuel data_page 0 offset in
    match r with
    | None => ret []
    | Some (data_page, inner_offset) => copy_loop fuel data_page inner_offset size []
    end)).

(** The page a write adds behind the one at [data_addr]. *)
Definition new_data_page (data_addr : Z) : page :=
  set_prev_data_address data_addr (set_page_type FILESYSTEM_PAGE_TYPE_FILE_DATA (set_in_use true blank)).

(** [pos] stays 0: it is added to only on the way out.  The link to a new page
    is set in the buffer only. *)
Fixpoint write_loop (fuel : nat) (buffer : list Z) (offset pos data_addr : Z) : M D Z :=
  match fuel with
  | O => stop_with NoFuel
  | S fuel' =>
      let size := Z.of_nat (length buffer) in
      on_read data_addr 0 (fun file_data =>
        if u64 (offset - pos) <? FILESYSTEM_FILE_DATA_PAGE_SIZE then
          let write_size := Z.min size (u64 (FILESYSTEM_FILE_DATA_PAGE_SIZE - data_size file_data)) in
          do! guard_or Undefined ((write_size =? 0) || (data_size file_data + write_size <=? FILESYSTEM_FILE_DATA_PAGE_SIZE));
          let file_data := set_bytes (28 + Z.to_nat (data_size file_data)) (take (Z.to_nat write_size) buffer) file_data in
          on_write data_addr (set_data_size (u16 (data_size file_data + write_size)) file_data) 0 (ret size)
        else if next_data_address file_data =? 0 then
          let! next := alloc_page fuel in
          on_write next (new_data_page data_addr) 0 (write_loop fuel' buffer offset pos next)
        else write_loop fuel' buffer offset pos (next_data_address file_data))
  end.
Definition write_file (fuel : nat) (file : Z) (buffer : list Z) (offset : Z) : M D Z :=
  on_read file 0 (fun file_node => write_loop fuel buffer offset 0 (root_data_address file_node)).

(** ** Deletion *)

(** Free the data pages; the lowest address freed, or [first_free]. *)
Fixpoint free_data (fuel : nat) (addr free : Z) : M D (option Z) :=
  match fuel with
  | O => stop_with NoFuel
  | S fuel' =>
      if addr =? 0 then ret (Some free)
      else
        on_read addr None (fun data_node =>
          on_write addr (set_in_use false data_node) None (free_data fuel' (next_data_address data_node) (if addr <? free then addr else free)))
  end.
(** Take the file off the first index page that lists it; [false] when reading
    or writing fails. *)
Fixpoint unlist (fuel : nat) (file index_addr : Z) : M D bool :=
  match fuel with
  | O => stop_with NoFuel
  | S fuel' =>
      if index_addr =? 0 then ret true
      else
        on_read index_addr false (fun index_node =>
          if bool_decide (file ∈ children index_node) then
            on_write index_addr (set_children (remove_first (Z.eqb file) (children index_node) ++ [0]) index_node) false (ret true)
          else unlist fuel' file (next_index_address index_node))
  end.
(** The page of the file itself stays marked as in use on the disc. *)
Definition delete_file (fuel : nat) (root_address file : Z) : M D bool :=
  on_read root_address false (fun root_page =>
  on_read file false (fun file_node =>
    let! free := free_data fuel (root_data_address file_node) (first_free root_page) in
    match free with
    | None => ret false
    | Some free =>
        let free := if file <? free then file else free in
        on_read (node_parent file_node) false (fun dir_node =>
          let! ok := unlist fuel file (directory_index_address dir_node) in
          if negb ok then ret false
          else on_write root_address (set_first_free free root_page) false (ret true))
    end)).
End pkfs.
