(* ===== verification/PkfsProofs.v ===== *)
(** * PkfsProofs: what the file system on disc does

    Fields of pages, the files of one page as bounded append-only strings,
    reading along a chain of data pages, the search for free pages, directories,
    and the writes that never return. *)
From S2P Require Import Prelude CString Pkfs.

(** ** Fields *)

Lemma length_set_bytes off bs (p : page) : (off + length bs <= length p)%nat -> length (set_bytes off bs p) = length p.
Proof. intros H. unfold set_bytes. rewrite !length_app, length_take, length_drop. lia. Qed.

Lemma slice_same off bs (p : page) : (off + length bs <= length p)%nat -> take (length bs) (drop off (set_bytes off bs p)) = bs.
Proof.
  intros H. unfold set_bytes. rewrite drop_app_ge by (rewrite length_take; lia). rewrite length_take, Nat.min_l, Nat.sub_diag, drop_0 by lia.
  by rewrite take_app_length.
Qed.

Lemma slice_other off bs off' n (p : page) : (off + length bs <= length p)%nat -> (off + length bs <= off' \/ off' + n <= off)%nat ->
  take n (drop off' (set_bytes off bs p)) = take n (drop off' p).
Proof.
  intros H Hd. apply list_eq. intros i. destruct (decide (i < n)%nat); [|by rewrite !lookup_take_ge by lia].
  rewrite !lookup_take_lt, !lookup_drop by done. unfold set_bytes. destruct Hd as [Hd|Hd].
  - rewrite lookup_app_r by (rewrite length_take; lia). rewrite length_take, Nat.min_l by lia. rewrite lookup_app_r by lia.
    rewrite lookup_drop. f_equal. lia.
  - rewrite lookup_app_l by (rewrite length_take; lia). by rewrite lookup_take_lt by lia.
Qed.

Lemma field_same off n v (p : page) : (off + n <= length p)%nat -> field off n (set_field off n v p) = v mod 256 ^ Z.of_nat n.
Proof.
  intros H. unfold field, set_field. rewrite <- (length_le_bytes n v) at 1. rewrite slice_same by by rewrite length_le_bytes. apply le_value_bytes.
Qed.
Lemma field_bytes off bs off' n (p : page) : (off + length bs <= length p)%nat -> (off + length bs <= off' \/ off' + n <= off)%nat ->
  field off' n (set_bytes off bs p) = field off' n p.
Proof. intros H Hd. unfold field. by rewrite slice_other. Qed.
Lemma field_other off n v off' n' (p : page) : (off + n <= length p)%nat -> (off + n <= off' \/ off' + n' <= off)%nat ->
  field off' n' (set_field off n v p) = field off' n' p.
Proof. intros H Hd. apply field_bytes; by rewrite length_le_bytes. Qed.
Lemma length_set_field off n v (p : page) : (off + n <= length p)%nat -> length (set_field off n v p) = length p.
Proof. intros H. apply length_set_bytes. by rewrite length_le_bytes. Qed.

(** Compute a field of a page built by setting fields. *)
Lemma length_blank : length blank = page_bytes.
Proof. apply length_replicate. Qed.
Ltac page_size := repeat first [rewrite length_set_field by page_size | rewrite length_set_bytes by page_size | rewrite length_le_bytes | rewrite length_replicate | rewrite length_blank];
  unfold page_bytes in *; lia.
Ltac page_field := repeat first [rewrite field_same by page_size | rewrite field_other by page_size].

Lemma in_use_set p : (1 <= length p)%nat -> in_use (set_in_use true p) = true.
Proof.
  intros H. unfold in_use, set_in_use. page_field. change (256 ^ Z.of_nat 1) with (2 ^ 8).
  rewrite Z.mod_pow2_bits_low by lia. rewrite Z.lor_spec. by rewrite orb_true_r.
Qed.

(** ** The device *)

Class BlockDeviceLaws (D : Type) `{!BlockDevice D} := {
  bd_sectors : D -> Z;
  bd_sectors_bound d : bd_sectors d < 2 ^ 64;
  bd_read_in d lba : is_Some (bd_read lba d) <-> 0 <= lba < bd_sectors d;
  bd_read_page d lba p : bd_read lba d = Some p -> length p = page_bytes;
  bd_write_in d lba p : 0 <= lba < bd_sectors d -> length p = page_bytes -> exists d', bd_write lba p d = (true, d') /\
    bd_sectors d' = bd_sectors d /\ bd_read lba d' = Some p /\ forall l, l <> lba -> bd_read l d' = bd_read l d
}.

Section proofs.
Context {D : Type} `{HD : BlockDeviceLaws D}.
Implicit Types d : D.

(** [d'] is [d] with sector [lba] holding [p]. *)
Definition stored (lba : Z) (p : page) d d' : Prop :=
  bd_sectors d' = bd_sectors d /\ bd_read lba d' = Some p /\ forall l, l <> lba -> bd_read l d' = bd_read l d.

Lemma on_read_done {A} lba (fail : A) k d p : bd_read lba d = Some p -> on_read lba fail k d = k p d.
Proof. intros H. unfold on_read, disc_read, bind. by rewrite H. Qed.
Lemma on_read_fail {A} lba (fail : A) k d : bd_read lba d = None -> on_read lba fail k d = Done (fail, d).
Proof. intros H. unfold on_read, disc_read, bind. by rewrite H. Qed.
Lemma on_write_done lba p d q : bd_read lba d = Some q -> length p = page_bytes ->
  exists d', stored lba p d d' /\ forall A (fail : A) k, on_write lba p fail k d = k d'.
Proof.
  intros Hr Hl. assert (0 <= lba < bd_sectors d) as Hin by (apply bd_read_in; by eexists).
  destruct (bd_write_in d lba p Hin Hl) as (d' & E & H). exists d'. split; [done|]. intros A fail k. unfold on_write, disc_write, bind. by rewrite E.
Qed.

(** ** Reading along the data pages *)

(** [p] and the pages behind it hold these pieces of the file. *)
Fixpoint page_chain d (p : page) (pieces : list (list Z)) : Prop :=
  match pieces with
  | [] => False
  | l :: rest =>
      data_size p = Z.of_nat (length l) /\ take (length l) (data p) = l /\
      match rest with
      | [] => next_data_address p = 0
      | _ => next_data_address p <> 0 /\ exists q, bd_read (next_data_address p) d = Some q /\ page_chain d q rest
      end
  end.
Definition file_chain (file : Z) d (pieces : list (list Z)) : Prop :=
  exists fp p, bd_read file d = Some fp /\ bd_read (root_data_address fp) d = Some p /\ page_chain d p pieces.

Lemma skip_loop_spec fuel : forall d p l rest inner offset, page_chain d p (l :: rest) -> (inner <= length l)%nat ->
  (offset + length rest < fuel)%nat ->
  exists r, skip_loop fuel p (Z.of_nat inner) (Z.of_nat offset) d = Done (r, d) /\
    match r with
    | None => (length (drop inner l ++ concat rest) < offset)%nat
    | Some (q, j) => exists l' rest' j', j = Z.of_nat j' /\ page_chain d q (l' :: rest') /\ (j' <= length l')%nat /\
        (length rest' <= length rest)%nat /\ drop j' l' ++ concat rest' = drop offset (drop inner l ++ concat rest)
    end.
Proof.
  induction fuel as [|fuel IH]; intros d p l rest inner offset Hc Hin Hf; [lia|]. cbn [skip_loop].
  destruct offset as [|o].
  { eexists. split; [reflexivity|]. exists l, rest, inner. by split_and!. }
  rewrite (proj2 (Z.gtb_lt _ 0)) by lia. pose proof Hc as (Hs & _ & Hnext). rewrite Hs. destruct (Z.ltb_spec (Z.of_nat inner) (Z.of_nat (length l))).
  - replace (Z.of_nat inner + 1) with (Z.of_nat (S inner)) by lia. replace (Z.of_nat (S o) - 1) with (Z.of_nat o) by lia.
    destruct (IH d p l rest (S inner) o Hc ltac:(lia) ltac:(lia)) as (r & E & Hr). exists r. split; [done|].
    destruct (lookup_lt_is_Some_2 l inner ltac:(lia)) as [c Hcl]. rewrite (drop_S l c inner Hcl). cbn [app].
    destruct r as [[q j]|]; [done|]. cbn [length]. lia.
  - destruct rest as [|l2 r2].
    + rewrite Hnext. eexists. split; [reflexivity|]. rewrite (drop_ge l) by lia. cbn [app concat length]. lia.
    + destruct Hnext as [Hnz (q & Hq & Hcq)]. rewrite (proj2 (Z.eqb_neq _ 0) Hnz), (on_read_done _ _ _ _ _ Hq).
      destruct (IH d q l2 r2 0%nat (S o) Hcq ltac:(lia) ltac:(cbn [length] in *; lia)) as (r & E & Hr). exists r. split; [done|].
      rewrite (drop_ge l) by lia. cbn [app]. rewrite drop_0 in Hr. destruct r as [[q' j]|]; [|done].
      destruct Hr as (l' & rest' & j' & ? & ? & ? & ? & ?). exists l', rest', j'. split_and!; try done. cbn [length]. lia.
Qed.

Lemma copy_loop_spec fuel : forall d p l rest inner size buffer, page_chain d p (l :: rest) -> (inner <= length l)%nat ->
  (size + length rest < fuel)%nat ->
  copy_loop fuel p (Z.of_nat inner) (Z.of_nat size) buffer d = Done (buffer ++ take size (drop inner l ++ concat rest), d).
Proof.
  induction fuel as [|fuel IH]; intros d p l rest inner size buffer Hc Hin Hf; [lia|]. cbn [copy_loop].
  destruct size as [|n]; [by rewrite app_nil_r|].
  rewrite (proj2 (Z.gtb_lt _ 0)) by lia. pose proof Hc as (Hs & Hd & Hnext). rewrite Hs. destruct (Z.ltb_spec (Z.of_nat inner) (Z.of_nat (length l))).
  - destruct (lookup_lt_is_Some_2 l inner ltac:(lia)) as [c Hcl]. rewrite Nat2Z.id.
    assert (data p !! inner = Some c) as -> by (rewrite <- Hcl, <- Hd at 1; by rewrite lookup_take_lt by lia).
    unfold of_option. rewrite (bind_done (fun s => Done (c, s)) _ d c d eq_refl).
    replace (Z.of_nat inner + 1) with (Z.of_nat (S inner)) by lia. replace (Z.of_nat (S n) - 1) with (Z.of_nat n) by lia.
    rewrite (IH d p l rest (S inner) n) by (done || lia). rewrite (drop_S l c inner Hcl). by rewrite <- app_assoc.
  - rewrite (drop_ge l) by lia. cbn [app]. destruct rest as [|l2 r2].
    + rewrite Hnext. cbn. by rewrite app_nil_r.
    + destruct Hnext as [Hnz (q & Hq & Hcq)]. rewrite (proj2 (Z.eqb_neq _ 0) Hnz), (on_read_done _ _ _ _ _ Hq).
      change 0 with (Z.of_nat 0). rewrite (IH d q l2 r2 0%nat (S n)) by (done || cbn [length] in *; lia). by rewrite drop_0.
Qed.

Lemma read_file_spec fuel d file pieces size offset : file_chain file d pieces -> (size + offset + length pieces < fuel)%nat ->
  read_file fuel file (Z.of_nat size) (Z.of_nat offset) d = Done (take size (drop offset (concat pieces)), d).
Proof.
  intros (fp & p & Hf & Hp & Hc) Hfuel. unfold read_file. rewrite (on_read_done _ _ _ _ _ Hf), (on_read_done _ _ _ _ _ Hp).
  destruct pieces as [|l rest]; [done|]. cbn [length] in Hfuel.
  destruct (skip_loop_spec fuel d p l rest 0 offset Hc ltac:(lia) ltac:(lia)) as (r & E & Hr). change (Z.of_nat 0) with 0 in E.
  rewrite (bind_done _ _ _ _ _ E). rewrite drop_0 in Hr. change (concat (l :: rest)) with (l ++ concat rest). destruct r as [[q j]|].
  - destruct Hr as (l' & rest' & j' & -> & Hcq & Hj & Hlen & <-). by rewrite copy_loop_spec with (rest := rest') (l := l') by (done || lia).
  - rewrite drop_ge by lia. by rewrite take_nil.
Qed.

(** ** Files of one page *)

(** A file whose only data page holds [l]. *)
Definition small_file (file : Z) d (l : list Z) : Prop :=
  exists fp p, bd_read file d = Some fp /\ root_data_address fp <> file /\ bd_read (root_data_address fp) d = Some p /\
    page_chain d p [l] /\ Z.of_nat (length l) <= FILESYSTEM_FILE_DATA_PAGE_SIZE.

Lemma small_file_chain file d l : small_file file d l -> file_chain file d [l].
Proof. intros (fp & p & Hf & _ & Hp & Hc & _). by exists fp, p. Qed.

(** The page with [bs] behind its bytes. *)
Lemma append_page p l bs : length p = page_bytes -> data_size p = Z.of_nat (length l) -> take (length l) (data p) = l -> next_data_address p = 0 ->
  Z.of_nat (length l) + Z.of_nat (length bs) <= FILESYSTEM_FILE_DATA_PAGE_SIZE ->
  forall p' q, q = set_bytes (28 + Z.to_nat (data_size p)) bs p -> p' = set_data_size (u16 (data_size q + Z.of_nat (length bs))) q ->
  length p' = page_bytes /\ (forall d, page_chain d p' [l ++ bs]).
Proof.
  unfold FILESYSTEM_FILE_DATA_PAGE_SIZE. intros Hp Hs Hd Hn Hb p' q. rewrite Hs, Nat2Z.id. intros Eq ->.
  assert (length q = page_bytes) as Hq by (rewrite Eq; page_size).
  assert (data_size q = Z.of_nat (length l)) as -> by (rewrite <- Hs; unfold data_size; rewrite Eq; by rewrite field_bytes by page_size).
  split; [unfold set_data_size; page_size|]. intros d. cbn [page_chain]. rewrite length_app. split_and!.
  - unfold data_size, set_data_size. page_field. unfold u16. change (256 ^ Z.of_nat 2) with (2 ^ 16). rewrite !Z.mod_small by (rewrite ?Z.mod_small; lia). lia.
  - unfold data, set_data_size, set_field. rewrite slice_other by (rewrite length_le_bytes; page_size).
    rewrite <- take_take_drop, drop_drop. rewrite Eq at 2. rewrite slice_same by page_size.
    f_equal. rewrite Eq. rewrite slice_other by page_size. exact Hd.
  - unfold next_data_address, set_data_size. page_field. rewrite Eq, field_bytes by page_size. exact Hn.
Qed.

Lemma write_small fuel file d l buffer offset : small_file file d l -> (0 < fuel)%nat -> 0 <= offset < FILESYSTEM_FILE_DATA_PAGE_SIZE ->
  exists d', write_file fuel file buffer offset d = Done (Z.of_nat (length buffer), d') /\
    small_file file d' (l ++ take (Z.to_nat FILESYSTEM_FILE_DATA_PAGE_SIZE - length l) buffer).
Proof.
  intros (fp & p & Hf & Hne & Hp & Hc & Hl) Hfuel Ho. destruct fuel as [|fuel]; [lia|]. pose proof Hc as (Hs & Hd & Hn).
  pose proof (bd_read_page _ _ _ Hp) as Hlen. unfold write_file. rewrite (on_read_done _ _ _ _ _ Hf). cbn [write_loop].
  rewrite (on_read_done _ _ _ _ _ Hp). unfold FILESYSTEM_FILE_DATA_PAGE_SIZE in *. rewrite Z.sub_0_r, u64_small by lia.
  rewrite (proj2 (Z.ltb_lt _ _)) by lia. rewrite (u64_small (484 - data_size p)) by lia.
  set (w := Z.min _ _). assert (Z.to_nat w = length (take (Z.to_nat 484 - length l) buffer)) as Hw by (rewrite length_take; lia).
  rewrite (proj2 (orb_true_iff _ _)) by (right; apply Z.leb_le; lia). cbn [guard_or]. rewrite bind_ret_l.
  assert (take (Z.to_nat w) buffer = take (Z.to_nat 484 - length l) buffer) as -> by (rewrite Hw, length_take, <- take_take; by rewrite (take_ge buffer)).
  replace w with (Z.of_nat (length (take (Z.to_nat 484 - length l) buffer))) by lia.
  match goal with |- context [on_write _ ?x] => set (p' := x) end.
  destruct (append_page p l (take (Z.to_nat 484 - length l) buffer) Hlen Hs Hd Hn ltac:(rewrite length_take; unfold FILESYSTEM_FILE_DATA_PAGE_SIZE; lia) p' _ eq_refl eq_refl) as [Hlen' Hc']. destruct (on_write_done (root_data_address fp) p' d p Hp Hlen') as (d' & (_ & Hw1 & Hw2) & E).
  rewrite E. exists d'. split; [done|]. exists fp, p'. split_and!; [by rewrite Hw2|done|done|apply Hc'|rewrite length_app, length_take; unfold FILESYSTEM_FILE_DATA_PAGE_SIZE; lia].
Qed.

Inductive disc_op := DiscWrite (buffer : list Z) (offset : Z) | DiscRead (size offset : nat).
Inductive disc_result := Wrote (n : Z) | ReadBytes (bs : list Z).
Definition run_disc (fuel : nat) (file : Z) (o : disc_op) : M D disc_result :=
  match o with
  | DiscWrite buffer offset => let! n := write_file fuel file buffer offset in ret (Wrote n)
  | DiscRead size offset => let! bs := read_file fuel file (Z.of_nat size) (Z.of_nat offset) in ret (ReadBytes bs)
  end.
(** The specification: a string that writes append to, wherever they are
    aimed, until it has 484 bytes; reads see it at any offset. *)
Definition append_op (o : disc_op) : M (list Z) disc_result :=
  match o with
  | DiscWrite buffer _ =>
      do! modify (fun l => l ++ take (Z.to_nat FILESYSTEM_FILE_DATA_PAGE_SIZE - length l) buffer); ret (Wrote (Z.of_nat (length buffer)))
  | DiscRead size offset => let! l := get in ret (ReadBytes (take size (drop offset l)))
  end.
Definition valid_disc (fuel : nat) (o : disc_op) : Prop :=
  match o with
  | DiscWrite _ offset => 0 <= offset < FILESYSTEM_FILE_DATA_PAGE_SIZE
  | DiscRead size offset => (size + offset + 1 < fuel)%nat
  end.

(** C24: A file of the disc file system that fits one page is an append-only
    string of at most 484 bytes: whatever is written at whatever offset below
    484 goes behind the last byte, what does not fit is dropped, the call
    reports the whole size all the same, and reads at any offset return the
    bytes of the string. *)
Theorem pkfs_file_appends fuel file os d l (Hrep : small_file file d l) (Hfuel : (0 < fuel)%nat) (Hv : Forall (valid_disc fuel) os) :
  outcomes_agree (small_file file) (run_all (run_disc fuel file) os d) (run_all append_op os l).
Proof.
  apply run_all_simulates; [|done]. intros o Ho. rewrite Forall_forall in Hv. specialize (Hv o Ho). clear d l Hrep. intros d l Hr.
  destruct o as [buffer offset|size offset]; cbn [run_disc append_op valid_disc] in *.
  - destruct (write_small fuel file d l buffer offset Hr Hfuel Hv) as (d' & E & Hr'). by rewrite (bind_done _ _ _ _ _ E).
  - rewrite bind_get. rewrite (bind_done _ _ _ _ _ (read_file_spec fuel d file [l] size offset (small_file_chain _ _ _ Hr) ltac:(cbn [length]; lia))).
    cbn. by rewrite app_nil_r.
Qed.

(** Reading a file of any number of pages: the bytes of its pages, one
    after the other, from the offset on, and no more than asked for, with as
    many steps as bytes are passed and pages are read. *)
Theorem read_file_pages fuel d file pieces size offset (Hc : file_chain file d pieces) (Hf : (size + offset + length pieces < fuel)%nat) :
  read_file fuel file (Z.of_nat size) (Z.of_nat offset) d = Done (take size (drop offset (concat pieces)), d).
Proof. by apply read_file_spec. Qed.

(** Counting the pages of a file stops after the first one when there are more. *)
Lemma get_file_size_first_page fuel file d l l2 rest : file_chain file d (l :: l2 :: rest) -> Z.of_nat (length l) < 2 ^ 64 ->
  get_file_size (S fuel) file d = Done (Z.of_nat (length l), d).
Proof.
  intros (fp & p & Hf & Hp & Hs & _ & Hn & _) Hl. unfold get_file_size. rewrite (on_read_done _ _ _ _ _ Hf). cbn [size_loop].
  rewrite (on_read_done _ _ _ _ _ Hp), (proj2 (Z.eqb_neq _ 0) Hn). cbn [negb]. by rewrite Hs, Z.add_0_l, u64_small by lia.
Qed.

(** ** Free pages *)

Definition used_page d (a : Z) : Prop := exists p, bd_read a d = Some p /\ in_use p = true.
Definition unused d (a : Z) : Prop := exists p, bd_read a d = Some p /\ in_use p = false.

Lemma unused_in d a : unused d a -> 0 <= a < bd_sectors d.
Proof. intros (p & Hp & _). apply bd_read_in. by eexists. Qed.

Lemma free_after_spec fuel : forall d node, 0 <= node < bd_sectors d ->
  match free_after fuel node d with
  | Done (Some n, d') => d' = d /\ node < n /\ unused d n /\ forall m, node < m < n -> used_page d m
  | Done (None, d') => d' = d /\ forall m, node < m < bd_sectors d -> used_page d m
  | Stop w => w = NoFuel /\ Z.of_nat fuel <= bd_sectors d - node
  end.
Proof.
  induction fuel as [|fuel IH]; intros d node Hn; cbn [free_after]; [split; [done|lia]|].
  pose proof (bd_sectors_bound d). rewrite u64_small by lia. destruct (bd_read (node + 1) d) as [p|] eqn:Hp.
  - rewrite (on_read_done _ _ _ _ _ Hp). assert (0 <= node + 1 < bd_sectors d) as Hin by (apply bd_read_in; by eexists).
    destruct (in_use p) eqn:Hu.
    + specialize (IH d (node + 1) Hin). assert (used_page d (node + 1)) as Hup by by exists p.
      destruct (free_after fuel (node + 1) d) as [[[n|] d']|w].
      * destruct IH as (-> & Hlt & Hun & Hall). split_and!; [done|lia|done|]. intros m Hm. destruct (decide (m = node + 1)) as [->|]; [done|]. apply Hall. lia.
      * destruct IH as (-> & Hall). split; [done|]. intros m Hm. destruct (decide (m = node + 1)) as [->|]; [done|]. apply Hall. lia.
      * destruct IH as (-> & Hle). split; [done|lia].
    + split_and!; [done|lia|by exists p|]. intros m Hm. lia.
  - rewrite (on_read_fail _ _ _ _ Hp). split; [done|]. intros m Hm. exfalso.
    assert (is_Some (bd_read (node + 1) d)) as Hs by (apply bd_read_in; lia). rewrite Hp in Hs. by destruct Hs.
Qed.

(** The page the root page names as free. *)
Definition free_page d (f : Z) : Prop := exists r, bd_read FILESYSTEM_ROOT_ADDRESS d = Some r /\ first_free r = f.

(** The root page is in use and names a page behind it that is not. *)
Definition alloc_ok d : Prop := exists r, bd_read FILESYSTEM_ROOT_ADDRESS d = Some r /\ in_use r = true /\
  FILESYSTEM_ROOT_ADDRESS < first_free r /\ unused d (first_free r).

Lemma set_first_free_facts n r : length r = page_bytes -> 0 <= n < 2 ^ 64 ->
  length (set_first_free n r) = page_bytes /\ first_free (set_first_free n r) = n /\ in_use (set_first_free n r) = in_use r.
Proof.
  intros Hl Hn. split_and!.
  - unfold set_first_free. page_size.
  - unfold first_free, set_first_free. page_field. change (256 ^ Z.of_nat 8) with (2 ^ 64). apply Z.mod_small. lia.
  - unfold in_use, set_first_free. by page_field.
Qed.

Lemma unused_stored lba p d d' a : stored lba p d d' -> a <> lba -> unused d a -> unused d' a.
Proof. intros (_ & _ & Ho) Hne (q & Hq & Hu). exists q. by rewrite Ho. Qed.

(** Recording the next free page. *)
Lemma set_free_done d r n : bd_read FILESYSTEM_ROOT_ADDRESS d = Some r -> in_use r = true -> FILESYSTEM_ROOT_ADDRESS < n -> unused d n ->
  exists d', stored FILESYSTEM_ROOT_ADDRESS (set_first_free n r) d d' /\ alloc_ok d' /\
    forall A (fail : A) k, on_write FILESYSTEM_ROOT_ADDRESS (set_first_free n r) fail k d = k d'.
Proof.
  intros Hr Hu Hlt Hn. pose proof (unused_in d n Hn). pose proof (bd_sectors_bound d).
  destruct (set_first_free_facts n r (bd_read_page _ _ _ Hr) ltac:(lia)) as (Hl & Hf & Hu').
  destruct (on_write_done FILESYSTEM_ROOT_ADDRESS (set_first_free n r) d r Hr Hl) as (d' & Hst & E). exists d'. split; [done|]. split; [|done].
  exists (set_first_free n r). split; [apply Hst|]. split; [congruence|]. rewrite Hf. split; [done|]. eapply unused_stored; [done|lia|done].
Qed.

(** ** Writing past the first page *)

Lemma new_data_page_facts a : length (new_data_page a) = page_bytes /\ next_data_address (new_data_page a) = 0 /\ in_use (new_data_page a) = true.
Proof.
  assert (length (set_in_use true blank) = page_bytes) as Hs by (unfold set_in_use; page_size).
  unfold new_data_page, set_prev_data_address, set_page_type. split_and!.
  - page_size.
  - unfold next_data_address. page_field. unfold set_in_use. by page_field.
  - unfold in_use. page_field. apply (in_use_set blank). page_size.
Qed.

Lemma write_loop_stuck fuel : forall d buffer offset a p, alloc_ok d -> bd_read a d = Some p -> next_data_address p = 0 ->
  FILESYSTEM_FILE_DATA_PAGE_SIZE <= offset < 2 ^ 64 -> write_loop fuel buffer offset 0 a d = Stop NoFuel.
Proof.
  induction fuel as [|fuel IH]; intros d buffer offset a p (r & Hr & Hu & H64 & Hff) Hp Hn Ho; cbn [write_loop]; [done|].
  unfold FILESYSTEM_FILE_DATA_PAGE_SIZE in *. rewrite (on_read_done _ _ _ _ _ Hp), Z.sub_0_r, u64_small by lia.
  rewrite (proj2 (Z.ltb_ge _ _)) by lia. rewrite Hn. cbn [Z.eqb]. destruct (new_data_page_facts a) as (Hl & Hnext & Hnu).
  pose proof (free_after_spec (S fuel) d (first_free r) (unused_in _ _ Hff)) as Hfree.
  assert (forall x d1 q, alloc_ok d1 -> bd_read x d1 = Some q -> x <> FILESYSTEM_ROOT_ADDRESS -> (forall r1, bd_read FILESYSTEM_ROOT_ADDRESS d1 = Some r1 -> first_free r1 <> x) ->
    on_write x (new_data_page a) 0 (write_loop fuel buffer offset 0 x) d1 = Stop NoFuel) as Hgo.
  { intros x d1 q (r1 & Hr1 & Hu1 & Hlt1 & Hff1) Hq Hx Hfx.
    destruct (on_write_done x (new_data_page a) d1 q Hq Hl) as (d2 & Hst & ->).
    eapply (IH d2 buffer offset x (new_data_page a)); [|apply Hst|done|done].
    exists r1. destruct Hst as (_ & _ & Hoth). split; [by rewrite Hoth|]. split; [done|]. split; [done|]. destruct Hff1 as (z & Hz & Hzu). exists z. split; [|done].
    rewrite Hoth; [done|]. by apply Hfx. }
  unfold alloc_page at 1. unfold bind at 1. rewrite (on_read_done _ _ _ _ _ Hr). unfold bind at 1.
  destruct (free_after (S fuel) (first_free r) d) as [[[n|] d']|w] eqn:Ef.
  - destruct Hfree as (-> & Hlt & Hun & _). destruct (set_free_done d r n Hr Hu ltac:(lia) Hun) as (d1 & Hst & Hok & ->). cbn.
    destruct Hff as (q & Hq & Hqu). apply (Hgo _ d1 q Hok); [|lia|].
    + destruct Hst as (_ & _ & ->); [done|lia].
    + intros r1 Hr1. destruct Hst as (_ & Hs & _). assert (r1 = set_first_free n r) as -> by congruence.
      pose proof (bd_sectors_bound d). pose proof (unused_in _ _ Hun).
      destruct (set_first_free_facts n r (bd_read_page _ _ _ Hr) ltac:(lia)) as (_ & -> & _). lia.
  - destruct Hfree as (-> & _). cbn. assert (is_Some (bd_read 0 d)) as [q Hq].
    { apply bd_read_in. assert (0 <= FILESYSTEM_ROOT_ADDRESS < bd_sectors d) by (apply bd_read_in; by eexists). unfold FILESYSTEM_ROOT_ADDRESS in *. lia. }
    apply (Hgo 0 d q); [by exists r|done|unfold FILESYSTEM_ROOT_ADDRESS; lia|].
    intros r1 Hr1. assert (r1 = r) as -> by congruence. unfold FILESYSTEM_ROOT_ADDRESS in H64. lia.
  - destruct Hfree as (-> & _). done.
Qed.

(** A write at an offset behind the first page of a file never returns.
    The loop looks for the page of the offset without ever counting the pages
    it passes; it appends pages until the disc is full, and then writes them
    over sector 0 for ever. *)
Theorem write_past_page_never_returns fuel d file l buffer offset (Hok : alloc_ok d) (Hrep : small_file file d l)
  (Ho : FILESYSTEM_FILE_DATA_PAGE_SIZE <= offset < 2 ^ 64) : write_file fuel file buffer offset d = Stop NoFuel.
Proof.
  destruct Hrep as (fp & p & Hf & _ & Hp & (_ & _ & Hn) & _). unfold write_file. rewrite (on_read_done _ _ _ _ _ Hf).
  by apply (write_loop_stuck fuel d buffer offset (root_data_address fp) p).
Qed.

(** ** Making files *)

Lemma length_in_use b : length (set_in_use b blank) = page_bytes.
Proof. unfold set_in_use. page_size. Qed.
Lemma new_file_page_facts g : 0 <= g < 2 ^ 64 ->
  length (new_file_page g) = page_bytes /\ root_data_address (new_file_page g) = g.
Proof.
  intros Hg. pose proof (length_in_use true). unfold new_file_page, set_root_data_address, set_page_type. split; [page_size|].
  unfold root_data_address. page_field. change (256 ^ Z.of_nat 8) with (2 ^ 64). apply Z.mod_small. lia.
Qed.
Lemma empty_data_page_facts f : length (empty_data_page f) = page_bytes /\ forall d, page_chain d (empty_data_page f) [[]].
Proof.
  pose proof (length_in_use true). unfold empty_data_page, set_data_size, set_next_data_address, set_prev_data_address, set_parent_file_address, set_page_type.
  split; [page_size|]. intros d. cbn [page_chain]. split_and!; [|done|].
  - unfold data_size. by page_field.
  - unfold next_data_address. by page_field.
Qed.

(** The two pages of a new node: [first] at the free page, [second] at the next. *)
Definition create_pair (first second : Z -> page) (fuel : nat) : M D Z :=
  on_read FILESYSTEM_ROOT_ADDRESS 0 (fun root_node =>
    let! node := free_after fuel (first_free root_node) in
    match node with
    | None => ret 0
    | Some node =>
        on_write (first_free root_node) (first node) 0 (
        on_write node (second (first_free root_node)) 0 (
        let! node' := free_after fuel node in
        match node' with
        | None => ret 0
        | Some node' => on_write FILESYSTEM_ROOT_ADDRESS (set_first_free node' root_node) 0 (ret (first_free root_node))
        end))
    end).

(** Nothing that is in use changes, but the root page. *)
Definition spares_used d d' : Prop := forall m, ~ unused d m -> m <> FILESYSTEM_ROOT_ADDRESS -> bd_read m d' = bd_read m d.

Lemma create_pair_spec first second fuel d : alloc_ok d -> (forall g, 0 <= g < 2 ^ 64 -> length (first g) = page_bytes) ->
  (forall f, length (second f) = page_bytes) -> bd_sectors d < Z.of_nat fuel ->
  exists a d', create_pair first second fuel d = Done (a, d') /\ spares_used d d' /\
    ((exists g, unused d a /\ unused d g /\ FILESYSTEM_ROOT_ADDRESS < a < g /\ bd_read a d' = Some (first g) /\ bd_read g d' = Some (second a) /\ alloc_ok d') \/
     (a = 0 /\ exists f, free_page d f /\ unused d f /\ ~ exists g h, f < g < h /\ unused d g /\ unused d h)).
Proof.
  intros (r & Hr & Hu & H64 & Hff) Hfirst Hsecond Hfuel. set (f := first_free r) in *. pose proof (unused_in _ _ Hff) as Hfin. pose proof (bd_sectors_bound d).
  unfold create_pair. rewrite (on_read_done _ _ _ _ _ Hr). fold f. pose proof (free_after_spec fuel d f Hfin) as H1.
  destruct (free_after fuel f d) as [[[g|] d0]|w] eqn:E1; [| |lia].
  2:{ destruct H1 as (-> & Hall). rewrite (bind_done _ _ _ _ _ E1). exists 0, d. split; [done|]. split; [done|]. right. split; [done|]. exists f. split; [by exists r|]. split; [done|].
      intros (g & h & Hfg & (p & Hp & Hpu) & _). destruct (Hall g) as (q & Hq & Hqu); [split; [lia|apply bd_read_in; by eexists]|congruence]. }
  destruct H1 as (-> & Hfg & Hg & Hbetween). rewrite (bind_done _ _ _ _ _ E1). clear E1. pose proof (unused_in _ _ Hg) as Hgin.
  destruct Hff as (pf & Hpf & Hpfu). destruct (on_write_done f (first g) d pf Hpf (Hfirst g ltac:(lia))) as (d1 & (Hs1 & Hw1 & Ho1) & ->).
  destruct Hg as (pg & Hpg & Hpgu). assert (bd_read g d1 = Some pg) as Hpg1 by (rewrite Ho1; [done|lia]).
  destruct (on_write_done g (second f) d1 pg Hpg1 (Hsecond f)) as (d2 & (Hs2 & Hw2 & Ho2) & ->).
  assert (forall m, m <> f -> m <> g -> bd_read m d2 = bd_read m d) as Hsame by (intros m Hmf Hmg; rewrite Ho2, Ho1; done).
  assert (spares_used d d2) as Hsp. { intros m Hm _. apply Hsame; intros ->; apply Hm; by eexists. }
  pose proof (free_after_spec fuel d2 g ltac:(lia)) as H2. destruct (free_after fuel g d2) as [[[h|] d0]|w] eqn:E2; [| |lia].
  - destruct H2 as (-> & Hgh & Hh & _). rewrite (bind_done _ _ _ _ _ E2). assert (bd_read FILESYSTEM_ROOT_ADDRESS d2 = Some r) as Hr2 by (rewrite Hsame; [done|lia..]).
    destruct (set_free_done d2 r h Hr2 Hu ltac:(lia) Hh) as (d3 & (Hs3 & Hw3 & Ho3) & Hok & ->). exists f, d3. split; [done|]. split.
    + intros m Hm Hm64. rewrite Ho3 by done. by apply Hsp.
    + left. exists g. split_and!; [by exists pf|by exists pg|done|done|rewrite Ho3, Ho2, Hw1; [done|lia..]|rewrite Ho3; [done|lia]|done].
  - destruct H2 as (-> & Hall). rewrite (bind_done _ _ _ _ _ E2). exists 0, d2. split; [done|]. split; [done|]. right. split; [done|]. exists f. split; [by exists r|]. split; [by exists pf|].
    intros (g' & h & [Hfg' Hgh] & (p' & Hp' & Hpu') & (q & Hq & Hqu)). assert (g <= g') as Hge.
    { destruct (Z.le_gt_cases g g') as [|Hlt]; [done|]. destruct (Hbetween g' ltac:(lia)) as (q' & Hq' & Hqu'). congruence. }
    destruct (Hall h) as (q' & Hq' & Hqu'); [split; [lia|]|].
    + rewrite Hs2, Hs1. apply bd_read_in. by eexists.
    + rewrite Hsame in Hq' by lia. congruence.
Qed.

(** Making a file takes two pages that no file uses: a node page, whose
    address is the file, and an empty data page behind it.  No page in use
    changes but the root page, which names a free page again, so the next call
    works the same way; the call gives up, returning 0, only when there are
    fewer than three free pages left. *)
Theorem create_file_fresh fuel d (Hok : alloc_ok d) (Hfuel : bd_sectors d < Z.of_nat fuel) :
  exists file d', create_file fuel d = Done (file, d') /\ spares_used d d' /\
    ((unused d file /\ small_file file d' [] /\ alloc_ok d') \/
     (file = 0 /\ exists f, unused d f /\ ~ exists g h, f < g < h /\ unused d g /\ unused d h)).
Proof.
  destruct (create_pair_spec new_file_page empty_data_page fuel d Hok) as (a & d' & E & Hsp & Hcases); [by apply new_file_page_facts|apply empty_data_page_facts|done|].
  exists a, d'. split; [exact E|]. split; [done|]. destruct Hcases as [(g & Ha & Hg & Hlt & Hra & Hrg & Hok')|(-> & f & _ & Hfull)]; [left|right; split; [done|by exists f]].
  split; [done|]. split; [|done]. pose proof (unused_in _ _ Hg). pose proof (bd_sectors_bound d).
  destruct (new_file_page_facts g ltac:(lia)) as [_ Hroot]. exists (new_file_page g), (empty_data_page a). rewrite Hroot.
  split_and!; [done|lia|done|apply empty_data_page_facts|unfold FILESYSTEM_FILE_DATA_PAGE_SIZE; cbn; lia].
Qed.

(** ** Directories *)

Lemma length_children_bytes cs : length (cs ≫= le_bytes 8) = (8 * length cs)%nat.
Proof. induction cs as [|c cs IH]; [done|]. change ((c :: cs) ≫= le_bytes 8) with (le_bytes 8 c ++ (cs ≫= le_bytes 8)). rewrite length_app, length_le_bytes, IH. cbn [length]. lia. Qed.

Lemma child_bytes cs : forall i c, cs !! i = Some c -> take 8 (drop (8 * i) (cs ≫= le_bytes 8)) = le_bytes 8 c.
Proof.
  induction cs as [|c0 cs IH]; intros [|i] c Hc; try done.
  - injection Hc as ->. change ((c :: cs) ≫= le_bytes 8) with (le_bytes 8 c ++ (cs ≫= le_bytes 8)). rewrite Nat.mul_0_r, drop_0. by rewrite take_app_length' by by rewrite length_le_bytes.
  - change ((c0 :: cs) ≫= le_bytes 8) with (le_bytes 8 c0 ++ (cs ≫= le_bytes 8)). rewrite drop_app_ge by (rewrite length_le_bytes; lia). rewrite length_le_bytes. replace (8 * S i - 8)%nat with (8 * i)%nat by lia. by apply IH.
Qed.

Lemma slice_inside off bs k n (p : page) : (off + length bs <= length p)%nat -> (k + n <= length bs)%nat ->
  take n (drop (off + k) (set_bytes off bs p)) = take n (drop k bs).
Proof.
  intros H Hk. unfold set_bytes. rewrite drop_app_ge by (rewrite length_take; lia). rewrite length_take. replace (off + k - off `min` length p)%nat with k by lia.
  rewrite drop_app_le by lia. rewrite take_app_le; [done|rewrite length_drop; lia].
Qed.

Lemma children_set cs (p : page) : length p = page_bytes -> length cs = FILESYSTEM_DIRECTORY_INDEX_CHILDREN_SIZE ->
  Forall (fun c => 0 <= c < 2 ^ 64) cs -> children (set_children cs p) = cs.
Proof.
  unfold FILESYSTEM_DIRECTORY_INDEX_CHILDREN_SIZE. intros Hp Hl Hc. apply list_eq. intros i. unfold children. rewrite list_lookup_fmap.
  destruct (decide (i < 60)%nat) as [Hi|Hi].
  - rewrite lookup_seq_lt by done. cbn [fmap option_fmap option_map]. destruct (lookup_lt_is_Some_2 cs i ltac:(lia)) as [c Hci]. rewrite Hci. f_equal.
    unfold field, set_children. rewrite Nat.add_0_l, slice_inside by (rewrite length_children_bytes; unfold page_bytes in *; lia).
    rewrite (child_bytes cs i c Hci), le_value_bytes. rewrite Forall_lookup in Hc. apply Z.mod_small. apply (Hc i c Hci).
  - rewrite lookup_seq_ge by (unfold FILESYSTEM_DIRECTORY_INDEX_CHILDREN_SIZE; lia). symmetry. apply lookup_ge_None. lia.
Qed.

Lemma length_set_children cs (p : page) : length p = page_bytes -> length cs = FILESYSTEM_DIRECTORY_INDEX_CHILDREN_SIZE ->
  length (set_children cs p) = page_bytes.
Proof. unfold FILESYSTEM_DIRECTORY_INDEX_CHILDREN_SIZE. intros Hp Hl. unfold set_children. rewrite length_set_bytes; [done|rewrite length_children_bytes; unfold page_bytes in *; lia]. Qed.
Lemma next_set_children cs (p : page) : length p = page_bytes -> length cs = FILESYSTEM_DIRECTORY_INDEX_CHILDREN_SIZE ->
  next_index_address (set_children cs p) = next_index_address p.
Proof. unfold FILESYSTEM_DIRECTORY_INDEX_CHILDREN_SIZE. intros Hp Hl. unfold next_index_address, set_children. apply field_bytes; rewrite length_children_bytes; unfold page_bytes in *; lia. Qed.

(** A node that bears a name. *)
Definition named d (a : Z) (nm : list Z) : Prop :=
  a <> 0 /\ (0 ∉ nm) /\ exists q rest, bd_read a d = Some q /\ name q = nm ++ 0 :: rest.

(** A directory of one index page with these entries, in order. *)
Record small_dir (dir index : Z) d (entries : list (list Z * Z)) : Prop := {
  sd_node : exists dp, bd_read dir d = Some dp /\ directory_index_address dp = index;
  sd_index : exists ip, bd_read index d = Some ip /\ next_index_address ip = 0 /\
    children ip = entries.*2 ++ replicate (FILESYSTEM_DIRECTORY_INDEX_CHILDREN_SIZE - length entries) 0;
  sd_size : (length entries <= FILESYSTEM_DIRECTORY_INDEX_CHILDREN_SIZE)%nat;
  sd_named : Forall (fun e => named d e.2 e.1) entries;
  sd_apart : (index ∉ entries.*2) /\ dir <> index
}.

Fixpoint find_entry (entries : list (list Z * Z)) (nm : list Z) : Z :=
  match entries with [] => 0 | (n, a) :: es => if decide (n = nm) then a else find_entry es nm end.

Lemma scan_children_spec d nm junk k entries : 0 ∉ nm -> Forall (fun e => named d e.2 e.1) entries ->
  scan_children (entries.*2 ++ replicate k 0) (nm ++ 0 :: junk) d =
  Done (if decide (nm ∈ entries.*1) then inl (find_entry entries nm) else match k with O => inr tt | _ => inl 0 end, d).
Proof.
  intros Hnm. induction entries as [|[n a] es IH]; intros Hall.
  - rewrite decide_False by apply not_elem_of_nil. by destruct k.
  - apply Forall_cons in Hall as [(Ha & Hn & q & rest & Hq & Hname) Hall]. cbn [fmap list_fmap fst snd app scan_children find_entry] in *.
    rewrite (proj2 (Z.eqb_neq a 0) Ha), (on_read_done _ _ _ _ _ Hq), Hname. destruct (strcmp_string n nm rest junk Hn Hnm) as (r & -> & Hr).
    unfold of_option. rewrite (bind_done (fun s => Done (r, s)) _ d r d eq_refl). destruct (decide (n = nm)) as [->|Hne].
    + rewrite (proj2 Hr eq_refl). cbn. rewrite decide_True by by left. done.
    + rewrite (proj2 (Z.eqb_neq r 0)) by tauto. rewrite IH by done. by rewrite (decide_ext (nm ∈ n :: es.*1) (nm ∈ es.*1)) by set_solver.
Qed.
Lemma find_entry_absent entries nm : nm ∉ entries.*1 -> find_entry entries nm = 0.
Proof. induction entries as [|[n a] es IH]; [done|]. cbn [fmap list_fmap fst find_entry]. intros [Hn Hes]%not_elem_of_cons. rewrite decide_False by congruence. by apply IH. Qed.

Lemma open_file_spec fuel dir index d entries nm junk : small_dir dir index d entries -> (0 < fuel)%nat -> 0 ∉ nm ->
  open_file fuel dir (nm ++ 0 :: junk) d = Done (find_entry entries nm, d).
Proof.
  intros [(dp & Hdp & Hix) (ip & Hip & Hnext & Hch) Hsz Hall _] Hfuel Hnm. destruct fuel as [|fuel]; [lia|]. unfold open_file.
  rewrite (on_read_done _ _ _ _ _ Hdp), Hix. cbn [open_index]. rewrite (on_read_done _ _ _ _ _ Hip), Hch.
  rewrite (bind_done _ _ _ _ _ (scan_children_spec d nm junk _ entries Hnm Hall)), Hnext. case_decide as Hin; [done|].
  rewrite find_entry_absent by done. by destruct (_ - _)%nat.
Qed.

Lemma find_free_child entries k d : Forall (fun e => named d e.2 e.1) entries ->
  find_index (Z.eqb 0) (entries.*2 ++ replicate (S k) 0) = Some (length entries).
Proof.
  induction entries as [|[n a] es IH]; intros Hall; [done|]. apply Forall_cons in Hall as [(Ha & _) Hall]. cbn [fmap list_fmap snd app find_index] in *.
  rewrite (proj2 (Z.eqb_neq 0 a)) by congruence. by rewrite IH.
Qed.

(** The page of a node with its new name and parent. *)
Lemma named_page q nm dir : length q = page_bytes -> (length nm < FILESYSTEM_NAME_MAX_SIZE)%nat ->
  forall q', q' = set_node_parent dir (set_bytes 2 (nm ++ 0 :: drop (S (length nm)) (name q)) q) ->
  length q' = page_bytes /\ exists rest, name q' = nm ++ 0 :: rest.
Proof.
  unfold FILESYSTEM_NAME_MAX_SIZE. intros Hq Hnm q' ->. set (b := nm ++ 0 :: drop (S (length nm)) (name q)).
  assert (length b = 510%nat) as Hb by (unfold b, name; rewrite length_app; cbn [length]; rewrite !length_drop; unfold page_bytes in *; lia).
  unfold set_node_parent. split; [page_size|]. exists (drop (S (length nm)) (name (set_field 130 8 dir (set_bytes 2 b q)))).
  rewrite <- (take_drop (S (length nm)) (name _)) at 1. change (nm ++ 0 :: ?x) with (nm ++ ([0] ++ x)). rewrite app_assoc. f_equal.
  unfold name at 1, set_field. rewrite slice_other by (rewrite ?length_le_bytes; page_size || lia).
  rewrite <- (Nat.add_0_r 2), slice_inside by (unfold page_bytes in *; lia). rewrite drop_0. unfold b.
  change (nm ++ 0 :: ?x) with (nm ++ ([0] ++ x)). rewrite app_assoc. apply take_app_length'. rewrite length_app. cbn. lia.
Qed.

Lemma named_elsewhere lba p d d' a nm : stored lba p d d' -> a <> lba -> named d a nm -> named d' a nm.
Proof. intros (_ & _ & Ho) Hne (Ha & Hn & q & rest & Hq & Hname). split_and!; [done|done|]. exists q, rest. by rewrite Ho. Qed.

(** The page of [node] once it is linked into [dir] as [nm]. *)
Definition linked_as (dir : Z) (nm : list Z) (q : page) : page :=
  set_node_parent dir (set_bytes 2 (nm ++ 0 :: drop (S (length nm)) (name q)) q).

(** The other fields of a page are as they were. *)
Lemma linked_as_fields dir nm q : length q = page_bytes -> (length nm < FILESYSTEM_NAME_MAX_SIZE)%nat ->
  page_type (linked_as dir nm q) = page_type q /\ in_use (linked_as dir nm q) = in_use q /\ root_data_address (linked_as dir nm q) = root_data_address q.
Proof.
  unfold FILESYSTEM_NAME_MAX_SIZE. intros Hq Hnm. unfold linked_as. set (b := nm ++ 0 :: drop (S (length nm)) (name q)).
  assert (length b = 510%nat) as Hb by (unfold b, name; rewrite length_app; cbn [length]; rewrite !length_drop; unfold page_bytes in *; lia).
  unfold page_type, in_use, root_data_address, set_node_parent. rewrite !field_other by (page_size || lia). split_and!.
  - by rewrite field_bytes by (page_size || lia).
  - by rewrite field_bytes by (page_size || lia).
  - unfold field. change 138%nat with (2 + 136)%nat at 1. rewrite slice_inside by (unfold page_bytes in *; lia).
    unfold b. change (nm ++ 0 :: ?x) with (nm ++ ([0] ++ x)). rewrite app_assoc, drop_app_ge by (rewrite length_app; cbn; lia).
    unfold name. rewrite !drop_drop, length_app. cbn [length]. by replace (2 + (S (length nm) + (136 - (length nm + 1))))%nat with 138%nat by lia.
Qed.

(** What linking writes: the page of the node, then the page of the index. *)
Lemma link_node_stores dir index d entries node q nm junk : small_dir dir index d entries ->
  (length entries < FILESYSTEM_DIRECTORY_INDEX_CHILDREN_SIZE)%nat -> bd_read node d = Some q -> node <> index ->
  (0 ∉ nm) -> (length nm < FILESYSTEM_NAME_MAX_SIZE)%nat ->
  exists ip d1 d2, bd_read index d = Some ip /\ next_index_address ip = 0 /\ stored node (linked_as dir nm q) d d1 /\
    stored index (set_children (entries.*2 ++ node :: replicate (FILESYSTEM_DIRECTORY_INDEX_CHILDREN_SIZE - S (length entries)) 0) ip) d1 d2 /\
    link_node dir node (nm ++ 0 :: junk) d = Done (true, d2).
Proof.
  intros [(dp & Hdp & Hix) (ip & Hip & Hnext & Hch) Hsz Hall _] Hroom Hq Hni Hnm Hlen.
  pose proof (bd_read_page _ _ _ Hq) as Hlq. pose proof (bd_read_page _ _ _ Hip) as Hlip. unfold link_node.
  rewrite (on_read_done _ _ _ _ _ Hdp), Hix, (on_read_done _ _ _ _ _ Hip), Hch.
  destruct (FILESYSTEM_DIRECTORY_INDEX_CHILDREN_SIZE - length entries)%nat as [|k] eqn:Ek; [lia|]. rewrite (find_free_child entries k d Hall).
  rewrite (on_read_done _ _ _ _ _ Hq). rewrite strcpy_string by (done || (unfold name, FILESYSTEM_NAME_MAX_SIZE in *; rewrite length_drop; unfold page_bytes in *; lia)).
  unfold of_option. match goal with |- context [bind (fun s => Done (?x, s)) _] => rewrite (bind_done (fun s => Done (x, s)) _ d x d eq_refl) end.
  destruct (named_page q nm dir Hlq Hlen _ eq_refl) as (Hlq' & rest & Hname). fold (linked_as dir nm q) in *.
  destruct (on_write_done node _ d q Hq Hlq') as (d1 & Hst1 & ->). pose proof Hst1 as (Hs1 & Hw1 & Ho1).
  assert (<[length entries := node]> (entries.*2 ++ replicate (S k) 0) = entries.*2 ++ node :: replicate k 0) as ->.
  { rewrite insert_app_r_alt by (rewrite length_fmap; lia). by rewrite length_fmap, Nat.sub_diag. }
  replace (FILESYSTEM_DIRECTORY_INDEX_CHILDREN_SIZE - S (length entries))%nat with k by lia. set (cs := entries.*2 ++ _).
  assert (length cs = FILESYSTEM_DIRECTORY_INDEX_CHILDREN_SIZE) as Hlcs by (unfold cs; rewrite length_app, length_fmap; cbn [length]; rewrite length_replicate; lia).
  assert (bd_read index d1 = Some ip) as Hip1 by (rewrite Ho1; done).
  destruct (on_write_done index (set_children cs ip) d1 ip Hip1 (length_set_children _ _ Hlip Hlcs)) as (d2 & Hst2 & ->).
  by exists ip, d1, d2.
Qed.

Lemma link_node_spec dir index d entries node q nm junk : small_dir dir index d entries ->
  (length entries < FILESYSTEM_DIRECTORY_INDEX_CHILDREN_SIZE)%nat -> bd_read node d = Some q -> node <> 0 -> node <> dir -> node <> index -> (node ∉ entries.*2) ->
  (0 ∉ nm) -> (length nm < FILESYSTEM_NAME_MAX_SIZE)%nat ->
  exists d', link_node dir node (nm ++ 0 :: junk) d = Done (true, d') /\ small_dir dir index d' (entries ++ [(nm, node)]) /\
    bd_read node d' = Some (linked_as dir nm q) /\ (used_page d index -> used_page d' index) /\
    forall m, m <> node -> m <> index -> bd_read m d' = bd_read m d.
Proof.
  intros Hdir Hroom Hq H0 Hnd Hni Hnew Hnm Hlen.
  destruct (link_node_stores dir index d entries node q nm junk Hdir Hroom Hq Hni Hnm Hlen) as (ip & d1 & d2 & Hip & Hnext & Hst1 & Hst2 & E).
  pose proof Hst1 as (Hs1 & Hw1 & Ho1). pose proof Hst2 as (Hs2 & Hw2 & Ho2). exists d2. split; [done|].
  destruct Hdir as [(dp & Hdp & Hix) _ Hsz Hall [Hia Hdi]]. pose proof (bd_read_page _ _ _ Hip) as Hlip.
  destruct (named_page q nm dir (bd_read_page _ _ _ Hq) Hlen _ eq_refl) as (_ & rest & Hname). fold (linked_as dir nm q) in Hname.
  set (cs := entries.*2 ++ _) in *. assert (length cs = FILESYSTEM_DIRECTORY_INDEX_CHILDREN_SIZE) as Hlcs by (unfold cs; rewrite length_app, length_fmap; cbn [length]; rewrite length_replicate; lia).
  assert (bd_read node d2 = Some (linked_as dir nm q)) as Hn2 by (rewrite Ho2; done).
  assert (Forall (fun e => named d2 e.2 e.1) (entries ++ [(nm, node)])) as Hall2.
  { apply Forall_app. split; [|constructor; [|done]; split_and!; [done|done|by eexists _, rest]].
    rewrite Forall_forall in Hall |- *. intros [n a] He. specialize (Hall _ He).
    apply (named_elsewhere index (set_children cs ip) d1 d2); [done| |apply (named_elsewhere node (linked_as dir nm q) d d1); [done| |done]]; cbn [fst snd] in *; intros ->.
    - apply Hia, list_elem_of_fmap. by exists (n, index).
    - apply Hnew, list_elem_of_fmap. by exists (n, node). }
  split; [|split; [done|split; [|intros m Hmn Hmi; rewrite Ho2, Ho1; done]]].
  2:{ intros (ip' & Hip' & Hu). exists (set_children cs ip). split; [done|]. assert (ip' = ip) as -> by congruence.
    unfold in_use, set_children in *. rewrite field_bytes; [done|rewrite length_children_bytes; unfold FILESYSTEM_DIRECTORY_INDEX_CHILDREN_SIZE, page_bytes in *; lia|lia]. }
  split.
  - exists dp. split; [|done]. rewrite Ho2, Ho1; done.
  - exists (set_children cs ip). split; [done|]. rewrite next_set_children by done. split; [done|]. rewrite children_set; [|done|done|].
    + unfold cs. rewrite fmap_app, <- app_assoc. f_equal. rewrite length_app. cbn [length fmap list_fmap app snd]. do 3 f_equal. lia.
    + unfold cs. change (node :: ?l) with ([node] ++ l). rewrite app_assoc. change [node] with ([(nm, node)].*2). rewrite <- fmap_app. apply Forall_app. split; [|apply Forall_replicate; lia].
      apply Forall_fmap. eapply Forall_impl; [exact Hall2|].
      intros [n a] (_ & _ & qq & rr & Hqq & _). cbn. pose proof (bd_sectors_bound d2). assert (0 <= a < bd_sectors d2) by (apply bd_read_in; by eexists). lia.
  - rewrite length_app. cbn [length]. lia.
  - done.
  - split; [|done]. rewrite fmap_app. cbn [fmap list_fmap snd]. rewrite elem_of_app, list_elem_of_singleton. intros [?|?]; [done|congruence].
Qed.

(** Linking a node under a name that is free makes it found under that
    name, and nothing else changes: in a directory of one index page with room
    left, looking up any name afterwards gives what it gave before, or the new
    node for the new name. *)
Theorem link_then_open fuel dir index d entries node q nm junk (Hdir : small_dir dir index d entries) (Hfuel : (0 < fuel)%nat)
  (Hroom : (length entries < FILESYSTEM_DIRECTORY_INDEX_CHILDREN_SIZE)%nat)
  (Hq : bd_read node d = Some q) (H0 : node <> 0) (Hnd : node <> dir) (Hni : node <> index) (Hnew : node ∉ entries.*2)
  (Hnm : 0 ∉ nm) (Hlen : (length nm < FILESYSTEM_NAME_MAX_SIZE)%nat) (Hfree : nm ∉ entries.*1) :
  exists d', link_node dir node (nm ++ 0 :: junk) d = Done (true, d') /\
    forall other junk', 0 ∉ other ->
      open_file fuel dir (other ++ 0 :: junk') d' = Done (if decide (other = nm) then node else find_entry entries other, d') /\
      open_file fuel dir (other ++ 0 :: junk') d = Done (find_entry entries other, d).
Proof.
  destruct (link_node_spec dir index d entries node q nm junk Hdir Hroom Hq H0 Hnd Hni Hnew Hnm Hlen) as (d' & E & Hdir' & _).
  exists d'. split; [done|]. intros other junk' Ho. split; [|by eapply open_file_spec].
  rewrite (open_file_spec fuel dir index d' _ other junk' Hdir' Hfuel Ho). f_equal. f_equal. clear - Hfree. induction entries as [|[n a] es IH]; cbn [app find_entry].
  - destruct (decide (nm = other)) as [->|]; [by rewrite decide_True|]. by rewrite decide_False by congruence.
  - cbn [fmap list_fmap fst] in Hfree. apply not_elem_of_cons in Hfree as [Hn Hfree]. rewrite (IH Hfree).
    destruct (decide (n = other)) as [->|]; [|done]. by rewrite decide_False by congruence.
Qed.

(** A directory of 60 entries takes no more, although [next_index_address]
    could name another page. *)
Lemma link_node_full dir index d entries node name0 : small_dir dir index d entries -> length entries = FILESYSTEM_DIRECTORY_INDEX_CHILDREN_SIZE ->
  link_node dir node name0 d = Done (false, d).
Proof.
  intros [(dp & Hdp & Hix) (ip & Hip & Hnext & Hch) Hsz Hall _] Hfull. unfold link_node.
  rewrite (on_read_done _ _ _ _ _ Hdp), Hix, (on_read_done _ _ _ _ _ Hip), Hch, Hfull, Nat.sub_diag, app_nil_r.
  assert (find_index (Z.eqb 0) entries.*2 = None) as ->; [|done]. clear - Hall. induction entries as [|[n a] es IH]; [done|].
  apply Forall_cons in Hall as [(Ha & _) Hall]. cbn [fmap list_fmap snd find_index] in *. rewrite (proj2 (Z.eqb_neq 0 a)) by congruence. by rewrite IH.
Qed.

End proofs.

(** ** A disc in memory *)

(** Sectors never written are blank. *)
Record memory_disc := MemoryDisc { disc_sectors : Z; disc_pages : gmap Z page }.
Definition fit (p : page) : page := take page_bytes (p ++ blank).
Definition sectors (d : memory_disc) : Z := Z.min (disc_sectors d) (2 ^ 64 - 1).
Definition put_page (lba : Z) (p : page) (d : memory_disc) : memory_disc := MemoryDisc (disc_sectors d) (<[lba := p]> (disc_pages d)).
#[export] Instance memory_device : BlockDevice memory_disc := {
  bd_read lba d := if (0 <=? lba) && (lba <? sectors d) then Some (fit (default blank (disc_pages d !! lba))) else None;
  bd_write lba p d := if (0 <=? lba) && (lba <? sectors d) then (true, put_page lba p d) else (false, d)
}.

Lemma fit_page p : length p = page_bytes -> fit p = p.
Proof. intros Hp. unfold fit. rewrite <- Hp. apply take_app_length. Qed.
Lemma length_fit p : length (fit p) = page_bytes.
Proof. unfold fit. rewrite length_take, length_app, length_blank. unfold page_bytes. lia. Qed.

Lemma in_sectors lba d : (0 <=? lba) && (lba <? sectors d) = bool_decide (0 <= lba < sectors d).
Proof. apply eq_true_iff_eq. rewrite bool_decide_eq_true. rewrite andb_true_iff, Z.leb_le, Z.ltb_lt. done. Qed.

#[export] Instance memory_laws : BlockDeviceLaws memory_disc.
Proof.
  refine {| bd_sectors := sectors |}.
  - intros d. unfold sectors. lia.
  - intros d lba. unfold bd_read, memory_device. rewrite in_sectors. case_bool_decide as H; (split; [|done]); [done|by intros [? ?]].
  - intros d lba p. unfold bd_read, memory_device. destruct (_ && _); [|done]. intros [= <-]. apply length_fit.
  - intros d lba p Hin Hp. unfold bd_read, bd_write, memory_device. rewrite in_sectors, bool_decide_true by done. eexists. split; [reflexivity|].
    split; [done|]. rewrite in_sectors, bool_decide_true by done. split.
    + cbn [disc_pages put_page]. by rewrite lookup_insert_eq, fit_page.
    + intros l Hl. rewrite !in_sectors. cbn [disc_pages put_page]. by rewrite lookup_insert_ne.
Defined.

(** Seventy sectors; the root page names sector 65 as free. *)
Definition demo_disc : memory_disc := put_page 64 (set_first_free 65 (set_in_use true blank)) (MemoryDisc 70 ∅).
Definition demo_made : memory_disc := match create_file 100 demo_disc with Done (_, d) => d | Stop _ => demo_disc end.
(** A directory, and a file that is not linked yet. *)
Definition demo_dirs : memory_disc := match (do! create_dir 100; create_file 100) demo_disc with Done (_, d) => d | Stop _ => demo_disc end.
(** A file of two pages. *)
Definition demo_chain : memory_disc :=
  put_page 66 (set_data_size 2 (set_next_data_address 67 (set_bytes 28 [1; 2] blank)))
    (put_page 67 (set_data_size 1 (set_bytes 28 [3] blank)) (put_page 65 (new_file_page 66) demo_disc)).

Lemma demo_disc_ok : alloc_ok demo_disc.
Proof. eexists. split; [vm_compute; reflexivity|]. split; [vm_compute; reflexivity|]. split; [vm_compute; reflexivity|]. eexists. split; vm_compute; reflexivity. Qed.
Lemma demo_made_ok : alloc_ok demo_made.
Proof. eexists. split; [vm_compute; reflexivity|]. split; [vm_compute; reflexivity|]. split; [vm_compute; reflexivity|]. eexists. split; vm_compute; reflexivity. Qed.
Lemma demo_made_file : small_file 65 demo_made [].
Proof.
  exists (new_file_page 66), (empty_data_page 65). split_and!; [vm_compute; reflexivity|vm_compute; discriminate|vm_compute; reflexivity| |done].
  apply empty_data_page_facts.
Qed.

Lemma create_file_fresh_witness : exists file d', create_file 100 demo_disc = Done (file, d') /\ unused demo_disc file /\ small_file file d' [].
Proof.
  destruct (create_file_fresh (HD := memory_laws) 100 demo_disc demo_disc_ok ltac:(vm_compute; reflexivity)) as (file & d' & E & _ & [(H1 & H2 & _)|(-> & _)]).
  - exists file, d'. split_and!; [exact E|exact H1|exact H2].
  - exfalso. assert (exists d, create_file 100 demo_disc = Done (65, d)) as [d E'] by (eexists; vm_compute; reflexivity).
    rewrite E' in E. discriminate E.
Defined.

Lemma pkfs_file_appends_witness :
  outcomes_agree (small_file 65) (run_all (run_disc 100 65) [DiscWrite [7; 8] 0; DiscWrite [9] 0; DiscRead 5 1] demo_made)
    (run_all append_op [DiscWrite [7; 8] 0; DiscWrite [9] 0; DiscRead 5 1] []).
Proof.
  apply (pkfs_file_appends (HD := memory_laws) 100 65 _ demo_made [] demo_made_file ltac:(lia)).
  repeat constructor; cbn; unfold FILESYSTEM_FILE_DATA_PAGE_SIZE; lia.
Defined.

Lemma write_past_page_never_returns_witness : write_file 1000 65 [1] 484 demo_made = Stop NoFuel.
Proof. apply (write_past_page_never_returns (HD := memory_laws) 1000 demo_made 65 [] [1] 484 demo_made_ok demo_made_file). unfold FILESYSTEM_FILE_DATA_PAGE_SIZE. lia. Defined.

Lemma read_file_pages_witness : read_file 20 65 4 1 demo_chain = Done ([2; 3], demo_chain).
Proof.
  assert (file_chain 65 demo_chain [[1; 2]; [3]]) as Hc.
  { do 2 eexists. split; [vm_compute; reflexivity|]. split; [vm_compute; reflexivity|]. cbn [page_chain]. split_and!; [vm_compute; reflexivity..|vm_compute; discriminate|].
    eexists. split; [vm_compute; reflexivity|]. split_and!; vm_compute; reflexivity. }
  exact (read_file_pages 20 demo_chain 65 [[1; 2]; [3]] 4 1 Hc ltac:(cbn; lia)).
Defined.

Lemma link_then_open_witness : exists d', link_node 65 67 [102; 0] demo_dirs = Done (true, d') /\
  open_file 5 65 [102; 0] d' = Done (67, d') /\ open_file 5 65 [102; 0] demo_dirs = Done (0, demo_dirs).
Proof.
  assert (0 ∉ [102]) as Hn by set_solver.
  assert (small_dir 65 66 demo_dirs []) as Hd.
  { split; [|eexists; split; [|split]| | |]; [eexists; split|..]; try (vm_compute; reflexivity); [cbn; lia|done|]. split; [by intros ?%elem_of_nil|done]. }
  assert (exists q, bd_read 67 demo_dirs = Some q) as [q Hq] by (eexists; vm_compute; reflexivity).
  destruct (link_then_open (HD := memory_laws) 5 65 66 demo_dirs [] 67 q [102] [] Hd) as (d' & E & Ho); [lia|cbn; unfold FILESYSTEM_DIRECTORY_INDEX_CHILDREN_SIZE; lia|exact Hq|done|done|done|
    by intros ?%elem_of_nil|exact Hn|unfold FILESYSTEM_NAME_MAX_SIZE; cbn; lia|by intros ?%elem_of_nil|].
  exists d'. split; [exact E|]. destruct (Ho [102] [] Hn) as [H1 H2].
  rewrite (decide_True (P := [102] = [102])) in H1 by reflexivity. cbn [app find_entry] in H1, H2. split; [exact H1|exact H2].
Defined.
