(* ===== verification/Device.v ===== *)
(** * Device: the registry of devices (src/device/device.c)

    Character devices read and write bytes, block devices whole blocks.  What
    the operations of a driver do is a computation on its world [W]; [V] is the
    type of the driver's own data, the [private] pointer.  A read gives the
    number it returns and the bytes it stored in the buffer. *)
From S2P Require Import Prelude Dll Sched Wait.

Section device.
Context {V W : Type} `{!EventService W}.

Record device_char_operations_t := CharOperations {
  char_write : V -> list Z -> Z -> M W Z; char_read : V -> Z -> M W (Z * list Z) }.
(** The sizes and offsets are counted in blocks. *)
Record device_block_operations_t := BlockOperations {
  block_write : V -> list Z -> Z -> Z -> M W Z; block_read : V -> Z -> Z -> M W (Z * list Z) }.
(** The type of the device says which member of the unions is in use. *)
Inductive device_type_t :=
  | DT_CHARACTER (ops : device_char_operations_t)
  | DT_BLOCK (ops : device_block_operations_t) (block_size : Z).
Record device_t := Device { d_type : device_type_t; d_name : list Z; d_private : V; read_ready : Z }.

(** The list from [devices_head], and the devices by address. *)
Record registry := Registry { devices : list Z; objects : gmap Z device_t; drivers : W }.
Definition on_drivers {A} (m : M W A) : M registry A := zoom drivers (fun w s => Registry (devices s) (objects s) w) m.

Definition device_init : M registry unit := modify (fun s => Registry [] (objects s) (drivers s)).

(** [a]: the address of the new device, [e] that of its event. *)
Definition device_create (a e : Z) (t : device_type_t) (name : list Z) (private : V) : M registry Z :=
  do! on_drivers (ev_init e);
  do! modify (fun s => Registry (a :: devices s) (<[a := Device t name private e]> (objects s)) (drivers s));
  ret a.
Definition device_create_char (a e : Z) (name : list Z) (private : V) (operations : device_char_operations_t) : M registry Z :=
  device_create a e (DT_CHARACTER operations) name private.
Definition device_create_block (a e : Z) (name : list Z) (private : V) (operations : device_block_operations_t) (block_size : Z) : M registry Z :=
  device_create a e (DT_BLOCK operations block_size) name private.

(** The loop over the list never advances, and nothing is removed. *)
Fixpoint remove_loop (fuel : nat) (node : option Z) (device : Z) : M registry bool :=
  match fuel with
  | O => stop_with NoFuel
  | S fuel' =>
      match node with
      | None => ret false
      | Some a => if a =? device then ret true else remove_loop fuel' node device
      end
  end.
Definition device_remove (fuel : nat) (device : Z) : M registry bool :=
  let! s := get in remove_loop fuel (head (devices s)) device.

Definition get_device (a : Z) : M registry device_t := fun s => of_option Undefined (objects s !! a) s.

(** Whole blocks: what is left of [size] and [offset] is dropped. *)
Definition device_read (a size offset : Z) : M registry (Z * list Z) :=
  let! d := get_device a in
  match d_type d with
  | DT_CHARACTER ops => on_drivers (char_read ops (d_private d) size)
  | DT_BLOCK ops block_size =>
      do! guard_or Undefined (negb (block_size =? 0));
      let! r := on_drivers (block_read ops (d_private d) (size / block_size) (offset / block_size)) in
      ret (u64 (r.1 * block_size), r.2)
  end.
Definition device_write (a : Z) (buffer : list Z) (size offset : Z) : M registry Z :=
  let! d := get_device a in
  match d_type d with
  | DT_CHARACTER ops => on_drivers (char_write ops (d_private d) buffer size)
  | DT_BLOCK ops block_size =>
      do! guard_or Undefined (negb (block_size =? 0));
      let! n := on_drivers (block_write ops (d_private d) buffer (size / block_size) (offset / block_size)) in
      ret (u64 (n * block_size))
  end.

(** Removing a device that is not the newest never returns. *)
Lemma device_remove_loops device a rest s : devices s = a :: rest -> a <> device ->
  forall fuel, device_remove fuel device s = Stop NoFuel.
Proof.
  intros Hd Hne fuel. unfold device_remove. rewrite bind_get, Hd. cbn [head]. induction fuel as [|fuel IH]; [done|]. cbn [remove_loop].
  by rewrite (proj2 (Z.eqb_neq a device)).
Qed.
End device.
