(* ===== verification/Devfs.v ===== *)
(** * Devfs: devices as files (src modules/devfs/src/devfs.c)

    The list of registered devices and the directories devfs is mounted on, on
    top of the virtual file system (Fs.v) and the registry of devices
    (Device.v).  Registering a device adds a file to every mounted directory;
    mounting fills the directory with the devices registered so far. *)
From S2P Require Import Prelude Dll Sched Wait Fs FsPath RamfsTree Device.

Section devfs.
Context {V W : Type} `{!EventService W}.

Record devfs_entry_t := DevfsEntry { de_addr : Z; de_name : list Z; de_device : Z }.
(** The list from [devfs_head], and [devfs_mounts]. *)
Record devfs := Devfs { entries_list : list devfs_entry_t; devfs_mounts : list (option Z); vfs : fs; devs : registry (V := V) (W := W) }.
Definition on_vfs {A} (m : M fs A) : M devfs A := zoom vfs (fun f s => Devfs (entries_list s) (devfs_mounts s) f (devs s)) m.
Definition on_devs {A} (m : M (registry (V := V) (W := W)) A) : M devfs A := zoom devs (fun r s => Devfs (entries_list s) (devfs_mounts s) (vfs s) r) m.

Definition with_device (o : option Z) (d : fs_directory_entry_t) : fs_directory_entry_t :=
  Dirent (parent d) (parent_node d) (references d) (superblock d) (type d) (node d) o (pipe d) (socket d) (mounted_fs d) (entries d).

(** The new inode is not initialised: [garbage]. *)
Definition devfs_alloc (garbage : fs_node_t) (b : Z) : M fs (option Z) :=
  let! id := fresh_id in do! put_node id garbage; ret (Some id).
Definition devfs_free (b n : Z) : M fs unit := free_node n.

(** [heap_alloc_debug] and [fs_node_init] of an inode. *)
Definition new_node : M fs Z := let! n := fresh_id in do! put_node n fs_node_init; ret n.

Definition list_entry (dirent : Z) (entry : devfs_entry_t) : M fs unit :=
  let! n := new_node in
  let! dirent_node := fs_directory_entry_add_entry dirent (de_name entry) in
  let! new_dirent := fs_directory_entry_create FS_DEVICE (Some dirent) dirent_node in
  let! dn := nonnull dirent_node in
  do! set_enode_dirent dn (Some new_dirent);
  do! upd_dirent new_dirent (with_node (Some n));
  upd_dirent new_dirent (with_device (Some (de_device entry))).
Definition devfs_list (dirent : Z) : M devfs code :=
  let! s := get in do! for_each (entries_list s) (fun entry => on_vfs (list_entry dirent entry)); ret (Num 0).

Definition devfs_write (dirent : Z) (data : list Z) (size offset : Z) : M devfs (code * Z) :=
  let! e := on_vfs (get_dirent dirent) in
  let! device := of_option Undefined (device e) in
  let! wrote := on_devs (device_write device data size offset) in ret (Num 0, wrote).
Definition devfs_read (dirent size offset : Z) : M devfs (code * Z * list Z) :=
  let! e := on_vfs (get_dirent dirent) in
  let! device := of_option Undefined (device e) in
  let! r := on_devs (device_read device size offset) in ret (Num 0, r.1, r.2).

Definition devfs_mount (b : Z) : M devfs code :=
  let! sb := on_vfs (get_super b) in
  do! modify (fun s => Devfs (entries_list s) (devfs_mounts s ++ [mount_point sb]) (vfs s) (devs s));
  ret (Num 0).
Definition devfs_unmount (b : Z) : M devfs code :=
  let! sb := on_vfs (get_super b) in
  let! s := get in
  if existsb (fun m => bool_decide (m = mount_point sb)) (devfs_mounts s) then
    do! put (Devfs (entries_list s) (remove_first (fun m => bool_decide (m = mount_point sb)) (devfs_mounts s)) (vfs s) (devs s));
    ret (Num 0)
  else ret (Err ENOSYS).

(** The file of a new device in one mounted directory. *)
Definition mount_entry (name : list Z) (device n : Z) (mp : option Z) : M fs unit :=
  let! mp := nonnull mp in
  let! dirent_node := fs_directory_entry_add_entry mp name in
  let! new_dirent := fs_directory_entry_create FS_DEVICE (Some mp) dirent_node in
  do! upd_dirent new_dirent (with_node (Some n));
  do! upd_dirent new_dirent (with_device (Some device));
  do! fs_node_add_reference n;
  let! dn := nonnull dirent_node in
  set_enode_dirent dn (Some new_dirent).
(** [a]: the address of the new entry. *)
Definition devfs_register (a device : Z) : M devfs Z :=
  let! d := on_devs (get_device device) in
  do! modify (fun s => Devfs (DevfsEntry a (d_name d) device :: entries_list s) (devfs_mounts s) (vfs s) (devs s));
  let! n := on_vfs new_node in
  let! s := get in
  do! for_each (devfs_mounts s) (fun mp => on_vfs (mount_entry (d_name d) device n mp));
  ret a.

(** The files in the mounted directories stay. *)
Definition devfs_remove (a : Z) : M devfs code :=
  do! modify (fun s => Devfs (filter (fun e => de_addr e <> a) (entries_list s)) (devfs_mounts s) (vfs s) (devs s));
  ret (Num 0).

Definition init : M devfs code :=
  do! modify (fun s => Devfs [] [] (vfs s) (devs s)); ret (Num 0).

(** ** What a mounted directory shows *)

Definition find_device (name : list Z) (es : list devfs_entry_t) : option devfs_entry_t :=
  snd <$> list_find (fun e => de_name e = name) es.

(** Directory [mp] resolves the names of [es], to files of their devices, and
    no others. *)
Definition shows (s : fs) (es : list devfs_entry_t) (mp : Z) : Prop := exists e,
  dirents s !! mp = Some e /\ (forall n, (n ∈ entries e) -> is_Some (enodes s !! n)) /\
  forall name,
    match find_device name es with
    | Some d => exists n c ce, lookup_entry (enodes s) name (entries e) = Some n /\ enodes s !! n = Some (EntryNode (Some c) name) /\
        dirents s !! c = Some ce /\ type ce = FS_DEVICE /\ device ce = Some (de_device d)
    | None => lookup_entry (enodes s) name (entries e) = None
    end.

(** [s'] is [s] with one more file in directory [mp]. *)
Record grown (mp : Z) (name : list Z) (dev : Z) (s s' : fs) : Prop := Grown {
  gr_dir e : dirents s !! mp = Some e -> exists n c ce,
    enodes s !! n = None /\ dirents s !! c = None /\
    dirents s' = <[c := ce]> (<[mp := with_entries (n :: entries e) e]> (dirents s)) /\
    enodes s' = <[n := EntryNode (Some c) name]> (enodes s) /\ type ce = FS_DEVICE /\ device ce = Some dev;
  gr_ids : ids_below s';
  gr_supers : supers s' = supers s
}.

Lemma lookup_entry_ext (m m' : gmap Z fs_directory_entry_node_t) name l : (forall n, (n ∈ l) -> m' !! n = m !! n) ->
  lookup_entry m' name l = lookup_entry m name l.
Proof.
  induction l as [|n l IH]; intros H; cbn [lookup_entry]; [done|]. rewrite (H n) by (by left). destruct (m !! n); [|done].
  case_decide; [done|]. apply IH. intros k Hk. apply H. by right.
Qed.

Lemma find_device_cons a name dev es name' :
  find_device name' (DevfsEntry a name dev :: es) = if decide (name = name') then Some (DevfsEntry a name dev) else find_device name' es.
Proof. unfold find_device. cbn [list_find de_name]. destruct (decide (name = name')); [done|]. by destruct (list_find _ es) as [[]|]. Qed.

Section one.
Context (mp : Z) (name : list Z) (dev : Z) (s s' : fs) (e : fs_directory_entry_t).
Hypotheses (Hg : grown mp name dev s s') (He : dirents s !! mp = Some e).

Lemma grown_shows a es : shows s es mp -> find_device name es = None -> shows s' (DevfsEntry a name dev :: es) mp.
Proof using All.
  intros (e0 & He0 & Hen & Hf) Hnew. assert (e0 = e) as -> by congruence.
  destruct (gr_dir _ _ _ _ _ Hg e He) as (n & c & ce & Hn & Hc & Hd & Hes & Ht & Hdv).
  assert (c <> mp) as Hcm by congruence. exists (with_entries (n :: entries e) e). split; [rewrite Hd, lookup_insert_ne, lookup_insert_eq by done; done|].
  split. { cbn [with_entries entries]. intros k [-> |Hk]%elem_of_cons; rewrite Hes; [by rewrite lookup_insert_eq|]. apply lookup_insert_is_Some'. right. auto. }
  assert (forall l name', (forall k, k ∈ l -> is_Some (enodes s !! k)) -> lookup_entry (enodes s') name' l = lookup_entry (enodes s) name' l) as Hl.
  { intros l name' Hk. apply lookup_entry_ext. intros k Hkl. rewrite Hes, lookup_insert_ne; [done|]. intros <-. destruct (Hk n Hkl). congruence. }
  intros name'. rewrite find_device_cons. cbn [with_entries entries lookup_entry].
  assert (enodes s' !! n = Some (EntryNode (Some c) name)) as Hn' by (by rewrite Hes, lookup_insert_eq). rewrite Hn'. cbn [en_name].
  destruct (decide (name = name')) as [<-|Hne].
  - exists n, c, ce. split; [done|]. split; [done|]. split; [by rewrite Hd, lookup_insert_eq|]. done.
  - rewrite Hl by done. specialize (Hf name'). destruct (find_device name' es) as [d|]; [|done].
    destruct Hf as (n' & c' & ce' & H1 & H2 & H3 & H4 & H5). assert (n' <> n) by congruence. assert (c' <> c) by congruence.
    assert (exists ce2, dirents s' !! c' = Some ce2 /\ type ce2 = type ce' /\ device ce2 = device ce') as (ce2 & H6 & H7 & H8).
    { rewrite Hd, lookup_insert_ne by done. destruct (decide (c' = mp)) as [->|]; [rewrite lookup_insert_eq|rewrite lookup_insert_ne by done]; eexists; split; [done| |done|]; try done.
      assert (ce' = e) as -> by congruence. done. }
    exists n', c', ce2. rewrite H7, H8, Hes, lookup_insert_ne by done. done.
Qed.

Lemma grown_shows_other es mp' : mp' <> mp -> shows s es mp' -> shows s' es mp'.
Proof using All.
  intros Hne (e0 & He0 & Hen & Hf). destruct (gr_dir _ _ _ _ _ Hg e He) as (n & c & ce & Hn & Hc & Hd & Hes & Ht & Hdv).
  exists e0. split; [rewrite Hd, !lookup_insert_ne; [done|done|congruence]|].
  assert (forall k, is_Some (enodes s !! k) -> enodes s' !! k = enodes s !! k) as Hk.
  { intros k [w Hw]. rewrite Hes, lookup_insert_ne; [done|congruence]. }
  split; [intros k Hin; rewrite Hk; auto|]. intros name'. specialize (Hf name').
  assert (lookup_entry (enodes s') name' (entries e0) = lookup_entry (enodes s) name' (entries e0)) as -> by (apply lookup_entry_ext; auto).
  destruct (find_device name' es) as [d|]; [|done]. destruct Hf as (n' & c' & ce' & H1 & H2 & H3 & H4 & H5).
  assert (exists ce2, dirents s' !! c' = Some ce2 /\ type ce2 = type ce' /\ device ce2 = device ce') as (ce2 & H6 & H7 & H8).
  { rewrite Hd, lookup_insert_ne by congruence. destruct (decide (c' = mp)) as [->|]; [rewrite lookup_insert_eq|rewrite lookup_insert_ne by done]; eexists; (split; [done|]); [|done].
    assert (ce' = e) as -> by congruence. done. }
  exists n', c', ce2. rewrite H7, H8, Hk by (by eexists). done.
Qed.
End one.

(** *** One more file *)

(** What is left of the file once its entry node and directory entry exist. *)
Definition added (mp : Z) (e : fs_directory_entry_t) (name : list Z) (s : fs) : fs :=
  Fs (<[next_id s + 1 := Dirent (Some mp) (Some (next_id s)) 1 (superblock e) FS_DEVICE None None None None None []]>
        (<[mp := with_entries (next_id s :: entries e) e]> (dirents s)))
     (<[next_id s := EntryNode None name]> (enodes s)) (nodes s) (supers s) (pipes s) (filesystems s) (next_id s + 2).

Definition room (mp : Z) (e : fs_directory_entry_t) (name : list Z) (s : fs) : Prop :=
  ids_below s /\ dirents s !! mp = Some e /\ (forall n, (n ∈ entries e) -> is_Some (enodes s !! n)) /\ lookup_entry (enodes s) name (entries e) = None.

Lemma add_and_create {A} mp e name s (k : option Z -> Z -> M fs A) : room mp e name s ->
  (let! dn := fs_directory_entry_add_entry mp name in let! c := fs_directory_entry_create FS_DEVICE (Some mp) dn in k dn c) s =
    k (Some (next_id s)) (next_id s + 1) (added mp e name s).
Proof.
  intros (Hids & He & Hen & Hnone). pose proof (fs_directory_entry_add_entry_done mp name s e He Hen) as Ha. rewrite Hnone in Ha.
  rewrite (bind_done _ _ _ _ _ Ha). set (s1 := Fs _ _ _ _ _ _ _).
  pose proof (fs_directory_entry_create_done FS_DEVICE (Some mp) (Some (next_id s)) s1 (with_entries (next_id s :: entries e) e)
    ltac:(cbn; by rewrite lookup_insert_eq)) as Hcr. rewrite (bind_done _ _ _ _ _ Hcr). unfold added, s1. cbn. by replace (next_id s + 1 + 1) with (next_id s + 2) by lia.
Qed.

(** The finished file, with [ns] the inodes then. *)
Definition finished (mp : Z) (e : fs_directory_entry_t) (name : list Z) (n dev : Z) (ns : gmap Z fs_node_t) (s : fs) : fs :=
  Fs (<[next_id s + 1 := Dirent (Some mp) (Some (next_id s)) 1 (superblock e) FS_DEVICE (Some n) (Some dev) None None None []]>
        (<[mp := with_entries (next_id s :: entries e) e]> (dirents s)))
     (<[next_id s := EntryNode (Some (next_id s + 1)) name]> (enodes s)) ns (supers s) (pipes s) (filesystems s) (next_id s + 2).

Lemma finished_grown mp e name n dev ns s : room mp e name s -> (forall k, is_Some (ns !! k) -> is_Some (nodes s !! k)) ->
  grown mp name dev s (finished mp e name n dev ns s).
Proof.
  intros (Hids & He & Hen & Hnone) Hns. pose proof (ib_dirent _ Hids mp ltac:(by eexists)) as Hmp. split; [|split|done].
  - intros e' He'. assert (e' = e) as -> by congruence. exists (next_id s), (next_id s + 1). eexists.
    split; [|split; [|split; [reflexivity|split; [reflexivity|done]]]]; apply eq_None_not_Some.
    + intros H%(ib_enode _ Hids). lia.
    + intros H%(ib_dirent _ Hids). lia.
  - intros d. cbn. intros [<- |[_ [<- |[_ Hd]]%lookup_insert_is_Some]]%lookup_insert_is_Some; [lia|lia|]. pose proof (ib_dirent _ Hids d Hd). lia.
  - intros k. cbn. intros [<- |[_ Hk]]%lookup_insert_is_Some; [lia|]. pose proof (ib_enode _ Hids k Hk). lia.
  - intros k Hk. cbn in *. pose proof (ib_node _ Hids k (Hns k Hk)). lia.
Qed.

Ltac file_done :=
  unfold nonnull, of_option, fs_node_add_reference, get_node, put_node, upd_dirent, get_dirent, set_enode_dirent, get_enode, bind, modify, ret, added; cbn;
  repeat (rewrite lookup_insert_eq; cbn).

Lemma mount_entry_done mp e name dev n v s : room mp e name s -> nodes s !! n = Some v ->
  mount_entry name dev n (Some mp) s = Done (tt, finished mp e name n dev (<[n := FsNode (nd_delete v) (u64 (nd_references v + 1)) (nd_size v) (ramfs_size v) (nd_data v)]> (nodes s)) s).
Proof.
  intros Hroom Hv. unfold mount_entry. unfold nonnull at 1, of_option at 1. rewrite (bind_done _ _ s mp s eq_refl). rewrite (add_and_create mp e) by done.
  file_done. rewrite Hv. cbn. repeat (rewrite lookup_insert_eq; cbn). unfold finished, set_enodes, set_dirents, set_nodes. cbn. by rewrite !insert_insert_eq.
Qed.

Lemma new_node_done s : new_node s = Done (next_id s, Fs (dirents s) (enodes s) (<[next_id s := fs_node_init]> (nodes s)) (supers s) (pipes s) (filesystems s) (next_id s + 1)).
Proof. done. Qed.
Lemma new_node_room mp e name s : room mp e name s ->
  room mp e name (Fs (dirents s) (enodes s) (<[next_id s := fs_node_init]> (nodes s)) (supers s) (pipes s) (filesystems s) (next_id s + 1)).
Proof.
  intros ([H1 H2 H3] & Hr). pose proof (H1 mp ltac:(destruct Hr as [? _]; by eexists)). split; [|done]. split; cbn.
  - intros d Hd. specialize (H1 d Hd). lia.
  - intros d Hd. specialize (H2 d Hd). lia.
  - intros d [<- |[_ Hd]]%lookup_insert_is_Some; [|specialize (H3 d Hd)]; lia.
Qed.

Lemma list_entry_done mp e en s : room mp e (de_name en) s -> exists s', list_entry mp en s = Done (tt, s') /\ grown mp (de_name en) (de_device en) s s'.
Proof.
  intros Hroom. unfold list_entry. rewrite (bind_done _ _ _ _ _ (new_node_done s)). pose proof (new_node_room _ _ _ _ Hroom) as Hroom1. set (s1 := Fs _ _ _ _ _ _ _) in *.
  rewrite (add_and_create mp e) by done. eexists. split.
  - unfold nonnull at 1, of_option at 1. rewrite (bind_done _ _ _ (next_id s1) (added mp e (de_name en) s1) eq_refl). file_done. reflexivity.
  - unfold set_enodes, set_dirents. cbn -[s1]. rewrite !insert_insert_eq.
    pose proof (finished_grown mp e (de_name en) (next_id s) (de_device en) (nodes s1) s1 Hroom1 ltac:(done)) as Hg. unfold finished in Hg.
    destruct Hg as [Hd Hi Hs]. split; [exact Hd|exact Hi|exact Hs].
Qed.

(** ** Registration and mounting keep the directories in step *)

Lemma find_device_elem name es d : NoDup (de_name <$> es) -> find_device name es = Some d <-> (d ∈ es) /\ de_name d = name.
Proof.
  induction es as [|[a n v] es IH]; intros Hnd; [split; [done|intros [H _]; by apply elem_of_nil in H]|].
  rewrite find_device_cons. rewrite fmap_cons in Hnd. cbn in Hnd. apply NoDup_cons in Hnd as [Hni Hnd]. rewrite elem_of_cons. destruct (decide (n = name)) as [->|Hne].
  - split; [intros [= <-]; split; [by left|done]|]. intros [[->|Hin] Hn]; [done|]. exfalso. apply Hni. apply list_elem_of_fmap. by exists d.
  - rewrite IH by done. split; [intros [? ?]; split; [by right|done]|]. intros [[->|Hin] Hn]; done.
Qed.
Lemma shows_perm s es es' mp : NoDup (de_name <$> es) -> es ≡ₚ es' -> shows s es mp -> shows s es' mp.
Proof.
  intros Hnd Hp (e & He & Hen & Hf). exists e. split; [done|]. split; [done|]. intros name. specialize (Hf name).
  assert (find_device name es' = find_device name es) as ->; [|done]. apply option_eq. intros d. rewrite !find_device_elem; [by rewrite Hp|done|by rewrite <- Hp].
Qed.
Lemma find_device_None name es : find_device name es = None <-> name ∉ (de_name <$> es).
Proof.
  induction es as [|[a n v] es IH]; [split; [intros _ H; by apply elem_of_nil in H|done]|]. rewrite find_device_cons, fmap_cons, not_elem_of_cons, <- IH. cbn [de_name].
  destruct (decide (n = name)) as [->|]; [split; [done|tauto]|]. split; [|tauto]. intros ?. split; [congruence|done].
Qed.

Lemma shows_room s es mp name : ids_below s -> shows s es mp -> find_device name es = None -> exists e, room mp e name s.
Proof. intros Hi (e & He & Hen & Hf) Hn. exists e. split; [done|]. split; [done|]. split; [done|]. specialize (Hf name). by rewrite Hn in Hf. Qed.

Lemma shows_next s es mp : ids_below s -> shows s es mp -> 0 <= next_id s.
Proof. intros Hi (e & He & _). pose proof (ib_dirent _ Hi mp ltac:(by eexists)). lia. Qed.
Lemma new_node_ids s : ids_below s -> 0 <= next_id s ->
  ids_below (Fs (dirents s) (enodes s) (<[next_id s := fs_node_init]> (nodes s)) (supers s) (pipes s) (filesystems s) (next_id s + 1)).
Proof.
  intros [H1 H2 H3] H0. split; cbn.
  - intros k Hk. specialize (H1 k Hk). lia.
  - intros k Hk. specialize (H2 k Hk). lia.
  - intros k [<- |[_ Hk]]%lookup_insert_is_Some; [lia|]. specialize (H3 k Hk). lia.
Qed.

Definition blank (s : fs) (mp : Z) : Prop := exists e, dirents s !! mp = Some e /\ entries e = [].
Lemma blank_shows s mp : blank s mp -> shows s [] mp.
Proof. intros (e & He & Hl). exists e. split; [done|]. rewrite Hl. split; [intros n H; by apply elem_of_nil in H|done]. Qed.
Lemma grown_blank mp name dev s s' mp' : grown mp name dev s s' -> is_Some (dirents s !! mp) -> mp' <> mp -> blank s mp' -> blank s' mp'.
Proof.
  intros Hg [e He] Hne (e' & He' & Hl). destruct (gr_dir _ _ _ _ _ Hg e He) as (n & c & ce & _ & Hc & Hd & _). exists e'. split; [|done].
  rewrite Hd, !lookup_insert_ne; [done|congruence|congruence].
Qed.

(** What a step on directory [mp] leaves of the others. *)
Record aside (mps : list Z) (s s' : fs) : Prop := Aside {
  as_shows es mp : mp ∉ mps -> shows s es mp -> shows s' es mp;
  as_blank mp : mp ∉ mps -> blank s mp -> blank s' mp;
  as_supers : supers s' = supers s
}.
Lemma aside_refl mps s : aside mps s s.
Proof. by split. Qed.
Lemma aside_trans mps mps' s1 s2 s3 : aside mps s1 s2 -> aside mps' s2 s3 -> aside (mps ++ mps') s1 s3.
Proof.
  intros [A1 B1 C1] [A2 B2 C2]. split; [| |congruence].
  - intros es mp [H1 H2]%not_elem_of_app H. auto.
  - intros mp [H1 H2]%not_elem_of_app H. auto.
Qed.
Lemma grown_aside mp name dev s s' : grown mp name dev s s' -> is_Some (dirents s !! mp) -> aside [mp] s s'.
Proof.
  intros Hg [e He]. split; [| |apply (gr_supers _ _ _ _ _ Hg)].
  - intros es mp' Hne. eapply grown_shows_other; [exact Hg|exact He|set_solver].
  - intros mp' Hne. eapply grown_blank; [exact Hg|by eexists|set_solver].
Qed.

(** Listing into a blank directory. *)
Lemma list_entries_spec mp es : forall s old, ids_below s -> shows s old mp -> NoDup (de_name <$> es ++ old) ->
  exists s', for_each es (list_entry mp) s = Done (tt, s') /\ ids_below s' /\ shows s' (reverse es ++ old) mp /\ aside [mp] s s'.
Proof.
  induction es as [|en es IH]; intros s old Hi Hs Hnd; cbn [for_each]; [exists s; split_and!; [done|done|done|apply aside_refl]|].
  cbn [app] in Hnd. rewrite fmap_cons in Hnd. pose proof Hnd as [Hni Hnd']%NoDup_cons. rewrite fmap_app in Hni. apply not_elem_of_app in Hni as [Hni1 Hni2].
  destruct (shows_room s old mp (de_name en) Hi Hs) as [e Hroom]; [by apply find_device_None|]. destruct (list_entry_done mp e en s Hroom) as (s1 & E & Hg).
  rewrite (bind_done _ _ _ _ _ E). destruct Hroom as (_ & He & _).
  pose proof (grown_shows _ _ _ _ _ _ Hg He (de_addr en) old Hs ltac:(by apply find_device_None)) as Hs1.
  destruct (IH s1 (en :: old)) as (s2 & E2 & Hi2 & Hs2 & Ha2); [apply (gr_ids _ _ _ _ _ Hg)|by destruct en| |].
  { rewrite fmap_app, fmap_cons. rewrite fmap_app in Hnd. change (de_name en :: (de_name <$> es) ++ (de_name <$> old)) with ([de_name en] ++ (de_name <$> es) ++ (de_name <$> old)) in Hnd.
    by rewrite <- Permutation_middle. }
  exists s2. split; [done|]. split; [done|]. split; [by rewrite reverse_cons, <- app_assoc|].
  pose proof (aside_trans _ _ _ _ _ (grown_aside _ _ _ _ _ Hg ltac:(by eexists)) Ha2) as [A B C]. split; [| |done]; intros; [apply A|apply B]; set_solver.
Qed.

(** The new file in every mounted directory. *)
Lemma mount_entries_spec a name dev n es mps : forall s, ids_below s -> NoDup mps -> is_Some (nodes s !! n) -> find_device name es = None ->
  (forall mp, (mp ∈ mps) -> shows s es mp) ->
  exists s', for_each (Some <$> mps) (mount_entry name dev n) s = Done (tt, s') /\ ids_below s' /\ aside mps s s' /\
    (forall mp, (mp ∈ mps) -> shows s' (DevfsEntry a name dev :: es) mp).
Proof.
  induction mps as [|mp mps IH]; intros s Hi Hnd [v Hv] Hnew Hall; cbn [for_each fmap list_fmap].
  { exists s. split; [done|]. split; [done|]. split; [apply aside_refl|]. intros mp H. by apply elem_of_nil in H. }
  apply NoDup_cons in Hnd as [Hni Hnd]. pose proof (Hall mp ltac:(by left)) as Hs. destruct (shows_room s es mp name Hi Hs Hnew) as [e Hroom].
  pose proof (mount_entry_done mp e name dev n v s Hroom Hv) as E. rewrite (bind_done _ _ _ _ _ E). set (s1 := finished _ _ _ _ _ _ _) in *.
  assert (grown mp name dev s s1) as Hg. { apply finished_grown; [done|]. intros k [<- |[_ Hk]]%lookup_insert_is_Some; [by eexists|done]. }
  destruct Hroom as (_ & He & _). pose proof (grown_aside _ _ _ _ _ Hg ltac:(by eexists)) as Ha1.
  destruct (IH s1) as (s2 & E2 & Hi2 & Ha2 & Hs2); [apply (gr_ids _ _ _ _ _ Hg)|done|unfold s1, finished; cbn; rewrite lookup_insert_eq; by eexists|done| |].
  { intros mp' Hin. apply (as_shows _ _ _ Ha1); [set_solver|]. apply Hall. by right. }
  exists s2. split; [done|]. split; [done|]. split; [apply (aside_trans [mp] mps _ _ _ Ha1 Ha2)|].
  intros mp' [->|Hin]%elem_of_cons; [|by apply Hs2]. apply (as_shows _ _ _ Ha2); [done|]. by apply (grown_shows _ _ _ _ _ _ Hg He).
Qed.

Definition with_vfs (d : devfs) (s : fs) : devfs := Devfs (entries_list d) (devfs_mounts d) s (devs d).
Lemma for_each_on_vfs {X} (f : X -> M fs unit) xs : forall d s', for_each xs f (vfs d) = Done (tt, s') ->
  for_each xs (fun x => on_vfs (f x)) d = Done (tt, with_vfs d s').
Proof.
  induction xs as [|x xs IH]; intros d s'; cbn [for_each].
  - intros [= <-]. by destruct d.
  - intros ([] & s1 & E1 & E2)%bind_done_inv.
    assert (on_vfs (f x) d = Done (tt, with_vfs d s1)) as E by (unfold on_vfs, zoom; by rewrite E1). rewrite (bind_done _ _ _ _ _ E).
    apply (IH (with_vfs d s1) s' E2).
Qed.

(** Every mounted directory shows exactly the registered devices. *)
Record in_sync (mps : list Z) (d : devfs) : Prop := InSync {
  sy_mounts : devfs_mounts d = Some <$> mps;
  sy_distinct : NoDup mps;
  sy_names : NoDup (de_name <$> entries_list d);
  sy_ids : ids_below (vfs d);
  sy_next : 0 <= next_id (vfs d);
  sy_shows mp : (mp ∈ mps) -> shows (vfs d) (entries_list d) mp
}.

Inductive devfs_op := RegisterDevice (a dev : Z) | MountAt (b mp : Z).
(** [fs_mount] calls the [list] of a file system after its [mount]. *)
Definition run_devfs (o : devfs_op) : M devfs unit :=
  match o with
  | RegisterDevice a dev => let! _ := devfs_register a dev in ret tt
  | MountAt b mp => let! _ := devfs_mount b in let! _ := devfs_list mp in ret tt
  end.
Definition registered_devices (os : list devfs_op) : list Z :=
  omap (fun o => match o with RegisterDevice _ dev => Some dev | MountAt _ _ => None end) os.

(** The names are new, and the directories are empty ones of their own. *)
Fixpoint fresh_ops (names : list (list Z)) (mps : list Z) (d : devfs) (os : list devfs_op) : Prop :=
  match os with
  | [] => True
  | RegisterDevice a dev :: os' => exists x, objects (devs d) !! dev = Some x /\ (d_name x ∉ names) /\ fresh_ops (d_name x :: names) mps d os'
  | MountAt b mp :: os' => exists sb, supers (vfs d) !! b = Some sb /\ mount_point sb = Some mp /\ blank (vfs d) mp /\ (mp ∉ mps) /\
      fresh_ops names (mp :: mps) d os'
  end.
Lemma fresh_ops_aside os : forall names mps mps' d d', devs d' = devs d -> aside mps' (vfs d) (vfs d') -> mps' ⊆ mps -> fresh_ops names mps d os -> fresh_ops names mps d' os.
Proof.
  induction os as [|[a dev|b mp] os IH]; intros names mps mps' d d' Hd Ha Hsub; cbn [fresh_ops]; [done| |].
  - intros (x & Hx & Hn & Hf). exists x. rewrite Hd. split; [done|]. split; [done|]. by eapply IH.
  - intros (sb & Hsb & Hmp & Hb & Hn & Hf). exists sb. rewrite (as_supers _ _ _ Ha). split; [done|]. split; [done|].
    split; [apply (as_blank _ _ _ Ha); [set_solver|done]|]. split; [done|]. eapply IH; [done|exact Ha|set_solver|done].
Qed.

Lemma register_step mps a dev x d : in_sync mps d -> objects (devs d) !! dev = Some x -> d_name x ∉ (de_name <$> entries_list d) ->
  exists d', devfs_register a dev d = Done (a, d') /\ in_sync mps d' /\ aside mps (vfs d) (vfs d') /\ devs d' = devs d /\
    entries_list d' = DevfsEntry a (d_name x) dev :: entries_list d.
Proof.
  intros [Hm Hnd Hna Hi H0 Hs] Hx Hnew. unfold devfs_register.
  assert (on_devs (get_device dev) d = Done (x, d)) as E1 by (unfold on_devs, zoom, get_device; rewrite Hx; by destruct d).
  rewrite (bind_done _ _ _ _ _ E1), bind_modify. set (d1 := Devfs _ _ _ _).
  set (s1 := Fs (dirents (vfs d)) (enodes (vfs d)) (<[next_id (vfs d) := fs_node_init]> (nodes (vfs d))) (supers (vfs d)) (pipes (vfs d)) (filesystems (vfs d)) (next_id (vfs d) + 1)).
  assert (on_vfs new_node d1 = Done (next_id (vfs d), with_vfs d1 s1)) as E2 by done. rewrite (bind_done _ _ _ _ _ E2), bind_get. cbn [devfs_mounts with_vfs d1]. rewrite Hm.
  destruct mps as [|mp0 mps0] eqn:Emps.
  { eexists. split; [reflexivity|]. cbn. split; [|by split_and!]. split; cbn; [done|done|by constructor|by apply new_node_ids|lia|intros mp H; by apply elem_of_nil in H]. }
  rewrite <- Emps in *. pose proof (new_node_ids _ Hi H0) as Hi1. fold s1 in Hi1.
  destruct (mount_entries_spec a (d_name x) dev (next_id (vfs d)) (entries_list d) mps s1 Hi1 Hnd) as (s2 & E3 & Hi2 & Ha2 & Hs2);
    [unfold s1; cbn; rewrite lookup_insert_eq; by eexists|by apply find_device_None|exact Hs|].
  rewrite (bind_done _ _ _ _ _ (for_each_on_vfs _ _ (with_vfs d1 s1) s2 E3)). eexists. split; [reflexivity|].
  split; [split; [exact Hm|exact Hnd|by constructor|exact Hi2|eapply shows_next; [exact Hi2|apply (Hs2 mp0); subst; by left]|exact Hs2]|]. split; [destruct Ha2 as [A B C]; split; [exact A|exact B|exact C]|]. done.
Qed.

Lemma mount_step mps b mp sb d : in_sync mps d -> supers (vfs d) !! b = Some sb -> mount_point sb = Some mp -> blank (vfs d) mp -> mp ∉ mps ->
  exists d', run_devfs (MountAt b mp) d = Done (tt, d') /\ in_sync (mps ++ [mp]) d' /\ aside [mp] (vfs d) (vfs d') /\ devs d' = devs d /\
    entries_list d' = entries_list d.
Proof.
  intros [Hm Hnd Hna Hi H0 Hs] Hsb Hmp Hb Hni. cbn [run_devfs]. unfold devfs_mount. rewrite bind_assoc.
  assert (on_vfs (get_super b) d = Done (sb, d)) as E1 by (unfold on_vfs, zoom, get_super; rewrite Hsb; by destruct d).
  rewrite (bind_done _ _ _ _ _ E1), bind_assoc, bind_modify, bind_ret_l. set (d1 := Devfs _ _ _ _). unfold devfs_list. rewrite bind_assoc, bind_get, bind_assoc.
  destruct (list_entries_spec mp (entries_list d) (vfs d) [] Hi) as (s2 & E2 & Hi2 & Hs2 & Ha2); [by apply blank_shows|by rewrite app_nil_r|].
  rewrite (bind_done _ _ _ _ _ (for_each_on_vfs _ _ d1 s2 E2)). eexists. split; [reflexivity|]. split; [|by split_and!]. rewrite app_nil_r in Hs2.
  split; cbn.
  - by rewrite Hm, Hmp, fmap_app.
  - apply NoDup_app. split; [done|]. split; [intros k Hk ->%list_elem_of_singleton; done|apply NoDup_singleton].
  - done.
  - done.
  - by eapply shows_next.
  - intros mp' [Hin| ->%list_elem_of_singleton]%elem_of_app.
    + apply (as_shows _ _ _ Ha2); [set_solver|]. by apply Hs.
    + apply (shows_perm _ (reverse (entries_list d))); [by rewrite reverse_Permutation|apply reverse_Permutation|done].
Qed.

(** C26: The device directories stay in step with the registry: over any
    sequence of registrations under new names and mounts on empty directories,
    in any order, the calls return, and then every mounted directory resolves
    the name of each registered device, before or after that mount, to a
    device file of that device, and resolves no other name. *)
Theorem devfs_stays_in_sync os : forall mps d, in_sync mps d -> fresh_ops (de_name <$> entries_list d) mps d os ->
  exists mps' d', for_each os run_devfs d = Done (tt, d') /\ in_sync mps' d' /\ mps ⊆ mps' /\ (forall b mp, (MountAt b mp ∈ os) -> mp ∈ mps') /\
    de_device <$> entries_list d' = reverse (registered_devices os) ++ (de_device <$> entries_list d).
Proof.
  induction os as [|[a dev|b mp] os IH]; intros mps d Hy Hf; cbn [for_each].
  - exists mps, d. split_and!; [done|done|done| |done]. intros b mp H. by apply elem_of_nil in H.
  - destruct Hf as (x & Hx & Hn & Hf). destruct (register_step mps a dev x d Hy Hx Hn) as (d1 & E1 & Hy1 & Ha1 & Hd1 & He1).
    destruct (IH mps d1 Hy1) as (mps' & d2 & E2 & Hy2 & Hsub & Hin & Hl); [rewrite He1; by eapply fresh_ops_aside|].
    exists mps', d2. assert (run_devfs (RegisterDevice a dev) d = Done (tt, d1)) as E by (cbn [run_devfs]; unfold bind; by rewrite E1).
    rewrite (bind_done _ _ _ _ _ E). split; [done|]. split; [done|]. split; [done|]. split.
    + intros b mp [H|H]%elem_of_cons; [done|]. by eapply Hin.
    + rewrite Hl, He1. unfold registered_devices. cbn [omap list_omap]. rewrite reverse_cons, <- app_assoc. done.
  - destruct Hf as (sb & Hsb & Hmp & Hb & Hn & Hf). destruct (mount_step mps b mp sb d Hy Hsb Hmp Hb Hn) as (d1 & E1 & Hy1 & Ha1 & Hd1 & He1).
    destruct (IH (mps ++ [mp]) d1 Hy1) as (mps' & d2 & E2 & Hy2 & Hsub & Hin & Hl).
    { rewrite He1. eapply fresh_ops_aside; [done|exact Ha1|set_solver|]. clear -Hf. revert Hf. generalize (de_name <$> entries_list d).
      assert (forall os names l l' d, l ≡ₚ l' -> fresh_ops names l d os -> fresh_ops names l' d os) as Hperm.
      { induction os0 as [|[a' dev'|b' mp'] os0 IH]; intros names l l' d0 Hp; cbn [fresh_ops]; [done| |].
        - intros (x & ? & ? & ?). exists x. split; [done|]. split; [done|]. by eapply IH.
        - intros (x & ? & ? & ? & ? & ?). exists x. split; [done|]. split; [done|]. split; [done|]. split; [by rewrite <- Hp|]. eapply IH; [|done]. by rewrite Hp. }
      intros l Hf. eapply Hperm; [|exact Hf]. apply Permutation_cons_append. }
    exists mps', d2. rewrite (bind_done _ _ _ _ _ E1). split; [done|]. split; [done|]. split; [set_solver|]. split; [|by rewrite Hl, He1].
    intros b' mp' [[= -> ->]|H]%elem_of_cons; [apply Hsub; set_solver|by eapply Hin].
Qed.

(** Registering a name a mounted directory already has dereferences NULL. *)
Lemma devfs_register_duplicate a dev x mps d : in_sync mps d -> mps <> [] -> objects (devs d) !! dev = Some x ->
  (d_name x ∈ (de_name <$> entries_list d)) -> devfs_register a dev d = Stop Undefined.
Proof.
  intros [Hm Hnd Hna Hi H0 Hs] Hne Hx Hold. unfold devfs_register.
  assert (on_devs (get_device dev) d = Done (x, d)) as E1 by (unfold on_devs, zoom, get_device; rewrite Hx; by destruct d).
  rewrite (bind_done _ _ _ _ _ E1), bind_modify. set (d1 := Devfs _ _ _ _).
  set (s1 := Fs (dirents (vfs d)) (enodes (vfs d)) (<[next_id (vfs d) := fs_node_init]> (nodes (vfs d))) (supers (vfs d)) (pipes (vfs d)) (filesystems (vfs d)) (next_id (vfs d) + 1)).
  assert (on_vfs new_node d1 = Done (next_id (vfs d), with_vfs d1 s1)) as E2 by done. rewrite (bind_done _ _ _ _ _ E2), bind_get. cbn [devfs_mounts with_vfs d1]. rewrite Hm.
  destruct mps as [|mp mps]; [done|]. apply bind_stop. cbn [fmap list_fmap for_each]. apply bind_stop. unfold on_vfs, zoom. cbn [vfs with_vfs].
  destruct (Hs mp ltac:(by left)) as (e & He & Hen & Hf). specialize (Hf (d_name x)).
  destruct (find_device (d_name x) (entries_list d)) as [en|] eqn:Ef; [|by apply find_device_None in Ef]. destruct Hf as (n & c & ce & Hl & _).
  unfold mount_entry, nonnull at 1, of_option at 1. rewrite (bind_done _ _ s1 mp s1 eq_refl).
  pose proof (fs_directory_entry_add_entry_done mp (d_name x) s1 e He Hen) as Ea. unfold s1 in Ea at 2. cbn [enodes] in Ea. rewrite Hl in Ea. rewrite (bind_done _ _ _ _ _ Ea).
  rewrite (bind_done _ _ _ _ _ (fs_directory_entry_create_done FS_DEVICE (Some mp) None s1 e He)).
  unfold fs_node_add_reference, get_node, put_node, upd_dirent, get_dirent, bind, modify, ret. cbn. repeat (rewrite lookup_insert_eq; cbn). done.
Qed.
End devfs.

(** ** A run: devices before and after the mounts *)

Definition demo_chars : device_char_operations_t (V := unit) (W := sched) :=
  CharOperations (fun _ _ n => ret n) (fun _ _ => ret (0, [])).
Definition demo_registry : registry (V := unit) (W := sched) :=
  Registry [8; 7] (<[7 := Device (DT_CHARACTER demo_chars) [107; 98; 100] tt 50]> (<[8 := Device (DT_CHARACTER demo_chars) [116; 116; 121] tt 51]> ∅)) demo_sched.
Definition demo_directory (b : Z) : fs_directory_entry_t := Dirent None None 1 (Some b) FS_DIRECTORY None None None None None [].
Definition demo_vfs : fs :=
  Fs (<[0 := demo_directory 5]> (<[1 := demo_directory 6]> ∅)) ∅ ∅
     (<[5 := Superblock None (Some 0) None 0]> (<[6 := Superblock None (Some 1) None 0]> ∅)) ∅ [] 10.
Definition demo_devfs : devfs (V := unit) (W := sched) := Devfs [] [] demo_vfs demo_registry.
Definition demo_devfs_ops : list devfs_op := [RegisterDevice 100 7; MountAt 5 0; RegisterDevice 101 8; MountAt 6 1].

Lemma devfs_stays_in_sync_witness : exists mps' d', for_each demo_devfs_ops run_devfs demo_devfs = Done (tt, d') /\ in_sync mps' d' /\
  [] ⊆ mps' /\ (forall b mp, (MountAt b mp ∈ demo_devfs_ops) -> mp ∈ mps') /\
  de_device <$> entries_list d' = reverse (registered_devices demo_devfs_ops) ++ (de_device <$> entries_list demo_devfs).
Proof.
  apply (devfs_stays_in_sync demo_devfs_ops [] demo_devfs).
  - split; [done|by constructor|by constructor| |done|intros mp H; by apply elem_of_nil in H]. split; cbn.
    + intros d [<- |[_ [<- |[_ H]]%lookup_insert_is_Some]]%lookup_insert_is_Some; [lia|lia|]. rewrite lookup_empty in H. by destruct H.
    + intros d H. rewrite lookup_empty in H. by destruct H.
    + intros d H. rewrite lookup_empty in H. by destruct H.
  - cbn [fresh_ops demo_devfs_ops]. eexists. split; [reflexivity|]. split; [apply not_elem_of_nil|].
    eexists. split; [reflexivity|]. split; [reflexivity|]. split; [eexists; split; reflexivity|]. split; [apply not_elem_of_nil|].
    eexists. split; [reflexivity|]. split; [apply (bool_decide_unpack _); vm_compute; exact I|].
    eexists. split; [reflexivity|]. split; [reflexivity|]. split; [eexists; split; reflexivity|]. split; [|exact I].
    apply (bool_decide_unpack _). vm_compute. exact I.
Defined.
