(* ===== verification/Sysfs.v ===== *)
(** * Sysfs: numbers of the kernel as files (modules/sysfs)

    Components add entries, a path with functions to read and write it; every
    directory sysfs is mounted on gets a file for each.  The state lies next to
    that of the virtual file system (Fs.v); the functions of the entries are
    computations on the world [W] of the components.  The table of mounts is a
    list; what [heap_realloc] does to its block is in Heap.v.  [mount] and the
    functions that read and write files act on this larger state, so the
    operations table that the virtual file system sees has them from [rest]. *)
From S2P Require Import Prelude Pipe Fs FsPath RamfsTree.

Section sysfs.
Context {W : Type}.

(** An [int64_t] result, negative for an error, and the bytes read. *)
Abbreviation sysfs_read_op_t := (Z -> Z -> Z -> M W (Z * list Z)).
Abbreviation sysfs_write_op_t := (Z -> list Z -> Z -> Z -> M W Z).
Record sysfs_fs_node_t := SysfsNode { sn_id : Z; sn_read : option sysfs_read_op_t; sn_write : option sysfs_write_op_t }.
(** [se_path] is the text of the path. *)
Record sysfs_entry_t := SysfsEntry { se_path : list Z; se_id : Z; se_read : sysfs_read_op_t; se_write : sysfs_write_op_t }.

(** The list from [sysfs_head], the mount points, what the inodes of sysfs hold
    besides the common part. *)
Record sysfs := Sysfs { sysfs_list_ : list sysfs_entry_t; sysfs_mounts : list (option Z); sysfs_nodes : gmap Z sysfs_fs_node_t; vfs : fs; world : W }.
Definition on_vfs {A} (m : M fs A) : M sysfs A := zoom vfs (fun f s => Sysfs (sysfs_list_ s) (sysfs_mounts s) (sysfs_nodes s) f (world s)) m.
Definition on_world {A} (m : M W A) : M sysfs A := zoom world (fun w s => Sysfs (sysfs_list_ s) (sysfs_mounts s) (sysfs_nodes s) (vfs s) w) m.
Definition set_list (f : list sysfs_entry_t -> list sysfs_entry_t) : M sysfs unit :=
  modify (fun s => Sysfs (f (sysfs_list_ s)) (sysfs_mounts s) (sysfs_nodes s) (vfs s) (world s)).
Definition set_mounts (f : list (option Z) -> list (option Z)) : M sysfs unit :=
  modify (fun s => Sysfs (sysfs_list_ s) (f (sysfs_mounts s)) (sysfs_nodes s) (vfs s) (world s)).

(** ** ops.c *)

(** The id of a new inode is 0 and its functions are NULL. *)
Definition blank_node : sysfs_fs_node_t := SysfsNode 0 None None.
Definition sysfs_alloc_node (_ : Z) : M fs (option Z) := let! n := fresh_id in do! put_node n fs_node_init; ret (Some n).
Definition sysfs_free_node (_ n : Z) : M fs unit := free_node n.
Definition sysfs_list (dirent : Z) : M fs unit := fs_directory_entry_add_reference dirent.
Definition sysfs_create (parent n : Z) (name : list Z) (t : fs_file_type_t) : M fs (option Z) :=
  let! dirent_node := fs_directory_entry_add_entry parent name in
  let! new_dirent := fs_directory_entry_create t (Some parent) dirent_node in
  do! fs_directory_entry_add_reference new_dirent;
  do! upd_dirent new_dirent (with_node (Some n));
  let! en := nonnull dirent_node in
  do! set_enode_dirent en (Some new_dirent);
  ret dirent_node.

Variable rest : fs_superblock_ops_t.
Variable ops : Z -> fs_superblock_ops_t.
Definition sysfs_delete (dirent : Z) : M fs code := do! fs_directory_entry_release ops dirent; ret (Num 0).
Definition sysfs_superblock_ops : fs_superblock_ops_t :=
  SuperblockOps sysfs_alloc_node sysfs_free_node sysfs_list None (Some sysfs_create) (Some sysfs_delete) (op_read rest) (op_write rest) (op_mount rest) (op_unmount rest).

(** The inode of a directory entry, as an inode of sysfs. *)
Definition node_of (dirent : Z) : M sysfs Z := let! e := on_vfs (get_dirent dirent) in of_option Undefined (node e).
Definition get_sysfs_node (n : Z) : M sysfs sysfs_fs_node_t := let! s := get in ret (default blank_node (sysfs_nodes s !! n)).
Definition set_node_entry (dirent id : Z) (r : sysfs_read_op_t) (w : sysfs_write_op_t) : M sysfs unit :=
  let! n := node_of dirent in
  modify (fun s => Sysfs (sysfs_list_ s) (sysfs_mounts s) (<[n := SysfsNode id (Some r) (Some w)]> (sysfs_nodes s)) (vfs s) (world s)).

Definition sysfs_read (dirent size offset : Z) : M sysfs (code * Z * list Z) :=
  let! n := node_of dirent in
  let! x := get_sysfs_node n in
  let! read := of_option Undefined (sn_read x) in
  let! r := on_world (read (sn_id x) size offset) in
  if r.1 <? 0 then ret (Num r.1, 0, r.2) else ret (Num 0, r.1, r.2).
Definition sysfs_write (dirent : Z) (data : list Z) (size offset : Z) : M sysfs (code * Z) :=
  let! n := node_of dirent in
  let! x := get_sysfs_node n in
  let! write := of_option Undefined (sn_write x) in
  let! r := on_world (write (sn_id x) data size offset) in
  if r <? 0 then ret (Num r, 0) else ret (Num 0, r).

(** ** sysfs.c *)

Definition sysfs_name : list Z := [115; 121; 115; 102; 115].
Definition init (o : Z) : M sysfs code :=
  do! set_list (fun _ => []);
  do! set_mounts (fun _ => []);
  let! _ := on_vfs (fs_register sysfs_name o) in
  ret (Num 0).

(** A C string in memory, up to its end. *)
Definition c_path (p : list Z) : list Z := p ++ [0].
Fixpoint add_to_mounts (mounts : list (option Z)) (path : list Z) (id : Z) (r : sysfs_read_op_t) (w : sysfs_write_op_t) : M sysfs code :=
  match mounts with
  | [] => ret (Num 0)
  | mp :: mounts' =>
      let! mp := of_option Undefined mp in
      let! d := on_vfs (fs_make_path_dirs ops mp (c_path path) FS_REGULAR) in
      match d with
      | None => ret (Err ERROR_EXISTS)
      | Some d => do! set_node_entry d id r w; add_to_mounts mounts' path id r w
      end
  end.
Definition sysfs_add_entry (path : list Z) (id : Z) (r : sysfs_read_op_t) (w : sysfs_write_op_t) : M sysfs code :=
  do! set_list (cons (SysfsEntry path id r w));
  let! s := get in
  add_to_mounts (sysfs_mounts s) path id r w.

(** [while (true)] up the tree; the entry is released, then removed. *)
Fixpoint remove_up (fuel : nat) (dirent : Z) : M fs unit :=
  match fuel with
  | O => stop_with NoFuel
  | S fuel' =>
      let! e := get_dirent dirent in
      let! p := nonnull (parent e) in
      do! fs_directory_entry_add_reference p;
      do! fs_directory_entry_release ops dirent;
      let! result := fs_remove ops dirent in
      if negb (bool_decide (result = Num 0)) then ret tt else remove_up fuel' p
  end.
Fixpoint remove_from_mounts (fuel : nat) (mounts : list (option Z)) (path : list Z) : M sysfs code :=
  match mounts with
  | [] => ret (Err ERROR_UNIMPLEMENTED)
  | mp :: mounts' =>
      let! mp := of_option Undefined mp in
      let! d := on_vfs (fs_open_path ops mp (c_path path)) in
      match d with
      | None => ret (Err ERROR_FS_NO_ENT)
      | Some d => do! on_vfs (remove_up fuel d); remove_from_mounts fuel mounts' path
      end
  end.
Definition sysfs_remove_entry (fuel : nat) (path : list Z) : M sysfs code :=
  do! set_list (remove_first (fun e => bool_decide (se_path e = path)));
  let! s := get in
  remove_from_mounts fuel (sysfs_mounts s) path.

(** ** mount.c *)

Fixpoint mount_entries (mp : Z) (es : list sysfs_entry_t) : M sysfs unit :=
  match es with
  | [] => ret tt
  | x :: es' =>
      let! d := on_vfs (fs_make_path_dirs ops mp (c_path (se_path x)) FS_REGULAR) in
      let! d := of_option Undefined d in
      do! set_node_entry d (se_id x) (se_read x) (se_write x);
      mount_entries mp es'
  end.
Definition sysfs_mount (b : Z) : M sysfs code :=
  let! sb := on_vfs (get_super b) in
  do! set_mounts (fun l => l ++ [mount_point sb]);
  let! s := get in
  let! mp := of_option Undefined (mount_point sb) in
  do! mount_entries mp (sysfs_list_ s);
  ret (Num 0).

(** [fuel] bounds the depth of the tree. *)
Fixpoint sysfs_unmount_recur (fuel : nat) (dirent : Z) : M fs unit :=
  match fuel with
  | O => stop_with NoFuel
  | S fuel' =>
      let! e := get_dirent dirent in
      for_each (entries e) (fun n =>
        let! en := get_enode n in
        match en_dirent en with
        | None => ret tt
        | Some d => do! sysfs_unmount_recur fuel' d; fs_directory_entry_release ops d
        end)
  end.
Definition sysfs_unmount (fuel b : Z) : M sysfs code :=
  let! sb := on_vfs (get_super b) in
  do! set_mounts (remove_first (fun m => bool_decide (m = mount_point sb)));
  let! mp := of_option Undefined (mount_point sb) in
  do! on_vfs (sysfs_unmount_recur (Z.to_nat fuel) mp);
  ret (Num 0).
End sysfs.

(** ** Making a file *)

Section proofs.
Context {W : Type} (ops : Z -> fs_superblock_ops_t) (o : Z).
(** The table of sysfs, as far as making files goes. *)
Hypothesis Halloc : op_alloc_node (ops o) = sysfs_alloc_node.
Hypothesis Hcreate : op_create (ops o) = Some sysfs_create.

(** The state after a file has been made in directory [d]. *)
Definition made_file (d : Z) (e : fs_directory_entry_t) (name : list Z) (t : fs_file_type_t) (s : fs) : fs :=
  let n := next_id s in let en := n + 1 in let c := n + 2 in
  Fs (<[c := Dirent (Some d) (Some en) 2 (superblock e) t (Some n) None None None None []]>
        (<[d := with_references (references e + 1) (with_entries (en :: entries e) e)]> (dirents s)))
     (<[en := EntryNode (Some c) name]> (enodes s)) (<[n := fs_node_init]> (nodes s)) (supers s) (pipes s) (filesystems s) (n + 3).

Lemma sysfs_create_done s d e n name t : dirents s !! d = Some e -> d < next_id s -> (forall m, m ∈ entries e -> is_Some (enodes s !! m)) ->
  lookup_entry (enodes s) name (entries e) = None ->
  sysfs_create d n name t s = Done (Some (next_id s),
    Fs (<[next_id s + 1 := Dirent (Some d) (Some (next_id s)) 2 (superblock e) t (Some n) None None None None []]>
         (<[d := with_entries (next_id s :: entries e) e]> (dirents s)))
       (<[next_id s := EntryNode (Some (next_id s + 1)) name]> (enodes s)) (nodes s) (supers s) (pipes s) (filesystems s) (next_id s + 2)).
Proof.
  intros He Hd Hl Hnone. destruct s as [ds es ns ss ps fss nx]. simpl in *. unfold sysfs_create.
  pose proof (fs_directory_entry_add_entry_done d name (Fs ds es ns ss ps fss nx) e He Hl) as Ha. simpl in Ha. rewrite Hnone in Ha.
  set (s2 := Fs (<[d := with_entries (nx :: entries e) e]> ds) (<[nx := EntryNode None name]> es) ns ss ps fss (nx + 1)) in *.
  pose proof (fs_directory_entry_create_done t (Some d) (Some nx) s2 (with_entries (nx :: entries e) e) ltac:(simpl; by rewrite lookup_insert_eq)) as Hcr.
  simpl in Hcr. replace (nx + 1 + 1) with (nx + 2) in Hcr by lia. rewrite (bind_done _ _ _ _ _ Ha), (bind_done _ _ _ _ _ Hcr).
  unfold fs_directory_entry_add_reference, upd_dirent, get_dirent, set_enode_dirent, get_enode, nonnull, bind, modify, ret.
  simpl; rewrite lookup_insert_eq; simpl; rewrite lookup_insert_eq; simpl; rewrite lookup_insert_eq; simpl.
  subst s2. unfold set_enodes, set_dirents; simpl; rewrite ?insert_insert_eq; reflexivity.
Qed.

Lemma fs_make_sysfs s d e b sb name t : ids_below s -> dirents s !! d = Some e -> 0 <= references e < 2 ^ 64 - 4 ->
  (forall n, n ∈ entries e -> is_Some (enodes s !! n)) -> superblock e = Some b -> supers s !! b = Some sb -> superblock_ops sb = o ->
  lookup_entry (enodes s) name (entries e) = None -> fs_make ops d name t s = Done (Some (next_id s + 2), made_file d e name t s).
Proof.
  intros Hi He Hr Hl Hb Hsb Ho Hnone. pose proof (ib_dirent _ Hi d ltac:(by eexists)) as Hdn.
  unfold fs_make, ops_of. rewrite bind_assoc, (bind_done _ _ _ _ _ (get_dirent_done _ _ _ He)).
  rewrite Hb, bind_assoc. unfold nonnull at 1, of_option at 1. rewrite (bind_done _ _ s b s eq_refl).
  rewrite bind_assoc, (bind_done _ _ _ _ _ (get_super_done _ _ _ Hsb)), bind_ret_l, Ho. cbn beta iota. rewrite Halloc, Hcreate.
  set (s1 := Fs (dirents s) (enodes s) (<[next_id s := fs_node_init]> (nodes s)) (supers s) (pipes s) (filesystems s) (next_id s + 1)).
  rewrite (bind_done _ _ _ (Some (next_id s)) s1 eq_refl). unfold of_option. rewrite (bind_done _ _ s1 _ s1 eq_refl).
  rewrite (bind_done _ _ _ _ _ (sysfs_create_done s1 d e (next_id s) name t He ltac:(simpl; lia) Hl Hnone)).
  simpl. replace (next_id s + 1 + 1) with (next_id s + 2) by lia. replace (next_id s + 1 + 2) with (next_id s + 3) by lia.
  unfold fs_directory_entry_add_reference, upd_dirent, get_dirent, get_enode, bind, modify, ret. simpl.
  rewrite lookup_insert_ne by lia. rewrite lookup_insert_eq. simpl. rewrite lookup_insert_eq. simpl.
  do 2 f_equal. apply fs_ext; try done; simpl. rewrite insert_insert_ne by lia. rewrite insert_insert_eq. by rewrite u64_small by lia.
Qed.

Lemma made_file_hold s d e name t : ids_below s -> dirents s !! d = Some e ->
  made_file d (with_references (references e + 1) e) name t (hold d s) = hold d (made_file d e name t s).
Proof.
  intros Hi He. pose proof (ib_dirent _ Hi d ltac:(by eexists)) as Hdn. apply fs_ext; try done. cbn [dirents made_file hold set_dirents next_id enodes].
  apply map_eq. intros x. destruct (decide (x = next_id s + 2)) as [->|Hx].
  - rewrite lookup_insert_eq, lookup_alter_ne by lia. by rewrite lookup_insert_eq.
  - rewrite lookup_insert_ne by done. destruct (decide (x = d)) as [->|Hxd].
    + rewrite lookup_insert_eq, lookup_alter_eq, lookup_insert_ne by lia. rewrite lookup_insert_eq. done.
    + rewrite lookup_insert_ne, !lookup_alter_ne by done. rewrite !lookup_insert_ne by done. done.
Qed.

Lemma make_one s d e b sb name t : ids_below s -> dirents s !! d = Some e -> 0 <= references e < 2 ^ 64 - 8 ->
  (forall n, n ∈ entries e -> is_Some (enodes s !! n)) -> superblock e = Some b -> supers s !! b = Some sb -> superblock_ops sb = o ->
  lookup_entry (enodes s) name (entries e) = None -> Forall plain name ->
  fs_make_path_dirs ops d (c_path name) t s = Done (Some (next_id s + 2), made_file d e name t s).
Proof.
  intros Hi He Hr Hl Hb Hsb Ho Hnone Hpl. unfold fs_make_path_dirs. rewrite (bind_done _ _ _ _ _ (add_reference_hold d s e He ltac:(lia) ltac:(lia))).
  replace (S (length (c_path name))) with (length name + 2)%nat by (unfold c_path; rewrite length_app; cbn; lia).
  rewrite make_path_scan.
  2:{ intros i Hlt. unfold c_path. rewrite lookup_app_l by lia. destruct (lookup_lt_is_Some_2 name i ltac:(lia)) as [c Hc]. exists c. split; [done|]. by eapply Forall_lookup_1. }
  cbn [make_path_loop Nat.add]. unfold c_path at 1. rewrite lookup_app_r, Nat.sub_diag by lia. unfold of_option at 1. rewrite (bind_done _ _ _ _ _ eq_refl).
  change (0 =? SLASH) with false. change (0 =? 0) with true. cbn [orb].
  assert (segment (c_path name) 0 (length name) = name) as ->.
  { unfold segment, c_path. rewrite Nat.sub_0_r, drop_0, take_app_length. by apply cstr_plain. }
  destruct (hold_dirent d d s e He) as (k & Hk & Ek). rewrite decide_True in Ek by done. subst k.
  assert (ids_below (hold d s)) as Hi'.
  { destruct Hi as [H1 H2 H3]. split; [|exact H2|exact H3]. intros x Hx. apply H1. cbn in Hx. by rewrite lookup_alter_is_Some in Hx. }
  rewrite (bind_done _ _ _ _ _ (fs_make_sysfs (hold d s) d _ b sb name t Hi' Hk ltac:(cbn; lia) Hl Hb Hsb Ho Hnone)).
  change (next_id (hold d s)) with (next_id s). rewrite made_file_hold by done.
  pose proof (ib_dirent _ Hi d ltac:(by eexists)) as Hdn.
  assert (dirents (made_file d e name t s) !! d = Some (with_references (references e + 1) (with_entries (next_id s + 1 :: entries e) e))) as Hd
    by (cbn; rewrite lookup_insert_ne by lia; apply lookup_insert_eq).
  by rewrite (bind_done _ _ _ _ _ (release_hold ops d _ _ Hd ltac:(cbn; lia))).
Qed.

(** An entry added while sysfs is mounted is a file there: its name leads to it,
    and reading or writing it calls the functions of the entry with its id,
    errors included. *)
Theorem sysfs_entry_is_file (s : sysfs (W := W)) d e b sb name id r w : sysfs_mounts s = [Some d] -> ids_below (vfs s) -> dirents (vfs s) !! d = Some e ->
  0 <= references e < 2 ^ 64 - 8 -> (forall n, n ∈ entries e -> is_Some (enodes (vfs s) !! n)) -> superblock e = Some b -> supers (vfs s) !! b = Some sb ->
  superblock_ops sb = o -> lookup_entry (enodes (vfs s)) name (entries e) = None -> Forall plain name ->
  exists s' c, sysfs_add_entry ops name id r w s = Done (Num 0, s') /\
    child (vfs s') d name = Some c /\ (type <$> dirents (vfs s') !! c = Some FS_REGULAR) /\
    (forall size offset v data x, r id size offset (world s') = Done ((v, data), x) -> exists s2, sysfs_read c size offset s' =
       Done (if v <? 0 then (Num v, 0, data) else (Num 0, v, data), s2) /\ world s2 = x /\ vfs s2 = vfs s') /\
    (forall buffer size offset v x, w id buffer size offset (world s') = Done (v, x) -> exists s2, sysfs_write c buffer size offset s' =
       Done (if v <? 0 then (Num v, 0) else (Num 0, v), s2) /\ world s2 = x /\ vfs s2 = vfs s').
Proof.
  intros Hm Hi He Hr Hl Hb Hsb Ho Hnone Hpl. pose proof (ib_dirent _ Hi d ltac:(by eexists)) as Hdn.
  pose proof (make_one (vfs s) d e b sb name FS_REGULAR Hi He Hr Hl Hb Hsb Ho Hnone Hpl) as E1. set (f := made_file d e name FS_REGULAR (vfs s)) in *.
  set (c := next_id (vfs s) + 2) in *. set (n := next_id (vfs s)).
  assert (exists ce, dirents f !! c = Some ce /\ node ce = Some n /\ type ce = FS_REGULAR) as (ce & Hce & Hn & Ht) by (eexists; split; [apply lookup_insert_eq|done]).
  set (s' := Sysfs (SysfsEntry name id r w :: sysfs_list_ s) [Some d] (<[n := SysfsNode id (Some r) (Some w)]> (sysfs_nodes s)) f (world s)).
  assert (forall z : sysfs (W := W), vfs z = f -> node_of c z = Done (n, z)) as Hnode.
  { intros [l m g y x] Hz. cbn in Hz. subst y. unfold node_of, on_vfs, zoom, bind. cbn [vfs]. rewrite (get_dirent_done c f ce Hce). cbn. by rewrite Hn. }
  assert (get_sysfs_node n s' = Done (SysfsNode id (Some r) (Some w), s')) as Hget by (unfold get_sysfs_node; rewrite bind_get; cbn; by rewrite lookup_insert_eq).
  exists s', c. split_and!.
  - unfold sysfs_add_entry, set_list. rewrite bind_modify, bind_get. cbn [sysfs_mounts]. rewrite Hm. cbn [add_to_mounts]. unfold of_option. rewrite (bind_done _ _ _ _ _ eq_refl).
    match goal with |- bind _ _ ?z = _ => assert (on_vfs (fs_make_path_dirs ops d (c_path name) FS_REGULAR) z =
      Done (Some c, Sysfs (SysfsEntry name id r w :: sysfs_list_ s) [Some d] (sysfs_nodes s) f (world s))) as E2 by (unfold on_vfs, zoom; cbn [vfs]; by rewrite E1) end.
    rewrite (bind_done _ _ _ _ _ E2). unfold set_node_entry. rewrite bind_assoc, (bind_done _ _ _ _ _ (Hnode (Sysfs (SysfsEntry name id r w :: sysfs_list_ s) [Some d] (sysfs_nodes s) f (world s)) eq_refl)). by rewrite bind_modify.
  - change (vfs s') with f. unfold child. cbn. rewrite lookup_insert_ne by lia. rewrite lookup_insert_eq. cbn. rewrite lookup_insert_eq. cbn.
    rewrite decide_True by done. cbn. by rewrite lookup_insert_eq.
  - change (vfs s') with f. by rewrite Hce; cbn; rewrite Ht.
  - intros size offset v data x E2. unfold sysfs_read. rewrite (bind_done _ _ _ _ _ (Hnode s' eq_refl)), (bind_done _ _ _ _ _ Hget). cbn [sn_read sn_id].
    unfold of_option. rewrite (bind_done _ _ s' r s' eq_refl). unfold on_world, zoom, bind. rewrite E2. cbn [fst snd]. by destruct (v <? 0); eexists.
  - intros buffer size offset v x E2. unfold sysfs_write. rewrite (bind_done _ _ _ _ _ (Hnode s' eq_refl)), (bind_done _ _ _ _ _ Hget). cbn [sn_write sn_id].
    unfold of_option. rewrite (bind_done _ _ s' w s' eq_refl). unfold on_world, zoom, bind. rewrite E2. by destruct (v <? 0); eexists.
Qed.

(** [sysfs_remove_entry] never reports success. *)
Lemma remove_from_mounts_not_ok fuel path l : forall (s s' : sysfs (W := W)) c, remove_from_mounts ops fuel l path s = Done (c, s') -> c <> Num 0.
Proof.
  induction l as [|mp l IH]; intros s s' c; cbn [remove_from_mounts]; [by intros [= <- _]|].
  intros (m & s1 & _ & H)%bind_done_inv. apply bind_done_inv in H as ([d|] & s2 & _ & H); [|by injection H as <- _].
  apply bind_done_inv in H as ([] & s3 & _ & H). by eapply IH.
Qed.
Lemma sysfs_remove_not_ok fuel path (s s' : sysfs (W := W)) c : sysfs_remove_entry ops fuel path s = Done (c, s') -> c <> Num 0.
Proof. unfold sysfs_remove_entry. intros ([] & s1 & _ & H)%bind_done_inv. rewrite bind_get in H. by eapply remove_from_mounts_not_ok. Qed.
End proofs.

(** ** A run *)

(** An empty directory, 5, with sysfs on it, and a world of one number. *)
Definition demo_rest : fs_superblock_ops_t := ramfs_superblock_ops.
Definition demo_ops (_ : Z) : fs_superblock_ops_t := sysfs_superblock_ops demo_rest fs_ops.
Definition demo_sysfs : sysfs (W := Z) := Sysfs [] [Some 5] ∅
  (Fs {[ 5 := Dirent None None 1 (Some 1) FS_DIRECTORY (Some 4) None None None None [] ]} ∅ {[ 4 := fs_node_init ]} {[ 1 := Superblock None (Some 5) None 7 ]} ∅ [] 10) 42.
Definition demo_read (id size offset : Z) : M Z (Z * list Z) := let! x := get in ret (1, [x + id]).
Definition demo_write (id : Z) (data : list Z) (size offset : Z) : M Z Z := ret (-5).
Lemma sysfs_entry_is_file_witness : exists s' c s2, sysfs_add_entry demo_ops [104; 105] 3 demo_read demo_write demo_sysfs = Done (Num 0, s') /\
  child (vfs s') 5 [104; 105] = Some c /\ sysfs_read c 10 0 s' = Done ((Num 0, 1, [45]), s2).
Proof.
  destruct (sysfs_entry_is_file demo_ops 7 eq_refl eq_refl demo_sysfs 5 (Dirent None None 1 (Some 1) FS_DIRECTORY (Some 4) None None None None []) 1
    (Superblock None (Some 5) None 7) [104; 105] 3 demo_read demo_write) as (s' & c & E & Hc & _ & Hread & _); try reflexivity.
  - split; intros x [y H]; cbn in H; [apply (proj1 (lookup_singleton_Some (M := gmap Z) _ _ _ _)) in H as [<- _]; cbn; lia|by rewrite lookup_empty in H|].
    apply (proj1 (lookup_singleton_Some (M := gmap Z) _ _ _ _)) in H as [<- _]; cbn; lia.
  - cbn. lia.
  - intros n Hn. by apply elem_of_nil in Hn.
  - repeat constructor; discriminate.
  - assert (world s' = 42) as Hw by (assert (exists t, sysfs_add_entry demo_ops [104; 105] 3 demo_read demo_write demo_sysfs = Done (Num 0, t) /\ world t = 42) as (t & Et & Ht)
      by (eexists; split; [vm_compute; reflexivity|reflexivity]); rewrite E in Et; injection Et as ->; exact Ht).
    destruct (Hread 10 0 1 [45] 42) as (s2 & E2 & _ & _); [rewrite Hw; reflexivity|]. exists s', c, s2. split; [exact E|]. split; [exact Hc|exact E2].
Defined.
