(* ===== verification/DiscPio.v ===== *)
(** * DiscPio: the ATA disc driver (src modules/disc_pio)

    The driver of [pio_ops.c] and [disc_pio.c] over the port instructions, an
    interface, [PortIO].  How an ATA channel answers on its ports is the class
    [AtaChannel]: what the driver relies on, with how long a drive may be busy
    left open up to a bound.  The driver with such a drive is the block device
    that pkfs expects (Pkfs.v, PkfsProofs.v). *)
From S2P Require Import Prelude CString Pkfs PkfsProofs.

(** [in] and [out] of the processor. *)
Class PortIO (P : Type) := {
  inb : Z -> M P Z; outb : Z -> Z -> M P unit;
  inw : Z -> M P Z; outw : Z -> Z -> M P unit
}.

Definition ATA_PIO_COMMAND_READ : Z := 0x20.
Definition ATA_PIO_COMMAND_WRITE : Z := 0x30.
Definition ATA_PIO_COMMAND_CACHE_FLUSH : Z := 0xE7.
Definition ATA_PIO_COMMAND_IDENTIFY : Z := 0xEC.
Definition ATA_PIO_IO_DATA_OFFSET : Z := 0.
Definition ATA_PIO_IO_ERROR_OFFSET : Z := 1.
Definition ATA_PIO_IO_SECTOR_COUNT_OFFSET : Z := 2.
Definition ATA_PIO_IO_LBA_LOW_OFFSET : Z := 3.
Definition ATA_PIO_IO_LBA_MID_OFFSET : Z := 4.
Definition ATA_PIO_IO_LBA_HIGH_OFFSET : Z := 5.
Definition ATA_PIO_IO_DRIVE_HEAD_OFFSET : Z := 6.
Definition ATA_PIO_IO_STATUS_OFFSET : Z := 7.
Definition ATA_PIO_IO_COMMAND_OFFSET : Z := 7.
Definition ATA_PIO_CONTROL_STATUS_OFFSET : Z := 0.
Definition DEVICE_DRIVE_MASTER : Z := 0.
Definition DEVICE_DRIVE_SLAVE : Z := 1.

(** [ata_pio_status_t] *)
Definition error (st : Z) : bool := Z.testbit st 0.
Definition data_ready (st : Z) : bool := Z.testbit st 3.
Definition drive_fault (st : Z) : bool := Z.testbit st 5.
Definition busy (st : Z) : bool := Z.testbit st 7.

Section driver.
Context {P : Type} `{!PortIO P}.

(** The drive selected last, [-1] converted to the types at first. *)
Record pio := Pio { current_device_drive : Z; current_io_port : Z; current_control_port : Z; ports : P }.
Definition on_ports {A} (m : M P A) : M pio A :=
  zoom ports (fun p s => Pio (current_device_drive s) (current_io_port s) (current_control_port s) p) m.

Definition pio_write8 (port offset value : Z) : M pio unit := on_ports (outb (u16 (port + offset)) (u8 value)).
Definition pio_write16 (port offset value : Z) : M pio unit := on_ports (outw (u16 (port + offset)) (u16 value)).
Definition pio_read8 (port offset : Z) : M pio Z := on_ports (inb (u16 (port + offset))).
Definition pio_read16 (port offset : Z) : M pio Z := on_ports (inw (u16 (port + offset))).

Definition read_status_long (io_port : Z) : M pio Z :=
  do! for_range 14 (fun _ => let! _ := pio_read8 io_port ATA_PIO_IO_STATUS_OFFSET in ret tt);
  pio_read8 io_port ATA_PIO_IO_STATUS_OFFSET.

(** Read the status until it is not one to wait on. *)
Fixpoint poll (fuel : nat) (port offset : Z) (again : Z -> bool) : M pio Z :=
  match fuel with
  | O => stop_with NoFuel
  | S fuel' => let! status := pio_read8 port offset in if again status then poll fuel' port offset again else ret status
  end.
Definition wait_ready (fuel : nat) : M pio Z :=
  let! s := get in
  poll fuel (current_control_port s) ATA_PIO_CONTROL_STATUS_OFFSET (fun st => busy st && negb (error st) && negb (drive_fault st)).
Definition wait_data_ready (fuel : nat) : M pio Z :=
  let! s := get in
  poll fuel (current_io_port s) ATA_PIO_IO_STATUS_OFFSET
    (fun st => (busy st || negb (data_ready st)) && negb (error st) && negb (drive_fault st)).

Definition cache_flush (fuel : nat) : M pio unit :=
  let! s := get in
  do! pio_write8 (current_io_port s) ATA_PIO_IO_COMMAND_OFFSET ATA_PIO_COMMAND_CACHE_FLUSH;
  let! _ := wait_ready fuel in ret tt.

Definition disc_select (io_port control_port drive : Z) : M pio unit :=
  let! s := get in
  if negb (io_port =? current_io_port s) || negb (control_port =? current_control_port s) || negb (drive =? current_device_drive s) then
    do! pio_write8 io_port ATA_PIO_IO_DRIVE_HEAD_OFFSET (if drive =? DEVICE_DRIVE_MASTER then 0xA0 else 0xB0);
    let! _ := read_status_long io_port in
    modify (fun s => Pio drive io_port control_port (ports s))
  else ret tt.

(** Select the drive, the sectors and what to do with them. *)
Definition start_command (lba sector_count command : Z) : M pio unit :=
  let! s := get in
  let io := current_io_port s in
  do! (if current_device_drive s =? DEVICE_DRIVE_MASTER
       then pio_write8 io ATA_PIO_IO_DRIVE_HEAD_OFFSET (Z.lor 0xE0 (Z.land (Z.shiftr lba 24) 0xF))
       else if current_device_drive s =? DEVICE_DRIVE_SLAVE
       then pio_write8 io ATA_PIO_IO_DRIVE_HEAD_OFFSET (Z.lor 0xF0 (Z.land (Z.shiftr lba 24) 0xF))
       else ret tt);
  let! _ := read_status_long io in
  do! pio_write8 io ATA_PIO_IO_ERROR_OFFSET 0;
  do! pio_write8 io ATA_PIO_IO_SECTOR_COUNT_OFFSET sector_count;
  do! pio_write8 io ATA_PIO_IO_LBA_LOW_OFFSET (Z.land lba 0xFF);
  do! pio_write8 io ATA_PIO_IO_LBA_MID_OFFSET (Z.land (Z.shiftr lba 8) 0xFF);
  do! pio_write8 io ATA_PIO_IO_LBA_HIGH_OFFSET (Z.land (Z.shiftr lba 16) 0xFF);
  pio_write8 io ATA_PIO_IO_COMMAND_OFFSET command.

Fixpoint read_words (n : nat) : M pio (list Z) :=
  match n with
  | O => ret []
  | S n' =>
      let! s := get in
      let! w := pio_read16 (current_io_port s) ATA_PIO_IO_DATA_OFFSET in
      let! ws := read_words n' in ret (w :: ws)
  end.
(** Sector [i] and the [n] - 1 after it; how many were read, and the words. *)
Fixpoint read_sectors (fuel n : nat) (i : Z) : M pio (Z * list Z) :=
  match n with
  | O => ret (i, [])
  | S n' =>
      let! status := wait_data_ready fuel in
      if error status || drive_fault status then ret (i, [])
      else
        let! ws := read_words 256 in
        let! s := get in
        let! _ := read_status_long (current_io_port s) in
        let! r := read_sectors fuel n' (i + 1) in
        ret (r.1, ws ++ r.2)
  end.
Definition disc_read28 (fuel : nat) (lba sector_count : Z) : M pio (Z * list Z) :=
  if lba >? 0xFFFFFF then ret (0, [])
  else
    do! start_command lba sector_count ATA_PIO_COMMAND_READ;
    read_sectors fuel (Z.to_nat sector_count) 0.

Fixpoint write_sectors (fuel n : nat) (i : Z) (src : list Z) : M pio (Z * bool) :=
  match n with
  | O => ret (i, true)
  | S n' =>
      let! status := wait_data_ready fuel in
      if error status || drive_fault status then ret (i, false)
      else
        do! for_range 256 (fun j =>
              let! w := of_option Undefined (src !! (Z.to_nat i * 256 + j)%nat) in
              let! s := get in
              pio_write16 (current_io_port s) ATA_PIO_IO_DATA_OFFSET w);
        let! s := get in
        let! _ := read_status_long (current_io_port s) in
        write_sectors fuel n' (i + 1) src
  end.
Definition disc_write28 (fuel : nat) (lba sector_count : Z) (src : list Z) : M pio Z :=
  if lba >? 0xFFFFFF then ret 0
  else
    do! start_command lba sector_count ATA_PIO_COMMAND_WRITE;
    let! r := write_sectors fuel (Z.to_nat sector_count) 0 src in
    if r.2 : bool then do! cache_flush fuel; ret sector_count else ret r.1.

(** A buffer of bytes seen as 16-bit words, and back. *)
Fixpoint words_of (bs : list Z) : list Z :=
  match bs with
  | a :: b :: bs' => le_value [a; b] :: words_of bs'
  | _ => []
  end.
Definition bytes_of (ws : list Z) : list Z := ws ≫= le_bytes 2.

(** The arguments are cut to 32 and 8 bits on the way. *)
Definition disc_read (fuel : nat) (lba sector_count : Z) : M pio (bool * list Z) :=
  let! r := disc_read28 fuel (u32 lba) (u8 sector_count) in ret (r.1 =? sector_count, bytes_of r.2).
Definition disc_write (fuel : nat) (lba sector_count : Z) (src : list Z) : M pio bool :=
  let! n := disc_write28 fuel (u32 lba) (u8 sector_count) (words_of src) in ret (n =? sector_count).

Definition disc_present (fuel : nat) (io_port control_port drive : Z) : M pio bool :=
  do! disc_select io_port control_port drive;
  do! pio_write8 io_port ATA_PIO_IO_SECTOR_COUNT_OFFSET 0;
  do! pio_write8 io_port ATA_PIO_IO_LBA_LOW_OFFSET 0;
  do! pio_write8 io_port ATA_PIO_IO_LBA_MID_OFFSET 0;
  do! pio_write8 io_port ATA_PIO_IO_LBA_HIGH_OFFSET 0;
  do! pio_write8 io_port ATA_PIO_IO_COMMAND_OFFSET ATA_PIO_COMMAND_IDENTIFY;
  let! status := pio_read8 io_port ATA_PIO_IO_STATUS_OFFSET in
  if status =? 0 then ret false
  else
    let! status := (if busy status then poll fuel io_port ATA_PIO_IO_STATUS_OFFSET busy else ret status) in
    let! mid := pio_read8 io_port ATA_PIO_IO_LBA_MID_OFFSET in
    let! high := (if negb (mid =? 0) then ret mid else pio_read8 io_port ATA_PIO_IO_LBA_HIGH_OFFSET) in
    if negb (high =? 0) then ret false
    else
      let waiting st := negb (data_ready st) && negb (error st) in
      let! status := (if waiting status then poll fuel io_port ATA_PIO_IO_STATUS_OFFSET waiting else ret status) in
      if error status then ret false
      else do! for_range 256 (fun _ => let! _ := pio_read16 io_port ATA_PIO_IO_DATA_OFFSET in ret tt); ret true.

(** ** The block device *)

Record ide_device_t := IdeDevice { io_port : Z; control_port : Z; is_master : bool }.
Definition drive_of (d : ide_device_t) : Z := if is_master d then DEVICE_DRIVE_MASTER else DEVICE_DRIVE_SLAVE.

Definition block_write (fuel : nat) (d : ide_device_t) (buffer : list Z) (block_size block_offset : Z) : M pio Z :=
  do! disc_select (io_port d) (control_port d) (drive_of d);
  let! ok := disc_write fuel block_offset block_size buffer in ret (if ok : bool then block_size else 0).
Definition block_read (fuel : nat) (d : ide_device_t) (block_size block_offset : Z) : M pio (Z * list Z) :=
  do! disc_select (io_port d) (control_port d) (drive_of d);
  let! r := disc_read fuel block_offset block_size in ret (if r.1 : bool then block_size else 0, r.2).
End driver.

(** ** What an ATA channel does

    The registers as they were written, the sectors of the two drives, and
    where the current transfer is: [Reading] has the words of the sector still
    to come, [Writing] those of the sector received so far. *)

Abbreviation drive_sectors := (gmap Z (list Z)).
Inductive phase := Idle | Failed | Reading (lba n : Z) (rest : list Z) | Writing (lba n : Z) (got : list Z).
Record channel := Channel {
  r_count : Z; r_low : Z; r_mid : Z; r_high : Z; r_head : Z;
  master : drive_sectors; slave : drive_sectors; ch_phase : phase
}.
Definition selected (c : channel) : drive_sectors := if Z.testbit (r_head c) 4 then slave c else master c.
Definition address (c : channel) : Z := r_low c + 2 ^ 8 * r_mid c + 2 ^ 16 * r_high c + 2 ^ 24 * Z.land (r_head c) 0xF.
(** A count of 0 asks for 256 sectors. *)
Definition wanted (c : channel) : Z := if r_count c =? 0 then 256 else r_count c.
Definition with_phase (p : phase) (c : channel) : channel :=
  Channel (r_count c) (r_low c) (r_mid c) (r_high c) (r_head c) (master c) (slave c) p.
Definition with_selected (m : drive_sectors) (c : channel) : channel :=
  if Z.testbit (r_head c) 4 then Channel (r_count c) (r_low c) (r_mid c) (r_high c) (r_head c) (master c) m (ch_phase c)
  else Channel (r_count c) (r_low c) (r_mid c) (r_high c) (r_head c) m (slave c) (ch_phase c).

Definition set_register (off v : Z) (c : channel) : channel :=
  let '(Channel n lo mid hi hd m s p) := c in
  if off =? 2 then Channel v lo mid hi hd m s p
  else if off =? 3 then Channel n v mid hi hd m s p
  else if off =? 4 then Channel n lo v hi hd m s p
  else if off =? 5 then Channel n lo mid v hd m s p
  else if off =? 6 then Channel n lo mid hi v m s p
  else c.
(** Start on [n] sectors from [lba]. *)
Definition read_from (lba n : Z) (c : channel) : phase :=
  if n =? 0 then Idle else match selected c !! lba with Some ws => Reading lba n ws | None => Failed end.
Definition write_from (lba n : Z) (c : channel) : phase :=
  if n =? 0 then Idle else match selected c !! lba with Some _ => Writing lba n [] | None => Failed end.
Definition take_word (c : channel) : channel :=
  match ch_phase c with
  | Reading lba n [_] => with_phase (read_from (lba + 1) (n - 1) c) c
  | Reading lba n (_ :: ws) => with_phase (Reading lba n ws) c
  | _ => c
  end.
Definition give_word (w : Z) (c : channel) : channel :=
  match ch_phase c with
  | Writing lba n got =>
      if (length got =? 255)%nat then
        let c' := with_selected (<[lba := got ++ [w]]> (selected c)) c in with_phase (write_from (lba + 1) (n - 1) c') c'
      else with_phase (Writing lba n (got ++ [w])) c
  | _ => c
  end.

Definition accepts (p : phase) : bool := match p with Idle | Failed => true | _ => false end.
Definition failed (p : phase) : bool := match p with Failed => true | _ => false end.
Definition transferring (p : phase) : bool := negb (accepts p).

(** [patience]: how many more status reads may find the drive busy. *)
Class AtaChannel (P : Type) `{!PortIO P} (io ctl : Z) := {
  chan : P -> channel;
  patience : P -> nat;
  busy_limit : nat;
  patience_limit w : (patience w <= busy_limit)%nat;
  ata_status w port : port = u16 (io + ATA_PIO_IO_STATUS_OFFSET) \/ port = u16 (ctl + ATA_PIO_CONTROL_STATUS_OFFSET) ->
    exists st w', inb port w = Done (st, w') /\ chan w' = chan w /\ (patience w' <= pred (patience w))%nat /\
      busy st = negb (bool_decide (patience w = 0%nat)) /\ drive_fault st = false /\
      (if busy st then error st = false else error st = failed (ch_phase (chan w)) /\ data_ready st = transferring (ch_phase (chan w)));
  ata_register w off v : 1 <= off <= 6 -> 0 <= v < 256 -> accepts (ch_phase (chan w)) = true -> patience w = 0%nat ->
    exists w', outb (u16 (io + off)) v w = Done (tt, w') /\ chan w' = set_register off v (chan w) /\ patience w' = 0%nat;
  ata_read w : accepts (ch_phase (chan w)) = true -> patience w = 0%nat -> exists w', outb (u16 (io + 7)) ATA_PIO_COMMAND_READ w = Done (tt, w') /\
    chan w' = with_phase (read_from (address (chan w)) (wanted (chan w)) (chan w)) (chan w);
  ata_write w : accepts (ch_phase (chan w)) = true -> patience w = 0%nat -> exists w', outb (u16 (io + 7)) ATA_PIO_COMMAND_WRITE w = Done (tt, w') /\
    chan w' = with_phase (write_from (address (chan w)) (wanted (chan w)) (chan w)) (chan w);
  ata_flush w : accepts (ch_phase (chan w)) = true -> exists w', outb (u16 (io + 7)) ATA_PIO_COMMAND_CACHE_FLUSH w = Done (tt, w') /\
    chan w' = with_phase Idle (chan w);
  ata_take w lba n x ws : ch_phase (chan w) = Reading lba n (x :: ws) -> patience w = 0%nat ->
    exists w', inw (u16 (io + ATA_PIO_IO_DATA_OFFSET)) w = Done (x, w') /\ chan w' = take_word (chan w) /\
      (ws <> [] \/ n = 1 -> patience w' = 0%nat);
  ata_give w lba n got v : ch_phase (chan w) = Writing lba n got -> patience w = 0%nat -> 0 <= v < 2 ^ 16 ->
    exists w', outw (u16 (io + ATA_PIO_IO_DATA_OFFSET)) v w = Done (tt, w') /\ chan w' = give_word v (chan w) /\
      (length got <> 255%nat -> patience w' = 0%nat)
}.

(** ** The driver with such a channel *)

Section channel.
Context {P : Type} `{HA : AtaChannel P io ctl}.
Implicit Types (s : pio (P := P)) (c : channel).

Definition with_ports s (w : P) : pio := Pio (current_device_drive s) (current_io_port s) (current_control_port s) w.
(** Drive [b], the slave if it is set, is the current one. *)
Definition current (b : bool) s : Prop :=
  current_io_port s = io /\ current_control_port s = ctl /\ current_device_drive s = if b then DEVICE_DRIVE_SLAVE else DEVICE_DRIVE_MASTER.
Definition settled (w : P) : Prop := accepts (ch_phase (chan w)) = true /\ patience w = 0%nat.
Definition same_discs c c' : Prop := master c' = master c /\ slave c' = slave c.
Definition same_registers c c' : Prop :=
  r_count c' = r_count c /\ r_low c' = r_low c /\ r_mid c' = r_mid c /\ r_high c' = r_high c /\ r_head c' = r_head c.
Definition disc_of (b : bool) c : drive_sectors := if b then slave c else master c.

Lemma with_ports_twice s w w' : with_ports (with_ports s w) w' = with_ports s w'.
Proof. done. Qed.
Lemma current_with_ports b s w : current b s -> current b (with_ports s w).
Proof. done. Qed.

(** What a status read leaves: the same channel, and a drive no busier. *)
Definition waited (w w' : P) : Prop := chan w' = chan w /\ (patience w' <= patience w)%nat.
Definition status_port (port off : Z) : Prop :=
  (port = io /\ off = ATA_PIO_IO_STATUS_OFFSET) \/ (port = ctl /\ off = ATA_PIO_CONTROL_STATUS_OFFSET).

Lemma read_status port off s : status_port port off -> exists st w', pio_read8 port off s = Done (st, with_ports s w') /\
  chan w' = chan (ports s) /\ (patience w' <= pred (patience (ports s)))%nat /\
  busy st = negb (bool_decide (patience (ports s) = 0%nat)) /\ drive_fault st = false /\
  (if busy st then error st = false
   else error st = failed (ch_phase (chan (ports s))) /\ data_ready st = transferring (ch_phase (chan (ports s)))).
Proof.
  intros Hp. destruct (ata_status (ports s) (u16 (port + off))) as (st & w' & E & H); [destruct Hp as [[-> ->]|[-> ->]]; auto|].
  exists st, w'. split; [|done]. unfold pio_read8, on_ports, zoom. by rewrite E.
Qed.

Lemma read_status_long_spec s : exists st w', read_status_long io s = Done (st, with_ports s w') /\ waited (ports s) w'.
Proof.
  assert (forall l s, exists w', for_each l (fun _ : nat => let! _ := pio_read8 io ATA_PIO_IO_STATUS_OFFSET in ret tt) s = Done (tt, with_ports s w') /\
    waited (ports s) w') as Hl.
  { induction l as [|x l IH]; intros s0; [by exists (ports s0); destruct s0|]. cbn [for_each].
    destruct (read_status io ATA_PIO_IO_STATUS_OFFSET s0) as (st & w & E & Hc & Hp & _); [by left|].
    destruct (IH (with_ports s0 w)) as (w' & E' & Hc' & Hp'). exists w'. rewrite bind_assoc, (bind_done _ _ _ _ _ E).
    split; [exact E'|]. cbn in *. split; [congruence|lia]. }
  destruct (Hl (seq 0 14) s) as (w & E & Hc & Hp). destruct (read_status io ATA_PIO_IO_STATUS_OFFSET (with_ports s w)) as (st & w' & E' & Hc' & Hp' & _); [by left|].
  exists st, w'. unfold read_status_long, for_range. rewrite (bind_done _ _ _ _ _ E). split; [exact E'|]. cbn in *. split; [congruence|lia].
Qed.

(** Polling ends as soon as the drive is not busy. *)
Lemma poll_spec fuel port off again s : status_port port off -> (patience (ports s) < fuel)%nat ->
  (forall st, busy st = true -> error st = false -> drive_fault st = false -> again st = true) ->
  (forall st, busy st = false -> drive_fault st = false -> error st = failed (ch_phase (chan (ports s))) ->
     data_ready st = transferring (ch_phase (chan (ports s))) -> again st = false) ->
  exists st w', poll fuel port off again s = Done (st, with_ports s w') /\ chan w' = chan (ports s) /\ patience w' = 0%nat /\
    drive_fault st = false /\ error st = failed (ch_phase (chan (ports s))).
Proof.
  intros Hport. revert s. induction fuel as [|fuel IH]; intros s Hf Hb Hn; [lia|]. cbn [poll].
  destruct (read_status port off s Hport) as (st & w & E & Hc & Hp & Hbusy & Hdf & Hst). rewrite (bind_done _ _ _ _ _ E).
  destruct (busy st) eqn:Eb.
  - rewrite (Hb st) by done. destruct (decide (patience (ports s) = 0%nat)) as [H0|H0]; [by rewrite bool_decide_true in Hbusy|].
    destruct (IH (with_ports s w)) as (st' & w' & E' & Hc' & Hr); cbn [ports with_ports] in *; [lia|done|by rewrite Hc|].
    exists st', w'. split; [exact E'|]. rewrite Hc in *. done.
  - destruct Hst as [He Hd]. rewrite (Hn st) by done. destruct (decide (patience (ports s) = 0%nat)) as [H0|H0]; [|by rewrite bool_decide_false in Hbusy].
    exists st, w. split_and!; [done|done|lia|done|done].
Qed.

Lemma wait_data_ready_spec b fuel s : current b s -> (busy_limit < fuel)%nat -> ch_phase (chan (ports s)) <> Idle ->
  exists st w', wait_data_ready fuel s = Done (st, with_ports s w') /\ chan w' = chan (ports s) /\ patience w' = 0%nat /\
    drive_fault st = false /\ error st = failed (ch_phase (chan (ports s))).
Proof.
  intros (Hio & Hctl & _) Hf Hph. unfold wait_data_ready. rewrite bind_get, Hio. apply poll_spec; [by left| | |].
  - pose proof (patience_limit (ports s)). lia.
  - by intros st -> -> ->.
  - intros st -> -> -> ->. by destruct (ch_phase _).
Qed.

Lemma write8_spec s off v : 1 <= off <= 6 -> 0 <= v < 256 -> settled (ports s) ->
  exists w', pio_write8 io off v s = Done (tt, with_ports s w') /\ chan w' = set_register off v (chan (ports s)) /\ settled w'.
Proof.
  intros Ho Hv [Ha Hp]. destruct (ata_register (ports s) off v Ho Hv Ha Hp) as (w' & E & Hc & Hp'). exists w'.
  assert (u8 v = v) as Hu by (by apply Z.mod_small).
  split; [unfold pio_write8, on_ports, zoom; by rewrite Hu, E|]. split; [done|]. split; [|done]. rewrite Hc. destruct (chan (ports s)) as [? ? ? ? ? ? ? ?]; cbn in *.
  repeat case_match; done.
Qed.
Lemma status_long_settled s : settled (ports s) -> exists st w', read_status_long io s = Done (st, with_ports s w') /\ chan w' = chan (ports s) /\ settled w'.
Proof.
  intros [Ha Hp]. destruct (read_status_long_spec s) as (st & w & E & Hc & Hle). exists st, w. split; [done|]. split; [done|]. split; [by rewrite Hc|lia].
Qed.

(** Everything before the command itself. *)
Lemma start_setup b s lba n command : current b s -> settled (ports s) -> 0 <= lba < 2 ^ 24 -> 0 <= n < 256 ->
  exists w, start_command lba n command s = pio_write8 io 7 command (with_ports s w) /\ settled w /\
    address (chan w) = lba /\ r_count (chan w) = n /\ Z.testbit (r_head (chan w)) 4 = b /\ same_discs (chan (ports s)) (chan w).
Proof.
  intros (Hio & Hctl & Hd) Hs Hl Hn. unfold start_command. rewrite bind_get. cbn zeta. rewrite Hio, Hd.
  assert (Z.land (Z.shiftr lba 24) 0xF = 0) as -> by (rewrite (Z.shiftr_div_pow2 lba 24), Z.div_small by lia; done).
  set (hd := if b then 0xF0 else 0xE0).
  assert ((if (if b then DEVICE_DRIVE_SLAVE else DEVICE_DRIVE_MASTER) =? DEVICE_DRIVE_MASTER
           then pio_write8 io ATA_PIO_IO_DRIVE_HEAD_OFFSET (Z.lor 0xE0 0)
           else if (if b then DEVICE_DRIVE_SLAVE else DEVICE_DRIVE_MASTER) =? DEVICE_DRIVE_SLAVE
           then pio_write8 io ATA_PIO_IO_DRIVE_HEAD_OFFSET (Z.lor 0xF0 0) else ret tt) = pio_write8 io 6 hd) as -> by (by destruct b).
  destruct (write8_spec s 6 hd ltac:(lia) ltac:(unfold hd; destruct b; lia) Hs) as (w1 & E1 & H1 & S1). rewrite (bind_done _ _ _ _ _ E1).
  destruct (status_long_settled (with_ports s w1) S1) as (st & w2 & E2 & H2 & S2). rewrite (bind_done _ _ _ _ _ E2).
  change (Z.land lba 0xFF) with (Z.land lba (Z.ones 8)). change (Z.land (Z.shiftr lba 8) 0xFF) with (Z.land (Z.shiftr lba 8) (Z.ones 8)).
  change (Z.land (Z.shiftr lba 16) 0xFF) with (Z.land (Z.shiftr lba 16) (Z.ones 8)). rewrite !Z.land_ones, !Z.shiftr_div_pow2 by lia.
  destruct (write8_spec (with_ports s w2) 1 0 ltac:(lia) ltac:(lia) S2) as (w3 & E3 & H3 & S3). rewrite (bind_done _ _ _ _ _ E3).
  destruct (write8_spec (with_ports s w3) 2 n ltac:(lia) ltac:(lia) S3) as (w4 & E4 & H4 & S4). rewrite (bind_done _ _ _ _ _ E4).
  destruct (write8_spec (with_ports s w4) 3 (lba mod 2 ^ 8) ltac:(lia) ltac:(apply Z.mod_pos_bound; lia) S4) as (w5 & E5 & H5 & S5). rewrite (bind_done _ _ _ _ _ E5).
  destruct (write8_spec (with_ports s w5) 4 ((lba / 2 ^ 8) mod 2 ^ 8) ltac:(lia) ltac:(apply Z.mod_pos_bound; lia) S5) as (w6 & E6 & H6 & S6). rewrite (bind_done _ _ _ _ _ E6).
  destruct (write8_spec (with_ports s w6) 5 ((lba / 2 ^ 16) mod 2 ^ 8) ltac:(lia) ltac:(apply Z.mod_pos_bound; lia) S6) as (w7 & E7 & H7 & S7). rewrite (bind_done _ _ _ _ _ E7).
  exists w7. cbn [ports with_ports] in *. split; [done|]. split; [done|]. rewrite H7, H6, H5, H4, H3, H2, H1. destruct (chan (ports s)) as [? ? ? ? ? ? ? ?]. cbn -[Z.pow Z.modulo Z.div Z.mul].
  split; [unfold address; cbn [r_low r_mid r_high r_head]; replace (Z.land hd 0xF) with 0 by (by destruct b)|by split_and!; [done|destruct b|split]].
  pose proof (Z.div_mod lba (2 ^ 8) ltac:(lia)). pose proof (Z.div_mod (lba / 2 ^ 8) (2 ^ 8) ltac:(lia)) as Hm.
  rewrite Z.div_div, <- Z.pow_add_r in Hm by lia. change (8 + 8) with 16 in Hm.
  rewrite (Z.mod_small (lba / 2 ^ 16) (2 ^ 8)); [lia|]. split; [apply Z.div_pos; lia|]. apply Z.div_lt_upper_bound; lia.
Qed.

Lemma command_written s w w' command : outb (u16 (io + 7)) command w = Done (tt, w') -> u8 command = command ->
  pio_write8 io 7 command (with_ports s w) = Done (tt, with_ports s w').
Proof. intros E Hu. unfold pio_write8, on_ports, zoom. cbn [ports with_ports]. by rewrite Hu, E. Qed.

Lemma selected_disc b c : Z.testbit (r_head c) 4 = b -> selected c = disc_of b c.
Proof. intros <-. done. Qed.

(** The transfer of one sector: what the words were, and what comes next. *)
Lemma read_words_spec b ws : forall x s lba n, current b s -> patience (ports s) = 0%nat ->
  ch_phase (chan (ports s)) = Reading lba n (x :: ws) ->
  exists w', read_words (S (length ws)) s = Done (x :: ws, with_ports s w') /\
    chan w' = with_phase (read_from (lba + 1) (n - 1) (chan (ports s))) (chan (ports s)) /\ (n = 1 -> patience w' = 0%nat).
Proof.
  induction ws as [|y ws IH]; intros x s lba n Hcur Hp Hph; pose proof Hcur as (Hio & _).
  - destruct (ata_take (ports s) lba n x [] Hph Hp) as (w & E & Hc & Hp'). exists w. cbn [length read_words]. rewrite bind_get, Hio.
    assert (pio_read16 io ATA_PIO_IO_DATA_OFFSET s = Done (x, with_ports s w)) as E' by (unfold pio_read16, on_ports, zoom; by rewrite E).
    rewrite (bind_done _ _ _ _ _ E'). split; [done|]. split; [|auto]. rewrite Hc. unfold take_word. by rewrite Hph.
  - destruct (ata_take (ports s) lba n x (y :: ws) Hph Hp) as (w & E & Hc & Hp').
    assert (chan w = with_phase (Reading lba n (y :: ws)) (chan (ports s))) as Hcw by (rewrite Hc; unfold take_word; by rewrite Hph).
    destruct (IH y (with_ports s w) lba n) as (w' & E' & Hc' & Hn); cbn [ports with_ports] in *; [done|by apply Hp'; left|by rewrite Hcw|].
    exists w'. change (length (y :: ws)) with (S (length ws)). cbn [read_words]. rewrite bind_get, Hio.
    assert (pio_read16 io ATA_PIO_IO_DATA_OFFSET s = Done (x, with_ports s w)) as E0 by (unfold pio_read16, on_ports, zoom; by rewrite E).
    rewrite (bind_done _ _ _ _ _ E0). cbn [read_words] in E'. rewrite (bind_done _ _ _ _ _ E'). split; [done|]. split; [|done].
    rewrite Hc', Hcw. unfold read_from, selected, with_phase. by destruct (chan (ports s)).
Qed.

(** The sectors from [lba] on, up to the first that the drive does not have. *)
Fixpoint read_seq (n : nat) (lba : Z) (m : drive_sectors) : bool * list Z :=
  match n with
  | O => (true, [])
  | S n' => match m !! lba with None => (false, []) | Some ws => ((read_seq n' (lba + 1) m).1, ws ++ (read_seq n' (lba + 1) m).2) end
  end.

Lemma read_sectors_spec b fuel n : forall s i lba, current b s -> (busy_limit < fuel)%nat -> Z.testbit (r_head (chan (ports s))) 4 = b ->
  ch_phase (chan (ports s)) = read_from lba (Z.of_nat n) (chan (ports s)) -> (n = 0%nat -> patience (ports s) = 0%nat) ->
  map_Forall (fun _ ws => length ws = 256%nat) (disc_of b (chan (ports s))) ->
  exists k w', read_sectors fuel n i s = Done ((k, (read_seq n lba (disc_of b (chan (ports s)))).2), with_ports s w') /\ settled w' /\
    (if (read_seq n lba (disc_of b (chan (ports s)))).1 then k = i + Z.of_nat n else i <= k < i + Z.of_nat n) /\
    same_discs (chan (ports s)) (chan w').
Proof.
  induction n as [|n IH]; intros s i lba Hcur Hf Hb Hph Hp0 Hlen.
  { exists i, (ports s). cbn [read_sectors read_seq fst snd]. split; [by destruct s|]. split; [split; [by rewrite Hph|auto]|]. split; [lia|done]. }
  set (c := chan (ports s)) in *. unfold read_from in Hph. rewrite (proj2 (Z.eqb_neq (Z.of_nat (S n)) 0)) in Hph by lia. rewrite (selected_disc b c Hb) in Hph.
  destruct (wait_data_ready_spec b fuel s Hcur Hf) as (st & w1 & E1 & H1 & P1 & Hdf & Herr); [fold c; rewrite Hph; by destruct (_ !! _)|]. fold c in H1, Herr.
  cbn [read_sectors read_seq]. rewrite (bind_done _ _ _ _ _ E1), Hdf, Herr, Hph.
  destruct (disc_of b c !! lba) as [ws|] eqn:El; cbn [failed orb].
  2: { exists i, w1. cbn [fst snd]. split; [done|]. split; [split; [by rewrite H1, Hph|done]|]. split; [lia|]. by rewrite H1. }
  pose proof (Hlen lba ws El) as Hlw. cbn in Hlw. destruct ws as [|x ws]; [done|]. injection Hlw as Hlw.
  destruct (read_words_spec b ws x (with_ports s w1) lba (Z.of_nat (S n))) as (w2 & E2 & H2 & P2); cbn [ports with_ports]; [done|done|by rewrite H1|].
  rewrite Hlw in E2. rewrite (bind_done _ _ _ _ _ E2), bind_get. cbn [current_io_port with_ports ports] in *. pose proof Hcur as (Hio & _). rewrite Hio.
  destruct (read_status_long_spec (with_ports s w2)) as (st2 & w3 & E3 & H3 & P3). rewrite (bind_done _ _ _ _ _ E3). cbn [ports with_ports] in *. rewrite H1 in H2.
  assert (chan w3 = with_phase (read_from (lba + 1) (Z.of_nat n) c) c) as Hc3 by (rewrite H3, H2; do 2 f_equal; lia).
  assert (disc_of b (chan w3) = disc_of b c) as Hd3 by (rewrite Hc3; by destruct b).
  destruct (IH (with_ports s w3) (i + 1) (lba + 1)) as (k & w4 & E4 & S4 & Hk & Hs4); cbn [ports with_ports] in *; [done|done|by rewrite Hc3| | |by rewrite Hd3|].
  - rewrite Hc3. unfold with_phase at 1. cbn [ch_phase]. unfold read_from, selected, with_phase. by destruct c.
  - intros ->. assert (patience w2 = 0%nat) by (apply P2; lia). lia.
  - exists k, w4. rewrite Hd3 in *. rewrite (bind_done _ _ _ _ _ E4). cbn [fst snd]. split; [done|]. split; [done|]. split; [by case_match; lia|].
    destruct Hs4 as [Hm Hs]. split; [rewrite Hm|rewrite Hs]; by rewrite Hc3.
Qed.

Lemma disc_read28_spec b fuel s lba n : current b s -> settled (ports s) -> (busy_limit < fuel)%nat -> 0 <= lba <= 0xFFFFFF -> 1 <= n < 256 ->
  map_Forall (fun _ ws => length ws = 256%nat) (disc_of b (chan (ports s))) ->
  let r := read_seq (Z.to_nat n) lba (disc_of b (chan (ports s))) in
  exists k w', disc_read28 fuel lba n s = Done ((k, r.2), with_ports s w') /\ settled w' /\ (k =? n) = r.1 /\ same_discs (chan (ports s)) (chan w').
Proof.
  intros Hcur Hs Hf Hl Hn Hlen r. unfold disc_read28. destruct (Z.gtb_spec lba 0xFFFFFF); [lia|].
  destruct (start_setup b s lba n ATA_PIO_COMMAND_READ Hcur Hs ltac:(lia) ltac:(lia)) as (w1 & E1 & [Ha1 Hp1] & Had & Hcnt & Hbit & Hm1 & Hs1).
  destruct (ata_read w1 Ha1 Hp1) as (w2 & E2 & H2). assert (disc_of b (chan w2) = disc_of b (chan (ports s))) as Hd.
  { rewrite H2. destruct b; cbn; [by rewrite Hs1|by rewrite Hm1]. }
  rewrite Had in H2. unfold wanted in H2. rewrite Hcnt, (proj2 (Z.eqb_neq n 0)) in H2 by lia.
  assert (start_command lba n ATA_PIO_COMMAND_READ s = Done (tt, with_ports s w2)) as E by (rewrite E1; by apply command_written).
  rewrite (bind_done _ _ _ _ _ E).
  destruct (read_sectors_spec b fuel (Z.to_nat n) (with_ports s w2) 0 lba) as (k & w3 & E3 & S3 & Hk & Hm3 & Hs3); cbn [ports with_ports] in *; [done|done|by rewrite H2| |lia|by rewrite Hd|].
  - rewrite H2, Z2Nat.id by lia. unfold with_phase at 1. cbn [ch_phase]. unfold read_from, selected, with_phase. by destruct (chan w1).
  - rewrite Hd in E3, Hk. fold r in E3, Hk. exists k, w3. split; [done|]. split; [done|]. split.
    + destruct r.1; [apply Z.eqb_eq|apply Z.eqb_neq]; lia.
    + split; [rewrite Hm3|rewrite Hs3]; rewrite H2; done.
Qed.

(** *** Writing *)

(** [src]'s 256 words from [base] go to the sector. *)
Definition is_byte (b : Z) : Prop := 0 <= b < 2 ^ 8.
Definition is_word (w : Z) : Prop := 0 <= w < 2 ^ 16.
Definition stored_sector (lba n : Z) (ws : list Z) (c : channel) : channel :=
  let c' := with_selected (<[lba := ws]> (selected c)) c in with_phase (write_from (lba + 1) (n - 1) c') c'.

Lemma stored_sector_phase lba n ws p c : stored_sector lba n ws (with_phase p c) = stored_sector lba n ws c.
Proof. unfold stored_sector, with_selected, selected, with_phase, write_from. destruct c as [? ? ? ? hd ? ? ?]. cbn -[Z.testbit]. by destruct (Z.testbit hd 4) eqn:E; cbn -[Z.testbit]; rewrite ?E. Qed.

Lemma write16_spec b s lba n got v : current b s -> patience (ports s) = 0%nat -> ch_phase (chan (ports s)) = Writing lba n got -> is_word v ->
  exists w, pio_write16 io ATA_PIO_IO_DATA_OFFSET v s = Done (tt, with_ports s w) /\
    chan w = (if (length got =? 255)%nat then stored_sector lba n (got ++ [v]) (chan (ports s)) else with_phase (Writing lba n (got ++ [v])) (chan (ports s))) /\
    (length got <> 255%nat -> patience w = 0%nat).
Proof.
  intros Hcur Hp Hph Hv. destruct (ata_give (ports s) lba n got v Hph Hp Hv) as (w & E & Hc & Hp'). exists w.
  assert (u16 v = v) as Hu by (by apply Z.mod_small). split; [unfold pio_write16, on_ports, zoom; by rewrite Hu, E|].
  split; [|done]. rewrite Hc. unfold give_word. by rewrite Hph.
Qed.

Definition give_body (src : list Z) (base : nat) (j : nat) : M (pio (P := P)) unit :=
  let! w := of_option Undefined (src !! (base + j)%nat) in let! s := get in pio_write16 (current_io_port s) ATA_PIO_IO_DATA_OFFSET w.

Lemma give_words_spec b src base m : forall k s lba n got, current b s -> patience (ports s) = 0%nat ->
  ch_phase (chan (ports s)) = Writing lba n got -> length got = k -> (k + S m = 256)%nat ->
  Forall is_word src -> (base + 256 <= length src)%nat ->
  exists w', for_each (seq k (S m)) (give_body src base) s = Done (tt, with_ports s w') /\
    chan w' = stored_sector lba n (got ++ take (S m) (drop (base + k) src)) (chan (ports s)).
Proof.
  induction m as [|m IH]; intros k s lba n got Hcur Hp Hph Hk Hm Hw Hlen; pose proof Hcur as (Hio & _).
  all: destruct (lookup_lt_is_Some_2 src (base + k)) as [v Hv]; [lia|]; pose proof (Forall_lookup_1 _ _ _ _ Hw Hv) as Hvw.
  all: destruct (write16_spec b s lba n got v Hcur Hp Hph Hvw) as (w & E & Hc & Hp').
  all: assert (give_body src base k s = Done (tt, with_ports s w)) as E0 by (unfold give_body; rewrite Hv; unfold of_option, bind, get; by rewrite Hio).
  all: cbn [seq for_each]; rewrite (bind_done _ _ _ _ _ E0); rewrite (drop_S _ _ _ Hv).
  - rewrite (proj2 (Nat.eqb_eq _ _)) in Hc by lia. exists w. split; [done|]. cbn [take]. done.
  - rewrite (proj2 (Nat.eqb_neq _ _)) in Hc by lia.
    destruct (IH (S k) (with_ports s w) lba n (got ++ [v])) as (w' & E' & Hc'); cbn [ports with_ports] in *;
      [done|apply Hp'; lia|by rewrite Hc|rewrite length_app; cbn; lia|lia|done|done|].
    exists w'. split; [exact E'|]. rewrite Hc', Hc, stored_sector_phase, <- app_assoc, Nat.add_succ_r. done.
Qed.

Fixpoint write_seq (n : nat) (lba : Z) (ws : list Z) (m : drive_sectors) : bool * drive_sectors :=
  match n with
  | O => (true, m)
  | S n' => match m !! lba with None => (false, m) | Some _ => write_seq n' (lba + 1) (drop 256 ws) (<[lba := take 256 ws]> m) end
  end.

Lemma stored_discs b lba n ws c : Z.testbit (r_head c) 4 = b -> let c' := stored_sector lba n ws c in
  r_head c' = r_head c /\ disc_of b c' = <[lba := ws]> (disc_of b c) /\ disc_of (negb b) c' = disc_of (negb b) c /\ ch_phase c' = write_from (lba + 1) (n - 1) c'.
Proof.
  intros Hb. unfold stored_sector, write_from, with_selected, selected, with_phase, disc_of. destruct c as [? ? ? ? hd ? ? ?]. cbn -[Z.testbit] in *. rewrite Hb. destruct b; cbn -[Z.testbit]; rewrite ?Hb; done.
Qed.

Lemma write_sectors_spec b fuel src n : forall s i lba, current b s -> (busy_limit < fuel)%nat -> Z.testbit (r_head (chan (ports s))) 4 = b ->
  ch_phase (chan (ports s)) = write_from lba (Z.of_nat n) (chan (ports s)) -> 0 <= i ->
  Forall is_word src -> ((Z.to_nat i + n) * 256 <= length src)%nat ->
  let r := write_seq n lba (drop (Z.to_nat i * 256) src) (disc_of b (chan (ports s))) in
  exists k w', write_sectors fuel n i src s = Done ((k, r.1), with_ports s w') /\ i <= k <= i + Z.of_nat n /\
    (if r.1 then accepts (ch_phase (chan w')) = true else settled w' /\ k < i + Z.of_nat n) /\
    disc_of b (chan w') = r.2 /\ disc_of (negb b) (chan w') = disc_of (negb b) (chan (ports s)).
Proof.
  induction n as [|n IH]; intros s i lba Hcur Hf Hb Hph Hi Hw Hlen.
  { exists i, (ports s). cbn [write_sectors write_seq fst snd]. split; [by destruct s|]. split; [lia|]. by rewrite Hph. }
  set (c := chan (ports s)) in *. unfold write_from in Hph. rewrite (proj2 (Z.eqb_neq (Z.of_nat (S n)) 0)) in Hph by lia. rewrite (selected_disc b c Hb) in Hph.
  destruct (wait_data_ready_spec b fuel s Hcur Hf) as (st & w1 & E1 & H1 & P1 & Hdf & Herr); [fold c; rewrite Hph; by destruct (_ !! _)|]. fold c in H1, Herr.
  cbn [write_sectors write_seq]. rewrite (bind_done _ _ _ _ _ E1), Hdf, Herr, Hph.
  destruct (disc_of b c !! lba) as [ws|] eqn:El; cbn [failed orb].
  2: { exists i, w1. cbn [fst snd]. split; [done|]. split; [lia|]. split; [|by rewrite H1]. split; [|lia]. split; [by rewrite H1, Hph|done]. }
  destruct (give_words_spec b src (Z.to_nat i * 256) 255 0 (with_ports s w1) lba (Z.of_nat (S n)) []) as (w2 & E2 & H2); cbn [ports with_ports] in *;
    [done|done|by rewrite H1|done|done|done|lia|].
  unfold for_range. change (fun j : nat => _) with (give_body src (Z.to_nat i * 256)). rewrite (bind_done _ _ _ _ _ E2), bind_get.
  cbn [current_io_port with_ports ports app] in *. pose proof Hcur as (Hio & _). rewrite Hio, Nat.add_0_r in *.
  destruct (read_status_long_spec (with_ports s w2)) as (st2 & w3 & E3 & H3 & P3). rewrite (bind_done _ _ _ _ _ E3). cbn [ports with_ports] in *. rewrite H1 in H2. rewrite H2 in H3.
  destruct (stored_discs b lba (Z.of_nat (S n)) (take 256 (drop (Z.to_nat i * 256) src)) c Hb) as (Hhd & Hd & Ho & Hph3). rewrite <- H3 in Hhd, Hd, Ho, Hph3.
  replace (Z.of_nat (S n) - 1) with (Z.of_nat n) in Hph3 by lia.
  destruct (IH (with_ports s w3) (i + 1) (lba + 1)) as (k & w4 & E4 & Hk & Hok & Hd4 & Ho4); cbn [ports with_ports] in *; [done|done|by rewrite Hhd|done|lia|done|lia|].
  replace (Z.to_nat (i + 1) * 256)%nat with (Z.to_nat i * 256 + 256)%nat in * by lia. rewrite Hd, <- drop_drop in *.
  exists k, w4. split; [exact E4|]. split; [lia|]. split; [case_match; [done|]; destruct Hok; split; [done|lia]|]. split; [done|]. by rewrite Ho4.
Qed.

Lemma cache_flush_spec b fuel s : current b s -> (busy_limit < fuel)%nat -> accepts (ch_phase (chan (ports s))) = true ->
  exists w', cache_flush fuel s = Done (tt, with_ports s w') /\ settled w' /\ same_discs (chan (ports s)) (chan w').
Proof.
  intros (Hio & Hctl & _) Hf Ha. destruct (ata_flush (ports s) Ha) as (w1 & E1 & H1). unfold cache_flush. rewrite bind_get, Hio.
  pose proof (command_written s (ports s) w1 ATA_PIO_COMMAND_CACHE_FLUSH E1 eq_refl) as E. destruct s as [? ? ? w0]. rewrite (bind_done _ _ _ _ _ E). cbn [ports with_ports current_device_drive current_io_port current_control_port] in *. subst.
  destruct (poll_spec fuel ctl ATA_PIO_CONTROL_STATUS_OFFSET (fun st => busy st && negb (error st) && negb (drive_fault st))
    (Pio current_device_drive0 io ctl w1)) as (st & w2 & E2 & H2 & P2 & _); [by right|pose proof (patience_limit w1); cbn; lia|by intros st -> -> ->|by intros st -> _ _ _|].
  assert (forall x, x = Pio current_device_drive0 io ctl w1 -> wait_ready fuel x = Done (st, with_ports x w2)) as Ew by (intros x ->; exact E2).
  rewrite (bind_done _ _ _ _ _ (Ew _ eq_refl)). exists w2. split; [done|]. cbn [ports] in H2. split; [split; [by rewrite H2, H1|done]|]. by rewrite H2, H1.
Qed.

Lemma disc_write28_spec b fuel s lba n src : current b s -> settled (ports s) -> (busy_limit < fuel)%nat -> 0 <= lba <= 0xFFFFFF -> 1 <= n < 256 ->
  Forall is_word src -> (Z.to_nat n * 256 <= length src)%nat ->
  let r := write_seq (Z.to_nat n) lba src (disc_of b (chan (ports s))) in
  exists k w', disc_write28 fuel lba n src s = Done (k, with_ports s w') /\ settled w' /\ (k =? n) = r.1 /\
    disc_of b (chan w') = r.2 /\ disc_of (negb b) (chan w') = disc_of (negb b) (chan (ports s)).
Proof.
  intros Hcur Hs Hf Hl Hn Hw Hlen r. unfold disc_write28. destruct (Z.gtb_spec lba 0xFFFFFF); [lia|].
  destruct (start_setup b s lba n ATA_PIO_COMMAND_WRITE Hcur Hs ltac:(lia) ltac:(lia)) as (w1 & E1 & [Ha1 Hp1] & Had & Hcnt & Hbit & Hm1 & Hs1).
  destruct (ata_write w1 Ha1 Hp1) as (w2 & E2 & H2).
  assert (forall b, disc_of b (chan w2) = disc_of b (chan (ports s))) as Hd by (intros b'; rewrite H2; destruct b'; cbn; [by rewrite Hs1|by rewrite Hm1]).
  rewrite Had in H2. unfold wanted in H2. rewrite Hcnt, (proj2 (Z.eqb_neq n 0)) in H2 by lia.
  assert (start_command lba n ATA_PIO_COMMAND_WRITE s = Done (tt, with_ports s w2)) as E by (rewrite E1; by apply command_written).
  rewrite (bind_done _ _ _ _ _ E).
  destruct (write_sectors_spec b fuel src (Z.to_nat n) (with_ports s w2) 0 lba) as (k & w3 & E3 & Hk & Hok & Hd3 & Ho3); cbn [ports with_ports] in *; [done|done|by rewrite H2| |lia|done|cbn; lia|].
  - rewrite H2, Z2Nat.id by lia. unfold with_phase at 1. cbn [ch_phase]. unfold write_from, selected, with_phase. by destruct (chan w1).
  - change (Z.to_nat 0 * 256)%nat with 0%nat in *. rewrite drop_0, !Hd in *. fold r in E3, Hok, Hd3. rewrite (bind_done _ _ _ _ _ E3). cbn [fst snd]. destruct r.1.
    + destruct (cache_flush_spec b fuel (with_ports s w3) Hcur Hf Hok) as (w4 & E4 & S4 & Hm4 & Hs4). rewrite (bind_done _ _ _ _ _ E4). cbn [ports with_ports] in *.
      assert (forall b, disc_of b (chan w4) = disc_of b (chan w3)) as Hd4 by (intros []; [by apply Hs4|by apply Hm4]).
      exists n, w4. rewrite !Hd4, Z.eqb_refl. done.
    + destruct Hok as [S3 Hlt]. exists k, w3. rewrite (proj2 (Z.eqb_neq k n)) by lia. done.
Qed.

(** *** Selecting the drive, and bytes *)

Definition slave_of (d : ide_device_t) : bool := negb (is_master d).

Lemma disc_select_spec d s : io_port d = io -> control_port d = ctl -> settled (ports s) ->
  exists s', disc_select io ctl (drive_of d) s = Done (tt, s') /\ current (slave_of d) s' /\ settled (ports s') /\ same_discs (chan (ports s)) (chan (ports s')).
Proof.
  intros Hio Hctl Hs. unfold disc_select. rewrite bind_get. destruct (_ || _ || _) eqn:E.
  - set (v := if drive_of d =? DEVICE_DRIVE_MASTER then 0xA0 else 0xB0).
    destruct (write8_spec s 6 v ltac:(lia) ltac:(unfold v; case_match; lia) Hs) as (w1 & E1 & H1 & S1).
    change ATA_PIO_IO_DRIVE_HEAD_OFFSET with 6. rewrite (bind_done _ _ _ _ _ E1). destruct (status_long_settled (with_ports s w1) S1) as (st & w2 & E2 & H2 & S2). rewrite (bind_done _ _ _ _ _ E2).
    eexists. split; [reflexivity|]. cbn [ports with_ports] in *. split; [by destruct d as [? ? []]|]. split; [done|]. rewrite H2, H1. by destruct (chan (ports s)).
  - apply orb_false_iff in E as [[E1%negb_false_iff%Z.eqb_eq E2%negb_false_iff%Z.eqb_eq]%orb_false_iff E3%negb_false_iff%Z.eqb_eq].
    exists s. split; [done|]. split; [|done]. split; [done|]. split; [done|]. rewrite <- E3. unfold slave_of, drive_of. by destruct (is_master d).
Qed.

Lemma words_of_spec bs n : length bs = (2 * n)%nat -> Forall is_byte bs ->
  length (words_of bs) = n /\ Forall is_word (words_of bs) /\ bytes_of (words_of bs) = bs.
Proof.
  unfold is_byte. revert bs. induction n as [|n IH]; intros bs Hl Hb; [by destruct bs|]. destruct bs as [|x [|y bs]]; cbn [length] in Hl; try lia.
  apply Forall_cons in Hb as [Hx Hb]. apply Forall_cons in Hb as [Hy Hb]. destruct (IH bs ltac:(lia) Hb) as (H1 & H2 & H3).
  cbn [words_of length]. split; [by rewrite H1|]. cbn [le_value]. split; [constructor; [unfold is_word; lia|done]|].
  match goal with |- bytes_of (?w :: _) = _ => change (bytes_of (w :: words_of bs)) with (le_bytes 2 w ++ bytes_of (words_of bs)) end.
  rewrite H3. cbn [le_bytes app]. f_equal; [|f_equal].
  all: replace (x + 256 * (y + 256 * 0)) with (x + y * 256) by lia.
  - rewrite Z.mod_add, Z.mod_small by lia. done.
  - rewrite Z.div_add, Z.div_small, Z.add_0_l, Z.mod_small by lia. done.
Qed.
Lemma words_of_take k bs : words_of (take (2 * k) bs) = take k (words_of bs).
Proof.
  revert bs. induction k as [|k IH]; intros bs; [done|]. replace (2 * S k)%nat with (S (S (2 * k))) by lia. destruct bs as [|x [|y bs]]; [done|done|]. rewrite !firstn_cons. cbn [words_of]. by rewrite IH.
Qed.
Lemma words_of_drop k bs : words_of (drop (2 * k) bs) = drop k (words_of bs).
Proof.
  revert bs. induction k as [|k IH]; intros bs; [by rewrite !drop_0|]. replace (2 * S k)%nat with (S (S (2 * k))) by lia. destruct bs as [|x [|y bs]]; cbn [drop words_of]; [by destruct k|by destruct k|apply IH].
Qed.

(** *** The same blocks as the device that pkfs works on *)

Fixpoint blocks_read (n : nat) (lba : Z) : M memory_disc (bool * list Z) :=
  match n with
  | O => ret (true, [])
  | S n' =>
      let! r := Pkfs.disc_read lba in
      match r with
      | None => ret (false, [])
      | Some p => let! q := blocks_read n' (lba + 1) in ret (q.1, p ++ q.2)
      end
  end.
Fixpoint blocks_write (n : nat) (lba : Z) (bs : list Z) : M memory_disc bool :=
  match n with
  | O => ret true
  | S n' =>
      let! ok := Pkfs.disc_write lba (take page_bytes bs) in
      if ok : bool then blocks_write n' (lba + 1) (drop page_bytes bs) else ret false
  end.

Inductive block_op := BlockRead (lba n : Z) | BlockWrite (lba n : Z) (bs : list Z).
Definition run_blocks (fuel : nat) (d : ide_device_t) (o : block_op) : M (pio (P := P)) (Z * list Z) :=
  match o with
  | BlockRead lba n => block_read fuel d n lba
  | BlockWrite lba n bs => let! k := block_write fuel d bs n lba in ret (k, [])
  end.
(** Addresses of 24 bits, one block after the other. *)
Definition spec_blocks (o : block_op) : M memory_disc (Z * list Z) :=
  match o with
  | BlockRead lba n =>
      if lba >? 0xFFFFFF then ret (0, [])
      else let! r := blocks_read (Z.to_nat n) lba in ret (if r.1 then n else 0, r.2)
  | BlockWrite lba n bs =>
      if lba >? 0xFFFFFF then ret (0, [])
      else let! ok := blocks_write (Z.to_nat n) lba bs in ret (if ok : bool then n else 0, [])
  end.
Definition block_op_ok (o : block_op) : Prop :=
  match o with
  | BlockRead lba n => 0 <= lba < 2 ^ 32 /\ 1 <= n < 256
  | BlockWrite lba n bs => 0 <= lba < 2 ^ 32 /\ 1 <= n < 256 /\ length bs = (page_bytes * Z.to_nat n)%nat /\ Forall is_byte bs
  end.

(** The sectors [m] of the drive are those of [d]. *)
Definition sectors_rep (m : drive_sectors) (d : memory_disc) : Prop :=
  map_Forall (fun _ ws => length ws = 256%nat) m /\ forall lba, bytes_of <$> m !! lba = bd_read lba d.
(** The channel is at rest, its other drive as it was. *)
Definition drive_rep (d : ide_device_t) (other : drive_sectors) s (m : memory_disc) : Prop :=
  settled (ports s) /\ disc_of (negb (slave_of d)) (chan (ports s)) = other /\ sectors_rep (disc_of (slave_of d) (chan (ports s))) m.

Lemma blocks_read_spec m n : forall lba d, sectors_rep m d ->
  blocks_read n lba d = Done (((read_seq n lba m).1, bytes_of (read_seq n lba m).2), d).
Proof.
  induction n as [|n IH]; intros lba d Hr; [done|]. cbn [blocks_read read_seq]. unfold Pkfs.disc_read, bind. destruct Hr as [Hl Hr]. rewrite <- (Hr lba).
  destruct (m !! lba) as [ws|] eqn:E; cbn [fmap option_fmap option_map]; [|done]. rewrite (IH (lba + 1) d) by done. unfold ret. cbn [fst snd].
  unfold bytes_of. by rewrite bind_app.
Qed.

Lemma sectors_rep_put m d lba bs : sectors_rep m d -> is_Some (m !! lba) -> length bs = page_bytes -> Forall is_byte bs ->
  exists d', bd_write lba bs d = (true, d') /\ sectors_rep (<[lba := words_of bs]> m) d'.
Proof.
  intros [Hl Hr] Hin Hlen Hb. destruct (words_of_spec bs 256 Hlen Hb) as (H1 & _ & H3).
  destruct (bd_write_in d lba bs) as (d' & E & _ & Hp & Hother); [|done|].
  { apply bd_read_in. rewrite <- Hr. by rewrite fmap_is_Some. }
  exists d'. split; [done|]. split; [by apply map_Forall_insert_2|]. intros l. destruct (decide (l = lba)) as [->|Hne].
  - by rewrite lookup_insert_eq, Hp; cbn; rewrite H3.
  - by rewrite lookup_insert_ne, Hother by congruence.
Qed.

Lemma blocks_write_spec n : forall lba bs m d, sectors_rep m d -> length bs = (page_bytes * n)%nat -> Forall is_byte bs ->
  exists d', blocks_write n lba bs d = Done ((write_seq n lba (words_of bs) m).1, d') /\ sectors_rep (write_seq n lba (words_of bs) m).2 d'.
Proof.
  induction n as [|n IH]; intros lba bs m d Hr Hlen Hb; [by exists d|]. cbn [blocks_write write_seq]. unfold page_bytes in Hlen.
  destruct (m !! lba) as [ws|] eqn:E; cbn [fst snd].
  - destruct (sectors_rep_put m d lba (take page_bytes bs) Hr ltac:(by eexists)) as (d1 & E1 & Hr1);
      [rewrite length_take; unfold page_bytes; lia|by apply Forall_take|].
    destruct (IH (lba + 1) (drop page_bytes bs) (<[lba := words_of (take page_bytes bs)]> m) d1 Hr1) as (d2 & E2 & Hr2);
      [rewrite length_drop; unfold page_bytes; lia|by apply Forall_drop|].
    change page_bytes with (2 * 256)%nat in *. rewrite words_of_take, words_of_drop in *. exists d2. split; [|done].
    unfold Pkfs.disc_write, bind. by rewrite E1.
  - exists d. split; [|done]. unfold Pkfs.disc_write, bind. destruct Hr as [_ Hr]. specialize (Hr lba). rewrite E in Hr. cbn in Hr.
    unfold bd_read, bd_write, memory_device in *. by destruct ((0 <=? lba) && (lba <? sectors d)).
Qed.

Lemma same_discs_disc c c' b : same_discs c c' -> disc_of b c' = disc_of b c.
Proof. intros [Hm Hs]. by destruct b. Qed.

Lemma same_discs_trans c1 c2 c3 : same_discs c1 c2 -> same_discs c2 c3 -> same_discs c1 c3.
Proof. intros [H1 H2] [H3 H4]. split; congruence. Qed.

Lemma block_op_simulates fuel d other o : (busy_limit < fuel)%nat -> io_port d = io -> control_port d = ctl -> block_op_ok o ->
  simulates (drive_rep d other) (run_blocks fuel d o) (spec_blocks o).
Proof.
  intros Hf Hio Hctl Hok s m (Hs & Ho & Hr). destruct (disc_select_spec d s Hio Hctl Hs) as (s1 & E1 & Hcur & S1 & Hsd). pose proof Hr as [Hl _].
  assert (forall s', settled (ports s') -> same_discs (chan (ports s)) (chan (ports s')) -> drive_rep d other s' m) as Hkeep.
  { intros s' S' Hsd'. split; [done|]. by rewrite !(same_discs_disc _ _ _ Hsd'). }
  destruct o as [lba n|lba n bs]; cbn [run_blocks spec_blocks]; unfold block_read, block_write; rewrite Hio, Hctl.
  - destruct Hok as [Hlba Hn]. rewrite (bind_done _ _ _ _ _ E1). unfold disc_read, u32, u8. rewrite !Z.mod_small by lia. destruct (Z.gtb_spec lba 0xFFFFFF) as [Hbig|Hsm].
    { unfold disc_read28. rewrite (proj2 (Z.gtb_lt lba 0xFFFFFF)) by done. unfold bind, ret. cbn [fst snd]. rewrite (proj2 (Z.eqb_neq 0 n)) by lia. split; [done|by apply Hkeep]. }
    destruct (disc_read28_spec (slave_of d) fuel s1 lba n Hcur S1 Hf ltac:(lia) Hn) as (k & w & E2 & S2 & Hk & Hsd2); [by rewrite (same_discs_disc _ _ _ Hsd)|].
    rewrite (same_discs_disc _ _ _ Hsd) in E2, Hk. unfold bind at 1 2. rewrite E2. rewrite (bind_done _ _ _ _ _ (blocks_read_spec _ (Z.to_nat n) lba m Hr)).
    unfold ret. cbn [fst snd]. rewrite Hk. split; [done|]. apply Hkeep; [done|]. by eapply same_discs_trans.
  - destruct Hok as (Hlba & Hn & Hlen & Hb). rewrite bind_assoc, (bind_done _ _ _ _ _ E1). unfold disc_write, u32, u8. rewrite !Z.mod_small by lia. destruct (Z.gtb_spec lba 0xFFFFFF) as [Hbig|Hsm].
    { unfold disc_write28. rewrite (proj2 (Z.gtb_lt lba 0xFFFFFF)) by done. unfold bind, ret. cbn [fst snd]. rewrite (proj2 (Z.eqb_neq 0 n)) by lia. split; [done|by apply Hkeep]. }
    destruct (words_of_spec bs (256 * Z.to_nat n)) as (Hwl & Hww & _); [unfold page_bytes in Hlen; lia|done|].
    destruct (disc_write28_spec (slave_of d) fuel s1 lba n (words_of bs) Hcur S1 Hf ltac:(lia) Hn Hww ltac:(lia)) as (k & w & E2 & S2 & Hk & Hd2 & Ho2).
    rewrite !(same_discs_disc _ _ _ Hsd) in *. destruct (blocks_write_spec (Z.to_nat n) lba bs _ m Hr Hlen Hb) as (m' & E3 & Hr3).
    unfold bind at 1 2 3. rewrite E2. rewrite (bind_done _ _ _ _ _ E3). unfold ret. cbn [fst snd]. rewrite Hk. split; [done|].
    split; [done|]. cbn [ports with_ports]. by rewrite Ho2, Hd2.
Qed.


(** Only the low 32 bits of the block number reach the drive. *)
Lemma block_write_wraps fuel d bs n lba : block_write (P := P) fuel d bs n (lba + 2 ^ 32) = block_write fuel d bs n lba.
Proof. unfold block_write, disc_write. assert (u32 (lba + 2 ^ 32) = u32 lba) as -> by (unfold u32; rewrite <- (Z.mul_1_l (2 ^ 32)) at 1; apply Z.mod_add; done). done. Qed.

(** Reading no blocks asks the drive for 256 and takes none of them. *)
Lemma read_nothing_starts_transfer b fuel s lba : current b s -> settled (ports s) -> 0 <= lba < 2 ^ 24 -> is_Some (disc_of b (chan (ports s)) !! lba) ->
  exists w ws, disc_read fuel lba 0 s = Done ((true, []), with_ports s w) /\ ch_phase (chan w) = Reading lba 256 ws.
Proof.
  intros Hcur Hs Hl [ws Hws]. destruct (start_setup b s lba 0 ATA_PIO_COMMAND_READ Hcur Hs Hl ltac:(lia)) as (w1 & E1 & [Ha1 Hp1] & Had & Hcnt & Hbit & Hsd).
  destruct (ata_read w1 Ha1 Hp1) as (w2 & E2 & H2). exists w2, ws. unfold disc_read, disc_read28, u32. change (u8 0) with 0. rewrite Z.mod_small by lia. destruct (Z.gtb_spec lba 0xFFFFFF); [lia|].
  rewrite bind_assoc. unfold bind at 1. rewrite E1, (command_written s w1 w2 ATA_PIO_COMMAND_READ E2 eq_refl). split; [done|].
  rewrite H2. unfold with_phase, read_from, wanted. cbn [ch_phase]. rewrite Hcnt, Had, (selected_disc b _ Hbit), (same_discs_disc _ _ b Hsd), Hws. done.
Qed.
End channel.

(** ** A drive that is busy for two status reads after each command and sector *)

Record ata_sim := AtaSim { sim_chan : channel; sim_busy : nat }.
Definition sim_io : Z := 0x1F0.
Definition sim_ctl : Z := 0x3F6.
Definition sim_patience (w : ata_sim) : nat := Nat.min 2 (sim_busy w).
Definition sim_status (w : ata_sim) : Z :=
  if bool_decide (sim_patience w = 0%nat) then (if failed (ch_phase (sim_chan w)) then 1 else 0) + (if transferring (ch_phase (sim_chan w)) then 8 else 0) else 0x80.
Definition sim_inb (port : Z) : M ata_sim Z := fun w =>
  if (port =? 0x1F7) || (port =? 0x3F6) then Done (sim_status w, AtaSim (sim_chan w) (pred (sim_patience w))) else Done (0, w).
Definition sim_outb (port v : Z) : M ata_sim unit := fun w =>
  let c := sim_chan w in
  Done (tt,
    if port =? 0x1F7 then
      if v =? ATA_PIO_COMMAND_READ then AtaSim (with_phase (read_from (address c) (wanted c) c) c) 2
      else if v =? ATA_PIO_COMMAND_WRITE then AtaSim (with_phase (write_from (address c) (wanted c) c) c) 2
      else if v =? ATA_PIO_COMMAND_CACHE_FLUSH then AtaSim (with_phase Idle c) 2
      else w
    else AtaSim (set_register (port - sim_io) v c) (sim_busy w)).
Definition sim_inw (port : Z) : M ata_sim Z := fun w =>
  match ch_phase (sim_chan w) with
  | Reading lba n [x] => Done (x, AtaSim (take_word (sim_chan w)) (if n =? 1 then 0 else 2))
  | Reading lba n (x :: _) => Done (x, AtaSim (take_word (sim_chan w)) (sim_busy w))
  | _ => Done (0, w)
  end.
Definition sim_outw (port v : Z) : M ata_sim unit := fun w =>
  let c := give_word v (sim_chan w) in
  Done (tt, AtaSim c (match ch_phase (sim_chan w) with Writing _ _ got => if (length got =? 255)%nat then 2 else sim_busy w | _ => sim_busy w end)).

#[export] Instance sim_ports : PortIO ata_sim := { inb := sim_inb; outb := sim_outb; inw := sim_inw; outw := sim_outw }.

#[export] Instance sim_channel : AtaChannel ata_sim sim_io sim_ctl.
Proof.
  refine {| chan := sim_chan; patience := sim_patience; busy_limit := 2 |}.
  - intros w. unfold sim_patience. lia.
  - intros w port Hp. exists (sim_status w), (AtaSim (sim_chan w) (pred (sim_patience w))).
    split; [cbn; unfold sim_inb; by destruct Hp as [-> | ->]|]. split; [done|]. split; [unfold sim_patience; cbn [sim_busy]; lia|].
    unfold sim_status. case_bool_decide; [|done]. by destruct (ch_phase (sim_chan w)).
  - intros w off v Ho Hv _ Hp. eexists. cbn [outb sim_ports]. unfold sim_outb. assert (u16 (sim_io + off) = sim_io + off) as ->.
    { unfold u16, sim_io. rewrite Z.mod_small by lia. done. }
    destruct (Z.eqb_spec (sim_io + off) 0x1F7) as [E|_]; [unfold sim_io in E; lia|]. replace (sim_io + off - sim_io) with off by lia.
    split; [reflexivity|]. done.
  - intros w _ _. by eexists.
  - intros w _ _. by eexists.
  - intros w _. by eexists.
  - intros w lba n x ws Hph Hp. cbn [inw sim_ports]. unfold sim_inw. rewrite Hph. destruct ws as [|y ws].
    + eexists. split; [reflexivity|]. split; [done|]. intros [?| ->]; done.
    + eexists. split; [reflexivity|]. done.
  - intros w lba n got v Hph Hp _. cbn [outw sim_ports]. unfold sim_outw. rewrite Hph. eexists. split; [reflexivity|]. split; [done|].
    intros Hg. by rewrite (proj2 (Nat.eqb_neq _ _) Hg).
Defined.

(** A master of four sectors and no slave. *)
Definition demo_sectors : drive_sectors := list_to_map ((fun i => (Z.of_nat i, replicate 256 0)) <$> seq 0 4).
Definition demo_ata : ata_sim := AtaSim (Channel 0 0 0 0 0 demo_sectors ∅ Idle) 0.
Definition demo_pio : pio (P := ata_sim) := Pio (2 ^ 32 - 1) (2 ^ 16 - 1) (2 ^ 16 - 1) demo_ata.
Definition demo_ide : ide_device_t := IdeDevice sim_io sim_ctl true.
Definition demo_blocks : list block_op := [BlockWrite 1 2 (replicate 512 7 ++ replicate 512 9); BlockRead 2 1; BlockRead 3 2; BlockRead 0x1000000 1].

Lemma demo_sectors_rep : sectors_rep demo_sectors (MemoryDisc 4 ∅).
Proof.
  assert (forall lba, demo_sectors !! lba = if (0 <=? lba) && (lba <? 4) then Some (replicate 256 0) else None) as Hl.
  { intros lba. unfold demo_sectors. destruct (decide (lba = 0 \/ lba = 1 \/ lba = 2 \/ lba = 3)) as [[-> | [-> | [-> | ->]]]|Hn]; [by vm_compute..|].
    destruct ((0 <=? lba) && (lba <? 4)) eqn:E; [exfalso; lia|]. cbn [seq fmap list_fmap list_to_map foldr uncurry fst snd].
    rewrite !lookup_insert_ne by lia. done. }
  split.
  - intros lba ws H. rewrite Hl in H. destruct (_ && _); [|done]. by injection H as <-.
  - intros lba. rewrite Hl. unfold bd_read, memory_device. change (sectors (MemoryDisc 4 ∅)) with 4. destruct (_ && _); [|done]. cbn [disc_pages]. rewrite lookup_empty. by vm_compute.
Qed.

