(* ===== verification/PkfsVfs.v ===== *)
(** * PkfsVfs: discs in the directory tree (src modules/pkfs)

    The superblock operations of [superblock_ops.c] and [mount.c]: the virtual
    file system (Fs.v) on one side, the operations on a disc (Pkfs.v) on the
    other.  An inode of pkfs is an inode and the page of its file or directory;
    a superblock names the device its files are on.  The buffers for names are
    [FILESYSTEM_NAME_MAX_SIZE] bytes on the stack. *)
From S2P Require Import Prelude CString Fs FsPath RamfsTree Pkfs PkfsProofs.

(** The number of pkfs's table of operations ([&superblock_ops]). *)
Definition PKFS : Z := 1.

Section pkfs_vfs.
Context {D : Type} `{!BlockDevice D}.

(** [file_pages] has the field [file_page] of every inode that was given one. *)
Record pkfs_world := PkfsWorld { vfs : fs; file_pages : gmap Z Z; discs : gmap Z D }.
Definition with_vfs (w : pkfs_world) (v : fs) : pkfs_world := PkfsWorld v (file_pages w) (discs w).
Definition with_disc (w : pkfs_world) (dev : Z) (d : D) : pkfs_world := PkfsWorld (vfs w) (file_pages w) (<[dev := d]> (discs w)).

Definition on_vfs {A} (m : M fs A) : M pkfs_world A := zoom vfs (fun v w => with_vfs w v) m.

(** [dirent->superblock->device], and an operation on that disc. *)
Definition device_of (dirent : Z) : M fs Z :=
  let! e := get_dirent dirent in
  let! b := nonnull (superblock e) in
  let! sb := get_super b in
  nonnull (sb_device sb).
Definition on_device {A} (dev : Z) (m : M D A) : M pkfs_world A := fun w =>
  match discs w !! dev with
  | Some d => match m d with Done (a, d') => Done (a, with_disc w dev d') | Stop v => Stop v end
  | None => Stop Undefined
  end.
Definition on_disc {A} (dirent : Z) (m : M D A) : M pkfs_world A :=
  let! dev := on_vfs (device_of dirent) in on_device dev m.

Definition get_file_page (n : Z) : M pkfs_world Z := fun w => of_option Undefined (file_pages w !! n) w.
Definition set_file_page (n a : Z) : M pkfs_world unit :=
  modify (fun w => PkfsWorld (vfs w) (<[n := a]> (file_pages w)) (discs w)).
(** [((pkfs_fs_node_t * ) dirent->node)->file_page]. *)
Definition dirent_page (dirent : Z) : M pkfs_world Z :=
  let! e := on_vfs (get_dirent dirent) in
  let! n := on_vfs (nonnull (node e)) in
  get_file_page n.

Definition pkfs_alloc_node : M pkfs_world Z :=
  on_vfs (let! id := fresh_id in do! put_node id fs_node_init; ret id).
Definition pkfs_free_node (n : Z) : M pkfs_world code :=
  do! on_vfs (Fs.free_node n);
  do! modify (fun w => PkfsWorld (vfs w) (delete n (file_pages w)) (discs w));
  ret (Num 0).

(** The string in a buffer that a name was copied to.  A name that fills the
    page's field is written past the end of the buffer; a buffer that was not
    written holds nothing. *)
Definition buffer_string (stored : option (list Z)) : option (list Z) :=
  match stored with
  | Some b => if (length b <=? FILESYSTEM_NAME_MAX_SIZE)%nat then Some (removelast b) else None
  | None => None
  end.
Definition name_of (dirent : Z) (get_name : M D (option (list Z))) : M pkfs_world (list Z) :=
  let! stored := on_disc dirent get_name in of_option Undefined (buffer_string stored).

(** [junk]: what [page_address] holds before it is written, in each round. *)
Fixpoint list_loop (fuel : nat) (junk : nat -> Z) (dirent : Z) (itr : directory_iterator_t) : M pkfs_world code :=
  match fuel with
  | O => stop_with NoFuel
  | S fuel' =>
      let! (result, handle, itr') := on_disc dirent (directory_iterator_next itr) in
      let page_address := default (junk fuel') handle in
      if page_address =? 0 then ret (Num 0)
      else
        match result with
        | FS_DET_NONE => ret (Num 0)
        | FS_DET_FILE =>
            let! buffer := name_of dirent (get_file_name page_address) in
            do! on_vfs (fs_directory_entry_add_entry dirent buffer);
            list_loop fuel' junk dirent itr'
        | FS_DET_DIRECTORY =>
            let! buffer := name_of dirent (get_directory_name page_address) in
            do! on_vfs (fs_directory_entry_add_entry dirent buffer);
            list_loop fuel' junk dirent itr'
        end
  end.
Definition pkfs_list (fuel : nat) (junk : nat -> Z) (dirent : Z) : M pkfs_world code :=
  let! page := dirent_page dirent in
  let! itr := on_disc dirent (directory_iterator_init page) in
  match itr with
  | None => ret (Err ENOTSUP)
  | Some itr => list_loop fuel junk dirent itr
  end.

(** The entry that was looked for. *)
Definition found (dirent dirent_node : Z) (_node : option Z) (page_address : Z) (node_type : fs_file_type_t) : M pkfs_world code :=
  let! n := on_vfs (nonnull _node) in
  do! set_file_page n page_address;
  let! c := on_vfs (fs_directory_entry_create node_type (Some dirent) (Some dirent_node)) in
  do! on_vfs (set_enode_dirent dirent_node (Some c));
  do! on_vfs (upd_dirent c (with_node (Some n)));
  ret (Num 0).
Fixpoint lookup_loop (fuel : nat) (junk : nat -> Z) (dirent dirent_node : Z) (_node : option Z) (itr : directory_iterator_t) : M pkfs_world code :=
  match fuel with
  | O => stop_with NoFuel
  | S fuel' =>
      let! (result, handle, itr') := on_disc dirent (directory_iterator_next itr) in
      let page_address := default (junk fuel') handle in
      if page_address =? 0 then ret (Err ENOENT)
      else
        let try get_name node_type :=
          let! buffer := name_of dirent get_name in
          let! en := on_vfs (get_enode dirent_node) in
          if decide (buffer = en_name en) then found dirent dirent_node _node page_address node_type
          else lookup_loop fuel' junk dirent dirent_node _node itr' in
        match result with
        | FS_DET_FILE => try (get_file_name page_address) FS_REGULAR
        | FS_DET_DIRECTORY => try (get_directory_name page_address) FS_DIRECTORY
        | FS_DET_NONE => lookup_loop fuel' junk dirent dirent_node _node itr'
        end
  end.
Definition pkfs_lookup (fuel : nat) (junk : nat -> Z) (dirent dirent_node : Z) (_node : option Z) : M pkfs_world code :=
  let! page := dirent_page dirent in
  let! itr := on_disc dirent (directory_iterator_init page) in
  match itr with
  | None => ret (Err ENOTSUP)
  | Some itr => lookup_loop fuel junk dirent dirent_node _node itr
  end.

(** The two cases of [create] differ in how the page is made. *)
Definition create_as (make : M D Z) (parent _node : Z) (name : list Z) (type : fs_file_type_t) : M pkfs_world (option Z) :=
  let! page := on_disc parent make in
  do! set_file_page _node page;
  let! dirent_node := on_vfs (fs_directory_entry_add_entry parent name) in
  let! new_dirent := on_vfs (fs_directory_entry_create type (Some parent) dirent_node) in
  do! on_vfs (fs_directory_entry_add_reference new_dirent);
  do! on_vfs (upd_dirent new_dirent (with_node (Some _node)));
  let! en := on_vfs (nonnull dirent_node) in
  do! on_vfs (set_enode_dirent en (Some new_dirent));
  let! parent_page := dirent_page parent in
  let! file_page := get_file_page _node in
  do! on_disc parent (link_node parent_page file_page (name ++ [0]));
  ret dirent_node.
Definition pkfs_create (fuel : nat) (parent _node : Z) (name : list Z) (type : fs_file_type_t) : M pkfs_world (option Z) :=
  match type with
  | FS_REGULAR => create_as (create_file fuel) parent _node name type
  | FS_DIRECTORY => create_as (create_dir fuel) parent _node name type
  | _ => ret None
  end.

Definition pkfs_delete (fuel : nat) (dirent : Z) : M pkfs_world code :=
  let! page := dirent_page dirent in
  let! e := on_vfs (get_dirent dirent) in
  if bool_decide (type e = FS_DIRECTORY) then ret (Err ERROR_UNIMPLEMENTED)
  else
    let! ok := on_disc dirent (delete_file fuel FILESYSTEM_ROOT_ADDRESS page) in
    ret (if ok : bool then Num 0 else Err ERROR_UNKNOWN).
Definition pkfs_link (dirent subdirent : Z) (name : list Z) : M pkfs_world (option Z) := ret None.

(** Also the number in [*wrote]. *)
Definition pkfs_write (fuel : nat) (dirent : Z) (buffer : list Z) (offset : Z) : M pkfs_world (code * Z) :=
  let! page := dirent_page dirent in
  let! wrote := on_disc dirent (write_file fuel page buffer offset) in
  ret (if wrote =? 0 then Err ERROR_UNKNOWN else Num 0, wrote).
(** Also the bytes stored, whose number is [*read]. *)
Definition pkfs_read (fuel : nat) (dirent size offset : Z) : M pkfs_world (code * list Z) :=
  let! page := dirent_page dirent in
  let! bytes := on_disc dirent (read_file fuel page size offset) in
  ret (Num 0, bytes).

(** ** mount.c *)

(** [here], [there]: the addresses of the signature on the page and of the
    literal it is compared with. *)
Definition pkfs_mount (here there b : Z) : M pkfs_world code :=
  do! on_vfs (upd_super b (fun sb => Superblock (prev_dirent sb) (mount_point sb) (sb_device sb) PKFS));
  let! sb := on_vfs (get_super b) in
  let! mp := on_vfs (nonnull (mount_point sb)) in
  let! root_node := pkfs_alloc_node in
  do! on_vfs (upd_dirent mp (with_node (Some root_node)));
  let! dev := on_vfs (nonnull (sb_device sb)) in
  let! page := on_device dev (open_filesystem here there FILESYSTEM_ROOT_ADDRESS) in
  do! set_file_page root_node page;
  ret (Num 0).
Definition pkfs_unmount (b : Z) : M pkfs_world code := ret (Err ENOTSUP).

(** ** pkfs.c *)

(** "pkfs" *)
Definition pkfs_name : list Z := [112; 107; 102; 115].
Definition pkfs_init : M pkfs_world code := do! on_vfs (fs_register pkfs_name PKFS); ret (Num 0).
Definition pkfs_free : M pkfs_world code := do! on_vfs (fs_unregister pkfs_name); ret (Num 0).
End pkfs_vfs.

Section proofs.
Context {D : Type} `{HD : BlockDeviceLaws D}.
Implicit Types (d : D) (w : pkfs_world (D := D)).

(** ** A directory of the tree and its disc *)

(** [P] is the directory at page [dir] of the disc [d] of device [dev]; [pn]
    is its inode. *)
Definition mounted w (P pn dev dir : Z) d : Prop :=
  (exists e b sb, dirents (vfs w) !! P = Some e /\ node e = Some pn /\ superblock e = Some b /\ supers (vfs w) !! b = Some sb /\ sb_device sb = Some dev) /\
  file_pages w !! pn = Some dir /\ discs w !! dev = Some d.

Lemma on_vfs_done {A} (m : M fs A) w a v' : m (vfs w) = Done (a, v') -> on_vfs m w = Done (a, with_vfs w v').
Proof. intros E. unfold on_vfs, zoom. by rewrite E. Qed.
Lemma with_vfs_id w : with_vfs w (vfs w) = w. Proof. by destruct w. Qed.
Lemma on_vfs_same {A} (m : M fs A) w a : m (vfs w) = Done (a, vfs w) -> on_vfs m w = Done (a, w).
Proof. intros E. rewrite (on_vfs_done _ _ _ _ E). by rewrite with_vfs_id. Qed.

Lemma device_of_done w P pn dev dir d : mounted w P pn dev dir d -> on_vfs (device_of P) w = Done (dev, w).
Proof.
  intros ((e & b & sb & He & _ & Hb & Hsb & Hdev) & _). apply on_vfs_same. unfold device_of, get_dirent, get_super, nonnull.
  unfold bind. rewrite He. cbn. rewrite Hb. cbn. rewrite Hsb. cbn. by rewrite Hdev.
Qed.
Lemma on_disc_done {A} (m : M D A) w P pn dev dir d a d' : mounted w P pn dev dir d -> m d = Done (a, d') -> on_disc P m w = Done (a, with_disc w dev d').
Proof.
  intros Hw E. unfold on_disc. rewrite (bind_done _ _ _ _ _ (device_of_done _ _ _ _ _ _ Hw)). destruct Hw as (_ & _ & Hd).
  unfold on_device. by rewrite Hd, E.
Qed.
Lemma with_disc_id w dev d : discs w !! dev = Some d -> with_disc w dev d = w.
Proof. intros Hd. destruct w as [v f ds]. unfold with_disc. cbn in *. by rewrite insert_id. Qed.
Lemma on_disc_same {A} (m : M D A) w P pn dev dir d a : mounted w P pn dev dir d -> m d = Done (a, d) -> on_disc P m w = Done (a, w).
Proof. intros Hw E. rewrite (on_disc_done _ _ _ _ _ _ _ _ _ Hw E). by rewrite with_disc_id by apply Hw. Qed.
Lemma dirent_page_done w P pn dev dir d : mounted w P pn dev dir d -> dirent_page P w = Done (dir, w).
Proof.
  intros ((e & b & sb & He & Hn & _) & Hf & _). unfold dirent_page.
  rewrite (bind_done _ _ _ _ _ (on_vfs_same _ _ _ (get_dirent_done _ _ _ He))). rewrite Hn. unfold nonnull, of_option.
  rewrite (bind_done _ _ w pn w (on_vfs_same _ _ _ eq_refl)). unfold get_file_page. by rewrite Hf.
Qed.

(** The names the tree has for the entries of [P], newest first. *)
Definition shows (v : fs) (P : Z) (names : list (list Z)) : Prop :=
  exists e, dirents v !! P = Some e /\ Forall2 (fun n nm => exists x, enodes v !! n = Some x /\ en_name x = nm) (entries e) names.

Lemma shows_entries v P names e : shows v P names -> dirents v !! P = Some e -> forall n, n ∈ entries e -> is_Some (enodes v !! n).
Proof.
  intros (e' & He' & Hall) He n Hn. assert (e' = e) as -> by congruence. apply list_elem_of_lookup in Hn as [i Hi].
  destruct (Forall2_lookup_l _ _ _ _ _ Hall Hi) as (nm & _ & x & Hx & _). by eexists.
Qed.
Lemma shows_lookup v P names e nm : shows v P names -> dirents v !! P = Some e ->
  match lookup_entry (enodes v) nm (entries e) with
  | Some n => (nm ∈ names) /\ exists x, enodes v !! n = Some x /\ en_name x = nm
  | None => nm ∉ names
  end.
Proof.
  intros (e' & He' & Hall) He. assert (e' = e) as -> by congruence. clear He He'. induction Hall as [|n x l names (en & Hen & <-) Hall IH]; cbn; [apply not_elem_of_nil|].
  rewrite Hen. case_decide as Hx; [split; [rewrite <- Hx; by left|by eexists]|].
  destruct (lookup_entry _ _ _); [destruct IH as [? IH]; split; [by right|done]|]. apply not_elem_of_cons. split; [congruence|done].
Qed.

(** Entries and devices of the directory entries of [v] are those of [v']. *)
Definition places_kept (v v' : fs) : Prop :=
  supers v' = supers v /\ forall p e, dirents v !! p = Some e -> exists e', dirents v' !! p = Some e' /\ node e' = node e /\ superblock e' = superblock e.
Lemma places_kept_trans v1 v2 v3 : places_kept v1 v2 -> places_kept v2 v3 -> places_kept v1 v3.
Proof.
  intros [Hs1 H1] [Hs2 H2]. split; [congruence|]. intros p e He. destruct (H1 p e He) as (e2 & He2 & Hn2 & Hb2).
  destruct (H2 p e2 He2) as (e3 & He3 & Hn3 & Hb3). exists e3. split_and!; congruence.
Qed.
Lemma mounted_kept w v' P pn dev dir d : mounted w P pn dev dir d -> places_kept (vfs w) v' -> mounted (with_vfs w v') P pn dev dir d.
Proof.
  intros ((e & b & sb & He & Hn & Hb & Hsb & Hdev) & Hf & Hd) [Hs Hk]. split; [|done]. destruct (Hk P e He) as (e' & He' & Hn' & Hb').
  exists e', b, sb. cbn. rewrite Hs. split_and!; congruence.
Qed.

Lemma add_entry_shows v P names nm : shows v P names -> ids_below v -> nm ∉ names ->
  exists v', fs_directory_entry_add_entry P nm v = Done (Some (next_id v), v') /\ shows v' P (nm :: names) /\ ids_below v' /\ places_kept v v' /\
    next_id v' = next_id v + 1 /\ enodes v' = <[next_id v := EntryNode None nm]> (enodes v) /\ (forall q, q <> P -> dirents v' !! q = dirents v !! q).
Proof.
  intros Hsh Hids Hnew. pose proof Hsh as (e & He & Hall).
  pose proof (fs_directory_entry_add_entry_done P nm v e He (shows_entries _ _ _ _ Hsh He)) as Ea.
  pose proof (shows_lookup _ _ _ _ nm Hsh He) as Hl. destruct (lookup_entry _ _ _); [destruct Hl; done|].
  eexists. split; [exact Ea|]. destruct Hids as [Hd He' Hn]. pose proof (Hd P ltac:(by eexists)) as HP.
  assert (enodes v !! next_id v = None) as Hfresh by (apply eq_None_not_Some; intros H%He'; lia). split_and!; cbn.
  - exists (with_entries (next_id v :: entries e) e). cbn. rewrite lookup_insert_eq. split; [done|]. constructor.
    + eexists. by rewrite lookup_insert_eq.
    + eapply Forall2_impl; [exact Hall|]. intros n x (en & Hen & Hx). exists en. rewrite lookup_insert_ne; [done|congruence].
  - split; cbn; intros q; [intros [<-|[_ H%Hd]]%lookup_insert_is_Some|intros [<-|[_ H%He']]%lookup_insert_is_Some|intros H%Hn]; lia.
  - split; [done|]. cbn. intros p e0 He0. destruct (decide (p = P)) as [->|Hne].
    + rewrite lookup_insert_eq. assert (e0 = e) as -> by congruence. by eexists.
    + rewrite lookup_insert_ne by congruence. by eexists.
  - done.
  - done.
  - intros q Hq. by rewrite lookup_insert_ne.
Qed.

(** ** Going through a directory *)

(** What kind of entry the page at [a] makes. *)
Definition node_type d (a : Z) : option fs_file_type_t :=
  match bd_read a d with
  | Some p => if page_type p =? FILESYSTEM_PAGE_TYPE_FILE then Some FS_REGULAR
              else if page_type p =? FILESYSTEM_PAGE_TYPE_DIRECTORY then Some FS_DIRECTORY else None
  | None => None
  end.
Definition det_of (t : fs_file_type_t) : filesystem_directory_entry_type_t :=
  match t with FS_REGULAR => FS_DET_FILE | _ => FS_DET_DIRECTORY end.

(** A directory that can be listed: one index page with room behind its
    entries, which are files and directories with names of their own, short
    enough for the buffer; all its pages are in use and lie behind the root
    page. *)
Record live_dir (dir index : Z) d (entries : list (list Z * Z)) : Prop := {
  ld_dir : small_dir dir index d entries;
  ld_nodes : Forall (fun x => is_Some (node_type d x.2) /\ (length x.1 < FILESYSTEM_NAME_MAX_SIZE)%nat) entries;
  ld_names : NoDup entries.*1;
  ld_used : Forall (fun a => used_page d a /\ FILESYSTEM_ROOT_ADDRESS < a) (dir :: index :: entries.*2)
}.

Lemma copy_name_string n : forall nm rest, (0 ∉ nm) -> (length nm < n)%nat -> copy_name n (nm ++ 0 :: rest) = nm ++ [0].
Proof.
  induction n as [|n IH]; intros [|c nm] rest H0 Hl; cbn [length copy_name app] in *; [lia|lia|done|].
  apply not_elem_of_cons in H0 as [Hc H0]. rewrite (proj2 (Z.eqb_neq c 0)) by congruence. f_equal. apply IH; [done|lia].
Qed.
Lemma name_of_done w P pn dev dir d a nm (get_name : Z -> M D (option (list Z))) :
  (forall q, bd_read a d = Some q -> get_name a d = Done (Some (copy_name FILESYSTEM_NAME_MAX_SIZE (name q)), d)) ->
  mounted w P pn dev dir d -> named d a nm -> (length nm < FILESYSTEM_NAME_MAX_SIZE)%nat -> name_of P (get_name a) w = Done (nm, w).
Proof.
  intros Hg Hw (_ & H0 & q & rest & Hq & Hname) Hl. specialize (Hg q Hq). rewrite Hname, copy_name_string in Hg by done. unfold name_of.
  rewrite (bind_done _ _ _ _ _ (on_disc_same _ _ _ _ _ _ _ _ Hw Hg)). unfold buffer_string.
  rewrite (proj2 (Nat.leb_le _ _)) by (rewrite length_app; cbn [length]; lia). by rewrite removelast_last.
Qed.
Lemma get_file_name_done a d q : bd_read a d = Some q -> get_file_name a d = Done (Some (copy_name FILESYSTEM_NAME_MAX_SIZE (name q)), d).
Proof. intros Hq. unfold get_file_name. by rewrite (on_read_done _ _ _ _ _ Hq). Qed.
Lemma get_directory_name_done a d q : bd_read a d = Some q -> get_directory_name a d = Done (Some (copy_name FILESYSTEM_NAME_MAX_SIZE (name q)), d).
Proof. intros Hq. unfold get_directory_name. by rewrite (on_read_done _ _ _ _ _ Hq). Qed.

(** [ip] is the index page of the directory with these [entries]. *)
Definition index_of (entries : list (list Z * Z)) (ip : page) : Prop :=
  children ip = entries.*2 ++ replicate (FILESYSTEM_DIRECTORY_INDEX_CHILDREN_SIZE - length entries) 0.

Lemma iterator_next_entry dp ip entries pre nm a es d t : index_of entries ip -> entries = pre ++ (nm, a) :: es ->
  (length entries <= FILESYSTEM_DIRECTORY_INDEX_CHILDREN_SIZE)%nat -> a <> 0 -> node_type d a = Some t ->
  directory_iterator_next (DirectoryIterator dp ip (length pre)) d = Done ((det_of t, Some a, DirectoryIterator dp ip (S (length pre))), d).
Proof.
  unfold index_of. intros Hch -> Hsz Ha Ht. rewrite length_app in Hsz. cbn [length] in Hsz. unfold directory_iterator_next. cbn [it_index_location].
  rewrite (proj2 (Nat.leb_gt _ _)) by lia. unfold iterator_entry. cbn [it_index_location it_index_page it_node_page]. rewrite Hch.
  rewrite lookup_app_l by (rewrite length_fmap, length_app; cbn [length]; lia). rewrite list_lookup_fmap, list_lookup_middle by done. cbn [fmap option_fmap option_map snd].
  unfold of_option. rewrite (bind_done _ _ d a d eq_refl). rewrite (proj2 (Z.eqb_neq a 0)) by done.
  unfold node_type in Ht. destruct (bd_read a d) as [p|] eqn:Hp; [|done]. rewrite (on_read_done _ _ _ _ _ Hp). unfold ret.
  destruct (page_type p =? FILESYSTEM_PAGE_TYPE_FILE); [by injection Ht as <-|]. by destruct (page_type p =? FILESYSTEM_PAGE_TYPE_DIRECTORY); [injection Ht as <-|].
Qed.
Lemma iterator_next_end dp ip entries d : index_of entries ip -> (length entries < FILESYSTEM_DIRECTORY_INDEX_CHILDREN_SIZE)%nat ->
  directory_iterator_next (DirectoryIterator dp ip (length entries)) d = Done ((FS_DET_NONE, None, DirectoryIterator dp ip (length entries)), d).
Proof.
  unfold index_of. intros Hch Hsz. unfold directory_iterator_next. cbn [it_index_location]. rewrite (proj2 (Nat.leb_gt _ _)) by lia.
  unfold iterator_entry. cbn [it_index_location it_index_page it_node_page]. rewrite Hch. rewrite lookup_app_r by by rewrite length_fmap.
  rewrite length_fmap, Nat.sub_diag. by rewrite lookup_replicate_2 by lia.
Qed.

Lemma list_loop_spec junk P pn dev dir d dp ip entries (Hip : index_of entries ip) (Hroom : (length entries < FILESYSTEM_DIRECTORY_INDEX_CHILDREN_SIZE)%nat)
  (Hn : Forall (fun x => named d x.2 x.1 /\ is_Some (node_type d x.2) /\ (length x.1 < FILESYSTEM_NAME_MAX_SIZE)%nat) entries) es :
  forall pre w names fuel, entries = pre ++ es -> mounted w P pn dev dir d -> shows (vfs w) P names -> ids_below (vfs w) ->
  NoDup (reverse es.*1 ++ names) -> (length es < fuel)%nat ->
  exists v', list_loop fuel junk P (DirectoryIterator dp ip (length pre)) w = Done (Num 0, with_vfs w v') /\
    shows v' P (reverse es.*1 ++ names) /\ ids_below v' /\ places_kept (vfs w) v'.
Proof.
  induction es as [|[nm a] es IH]; intros pre w names fuel Hes Hw Hsh Hids Hnd Hfuel; (destruct fuel as [|fuel]; [cbn [length] in Hfuel; lia|]); cbn [list_loop].
  - rewrite app_nil_r in Hes. subst pre. rewrite (bind_done _ _ _ _ _ (on_disc_same _ _ _ _ _ _ _ _ Hw (iterator_next_end dp ip entries d Hip Hroom))).
    cbn [from_option]. exists (vfs w). rewrite with_vfs_id. split; [by destruct (_ =? 0)|]. split_and!; [done|done|]. split; [done|]. intros p e He. by exists e.
  - assert (named d a nm /\ is_Some (node_type d a) /\ (length nm < FILESYSTEM_NAME_MAX_SIZE)%nat) as (Hnm & [t Ht] & Hl).
    { rewrite Hes in Hn. apply Forall_app in Hn as [_ Hn]. by apply Forall_cons in Hn as [? _]. }
    assert (a <> 0) as Ha by apply Hnm.
    rewrite (bind_done _ _ _ _ _ (on_disc_same _ _ _ _ _ _ _ _ Hw (iterator_next_entry dp ip entries pre nm a es d t Hip Hes ltac:(lia) Ha Ht))).
    cbn [from_option]. unfold id. rewrite (proj2 (Z.eqb_neq a 0)) by done. rewrite fmap_cons, reverse_cons in Hnd. cbn [fst] in Hnd. rewrite <- app_assoc in Hnd. cbn [app] in Hnd.
    assert (nm ∉ names) as Hnew by (apply NoDup_app in Hnd as (_ & _ & Hnd); by apply NoDup_cons in Hnd as [? _]).
    destruct (add_entry_shows _ _ _ _ Hsh Hids Hnew) as (v1 & Ea & Hsh1 & Hids1 & Hk1 & _). pose proof (mounted_kept _ _ _ _ _ _ _ Hw Hk1) as Hw1.
    destruct (IH (pre ++ [(nm, a)]) (with_vfs w v1) (nm :: names) fuel) as (v2 & E2 & Hsh2 & Hids2 & Hk2); [by rewrite <- app_assoc|done|done|done|done|cbn [length] in Hfuel; lia|].
    rewrite length_app, Nat.add_comm in E2. cbn [length Nat.add] in E2. exists v2. rewrite fmap_cons, reverse_cons, <- app_assoc. cbn [fst app].
    split; [|split_and!; [done|done|by eapply places_kept_trans]]. destruct t; cbn [det_of];
      (rewrite (bind_done _ _ _ _ _ (name_of_done _ _ _ _ _ _ _ _ get_file_name (get_file_name_done a d) Hw Hnm Hl)) ||
       rewrite (bind_done _ _ _ _ _ (name_of_done _ _ _ _ _ _ _ _ get_directory_name (get_directory_name_done a d) Hw Hnm Hl)));
      by rewrite (bind_done _ _ _ _ _ (on_vfs_done _ _ _ _ Ea)).
Qed.

(** Listing makes an entry for every name in the directory. *)
Lemma list_spec fuel junk w P pn dev dir index d entries : mounted w P pn dev dir d -> live_dir dir index d entries ->
  (length entries < FILESYSTEM_DIRECTORY_INDEX_CHILDREN_SIZE)%nat -> (length entries < fuel)%nat -> shows (vfs w) P [] -> ids_below (vfs w) ->
  exists v', pkfs_list fuel junk P w = Done (Num 0, with_vfs w v') /\ shows v' P (reverse entries.*1) /\ ids_below v' /\ mounted (with_vfs w v') P pn dev dir d.
Proof.
  intros Hw [[(dp & Hdp & Hix) (ip & Hip & _ & Hch) _ Hall _] Hn Hnd _] Hroom Hfuel Hsh Hids. unfold pkfs_list.
  rewrite (bind_done _ _ _ _ _ (dirent_page_done _ _ _ _ _ _ Hw)).
  assert (directory_iterator_init dir d = Done (Some (DirectoryIterator dp ip 0), d)) as Ei by (unfold directory_iterator_init; by rewrite (on_read_done _ _ _ _ _ Hdp), Hix, (on_read_done _ _ _ _ _ Hip)).
  rewrite (bind_done _ _ _ _ _ (on_disc_same _ _ _ _ _ _ _ _ Hw Ei)).
  destruct (list_loop_spec junk P pn dev dir d dp ip entries Hch Hroom) with (es := entries) (pre := @nil (list Z * Z)) (w := w) (names := @nil (list Z)) (fuel := fuel) as (v' & E & H1 & H2 & H3);
    [by apply Forall_and|done|done|done|done|rewrite app_nil_r; by rewrite reverse_Permutation|done|].
  exists v'. rewrite app_nil_r in H1. split_and!; [exact E|done|done|by eapply mounted_kept].
Qed.

(** Looking for a name that is there reads the entries up to it. *)
Lemma lookup_loop_spec junk P pn dev dir d dp ip entries w en x n (Hip : index_of entries ip) (Hroom : (length entries < FILESYSTEM_DIRECTORY_INDEX_CHILDREN_SIZE)%nat)
  (Hn : Forall (fun x => named d x.2 x.1 /\ is_Some (node_type d x.2) /\ (length x.1 < FILESYSTEM_NAME_MAX_SIZE)%nat) entries)
  (Hw : mounted w P pn dev dir d) (Hen : enodes (vfs w) !! en = Some x) es :
  forall pre fuel, entries = pre ++ es -> (en_name x ∈ es.*1) -> (length es <= fuel)%nat ->
  exists a t, ((en_name x, a) ∈ es) /\ node_type d a = Some t /\
    lookup_loop fuel junk P en n (DirectoryIterator dp ip (length pre)) w = found P en n a t w.
Proof.
  induction es as [|[nm a] es IH]; intros pre fuel Hes Hin Hfuel; [by apply not_elem_of_nil in Hin|].
  destruct fuel as [|fuel]; [cbn [length] in Hfuel; lia|]. cbn [lookup_loop].
  assert (named d a nm /\ is_Some (node_type d a) /\ (length nm < FILESYSTEM_NAME_MAX_SIZE)%nat) as (Hnm & [t Ht] & Hl).
  { rewrite Hes in Hn. apply Forall_app in Hn as [_ Hn]. by apply Forall_cons in Hn as [? _]. }
  assert (a <> 0) as Ha by apply Hnm.
  rewrite (bind_done _ _ _ _ _ (on_disc_same _ _ _ _ _ _ _ _ Hw (iterator_next_entry dp ip entries pre nm a es d t Hip Hes ltac:(lia) Ha Ht))).
  cbn [from_option]. unfold id. rewrite (proj2 (Z.eqb_neq a 0)) by done. pose proof (on_vfs_same _ _ _ (get_enode_done _ _ _ Hen)) as Eg.
  destruct (decide (nm = en_name x)) as [->|Hne].
  - exists a, t. split; [by left|]. split; [done|]. unfold node_type in Ht. destruct (bd_read a d) as [p|]; [|done].
    destruct (page_type p =? FILESYSTEM_PAGE_TYPE_FILE); [|destruct (page_type p =? FILESYSTEM_PAGE_TYPE_DIRECTORY); [|done]]; injection Ht as <-; cbn [det_of].
    + rewrite (bind_done _ _ _ _ _ (name_of_done _ _ _ _ _ _ _ _ get_file_name (get_file_name_done a d) Hw Hnm Hl)), (bind_done _ _ _ _ _ Eg). by rewrite decide_True.
    + rewrite (bind_done _ _ _ _ _ (name_of_done _ _ _ _ _ _ _ _ get_directory_name (get_directory_name_done a d) Hw Hnm Hl)), (bind_done _ _ _ _ _ Eg). by rewrite decide_True.
  - rewrite fmap_cons in Hin. apply elem_of_cons in Hin as [?|Hin]; [cbn in *; congruence|].
    destruct (IH (pre ++ [(nm, a)]) fuel) as (a' & t' & Hin' & Ht' & E); [by rewrite <- app_assoc|done|cbn [length] in Hfuel; lia|].
    rewrite length_app, Nat.add_comm in E. cbn [length Nat.add] in E. exists a', t'. split; [by right|]. split; [done|]. rewrite <- E.
    destruct t; cbn [det_of];
      (rewrite (bind_done _ _ _ _ _ (name_of_done _ _ _ _ _ _ _ _ get_file_name (get_file_name_done a d) Hw Hnm Hl)) ||
       rewrite (bind_done _ _ _ _ _ (name_of_done _ _ _ _ _ _ _ _ get_directory_name (get_directory_name_done a d) Hw Hnm Hl)));
      by rewrite (bind_done _ _ _ _ _ Eg), decide_False.
Qed.

(** What a directory entry that was looked up is. *)
Lemma found_spec w P e en x n a t : dirents (vfs w) !! P = Some e -> ids_below (vfs w) -> enodes (vfs w) !! en = Some x ->
  exists w' c, found P en (Some n) a t w = Done (Num 0, w') /\ enodes (vfs w') !! en = Some (EntryNode (Some c) (en_name x)) /\
    dirents (vfs w') !! c = Some (Dirent (Some P) (Some en) 1 (superblock e) t (Some n) None None None None []) /\
    file_pages w' !! n = Some a /\ discs w' = discs w.
Proof.
  intros He Hids Hen. unfold found. unfold nonnull at 1, of_option at 1. rewrite (bind_done _ _ w n w (on_vfs_same _ _ _ eq_refl)).
  unfold set_file_page. rewrite bind_modify. set (w1 := PkfsWorld _ _ _).
  pose proof (fs_directory_entry_create_done t (Some P) (Some en) (vfs w) e He) as Ec. rewrite (bind_done _ _ _ _ _ (on_vfs_done _ w1 _ _ Ec)).
  set (c := next_id (vfs w)). unfold set_enode_dirent, upd_dirent, get_enode, get_dirent, on_vfs, zoom, bind, modify, ret, with_vfs. cbn.
  rewrite Hen. cbn. rewrite lookup_insert_eq. cbn. eexists _, c. split; [reflexivity|]. cbn. by rewrite !lookup_insert_eq.
Qed.

(** Looking up an entry the tree shows: its inode gets the page that the
    directory has under the name. *)
Lemma lookup_spec fuel junk w P pn dev dir index d entries names en x n : mounted w P pn dev dir d -> live_dir dir index d entries ->
  (length entries < FILESYSTEM_DIRECTORY_INDEX_CHILDREN_SIZE)%nat -> (length entries <= fuel)%nat -> shows (vfs w) P names -> ids_below (vfs w) ->
  enodes (vfs w) !! en = Some x -> (en_name x ∈ entries.*1) ->
  exists w' c a t, pkfs_lookup fuel junk P en (Some n) w = Done (Num 0, w') /\ ((en_name x, a) ∈ entries) /\ node_type d a = Some t /\
    enodes (vfs w') !! en = Some (EntryNode (Some c) (en_name x)) /\ (type <$> dirents (vfs w') !! c) = Some t /\
    (node <$> dirents (vfs w') !! c) = Some (Some n) /\ file_pages w' !! n = Some a.
Proof.
  intros Hw [[(dp & Hdp & Hix) (ip & Hip & _ & Hch) _ Hall _] Hn Hnd _] Hroom Hfuel Hsh Hids Hen Hin. unfold pkfs_lookup.
  rewrite (bind_done _ _ _ _ _ (dirent_page_done _ _ _ _ _ _ Hw)).
  assert (directory_iterator_init dir d = Done (Some (DirectoryIterator dp ip 0), d)) as Ei by (unfold directory_iterator_init; by rewrite (on_read_done _ _ _ _ _ Hdp), Hix, (on_read_done _ _ _ _ _ Hip)).
  rewrite (bind_done _ _ _ _ _ (on_disc_same _ _ _ _ _ _ _ _ Hw Ei)).
  destruct (lookup_loop_spec junk P pn dev dir d dp ip entries w en x (Some n) Hch Hroom ltac:(by apply Forall_and) Hw Hen entries [] fuel eq_refl Hin Hfuel) as (a & t & Hin' & Ht & E).
  cbn [length] in E. rewrite E. destruct Hsh as (e & He & _). destruct (found_spec w P e en x n a t He Hids Hen) as (w' & c & Ef & H1 & H2 & H3 & _).
  exists w', c, a, t. rewrite H2. by split_and!.
Qed.

(** ** Making entries *)

Lemma create_as_spec (make : M D Z) P n nm t w pn dev dir d names file d1 ok d2 : mounted w P pn dev dir d -> pn <> n ->
  shows (vfs w) P names -> ids_below (vfs w) -> (nm ∉ names) -> make d = Done (file, d1) -> link_node dir file (nm ++ [0]) d1 = Done (ok, d2) ->
  exists w', create_as make P n nm t w = Done (Some (next_id (vfs w)), w') /\ discs w' !! dev = Some d2 /\ file_pages w' !! n = Some file /\
    shows (vfs w') P (nm :: names) /\ exists c e, enodes (vfs w') !! next_id (vfs w) = Some (EntryNode (Some c) nm) /\
      dirents (vfs w') !! c = Some (Dirent (Some P) (Some (next_id (vfs w))) 2 e t (Some n) None None None None []).
Proof.
  intros Hw Hne Hsh Hids Hnew Em El. unfold create_as. rewrite (bind_done _ _ _ _ _ (on_disc_done _ _ _ _ _ _ _ _ _ Hw Em)).
  unfold set_file_page. rewrite bind_modify. set (w1 := PkfsWorld _ _ _).
  destruct (add_entry_shows _ _ _ _ Hsh Hids Hnew) as (v2 & Ea & Hsh2 & Hids2 & Hk2 & Hnx & Hens & _). rewrite (bind_done _ _ _ _ _ (on_vfs_done _ w1 _ _ Ea)).
  pose proof Hsh2 as (e2 & He2 & Hall2). pose proof (ib_dirent _ Hids2 P ltac:(by eexists)) as HP.
  pose proof (fs_directory_entry_create_done t (Some P) (Some (next_id (vfs w))) v2 e2 He2) as Ec. rewrite (bind_done _ _ _ _ _ (on_vfs_done _ (with_vfs w1 v2) _ _ Ec)).
  set (c := next_id v2) in *. set (en := next_id (vfs w)) in *. set (v3 := Fs _ _ _ _ _ _ _).
  set (c0 := Dirent _ _ _ _ _ _ _ _ _ _ _) in v3.
  assert (dirents v3 !! c = Some c0) as H3 by (cbn; by rewrite lookup_insert_eq).
  unfold fs_directory_entry_add_reference.
  rewrite (bind_done _ _ _ _ _ (on_vfs_done _ (with_vfs w1 v3) _ _ (upd_dirent_done c _ v3 c0 H3))). set (v4 := set_dirents _ v3).
  assert (dirents v4 !! c = Some (with_references (u64 (references c0 + 1)) c0)) as H4 by (cbn; by rewrite lookup_insert_eq).
  rewrite (bind_done _ _ _ _ _ (on_vfs_done _ (with_vfs w1 v4) _ _ (upd_dirent_done c _ v4 _ H4))). set (v5 := set_dirents _ v4).
  unfold nonnull at 1, of_option at 1. rewrite (bind_done _ _ (with_vfs w1 v5) en _ (on_vfs_same _ _ _ eq_refl)).
  set (v6 := set_enodes <[en := EntryNode (Some c) nm]> v5).
  assert (set_enode_dirent en (Some c) v5 = Done (tt, v6)) as E6.
  { unfold set_enode_dirent, get_enode, bind, modify. cbn. rewrite Hens, lookup_insert_eq. cbn. done. }
  rewrite (bind_done _ _ _ _ _ (on_vfs_done _ (with_vfs w1 v5) _ _ E6)).
  assert (dirents v6 !! c = Some (Dirent (Some P) (Some en) 2 (superblock e2) t (Some n) None None None None [])) as Hc6 by (cbn; by rewrite lookup_insert_eq).
  assert (forall q, q <> c -> dirents v6 !! q = dirents v2 !! q) as Hother by (intros q Hq; cbn; by rewrite !lookup_insert_ne).
  assert (c <> P) as HcP by lia.
  assert (mounted (with_vfs w1 v6) P pn dev dir d1) as Hw6.
  { destruct (mounted_kept w v2 P pn dev dir d Hw Hk2) as ((e & b & sb & He & Hrest) & Hf & Hd). split; [|split].
    - exists e, b, sb. cbn [vfs with_vfs] in *. rewrite Hother by done. done.
    - cbn. rewrite lookup_insert_ne by done. apply Hw.
    - cbn. by rewrite lookup_insert_eq. }
  rewrite (bind_done _ _ _ _ _ (dirent_page_done _ _ _ _ _ _ Hw6)).
  assert (get_file_page n (with_vfs w1 v6) = Done (file, with_vfs w1 v6)) as En by (unfold get_file_page; cbn; by rewrite lookup_insert_eq).
  rewrite (bind_done _ _ _ _ _ En), (bind_done _ _ _ _ _ (on_disc_done _ _ _ _ _ _ _ _ _ Hw6 El)).
  eexists. split; [reflexivity|]. cbn [vfs with_vfs with_disc discs file_pages w1]. rewrite lookup_insert_eq. split; [done|]. rewrite lookup_insert_eq. split; [done|]. split.
  - exists e2. rewrite Hother by done. split; [done|]. eapply Forall2_impl; [exact Hall2|]. intros m y (x & Hx & Hy). cbn.
    destruct (decide (m = en)) as [->|Hm]; [|exists x; by rewrite lookup_insert_ne].
    rewrite lookup_insert_eq. eexists. split; [done|]. rewrite Hens, lookup_insert_eq in Hx. by injection Hx as <-.
  - exists c, (superblock e2). split; [cbn; by rewrite lookup_insert_eq|done].
Qed.

Lemma used_not_unused d a : used_page d a -> ~ unused d a.
Proof. intros (p & Hp & Hu) (q & Hq & Hv). congruence. Qed.

(** The directory is untouched by writes to other pages. *)
Lemma live_dir_same dir index d d' entries : (forall a, a ∈ dir :: index :: entries.*2 -> bd_read a d' = bd_read a d) ->
  live_dir dir index d entries -> live_dir dir index d' entries.
Proof.
  intros Hsame [[(dp & Hdp & Hix) (ip & Hip & Hnext) Hsz Hall Hap] Hn Hnd Hu].
  assert (forall x, x ∈ entries -> bd_read x.2 d' = bd_read x.2 d) as Hes by (intros x Hx; apply Hsame; right; right; by apply list_elem_of_fmap_2).
  split; [split| | |]; try done.
  - exists dp. split; [rewrite Hsame; [done|by left]|done].
  - exists ip. split; [rewrite Hsame; [done|right; by left]|done].
  - rewrite Forall_forall in Hall |- *. intros x Hx. destruct (Hall x Hx) as (H1 & H2 & q & rest & Hq & Hname). split_and!; [done|done|]. exists q, rest. by rewrite Hes.
  - rewrite Forall_forall in Hn |- *. intros x Hx. unfold node_type. rewrite Hes by done. by apply Hn.
  - rewrite Forall_forall in Hu |- *. intros a Ha. destruct (Hu a Ha) as [(q & Hq & Hqu) H64]. split; [|done]. exists q. by rewrite Hsame.
Qed.

(** Linking a page that the directory does not use. *)
Lemma link_live dir index d entries file q nm : live_dir dir index d entries -> (S (length entries) < FILESYSTEM_DIRECTORY_INDEX_CHILDREN_SIZE)%nat ->
  bd_read file d = Some q -> in_use q = true -> page_type q = FILESYSTEM_PAGE_TYPE_FILE -> FILESYSTEM_ROOT_ADDRESS < file -> (file ∉ dir :: index :: entries.*2) ->
  (nm ∉ entries.*1) -> (0 ∉ nm) -> (length nm < FILESYSTEM_NAME_MAX_SIZE)%nat ->
  exists d', link_node dir file (nm ++ [0]) d = Done (true, d') /\ live_dir dir index d' (entries ++ [(nm, file)]) /\
    bd_read file d' = Some (linked_as dir nm q) /\ forall m, m <> file -> m <> index -> bd_read m d' = bd_read m d.
Proof.
  intros [Hdir Hn Hnd Hu] Hroom Hq Hqu Hqt H64 Hfresh Hnew H0 Hlen.
  apply not_elem_of_cons in Hfresh as [Hfd Hfresh]. apply not_elem_of_cons in Hfresh as [Hfi Hfe].
  destruct (link_node_spec dir index d entries file q nm [] Hdir ltac:(lia) Hq ltac:(unfold FILESYSTEM_ROOT_ADDRESS in *; lia) Hfd Hfi Hfe H0 Hlen) as (d' & E & Hdir' & Hf' & Hix' & Ho).
  exists d'. split; [exact E|]. split; [|done]. destruct (linked_as_fields dir nm q (bd_read_page _ _ _ Hq) Hlen) as (Ht & Hiu & _).
  assert (index ∉ entries.*2) as Hie by apply Hdir.
  assert (forall x, x ∈ entries -> bd_read x.2 d' = bd_read x.2 d) as Hes by (intros x Hx; apply Ho; intros Hx'; apply (list_elem_of_fmap_2 snd) in Hx; congruence).
  split; [done| | |].
  - apply Forall_app. split; [|constructor; [|done]].
    + rewrite Forall_forall in Hn |- *. intros x Hx. unfold node_type. rewrite Hes by done. by apply Hn.
    + split; [|done]. unfold node_type. cbn [snd]. by rewrite Hf', Ht, Hqt.
  - rewrite fmap_app. apply NoDup_app. split; [done|]. split; [|apply NoDup_singleton]. intros y Hy Hy'. apply list_elem_of_singleton in Hy'. cbn in Hy'. congruence.
  - apply Forall_cons in Hu as [[Hud Hd64] Hu]. apply Forall_cons in Hu as [[Hui Hi64] Hu]. constructor; [|constructor].
    + split; [|done]. destruct Hud as (p & Hp & Hpu). exists p. rewrite Ho; [done|done|apply Hdir].
    + split; [by apply Hix'|done].
    + rewrite fmap_app. apply Forall_app. split; [|constructor; [|done]; split; [|done]; exists (linked_as dir nm q); by rewrite Hiu].
      rewrite Forall_forall in Hu |- *. intros a Ha. destruct (Hu a Ha) as [(p & Hp & Hpu) Ha64]. split; [|done]. exists p. rewrite Ho; [done|congruence|congruence].
Qed.

(** Room for one more file: the two pages it takes, and a third to name. *)
Definition roomy d : Prop := exists f g h, free_page d f /\ f < g < h /\ unused d g /\ unused d h.

Lemma new_file_page_type g : 0 <= g < 2 ^ 64 -> page_type (new_file_page g) = FILESYSTEM_PAGE_TYPE_FILE /\ in_use (new_file_page g) = true.
Proof.
  intros Hg. pose proof (length_in_use true) as Hl. unfold new_file_page, set_root_data_address, set_page_type, page_type, in_use.
  rewrite !field_other by page_size. split; [by rewrite field_same by page_size|]. rewrite field_other by page_size.
  apply (in_use_set blank). rewrite length_blank. unfold page_bytes. lia.
Qed.

(** The file is made and linked: the disc is ready for the next one. *)
Lemma create_and_link fuel dir index d entries nm : live_dir dir index d entries -> alloc_ok d -> roomy d -> bd_sectors d < Z.of_nat fuel ->
  (S (length entries) < FILESYSTEM_DIRECTORY_INDEX_CHILDREN_SIZE)%nat -> (nm ∉ entries.*1) -> (0 ∉ nm) -> (length nm < FILESYSTEM_NAME_MAX_SIZE)%nat ->
  exists file d1 d2, create_file fuel d = Done (file, d1) /\ link_node dir file (nm ++ [0]) d1 = Done (true, d2) /\ unused d file /\
    live_dir dir index d2 (entries ++ [(nm, file)]) /\ small_file file d2 [] /\ alloc_ok d2 /\ node_type d2 file = Some FS_REGULAR.
Proof.
  intros Hlive Hok (f0 & g0 & h0 & Hf0 & Hlt0 & Hg0 & Hh0) Hfuel Hroom Hnew H0 Hlen.
  destruct (create_pair_spec new_file_page empty_data_page fuel d Hok) as (file & d1 & E & Hsp & [(g & Hf & Hg & Hlt & Hrf & Hrg & Hok1)|(_ & f & Hff & _ & Hno)]);
    [by apply new_file_page_facts|apply empty_data_page_facts|done| |].
  2:{ destruct Hf0 as (r & Hr & <-), Hff as (r' & Hr' & <-). exfalso. apply Hno. exists g0, h0. by replace (first_free r') with (first_free r) by congruence. }
  pose proof (unused_in _ _ Hg) as Hgin. pose proof (bd_sectors_bound d). pose proof (ld_used _ _ _ _ Hlive) as Hu. rewrite Forall_forall in Hu.
  assert (forall a, a ∈ dir :: index :: entries.*2 -> a <> file /\ a <> g) as Hapart.
  { intros a Ha. destruct (Hu a Ha) as [Ha' _]. split; intros ->; by eapply used_not_unused. }
  assert (live_dir dir index d1 entries) as Hlive1.
  { eapply live_dir_same; [|done]. intros a Ha. destruct (Hu a Ha) as [Ha' H64]. apply Hsp; [by apply used_not_unused|lia]. }
  destruct (new_file_page_type g ltac:(lia)) as [Ht Hiu].
  destruct (link_live dir index d1 entries file (new_file_page g) nm Hlive1 Hroom Hrf Hiu Ht) as (d2 & El & Hlive2 & Hf2 & Ho); [lia|intros Hin; by destruct (Hapart _ Hin)|done..|].
  destruct (linked_as_fields dir nm (new_file_page g) (bd_read_page _ _ _ Hrf) Hlen) as (Ht2 & _ & Hr2). destruct (new_file_page_facts g ltac:(lia)) as [_ Hroot].
  assert (index <> g) as Hig by (apply Hapart; right; by left). exists file, d1, d2. split; [exact E|]. split; [done|]. split; [done|]. split; [done|]. split_and!.
  - exists (linked_as dir nm (new_file_page g)), (empty_data_page file). rewrite Hr2, Hroot.
    split_and!; [done|lia|rewrite Ho; [done|lia|congruence]|apply empty_data_page_facts|unfold FILESYSTEM_FILE_DATA_PAGE_SIZE; cbn; lia].
  - destruct Hok1 as (r & Hr & Hru & H64 & (p & Hp & Hpu)). pose proof (ld_used _ _ _ _ Hlive1) as Hu1. rewrite Forall_forall in Hu1.
    destruct (Hu1 index ltac:(right; by left)) as [Huix Hix64]. exists r. split; [rewrite Ho; [done|lia|lia]|]. split; [done|]. split; [done|]. exists p. split; [|done].
    rewrite Ho; [done|intros Hx; rewrite Hx, Hrf in Hp; congruence|intros Hx; rewrite Hx in Hp; by eapply (used_not_unused d1 index); [|exists p]].
  - unfold node_type. by rewrite Hf2, Ht2, Ht.
Qed.

(** ** Where the glue goes wrong *)

(** The end of a directory leaves [page_address] unwritten.  If what it held
    is not 0, looking for a name that is not there never ends. *)
Lemma lookup_absent_never_returns junk P pn dev dir d dp ip entries w en x n (Hip : index_of entries ip) (Hroom : (length entries < FILESYSTEM_DIRECTORY_INDEX_CHILDREN_SIZE)%nat)
  (Hn : Forall (fun x => named d x.2 x.1 /\ is_Some (node_type d x.2) /\ (length x.1 < FILESYSTEM_NAME_MAX_SIZE)%nat) entries)
  (Hw : mounted w P pn dev dir d) (Hen : enodes (vfs w) !! en = Some x) (Habs : en_name x ∉ entries.*1) (Hjunk : forall k, junk k <> 0) fuel :
  forall pre es, entries = pre ++ es -> lookup_loop fuel junk P en n (DirectoryIterator dp ip (length pre)) w = Stop NoFuel.
Proof.
  induction fuel as [|fuel IH]; intros pre es Hes; [done|]. cbn [lookup_loop]. destruct es as [|[nm a] es].
  - assert (entries = pre) as <- by by rewrite Hes, app_nil_r. rewrite (bind_done _ _ _ _ _ (on_disc_same _ _ _ _ _ _ _ _ Hw (iterator_next_end dp ip entries d Hip Hroom))).
    cbn [from_option]. rewrite (proj2 (Z.eqb_neq (junk fuel) 0)) by done. by apply (IH entries []).
  - assert (named d a nm /\ is_Some (node_type d a) /\ (length nm < FILESYSTEM_NAME_MAX_SIZE)%nat) as (Hnm & [t Ht] & Hl).
    { rewrite Hes in Hn. apply Forall_app in Hn as [_ Hn]. by apply Forall_cons in Hn as [? _]. }
    assert (a <> 0) as Ha by apply Hnm. assert (nm <> en_name x) as Hne.
    { intros ->. apply Habs. rewrite Hes, fmap_app. apply elem_of_app. right. by left. }
    rewrite (bind_done _ _ _ _ _ (on_disc_same _ _ _ _ _ _ _ _ Hw (iterator_next_entry dp ip entries pre nm a es d t Hip Hes ltac:(lia) Ha Ht))).
    cbn [from_option]. unfold id. rewrite (proj2 (Z.eqb_neq a 0)) by done. pose proof (on_vfs_same _ _ _ (get_enode_done _ _ _ Hen)) as Eg.
    assert (length (pre ++ [(nm, a)]) = S (length pre)) as Hlp by (rewrite length_app; cbn; lia).
    specialize (IH (pre ++ [(nm, a)]) es ltac:(by rewrite <- app_assoc)). rewrite Hlp in IH.
    destruct t; cbn [det_of];
      (rewrite (bind_done _ _ _ _ _ (name_of_done _ _ _ _ _ _ _ _ get_file_name (get_file_name_done a d) Hw Hnm Hl)) ||
       rewrite (bind_done _ _ _ _ _ (name_of_done _ _ _ _ _ _ _ _ get_directory_name (get_directory_name_done a d) Hw Hnm Hl)));
      by rewrite (bind_done _ _ _ _ _ Eg), decide_False.
Qed.

(** Mounting succeeds on a disc that [open_filesystem] does not accept; the
    root of the tree is then sector 0. *)
Lemma mount_ignores_signature here there b w sb mp e dev d : supers (vfs w) !! b = Some sb -> mount_point sb = Some mp -> dirents (vfs w) !! mp = Some e ->
  sb_device sb = Some dev -> discs w !! dev = Some d -> open_filesystem here there FILESYSTEM_ROOT_ADDRESS d = Done (0, d) ->
  exists w' n, pkfs_mount here there b w = Done (Num 0, w') /\ node <$> dirents (vfs w') !! mp = Some (Some n) /\ file_pages w' !! n = Some 0.
Proof.
  intros Hsb Hmp He Hdev Hd Eo. set (n := next_id (vfs w)). set (sb' := Superblock (prev_dirent sb) (mount_point sb) (sb_device sb) PKFS).
  set (v1 := set_supers <[b := sb']> (vfs w)). assert (on_vfs (upd_super b (fun sb => Superblock (prev_dirent sb) (mount_point sb) (sb_device sb) PKFS)) w = Done (tt, with_vfs w v1)) as E1.
  { apply on_vfs_done. unfold upd_super. by rewrite (bind_done _ _ _ _ _ (get_super_done _ _ _ Hsb)). }
  unfold pkfs_mount. rewrite (bind_done _ _ _ _ _ E1).
  assert (on_vfs (get_super b) (with_vfs w v1) = Done (sb', with_vfs w v1)) as E2 by (apply on_vfs_same, get_super_done; cbn; by rewrite lookup_insert_eq).
  rewrite (bind_done _ _ _ _ _ E2). cbn [mount_point sb_device sb']. rewrite Hmp, Hdev.
  set (o := open_filesystem here there FILESYSTEM_ROOT_ADDRESS) in *. clearbody o.
  unfold pkfs_alloc_node, fresh_id, put_node, set_file_page, upd_dirent, get_dirent, nonnull, on_device, on_vfs, zoom, bind, modify, get, put, ret, of_option, with_vfs. cbn.
  rewrite He. cbn. rewrite Hd, Eo. cbn. eexists _, n. split; [reflexivity|]. cbn. by rewrite !lookup_insert_eq.
Qed.

(** ** What a user of a mounted disc sees *)


(** With one free page left no second is found, and nothing is written. *)
Lemma create_file_last fuel d : alloc_ok d -> (forall g h, FILESYSTEM_ROOT_ADDRESS < g -> FILESYSTEM_ROOT_ADDRESS < h -> unused d g -> unused d h -> g = h) ->
  bd_sectors d < Z.of_nat fuel -> create_file fuel d = Done (0, d).
Proof.
  intros (r & Hr & Hu & H64 & Hff) Hone Hfuel. pose proof (unused_in _ _ Hff) as Hin. unfold create_file. rewrite (on_read_done _ _ _ _ _ Hr).
  pose proof (free_after_spec fuel d (first_free r) Hin) as H1. destruct (free_after fuel (first_free r) d) as [[[g|] d0]|v] eqn:E1; [| |lia].
  - destruct H1 as (-> & Hlt & Hg & _). pose proof (Hone (first_free r) g H64 ltac:(lia) Hff Hg). lia.
  - destruct H1 as (-> & _). by rewrite (bind_done _ _ _ _ _ E1).
Qed.

(** On a full disc, making a file reports success and overwrites sector 0,
    the boot sector: [create_file] answers with page 0, which is taken for the
    page of the file, so the name is written there. *)
Theorem create_on_full_disc_overwrites_boot fuel w P pn dev dir index d entries names n nm boot
  (Hw : mounted w P pn dev dir d) (Hlive : live_dir dir index d entries) (Hok : alloc_ok d)
  (Hfull : forall g h, FILESYSTEM_ROOT_ADDRESS < g -> FILESYSTEM_ROOT_ADDRESS < h -> unused d g -> unused d h -> g = h) (Hfuel : bd_sectors d < Z.of_nat fuel)
  (Hroom : (length entries < FILESYSTEM_DIRECTORY_INDEX_CHILDREN_SIZE)%nat) (Hn : pn <> n) (Hsh : shows (vfs w) P names) (Hids : ids_below (vfs w))
  (Hnew : nm ∉ names) (H0 : 0 ∉ nm) (Hlen : (length nm < FILESYSTEM_NAME_MAX_SIZE)%nat) (Hboot : bd_read 0 d = Some boot) :
  exists en w' d' boot', pkfs_create fuel P n nm FS_REGULAR w = Done (Some en, w') /\ file_pages w' !! n = Some 0 /\
    discs w' !! dev = Some d' /\ bd_read 0 d' = Some boot' /\ exists rest, drop 2 boot' = nm ++ 0 :: rest.
Proof.
  pose proof (create_file_last fuel d Hok Hfull Hfuel) as E. pose proof (ld_used _ _ _ _ Hlive) as Hu. rewrite Forall_forall in Hu.
  destruct (Hu index ltac:(right; by left)) as [_ Hix]. assert (0 <> index) as H0i by (unfold FILESYSTEM_ROOT_ADDRESS in *; lia).
  destruct (link_node_stores dir index d entries 0 boot nm [] (ld_dir _ _ _ _ Hlive) Hroom Hboot H0i H0 Hlen) as (ip & d1 & d2 & _ & _ & (_ & Hb1 & _) & (_ & _ & Ho2) & El).
  destruct (create_as_spec (create_file fuel) P n nm FS_REGULAR w pn dev dir d names 0 d true d2 Hw Hn Hsh Hids Hnew E El) as (w' & Ec & Hd & Hfp & _).
  exists (next_id (vfs w)), w', d2, (linked_as dir nm boot). split; [exact Ec|]. split_and!; [done|done|by rewrite Ho2|].
  by apply (named_page boot nm dir (bd_read_page _ _ _ Hboot) Hlen _ eq_refl).
Qed.
End proofs.

(** ** A disc of seventy sectors with an empty directory *)

Definition demo_root (sectors : Z) : memory_disc :=
  match create_dir 100 demo_disc with Done (_, d) => MemoryDisc sectors (disc_pages d) | Stop _ => demo_disc end.
Definition demo_mount (d : memory_disc) : pkfs_world (D := memory_disc) :=
  PkfsWorld
    (Fs {[ 1 := Dirent None None 1 (Some 3) FS_DIRECTORY (Some 2) None None None None [] ]} ∅ (<[2 := fs_node_init]> {[ 4 := fs_node_init ]})
       {[ 3 := Superblock None (Some 1) (Some 9) PKFS ]} ∅ [] 5)
    {[ 2 := 65 ]} {[ 9 := d ]}.

Lemma demo_mounted d : mounted (demo_mount d) 1 2 9 65 d.
Proof. split; [|by split]. do 3 eexists. split_and!; reflexivity. Qed.
Lemma demo_shows d : shows (vfs (demo_mount d)) 1 [].
Proof. eexists. split; [reflexivity|constructor]. Qed.
Lemma demo_ids d : ids_below (vfs (demo_mount d)).
Proof.
  split; cbn; intros k; [intros [? [<- _]%lookup_singleton_Some]; lia|by intros [? ?]|].
  intros [<-|[_ [? [<- _]%lookup_singleton_Some]]]%lookup_insert_is_Some; lia.
Qed.
Ltac used_demo := split; [eexists; split; vm_compute; reflexivity|vm_compute; reflexivity].
Lemma demo_root_live k : k ∈ [68; 70] -> live_dir 65 66 (demo_root k) [].
Proof.
  intros Hk. assert (k = 68 \/ k = 70) as [-> | ->] by set_solver; (split; [split; [eexists; split|eexists; split; [|split]|cbn; lia|done|split; [by intros ?%elem_of_nil|done]]
    |done|by apply NoDup_nil_2|repeat (constructor; [used_demo|]); constructor]); vm_compute; reflexivity.
Qed.
Lemma demo_root_ok k : k ∈ [68; 70] -> alloc_ok (demo_root k).
Proof.
  intros Hk. assert (k = 68 \/ k = 70) as [-> | ->] by set_solver;
    (eexists; split; [vm_compute; reflexivity|]; split; [vm_compute; reflexivity|]; split; [vm_compute; reflexivity|]; eexists; split; vm_compute; reflexivity).
Qed.
Lemma demo_roomy : roomy (demo_root 70).
Proof.
  exists 67, 68, 69. split_and!; [eexists; split; vm_compute; reflexivity|lia|lia|eexists; split; vm_compute; reflexivity..].
Qed.
Lemma demo_full g h : FILESYSTEM_ROOT_ADDRESS < g -> FILESYSTEM_ROOT_ADDRESS < h -> unused (demo_root 68) g -> unused (demo_root 68) h -> g = h.
Proof.
  assert (forall a, FILESYSTEM_ROOT_ADDRESS < a -> unused (demo_root 68) a -> a = 67) as Hall.
  { unfold FILESYSTEM_ROOT_ADDRESS. intros a Ha Hu. pose proof (unused_in (HD := memory_laws) _ _ Hu) as Hin. assert (bd_sectors (demo_root 68) = 68) as Hs by (vm_compute; reflexivity). rewrite Hs in Hin.
    destruct Hu as (p & Hp & Hpu). assert (a = 65 \/ a = 66 \/ a = 67) as [-> |[-> | ->]] by lia; [| |done]; vm_compute in Hp; injection Hp as <-; vm_compute in Hpu; discriminate. }
  intros Hg Hh Hgu Hhu. by rewrite (Hall g Hg Hgu), (Hall h Hh Hhu).
Qed.


Lemma create_on_full_disc_overwrites_boot_witness : exists en w' d' boot' rest, pkfs_create 100 1 4 [97] FS_REGULAR (demo_mount (demo_root 68)) = Done (Some en, w') /\
  discs w' !! 9 = Some d' /\ bd_read 0 d' = Some boot' /\ drop 2 boot' = 97 :: 0 :: rest.
Proof.
  destruct (create_on_full_disc_overwrites_boot (HD := memory_laws) 100 (demo_mount (demo_root 68)) 1 2 9 65 66 (demo_root 68) [] [] 4 [97] blank (demo_mounted _)
    (demo_root_live 68 ltac:(set_solver)) (demo_root_ok 68 ltac:(set_solver)) demo_full) as (en & w' & d' & boot' & E & _ & Hd & Hb & rest & Hr);
    [vm_compute; reflexivity|cbn; unfold FILESYSTEM_DIRECTORY_INDEX_CHILDREN_SIZE; lia|done|apply demo_shows|apply demo_ids|by intros ?%elem_of_nil|
     set_solver|unfold FILESYSTEM_NAME_MAX_SIZE; cbn; lia|vm_compute; reflexivity|].
  exists en, w', d', boot', rest. by split_and!.
Defined.
