(* ===== verification/Pci.v ===== *)
(** * Pci: devices on the PCI bus and their drivers (src modules/x86_pci)

    [pci_init] asks every address of the bus whether a function answers and
    keeps a list of those that do.  A driver is a watcher with a probe: it is
    offered every device that no other watcher has bound, and can be taken away
    again.  The configuration space is reached through two ports, [PortIO32],
    and [ConfigMechanism] says what they do.  A device is its place in
    [pci_devices]; what probes do besides is a world [W]. *)
From S2P Require Import Prelude.

(** [inl] and [outl] of the processor. *)
Class PortIO32 (W : Type) := { inl : Z -> M W Z; outl : Z -> Z -> M W unit }.

Definition PCI_BUS_MAX : nat := 256.
Definition PCI_SLOT_MAX : nat := 32.
Definition PCI_FUNC_MAX : nat := 8.

Record pci_address_t := PciAddress { bus : Z; slot : Z; func : Z }.
Definition PCI_ADDRESS (b s f : Z) : pci_address_t := PciAddress (u8 b) (u8 s) (u8 f).

(** ** The configuration space (sys/pci/pci.h) *)

Section config.
Context {W : Type} `{!PortIO32 W}.

Definition config_address (pci : pci_address_t) (offset : Z) : Z :=
  u32 (Z.lor (Z.lor (Z.lor (Z.lor (u32 (Z.shiftl (bus pci) 16)) (u32 (Z.shiftl (slot pci) 11))) (u32 (Z.shiftl (func pci) 8))) (Z.land offset 0xFC)) 0x80000000).
Definition pci_read_long (pci : pci_address_t) (offset : Z) : M W Z :=
  do! outl 0xCF8 (config_address pci offset);
  let! v := inl 0xCFC in ret (u32 (Z.shiftr v (Z.land offset 2 * 8))).
Definition pci_read_word (pci : pci_address_t) (offset : Z) : M W Z :=
  do! outl 0xCF8 (config_address pci offset);
  let! v := inl 0xCFC in ret (u16 (Z.land (Z.shiftr v (Z.land offset 2 * 8)) 0xFFFF)).
Definition pci_read_byte (pci : pci_address_t) (offset : Z) : M W Z :=
  do! outl 0xCF8 (config_address pci offset);
  let! v := inl 0xCFC in ret (u16 (Z.land (Z.shiftr v (Z.land offset 2 * 8)) 0xFF)).
Definition pci_exists (pci : pci_address_t) : M W bool :=
  let! w := pci_read_word pci 0 in ret (negb (w =? 0xFFFF)).
Definition pci_get_class_pair (pci : pci_address_t) : M W Z := pci_read_word pci 10.
Definition pci_is_multifunction (pci : pci_address_t) : M W bool :=
  let! b := pci_read_byte (PciAddress (bus pci) (slot pci) 0) 0xE in ret (negb (Z.land b 0x80 =? 0)).
Definition pci_read_bar (pci : pci_address_t) (bar : Z) : M W Z := pci_read_long pci (u8 (0x10 + 4 * bar)).
End config.

(** ** Devices and watchers *)

Record pci_device_t := PciDevice {
  binder : option Z; address : pci_address_t; device_id : Z; vendor_id : Z; class : Z; subclass : Z;
  prog_if : Z; rev_id : Z; bist_id : Z; header_type : Z; latency : Z; cache_line_size : Z
}.
Definition set_binder (b : option Z) (d : pci_device_t) : pci_device_t :=
  PciDevice b (address d) (device_id d) (vendor_id d) (class d) (subclass d) (prog_if d) (rev_id d) (bist_id d) (header_type d) (latency d) (cache_line_size d).
Inductive pci_probe_result_t := PCI_IGNORE | PCI_BIND.
#[export] Instance pci_probe_result_eq_dec : EqDecision pci_probe_result_t.
Proof. solve_decision. Defined.

Section pci.
Context {W : Type} `{!PortIO32 W} {V : Type}.

(** [bound_devices] is [None] once the array was freed. *)
Record pci_watcher_t := Watcher { probe : pci_device_t -> V -> M W pci_probe_result_t; private : V; bound_devices : option (list nat) }.
(** The array of devices, the list of watchers between [pci_watcher_head] and
    [pci_watcher_tail], and the watchers by address. *)
Record pci := Pci { pci_devices : list pci_device_t; pci_watchers : list Z; objects : gmap Z pci_watcher_t; world : W }.
Definition set_devices (f : list pci_device_t -> list pci_device_t) (s : pci) : pci := Pci (f (pci_devices s)) (pci_watchers s) (objects s) (world s).
Definition set_watchers (f : list Z -> list Z) (s : pci) : pci := Pci (pci_devices s) (f (pci_watchers s)) (objects s) (world s).
Definition set_objects (f : gmap Z pci_watcher_t -> gmap Z pci_watcher_t) (s : pci) : pci := Pci (pci_devices s) (pci_watchers s) (f (objects s)) (world s).
Definition on_world {A} (m : M W A) : M pci A := zoom world (fun w s => Pci (pci_devices s) (pci_watchers s) (objects s) w) m.

Definition add_pci_device (a : pci_address_t) : M pci unit :=
  let! class_pair := on_world (pci_get_class_pair a) in
  modify (set_devices (fun l => l ++ [PciDevice None a 0 0 (Z.land (Z.shiftr class_pair 8) 0xFF) (Z.land class_pair 0xFF) 0 0 0 0 0 0])).

Definition get_watcher (w : Z) : M pci pci_watcher_t := fun s => of_option Undefined (objects s !! w) s.
Definition get_device (i : nat) : M pci pci_device_t := fun s => of_option Undefined (pci_devices s !! i) s.
Definition bound (x : pci_watcher_t) : M pci (list nat) := of_option Undefined (bound_devices x).

Definition pci_bind (watcher : Z) (device : nat) : M pci unit :=
  do! get_device device;
  do! modify (set_devices (alter (set_binder (Some watcher)) device));
  let! x := get_watcher watcher in
  let! l := bound x in
  modify (set_objects <[watcher := Watcher (probe x) (private x) (Some (l ++ [device]))]>).

(** One device offered to the new watcher. *)
Definition offer (watcher : Z) (i : nat) : M pci unit :=
  let! d := get_device i in
  match binder d with
  | Some _ => ret tt
  | None =>
      let! x := get_watcher watcher in
      let! r := on_world (probe x d (private x)) in
      if bool_decide (r = PCI_BIND) then pci_bind watcher i else ret tt
  end.
(** [watcher]: the address of the new object. *)
Definition pci_watch (watcher : Z) (pr : pci_device_t -> V -> M W pci_probe_result_t) (pv : V) : M pci Z :=
  do! modify (set_objects <[watcher := Watcher pr pv (Some [])]>);
  do! modify (set_watchers (cons watcher));
  let! s := get in
  do! for_range (length (pci_devices s)) (offer watcher);
  ret watcher.

(** The object of the watcher itself is not freed. *)
Definition pci_unwatch (watcher : Z) : M pci unit :=
  let! x := get_watcher watcher in
  let! l := bound x in
  do! for_each l (fun i => do! get_device i; modify (set_devices (alter (set_binder None) i)));
  do! modify (set_objects <[watcher := Watcher (probe x) (private x) None]>);
  modify (set_watchers (remove_first (Z.eqb watcher))).

(** ** Looking for devices *)

Definition numbers (n : nat) : list Z := Z.of_nat <$> seq 0 n.
Definition scan_function (b s f : Z) : M pci unit :=
  let! e := on_world (pci_exists (PCI_ADDRESS b s f)) in
  if e : bool then add_pci_device (PCI_ADDRESS b s f) else ret tt.
Definition scan_slot (b s : Z) : M pci unit :=
  let! e := on_world (pci_exists (PCI_ADDRESS b s 0)) in
  if e : bool then
    let! multi := on_world (pci_is_multifunction (PCI_ADDRESS b s 0)) in
    for_each (numbers (if multi : bool then PCI_FUNC_MAX else 1)) (scan_function b s)
  else ret tt.
Definition pci_init : M pci Z :=
  do! modify (fun s => Pci [] [] (objects s) (world s));
  do! for_each (numbers PCI_BUS_MAX) (fun b => for_each (numbers PCI_SLOT_MAX) (scan_slot b));
  ret 0.
End pci.

(** ** What the two ports do *)

(** A write of an address to port 0xCF8 selects a register that port 0xCFC then
    gives; [config w] is the configuration space of the machine. *)
Class ConfigMechanism (W : Type) `{!PortIO32 W} := {
  config : W -> Z -> Z;
  config_range w a : 0 <= config w a < 2 ^ 32;
  config_read w a : 0 <= a < 2 ^ 32 -> exists w1 w2, outl 0xCF8 a w = Done (tt, w1) /\ inl 0xCFC w1 = Done (config w a, w2) /\ config w2 = config w
}.

(** The register at [r], a multiple of 4, of a function. *)
Definition register (c : Z -> Z) (b s f r : Z) : Z := c (2 ^ 31 + b * 2 ^ 16 + s * 2 ^ 11 + f * 2 ^ 8 + r).
Definition exists_function (c : Z -> Z) (b s f : Z) : bool := negb (register c b s f 0 mod 2 ^ 16 =? 0xFFFF).
Definition multifunction (c : Z -> Z) (b s : Z) : bool := Z.testbit (register c b s 0 0xC) 23.
Definition found_device (c : Z -> Z) (b s f : Z) : pci_device_t :=
  PciDevice None (PciAddress b s f) 0 0 (register c b s f 8 / 2 ^ 24) (register c b s f 8 / 2 ^ 16 mod 2 ^ 8) 0 0 0 0 0 0.
(** The functions of a slot: none without function 0, and only that one unless
    the slot says it has several. *)
Definition functions (c : Z -> Z) (b s : Z) : list Z :=
  if exists_function c b s 0 then filter (fun f => exists_function c b s f = true) (numbers (if multifunction c b s then PCI_FUNC_MAX else 1)) else [].
Definition all_devices (c : Z -> Z) : list pci_device_t :=
  b ← numbers PCI_BUS_MAX; s ← numbers PCI_SLOT_MAX; found_device c b s <$> functions c b s.

Lemma numbers_elem n k : k ∈ numbers n -> 0 <= k < Z.of_nat n.
Proof. intros (i & -> & Hi)%list_elem_of_fmap. apply elem_of_seq in Hi. lia. Qed.

(** Bits that do not overlap add up. *)
Lemma lor_add a b n : 0 <= n -> 0 <= a < 2 ^ n -> Z.lor (b * 2 ^ n) a = b * 2 ^ n + a.
Proof.
  intros Hn Ha. assert (Z.land (b * 2 ^ n) a = 0) as Hz.
  { apply Z.bits_inj'. intros i Hi. rewrite Z.land_spec, Z.bits_0, Z.mul_pow2_bits by done.
    destruct (Z.lt_ge_cases i n); [by rewrite (Z.testbit_neg_r b) by lia|]. destruct (decide (a = 0)) as [->|]; [by rewrite Z.bits_0, andb_false_r|].
    rewrite (Z.bits_above_log2 a); [apply andb_false_r|lia|]. apply Z.lt_le_trans with n; [apply Z.log2_lt_pow2; lia|done]. }
  symmetry. by apply Z.add_nocarry_lor.
Qed.

(** Testing a bit with a mask. *)
Lemma land_bit x n : 0 <= n -> negb (Z.land x (2 ^ n) =? 0) = Z.testbit x n.
Proof.
  intros Hn. destruct (Z.testbit x n) eqn:Eb.
  - apply negb_true_iff, Z.eqb_neq. intros H. pose proof (Z.land_spec x (2 ^ n) n) as Hl. by rewrite H, Z.bits_0, Eb, Z.pow2_bits_true in Hl.
  - apply negb_false_iff, Z.eqb_eq. apply Z.bits_inj'. intros i Hi. rewrite Z.land_spec, Z.bits_0, Z.pow2_bits_eqb by done.
    destruct (Z.eqb_spec n i) as [<-|]; [by rewrite Eb|apply andb_false_r].
Qed.

Lemma config_address_sum b s f r : 0 <= b < 256 -> 0 <= s < 32 -> 0 <= f < 8 -> 0 <= Z.land r 0xFC < 2 ^ 8 ->
  config_address (PciAddress b s f) r = 2 ^ 31 + b * 2 ^ 16 + s * 2 ^ 11 + f * 2 ^ 8 + Z.land r 0xFC.
Proof.
  intros Hb Hs Hf Hr. unfold config_address. cbn [bus slot func]. rewrite !Z.shiftl_mul_pow2 by lia. unfold u32. rewrite !(Z.mod_small (_ * _)) by lia.
  set (o := Z.land r 0xFC) in *. rewrite (lor_add (s * 2 ^ 11)) by lia. replace (b * 2 ^ 16 + s * 2 ^ 11) with ((b * 32 + s) * 2 ^ 11) by lia.
  rewrite (lor_add (f * 2 ^ 8)) by lia. replace ((b * 32 + s) * 2 ^ 11 + f * 2 ^ 8) with (((b * 32 + s) * 8 + f) * 2 ^ 8) by lia.
  rewrite (lor_add o) by lia. rewrite Z.lor_comm. change 0x80000000 with (1 * 2 ^ 31). rewrite lor_add by lia. rewrite Z.mod_small by lia. lia.
Qed.

Section scanning.
Context {W : Type} `{HC : ConfigMechanism W} {V : Type}.
Implicit Types (w : W).

(** What a read of a register gives, whatever is done with it. *)
Lemma config_read_done {A} b s f r o (k : Z -> M W A) w : 0 <= b < 256 -> 0 <= s < 32 -> 0 <= f < 8 -> Z.land r 0xFC = o -> 0 <= o < 256 ->
  exists w', config w' = config w /\ (do! outl 0xCF8 (config_address (PciAddress b s f) r); let! v := inl 0xCFC in k v) w = k (register (config w) b s f o) w'.
Proof.
  intros Hb Hs Hf Hr Ho. rewrite config_address_sum, Hr by (rewrite ?Hr; lia).
  destruct (config_read w (2 ^ 31 + b * 2 ^ 16 + s * 2 ^ 11 + f * 2 ^ 8 + o) ltac:(lia)) as (w1 & w2 & E1 & E2 & Hc).
  exists w2. split; [done|]. by rewrite (bind_done _ _ _ _ _ E1), (bind_done _ _ _ _ _ E2).
Qed.

Lemma register_range w b s f r : 0 <= register (config w) b s f r < 2 ^ 32.
Proof. apply config_range. Qed.

Lemma pci_exists_done b s f w : 0 <= b < 256 -> 0 <= s < 32 -> 0 <= f < 8 ->
  exists w', config w' = config w /\ pci_exists (PciAddress b s f) w = Done (exists_function (config w) b s f, w').
Proof.
  intros Hb Hs Hf. unfold pci_exists, pci_read_word.
  destruct (config_read_done b s f 0 0 (fun v => ret (u16 (Z.land (Z.shiftr v (Z.land 0 2 * 8)) 0xFFFF))) w) as (w' & Hc & E); [lia..|done|lia|].
  exists w'. split; [done|]. rewrite (bind_done _ _ _ _ _ E). unfold ret, exists_function. do 3 f_equal. cbn [Z.land Z.mul]. rewrite Z.shiftr_0_r.
  change 0xFFFF with (Z.ones 16) at 1. rewrite Z.land_ones by lia. unfold u16. by rewrite Z.mod_mod.
Qed.

Lemma multifunction_done b s f w : 0 <= b < 256 -> 0 <= s < 32 ->
  exists w', config w' = config w /\ pci_is_multifunction (PciAddress b s f) w = Done (multifunction (config w) b s, w').
Proof.
  intros Hb Hs. unfold pci_is_multifunction, pci_read_byte. cbn [bus slot].
  destruct (config_read_done b s 0 0xE 0xC (fun v => ret (u16 (Z.land (Z.shiftr v (Z.land 0xE 2 * 8)) 0xFF))) w) as (w' & Hc & E); [lia..|done|lia|].
  exists w'. split; [done|]. rewrite (bind_done _ _ _ _ _ E). unfold ret, multifunction. do 2 f_equal. change (Z.land 14 2 * 8) with 16.
  set (v := register _ _ _ _ _). unfold u16. rewrite Z.mod_small by (change 0xFF with (Z.ones 8); rewrite Z.land_ones by lia; pose proof (Z.mod_pos_bound (Z.shiftr v 16) (2 ^ 8)); lia).
  rewrite <- Z.land_assoc. change (Z.land 255 128) with (2 ^ 7). rewrite land_bit by lia. by rewrite Z.shiftr_spec by lia.
Qed.

Lemma class_pair_done b s f w : 0 <= b < 256 -> 0 <= s < 32 -> 0 <= f < 8 ->
  exists w', config w' = config w /\ pci_get_class_pair (PciAddress b s f) w = Done (register (config w) b s f 8 / 2 ^ 16, w').
Proof.
  intros Hb Hs Hf. unfold pci_get_class_pair, pci_read_word.
  destruct (config_read_done b s f 10 8 (fun v => ret (u16 (Z.land (Z.shiftr v (Z.land 10 2 * 8)) 0xFFFF))) w) as (w' & Hc & E); [lia..|done|lia|].
  exists w'. split; [done|]. rewrite E. unfold ret. do 2 f_equal. change (Z.land 10 2 * 8) with 16. pose proof (register_range w b s f 8).
  change 0xFFFF with (Z.ones 16) at 1. rewrite Z.land_ones, Z.shiftr_div_pow2 by lia. unfold u16. rewrite Z.mod_mod by lia. apply Z.mod_small.
  split; [apply Z.div_pos; lia|apply Z.div_lt_upper_bound; lia].
Qed.

Definition with_world (s : pci (W := W) (V := V)) (l : list pci_device_t) (w : W) : pci := Pci l (pci_watchers s) (objects s) w.
Lemma on_world_done {A} (m : M W A) s a w' : m (world s) = Done (a, w') -> on_world m s = Done (a, with_world s (pci_devices s) w').
Proof. intros E. unfold on_world, zoom. by rewrite E. Qed.

Lemma add_pci_device_done b sl f s : 0 <= b < 256 -> 0 <= sl < 32 -> 0 <= f < 8 ->
  exists w', config w' = config (world s) /\
    add_pci_device (PciAddress b sl f) s = Done (tt, with_world s (pci_devices s ++ [found_device (config (world s)) b sl f]) w').
Proof.
  intros Hb Hs Hf. destruct (class_pair_done b sl f (world s) Hb Hs Hf) as (w' & Hc & E). exists w'. split; [done|]. unfold add_pci_device.
  rewrite (bind_done _ _ _ _ _ (on_world_done _ _ _ _ E)). unfold modify, set_devices, with_world, found_device. cbn [pci_devices pci_watchers objects world].
  pose proof (register_range (world s) b sl f 8) as Hr. set (v := register _ _ _ _ _) in *. repeat f_equal; change 0xFF with (Z.ones 8); rewrite Z.land_ones by lia; [|done].
  rewrite Z.shiftr_div_pow2, Z.div_div by lia. change (2 ^ 16 * 2 ^ 8) with (2 ^ 24). apply Z.mod_small. split; [apply Z.div_pos; lia|apply Z.div_lt_upper_bound; lia].
Qed.

(** The steps of the scan append what they find. *)
Definition appends (l : (Z -> Z) -> list pci_device_t) (m : M (pci (W := W) (V := V)) unit) : Prop :=
  forall s, exists w', config w' = config (world s) /\ m s = Done (tt, with_world s (pci_devices s ++ l (config (world s))) w').

Lemma appends_nil : appends (fun _ => []) (ret tt).
Proof. intros [l ws o w]. exists w. split; [done|]. unfold with_world. cbn. by rewrite app_nil_r. Qed.
Lemma appends_bind l1 l2 m1 m2 : appends l1 m1 -> appends l2 m2 -> appends (fun c => l1 c ++ l2 c) (do! m1; m2).
Proof.
  intros H1 H2 s. destruct (H1 s) as (w1 & Hc1 & E1). rewrite (bind_done _ _ _ _ _ E1).
  destruct (H2 (with_world s (pci_devices s ++ l1 (config (world s))) w1)) as (w2 & Hc2 & E2). exists w2. cbn in *. split; [congruence|].
  rewrite E2. unfold with_world. cbn. by rewrite Hc1, <- app_assoc.
Qed.
Lemma appends_for_each (l : Z -> (Z -> Z) -> list pci_device_t) body xs : (forall x, x ∈ xs -> appends (l x) (body x)) ->
  appends (fun c => xs ≫= (fun x => l x c)) (for_each xs body).
Proof.
  induction xs as [|x xs IH]; intros Hb; [apply appends_nil|]. cbn [for_each].
  change (appends (fun c => l x c ++ (fun c => xs ≫= (fun x => l x c)) c) (do! body x; for_each xs body)).
  apply appends_bind; [apply Hb; by left|apply IH; intros y Hy; apply Hb; by right].
Qed.

Lemma address_id b s f : 0 <= b < 256 -> 0 <= s < 32 -> 0 <= f < 8 -> PCI_ADDRESS b s f = PciAddress b s f.
Proof. intros. unfold PCI_ADDRESS, u8. by rewrite !Z.mod_small by lia. Qed.

Lemma scan_function_appends b s f : 0 <= b < 256 -> 0 <= s < 32 -> 0 <= f < 8 ->
  appends (fun c => if exists_function c b s f then [found_device c b s f] else []) (scan_function b s f).
Proof.
  intros Hb Hs Hf st. unfold scan_function. rewrite address_id by done. destruct (pci_exists_done b s f (world st) Hb Hs Hf) as (w1 & Hc1 & E1).
  rewrite (bind_done _ _ _ _ _ (on_world_done _ _ _ _ E1)). destruct (exists_function (config (world st)) b s f).
  - destruct (add_pci_device_done b s f (with_world st (pci_devices st) w1) Hb Hs Hf) as (w2 & Hc2 & E2). exists w2. cbn in *. split; [congruence|]. rewrite E2, Hc1. done.
  - exists w1. split; [done|]. by rewrite app_nil_r.
Qed.

Lemma scan_slot_appends b s : 0 <= b < 256 -> 0 <= s < 32 -> appends (fun c => found_device c b s <$> functions c b s) (scan_slot b s).
Proof.
  intros Hb Hs st. unfold scan_slot. rewrite address_id by lia. destruct (pci_exists_done b s 0 (world st) Hb Hs ltac:(lia)) as (w1 & Hc1 & E1).
  rewrite (bind_done _ _ _ _ _ (on_world_done _ _ _ _ E1)). unfold functions. destruct (exists_function (config (world st)) b s 0); [|exists w1; split; [done|cbn; by rewrite app_nil_r]].
  destruct (multifunction_done b s 0 w1 Hb Hs) as (w2 & Hc2 & E2). set (st1 := with_world st (pci_devices st) w1).
  rewrite (bind_done _ _ _ _ _ (on_world_done (pci_is_multifunction _) st1 _ _ E2)). rewrite Hc1.
  set (fs := numbers (if multifunction _ _ _ then _ else _)). set (st2 := with_world st1 _ w2).
  destruct (appends_for_each (fun f c => if exists_function c b s f then [found_device c b s f] else []) (scan_function b s) fs) with (s := st2) as (w3 & Hc3 & E3).
  { intros f Hf. apply scan_function_appends; [done..|]. unfold fs in Hf. apply numbers_elem in Hf. unfold PCI_FUNC_MAX in Hf. destruct (multifunction (config (world st)) b s); lia. }
  exists w3. cbn [world st2 with_world] in Hc3. split; [congruence|]. rewrite E3. unfold with_world, st2, st1. cbn [with_world pci_devices pci_watchers objects world]. do 4 f_equal.
  rewrite Hc2, Hc1. clear. induction fs as [|f fs IH]; [done|]. cbn [mbind list_bind]. rewrite filter_cons. rewrite IH. by destruct (exists_function _ _ _ _).
Qed.

Lemma numbers_intro n k : 0 <= k < Z.of_nat n -> k ∈ numbers n.
Proof. intros Hk. apply list_elem_of_fmap. exists (Z.to_nat k). split; [lia|]. apply elem_of_seq. lia. Qed.
Lemma NoDup_numbers n : NoDup (numbers n).
Proof. apply NoDup_fmap_2; [apply _|apply NoDup_seq]. Qed.
Lemma functions_elem c b s f : f ∈ functions c b s <->
  exists_function c b s 0 = true /\ exists_function c b s f = true /\ 0 <= f < 8 /\ (f = 0 \/ multifunction c b s = true).
Proof.
  unfold functions. destruct (exists_function c b s 0) eqn:E0; [|split; [by intros ?%elem_of_nil|by intros [? _]]].
  rewrite list_elem_of_filter. unfold PCI_FUNC_MAX. destruct (multifunction c b s).
  - split; [intros [He Hf%numbers_elem]; split_and!; (done || lia || by right)|]. intros (_ & He & Hf & _). split; [done|]. apply numbers_intro. lia.
  - split; [intros [He Hf%numbers_elem]; split_and!; (done || lia || by left; lia)|]. intros (_ & He & Hf & [-> |?]); [|done]. split; [done|]. apply numbers_intro. lia.
Qed.

(** C29: Looking for devices always ends, and lists what an inventory of the
    configuration space lists: every function that answers, once, with its
    class codes, if its slot has a function 0 and, when it is another one, says
    that it has several. *)
Theorem pci_init_enumerates (s : pci (W := W) (V := V)) :
  exists w', pci_init s = Done (0, Pci (all_devices (config (world s))) [] (objects s) w') /\ config w' = config (world s) /\
    NoDup (address <$> all_devices (config (world s))) /\
    forall d, d ∈ all_devices (config (world s)) <-> exists b sl f, d = found_device (config (world s)) b sl f /\ 0 <= b < 256 /\ 0 <= sl < 32 /\ 0 <= f < 8 /\
      exists_function (config (world s)) b sl 0 = true /\ exists_function (config (world s)) b sl f = true /\ (f = 0 \/ multifunction (config (world s)) b sl = true).
Proof.
  set (c := config (world s)). unfold pci_init. rewrite bind_modify. set (s0 := Pci _ _ _ _).
  destruct (appends_for_each (fun b c => numbers PCI_SLOT_MAX ≫= fun s => found_device c b s <$> functions c b s)
    (fun b => for_each (numbers PCI_SLOT_MAX) (scan_slot b)) (numbers PCI_BUS_MAX)) with (s := s0) as (w' & Hc & E).
  { intros b Hb%numbers_elem. apply (appends_for_each (fun s c => found_device c b s <$> functions c b s)). intros sl Hs%numbers_elem. apply scan_slot_appends; unfold PCI_BUS_MAX, PCI_SLOT_MAX in *; lia. }
  exists w'. rewrite (bind_done _ _ _ _ _ E). split; [done|]. split; [done|]. clear. split.
  - assert (forall b sl, address <$> (found_device c b sl <$> functions c b sl) = PciAddress b sl <$> functions c b sl) as Hfs by (intros; by rewrite <- list_fmap_compose).
    unfold all_devices. assert (forall A B C (g : B -> C) (f : A -> list B) xs, g <$> (xs ≫= f) = xs ≫= (fun x => g <$> f x)) as Hfb.
    { intros A B C g f xs. induction xs as [|x xs IH]; [done|]. cbn. by rewrite fmap_app, IH. }
    rewrite Hfb. apply NoDup_bind; [| |apply NoDup_numbers].
    + intros x y z _ _. rewrite !Hfb. intros (s1 & Hz1 & _)%list_elem_of_bind (s2 & Hz2 & _)%list_elem_of_bind. rewrite Hfs in Hz1, Hz2.
      apply list_elem_of_fmap in Hz1 as (f1 & -> & _), Hz2 as (f2 & [= ->] & _). done.
    + intros b _. rewrite Hfb. apply NoDup_bind; [| |apply NoDup_numbers].
      * intros x y z _ _. rewrite !Hfs. intros (f1 & -> & _)%list_elem_of_fmap (f2 & [= ->] & _)%list_elem_of_fmap. done.
      * intros sl _. rewrite Hfs. apply NoDup_fmap_2; [by intros ?? [=]|]. unfold functions. destruct (exists_function _ _ _ _); [|constructor]. apply NoDup_filter, NoDup_numbers.
  - intros d. unfold all_devices. rewrite list_elem_of_bind. split.
    + intros (b & (sl & (f & -> & Hf)%list_elem_of_fmap & Hs%numbers_elem)%list_elem_of_bind & Hb%numbers_elem). apply functions_elem in Hf as (H0 & He & Hr & Hm).
      exists b, sl, f. unfold PCI_BUS_MAX, PCI_SLOT_MAX in *. split_and!; (done || lia).
    + intros (b & sl & f & -> & Hb & Hs & Hf & H0 & He & Hm). exists b. split; [|apply numbers_intro; unfold PCI_BUS_MAX; lia].
      apply list_elem_of_bind. exists sl. split; [|apply numbers_intro; unfold PCI_SLOT_MAX; lia]. apply list_elem_of_fmap. exists f. split; [done|]. by apply functions_elem.
Qed.
End scanning.

(** ** Drivers come and go *)

Section watching.
Context {W : Type} `{!PortIO32 W} {V : Type}.
Abbreviation pci := (pci (W := W) (V := V)).
Implicit Types (s : pci) (w : Z).

(** The probe ends, and takes the devices that [acc] accepts. *)
Definition answers (pr : pci_device_t -> V -> M W pci_probe_result_t) (pv : V) (acc : pci_device_t -> bool) : Prop :=
  forall d wd, exists wd', pr d pv wd = Done (if acc d then PCI_BIND else PCI_IGNORE, wd').
Definition takes (acc : pci_device_t -> bool) (d : pci_device_t) : bool := match binder d with None => acc d | Some _ => false end.
Definition take_over (w : Z) (acc : pci_device_t -> bool) (d : pci_device_t) : pci_device_t := if takes acc d then set_binder (Some w) d else d.
Definition let_go (w : Z) (d : pci_device_t) : pci_device_t := if bool_decide (binder d = Some w) then set_binder None d else d.

(** The places of the devices in [ds], from [k] on, that are taken. *)
Fixpoint newly (acc : pci_device_t -> bool) (k : nat) (ds : list pci_device_t) : list nat :=
  match ds with [] => [] | d :: ds' => if takes acc d then k :: newly acc (S k) ds' else newly acc (S k) ds' end.

Lemma newly_elem acc ds : forall k i, i ∈ newly acc k ds <-> exists j d, i = (k + j)%nat /\ ds !! j = Some d /\ takes acc d = true.
Proof.
  induction ds as [|d ds IH]; intros k i; cbn [newly]; [split; [by intros ?%elem_of_nil|by intros (j & d & _ & [=] & _)]|].
  assert (i ∈ newly acc (S k) ds <-> exists j d', i = (k + S j)%nat /\ ds !! j = Some d' /\ takes acc d' = true) as Hs.
  { rewrite IH. split; intros (j & d' & -> & Hj); exists j, d'; (split; [lia|done]). }
  destruct (takes acc d) eqn:Et; rewrite ?elem_of_cons, Hs.
  - split; [intros [->|(j & d' & -> & Hj)]; [exists 0%nat, d; split; [lia|done]|by exists (S j), d']|].
    intros ([|j] & d' & -> & Hj & Ht); [left; lia|right; by exists j, d'].
  - split; [intros (j & d' & -> & Hj); by exists (S j), d'|]. intros ([|j] & d' & -> & Hj & Ht); [cbn in Hj; congruence|by exists j, d'].
Qed.
Lemma newly_NoDup acc ds : forall k, NoDup (newly acc k ds).
Proof.
  induction ds as [|d ds IH]; intros k; cbn [newly]; [constructor|]. destruct (takes acc d); [|done]. constructor; [|done].
  rewrite newly_elem. intros (j & d' & Hk & _). lia.
Qed.

Lemma alter_middle {A} (f : A -> A) pre x post : alter f (length pre) (pre ++ x :: post) = pre ++ f x :: post.
Proof. induction pre as [|y pre IH]; [done|]. cbn. f_equal. exact IH. Qed.

(** Offering the rest of the devices. *)
Lemma offers_spec w pr pv acc (Hans : answers pr pv acc) rest : forall pre l s,
  pci_devices s = pre ++ rest -> objects s !! w = Some (Watcher pr pv (Some l)) ->
  exists wd', for_each (seq (length pre) (length rest)) (offer w) s = Done (tt,
    Pci (pre ++ (take_over w acc <$> rest)) (pci_watchers s) (<[w := Watcher pr pv (Some (l ++ newly acc (length pre) rest))]> (objects s)) wd').
Proof.
  induction rest as [|d rest IH]; intros pre l s Hd Ho; cbn [length seq for_each].
  - exists (world s). cbn [newly fmap list_fmap]. rewrite !app_nil_r, insert_id by done. rewrite app_nil_r in Hd. destruct s. cbn in *. by subst.
  - assert (get_device (length pre) s = Done (d, s)) as Eg by (unfold get_device; rewrite Hd; by rewrite list_lookup_middle).
    assert (exists wd l1, offer w (length pre) s = Done (tt, Pci (pre ++ take_over w acc d :: rest) (pci_watchers s) (<[w := Watcher pr pv (Some l1)]> (objects s)) wd) /\
      l ++ newly acc (length pre) (d :: rest) = l1 ++ newly acc (S (length pre)) rest) as (wd & l1 & E & Hl1).
    { unfold offer. rewrite (bind_done _ _ _ _ _ Eg). unfold take_over, takes. cbn [newly]. unfold takes. destruct (binder d) as [b|] eqn:Eb.
      - exists (world s), l. split; [|done]. rewrite <- Hd, insert_id by done. by destruct s.
      - assert (get_watcher w s = Done (Watcher pr pv (Some l), s)) as Ew by (unfold get_watcher; by rewrite Ho). rewrite (bind_done _ _ _ _ _ Ew). cbn [probe private].
        destruct (Hans d (world s)) as (wd & Ep). set (s1 := Pci (pci_devices s) (pci_watchers s) (objects s) wd).
        assert (on_world (pr d pv) s = Done (if acc d then PCI_BIND else PCI_IGNORE, s1)) as E1 by (unfold on_world, zoom; by rewrite Ep).
        rewrite (bind_done _ _ _ _ _ E1). exists wd. destruct (acc d).
        + rewrite bool_decide_true by done. exists (l ++ [length pre]). split; [|by rewrite <- app_assoc].
          unfold pci_bind. assert (get_device (length pre) s1 = Done (d, s1)) as Eg1 by (unfold get_device, s1; cbn; rewrite Hd; by rewrite list_lookup_middle).
          rewrite (bind_done _ _ _ _ _ Eg1), bind_modify. unfold get_watcher, bound, set_objects, set_devices, bind, modify, s1. cbn. rewrite Ho. cbn. by rewrite Hd, alter_middle.
        + rewrite bool_decide_false by done. exists l. split; [|done]. unfold ret, s1. by rewrite <- Hd, insert_id by done. }
    rewrite (bind_done _ _ _ _ _ E). destruct (IH (pre ++ [take_over w acc d]) l1 (Pci (pre ++ take_over w acc d :: rest) (pci_watchers s) (<[w := Watcher pr pv (Some l1)]> (objects s)) wd)) as (wd' & E2);
      [cbn; by rewrite <- app_assoc|cbn; by rewrite lookup_insert_eq|].
    rewrite length_app, Nat.add_comm in E2. cbn [length Nat.add pci_watchers objects] in E2. exists wd'. rewrite E2, insert_insert_eq, Hl1. by rewrite <- app_assoc.
Qed.

(** Every watcher in the list knows exactly the devices that name it. *)
Record binders_ok s : Prop := {
  bo_watchers : NoDup (pci_watchers s);
  bo_bound w : w ∈ pci_watchers s -> exists x l, objects s !! w = Some x /\ bound_devices x = Some l /\ NoDup l /\
    forall i, i ∈ l <-> exists d, pci_devices s !! i = Some d /\ binder d = Some w;
  bo_binder i d w : pci_devices s !! i = Some d -> binder d = Some w -> w ∈ pci_watchers s
}.

Inductive pci_op :=
  | Watch (w : Z) (pr : pci_device_t -> V -> M W pci_probe_result_t) (pv : V) (acc : pci_device_t -> bool)
  | Unwatch (w : Z).
Definition run_pci (o : pci_op) : M pci unit :=
  match o with Watch w pr pv _ => do! pci_watch w pr pv; ret tt | Unwatch w => pci_unwatch w end.
(** The devices after an operation, each for itself. *)
Definition op_devices (o : pci_op) (ds : list pci_device_t) : list pci_device_t :=
  match o with Watch w _ _ acc => take_over w acc <$> ds | Unwatch w => let_go w <$> ds end.
(** A new watcher is a new object, and a probe that ends; a watcher is given
    back once. *)
Definition op_watchers (o : pci_op) (ws : list Z) : list Z :=
  match o with Watch w _ _ _ => w :: ws | Unwatch w => remove_first (Z.eqb w) ws end.
Fixpoint valid_pci (os : list pci_op) (ws : list Z) : Prop :=
  match os with
  | [] => True
  | o :: os' => match o with Watch w pr pv acc => (w ∉ ws) /\ answers pr pv acc | Unwatch w => w ∈ ws end /\ valid_pci os' (op_watchers o ws)
  end.

Lemma take_over_binder w acc d v : binder (take_over w acc d) = Some v <-> (takes acc d = true /\ v = w) \/ (takes acc d = false /\ binder d = Some v).
Proof. unfold take_over. destruct (takes acc d); cbn; naive_solver. Qed.
Lemma takes_unbound acc d : takes acc d = true -> binder d = None.
Proof. unfold takes. by destruct (binder d). Qed.
Lemma let_go_binder w d v : binder (let_go w d) = Some v <-> v <> w /\ binder d = Some v.
Proof. unfold let_go. case_bool_decide; cbn; naive_solver. Qed.

Lemma watch_spec w pr pv acc s : binders_ok s -> (w ∉ pci_watchers s) -> answers pr pv acc ->
  exists s', pci_watch w pr pv s = Done (w, s') /\ pci_devices s' = take_over w acc <$> pci_devices s /\ pci_watchers s' = w :: pci_watchers s /\ binders_ok s'.
Proof.
  intros [Hnd Hbd Hbi] Hw Hans. unfold pci_watch. rewrite !bind_modify, bind_get. unfold for_range. set (s1 := set_watchers _ _).
  destruct (offers_spec w pr pv acc Hans (pci_devices s) [] [] s1 eq_refl) as (wd & E); [cbn; by rewrite lookup_insert_eq|].
  cbn [length app] in E. rewrite (bind_done _ _ _ _ _ E). eexists. split; [reflexivity|]. split; [done|]. split; [done|]. split; cbn [pci_watchers pci_devices objects s1 set_watchers set_objects].
  - by constructor.
  - intros v [->|Hv]%elem_of_cons.
    + rewrite insert_insert_eq, lookup_insert_eq. do 2 eexists. split; [reflexivity|]. split; [reflexivity|]. split; [apply newly_NoDup|]. intros i. rewrite newly_elem. split.
      * intros (j & d & -> & Hj & Ht). cbn [Nat.add]. exists (take_over w acc d). rewrite list_lookup_fmap, Hj. split; [done|]. apply take_over_binder. by left.
      * intros (d' & Hd' & Hb). rewrite list_lookup_fmap in Hd'. destruct (pci_devices s !! i) as [d|] eqn:Hd; [|done]. injection Hd' as <-.
        apply take_over_binder in Hb as [[Ht _]|[_ Hb]]; [by exists i, d|]. exfalso. by apply Hw, (Hbi i d).
    + assert (v <> w) as Hne by (intros ->; done). destruct (Hbd v Hv) as (x & l & Hx & Hl & Hndl & Hi). exists x, l.
      rewrite insert_insert_eq, lookup_insert_ne by done. split_and!; [done..|]. intros i. rewrite Hi, list_lookup_fmap. split.
      * intros (d & Hd & Hb). exists (take_over w acc d). rewrite Hd. split; [done|]. apply take_over_binder. right. split; [|done]. unfold takes. by rewrite Hb.
      * intros (d' & Hd' & Hb). destruct (pci_devices s !! i) as [d|]; [|done]. injection Hd' as <-. apply take_over_binder in Hb as [[_ ?]|[_ Hb]]; [done|by exists d].
  - intros i d' v Hd' Hb. rewrite list_lookup_fmap in Hd'. destruct (pci_devices s !! i) as [d|] eqn:Hd; [|done]. injection Hd' as <-.
    apply take_over_binder in Hb as [[_ ->]|[_ Hb]]; [by left|right; by eapply Hbi].
Qed.

(** Setting the binder of each device of a list. *)
Lemma unbind_loop l : forall s, (forall i, i ∈ l -> is_Some (pci_devices s !! i)) ->
  exists ds', for_each l (fun i => do! get_device i; modify (set_devices (alter (set_binder None) i))) s = Done (tt, Pci ds' (pci_watchers s) (objects s) (world s)) /\
    forall i, ds' !! i = (fun d => if bool_decide (i ∈ l) then set_binder None d else d) <$> pci_devices s !! i.
Proof.
  induction l as [|i l IH]; intros s Hl; cbn [for_each].
  - exists (pci_devices s). split; [by destruct s|]. intros j. rewrite bool_decide_false by apply not_elem_of_nil. by destruct (pci_devices s !! j).
  - destruct (Hl i ltac:(by left)) as [d Hd]. assert (get_device i s = Done (d, s)) as Eg by (unfold get_device; by rewrite Hd).
    unfold bind at 1. rewrite (bind_done _ _ _ _ _ Eg). unfold modify. set (s1 := set_devices _ s).
    destruct (IH s1) as (ds' & E & H'). { intros j Hj. unfold s1, set_devices. cbn [pci_devices]. destruct (decide (i = j)) as [->|Hne]; [rewrite list_lookup_alter_eq, Hd; by eexists|rewrite list_lookup_alter_ne by done; apply Hl; by right]. }
    exists ds'. split; [exact E|]. intros j. rewrite H'. unfold s1, set_devices. cbn [pci_devices]. destruct (decide (i = j)) as [->|Hne].
    + rewrite list_lookup_alter_eq, Hd. cbn. rewrite (bool_decide_true (j ∈ j :: l)) by by left. by case_bool_decide.
    + rewrite list_lookup_alter_ne by done. destruct (pci_devices s !! j); [|done]. cbn. f_equal.
      by rewrite (bool_decide_ext (j ∈ i :: l) (j ∈ l)) by (rewrite elem_of_cons; naive_solver).
Qed.

Lemma unwatch_spec w s : binders_ok s -> w ∈ pci_watchers s ->
  exists s', pci_unwatch w s = Done (tt, s') /\ pci_devices s' = let_go w <$> pci_devices s /\ pci_watchers s' = remove_first (Z.eqb w) (pci_watchers s) /\ binders_ok s'.
Proof.
  intros [Hnd Hbd Hbi] Hw. destruct (Hbd w Hw) as (x & l & Hx & Hl & Hndl & Hi). unfold pci_unwatch.
  assert (get_watcher w s = Done (x, s)) as Eg by (unfold get_watcher; by rewrite Hx). rewrite (bind_done _ _ _ _ _ Eg).
  assert (bound x s = Done (l, s)) as Eb by (unfold bound; by rewrite Hl). rewrite (bind_done _ _ _ _ _ Eb).
  destruct (unbind_loop l s) as (ds' & E & Hds). { intros i (d & Hd & _)%Hi. by eexists. }
  rewrite (bind_done _ _ _ _ _ E), bind_modify. unfold modify. eexists. split; [reflexivity|]. cbn [set_watchers set_objects pci_devices pci_watchers objects].
  assert (ds' = let_go w <$> pci_devices s) as ->.
  { apply list_eq. intros i. rewrite Hds, list_lookup_fmap. destruct (pci_devices s !! i) as [d|] eqn:Hd; [|done]. cbn. f_equal. unfold let_go.
    rewrite (bool_decide_ext (i ∈ l) (binder d = Some w)); [done|]. rewrite Hi, Hd. naive_solver. }
  split; [done|]. split; [done|]. split; cbn [pci_watchers pci_devices objects set_watchers set_objects].
  - by apply NoDup_remove_first.
  - intros v Hv. assert (v ∈ pci_watchers s /\ v <> w) as [Hv' Hne].
    { split; [exact (elem_of_remove_first _ _ _ Hv)|]. intros ->. clear -Hnd Hv. induction (pci_watchers s) as [|u us IH]; cbn [remove_first] in Hv; [by apply elem_of_nil in Hv|].
      apply NoDup_cons in Hnd as [Hu Hnd]. revert Hv. destruct (Z.eqb_spec w u) as [->|Hwu]; intros Hv; [done|]. apply elem_of_cons in Hv as [?|Hv]; [congruence|by apply IH]. }
    destruct (Hbd v Hv') as (y & k & Hy & Hk & Hndk & Hik). exists y, k. rewrite lookup_insert_ne by done. split_and!; [done..|]. intros i. rewrite Hik, list_lookup_fmap. split.
    + intros (d & Hd & Hb). exists (let_go w d). rewrite Hd. split; [done|]. by apply let_go_binder.
    + intros (d' & Hd' & Hb). destruct (pci_devices s !! i) as [d|]; [|done]. injection Hd' as <-. apply let_go_binder in Hb as [_ Hb]. by exists d.
  - intros i d' v Hd' Hb. rewrite list_lookup_fmap in Hd'. destruct (pci_devices s !! i) as [d|] eqn:Hd; [|done]. injection Hd' as <-.
    apply let_go_binder in Hb as [Hne Hb]. pose proof (Hbi i d v Hd Hb) as Hv. clear -Hv Hne. induction (pci_watchers s) as [|u us IH]; [done|]. cbn [remove_first].
    apply elem_of_cons in Hv as [->|Hv]; destruct (Z.eqb_spec w u); [congruence|by left|done|right; by apply IH].
Qed.

(** Drivers come and go in any order.  A new driver gets exactly the
    devices it accepts among those without one; a driver that leaves frees
    exactly its own, which stay free until another comes; no device ever has
    two.  At every point the array of each driver lists just its devices. *)
Theorem pci_drivers_share os : forall s, binders_ok s -> valid_pci os (pci_watchers s) ->
  exists s', for_each os run_pci s = Done (tt, s') /\ binders_ok s' /\
    pci_devices s' = foldl (fun ds o => op_devices o ds) (pci_devices s) os /\
    pci_watchers s' = foldl (fun ws o => op_watchers o ws) (pci_watchers s) os.
Proof.
  induction os as [|o os IH]; intros s Hok; [by exists s|]. cbn [for_each foldl valid_pci]. intros [Ho Hv].
  assert (exists s1, run_pci o s = Done (tt, s1) /\ pci_devices s1 = op_devices o (pci_devices s) /\ pci_watchers s1 = op_watchers o (pci_watchers s) /\ binders_ok s1) as (s1 & E & Hd & Hw & Hok1).
  { destruct o as [w pr pv acc|w]; cbn [run_pci op_devices op_watchers].
    - destruct Ho as [Hw Hans]. destruct (watch_spec w pr pv acc s Hok Hw Hans) as (s1 & E & H1). exists s1. by rewrite (bind_done _ _ _ _ _ E).
    - by apply unwatch_spec. }
  rewrite (bind_done _ _ _ _ _ E). rewrite <- Hw in Hv. destruct (IH s1 Hok1 Hv) as (s' & E' & Hok' & Hd' & Hw'). exists s'. by rewrite <- Hd, <- Hw.
Qed.
End watching.

(** ** A machine with an IDE controller of two functions *)

Record machine := Machine { latched : Z; registers : gmap Z Z }.
#[export] Instance machine_ports : PortIO32 machine := {
  inl port m := Done (if port =? 0xCFC then u32 (default 0xFFFFFFFF (registers m !! latched m)) else 0xFFFFFFFF, m);
  outl port v m := Done (tt, if port =? 0xCF8 then Machine (u32 v) (registers m) else m)
}.
#[export] Instance machine_config : ConfigMechanism machine.
Proof.
  refine {| config m a := u32 (default 0xFFFFFFFF (registers m !! u32 a)) |}.
  - intros w a. apply Z.mod_pos_bound. lia.
  - intros w a Ha. do 2 eexists. split; [reflexivity|]. split; [reflexivity|]. done.
Defined.

Definition function_at (b s f : Z) (vendor classes header : Z) (m : gmap Z Z) : gmap Z Z :=
  let a := 2 ^ 31 + b * 2 ^ 16 + s * 2 ^ 11 + f * 2 ^ 8 in
  <[a := vendor]> (<[a + 8 := classes * 2 ^ 16]> (<[a + 0xC := header * 2 ^ 16]> m)).
Definition demo_machine : machine :=
  Machine 0 (function_at 0 1 0 0x8086 0x0601 0x80 (function_at 0 1 1 0x8086 0x0101 0 (function_at 3 0 4 0x1234 0x0300 0 ∅))).
Definition demo_pci : pci (W := machine) (V := unit) := Pci [] [] ∅ demo_machine.

(** The function 4 of a slot without function 0 is not found. *)
Lemma pci_init_enumerates_witness : exists w', pci_init demo_pci =
  Done (0, Pci [PciDevice None (PciAddress 0 1 0) 0 0 6 1 0 0 0 0 0 0; PciDevice None (PciAddress 0 1 1) 0 0 1 1 0 0 0 0 0 0] [] ∅ w').
Proof.
  destruct (pci_init_enumerates demo_pci) as (w' & E & _). exists w'.
  assert (all_devices (config (world demo_pci)) = [PciDevice None (PciAddress 0 1 0) 0 0 6 1 0 0 0 0 0 0; PciDevice None (PciAddress 0 1 1) 0 0 1 1 0 0 0 0 0 0]) as Ha by (vm_compute; reflexivity).
  rewrite Ha in E. exact E.
Defined.

Definition ide (d : pci_device_t) : bool := (class d =? 1) && (subclass d =? 1).
Definition probe_if (acc : pci_device_t -> bool) (d : pci_device_t) (_ : unit) : M machine pci_probe_result_t := ret (if acc d then PCI_BIND else PCI_IGNORE).
Definition demo_found : pci (W := machine) (V := unit) :=
  Pci [PciDevice None (PciAddress 0 1 0) 0 0 6 1 0 0 0 0 0 0; PciDevice None (PciAddress 0 1 1) 0 0 1 1 0 0 0 0 0 0] [] ∅ demo_machine.

Lemma pci_drivers_share_witness : exists s', for_each [Watch 1 (probe_if ide) tt ide; Watch 2 (probe_if (fun _ => true)) tt (fun _ => true); Unwatch 1] run_pci demo_found = Done (tt, s') /\
  (binder <$> pci_devices s') = [Some 2; None] /\ pci_watchers s' = [2].
Proof.
  assert (binders_ok demo_found) as Hok.
  { split; cbn; [constructor|by intros ? ?%elem_of_nil|]. intros [|[|i]] d v; cbn; [by intros [= <-]|by intros [= <-]|done]. }
  assert (forall acc, answers (W := machine) (probe_if acc) tt acc) as Hans by (intros acc d wd; by eexists).
  edestruct (pci_drivers_share [Watch 1 (probe_if ide) tt ide; Watch 2 (probe_if (fun _ => true)) tt (fun _ => true); Unwatch 1] _ Hok) as (s' & Es & _ & Hd & Hw).
  { cbn. split_and!; [by intros ?%elem_of_nil|done|set_solver|done|set_solver|done]. }
  exists s'. split; [exact Es|]. rewrite Hd, Hw. split; vm_compute; reflexivity.
Defined.
