(* ===== verification/ExecArgs.v ===== *)
(** * ExecArgs: the arguments of a program

    [process_push_args] and [push_main_args] (src/process/process.c,
    system/x86_64/include/sys/function/push_args.h) and what [exec]
    (src/syscall/handlers/exec.c) does with them: the strings are copied to
    pages the process shares with the kernel, and their number and addresses
    are pushed on the stack that main starts on.  The array [process->argv] is
    the list of its elements; [process->argc] is its length; the heap block of the
    array is not modelled.  [load] stands for the program loader.  The kernel writes
    to its pages whatever their protection is: nothing sets the write-protect bit
    of the processor. *)
From S2P Require Import Prelude Bitmap Valloc PageTables PageTree PageMap PmanIface Pman PmanInv PmanOps PmanWrite PmanInst PmanProps ProcMem.

Section args.
Context {V F T : Type} `{HV : VirtualRanges V} `{HF : FrameAllocator F} `{HT : PageMapper T}.
Abbreviation pman_state := (@pman V F T).

(** ** The kernel's own memory accesses *)

Definition load_byte (a : Z) : M pman_state Z := fun s => of_option Halted (load s pman_kernel_context a) s.
Definition store_byte (a v : Z) : M pman_state unit := fun s =>
  match pm_contexts s !! pman_kernel_context with
  | Some x =>
      match pm_walk (pm_tables s) (ta_vaddr (c_top x)) a with
      | Some e => Done (tt, Pman (pm_maps s) (pm_contexts s) (pm_tables s) (pm_frames s) (<[phys_of e a := v]> (pm_memory s)) (pm_next s))
      | None => Stop Halted
      end
  | None => Stop Undefined
  end.
(** The bytes of an object, from its address on. *)
Fixpoint store_bytes (a : Z) (bs : list Z) : M pman_state unit :=
  match bs with [] => ret tt | b :: bs' => do! store_byte (u64 a) b; store_bytes (a + 1) bs' end.
Definition store64 (a v : Z) : M pman_state unit := store_bytes a (le_bytes 8 v).
Definition load64 (a : Z) : M pman_state Z :=
  let! b0 := load_byte (u64 a) in let! b1 := load_byte (u64 (a + 1)) in let! b2 := load_byte (u64 (a + 2)) in let! b3 := load_byte (u64 (a + 3)) in
  let! b4 := load_byte (u64 (a + 4)) in let! b5 := load_byte (u64 (a + 5)) in let! b6 := load_byte (u64 (a + 6)) in let! b7 := load_byte (u64 (a + 7)) in
  ret (le_value [b0; b1; b2; b3; b4; b5; b6; b7]).

Fixpoint strlen_from (fuel : nat) (a n : Z) : M pman_state Z :=
  match fuel with
  | O => stop_with NoFuel
  | S fuel' => let! b := load_byte (u64 (a + n)) in if b =? 0 then ret n else strlen_from fuel' a (n + 1)
  end.
Definition strlen (fuel : nat) (a : Z) : M pman_state Z := strlen_from fuel a 0.

(** ** push_args.h *)

(** [kern_rsp[i] = argv[i]] from [a] on. *)
Fixpoint store_words (a : Z) (ws : list Z) : M pman_state unit :=
  match ws with [] => ret tt | w :: ws' => do! store64 a w; store_words (a + 8) ws' end.
(** The new stack pointer; subtracting from NULL and writing there has no
    meaning. *)
Definition push_main_args (c : nat) (rsp : Z) (argv : list Z) : M pman_state Z :=
  let argc := Z.of_nat (length argv) in
  let! r := process_user_to_kernel c rsp in
  let! kern_rsp := of_option Undefined r in
  let kern_rsp := u64 (kern_rsp - 8 * argc) in
  do! store_words kern_rsp argv;
  let kern_rsp := u64 (kern_rsp - 8) in
  do! store64 kern_rsp argc;
  ret (u64 (rsp - 8 * (1 + argc))).

(** ** process.c *)

(** [required_size]. *)
Fixpoint args_size (fuel : nat) (argv : list Z) : M pman_state Z :=
  match argv with
  | [] => ret 0
  | a :: argv' => let! len := strlen fuel a in let! n := args_size fuel argv' in ret (u64 (len + 1 + n))
  end.
(** Pages for the strings, shared with the process; the kernel's and the
    user's mapping. *)
Definition args_pages (c : nat) (required_size : Z) : M pman_state (nat * nat) :=
  let! kern_mapping := pman_context_add_alloc pman_kernel_context 0 0 required_size in
  let! user_mapping := pman_context_add_shared c 0 kern_mapping 0 in
  ret (kern_mapping, user_mapping).
(** Copy the strings one behind the other; their addresses for the user. *)
Fixpoint copy_args (fuel : nat) (kern_buf user_buf pos : Z) (argv : list Z) : M pman_state (list Z) :=
  match argv with
  | [] => ret []
  | a :: argv' =>
      let! len := strlen fuel a in
      do! memcpy (u64 (kern_buf + pos)) a (len + 1);
      let! l := copy_args fuel kern_buf user_buf (pos + len + 1) argv' in
      ret (u64 (user_buf + pos) :: l)
  end.
Definition make_args (fuel : nat) (c : nat) (argv : list Z) : M pman_state (list Z) :=
  match argv with
  | [] => ret []
  | _ =>
      let! required_size := args_size fuel argv in
      let! (kern_mapping, user_mapping) := args_pages c required_size in
      let! k := get_mapping kern_mapping in
      let! u := get_mapping user_mapping in
      let! l := copy_args fuel (m_vaddr k) (m_vaddr u) 0 argv in
      do! pman_context_unmap kern_mapping;
      ret l
  end.
(** [process->argv] and the stack pointer of the first thread. *)
Definition process_push_args (fuel : nat) (c : nat) (rsp : Z) (argv : list Z) : M pman_state (list Z * Z) :=
  let! l := make_args fuel c argv in
  let! rsp' := push_main_args c rsp l in
  ret (l, rsp').

(** ** exec.c *)

(** [kern_argv]: a pointer the process does not map becomes NULL, which
    [process_push_args] reads. *)
Fixpoint user_argv (c : nat) (a : Z) (n : nat) : M pman_state (list Z) :=
  match n with
  | O => ret []
  | S n' =>
      let! p := load64 a in
      let! r := process_user_to_kernel c p in
      let! l := user_argv c (a + 8) n' in
      ret (default 0 r :: l)
  end.
(** [tsr_set_stack]. *)
Definition top_of_stack (y : pman_mapping_t) : Z := u64 (m_vaddr y + m_size_pages y * PAGE_SIZE - 8).
(** From the arguments on; [inl] is an error of the loader.  The stack pointer
    of the caller has been moved by then. *)
Definition exec_args (fuel : nat) (c stack : nat) (rsp _argv argc : Z) (load : M pman_state Z) : M pman_state (Z * Z + list Z * Z) :=
  let! kern_argv := (if negb (argc =? 0) then
      let! r := process_user_to_kernel c _argv in
      let! argv := of_option Undefined r in user_argv c argv (Z.to_nat argc)
    else ret []) in
  let! (argv, rsp') := process_push_args fuel c rsp kern_argv in
  let! load_result := load in
  if negb (load_result =? 0) then ret (inl (load_result, rsp'))
  else
    let! y := get_mapping stack in
    let! rsp'' := push_main_args c (top_of_stack y) argv in
    ret (inr (argv, rsp'')).
End args.

Section proofs.
Context {V F T : Type} `{HV : VirtualRanges V} `{HF : FrameAllocator F} `{HT : PageMapper T}.
Implicit Types (s : @pman V F T).

(** ** Bytes of mappings *)

(** The bytes [bs] are at [a] in the address space [c]. *)
Definition reads s (c : nat) (a : Z) (bs : list Z) : Prop := forall j b, bs !! j = Some b -> load s c (a + Z.of_nat j) = Some b.
(** The places of [bs] in the frames of a mapping, from byte [i] on. *)
Definition written (fr : frames_t) (i : Z) (bs : list Z) (mem : gmap Z Z) : Prop :=
  forall j b q, bs !! j = Some b -> frame_byte fr (i + Z.of_nat j) = Some q -> mem !! q = Some b.
Definition elsewhere (fr : frames_t) (i n : Z) (mem mem' : gmap Z Z) : Prop :=
  forall q, (forall j, i <= j < i + n -> frame_byte fr j <> Some q) -> mem' !! q = mem !! q.
(** Frames of their own, no two bytes of which are the same. *)
Definition own_frames (fr : frames_t) : Prop := fr_type fr = PALLOC_ALLOC /\ NoDup (fr_paddrs fr) /\ forall p, p ∈ fr_owned fr -> frame_ok p.

Lemma own_frames_inj fr i j q : own_frames fr -> 0 <= i -> 0 <= j -> frame_byte fr i = Some q -> frame_byte fr j = Some q -> i = j.
Proof. intros (Hty & Hnd & Hok). by apply frame_byte_inj. Qed.

Lemma elsewhere_refl fr i n mem : elsewhere fr i n mem mem.
Proof. done. Qed.
Lemma elsewhere_trans fr i n m mem mem1 mem2 : 0 <= n -> 0 <= m -> elsewhere fr i n mem mem1 -> elsewhere fr (i + n) m mem1 mem2 -> elsewhere fr i (n + m) mem mem2.
Proof. intros Hn Hm H1 H2 q Hq. rewrite H2, H1; [done|..]; intros j Hj; apply Hq; lia. Qed.
Lemma written_keep fr i bs k n mem mem' : own_frames fr -> 0 <= i -> 0 <= k -> (i + Z.of_nat (length bs) <= k \/ k + n <= i) ->
  written fr i bs mem -> elsewhere fr k n mem mem' -> written fr i bs mem'.
Proof.
  intros Hfr Hi Hk Hap Hw He j b q Hb Hq. rewrite He; [by eapply Hw|]. intros j' Hj' Hq'. apply lookup_lt_Some in Hb.
  pose proof (own_frames_inj fr (i + Z.of_nat j) j' q Hfr ltac:(lia) ltac:(lia) Hq Hq'). lia.
Qed.
Lemma written_app fr i bs1 bs2 mem : written fr i bs1 mem -> written fr (i + Z.of_nat (length bs1)) bs2 mem -> written fr i (bs1 ++ bs2) mem.
Proof.
  intros H1 H2 j b q Hb Hq. apply lookup_app_Some in Hb as [Hb|[Hj Hb]]; [by eapply H1|]. apply (H2 _ _ _ Hb). by replace (i + Z.of_nat (length bs1) + Z.of_nat (j - length bs1)) with (i + Z.of_nat j) by lia.
Qed.

Lemma view_memory mem s d a : view (with_memory mem s) d a = view s d a.
Proof. done. Qed.
Lemma with_memory_id s : with_memory (pm_memory s) s = s.
Proof. by destruct s. Qed.

(** A byte of a mapping is a byte of its root's frames. *)
Lemma mapping_byte s own m y z fr i : pman_inv s own ∅ -> pm_maps s !! m = Some y -> pm_maps s !! root_of m y = Some z -> frames_of z = Some fr ->
  fr_type fr = PALLOC_ALLOC -> 0 <= i < m_size_pages y * PAGE_SIZE ->
  exists e q, view s (m_context y) (m_vaddr y + i) = Some e /\ phys_of e (m_vaddr y + i) = q /\ frame_byte fr i = Some q.
Proof.
  intros Hinv Hm Hz Hf Hty Hi. pose proof (placed_range s own ∅ m y Hinv Hm) as Hro. destruct (range_index_byte _ _ i Hro Hi) as (Hidx & Hmod & Hin).
  destruct (lent_view s own m y _ z fr (m_vaddr y + i) Hinv Hm eq_refl Hz Hf Hin) as (p & Hp & Hv). rewrite Hidx in Hp.
  destruct (pi_frames _ _ _ Hinv _ z fr Hz Hf) as [_ Hok]. do 2 eexists. split; [exact Hv|]. split; [reflexivity|]. unfold shown_entry.
  rewrite phys_of_entry by (apply Hok; by eapply alloc_frame_owned). rewrite Hmod. unfold frame_byte. by rewrite Hp.
Qed.
(** Different roots share no byte. *)
Lemma bytes_apart s own r r' z z' fr fr' i j q : pman_inv s own ∅ -> pm_maps s !! r = Some z -> pm_maps s !! r' = Some z' -> r <> r' ->
  frames_of z = Some fr -> frames_of z' = Some fr' -> fr_type fr = PALLOC_ALLOC -> fr_type fr' = PALLOC_ALLOC ->
  frame_byte fr i = Some q -> frame_byte fr' j = Some q -> False.
Proof.
  intros Hinv Hz Hz' Hne Hf Hf' Ht Ht' Hi Hj. destruct (frame_byte_owned _ _ _ Ht Hi) as (p & Hp & ->). destruct (frame_byte_owned _ _ _ Ht' Hj) as (p' & Hp' & He).
  destruct (pi_frames _ _ _ Hinv r z fr Hz Hf) as [_ Hok]. destruct (pi_frames _ _ _ Hinv r' z' fr' Hz' Hf') as [_ Hok'].
  apply frames_apart in He as <-; [|by apply Hok|by apply Hok']. by apply (pi_disjoint _ _ _ Hinv r r' z z' fr fr' Hz Hz' Hne Hf Hf' p).
Qed.

(** What is written in the frames can be read through the mapping. *)
Lemma written_reads s own m y z fr i bs : pman_inv s own ∅ -> pm_maps s !! m = Some y -> pm_maps s !! root_of m y = Some z -> frames_of z = Some fr ->
  fr_type fr = PALLOC_ALLOC -> 0 <= i -> i + Z.of_nat (length bs) <= m_size_pages y * PAGE_SIZE -> written fr i bs (pm_memory s) -> reads s (m_context y) (m_vaddr y + i) bs.
Proof.
  intros Hinv Hm Hz Hf Hty Hi Hn Hw j b Hb. pose proof (lookup_lt_Some _ _ _ Hb) as Hj.
  destruct (mapping_byte s own m y z fr (i + Z.of_nat j) Hinv Hm Hz Hf Hty ltac:(lia)) as (e & q & Hv & Hq & Hfb).
  replace (m_vaddr y + i + Z.of_nat j) with (m_vaddr y + (i + Z.of_nat j)) by lia. rewrite (load_done _ _ _ _ Hv), Hq. by rewrite (Hw j b q Hb Hfb).
Qed.

(** ** Stores through a mapping of the kernel *)

(** [m] is a mapping of the kernel with frames of its own. *)
Definition kernel_root s (m : nat) (y : pman_mapping_t) (fr : frames_t) : Prop :=
  pm_maps s !! m = Some y /\ m_context y = 0%nat /\ frames_of y = Some fr /\ own_frames fr.
Lemma kernel_root_of s m y fr : kernel_root s m y fr -> root_of m y = m.
Proof. intros (_ & _ & Hf & _). unfold root_of. by rewrite (root_no_lender y) by (by eexists). Qed.

Lemma store_byte_done s own m y fr i v mem : pman_inv s own ∅ -> kernel_root s m y fr -> 0 <= i < m_size_pages y * PAGE_SIZE ->
  exists q, frame_byte fr i = Some q /\ store_byte (u64 (m_vaddr y + i)) v (with_memory mem s) = Done (tt, with_memory (<[q := v]> mem) s).
Proof.
  intros Hinv Hk Hi. pose proof (kernel_root_of _ _ _ _ Hk) as Hroot. destruct Hk as (Hm & Hc & Hf & Hty & _).
  pose proof (placed_range s own ∅ m y Hinv Hm) as (H0 & _ & _ & Hend).
  destruct (mapping_byte s own m y y fr i Hinv Hm) as (e & q & Hv & Hq & Hfb); [by rewrite Hroot|done..|]. exists q. split; [done|].
  rewrite u64_small by lia. rewrite Hc in Hv. unfold store_byte, pman_kernel_context. cbn [with_memory pm_contexts pm_tables]. unfold view, walk in Hv.
  destruct (pm_contexts s !! 0%nat) as [x|]; [|done]. cbn in Hv. rewrite Hv, Hq. done.
Qed.

Lemma store_bytes_spec s own m y fr bs : pman_inv s own ∅ -> kernel_root s m y fr -> forall i mem, 0 <= i -> i + Z.of_nat (length bs) <= m_size_pages y * PAGE_SIZE ->
  exists mem', store_bytes (m_vaddr y + i) bs (with_memory mem s) = Done (tt, with_memory mem' s) /\ written fr i bs mem' /\ elsewhere fr i (Z.of_nat (length bs)) mem mem'.
Proof.
  intros Hinv Hk. induction bs as [|b bs IH]; intros i mem Hi Hn; cbn [store_bytes].
  - exists mem. split; [done|]. split; [intros j b q; by rewrite lookup_nil|apply elsewhere_refl].
  - cbn [length] in Hn. destruct (store_byte_done s own m y fr i b mem Hinv Hk ltac:(lia)) as (q & Hq & E). rewrite (bind_done _ _ _ _ _ E).
    replace (m_vaddr y + i + 1) with (m_vaddr y + (i + 1)) by lia. destruct (IH (i + 1) (<[q := b]> mem) ltac:(lia) ltac:(lia)) as (mem' & E' & Hw & He).
    pose proof Hk as (_ & _ & _ & Hfr). assert (elsewhere fr i 1 mem (<[q := b]> mem)) as H1.
    { intros q' Hq'. rewrite lookup_insert_ne; [done|]. intros ->. by apply (Hq' i ltac:(lia)). }
    assert (written fr i [b] (<[q := b]> mem)) as Hw1.
    { intros [|j] b' q' Hb' Hq'; [|done]. injection Hb' as <-. rewrite Z.add_0_r in Hq'. assert (q' = q) as -> by congruence. apply lookup_insert_eq. }
    exists mem'. split; [done|]. split.
    + change (b :: bs) with ([b] ++ bs). apply written_app; [|exact Hw]. eapply (written_keep fr i [b] (i + 1)); try done; [lia|cbn; lia].
    + cbn [length]. rewrite Nat2Z.inj_succ, <- Z.add_1_l. apply (elsewhere_trans fr i 1 _ mem (<[q := b]> mem)); [lia|lia|done|done].
Qed.

Lemma store_bytes_app a bs1 bs2 s : store_bytes a (bs1 ++ bs2) s = (do! store_bytes a bs1; store_bytes (a + Z.of_nat (length bs1)) bs2) s.
Proof.
  revert a s. induction bs1 as [|b bs1 IH]; intros a s; cbn [app store_bytes length]; [by rewrite Z.add_0_r|].
  unfold bind at 1. unfold bind at 1. unfold bind at 1. destruct (store_byte (u64 a) b s) as [[[] s1]|]; [|done]. rewrite IH. by replace (a + 1 + Z.of_nat (length bs1)) with (a + Z.of_nat (S (length bs1))) by lia.
Qed.
Lemma store_words_bytes ws : forall a s, store_words a ws s = store_bytes a (ws ≫= le_bytes 8) s.
Proof.
  induction ws as [|w ws IH]; intros a s; [done|]. change ((w :: ws) ≫= le_bytes 8) with (le_bytes 8 w ++ (ws ≫= le_bytes 8)).
  rewrite store_bytes_app, length_le_bytes. cbn [store_words]. unfold bind, store64. destruct (store_bytes a (le_bytes 8 w) s) as [[[] s1]|]; [|done]. apply IH.
Qed.
Lemma length_words ws : length (ws ≫= le_bytes 8) = (8 * length ws)%nat.
Proof. induction ws as [|w ws IH]; [done|]. change ((w :: ws) ≫= le_bytes 8) with (le_bytes 8 w ++ (ws ≫= le_bytes 8)). rewrite length_app, length_le_bytes, IH. cbn [length]. lia. Qed.

(** ** Strings of the kernel *)

(** The string [str] at [a], in a mapping of the kernel other than [k]. *)
Definition string_in s (k : nat) (a : Z) (str : list Z) : Prop :=
  (0 ∉ str) /\ reads s 0 a (str ++ [0]) /\
  exists m y fr, m <> k /\ pm_maps s !! m = Some y /\ m_context y = 0%nat /\ frames_of y = Some fr /\ fr_type fr = PALLOC_ALLOC /\
    m_vaddr y <= a /\ a + Z.of_nat (length str) + 1 <= m_vaddr y + m_size_pages y * PAGE_SIZE.

Lemma load_byte_done s a b : load s 0 a = Some b -> load_byte a s = Done (b, s).
Proof. intros H. unfold load_byte, pman_kernel_context. by rewrite H. Qed.

Lemma strlen_from_spec fuel s a str : forall n, (0 ∉ drop n str) -> reads s 0 a (str ++ [0]) -> 0 <= a -> a + Z.of_nat (length str) + 1 <= 2 ^ 64 ->
  (n <= length str)%nat -> (length str < fuel + n)%nat -> strlen_from fuel a (Z.of_nat n) s = Done (Z.of_nat (length str), s).
Proof.
  induction fuel as [|fuel IH]; intros n H0 Hr Ha Hend Hn Hf; [lia|]. cbn [strlen_from]. rewrite u64_small by lia.
  destruct (decide (n = length str)) as [->|Hne].
  - assert (load s 0 (a + Z.of_nat (length str)) = Some 0) as Hl by (apply Hr; by rewrite lookup_app_r, Nat.sub_diag by lia).
    by rewrite (bind_done _ _ _ _ _ (load_byte_done _ _ _ Hl)).
  - destruct (lookup_lt_is_Some_2 str n ltac:(lia)) as [b Hb]. assert (load s 0 (a + Z.of_nat n) = Some b) as Hl by (apply Hr; by apply lookup_app_l_Some).
    rewrite (bind_done _ _ _ _ _ (load_byte_done _ _ _ Hl)). rewrite (drop_S str b n Hb) in H0. apply not_elem_of_cons in H0 as [Hb0 H0].
    rewrite (proj2 (Z.eqb_neq b 0)) by congruence. replace (Z.of_nat n + 1) with (Z.of_nat (S n)) by lia. apply IH; [done..|lia|lia].
Qed.
Lemma strlen_done fuel s own k a str : pman_inv s own ∅ -> string_in s k a str -> (length str < fuel)%nat -> strlen fuel a s = Done (Z.of_nat (length str), s).
Proof.
  intros Hinv (H0 & Hr & m & y & fr & _ & Hm & _ & _ & _ & Ha & Hend) Hf. pose proof (placed_range s own ∅ m y Hinv Hm) as (P0 & _ & _ & P1).
  apply (strlen_from_spec fuel s a str 0); [done|done|lia|lia|lia|lia].
Qed.

(** Writing to the frames of [k] leaves the strings of other mappings alone. *)
Lemma string_kept s own k zk fr a str mem mem' i n : pman_inv s own ∅ -> kernel_root s k zk fr -> elsewhere fr i n mem mem' ->
  string_in (with_memory mem s) k a str -> string_in (with_memory mem' s) k a str.
Proof.
  intros Hinv (Hk & _ & Hfk & Hty & _) He (H0 & Hr & m & y & frs & Hne & Hm & Hc & Hf & Htys & Ha & Hend). split; [done|]. split; [|by exists m, y, frs].
  intros j b Hb. specialize (Hr j b Hb). pose proof (lookup_lt_Some _ _ _ Hb) as Hj. rewrite length_app in Hj. cbn [length] in Hj.
  assert (root_of m y = m) as Hroot by (unfold root_of; by rewrite (root_no_lender y) by (by eexists)).
  destruct (mapping_byte s own m y y frs (a - m_vaddr y + Z.of_nat j) Hinv Hm ltac:(by rewrite Hroot) Hf Htys ltac:(lia)) as (e & q & Hv & Hq & Hfb).
  replace (m_vaddr y + (a - m_vaddr y + Z.of_nat j)) with (a + Z.of_nat j) in * by lia. rewrite Hc in Hv.
  rewrite (load_done (with_memory mem s) _ _ e Hv) in Hr. rewrite (load_done (with_memory mem' s) _ _ e Hv). rewrite Hq in *. cbn [with_memory pm_memory] in *.
  rewrite He; [done|]. intros j' _ Hj'. by eapply (bytes_apart s own k m zk y fr frs).
Qed.

(** Copying one string, with its end. *)
Lemma copy_string s own k zk fr a str pos mem : pman_inv s own ∅ -> kernel_root s k zk fr -> string_in (with_memory mem s) k a str ->
  0 <= pos -> pos + Z.of_nat (length str) + 1 <= m_size_pages zk * PAGE_SIZE ->
  exists mem', memcpy (u64 (m_vaddr zk + pos)) a (Z.of_nat (length str) + 1) (with_memory mem s) = Done (tt, with_memory mem' s) /\
    written fr pos (str ++ [0]) mem' /\ elsewhere fr pos (Z.of_nat (length str) + 1) mem mem'.
Proof.
  intros Hinv Hk (H0 & Hr & m & y & frs & Hne & Hm & Hc & Hf & Htys & Ha & Hend) Hpos Hn. set (len := Z.of_nat (length str) + 1) in *.
  pose proof (kernel_root_of _ _ _ _ Hk) as Hrk. pose proof Hk as (Hkm & Hkc & Hkf & Hown). pose proof Hown as (Hty & _).
  assert (root_of m y = m) as Hroot by (unfold root_of; by rewrite (root_no_lender y) by (by eexists)).
  pose proof (placed_range s own ∅ m y Hinv Hm) as (S0 & _ & _ & S1). pose proof (placed_range s own ∅ k zk Hinv Hkm) as (K0 & _ & _ & K1).
  set (Pd i := default 0 (frame_byte fr (pos + i))). set (Ps i := default 0 (frame_byte frs (a - m_vaddr y + i))).
  assert (forall i, 0 <= i < len -> exists e, view s 0 (m_vaddr zk + pos + i) = Some e /\ phys_of e (m_vaddr zk + pos + i) = Pd i /\ frame_byte fr (pos + i) = Some (Pd i)) as Hd.
  { intros i Hi. destruct (mapping_byte s own k zk zk fr (pos + i) Hinv Hkm ltac:(by rewrite Hrk) Hkf Hty ltac:(lia)) as (e & q & Hv & Hq & Hfb).
    rewrite Hkc in Hv. exists e. unfold Pd. rewrite Hfb. cbn. by replace (m_vaddr zk + pos + i) with (m_vaddr zk + (pos + i)) by lia. }
  assert (forall i, 0 <= i < len -> exists e, view s 0 (a + i) = Some e /\ phys_of e (a + i) = Ps i /\ frame_byte frs (a - m_vaddr y + i) = Some (Ps i)) as Hs.
  { intros i Hi. destruct (mapping_byte s own m y y frs (a - m_vaddr y + i) Hinv Hm ltac:(by rewrite Hroot) Hf Htys ltac:(lia)) as (e & q & Hv & Hq & Hfb).
    rewrite Hc in Hv. exists e. unfold Ps. rewrite Hfb. cbn. by replace (a + i) with (m_vaddr y + (a - m_vaddr y + i)) by lia. }
  destruct (pm_contexts s !! 0%nat) as [x|] eqn:Hx; [|destruct (Hs 0 ltac:(lia)) as (e & Hv & _); unfold view in Hv; by rewrite Hx in Hv].
  destruct (memcpy_spec (with_memory mem s) (m_vaddr zk + pos) a len Pd Ps x Hx) as (mem' & E & Hcopy & Hrest); [lia|lia|lia|lia| | | | |].
  - intros i Hi. destruct (Hd i Hi) as (e & ? & ? & _). by exists e.
  - intros i Hi. destruct (Hs i Hi) as (e & ? & ? & _). by exists e.
  - intros i j Hi Hj Heq. destruct (Hd i Hi) as (_ & _ & _ & H1), (Hd j Hj) as (_ & _ & _ & H2). rewrite <- Heq in H2.
    pose proof (own_frames_inj fr (pos + i) (pos + j) _ Hown ltac:(lia) ltac:(lia) H1 H2). lia.
  - intros i j Hi Hj Heq. destruct (Hd i Hi) as (_ & _ & _ & H1), (Hs j Hj) as (_ & _ & _ & H2). rewrite <- Heq in H2.
    by eapply (bytes_apart s own k m zk y fr frs).
  - exists mem'. rewrite u64_small by lia. split; [exact E|]. split.
    + intros j b q Hb Hq. pose proof (lookup_lt_Some _ _ _ Hb) as Hj. rewrite length_app in Hj. cbn [length] in Hj.
      assert (0 <= Z.of_nat j < len) as Hjl by (unfold len; lia). specialize (Hcopy _ Hjl). unfold Pd in Hcopy at 1. rewrite Hq in Hcopy. cbn in Hcopy. rewrite Hcopy.
      destruct (Hs _ Hjl) as (e & Hv & Hpq & _). specialize (Hr j b Hb). rewrite (load_done (with_memory mem s) _ _ e Hv), Hpq in Hr. exact Hr.
    + intros q Hq. apply Hrest. intros i Hi ->. destruct (Hd i Hi) as (_ & _ & _ & H1). apply (Hq (pos + i) ltac:(lia) H1).
Qed.

(** The strings one behind the other, and the addresses of their beginnings. *)
Definition text (strs : list (list Z)) : list Z := strs ≫= (fun str => str ++ [0]).
Fixpoint beginnings (base : Z) (strs : list (list Z)) : list Z :=
  match strs with [] => [] | str :: strs' => base :: beginnings (base + Z.of_nat (length str) + 1) strs' end.
Lemma length_text str strs : length (text (str :: strs)) = (length str + 1 + length (text strs))%nat.
Proof. unfold text. cbn [mbind list_bind]. by rewrite !length_app. Qed.

Lemma copy_args_spec s own k zk fr ub fuel : pman_inv s own ∅ -> kernel_root s k zk fr -> 0 <= ub -> ub + m_size_pages zk * PAGE_SIZE <= 2 ^ 64 ->
  forall argv strs pos mem, Forall2 (string_in (with_memory mem s) k) argv strs -> Forall (fun str => (length str < fuel)%nat) strs ->
  0 <= pos -> pos + Z.of_nat (length (text strs)) <= m_size_pages zk * PAGE_SIZE ->
  exists mem', copy_args fuel (m_vaddr zk) ub pos argv (with_memory mem s) = Done (beginnings (ub + pos) strs, with_memory mem' s) /\
    written fr pos (text strs) mem' /\ elsewhere fr pos (Z.of_nat (length (text strs))) mem mem'.
Proof.
  intros Hinv Hk Hub Hend. induction argv as [|a argv IH]; intros strs pos mem Hall Hfuel Hpos Hn; (destruct strs as [|str strs]; [try (by inversion Hall)|try (by inversion Hall)]).
  - exists mem. split; [done|]. split; [intros j b q; cbn; by rewrite lookup_nil|apply elsewhere_refl].
  - apply Forall2_cons in Hall as [Hstr Hall]. apply Forall_cons in Hfuel as [Hf Hfuel]. rewrite length_text in *. cbn [copy_args beginnings].
    rewrite (bind_done _ _ _ _ _ (strlen_done fuel (with_memory mem s) own k a str (inv_memory s own ∅ mem Hinv) Hstr Hf)).
    destruct (copy_string s own k zk fr a str pos mem Hinv Hk Hstr Hpos ltac:(lia)) as (mem1 & E1 & Hw1 & He1). rewrite (bind_done _ _ _ _ _ E1).
    destruct (IH strs (pos + Z.of_nat (length str) + 1) mem1) as (mem2 & E2 & Hw2 & He2); [|done|lia|lia|].
    { eapply Forall2_impl; [exact Hall|]. intros a' str' Hs. by eapply string_kept. }
    rewrite (bind_done _ _ _ _ _ E2). exists mem2. unfold ret. rewrite u64_small by lia. rewrite !Z.add_assoc. split; [done|].
    pose proof Hk as (_ & _ & _ & Hown). assert (length (str ++ [0]) = (length str + 1)%nat) as Hls by (by rewrite length_app). split.
    + unfold text. cbn [mbind list_bind]. apply written_app; [eapply (written_keep fr pos _ (pos + Z.of_nat (length str) + 1)); try done; [lia|left; lia]|].
      rewrite Hls. replace (pos + Z.of_nat (length str + 1)) with (pos + Z.of_nat (length str) + 1) by lia. exact Hw2.
    + replace (Z.of_nat (length str + 1 + length (text strs))) with (Z.of_nat (length str) + 1 + Z.of_nat (length (text strs))) by lia.
      apply (elsewhere_trans fr pos _ _ mem mem1); [lia|lia|done|]. by rewrite Z.add_assoc.
Qed.

(** ** The pages of the arguments *)

(** A string of the kernel, wherever it is. *)
Definition kernel_string s (a : Z) (str : list Z) : Prop := exists k, string_in s k a str.
Lemma kernel_string_other s k a str : pm_maps s !! k = None -> kernel_string s a str -> string_in s k a str.
Proof. intros Hk (k' & H0 & Hr & m & y & fr & _ & Hm & H). split; [done|]. split; [done|]. exists m, y, fr. split; [congruence|done]. Qed.

Lemma length_text_list s k argv strs : Forall2 (string_in s k) argv strs -> length argv = length strs.
Proof. apply Forall2_length. Qed.
Lemma length_beginnings base strs : length (beginnings base strs) = length strs.
Proof. revert base. induction strs as [|str strs IH]; intros base; [done|]. cbn. by rewrite IH. Qed.

Lemma args_size_spec fuel s own k argv strs : pman_inv s own ∅ -> Forall2 (string_in s k) argv strs -> Forall (fun str => (length str < fuel)%nat) strs ->
  Z.of_nat (length (text strs)) <= 2 ^ 48 -> args_size fuel argv s = Done (Z.of_nat (length (text strs)), s).
Proof.
  intros Hinv Hall. induction Hall as [|a str argv strs Ha Hall IH]; intros Hf Hn; [done|]. apply Forall_cons in Hf as [Hf1 Hf]. rewrite length_text in *. cbn [args_size].
  rewrite (bind_done _ _ _ _ _ (strlen_done fuel s own k a str Hinv Ha Hf1)). rewrite (bind_done _ _ _ _ _ (IH Hf ltac:(lia))). unfold ret.
  rewrite u64_small by lia. do 2 f_equal. lia.
Qed.

Lemma beginnings_shift b c l : beginnings (b + c) l = (fun o => b + o) <$> beginnings c l.
Proof. revert c. induction l as [|str l IH]; intros c; [done|]. cbn [beginnings fmap list_fmap]. f_equal. rewrite <- IH. f_equal. lia. Qed.
Lemma beginning_of base strs j o : beginnings 0 strs !! j = Some o -> beginnings base strs !! j = Some (base + o).
Proof. intros Ho. rewrite <- (Z.add_0_r base) at 1. by rewrite beginnings_shift, list_lookup_fmap, Ho. Qed.

(** Where the strings begin, their bytes are. *)
Lemma written_strings fr strs mem : forall i, written fr i (text strs) mem ->
  forall j str, strs !! j = Some str -> exists o, beginnings 0 strs !! j = Some o /\ 0 <= o /\ o + Z.of_nat (length str) + 1 <= Z.of_nat (length (text strs)) /\
    written fr (i + o) (str ++ [0]) mem.
Proof.
  induction strs as [|str0 strs IH]; intros i Hw j str Hj; [done|]. rewrite length_text. unfold text in Hw. cbn [mbind list_bind] in Hw. fold (text strs) in Hw.
  destruct j as [|j].
  - injection Hj as ->. exists 0. split; [done|]. split; [done|]. split; [lia|]. rewrite Z.add_0_r. intros j b q Hb Hq. apply (Hw j b q); [by apply lookup_app_l_Some|done].
  - assert (written fr (i + Z.of_nat (length str0) + 1) (text strs) mem) as Hw'.
    { intros j' b q Hb Hq. apply (Hw (length (str0 ++ [0%Z]) + j')%nat b q); [by rewrite lookup_app_r, Nat.add_sub' by lia|]. rewrite length_app. cbn [length].
      by replace (i + Z.of_nat (length str0 + 1 + j')) with (i + Z.of_nat (length str0) + 1 + Z.of_nat j') by lia. }
    destruct (IH _ Hw' j str Hj) as (o & Ho & H0 & Hle & Hwo). exists (Z.of_nat (length str0) + 1 + o). split.
    + cbn [beginnings]. cbn [lookup list_lookup]. rewrite Z.add_0_l, (beginning_of _ _ _ _ Ho). reflexivity.
    + split; [lia|]. split; [lia|]. by replace (i + (Z.of_nat (length str0) + 1 + o)) with (i + Z.of_nat (length str0) + 1 + o) by lia.
Qed.
(** The mapping [u] of [c] holds the strings; what was mapped before still is. *)
Record args_made s s' (c k u : nat) (zk yu : pman_mapping_t) (fr : frames_t) (strs : list (list Z)) : Prop := ArgsMade {
  am_new : pm_maps s !! k = None;
  am_kernel : kernel_root s' k zk fr;
  am_user : pm_maps s' !! u = Some yu /\ m_context yu = c /\ lender_of yu = Some k;
  am_room : Z.of_nat (length (text strs)) <= m_size_pages yu * PAGE_SIZE;
  am_written : written fr 0 (text strs) (pm_memory s');
  am_kept m y : pm_maps s !! m = Some y -> exists y', pm_maps s' !! m = Some y' /\ same_but_refs y y';
  am_contexts : same_contexts s s'
}.

Lemma kept_string s s' k a str : (forall m y, pm_maps s !! m = Some y -> m <> k -> exists y', pm_maps s' !! m = Some y' /\ same_but_refs y y') ->
  (forall d b, view s d b <> None -> view s' d b = view s d b) -> pm_memory s' = pm_memory s -> string_in s k a str -> string_in s' k a str.
Proof.
  intros Hmaps Hview Hmem (H0 & Hr & m & y & fr & Hne & Hm & Hc & Hf & Hrest). split; [done|]. split.
  - intros j b Hb. rewrite <- (Hr j b Hb). specialize (Hr j b Hb). assert (exists e, view s 0 (a + Z.of_nat j) = Some e) as [e He].
    { unfold load in Hr. unfold view, walk. destruct (pm_contexts s !! 0%nat); [|done]. cbn in *. destruct (pm_walk _ _ _); [by eexists|done]. }
    apply (load_stays s s' _ _ e He); [rewrite Hview; [done|by rewrite He]|by rewrite Hmem].
  - destruct (Hmaps m y Hm Hne) as (y' & Hy' & (Ec & _ & Ev & Es & Ef & _)). exists m, y', fr. rewrite Ec, Ev, Es, Ef. done.
Qed.

(** Pages of the kernel, lent to the process. *)
Lemma args_pages_spec s own c xk xc n : pman_inv s own ∅ -> pm_contexts s !! 0%nat = Some xk -> pm_contexts s !! c = Some xc -> 0 < n <= 2 ^ 48 ->
  (exists w, args_pages c n s = Stop w) \/
  exists k u s' zk yu fr, args_pages c n s = Done ((k, u), s') /\ pman_inv s' (own_set own k 1) ∅ /\ kernel_root s' k zk fr /\ refs_of zk = Some 2 /\
    pm_maps s' !! u = Some yu /\ m_context yu = c /\ lender_of yu = Some k /\ m_size_pages yu = m_size_pages zk /\ n <= m_size_pages yu * PAGE_SIZE /\
    refs_of yu = None /\ pm_maps s !! k = None /\ pm_memory s' = pm_memory s /\ same_contexts s s' /\
    (forall m y, pm_maps s !! m = Some y -> pm_maps s' !! m = Some y) /\ (forall d b, view s d b <> None -> view s' d b = view s d b).
Proof.
  intros Hinv Hk Hc Hn. unfold args_pages, pman_kernel_context.
  destruct (add_alloc_spec s own 0 xk 0 0 n Hinv Hk Hn) as [[w E]|(k & s1 & va & fr & ms & E & Hinv1 & Had & Hty & Hnd & _ & _ & Hok & Hlen)];
    [by left|left; exists w; by apply bind_stop|].
  rewrite (bind_done _ _ _ _ _ E). clear E. set (yk := PmanMapping 0 (PMAN_MAPPING_ALLOC 1 fr ms) 0 va (DIV_UP n PAGE_SIZE)) in *.
  pose proof (ad_mapping _ _ _ _ _ _ Had) as Hyk. assert (is_Some (pm_contexts s1 !! c)) as [x1 Hc1] by (apply (ad_contexts _ _ _ _ _ _ Had); by eexists).
  rewrite (bind_done (pman_context_add_shared c 0 k 0) _ s1) || idtac.
  destruct (add_lent_spec false s1 (own_set own k 1) c x1 0 k yk yk fr 0 Hinv1 Hc1 Hyk Hyk eq_refl) as [[w E]|(u & s2 & vu & mu & zk & E & Hinv2 & Had2 & _ & Hzk & Hsame & Href & _)];
    [by left|left; exists w; apply bind_stop; by rewrite add_shared_lent|].
  rewrite <- add_shared_lent in E. rewrite (bind_done _ _ _ _ _ E). clear E. right. change (root_of k yk) with k in *.
  set (yu := PmanMapping c (PMAN_MAPPING_SHARED k mu) 0 vu (m_size_pages yk)) in *. pose proof Hsame as (Ec & _ & Ev & Es & Ef & _).
  pose proof (ad_fresh _ _ _ _ _ _ Had) as Hkn. pose proof (ad_fresh _ _ _ _ _ _ Had2) as Hun.
  exists k, u, s2, zk, yu, fr. split; [done|]. split; [done|]. split.
  { split; [done|]. split; [by rewrite Ec|]. split; [by rewrite Ef|done]. }
  split; [by apply (Href 1)|]. split; [apply (ad_mapping _ _ _ _ _ _ Had2)|]. split; [done|]. split; [done|]. split; [by rewrite Es|]. split.
  { cbn [m_size_pages yu yk]. pose proof (DIV_UP_bounds n PAGE_SIZE eq_refl ltac:(lia) ltac:(unfold PAGE_SIZE; lia)). lia. }
  split; [done|]. split; [done|]. split; [by rewrite (ad_memory _ _ _ _ _ _ Had2), (ad_memory _ _ _ _ _ _ Had)|].
  split; [intros d; rewrite (ad_contexts _ _ _ _ _ _ Had2 d); apply (ad_contexts _ _ _ _ _ _ Had)|]. split.
  - intros m y Hm. assert (m <> k) by congruence. assert (pm_maps s1 !! m = Some y) as Hm1 by (by rewrite (ad_maps _ _ _ _ _ _ Had)).
    rewrite (ad_maps _ _ _ _ _ _ Had2); [done|congruence|cbn; congruence].
  - intros d b Hv. assert (view s1 d b = view s d b) as E1 by (by apply (added_view_old _ _ _ _ _ _ d b Had)).
    rewrite (added_view_old _ _ _ _ _ _ d b Had2); [done|by rewrite E1].
Qed.

Lemma make_args_spec fuel s own c xk xc argv strs : pman_inv s own ∅ -> pm_contexts s !! 0%nat = Some xk -> pm_contexts s !! c = Some xc ->
  argv <> [] -> Forall2 (kernel_string s) argv strs -> Forall (fun str => (length str < fuel)%nat) strs -> Z.of_nat (length (text strs)) <= 2 ^ 48 ->
  (exists w, args_pages c (Z.of_nat (length (text strs))) s = Stop w /\ make_args fuel c argv s = Stop w) \/
  exists k u s' zk yu fr, make_args fuel c argv s = Done (beginnings (m_vaddr yu) strs, s') /\ pman_inv s' own ∅ /\ args_made s s' c k u zk yu fr strs.
Proof.
  intros Hinv Hxk Hxc Hne Hstrs Hfuel Hlen. unfold make_args. destruct argv as [|a0 argv0] eqn:Eargv; [done|]. rewrite <- Eargv in *. clear Hne.
  assert (Forall2 (string_in s (pm_next s)) argv strs) as Hsn.
  { eapply Forall2_impl; [exact Hstrs|]. intros a str. apply kernel_string_other. by eapply fresh_id. }
  rewrite (bind_done _ _ _ _ _ (args_size_spec fuel s own _ argv strs Hinv Hsn Hfuel Hlen)).
  assert (0 < Z.of_nat (length (text strs)) <= 2 ^ 48) as Hpos.
  { split; [|done]. rewrite Eargv in Hstrs. inversion Hstrs; subst. rewrite length_text. lia. }
  destruct (args_pages_spec s own c xk xc _ Hinv Hxk Hxc Hpos) as [[w E]|(k & u & s2 & zk & yu & fr & E & Hinv2 & Hk & Href & Hu & Huc & Hul & Hsz & Hroom & Hur & Hkn & Hmem & Hctx & Hmaps & Hview)].
  { left. exists w. split; [done|]. by apply bind_stop. }
  right. rewrite (bind_done _ _ _ _ _ E). clear E. rewrite (bind_done _ _ _ _ _ (get_mapping_done s2 k zk (proj1 Hk))), (bind_done _ _ _ _ _ (get_mapping_done s2 u yu Hu)).
  assert (Forall2 (string_in (with_memory (pm_memory s2) s2) k) argv strs) as Hs2.
  { rewrite with_memory_id. eapply Forall2_impl; [exact Hstrs|]. intros a str Hs. apply (kept_string s s2); [|done|done|by apply kernel_string_other].
    intros m y Hm _. exists y. split; [by apply Hmaps|apply same_but_refs_refl]. }
  pose proof (placed_range s2 _ ∅ u yu Hinv2 Hu) as (U0 & _ & _ & U1).
  destruct (copy_args_spec s2 _ k zk fr (m_vaddr yu) fuel Hinv2 Hk U0 ltac:(rewrite <- Hsz; lia) argv strs 0 (pm_memory s2) Hs2 Hfuel ltac:(lia) ltac:(rewrite <- Hsz; lia)) as (mem' & E & Hw & He).
  rewrite with_memory_id, Z.add_0_r in E. rewrite (bind_done _ _ _ _ _ E). clear E.
  assert (own_set own k 1 k = 1%nat) as Hok by (unfold own_set; by rewrite decide_True).
  destruct (unmap_root_done (with_memory mem' s2) (own_set own k 1) k zk 2 (inv_memory s2 _ ∅ mem' Hinv2) (proj1 Hk) Href ltac:(rewrite Hok; lia)) as (s3 & E & Hinv3 & Hrem & _).
  rewrite (bind_done _ _ _ _ _ E). change (2 =? 1) with false in Hrem. cbv iota in Hrem.
  destruct (rm_kept _ _ _ Hrem k zk (proj1 Hk) (not_elem_of_nil _)) as (zk3 & Hzk3 & (Ec & _ & Ev & Es & Ef & _)).
  exists k, u, s3, zk3, yu, fr. split; [done|]. split.
  { eapply inv_own_ext; [|exact Hinv3]. intros m. unfold own_set. destruct (decide (m = k)) as [->|]; [|done]. rewrite decide_True by done. symmetry. cbn. by eapply own_dead. }
  split; [done| | | | | |].
  - destruct Hk as (_ & K1 & K2 & K3). split; [done|]. split; [congruence|]. split; [congruence|done].
  - split; [|done]. by eapply (removed_nil_maps (with_memory mem' s2)).
  - done.
  - by rewrite (rm_memory _ _ _ Hrem).
  - intros m y Hm. by apply (rm_kept _ _ _ Hrem m y (Hmaps m y Hm) (not_elem_of_nil _)).
  - intros d. rewrite (rm_contexts _ _ _ Hrem d). apply Hctx.
Qed.

(** ** The stack of main *)

(** The stack mapping [m] of [c], lent by the kernel's mapping [r]. *)
Record main_stack s (c m r : nat) (y z : pman_mapping_t) (fr : frames_t) : Prop := MainStack {
  ms_user : pm_maps s !! m = Some y /\ m_context y = c /\ root_of m y = r;
  ms_root : kernel_root s r z fr
}.
(** The number of arguments and their addresses, as main finds them. *)
Definition main_frame (ptrs : list Z) : list Z := (Z.of_nat (length ptrs) :: ptrs) ≫= le_bytes 8.
Lemma length_main_frame ptrs : Z.of_nat (length (main_frame ptrs)) = 8 * (1 + Z.of_nat (length ptrs)).
Proof. unfold main_frame. rewrite length_words. cbn [length]. lia. Qed.

Lemma process_user_to_kernel_root s own c m r y z fr off : pman_inv s own ∅ -> main_stack s c m r y z fr -> 0 <= off < m_size_pages y * PAGE_SIZE ->
  process_user_to_kernel c (m_vaddr y + off) s = Done (Some (m_vaddr z + off), s) /\ m_size_pages z = m_size_pages y.
Proof.
  intros Hinv [(Hm & Hc & Hr) Hz] Hoff. pose proof Hz as (Hzm & _ & Hzf & _).
  destruct (pi_placed _ _ _ Hinv m y Hm) as (x & Hx & _). rewrite Hc in Hx.
  assert (forall m', (m' ∈ c_list x) <-> exists y', pm_maps s !! m' = Some y' /\ m_context y' = c) as Hlist.
  { intros m'. rewrite (pi_list _ _ _ Hinv c x m' Hx). set_solver. }
  pose proof (placed_range s own ∅ m y Hinv Hm) as Hro. destruct (range_index_byte _ _ off Hro Hoff) as (_ & _ & Hin).
  unfold process_user_to_kernel. rewrite (bind_done _ _ _ _ _ (get_context_done s c x Hx)).
  destruct (user_to_kernel_from_spec s own (c_list x) (m_vaddr y + off) Hinv) as (res & E & Hres); [intros m' (y' & Hy' & _)%Hlist; by eexists|].
  split.
  2:{ destruct (get_root_done s own ∅ m y Hinv Hm (not_elem_of_empty _)) as [_ (z' & fr' & Hz' & _ & _ & _ & Hsz)]. rewrite Hr in Hz'. congruence. }
  rewrite E. destruct res as [k|]; [|exfalso; apply (Hres m y); [apply Hlist; by exists y|done|lia]].
  destruct Hres as (m' & y' & z' & fr' & Hm' & Hy' & Hz' & _ & Hva & ->). apply Hlist in Hm' as (y2 & Hy2 & Hc2). assert (y2 = y') as -> by congruence.
  assert (m' = m) as ->.
  { destruct (decide (m' = m)) as [|Hne]; [done|]. exfalso. pose proof (placed_range s own ∅ m' y' Hinv Hy') as Hro'.
    destruct (range_index_byte _ _ (m_vaddr y + off - m_vaddr y') Hro' ltac:(lia)) as (_ & _ & Hin'). replace (m_vaddr y' + (m_vaddr y + off - m_vaddr y')) with (m_vaddr y + off) in Hin' by lia.
    eapply (covers_apart s own ∅ m' m y' y); try done. congruence. }
  assert (y' = y) as -> by congruence. rewrite Hr in Hz'. assert (z' = z) as -> by congruence. do 3 f_equal. lia.
Qed.

Lemma push_main_spec s own c m r y z fr off argv : pman_inv s own ∅ -> main_stack s c m r y z fr -> off < m_size_pages y * PAGE_SIZE ->
  8 * (1 + Z.of_nat (length argv)) <= off ->
  exists mem', push_main_args c (m_vaddr y + off) argv s = Done (m_vaddr y + (off - 8 * (1 + Z.of_nat (length argv))), with_memory mem' s) /\
    written fr (off - 8 * (1 + Z.of_nat (length argv))) (main_frame argv) mem' /\
    elsewhere fr (off - 8 * (1 + Z.of_nat (length argv))) (8 * (1 + Z.of_nat (length argv))) (pm_memory s) mem'.
Proof.
  intros Hinv Hst Hoff Hroom. set (n := Z.of_nat (length argv)) in *.
  destruct (process_user_to_kernel_root s own c m r y z fr off Hinv Hst ltac:(lia)) as [E Hsz]. unfold push_main_args. fold n. rewrite (bind_done _ _ _ _ _ E). clear E.
  destruct Hst as [(Hm & _) Hz]. pose proof (proj2 (proj2 (proj2 Hz))) as Hown. pose proof (placed_range s own ∅ m y Hinv Hm) as (Y0 & _ & _ & Y1).
  pose proof (placed_range s own ∅ r z Hinv (proj1 Hz)) as (Z0 & _ & _ & Z1).
  rewrite (bind_done _ _ s (m_vaddr z + off) s eq_refl). cbv zeta.
  rewrite (u64_small (m_vaddr z + off - 8 * n)) by lia. replace (m_vaddr z + off - 8 * n) with (m_vaddr z + (off - 8 * n)) by lia.
  assert (Z.of_nat (length (argv ≫= le_bytes 8)) = 8 * n) as Hl by (rewrite length_words; lia).
  destruct (store_bytes_spec s own r z fr (argv ≫= le_bytes 8) Hinv Hz (off - 8 * n) (pm_memory s)) as (mem1 & E1 & Hw1 & He1); [lia|lia|].
  rewrite with_memory_id, <- store_words_bytes in E1. rewrite (bind_done _ _ _ _ _ E1). clear E1.
  rewrite u64_small by lia. replace (m_vaddr z + (off - 8 * n) - 8) with (m_vaddr z + (off - 8 * (1 + n))) by lia.
  destruct (store_bytes_spec s own r z fr (le_bytes 8 n) Hinv Hz (off - 8 * (1 + n)) mem1) as (mem2 & E2 & Hw2 & He2); [lia|rewrite length_le_bytes; lia|].
  unfold store64. rewrite (bind_done _ _ _ _ _ E2). clear E2. rewrite length_le_bytes in He2. rewrite Hl in He1.
  exists mem2. unfold ret. rewrite u64_small by lia. split; [do 2 f_equal; lia|]. split.
  - unfold main_frame. fold n. change ((n :: argv) ≫= le_bytes 8) with (le_bytes 8 n ++ (argv ≫= le_bytes 8)). apply written_app; [done|].
    rewrite length_le_bytes. replace (off - 8 * (1 + n) + Z.of_nat 8) with (off - 8 * n) by lia.
    eapply (written_keep fr (off - 8 * n) _ (off - 8 * (1 + n)) (Z.of_nat 8) mem1 mem2); try done; [lia|lia|right; lia].
  - intros q Hq. rewrite He2, He1; [done|..]; intros j Hj; apply Hq; lia.
Qed.

Lemma main_stack_made s s' c k u zk yu fr strs m r y z frs : args_made s s' c k u zk yu fr strs -> main_stack s c m r y z frs -> r <> k /\
  exists y' z', main_stack s' c m r y' z' frs /\ m_vaddr y' = m_vaddr y /\ m_size_pages y' = m_size_pages y.
Proof.
  intros Ham [(Hm & Hc & Hr) (Hz & Z1 & Z2 & Z3)]. split; [intros ->; pose proof (am_new _ _ _ _ _ _ _ _ _ Ham); congruence|].
  destruct (am_kept _ _ _ _ _ _ _ _ _ Ham m y Hm) as (y' & Hy' & (Ec & _ & Ev & Es & _ & _ & El & _)).
  destruct (am_kept _ _ _ _ _ _ _ _ _ Ham r z Hz) as (z' & Hz' & (Fc & _ & _ & _ & Ff & _)).
  exists y', z'. split; [|done]. split; [split; [done|]; split; [congruence|]; unfold root_of in *; by rewrite El|]. split; [done|]. split; [congruence|]. split; [congruence|done].
Qed.

(** Pushing the arguments does not disturb the strings. *)
Lemma strings_survive s s' own c k u zk yu fr strs r z frs i n mem' : pman_inv s' own ∅ -> args_made s s' c k u zk yu fr strs -> kernel_root s' r z frs -> r <> k ->
  elsewhere frs i n (pm_memory s') mem' ->
  Forall2 (fun p str => reads (with_memory mem' s') c p (str ++ [0])) (beginnings (m_vaddr yu) strs) strs.
Proof.
  intros Hinv Ham Hr Hne He. apply Forall2_same_length_lookup_2; [apply length_beginnings|]. intros j p str Hp Hstr.
  destruct (written_strings fr strs (pm_memory s') 0 (am_written _ _ _ _ _ _ _ _ _ Ham) j str Hstr) as (o & Ho & H0 & Hle & Hw). rewrite (beginning_of _ _ _ _ Ho) in Hp. injection Hp as <-.
  destruct (am_user _ _ _ _ _ _ _ _ _ Ham) as (Hu & Huc & Hul). pose proof (am_kernel _ _ _ _ _ _ _ _ _ Ham) as Hk. pose proof Hk as (Hkm & _ & Hkf & Hown). pose proof Hown as (Hty & _).
  pose proof (am_room _ _ _ _ _ _ _ _ _ Ham) as Hroom. rewrite <- Huc.
  apply (written_reads (with_memory mem' s') own u yu zk fr o (str ++ [0]) (inv_memory s' own ∅ mem' Hinv)); try done.
  - unfold root_of. by rewrite Hul.
  - rewrite length_app. cbn [length]. lia.
  - intros j' b q Hb Hq. cbn [with_memory pm_memory]. rewrite He; [by apply (Hw j' b q Hb)|]. intros j2 _ Hj2. destruct Hr as (Hrm & _ & Hrf & Hrt & _).
    by apply (bytes_apart s' own k r zk z fr frs (o + Z.of_nat j') j2 q).
Qed.


(** When the program cannot be loaded, [exec] comes back to the caller with the
    arguments pushed on the caller's own stack. *)
Lemma exec_failed_load_pushes s own c stack m r y z frs off fuel a load e s2 : pman_inv s own ∅ -> main_stack s c m r y z frs -> 8 <= off < m_size_pages y * PAGE_SIZE ->
  (forall mem, load (with_memory mem s) = Done (e, s2)) -> e <> 0 ->
  exec_args fuel c stack (m_vaddr y + off) a 0 load s = Done (inl (e, m_vaddr y + off - 8), s2).
Proof.
  intros Hinv Hst Hoff Hload He. destruct (push_main_spec s own c m r y z frs off [] Hinv Hst) as (mem' & E & _); [lia|cbn; lia|]. cbn [length] in E.
  unfold exec_args. rewrite Z.eqb_refl. cbn [negb]. rewrite (bind_done _ _ s [] s eq_refl). unfold process_push_args, make_args. rewrite bind_assoc, (bind_done _ _ s [] s eq_refl).
  rewrite bind_assoc, (bind_done _ _ _ _ _ E). cbn beta iota. unfold ret at 1. unfold bind at 1. rewrite (bind_done _ _ _ _ _ (Hload mem')).
  rewrite (proj2 (Z.eqb_neq e 0) He). cbn [negb]. unfold ret. do 4 f_equal. lia.
Qed.
End proofs.

(** ** A concrete run *)

(** A process with a page of stack at 0x5000, and a page of the kernel that
    holds "ls" and "-a". *)
Definition exec_ops : list pman_op :=
  [PmNewContext 0; PmNewContext 1; PmAddAlloc 0 PMAN_PROT_WRITE 0 4096; PmAddShared 1 PMAN_PROT_WRITE 0 0x5000; PmAddAlloc 0 PMAN_PROT_WRITE 0 4096].
Definition exec_own : nat -> nat := own_set (own_set (fun _ => 0%nat) 0 1) 2 1.
Definition exec_memory : gmap Z Z := list_to_map (zip (seqZ 0x101000 6) [108; 115; 0; 45; 97; 0]).
Definition demo_exec : demo_pman := with_memory exec_memory (demo_state exec_ops).

Lemma exec_session : session (pman_empty demo_tables demo_pool) (fun _ => 0%nat) exec_ops (demo_state exec_ops) exec_own.
Proof.
  eapply (session_step _ _ _ _ None (demo_state (take 1 exec_ops))); [done|vm_compute; reflexivity|cbn [owns]].
  eapply (session_step _ _ _ _ None (demo_state (take 2 exec_ops))); [vm_compute; reflexivity..|cbn [owns]].
  eapply (session_step _ _ _ _ (Some 0%nat) (demo_state (take 3 exec_ops))); [|vm_compute; reflexivity|cbn [owns]].
  { split; [lia|]. eexists. split; [vm_compute; reflexivity|by left]. }
  eapply (session_step _ _ _ _ (Some 1%nat) (demo_state (take 4 exec_ops))); [|vm_compute; reflexivity|cbn [owns]].
  { do 2 eexists. split; [vm_compute; reflexivity|]. split; [vm_compute; reflexivity|]. right.
    split; [unfold range_ok; split_and!; vm_compute; reflexivity || congruence|]. intros b m Hb. vm_compute in Hb. discriminate Hb. }
  eapply (session_step _ _ _ _ (Some 2%nat) (demo_state exec_ops)); [|vm_compute; reflexivity|cbn [owns]; apply session_nil].
  split; [lia|]. eexists. split; [vm_compute; reflexivity|by left].
Qed.
Lemma exec_inv : pman_inv demo_exec exec_own ∅.
Proof. apply inv_memory. eapply session_inv; [apply exec_session|]. apply empty_inv, demo_tables_ok. Qed.

Lemma no_zero (l : list Z) : Forall (fun b => b <> 0) l -> 0 ∉ l.
Proof. rewrite Forall_forall. intros Hn Hb. by apply (Hn 0 Hb). Qed.
Lemma exec_string a str : (0 ∉ str) -> 4096 <= a -> a + Z.of_nat (length str) + 1 <= 8192 ->
  forallb (fun j => bool_decide (load demo_exec 0 (a + Z.of_nat j) = (str ++ [0]) !! j)) (seq 0 (length (str ++ [0]))) = true -> kernel_string demo_exec a str.
Proof.
  intros H0 Ha Hend Hall. assert (exists y fr, pm_maps demo_exec !! 2%nat = Some y /\ m_context y = 0%nat /\ frames_of y = Some fr /\ fr_type fr = PALLOC_ALLOC /\
    m_vaddr y = 4096 /\ m_size_pages y = 1) as (y & fr & Hy & Hc & Hf & Ht & Hv & Hs) by (do 2 eexists; split; [vm_compute; reflexivity|split_and!; reflexivity]).
  exists 0%nat. split; [done|]. split.
  - intros j b Hb. rewrite <- Hb. rewrite forallb_forall in Hall. eapply bool_decide_eq_true_1, Hall. apply in_seq. apply lookup_lt_Some in Hb. lia.
  - exists 2%nat, y, fr. rewrite Hv, Hs. unfold PAGE_SIZE. split_and!; (done || lia).
Qed.

