(* ===== verification/Registers.v ===== *)
(** * Registers: saved registers, and the frames the kernel puts on a user stack

    [task_state_record_t] and the functions on it
    (system/x86_64/include/sys/tsr/), and the frames of a signal
    (system/x86_64/include/sys/function/): [push_tsr] saves the registers of the
    interrupted code on its own stack, [push_function] makes the thread go on
    in the handler with the trampoline as its return address, and [pop_tsr], in
    [signalret] (src/syscall/handlers/signalret.c), takes the registers back.
    The user's memory is that of the paging manager, reached as in ExecArgs.v. *)
From S2P Require Import Prelude Bitmap Valloc PageTables PageTree PageMap PmanIface Pman PmanInv PmanOps PmanWrite PmanInst PmanProps ProcMem ExecArgs.

Record task_state_record_t := Tsr {
  rax : Z; rbx : Z; rcx : Z; rdx : Z; rsi : Z; rdi : Z; rbp : Z; rsp : Z;
  r8 : Z; r9 : Z; r10 : Z; r11 : Z; r12 : Z; r13 : Z; r14 : Z; r15 : Z;
  rip : Z; flags : Z
}.

(** The record as it lies in memory: eighteen words. *)
Definition tsr_words (r : task_state_record_t) : list Z :=
  [rax r; rbx r; rcx r; rdx r; rsi r; rdi r; rbp r; rsp r; r8 r; r9 r; r10 r; r11 r; r12 r; r13 r; r14 r; r15 r; rip r; flags r].
Definition tsr_of_words (ws : list Z) : option task_state_record_t :=
  match ws with
  | [a; b; c; d; si; di; bp; sp; e8; e9; e10; e11; e12; e13; e14; e15; ip; fl] =>
      Some (Tsr a b c d si di bp sp e8 e9 e10 e11 e12 e13 e14 e15 ip fl)
  | _ => None
  end.
Definition TSR_SIZE : Z := 144.

Definition tsr_zero : task_state_record_t := Tsr 0 0 0 0 0 0 0 0 0 0 0 0 0 0 0 0 0 0.

(** [tsr->rax = v] and so on. *)
Definition set_rax (v : Z) (r : task_state_record_t) : task_state_record_t :=
  Tsr v (rbx r) (rcx r) (rdx r) (rsi r) (rdi r) (rbp r) (rsp r) (r8 r) (r9 r) (r10 r) (r11 r) (r12 r) (r13 r) (r14 r) (r15 r) (rip r) (flags r).
Definition set_rip (v : Z) (r : task_state_record_t) : task_state_record_t :=
  Tsr (rax r) (rbx r) (rcx r) (rdx r) (rsi r) (rdi r) (rbp r) (rsp r) (r8 r) (r9 r) (r10 r) (r11 r) (r12 r) (r13 r) (r14 r) (r15 r) v (flags r).
Definition set_rdi (v : Z) (r : task_state_record_t) : task_state_record_t :=
  Tsr (rax r) (rbx r) (rcx r) (rdx r) (rsi r) v (rbp r) (rsp r) (r8 r) (r9 r) (r10 r) (r11 r) (r12 r) (r13 r) (r14 r) (r15 r) (rip r) (flags r).
Definition set_rsi (v : Z) (r : task_state_record_t) : task_state_record_t :=
  Tsr (rax r) (rbx r) (rcx r) (rdx r) v (rdi r) (rbp r) (rsp r) (r8 r) (r9 r) (r10 r) (r11 r) (r12 r) (r13 r) (r14 r) (r15 r) (rip r) (flags r).
Definition set_rdx (v : Z) (r : task_state_record_t) : task_state_record_t :=
  Tsr (rax r) (rbx r) (rcx r) v (rsi r) (rdi r) (rbp r) (rsp r) (r8 r) (r9 r) (r10 r) (r11 r) (r12 r) (r13 r) (r14 r) (r15 r) (rip r) (flags r).
Definition set_rcx (v : Z) (r : task_state_record_t) : task_state_record_t :=
  Tsr (rax r) (rbx r) v (rdx r) (rsi r) (rdi r) (rbp r) (rsp r) (r8 r) (r9 r) (r10 r) (r11 r) (r12 r) (r13 r) (r14 r) (r15 r) (rip r) (flags r).
Definition set_r8 (v : Z) (r : task_state_record_t) : task_state_record_t :=
  Tsr (rax r) (rbx r) (rcx r) (rdx r) (rsi r) (rdi r) (rbp r) (rsp r) v (r9 r) (r10 r) (r11 r) (r12 r) (r13 r) (r14 r) (r15 r) (rip r) (flags r).
Definition set_rsp (v : Z) (r : task_state_record_t) : task_state_record_t :=
  Tsr (rax r) (rbx r) (rcx r) (rdx r) (rsi r) (rdi r) (rbp r) v (r8 r) (r9 r) (r10 r) (r11 r) (r12 r) (r13 r) (r14 r) (r15 r) (rip r) (flags r).
Definition set_stack_pointers (v : Z) (r : task_state_record_t) : task_state_record_t :=
  Tsr (rax r) (rbx r) (rcx r) (rdx r) (rsi r) (rdi r) v v (r8 r) (r9 r) (r10 r) (r11 r) (r12 r) (r13 r) (r14 r) (r15 r) (rip r) (flags r).
Definition set_flags (v : Z) (r : task_state_record_t) : task_state_record_t :=
  Tsr (rax r) (rbx r) (rcx r) (rdx r) (rsi r) (rdi r) (rbp r) (rsp r) (r8 r) (r9 r) (r10 r) (r11 r) (r12 r) (r13 r) (r14 r) (r15 r) (rip r) v.

Definition tsr_load_pc (pc : Z) : task_state_record_t -> task_state_record_t := set_rip pc.
Definition tsr_load_return (v : Z) : task_state_record_t -> task_state_record_t := set_rax v.
Definition tsr_set_stack (stack size : Z) : task_state_record_t -> task_state_record_t := set_stack_pointers (u64 (stack + size - 8)).
Definition tsr_load_task (user_tsr handler : Z) (r : task_state_record_t) : task_state_record_t := tsr_load_pc handler (set_rdi user_tsr r).
(** [_resume_tsr_user] switches interrupts on. *)
Definition enable_interrupts (r : task_state_record_t) : task_state_record_t := set_flags (Z.lor (flags r) 0x200) r.

(** The arguments of a function go to registers. *)
Definition push_args (argv : list Z) (r : task_state_record_t) : task_state_record_t :=
  let load i set r := match argv !! i with Some a => set a r | None => r end in
  load 4%nat set_r8 (load 3%nat set_rcx (load 2%nat set_rdx (load 1%nat set_rsi (load 0%nat set_rdi r)))).

Definition PROCESS_TRAMPOLINE_USER_VADDR : Z := 0x8500000000.

Section frames.
Context {V F T : Type} `{HV : VirtualRanges V} `{HF : FrameAllocator F} `{HT : PageMapper T}.
Abbreviation pman_state := (@pman V F T).

(** [memcpy] to or from a record of the kernel, word by word. *)
Fixpoint load_words (a : Z) (n : nat) : M pman_state (list Z) :=
  match n with
  | O => ret []
  | S n' => let! w := load64 a in let! ws := load_words (a + 8) n' in ret (w :: ws)
  end.

Definition push_tsr (c : nat) (r : task_state_record_t) : M pman_state task_state_record_t :=
  let! p := process_user_to_kernel c (rsp r) in
  let! kern_rsp := of_option Undefined p in
  do! store_words (u64 (kern_rsp - TSR_SIZE)) (tsr_words r);
  ret (set_rsp (u64 (rsp r - TSR_SIZE)) r).
Definition pop_tsr (c : nat) (r : task_state_record_t) : M pman_state task_state_record_t :=
  let! p := process_user_to_kernel c (rsp r) in
  let! kern_rsp := of_option Undefined p in
  let! ws := load_words kern_rsp 18 in
  of_option Undefined (tsr_of_words ws).
Definition push_function (c : nat) (addr : Z) (argv : list Z) (r : task_state_record_t) : M pman_state task_state_record_t :=
  let! p := process_user_to_kernel c (rsp r) in
  let! kern_rsp := of_option Undefined p in
  do! store64 (u64 (kern_rsp - 8)) PROCESS_TRAMPOLINE_USER_VADDR;
  ret (set_rip addr (push_args argv (set_rsp (u64 (rsp r - 8)) r))).

(** What [signal_table_resume] does for a signal with a handler. *)
Definition push_signal_frame (c : nat) (user_handler sig : Z) (r : task_state_record_t) : M pman_state task_state_record_t :=
  let! r1 := push_tsr c r in push_function c user_handler [sig] r1.
(** The registers the handler starts with. *)
Definition signal_registers (user_handler sig : Z) (r : task_state_record_t) : task_state_record_t :=
  set_rip user_handler (set_rdi sig (set_rsp (u64 (u64 (rsp r - TSR_SIZE) - 8)) r)).
End frames.

(** ** Registers *)

Definition tsr_ok (r : task_state_record_t) : Prop := Forall (fun w => 0 <= w < 2 ^ 64) (tsr_words r).

Lemma tsr_of_words_of r : tsr_of_words (tsr_words r) = Some r.
Proof. by destruct r. Qed.
Lemma enable_interrupts_idemp r : enable_interrupts (enable_interrupts r) = enable_interrupts r.
Proof. unfold enable_interrupts. cbn. unfold set_flags. cbn. by rewrite <- Z.lor_assoc, Z.lor_diag. Qed.
Lemma enable_signal h sig r : enable_interrupts (signal_registers h sig r) = signal_registers h sig (enable_interrupts r).
Proof. done. Qed.
Lemma enable_return v r : enable_interrupts (tsr_load_return v r) = tsr_load_return v (enable_interrupts r).
Proof. done. Qed.

Section proofs.
Context {V F T : Type} `{HV : VirtualRanges V} `{HF : FrameAllocator F} `{HT : PageMapper T}.
Implicit Types (s : @pman V F T).

(** The registers after the frame do not depend on the memory. *)
Lemma push_signal_frame_registers s c h sig r r' s' : push_signal_frame c h sig r s = Done (r', s') -> r' = signal_registers h sig r.
Proof.
  unfold push_signal_frame, push_tsr, push_function. intros (r1 & s1 & H1 & H2)%bind_done_inv.
  apply bind_done_inv in H1 as (p1 & t1 & _ & H1). apply bind_done_inv in H1 as (k1 & t2 & _ & H1). apply bind_done_inv in H1 as ([] & t3 & _ & H1). injection H1 as <- _.
  apply bind_done_inv in H2 as (p2 & u1 & _ & H2). apply bind_done_inv in H2 as (k2 & u2 & _ & H2). apply bind_done_inv in H2 as ([] & u3 & _ & H2). by injection H2 as <- _.
Qed.

(** ** Reading words *)

Lemma load64_done s a v : 0 <= a -> a + 8 <= 2 ^ 64 -> 0 <= v < 2 ^ 64 -> reads s 0 a (le_bytes 8 v) -> load64 a s = Done (v, s).
Proof.
  intros Ha Hend Hv Hr. assert (forall j : nat, (j < 8)%nat -> exists b, le_bytes 8 v !! j = Some b /\ load_byte (u64 (a + Z.of_nat j)) s = Done (b, s)) as Hj.
  { intros j Hj. destruct (lookup_lt_is_Some_2 (le_bytes 8 v) j) as [b Hb]; [by rewrite length_le_bytes|]. exists b. split; [done|].
    rewrite u64_small by lia. by apply load_byte_done, Hr. }
  destruct (Hj 0%nat ltac:(lia)) as (b0 & [= E0] & L0), (Hj 1%nat ltac:(lia)) as (b1 & [= E1] & L1), (Hj 2%nat ltac:(lia)) as (b2 & [= E2] & L2), (Hj 3%nat ltac:(lia)) as (b3 & [= E3] & L3),
    (Hj 4%nat ltac:(lia)) as (b4 & [= E4] & L4), (Hj 5%nat ltac:(lia)) as (b5 & [= E5] & L5), (Hj 6%nat ltac:(lia)) as (b6 & [= E6] & L6), (Hj 7%nat ltac:(lia)) as (b7 & [= E7] & L7).
  cbn [Z.of_nat] in L0. rewrite Z.add_0_r in L0. unfold load64.
  rewrite (bind_done _ _ _ _ _ L0), (bind_done _ _ _ _ _ L1), (bind_done _ _ _ _ _ L2), (bind_done _ _ _ _ _ L3), (bind_done _ _ _ _ _ L4), (bind_done _ _ _ _ _ L5), (bind_done _ _ _ _ _ L6), (bind_done _ _ _ _ _ L7).
  subst. change ([?x0; ?x1; ?x2; ?x3; ?x4; ?x5; ?x6; ?x7]) with (le_bytes 8 v). unfold ret. do 2 f_equal.
  change (le_value (le_bytes 8 v) = v). rewrite le_value_bytes. apply Z.mod_small. lia.
Qed.
Lemma reads_app s c a bs1 bs2 : reads s c a (bs1 ++ bs2) <-> reads s c a bs1 /\ reads s c (a + Z.of_nat (length bs1)) bs2.
Proof.
  split.
  - intros H. split; intros j b Hb; [by apply H, lookup_app_l_Some|].
    replace (a + Z.of_nat (length bs1) + Z.of_nat j) with (a + Z.of_nat (length bs1 + j)) by lia. apply H. by rewrite lookup_app_r, Nat.add_sub' by lia.
  - intros [H1 H2] j b Hb. apply lookup_app_Some in Hb as [Hb|[Hj Hb]]; [by apply H1|].
    specialize (H2 _ _ Hb). by replace (a + Z.of_nat (length bs1) + Z.of_nat (j - length bs1)) with (a + Z.of_nat j) in H2 by lia.
Qed.
Lemma load_words_done s ws : forall a, 0 <= a -> a + 8 * Z.of_nat (length ws) <= 2 ^ 64 -> Forall (fun w => 0 <= w < 2 ^ 64) ws ->
  reads s 0 a (ws ≫= le_bytes 8) -> load_words a (length ws) s = Done (ws, s).
Proof.
  induction ws as [|w ws IH]; intros a Ha Hend Hall Hr; [done|]. apply Forall_cons in Hall as [Hw Hall]. cbn [length load_words] in *.
  change ((w :: ws) ≫= le_bytes 8) with (le_bytes 8 w ++ (ws ≫= le_bytes 8)) in Hr. apply reads_app in Hr as [H1 H2]. rewrite length_le_bytes in H2.
  rewrite (bind_done _ _ _ _ _ (load64_done s a w Ha ltac:(lia) Hw H1)). by rewrite (bind_done _ _ _ _ _ (IH (a + 8) ltac:(lia) ltac:(lia) Hall H2)).
Qed.

(** ** Frames on a stack *)

(** Words pushed below offset [off] of the stack. *)
Lemma push_words s own c m r y z fr off ws n : pman_inv s own ∅ -> main_stack s c m r y z fr -> 0 <= off < m_size_pages y * PAGE_SIZE ->
  n = 8 * Z.of_nat (length ws) -> n <= off ->
  process_user_to_kernel c (m_vaddr y + off) s = Done (Some (m_vaddr z + off), s) /\
  exists mem', store_words (u64 (m_vaddr z + off - n)) ws s = Done (tt, with_memory mem' s) /\
    written fr (off - n) (ws ≫= le_bytes 8) mem' /\ elsewhere fr (off - n) n (pm_memory s) mem'.
Proof.
  intros Hinv Hst Hoff -> Hn. destruct (process_user_to_kernel_root s own c m r y z fr off Hinv Hst Hoff) as [E Hsz]. split; [done|].
  destruct Hst as [_ Hz]. pose proof (placed_range s own ∅ r z Hinv (proj1 Hz)) as (Z0 & _ & _ & Z1).
  rewrite u64_small by lia. replace (m_vaddr z + off - 8 * Z.of_nat (length ws)) with (m_vaddr z + (off - 8 * Z.of_nat (length ws))) by lia.
  assert (Z.of_nat (length (ws ≫= le_bytes 8)) = 8 * Z.of_nat (length ws)) as Hl by (rewrite length_words; lia).
  destruct (store_bytes_spec s own r z fr (ws ≫= le_bytes 8) Hinv Hz (off - 8 * Z.of_nat (length ws)) (pm_memory s)) as (mem' & E' & Hw & He); [lia|lia|].
  rewrite with_memory_id, <- store_words_bytes, Hl in *. by exists mem'.
Qed.
Lemma main_stack_memory s c m r y z fr mem : main_stack s c m r y z fr -> main_stack (with_memory mem s) c m r y z fr.
Proof. by intros [? ?]. Qed.
Lemma written_same fr i bs mem mem' : written fr i bs mem ->
  (forall j q, i <= j < i + Z.of_nat (length bs) -> frame_byte fr j = Some q -> mem' !! q = mem !! q) -> written fr i bs mem'.
Proof. intros Hw He j b q Hb Hq. pose proof (lookup_lt_Some _ _ _ Hb). rewrite (He (i + Z.of_nat j)); [by apply (Hw j)|lia|done]. Qed.

(** C19: a signal handler runs with the signal as its argument, on the stack
    below the interrupted code, with the address of the trampoline to return
    to; and whatever it does to its registers and to memory other than the
    saved registers, [signalret] then gives back exactly the registers of the
    interrupted code. *)
Theorem signal_frame_restores s own c m p y z fr off r h sig (Hinv : pman_inv s own ∅) (Hst : main_stack s c m p y z fr)
  (Hoff : TSR_SIZE + 8 <= off < m_size_pages y * PAGE_SIZE) (Hrsp : rsp r = m_vaddr y + off) (Hok : tsr_ok r) :
  exists mem', push_signal_frame c h sig r s = Done (signal_registers h sig r, with_memory mem' s) /\
    rsp (signal_registers h sig r) = rsp r - (TSR_SIZE + 8) /\
    reads (with_memory mem' s) c (rsp r - (TSR_SIZE + 8)) (le_bytes 8 PROCESS_TRAMPOLINE_USER_VADDR) /\
    forall r' mem'', rsp r' = rsp (signal_registers h sig r) + 8 ->
      (forall j q, off - TSR_SIZE <= j < off -> frame_byte fr j = Some q -> mem'' !! q = mem' !! q) ->
      pop_tsr c r' (with_memory mem'' s) = Done (r, with_memory mem'' s).
Proof.
  unfold TSR_SIZE in *. pose proof Hst as [(Hm & Hc & Hroot) Hz]. pose proof (proj2 (proj2 (proj2 Hz))) as Hown. pose proof Hz as (Hzm & Hz0 & Hzf & Hty & _).
  pose proof (placed_range s own ∅ m y Hinv Hm) as (Y0 & _ & _ & Y1). pose proof (placed_range s own ∅ p z Hinv Hzm) as (Z0 & _ & _ & Z1).
  destruct (push_words s own c m p y z fr off (tsr_words r) 144 Hinv Hst) as (E1 & mem1 & E2 & Hw1 & He1); [lia|done|lia|].
  destruct (push_words (with_memory mem1 s) own c m p y z fr (off - 144) [PROCESS_TRAMPOLINE_USER_VADDR] 8 (inv_memory s own ∅ mem1 Hinv) (main_stack_memory _ _ _ _ _ _ _ mem1 Hst))
    as (E3 & mem2 & E4 & Hw2 & He2); [lia|done|lia|]. cbn [with_memory pm_memory] in He2. rewrite <- Hrsp in E1.
  assert (u64 (rsp r - 144) = m_vaddr y + (off - 144)) as Hr1 by (rewrite Hrsp, u64_small; lia).
  exists mem2. split; [|split; [|split]].
  - unfold push_signal_frame, push_tsr. unfold TSR_SIZE. rewrite bind_assoc, (bind_done _ _ _ _ _ E1), bind_assoc, (bind_done _ _ s (m_vaddr z + off) s eq_refl), bind_assoc, (bind_done _ _ _ _ _ E2).
    rewrite bind_ret_l. unfold push_function. cbn [set_rsp rsp]. rewrite Hr1, (bind_done _ _ _ _ _ E3), (bind_done _ _ _ (m_vaddr z + (off - 144)) (with_memory mem1 s) eq_refl).
    cbn [store_words] in E4. apply bind_done_inv in E4 as ([] & t & E4 & Hret). injection Hret as ->. rewrite (bind_done _ _ _ _ _ E4).
    unfold signal_registers, push_args, TSR_SIZE. cbn. by rewrite Hr1.
  - cbn. unfold TSR_SIZE. rewrite Hr1, u64_small by lia. lia.
  - rewrite <- Hc. replace (rsp r - (144 + 8)) with (m_vaddr y + (off - 144 - 8)) by lia.
    refine (written_reads (with_memory mem2 s) own m y z fr _ _ (inv_memory s own ∅ mem2 Hinv) Hm _ Hzf Hty _ _ _); [by rewrite Hroot|lia|rewrite length_le_bytes; lia|].
    unfold mbind, list_bind in Hw2. by rewrite app_nil_r in Hw2.
  - intros r' mem3 Hr' Hkeep. cbn in Hr'. unfold TSR_SIZE in Hr'. rewrite Hr1, u64_small in Hr' by lia.
    assert (rsp r' = m_vaddr y + (off - 144)) as Hr'' by lia. set (s3 := with_memory mem3 s) in *.
    destruct (process_user_to_kernel_root s3 own c m p y z fr (off - 144) (inv_memory s own ∅ mem3 Hinv) (main_stack_memory _ _ _ _ _ _ _ mem3 Hst)) as [E5 Hsz]; [lia|].
    unfold pop_tsr. rewrite Hr'', (bind_done _ _ _ _ _ E5), (bind_done _ _ s3 (m_vaddr z + (off - 144)) s3 eq_refl).
    assert (load_words (m_vaddr z + (off - 144)) 18 s3 = Done (tsr_words r, s3)) as E6.
    { assert (reads s3 (m_context z) (m_vaddr z + (off - 144)) (tsr_words r ≫= le_bytes 8)) as Hrd.
      { apply (written_reads s3 own p z z fr _ _ (inv_memory s own ∅ mem3 Hinv) Hzm); [by rewrite (kernel_root_of s p z fr Hz)|done|done|lia|rewrite length_words; change (length (tsr_words r)) with 18%nat; lia|].
        apply (written_same fr _ _ mem2); [|rewrite length_words; change (length (tsr_words r)) with 18%nat; intros j q Hj; apply Hkeep; lia].
        apply (written_keep fr (off - 144) _ (off - 144 - 8) 8 mem1); try done; [lia|lia|right; lia]. }
      rewrite Hz0 in Hrd. apply (load_words_done s3 (tsr_words r)); [lia|change (length (tsr_words r)) with 18%nat; lia|done|done]. }
    rewrite (bind_done _ _ _ _ _ E6). by rewrite tsr_of_words_of.
Qed.
End proofs.

(** ** A concrete run *)

(** The process of ExecArgs.v, interrupted with its stack pointer at 0x5ff8. *)
Definition demo_registers : task_state_record_t := Tsr 1 2 3 4 5 6 7 0x5ff8 8 9 10 11 12 13 14 15 0x400123 0x202.

Lemma demo_main_stack : exists y z fr, main_stack demo_exec 1 1 0 y z fr /\ m_vaddr y = 0x5000 /\ m_size_pages y = 1.
Proof.
  assert (exists y, pm_maps demo_exec !! 1%nat = Some y /\ m_context y = 1%nat /\ root_of 1 y = 0%nat /\ m_vaddr y = 0x5000 /\ m_size_pages y = 1)
    as (y & Hy & Hyc & Hyr & Hyv & Hys) by (eexists; split; [vm_compute; reflexivity|split_and!; reflexivity]).
  assert (exists z fr, pm_maps demo_exec !! 0%nat = Some z /\ m_context z = 0%nat /\ frames_of z = Some fr /\ fr_type fr = PALLOC_ALLOC /\ fr_paddrs fr = [0x100000])
    as (z & fr & Hz & Hzc & Hzf & Hft & Hfp) by (do 2 eexists; split; [vm_compute; reflexivity|split_and!; reflexivity]).
  assert (own_frames fr) as Hown by (split; [exact Hft|]; split; [rewrite Hfp; apply NoDup_singleton|exact (proj2 (pi_frames _ _ _ exec_inv 0%nat z fr Hz Hzf))]).
  exists y, z, fr. split; [|exact (conj Hyv Hys)]. constructor; [exact (conj Hy (conj Hyc Hyr))|]. unfold kernel_root. exact (conj Hz (conj Hzc (conj Hzf Hown))).
Qed.

Lemma demo_registers_ok : tsr_ok demo_registers.
Proof. unfold tsr_ok, tsr_words. repeat (apply Forall_cons_2; [cbn; lia|]). apply Forall_nil_2. Qed.

Lemma signal_frame_restores_witness : exists s', push_signal_frame 1 0x400800 14 demo_registers demo_exec = Done (signal_registers 0x400800 14 demo_registers, s') /\
  pop_tsr 1 (set_rsp (0x5ff8 - 144) tsr_zero) s' = Done (demo_registers, s').
Proof.
  destruct demo_main_stack as (y & z & fr & Hst & Hv & Hs).
  assert (TSR_SIZE + 8 <= 0xff8 < m_size_pages y * PAGE_SIZE) as Hoff by (rewrite Hs; unfold TSR_SIZE, PAGE_SIZE; lia).
  assert (rsp demo_registers = m_vaddr y + 0xff8) as Hrsp by (rewrite Hv; reflexivity).
  destruct (signal_frame_restores demo_exec exec_own 1 1 0 y z fr 0xff8 demo_registers 0x400800 14 exec_inv Hst Hoff Hrsp demo_registers_ok) as (mem' & E & _ & _ & Hpop).
  exists (with_memory mem' demo_exec). split; [exact E|]. apply Hpop; [reflexivity|]. intros j q _ _. reflexivity.
Defined.
