(* ===== verification/IntRegistry.v ===== *)
(** * IntRegistry: the channels of interrupts and their handlers
      (include/interrupt/interrupt_registry.h, system/x86_64/include/sys/interrupt/
      interrupt_code.h, src/interrupt/interrupt_registry.c)

    A handler is the address of a function; the entries that call it are in
    Interrupts.v, and drivers register theirs from their modules. *)
From S2P Require Import Prelude.

(** ** Channels *)

Definition IC_DIV0 : Z := 1.
Definition IC_INVALID_OPCODE : Z := 3.
Definition IC_PAGE_FAULT : Z := 4.
Definition IC_TIMER : Z := 5.
Definition IC_CUSTOM_BASE : Z := 7.
Definition IC_NMI : Z := IC_CUSTOM_BASE.
Definition IC_BP_INT3 : Z := 8.
Definition IC_OVF : Z := 9.
Definition IC_BOUND_RANGE : Z := 10.
Definition IC_DEVICE_NOT_AVAIL : Z := 11.
Definition IC_DOUBLE_FAULT : Z := 12.
Definition IC_COPROC_SEGMENT_OVERRUN : Z := 13.
Definition IC_INVALID_TSS : Z := 14.
Definition IC_SEGMENT_NOT_PRESENT : Z := 15.
Definition IC_STACK_SEGMENT_FAULT : Z := 16.
Definition IC_GENERAL_PROTECTION_FAULT : Z := 17.
Definition IC_X87_FPU : Z := 18.
Definition IC_ALIGNMENT_CHECK : Z := 19.
Definition IC_MACHINE_CHECK : Z := 20.
Definition IC_SIMD_FPU_ERROR : Z := 21.
Definition IC_KEYBOARD : Z := 22.
Definition IC_COM2 : Z := 23.
Definition IC_COM1 : Z := 24.
Definition IC_MOUSE : Z := 25.
Definition IC_MAX : Z := 26.

(** ** The registry *)

(** A handler is the address of a function. *)
Record interrupt_registry_node_t := RegistryNode { active : bool; handler : option Z }.
Abbreviation registry := (list interrupt_registry_node_t).

Definition interrupt_registry_init : M registry unit := put (replicate (Z.to_nat IC_MAX) (RegistryNode false None)).
Definition get_node (channel : Z) : M registry interrupt_registry_node_t := fun l =>
  if 0 <=? channel then of_option Undefined (l !! Z.to_nat channel) l else Stop Undefined.
Definition put_node (channel : Z) (n : interrupt_registry_node_t) : M registry unit := modify (fun l => <[Z.to_nat channel := n]> l).
Definition interrupt_registry_register (channel h : Z) : M registry bool :=
  let! n := get_node channel in
  if active n then ret false
  else do! put_node channel (RegistryNode true (Some h)); ret true.
Definition interrupt_registry_free (channel : Z) : M registry bool :=
  let! n := get_node channel in
  if negb (active n) then ret false
  else do! put_node channel (RegistryNode false None); ret true.
(** The handler [interrupt_registry_invoke] calls. *)
Definition registered (channel : Z) : M registry (option Z) :=
  let! n := get_node channel in
  if active n then let! h := of_option Undefined (handler n) in ret (Some h) else ret None.

(** ** The table *)

Lemma channel_node_done channel n l : 0 <= channel -> l !! Z.to_nat channel = Some n -> get_node channel l = Done (n, l).
Proof. intros H E. unfold get_node. rewrite (proj2 (Z.leb_le _ _)) by done. by rewrite E. Qed.
(** A channel has at most one handler. *)
Lemma register_done channel h n l : 0 <= channel -> l !! Z.to_nat channel = Some n ->
  interrupt_registry_register channel h l = if active n then Done (false, l) else Done (true, <[Z.to_nat channel := RegistryNode true (Some h)]> l).
Proof. intros H E. unfold interrupt_registry_register. rewrite (bind_done _ _ _ _ _ (channel_node_done _ _ _ H E)). by destruct (active n). Qed.
Lemma free_done channel n l : 0 <= channel -> l !! Z.to_nat channel = Some n ->
  interrupt_registry_free channel l = if active n then Done (true, <[Z.to_nat channel := RegistryNode false None]> l) else Done (false, l).
Proof. intros H E. unfold interrupt_registry_free. rewrite (bind_done _ _ _ _ _ (channel_node_done _ _ _ H E)). by destruct (active n). Qed.
Lemma registered_done channel h l : 0 <= channel -> l !! Z.to_nat channel = Some (RegistryNode true (Some h)) -> registered channel l = Done (Some h, l).
Proof. intros H E. unfold registered. by rewrite (bind_done _ _ _ _ _ (channel_node_done _ _ _ H E)). Qed.
