(* ===== verification/Interrupts.v ===== *)
(** * Interrupts: from the processor to the handlers and on to the next thread

    The C side of the interrupt entries (system/x86_64/src/interrupt/, system/x86_64/src/syscall/),
    and what the scheduler does with registers (src/scheduler/scheduler.c,
    [thread_resume] in src/process/thread.c): a [machine] is the kernel of
    Process.v with the saved registers of every thread, and the processor, which
    waits for an interrupt, or runs a user thread or a kernel thread.

    The assembly entries push the registers of the interrupted code and hand the
    record to the handler; this record is the argument [isr].  Kernel threads run
    with interrupts off.  The address space of the processor is the name of a
    context; no two contexts have the same top-level table.  [call] stands for the
    handlers of drivers, by address. *)
From S2P Require Import Prelude Dll Sched Signal Timer Pipe Fs FsPath RamfsTree File FileProofs Heap Bitmap Valloc PageTables PageTree PageMap PmanIface Pman PmanInv PmanOps PmanWrite PmanInst PmanProps ProcMem Process ExecArgs Registers IntRegistry.

(** ** The machine *)

Inductive cpu_t :=
  | Waiting_                                           (* in [wait_for_interrupt] *)
  | UserMode (thread : Z) (r : task_state_record_t)
  | KernelMode (thread : Z) (r : task_state_record_t).

(** What a page fault pushes, and the address in CR2. *)
Record page_fault_t := PageFault { pf_user : bool; fault_vaddr : Z }.

Section interrupts.
Context {V F T : Type} `{HV : VirtualRanges V} `{HF : FrameAllocator F} `{HT : PageMapper T}.
Context (ops : Z -> fs_superblock_ops_t).
Variables _SIG_COUNT SIG_CHILD SIG_PAGE : Z.
Abbreviation kern := (@kernel V F T).

Record machine := Machine {
  mk : kern; tsrs : gmap Z task_state_record_t; cpu : cpu_t; cr3 : nat; nodes : registry
}.
Definition on_kernel {A} (m : M kern A) : M machine A := zoom mk (fun k s => Machine k (tsrs s) (cpu s) (cr3 s) (nodes s)) m.
Definition on_scheduler {A} (m : M sched A) : M machine A := on_kernel (on_k_sched m).
Definition on_nodes {A} (m : M registry A) : M machine A := zoom nodes (fun l s => Machine (mk s) (tsrs s) (cpu s) (cr3 s) l) m.
Definition set_tsr (t : Z) (r : task_state_record_t) : M machine unit :=
  modify (fun s => Machine (mk s) (<[t := r]> (tsrs s)) (cpu s) (cr3 s) (nodes s)).
Definition get_tsr (t : Z) : M machine task_state_record_t := fun s => of_option Undefined (tsrs s !! t) s.
Definition set_cpu (c : cpu_t) : M machine unit := modify (fun s => Machine (mk s) (tsrs s) c (cr3 s) (nodes s)).
Definition load_page_table (c : nat) : M machine unit := modify (fun s => Machine (mk s) (tsrs s) (cpu s) c (nodes s)).

(** ** Resuming threads *)

Definition resume_tsr_kernel (t : Z) : M machine unit :=
  let! r := get_tsr t in
  do! load_page_table pman_kernel_context;
  set_cpu (KernelMode t r).
Definition resume_tsr_user (t : Z) (c : nat) : M machine unit :=
  let! r := get_tsr t in
  do! load_page_table c;
  set_cpu (UserMode t (enable_interrupts r)).

(** [signal_table_resume] up to the end of the process: whether the thread goes on. *)
Definition deliver_signal (fuel : nat) (t p : Z) : M machine bool :=
  let! d := on_kernel (on_signals p (on_table take_signal)) in
  match d with
  | DefaultAction ACT_TERMINATE => do! on_kernel (process_kill ops _SIG_COUNT SIG_CHILD fuel p); ret false
  | UserHandler h sig =>
      let! r := get_tsr t in
      let! x := on_kernel (get_process p) in
      let! r' := on_kernel (on_k_pman (push_signal_frame (paging_context x) h sig r)) in
      do! set_tsr t r';
      ret true
  | _ => ret true
  end.

(** From the choice of a thread on; when a signal ends the process of the
    thread, another one is chosen.  [fuel] bounds how often, and the mappings of
    an address space. *)
Fixpoint resume_chosen (fuel : nat) (o : option Z) : M machine unit :=
  match o with
  | None => set_cpu Waiting_
  | Some t =>
      let! th := on_scheduler (get_thread t) in
      match level th with
      | TL_KERNEL => resume_tsr_kernel t
      | TL_USER =>
          let! p := of_option Undefined (process th) in
          let! on := deliver_signal fuel t p in
          if on : bool then
            let! x := on_kernel (get_process p) in
            resume_tsr_user t (paging_context x)
          else
            match fuel with
            | O => stop_with NoFuel
            | S fuel' => let! o' := on_scheduler scheduler_yield in resume_chosen fuel' o'
            end
      end
  end.
Definition yield_machine (fuel : nat) : M machine unit := let! o := on_scheduler scheduler_yield in resume_chosen fuel o.

Definition scheduler_load_tsr (isr : task_state_record_t) : M machine unit :=
  let! s := get in
  let! t := of_option Undefined (current_thread (k_sched (mk s))) in
  set_tsr t isr.

(** ** Entries *)

Variable call : Z -> Z -> task_state_record_t -> option page_fault_t -> M machine unit.
Variable fuel : nat.

Definition interrupt_registry_invoke (channel : Z) (isr : task_state_record_t) (code : option page_fault_t) : M machine unit :=
  let! h := on_nodes (registered channel) in
  match h with Some h => call h channel isr code | None => ret tt end.

(** The handlers of the PIC's lines. *)
Definition pic_handler (channel : Z) (isr : task_state_record_t) : M machine unit :=
  let! s := get in
  let old := cr3 s in
  do! load_page_table pman_kernel_context;
  do! (if negb (Nat.eqb old pman_kernel_context) then scheduler_load_tsr isr else ret tt);
  do! interrupt_registry_invoke channel isr None;
  yield_machine fuel.
Definition pic1_keyboard_handler := pic_handler IC_KEYBOARD.
Definition pic1_com2_handler := pic_handler IC_COM2.
Definition pic1_com1_handler := pic_handler IC_COM1.
Definition pic1_timer_handler := pic_handler IC_TIMER.
Definition pic2_mouse_handler := pic_handler IC_MOUSE.

(** The handlers of exceptions; two of them halt the processor first. *)
Definition exception_handler (channel : Z) (isr : task_state_record_t) (code : option page_fault_t) : M machine unit :=
  do! load_page_table pman_kernel_context;
  do! interrupt_registry_invoke channel isr code;
  yield_machine fuel.
Definition div0_handler isr := exception_handler IC_DIV0 isr None.
Definition nmi_handler isr := exception_handler IC_NMI isr None.
Definition bp_int3_handler isr := exception_handler IC_BP_INT3 isr None.
Definition ovf_handler isr := exception_handler IC_OVF isr None.
Definition bound_range_handler isr := exception_handler IC_BOUND_RANGE isr None.
Definition invalid_opcode_handler (isr : task_state_record_t) : M machine unit :=
  do! (stop_with Halted : M machine unit); exception_handler IC_INVALID_OPCODE isr None.
Definition device_not_avail_handler isr := exception_handler IC_DEVICE_NOT_AVAIL isr None.
Definition double_fault_handler isr := exception_handler IC_DOUBLE_FAULT isr None.
Definition coproc_segment_overrun_handler isr := exception_handler IC_COPROC_SEGMENT_OVERRUN isr None.
Definition invalid_tss_handler isr := exception_handler IC_INVALID_TSS isr None.
Definition segment_not_present_handler isr := exception_handler IC_SEGMENT_NOT_PRESENT isr None.
Definition stack_segment_fault_handler isr := exception_handler IC_STACK_SEGMENT_FAULT isr None.
Definition general_protection_fault_handler (isr : task_state_record_t) : M machine unit :=
  do! (stop_with Halted : M machine unit); exception_handler IC_GENERAL_PROTECTION_FAULT isr None.
Definition page_fault_handler isr code := exception_handler IC_PAGE_FAULT isr (Some code).
Definition x87_fpu_handler isr := exception_handler IC_X87_FPU isr None.
Definition alignment_check_handler isr := exception_handler IC_ALIGNMENT_CHECK isr None.
Definition machine_check_handler isr := exception_handler IC_MACHINE_CHECK isr None.
Definition simd_fpu_error_handler isr := exception_handler IC_SIMD_FPU_ERROR isr None.
Definition null_handler (isr : task_state_record_t) : M machine unit :=
  do! load_page_table pman_kernel_context; yield_machine fuel.

(** [hlt] with interrupts off never returns.  A fault of the kernel ends in
    [halt]; [pman_context_prepare_write] never returns NULL. *)
Definition pman_page_fault_handler (code : page_fault_t) : M kern unit :=
  let! cur := scheduler_current_process in
  if negb (pf_user code) then stop_with Halted
  else
    let! x := get_process cur in
    let! mapping := on_k_pman (pman_context_get_vaddr (paging_context x) (fault_vaddr code)) in
    match mapping with
    | None => let! _ := signal_process _SIG_COUNT cur SIG_PAGE in ret tt
    | Some m => let! _ := on_k_mem (prepare_write_remap (p_threads x) m) in ret tt
    end.

(** ** System calls *)

(** The address of the saved registers of a thread and of the handler's code. *)
Variable tsr_address : Z -> Z.
Variable syscall_handler_task : Z.

Definition scheduler_start_twin_tsr : M machine unit :=
  let! s := get in
  let! t := of_option Undefined (current_thread (k_sched (mk s))) in
  let! th := on_scheduler (get_thread t) in
  let! k := of_option Undefined (twin_thread th) in
  let! x := on_kernel (on_k_mem get) in
  let! m := of_option Undefined (stack_mapping x !! k) in
  let! y := on_kernel (on_k_pman (get_mapping m)) in
  let! r := get_tsr k in
  do! set_tsr k (tsr_set_stack (m_vaddr y) (m_size_pages y * PAGE_SIZE) (tsr_load_task (tsr_address t) syscall_handler_task r));
  on_scheduler scheduler_start_twin.
Definition syscall_handler_wrapper (isr : task_state_record_t) : M machine unit :=
  do! load_page_table pman_kernel_context;
  do! scheduler_load_tsr isr;
  do! scheduler_start_twin_tsr;
  yield_machine fuel.

(** The end of a call: its result goes to the user thread, unless that is dead. *)
Definition scheduler_return_twin1 (ret_val : Z) : M machine unit :=
  let! s := get in
  let! t := of_option Undefined (current_thread (k_sched (mk s))) in
  let! th := on_scheduler (get_thread t) in
  let! u := of_option Undefined (twin_thread th) in
  let! uh := on_scheduler (get_thread u) in
  do! (match state uh with
       | TS_DEAD => ret tt
       | _ => let! r := get_tsr u in set_tsr u (tsr_load_return ret_val r)
       end);
  let! o := on_scheduler scheduler_return_twin in
  resume_chosen fuel o.

(** A kernel thread waits, with the registers [r] it has at the call. *)
Definition await_machine (interruptable : bool) (e : Z) (r : task_state_record_t) : M machine unit :=
  let! s := get in
  let! t := of_option Undefined (current_thread (k_sched (mk s))) in
  let! o := on_scheduler (if interruptable then scheduler_await_interruptable e else scheduler_await e) in
  match o with
  | None => ret tt
  | Some o => do! set_tsr t r; resume_chosen fuel o
  end.

(** [signalret]: the registers the signal's frame has saved. *)
Definition syscall_signalret : M machine unit :=
  let! s := get in
  let! k := of_option Undefined (current_thread (k_sched (mk s))) in
  let! kh := on_scheduler (get_thread k) in
  let! t := of_option Undefined (twin_thread kh) in
  let! th := on_scheduler (get_thread t) in
  let! p := of_option Undefined (process th) in
  let! x := on_kernel (get_process p) in
  let! r := get_tsr t in
  let! r' := on_kernel (on_k_pman (pop_tsr (paging_context x) r)) in
  do! set_tsr t r';
  do! on_scheduler (upd_thread k (set_state TS_STOPPED));
  do! on_scheduler (thread_run t);
  yield_machine fuel.
(** The registers of a new thread, and of the thread a fork makes. *)
Definition new_thread_tsr (t : Z) (stack : nat) (pc : Z) : M machine unit :=
  let! y := on_kernel (on_k_pman (get_mapping stack)) in
  set_tsr t (tsr_load_pc pc (tsr_set_stack (m_vaddr y) (m_size_pages y * PAGE_SIZE) tsr_zero)).
Definition fork_tsr (target t : Z) : M machine unit :=
  let! r := get_tsr target in set_tsr t (tsr_load_return 0 r).
End interrupts.

(** ** What scheduling leaves in place *)

Create HintDb stable.
(** [P] survives the computation. *)
Definition stable {S A} (P : S -> Prop) (m : M S A) : Prop := forall s a s', P s -> m s = Done (a, s') -> P s'.

Section stable.
Context {S : Type} (P : S -> Prop).
Lemma stable_ret {A} (a : A) : stable P (ret a).
Proof. intros s b s' HP [= _ <-]. done. Qed.
Lemma stable_bind {A B} (m : M S A) (k : A -> M S B) : stable P m -> (forall a, stable P (k a)) -> stable P (bind m k).
Proof. intros Hm Hk s b s' HP (a & s1 & H1 & H2)%bind_done_inv. eapply Hk; [|exact H2]. by eapply Hm. Qed.
Lemma stable_get : stable P get.
Proof. intros s a s' HP [= _ <-]. done. Qed.
Lemma stable_modify f : (forall s, P s -> P (f s)) -> stable P (modify f).
Proof. intros Hf s a s' HP [= _ <-]. by apply Hf. Qed.
Lemma stable_of_option {A} w (o : option A) : stable P (of_option w o).
Proof. intros s a s' HP. destruct o; intros H; [by injection H as _ <-|done]. Qed.
Lemma stable_stop {A} w : stable P (stop_with w : M S A).
Proof. done. Qed.
Lemma stable_zoom {T A} (view : S -> T) upd (m : M T A) : (forall s t, P s -> P (upd t s)) -> stable P (zoom view upd m).
Proof. intros Hu s a s' HP. unfold zoom. destruct (m (view s)) as [[b t]|]; [|done]. intros [= _ <-]. by apply Hu. Qed.
Lemma stable_read {A} (f : S -> outcome (A * S)) : (forall s a s', f s = Done (a, s') -> s' = s) -> stable P f.
Proof. intros Hf s a s' HP H. by rewrite (Hf s a s' H). Qed.
End stable.
#[local] Hint Resolve stable_ret stable_get stable_of_option stable_stop : stable.

Lemma yield_queue_current fuel p : forall s o s', yield_queue fuel p s = Done (o, s') -> forall t, o = Some t -> current_thread s' = Some t.
Proof.
  induction fuel as [|fuel IH]; intros s o s'; cbn [yield_queue]; [done|]. intros (t0 & s1 & _ & H)%bind_done_inv t ->.
  destruct (t0 =? queue_tail p); [discriminate H|]. apply bind_done_inv in H as ([] & s2 & _ & H). apply bind_done_inv in H as (th & s3 & _ & H).
  destruct (state th).
  1,6: apply bind_done_inv in H as ([] & s4 & H1 & H2); injection H1 as <-; by injection H2 as -> <-.
  5: apply bind_done_inv in H as ([] & s4 & _ & H).
  all: by eapply IH.
Qed.
Lemma yield_queues_current ps : forall s o s', yield_queues ps s = Done (o, s') -> forall t, o = Some t -> current_thread s' = Some t.
Proof.
  induction ps as [|p ps IH]; intros s o s'; cbn [yield_queues]; [by intros [= <- _]|]. intros (s0 & s1 & _ & H)%bind_done_inv t ->.
  apply bind_done_inv in H as (o1 & s2 & H1 & H2). destruct o1 as [t1|]; [|by eapply IH]. injection H2 as -> <-. by eapply yield_queue_current.
Qed.
Lemma scheduler_yield_current s o s' t : scheduler_yield s = Done (o, s') -> o = Some t -> current_thread s' = Some t.
Proof.
  unfold scheduler_yield. intros (s0 & s1 & _ & H)%bind_done_inv ->. apply bind_done_inv in H as ([] & s2 & _ & H). by eapply yield_queues_current.
Qed.
Lemma scheduler_return_twin_current s o s' t : scheduler_return_twin s = Done (o, s') -> o = Some t -> current_thread s' = Some t.
Proof.
  unfold scheduler_return_twin. intros (s0 & s1 & _ & H)%bind_done_inv Ho. apply bind_done_inv in H as (t1 & s2 & _ & H). apply bind_done_inv in H as ([] & s3 & _ & H).
  apply bind_done_inv in H as (th & s4 & _ & H). apply bind_done_inv in H as (k & s5 & _ & H). apply bind_done_inv in H as ([] & s6 & _ & H).
  apply bind_done_inv in H as (tk & s7 & _ & H). destruct (state tk); apply bind_done_inv in H as ([] & s8 & _ & H); by eapply scheduler_yield_current.
Qed.
Lemma await_with_current st b e s o s' t : await_with st b e s = Done (Some o, s') -> o = Some t -> current_thread s' = Some t.
Proof.
  unfold await_with. intros (ev & s1 & _ & H)%bind_done_inv ->. destruct (has_signal ev); [by apply bind_done_inv in H as ([] & s2 & _ & H)|].
  apply bind_done_inv in H as (s2 & s3 & _ & H). apply bind_done_inv in H as (t1 & s4 & _ & H). apply bind_done_inv in H as ([] & s5 & _ & H).
  apply bind_done_inv in H as ([] & s6 & _ & H). apply bind_done_inv in H as ([] & s7 & _ & H). apply bind_done_inv in H as ([] & s8 & _ & H).
  apply bind_done_inv in H as (r & s9 & H1 & H2). injection H2 as -> <-. by eapply scheduler_yield_current.
Qed.

Section proofs.
Context {V F T : Type} `{HV : VirtualRanges V} `{HF : FrameAllocator F} `{HT : PageMapper T}.
Context (ops : Z -> fs_superblock_ops_t).
Variables _SIG_COUNT SIG_CHILD SIG_PAGE : Z.
Abbreviation kern := (@kernel V F T).
Abbreviation machine := (@machine V F T).
Implicit Types (k : kern) (m : machine).

(** Every process has an address space of its own. *)
Definition user_contexts k : Prop := forall p x, processes k !! p = Some x -> paging_context x <> pman_kernel_context.

Lemma user_contexts_same k k' : processes k' = processes k -> user_contexts k -> user_contexts k'.
Proof. intros E H p x. rewrite E. by apply H. Qed.
Lemma stable_on_k_sched {A} (c : M sched A) : stable user_contexts (on_k_sched c).
Proof. by apply stable_zoom. Qed.
Lemma stable_on_k_fs {A} (c : M fs A) : stable user_contexts (on_k_fs c).
Proof. by apply stable_zoom. Qed.
Lemma stable_on_k_mem {A} (c : M (@pmem V F T) A) : stable user_contexts (on_k_mem c).
Proof. by apply stable_zoom. Qed.
Lemma stable_on_k_pman {A} (c : M (@pman V F T) A) : stable user_contexts (on_k_pman c).
Proof. apply stable_on_k_mem. Qed.
Lemma stable_get_process p : stable user_contexts (get_process p : M kern process_t).
Proof. apply stable_read. intros k x k'. unfold get_process. destruct (processes k !! p); [by intros [= _ ->]|done]. Qed.

Lemma stable_on_signals {A} p (c : M signals A) : stable user_contexts (on_signals p c : M kern A).
Proof.
  intros k a k' Hk. unfold on_signals. intros (x & k1 & Hx & H)%bind_done_inv. unfold get_process in Hx. destruct (processes k !! p) as [x'|] eqn:Ex; [|done]. injection Hx as <- <-. rename x' into x.
  rewrite bind_get in H. destruct (c _) as [[b s]|]; [|done]. injection H as _ <-. intros q y. cbn. intros [[<- <-]|[_ Hq]]%lookup_insert_Some; [exact (Hk p x Ex)|exact (Hk q y Hq)].
Qed.
Lemma on_signals_sched p k d k' : on_signals p (on_table take_signal) k = Done (d, k') -> k_sched k' = k_sched k.
Proof.
  unfold on_signals. intros (x & k1 & Hx & H)%bind_done_inv. unfold get_process in Hx. destruct (processes k !! p) as [x'|]; [|done]. injection Hx as -> <-.
  rewrite bind_get in H. unfold on_table, zoom in H. cbn [table sig_sched] in H. destruct (take_signal (signal_table x)) as [[b s]|]; [|done]. by injection H as _ <-.
Qed.
#[local] Hint Resolve stable_on_k_sched stable_on_k_fs stable_on_k_mem stable_on_k_pman stable_get_process stable_on_signals : stable.

Lemma lookup_pid_reads l n k o k' : lookup_pid l n k = Done (o, k') -> k' = k.
Proof.
  revert k o k'. induction l as [|p l IH]; intros k o k'; cbn [lookup_pid]; [by intros [= _ <-]|]. intros (x & k1 & Hx & H)%bind_done_inv.
  assert (k1 = k) as ->. { unfold get_process in Hx. destruct (processes k !! p); [by injection Hx as _ ->|done]. }
  destruct (pid x =? n); [by injection H as _ <-|by eapply IH].
Qed.
Lemma stable_process_kill fuel p : stable user_contexts (process_kill ops _SIG_COUNT SIG_CHILD fuel p : M kern unit).
Proof.
  unfold process_kill. apply stable_bind; [auto with stable|intros x]. apply stable_bind; [auto with stable|intros _]. unfold process_free.
  apply stable_bind; [auto with stable|intros y]. apply stable_bind; [by apply stable_modify|intros _]. apply stable_bind.
  { apply stable_read. intros k o k'. unfold process_lookup. rewrite bind_get. apply lookup_pid_reads. }
  intros parent. apply stable_bind.
  { destruct parent as [q|]; [|apply stable_ret]. apply stable_bind; [|intros _; apply stable_bind; auto with stable].
    unfold signal_process. apply stable_bind; auto with stable. }
  intros _. do 5 (apply stable_bind; [auto with stable|intros _]). apply stable_modify. intros k Hk q z. cbn. intros [_ Hq]%lookup_delete_Some. by apply (Hk q).
Qed.

(** ** The registers of the threads *)

(** Every thread has its own registers: those of the processor for the user
    thread that runs, and those saved for the others.  They are compared as a
    user thread sees them, with interrupts on. *)
Definition saved m : gmap Z task_state_record_t := enable_interrupts <$> tsrs m.
Definition registers m : gmap Z task_state_record_t :=
  match cpu m with UserMode t r => <[t := enable_interrupts r]> (saved m) | _ => saved m end.

(** A signal's frame may be pushed on the way back to a thread. *)
Inductive delivered : gmap Z task_state_record_t -> gmap Z task_state_record_t -> Prop :=
  | no_signal regs : delivered regs regs
  | signal_pushed regs t r h sig : regs !! t = Some r -> delivered regs (<[t := signal_registers h sig r]> regs).

Definition runs m (t : Z) : Prop := current_thread (k_sched (mk m)) = Some t.
Definition machine_ok m : Prop := user_contexts (mk m) /\
  match cpu m with
  | Waiting_ => cr3 m = pman_kernel_context
  | UserMode t _ => runs m t /\ cr3 m <> pman_kernel_context
  | KernelMode t _ => runs m t /\ cr3 m = pman_kernel_context
  end.

Definition with_kernel k m : machine := Machine k (tsrs m) (cpu m) (cr3 m) (nodes m).
Lemma on_kernel_inv {A} (c : M kern A) m a m' : on_kernel c m = Done (a, m') -> exists k', c (mk m) = Done (a, k') /\ m' = with_kernel k' m.
Proof. unfold on_kernel, zoom. destruct (c (mk m)) as [[b k']|]; [|done]. intros [= -> <-]. by exists k'. Qed.
Lemma on_scheduler_inv {A} (c : M sched A) m a m' : on_scheduler c m = Done (a, m') ->
  exists s', c (k_sched (mk m)) = Done (a, s') /\ m' = with_kernel (with_sched s' (mk m)) m.
Proof.
  intros (k' & H & ->)%on_kernel_inv. unfold on_k_sched, zoom in H. destruct (c (k_sched (mk m))) as [[b s']|]; [|done]. injection H as -> <-. by exists s'.
Qed.
Lemma get_tsr_inv t m r m' : get_tsr t m = Done (r, m') -> tsrs m !! t = Some r /\ m' = m.
Proof. unfold get_tsr. destruct (tsrs m !! t); [|done]. by intros [= -> ->]. Qed.
Lemma of_option_inv {S A} w (o : option A) (s : S) a s' : of_option w o s = Done (a, s') -> o = Some a /\ s' = s.
Proof. destruct o; [|done]. by intros [= -> ->]. Qed.
Lemma get_thread_inv t s th s' : get_thread t s = Done (th, s') -> threads s !! t = Some th /\ s' = s.
Proof. unfold get_thread. destruct (threads s !! t); [|done]. by intros [= -> ->]. Qed.
Lemma got_process_inv p k x k' : get_process p k = Done (x, k') -> processes k !! p = Some x /\ k' = k.
Proof. unfold get_process. destruct (processes k !! p); [|done]. by intros [= -> ->]. Qed.
Lemma with_kernel_id m : with_kernel (mk m) m = m.
Proof. by destruct m. Qed.
Lemma with_sched_id k : with_sched (k_sched k) k = k.
Proof. by destruct k. Qed.
Lemma read_thread_inv t m th m' : on_scheduler (get_thread t) m = Done (th, m') -> threads (k_sched (mk m)) !! t = Some th /\ m' = m.
Proof. intros (s' & (Ht & ->)%get_thread_inv & ->)%on_scheduler_inv. by rewrite with_sched_id, with_kernel_id. Qed.
Lemma read_process_inv p m x m' : on_kernel (get_process p) m = Done (x, m') -> processes (mk m) !! p = Some x /\ m' = m.
Proof. intros (k' & (Hp & ->)%got_process_inv & ->)%on_kernel_inv. by rewrite with_kernel_id. Qed.

(** Pushing a frame changes the memory alone. *)
Lemma on_pman_inv {A} (c : M (@pman V F T) A) m a m' : on_kernel (on_k_pman c) m = Done (a, m') ->
  exists x s', m' = with_kernel (with_mem x (mk m)) m /\ c (mem_pman (k_mem (mk m))) = Done (a, s').
Proof.
  intros (k' & H & ->)%on_kernel_inv. unfold on_k_pman, on_k_mem, on_pman, zoom in H. destruct (c _) as [[b s]|]; [|done]. injection H as -> <-. by exists (Pmem s (stack_mapping (k_mem (mk m)))), s.
Qed.

Lemma deliver_signal_spec fuel t p m on m' : deliver_signal ops _SIG_COUNT SIG_CHILD fuel t p m = Done (on, m') -> user_contexts (mk m) ->
  user_contexts (mk m') /\ cr3 m' = cr3 m /\ cpu m' = cpu m /\
  if on : bool then k_sched (mk m') = k_sched (mk m) /\ delivered (saved m) (saved m') else tsrs m' = tsrs m.
Proof.
  intros (d & m1 & H1 & H)%bind_done_inv Hu. apply on_kernel_inv in H1 as (k1 & H1 & ->).
  pose proof (stable_on_signals _ _ _ _ _ Hu H1) as Hu1. pose proof (on_signals_sched _ _ _ _ H1) as Hs1.
  destruct d as [|a|h sig]; [| |].
  - injection H as <- <-. split; [done|]. split; [done|]. split; [done|]. split; [done|apply no_signal].
  - destruct a; [|injection H as <- <-; split; [done|]; split; [done|]; split; [done|]; split; [done|apply no_signal]..].
    apply bind_done_inv in H as ([] & m2 & H2 & H). injection H as <- <-. apply on_kernel_inv in H2 as (k2 & H2 & ->).
    split; [by eapply stable_process_kill|done].
  - apply bind_done_inv in H as (r & m2 & H2 & H). apply get_tsr_inv in H2 as [Hr ->]. apply bind_done_inv in H as (x & m2 & H2 & H). apply read_process_inv in H2 as [Hx ->].
    apply bind_done_inv in H as (r' & m2 & H2 & H). apply on_pman_inv in H2 as (y & s' & -> & H2). apply push_signal_frame_registers in H2 as ->.
    apply bind_done_inv in H as ([] & m3 & H3 & H). injection H3 as <-. injection H as <- <-.
    split; [done|]. split; [done|]. split; [done|]. split; [done|]. unfold saved. cbn [tsrs]. rewrite fmap_insert, enable_signal.
    apply signal_pushed. cbn in Hr. rewrite lookup_fmap, Hr. done.
Qed.

Lemma resume_chosen_spec fuel : forall o m m', resume_chosen ops _SIG_COUNT SIG_CHILD fuel o m = Done (tt, m') -> user_contexts (mk m) ->
  (forall t, o = Some t -> runs m t) -> cr3 m = pman_kernel_context ->
  machine_ok m' /\ delivered (saved m) (registers m').
Proof.
  assert (forall fuel o m m', resume_chosen ops _SIG_COUNT SIG_CHILD fuel o m = Done (tt, m') -> user_contexts (mk m) ->
    (forall t, o = Some t -> runs m t) -> cr3 m = pman_kernel_context ->
    (forall n, fuel = S n -> forall o m m', resume_chosen ops _SIG_COUNT SIG_CHILD n o m = Done (tt, m') -> user_contexts (mk m) ->
      (forall t, o = Some t -> runs m t) -> cr3 m = pman_kernel_context -> machine_ok m' /\ delivered (saved m) (registers m')) ->
    machine_ok m' /\ delivered (saved m) (registers m')) as Hstep.
  2:{ induction fuel as [|fuel IH]; intros o m m' H Hu Ho Hc; apply (Hstep _ o m m' H Hu Ho Hc); [done|]. by intros n [= <-]. }
  intros n [t|] m m' H Hu Ho Hc IH.
  2:{ destruct n; injection H as <-; (split; [by split|apply no_signal]). }
  specialize (Ho t eq_refl).
  assert ((let! th := on_scheduler (get_thread t) in
      match level th with
      | TL_KERNEL => resume_tsr_kernel t
      | TL_USER =>
          let! p := of_option Undefined (process th) in
          let! on := deliver_signal ops _SIG_COUNT SIG_CHILD n t p in
          if on : bool then let! x := on_kernel (get_process p) in resume_tsr_user t (paging_context x)
          else match n with O => stop_with NoFuel | S n' => let! o' := on_scheduler scheduler_yield in resume_chosen ops _SIG_COUNT SIG_CHILD n' o' end
      end) m = Done (tt, m')) as H' by (destruct n; exact H).
  clear H. apply bind_done_inv in H' as (th & m1 & H1 & H). apply read_thread_inv in H1 as [Hth ->]. destruct (level th).
  - apply bind_done_inv in H as (p & m1 & H1 & H). apply of_option_inv in H1 as [Hp ->]. apply bind_done_inv in H as (on & m1 & H1 & H).
    destruct (deliver_signal_spec _ _ _ _ _ _ H1 Hu) as (Hu1 & Hc1 & _ & Hon). destruct on.
    + destruct Hon as [Hs Hd]. apply bind_done_inv in H as (x & m2 & H2 & H). apply read_process_inv in H2 as [Hx ->].
      apply bind_done_inv in H as (r & m2 & H2 & H). apply get_tsr_inv in H2 as [Hr ->]. injection H as <-. split.
      * split; [done|]. cbn. split; [unfold runs in *; cbn; by rewrite Hs|by apply (Hu1 p)].
      * unfold registers. cbn [cpu]. change (saved (Machine _ (tsrs m1) _ _ _)) with (saved m1). rewrite enable_interrupts_idemp, insert_id; [done|].
        unfold saved. rewrite lookup_fmap, Hr. done.
    + destruct n as [|n]; [done|]. apply bind_done_inv in H as (o' & m2 & H2 & H). apply on_scheduler_inv in H2 as (s2 & H2 & ->).
      destruct (IH n eq_refl o' _ m' H) as [Hok Hd]; [done|intros t' Ht'; by apply (scheduler_yield_current _ _ _ t' H2)|by rewrite <- Hc, <- Hc1|].
      split; [done|]. unfold saved at 1 in Hd. cbn [tsrs with_kernel] in Hd. by rewrite Hon in Hd.
  - apply bind_done_inv in H as (r & m2 & H2 & H). apply get_tsr_inv in H2 as [Hr ->]. injection H as <-. split; [by split|apply no_signal].
Qed.

(** ** The machine step by step *)

Variable call : Z -> Z -> task_state_record_t -> option page_fault_t -> machine -> outcome (unit * machine).
(** Handlers of drivers leave the saved registers and the address space alone,
    and give no process the kernel's. *)
Definition well_behaved : Prop := forall h ch isr code m m', call h ch isr code m = Done (tt, m') ->
  tsrs m' = tsrs m /\ cr3 m' = cr3 m /\ (user_contexts (mk m) -> user_contexts (mk m')).
Variables (fuel : nat) (tsr_address : Z -> Z) (syscall_handler_task : Z).

Inductive machine_event :=
  | UserRuns (t : Z) (r : task_state_record_t)      (* user code, until its registers are [r] *)
  | DeviceInterrupt (channel : Z)
  | SystemCall (t k : Z)                            (* of [t], which [k] serves *)
  | KernelRuns                                      (* kernel code that does not switch *)
  | KernelWaits (k : Z)
  | CallReturns (u v : Z) (dead : bool)
  | SignalReturns (u : Z)
  | Forks (u child : Z)
  | NewThread (t : Z).

Inductive machine_step : machine_event -> machine -> machine -> Prop :=
  | step_user m t r r' : cpu m = UserMode t r ->
      machine_step (UserRuns t r') m (Machine (mk m) (tsrs m) (UserMode t (enable_interrupts r')) (cr3 m) (nodes m))
  | step_interrupt m m' ch isr : cpu m = Waiting_ \/ (exists t, cpu m = UserMode t isr) ->
      pic_handler ops _SIG_COUNT SIG_CHILD call fuel ch isr m = Done (tt, m') -> machine_step (DeviceInterrupt ch) m m'
  | step_syscall m m' t r th (k : Z) : cpu m = UserMode t r -> threads (k_sched (mk m)) !! t = Some th -> twin_thread th = Some k -> k <> t ->
      syscall_handler_wrapper ops _SIG_COUNT SIG_CHILD fuel tsr_address syscall_handler_task r m = Done (tt, m') -> machine_step (SystemCall t k) m m'
  | step_kernel m t r r' k : cpu m = KernelMode t r -> user_contexts k -> current_thread (k_sched k) = Some t ->
      machine_step KernelRuns m (Machine k (tsrs m) (KernelMode t r') (cr3 m) (nodes m))
  | step_wait m m' i e t r : cpu m = KernelMode t r -> await_machine ops _SIG_COUNT SIG_CHILD fuel i e r m = Done (tt, m') -> machine_step (KernelWaits t) m m'
  | step_return m m' t r th u uh v : cpu m = KernelMode t r -> threads (k_sched (mk m)) !! t = Some th -> twin_thread th = Some u ->
      threads (k_sched (mk m)) !! u = Some uh ->
      scheduler_return_twin1 ops _SIG_COUNT SIG_CHILD fuel v m = Done (tt, m') -> machine_step (CallReturns u v (bool_decide (state uh = TS_DEAD))) m m'
  | step_signalret m m' t r th u : cpu m = KernelMode t r -> threads (k_sched (mk m)) !! t = Some th -> twin_thread th = Some u ->
      syscall_signalret ops _SIG_COUNT SIG_CHILD fuel m = Done (tt, m') -> machine_step (SignalReturns u) m m'
  | step_fork m m' t r u child : cpu m = KernelMode t r -> fork_tsr u child m = Done (tt, m') -> machine_step (Forks u child) m m'
  | step_thread m m' t r child stack pc : cpu m = KernelMode t r -> new_thread_tsr child stack pc m = Done (tt, m') -> machine_step (NewThread child) m m'.

Inductive machine_run : list machine_event -> machine -> machine -> Prop :=
  | run_nil m : machine_run [] m m
  | run_cons ev evs m m1 m2 : machine_step ev m m1 -> machine_run evs m1 m2 -> machine_run (ev :: evs) m m2.

(** What the events are to threads that each have registers of their own. *)
Definition own_step (ev : machine_event) (regs regs' : gmap Z task_state_record_t) : Prop :=
  match ev with
  | UserRuns t r => regs' = <[t := enable_interrupts r]> regs
  | DeviceInterrupt _ => delivered regs regs'
  | SystemCall _ k | KernelWaits k => exists regs1, (regs1 = regs \/ exists r, regs1 = <[k := r]> regs) /\ delivered regs1 regs'
  | KernelRuns => regs' = regs
  | CallReturns u v true => delivered regs regs'
  | CallReturns u v false => exists r, regs !! u = Some r /\ delivered (<[u := tsr_load_return v r]> regs) regs'
  | SignalReturns u => exists r, delivered (<[u := r]> regs) regs'
  | Forks u child => exists r, regs !! u = Some r /\ regs' = <[child := tsr_load_return 0 r]> regs
  | NewThread t => exists r, regs' = <[t := r]> regs
  end.
Inductive own_run : list machine_event -> gmap Z task_state_record_t -> gmap Z task_state_record_t -> Prop :=
  | own_nil regs : own_run [] regs regs
  | own_cons ev evs regs regs1 regs2 : own_step ev regs regs1 -> own_run evs regs1 regs2 -> own_run (ev :: evs) regs regs2.

Lemma yield_machine_spec n m m' : yield_machine ops _SIG_COUNT SIG_CHILD n m = Done (tt, m') -> user_contexts (mk m) -> cr3 m = pman_kernel_context ->
  machine_ok m' /\ delivered (saved m) (registers m').
Proof.
  intros (o & m1 & H1 & H)%bind_done_inv Hu Hc. apply on_scheduler_inv in H1 as (s1 & H1 & ->).
  apply (resume_chosen_spec n o _ m' H); [done| |done]. intros t Ht. by apply (scheduler_yield_current _ _ _ t H1).
Qed.
Lemma saved_insert t r m k c a l : saved (Machine k (<[t := r]> (tsrs m)) c a l) = <[t := enable_interrupts r]> (saved m).
Proof. unfold saved. cbn. by rewrite fmap_insert. Qed.
Lemma registers_kernel m t r : cpu m = KernelMode t r -> registers m = saved m.
Proof. unfold registers. by intros ->. Qed.

Hypothesis Hcall : well_behaved.

Lemma invoke_keeps ch isr code m m' : interrupt_registry_invoke call ch isr code m = Done (tt, m') ->
  tsrs m' = tsrs m /\ cr3 m' = cr3 m /\ (user_contexts (mk m) -> user_contexts (mk m')).
Proof.
  intros (h & m1 & H1 & H)%bind_done_inv. assert (tsrs m1 = tsrs m /\ cr3 m1 = cr3 m /\ mk m1 = mk m) as (E1 & E2 & E3).
  { unfold on_nodes, zoom in H1. destruct (registered ch (nodes m)) as [[b l]|]; [|done]. by injection H1 as _ <-. }
  destruct h as [h|]; [|injection H as <-; by rewrite E1, E2, E3]. apply Hcall in H. by rewrite <- E1, <- E2, <- E3.
Qed.

Lemma pic_handler_own m m' ch isr : machine_ok m -> cpu m = Waiting_ \/ (exists t, cpu m = UserMode t isr) ->
  pic_handler ops _SIG_COUNT SIG_CHILD call fuel ch isr m = Done (tt, m') -> machine_ok m' /\ delivered (registers m) (registers m').
Proof.
  intros [Hu Hok] Hcpu H. unfold pic_handler in H. rewrite bind_get in H. cbv zeta in H. apply bind_done_inv in H as ([] & m1 & H1 & H). injection H1 as <-.
  apply bind_done_inv in H as ([] & m2 & H2 & H). apply bind_done_inv in H as ([] & m3 & H3 & H). apply invoke_keeps in H3 as (E1 & E2 & E3).
  assert (saved m2 = registers m /\ cr3 m2 = pman_kernel_context /\ mk m2 = mk m) as (S1 & S2 & S3).
  { unfold registers. destruct Hcpu as [Hw|[t Hw]]; rewrite Hw in *.
    - rewrite Hok in H2. injection H2 as <-. done.
    - destruct Hok as [Hr Hc]. rewrite (proj2 (Nat.eqb_neq _ _) Hc) in H2. cbn [negb] in H2. unfold scheduler_load_tsr in H2. rewrite bind_get in H2. cbn [mk] in H2.
      unfold runs in Hr. rewrite Hr in H2. injection H2 as <-. rewrite saved_insert. done. }
  destruct (yield_machine_spec fuel m3 m' H) as [Hok' Hd]; [rewrite <- S3 in Hu; by apply E3|by rewrite E2|]. split; [done|].
  rewrite <- S1. unfold saved in *. by rewrite <- E1.
Qed.

Lemma scheduler_load_inv t r m m' : runs m t -> scheduler_load_tsr r m = Done (tt, m') -> m' = Machine (mk m) (<[t := r]> (tsrs m)) (cpu m) (cr3 m) (nodes m).
Proof. unfold scheduler_load_tsr, runs. intros Hr. rewrite bind_get, Hr. by intros [= <-]. Qed.

Lemma start_twin_inv t th (k : Z) m m' : runs m t -> threads (k_sched (mk m)) !! t = Some th -> twin_thread th = Some k ->
  scheduler_start_twin_tsr tsr_address syscall_handler_task m = Done (tt, m') ->
  (exists r, tsrs m' = <[k := r]> (tsrs m)) /\ cr3 m' = cr3 m /\ processes (mk m') = processes (mk m).
Proof.
  unfold scheduler_start_twin_tsr, runs. intros Hr Ht Hk H. rewrite bind_get, Hr in H. apply bind_done_inv in H as (t' & m1 & H1 & H). injection H1 as <- <-.
  apply bind_done_inv in H as (th' & m1 & H1 & H). apply read_thread_inv in H1 as [Ht' ->]. assert (th' = th) as -> by congruence. rewrite Hk in H.
  apply bind_done_inv in H as (k' & m1 & H1 & H). injection H1 as <- <-. apply bind_done_inv in H as (x & m1 & H1 & H).
  apply on_kernel_inv in H1 as (k1 & H1 & ->). unfold on_k_mem, zoom in H1. cbn in H1. injection H1 as <- <-.
  apply bind_done_inv in H as (ms & m1 & H1 & H). apply of_option_inv in H1 as [_ ->]. apply bind_done_inv in H as (y & m1 & H1 & H). apply on_pman_inv in H1 as (z & s1 & -> & _).
  apply bind_done_inv in H as (r & m1 & H1 & H). apply get_tsr_inv in H1 as [_ ->]. apply bind_done_inv in H as ([] & m1 & H1 & H). injection H1 as <-.
  apply on_scheduler_inv in H as (s' & _ & ->). split; [by eexists|done].
Qed.

Lemma syscall_own m m' t r th (k : Z) : machine_ok m -> cpu m = UserMode t r -> threads (k_sched (mk m)) !! t = Some th -> twin_thread th = Some k ->
  syscall_handler_wrapper ops _SIG_COUNT SIG_CHILD fuel tsr_address syscall_handler_task r m = Done (tt, m') ->
  machine_ok m' /\ exists r', delivered (<[k := r']> (registers m)) (registers m').
Proof.
  intros [Hu Hok] Hcpu Ht Hk H. rewrite Hcpu in Hok. destruct Hok as [Hr _]. unfold syscall_handler_wrapper in H.
  apply bind_done_inv in H as ([] & m1 & H1 & H). injection H1 as <-. apply bind_done_inv in H as ([] & m1 & H1 & H). apply (scheduler_load_inv t) in H1 as ->; [|done].
  apply bind_done_inv in H as ([] & m1 & H1 & H). apply (start_twin_inv t th k) in H1 as ([r' E1] & E2 & E3); [|done..]. cbn in E1, E2, E3.
  destruct (yield_machine_spec fuel m1 m' H) as [Hok' Hd]; [by eapply user_contexts_same|by rewrite E2|]. split; [done|]. exists (enable_interrupts r').
  unfold registers at 1. rewrite Hcpu. unfold saved in *. by rewrite E1, !fmap_insert in Hd.
Qed.

Lemma await_own m m' i e t r : machine_ok m -> cpu m = KernelMode t r -> await_machine ops _SIG_COUNT SIG_CHILD fuel i e r m = Done (tt, m') ->
  machine_ok m' /\ exists regs1, (regs1 = registers m \/ exists r', regs1 = <[t := r']> (registers m)) /\ delivered regs1 (registers m').
Proof.
  intros [Hu Hok] Hcpu H. pose proof Hok as Hok0. rewrite Hcpu in Hok. destruct Hok as [Hr Hc]. unfold await_machine in H. rewrite bind_get in H. unfold runs in Hr. rewrite Hr in H.
  apply bind_done_inv in H as (t' & m1 & H1 & H). injection H1 as <- <-. apply bind_done_inv in H as (o & m1 & H1 & H). apply on_scheduler_inv in H1 as (s1 & H1 & ->).
  assert (forall o', o = Some o' -> forall u, o' = Some u -> current_thread s1 = Some u) as Hcur.
  { intros o' -> u Hu'. destruct i; by eapply await_with_current. }
  destruct o as [o|].
  - apply bind_done_inv in H as ([] & m1 & H2 & H). injection H2 as <-. destruct (resume_chosen_spec fuel o _ m' H) as [Hok' Hd]; [done|by apply Hcur|done|].
    split; [done|]. rewrite saved_insert in Hd. rewrite (registers_kernel m t r Hcpu). exists (<[t := enable_interrupts r]> (saved m)). split; [right; by eexists|done].
  - injection H as <-. assert (current_thread s1 = Some t) as Hs1.
    { assert (forall st b s s', await_with st b e s = Done (None, s') -> current_thread s' = current_thread s) as Haw.
      { clear. intros st b s s'. unfold await_with. intros (ev & s1 & H1 & H)%bind_done_inv. unfold get_event in H1. apply of_option_inv in H1 as [_ ->].
        destruct (has_signal ev); [apply bind_done_inv in H as ([] & s2 & H2 & H); injection H2 as <-; by injection H as <-|].
        exfalso. do 7 (apply bind_done_inv in H as (? & ? & _ & H)). discriminate H. }
      rewrite <- Hr. destruct i; by eapply Haw. }
    split; [split; [done|]; cbn; rewrite Hcpu; by split|]. exists (registers m). split; [by left|]. unfold registers. cbn. rewrite Hcpu. apply no_signal.
Qed.

Lemma return_own m m' t r th (u : Z) uh v : machine_ok m -> cpu m = KernelMode t r -> threads (k_sched (mk m)) !! t = Some th -> twin_thread th = Some u ->
  threads (k_sched (mk m)) !! u = Some uh -> scheduler_return_twin1 ops _SIG_COUNT SIG_CHILD fuel v m = Done (tt, m') ->
  machine_ok m' /\ if bool_decide (state uh = TS_DEAD) then delivered (registers m) (registers m')
    else exists r', registers m !! u = Some r' /\ delivered (<[u := tsr_load_return v r']> (registers m)) (registers m').
Proof.
  intros [Hu Hok] Hcpu Ht Hk Huh H. rewrite Hcpu in Hok. destruct Hok as [Hr Hc]. unfold scheduler_return_twin1 in H. rewrite bind_get in H. unfold runs in Hr. rewrite Hr in H.
  apply bind_done_inv in H as (t' & m1 & H1 & H). injection H1 as <- <-. apply bind_done_inv in H as (th' & m1 & H1 & H). apply read_thread_inv in H1 as [Ht' ->].
  assert (th' = th) as -> by congruence. rewrite Hk in H. apply bind_done_inv in H as (u' & m1 & H1 & H). injection H1 as <- <-.
  apply bind_done_inv in H as (uh' & m1 & H1 & H). apply read_thread_inv in H1 as [Hu' ->]. assert (uh' = uh) as -> by congruence.
  apply bind_done_inv in H as ([] & m1 & H1 & H). apply bind_done_inv in H as (o & m2 & H2 & H). apply on_scheduler_inv in H2 as (s2 & H2 & ->). rewrite (registers_kernel m t r Hcpu).
  assert ((exists r', bool_decide (state uh = TS_DEAD) = false /\ tsrs m !! u = Some r' /\ m1 = Machine (mk m) (<[u := tsr_load_return v r']> (tsrs m)) (cpu m) (cr3 m) (nodes m)) \/
    (bool_decide (state uh = TS_DEAD) = true /\ m1 = m)) as Hm1.
  { destruct (state uh).
    1-6: left; apply bind_done_inv in H1 as (r' & m3 & H3 & H1); apply get_tsr_inv in H3 as [Hr' ->]; injection H1 as <-; by exists r'.
    right. by injection H1 as <-. }
  destruct (resume_chosen_spec fuel o _ m' H) as [Hok' Hd].
  { destruct Hm1 as [(r' & _ & _ & ->)|[_ ->]]; done. }
  { intros u' Ho. by apply (scheduler_return_twin_current _ _ _ u' H2). }
  { destruct Hm1 as [(r' & _ & _ & ->)|[_ ->]]; done. }
  split; [done|]. destruct Hm1 as [(r' & -> & Hr' & ->)|[-> ->]]; [|done]. exists (enable_interrupts r'). unfold saved in *. rewrite lookup_fmap, Hr'. split; [done|].
  cbn in Hd. by rewrite fmap_insert, enable_return in Hd.
Qed.

Lemma signalret_own m m' t r th (u : Z) : machine_ok m -> cpu m = KernelMode t r -> threads (k_sched (mk m)) !! t = Some th -> twin_thread th = Some u ->
  syscall_signalret ops _SIG_COUNT SIG_CHILD fuel m = Done (tt, m') -> machine_ok m' /\ exists r', delivered (<[u := r']> (registers m)) (registers m').
Proof.
  intros [Hu Hok] Hcpu Ht Hk H. rewrite Hcpu in Hok. destruct Hok as [Hr Hc]. unfold syscall_signalret in H. rewrite bind_get in H. unfold runs in Hr. rewrite Hr in H.
  apply bind_done_inv in H as (t' & m1 & H1 & H). injection H1 as <- <-. apply bind_done_inv in H as (th' & m1 & H1 & H). apply read_thread_inv in H1 as [Ht' ->].
  assert (th' = th) as -> by congruence. rewrite Hk in H. apply bind_done_inv in H as (u' & m1 & H1 & H). injection H1 as <- <-.
  apply bind_done_inv in H as (uh & m1 & H1 & H). apply read_thread_inv in H1 as [Huh ->]. apply bind_done_inv in H as (p & m1 & H1 & H). apply of_option_inv in H1 as [_ ->].
  apply bind_done_inv in H as (x & m1 & H1 & H). apply read_process_inv in H1 as [_ ->]. apply bind_done_inv in H as (r0 & m1 & H1 & H). apply get_tsr_inv in H1 as [_ ->].
  apply bind_done_inv in H as (r' & m1 & H1 & H). apply on_pman_inv in H1 as (y & s1 & -> & _). apply bind_done_inv in H as ([] & m1 & H1 & H). injection H1 as <-.
  apply bind_done_inv in H as ([] & m1 & H1 & H). apply on_scheduler_inv in H1 as (s2 & _ & ->). apply bind_done_inv in H as ([] & m1 & H1 & H). apply on_scheduler_inv in H1 as (s3 & _ & ->).
  destruct (yield_machine_spec fuel _ m' H) as [Hok' Hd]; [done|done|]. split; [done|]. exists (enable_interrupts r').
  rewrite (registers_kernel m t r Hcpu). unfold saved in *. cbn in Hd. by rewrite fmap_insert in Hd.
Qed.

Lemma machine_step_own ev m m' : machine_step ev m m' -> machine_ok m -> machine_ok m' /\ own_step ev (registers m) (registers m').
Proof.
  intros [m1 t r r' Hc|m1 m2 ch isr Hc H|m1 m2 t r th k Hc Ht Hk _ H|m1 t r r' k Hc Hu Hcur|m1 m2 i e t r Hc H|m1 m2 t r th u uh v Hc Ht Hk Huh H|m1 m2 t r th u Hc Ht Hk H|m1 m2 t r u child Hc H|m1 m2 t r child stack pc Hc H] Hok.
  - destruct Hok as [Hu Hok]. rewrite Hc in Hok. split; [by split|]. cbn. unfold registers. rewrite Hc. cbn. rewrite insert_insert_eq, enable_interrupts_idemp. done.
  - by apply (pic_handler_own m1 m2 ch isr).
  - destruct (syscall_own m1 m2 t r th k Hok Hc Ht Hk H) as (Hok' & r' & Hd). split; [done|]. cbn. eexists. split; [right; by eexists|exact Hd].
  - destruct Hok as [_ Hok]. rewrite Hc in Hok. split; [by split; [|split; [|apply Hok]]|]. cbn. unfold registers. by rewrite Hc.
  - by apply (await_own m1 m2 i e t r).
  - destruct (return_own m1 m2 t r th u uh v Hok Hc Ht Hk Huh H) as [Hok' Hd]. split; [done|]. cbn. by case_bool_decide.
  - by apply (signalret_own m1 m2 t r th u).
  - apply bind_done_inv in H as (r' & m3 & H1 & H). apply get_tsr_inv in H1 as [Hr ->]. injection H as <-. split; [exact Hok|].
    cbn [own_step]. rewrite (registers_kernel m1 t r Hc). exists (enable_interrupts r'). split; [unfold saved; by rewrite lookup_fmap, Hr|]. unfold registers. cbn [cpu]. rewrite Hc. apply saved_insert.
  - apply bind_done_inv in H as (y & m3 & H1 & H). apply on_pman_inv in H1 as (z & s1 & -> & _). injection H as <-. split; [exact Hok|].
    cbn [own_step]. rewrite (registers_kernel m1 t r Hc). eexists. unfold registers. cbn [cpu with_kernel]. rewrite Hc. apply (saved_insert _ _ m1).
Qed.



(** The page fault handler is well behaved. *)
Lemma stable_page_fault code : stable user_contexts (pman_page_fault_handler _SIG_COUNT SIG_PAGE code : M kern unit).
Proof.
  unfold pman_page_fault_handler. apply stable_bind.
  { unfold scheduler_current_process. apply stable_bind; [auto with stable|intros k]. apply stable_bind; [auto with stable|intros t]. apply stable_bind; auto with stable. }
  intros cur. destruct (negb _); [auto with stable|]. apply stable_bind; [auto with stable|intros x]. apply stable_bind; [auto with stable|intros [n|]].
  - apply stable_bind; auto with stable.
  - apply stable_bind; [|auto with stable]. unfold signal_process. apply stable_bind; auto with stable.
Qed.
Lemma on_kernel_well_behaved (c : M kern unit) m m' : stable user_contexts c -> on_kernel c m = Done (tt, m') ->
  tsrs m' = tsrs m /\ cr3 m' = cr3 m /\ (user_contexts (mk m) -> user_contexts (mk m')).
Proof. intros Hs (k' & H & ->)%on_kernel_inv. split; [done|]. split; [done|]. intros Hu. by eapply Hs. Qed.

(** A fault on a mapping that is not borrowed changes nothing, so a write to
    memory that is mapped for reading faults again and again. *)
Lemma page_fault_again code k cur x n y : scheduler_current_process k = Done (cur, k) -> processes k !! cur = Some x -> pf_user code = true ->
  pm_maps (mem_pman (k_mem k)) !! n = Some y -> (forall r ms, m_type y <> PMAN_MAPPING_BORROWED r ms) ->
  pman_context_get_vaddr (paging_context x) (fault_vaddr code) (mem_pman (k_mem k)) = Done (Some n, mem_pman (k_mem k)) ->
  pman_page_fault_handler _SIG_COUNT SIG_PAGE code k = Done (tt, k).
Proof.
  intros Hcur Hx Hus Hn Hy Hget. unfold pman_page_fault_handler. rewrite (bind_done _ _ _ _ _ Hcur), Hus. cbn [negb]. rewrite (bind_done _ _ _ _ _ (get_process_done k cur x Hx)).
  assert (on_k_pman (pman_context_get_vaddr (paging_context x) (fault_vaddr code)) k = Done (Some n, k)) as E1.
  { unfold on_k_pman, on_k_mem, on_pman, zoom. rewrite Hget. by destruct k as [? ? ? ? ? []]. }
  rewrite (bind_done _ _ _ _ _ E1).
  assert (on_k_mem (prepare_write_remap (p_threads x) n) k = Done (n, k)) as E2.
  { assert (pman_context_prepare_write n (mem_pman (k_mem k)) = Done ((n, false), mem_pman (k_mem k))) as E3.
    { unfold pman_context_prepare_write. rewrite (bind_done _ _ _ _ _ (get_mapping_done _ n y Hn)). destruct (m_type y) eqn:Ey; try done. by destruct (Hy lender mappings). }
    unfold on_k_mem, zoom, prepare_write_remap, bind, on_pman at 1, zoom. rewrite E3. cbn. by destruct k as [? ? ? ? ? []]. }
  by rewrite (bind_done _ _ _ _ _ E2).
Qed.
End proofs.

(** ** Concrete runs *)

Abbreviation demo_machine := (@machine (@valloc_t bump) frame_pool page_tables).

(** Handlers: the clock invokes event 50, and page faults go to the paging manager. *)
Definition demo_call (h ch : Z) (isr : task_state_record_t) (code : option page_fault_t) : M demo_machine unit :=
  match code with
  | Some c => on_kernel (pman_page_fault_handler 8 1 c)
  | None => on_scheduler (event_invoke 50)
  end.
Definition demo_nodes : registry :=
  <[Z.to_nat IC_TIMER := RegistryNode true (Some 1000)]> (<[Z.to_nat IC_PAGE_FAULT := RegistryNode true (Some 1001)]> (replicate (Z.to_nat IC_MAX) (RegistryNode false None))).
(** The user thread of [demo_system], somewhere in its program. *)
Definition demo_user : demo_machine := Machine demo_system {[ 7 := demo_registers; 8 := tsr_zero ]} (UserMode 7 demo_registers) 1 demo_nodes.
Definition later_registers : task_state_record_t := set_rip 0x400200 (set_rax 77 demo_registers).

Lemma demo_call_ok : well_behaved demo_call.
Proof.
  intros h ch isr [c|] m m' H; unfold demo_call in H.
  - by apply (on_kernel_well_behaved (pman_page_fault_handler 8 1 c) m m' (stable_page_fault 8 1 c)).
  - by apply (on_kernel_well_behaved (on_k_sched (event_invoke 50)) m m' (stable_on_k_sched _)).
Qed.
Lemma demo_contexts : user_contexts (mk demo_user).
Proof. intros p x Hx. apply (proj1 (lookup_singleton_Some (M:=gmap Z) 100 p demo_first x)) in Hx as [_ <-]. discriminate. Qed.
Lemma demo_user_ok : machine_ok demo_user.
Proof. split; [apply demo_contexts|]. split; [reflexivity|discriminate]. Qed.


