(* ===== verification/SerialTty.v ===== *)
(** * SerialTty: terminals on the serial ports (modules/x86_serial_tty/src/tty.c)

    The two ports COM1 and COM2, each with a terminal of Tty.v: the interrupt
    handlers type the byte that has arrived, and the terminal's output goes out
    byte by byte, each when the transmitter is ready.  [SerialPorts] is what the
    code relies on in the hardware (the 16550: its registers, and a transmitter
    that is busy for a bounded number of polls); a simulated pair of ports is
    the instance.  Both ports are configured (config.h). *)
From S2P Require Import Prelude DiscPio Dll Sched Wait Bitmap Tty IntRegistry.

(** ** The hardware *)

(** What a port holds: the line control, interrupt enable and modem control
    registers, the divisor, the bytes sent, the byte that has arrived. *)
Record uart_t := Uart { lcr : Z; ier : Z; mcr : Z; dll : Z; dlm : Z; sent : list Z; holding : option Z }.
Definition set_holding (b : option Z) (u : uart_t) : uart_t := Uart (lcr u) (ier u) (mcr u) (dll u) (dlm u) (sent u) b.
Definition dlab (u : uart_t) : bool := Z.testbit (lcr u) 7.
(** A write to a register; the FIFOs, of register 2, stay off. *)
Definition uart_out (off v : Z) (u : uart_t) : uart_t :=
  match off with
  | 0 => if dlab u then Uart (lcr u) (ier u) (mcr u) v (dlm u) (sent u) (holding u) else Uart (lcr u) (ier u) (mcr u) (dll u) (dlm u) (sent u ++ [v]) (holding u)
  | 1 => if dlab u then Uart (lcr u) (ier u) (mcr u) (dll u) v (sent u) (holding u) else Uart (lcr u) v (mcr u) (dll u) (dlm u) (sent u) (holding u)
  | 3 => Uart v (ier u) (mcr u) (dll u) (dlm u) (sent u) (holding u)
  | 4 => Uart (lcr u) (ier u) v (dll u) (dlm u) (sent u) (holding u)
  | _ => u
  end.

Class SerialPorts (P : Type) `{!PortIO P} (ports : list Z) := {
  uart : Z -> P -> uart_t;
  tx_delay : Z -> P -> nat;
  tx_limit : nat;
  tx_bound p w : (tx_delay p w <= tx_limit)%nat;
  serial_status p w : p ∈ ports -> exists st w', inb (u16 (p + 5)) w = Done (st, w') /\ (forall q, q ∈ ports -> uart q w' = uart q w) /\
    (tx_delay p w' <= pred (tx_delay p w))%nat /\ (Z.land st 0x20 =? 0) = negb (bool_decide (tx_delay p w = 0%nat));
  serial_in p w : p ∈ ports -> exists b w', inb p w = Done (b, w') /\ 0 <= b < 256 /\
    (dlab (uart p w) = false -> forall c, holding (uart p w) = Some c -> 0 <= c < 256 -> b = c) /\
    uart p w' = (if dlab (uart p w) then uart p w else set_holding None (uart p w)) /\
    (forall q, q ∈ ports -> q <> p -> uart q w' = uart q w);
  serial_out p off v w : p ∈ ports -> 0 <= off <= 4 -> 0 <= v < 256 -> (off = 0 -> dlab (uart p w) = false -> tx_delay p w = 0%nat) ->
    exists w', outb (u16 (p + off)) v w = Done (tt, w') /\ uart p w' = uart_out off v (uart p w) /\
    (forall q, q ∈ ports -> q <> p -> uart q w' = uart q w);
  (** A byte arrives on the line. *)
  arrive : Z -> Z -> P -> P;
  arrives p b w : p ∈ ports -> uart p (arrive p b w) = set_holding (Some b) (uart p w) /\ (forall q, q ∈ ports -> q <> p -> uart q (arrive p b w) = uart q w)
}.

(** Events next to something else. *)
Section pair_events.
Context {X E : Type} `{HE : EventService E}.
Definition on_fst {A} (m : M X A) : M (X * E) A := zoom fst (fun x s => (x, snd s)) m.
Definition on_snd {A} (m : M E A) : M (X * E) A := zoom snd (fun e s => (fst s, e)) m.

#[export] Instance pair_events : EventService (X * E).
Proof.
  refine {| ev_init e := on_snd (ev_init e); ev_free e := on_snd (ev_free e); ev_invoke e := on_snd (ev_invoke e); ev_await e := on_snd (ev_await e);
    ev_latched w e := ev_latched (snd w) e |}.
  - intros e [x w] Hl. destruct (ev_await_latched e w Hl) as (w' & Hw & Hl'). exists (x, w'). split; [|exact Hl']. unfold on_snd, zoom. cbn. by rewrite Hw.
  - intros e [x w] w'. unfold on_snd, zoom. cbn. destruct (ev_await e w) as [[b v]|] eqn:Hw; [|done]. intros [= -> <-]. by eapply ev_await_returns.
Defined.
End pair_events.

(** ** The driver *)

Inductive com_t := COM1 | COM2.
#[export] Instance com_eq_dec : EqDecision com_t.
Proof. solve_decision. Defined.

Record port_data_t := PortData { port : Z; tty : option tty_t }.

Section serial.
Context {P E : Type} `{HP : PortIO P} `{HE : EventService E}.
(** [fuel] bounds the polls for one byte. *)
Variable fuel : nat.

Record serial := Serial { wires : P * E; com1_data : port_data_t; com2_data : port_data_t; s_nodes : registry; ttys : list Z }.
Definition com_data (c : com_t) (s : serial) : port_data_t := match c with COM1 => com1_data s | COM2 => com2_data s end.
Definition set_com (c : com_t) (d : port_data_t) (s : serial) : serial :=
  match c with COM1 => Serial (wires s) d (com2_data s) (s_nodes s) (ttys s) | COM2 => Serial (wires s) (com1_data s) d (s_nodes s) (ttys s) end.
Definition set_wires (w : P * E) (s : serial) : serial := Serial w (com1_data s) (com2_data s) (s_nodes s) (ttys s).
Definition on_ports {A} (m : M P A) : M serial A := zoom wires set_wires (on_fst m).
Definition on_s_nodes {A} (m : M registry A) : M serial A := zoom s_nodes (fun l s => Serial (wires s) (com1_data s) (com2_data s) l (ttys s)) m.

(** [while ((inb(private->port + 5) & 0x20) == 0) { }] *)
Fixpoint wait_transmitter (n : nat) (p : Z) : M P unit :=
  match n with
  | O => stop_with NoFuel
  | S n' => let! st := inb (u16 (p + 5)) in if Z.land st 0x20 =? 0 then wait_transmitter n' p else ret tt
  end.
Definition write (p : Z) (buffer : list Z) : M P Z :=
  do! for_each buffer (fun c => do! wait_transmitter fuel p; outb (u16 p) (u8 c));
  ret (Z.of_nat (length buffer)).
(** The terminal's [write_handler]. *)
Definition handler_of (p : Z) (buffer : list Z) : M (P * E) unit := on_fst (let! _ := write p buffer in ret tt).

(** Calls on the terminal of a port, which may be NULL. *)
Definition on_tty {A} (c : com_t) (m : Z -> M (waiting tty_t (P * E)) A) : M serial A := fun s =>
  match tty (com_data c s) with
  | Some t =>
      match m (port (com_data c s)) (Waiting t (wires s)) with
      | Done (a, w) => Done (a, set_wires (evs w) (set_com c (PortData (port (com_data c s)) (Some (dev w))) s))
      | Stop x => Stop x
      end
  | None => Stop Undefined
  end.

Definition read_com (c : com_t) : M serial Z := let! s := get in on_ports (inb (port (com_data c s))).
(** [com1_int_handler], [com2_int_handler]. *)
Definition com_int_handler (c : com_t) : M serial unit :=
  let! b := read_com c in
  let ch := s8 b in
  let! _ := on_tty c (fun p => tty_provide_char (handler_of p) (if ch =? 0x7F then 0x08 else ch)) in
  ret tt.
Definition serial_write (c : com_t) (buffer : list Z) : M serial Z := on_tty c (fun p => tty_write (handler_of p) buffer).

Definition channel_of (c : com_t) : Z := match c with COM1 => IC_COM1 | COM2 => IC_COM2 end.
Definition outb_com (c : com_t) (off v : Z) : M serial unit := let! s := get in on_ports (outb (u16 (port (com_data c s) + off)) v).

(** What [tty_init] is given, and the address of the port's interrupt handler. *)
Record com_args := ComArgs { a_event : Z; a_junk : Z; a_page : list Z; a_handler : Z }.

(** One half of [init].  [bios]: the port number at 0x400 or 0x402. *)
Definition init_com (c : com_t) (bios : Z) (a : com_args) : M serial code :=
  do! modify (fun s => set_com c (PortData bios (tty (com_data c s))) s);
  do! modify (fun s => set_com c (PortData (match c with COM1 => 0x3F8 | COM2 => if bios =? 0 then 0x2F8 else bios end) (tty (com_data c s))) s);
  let! s := get in
  let! t := zoom wires set_wires (tty_init (ttys s) (a_event a) (a_junk a) (a_page a)) in
  do! modify (fun s => Serial (wires s) (com1_data s) (com2_data s) (s_nodes s) (tty_num t :: ttys s));
  do! modify (fun s => set_com c (PortData (port (com_data c s)) (Some t)) s);
  do! for_each (seq 0 10) (fun _ => let! _ := read_com c in ret tt);
  let! ok := on_s_nodes (interrupt_registry_register (channel_of c) (a_handler a)) in
  if negb ok then ret (Err ERROR_INT_UNAVAIL)
  else
    do! outb_com c 3 0x80;
    do! outb_com c 0 1;
    do! outb_com c 1 0;
    do! outb_com c 3 0x03;
    do! outb_com c 1 0x01;
    do! outb_com c 2 0x06;
    do! outb_com c 4 0x0F;
    ret (Num 0).
Definition init (bios1 bios2 : Z) (a1 a2 : com_args) : M serial code :=
  let! r := init_com COM1 bios1 a1 in
  if bool_decide (r = Num 0) then init_com COM2 bios2 a2 else ret r.
End serial.

(** ** Interrupts *)

Section interrupts.
Context {P E : Type} `{HP : PortIO P} `{HE : EventService E}.
Variable fuel : nat.
Variables (h1 h2 : Z).

(** An interrupt on a channel, with the handlers of this module. *)
Definition com_interrupt (channel : Z) : M (@serial P E) unit :=
  let! h := on_s_nodes (registered channel) in
  match h with
  | Some h => if h =? h1 then com_int_handler fuel COM1 else if h =? h2 then com_int_handler fuel COM2 else stop_with Undefined
  | None => ret tt
  end.
End interrupts.

(** ** Two line editors *)

Inductive serial_op :=
  | Arrive (c : com_t) (b : Z)            (* a byte, and its interrupt *)
  | ReadTty (c : com_t) (size : Z)
  | ResumeTty (c : com_t) (size : Z)
  | WriteTty (c : com_t) (l : list Z).
Inductive serial_result := Arrived | GotText (r : waited (list Z)) | Wrote (n : Z).

Section session.
Context {P E : Type} `{HP : PortIO P} `{HE : EventService E} {p1 p2 : Z} `{HS : !SerialPorts P [p1; p2] }.
Variable fuel : nat.
Variables (h1 h2 : Z).

Definition run_serial (o : serial_op) : M (@serial P E) serial_result :=
  match o with
  | Arrive c b =>
      do! (let! s := get in on_ports (modify (arrive (port (com_data c s)) b)));
      do! com_interrupt fuel h1 h2 (channel_of c);
      ret Arrived
  | ReadTty c n => let! r := on_tty c (fun _ => tty_read n) in ret (GotText r)
  | ResumeTty c n => let! l := on_tty c (fun _ => tty_read_rest n) in ret (GotText (Ready l))
  | WriteTty c l => let! n := serial_write fuel c l in ret (Wrote n)
  end.

(** The texts sent, and the lines. *)
Abbreviation texts := (list Z * list Z)%type.
Definition text_of (c : com_t) (o : texts) : list Z := match c with COM1 => fst o | COM2 => snd o end.
Definition append (c : com_t) (l : list Z) (o : texts) : texts :=
  match c with COM1 => (fst o ++ l, snd o) | COM2 => (fst o, snd o ++ l) end.
Definition print (c : com_t) (l : list Z) : M (texts * E) unit := on_fst (modify (append c (u8 <$> l))).

Record lines := Lines { l_world : texts * E; line1 : line; line2 : line }.
Definition line_of (c : com_t) (t : lines) : line := match c with COM1 => line1 t | COM2 => line2 t end.
Definition put_line (c : com_t) (w : texts * E) (l : line) (t : lines) : lines :=
  match c with COM1 => Lines w l (line2 t) | COM2 => Lines w (line1 t) l end.
Definition on_line {A} (c : com_t) (m : M (waiting line (texts * E)) A) : M lines A :=
  zoom (fun t => Waiting (line_of c t) (l_world t)) (fun w t => put_line c (evs w) (dev w) t) m.

Variable event : com_t -> Z.
(** DEL, the key serial terminals send, takes back a character. *)
Definition key_of (b : Z) : Z := if s8 b =? 0x7F then BS else s8 b.
Definition run_lines (o : serial_op) : M lines serial_result :=
  match o with
  | Arrive c b => let! _ := on_line c (line_type (print c) (event c) (key_of b)) in ret Arrived
  | ReadTty c _ => let! r := on_line c (line_read (event c)) in ret (GotText r)
  | ResumeTty c _ => let! l := on_line c line_take in ret (GotText (Ready l))
  | WriteTty c l =>
      do! on_line c (on_events (on_fst (modify (append c (l ≫= fun x => if x =? LF then [CR; LF] else [u8 x])))));
      ret (Wrote (Z.of_nat (length l)))
  end.
Definition serial_op_ok (o : serial_op) : Prop :=
  match o with Arrive _ b => 0 <= b < 256 | ReadTty _ n | ResumeTty _ n => TTY_BUFFER_SIZE <= n | WriteTty _ _ => True end.
End session.

(** ** Simulations *)

(** Two steps of a simulation in a row. *)
Lemma simulates_via {S T U A} (R1 : S -> T -> Prop) (R2 : T -> U -> Prop) (R : S -> U -> Prop) (m : M S A) (n : M T A) (o : M U A) :
  (forall s u, R s u -> exists t, R1 s t /\ R2 t u) -> (forall s t u, R1 s t -> R2 t u -> R s u) ->
  simulates R1 m n -> simulates R2 n o -> simulates R m o.
Proof.
  intros Hs Hj H1 H2 s u Hr. destruct (Hs s u Hr) as (t & Hst & Htu). specialize (H1 s t Hst). specialize (H2 t u Htu).
  destruct (m s) as [[a s']|x], (n t) as [[b t']|y], (o u) as [[d u']|z]; try done; cbn in *.
  - destruct H1 as [-> H1], H2 as [-> H2]. split; [done|]. by eapply Hj.
  - by rewrite H1.
Qed.

(** The line editor on two worlds that answer alike. *)
Section worlds.
Context {W1 W2 : Type} `{HE1 : EventService W1} `{HE2 : EventService W2} (R : W1 -> W2 -> Prop).
Variables (wh1 : list Z -> M W1 unit) (wh2 : list Z -> M W2 unit) (e : Z).
Hypothesis Hwh : forall l, simulates R (wh1 l) (wh2 l).
Hypothesis Hinvoke : simulates R (ev_invoke e) (ev_invoke e).
Hypothesis Hawait : simulates R (ev_await e) (ev_await e).

Definition beside {D} (s : waiting D W1) (t : waiting D W2) : Prop := dev s = dev t /\ R (evs s) (evs t).

Lemma beside_events {D A} (m : M W1 A) (n : M W2 A) : simulates R m n -> simulates (beside (D := D)) (on_events m) (on_events n).
Proof.
  intros Hm s t [Hd Hr]. specialize (Hm _ _ Hr). unfold on_events, zoom. destruct (m (evs s)) as [[a w]|x], (n (evs t)) as [[b v]|y]; try done.
  destruct Hm as [-> Hm]. split; [done|]. by split.
Qed.
Lemma beside_get {D A} (k : D -> M (waiting D W1) A) (l : D -> M (waiting D W2) A) : (forall d, simulates beside (k d) (l d)) ->
  simulates beside (let! d := get_dev in k d) (let! d := get_dev in l d).
Proof.
  intros Hk s t [Hd Hr]. unfold get_dev. rewrite (bind_done (gets dev) _ s (dev s) s eq_refl), (bind_done (gets dev) _ t (dev t) t eq_refl).
  rewrite Hd. apply Hk. by split.
Qed.
Lemma beside_put {D} (d : D) : simulates beside (put_dev d) (put_dev d).
Proof. intros s t [_ Hr]. split; [done|]. by split. Qed.
Lemma beside_guard {D} w b : simulates (beside (D := D)) (guard_or w b) (guard_or w b).
Proof. intros s t Hr. unfold guard_or. by destruct b. Qed.
#[local] Hint Resolve beside_events beside_put beside_guard simulates_ret : core.

Lemma line_end_worlds : simulates beside (line_end e) (line_end e).
Proof.
  unfold line_end. apply beside_get. intros l. apply simulates_bind; [auto|intros _]. apply simulates_bind; auto.
Qed.
Lemma line_echo_worlds c : simulates beside (line_echo wh1 c) (line_echo wh2 c).
Proof.
  unfold line_echo. apply beside_get. intros l. destruct (negb _); [auto|]. destruct (c =? BS); [case_bool_decide; auto|].
  destruct (_ || _); [auto|]. case_bool_decide; auto.
Qed.
Lemma line_type_worlds c : simulates beside (line_type wh1 e c) (line_type wh2 e c).
Proof.
  unfold line_type. apply simulates_bind; [apply line_echo_worlds|intros _]. apply beside_get. intros l. apply simulates_bind.
  { destruct (c =? BS); [auto|]. destruct (c =? CR); [destruct (negb _); [apply line_end_worlds|auto]|].
    destruct (c =? LF); [destruct (negb _); [apply line_end_worlds|auto]|auto]. }
  intros _. apply beside_get. intros l'. apply simulates_bind; auto.
Qed.
Lemma line_take_worlds : simulates beside line_take line_take.
Proof. unfold line_take. apply beside_get. intros l. apply simulates_bind; auto. Qed.
Lemma line_read_worlds : simulates beside (line_read e) (line_read e).
Proof.
  unfold line_read. apply beside_get. intros l. apply simulates_bind; [destruct (complete l); auto|].
  intros [|]; [|auto]. apply simulates_bind; [apply line_take_worlds|auto].
Qed.
End worlds.

(** ** The driver refines the line editors *)

Section proofs.
Context {P E : Type} `{HP : PortIO P} `{HE : EventService E} {p1 p2 : Z} `{HS : !SerialPorts P [p1; p2] }.
Variables (fuel : nat) (h1 h2 : Z) (event : com_t -> Z).
Hypothesis Hfuel : (tx_limit < fuel)%nat.
Hypothesis Hports : p1 <> p2 /\ 0 <= p1 < 2 ^ 16 /\ 0 <= p2 < 2 ^ 16.
Hypothesis Hhandlers : h1 <> h2.

Definition place (c : com_t) : Z := match c with COM1 => p1 | COM2 => p2 end.
Definition other (c : com_t) : com_t := match c with COM1 => COM2 | COM2 => COM1 end.
Definition handler_at (c : com_t) : Z := match c with COM1 => h1 | COM2 => h2 end.

Lemma place_in c : place c ∈ [p1; p2].
Proof. destruct c; cbn; set_solver. Qed.
Lemma place_u16 c : u16 (place c) = place c.
Proof. unfold u16. apply Z.mod_small. destruct c; apply Hports. Qed.
Lemma place_other c : place (other c) <> place c.
Proof. destruct Hports as [H _]. destruct c; cbn; congruence. Qed.
Lemma other_cases c d : d = c \/ d = other c.
Proof. destruct c, d; auto. Qed.

(** The transmitter is ready within the fuel. *)
Lemma wait_transmitter_spec c n w : (tx_delay (place c) w < n)%nat ->
  exists w', wait_transmitter n (place c) w = Done (tt, w') /\ (forall d, uart (place d) w' = uart (place d) w) /\ tx_delay (place c) w' = 0%nat.
Proof.
  revert w. induction n as [|n IH]; intros w Hn; [lia|]. cbn [wait_transmitter].
  destruct (serial_status (place c) w (place_in c)) as (st & w1 & E1 & Hu & Hd & Hst). rewrite (bind_done _ _ _ _ _ E1), Hst.
  case_bool_decide as H0; cbn [negb].
  - exists w1. split; [done|]. split; [intros d; apply Hu, place_in|lia].
  - destruct (IH w1) as (w' & E2 & Hu2 & Hd2); [lia|]. exists w'. split; [exact E2|]. split; [|done]. intros d. by rewrite Hu2, Hu by apply place_in.
Qed.

(** What the two ports show of the texts. *)
Definition shows (w : P) (o : list Z * list Z) : Prop := forall c, sent (uart (place c) w) = text_of c o /\ dlab (uart (place c) w) = false.

Lemma shows_append c l o w w' : shows w o -> sent (uart (place c) w') = sent (uart (place c) w) ++ l -> dlab (uart (place c) w') = dlab (uart (place c) w) ->
  uart (place (other c)) w' = uart (place (other c)) w -> shows w' (append c l o).
Proof.
  intros H Hs Hd Ho d. destruct (H d) as [H1 H2]. destruct (other_cases c d) as [-> | ->].
  - split; [rewrite Hs, H1; by destruct c|by rewrite Hd].
  - rewrite Ho. split; [|done]. rewrite H1. by destruct c.
Qed.

Lemma write_spec c l : forall w o, shows w o -> exists w', write fuel (place c) l w = Done (Z.of_nat (length l), w') /\ shows w' (append c (u8 <$> l) o).
Proof.
  enough (forall w o, shows w o -> exists w', for_each l (fun x => do! wait_transmitter fuel (place c); outb (u16 (place c)) (u8 x)) w = Done (tt, w') /\ shows w' (append c (u8 <$> l) o)) as H.
  { intros w o Hw. destruct (H w o Hw) as (w' & E1 & Hw'). exists w'. unfold write. by rewrite (bind_done _ _ _ _ _ E1). }
  induction l as [|x l IH]; intros w o Hw; cbn [for_each].
  { exists w. split; [done|]. intros d. destruct c, d; cbn; rewrite ?app_nil_r; apply (Hw COM1) || apply (Hw COM2). }
  destruct (wait_transmitter_spec c fuel w) as (w1 & E1 & Hu & Hd); [pose proof (tx_bound (place c) w); lia|].
  destruct (serial_out (place c) 0 (u8 x) w1 (place_in c)) as (w2 & E2 & Hu2 & Ho2); [lia|by apply Z.mod_pos_bound|done|]. rewrite Z.add_0_r in E2.
  assert (shows w2 (append c [u8 x] o)) as Hw2.
  { destruct (Hw c) as [_ Hdl]. apply (shows_append c _ o w); [done|..].
    - rewrite Hu2. unfold uart_out. by rewrite Hu, Hdl.
    - rewrite Hu2. unfold uart_out. by rewrite Hu, Hdl.
    - rewrite Ho2; [apply Hu|apply place_in|apply place_other]. }
  destruct (IH w2 _ Hw2) as (w' & E3 & Hw'). exists w'. split.
  { rewrite (bind_done _ _ w tt w2); [exact E3|]. by rewrite (bind_done _ _ _ _ _ E1). }
  revert Hw'. clear. destruct c; cbn; by rewrite <- app_assoc.
Qed.

Definition same_world (w : P * E) (v : (list Z * list Z) * E) : Prop := shows (fst w) (fst v) /\ snd w = snd v.

Lemma handler_prints c l : simulates same_world (handler_of fuel (place c) l) (print c l).
Proof.
  intros [w e] [o e'] [Hw He]. cbn in Hw, He. subst e'. destruct (write_spec c l w o Hw) as (w' & E1 & Hw').
  unfold handler_of, print, on_fst, zoom. cbn [fst]. rewrite (bind_done _ _ _ _ _ E1). split; [done|]. by split.
Qed.
Lemma events_same {A} (m : M E A) : simulates same_world (on_snd m) (on_snd m).
Proof. intros [w e] [o e'] [Hw He]. cbn in Hw, He. subst e'. unfold on_snd, zoom. cbn. destruct (m e) as [[a e1]|x]; [|done]. split; [done|]. by split. Qed.
(** ** Sessions *)

Record serial_rep (s : @serial P E) (t : @lines E) : Prop := {
  sr_world : same_world (wires s) (l_world t);
  sr_com c : exists y, com_data c s = PortData (place c) (Some y) /\ tty_rep (event c) y (line_of c t);
  sr_node c : s_nodes s !! Z.to_nat (channel_of c) = Some (RegistryNode true (Some (handler_at c)))
}.

Definition tty_line (c : com_t) (s : waiting tty_t (P * E)) (t : waiting line ((list Z * list Z) * E)) : Prop :=
  tty_rep (event c) (dev s) (dev t) /\ same_world (evs s) (evs t).

(** Writing is printing the expanded text. *)
Lemma tty_write_prints c l : simulates (tty_line c) (tty_write (handler_of fuel (place c)) l)
  (do! on_events (on_fst (modify (append c (l ≫= fun x => if x =? LF then [CR; LF] else [u8 x])))); ret (Z.of_nat (length l))).
Proof.
  unfold tty_write. apply simulates_bind; [|intros; apply simulates_ret].
  enough (forall (s : waiting tty_t (P * E)) o, shows (fst (evs s)) o -> exists w', for_each l (fun x => on_events (handler_of fuel (place c) (if x =? LF then [CR; LF] else [x]))) s =
    Done (tt, Waiting (dev s) (w', snd (evs s))) /\ shows w' (append c (l ≫= fun x => if x =? LF then [CR; LF] else [u8 x]) o)) as H.
  { intros s [d [o e]] [Hd [Hw He]]. cbn in Hd, Hw, He. subst e. destruct (H s o Hw) as (w' & E1 & Hw'). rewrite E1. split; [done|]. split; [done|]. by split. }
  induction l as [|x l IH]; intros [d [w e]] o Hw; cbn [for_each dev evs fst snd] in *.
  { exists w. split; [done|]. intros z. destruct c, z; cbn; rewrite ?app_nil_r; apply (Hw COM1) || apply (Hw COM2). }
  destruct (write_spec c (if x =? LF then [CR; LF] else [x]) w o Hw) as (w1 & E1 & Hw1).
  assert (on_events (handler_of fuel (place c) (if x =? LF then [CR; LF] else [x])) (Waiting d (w, e)) = Done (tt, Waiting d (w1, e))) as E2.
  { unfold on_events, handler_of, on_fst, zoom. cbn [evs fst]. by rewrite (bind_done _ _ _ _ _ E1). }
  rewrite (bind_done _ _ _ _ _ E2). destruct (IH (Waiting d (w1, e)) _ Hw1) as (w' & E3 & Hw'). exists w'. split; [exact E3|].
  assert (u8 <$> (if x =? LF then [CR; LF] else [x]) = if x =? LF then [CR; LF] else [u8 x]) as Hx by by destruct (x =? LF).
  rewrite Hx in Hw'. revert Hw'. clear. destruct c; cbn; by rewrite <- app_assoc.
Qed.

(** A terminal of the driver against a line. *)
Lemma tty_line_via {A} c (m : M (waiting tty_t (P * E)) A) (n : M (waiting line (P * E)) A) o :
  simulates (alongside (tty_rep (event c))) m n -> simulates (beside same_world) n o -> simulates (tty_line c) m o.
Proof.
  apply simulates_via.
  - intros s u [H1 H2]. exists (Waiting (dev u) (evs s)). exact (conj (conj H1 eq_refl) (conj eq_refl H2)).
  - intros s t u [H1 H2] [H3 H4]. split; [by rewrite <- H3|by rewrite H2].
Qed.
Lemma on_tty_simulates {A} c (m : Z -> M (waiting tty_t (P * E)) A) n : simulates (tty_line c) (m (place c)) n -> simulates serial_rep (on_tty c m) (on_line c n).
Proof.
  intros Hm s t [Hw Hc Hn]. destruct (Hc c) as (y & Hy & Hr). unfold on_tty, on_line, zoom. rewrite Hy. cbn [tty port].
  specialize (Hm (Waiting y (wires s)) (Waiting (line_of c t) (l_world t)) (conj Hr Hw)).
  destruct (m (place c) _) as [[a u]|x], (n _) as [[b v]|z]; try done. destruct Hm as [-> [Hr' Hw']]. split; [done|]. split.
  - by destruct c.
  - intros d. destruct (other_cases c d) as [-> | ->].
    + exists (dev u). split; [by destruct c|]. by destruct c.
    + destruct (Hc (other c)) as (y' & Hy' & Hr''). exists y'. split; [by destruct c|]. by destruct c.
  - intros d. specialize (Hn d). by destruct c.
Qed.

Lemma set_wires_rep s t w : serial_rep s t -> shows w (fst (l_world t)) -> serial_rep (set_wires (w, snd (wires s)) s) t.
Proof. intros [[Hw He] Hc Hn] Hw'. split; [by split|..]; intros d; [by destruct (Hc d) as (y & Hy & Hr); exists y; destruct d|by specialize (Hn d); destruct d]. Qed.

Lemma arrive_simulates c b : 0 <= b < 256 -> simulates serial_rep (run_serial fuel h1 h2 (Arrive c b)) (run_lines event (Arrive c b)).
Proof.
  intros Hb s t Hst. pose proof Hst as [[Hw He] Hc Hn]. destruct (Hc c) as (y & Hy & _). unfold run_serial.
  destruct (arrives (place c) b (fst (wires s)) (place_in c)) as [Hu1 Ho1]. set (w1 := arrive (place c) b (fst (wires s))) in *. set (s1 := set_wires (w1, snd (wires s)) s).
  assert ((let! s := get in on_ports (modify (arrive (port (com_data c s)) b))) s = Done (tt, s1)) as E1 by (rewrite bind_get, Hy; reflexivity).
  rewrite (bind_done _ _ _ _ _ E1). clear E1. assert (shows w1 (fst (l_world t))) as Hw1.
  { intros d. destruct (other_cases c d) as [-> | ->]; [rewrite Hu1; apply (Hw c)|rewrite Ho1 by (apply place_in || apply place_other); apply Hw]. }
  pose proof (set_wires_rep s t w1 Hst Hw1) as Hst1. fold s1 in Hst1.
  destruct (serial_in (place c) w1 (place_in c)) as (b' & w2 & E2 & _ & Hb' & Hu2 & Ho2).
  assert (dlab (uart (place c) w1) = false) as Hd1 by apply Hw1. rewrite Hd1 in Hu2.
  assert (b' = b) as -> by (apply Hb'; [done|by rewrite Hu1|done]). set (s2 := set_wires (w2, snd (wires s1)) s1).
  assert (read_com c s1 = Done (b, s2)) as E3.
  { unfold read_com. rewrite bind_get. replace (port (com_data c s1)) with (place c) by (destruct c; cbn in Hy |- *; by rewrite Hy).
    unfold on_ports, on_fst, zoom. cbn [wires s1 set_wires fst]. by rewrite E2. }
  assert (serial_rep s2 t) as Hst2.
  { apply set_wires_rep; [done|]. intros d. destruct (other_cases c d) as [-> | ->];
      [rewrite Hu2; apply (Hw1 c)|rewrite Ho2 by (apply place_in || apply place_other); apply Hw1]. }
  assert (com_interrupt fuel h1 h2 (channel_of c) s1 = (let! _ := on_tty c (fun p => tty_provide_char (handler_of fuel p) (key_of b)) in ret tt) s2) as E5.
  { unfold com_interrupt. assert (on_s_nodes (registered (channel_of c)) s1 = Done (Some (handler_at c), s1)) as E4.
    { unfold on_s_nodes, zoom. rewrite (registered_done (channel_of c) (handler_at c)); [by destruct s as [? ? ? ? ?]|by destruct c|]. apply (Hn c). }
    rewrite (bind_done _ _ _ _ _ E4). assert ((if handler_at c =? h1 then com_int_handler fuel COM1 else if handler_at c =? h2 then com_int_handler fuel COM2 else stop_with Undefined) = com_int_handler (E := E) fuel c) as ->.
    { destruct c; cbn; rewrite Z.eqb_refl; [done|]. destruct (Z.eqb_spec h2 h1) as [E5|]; [congruence|done]. }
    unfold com_int_handler. by rewrite (bind_done _ _ _ _ _ E3). }
  unfold run_lines. pose proof (on_tty_simulates c (fun p => tty_provide_char (handler_of fuel p) (key_of b)) _ (tty_line_via c _ _ _ (type_simulates (handler_of fuel (place c)) (event c) (key_of b))
    (line_type_worlds same_world _ _ (event c) (handler_prints c) (events_same (ev_invoke (event c))) (key_of b))) s2 t Hst2) as Hsim.
  unfold bind. rewrite E5. unfold bind.
  destruct (on_tty c _ s2) as [[a u]|x], (on_line c _ t) as [[b2 v]|z]; try done. by destruct Hsim as [_ Hsim].
Qed.

Lemma session_simulates o : serial_op_ok o -> simulates serial_rep (run_serial fuel h1 h2 o) (run_lines event o).
Proof.
  destruct o as [c b|c n|c n|c l]; intros Ho; [by apply arrive_simulates|..]; cbn [run_serial run_lines].
  - apply simulates_bind; [|intros; apply simulates_ret]. apply on_tty_simulates. eapply tty_line_via; [by apply read_simulates|].
    apply line_read_worlds. apply events_same.
  - apply simulates_bind; [|intros; apply simulates_ret]. apply on_tty_simulates. eapply tty_line_via; [by apply take_simulates|apply line_take_worlds].
  - unfold serial_write. intros s t Hst.
    pose proof (on_tty_simulates c (fun p => tty_write (handler_of fuel p) l) _ (tty_write_prints c l) s t Hst) as Hsim.
    unfold bind. destruct (on_tty c _ s) as [[a u]|x].
    + unfold on_line, zoom, bind in Hsim |- *. destruct (on_events _ _) as [[[] v]|z]; [|done]. by destruct Hsim as [-> Hsim].
    + unfold on_line, zoom, bind in Hsim |- *. destruct (on_events _ _) as [[[] v]|z]; [done|]. exact Hsim.
Qed.

(** ** Initialisation *)

(** From [s] to [s'] only the hardware of one port has changed, to [u]. *)
Definition port_step (c : com_t) (u : uart_t) (s s' : @serial P E) : Prop :=
  exists w', s' = set_wires (w', snd (wires s)) s /\ uart (place c) w' = u /\ uart (place (other c)) w' = uart (place (other c)) (fst (wires s)).

Lemma port_step_trans c u v s1 s2 s3 : port_step c u s1 s2 -> port_step c v s2 s3 -> port_step c v s1 s3.
Proof. intros (w2 & -> & _ & H2) (w3 & -> & H3 & H4). exists w3. split; [done|]. split; [done|]. by rewrite H4. Qed.
Lemma port_step_port c u s s' : port_step c u s s' -> com_data c s' = com_data c s /\ uart (place c) (fst (wires s')) = u.
Proof. intros (w' & -> & H & _). split; [by destruct c|done]. Qed.

Lemma outb_com_spec c off v s : port (com_data c s) = place c -> 0 <= off <= 4 -> 0 <= v < 256 ->
  (off = 0 -> dlab (uart (place c) (fst (wires s))) = true) ->
  exists s', outb_com c off v s = Done (tt, s') /\ port_step c (uart_out off v (uart (place c) (fst (wires s)))) s s'.
Proof.
  intros Hp Ho Hv Hd. destruct (serial_out (place c) off v (fst (wires s)) (place_in c) Ho Hv) as (w' & E1 & Hu & Hother).
  { intros H0 H1. rewrite Hd in H1 by done. done. }
  exists (set_wires (w', snd (wires s)) s). split.
  - unfold outb_com. rewrite bind_get, Hp. unfold on_ports, on_fst, zoom. by rewrite E1.
  - exists w'. split; [done|]. split; [done|]. apply Hother; [apply place_in|apply place_other].
Qed.

Lemma read_com_step c s : port (com_data c s) = place c ->
  exists b u s', read_com c s = Done (b, s') /\ port_step c u s s' /\ sent u = sent (uart (place c) (fst (wires s))).
Proof.
  intros Hp. destruct (serial_in (place c) (fst (wires s)) (place_in c)) as (b & w' & E1 & _ & _ & Hu & Ho).
  exists b, (uart (place c) w'), (set_wires (w', snd (wires s)) s). split_and!.
  - unfold read_com. rewrite bind_get, Hp. unfold on_ports, on_fst, zoom. by rewrite E1.
  - exists w'. split; [done|]. split; [done|]. apply Ho; [apply place_in|apply place_other].
  - rewrite Hu. by destruct (dlab _).
Qed.
Lemma read_coms_step c (l : list nat) : forall s, port (com_data c s) = place c ->
  exists u s', for_each l (fun _ => let! _ := read_com c in ret tt) s = Done (tt, s') /\ port_step c u s s' /\ sent u = sent (uart (place c) (fst (wires s))).
Proof.
  induction l as [|x l IH]; intros s Hp; cbn [for_each].
  { exists (uart (place c) (fst (wires s))), s. split; [done|]. split; [|done]. exists (fst (wires s)). by destruct s as [[w e] ? ? ? ?]. }
  destruct (read_com_step c s Hp) as (b & u & s1 & E1 & H1 & Hs1). destruct (port_step_port _ _ _ _ H1) as [Hd Hu].
  assert ((let! _ := read_com c in ret tt) s = Done (tt, s1)) as E2 by by rewrite (bind_done _ _ _ _ _ E1).
  destruct (IH s1) as (v & s' & E3 & H3 & Hs3); [by rewrite Hd|]. exists v, s'. split; [by rewrite (bind_done _ _ _ _ _ E2)|].
  split; [by eapply port_step_trans|]. by rewrite Hs3, Hu.
Qed.

(** The writes at the end of [init]: 115200 baud, eight bits, no parity, one
    stop bit, an interrupt for every byte; nothing is sent. *)
Definition configured (l : list Z) (h : option Z) : uart_t := Uart 0x03 0x01 0x0F 1 0 l h.
Lemma configure_spec c s : port (com_data c s) = place c -> exists s' h,
  (do! outb_com c 3 0x80; do! outb_com c 0 1; do! outb_com c 1 0; do! outb_com c 3 0x03; do! outb_com c 1 0x01; do! outb_com c 2 0x06; do! outb_com c 4 0x0F;
   ret (Num 0)) s = Done (Num 0, s') /\ port_step c (configured (sent (uart (place c) (fst (wires s)))) h) s s'.
Proof.
  intros Hp. remember (uart (place c) (fst (wires s))) as u0 eqn:Hu0.
  destruct (outb_com_spec c 3 0x80 s Hp) as (s1 & E1 & H1); [lia..|done|]. destruct (port_step_port _ _ _ _ H1) as [D1 U1]. rewrite (bind_done _ _ _ _ _ E1).
  destruct (outb_com_spec c 0 1 s1) as (s2 & E2 & H2); [by rewrite D1|lia..|by rewrite U1|]. destruct (port_step_port _ _ _ _ H2) as [D2 U2]. rewrite (bind_done _ _ _ _ _ E2).
  destruct (outb_com_spec c 1 0 s2) as (s3 & E3 & H3); [by rewrite D2, D1|lia..|]. destruct (port_step_port _ _ _ _ H3) as [D3 U3]. rewrite (bind_done _ _ _ _ _ E3).
  destruct (outb_com_spec c 3 0x03 s3) as (s4 & E4 & H4); [by rewrite D3, D2, D1|lia..|]. destruct (port_step_port _ _ _ _ H4) as [D4 U4]. rewrite (bind_done _ _ _ _ _ E4).
  destruct (outb_com_spec c 1 0x01 s4) as (s5 & E5 & H5); [by rewrite D4, D3, D2, D1|lia..|]. destruct (port_step_port _ _ _ _ H5) as [D5 U5]. rewrite (bind_done _ _ _ _ _ E5).
  destruct (outb_com_spec c 2 0x06 s5) as (s6 & E6 & H6); [by rewrite D5, D4, D3, D2, D1|lia..|]. destruct (port_step_port _ _ _ _ H6) as [D6 U6]. rewrite (bind_done _ _ _ _ _ E6).
  destruct (outb_com_spec c 4 0x0F s6) as (s7 & E7 & H7); [by rewrite D6, D5, D4, D3, D2, D1|lia..|]. rewrite (bind_done _ _ _ _ _ E7).
  exists s7, (holding u0). split; [done|]. rewrite U6, U5, U4, U3, U2, U1, <- Hu0 in H7. do 6 (eapply port_step_trans; [eassumption|]). exact H7.
Qed.

Definition fresh_line : line := Line [] false 0 true.
Lemma tty_init_spec nums e junk page (w : P * E) e' : Z.of_nat (length nums) < 2 ^ 63 -> junk = 0 -> Z.of_nat (length page) = TTY_BUFFER_SIZE ->
  ev_init e (snd w) = Done (tt, e') -> exists y, tty_init nums e junk page w = Done (y, (fst w, e')) /\ tty_rep e y fresh_line.
Proof.
  intros Hl -> Hp He. destruct (tty_number_fresh nums Hl) as (n & E1 & _). unfold tty_init. rewrite E1.
  assert (ev_init e w = Done (tt, (fst w, e'))) as E2 by (cbn; unfold on_snd, zoom; by rewrite He). rewrite (bind_done _ _ _ _ _ E2).
  eexists. split; [done|]. by split.
Qed.

Lemma init_com_spec c bios a s e' n : (match c with COM1 => 0x3F8 | COM2 => if bios =? 0 then 0x2F8 else bios end) = place c ->
  Z.of_nat (length (ttys s)) < 2 ^ 63 -> a_junk a = 0 -> Z.of_nat (length (a_page a)) = TTY_BUFFER_SIZE -> ev_init (a_event a) (snd (wires s)) = Done (tt, e') ->
  s_nodes s !! Z.to_nat (channel_of c) = Some n -> active n = false ->
  exists s' y m w' h, init_com c bios a s = Done (Num 0, s') /\ tty_rep (a_event a) y fresh_line /\
    s' = set_com c (PortData (place c) (Some y)) (Serial (w', e') (com1_data s) (com2_data s) (<[Z.to_nat (channel_of c) := RegistryNode true (Some (a_handler a))]> (s_nodes s)) (m :: ttys s)) /\
    uart (place c) w' = configured (sent (uart (place c) (fst (wires s)))) h /\ uart (place (other c)) w' = uart (place (other c)) (fst (wires s)).
Proof.
  intros Hp Hl Hj Hpage He Hn Ha. unfold init_com. rewrite !bind_modify, Hp, bind_get.
  set (s2 := set_com c _ _). assert (ttys s2 = ttys s /\ wires s2 = wires s) as [Ht Hw] by by destruct c.
  destruct (tty_init_spec (ttys s) (a_event a) (a_junk a) (a_page a) (wires s) e' Hl Hj Hpage He) as (y & E1 & Hy).
  assert (zoom wires set_wires (tty_init (ttys s2) (a_event a) (a_junk a) (a_page a)) s2 = Done (y, set_wires (fst (wires s), e') s2)) as E2
    by (unfold zoom; by rewrite Ht, Hw, E1).
  rewrite (bind_done _ _ _ _ _ E2), !bind_modify. set (s4 := set_com c (PortData _ (Some y)) _).
  destruct (read_coms_step c (seq 0 10) s4) as (u5 & s5 & E5 & H5 & Hs5); [by destruct c|]. rewrite (bind_done _ _ _ _ _ E5).
  destruct (port_step_port _ _ _ _ H5) as [D5 U5]. destruct H5 as (w5 & -> & Hu5 & Ho5).
  set (l := <[Z.to_nat (channel_of c) := RegistryNode true (Some (a_handler a))]> (s_nodes s)).
  set (s6 := Serial (w5, e') (com1_data s4) (com2_data s4) l (ttys s4)).
  assert (on_s_nodes (interrupt_registry_register (channel_of c) (a_handler a)) (set_wires (w5, snd (wires s4)) s4) = Done (true, s6)) as E6.
  { unfold on_s_nodes, zoom. rewrite (register_done (channel_of c) (a_handler a) n); [rewrite Ha; by destruct c|by destruct c|]. rewrite <- Hn. by destruct c. }
  rewrite (bind_done _ _ _ _ _ E6). cbn [negb].
  destruct (configure_spec c s6) as (s7 & h & E7 & w7 & -> & Hu7 & Ho7); [by destruct c|].
  exists (set_wires (w7, snd (wires s6)) s6), y, (tty_num y), w7, h. split; [exact E7|]. split; [exact Hy|]. split; [by destruct c|].
  change (fst (wires s6)) with w5 in Hu7, Ho7. split.
  - rewrite Hu7, Hu5, Hs5. f_equal. by destruct c.
  - rewrite Ho7, Ho5. by destruct c.
Qed.

End proofs.

(** ** A simulated pair of ports *)

(** Each port is busy for one poll after a byte has been written to it. *)
Record serial_sim := SerialSim { sim1 : uart_t * bool; sim2 : uart_t * bool }.
Definition BASE1 : Z := 0x3F8.
Definition BASE2 : Z := 0x2F8.
Definition side (p : Z) (w : serial_sim) : uart_t * bool := if p =? BASE1 then sim1 w else sim2 w.
Definition set_side (p : Z) (x : uart_t * bool) (w : serial_sim) : serial_sim := if p =? BASE1 then SerialSim x (sim2 w) else SerialSim (sim1 w) x.
Definition base_of (a : Z) : option Z := if (BASE1 <=? a) && (a <? BASE1 + 8) then Some BASE1 else if (BASE2 <=? a) && (a <? BASE2 + 8) then Some BASE2 else None.

Definition serial_inb (a : Z) : M serial_sim Z := fun w =>
  match base_of a with
  | None => Stop Undefined
  | Some p =>
      let u := fst (side p w) in
      if a =? p + 5 then Done (if snd (side p w) then 0 else 0x20, set_side p (u, false) w)
      else if a =? p then
        if dlab u then Done (dll u mod 256, w) else Done (default 0 (holding u) mod 256, set_side p (set_holding None u, snd (side p w)) w)
      else Stop Undefined
  end.
Definition serial_outb (a v : Z) : M serial_sim unit := fun w =>
  match base_of a with
  | None => Stop Undefined
  | Some p => Done (tt, set_side p (uart_out (a - p) v (fst (side p w)), if a =? p then true else snd (side p w)) w)
  end.
Definition serial_sim_ports : PortIO serial_sim :=
  {| inb := serial_inb; outb := serial_outb; inw _ := stop_with Undefined; outw _ _ := stop_with Undefined |}.

Lemma side_set p x w : side p (set_side p x w) = x.
Proof. unfold side, set_side. by destruct (p =? BASE1). Qed.
Lemma side_other p q x w : p ∈ [BASE1; BASE2] -> q ∈ [BASE1; BASE2] -> q <> p -> side q (set_side p x w) = side q w.
Proof.
  intros Hp Hq Hne. repeat (apply elem_of_cons in Hp as [->|Hp]); repeat (apply elem_of_cons in Hq as [->|Hq]); try done; try (by apply elem_of_nil in Hp); by apply elem_of_nil in Hq.
Qed.
Lemma base_of_place p off : p ∈ [BASE1; BASE2] -> 0 <= off < 8 -> base_of (u16 (p + off)) = Some p /\ u16 (p + off) = p + off.
Proof.
  intros Hp Ho. assert (u16 (p + off) = p + off) as E.
  { unfold u16. apply Z.mod_small. repeat (apply elem_of_cons in Hp as [->|Hp]); [unfold BASE1 in *; lia|unfold BASE2 in *; lia|by apply elem_of_nil in Hp]. }
  split; [|done]. rewrite E. unfold base_of. repeat (apply elem_of_cons in Hp as [->|Hp]); [| |by apply elem_of_nil in Hp].
  - rewrite (proj2 (Z.leb_le _ _)), (proj2 (Z.ltb_lt _ _)) by lia. done.
  - rewrite (proj2 (Z.leb_gt _ _)) by (unfold BASE1, BASE2; lia). cbn [andb]. rewrite (proj2 (Z.leb_le _ _)), (proj2 (Z.ltb_lt _ _)) by lia. done.
Qed.

Definition serial_sim_hardware : @SerialPorts serial_sim serial_sim_ports [BASE1; BASE2].
Proof.
  refine (@Build_SerialPorts serial_sim serial_sim_ports [BASE1; BASE2] (fun p w => fst (side p w)) (fun p w => if snd (side p w) then 1%nat else 0%nat) 1 _ _ _ _
    (fun p b w => set_side p (set_holding (Some b) (fst (side p w)), snd (side p w)) w) _).
  - intros p w. destruct (snd _); lia.
  - intros p w Hp. destruct (base_of_place p 5 Hp) as [Hb Ha]; [lia|]. eexists _, _. cbn [inb serial_sim_ports]. unfold serial_inb. rewrite Hb, Ha, Z.eqb_refl.
    split; [reflexivity|]. split; [|split].
    + intros q Hq. destruct (decide (q = p)) as [->|Hne]; [by rewrite side_set|by rewrite side_other].
    + rewrite side_set. cbn. lia.
    + by destruct (snd (side p w)).
  - intros p w Hp. destruct (base_of_place p 0 Hp) as [Hb Ha]; [lia|]. rewrite Ha, Z.add_0_r in Hb. cbn [inb serial_sim_ports]. unfold serial_inb. rewrite Hb.
    assert ((p =? p + 5) = false) as -> by (apply Z.eqb_neq; lia). rewrite Z.eqb_refl. destruct (dlab (fst (side p w))) eqn:Hd.
    + eexists _, _. split; [reflexivity|]. split; [by apply Z.mod_pos_bound|]. done.
    + eexists _, _. split; [reflexivity|]. split; [by apply Z.mod_pos_bound|]. split; [|split].
      * intros _ c Hc Hr. rewrite Hc. by apply Z.mod_small.
      * by rewrite side_set.
      * intros q Hq Hne. by rewrite side_other.
  - intros p off v w Hp Ho _ _. destruct (base_of_place p off Hp) as [Hb Ha]; [lia|]. eexists. cbn [outb serial_sim_ports]. unfold serial_outb. rewrite Hb, Ha.
    split; [reflexivity|]. split; [rewrite side_set; cbn; by replace (p + off - p) with off by lia|]. intros q Hq Hne. by rewrite side_other.
  - intros p b w Hp. split; [by rewrite side_set|]. intros q Hq Hne. by rewrite side_other.
Defined.

(** ** A run *)

Definition serial_start : @serial serial_sim sched :=
  Serial (SerialSim (Uart 0 0 0 0 0 [] None, false) (Uart 0x80 0 0 12 0 [] None, true), set_events ∅ demo_sched) (PortData 0 None) (PortData 0 None)
    (replicate (Z.to_nat IC_MAX) (RegistryNode false None)) [].
Definition serial_args1 : com_args := ComArgs 60 0 (replicate 4096 0) 900.
Definition serial_args2 : com_args := ComArgs 61 0 (replicate 4096 0) 901.
(** "a", DEL, "b" and a carriage return arrive at COM1, "x" at COM2. *)
Definition serial_run : list serial_op :=
  [Arrive COM1 97; Arrive COM2 120; Arrive COM1 0x7F; Arrive COM1 98; Arrive COM1 13; ReadTty COM1 4096; WriteTty COM2 [104; 105; 10]].
Definition serial_event (c : com_t) : Z := match c with COM1 => 60 | COM2 => 61 end.

