(* ===== verification/KeyboardPio.v ===== *)
(** * KeyboardPio: the port keyboard (modules/keyboard_pio)

    An interrupt translates one scan code and keeps the character in a single
    cell; a reader waits for the cell to be filled.  The byte an interrupt reads
    is an argument.  The registration with devfs is not modelled. *)
From S2P Require Import Prelude Dll Sched Wait IoPorts IntRegistry.

Definition PORT_KB_IN : Z := 0x60.

(** Scan codes past the listed ones are 0. *)
Definition key_lut : list Z :=
  [0; 27; 49; 50; 51; 52; 53; 54; 55; 56; 57; 48; 45; 61; 8; 9; 113; 119; 101; 114; 116; 121; 117; 105; 111; 112;
   91; 93; 10; 9; 97; 115; 100; 102; 103; 104; 106; 107; 108; 59; 39; 96; 9; 92; 122; 120; 99; 118; 98; 110; 109;
   44; 46; 47; 9; 42; 9; 32; 9; 9; 9; 9; 9; 9; 9; 9; 9; 9; 9; 9; 9; 55; 56; 57; 45; 52; 53; 54; 43; 49; 50; 51;
   48; 46; 0; 0; 0; 9; 9] ++ replicate 39 0.
(** Nothing uses this table. *)
Definition key_lut_shift : list Z :=
  [0; 27; 33; 64; 35; 36; 37; 94; 38; 42; 40; 41; 95; 43; 8; 9; 81; 87; 69; 82; 84; 89; 85; 73; 79; 80; 123; 125;
   10; 7; 65; 83; 68; 70; 71; 72; 74; 75; 76; 58; 34; 126; 9; 124; 90; 88; 67; 86; 66; 78; 77; 60; 62; 63; 9; 42;
   9; 32; 9; 9; 9; 9; 9; 9; 9; 9; 9; 9; 9; 9; 9; 55; 56; 57; 45; 52; 53; 54; 43; 49; 50; 51; 48; 46; 0; 0; 0; 9;
   9] ++ replicate 39 0.

Record keyboard := Keyboard { char_ready : bool; current_char : Z; kbd_event : Z }.

Section keyboard.
Context {W : Type} `{!EventService W}.
Abbreviation kbd := (waiting keyboard W).

Definition keyboard_handler (input_char : Z) : M kbd unit :=
  let released := input_char >=? 0x80 in
  if negb released then
    let! translated_char := of_option Undefined (key_lut !! Z.to_nat input_char) in
    let! d := get_dev in
    do! put_dev (Keyboard true translated_char (kbd_event d));
    on_events (ev_invoke (kbd_event d))
  else ret tt.

Definition has_char : M kbd bool := let! d := get_dev in ret (char_ready d).
(** [while (!char_ready);] with an empty cell never ends. *)
Definition get_char : M kbd Z :=
  let! d := get_dev in
  if negb (char_ready d) then stop_with NoFuel
  else do! put_dev (Keyboard false (current_char d) (kbd_event d)); ret (current_char d).

Definition write (buffer : list Z) : M kbd Z := ret 0.
(** The number of bytes and the bytes; the rest of [read] when the thread is
    resumed is [read] again, for the wait is in a loop. *)
Definition read (size : Z) : M kbd (waited (Z * list Z)) :=
  let! ok := await_while 2 (fun d => negb (char_ready d)) kbd_event in
  if negb ok then ret Blocked
  else
    let! h := has_char in
    if h && (0 <? size) then let! c := get_char in ret (Ready (1, [c]))
    else ret (Ready (0, [])).

(** [init], with the tables of ports and of handlers: [e] is the event of the
    new device, [h] the address of the handler, [inb] the port instruction. *)
Record kbd_world := KbdWorld { k_dev : kbd; k_buckets : buckets; k_nodes : registry }.
Definition on_buckets {A} (m : M buckets A) : M kbd_world A := zoom k_buckets (fun b s => KbdWorld (k_dev s) b (k_nodes s)) m.
Definition on_k_nodes {A} (m : M registry A) : M kbd_world A := zoom k_nodes (fun l s => KbdWorld (k_dev s) (k_buckets s) l) m.
Definition on_k_dev {A} (m : M kbd A) : M kbd_world A := zoom k_dev (fun d s => KbdWorld d (k_buckets s) (k_nodes s)) m.
Definition init (inb : Z -> M kbd_world Z) (e h : Z) : M kbd_world code :=
  do! on_k_dev (let! d := get_dev in put_dev (Keyboard true 0 (kbd_event d)));
  do! on_k_dev (do! on_events (ev_init e); let! d := get_dev in put_dev (Keyboard (char_ready d) (current_char d) e));
  let! r := on_buckets (io_arbitrator_reserve PORT_KB_IN) in
  if negb r then ret (Err ENOTSUP)
  else
    let! _ := inb PORT_KB_IN in
    let! _ := inb PORT_KB_IN in
    let! _ := inb PORT_KB_IN in
    let! ok := on_k_nodes (interrupt_registry_register IC_KEYBOARD h) in
    if negb ok then ret (Err ENOTSUP) else ret (Num 0).

(** ** A cell *)

Inductive kbd_op := Scan (b : Z) | ReadKey (size : Z).
Inductive kbd_result := Scanned | GotKey (r : waited (Z * list Z)).
Definition run_kbd (o : kbd_op) : M kbd kbd_result :=
  match o with
  | Scan b => do! keyboard_handler b; ret Scanned
  | ReadKey n => let! r := read n in ret (GotKey r)
  end.

(** The last key pressed that no reader has taken. *)
Definition press (e b : Z) : M (waiting (option Z) W) unit :=
  if b <? 0x80 then do! put_dev (Some (key_lut !!! Z.to_nat b)); on_events (ev_invoke e) else ret tt.
Definition take_key (e n : Z) : M (waiting (option Z) W) (waited (Z * list Z)) :=
  let! ok := await_while 2 (fun d => bool_decide (d = None)) (fun _ => e) in
  if negb ok then ret Blocked
  else
    let! d := get_dev in
    if n <=? 0 then ret (Ready (0, []))
    else let! c := of_option Undefined d in do! put_dev None; ret (Ready (1, [c])).
Definition run_cell (e : Z) (o : kbd_op) : M (waiting (option Z) W) kbd_result :=
  match o with
  | Scan b => do! press e b; ret Scanned
  | ReadKey n => let! r := take_key e n in ret (GotKey r)
  end.

Definition cell_rep (e : Z) (d : keyboard) (c : option Z) : Prop :=
  kbd_event d = e /\ char_ready d = bool_decide (is_Some c) /\ forall k, c = Some k -> current_char d = k.
Definition scan_ok (o : kbd_op) : Prop := match o with Scan b => 0 <= b < 256 | ReadKey _ => True end.

Lemma scan_simulates e b : 0 <= b < 256 -> simulates (alongside (cell_rep e)) (keyboard_handler b) (press e b).
Proof.
  intros Hb s t [(He & Hr & Hk) Hw]. unfold keyboard_handler, press. rewrite Z.geb_leb. destruct (Z.ltb_spec b 0x80).
  - rewrite (proj2 (Z.leb_gt _ _)) by lia. cbn [negb].
    assert (is_Some (key_lut !! Z.to_nat b)) as [k Hlut] by (apply lookup_lt_is_Some; change (length key_lut) with 128%nat; lia).
    rewrite Hlut, (list_lookup_total_correct _ _ _ Hlut). unfold of_option, get_dev. rewrite (bind_done (fun s => Done (k, s)) _ s k s eq_refl).
    rewrite (bind_done (gets dev) _ s (dev s) s eq_refl). unfold put_dev. rewrite !bind_modify, He. apply on_events_simulates. split; [|done].
    split; [done|]. split; [done|]. by intros ? [= ->].
  - rewrite (proj2 (Z.leb_le _ _)) by lia. split; [done|]. by split.
Qed.
Lemma read_cell_simulates e n : simulates (alongside (cell_rep e)) (read n) (take_key e n).
Proof.
  unfold read, take_key. apply await_then_simulates.
  - intros d c (He & Hr & _). split; [rewrite Hr; by destruct c|done].
  - intros s t [(He & Hr & Hk) Hw] Hb. destruct (char_ready (dev s)) eqn:Hc; [|done]. unfold has_char, get_char, get_dev.
    rewrite bind_assoc, (bind_done (gets dev) _ s (dev s) s eq_refl). cbn beta. rewrite bind_ret_l, Hc, (bind_done (gets dev) _ t (dev t) t eq_refl).
    destruct (dev t) as [k|] eqn:Ht; [|by symmetry in Hr; apply bool_decide_eq_true in Hr as [? ?]].
    destruct (Z.leb_spec n 0).
    + rewrite (proj2 (Z.ltb_ge _ _)) by lia. split; [done|]. split; [|done]. rewrite Ht. by split.
    + rewrite (proj2 (Z.ltb_lt _ _)) by lia. cbn [andb]. rewrite bind_assoc, (bind_done (gets dev) _ s (dev s) s eq_refl), Hc. cbn [negb].
      unfold of_option, put_dev, modify, bind, ret. rewrite (Hk k eq_refl). split; [done|]. split; [|done]. split; [done|]. split; done.
Qed.

(** The port keyboard keeps the last key.  Under any interrupts and reads
    it answers as a cell that holds at most one character: a key pressed
    replaces one that nobody has read, releases change nothing, and a reader
    waits for a key unless it is there. *)
Theorem keyboard_pio_keeps_last_key e os d c w (Hrep : cell_rep e d c) (Hos : Forall scan_ok os) :
  outcomes_agree (alongside (cell_rep e)) (run_all run_kbd os (Waiting d w)) (run_all (run_cell e) os (Waiting c w)).
Proof.
  apply run_all_simulates; [|by split]. intros o Ho. rewrite Forall_forall in Hos. specialize (Hos o Ho).
  destruct o as [b|n]; cbn [run_kbd run_cell]; apply simulates_bind; intros; try apply simulates_ret; [by apply scan_simulates|apply read_cell_simulates].
Qed.

(** After [init] the cell is full: the first read gives a NUL nobody typed. *)
Lemma keyboard_init_holds_nul inb e h s s' : (forall p x s1 s2, inb p s1 = Done (x, s2) -> k_dev s2 = k_dev s1) -> init inb e h s = Done (Num 0, s') ->
  cell_rep e (dev (k_dev s')) (Some 0).
Proof.
  intros Hin. unfold init. intros ([] & s1 & H1 & H)%bind_done_inv. apply bind_done_inv in H as ([] & s2 & H2 & H).
  assert (cell_rep e (dev (k_dev s2)) (Some 0)) as Hrep.
  { unfold on_k_dev, zoom in H1. cbn in H1. injection H1 as <-. unfold on_k_dev, zoom, bind, on_events, zoom in H2. cbn in H2.
    destruct (ev_init e _) as [[[] w]|]; [|done]. cbn in H2. injection H2 as <-. split; [done|]. split; [done|]. by intros ? [= <-]. }
  clear H1. apply bind_done_inv in H as (r & s3 & H3 & H). assert (k_dev s3 = k_dev s2) as E3.
  { unfold on_buckets, zoom in H3. destruct (io_arbitrator_reserve _ _) as [[? ?]|]; [|done]. by injection H3 as _ <-. }
  destruct r; [|done]. cbn [negb] in H. apply bind_done_inv in H as (x1 & s4 & H4 & H). apply bind_done_inv in H as (x2 & s5 & H5 & H). apply bind_done_inv in H as (x3 & s6 & H6 & H).
  apply bind_done_inv in H as (ok & s7 & H7 & H). assert (k_dev s7 = k_dev s6) as E7.
  { unfold on_k_nodes, zoom in H7. destruct (interrupt_registry_register _ _ _) as [[? ?]|]; [|done]. by injection H7 as _ <-. }
  destruct ok; [|done]. injection H as <-. rewrite E7, (Hin _ _ _ _ H6), (Hin _ _ _ _ H5), (Hin _ _ _ _ H4), E3. exact Hrep.
Qed.
End keyboard.

(** "a" and "b" are pressed and released before anybody reads: "a" is lost. *)
Definition demo_scans : list kbd_op := [ReadKey 1; Scan 0x1E; Scan 0x9E; Scan 0x30; Scan 0xB0; ReadKey 1].
Lemma keyboard_pio_keeps_last_key_witness : exists s, run_all run_kbd demo_scans (Waiting (Keyboard true 0 60) (set_events {[ 60 := Event false [] ]} demo_sched)) =
  Done ([GotKey (Ready (1, [0])); Scanned; Scanned; Scanned; Scanned; GotKey (Ready (1, [98]))], s).
Proof.
  assert (cell_rep 60 (Keyboard true 0 60) (Some 0)) as Hrep by (split; [done|]; split; [done|]; by intros ? [= <-]).
  assert (Forall scan_ok demo_scans) as Hos by (repeat constructor; cbn; lia).
  pose proof (keyboard_pio_keeps_last_key 60 demo_scans _ _ (set_events {[ 60 := Event false [] ]} demo_sched) Hrep Hos) as Hsim.
  match type of Hsim with outcomes_agree _ _ ?x => assert (exists t, x = Done ([GotKey (Ready (1, [0])); Scanned; Scanned; Scanned; Scanned; GotKey (Ready (1, [98]))], t)) as (t & Et)
    by (eexists; vm_compute; reflexivity) end.
  rewrite Et in Hsim. destruct (run_all run_kbd _ _) as [[rs s]|]; [|destruct Hsim]. destruct Hsim as [-> _]. by exists s.
Defined.
