(* ===== verification/InterruptInit.v ===== *)
(** * InterruptInit: the interrupt table and the interrupt controllers
      (system/x86_64/src/interrupt/interrupt.c, system/x86_64/src/pic/pic.c,
      system/x86_64/include/sys/idt/idt64.h)

    The table has 256 entries; [address] is where an assembly entry lies.  The
    pair of 8259 controllers is the class [PicPair]: how they take their
    initialisation words and their masks is documented behaviour of the
    hardware.  The APIC is never used ([if (false && ...)]), and the memory
    [lidt] points the processor to is the table. *)
From S2P Require Import Prelude DiscPio.

(** ** Entries *)

Record idt64_entry_t := IdtEntry {
  offset_lower : Z; selector : Z; ist : Z; gate_type : Z; dpl : Z; p : Z; offset_upper : Z
}.
Definition GDT_KERNEL_CODE : Z := 0x10.
Definition DEFINE_IDT64_ENTRY_INTERRUPT (sel a : Z) : idt64_entry_t := IdtEntry (Z.land a 0xFFFF) sel 1 0xE 0 1 (Z.shiftr a 16).
Definition DEFINE_IDT64_ENTRY_USER_INTERRUPT (sel a : Z) : idt64_entry_t := IdtEntry (Z.land a 0xFFFF) sel 1 0xE 3 1 (Z.shiftr a 16).

(** The assembly entries. *)
Inductive interrupt_entry_t :=
  | null_handler_entry | div0_handler_entry | nmi_handler_entry | bp_int3_handler_entry | ovf_handler_entry | bound_range_handler_entry
  | invalid_opcode_handler_entry | device_not_avail_handler_entry | double_fault_handler_entry | coproc_segment_overrun_handler_entry
  | invalid_tss_handler_entry | segment_not_present_handler_entry | stack_segment_fault_handler_entry | general_protection_fault_handler_entry
  | page_fault_handler_entry | x87_fpu_handler_entry | alignment_check_handler_entry | machine_check_handler_entry | simd_fpu_error_handler_entry
  | syscall_handler_entry | null_pic1_handler_entry | null_pic2_handler_entry
  | pic1_timer_handler_entry | pic1_keyboard_handler_entry | pic1_com2_handler_entry | pic1_com1_handler_entry | pic2_mouse_handler_entry.

(** Positions in [idt64_t]. *)
Definition idt_mapped_irqs : nat := 21 + 11.
Definition idt_system_interrupt : nat := idt_mapped_irqs + 16.

(** ** The controllers *)

Definition PORT_PIC1_COMMAND : Z := 0x20.
Definition PORT_PIC1_DATA : Z := 0x21.
Definition PORT_PIC2_COMMAND : Z := 0xA0.
Definition PORT_PIC2_DATA : Z := 0xA1.
Definition MAPPED_IRQ_TIMER : Z := 0.
Definition MAPPED_IRQ_KEYBOARD : Z := 1.
Definition MAPPED_IRQ_CASCADE : Z := 2.
Definition MAPPED_IRQ_COM2 : Z := 3.
Definition MAPPED_IRQ_COM1 : Z := 4.
Definition MAPPED_IRQ_MOUSE : Z := 12.
Definition ICW1_ICW4 : Z := 0x01.
Definition ICW1_INIT : Z := 0x10.
Definition ICW4_8086 : Z := 0x01.

Section pic.
Context {P : Type} `{HP : PortIO P}.

Definition io_wait : M P unit := outb 0x80 0.

Definition interrupt_pic_remap (master_offset slave_offset : Z) : M P unit :=
  let! master_mask := inb PORT_PIC1_DATA in
  let! slave_mask := inb PORT_PIC2_DATA in
  do! outb PORT_PIC1_COMMAND (Z.lor ICW1_INIT ICW1_ICW4);
  do! io_wait;
  do! outb PORT_PIC2_COMMAND (Z.lor ICW1_INIT ICW1_ICW4);
  do! io_wait;
  do! outb PORT_PIC1_DATA master_offset;
  do! io_wait;
  do! outb PORT_PIC2_DATA slave_offset;
  do! io_wait;
  do! outb PORT_PIC1_DATA 4;
  do! io_wait;
  do! outb PORT_PIC2_DATA 2;
  do! io_wait;
  do! outb PORT_PIC1_DATA ICW4_8086;
  do! io_wait;
  do! outb PORT_PIC2_DATA ICW4_8086;
  do! io_wait;
  do! outb PORT_PIC1_DATA master_mask;
  outb PORT_PIC2_DATA slave_mask.

Definition interrupt_pic_mask_all : M P unit := do! outb PORT_PIC1_DATA 0xFF; outb PORT_PIC2_DATA 0xFF.
Definition pic_port (irq_line : Z) : Z := if irq_line <? 8 then PORT_PIC1_DATA else PORT_PIC2_DATA.
Definition pic_line (irq_line : Z) : Z := if irq_line <? 8 then irq_line else u8 (irq_line - 8).
Definition interrupt_pic_set_mask (irq_line : Z) : M P unit :=
  let! m := inb (pic_port irq_line) in
  outb (pic_port irq_line) (u8 (Z.lor m (Z.shiftl 1 (pic_line irq_line)))).
Definition interrupt_pic_clear_mask (irq_line : Z) : M P unit :=
  let! m := inb (pic_port irq_line) in
  outb (pic_port irq_line) (u8 (Z.land m (Z.lnot (Z.shiftl 1 (pic_line irq_line))))).

(** ** Initialisation *)

Variable address : interrupt_entry_t -> Z.
Record board := Board { idt : list idt64_entry_t; ports : P }.
Definition on_pics {A} (m : M P A) : M board A := zoom ports (fun w s => Board (idt s) w) m.
Definition set_entry (i : nat) (e : idt64_entry_t) : M board unit := modify (fun s => Board (<[i := e]> (idt s)) (ports s)).
Definition kernel_entry (e : interrupt_entry_t) : idt64_entry_t := DEFINE_IDT64_ENTRY_INTERRUPT GDT_KERNEL_CODE (address e).
Definition set_irq (irq : Z) (e : interrupt_entry_t) : M board unit := set_entry (idt_mapped_irqs + Z.to_nat irq) (kernel_entry e).

Definition interrupt_pic_init : M board unit :=
  do! on_pics (interrupt_pic_remap 0x20 0x28);
  do! set_irq MAPPED_IRQ_TIMER pic1_timer_handler_entry;
  do! set_irq MAPPED_IRQ_KEYBOARD pic1_keyboard_handler_entry;
  do! set_irq MAPPED_IRQ_COM2 pic1_com2_handler_entry;
  do! set_irq MAPPED_IRQ_COM1 pic1_com1_handler_entry;
  do! set_irq MAPPED_IRQ_MOUSE pic2_mouse_handler_entry;
  do! on_pics (interrupt_pic_clear_mask MAPPED_IRQ_TIMER);
  do! on_pics (interrupt_pic_clear_mask MAPPED_IRQ_KEYBOARD);
  do! on_pics (interrupt_pic_clear_mask MAPPED_IRQ_COM2);
  do! on_pics (interrupt_pic_clear_mask MAPPED_IRQ_COM1);
  do! on_pics (interrupt_pic_clear_mask MAPPED_IRQ_CASCADE);
  do! on_pics (interrupt_pic_clear_mask MAPPED_IRQ_MOUSE);
  do! on_pics (outb PORT_PIC1_COMMAND 0x20);
  on_pics (outb PORT_PIC2_COMMAND 0x20).

(** The named entries of [idt64_t], in its order. *)
Definition exception_entries : list (nat * interrupt_entry_t) :=
  [(0%nat, div0_handler_entry); (2%nat, nmi_handler_entry); (3%nat, bp_int3_handler_entry); (4%nat, ovf_handler_entry); (5%nat, bound_range_handler_entry);
   (6%nat, invalid_opcode_handler_entry); (7%nat, device_not_avail_handler_entry); (8%nat, double_fault_handler_entry); (9%nat, coproc_segment_overrun_handler_entry);
   (10%nat, invalid_tss_handler_entry); (11%nat, segment_not_present_handler_entry); (12%nat, stack_segment_fault_handler_entry);
   (13%nat, general_protection_fault_handler_entry); (14%nat, page_fault_handler_entry); (16%nat, x87_fpu_handler_entry); (17%nat, alignment_check_handler_entry);
   (18%nat, machine_check_handler_entry); (19%nat, simd_fpu_error_handler_entry)].
Definition interrupt_init : M board unit :=
  do! for_each exception_entries (fun x => set_entry x.1 (kernel_entry x.2));
  do! set_entry 1 (kernel_entry null_handler_entry);
  do! set_entry 15 (kernel_entry null_handler_entry);
  do! set_entry 20 (kernel_entry null_handler_entry);
  do! for_each (seq 0 8) (fun i => set_entry (idt_mapped_irqs + i) (kernel_entry null_pic1_handler_entry));
  do! for_each (seq 8 8) (fun i => set_entry (idt_mapped_irqs + i) (kernel_entry null_pic2_handler_entry));
  do! set_entry idt_system_interrupt (DEFINE_IDT64_ENTRY_USER_INTERRUPT GDT_KERNEL_CODE (address syscall_handler_entry));
  do! on_pics interrupt_pic_mask_all;
  interrupt_pic_init.
End pic.

(** ** The hardware *)

(** A controller: its mask, the vector of its first line, how it is wired to
    the other one, and the initialisation word it expects (0: none). *)
Record pic_t := Pic { imr : Z; vector_base : Z; wired : Z; expects : Z; needs_icw4 : bool }.
Definition pic_command (v : Z) (c : pic_t) : pic_t :=
  if Z.testbit v 4 then Pic 0 (vector_base c) (wired c) 2 (Z.testbit v 0) else c.
Definition pic_data (v : Z) (c : pic_t) : pic_t :=
  match expects c with
  | 2 => Pic (imr c) (Z.land v 0xF8) (wired c) 3 (needs_icw4 c)
  | 3 => Pic (imr c) (vector_base c) v (if needs_icw4 c then 4 else 0) (needs_icw4 c)
  | 4 => Pic (imr c) (vector_base c) (wired c) 0 (needs_icw4 c)
  | _ => Pic v (vector_base c) (wired c) 0 (needs_icw4 c)
  end.

(** The pair, master first, behind its ports. *)
Abbreviation pair := (pic_t * pic_t)%type.
Definition pair_inb (a : Z) : M pair Z := fun w =>
  if a =? PORT_PIC1_DATA then if expects w.1 =? 0 then Done (imr w.1, w) else Stop Undefined
  else if a =? PORT_PIC2_DATA then if expects w.2 =? 0 then Done (imr w.2, w) else Stop Undefined
  else Stop Undefined.
Definition pair_outb (a v : Z) : M pair unit := fun w =>
  if a =? PORT_PIC1_COMMAND then Done (tt, (pic_command v w.1, w.2))
  else if a =? PORT_PIC1_DATA then Done (tt, (pic_data v w.1, w.2))
  else if a =? PORT_PIC2_COMMAND then Done (tt, (w.1, pic_command v w.2))
  else if a =? PORT_PIC2_DATA then Done (tt, (w.1, pic_data v w.2))
  else if a =? 0x80 then Done (tt, w) else Stop Undefined.
Definition pair_ports : PortIO pair :=
  {| inb := pair_inb; outb := pair_outb; inw _ := stop_with Undefined; outw _ _ := stop_with Undefined |}.

(** Whatever the port instructions do besides, they do to the controllers what
    is documented of them. *)
Class PicPair (P : Type) `{!PortIO P} := {
  pics : P -> pair;
  pic_in a w m x : pair_inb a (pics w) = Done (m, x) -> exists w', inb a w = Done (m, w') /\ pics w' = x;
  pic_out a v w x : pair_outb a v (pics w) = Done (tt, x) -> exists w', outb a v w = Done (tt, w') /\ pics w' = x
}.

(** ** The pair decides *)

Section follows.
Context {S T : Type} (view : S -> T).
(** What [n] does to the view, [m] does to the state. *)
Definition follows {A} (m : M S A) (n : M T A) : Prop := forall s a t, n (view s) = Done (a, t) -> exists s', m s = Done (a, s') /\ view s' = t.
Lemma follows_ret {A} (a : A) : follows (ret a) (ret a).
Proof. intros s b t [= <- <-]. by exists s. Qed.
Lemma follows_bind {A B} (m : M S A) n (k : A -> M S B) l : follows m n -> (forall a, follows (k a) (l a)) -> follows (bind m k) (bind n l).
Proof.
  intros Hm Hk s b t (a & t1 & H1 & H2)%bind_done_inv. destruct (Hm s a t1 H1) as (s1 & E1 & <-). destruct (Hk a s1 b t H2) as (s' & E2 & <-).
  exists s'. split; [|done]. by rewrite (bind_done _ _ _ _ _ E1).
Qed.
Lemma follows_for_each {X} (l : list X) (f : X -> M S unit) g : (forall x, follows (f x) (g x)) -> follows (for_each l f) (for_each l g).
Proof. intros H. induction l as [|x l IH]; [apply follows_ret|]. cbn [for_each]. by apply follows_bind. Qed.
End follows.

Create HintDb follows.
#[local] Hint Resolve follows_ret follows_for_each : follows.

Section hardware.
Context {P : Type} `{HP : PortIO P} `{HC : !PicPair P}.
Variable address : interrupt_entry_t -> Z.

Definition seen (s : @board P) : @board pair := Board (idt s) (pics (ports s)).

Lemma follows_inb a : follows pics (inb a : M P Z) (@inb _ pair_ports a).
Proof. intros w m x. apply pic_in. Qed.
Lemma follows_outb a v : follows pics (outb a v : M P unit) (@outb _ pair_ports a v).
Proof. intros w [] x. apply pic_out. Qed.
Lemma follows_set i e : follows seen (set_entry i e) (set_entry i e).
Proof. intros s [] t [= <-]. by eexists. Qed.
Lemma follows_pics {A} (m : M P A) n : follows pics m n -> follows seen (on_pics m) (on_pics n).
Proof.
  intros H s a t. unfold on_pics, zoom. cbn [ports seen]. destruct (n (pics (ports s))) as [[b x]|] eqn:E; [|done]. intros [= -> <-].
  destruct (H _ _ _ E) as (w' & E' & <-). rewrite E'. by eexists.
Qed.
#[local] Hint Resolve follows_inb follows_outb follows_set follows_pics : follows.
#[local] Ltac follow := repeat first [apply follows_bind; [|intros]|progress auto with follows].

Lemma follows_init : follows seen (interrupt_init address) (@interrupt_init _ pair_ports address).
Proof.
  unfold interrupt_init, interrupt_pic_init, set_irq. follow.
  all: apply follows_pics; unfold interrupt_pic_mask_all, interrupt_pic_remap, interrupt_pic_clear_mask, io_wait; follow.
Qed.

(** ** What comes out of it *)

(** Where an entry leads. *)
Definition entry_target (e : idt64_entry_t) : Z := Z.lor (Z.shiftl (offset_upper e) 16) (offset_lower e).
Lemma kernel_entry_target e : 0 <= address e -> entry_target (kernel_entry address e) = address e.
Proof.
  intros H. unfold entry_target, kernel_entry, DEFINE_IDT64_ENTRY_INTERRUPT. cbn [offset_upper offset_lower].
  apply Z.bits_inj'. intros n Hn. rewrite Z.lor_spec, Z.land_spec. destruct (Z.lt_ge_cases n 16) as [Hl|Hg].
  - rewrite Z.shiftl_spec_low by lia. change 0xFFFF with (Z.ones 16). rewrite Z.ones_spec_low by lia. by rewrite andb_true_r.
  - rewrite Z.shiftl_spec_high, Z.shiftr_spec by lia. change 0xFFFF with (Z.ones 16). rewrite Z.ones_spec_high by lia. rewrite andb_false_r, orb_false_r. f_equal. lia.
Qed.

(** A line gets through to the processor when it is not masked; a line of the
    second controller also needs the line that cascades. *)
Definition reaches (c : pair) (irq : Z) : bool :=
  if irq <? 8 then negb (Z.testbit (imr c.1) irq)
  else negb (Z.testbit (imr c.2) (irq - 8)) && Z.testbit (wired c.1) 2 && (wired c.2 =? 2) && negb (Z.testbit (imr c.1) 2).
Definition vector (c : pair) (irq : Z) : Z := if irq <? 8 then vector_base c.1 + irq else vector_base c.2 + (irq - 8).
Definition line_entry (irq : Z) : interrupt_entry_t :=
  match irq with
  | 0 => pic1_timer_handler_entry | 1 => pic1_keyboard_handler_entry | 3 => pic1_com2_handler_entry | 4 => pic1_com1_handler_entry | 12 => pic2_mouse_handler_entry
  | _ => if irq <? 8 then null_pic1_handler_entry else null_pic2_handler_entry
  end.
Definition DEFINE_IDT64_ENTRY_NULL : idt64_entry_t := IdtEntry 0 0 0 0 0 0 0.

Definition initialised : pair := (Pic 0xE0 0x20 4 0 true, Pic 0xEF 0x28 2 0 true).
Lemma pair_init (c : pair) : expects c.1 = 0 -> expects c.2 = 0 ->
  exists l, @interrupt_init _ pair_ports address (Board (replicate 256 DEFINE_IDT64_ENTRY_NULL) c) = Done (tt, Board l initialised) /\
    (forall irq, 0 <= irq < 16 -> l !! Z.to_nat (0x20 + irq) = Some (kernel_entry address (line_entry irq))) /\
    l !! 0x30%nat = Some (DEFINE_IDT64_ENTRY_USER_INTERRUPT GDT_KERNEL_CODE (address syscall_handler_entry)) /\
    (forall x, x ∈ exception_entries -> l !! x.1 = Some (kernel_entry address x.2)) /\
    (forall v e, l !! v = Some e -> v <> 0x30%nat -> dpl e = 0).
Proof.
  destruct c as [[m1 b1 r1 e1 n1] [m2 b2 r2 e2 n2]]. cbn [fst snd expects]. intros -> ->.
  assert (forall e, dpl (kernel_entry address e) = 0) as Hk by done. unfold interrupt_init, interrupt_pic_init, set_irq. revert Hk.
  generalize (kernel_entry address) as k, (DEFINE_IDT64_ENTRY_USER_INTERRUPT GDT_KERNEL_CODE (address syscall_handler_entry)) as u. intros k u Hk.
  eexists. split; [vm_compute; reflexivity|]. split; [|split; [reflexivity|split]].
  - intros irq Hirq. assert (irq = 0 \/ irq = 1 \/ irq = 2 \/ irq = 3 \/ irq = 4 \/ irq = 5 \/ irq = 6 \/ irq = 7 \/ irq = 8 \/ irq = 9 \/ irq = 10 \/ irq = 11 \/ irq = 12 \/ irq = 13 \/ irq = 14 \/ irq = 15) as Hc by lia.
    repeat destruct Hc as [->|Hc]; [reflexivity..|]. subst irq. reflexivity.
  - intros x Hx. repeat (apply elem_of_cons in Hx as [->|Hx]; [reflexivity|]). by apply elem_of_nil in Hx.
  - intros v e. do 48 (destruct v as [|v]; [by intros [= <-]|]). destruct v as [|v]; [done|]. intros H _. cbn [lookup list_lookup] in H.
    match type of H with ?l !! _ = _ => change l with (replicate 207 DEFINE_IDT64_ENTRY_NULL) in H end. by apply lookup_replicate in H as [-> _].
Qed.

End hardware.

(** ** An instance, and a run *)

Definition pair_controllers : @PicPair pair pair_ports.
Proof. refine (@Build_PicPair pair pair_ports (fun w => w) _ _); intros; by eexists. Defined.

Definition demo_address (e : interrupt_entry_t) : Z := match e with syscall_handler_entry => 0xFFFF800012345678 | pic1_timer_handler_entry => 0x201000 | _ => 0x200000 end.
(** The controllers as the firmware may leave them, with the vectors of the
    lines on those of the exceptions. *)
Definition demo_board : @board pair := Board (replicate 256 DEFINE_IDT64_ENTRY_NULL) (Pic 0xB8 8 4 0 true, Pic 0x8E 0x70 2 0 true).
