(* ===== verification/Exec.v ===== *)
(** * Exec: loading a program and starting it

    [load_program] (src/prog_loader/prog_loader.c) and the system call [exec]
    (src/syscall/handlers/exec.c), on the state [machine] of Interrupts.v.  The
    segments are those of ProcMem.v, the arguments those of ExecArgs.v.  The ELF
    library is outside the repository: [elf_load] and [elf_load_segment], which
    fills a segment, read the file through the handler they are given.  [fuel] bounds
    the length of strings. *)
From S2P Require Import Prelude Dll Sched Signal Timer Pipe Fs FsPath RamfsTree File FileProofs Heap Bitmap Valloc PageTables PageTree PageMap PmanIface Pman PmanInv PmanOps PmanWrite PmanInst PmanProps ProcMem Process ExecArgs Registers IntRegistry Interrupts.

(** What the library makes of a file: the address the program starts at, and
    the headers, each with whether its type is [ELF_PH_TYPE_LOAD]. *)
Record elf_t := Elf { e_entry : Z; e_headers : list (bool * elf_pheader_t) }.

Section exec.
Context {V F T : Type} `{HV : VirtualRanges V} `{HF : FrameAllocator F} `{HT : PageMapper T}.
Context (ops : Z -> fs_superblock_ops_t).
Variable elf_load : (Z -> Z -> M fs (list (option Z))) -> M fs (option elf_t).
Variable elf_load_segment : elf_t -> elf_pheader_t -> (Z -> Z -> M fs (list (option Z))) -> Z -> M (fs * @pman V F T) unit.
Abbreviation machine := (@Interrupts.machine V F T).

(** The error a read gives is not looked at. *)
Definition prog_read_handler (dirent size offset : Z) : M fs (list (option Z)) :=
  let! (_, o) := ops_of ops dirent in
  let! read := of_option Undefined (op_read o) in
  let! r := read dirent size offset in
  ret r.2.

Definition on_m_fs {A} (m : M fs A) : M machine A := on_kernel (on_k_fs m).
Definition on_m_pman {A} (m : M (@pman V F T) A) : M machine A := on_kernel (on_k_pman m).
Definition on_m_both {A} (m : M (fs * @pman V F T) A) : M machine A :=
  on_kernel (zoom (fun k => (k_fs k, mem_pman (k_mem k))) (fun x k => with_mem (Pmem x.2 (stack_mapping (k_mem k))) (with_fs x.1 k)) m).
Definition thread_load_pc (t pc : Z) : M machine unit := let! r := get_tsr t in set_tsr t (tsr_load_pc pc r).
Definition first_thread (x : process_t) : M machine Z := of_option Undefined (head (p_threads x)).

Definition load_header (c : nat) (elf : elf_t) (d : Z) (h : bool * elf_pheader_t) : M machine unit :=
  if h.1 then
    let! process_mapping := on_m_pman (load_segment c h.2) in
    match process_mapping with Some a => on_m_both (elf_load_segment elf h.2 (prog_read_handler d) a) | None => ret tt end
  else ret tt.

Definition load_program (p : Z) (dirent : option Z) : M machine code :=
  match dirent with
  | None => ret (NegErr ENOENT)
  | Some d =>
      let! e := on_m_fs (get_dirent d) in
      if bool_decide (type e = FS_DIRECTORY) then do! on_m_fs (fs_directory_entry_release ops d); ret (NegErr EISDIR)
      else
        let! r := on_m_fs (elf_load (prog_read_handler d)) in
        match r with
        | None => do! on_m_fs (fs_directory_entry_release ops d); ret (NegErr ENOEXEC)
        | Some elf =>
            let! x := on_kernel (get_process p) in
            do! for_each (e_headers elf) (load_header (paging_context x) elf d);
            let! t := first_thread x in
            do! thread_load_pc t (e_entry elf);
            ret (Num 0)
        end
  end.

(** The string at an address of the kernel, with its end. *)
Fixpoint load_bytes (a : Z) (n : nat) : M (@pman V F T) (list Z) :=
  match n with
  | O => ret []
  | S n' => let! b := load_byte (u64 a) in let! l := load_bytes (a + 1) n' in ret (b :: l)
  end.
Definition c_string (fuel : nat) (a : Z) : M (@pman V F T) (list Z) :=
  let! n := strlen fuel a in let! l := load_bytes a (Z.to_nat n) in ret (l ++ [0]).

Definition kernel_argv (c : nat) (_argv argc : Z) : M (@pman V F T) (list Z) :=
  if negb (argc =? 0) then
    let! r := process_user_to_kernel c _argv in
    let! argv := of_option Undefined r in user_argv c argv (Z.to_nat argc)
  else ret [].

Definition syscall_exec (fuel : nat) (_path _argv argc : Z) : M machine code :=
  let! p := on_kernel scheduler_current_process in
  let! x := on_kernel (get_process p) in
  let c := paging_context x in
  let! path := on_m_pman (process_user_to_kernel c _path) in
  match path with
  | None => ret (NegErr EFAULT)
  | Some path =>
      let! name := on_m_pman (c_string fuel path) in
      let! elf_dirent := on_m_fs (process_open_path ops (p_working_dir x) name) in
      match elf_dirent with
      | None => ret (NegErr ENOENT)
      | Some d =>
          let! kern_argv := on_m_pman (kernel_argv c _argv argc) in
          let! t := first_thread x in
          let! r := get_tsr t in
          let! (argv, rsp') := on_m_pman (process_push_args fuel c (rsp r) kern_argv) in
          do! set_tsr t (set_rsp rsp' r);
          let! load_result := load_program p (Some d) in
          if negb (bool_decide (load_result = Num 0)) then ret load_result
          else
            do! on_m_fs (fs_directory_entry_release ops d);
            let! mem := on_kernel (on_k_mem get) in
            let! m := of_option Undefined (stack_mapping mem !! t) in
            let! y := on_m_pman (get_mapping m) in
            let! r := get_tsr t in
            let r := tsr_set_stack (m_vaddr y) (m_size_pages y * PAGE_SIZE) r in
            do! set_tsr t r;
            let! rsp'' := on_m_pman (push_main_args c (rsp r) argv) in
            do! set_tsr t (set_rsp rsp'' r);
            ret (Num 0)
      end
  end.

(** ** What a successful call leaves *)

(** Registers, processes, stacks and the scheduler are as they were. *)
Record keeps (m m' : machine) : Prop := {
  kp_tsrs : tsrs m' = tsrs m;
  kp_processes : processes (mk m') = processes (mk m);
  kp_stacks : stack_mapping (k_mem (mk m')) = stack_mapping (k_mem (mk m));
  kp_sched : k_sched (mk m') = k_sched (mk m);
  kp_cpu : cpu m' = cpu m /\ cr3 m' = cr3 m /\ nodes m' = nodes m
}.
Lemma keeps_refl m : keeps m m.
Proof. by split. Qed.
Lemma keeps_trans m1 m2 m3 : keeps m1 m2 -> keeps m2 m3 -> keeps m1 m3.
Proof. intros [A1 B1 C1 D1 (E1 & F1 & G1)] [A2 B2 C2 D2 (E2 & F2 & G2)]. split; [congruence..|split_and!; congruence]. Qed.
Lemma on_m_fs_inv {A} (c : M fs A) m a m' : on_m_fs c m = Done (a, m') -> keeps m m' /\ c (k_fs (mk m)) = Done (a, k_fs (mk m')).
Proof.
  intros (k' & H & ->)%on_kernel_inv. unfold on_k_fs, zoom in H. destruct (c _) as [[b f]|]; [|done]. injection H as -> <-. by split.
Qed.
Lemma on_m_pman_inv {A} (c : M (@pman V F T) A) m a m' : on_m_pman c m = Done (a, m') ->
  keeps m m' /\ k_fs (mk m') = k_fs (mk m) /\ c (mem_pman (k_mem (mk m))) = Done (a, mem_pman (k_mem (mk m'))).
Proof.
  intros (k' & H & ->)%on_kernel_inv. unfold on_k_pman, on_k_mem, on_pman, zoom in H. destruct (c _) as [[b f]|]; [|done]. injection H as -> <-. split; [by split|]. by split.
Qed.
Lemma get_dirent_inv d (f f' : fs) e : get_dirent d f = Done (e, f') -> dirents f !! d = Some e /\ f' = f.
Proof. apply of_option_inv. Qed.
Lemma current_process_inv (m m' : machine) p : on_kernel scheduler_current_process m = Done (p, m') -> scheduler_current_process (mk m) = Done (p, mk m) /\ m' = m.
Proof.
  intros (k' & H & ->)%on_kernel_inv. assert (k' = mk m) as ->; [|by rewrite with_kernel_id].
  apply bind_done_inv in H as (k & k1 & H1 & H). injection H1 as <- <-. apply bind_done_inv in H as (t & k1 & H1 & H). apply of_option_inv in H1 as [_ ->].
  apply bind_done_inv in H as (th & k1 & H1 & H). apply of_option_inv in H as [_ ->]. unfold on_k_sched, zoom in H1. destruct (get_thread t _) as [[b s']|] eqn:E; [|done].
  injection H1 as -> <-. apply get_thread_inv in E as [_ ->]. apply with_sched_id.
Qed.
Lemma first_thread_inv x (m : machine) t m' : first_thread x m = Done (t, m') -> head (p_threads x) = Some t /\ m' = m.
Proof. apply of_option_inv. Qed.

Lemma on_m_both_inv {A} (c : M (fs * @pman V F T) A) m a m' : on_m_both c m = Done (a, m') -> keeps m m'.
Proof. intros (k' & H & ->)%on_kernel_inv. unfold zoom in H. destruct (c _) as [[b f]|]; [|done]. injection H as -> <-. by split. Qed.
Lemma load_headers_keep c elf d hs : forall m m', for_each hs (load_header c elf d) m = Done (tt, m') -> keeps m m'.
Proof.
  induction hs as [|h hs IH]; intros m m'; cbn [for_each]; [intros [= <-]; apply keeps_refl|].
  intros ([] & m1 & H1 & H)%bind_done_inv. eapply keeps_trans; [|by apply IH]. unfold load_header in H1. destruct h.1; [|injection H1 as <-; apply keeps_refl].
  apply bind_done_inv in H1 as (o & m2 & H1 & H2). apply on_m_pman_inv in H1 as [H1 _]. eapply keeps_trans; [exact H1|].
  destruct o; [by eapply on_m_both_inv|injection H2 as <-; apply keeps_refl].
Qed.

(** A program is loaded by the library, and the first thread of the process
    goes on at its entry. *)
Lemma load_program_inv p d (m m' : machine) : load_program p (Some d) m = Done (Num 0, m') -> exists elf f' x t r,
  elf_load (prog_read_handler d) (k_fs (mk m)) = Done (Some elf, f') /\ processes (mk m) !! p = Some x /\ head (p_threads x) = Some t /\ tsrs m !! t = Some r /\
  exists m1, keeps m m1 /\ m' = Machine (mk m1) (<[t := tsr_load_pc (e_entry elf) r]> (tsrs m)) (cpu m) (cr3 m) (nodes m).
Proof.
  intros (e & m1 & H1 & H)%bind_done_inv. apply on_m_fs_inv in H1 as [K1 [_ Hf1]%get_dirent_inv]. destruct (bool_decide _).
  { apply bind_done_inv in H as ([] & m2 & _ & H). discriminate H. }
  apply bind_done_inv in H as (r & m2 & H2 & H). apply on_m_fs_inv in H2 as [K2 Hf]. destruct r as [elf|].
  2:{ apply bind_done_inv in H as ([] & m3 & _ & H). discriminate H. }
  apply bind_done_inv in H as (x & m3 & H3 & H). apply read_process_inv in H3 as [Hx ->]. apply bind_done_inv in H as ([] & m4 & H4 & H). apply load_headers_keep in H4.
  apply bind_done_inv in H as (t & m5 & H5 & H). apply first_thread_inv in H5 as [Ht ->]. apply bind_done_inv in H as ([] & m6 & H6 & H). injection H as <-.
  apply bind_done_inv in H6 as (r & m7 & H7 & H6). apply get_tsr_inv in H7 as [Hr ->]. injection H6 as <-.
  pose proof (keeps_trans _ _ _ (keeps_trans _ _ _ K1 K2) H4) as [Kt Kp Ks Kc (Kcpu & Kcr & Kn)]. destruct K1 as [Kt1 Kp1 _ _ _], K2 as [Kt2 Kp2 _ _ _].
  exists elf, (k_fs (mk m2)), x, t, r. split; [by rewrite Hf1 in Hf|]. split; [by rewrite Kp2, Kp1 in Hx|]. split; [done|]. split; [by rewrite Kt in Hr|].
  exists m4. split; [by split|]. by rewrite Kt, Kcpu, Kcr, Kn.
Qed.

(** A directory, and a file the library does not take, are given back. *)
Lemma load_program_refuses p d (m : machine) e m1 m2 : k_fs (mk m) = m1 -> dirents m1 !! d = Some e ->
  (type e = FS_DIRECTORY \/ exists f, elf_load (prog_read_handler d) m1 = Done (None, f) /\ f = m1) -> fs_directory_entry_release ops d m1 = Done (tt, m2) ->
  load_program p (Some d) m = Done (NegErr (if bool_decide (type e = FS_DIRECTORY) then EISDIR else ENOEXEC), with_kernel (with_fs m2 (mk m)) m).
Proof.
  intros Hm He Hor Hrel. assert (forall A (c : M fs A) a f, c m1 = Done (a, f) -> on_m_fs c m = Done (a, with_kernel (with_fs f (mk m)) m)) as Hon.
  { intros A c a f Hc. unfold on_m_fs, on_kernel, on_k_fs, zoom. by rewrite Hm, Hc. }
  assert (with_kernel (with_fs m1 (mk m)) m = m) as Hid by (destruct m as [[] ? ? ? ?]; cbn in *; by subst).
  unfold load_program. rewrite (bind_done _ _ _ _ _ (Hon _ _ _ _ (get_dirent_done d m1 e He))), Hid. case_bool_decide as Ht.
  - by rewrite (bind_done _ _ _ _ _ (Hon _ _ _ _ Hrel)).
  - destruct Hor as [|(f & Hf & ->)]; [done|]. rewrite (bind_done _ _ _ _ _ (Hon _ _ _ _ Hf)), Hid. by rewrite (bind_done _ _ _ _ _ (Hon _ _ _ _ Hrel)).
Qed.

(** ** The arguments and the stack *)

Lemma length_user_argv c n : forall a (s s' : @pman V F T) l, user_argv c a n s = Done (l, s') -> length l = n.
Proof.
  induction n as [|n IH]; intros a s s' l; cbn [user_argv]; [by intros [= <- _]|].
  intros (q & s1 & _ & H)%bind_done_inv. apply bind_done_inv in H as (r & s2 & _ & H). apply bind_done_inv in H as (l' & s3 & Hl & H).
  injection H as <- _. cbn. by rewrite (IH _ _ _ _ Hl).
Qed.
Lemma length_kernel_argv c a argc (s s' : @pman V F T) l : 0 <= argc -> kernel_argv c a argc s = Done (l, s') -> Z.of_nat (length l) = argc.
Proof.
  intros Ha. unfold kernel_argv. destruct (Z.eqb_spec argc 0) as [->|Hne]; cbn [negb]; [by intros [= <- _]|].
  intros (r & s1 & _ & H)%bind_done_inv. apply bind_done_inv in H as (p & s2 & _ & H). apply length_user_argv in H. lia.
Qed.
Lemma length_copy_args fuel kb ub argv : forall pos (s s' : @pman V F T) l, copy_args fuel kb ub pos argv s = Done (l, s') -> length l = length argv.
Proof.
  induction argv as [|a argv IH]; intros pos s s' l; cbn [copy_args]; [by intros [= <- _]|].
  intros (n & s1 & _ & H)%bind_done_inv. apply bind_done_inv in H as ([] & s2 & _ & H). apply bind_done_inv in H as (l' & s3 & Hl & H).
  injection H as <- _. cbn. by rewrite (IH _ _ _ _ Hl).
Qed.
Lemma length_pushed_args fuel c v argv (s s' : @pman V F T) l w : process_push_args fuel c v argv s = Done ((l, w), s') -> length l = length argv.
Proof.
  intros (l' & s1 & H & H2)%bind_done_inv. apply bind_done_inv in H2 as (w' & s2 & _ & H2). injection H2 as -> _ _.
  destruct argv as [|a argv]; unfold make_args in H; [by injection H as <- _|].
  apply bind_done_inv in H as (n & s3 & _ & H). apply bind_done_inv in H as ([k u] & s4 & _ & H). apply bind_done_inv in H as (ky & s5 & _ & H).
  apply bind_done_inv in H as (uy & s6 & _ & H). apply bind_done_inv in H as (l' & s7 & Hl & H). apply bind_done_inv in H as (e & s8 & _ & H).
  injection H as <- _. by apply length_copy_args in Hl.
Qed.
Lemma get_mapping_inv m (s s' : @pman V F T) y : get_mapping m s = Done (y, s') -> pm_maps s !! m = Some y /\ s' = s.
Proof. apply of_option_inv. Qed.
Lemma root_from_reads fuel : forall m (s s' : @pman V F T) r, root_from fuel m s = Done (r, s') -> s' = s.
Proof.
  induction fuel as [|fuel IH]; intros m s s' r; cbn [root_from]; [done|]. intros (y & s1 & Hy & H)%bind_done_inv. apply get_mapping_inv in Hy as [_ ->].
  destruct (m_type y); first [by apply IH in H|by injection H as _ ->|done].
Qed.
Lemma get_root_mapping_inv m (s s' : @pman V F T) r : get_root_mapping m s = Done (r, s') -> s' = s.
Proof. apply root_from_reads. Qed.
(** Writing to the stack changes no mapping. *)
Lemma store_bytes_maps bs : forall a (s s' : @pman V F T), store_bytes a bs s = Done (tt, s') -> pm_maps s' = pm_maps s.
Proof.
  induction bs as [|b bs IH]; intros a s s'; cbn [store_bytes]; [by intros [= <-]|].
  intros ([] & s1 & H1 & H)%bind_done_inv. apply IH in H as ->. unfold store_byte in H1. destruct (pm_contexts s !! _); [|done].
  destruct (pm_walk _ _ _); [|done]. by injection H1 as <-.
Qed.
Lemma user_to_kernel_reads c a (s s' : @pman V F T) o : process_user_to_kernel c a s = Done (o, s') -> s' = s.
Proof.
  intros (x & s1 & H1 & H)%bind_done_inv. assert (s1 = s) as -> by (unfold get_context in H1; destruct (pm_contexts s !! c); by simplify_eq/=).
  revert H. induction (c_list x) as [|m l IH]; cbn [user_to_kernel_from]; [by intros [= _ ->]|].
  intros (y & s1 & Hy & H)%bind_done_inv. apply get_mapping_inv in Hy as [_ ->]. destruct (_ && _); [|by apply IH].
  apply bind_done_inv in H as (r & s1 & Hr & H). apply get_root_mapping_inv in Hr as ->.
  apply bind_done_inv in H as (z & s1 & Hz & H). apply get_mapping_inv in Hz as [_ ->]. by injection H as _ ->.
Qed.
Lemma push_main_args_inv c v argv (s s' : @pman V F T) w : push_main_args c v argv s = Done (w, s') ->
  w = u64 (v - 8 * (1 + Z.of_nat (length argv))) /\ pm_maps s' = pm_maps s.
Proof.
  intros (o & s1 & H1 & H)%bind_done_inv. apply user_to_kernel_reads in H1 as ->. apply bind_done_inv in H as (a & s1 & H1 & H). apply of_option_inv in H1 as [_ ->].
  apply bind_done_inv in H as ([] & s1 & H1 & H). apply bind_done_inv in H as ([] & s2 & H2 & H). injection H as <- <-. split; [done|].
  rewrite store_words_bytes in H1. by rewrite (store_bytes_maps _ _ _ _ H2), (store_bytes_maps _ _ _ _ H1).
Qed.

(** ** Entering the program *)

(** The first thread of the current process goes on at the entry of the program
    that lies at the path, on its own stack below which the arguments are pushed;
    its other registers keep what the caller had in them, and no other thread is
    touched. *)
Theorem exec_enters_program fuel path argv argc (m m' : machine) : 0 <= argc -> syscall_exec fuel path argv argc m = Done (Num 0, m') ->
  exists p x t r st y name d f elf f',
    scheduler_current_process (mk m) = Done (p, mk m) /\ processes (mk m) !! p = Some x /\ head (p_threads x) = Some t /\ tsrs m !! t = Some r /\
    stack_mapping (k_mem (mk m)) !! t = Some st /\ pm_maps (mem_pman (k_mem (mk m'))) !! st = Some y /\
    process_open_path ops (p_working_dir x) name (k_fs (mk m)) = Done (Some d, f) /\ elf_load (prog_read_handler d) f = Done (Some elf, f') /\
    (let top := u64 (m_vaddr y + m_size_pages y * PAGE_SIZE - 8) in
     tsrs m' = <[t := set_rsp (u64 (top - 8 * (1 + argc))) (tsr_load_pc (e_entry elf) (set_stack_pointers top r))]> (tsrs m)) /\
    processes (mk m') = processes (mk m) /\ k_sched (mk m') = k_sched (mk m) /\ cpu m' = cpu m /\ cr3 m' = cr3 m.
Proof.
  intros Hargc (p & m1 & H1 & H)%bind_done_inv. apply current_process_inv in H1 as [Hp ->].
  apply bind_done_inv in H as (x & m1 & H1 & H). apply read_process_inv in H1 as [Hx ->].
  apply bind_done_inv in H as ([a|] & m1 & H1 & H); [|discriminate H]. apply on_m_pman_inv in H1 as (K1 & F1 & Ha).
  apply bind_done_inv in H as (name & m2 & H2 & H). apply on_m_pman_inv in H2 as (K2 & F2 & Hname).
  apply bind_done_inv in H as ([d|] & m3 & H3 & H); [|discriminate H]. apply on_m_fs_inv in H3 as [K3 Hopen].
  apply bind_done_inv in H as (ka & m4 & H4 & H). apply on_m_pman_inv in H4 as (K4 & F4 & Hka). apply length_kernel_argv in Hka; [|done].
  apply bind_done_inv in H as (t & m5 & H5 & H). apply first_thread_inv in H5 as [Ht ->].
  apply bind_done_inv in H as (r & m5 & H5 & H). apply get_tsr_inv in H5 as [Hr ->].
  apply bind_done_inv in H as ([l v] & m5 & H5 & H). apply on_m_pman_inv in H5 as (K5 & F5 & Hl). apply length_pushed_args in Hl.
  apply bind_done_inv in H as ([] & m6 & H6 & H). injection H6 as <-.
  apply bind_done_inv in H as (c & m7 & H7 & H). case_bool_decide as Hc; cbn [negb] in H; [subst c|by injection H as ->].
  apply load_program_inv in H7 as (elf & f' & x' & t' & r' & Hload & Hx' & Ht' & Hr' & m8 & K8 & ->).
  pose proof (keeps_trans _ _ _ K1 (keeps_trans _ _ _ K2 (keeps_trans _ _ _ K3 K4))) as K6. pose proof (keeps_trans _ _ _ K6 K5) as K7. clear K1 K2 K3 K4 K5.
  cbn [mk tsrs cpu cr3 nodes] in *. destruct K6 as [T4 P4 S4 C4 _], K7 as [T5 P5 S5 C5 (U5 & R5 & _)], K8 as [T8 P8 S8 C8 (U8 & R8 & _)]. cbn [mk tsrs cpu cr3 nodes] in *.
  rewrite P5, Hx in Hx'. injection Hx' as <-. rewrite Ht in Ht'. injection Ht' as <-. rewrite lookup_insert_eq in Hr'. injection Hr' as <-.
  rewrite insert_insert_eq, F5, F4 in *. rewrite T4 in Hr. rewrite T5, U5, R5 in *.
  apply bind_done_inv in H as ([] & m9 & H9 & H). apply on_m_fs_inv in H9 as [[T9 P9 S9 C9 (U9 & R9 & _)] _]. cbn [mk tsrs cpu cr3 nodes] in *.
  apply bind_done_inv in H as (mem & m10 & H10 & H). apply on_kernel_inv in H10 as (k & H10 & ->). unfold on_k_mem, zoom, get in H10. injection H10 as <- <-.
  apply bind_done_inv in H as (st & m11 & H11 & H). apply of_option_inv in H11 as [Hst ->].
  apply bind_done_inv in H as (y & m11 & H11 & H). apply on_m_pman_inv in H11 as ([T11 P11 S11 C11 (U11 & R11 & _)] & _ & [Hy M11]%get_mapping_inv).
  cbn [mk tsrs cpu cr3 nodes with_kernel with_mem k_mem processes k_sched] in *.
  apply bind_done_inv in H as (r1 & m12 & H12 & H). apply get_tsr_inv in H12 as [Hr1 ->]. rewrite T11, T9, lookup_insert_eq in Hr1. injection Hr1 as <-.
  apply bind_done_inv in H as ([] & m13 & H13 & H). injection H13 as <-. 
  apply bind_done_inv in H as (w & m14 & H14 & H). apply on_m_pman_inv in H14 as ([T14 P14 S14 C14 (U14 & R14 & _)] & _ & [-> M14]%push_main_args_inv).
  apply bind_done_inv in H as ([] & m15 & H15 & H). injection H15 as <-. injection H as <-. cbn [mk tsrs cpu cr3 nodes] in *.
  exists p, x, t, r, st, y, name, d, (k_fs (mk m3)), elf, f'. split_and!; try done.
  - by rewrite <- S5, <- S8, <- S9.
  - by rewrite M14, M11.
  - by rewrite <- F1, <- F2.
  - rewrite T14, T11, T9, !insert_insert_eq, Hl, Hka. done.
  - congruence.
  - congruence.
  - congruence.
  - congruence.
Qed.
End exec.

(** ** A concrete run *)

(** A file "p" in the root directory, that is a program with one page at
    0x400000; its name lies at the start of the stack of [demo_first]. *)
Definition demo_programs : fs := match fs_make fs_ops fs_root [112] FS_REGULAR (hold fs_root booted) with Done (_, f) => f | Stop _ => booted end.
Definition demo_elf : elf_t := Elf 0x400010 [(true, ElfPheader 0x400010 100 false true)].
Definition demo_elf_load (read : Z -> Z -> M fs (list (option Z))) : M fs (option elf_t) := let! _ := read 64 0 in ret (Some demo_elf).
Definition demo_load_segment (_ : elf_t) (_ : elf_pheader_t) (_ : Z -> Z -> M fs (list (option Z))) (_ : Z) : M (fs * demo_pman) unit := ret tt.
Definition demo_caller : @Interrupts.machine (@valloc_t bump) frame_pool page_tables :=
  Machine (with_fs demo_programs (with_mem (Pmem (with_memory {[ 0x100000 := 112; 0x100001 := 0 ]} (demo_state exec_ops)) {[ 7 := 1%nat ]}) demo_system))
    {[ 7 := set_rsp 0x5800 demo_registers; 8 := tsr_zero ]} (UserMode 7 demo_registers) 1 demo_nodes.

Lemma exec_enters_program_witness : exists m' r, syscall_exec fs_ops demo_elf_load demo_load_segment 8 0x5000 0 0 demo_caller = Done (Num 0, m') /\
  tsrs m' !! 7 = Some r /\ rip r = 0x400010 /\ rsp r = 0x5ff0 /\ rbp r = 0x5ff8 /\ rax r = rax demo_registers.
Proof.
  assert (exists m', syscall_exec fs_ops demo_elf_load demo_load_segment 8 0x5000 0 0 demo_caller = Done (Num 0, m') /\
    (fun y => (m_vaddr y, m_size_pages y)) <$> pm_maps (mem_pman (k_mem (mk m'))) !! 1%nat = Some (0x5000, 1)) as (m' & E & Hm)
    by (eexists; split; [vm_compute; reflexivity|vm_compute; reflexivity]).
  destruct (exec_enters_program fs_ops demo_elf_load demo_load_segment 8 0x5000 0 0 demo_caller m' ltac:(lia) E)
    as (p & x & t & r & st & y & name & d & f & elf & f' & Hp & Hx & Ht & Hr & Hst & Hy & _ & Hload & Hts & _).
  assert (p = 100) as -> by (vm_compute in Hp; congruence). change (Some demo_first = Some x) in Hx. injection Hx as <-.
  injection Ht as <-. change (Some (set_rsp 0x5800 demo_registers) = Some r) in Hr. injection Hr as <-.
  change (Some 1%nat = Some st) in Hst. injection Hst as <-.
  rewrite Hy in Hm. injection Hm as Hv Hs. rewrite Hv, Hs in Hts.
  assert (elf = demo_elf) as ->. { unfold demo_elf_load in Hload. apply bind_done_inv in Hload as (l & f1 & _ & Hl). injection Hl as <- _. reflexivity. }
  exists m'. eexists. split; [exact E|]. split; [rewrite Hts; apply lookup_insert_eq|]. split_and!; reflexivity.
Defined.
