(* ===== verification/DiscDetect.v ===== *)
(** * DiscDetect: finding ATA drives (modules/disc_pio/src/disc_pio.c)

    The driver watches the PCI bus (Pci.v).  For an IDE controller it takes the
    ports of both channels from the controller's base addresses, reserves them
    (IoPorts.v), asks each of the four drives to identify itself (DiscPio.v), and
    makes those that do block devices (Device.v) with a file in devfs (Devfs.v).
    The state [disc_driver] joins the states of these components; the ports of
    the processor are those of the drives and of the configuration space.
    [fuel] bounds the polls of a drive's status. *)
From S2P Require Import Prelude CString IoPorts Dll Sched Wait Pipe Fs Device Devfs DiscPio Pci.

(** A driver's hardware next to the events of the scheduler. *)
#[export] Instance waiting_events {D W : Type} `{!EventService W} : EventService (waiting D W).
Proof.
  refine {| ev_init e := on_events (ev_init e); ev_free e := on_events (ev_free e); ev_invoke e := on_events (ev_invoke e);
            ev_await e := on_events (ev_await e); ev_latched s := ev_latched (evs s) |}.
  - intros e s Hl. destruct (ev_await_latched e (evs s) Hl) as (w & E & Hw). exists (Waiting (dev s) w). unfold on_events, zoom. by rewrite E.
  - intros e s s' H. unfold on_events, zoom in H. destruct (ev_await e (evs s)) as [[b w]|] eqn:E; [|done]. injection H as -> _. by eapply ev_await_returns.
Defined.

(** The ports of sys/ports.h and the classes of sys/pci/pci.h. *)
Definition ATA_PIO_PRIMARY : Z := 0x1F0.
Definition ATA_PIO_SECONDARY : Z := 0x170.
Definition ATA_PIO_PRIMARY_CONTROL : Z := 0x3F6.
Definition ATA_PIO_SECONDARY_CONTROL : Z := 0x376.
Definition PCI_CLASS_MASS_STORAGE_CONTROLLER : Z := 1.
Definition PCI_SUBCLASS_IDE_CONTROLLER : Z := 1.

Section driver.
Context {P E : Type} `{!PortIO P, !PortIO32 P, !EventService E}.
Variable fuel : nat.
Abbreviation hardware := (waiting (pio (P := P)) E).

(** [ide_devices] with the entry in devfs of each; [next_address] is where the
    next object is allocated. *)
Record disc_driver := DiscDriver {
  ide_devices : list (ide_device_t * Z);
  arbiter : list (list Z);
  disc_devfs : devfs (V := ide_device_t) (W := hardware);
  next_address : Z
}.
Definition on_arbiter {A} (m : M (list (list Z)) A) : M disc_driver A :=
  zoom arbiter (fun b s => DiscDriver (ide_devices s) b (disc_devfs s) (next_address s)) m.
Definition on_disc_devfs {A} (m : M (devfs (V := ide_device_t) (W := hardware)) A) : M disc_driver A :=
  zoom disc_devfs (fun d s => DiscDriver (ide_devices s) (arbiter s) d (next_address s)) m.
Definition on_pio {A} (m : M (pio (P := P)) A) : M disc_driver A := on_disc_devfs (on_devs (on_drivers (on_dev m))).
Definition new_address : M disc_driver Z := fun s =>
  Done (next_address s, DiscDriver (ide_devices s) (arbiter s) (disc_devfs s) (next_address s + 1)).
#[export] Instance disc_ports32 : PortIO32 disc_driver := {
  inl port := on_pio (on_ports (inl port)); outl port v := on_pio (on_ports (outl port v)) }.

Definition block_ops : device_block_operations_t (V := ide_device_t) (W := hardware) :=
  BlockOperations (fun d buffer n lba => on_dev (block_write fuel d buffer n lba)) (fun d n lba => on_dev (block_read fuel d n lba)).
(** "disc" and the number of the drive. *)
Definition disc_name (n : Z) : list Z := [100; 105; 115; 99] ++ writestr 25 0 n.

(** A drive that answered. *)
Definition add_found (ide_device : ide_device_t) : M disc_driver unit :=
  let! s := get in
  let name := disc_name (Z.of_nat (length (ide_devices s))) in
  let! a := new_address in
  let! e := new_address in
  let! device := on_disc_devfs (on_devs (device_create_block a e name ide_device block_ops 512)) in
  let! entry := new_address in
  let! devfs_entry := on_disc_devfs (devfs_register entry device) in
  modify (fun s => DiscDriver (ide_devices s ++ [(ide_device, devfs_entry)]) (arbiter s) (disc_devfs s) (next_address s)).
Definition add_ide_device (io_port control_port : Z) (is_master : bool) : M disc_driver unit :=
  let! present := on_pio (disc_present fuel io_port control_port (if is_master then DEVICE_DRIVE_MASTER else DEVICE_DRIVE_SLAVE)) in
  if present : bool then add_found (IdeDevice io_port control_port is_master) else ret tt.

(** A base address without its low bits, cut to a port, or the standard port. *)
Definition bar_port (a : pci_address_t) (bar standard : Z) : M disc_driver Z :=
  let! b := pci_read_bar a bar in
  let port := u16 (Z.land b (u32 (-4))) in
  ret (if port =? 0 then standard else port).
(** One channel: [false] when a port is taken. *)
Definition probe_channel (a : pci_address_t) (bar standard standard_control : Z) : M disc_driver bool :=
  let! disc_io_port := bar_port a bar standard in
  let! disc_control_port := bar_port a (bar + 1) standard_control in
  let! r := on_arbiter (io_arbitrator_reserve disc_io_port) in
  if negb r then ret false else
  let! r := on_arbiter (io_arbitrator_reserve disc_control_port) in
  if negb r then ret false else
  do! add_ide_device disc_io_port disc_control_port true;
  do! add_ide_device disc_io_port disc_control_port false;
  ret true.
Definition pci_probe (device : pci_device_t) (_ : unit) : M disc_driver pci_probe_result_t :=
  if (class device =? PCI_CLASS_MASS_STORAGE_CONTROLLER) && (subclass device =? PCI_SUBCLASS_IDE_CONTROLLER) then
    let! ok := probe_channel (address device) 0 ATA_PIO_PRIMARY ATA_PIO_PRIMARY_CONTROL in
    if negb ok then ret PCI_IGNORE else
    let! ok := probe_channel (address device) 2 ATA_PIO_SECONDARY ATA_PIO_SECONDARY_CONTROL in
    if negb ok then ret PCI_IGNORE else ret PCI_BIND
  else ret PCI_IGNORE.

(** [init] and [free]; [watcher] is the address of the watcher. *)
Definition disc_init (watcher : Z) : M (pci (W := disc_driver) (V := unit)) Z :=
  do! on_world (modify (fun s => DiscDriver [] (arbiter s) (disc_devfs s) (next_address s)));
  let! _ := pci_watch watcher pci_probe tt in
  ret 0.
Definition disc_free (watcher : Z) : M (pci (W := disc_driver) (V := unit)) Z :=
  do! pci_unwatch watcher; ret 0.
End driver.

(** ** What a probe does *)

(** A channel's two ports are reserved, if they are free; the first stays
    reserved when the second is not. *)
Definition claim (taken : gset Z) (io ctl : Z) : bool * gset Z :=
  if bool_decide (io ∈ taken) then (false, taken)
  else if bool_decide (ctl ∈ ({[ io ]} ∪ taken : gset Z)) then (false, {[ io ]} ∪ taken)
  else (true, {[ ctl ]} ∪ ({[ io ]} ∪ taken)).

Section proofs.
Context {P E : Type} `{!PortIO P, !PortIO32 P, !EventService E}.
Variable fuel : nat.
Abbreviation pio := (pio (P := P)).
Abbreviation driver := (@disc_driver P E).

(** What the hardware answers: which drives identify themselves, and the base
    addresses of the controllers, as long as [I] holds. *)
Variables (I : pio -> Prop) (identifies : Z -> Z -> Z -> bool) (bars : pci_address_t -> Z -> Z).
Hypothesis Hpresent : forall io ctl drive s, I s -> exists s', disc_present fuel io ctl drive s = Done (identifies io ctl drive, s') /\ I s'.
Hypothesis Hbar : forall a bar s, I s -> exists p, pci_read_bar a bar (ports s) = Done (bars a bar, p) /\
  I (Pio (current_device_drive s) (current_io_port s) (current_control_port s) p).
Hypothesis Hevent : forall e (w : E), exists w', ev_init e w = Done (tt, w').

Definition hw (s : driver) : pio := dev (drivers (devs (disc_devfs s))).
Definition channel_discs (io ctl : Z) : list ide_device_t := filter (fun d => identifies io ctl (drive_of d) = true) [IdeDevice io ctl true; IdeDevice io ctl false].
Definition channel_port (a : pci_address_t) (bar standard : Z) : Z :=
  let port := u16 (Z.land (bars a bar) (u32 (-4))) in if port =? 0 then standard else port.
(** A controller that is given up half way keeps what it has taken. *)
Definition spec_probe (taken : gset Z) (device : pci_device_t) : pci_probe_result_t * gset Z * list ide_device_t :=
  if (class device =? PCI_CLASS_MASS_STORAGE_CONTROLLER) && (subclass device =? PCI_SUBCLASS_IDE_CONTROLLER) then
    let a := address device in
    let io := channel_port a 0 ATA_PIO_PRIMARY in let ctl := channel_port a 1 ATA_PIO_PRIMARY_CONTROL in
    let io' := channel_port a 2 ATA_PIO_SECONDARY in let ctl' := channel_port a 3 ATA_PIO_SECONDARY_CONTROL in
    let (ok, taken) := claim taken io ctl in
    if ok then
      let (ok', taken) := claim taken io' ctl' in
      if ok' then (PCI_BIND, taken, channel_discs io ctl ++ channel_discs io' ctl') else (PCI_IGNORE, taken, channel_discs io ctl)
    else (PCI_IGNORE, taken, [])
  else (PCI_IGNORE, taken, []).

(** Every drive of the table is a block device with a file name, "disc0" on;
    nothing is mounted yet. *)
Record discs_ok (s : driver) : Prop := DiscsOk {
  do_hardware : I (hw s);
  do_mounts : devfs_mounts (disc_devfs s) = [];
  do_devices i d e : ide_devices s !! i = Some (d, e) -> exists a ev,
    (DevfsEntry e (disc_name (Z.of_nat i)) a ∈ entries_list (disc_devfs s)) /\
    Device.objects (devs (disc_devfs s)) !! a = Some (Device (DT_BLOCK (block_ops fuel) 512) (disc_name (Z.of_nat i)) d ev);
  do_fresh a : is_Some (Device.objects (devs (disc_devfs s)) !! a) -> a < next_address s
}.
(** [s'] has the drives [ds] more than [s], and the ports [taken]. *)
Record finds (s s' : driver) (taken : gset Z) (ds : list ide_device_t) : Prop := Finds {
  fi_ok : discs_ok s';
  fi_ports : ports_rep (arbiter s') taken;
  fi_discs : (ide_devices s').*1 = (ide_devices s).*1 ++ ds
}.

Lemma on_pio_done {A} (m : M pio A) (s : driver) x p : m (hw s) = Done (x, p) -> exists s', on_pio m s = Done (x, s') /\ hw s' = p /\
  ide_devices s' = ide_devices s /\ arbiter s' = arbiter s /\ devfs_mounts (disc_devfs s') = devfs_mounts (disc_devfs s) /\
  entries_list (disc_devfs s') = entries_list (disc_devfs s) /\ Device.objects (devs (disc_devfs s')) = Device.objects (devs (disc_devfs s)) /\ next_address s' = next_address s.
Proof. unfold hw, on_pio, on_disc_devfs, on_devs, on_drivers, on_dev, zoom. intros ->. eexists. split; [reflexivity|]. done. Qed.
Lemma pio_ok {A} (m : M pio A) (s : driver) x p : discs_ok s -> m (hw s) = Done (x, p) -> I p -> exists s', on_pio m s = Done (x, s') /\
  discs_ok s' /\ ide_devices s' = ide_devices s /\ arbiter s' = arbiter s.
Proof.
  intros [H1 H2 H3 H4] Hm Hp. destruct (on_pio_done m s x p Hm) as (s' & E1 & E2 & E3 & E4 & E5 & E6 & E7 & E8).
  exists s'. split; [done|]. split_and!; [|done..]. split; [by rewrite E2|by rewrite E5|by rewrite E3, E6, E7|by rewrite E7, E8].
Qed.

Lemma bar_port_done a bar standard (s : driver) : discs_ok s -> exists s', bar_port a bar standard s = Done (channel_port a bar standard, s') /\
  discs_ok s' /\ ide_devices s' = ide_devices s /\ arbiter s' = arbiter s.
Proof.
  intros Hs. destruct (Hbar a bar (hw s) (do_hardware s Hs)) as (p & E1 & Hp).
  assert (forall (y : driver), pci_read_bar a bar y = on_pio (on_ports (pci_read_bar a bar)) y) as Ez.
  { intros [l b [es ms v [ds os [[c1 c2 c3 q] ev]]] n]. unfold pci_read_bar, pci_read_long. set (o := u8 _). set (w := config_address a o).
    change (@outl (@disc_driver P E) _) with (fun port v => on_pio (E := E) (on_ports (outl port v))). change (@inl (@disc_driver P E) _) with (fun port => on_pio (E := E) (on_ports (inl port))).
    unfold bind, on_pio, on_disc_devfs, on_devs, on_drivers, on_dev, on_ports, zoom, ret. cbn.
    destruct (outl 0xCF8 w q) as [[[] q1]|]; [|done]. cbn. by destruct (inl 0xCFC q1) as [[v1 q2]|]. }
  destruct (pio_ok (on_ports (pci_read_bar a bar)) s (bars a bar) _ Hs ltac:(unfold on_ports, zoom; rewrite E1; reflexivity) Hp) as (s' & E2 & H).
  exists s'. split; [|done]. unfold bar_port. unfold bind. by rewrite Ez, E2.
Qed.

Lemma reserve_done p (s : driver) taken : ports_rep (arbiter s) taken -> exists b, on_arbiter (io_arbitrator_reserve p) s =
  Done (bool_decide (p ∉ taken), DiscDriver (ide_devices s) b (disc_devfs s) (next_address s)) /\
  ports_rep b (if bool_decide (p ∈ taken) then taken else {[ p ]} ∪ taken).
Proof.
  intros Hr. unfold on_arbiter, zoom. destruct (decide (p ∈ taken)) as [Hp|Hp].
  - exists (arbiter s). unfold io_arbitrator_reserve. rewrite (bind_done _ _ _ _ _ (test_spec _ _ p Hr)).
    rewrite (bool_decide_true (p ∈ taken)), (bool_decide_false (p ∉ taken)) by tauto. by destruct s.
  - destruct (io_reserve_spec _ _ _ Hr Hp) as (b & -> & Hb). exists b. by rewrite bool_decide_true, bool_decide_false.
Qed.

(** Registering a device while nothing is mounted. *)
Lemma devfs_registered {V W : Type} `{!EventService W} entry a (t : devfs (V := V) (W := W)) d : devfs_mounts t = [] -> Device.objects (devs t) !! a = Some d ->
  exists f, devfs_register entry a t = Done (entry, Devfs (DevfsEntry entry (d_name d) a :: entries_list t) [] f (devs t)).
Proof.
  intros Hm Hd. destruct t as [es ms v [ds os w]]. cbn in *. subst ms. unfold devfs_register, on_devs, zoom, bind, Device.get_device. cbn. rewrite Hd. cbn.
  eexists. reflexivity.
Qed.

Lemma add_found_done d (s : driver) taken : discs_ok s -> ports_rep (arbiter s) taken -> exists s', add_found fuel d s = Done (tt, s') /\ finds s s' taken [d].
Proof.
  intros Hs Ha. unfold add_found.
  destruct s as [l b t n]. cbn [ide_devices arbiter disc_devfs next_address] in *. rewrite bind_get. unfold new_address, bind. cbn [ide_devices arbiter disc_devfs next_address].
  set (name := disc_name (Z.of_nat (length l))).
  destruct (Hevent (n + 1) (evs (drivers (devs t)))) as [w Hw].
  set (t1 := Devfs (entries_list t) (devfs_mounts t) (vfs t) (Registry (n :: devices (devs t))
     (<[n := Device (DT_BLOCK (block_ops fuel) 512) name d (n + 1)]> (Device.objects (devs t))) (Waiting (dev (drivers (devs t))) w))).
  assert (device_create_block n (n + 1) name d (block_ops fuel) 512 (devs t) = Done (n, devs t1)) as Ec.
  { unfold device_create_block, device_create, bind, on_drivers, zoom. cbn. unfold on_events, zoom. by rewrite Hw. }
  unfold on_disc_devfs at 1, on_devs at 1, zoom at 1 2. cbn [disc_devfs]. rewrite Ec. cbn [ide_devices arbiter disc_devfs next_address].
  change (Devfs (entries_list t) (devfs_mounts t) (vfs t) (devs t1)) with t1. destruct Hs as [H1 H2 H3 H4]. cbn [ide_devices arbiter disc_devfs next_address] in *.
  destruct (devfs_registered (n + 1 + 1) n t1 (Device (DT_BLOCK (block_ops fuel) 512) name d (n + 1)) H2 ltac:(apply lookup_insert_eq)) as [f Ef].
  unfold on_disc_devfs, zoom. cbn [disc_devfs ide_devices arbiter next_address]. rewrite Ef. eexists. split; [reflexivity|]. split; cbn [ide_devices arbiter disc_devfs next_address].
  - split; cbn; [exact H1|done| |].
    + intros i d' e [Hi|[Hi Hl]]%lookup_app_Some.
      * destruct (H3 i d' e Hi) as (a & ev & He & Ho). exists a, ev. split; [by right|]. rewrite lookup_insert_ne; [done|].
        intros <-. specialize (H4 n ltac:(by eexists)). cbn in H4. lia.
      * apply list_lookup_singleton_Some in Hl as [Hl [= <- <-]]. assert (i = length l) as -> by lia. exists n, (n + 1). split; [by left|apply lookup_insert_eq].
    + intros a [<-|[_ Ha']]%lookup_insert_is_Some; [lia|]. specialize (H4 a Ha'). cbn in H4. lia.
  - done.
  - by rewrite fmap_app.
Qed.

Lemma add_done io ctl m (s : driver) taken : discs_ok s -> ports_rep (arbiter s) taken -> exists s', add_ide_device fuel io ctl m s = Done (tt, s') /\
  finds s s' taken (filter (fun d => identifies io ctl (drive_of d) = true) [IdeDevice io ctl m]).
Proof.
  intros Hs Ha. destruct (Hpresent io ctl (drive_of (IdeDevice io ctl m)) (hw s) (do_hardware s Hs)) as (p & E1 & Hp).
  destruct (pio_ok _ s _ p Hs E1 Hp) as (s1 & E2 & Hs1 & Hi & Hb). unfold add_ide_device. change (if m then DEVICE_DRIVE_MASTER else DEVICE_DRIVE_SLAVE) with (drive_of (IdeDevice io ctl m)).
  rewrite (bind_done _ _ _ _ _ E2). rewrite filter_cons, filter_nil. destruct (identifies io ctl (drive_of (IdeDevice io ctl m))) eqn:Ed.
  2:{ rewrite decide_False by done. exists s1. split; [done|]. split; [done|by rewrite Hb|by rewrite Hi, app_nil_r]. }
  rewrite decide_True by done. set (d := IdeDevice io ctl m) in *. 
  rewrite <- Hb in Ha. destruct (add_found_done d s1 taken Hs1 Ha) as (s' & E3 & [F1 F2 F3]). exists s'. split; [done|]. split; [done|done|by rewrite F3, Hi].
Qed.

Lemma finds_trans s1 s2 s3 t2 t3 l l' : finds s1 s2 t2 l -> finds s2 s3 t3 l' -> finds s1 s3 t3 (l ++ l').
Proof. intros [_ _ E1] [Ho Hp E2]. split; [done|done|]. by rewrite E2, E1, app_assoc. Qed.

Lemma probe_channel_done a bar standard standard_control (s : driver) taken : discs_ok s -> ports_rep (arbiter s) taken ->
  let io := channel_port a bar standard in let ctl := channel_port a (bar + 1) standard_control in
  exists s', probe_channel fuel a bar standard standard_control s = Done ((claim taken io ctl).1, s') /\
    finds s s' (claim taken io ctl).2 (if (claim taken io ctl).1 then channel_discs io ctl else []).
Proof.
  intros Hs Ha io ctl. destruct (bar_port_done a bar standard s Hs) as (s1 & E1 & Hs1 & Hi1 & Ha1). destruct (bar_port_done a (bar + 1) standard_control s1 Hs1) as (s2 & E2 & Hs2 & Hi2 & Ha2).
  fold io in E1. fold ctl in E2. unfold probe_channel. rewrite (bind_done _ _ _ _ _ E1), (bind_done _ _ _ _ _ E2). rewrite Ha1 in Ha2. rewrite Hi1 in Hi2. clear E1 E2 Hs1 Hi1 Ha1 s1.
  assert (forall (y : driver) b, discs_ok y -> discs_ok (DiscDriver (ide_devices y) b (disc_devfs y) (next_address y))) as Hok by (intros y b []; by split).
  rewrite <- Ha2 in Ha. destruct (reserve_done io s2 taken Ha) as (b & Er & Hb). rewrite (bind_done _ _ _ _ _ Er). clear Er. unfold claim. case_bool_decide as Hin.
  { rewrite bool_decide_false by tauto. eexists. split; [reflexivity|]. split; [by apply Hok|done|]. cbn. by rewrite Hi2, app_nil_r. }
  rewrite bool_decide_true by done. cbn [negb]. set (s3 := DiscDriver (ide_devices s2) b (disc_devfs s2) (next_address s2)).
  destruct (reserve_done ctl s3 _ Hb) as (b' & Er & Hb'). rewrite (bind_done _ _ _ _ _ Er). clear Er. case_bool_decide as Hin'.
  { rewrite bool_decide_false by tauto. eexists. split; [reflexivity|]. split; [by apply (Hok s3), Hok|done|]. cbn. by rewrite Hi2, app_nil_r. }
  rewrite bool_decide_true by done. cbn [negb]. set (s4 := DiscDriver (ide_devices s3) b' (disc_devfs s3) (next_address s3)).
  destruct (add_done io ctl true s4 _ (Hok s3 _ (Hok s2 _ Hs2)) Hb') as (s5 & E5 & F5). rewrite (bind_done _ _ _ _ _ E5).
  destruct (add_done io ctl false s5 _ (fi_ok _ _ _ _ F5) (fi_ports _ _ _ _ F5)) as (s6 & E6 & F6). rewrite (bind_done _ _ _ _ _ E6). exists s6. split; [done|].
  pose proof (finds_trans _ _ _ _ _ _ _ F5 F6) as [Ho Hp Hl]. split; [done|done|]. cbn in Hl. rewrite Hl, Hi2. f_equal. unfold channel_discs. change [IdeDevice io ctl true; IdeDevice io ctl false] with ([IdeDevice io ctl true] ++ [IdeDevice io ctl false]).
  by rewrite filter_app.
Qed.

End proofs.

(** ** A run *)

(** A bus with a master drive on the primary channel, and a controller without
    base addresses: the configuration address and the primary head register. *)
Record demo_bus := DemoBus { bus_config : Z; bus_head : Z }.
Definition bus_inb (port : Z) : M demo_bus Z := let! s := get in ret (if (port =? 0x1F7) && (bus_head s =? 0xA0) then 0x48 else 0).
Definition bus_outb (port v : Z) : M demo_bus unit :=
  if (port =? 0x1F6) && ((v =? 0xA0) || (v =? 0xB0)) then modify (fun s => DemoBus (bus_config s) v) else ret tt.
#[export] Instance bus_ports : PortIO demo_bus := { inb := bus_inb; outb := bus_outb; inw _ := ret 0; outw _ _ := ret tt }.
#[export] Instance bus_ports32 : PortIO32 demo_bus := { inl _ := ret 0; outl _ v := modify (fun s => DemoBus v (bus_head s)) }.

Definition bus_ok (s : pio (P := demo_bus)) : Prop :=
  u16 (current_io_port s) = 0x1F0 -> bus_head (ports s) = if current_device_drive s =? 0 then 0xA0 else 0xB0.
Definition bus_identifies (io ctl drive : Z) : bool := (u16 io =? 0x1F0) && (drive =? 0).

Lemma bus_read8 port off (s : pio (P := demo_bus)) :
  pio_read8 port off s = Done (if (u16 (port + off) =? 0x1F7) && (bus_head (ports s) =? 0xA0) then 0x48 else 0, s).
Proof. by destruct s. Qed.
Lemma bus_write8 port off v (s : pio (P := demo_bus)) : v <> 0xA0 -> v <> 0xB0 -> 0 <= v < 2 ^ 8 -> pio_write8 port off v s = Done (tt, s).
Proof.
  intros H1 H2 Hv. destruct s as [a b c p]. unfold pio_write8, on_ports, zoom. cbn [outb bus_ports ports]. unfold bus_outb, u8. rewrite Z.mod_small by lia.
  rewrite (proj2 (Z.eqb_neq v 0xA0) H1), (proj2 (Z.eqb_neq v 0xB0) H2), andb_false_r. done.
Qed.
Lemma bus_status io : (u16 (io + 7) =? 0x1F7) = (u16 io =? 0x1F0).
Proof. unfold u16. apply Bool.eq_iff_eq_true. rewrite !Z.eqb_eq. split; intros H; Z.div_mod_to_equations; lia. Qed.
Lemma bus_head_port io : (u16 (io + 6) =? 0x1F6) = (u16 io =? 0x1F0).
Proof. unfold u16. apply Bool.eq_iff_eq_true. rewrite !Z.eqb_eq. split; intros H; Z.div_mod_to_equations; lia. Qed.
Lemma for_range_reads n (m : M (pio (P := demo_bus)) Z) s : (exists v, m s = Done (v, s)) -> for_range n (fun _ => let! _ := m in ret tt) s = Done (tt, s).
Proof. intros [v Hv]. unfold for_range. induction (seq 0 n) as [|i l IH]; cbn [for_each]; [done|]. unfold bind at 1 2. rewrite Hv. exact IH. Qed.
Lemma bus_select io ctl drive s : bus_ok s -> exists s', disc_select io ctl drive s = Done (tt, s') /\ bus_ok s' /\
  (u16 io = 0x1F0 -> bus_head (ports s') = if drive =? 0 then 0xA0 else 0xB0).
Proof.
  intros Hs. destruct s as [a b c p]. unfold disc_select. rewrite bind_get. cbn [current_io_port current_control_port current_device_drive].
  destruct (negb (io =? b) || negb (ctl =? c) || negb (drive =? a)) eqn:Eq.
  2:{ assert (io = b /\ drive = a) as [-> ->] by lia. eexists. split; [reflexivity|]. by split. }
  set (v := if drive =? DEVICE_DRIVE_MASTER then 160 else 176).
  set (q := if u16 io =? 0x1F0 then DemoBus (bus_config p) v else p).
  assert (pio_write8 io ATA_PIO_IO_DRIVE_HEAD_OFFSET v (Pio a b c p) = Done (tt, Pio a b c q)) as Ew.
  { unfold pio_write8, on_ports, zoom. cbn [outb bus_ports ports]. unfold bus_outb, ATA_PIO_IO_DRIVE_HEAD_OFFSET. rewrite bus_head_port.
    assert (v = 160 \/ v = 176) as Hv by (unfold v; destruct (drive =? DEVICE_DRIVE_MASTER); tauto). assert (u8 v = v) as -> by (by destruct Hv as [-> | ->]).
    assert ((v =? 160) || (v =? 176) = true) as -> by lia. rewrite andb_true_r. subst q. by destruct (u16 io =? 496). }
  rewrite (bind_done _ _ _ _ _ Ew). unfold read_status_long. rewrite bind_assoc, (bind_done _ _ _ _ _ (for_range_reads 14 _ _ (ex_intro _ _ (bus_read8 _ _ _)))).
  rewrite (bind_done _ _ _ _ _ (bus_read8 _ _ _)). eexists. split; [reflexivity|]. cbn. unfold bus_ok. cbn. subst q v. split; intros ->; done.
Qed.
Lemma bus_present io ctl drive s : bus_ok s -> exists s', disc_present 1 io ctl drive s = Done (bus_identifies io ctl drive, s') /\ bus_ok s'.
Proof.
  intros Hs. destruct (bus_select io ctl drive s Hs) as (s' & E & Hs' & Hh). exists s'. split; [|done]. unfold disc_present. rewrite (bind_done _ _ _ _ _ E).
  do 4 (rewrite (bind_done _ _ _ _ _ (bus_write8 _ _ 0 s' ltac:(lia) ltac:(lia) ltac:(lia)))).
  rewrite (bind_done _ _ _ _ _ (bus_write8 _ _ 0xEC s' ltac:(lia) ltac:(lia) ltac:(lia))).
  assert (pio_read8 io ATA_PIO_IO_STATUS_OFFSET s' = Done (if bus_identifies io ctl drive then 72 else 0, s')) as Est.
  { rewrite bus_read8. unfold ATA_PIO_IO_STATUS_OFFSET, bus_identifies. rewrite bus_status. destruct (Z.eqb_spec (u16 io) 0x1F0) as [Ei|]; [|done].
    rewrite (Hh Ei). by destruct (drive =? 0). }
  rewrite (bind_done _ _ _ _ _ Est). destruct (bus_identifies io ctl drive) eqn:Eb; [|done]. apply andb_true_iff in Eb as [Ei%Z.eqb_eq _].
  assert (forall off, (off = 4 \/ off = 5) -> pio_read8 io off s' = Done (0, s')) as Elow.
  { intros off Hoff. rewrite bus_read8. assert ((u16 (io + off) =? 503) = false) as -> by (unfold u16 in *; Z.div_mod_to_equations; lia). done. }
  change (72 =? 0) with false. change (busy 72) with false. cbv iota. rewrite bind_ret_l, (bind_done _ _ _ _ _ (Elow ATA_PIO_IO_LBA_MID_OFFSET ltac:(by left))).
  change (0 =? 0) with true. cbn [negb]. cbv iota. rewrite (bind_done _ _ _ _ _ (Elow ATA_PIO_IO_LBA_HIGH_OFFSET ltac:(by right))).
  change (0 =? 0) with true. change (data_ready 72) with true. cbn [negb andb]. cbv iota. rewrite bind_ret_l. change (error 72) with false. cbv iota.
  by rewrite (bind_done _ _ _ _ _ (for_range_reads 256 (pio_read16 io ATA_PIO_IO_DATA_OFFSET) s' ltac:(exists 0; by destruct s'))).
Qed.

Lemma bus_bar a bar s : bus_ok s -> exists p, pci_read_bar a bar (ports s) = Done (0, p) /\ bus_ok (Pio (current_device_drive s) (current_io_port s) (current_control_port s) p).
Proof.
  intros Hs. exists (DemoBus (config_address a (u8 (0x10 + 4 * bar))) (bus_head (ports s))). split; [|exact Hs].
  unfold pci_read_bar, pci_read_long. set (o := u8 _). unfold bind. cbn. by rewrite Z.shiftr_0_l.
Qed.

Definition demo_disc_driver : @disc_driver demo_bus sched :=
  DiscDriver [] (replicate (Z.to_nat IO_ARBITRATOR_BUCKET_COUNT) [])
    (Devfs [] [] (Fs ∅ ∅ ∅ ∅ ∅ [] 10) (Registry [] ∅ (Waiting (Pio (2 ^ 32 - 1) (2 ^ 16 - 1) (2 ^ 16 - 1) (DemoBus 0 0xB0)) (Sched ∅ ∅ ∅ None 60)))) 100.
Definition demo_controller : pci_device_t := PciDevice None (PciAddress 0 1 1) 0 0 1 1 0 0 0 0 0 0.

