(* ===== verification/SysCounters.v ===== *)
(** * SysCounters: the numbers the kernel shows in sysfs

    The functions behind the entries sched/processes and sched/threads
    (src/scheduler/scheduler.c) and heap/usage and heap/capacity
    (src/util/heap/init.c): the decimal text of a count (CString.v), taken from
    the process list (Process.v) and from the heap (Heap.v).  How a file leads to
    them is in Sysfs.v; a result is what the function returns with the bytes it
    stored. *)
From S2P Require Import Prelude CString Heap Dll Sched Signal Pipe Fs File PageTables PageMap PmanIface Pman ProcMem Process.

(** [writestr] into the buffer of the caller. *)
Definition show (size offset value : Z) : Z * list Z := let l := writestr size offset value in (Z.of_nat (length l), l).

(** ** src/scheduler/scheduler.c *)

Section scheduler.
Context {V F T : Type}.
Abbreviation kernel := (@kernel V F T).
Definition SYSFS_PROCESS_COUNT : Z := 0.
Definition SYSFS_THREADS_COUNT : Z := 1.

Fixpoint count_threads (ps : list Z) : M kernel Z :=
  match ps with
  | [] => ret 0
  | p :: ps' => let! x := get_process p in let! n := count_threads ps' in ret (Z.of_nat (length (p_threads x)) + n)
  end.
Definition scheduler_sysfs_read (id size offset : Z) : M kernel (Z * list Z) :=
  if negb (offset =? 0) then ret (0, [])
  else if id =? SYSFS_PROCESS_COUNT then let! k := get in ret (show size offset (Z.of_nat (length (process_list k))))
  else if id =? SYSFS_THREADS_COUNT then let! k := get in let! n := count_threads (process_list k) in ret (show size offset (u64 n))
  else ret (0, []).
Definition scheduler_sysfs_write (id : Z) (data : list Z) (size offset : Z) : M kernel Z := ret 0.
End scheduler.

(** ** src/util/heap/init.c *)

Definition SYSFS_CAPACITY : Z := 0.
Definition SYSFS_USAGE : Z := 1.
Definition heap_sysfs_read (id size offset : Z) : M heap (Z * list Z) :=
  if negb (offset =? 0) then ret (0, [])
  else if id =? SYSFS_CAPACITY then ret (show size offset heap_total)
  else if id =? SYSFS_USAGE then let! n := heap_usage in ret (show size offset n)
  else ret (0, []).
Definition heap_sysfs_write (id : Z) (data : list Z) (size offset : Z) : M heap Z := ret 0.

(** ** What a reader gets *)

Lemma show_decimal value size : 0 <= value < 2 ^ 64 -> 20 <= size < 2 ^ 64 ->
  parse (show size 0 value).2 = value /\ (show size 0 value).1 = Z.of_nat (length (show size 0 value).2) /\ 1 <= (show size 0 value).1 <= 20.
Proof.
  intros Hv Hs. destruct (writestr_decimal value Hv) as (text & Hp & Hl & _ & _ & Hw). unfold show. cbn [fst snd].
  rewrite (Hw size 0 ltac:(lia) ltac:(lia) ltac:(lia)). rewrite drop_0, take_ge by lia. split; [done|]. split; [done|lia].
Qed.
(** With room for twenty digits one read gives the number. *)
Lemma heap_usage_shown h bs size : heap_rep h bs -> 0 <= used bs < 2 ^ 64 -> 20 <= size < 2 ^ 64 ->
  exists n text, heap_sysfs_read SYSFS_USAGE size 0 h = Done ((n, text), h) /\ parse text = used bs /\ n = Z.of_nat (length text).
Proof.
  intros Hr Hu Hs. destruct (show_decimal (used bs) size Hu Hs) as (H1 & H2 & _). exists (show size 0 (used bs)).1, (show size 0 (used bs)).2. split; [|done].
  unfold heap_sysfs_read. change (0 =? 0) with true. change (SYSFS_USAGE =? SYSFS_CAPACITY) with false. change (SYSFS_USAGE =? SYSFS_USAGE) with true. cbn [negb].
  cbv iota. rewrite (bind_done _ _ _ _ _ (heap_usage_spec h bs Hr)). unfold ret. by destruct (show size 0 (used bs)).
Qed.
Section counting.
Context {V F T : Type}.
Lemma process_count_shown (k : @kernel V F T) size : Z.of_nat (length (process_list k)) < 2 ^ 64 -> 20 <= size < 2 ^ 64 ->
  exists n text, scheduler_sysfs_read SYSFS_PROCESS_COUNT size 0 k = Done ((n, text), k) /\ parse text = Z.of_nat (length (process_list k)).
Proof.
  intros Hu Hs. destruct (show_decimal (Z.of_nat (length (process_list k))) size ltac:(lia) Hs) as (H1 & _ & _).
  do 2 eexists. split; [reflexivity|exact H1].
Qed.
(** A reader that takes the text in smaller pieces gets the first piece and then
    the end of the file. *)
Lemma counters_not_resumed id size offset (k : @kernel V F T) : offset <> 0 -> scheduler_sysfs_read id size offset k = Done ((0, []), k).
Proof. intros Ho. unfold scheduler_sysfs_read. by rewrite (proj2 (Z.eqb_neq offset 0) Ho). Qed.
End counting.
